(* ===== verification/_CoqProject ===== *)
-Q . S2P
Prelude.v
Ha.v
HaProofs.v
Canonical.v
CanonicalProofs.v
Contracts.v
Lineage.v
LineageProofs.v
Reconciliation.v
ReconciliationProofs.v
ReconciliationRuns.v
Policy.v
Ledger.v
Stores.v
Effects.v
Broker.v
BrokerProofs.v
BrokerProperties.v
Host.v
Tenancy.v
Attestations.v
AttestationProofs.v
GovernanceContracts.v
Governance.v
GovernanceProofs.v
GovernanceProperties.v
TenantStore.v
TenantProofs.v
TenantProperties.v
RecoveryContracts.v
Durations.v
Threads.v
Recovery.v
RecoveryProofs.v
RecoveryProperties.v
Floats.v
HaProgress.v
SecurityContracts.v
Security.v
ReplayProofs.v
LimiterProofs.v
GuardProofs.v
Json.v
JsonProofs.v
Bundles.v
BundleProofs.v
BundleRoundTrip.v
BundleProperties.v
