(* ===== verification/Prelude.v ===== *)
(** * A verification of the ProdKit control plane

    The program under [packages/python] is a control plane for actions that agents
    and services take on the outside world: an action is authorised by a policy,
    approved when the policy asks for it, executed at most once, observed, verified,
    and recorded in a hash-chained ledger; lineage, reconciliation, a durable queue
    and a governance store surround that core.  This library translates the core,
    its contract models and its in-memory stores into functions, and proves what
    they promise.  In the file names below, CORE is
    [prodkit-control-core/src/prodkit_control_core] and RT is
    [prodkit-control-runtime/src/prodkit_control_runtime].

    ** How the code is modelled

    A Python call returns or raises: [outcome].  A method that mutates its object is
    a computation of the monad [M S]; when it raises, the state keeps what was
    mutated before.  Locked bodies that await nothing are atomic.  Clock readings and
    fresh identifiers are arguments, or come from the streams of [Host]; no theorem
    relies on a clock that advances unless it says so.  A pydantic model is a
    [Module] with the record of its fields, its validator, [create] (the field
    constraints and the validator) and [dump], in which [schema_name] and
    [schema_version] have their defaults; [model_copy], which validates nothing,
    is written out as a record.  A UUID is its 128-bit integer, an aware datetime its
    microseconds since the epoch in UTC, a float a rational, an infinity or NaN, a
    character one of the first 256 code points; integers are Python's, unbounded.
    A dict is a [gmap] where its order cannot be seen and an association list where
    it can.  What is not under [src] is an argument: executors, verifiers, the
    collect of a source, Ed25519, the deletion adapter, the ZIP container.

    ** The files

    - [Prelude] (this file): exceptions ([CORE/exceptions.py]), outcomes, the monad,
      strings, floats, sorting, insertion-ordered dicts, and the lemmas and tactics
      the other files share.
    - [Canonical], [CanonicalProofs]: [CORE/canonical.py].  [normalize], the encoder
      and SHA-256, executed.  The canonical bytes identify a value up to the order of
      its keys; the portable encoder agrees with it.
    - [Contracts]: the models of [CORE/contracts] for actors, artifacts, actions,
      policy, approvals, execution, events, runs and verification.
    - [Policy]: [RT/policy_semantics.py], [RT/policy.py].  Combining decisions never
      weakens any of them; conflicting constraints deny.
    - [Ledger]: [RT/memory.py] (the event ledger) and [RT/projectors.py].  Append-only
      and tamper-evident up to a SHA-256 collision.
    - [Stores]: [RT/memory.py], [RT/attempts.py], [RT/runs.py], [RT/coordinator.py],
      and the registry of [RT/executors.py].  One claim per key, terminal runs stay
      terminal, artifacts read back.
    - [Effects], [Broker], [BrokerProofs], [BrokerProperties]: [RT/broker.py].
      [execute] is a program over the calls it makes to its ports, interpreted
      against the stores.  An effect happens at most once and only when authorised
      and approved: a required approval is the first granted one of the store that
      covers the action when its instant is read; a finished execution has completed
      its tenant's key with its result and drafted the matching event; a failing
      executor leaves the attempt uncertain; leases are returned.
    - [Ha], [HaProofs], [HaProgress]: [CORE/contracts/ha.py], [RT/ha.py].  Fenced
      leases exclude.  The queue's steps ([WorkQueue.step]) read any clock and may
      reuse a job id: each is at most one step per job of an abstract machine, and
      overtaken workers are fenced off whatever the clocks read.  Where records stay
      valid and due work is always settled, the steps are [forward_step]s, of a clock
      that is not set back.  Draining and capacity.
    - [Lineage], [LineageProofs]: [CORE/contracts/lineage.py], [RT/lineage.py].  The
      graph check is exact, its depth-first search finds the cycles, the store keeps
      what was recorded, enforced lineage is complete.
    - [Reconciliation], [ReconciliationProofs], [ReconciliationRuns]:
      [CORE/contracts/reconciliation.py], [CORE/reconciliation/engine.py],
      [RT/reconciliation.py].  Matches are earned, the engine refines a declarative
      judgement, failures fail closed, the cursor follows the result.  A connector's
      collect leaves the store alone.
    - [Host]: the streams of clock readings and fresh identifiers.
    - [Tenancy]: the models of [CORE/contracts/tenancy.py].
    - [Attestations], [AttestationProofs]: [CORE/contracts/attestations.py] and the
      checkpoint signer and verifier of [RT/attestations.py].  What the signer makes
      verifies exactly when no window of the key, spelled out, refuses it.
    - [GovernanceContracts], [Governance], [GovernanceProofs], [GovernanceProperties]:
      [CORE/contracts/governance.py], [RT/governance.py].  Every operation refines an
      abstract machine per tenant; retention deletes only what is due, governed
      changes carry their approval, rotation keeps the verdicts on the past, tenants
      are confined.
    - [TenantStore], [TenantProofs], [TenantProperties]: [RT/tenancy.py].  Every call
      makes at most one change of an abstract machine, and one of the lifecycle is
      licensed by that call's own context at its own instant; support access rests on
      a live grant with an audited issuance, revocation is final, a tenant under legal
      hold is deleted only after a release, a scheduling and the wait.
    - [RecoveryContracts], [Durations], [Threads], [Recovery], [RecoveryProofs],
      [RecoveryProperties]: [CORE/contracts/recovery.py], [RT/recovery.py].  The
      operations are tasks whose locked sections interleave freely.  The
      tasks are those of the calls made ([admissible calls]).  A scan verifies exactly
      the restores that match their backup; a promoted restore was scanned as verified
      by one of those calls and met the objectives of its plan; a break-glass grant
      was independently approved, and a revoked one is dead even for the calls under
      way.
    - [Floats], [SecurityContracts], [Security], [ReplayProofs], [LimiterProofs],
      [GuardProofs]: [CORE/contracts/security.py], [RT/security.py].  The replay store
      refines a map of live claims, an assertion is accepted once, the rate limiter
      decides as the log of what it allowed when its readings come in order, and what it
      allows is bounded by that log in any order; redaction and service levels.
    - [Json], [JsonProofs]: [json.loads] of the standard library, on bytes.  It reads
      back what the canonical encoder writes, and what it reads the encoder can write.
    - [Bundles], [BundleProofs], [BundleRoundTrip], [BundleProperties]:
      [RT/bundles.py].  The verifier accepts what the builder writes; two archives it
      accepts with the same final hash carry the same events, or SHA-256 collides.

    ** Fuel and bounds

    No operation runs out of fuel: recursion is structural, or its fuel is the length
    of the data it consumes ([Canonical.blocks]); the JSON scanner has twice the
    length of its text and two, which is enough ([scan_enough]); the shortest decimal
    of a float has at most 17 digits ([Durations.float_str]); the limiter's eviction
    pops an expiration or an event in every round ([Security.Limiter.rounds],
    [evict_loop_spec]).  The depth-first search of [Lineage] takes the interpreter's recursion limit as an argument and raises
    [RecursionError] there as the code does; [acyclic_check_exact] gives the depth
    that suffices.  [timedelta] overflow is modelled where seconds become durations;
    a datetime that leaves the range of years only in [Governance.Store.plus_seconds].

    ** Not modelled

    The PostgreSQL stores (SQL, whose meaning is the database's), the HTTP service,
    the command line, executors, model providers, reconcilers and integrations
    (clients of external systems, arguments here), the encrypted artifact store,
    portable packages and transfers (files on disk), the attestation over an evidence
    archive, in-toto and SLSA statements and the provenance verifier that reads them,
    the NDJSON exporter, the URL check of a secret reference.  In JSON texts, code
    points above U+00FF and the interpreter's recursion limit.  Binary64 arithmetic
    leaves out overflow and subnormal numbers.  Cancellation of a task in the middle
    of an operation is not modelled. *)

From stdpp Require Export base gmap strings list pretty sorting.
From Stdlib Require Export ZArith.
From Stdlib Require Import QArith_base Lia.

Declare Scope py_scope.
Delimit Scope py_scope with py.
Open Scope Z_scope.

(** ** Identities, time and text *)

(** A [uuid.UUID] is its 128-bit integer; an aware [datetime] is its number of
    microseconds since the epoch in UTC, a [timedelta] a number of microseconds. *)
Abbreviation UUID := Z (only parsing).
Abbreviation datetime := Z (only parsing).
Abbreviation timedelta := Z (only parsing).

Definition seconds (n : Z) : timedelta := n * 1000000.
Definition minutes (n : Z) : timedelta := seconds (n * 60).

(** *** Exceptions: the builtin classes the code raises and the classes of
    [exceptions.py].  [OtherError] is an exception of code outside the repository. *)
Inductive exn : Set :=
| ValueError (msg : string)
| KeyError (key : string)
| TypeError (msg : string)
| RuntimeError (msg : string)
| OverflowError (msg : string)
| AssertionError
| PermissionError (msg : string)
| ValidationError (msg : string)
| IntegrityViolationError (msg : string)
| AuthorizationDeniedError (msg : string)
| ApprovalRequiredError (action_id action_digest : string)
| ApprovalDeniedError (msg : string)
| DuplicateActionError (msg : string)
| ExecutorNotFoundError (msg : string)
| IncompleteLineageError (missing_requirements : list string)
| LeaseLostError (msg : string)
| QueueOverloadedError (msg : string)
| CapacityExceededError (msg : string)
| RuntimeDrainingError (msg : string)
| OtherError (type_name msg : string).

#[export] Instance exn_eq_dec : EqDecision exn.
Proof. solve_decision. Defined.

(** [type(exc).__name__] *)
Definition exn_type_name (e : exn) : string :=
  match e with
  | ValueError _ => "ValueError"
  | KeyError _ => "KeyError"
  | TypeError _ => "TypeError"
  | RuntimeError _ => "RuntimeError"
  | OverflowError _ => "OverflowError"
  | AssertionError => "AssertionError"
  | PermissionError _ => "PermissionError"
  | ValidationError _ => "ValidationError"
  | IntegrityViolationError _ => "IntegrityViolationError"
  | AuthorizationDeniedError _ => "AuthorizationDeniedError"
  | ApprovalRequiredError _ _ => "ApprovalRequiredError"
  | ApprovalDeniedError _ => "ApprovalDeniedError"
  | DuplicateActionError _ => "DuplicateActionError"
  | ExecutorNotFoundError _ => "ExecutorNotFoundError"
  | IncompleteLineageError _ => "IncompleteLineageError"
  | LeaseLostError _ => "LeaseLostError"
  | QueueOverloadedError _ => "QueueOverloadedError"
  | CapacityExceededError _ => "CapacityExceededError"
  | RuntimeDrainingError _ => "RuntimeDrainingError"
  | OtherError n _ => n
  end.

(** [", ".join(parts)] and friends *)
Fixpoint py_join (sep : string) (parts : list string) : string :=
  match parts with
  | [] => ""
  | [p] => p
  | p :: rest => p +:+ sep +:+ py_join sep rest
  end.

(** [str(exc)] *)
Definition exn_str (e : exn) : string :=
  match e with
  | ValueError m | KeyError m | TypeError m | RuntimeError m | OverflowError m
  | PermissionError m | ValidationError m | IntegrityViolationError m
  | AuthorizationDeniedError m | ApprovalDeniedError m | DuplicateActionError m
  | ExecutorNotFoundError m | LeaseLostError m | QueueOverloadedError m
  | CapacityExceededError m | RuntimeDrainingError m | OtherError _ m => m
  | AssertionError => ""
  | ApprovalRequiredError a d =>
      "Approval required for action " +:+ a +:+ " (" +:+ d +:+ ")"
  | IncompleteLineageError ms =>
      "Production lineage is incomplete: " +:+ py_join ", " ms
  end.

(** ** Outcomes and the state monad

    A Python call returns a value or raises; the objects it mutated before the
    raise stay mutated, so a raising computation still returns a state. *)
Inductive outcome (A : Type) : Type :=
| Ok (a : A)
| Raise (e : exn).
Arguments Ok {A} a.
Arguments Raise {A} e.

#[export] Instance outcome_eq_dec {A} `{EqDecision A} : EqDecision (outcome A).
Proof. solve_decision. Defined.

Definition is_ok {A} (o : outcome A) : bool :=
  match o with Ok _ => true | Raise _ => false end.

Definition obind {A B} (m : outcome A) (k : A -> outcome B) : outcome B :=
  match m with Ok a => k a | Raise e => Raise e end.

Definition M (S A : Type) : Type := S -> outcome A * S.

Definition ret {S A} (a : A) : M S A := fun s => (Ok a, s).
Definition raise {S A} (e : exn) : M S A := fun s => (Raise e, s).
Definition bind {S A B} (m : M S A) (k : A -> M S B) : M S B := fun s =>
  match m s with
  | (Ok a, s') => k a s'
  | (Raise e, s') => (Raise e, s')
  end.
Definition get {S} : M S S := fun s => (Ok s, s).
Definition put {S} (s' : S) : M S unit := fun _ => (Ok tt, s').
Definition modify {S} (f : S -> S) : M S unit := fun s => (Ok tt, f s).
Definition lift {S A} (o : outcome A) : M S A := fun s => (o, s).

(** [if not cond: raise e], as an outcome and as a computation *)
Definition require (cond : bool) (e : exn) : outcome unit :=
  if cond then Ok tt else Raise e.
Definition guard {S} (cond : bool) (e : exn) : M S unit := lift (require cond e).

(** [try: m except Exception as exc: h(exc)] *)
Definition try_except {S A} (m : M S A) (h : exn -> M S A) : M S A := fun s =>
  match m s with
  | (Ok a, s') => (Ok a, s')
  | (Raise e, s') => h e s'
  end.

(** Run a computation on a component of a larger state. *)
Definition zoom {S T A} (view : T -> S) (upd : S -> T -> T) (m : M S A) : M T A :=
  fun t => let '(o, s') := m (view t) in (o, upd s' t).

Notation "x <- m ;; k" := (bind m (fun x => k))
  (at level 100, m at next level, right associativity) : py_scope.
Notation "m ;; k" := (bind m (fun _ => k))
  (at level 100, k at level 200, right associativity) : py_scope.
Notation "x <~ m ;; k" := (obind m (fun x => k))
  (at level 100, m at next level, right associativity) : py_scope.
Notation "m ;~ k" := (obind m (fun _ => k))
  (at level 100, k at level 200, right associativity) : py_scope.
Open Scope py_scope.

(** [for x in xs: body(x)] with an accumulator threaded through the loop *)
Fixpoint fold_m {S A B} (f : B -> A -> M S B) (xs : list A) (acc : B) : M S B :=
  match xs with
  | [] => ret acc
  | x :: rest => acc' <- f acc x ;; fold_m f rest acc'
  end.

Definition for_m {S A} (f : A -> M S unit) (xs : list A) : M S unit :=
  fold_m (fun _ x => f x) xs tt.

Fixpoint map_o {A B} (f : A -> outcome B) (xs : list A) : outcome (list B) :=
  match xs with
  | [] => Ok []
  | x :: rest => y <~ f x ;; ys <~ map_o f rest ;; Ok (y :: ys)
  end.

Fixpoint fold_o {A B} (f : B -> A -> outcome B) (xs : list A) (acc : B) : outcome B :=
  match xs with
  | [] => Ok acc
  | x :: rest => acc' <~ f acc x ;; fold_o f rest acc'
  end.

(** ** Strings

    A [str] is a sequence of code points below 256.  [str.strip] removes what
    [str.isspace] accepts; the [strip_whitespace] constraint of the contract
    models removes the Unicode [White_Space] characters. *)
Definition py_isspace (c : Ascii.ascii) : bool :=
  let n := Ascii.nat_of_ascii c in
  ((9 <=? n) && (n <=? 13) || (28 <=? n) && (n <=? 32) || (n =? 133) || (n =? 160))%nat.

Definition white_space (c : Ascii.ascii) : bool :=
  let n := Ascii.nat_of_ascii c in
  ((9 <=? n) && (n <=? 13) || (n =? 32) || (n =? 133) || (n =? 160))%nat.

Fixpoint lstrip_by (p : Ascii.ascii -> bool) (l : list Ascii.ascii) : list Ascii.ascii :=
  match l with
  | [] => []
  | c :: rest => if p c then lstrip_by p rest else l
  end.

Definition strip_by (p : Ascii.ascii -> bool) (s : string) : string :=
  String.string_of_list_ascii (rev (lstrip_by p (rev (lstrip_by p (String.list_ascii_of_string s))))).

Definition py_strip (s : string) : string := strip_by py_isspace s.

(** [not s.strip()] *)
Definition blank (s : string) : bool := bool_decide (py_strip s = "").

(** [NonBlankStr]: strip, then at least one character.  [field] names the field
    in the validation error. *)
Definition NonBlankStr (field s : string) : outcome string :=
  let t := strip_by white_space s in
  if bool_decide (t = "") then Raise (ValidationError field) else Ok t.

Definition optional {A B} (f : A -> outcome B) (o : option A) : outcome (option B) :=
  match o with None => Ok None | Some a => b <~ f a ;; Ok (Some b) end.

(** [value or fallback], on an optional string *)
Definition str_or (o : option string) (fallback : string) : string :=
  match o with
  | Some s => if bool_decide (s = "") then fallback else s
  | None => fallback
  end.

(** Truth of an optional string. *)
Definition truthy (o : option string) : bool :=
  match o with Some s => negb (bool_decide (s = "")) | None => false end.

Definition py_bool (b : bool) : string := if b then "True" else "False".

(** [str(uuid)]: 32 lower-case hexadecimal digits in groups of 8-4-4-4-12. *)
Definition hex_digit (d : Z) : string :=
  String (Ascii.ascii_of_N (Z.to_N (if d <? 10 then 48 + d else 87 + d))) "".

Fixpoint hex_digits (n : nat) (z : Z) : string :=
  match n with
  | O => ""
  | S n' => hex_digits n' (Z.shiftr z 4) +:+ hex_digit (Z.land z 15)
  end.

Definition uuid_str (u : UUID) : string :=
  hex_digits 8 (Z.shiftr u 96) +:+ "-" +:+ hex_digits 4 (Z.shiftr u 80) +:+ "-" +:+
  hex_digits 4 (Z.shiftr u 64) +:+ "-" +:+ hex_digits 4 (Z.shiftr u 48) +:+ "-" +:+
  hex_digits 12 u.

Example uuid_str_ex :
  uuid_str 0x12345678123456781234567812345678 = "12345678-1234-5678-1234-567812345678".
Proof. vm_compute. reflexivity. Qed.

(** ** Binary floating point, as far as durations need it *)
Inductive pyfloat : Set :=
| Finite (q : Q)
| PosInf
| NegInf
| NaN.

Definition float_of_int (n : Z) : pyfloat := Finite (n # 1).

(** [a < b] and [a <= b]; every comparison with NaN is false. *)
Definition float_ltb (a b : pyfloat) : bool :=
  match a, b with
  | Finite p, Finite q => Qnum p * Zpos (Qden q) <? Qnum q * Zpos (Qden p)
  | Finite _, PosInf | NegInf, Finite _ | NegInf, PosInf => true
  | _, _ => false
  end.
Definition float_leb (a b : pyfloat) : bool :=
  match a, b with
  | Finite p, Finite q => Qnum p * Zpos (Qden q) <=? Qnum q * Zpos (Qden p)
  | Finite _, PosInf | NegInf, Finite _ | NegInf, PosInf
  | PosInf, PosInf | NegInf, NegInf => true
  | _, _ => false
  end.

(** Nearest integer, ties to even. *)
Definition round_half_even (num : Z) (den : positive) : Z :=
  let q := num / Zpos den in
  match 2 * (num mod Zpos den) ?= Zpos den with
  | Lt => q
  | Gt => q + 1
  | Eq => if Z.even q then q else q + 1
  end.

(** [timedelta(seconds=f)]: the number of seconds rounded to a microsecond. *)
Definition timedelta_seconds (f : pyfloat) : outcome timedelta :=
  match f with
  | Finite q =>
      let us := round_half_even (Qnum q * 1000000) (Qden q) in
      if Z.abs us <? 86400 * 1000000 * 1000000000 then Ok us
      else Raise (OverflowError "days out of range")
  | PosInf | NegInf => Raise (OverflowError "cannot convert float infinity to integer")
  | NaN => Raise (ValueError "cannot convert float NaN to integer")
  end.

(** ** Sequences *)

(** [sorted(xs, key=...)]: a stable sort by the order [leb]. *)
Section Sort.
Context {A : Type} (leb : A -> A -> bool).

Fixpoint sort_insert (x : A) (l : list A) : list A :=
  match l with
  | [] => [x]
  | y :: rest => if leb x y then x :: l else y :: sort_insert x rest
  end.

Definition sort_by (l : list A) : list A := foldr sort_insert [] l.

Definition sorted_by : list A -> Prop := StronglySorted (fun x y => leb x y = true).
End Sort.

(** [sorted({...})] of strings *)
Definition sorted_set (l : list string) : list string := sort_by String.leb (remove_dups l).

(** [max(xs, key=...)]: the first element no later one exceeds. *)
Definition max_by {A} (ltb : A -> A -> bool) (l : list A) : option A :=
  match l with
  | [] => None
  | x :: rest => Some (foldl (fun best y => if ltb best y then y else best) x rest)
  end.

(** [len(xs) == len(set(xs))] *)
Definition py_unique {A} `{EqDecision A} (l : list A) : bool := bool_decide (NoDup l).

Definition mem {A} `{EqDecision A} (x : A) (l : list A) : bool := bool_decide (x ∈ l).

Definition count_if {A} (p : A -> bool) (l : list A) : Z :=
  Z.of_nat (length (List.filter p l)).

(** Lexicographic comparison of key tuples. *)
Definition lex_leb {A} (ltb eqb : A -> A -> bool) (rest : bool) (x y : A) : bool :=
  ltb x y || eqb x y && rest.

(** ** Dictionaries with their insertion order *)
Section Dict.
Context {K V : Type} `{EqDecision K}.

Fixpoint dict_get (k : K) (d : list (K * V)) : option V :=
  match d with
  | [] => None
  | (k', v) :: rest => if decide (k = k') then Some v else dict_get k rest
  end.

(** [d[k] = v]: an existing key keeps its place. *)
Fixpoint dict_set (k : K) (v : V) (d : list (K * V)) : list (K * V) :=
  match d with
  | [] => [(k, v)]
  | (k', v') :: rest =>
      if decide (k = k') then (k', v) :: rest else (k', v') :: dict_set k v rest
  end.

Definition dict_keys (d : list (K * V)) : list K := map fst d.
Definition dict_values (d : list (K * V)) : list V := map snd d.
Definition dict_has (k : K) (d : list (K * V)) : bool :=
  match dict_get k d with Some _ => true | None => false end.
End Dict.

(** * Lemmas *)

Create HintDb py discriminated.
#[export] Hint Constants Opaque : py.

(** ** The monad laws and inversion *)
Lemma bind_ret_l {S A B} (a : A) (k : A -> M S B) : bind (ret a) k = k a.
Proof. reflexivity. Qed.

Lemma bind_Ok {S A B} (m : M S A) (k : A -> M S B) s b s' :
  bind m k s = (Ok b, s') <-> exists a s1, m s = (Ok a, s1) /\ k a s1 = (Ok b, s').
Proof.
  unfold bind. destruct (m s) as [[a|e] s1]; split.
  - eauto.
  - intros (a' & s1' & [= -> ->] & H). exact H.
  - discriminate.
  - intros (a' & s1' & [=] & _).
Qed.

Lemma obind_Ok {A B} (m : outcome A) (k : A -> outcome B) b :
  obind m k = Ok b <-> exists a, m = Ok a /\ k a = Ok b.
Proof.
  destruct m as [a|e]; simpl; split.
  - eauto.
  - intros (a' & [= ->] & H). exact H.
  - discriminate.
  - intros (a' & [=] & _).
Qed.

Lemma require_Ok b e : require b e = Ok tt <-> b = true.
Proof. destruct b; simpl; split; congruence. Qed.

Lemma guard_Ok {S} b e (s s' : S) u :
  guard b e s = (Ok u, s') <-> b = true /\ s' = s.
Proof.
  unfold guard, lift. destruct b, u; simpl; split; intuition congruence.
Qed.

Lemma lift_Ok {S A} (o : outcome A) (s s' : S) a :
  lift o s = (Ok a, s') <-> o = Ok a /\ s' = s.
Proof. unfold lift. split; intuition congruence. Qed.

(** Inversion of a successful run: splits binds, guards and reads, and
    substitutes the equations it finds. *)
Ltac run_inv1 H :=
  lazymatch type of H with
  | bind _ _ _ = (Ok _, _) =>
      apply bind_Ok in H;
      let a := fresh "a" in let s := fresh "s" in
      let H1 := fresh "H" in let H2 := fresh "H" in
      destruct H as (a & s & H1 & H2); run_inv1 H1; run_inv1 H2
  | obind _ _ = Ok _ =>
      apply obind_Ok in H;
      let a := fresh "a" in let H1 := fresh "H" in let H2 := fresh "H" in
      destruct H as (a & H1 & H2); run_inv1 H1; run_inv1 H2
  | guard _ _ _ = (Ok _, _) =>
      apply guard_Ok in H; let E := fresh "E" in destruct H as [H E]; subst
  | lift _ _ = (Ok _, _) =>
      apply lift_Ok in H; let E := fresh "E" in destruct H as [H E]; subst; run_inv1 H
  | require _ _ = Ok ?u => destruct u; apply require_Ok in H
  | get _ = (Ok _, _) => first [injection H as <- <- | injection H as <-]
  | put _ _ = (Ok _, _) => first [injection H as <- <- | injection H as <-]
  | modify _ _ = (Ok _, _) => first [injection H as <- <- | injection H as <-]
  | ret _ _ = (Ok _, _) => first [injection H as <- <- | injection H as <-]
  | Ok _ = Ok _ => injection H as H; subst
  | raise _ _ = (Ok _, _) => discriminate H
  | Raise _ = Ok _ => discriminate H
  | _ => idtac
  end.

Ltac run_inv H := run_inv1 H.

(** Case analysis on the first conditional or match of a hypothesis. *)
Ltac case_in H :=
  match type of H with
  | context [match ?x with _ => _ end] => destruct x eqn:?
  end.

(** ** Sorting *)
Section SortFacts.
Context {A : Type} (leb : A -> A -> bool).

Lemma sort_insert_perm x l : sort_insert leb x l ≡ₚ x :: l.
Proof.
  induction l as [|y l IH]; simpl; [done|].
  destruct (leb x y); [done|]. rewrite IH. constructor.
Qed.

Lemma sort_by_perm l : sort_by leb l ≡ₚ l.
Proof.
  induction l as [|x l IH]; simpl; [done|].
  rewrite sort_insert_perm. by rewrite IH.
Qed.

Lemma elem_of_sort_by x l : x ∈ sort_by leb l <-> x ∈ l.
Proof. by rewrite sort_by_perm. Qed.

Hypothesis leb_total : forall x y, leb x y = true \/ leb y x = true.
Hypothesis leb_trans : forall x y z, leb x y = true -> leb y z = true -> leb x z = true.

Lemma sort_insert_sorted x l : sorted_by leb l -> sorted_by leb (sort_insert leb x l).
Proof.
  unfold sorted_by. induction 1 as [|y l Hl IH Hy]; simpl.
  - repeat constructor.
  - destruct (leb x y) eqn:E.
    + constructor; [by constructor|]. constructor; [done|].
      eapply Forall_impl; [exact Hy|]. simpl. intros z Hz. eapply leb_trans; eauto.
    + constructor; [done|].
      rewrite sort_insert_perm. constructor; [|done].
      destruct (leb_total x y); congruence.
Qed.

Lemma sort_by_sorted l : sorted_by leb (sort_by leb l).
Proof. induction l; simpl; [constructor|]. by apply sort_insert_sorted. Qed.

(** The head of a sorted list is below everything in it. *)
Lemma sorted_by_head x l y :
  (forall z, leb z z = true) -> sorted_by leb (x :: l) -> y ∈ x :: l -> leb x y = true.
Proof.
  intros Hrefl Hs Hy. apply elem_of_cons in Hy as [->|Hy]; [done|].
  inversion_clear Hs. rewrite Forall_forall in H0. by apply H0.
Qed.
End SortFacts.

Lemma elem_of_sorted_set x l : x ∈ sorted_set l <-> x ∈ l.
Proof. unfold sorted_set. rewrite elem_of_sort_by, elem_of_remove_dups. done. Qed.

Lemma string_leb_trans a b c : String.leb a b = true -> String.leb b c = true -> String.leb a c = true.
Proof.
  intros Ha Hb. pose proof String.le_po as [[_ Ht] _].
  enough (String.le a c) as H by (unfold String.le in H; by destruct (String.leb a c)).
  unfold String.le in *. eapply (Ht a b c); by rewrite ?Ha, ?Hb.
Qed.

(** ** Stripping *)
Lemma list_ascii_app a b :
  String.list_ascii_of_string (a +:+ b) =
  String.list_ascii_of_string a ++ String.list_ascii_of_string b.
Proof. induction a as [|c a IH]; [done|]. simpl. f_equal. exact IH. Qed.

(** A string that starts and ends with kept characters is kept. *)
Lemma strip_by_keep p s c m d :
  String.list_ascii_of_string s = c :: m ++ [d] -> p c = false -> p d = false ->
  strip_by p s = s.
Proof.
  intros Hs Hc Hd. unfold strip_by. rewrite Hs. cbn [lstrip_by]. rewrite Hc.
  assert (Hr : rev (c :: m ++ [d]) = d :: rev m ++ [c]).
  { cbn [rev]. by rewrite rev_app_distr. }
  rewrite Hr. cbn [lstrip_by]. rewrite Hd. rewrite <- Hr, rev_involutive, <- Hs.
  apply String.string_of_list_ascii_of_string.
Qed.

Lemma lstrip_by_nil p l : lstrip_by p l = [] <-> Forall (fun c => p c = true) l.
Proof.
  induction l as [|c l IH]; simpl; [split; constructor|].
  rewrite Forall_cons. destruct (p c); [tauto|]. split; [done|]. by intros [[=] _].
Qed.

Lemma lstrip_by_app_keep p l c r : p c = false -> exists l', lstrip_by p (l ++ c :: r) = l' ++ c :: r.
Proof.
  intros Hc. induction l as [|d l [l' IH]]; simpl; [rewrite Hc; by exists []|].
  destruct (p d); [by exists l'|by exists (d :: l)].
Qed.

(** A string with a character that is kept is not stripped to nothing. *)
Lemma strip_by_nonempty p s l c r :
  String.list_ascii_of_string s = l ++ c :: r -> p c = false -> strip_by p s <> "".
Proof.
  intros Hs Hc. unfold strip_by. rewrite Hs.
  destruct (lstrip_by_app_keep p l c r Hc) as [l' ->]. rewrite rev_app_distr. simpl.
  rewrite <- app_assoc. destruct (lstrip_by_app_keep p (rev r) c (rev l') Hc) as [l2 Hl2].
  simpl. rewrite Hl2. rewrite rev_app_distr. simpl. rewrite <- app_assoc. simpl.
  intros H. apply (f_equal String.list_ascii_of_string) in H.
  rewrite String.list_ascii_of_string_of_list_ascii in H. simpl in H. by destruct (rev (rev l')).
Qed.

Lemma blank_colon a b : blank (a +:+ ": " +:+ b) = false.
Proof.
  unfold blank, py_strip. apply bool_decide_eq_false.
  eapply (strip_by_nonempty _ _ _ (Ascii.ascii_of_nat 58)); [|reflexivity].
  rewrite !list_ascii_app. reflexivity.
Qed.

Lemma hex_digit_kept z :
  exists d, hex_digit (Z.land z 15) = String d "" /\ white_space d = false.
Proof.
  assert (0 <= Z.land z 15 < 16) by
    (change 15 with (Z.ones 4); rewrite Z.land_ones by lia; apply Z.mod_pos_bound; lia).
  eexists. split; [reflexivity|].
  assert (Hall : forallb (fun d => negb (white_space
     (Ascii.ascii_of_N (Z.to_N (if d <? 10 then 48 + d else 87 + d)))))
     (map Z.of_nat (seq 0 16)) = true) by reflexivity.
  rewrite forallb_forall in Hall. apply negb_true_iff. apply Hall.
  apply in_map_iff. exists (Z.to_nat (Z.land z 15)). split; [lia|]. apply in_seq. lia.
Qed.

Lemma uuid_str_last u : exists m d,
  String.list_ascii_of_string (uuid_str u) = m ++ [d] /\ white_space d = false.
Proof.
  destruct (hex_digit_kept u) as (d & Hd & Hw).
  unfold uuid_str. change (hex_digits 12 u) with
    (hex_digits 11 (Z.shiftr u 4) +:+ hex_digit (Z.land u 15)). rewrite Hd.
  rewrite !list_ascii_app. eexists _, d. split; [|done].
  rewrite !app_assoc. reflexivity.
Qed.

Lemma strip_resource_key q u :
  strip_by white_space ("queue:" +:+ q +:+ ":job:" +:+ uuid_str u) =
  "queue:" +:+ q +:+ ":job:" +:+ uuid_str u.
Proof.
  destruct (uuid_str_last u) as (m & d & Hm & Hd).
  eapply (strip_by_keep _ _ (Ascii.ascii_of_nat 113) _ d); [|reflexivity|done].
  rewrite !list_ascii_app, Hm. cbn -[uuid_str]. f_equal. rewrite !app_comm_cons, !app_assoc.
  reflexivity.
Qed.

Lemma lstrip_by_head p l c r : lstrip_by p l = c :: r -> p c = false.
Proof.
  induction l as [|d l IH]; simpl; [done|]. destruct (p d) eqn:E; [done|]. by intros [= <- _].
Qed.

Lemma lstrip_by_suffix p l : exists k, l = k ++ lstrip_by p l.
Proof.
  induction l as [|d l [k IH]]; simpl; [by exists []|]. destruct (p d); [|by exists []].
  exists (d :: k). simpl. by rewrite <- IH.
Qed.

Lemma lstrip_by_id p l : (forall c r, l = c :: r -> p c = false) -> lstrip_by p l = l.
Proof. destruct l as [|c l]; simpl; [done|]. intros H. by rewrite (H c l). Qed.

Lemma strip_by_idem p s : strip_by p (strip_by p s) = strip_by p s.
Proof.
  unfold strip_by. rewrite String.list_ascii_of_string_of_list_ascii.
  set (l1 := lstrip_by p (String.list_ascii_of_string s)).
  assert (E : lstrip_by p (rev (lstrip_by p (rev l1))) = rev (lstrip_by p (rev l1))).
  { apply lstrip_by_id. intros c r Hr. destruct (lstrip_by_suffix p (rev l1)) as [k Hk].
    apply (f_equal (@rev _)) in Hk. rewrite rev_app_distr, rev_involutive, Hr in Hk.
    simpl in Hk. by apply lstrip_by_head in Hk. }
  rewrite E, rev_involutive. f_equal. f_equal. apply lstrip_by_id. intros c r. apply lstrip_by_head.
Qed.

Lemma NonBlankStr_again f g s t : NonBlankStr f s = Ok t -> NonBlankStr g t = Ok t.
Proof.
  unfold NonBlankStr. case_bool_decide as E; [discriminate|]. intros [= <-].
  by rewrite strip_by_idem, bool_decide_false.
Qed.

(** ** The text of a UUID identifies it *)
Definition valid_uuid (u : UUID) : Prop := 0 <= u < 2 ^ 128.

Lemma append_inj_length a b c d :
  String.length a = String.length b -> a +:+ c = b +:+ d -> a = b /\ c = d.
Proof.
  revert b. induction a as [|x a IH]; intros [|y b]; simpl; intros Hl H; try discriminate; [done|].
  injection H as -> H. injection Hl as Hl. destruct (IH b Hl H) as [-> ->]. done.
Qed.

Lemma length_append a b : String.length (a +:+ b) = (String.length a + String.length b)%nat.
Proof. induction a; simpl; [done|]. f_equal. exact IHa. Qed.

Lemma hex_digits_length n z : String.length (hex_digits n z) = n.
Proof. revert z. induction n; intros z; simpl; [done|]. rewrite length_append, IHn. simpl. lia. Qed.

Lemma hex_digit_inj a b : 0 <= a < 16 -> 0 <= b < 16 -> hex_digit a = hex_digit b -> a = b.
Proof.
  intros Ha Hb [= H]. apply (f_equal Ascii.N_of_ascii) in H.
  destruct (Z.ltb_spec a 10), (Z.ltb_spec b 10);
    rewrite !Ascii.N_ascii_embedding in H by lia; lia.
Qed.

Lemma hex_digits_bits n z w :
  hex_digits n z = hex_digits n w -> forall i, 0 <= i < 4 * Z.of_nat n -> Z.testbit z i = Z.testbit w i.
Proof.
  revert z w. induction n as [|n IH]; intros z w H i Hi; [lia|]. simpl in H.
  apply append_inj_length in H as [H1 H2]; [|by rewrite !hex_digits_length].
  assert (Hr : forall x, 0 <= Z.land x 15 < 16) by
    (intros x; change 15 with (Z.ones 4); rewrite Z.land_ones by lia; apply Z.mod_pos_bound; lia).
  apply hex_digit_inj in H2; [|apply Hr..].
  destruct (Z_lt_le_dec i 4) as [Hlt|Hge].
  - apply (f_equal (fun x => Z.testbit x i)) in H2. rewrite !Z.land_spec in H2.
    change 15 with (Z.ones 4) in H2. rewrite Z.ones_spec_low in H2 by lia.
    by rewrite !andb_true_r in H2.
  - specialize (IH _ _ H1 (i - 4) ltac:(lia)). rewrite !Z.shiftr_spec in IH by lia.
    by replace (i - 4 + 4) with i in IH by lia.
Qed.

Lemma uuid_str_length u : String.length (uuid_str u) = 36%nat.
Proof. unfold uuid_str. rewrite !length_append, !hex_digits_length. reflexivity. Qed.

Lemma uuid_str_inj u v : valid_uuid u -> valid_uuid v -> uuid_str u = uuid_str v -> u = v.
Proof.
  unfold valid_uuid. intros Hu Hv H. unfold uuid_str in H.
  do 8 (apply append_inj_length in H as [? H]; [|by rewrite ?hex_digits_length]).
  apply Z.bits_inj'. intros i Hi.
  destruct (Z_lt_le_dec i 128) as [Hlt|Hge].
  2:{ assert (Hhigh : forall w, 0 <= w < 2 ^ 128 -> Z.testbit w i = false); [|by rewrite !Hhigh].
      intros w Hw. destruct (Z.eq_dec w 0) as [->|Hne]; [apply Z.bits_0|].
      apply Z.bits_above_log2; [lia|]. eapply Z.lt_le_trans; [|exact Hge].
      apply Z.log2_lt_pow2; lia. }
  assert (Hs : forall k n, 0 <= k -> hex_digits n (Z.shiftr u k) = hex_digits n (Z.shiftr v k) ->
            k <= i < k + 4 * Z.of_nat n -> Z.testbit u i = Z.testbit v i).
  { intros k n Hk E Hr. pose proof (hex_digits_bits n _ _ E (i - k) ltac:(lia)) as Hb.
    rewrite !Z.shiftr_spec in Hb by lia. by replace (i - k + k) with i in Hb by lia. }
  destruct (Z_lt_le_dec i 48); [by apply (Hs 0 12%nat); [lia|rewrite !Z.shiftr_0_r; assumption|lia]|].
  destruct (Z_lt_le_dec i 64); [by eapply (Hs 48 4%nat); [lia|eassumption|lia]|].
  destruct (Z_lt_le_dec i 80); [by eapply (Hs 64 4%nat); [lia|eassumption|lia]|].
  destruct (Z_lt_le_dec i 96); [by eapply (Hs 80 4%nat); [lia|eassumption|lia]|].
  by eapply (Hs 96 8%nat); [lia|eassumption|lia].
Qed.

(** The first character of a UUID's text is a digit or a letter. *)
Lemma uuid_str_head u : exists c r, uuid_str u = String c r /\ c <> Ascii.ascii_of_nat 124.
Proof.
  assert (Hh : forall z, exists c, hex_digit (Z.land z 15) = String c "" /\ c <> Ascii.ascii_of_nat 124).
  { intros z. eexists. split; [reflexivity|].
    assert (0 <= Z.land z 15 < 16) by
      (change 15 with (Z.ones 4); rewrite Z.land_ones by lia; apply Z.mod_pos_bound; lia).
    assert (Hall : forallb (fun d => negb (bool_decide
       (Ascii.ascii_of_N (Z.to_N (if d <? 10 then 48 + d else 87 + d)) = Ascii.ascii_of_nat 124)))
       (map Z.of_nat (seq 0 16)) = true) by reflexivity.
    rewrite forallb_forall in Hall. specialize (Hall (Z.land z 15)).
    apply negb_true_iff, bool_decide_eq_false in Hall; [done|].
    apply in_map_iff. exists (Z.to_nat (Z.land z 15)). split; [lia|]. apply in_seq. lia. }
  unfold uuid_str. cbn [hex_digits].
  destruct (Hh (Z.shiftr (Z.shiftr (Z.shiftr (Z.shiftr (Z.shiftr (Z.shiftr (Z.shiftr (Z.shiftr u 96) 4) 4) 4) 4) 4) 4) 4))
    as (c & Hc & Hne).
  rewrite Hc. eexists c, _. split; [reflexivity|done].
Qed.

(** ** Loops that append to a list what their elements emit *)
Lemma fold_o_emit {A B} (g : list B -> A -> outcome (list B)) (emit : A -> option (outcome B)) :
  (forall acc x, g acc x = match emit x with
                           | Some f => f <~ f ;; Ok (acc ++ [f])
                           | None => Ok acc
                           end) ->
  forall xs acc r, fold_o g xs acc = Ok r ->
  forall f, f ∈ r <-> f ∈ acc \/ exists x, x ∈ xs /\ emit x = Some (Ok f).
Proof.
  intros Hg. induction xs as [|x xs IH]; simpl; intros acc r H f.
  - injection H as <-. set_solver.
  - apply obind_Ok in H as (acc' & H1 & H2). rewrite (IH _ _ H2 f). rewrite Hg in H1.
    destruct (emit x) as [o|] eqn:E.
    + apply obind_Ok in H1 as (f' & -> & [= <-]). set_solver.
    + injection H1 as <-. set_solver.
Qed.

Lemma fold_o_total {A B} (g : B -> A -> outcome B) xs acc :
  (forall acc x, x ∈ xs -> exists r, g acc x = Ok r) -> exists r, fold_o g xs acc = Ok r.
Proof.
  revert acc. induction xs as [|x xs IH]; intros acc Hg; simpl; [by eexists|].
  destruct (Hg acc x) as [r ->]; [set_solver|]. simpl. apply IH. set_solver.
Qed.

(** A loop stays within a preorder of states its body stays within, and raises what
    its body raises. *)
Lemma fold_m_rel {S A B} (R : S -> S -> Prop) `{!PreOrder R} (f : B -> A -> M S B) xs :
  (forall acc x s o s', f acc x s = (o, s') -> R s s') ->
  forall acc s o s', fold_m f xs acc s = (o, s') -> R s s'.
Proof.
  intros Hf. induction xs as [|x xs IH]; simpl; intros acc s o s' H.
  - injection H as <- <-. reflexivity.
  - unfold bind in H. destruct (f acc x s) as [[b|e] s1] eqn:E.
    + etransitivity; eauto.
    + injection H as <- <-. eauto.
Qed.

Lemma fold_m_raise {S A B} (P : exn -> Prop) (f : B -> A -> M S B) xs :
  (forall acc x s e s', f acc x s = (Raise e, s') -> P e) ->
  forall acc s e s', fold_m f xs acc s = (Raise e, s') -> P e.
Proof.
  intros Hf. induction xs as [|x xs IH]; simpl; intros acc s e s' H; [discriminate|].
  unfold bind in H. destruct (f acc x s) as [[b|e'] s1] eqn:E; [eauto|].
  injection H as <- <-. eauto.
Qed.

(** ** Where a computation can end

    [wp K m Q s]: [m] from [s] ends in [K] when it raises and in [Q] when it returns. *)
Definition wp {S A} (K : S -> Prop) (m : M S A) (Q : A -> S -> Prop) (s : S) : Prop :=
  match m s with (Ok a, s') => Q a s' | (Raise _, s') => K s' end.

Section Rules.
Context {S : Type} (K : S -> Prop).

Lemma wp_bind {A B} (m : M S A) (k : A -> M S B) Q s :
  wp K m (fun a => wp K (k a) Q) s -> wp K (bind m k) Q s.
Proof. unfold wp, bind. by destruct (m s) as [[a|e] s']. Qed.

Lemma wp_mono {A} (m : M S A) (Q Q' : A -> S -> Prop) s :
  (forall a s', Q a s' -> Q' a s') -> wp K m Q s -> wp K m Q' s.
Proof. unfold wp. destruct (m s) as [[a|e] s']; auto. Qed.

Lemma wp_lift {A} (o : outcome A) Q s :
  K s -> (forall a, o = Ok a -> Q a s) -> wp K (lift o) Q s.
Proof. unfold wp, lift. destruct o; auto. Qed.

Lemma wp_guard b e Q s : K s -> (b = true -> Q tt s) -> wp K (guard b e) Q s.
Proof. unfold wp, guard, lift, require. destruct b; auto. Qed.

Lemma wp_modify f Q s : Q tt (f s) -> wp K (modify f) Q s.
Proof. done. Qed.

Lemma wp_get Q s : Q s s -> wp K get Q s.
Proof. done. Qed.

Lemma wp_ret {A} (a : A) Q s : Q a s -> wp K (ret a) Q s.
Proof. done. Qed.

Lemma wp_raise {A} e (Q : A -> S -> Prop) s : K s -> wp K (raise e) Q s.
Proof. done. Qed.

Lemma wp_for_m {A} (f : A -> M S unit) xs (Q : unit -> S -> Prop) s :
  K s -> (forall x s, K s -> wp K (f x) (fun _ => K) s) -> (forall s, K s -> Q tt s) ->
  wp K (for_m f xs) Q s.
Proof.
  intros HK Hf HQ. unfold for_m. revert s HK. generalize tt as u.
  induction xs as [|x xs IH]; intros [] s HK; cbn [fold_m]; [by apply HQ|].
  apply wp_bind. eapply wp_mono; [|by apply Hf]. intros [] s' HK'. by apply IH.
Qed.
End Rules.

Lemma wp_weaken {S A} (K K' : S -> Prop) (m : M S A) Q s :
  (forall s', K s' -> K' s') -> wp K m Q s -> wp K' m Q s.
Proof. unfold wp. destruct (m s) as [[a|e] s']; auto. Qed.

(** ** Runs of a relation *)

(** The first step at which a property that does not hold at the start holds *)
Lemma rtc_crossing {A} (R : A -> A -> Prop) (P : A -> Prop) `{!forall x, Decision (P x)} x y :
  rtc R x y -> ~ P x -> P y -> exists a b, rtc R x a /\ R a b /\ rtc R b y /\ ~ P a /\ P b.
Proof.
  induction 1 as [x|x z y Hxz Hzy IH]; intros Hx Hy; [done|].
  destruct (decide (P z)) as [Hz|Hz]; [exists x, z; by repeat split; try apply rtc_refl|].
  destruct (IH Hz Hy) as (a & b & Ha & Hab & Hb & Hna & Hpb).
  exists a, b. split; [by eapply rtc_l|done].
Qed.

(** ** Dictionaries *)
Section DictFacts.
Context {K V : Type} `{EqDecision K}.
Implicit Types d : list (K * V).

Lemma dict_get_set_eq k v d : dict_get k (dict_set k v d) = Some v.
Proof.
  induction d as [|[k' v'] d IH]; simpl; repeat case_decide; try congruence; simpl;
    repeat case_decide; congruence.
Qed.

Lemma dict_get_set_ne k k' v d : k <> k' -> dict_get k' (dict_set k v d) = dict_get k' d.
Proof.
  intros Hne. induction d as [|[k2 v2] d IH]; simpl; repeat case_decide; simpl;
    repeat case_decide; congruence.
Qed.

Lemma dict_get_elem k v d : dict_get k d = Some v -> (k, v) ∈ d.
Proof.
  induction d as [|[k' v'] d IH]; simpl; [done|]. case_decide as E; intros H.
  - subst. injection H as <-. constructor.
  - constructor. auto.
Qed.

Lemma dict_get_None k d : dict_get k d = None <-> k ∉ dict_keys d.
Proof.
  induction d as [|[k' v'] d IH]; simpl; [set_solver|]. case_decide; set_solver.
Qed.

Lemma elem_dict_get k v d : NoDup (dict_keys d) -> (k, v) ∈ d -> dict_get k d = Some v.
Proof.
  induction d as [|[k' v'] d IH]; simpl; [set_solver|].
  intros [Hni Hnd]%NoDup_cons [Heq|Hin]%elem_of_cons.
  - injection Heq as -> ->. by rewrite decide_True.
  - case_decide as E; [|auto]. subst. exfalso. apply Hni.
    apply (list_elem_of_fmap_2 fst) in Hin. exact Hin.
Qed.

Lemma dict_keys_set k v d :
  dict_keys (dict_set k v d) = if dict_has k d then dict_keys d else dict_keys d ++ [k].
Proof.
  unfold dict_has. induction d as [|[k' v'] d IH]; simpl; [done|].
  case_decide; [done|]. simpl. rewrite IH. by destruct (dict_get k d).
Qed.

Lemma dict_set_NoDup k v d : NoDup (dict_keys d) -> NoDup (dict_keys (dict_set k v d)).
Proof.
  intros Hnd. rewrite dict_keys_set. unfold dict_has.
  destruct (dict_get k d) eqn:E; [done|]. apply dict_get_None in E.
  apply NoDup_app. split; [done|]. split; [set_solver|]. apply NoDup_singleton.
Qed.

Lemma elem_of_dict_set k v k' v' d :
  (k', v') ∈ dict_set k v d -> (k' = k /\ v' = v) \/ (k', v') ∈ d.
Proof.
  induction d as [|[k2 v2] d IH]; simpl; [set_solver|].
  case_decide; subst; set_solver.
Qed.

(** An association list as a finite map from keys. *)
Definition dict_forall (P : K -> V -> Prop) d : Prop := forall k v, (k, v) ∈ d -> P k v.

Lemma dict_forall_set (P : K -> V -> Prop) k v d :
  P k v -> dict_forall P d -> dict_forall P (dict_set k v d).
Proof. intros Hp Hd k' v' [[-> ->]|Hin]%elem_of_dict_set; auto. Qed.
End DictFacts.

#[export] Hint Resolve dict_set_NoDup dict_get_elem : py.

(** ** Booleans of the source as propositions *)
Lemma mem_true {A} `{EqDecision A} (x : A) l : mem x l = true <-> x ∈ l.
Proof. unfold mem. apply bool_decide_eq_true. Qed.

Lemma mem_false {A} `{EqDecision A} (x : A) l : mem x l = false <-> x ∉ l.
Proof. unfold mem. apply bool_decide_eq_false. Qed.

Lemma py_unique_true {A} `{EqDecision A} (l : list A) : py_unique l = true <-> NoDup l.
Proof. unfold py_unique. apply bool_decide_eq_true. Qed.

Lemma NonBlankStr_Ok f s t : NonBlankStr f s = Ok t -> t <> "" /\ t = strip_by white_space s.
Proof. unfold NonBlankStr. case_bool_decide; intros [=]. split; congruence. Qed.

(** Turns the boolean tests of the context into propositions. *)
Ltac b2p :=
  repeat match goal with
  | H : _ && _ = true |- _ => apply andb_true_iff in H; destruct H
  | H : _ && _ = false |- _ => apply andb_false_iff in H
  | H : _ || _ = true |- _ => apply orb_true_iff in H
  | H : _ || _ = false |- _ => apply orb_false_iff in H; destruct H
  | H : negb _ = true |- _ => apply negb_true_iff in H
  | H : negb _ = false |- _ => apply negb_false_iff in H
  | H : bool_decide _ = true |- _ => apply bool_decide_eq_true in H
  | H : bool_decide _ = false |- _ => apply bool_decide_eq_false in H
  | H : (_ <=? _) = true |- _ => apply Z.leb_le in H
  | H : (_ <=? _) = false |- _ => apply Z.leb_gt in H
  | H : (_ <? _) = true |- _ => apply Z.ltb_lt in H
  | H : (_ <? _) = false |- _ => apply Z.ltb_ge in H
  | H : (_ =? _) = true |- _ => apply Z.eqb_eq in H
  | H : (_ =? _) = false |- _ => apply Z.eqb_neq in H
  | H : mem _ _ = true |- _ => apply mem_true in H
  | H : mem _ _ = false |- _ => apply mem_false in H
  end.

(** ** Rounding *)
Lemma round_half_even_bounds n d :
  2 * n - Zpos d <= 2 * Zpos d * round_half_even n d <= 2 * n + Zpos d.
Proof.
  unfold round_half_even.
  pose proof (Z.div_mod n (Zpos d) ltac:(lia)) as Hdm.
  pose proof (Z.mod_pos_bound n (Zpos d) ltac:(lia)) as Hb.
  destruct (Z.compare_spec (2 * (n mod Zpos d)) (Zpos d)); [destruct (Z.even _)| |]; nia.
Qed.

(** A non-negative number of seconds is a non-negative duration. *)
Lemma timedelta_seconds_nonneg f d :
  timedelta_seconds f = Ok d -> float_ltb f (float_of_int 0) = false -> 0 <= d.
Proof.
  destruct f as [q| | |]; simpl; try discriminate.
  case_match; [|discriminate]. intros [= <-] Hq. b2p.
  pose proof (round_half_even_bounds (Qnum q * 1000000) (Qden q)). nia.
Qed.

(** ** Counting the values of a map *)
Definition b2z (b : bool) : Z := if b then 1 else 0.

Lemma count_if_cons {A} (p : A -> bool) x l : count_if p (x :: l) = b2z (p x) + count_if p l.
Proof. unfold count_if. simpl. destruct (p x); simpl length; simpl b2z; lia. Qed.

Lemma count_if_perm {A} (p : A -> bool) l k : l ≡ₚ k -> count_if p l = count_if p k.
Proof. induction 1; rewrite ?count_if_cons in *; lia. Qed.

Lemma count_if_nonneg {A} (p : A -> bool) l : 0 <= count_if p l.
Proof. unfold count_if. lia. Qed.

Section MapCount.
Context {K V : Type} `{Countable K} (p : V -> bool).

Definition map_count (m : gmap K V) : Z := count_if p (map snd (map_to_list m)).

Lemma map_count_empty : map_count ∅ = 0.
Proof. unfold map_count. by rewrite map_to_list_empty. Qed.

Lemma map_count_insert_new k v m :
  m !! k = None -> map_count (<[k := v]> m) = b2z (p v) + map_count m.
Proof.
  intros Hk. unfold map_count. rewrite <- count_if_cons.
  apply count_if_perm. change (v :: ?l) with (map snd [(k, v)] ++ l).
  rewrite <- map_app. apply (fmap_Permutation snd). by rewrite map_to_list_insert.
Qed.

Lemma map_count_insert k v m :
  map_count (<[k := v]> m) =
  b2z (p v) + map_count m - match m !! k with Some w => b2z (p w) | None => 0 end.
Proof.
  destruct (m !! k) as [w|] eqn:E; [|rewrite map_count_insert_new by done; lia].
  rewrite <- (insert_delete_eq m k v).
  rewrite map_count_insert_new by apply lookup_delete_eq.
  rewrite <- (insert_id m k w E) at 2. rewrite <- (insert_delete_eq m k w).
  rewrite map_count_insert_new by apply lookup_delete_eq. lia.
Qed.

Lemma map_count_nonneg m : 0 <= map_count m.
Proof. apply count_if_nonneg. Qed.
End MapCount.
