(* ===== verification/Ha.v ===== *)
(** * Leases, the durable work queue, admission and the scheduler

    Models [contracts/ha.py] (the records and their validators) and the runtime's
    [ha.py]: [Module LeaseStore] is [InMemoryLeaseStore], [Module WorkQueue] is
    [InMemoryDurableWorkQueue], [Module Lifecycle] is [RuntimeLifecycle],
    [Module Capacity] is [CapacityAdmissionController] and [Module Scheduler] is
    [RecoverableScheduler], written against the class [DurableWorkQueue].

    The clock readings and the fresh identifiers an operation obtains are its
    arguments; every operation body runs under the object's lock without
    awaiting anything, so it is one atomic step on the state. *)

From S2P Require Import Prelude.

(** ** Records of [contracts/ha.py] *)
Inductive WorkState : Set := QUEUED | LEASED | SUCCEEDED | DEAD_LETTER.

#[export] Instance WorkState_eq_dec : EqDecision WorkState.
Proof. solve_decision. Defined.

Record FencedLease : Set := {
  lease_id : UUID;
  lease_tenant_id : string;
  lease_resource_key : string;
  lease_owner_id : string;
  fence_token : Z;
  acquired_at : datetime;
  expires_at : datetime;
}.

#[export] Instance FencedLease_eq_dec : EqDecision FencedLease.
Proof. solve_decision. Defined.

(** The constructor call: field constraints, then [validate_window]. *)
Definition new_FencedLease (id : UUID) (tenant_id resource_key owner_id : string)
    (token : Z) (acquired expires : datetime) : outcome FencedLease :=
  t <~ NonBlankStr "tenant_id" tenant_id ;;
  r <~ NonBlankStr "resource_key" resource_key ;;
  o <~ NonBlankStr "owner_id" owner_id ;;
  require (1 <=? token) (ValidationError "fence_token") ;~
  require (negb (expires <=? acquired))
    (ValidationError "fenced lease must expire after acquisition") ;~
  Ok {| lease_id := id; lease_tenant_id := t; lease_resource_key := r;
        lease_owner_id := o; fence_token := token;
        acquired_at := acquired; expires_at := expires |}.

Definition is_expired (l : FencedLease) (at_ : datetime) : bool := expires_at l <=? at_.

(** [renew]'s [model_copy(update={"expires_at": ...})]: no validation runs. *)
Definition with_expires_at (l : FencedLease) (e : datetime) : FencedLease :=
  {| lease_id := lease_id l; lease_tenant_id := lease_tenant_id l;
     lease_resource_key := lease_resource_key l; lease_owner_id := lease_owner_id l;
     fence_token := fence_token l; acquired_at := acquired_at l; expires_at := e |}.

(** A work item; its payload is any Python mapping, compared with [==]. *)
Record DurableWorkItem {P : Type} : Type := {
  job_id : UUID;
  tenant_id : string;
  queue : string;
  kind : string;
  idempotency_key : string;
  payload : P;
  created_at : datetime;
  available_at : datetime;
  attempt : Z;
  max_attempts : Z;
  state : WorkState;
  completed_at : option datetime;
  last_error : option string;
}.
Arguments DurableWorkItem : clear implicits.

(** The integer constraints of the fields and [validate_lifecycle]. *)
Definition validate_lifecycle {P} (i : DurableWorkItem P) : outcome unit :=
  require (0 <=? attempt i) (ValidationError "attempt") ;~
  require ((1 <=? max_attempts i) && (max_attempts i <=? 1000))
    (ValidationError "max_attempts") ;~
  require (negb (available_at i <? created_at i))
    (ValidationError "work cannot become available before it is created") ;~
  require (negb (max_attempts i <? attempt i))
    (ValidationError "work attempt cannot exceed max_attempts") ;~
  (match state i, completed_at i with
   | SUCCEEDED, None => Raise (ValidationError "succeeded work requires completed_at")
   | SUCCEEDED, Some _ => Ok tt
   | _, Some _ => Raise (ValidationError "only succeeded work may have completed_at")
   | _, None => Ok tt
   end) ;~
  require (negb (bool_decide (state i = DEAD_LETTER) && negb (truthy (last_error i))))
    (ValidationError "dead-letter work requires last_error").

(** What construction guarantees of an item: the string fields are stripped and
    non-blank, and the validator accepted it. *)
Definition stripped (s : string) : bool := bool_decide (NonBlankStr "" s = Ok s).

Definition constructed {P} (i : DurableWorkItem P) : bool :=
  stripped (tenant_id i) && stripped (queue i) && stripped (kind i) &&
  stripped (idempotency_key i) && is_ok (validate_lifecycle i).

Definition resource_key {P} (i : DurableWorkItem P) : string :=
  "queue:" +:+ queue i +:+ ":job:" +:+ uuid_str (job_id i).

(** The [model_copy] updates of the queue: state, attempt, availability,
    completion and error; the identity and the payload never change. *)
Definition update_item {P} (i : DurableWorkItem P) (st : WorkState) (att : Z)
    (avail : datetime) (completed : option datetime) (err : option string)
    : DurableWorkItem P :=
  {| job_id := job_id i; tenant_id := tenant_id i; queue := queue i; kind := kind i;
     idempotency_key := idempotency_key i; payload := payload i;
     created_at := created_at i; available_at := avail; attempt := att;
     max_attempts := max_attempts i; state := st; completed_at := completed;
     last_error := err |}.

Record LeasedWorkItem {P : Type} : Type := { item : DurableWorkItem P; lease : FencedLease }.
Arguments LeasedWorkItem : clear implicits.

(** The constructor call with [validate_binding]. *)
Definition new_LeasedWorkItem {P} (i : DurableWorkItem P) (l : FencedLease)
    : outcome (LeasedWorkItem P) :=
  require (bool_decide (state i = LEASED))
    (ValidationError "leased work item must be in leased state") ;~
  require (bool_decide (tenant_id i = lease_tenant_id l))
    (ValidationError "work item and lease tenant differ") ;~
  require (bool_decide (resource_key i = lease_resource_key l))
    (ValidationError "work item and lease resource differ") ;~
  Ok {| item := i; lease := l |}.

Record QueueSnapshot : Set := {
  snap_queue : string;
  snap_tenant_id : string;
  queued : Z;
  leased : Z;
  dead_letter : Z;
  succeeded : Z;
  captured_at : datetime;
}.

Definition active_depth (s : QueueSnapshot) : Z := queued s + leased s.

Record CapacityEnvelope : Set := {
  profile_id : string;
  max_queue_depth : Z;
  max_in_flight : Z;
  max_per_tenant_in_flight : Z;
  lease_ttl_seconds : pyfloat;
  shutdown_grace_seconds : pyfloat;
  qualification_concurrency : Z;
  qualification_work_items : Z;
  qualification_soak_seconds : pyfloat;
}.

(** The [gt]/[ge]/[le] constraints of the fields, then [validate_limits] *)
Definition validate_limits (e : CapacityEnvelope) : outcome unit :=
  let positive f := float_ltb (float_of_int 0) f in
  require ((1 <=? max_queue_depth e) && (1 <=? max_in_flight e) &&
           (1 <=? max_per_tenant_in_flight e) && (1 <=? qualification_concurrency e) &&
           (1 <=? qualification_work_items e))
    (ValidationError "input should be greater than or equal to 1") ;~
  require (positive (lease_ttl_seconds e) && positive (shutdown_grace_seconds e) &&
           positive (qualification_soak_seconds e))
    (ValidationError "input should be greater than 0") ;~
  require (float_leb (lease_ttl_seconds e) (float_of_int 86400) &&
           float_leb (shutdown_grace_seconds e) (float_of_int 3600))
    (ValidationError "input should be less than or equal to the limit") ;~
  require (negb (max_in_flight e <? max_per_tenant_in_flight e))
    (ValidationError "per-tenant in-flight limit cannot exceed global limit") ;~
  require (negb (max_in_flight e <? qualification_concurrency e))
    (ValidationError "qualification concurrency exceeds declared in-flight capacity") ;~
  require (negb (max_queue_depth e <? qualification_work_items e))
    (ValidationError "qualification work items exceed declared queue capacity").

(** [REFERENCE_CAPACITY_ENVELOPE] *)
Definition REFERENCE_CAPACITY_ENVELOPE : CapacityEnvelope := {|
  profile_id := "reference-ha";
  max_queue_depth := 1000;
  max_in_flight := 128;
  max_per_tenant_in_flight := 32;
  lease_ttl_seconds := float_of_int 30;
  shutdown_grace_seconds := float_of_int 30;
  qualification_concurrency := 128;
  qualification_work_items := 1000;
  qualification_soak_seconds := float_of_int 10;
|}.

(** [_require_positive_ttl] *)
Definition require_positive_ttl (ttl_seconds : pyfloat) : outcome unit :=
  require (negb (float_leb ttl_seconds (float_of_int 0) ||
                 float_ltb (float_of_int 86400) ttl_seconds))
    (ValueError "lease TTL must be > 0 and <= 86400 seconds").

(** ** [InMemoryLeaseStore] *)
Module LeaseStore.

Record LeaseSlot : Set := { slot_fence_token : Z; slot_current : option FencedLease }.

Definition empty_slot : LeaseSlot := {| slot_fence_token := 0; slot_current := None |}.

(** [self._slots]; the lock is the atomicity of the operations. *)
Abbreviation store := (gmap (string * string) LeaseSlot).

Definition empty : store := ∅.

Definition set_slot (k : string * string) (s : LeaseSlot) : M store unit :=
  modify (fun st => <[k := s]> st).

Definition matches (current : option FencedLease) (candidate : FencedLease) : bool :=
  match current with
  | None => false
  | Some c =>
      (lease_id c =? lease_id candidate) &&
      bool_decide (lease_owner_id c = lease_owner_id candidate) &&
      (fence_token c =? fence_token candidate)
  end.

Definition acquire (tenant_id resource_key owner_id : string) (ttl_seconds : pyfloat)
    (now : datetime) (fresh : UUID) : M store (option FencedLease) :=
  lift (require_positive_ttl ttl_seconds) ;;
  guard (negb (blank tenant_id || blank resource_key || blank owner_id))
    (ValueError "lease tenant, resource, and owner must be non-blank") ;;
  st <- get ;;
  let identity := (tenant_id, resource_key) in
  let slot := default empty_slot (st !! identity) in
  set_slot identity slot ;;
  let grant :=
    let token := slot_fence_token slot + 1 in
    set_slot identity {| slot_fence_token := token; slot_current := slot_current slot |} ;;
    ttl <- lift (timedelta_seconds ttl_seconds) ;;
    l <- lift (new_FencedLease fresh tenant_id resource_key owner_id token now (now + ttl)) ;;
    set_slot identity {| slot_fence_token := token; slot_current := Some l |} ;;
    ret (Some l) in
  match slot_current slot with
  | Some current =>
      if negb (is_expired current now) then
        ret (if bool_decide (lease_owner_id current = owner_id) then Some current else None)
      else grant
  | None => grant
  end.

Definition slot_key (l : FencedLease) : string * string :=
  (lease_tenant_id l, lease_resource_key l).

Definition renew (l : FencedLease) (ttl_seconds : pyfloat) (now : datetime)
    : M store FencedLease :=
  lift (require_positive_ttl ttl_seconds) ;;
  st <- get ;;
  let stale := LeaseLostError "cannot renew a stale, released, or expired lease" in
  match st !! slot_key l with
  | None => raise stale
  | Some slot =>
      match slot_current slot with
      | Some current =>
          if negb (matches (Some current) l) || is_expired current now then raise stale
          else
            ttl <- lift (timedelta_seconds ttl_seconds) ;;
            let renewed := with_expires_at current (now + ttl) in
            set_slot (slot_key l)
              {| slot_fence_token := slot_fence_token slot; slot_current := Some renewed |} ;;
            ret renewed
      | None => raise stale
      end
  end.

Definition release (l : FencedLease) (now : datetime) : M store unit :=
  st <- get ;;
  let stale := LeaseLostError "cannot release a stale, replaced, or expired lease" in
  match st !! slot_key l with
  | None => raise stale
  | Some slot =>
      match slot_current slot with
      | Some current =>
          if negb (matches (Some current) l) || is_expired current now then raise stale
          else
            set_slot (slot_key l)
              {| slot_fence_token := slot_fence_token slot; slot_current := None |}
      | None => raise stale
      end
  end.

Definition is_current (l : FencedLease) (now : datetime) (st : store) : bool :=
  match st !! slot_key l with
  | Some slot =>
      match slot_current slot with
      | Some current => matches (Some current) l && negb (is_expired current now)
      | None => false
      end
  | None => false
  end.

(** The calls clients make, in any order, with any arguments and clock readings. *)
Inductive step : store -> store -> Prop :=
| step_acquire t r o ttl now fresh st o' st' :
    acquire t r o ttl now fresh st = (o', st') -> step st st'
| step_renew l ttl now st o' st' : renew l ttl now st = (o', st') -> step st st'
| step_release l now st o' st' : release l now st = (o', st') -> step st st'.

End LeaseStore.

(** ** [InMemoryDurableWorkQueue] *)
Module WorkQueue.
Section Queue.
Context {P : Type} `{!EqDecision P}.

Record store : Type := {
  items : gmap UUID (DurableWorkItem P);
  identities : gmap (string * string * string) UUID;
  leases : gmap UUID FencedLease;
  fence_tokens : gmap UUID Z;
}.

Definition empty : store :=
  {| items := ∅; identities := ∅; leases := ∅; fence_tokens := ∅ |}.

Definition set_item (i : DurableWorkItem P) : M store unit := modify (fun st =>
  {| items := <[job_id i := i]> (items st); identities := identities st;
     leases := leases st; fence_tokens := fence_tokens st |}).
Definition set_identity (k : string * string * string) (id : UUID) : M store unit :=
  modify (fun st =>
  {| items := items st; identities := <[k := id]> (identities st);
     leases := leases st; fence_tokens := fence_tokens st |}).
Definition set_lease (id : UUID) (l : FencedLease) : M store unit := modify (fun st =>
  {| items := items st; identities := identities st;
     leases := <[id := l]> (leases st); fence_tokens := fence_tokens st |}).
Definition pop_lease (id : UUID) : M store unit := modify (fun st =>
  {| items := items st; identities := identities st;
     leases := delete id (leases st); fence_tokens := fence_tokens st |}).
(** [self._fence_tokens[job_id] += 1] on the [defaultdict(int)] *)
Definition next_token (id : UUID) : M store Z := fun st =>
  let token := default 0 (fence_tokens st !! id) + 1 in
  (Ok token,
   {| items := items st; identities := identities st; leases := leases st;
      fence_tokens := <[id := token]> (fence_tokens st) |}).

(** The values of a dict, when what is computed from them does not depend on
    their order. *)
Definition item_values (st : store) : list (DurableWorkItem P) :=
  map snd (map_to_list (items st)).

Definition is_active (q : string) (i : DurableWorkItem P) : bool :=
  bool_decide (queue i = q) && (bool_decide (state i = QUEUED) || bool_decide (state i = LEASED)).

Definition active_count (q : string) (st : store) : Z :=
  map_count (is_active q) (items st).

(** The key under which [enqueue] recognises repeated work *)
Definition identity (i : DurableWorkItem P) : string * string * string :=
  (tenant_id i, queue i, idempotency_key i).

Definition enqueue (max_queue_depth : Z) (i : DurableWorkItem P)
    : M store (DurableWorkItem P) :=
  guard (bool_decide (state i = QUEUED) && (attempt i =? 0))
    (ValueError "new work must be queued with attempt=0") ;;
  st <- get ;;
  match identities st !! identity i with
  | Some existing_id =>
      match items st !! existing_id with
      | None => raise (KeyError (uuid_str existing_id))
      | Some existing =>
          if negb (bool_decide (kind existing = kind i)) ||
             negb (bool_decide (payload existing = payload i)) ||
             negb (max_attempts existing =? max_attempts i)
          then raise (DuplicateActionError
                 "durable work idempotency key already belongs to different work")
          else ret existing
      end
  | None =>
      guard (negb (max_queue_depth <=? active_count (queue i) st))
        (QueueOverloadedError ("queue '" +:+ queue i +:+ "' reached configured depth " +:+
                               pretty max_queue_depth)) ;;
      set_item i ;;
      set_identity (identity i) (job_id i) ;;
      ret i
  end.

Definition eligible (st : store) (i : DurableWorkItem P) (now : datetime) : bool :=
  match state i with
  | QUEUED => available_at i <=? now
  | LEASED =>
      match leases st !! job_id i with
      | None => true
      | Some l => is_expired l now
      end
  | _ => false
  end.

(** [(item.available_at, item.created_at, str(item.job_id))] *)
Definition candidate_leb (a b : DurableWorkItem P) : bool :=
  lex_leb Z.ltb Z.eqb
    (lex_leb Z.ltb Z.eqb (String.leb (uuid_str (job_id a)) (uuid_str (job_id b)))
       (created_at a) (created_at b))
    (available_at a) (available_at b).

Definition candidates (st : store) (q tenant : string) (now : datetime)
    : list (DurableWorkItem P) :=
  sort_by candidate_leb
    (List.filter (fun i => bool_decide (queue i = q) && bool_decide (tenant_id i = tenant) &&
                           eligible st i now) (item_values st)).

Definition exhausted (i : DurableWorkItem P) : bool := max_attempts i <=? attempt i.

Definition dead_lettered (i : DurableWorkItem P) : DurableWorkItem P :=
  update_item i DEAD_LETTER (attempt i) (available_at i) (completed_at i)
    (Some (str_or (last_error i) "lease expired after final attempt")).

(** The body of the loop for a candidate that has attempts left *)
Definition grant (owner_id : string) (ttl_seconds : pyfloat) (now : datetime)
    (fresh : UUID) (current : DurableWorkItem P) : M store (option (LeasedWorkItem P)) :=
  token <- next_token (job_id current) ;;
  ttl <- lift (timedelta_seconds ttl_seconds) ;;
  l <- lift (new_FencedLease fresh (tenant_id current) (resource_key current)
               owner_id token now (now + ttl)) ;;
  let leased_item :=
    update_item current LEASED (attempt current + 1) (available_at current)
      (completed_at current) (last_error current) in
  set_item leased_item ;;
  set_lease (job_id current) l ;;
  w <- lift (new_LeasedWorkItem leased_item l) ;;
  ret (Some w).

(** ... and for one that has none *)
Definition bury (current : DurableWorkItem P) : M store unit :=
  set_item (dead_lettered current) ;;
  pop_lease (job_id current).

(** The [for current in candidates] loop of [acquire] *)
Fixpoint acquire_loop (owner_id : string) (ttl_seconds : pyfloat) (now : datetime)
    (fresh : UUID) (cands : list (DurableWorkItem P)) : M store (option (LeasedWorkItem P)) :=
  match cands with
  | [] => ret None
  | current :: rest =>
      if exhausted current then
        bury current ;;
        acquire_loop owner_id ttl_seconds now fresh rest
      else grant owner_id ttl_seconds now fresh current
  end.

Definition acquire (q owner_id : string) (lease_ttl_seconds : pyfloat) (tenant : string)
    (now : datetime) (fresh : UUID) : M store (option (LeasedWorkItem P)) :=
  lift (require_positive_ttl lease_ttl_seconds) ;;
  guard (negb (blank tenant || blank q || blank owner_id))
    (ValueError "tenant, queue, and owner must be non-blank") ;;
  st <- get ;;
  acquire_loop owner_id lease_ttl_seconds now fresh (candidates st q tenant now).

(** The condition under which [_require_current] returns *)
Definition holds_lease (current : DurableWorkItem P) (active : FencedLease)
    (w : LeasedWorkItem P) (now : datetime) : bool :=
  bool_decide (state current = LEASED) &&
  bool_decide (tenant_id current = tenant_id (item w)) &&
  (attempt current =? attempt (item w)) &&
  bool_decide (lease_tenant_id active = tenant_id (item w)) &&
  (lease_id active =? lease_id (lease w)) &&
  bool_decide (lease_owner_id active = lease_owner_id (lease w)) &&
  (fence_token active =? fence_token (lease w)) &&
  negb (is_expired active now).

Definition require_current (w : LeasedWorkItem P) (now : datetime)
    : M store (DurableWorkItem P) :=
  st <- get ;;
  match items st !! job_id (item w), leases st !! job_id (item w) with
  | Some current, Some active =>
      if holds_lease current active w now then ret current
      else raise (LeaseLostError "work transition rejected because scheduler lease is stale")
  | _, _ => raise (LeaseLostError "work transition rejected because scheduler lease is stale")
  end.

(** [now] is read by [_require_current], [done_at] by the completion itself. *)
Definition complete (w : LeasedWorkItem P) (now done_at : datetime)
    : M store (DurableWorkItem P) :=
  current <- require_current w now ;;
  let completed :=
    update_item current SUCCEEDED (attempt current) (available_at current)
      (Some done_at) (last_error current) in
  set_item completed ;;
  pop_lease (job_id current) ;;
  ret completed.

Definition retry (w : LeasedWorkItem P) (delay_seconds : pyfloat) (error : string)
    (now later : datetime) : M store (DurableWorkItem P) :=
  guard (negb (float_ltb delay_seconds (float_of_int 0)))
    (ValueError "retry delay cannot be negative") ;;
  guard (negb (blank error)) (ValueError "retry error must be non-blank") ;;
  current <- require_current w now ;;
  updated <-
    (if exhausted current then
       ret (update_item current DEAD_LETTER (attempt current) (available_at current)
              (completed_at current) (Some error))
     else
       delay <- lift (timedelta_seconds delay_seconds) ;;
       ret (update_item current QUEUED (attempt current) (later + delay)
              (completed_at current) (Some error))) ;;
  set_item updated ;;
  pop_lease (job_id current) ;;
  ret updated.

Definition snapshot (q tenant : string) (now : datetime) : M store QueueSnapshot :=
  guard (negb (blank tenant || blank q)) (ValueError "tenant and queue must be non-blank") ;;
  st <- get ;;
  let mine := List.filter (fun i => bool_decide (queue i = q) && bool_decide (tenant_id i = tenant))
                (item_values st) in
  let in_state s := count_if (fun i : DurableWorkItem P => bool_decide (state i = s)) mine in
  q' <- lift (NonBlankStr "queue" q) ;;
  tenant' <- lift (NonBlankStr "tenant_id" tenant) ;;
  ret {| snap_queue := q'; snap_tenant_id := tenant'; queued := in_state QUEUED;
         leased := in_state LEASED; dead_letter := in_state DEAD_LETTER;
         succeeded := in_state SUCCEEDED; captured_at := now |}.

(** The calls clients make, with any constructed record and any lease.  A step carries
    the time it ends at; [clock] relates the readings of the clock, in the order in
    which they are taken. *)
Inductive clocked_step (clock : datetime -> datetime -> Prop) (depth : Z)
    : store * datetime -> store * datetime -> Prop :=
| step_enqueue i st t t' o st' :
    constructed i = true -> clock t t' ->
    enqueue depth i st = (o, st') -> clocked_step clock depth (st, t) (st', t')
| step_acquire q ow ttl te fresh st t t' o st' :
    clock t t' -> acquire q ow ttl te t' fresh st = (o, st') ->
    clocked_step clock depth (st, t) (st', t')
| step_complete w t1 st t t' o st' :
    clock t t1 -> clock t1 t' -> complete w t1 t' st = (o, st') ->
    clocked_step clock depth (st, t) (st', t')
| step_retry w delay err t1 st t t' o st' :
    clock t t1 -> clock t1 t' -> retry w delay err t1 t' st = (o, st') ->
    clocked_step clock depth (st, t) (st', t').

(** Any clock, also one that is set back: [datetime.now] reads the wall clock *)
Definition step : Z -> store * datetime -> store * datetime -> Prop := clocked_step (fun _ _ => True).
(** A clock that never runs backwards *)
Definition forward_step : Z -> store * datetime -> store * datetime -> Prop := clocked_step Z.le.

End Queue.
Arguments store : clear implicits.
End WorkQueue.

(** ** [RuntimeLifecycle] *)
Module Lifecycle.

Inductive RuntimeState : Set := ACCEPTING | DRAINING | STOPPED.

#[export] Instance RuntimeState_eq_dec : EqDecision RuntimeState.
Proof. solve_decision. Defined.

Record lifecycle : Set := { state : RuntimeState; in_flight : Z }.

Definition initial : lifecycle := {| state := ACCEPTING; in_flight := 0 |}.

Definition accepting (l : lifecycle) : bool := bool_decide (state l = ACCEPTING).

(** [admit] up to its [yield] *)
Definition admit_enter : M lifecycle unit :=
  l <- get ;;
  guard (accepting l)
    (RuntimeDrainingError "runtime is draining and is not accepting new work") ;;
  put {| state := state l; in_flight := in_flight l + 1 |}.

(** the [finally] block of [admit] *)
Definition admit_exit : M lifecycle unit :=
  modify (fun l => {| state := state l; in_flight := in_flight l - 1 |}).

Definition begin_draining : M lifecycle unit :=
  modify (fun l => if accepting l then {| state := DRAINING; in_flight := in_flight l |} else l).

Definition stop : M lifecycle unit :=
  modify (fun l => {| state := STOPPED; in_flight := in_flight l |}).

(** [wakeups] are the values of [_in_flight] at the notifications that arrive
    before the timeout. *)
Definition wait_for_drain (timeout_seconds : pyfloat) (wakeups : list Z) : M lifecycle bool :=
  guard (negb (float_ltb timeout_seconds (float_of_int 0)))
    (ValueError "drain timeout cannot be negative") ;;
  l <- get ;;
  if in_flight l =? 0 then ret true
  else ret (existsb (fun n => n =? 0) wakeups).

(** The process: tasks enter [admit] and leave it; operators drain and stop. *)
Inductive step : lifecycle * nat -> lifecycle * nat -> Prop :=
| step_enter l l' n : admit_enter l = (Ok tt, l') -> step (l, n) (l', S n)
| step_rejected l l' n e : admit_enter l = (Raise e, l') -> step (l, n) (l', n)
| step_exit l l' n : admit_exit l = (Ok tt, l') -> step (l, S n) (l', n)
| step_drain l l' n : begin_draining l = (Ok tt, l') -> step (l, n) (l', n)
| step_stop l l' n : stop l = (Ok tt, l') -> step (l, n) (l', n).

End Lifecycle.

(** ** [CapacityAdmissionController] *)
Module Capacity.

Record controller : Type := { total : Z; per_tenant : gmap string Z }.

Definition initial : controller := {| total := 0; per_tenant := ∅ |}.

Definition set_tenant (t : string) (n : Z) (c : controller) : controller :=
  {| total := total c; per_tenant := <[t := n]> (per_tenant c) |}.

(** [admit] up to its [yield].  Reading the [defaultdict(int)] stores the
    default, also when the admission is then refused. *)
Definition admit_enter (envelope : CapacityEnvelope) (t : string) : M controller unit :=
  c <- get ;;
  let tenant_count := default 0 (per_tenant c !! t) in
  modify (set_tenant t tenant_count) ;;
  guard (negb (max_in_flight envelope <=? total c))
    (CapacityExceededError "global in-flight capacity is exhausted") ;;
  guard (negb (max_per_tenant_in_flight envelope <=? tenant_count))
    (CapacityExceededError "tenant in-flight capacity is exhausted") ;;
  modify (fun c => {| total := total c + 1; per_tenant := per_tenant c |}) ;;
  modify (set_tenant t (tenant_count + 1)).

(** the [finally] block of [admit] *)
Definition admit_exit (t : string) : M controller unit := modify (fun c =>
  let remaining := default 0 (per_tenant c !! t) - 1 in
  if remaining =? 0
  then {| total := total c - 1; per_tenant := delete t (per_tenant c) |}
  else {| total := total c - 1; per_tenant := <[t := remaining]> (per_tenant c) |}).

(** Tasks enter and leave in any order; the second component lists the tenants
    of the tasks inside. *)
Inductive step (envelope : CapacityEnvelope)
    : controller * list string -> controller * list string -> Prop :=
| step_enter c c' t inside :
    admit_enter envelope t c = (Ok tt, c') -> step envelope (c, inside) (c', t :: inside)
| step_rejected c c' t e inside :
    admit_enter envelope t c = (Raise e, c') -> step envelope (c, inside) (c', inside)
| step_exit c c' t inside inside' :
    inside ≡ₚ t :: inside' -> admit_exit t c = (Ok tt, c') ->
    step envelope (c, inside) (c', inside').

Definition tenant_count (t : string) (inside : list string) : Z :=
  count_if (fun u => bool_decide (u = t)) inside.

End Capacity.

(** ** [RecoverableScheduler], over the queue port *)
Class DurableWorkQueue (S P : Type) := {
  q_acquire : string -> string -> pyfloat -> string -> datetime -> UUID ->
    M S (option (LeasedWorkItem P));
  q_complete : LeasedWorkItem P -> datetime -> datetime -> M S (DurableWorkItem P);
  q_retry : LeasedWorkItem P -> pyfloat -> string -> datetime -> datetime ->
    M S (DurableWorkItem P);
  q_owns : S -> LeasedWorkItem P -> datetime -> bool;
}.

(** What the port promises its clients: a transition is accepted exactly from the
    current owner of the lease, a refused one changes nothing, and acquiring makes
    the caller that owner. *)
Class DurableWorkQueueLaws (S P : Type) `{!DurableWorkQueue S P} := {
  complete_owned w t1 t2 s :
    q_owns s w t1 = true ->
    exists i s', q_complete w t1 t2 s = (Ok i, s') /\ state i = SUCCEEDED;
  complete_lost w t1 t2 s :
    q_owns s w t1 = false -> exists m, q_complete w t1 t2 s = (Raise (LeaseLostError m), s);
  retry_owned w delay d e t1 t2 s :
    q_owns s w t1 = true -> float_ltb delay (float_of_int 0) = false ->
    timedelta_seconds delay = Ok d -> blank e = false ->
    exists i s', q_retry w delay e t1 t2 s = (Ok i, s') /\ state i <> SUCCEEDED /\
                 last_error i = Some e;
  retry_lost w delay e t1 t2 s :
    q_owns s w t1 = false -> exists x, q_retry w delay e t1 t2 s = (Raise x, s);
  acquire_owns q o ttl te now fresh s w s' :
    q_acquire q o ttl te now fresh s = (Ok (Some w), s') -> q_owns s' w now = true;
}.

Module Scheduler.
Section Scheduler.
Context {S P : Type} `{!DurableWorkQueue S P}.

Record scheduler : Set := {
  queue_name : string;
  owner_id : string;
  lease_ttl : pyfloat;
  retry_delay : pyfloat;
}.

Definition new_scheduler (queue_name owner_id : string) (lease_ttl retry_delay : pyfloat)
    : outcome scheduler :=
  require_positive_ttl lease_ttl ;~
  require (negb (float_ltb retry_delay (float_of_int 0)))
    (ValueError "retry delay cannot be negative") ;~
  Ok {| queue_name := queue_name; owner_id := owner_id;
        lease_ttl := lease_ttl; retry_delay := retry_delay |}.

(** [handler] is any computation on the queue's state: while the worker awaits
    it, other tasks use the queue.  The clock readings of the acquisition and of
    the transition that ends the run are arguments. *)
Definition run_once (sch : scheduler) (handler : LeasedWorkItem P -> M S unit)
    (tenant : string) (now : datetime) (fresh : UUID) (t1 t2 : datetime) : M S bool :=
  guard (negb (blank tenant)) (ValueError "scheduler tenant must be non-blank") ;;
  leased <- q_acquire (queue_name sch) (owner_id sch) (lease_ttl sch) tenant now fresh ;;
  match leased with
  | None => ret false
  | Some w =>
      try_except (handler w)
        (fun exc =>
           q_retry w (retry_delay sch) (exn_type_name exc +:+ ": " +:+ exn_str exc) t1 t2 ;;
           raise exc) ;;
      q_complete w t1 t2 ;;
      ret true
  end.

End Scheduler.
End Scheduler.

(** * Facts: the lease store *)
Module LeaseStoreFacts.
Import LeaseStore.

(** The life of one slot, abstracting from the calls that cause each step. *)
Inductive slot_step : LeaseSlot -> LeaseSlot -> Prop :=
| slot_same s : slot_step s s
| slot_released s :
    slot_step s {| slot_fence_token := slot_fence_token s; slot_current := None |}
| slot_renewed s c e :
    slot_current s = Some c ->
    slot_step s {| slot_fence_token := slot_fence_token s;
                   slot_current := Some (with_expires_at c e) |}
| slot_burnt s :
    slot_step s {| slot_fence_token := slot_fence_token s + 1; slot_current := slot_current s |}
| slot_granted s l :
    fence_token l = slot_fence_token s + 1 ->
    slot_step s {| slot_fence_token := slot_fence_token s + 1; slot_current := Some l |}.

Definition slot_at (k : string * string) (st : store) : LeaseSlot :=
  default empty_slot (st !! k).

Lemma slot_at_insert k k' s st :
  slot_at k' (<[k := s]> st) = if decide (k = k') then s else slot_at k' st.
Proof. unfold slot_at. rewrite lookup_insert. by case_decide. Qed.

(** An update of one slot that is a slot step is a slot step of every slot. *)
Lemma slot_step_insert k s st k' :
  slot_step (slot_at k st) s -> slot_step (slot_at k' st) (slot_at k' (<[k := s]> st)).
Proof.
  intros H. rewrite slot_at_insert. case_decide; [by subst|constructor].
Qed.

Lemma new_FencedLease_Ok id t r o tk a e l :
  new_FencedLease id t r o tk a e = Ok l ->
  fence_token l = tk /\ lease_id l = id /\ acquired_at l = a /\ expires_at l = e /\ a < e /\
  NonBlankStr "tenant_id" t = Ok (lease_tenant_id l) /\
  NonBlankStr "resource_key" r = Ok (lease_resource_key l) /\
  NonBlankStr "owner_id" o = Ok (lease_owner_id l).
Proof.
  unfold new_FencedLease. intros H. run_inv H. b2p. simpl. repeat split; auto.
Qed.

(** Every branch of [acquire], as an update of the one slot it names. *)
Lemma acquire_slot t r o ttl now fresh st out st' :
  acquire t r o ttl now fresh st = (out, st') ->
  (st' = st /\ exists e, out = Raise e) \/ exists s,
    st' = <[(t, r) := s]> st /\ slot_step (slot_at (t, r) st) s /\
    (forall l, out = Ok (Some l) -> slot_current s = Some l).
Proof.
  unfold acquire, bind, lift, guard, get, set_slot, modify.
  destruct (require_positive_ttl ttl); [|intros [= <- <-]; eauto].
  unfold lift, require. case_match; [|intros [= <- <-]; eauto].
  fold (slot_at (t, r) st). set (s := slot_at (t, r) st).
  assert (Hgrant : forall o1 st1,
    match timedelta_seconds ttl with
    | Ok d => match new_FencedLease fresh t r o (slot_fence_token s + 1) now (now + d) with
              | Ok l => (Ok (Some l),
                  <[(t, r) := {| slot_fence_token := slot_fence_token s + 1;
                                 slot_current := Some l |}]> st)
              | Raise e => (Raise e,
                  <[(t, r) := {| slot_fence_token := slot_fence_token s + 1;
                                 slot_current := slot_current s |}]> st)
              end
    | Raise e => (Raise e,
                  <[(t, r) := {| slot_fence_token := slot_fence_token s + 1;
                                 slot_current := slot_current s |}]> st)
    end = (o1, st1) ->
    exists s', st1 = <[(t, r) := s']> st /\ slot_step s s' /\
               (forall l, o1 = Ok (Some l) -> slot_current s' = Some l)).
  { intros o1 st1. destruct (timedelta_seconds ttl) as [d|]; [|intros [= <- <-]].
    - destruct (new_FencedLease _ _ _ _ _ _ _) as [l|] eqn:Hl; intros [= <- <-];
        eexists; (split; [reflexivity|]); (split; [|by intros ? [= <-]]).
      + apply slot_granted. by apply new_FencedLease_Ok in Hl as [-> _].
      + apply slot_burnt.
    - eexists; split; [reflexivity|]; split; [apply slot_burnt|by intros ? [=]]. }
  intros Hrun. right.
  destruct (slot_current s) as [c|] eqn:Hc; [destruct (is_expired c now) eqn:He|]; simpl in Hrun.
  - apply Hgrant. rewrite <- Hrun.
    destruct (timedelta_seconds ttl); [destruct (new_FencedLease _ _ _ _ _ _ _)|];
      simpl; rewrite ?insert_insert_eq; try reflexivity.
  - injection Hrun as <- <-. exists s. split; [|split; [constructor|]].
    + done.
    + case_bool_decide; intros ? [=]; congruence.
  - apply Hgrant. rewrite <- Hrun.
    destruct (timedelta_seconds ttl); [destruct (new_FencedLease _ _ _ _ _ _ _)|];
      simpl; rewrite ?insert_insert_eq; try reflexivity.
Qed.

Lemma slot_at_Some k st s : st !! k = Some s -> slot_at k st = s.
Proof. unfold slot_at. by intros ->. Qed.

Lemma renew_slot l ttl now st out st' :
  renew l ttl now st = (out, st') ->
  st' = st \/ exists s, st' = <[slot_key l := s]> st /\ slot_step (slot_at (slot_key l) st) s.
Proof.
  unfold renew, bind, lift, get, set_slot, modify, raise.
  destruct (require_positive_ttl ttl); [|intros [= <- <-]; auto].
  destruct (st !! slot_key l) as [s|] eqn:Hs; [|intros [= <- <-]; auto].
  destruct (slot_current s) as [c|] eqn:Hc; [|intros [= <- <-]; auto].
  case_match; [intros [= <- <-]; auto|].
  destruct (timedelta_seconds ttl); intros [= <- <-]; [|auto].
  right. rewrite (slot_at_Some _ _ _ Hs). eexists. split; [reflexivity|]. by constructor.
Qed.

Lemma release_slot l now st out st' :
  release l now st = (out, st') ->
  st' = st \/ exists s, st' = <[slot_key l := s]> st /\ slot_step (slot_at (slot_key l) st) s.
Proof.
  unfold release, bind, get, set_slot, modify, raise.
  destruct (st !! slot_key l) as [s|] eqn:Hs; [|intros [= <- <-]; auto].
  destruct (slot_current s) as [c|] eqn:Hc; [|intros [= <- <-]; auto].
  case_match; intros [= <- <-]; [auto|].
  right. rewrite (slot_at_Some _ _ _ Hs). eexists. split; [reflexivity|]. constructor.
Qed.

(** The store refines the slot machine: a call is a slot step of every slot. *)
Lemma lease_step_refines st st' k : step st st' -> slot_step (slot_at k st) (slot_at k st').
Proof.
  destruct 1 as [? ? ? ? ? ? ? ? ? H|? ? ? ? ? ? H|? ? ? ? ? H];
    [apply acquire_slot in H|apply renew_slot in H|apply release_slot in H];
    first [destruct H as [[-> _]|(s & -> & Hs & _)] | destruct H as [->|(s & -> & Hs)]];
    auto using slot_same, slot_step_insert.
Qed.

(** The current lease never carries a token the slot has not handed out. *)
Definition slot_ok (s : LeaseSlot) : Prop :=
  0 <= slot_fence_token s /\
  forall c, slot_current s = Some c -> fence_token c <= slot_fence_token s.

Definition same_grant (a b : FencedLease) : Prop :=
  lease_id a = lease_id b /\ lease_owner_id a = lease_owner_id b /\
  fence_token a = fence_token b.

(** From the moment [l] was current, the slot holds that grant or a later one. *)
Definition slot_since (l : FencedLease) (s : LeaseSlot) : Prop :=
  fence_token l <= slot_fence_token s /\
  forall c, slot_current s = Some c -> same_grant c l \/ fence_token l < fence_token c.

Lemma slot_ok_step s s' : slot_step s s' -> slot_ok s -> slot_ok s'.
Proof.
  unfold slot_ok. destruct 1; simpl; intros [H0 Hs]; split; try lia; try done.
  - intros c' [= <-]. simpl. auto.
  - intros c Hc. specialize (Hs _ Hc). lia.
  - intros c [= <-]. lia.
Qed.

Lemma slot_since_step l s s' : slot_step s s' -> slot_since l s -> slot_since l s'.
Proof.
  unfold slot_since. destruct 1; simpl; intros [H0 Hs]; split; try lia; try done.
  - intros c' [= <-]. destruct (Hs _ H) as [Hg|Hg]; [left|right]; done.
  - intros c [= <-]. right. lia.
Qed.

Lemma lease_reachable_ok st k : rtc step empty st -> slot_ok (slot_at k st).
Proof.
  intros H. revert st H. apply (rtc_ind_r (fun st => slot_ok (slot_at k st)) empty).
  - unfold slot_at, empty. rewrite lookup_empty. split; simpl; [lia|done].
  - intros y z _ Hs IH. eapply slot_ok_step; eauto using lease_step_refines.
Qed.

Lemma since_preserved l st st' k :
  rtc step st st' -> slot_since l (slot_at k st) -> slot_since l (slot_at k st').
Proof.
  induction 1; [done|]. intros. apply IHrtc. eapply slot_since_step; eauto using lease_step_refines.
Qed.

Lemma acquire_since t r o ttl now fresh st l st' :
  slot_ok (slot_at (t, r) st) ->
  acquire t r o ttl now fresh st = (Ok (Some l), st') ->
  slot_current (slot_at (t, r) st') = Some l /\ slot_ok (slot_at (t, r) st') /\
  slot_since l (slot_at (t, r) st').
Proof.
  intros Hok H.
  assert (Hc : slot_current (slot_at (t, r) st') = Some l).
  { destruct (acquire_slot _ _ _ _ _ _ _ _ _ H) as [[_ [e [=]]]|(s & -> & _ & Hl)].
    rewrite slot_at_insert, decide_True by done. auto. }
  assert (Hok' : slot_ok (slot_at (t, r) st')).
  { eapply slot_ok_step; [|exact Hok]. eapply lease_step_refines. econstructor; exact H. }
  split; [done|]. split; [done|]. destruct Hok' as [? Hle]. split; [by apply Hle|].
  intros c Hc'. left. assert (c = l) as -> by congruence. repeat split.
Qed.

(** A lease older than what its slot has held since is refused everywhere. *)
Lemma stale_refused l l' st now ttl :
  slot_since l' (slot_at (slot_key l) st) -> fence_token l < fence_token l' ->
  is_current l now st = false /\
  (exists e, release l now st = (Raise (LeaseLostError e), st)) /\
  (exists e, renew l ttl now st = (Raise e, st)).
Proof.
  unfold slot_at. intros [_ Hs] Hlt.
  assert (Hm : forall s c, st !! slot_key l = Some s -> slot_current s = Some c ->
               matches (Some c) l = false).
  { intros s c Hl Hc. rewrite Hl in Hs. simpl in Hs. simpl. rewrite !andb_false_iff, Z.eqb_neq.
    right. destruct (Hs c Hc) as [(_ & _ & ->)|]; lia. }
  unfold is_current, release, renew, bind, get, raise, lift.
  destruct (st !! slot_key l) as [s|] eqn:Hl.
  2: { split; [done|]. split; [eauto|]. destruct (require_positive_ttl ttl); eauto. }
  destruct (slot_current s) as [c|] eqn:Hc.
  2: { split; [done|]. split; [eauto|]. destruct (require_positive_ttl ttl); eauto. }
  rewrite (Hm s c) by done. simpl.
  split; [done|]. split; [eauto|]. destruct (require_positive_ttl ttl); eauto.
Qed.

End LeaseStoreFacts.
