(* ===== verification/HaProofs.v ===== *)
(** * Correctness of leases, the work queue, admission and the scheduler

    [Module LeaseProperties]: mutual exclusion by fencing of [InMemoryLeaseStore].
    [Module QueueFacts]: the work queue refines a per-job state machine, keeps the
    record validators true although [model_copy] skips them, and fences stale
    owners.  [Module AdmissionProperties]: the lifecycle and the capacity
    controller count exactly the tasks inside.  [Module SchedulerProperties]: the
    worker loop against the queue interface, and the instance of the interface. *)

From S2P Require Import Prelude Ha.

Module LeaseProperties.
Import LeaseStore LeaseStoreFacts.

(** C12: fenced mutual exclusion.  If a client was granted [l1] on a slot and a
    different grant [l2] was made on it later, then [l2] carries a larger fence
    token, and from then on, whatever calls follow, every use of [l1] is refused:
    it is not current, it cannot be released, it cannot be renewed, and the
    attempts leave the store as it was. *)
Theorem fenced_exclusion t r st0 o1 ttl1 now1 id1 l1 st1 st2 o2 ttl2 now2 id2 l2 st3 st4 :
  rtc step empty st0 ->
  acquire t r o1 ttl1 now1 id1 st0 = (Ok (Some l1), st1) -> slot_key l1 = (t, r) ->
  rtc step st1 st2 ->
  acquire t r o2 ttl2 now2 id2 st2 = (Ok (Some l2), st3) -> lease_id l2 <> lease_id l1 ->
  rtc step st3 st4 ->
  fence_token l1 < fence_token l2 /\
  forall now ttl,
    is_current l1 now st4 = false /\
    (exists m, release l1 now st4 = (Raise (LeaseLostError m), st4)) /\
    (exists e, renew l1 ttl now st4 = (Raise e, st4)).
Proof.
  intros H0 Ha1 Hk H12 Ha2 Hne H34.
  pose proof (lease_reachable_ok _ (t, r) H0) as Hok0.
  destruct (acquire_since _ _ _ _ _ _ _ _ _ Hok0 Ha1) as (_ & _ & Hs1).
  assert (Hr2 : rtc step empty st2).
  { etrans; [exact H0|]. econstructor; [econstructor; exact Ha1|exact H12]. }
  destruct (acquire_since _ _ _ _ _ _ _ _ _ (lease_reachable_ok _ (t, r) Hr2) Ha2) as (Hc & _ & Hs2).
  assert (Hlt : fence_token l1 < fence_token l2).
  { assert (Hs : slot_since l1 (slot_at (t, r) st3)).
    { eapply since_preserved; [|exact Hs1]. etrans; [exact H12|].
      apply rtc_once. econstructor; exact Ha2. }
    destruct Hs as [_ Hs]. destruct (Hs _ Hc) as [[]|]; done. }
  split; [done|]. intros now ttl. apply (stale_refused l1 l2); [|done].
  rewrite Hk. by eapply since_preserved.
Qed.

Definition w_lease1 : FencedLease :=
  {| lease_id := 1; lease_tenant_id := "t"; lease_resource_key := "r";
     lease_owner_id := "a"; fence_token := 1; acquired_at := 0; expires_at := 1000000 |}.
Definition w_lease2 : FencedLease :=
  {| lease_id := 2; lease_tenant_id := "t"; lease_resource_key := "r";
     lease_owner_id := "b"; fence_token := 2; acquired_at := 1000000; expires_at := 2000000 |}.
Definition w_store1 : store :=
  <[("t", "r") := {| slot_fence_token := 1; slot_current := Some w_lease1 |}]> empty.
Definition w_store2 : store :=
  <[("t", "r") := {| slot_fence_token := 2; slot_current := Some w_lease2 |}]> empty.

Lemma fenced_exclusion_witness :
  fence_token w_lease1 < fence_token w_lease2 /\
  forall now ttl,
    is_current w_lease1 now w_store2 = false /\
    (exists m, release w_lease1 now w_store2 = (Raise (LeaseLostError m), w_store2)) /\
    (exists e, renew w_lease1 ttl now w_store2 = (Raise e, w_store2)).
Proof.
  apply (fenced_exclusion "t" "r" empty "a" (float_of_int 1) 0 1 w_lease1 w_store1 w_store1
           "b" (float_of_int 1) 1000000 2 w_lease2 w_store2 w_store2);
    try apply rtc_refl; try (vm_compute; reflexivity); vm_compute; discriminate.
Defined.

End LeaseProperties.

(** * The work queue *)
Module QueueFacts.
Import WorkQueue.
Section QueueFacts.
Context {P : Type} `{!EqDecision P}.
Implicit Types (st : WorkQueue.store P) (i c : DurableWorkItem P).

(** ** The order of the candidates *)
Lemma candidate_leb_spec a b :
  candidate_leb (P:=P) a b = true <->
  available_at a < available_at b \/
  (available_at a = available_at b /\
   (created_at a < created_at b \/
    (created_at a = created_at b /\
     String.leb (uuid_str (job_id a)) (uuid_str (job_id b)) = true))).
Proof.
  unfold candidate_leb, lex_leb. rewrite !orb_true_iff, !andb_true_iff, !orb_true_iff,
    !andb_true_iff, !Z.ltb_lt, !Z.eqb_eq. tauto.
Qed.

Lemma candidate_leb_total a b :
  candidate_leb (P:=P) a b = true \/ candidate_leb b a = true.
Proof.
  rewrite !candidate_leb_spec.
  destruct (Z.lt_trichotomy (available_at a) (available_at b)) as [|[|]]; [tauto| |tauto].
  destruct (Z.lt_trichotomy (created_at a) (created_at b)) as [|[|]]; [tauto| |right; right; lia].
  destruct (String.leb_total (uuid_str (job_id a)) (uuid_str (job_id b)));
    [left|right]; right; (split; [lia|]); right; (split; [lia|done]).
Qed.

Lemma candidate_leb_trans a b c :
  candidate_leb (P:=P) a b = true -> candidate_leb b c = true -> candidate_leb a c = true.
Proof.
  rewrite !candidate_leb_spec. intros [|[? [|[? H1]]]] [|[? [|[? H2]]]]; try lia.
  right. split; [lia|]. right. split; [lia|]. eapply string_leb_trans; eauto.
Qed.

Lemma elem_of_candidates st q t now c :
  (forall k i, items st !! k = Some i -> job_id i = k) ->
  c ∈ candidates st q t now <->
  items st !! job_id c = Some c /\ queue c = q /\ tenant_id c = t /\ eligible st c now = true.
Proof.
  intros Hkeys. unfold candidates, item_values. rewrite elem_of_sort_by, list_elem_of_In, filter_In.
  rewrite !andb_true_iff, !bool_decide_eq_true, <- list_elem_of_In.
  enough (c ∈ map snd (map_to_list (items st)) <-> items st !! job_id c = Some c) by tauto.
  rewrite list_elem_of_fmap. split.
  - intros ([k c'] & -> & Hin). apply elem_of_map_to_list in Hin. simpl.
    by rewrite (Hkeys _ _ Hin).
  - intros Hl. exists (job_id c, c). split; [done|]. by apply elem_of_map_to_list.
Qed.

Lemma candidates_NoDup st q t now :
  (forall k i, items st !! k = Some i -> job_id i = k) ->
  NoDup (map job_id (candidates st q t now)).
Proof.
  intros Hkeys. unfold candidates.
  rewrite (fmap_Permutation job_id _ _ (sort_by_perm _ _)).
  unfold item_values. set (p := fun i => _ && _).
  assert (Hfst : forall l : list (UUID * DurableWorkItem P),
    (forall k i, (k, i) ∈ l -> job_id i = k) ->
    sublist (map job_id (List.filter p (map snd l))) (map fst l)).
  { induction l as [|[k i] l IH]; simpl; intros Hl; [constructor|].
    assert (sublist (map job_id (List.filter p (map snd l))) (map fst l))
      by (apply IH; set_solver).
    assert (job_id i = k) by set_solver. case_match; simpl; [subst; by constructor|by constructor]. }
  eapply sublist_NoDup; [apply (NoDup_fst_map_to_list (items st))|].
  apply Hfst. intros k i Hin. apply Hkeys. by apply elem_of_map_to_list in Hin.
Qed.

(** ** The loop of [acquire]: it buries a prefix of exhausted candidates, then
    grants the next one, if there is one. *)
Definition buried (dead : list (DurableWorkItem P)) st : WorkQueue.store P :=
  foldl (fun st c => snd (bury c st)) st dead.

Lemma acquire_loop_spec ow ttl now fresh cands st out st' :
  acquire_loop ow ttl now fresh cands st = (out, st') ->
  exists dead rest, cands = dead ++ rest /\
    Forall (fun c => exhausted c = true) dead /\
    match rest with
    | [] => out = Ok None /\ st' = buried dead st
    | c :: _ => exhausted c = false /\ grant ow ttl now fresh c (buried dead st) = (out, st')
    end.
Proof.
  revert st. induction cands as [|c cands IH]; intros st; simpl.
  - intros [= <- <-]. exists [], []. repeat split; constructor.
  - destruct (exhausted c) eqn:E; intros H.
    + change (acquire_loop ow ttl now fresh cands (snd (bury c st)) = (out, st')) in H.
      apply IH in H as (dead & rest & -> & Hd & Hr). exists (c :: dead), rest.
      repeat split; [|exact Hr]. by constructor.
    + exists [], (c :: cands). repeat split; [constructor|done|exact H].
Qed.

Lemma buried_spec dead st k :
  NoDup (map job_id dead) ->
  (exists c, c ∈ dead /\ job_id c = k /\
     items (buried dead st) !! k = Some (dead_lettered c) /\ leases (buried dead st) !! k = None) \/
  (k ∉ map job_id dead /\ items (buried dead st) !! k = items st !! k /\
   leases (buried dead st) !! k = leases st !! k).
Proof.
  revert st. induction dead as [|c dead IH]; intros st; [right; set_solver|].
  intros [Hc Hnd]%NoDup_cons.
  change (buried (c :: dead) st) with (buried dead (snd (bury c st))).
  destruct (IH (snd (bury c st)) Hnd) as [(c' & Hin & Hj & Hi & Hl)|(Hni & Hi & Hl)].
  - left. exists c'. split; [by constructor|]. done.
  - destruct (decide (job_id c = k)) as [<-|Hne].
    + left. exists c. split; [by constructor|]. split; [done|].
      rewrite Hi, Hl. simpl. by rewrite lookup_insert_eq, lookup_delete_eq.
    + right. rewrite Hi, Hl. simpl. rewrite lookup_insert_ne, lookup_delete_ne by done.
      split; [set_solver|done].
Qed.

Lemma buried_rest dead st :
  identities (buried dead st) = identities st /\ fence_tokens (buried dead st) = fence_tokens st.
Proof.
  revert st. induction dead as [|c dead IH]; intros st; [done|]. apply (IH (snd (bury c st))).
Qed.

(** ** What each operation does to the store *)

(** The end of a job's lease: its record is replaced and the lease dropped. *)
Definition settle (u : DurableWorkItem P) st : WorkQueue.store P :=
  snd (pop_lease (job_id u) (snd (set_item u st))).

Definition leased_as c : DurableWorkItem P :=
  update_item c LEASED (attempt c + 1) (available_at c) (completed_at c) (last_error c).

Definition with_lease c l st : WorkQueue.store P :=
  snd (set_lease (job_id c) l (snd (set_item (leased_as c) (snd (next_token (job_id c) st))))).

Definition token_of st (k : UUID) : Z := default 0 (fence_tokens st !! k).

Lemma grant_spec ow ttl now fresh c st out st' :
  grant ow ttl now fresh c st = (out, st') ->
  (exists e, out = Raise e /\ st' = snd (next_token (job_id c) st)) \/
  (exists d l, timedelta_seconds ttl = Ok d /\
     new_FencedLease fresh (tenant_id c) (resource_key c) ow (token_of st (job_id c) + 1)
       now (now + d) = Ok l /\
     out = (w <~ new_LeasedWorkItem (leased_as c) l ;; Ok (Some w)) /\
     st' = with_lease c l st).
Proof.
  unfold grant, bind, lift. simpl. fold (token_of st (job_id c)).
  destruct (timedelta_seconds ttl) as [d|e]; [|intros [= <- <-]; eauto].
  destruct (new_FencedLease _ _ _ _ _ _ _) as [l|e] eqn:Hl; [|intros [= <- <-]; eauto].
  intros H. right. exists d, l. split; [done|]. split; [done|].
  destruct (new_LeasedWorkItem _ _) eqn:Hw in H; injection H as <- <-;
    unfold leased_as; rewrite Hw; done.
Qed.

Lemma require_current_spec w now st :
  (exists c a, items st !! job_id (item w) = Some c /\ leases st !! job_id (item w) = Some a /\
     holds_lease c a w now = true /\ require_current w now st = (Ok c, st)) \/
  (exists m, require_current w now st = (Raise (LeaseLostError m), st)).
Proof.
  unfold require_current, bind, get, raise, ret. simpl.
  destruct (items st !! _) as [c|]; [|eauto]. destruct (leases st !! _) as [a|]; [|eauto].
  destruct (holds_lease c a w now) eqn:E; [left|right]; eauto 10.
Qed.

Definition completed_as c (at_ : datetime) : DurableWorkItem P :=
  update_item c SUCCEEDED (attempt c) (available_at c) (Some at_) (last_error c).

Lemma complete_spec w now done_at st out st' :
  complete w now done_at st = (out, st') ->
  (exists m, out = Raise (LeaseLostError m) /\ st' = st) \/
  (exists c a, items st !! job_id (item w) = Some c /\ leases st !! job_id (item w) = Some a /\
     holds_lease c a w now = true /\
     out = Ok (completed_as c done_at) /\ st' = settle (completed_as c done_at) st).
Proof.
  unfold complete, bind.
  destruct (require_current_spec w now st) as [(c & a & Hi & Hl & Hh & ->)|(m & ->)];
    intros [= <- <-]; [right|left]; eauto 10.
Qed.

(** What [retry] makes of the record *)
Definition retried c (delay : timedelta) (error : string) (later : datetime) : DurableWorkItem P :=
  if exhausted c
  then update_item c DEAD_LETTER (attempt c) (available_at c) (completed_at c) (Some error)
  else update_item c QUEUED (attempt c) (later + delay) (completed_at c) (Some error).

Lemma retry_spec w delay error now later st out st' :
  retry w delay error now later st = (out, st') ->
  ((exists e, out = Raise e) /\ st' = st) \/
  (exists c a d, items st !! job_id (item w) = Some c /\ leases st !! job_id (item w) = Some a /\
     holds_lease c a w now = true /\ 0 <= d /\ blank error = false /\
     out = Ok (retried c d error later) /\ st' = settle (retried c d error later) st).
Proof.
  unfold retry, bind, guard, lift, require.
  destruct (float_ltb delay _) eqn:Hd; simpl; [intros [= <- <-]; eauto|].
  destruct (blank error) eqn:Hb; simpl; [intros [= <- <-]; eauto|].
  destruct (require_current_spec w now st) as [(c & a & Hi & Hl & Hh & ->)|(m & ->)];
    [|intros [= <- <-]; eauto].
  destruct (exhausted c) eqn:Hx.
  - intros [= <- <-]. right. exists c, a, 0. unfold retried. rewrite Hx. repeat split; auto. lia.
  - destruct (timedelta_seconds delay) as [d|e] eqn:Ht; [|intros [= <- <-]; eauto].
    intros [= <- <-]. right. exists c, a, d. unfold retried. rewrite Hx.
    repeat split; eauto using timedelta_seconds_nonneg.
Qed.

Definition enqueued i st : WorkQueue.store P :=
  snd (set_identity (identity i) (job_id i) (snd (set_item i st))).

Lemma enqueue_spec depth i st out st' :
  enqueue depth i st = (out, st') ->
  st' = st \/
  (identities st !! identity i = None /\ state i = QUEUED /\ attempt i = 0 /\
   active_count (queue i) st < depth /\ out = Ok i /\ st' = enqueued i st).
Proof.
  unfold enqueue, bind, guard, lift, require, get, raise, ret.
  destruct (_ && _) eqn:Hn; [|intros [= <- <-]; auto]. b2p.
  destruct (identities st !! identity i) as [k|] eqn:Hk.
  - destruct (items st !! k); [|intros [= <- <-]; auto]. case_match; intros [= <- <-]; auto.
  - destruct (depth <=? _) eqn:Hd; simpl; [intros [= <- <-]; auto|]. b2p.
    intros [= <- <-]. right. repeat split; auto.
Qed.

(** ** The abstract machines: the record of a job, and its lease *)
Definition open_job i : Prop := state i = QUEUED \/ state i = LEASED.

(** One step of one job's record, by a call that ends at [now] and registers the new
    identities [fresh] of work.  A record appears, also in the place of another one,
    with new work only. *)
Inductive job_step (fresh : string * string * string -> Prop) (now : datetime) (k : UUID) :
    option (DurableWorkItem P) -> option (DurableWorkItem P) -> Prop :=
| job_same o : job_step fresh now k o o
| job_enqueued o i :
    fresh (identity i) -> state i = QUEUED -> attempt i = 0 -> constructed i = true -> job_id i = k ->
    job_step fresh now k o (Some i)
| job_leased i :
    state i = QUEUED /\ available_at i <= now \/ state i = LEASED ->
    attempt i < max_attempts i ->
    job_step fresh now k (Some i) (Some (leased_as i))
| job_dead i e :
    open_job i -> max_attempts i <= attempt i -> e <> "" ->
    job_step fresh now k (Some i)
      (Some (update_item i DEAD_LETTER (attempt i) (available_at i) (completed_at i) (Some e)))
| job_completed i :
    state i = LEASED -> job_step fresh now k (Some i) (Some (completed_as i now))
| job_requeued i available e :
    state i = LEASED -> attempt i < max_attempts i -> now <= available ->
    job_step fresh now k (Some i)
      (Some (update_item i QUEUED (attempt i) available (completed_at i) (Some e))).

(** The identities of work a call registers for the job [k] *)
Definition registers st st' (k : UUID) (d : string * string * string) : Prop :=
  identities st !! d = None /\ identities st' !! d = Some k.

(** The lease of a job lives in a slot, as those of the lease store do. *)
Definition slot_of st k : LeaseStore.LeaseSlot :=
  {| LeaseStore.slot_fence_token := token_of st k; LeaseStore.slot_current := leases st !! k |}.

(** What a reachable store keeps true of every job: all the validators demand of a
    record, but the order of its instants *)
Definition well_kept i : Prop :=
  (stripped (tenant_id i) = true /\ stripped (queue i) = true /\ stripped (kind i) = true /\
   stripped (idempotency_key i) = true) /\
  0 <= attempt i <= max_attempts i /\ 1 <= max_attempts i <= 1000 /\
  (state i = SUCCEEDED <-> completed_at i <> None) /\
  (state i = DEAD_LETTER -> truthy (last_error i) = true).

Definition item_ok (k : UUID) i : Prop := job_id i = k /\ well_kept i.

(** ... and what it keeps as long as the clock never ran backwards *)
Definition timely_item (now : datetime) i : Prop :=
  created_at i <= available_at i /\ (state i = LEASED -> available_at i <= now).

Definition on_item (ok : DurableWorkItem P -> Prop) (o : option (DurableWorkItem P)) : Prop :=
  match o with Some i => ok i | None => True end.

Record wq_ok st : Prop := {
  ok_items : forall k i, items st !! k = Some i -> item_ok k i;
  ok_slots : forall k, LeaseStoreFacts.slot_ok (slot_of st k);
}.

Lemma ok_keys st : wq_ok st -> forall k i, items st !! k = Some i -> job_id i = k.
Proof. intros [H _] k i Hk. by destruct (H k i Hk). Qed.

Lemma constructed_spec i :
  constructed i = true <-> well_kept i /\ created_at i <= available_at i.
Proof.
  unfold constructed, validate_lifecycle, require, well_kept. rewrite !andb_true_iff.
  assert (Hc : forall (b : bool) e (k : outcome unit),
    is_ok ((if b then Ok tt else Raise e) ;~ k) = b && is_ok k) by (by intros []).
  rewrite !Hc, !andb_true_iff, !negb_true_iff, !Z.leb_le, !Z.ltb_ge.
  destruct (state i), (completed_at i), (truthy (last_error i)); simpl; intuition (try congruence; try lia).
Qed.

(** Every step of the record keeps it well, although the validators do not run on a
    [model_copy]. *)
Lemma job_step_ok fresh now k o o' :
  on_item (item_ok k) o -> job_step fresh now k o o' -> on_item (item_ok k) o'.
Proof.
  intros Ho Hs.
  destruct Hs as [[i|]|o i Hf Hq Ha Hc Hk|i Hst Hm|i e Hst Hm He|i Hst|i av e Hst Hm Hav]; [done|done|..].
  1: { split; [done|]. by apply constructed_spec in Hc as [? _]. }
  all: destruct Ho as (Hk & Hf & H0 & H1 & H4 & H5); split; [done|].
  all: unfold well_kept; cbn; unfold open_job in *.
  all: split; [done|]; repeat split; try lia; try congruence.
  all: try (intros; by rewrite ?bool_decide_false).
  all: intros Hx; exfalso; apply Hx; destruct (completed_at i); [|done];
       exfalso; assert (state i = SUCCEEDED) by (by apply H4); intuition congruence.
Qed.

(** With a clock that never runs backwards, no work is available before it is created. *)
Lemma job_step_timely fresh t t' k o o' :
  t <= t' -> on_item (timely_item t) o -> job_step fresh t' k o o' ->
  on_item (item_ok k) o -> on_item (timely_item t') o'.
Proof.
  intros Ht Ho Hs Hok. unfold timely_item in *.
  destruct Hs as [[i|]|o i Hf Hq Ha Hc Hk|i Hst Hm|i e Hst Hm He|i Hst|i av e Hst Hm Hav]; cbn in *; [|done|..].
  2: { apply constructed_spec in Hc as [_ ?]. split; [done|congruence]. }
  all: destruct Ho as [Hc Hl]; split; try lia; try congruence.
  - intros Hst. specialize (Hl Hst). lia.
  - intros _. destruct Hst as [[_ ?]|Hst]; [lia|]. specialize (Hl Hst). lia.
  - specialize (Hl Hst). lia.
Qed.

(** ** The operations refine the two machines *)
Lemma holds_lease_spec c a w now :
  holds_lease (P:=P) c a w now = true ->
  state c = LEASED /\ attempt c = attempt (item w) /\ lease_id a = lease_id (lease w) /\
  fence_token a = fence_token (lease w) /\ now < expires_at a.
Proof. unfold holds_lease, is_expired. intros H. b2p. auto. Qed.

Lemma blank_empty s : blank s = false -> s <> "".
Proof. intros H ->. by rewrite (eq_refl : blank "" = true) in H. Qed.

Lemma settle_lookup u st k :
  items (settle u st) !! k = (if decide (job_id u = k) then Some u else items st !! k) /\
  slot_of (settle u st) k =
    (if decide (job_id u = k)
     then {| LeaseStore.slot_fence_token := token_of st k; LeaseStore.slot_current := None |}
     else slot_of st k).
Proof.
  unfold slot_of, token_of, settle. simpl. case_decide as E.
  - subst k. by rewrite lookup_insert_eq, lookup_delete_eq.
  - by rewrite lookup_insert_ne, lookup_delete_ne.
Qed.

(** Ending the lease of the job the record belongs to. *)
Lemma settle_refines fresh now u c st :
  items st !! job_id u = Some c -> job_step fresh now (job_id u) (Some c) (Some u) ->
  forall k, job_step fresh now k (items st !! k) (items (settle u st) !! k) /\
            LeaseStoreFacts.slot_step (slot_of st k) (slot_of (settle u st) k).
Proof.
  intros Hc Hs k. destruct (settle_lookup u st k) as [-> ->]. case_decide as E.
  - subst k. rewrite Hc. split; [done|]. apply LeaseStoreFacts.slot_released.
  - split; constructor.
Qed.

Lemma eligible_spec st i now :
  eligible st i now = true ->
  (state i = QUEUED /\ available_at i <= now) \/
  (state i = LEASED /\ forall l, leases st !! job_id i = Some l -> expires_at l <= now).
Proof.
  unfold eligible, is_expired. destruct (state i); intros H; try discriminate; b2p; [auto|right].
  split; [done|]. intros l Hl. rewrite Hl in H. by b2p.
Qed.

Lemma with_lease_refines fresh now c l st :
  items st !! job_id c = Some c -> fence_token l = token_of st (job_id c) + 1 ->
  job_step fresh now (job_id c) (Some c) (Some (leased_as c)) ->
  forall k, job_step fresh now k (items st !! k) (items (with_lease c l st) !! k) /\
            LeaseStoreFacts.slot_step (slot_of st k) (slot_of (with_lease c l st) k).
Proof.
  intros Hc Hl Hs k. unfold slot_of, token_of, with_lease. simpl.
  destruct (decide (job_id c = k)) as [<-|Hne].
  - rewrite !lookup_insert_eq, Hc. split; [done|]. simpl.
    by apply LeaseStoreFacts.slot_granted.
  - rewrite !lookup_insert_ne by done. split; constructor.
Qed.

Lemma burnt_refines fresh now k0 st k :
  job_step fresh now k (items st !! k) (items (snd (next_token k0 st)) !! k) /\
  LeaseStoreFacts.slot_step (slot_of st k) (slot_of (snd (next_token k0 st)) k).
Proof.
  split; [constructor|]. unfold slot_of, token_of. simpl.
  destruct (decide (k0 = k)) as [<-|Hne].
  - rewrite lookup_insert_eq. apply LeaseStoreFacts.slot_burnt.
  - rewrite lookup_insert_ne by done. constructor.
Qed.

Lemma dead_lettered_step fresh now c :
  open_job c -> exhausted c = true -> job_step fresh now (job_id c) (Some c) (Some (dead_lettered c)).
Proof.
  intros Ho Hx. unfold exhausted in Hx. b2p. constructor; [done..|].
  unfold str_or. destruct (last_error c); [case_bool_decide|]; done.
Qed.

(** [acquire] buries a prefix of its candidates and grants the next, whose record
    and lease slot the burials left alone. *)
Lemma acquire_spec q ow ttl te now id st out st' :
  wq_ok st -> acquire q ow ttl te now id st = (out, st') ->
  ((exists e, out = Raise e) /\ st' = st) \/
  exists dead rest, candidates st q te now = dead ++ rest /\
    NoDup (map job_id dead) /\ Forall (fun c => exhausted c = true) dead /\
    match rest with
    | [] => out = Ok None /\ st' = buried dead st
    | c :: _ =>
        exhausted c = false /\ job_id c ∉ map job_id dead /\
        items (buried dead st) !! job_id c = Some c /\
        slot_of (buried dead st) (job_id c) = slot_of st (job_id c) /\
        grant ow ttl now id c (buried dead st) = (out, st')
    end.
Proof.
  intros Hok. pose proof (ok_keys _ Hok) as Hkeys.
  unfold acquire, bind at 1. destruct (require_positive_ttl ttl); simpl;
    [|intros [= <- <-]; eauto].
  unfold bind at 1, guard, lift, require. destruct (negb _); [|intros [= <- <-]; eauto].
  change (bind get ?f st) with (f st st). cbv beta. intros H.
  apply acquire_loop_spec in H as (dead & rest & Hcs & Hdead & Hrest).
  pose proof (candidates_NoDup st q te now Hkeys) as Hnd.
  rewrite Hcs, map_app in Hnd. apply NoDup_app in Hnd as (Hnd & Hdisj & _).
  right. exists dead, rest. do 3 (split; [done|]).
  destruct rest as [|c rest]; [done|]. destruct Hrest as [Hx Hg].
  assert (Hcd : job_id c ∉ map job_id dead) by (intros Hc'; apply (Hdisj _ Hc'); constructor).
  destruct (buried_spec dead st (job_id c) Hnd) as [(c' & Hc' & Hj & _)|(_ & Hi & Hl)].
  { exfalso. apply Hcd. rewrite <- Hj. by apply list_elem_of_fmap_2. }
  repeat split; auto.
  - rewrite Hi. apply (elem_of_candidates st q te now); [done|]. rewrite Hcs. set_solver.
  - unfold slot_of, token_of. by rewrite Hl, (proj2 (buried_rest dead st)).
Qed.

Lemma candidate_open st q te now c :
  wq_ok st -> c ∈ candidates st q te now ->
  items st !! job_id c = Some c /\ open_job c /\
  (state c = QUEUED /\ available_at c <= now \/ state c = LEASED).
Proof.
  intros Hok Hc. apply elem_of_candidates in Hc as (Hc & _ & _ & He); [|by eapply ok_keys].
  apply eligible_spec in He. unfold open_job. intuition.
Qed.

Lemma acquire_refines fresh q ow ttl te now id st out st' :
  wq_ok st -> acquire q ow ttl te now id st = (out, st') ->
  forall k, job_step fresh now k (items st !! k) (items st' !! k) /\
            LeaseStoreFacts.slot_step (slot_of st k) (slot_of st' k).
Proof.
  intros Hok H k.
  destruct (acquire_spec _ _ _ _ _ _ _ _ _ Hok H)
    as [(_ & ->)|(dead & rest & Hcs & Hnd & Hdead & Hrest)]; [split; constructor|].
  assert (Hin : forall c, c ∈ dead ++ rest -> items st !! job_id c = Some c /\ open_job c /\
            (state c = QUEUED /\ available_at c <= now \/ state c = LEASED))
    by (intros c Hc; eapply candidate_open; eauto; by rewrite Hcs).
  rewrite Forall_forall in Hdead.
  assert (Hb : job_step fresh now k (items st !! k) (items (buried dead st) !! k) /\
               LeaseStoreFacts.slot_step (slot_of st k) (slot_of (buried dead st) k)).
  { unfold slot_of, token_of. rewrite (proj2 (buried_rest dead st)).
    destruct (buried_spec dead st k Hnd) as [(c & Hc & <- & -> & ->)|(_ & -> & ->)].
    - destruct (Hin c) as (-> & Ho & _); [set_solver|].
      split; [apply dead_lettered_step; auto|apply LeaseStoreFacts.slot_released].
    - split; constructor. }
  destruct rest as [|c rest]; [by destruct Hrest as [_ ->]|].
  destruct Hrest as (Hx & _ & Hi & Hs & Hg).
  destruct (Hin c) as (Hc & _ & He); [set_solver|].
  destruct (decide (k = job_id c)) as [->|Hne].
  - rewrite <- Hs, Hc, <- Hi.
    apply grant_spec in Hg as [(e & _ & ->)|(d & l & _ & Hl' & _ & ->)]; [apply burnt_refines|].
    apply with_lease_refines; [done|by apply LeaseStoreFacts.new_FencedLease_Ok in Hl' as [-> _]|].
    unfold exhausted in Hx. b2p. by constructor.
  - assert (items st' !! k = items (buried dead st) !! k /\
            slot_of st' k = slot_of (buried dead st) k) as [-> ->]; [|exact Hb].
    unfold slot_of, token_of.
    apply grant_spec in Hg as [(e & _ & ->)|(d & l & _ & _ & _ & ->)]; simpl;
      by rewrite ?lookup_insert_ne.
Qed.

Lemma queue_step_refines clock depth st t st' t' :
  wq_ok st -> clocked_step clock depth (st, t) (st', t') ->
  forall k, job_step (registers st st' k) t' k (items st !! k) (items st' !! k) /\
            LeaseStoreFacts.slot_step (slot_of st k) (slot_of st' k).
Proof.
  intros Hok Hs. inversion Hs; subst;
    match goal with
    | H : enqueue _ _ _ = _ |- _ => apply enqueue_spec in H; rename H into Hop
    | H : complete _ _ _ _ = _ |- _ => apply complete_spec in H; rename H into Hop
    | H : retry _ _ _ _ _ _ = _ |- _ => apply retry_spec in H; rename H into Hop
    | _ => intros k; eapply acquire_refines; eauto
    end.
  - intros k. destruct Hop as [->|(Hid & Hq & Ha & _ & _ & ->)]; [split; constructor|].
    split; [|constructor]. unfold registers, enqueued. simpl.
    destruct (decide (job_id i = k)) as [<-|Hne].
    + rewrite lookup_insert_eq. constructor; auto. by rewrite lookup_insert_eq.
    + rewrite lookup_insert_ne by done. constructor.
  - destruct Hop as [(m & _ & ->)|(c & a & Hc & Hl & Hh & _ & ->)]; [split; constructor|]. intros k.
    apply holds_lease_spec in Hh as [Hst _]. pose proof (ok_keys _ Hok _ _ Hc) as Hk.
    apply (settle_refines _ _ _ c); [by rewrite <- Hk in Hc|by constructor].
  - destruct Hop as [(_ & ->)|(c & a & d & Hc & Hl & Hh & Hd & Hb & _ & ->)];
      [split; constructor|]. intros k.
    apply holds_lease_spec in Hh as [Hst _]. pose proof (ok_keys _ Hok _ _ Hc) as Hk.
    apply blank_empty in Hb.
    apply (settle_refines _ _ _ c); unfold retried, exhausted; case_match; b2p;
      first [by rewrite <- Hk in Hc|constructor; unfold open_job; auto; lia].
Qed.

Lemma queue_step_ok clock depth st t st' t' :
  wq_ok st -> clocked_step clock depth (st, t) (st', t') -> wq_ok st'.
Proof.
  intros Hok Hs. pose proof (queue_step_refines _ _ _ _ _ _ Hok Hs) as Hr. split.
  - intros k i Hi. destruct (Hr k) as [Hj _]. rewrite Hi in Hj.
    change (on_item (item_ok k) (Some i)). eapply job_step_ok; eauto.
    destruct (items st !! k) eqn:E; [|done]. by apply (ok_items _ Hok).
  - intros k. eapply LeaseStoreFacts.slot_ok_step; [apply Hr|]. apply (ok_slots _ Hok).
Qed.

Lemma queue_empty_ok : wq_ok empty.
Proof.
  split; [intros k i; simpl; by rewrite lookup_empty|]. intros k.
  unfold slot_of, token_of. simpl. rewrite !lookup_empty. split; simpl; [lia|done].
Qed.

Lemma queue_steps_ok clock depth s s' :
  wq_ok (fst s) -> rtc (clocked_step clock depth) s s' -> wq_ok (fst s').
Proof. intros Hok. induction 1 as [|[] [] s'' Hs _ IH]; [done|]. apply IH. by eapply queue_step_ok. Qed.

Lemma queue_reachable_ok depth t0 st t : rtc (step depth) (empty, t0) (st, t) -> wq_ok st.
Proof. apply (queue_steps_ok _ depth (empty, t0) (st, t)), queue_empty_ok. Qed.

(** A run whose clock never runs backwards is one of the runs. *)
Lemma forward_run depth (s s' : WorkQueue.store P * datetime) : rtc (forward_step depth) s s' -> rtc (step depth) s s'.
Proof.
  apply rtc_subrel. intros a b Hs. destruct Hs; [eapply step_enqueue|eapply step_acquire|eapply step_complete|
    eapply step_retry]; eauto.
Qed.

Lemma forward_step_le depth st t st' t' : forward_step depth (st, t) (st', t') -> t <= t'.
Proof. intros Hs. inversion Hs; subst; lia. Qed.

Lemma forward_timely depth t0 st t :
  rtc (forward_step depth) (empty, t0) (st, t) ->
  forall k, on_item (timely_item t) (items st !! k).
Proof.
  intros Hr. enough (H : wq_ok (fst (st, t)) /\ forall k, on_item (timely_item (snd (st, t))) (items (fst (st, t)) !! k))
    by apply H.
  revert Hr. generalize (st, t). apply rtc_ind_r.
  - split; [apply queue_empty_ok|]. intros k. cbn. by rewrite lookup_empty.
  - intros [st1 t1] [st2 t2] _ Hs [Hok Ht]. cbn in *. split; [by eapply queue_step_ok|]. intros k.
    destruct (queue_step_refines _ _ _ _ _ _ Hok Hs k) as [Hj _].
    eapply job_step_timely; [by eapply forward_step_le|apply Ht|exact Hj|].
    destruct (items st1 !! k) eqn:E; [|done]. by apply (ok_items _ Hok).
Qed.

(** ** What a successful acquisition grants *)
Lemma sorted_app_head (leb : DurableWorkItem P -> DurableWorkItem P -> bool) l x r y :
  (forall z, leb z z = true) -> sorted_by leb (l ++ x :: r) -> y ∈ x :: r -> leb x y = true.
Proof.
  intros Hrefl. induction l as [|z l IH]; simpl; intros Hs; [by eapply sorted_by_head|].
  apply IH. by inversion Hs.
Qed.

Lemma candidates_min st q te now dead c rest c' :
  candidates st q te now = dead ++ c :: rest ->
  Forall (fun c => exhausted c = true) dead ->
  c' ∈ candidates st q te now -> exhausted c' = false -> candidate_leb c c' = true.
Proof.
  intros Hcs Hdead Hin Hx. rewrite Forall_forall in Hdead.
  eapply (sorted_app_head _ dead c rest).
  - intros z. by destruct (candidate_leb_total z z).
  - rewrite <- Hcs. apply sort_by_sorted; [apply candidate_leb_total|apply candidate_leb_trans].
  - rewrite Hcs in Hin. apply elem_of_app in Hin as [Hin|]; [|done].
    rewrite (Hdead _ Hin) in Hx. done.
Qed.

Lemma new_LeasedWorkItem_Ok i l w :
  new_LeasedWorkItem i l = Ok w ->
  w = {| item := i; lease := l |} /\ state i = LEASED /\
  tenant_id i = lease_tenant_id l /\ resource_key i = lease_resource_key l.
Proof. unfold new_LeasedWorkItem. intros H. run_inv H. b2p. auto. Qed.

Lemma acquire_granted q ow ttl te now fresh st w st' :
  wq_ok st -> acquire q ow ttl te now fresh st = (Ok (Some w), st') ->
  exists c d, c ∈ candidates st q te now /\ exhausted c = false /\
    (forall c', c' ∈ candidates st q te now -> exhausted c' = false -> candidate_leb c c' = true) /\
    item w = leased_as c /\ timedelta_seconds ttl = Ok d /\ 0 < d /\
    lease_id (lease w) = fresh /\ acquired_at (lease w) = now /\ expires_at (lease w) = now + d /\
    NonBlankStr "owner_id" ow = Ok (lease_owner_id (lease w)) /\
    lease_tenant_id (lease w) = tenant_id c /\
    fence_token (lease w) = token_of st (job_id c) + 1 /\
    items st' !! job_id c = Some (leased_as c) /\
    slot_of st' (job_id c) = {| LeaseStore.slot_fence_token := fence_token (lease w);
                                LeaseStore.slot_current := Some (lease w) |}.
Proof.
  intros Hok H.
  destruct (acquire_spec _ _ _ _ _ _ _ _ _ Hok H)
    as [[[e [=]] _]|(dead & rest & Hcs & Hnd & Hdead & Hrest)].
  destruct rest as [|c rest]; [by destruct Hrest as [[=] _]|].
  destruct Hrest as (Hx & _ & Hi & Hs & Hg).
  assert (Htok : token_of (buried dead st) (job_id c) = token_of st (job_id c))
    by exact (f_equal LeaseStore.slot_fence_token Hs).
  apply grant_spec in Hg as [(e & [=] & _)|(d & l & Hd & Hl & Hw & ->)].
  destruct (new_LeasedWorkItem (leased_as c) l) as [w'|] eqn:Hn; [|discriminate].
  injection Hw as ->. apply new_LeasedWorkItem_Ok in Hn as (-> & _ & Hten & _). simpl in *.
  apply LeaseStoreFacts.new_FencedLease_Ok in Hl as (Ht & Hid & Ha & He & Hlt & _ & _ & Ho).
  exists c, d. rewrite Htok in Ht.
  unfold slot_of, token_of in *. simpl. rewrite !lookup_insert_eq. simpl.
  repeat split; auto; try lia; try congruence.
  - rewrite Hcs. set_solver.
  - intros. eapply candidates_min; eauto.
Qed.

(** ** Progress of [acquire] *)
Lemma resource_key_NonBlank c : NonBlankStr "resource_key" (resource_key c) = Ok (resource_key c).
Proof.
  unfold NonBlankStr, resource_key. rewrite (strip_resource_key (queue c) (job_id c)).
  by case_bool_decide.
Qed.

Lemma stripped_Ok f s : stripped s = true -> NonBlankStr f s = Ok s.
Proof.
  unfold stripped, NonBlankStr. intros H. b2p. case_bool_decide; congruence.
Qed.

Lemma grant_total ow ttl d now fresh c st :
  well_kept c -> stripped ow = true -> 0 <= token_of st (job_id c) ->
  timedelta_seconds ttl = Ok d -> 0 < d ->
  exists w, grant ow ttl now fresh c st = (Ok (Some w), with_lease c (lease w) st).
Proof.
  intros ((Hten & _) & _) How Ht Hd Hpos.
  destruct (grant ow ttl now fresh c st) as [out st'] eqn:Hg.
  pose proof (grant_spec _ _ _ _ _ _ _ _ Hg) as [(e & -> & _)|(d' & l & Hd' & Hl & Hw & ->)].
  - exfalso. unfold grant, bind, lift in Hg. simpl in Hg. rewrite Hd in Hg.
    fold (token_of st (job_id c)) in Hg. unfold new_FencedLease in Hg.
    rewrite (stripped_Ok "tenant_id" _ Hten), resource_key_NonBlank,
      (stripped_Ok "owner_id" _ How) in Hg. simpl in Hg.
    unfold require in Hg.
    rewrite (proj2 (Z.leb_le 1 _)) in Hg by lia.
    rewrite (proj2 (Z.leb_gt (now + d) now)) in Hg by lia. simpl in Hg.
    unfold new_LeasedWorkItem, resource_key in Hg. simpl in Hg.
    rewrite !bool_decide_true in Hg by done. discriminate.
  - unfold new_FencedLease in Hl.
    rewrite (stripped_Ok "tenant_id" _ Hten), resource_key_NonBlank in Hl. run_inv Hl.
    unfold new_LeasedWorkItem, resource_key. simpl.
    rewrite !bool_decide_true by done. simpl. eexists {| item := _; lease := _ |}. reflexivity.
Qed.

(** ** The depth bound *)
Lemma active_count_settle q u c st :
  items st !! job_id u = Some c -> queue u = queue c -> open_job c ->
  active_count q (settle u st) <= active_count q st.
Proof.
  intros Hc Hq Ho. unfold active_count, settle. simpl. rewrite map_count_insert, Hc.
  assert (b2z (is_active q u) <= b2z (is_active q c)); [|lia].
  unfold is_active. rewrite Hq. unfold open_job in Ho.
  destruct Ho as [-> | ->]; destruct (bool_decide (queue c = q)), (state u); simpl; lia.
Qed.

Lemma active_count_buried q dead st : active_count q (buried dead st) <= active_count q st.
Proof.
  revert st. induction dead as [|c dead IH]; intros st; [done|].
  etrans; [apply (IH (snd (bury c st)))|]. unfold active_count. simpl.
  rewrite map_count_insert. unfold is_active at 1. simpl. rewrite andb_false_r.
  case_match; [|simpl; lia]. unfold b2z. destruct (is_active q _); simpl; lia.
Qed.

Lemma active_count_acquire q ow ttl te now fresh st out st' q' :
  wq_ok st -> acquire q ow ttl te now fresh st = (out, st') ->
  active_count q' st' <= active_count q' st.
Proof.
  intros Hok H.
  destruct (acquire_spec _ _ _ _ _ _ _ _ _ Hok H)
    as [(_ & ->)|(dead & rest & Hcs & Hnd & Hdead & Hrest)]; [done|].
  destruct rest as [|c rest]; [destruct Hrest as [_ ->]; apply active_count_buried|].
  destruct Hrest as (_ & _ & Hi & _ & Hg).
  assert (Ho : open_job c) by (eapply candidate_open; eauto; rewrite Hcs; set_solver).
  etrans; [|apply (active_count_buried q' dead st)].
  apply grant_spec in Hg as [(e & _ & ->)|(d & l & _ & _ & _ & ->)]; [done|].
  unfold active_count. simpl. rewrite map_count_insert, Hi. unfold is_active. simpl.
  destruct Ho as [-> | ->]; simpl; lia.
Qed.

Lemma active_count_step clock depth st t st' t' q :
  wq_ok st -> clocked_step clock depth (st, t) (st', t') ->
  active_count q st <= depth -> active_count q st' <= depth.
Proof.
  intros Hok Hs Hd. inversion Hs; subst;
    match goal with
    | H : enqueue _ _ _ = _ |- _ => apply enqueue_spec in H; rename H into Hop
    | H : complete _ _ _ _ = _ |- _ => apply complete_spec in H; rename H into Hop
    | H : retry _ _ _ _ _ _ = _ |- _ => apply retry_spec in H; rename H into Hop
    | _ => etrans; [eapply active_count_acquire; eauto|done]
    end.
  - destruct Hop as [->|(Hid & Hq & _ & Hlt & _ & ->)]; [done|].
    unfold active_count, enqueued in *. simpl. rewrite map_count_insert. unfold is_active at 1.
    assert (Hrest : forall b, 0 <= b2z b <= 1) by (intros []; simpl; lia).
    assert (Hold : 0 <= match items st !! job_id i with Some j => b2z (is_active q j) | None => 0 end)
      by (case_match; [apply Hrest|lia]).
    destruct (decide (queue i = q)) as [<-|Hne].
    + pose proof (Hrest (bool_decide (queue i = queue i) && (bool_decide (state i = QUEUED) || bool_decide (state i = LEASED)))).
      lia.
    + rewrite bool_decide_false by done. simpl. lia.
  - destruct Hop as [(m & _ & ->)|(c & a & Hc & Hl & Hh & _ & ->)]; [done|].
    apply holds_lease_spec in Hh as [Hst _]. pose proof (ok_keys _ Hok _ _ Hc) as Hk.
    etrans; [apply (active_count_settle _ _ c); [by rewrite <- Hk in Hc|done|by right]|done].
  - destruct Hop as [(_ & ->)|(c & a & d & Hc & Hl & Hh & _ & _ & _ & ->)]; [done|].
    apply holds_lease_spec in Hh as [Hst _]. pose proof (ok_keys _ Hok _ _ Hc) as Hk.
    etrans; [apply (active_count_settle _ _ c)|done]; unfold retried; try case_match;
      first [by rewrite <- Hk in Hc|done|by right].
Qed.

(** ** Facts about later states *)
Lemma steps_since l clock depth k s s' :
  rtc (clocked_step clock depth) s s' -> wq_ok (fst s) ->
  LeaseStoreFacts.slot_since l (slot_of (fst s) k) ->
  LeaseStoreFacts.slot_since l (slot_of (fst s') k).
Proof.
  induction 1 as [|[st t] [st1 t1] s'' Hs _ IH]; [done|]. simpl in *. intros Hok H.
  destruct (queue_step_refines _ _ _ _ _ _ Hok Hs k) as [_ Href].
  apply IH; [by eapply queue_step_ok|]. by eapply LeaseStoreFacts.slot_since_step.
Qed.

(** No call registers new work under the id of the job [k]. *)
Definition keeps_id depth (k : UUID) (s s' : WorkQueue.store P * datetime) : Prop :=
  step depth s s' /\ forall d, ~ registers (fst s) (fst s') k d.

Lemma settled_final depth k i s s' :
  rtc (keeps_id depth k) s s' -> wq_ok (fst s) -> ~ open_job i ->
  items (fst s) !! k = Some i -> items (fst s') !! k = Some i.
Proof.
  intros Hr. induction Hr as [|[st t] [st1 t1] s'' [Hs Hno] _ IH]; [done|]. cbn in *. intros Hok Hopen Hi.
  apply IH; [by eapply queue_step_ok|done|].
  destruct (queue_step_refines _ _ _ _ _ _ Hok Hs k) as [Hj _]. rewrite Hi in Hj.
  inversion Hj; subst; [done|by destruct (Hno (identity i0))|..]; exfalso; apply Hopen; unfold open_job; intuition.
Qed.

(** An owner whose token was overtaken is refused. *)
Lemma stale_owner_refused (w w' : LeasedWorkItem P) st t1 t2 :
  LeaseStoreFacts.slot_since (lease w') (slot_of st (job_id (item w))) ->
  fence_token (lease w) < fence_token (lease w') ->
  (exists m, complete w t1 t2 st = (Raise (LeaseLostError m), st)) /\
  forall d e, exists x, retry w d e t1 t2 st = (Raise x, st).
Proof.
  intros [_ Hs] Hlt. simpl in Hs.
  assert (Hno : forall c a now, leases st !! job_id (item w) = Some a ->
            holds_lease (P:=P) c a w now = true -> False).
  { intros c a now Ha Hh. apply holds_lease_spec in Hh as (_ & _ & _ & Ht & _).
    destruct (Hs a Ha) as [(_ & _ & ?)|]; lia. }
  split.
  - destruct (complete w t1 t2 st) as [out st'] eqn:E.
    apply complete_spec in E as [(m & -> & ->)|(c & a & _ & Ha & Hh & _)]; [eauto|].
    exfalso; eauto.
  - intros d e. destruct (retry w d e t1 t2 st) as [out st'] eqn:E.
    apply retry_spec in E as [([x ->] & ->)|(c & a & ? & _ & Ha & Hh & _)]; [eauto|].
    exfalso; eauto.
Qed.

End QueueFacts.
End QueueFacts.

Module QueueProperties.
Import WorkQueue QueueFacts.

(** C13: the work queue refines the two abstract machines.  In any run, whatever the
    clock does and whichever job ids the clients enqueue, each call that leads from one
    store to the next moves each job's record by one legal transition of the job machine
    (or none) and each job's lease by one of the lease-slot machine, however many jobs
    the call touches.  A record appears, or is put in the place of another, only when the
    call registers a new identity of work under that id, and then it is queued with no
    attempt counted. *)
Theorem queue_refines_jobs {P} `{!EqDecision P} depth t0 (st st' : store P) t t' :
  rtc (step depth) (empty, t0) (st, t) ->
  step depth (st, t) (st', t') ->
  forall k, job_step (registers st st' k) t' k (items st !! k) (items st' !! k) /\
            LeaseStoreFacts.slot_step (slot_of st k) (slot_of st' k).
Proof. intros Hr Hs. eapply queue_step_refines; [|exact Hs]. by eapply queue_reachable_ok. Qed.

(** C25: in any run, whatever the clock does, the store files each record under its own
    id, holds records that keep every demand of the contract's validators (although
    [model_copy] never runs them) except that work be available no earlier than it was
    created, and keeps every queue within the configured depth.  In a run whose clock
    never runs backwards that demand is kept too: each record is one the validators
    accept. *)
Theorem queue_records_valid {P} `{!EqDecision P} depth t0 (st : store P) t :
  1 <= depth ->
  rtc (step depth) (empty, t0) (st, t) ->
  (forall k i, items st !! k = Some i -> job_id i = k /\ well_kept i) /\
  (forall q, active_count q st <= depth) /\
  (rtc (forward_step depth) (empty, t0) (st, t) ->
   forall k i, items st !! k = Some i -> constructed i = true).
Proof.
  intros Hd Hr. pose proof (queue_reachable_ok _ _ _ _ Hr) as Hok. split; [|split].
  - intros k i Hi. exact (ok_items _ Hok k i Hi).
  - intros q. change (active_count q (fst (st, t)) <= depth).
    revert Hr. generalize (st, t). clear st t Hok. intros s Hr.
    enough (wq_ok (fst s) /\ active_count q (fst s) <= depth) by tauto.
    revert s Hr. apply rtc_ind_r.
    + split; [apply queue_empty_ok|]. unfold active_count. simpl. rewrite map_count_empty. lia.
    + intros [st t] [st' t'] _ Hs [Hok Hq]. simpl in *.
      split; [by eapply queue_step_ok|by eapply active_count_step].
  - intros Hf k i Hi. apply constructed_spec. split; [by apply (ok_items _ Hok k i Hi)|].
    pose proof (forward_timely _ _ _ _ Hf k) as Ht. rewrite Hi in Ht. apply Ht.
Qed.

(** A completed job is final.  Once [complete] has been accepted, and as long as no new
    work is enqueued under the job's id, the record never changes again, and every later
    transition of that job, by whichever owner, is refused. *)
Theorem completed_job_final {P} `{!EqDecision P} depth t0 (st st1 st2 : store P) t t1 t2 t3 w i :
  rtc (step depth) (empty, t0) (st, t) ->
  complete w t1 t2 st = (Ok i, st1) ->
  rtc (keeps_id depth (job_id (item w))) (st1, t2) (st2, t3) ->
  items st2 !! job_id (item w) = Some i /\
  forall w' u v, job_id (item w') = job_id (item w) ->
    (exists m, complete w' u v st2 = (Raise (LeaseLostError m), st2)) /\
    forall d e, exists x, retry w' d e u v st2 = (Raise x, st2).
Proof.
  intros Hr Hc Hr2. pose proof (queue_reachable_ok _ _ _ _ Hr) as Hok.
  assert (Hok1 : wq_ok st1)
    by (eapply (queue_step_ok _ depth st t); [exact Hok|]; by eapply (step_complete (fun _ _ => True) depth w t1)).
  apply complete_spec in Hc as [(m & [=] & _)|(c & a & Hi & _ & _ & [= ->] & ->)].
  pose proof (ok_keys _ Hok _ _ Hi) as Hk.
  assert (Hfin : items st2 !! job_id (item w) = Some (completed_as c t2)).
  { apply (settled_final depth _ _ (_, t2) (st2, t3) Hr2 Hok1); [intros [[=]|[=]]|].
    rewrite <- Hk. simpl. by rewrite lookup_insert_eq. }
  split; [done|]. intros w' u v Hw.
  destruct (require_current_spec w' u st2) as [(c' & a' & Hi' & _ & Hh & _)|[m Hm]].
  { rewrite Hw, Hfin in Hi'. injection Hi' as <-. apply holds_lease_spec in Hh as [[=] _]. }
  split.
  - exists m. unfold complete, bind. by rewrite Hm.
  - intros d e. unfold retry, bind, guard, lift, require.
    destruct (negb _); [|eauto]. destruct (negb _); [|eauto]. rewrite Hm. eauto.
Qed.

(** C14: a worker that lost its job is fenced off.  If a job was acquired as [w1]
    and again later as [w2], then [w2]'s fence token is larger, and from then on
    [w1] can neither complete nor retry the job. *)
Theorem overtaken_worker_fenced {P} `{!EqDecision P} depth t0
    (st0 st1 st2 st3 st4 : store P) ta tb tc te q1 o1 ttl1 n1 id1 q2 o2 ttl2 n2 id2 w1 w2 :
  rtc (step depth) (empty, t0) (st0, ta) ->
  acquire q1 o1 ttl1 n1 tb id1 st0 = (Ok (Some w1), st1) ->
  rtc (step depth) (st1, tb) (st2, tc) ->
  acquire q2 o2 ttl2 n2 te id2 st2 = (Ok (Some w2), st3) ->
  job_id (item w2) = job_id (item w1) ->
  forall tf, rtc (step depth) (st3, te) (st4, tf) ->
  fence_token (lease w1) < fence_token (lease w2) /\
  forall u v, (exists m, complete w1 u v st4 = (Raise (LeaseLostError m), st4)) /\
    forall d e, exists x, retry w1 d e u v st4 = (Raise x, st4).
Proof.
  intros H0 Ha1 H12 Ha2 Hj tf H34.
  assert (H01 : rtc (step depth) (empty, t0) (st1, tb)).
  { eapply rtc_r; [exact H0|]. by eapply step_acquire. }
  assert (H02 : rtc (step depth) (empty, t0) (st2, tc)) by (etrans; eauto).
  assert (H03 : rtc (step depth) (empty, t0) (st3, te)).
  { eapply rtc_r; [exact H02|]. by eapply step_acquire. }
  destruct (acquire_granted _ _ _ _ _ _ _ _ _ (queue_reachable_ok _ _ _ _ H0) Ha1)
    as (c1 & d1 & _ & _ & _ & Hi1 & _ & _ & _ & _ & _ & _ & _ & _ & _ & Hs1).
  destruct (acquire_granted _ _ _ _ _ _ _ _ _ (queue_reachable_ok _ _ _ _ H02) Ha2)
    as (c2 & d2 & _ & _ & _ & Hi2 & _ & _ & _ & _ & _ & _ & _ & Ht2 & _ & Hs2).
  rewrite Hi1, Hi2 in Hj. simpl in Hj. rewrite Hj in *.
  assert (Hsince1 : LeaseStoreFacts.slot_since (lease w1) (slot_of st2 (job_id c1))).
  { apply (steps_since _ (fun _ _ => True) depth _ (st1, tb) (st2, tc)); [done|by eapply queue_reachable_ok|].
    simpl. rewrite Hs1. split; simpl; [lia|]. intros c [= <-]. left. repeat split. }
  assert (Hlt : fence_token (lease w1) < fence_token (lease w2)).
  { destruct Hsince1 as [Hle _]. simpl in Hle. lia. }
  split; [done|]. intros u v. apply (stale_owner_refused w1 w2); [|done].
  rewrite Hi1. simpl.
  apply (steps_since _ (fun _ _ => True) depth _ (st3, te) (st4, tf)); [done|by eapply queue_reachable_ok|].
  simpl. rewrite Hs2. split; simpl; [lia|]. intros c [= <-]. left. repeat split.
Qed.

(** What [acquire] returns.  On well-formed arguments it always returns: a
    lease for [ttl] on the least eligible record with attempts left, in the order
    (available_at, created_at, job id), whose attempt it counts; or, when no
    eligible record has attempts left, [None], every eligible record then being
    dead-lettered. *)
Theorem acquire_grants_least {P} `{!EqDecision P} depth t0 (st : store P) t now q ow ttl te fresh d :
  rtc (step depth) (empty, t0) (st, t) ->
  require_positive_ttl ttl = Ok tt -> timedelta_seconds ttl = Ok d -> 0 < d ->
  blank te = false -> blank q = false -> blank ow = false -> stripped ow = true ->
  let eligible_now c :=
    items st !! job_id c = Some c /\ queue c = q /\ tenant_id c = te /\ eligible st c now = true in
  exists st',
    (exists w c, acquire q ow ttl te now fresh st = (Ok (Some w), st') /\
       eligible_now c /\ attempt c < max_attempts c /\
       (forall c', eligible_now c' -> attempt c' < max_attempts c' -> candidate_leb c c' = true) /\
       item w = leased_as c /\ items st' !! job_id c = Some (item w) /\
       leases st' !! job_id c = Some (lease w) /\
       lease_owner_id (lease w) = ow /\ expires_at (lease w) = now + d) \/
    (acquire q ow ttl te now fresh st = (Ok None, st') /\
     forall c, eligible_now c ->
       max_attempts c <= attempt c /\ items st' !! job_id c = Some (dead_lettered c)).
Proof.
  intros Hr Httl Hd Hpos Hte Hq How Hsow el. apply queue_reachable_ok in Hr as Hok.
  pose proof (ok_keys _ Hok) as Hkeys.
  assert (Hel : forall c, el c <-> c ∈ candidates st q te now)
    by (intros c; symmetry; by apply elem_of_candidates).
  destruct (acquire q ow ttl te now fresh st) as [out st'] eqn:H. exists st'.
  destruct (acquire_spec _ _ _ _ _ _ _ _ _ Hok H)
    as [([e ->] & ->)|(dead & rest & Hcs & Hnd & Hdead & Hrest)].
  - exfalso. unfold acquire, bind at 1, lift in H. rewrite Httl in H. simpl in H.
    unfold bind at 1, guard, lift, require in H. rewrite Hte, Hq, How in H. simpl in H.
    change (bind get ?f st) with (f st st) in H. cbv beta in H.
    apply acquire_loop_spec in H as (dead & [|c rest] & Hcs & _ & Hg); [by destruct Hg|].
    destruct Hg as [_ Hg].
    assert (Hc : c ∈ candidates st q te now) by (rewrite Hcs; set_solver).
    apply (candidate_open _ _ _ _ _ Hok) in Hc as [Hc _].
    edestruct (grant_total ow ttl d now fresh c (buried dead st)) as [w Hw]; eauto; [| |congruence].
    + by apply (ok_items _ Hok) in Hc as [_ ?].
    + unfold token_of. rewrite (proj2 (buried_rest dead st)). apply (ok_slots _ Hok).
  - rewrite Forall_forall in Hdead. destruct rest as [|c rest].
    + destruct Hrest as [-> ->]. right. split; [done|]. intros c Hc%Hel.
      rewrite Hcs, app_nil_r in Hc. pose proof (Hdead _ Hc) as Hx. unfold exhausted in Hx. b2p.
      split; [done|]. destruct (buried_spec dead st (job_id c) Hnd) as [(c' & Hc' & Hj & -> & _)|[Hni _]].
      * f_equal. f_equal.
        assert (Hc2 : forall x, x ∈ dead -> items st !! job_id x = Some x)
          by (intros x Hx'; eapply candidate_open; eauto; rewrite Hcs, app_nil_r; done).
        apply Hc2 in Hc', Hc. congruence.
      * exfalso. apply Hni. by apply list_elem_of_fmap_2.
    + destruct Hrest as (Hx & _ & Hi & Hs & Hg).
      assert (Hc : c ∈ candidates st q te now) by (rewrite Hcs; set_solver).
      pose proof (candidate_open _ _ _ _ _ Hok Hc) as [Hci _].
      edestruct (grant_total ow ttl d now fresh c (buried dead st)) as [w Hw]; eauto.
      { by apply (ok_items _ Hok) in Hci as [_ ?]. }
      { unfold token_of. rewrite (proj2 (buried_rest dead st)). apply (ok_slots _ Hok). }
      rewrite Hw in Hg. injection Hg as <- <-. left. exists w.
      destruct (acquire_granted _ _ _ _ _ _ _ _ _ Hok H)
        as (c2 & d2 & Hc2 & Hx2 & Hmin & Hi2 & Hd2 & _ & _ & _ & He2 & Ho2 & _ & _ & Hi3 & Hs2).
      exists c2. unfold exhausted in Hx2, Hmin. b2p.
      rewrite Hd in Hd2. injection Hd2 as <-.
      split; [done|]. split; [by apply Hel|]. split; [done|]. split.
      { intros c' Hc'%Hel Hx'. apply Hmin; [done|]. by apply Z.leb_gt. }
      rewrite (stripped_Ok "owner_id" ow Hsow) in Ho2.
      repeat split; try congruence.
      exact (f_equal LeaseStore.slot_current Hs2).
Qed.

(** *** A run of the queue, on which the properties are instantiated *)
Definition w_item : DurableWorkItem string :=
  {| job_id := 7; tenant_id := "t"; queue := "q"; kind := "k"; idempotency_key := "i";
     payload := ""; created_at := 0; available_at := 0; attempt := 0; max_attempts := 3;
     state := QUEUED; completed_at := None; last_error := None |}.
Definition w_run1 : outcome _ * store string := enqueue 5 w_item empty.
Definition w_run2 : outcome _ * store string :=
  acquire "q" "a" (float_of_int 1) "t" 10 1 (snd w_run1).
Definition w_leased1 : LeasedWorkItem string :=
  match fst w_run2 with
  | Ok (Some w) => w
  | _ => {| item := w_item; lease := LeaseProperties.w_lease1 |}
  end.
Definition w_run3 : outcome _ * store string := complete w_leased1 20 20 (snd w_run2).
(** the other ending: the lease expires, another worker takes over *)
Definition w_run3' : outcome _ * store string :=
  acquire "q" "b" (float_of_int 1) "t" 2000010 2 (snd w_run2).
Definition w_leased2 : LeasedWorkItem string :=
  match fst w_run3' with Ok (Some w) => w | _ => w_leased1 end.

Lemma w_reach1 : rtc (step 5) (empty, 0) (snd w_run1, 0).
Proof.
  apply rtc_once. eapply (step_enqueue _ 5 w_item); [vm_compute; reflexivity|exact I|]. reflexivity.
Qed.

Lemma w_reach2 : rtc (step 5) (empty, 0) (snd w_run2, 10).
Proof. eapply rtc_r; [exact w_reach1|].
  apply (step_acquire _ 5 "q" "a" (float_of_int 1) "t" 1 _ 0 10 (fst w_run2)); [exact I|reflexivity].
Qed.

(** New work is enqueued under the id of a leased job. *)
Definition w_reused : DurableWorkItem string :=
  {| job_id := 7; tenant_id := "t"; queue := "q"; kind := "k"; idempotency_key := "j";
     payload := ""; created_at := 0; available_at := 0; attempt := 0; max_attempts := 3;
     state := QUEUED; completed_at := None; last_error := None |}.
Definition w_overwritten : outcome _ * store string := enqueue 5 w_reused (snd w_run2).

Lemma queue_refines_jobs_witness :
  job_step (registers (snd w_run2) (snd w_overwritten) 7) 10 7
    (items (snd w_run2) !! 7) (items (snd w_overwritten) !! 7) /\
  LeaseStoreFacts.slot_step (slot_of (snd w_run2) 7) (slot_of (snd w_overwritten) 7).
Proof.
  apply (fun Hr Hs => queue_refines_jobs 5 0 (snd w_run2) (snd w_overwritten) 10 10 Hr Hs 7); [exact w_reach2|].
  eapply (step_enqueue _ 5 w_reused); [vm_compute; reflexivity|exact I|reflexivity].
Defined.

(** The leased record is gone: its worker cannot complete it, though its lease runs. *)
Example reused_id_overwrites_leased_job :
  items (snd w_overwritten) !! 7 = Some w_reused /\
  fst (complete w_leased1 20 20 (snd w_overwritten)) =
    Raise (LeaseLostError "work transition rejected because scheduler lease is stale").
Proof. split; vm_compute; reflexivity. Qed.

(** The clock is set back between an enqueue and a retry: the record that [model_copy]
    makes is available before it was created, which the validators refuse. *)
Definition w_late : DurableWorkItem string :=
  {| job_id := 7; tenant_id := "t"; queue := "q"; kind := "k"; idempotency_key := "i";
     payload := ""; created_at := 100; available_at := 100; attempt := 0; max_attempts := 3;
     state := QUEUED; completed_at := None; last_error := None |}.
Definition w_late_leased : outcome (option (LeasedWorkItem string)) * store string :=
  acquire "q" "a" (float_of_int 1) "t" 100 1 (snd (enqueue 5 w_late empty)).
Definition w_set_back : outcome (DurableWorkItem string) :=
  match fst w_late_leased with
  | Ok (Some w) => fst (retry w (float_of_int 0) "boom" 50 50 (snd w_late_leased))
  | _ => Raise (ValueError "not leased")
  end.

Example set_back_clock_breaks_record :
  match w_set_back with
  | Ok i => available_at i = 50 /\ created_at i = 100 /\ constructed i = false
  | Raise _ => False
  end.
Proof. vm_compute. auto. Qed.

Lemma w_forward1 : rtc (forward_step 5) (empty, 0) (snd w_run1, 0).
Proof.
  apply rtc_once. eapply (step_enqueue _ 5 w_item); [vm_compute; reflexivity|lia|]. reflexivity.
Qed.

Lemma queue_records_valid_witness :
  (forall k i, items (snd w_run1) !! k = Some i -> constructed i = true) /\
  forall q, active_count q (snd w_run1) <= 5.
Proof.
  destruct (queue_records_valid 5 0 (snd w_run1) 0) as (_ & Hq & Hf); [lia|exact w_reach1|].
  split; [exact (Hf w_forward1)|exact Hq].
Defined.

Lemma completed_job_final_witness :
  exists i, items (snd w_run3) !! 7 = Some i /\
  forall w' u v, job_id (item w') = job_id (item w_leased1) ->
    (exists m, complete w' u v (snd w_run3) = (Raise (LeaseLostError m), snd w_run3)) /\
    forall d e, exists x, retry w' d e u v (snd w_run3) = (Raise x, snd w_run3).
Proof.
  eexists.
  eapply (completed_job_final 5 0 (snd w_run2) (snd w_run3) (snd w_run3) 10 20 20 20 w_leased1);
    [exact w_reach2|vm_compute; reflexivity|apply rtc_refl].
Defined.

Lemma overtaken_worker_fenced_witness :
  fence_token (lease w_leased1) < fence_token (lease w_leased2) /\
  forall u v,
    (exists m, complete w_leased1 u v (snd w_run3') = (Raise (LeaseLostError m), snd w_run3')) /\
    forall d e, exists x, retry w_leased1 d e u v (snd w_run3') = (Raise x, snd w_run3').
Proof.
  eapply (overtaken_worker_fenced 5 0 (snd w_run1) (snd w_run2) (snd w_run2) (snd w_run3')
            (snd w_run3') 0 10 10 2000010 "q" "a" (float_of_int 1) "t" 1 "q" "b" (float_of_int 1) "t" 2);
    [exact w_reach1|vm_compute; reflexivity|apply rtc_refl|vm_compute; reflexivity
    |vm_compute; reflexivity|apply rtc_refl].
Defined.

Lemma acquire_grants_least_witness :
  exists w c st', acquire "q" "a" (float_of_int 1) "t" 10 1 (snd w_run1) = (Ok (Some w), st') /\
    item w = leased_as c /\ lease_owner_id (lease w) = "a".
Proof.
  edestruct (acquire_grants_least 5 0 (snd w_run1) 0 10 "q" "a" (float_of_int 1) "t" 1 1000000
               w_reach1) as (st' & [(w & c & H & _ & _ & _ & Hi & _ & _ & Ho & _)|[H _]]);
    [vm_compute; reflexivity .. | | ].
  - exists w, c, st'. repeat split; assumption.
  - exfalso. assert (E : is_ok (fst (acquire "q" "a" (float_of_int 1) "t" 10 1 (snd w_run1))) = true /\
      fst (acquire "q" "a" (float_of_int 1) "t" 10 1 (snd w_run1)) <> Ok None).
    { split; vm_compute; [reflexivity|discriminate]. }
    apply (proj2 E). rewrite H. reflexivity.
Defined.

End QueueProperties.

(** * The queue behind its port *)
Module QueuePort.
Import WorkQueue QueueFacts.
Section QueuePort.
Context {P : Type} `{!EqDecision P}.

Definition owns (st : store P) (w : LeasedWorkItem P) (now : datetime) : bool :=
  match items st !! job_id (item w), leases st !! job_id (item w) with
  | Some c, Some a => holds_lease c a w now
  | _, _ => false
  end.

#[export] Instance work_queue_port : DurableWorkQueue (store P) P := {
  q_acquire := acquire;
  q_complete := complete;
  q_retry := retry;
  q_owns := owns;
}.

Lemma require_current_owned w now st :
  owns st w now = true ->
  exists c, items st !! job_id (item w) = Some c /\ require_current w now st = (Ok c, st).
Proof.
  unfold owns, require_current, bind, get. simpl.
  destruct (items st !! _) as [c|]; [|done]. destruct (leases st !! _) as [a|]; [|done].
  intros ->. by exists c.
Qed.

Lemma require_current_lost w now st :
  owns st w now = false -> exists m, require_current w now st = (Raise (LeaseLostError m), st).
Proof.
  unfold owns, require_current, bind, get. simpl.
  destruct (items st !! _) as [c|]; [|eauto]. destruct (leases st !! _) as [a|]; [|eauto].
  intros ->. eauto.
Qed.

Lemma acquire_owner q ow ttl te now fresh st w st' :
  acquire q ow ttl te now fresh st = (Ok (Some w), st') -> owns st' w now = true.
Proof.
  unfold acquire, bind at 1, lift. destruct (require_positive_ttl ttl); [|discriminate].
  unfold bind at 1, guard, lift, require. destruct (negb _); [|discriminate].
  change (bind get ?f st) with (f st st). cbv beta. intros H.
  apply acquire_loop_spec in H as (dead & [|c rest] & _ & _ & Hg); [by destruct Hg|].
  destruct Hg as [_ Hg].
  apply grant_spec in Hg as [(e & [=] & _)|(d & l & Hd & Hl & Hw & ->)].
  destruct (new_LeasedWorkItem (leased_as c) l) as [w'|] eqn:Hn; [|discriminate].
  injection Hw as ->. apply new_LeasedWorkItem_Ok in Hn as (-> & _ & Hten & _).
  apply LeaseStoreFacts.new_FencedLease_Ok in Hl as (_ & _ & _ & He & Hlt & _).
  unfold owns, holds_lease, is_expired. simpl in *. rewrite !lookup_insert_eq. simpl.
  rewrite !bool_decide_true, !Z.eqb_refl by done. simpl. apply negb_true_iff, Z.leb_gt. lia.
Qed.

#[export] Instance work_queue_laws : DurableWorkQueueLaws (store P) P.
Proof.
  split; simpl.
  - intros w t1 t2 s H. apply require_current_owned in H as (c & _ & H).
    unfold complete, bind. rewrite H. eexists _, _. split; reflexivity.
  - intros w t1 t2 s [m H]%require_current_lost. exists m. unfold complete, bind. by rewrite H.
  - intros w delay d e t1 t2 s H Hd Ht He. apply require_current_owned in H as (c & _ & H).
    unfold retry, bind, guard, lift, require. rewrite Hd, He. simpl. rewrite H.
    destruct (exhausted c); [|rewrite Ht]; eexists _, _; repeat split; discriminate.
  - intros w delay e t1 t2 s [m H]%require_current_lost.
    unfold retry, bind, guard, lift, require.
    destruct (negb _); [|eauto]. destruct (negb _); [|eauto]. rewrite H. eauto.
  - intros. by eapply acquire_owner.
Qed.

End QueuePort.
End QueuePort.

(** * The scheduler *)
Module SchedulerProperties.
Import Scheduler QueuePort.

(** The worker loop over any queue that keeps the port's laws.  When the queue
    grants a job, the run ends in exactly one of these ways: the handler returned
    and the worker still owned the job, which is then recorded as succeeded; the
    handler raised and the worker still owned the job, which then carries the
    error, and the handler's exception propagates; or the worker had lost the job,
    and then an exception is raised and nothing is recorded, whatever the handler did. *)
Theorem run_once_settles {S P} `{DurableWorkQueueLaws S P} name owner ttl delay d sch
    (handler : LeasedWorkItem P -> M S unit) tenant now fresh t1 t2 s w s1 :
  new_scheduler name owner ttl delay = Ok sch -> timedelta_seconds delay = Ok d ->
  blank tenant = false ->
  q_acquire name owner ttl tenant now fresh s = (Ok (Some w), s1) ->
  q_owns s1 w now = true /\
  let '(h, s2) := handler w s1 in
  let '(out, s') := run_once sch handler tenant now fresh t1 t2 s in
  if q_owns s2 w t1 then
    match h with
    | Ok _ => out = Ok true /\
        exists i, q_complete w t1 t2 s2 = (Ok i, s') /\ state i = SUCCEEDED
    | Raise exc => out = Raise exc /\
        exists i e, q_retry w delay e t1 t2 s2 = (Ok i, s') /\ state i <> SUCCEEDED /\
          last_error i = Some (exn_type_name exc +:+ ": " +:+ exn_str exc)
    end
  else is_ok out = false /\ s' = s2.
Proof.
  intros Hsch Hd Hten Hacq. split; [by eapply acquire_owns|].
  unfold new_scheduler in Hsch. run_inv Hsch. b2p.
  destruct (handler w s1) as [h s2] eqn:Hh.
  unfold run_once, bind at 1, guard, lift, require. rewrite Hten. simpl.
  unfold bind at 1. rewrite Hacq. unfold bind at 1, try_except. rewrite Hh.
  destruct (q_owns s2 w t1) eqn:Ho.
  - destruct h as [[]|exc].
    + destruct (complete_owned w t1 t2 s2 Ho) as (i & s' & Hc & Hst).
      unfold bind, ret. rewrite Hc. eauto.
    + destruct (retry_owned w delay d (exn_type_name exc +:+ ": " +:+ exn_str exc) t1 t2 s2 Ho)
        as (i & s' & Hc & Hst); [done..|apply blank_colon|].
      unfold bind, raise. rewrite Hc. split; [done|]. eauto.
  - destruct h as [[]|exc].
    + destruct (complete_lost w t1 t2 s2 Ho) as [m Hc]. unfold bind. by rewrite Hc.
    + destruct (retry_lost w delay (exn_type_name exc +:+ ": " +:+ exn_str exc) t1 t2 s2 Ho)
        as [x Hc].
      unfold bind, raise. by rewrite Hc.
Qed.

Definition w_handler : LeasedWorkItem string -> M (WorkQueue.store string) unit :=
  fun _ => raise (ValueError "boom").

(** The in-memory queue keeps the laws, and a failing handler leaves its error. *)
Lemma run_once_settles_witness :
  let '(out, s') := run_once (S := WorkQueue.store string)
      {| queue_name := "q"; owner_id := "a"; lease_ttl := float_of_int 1;
         retry_delay := float_of_int 2 |}
      w_handler "t" 10 1 20 20 (snd QueueProperties.w_run1) in
  out = Raise (ValueError "boom") /\
  exists i e, q_retry QueueProperties.w_leased1 (float_of_int 2) e 20 20
                (snd QueueProperties.w_run2) = (Ok i, s') /\
    state i <> SUCCEEDED /\ last_error i = Some "ValueError: boom".
Proof.
  refine (proj2 (run_once_settles "q" "a" (float_of_int 1) (float_of_int 2) 2000000 _
            w_handler "t" 10 1 20 20 (snd QueueProperties.w_run1) QueueProperties.w_leased1
            (snd QueueProperties.w_run2) eq_refl eq_refl eq_refl _)).
  vm_compute. reflexivity.
Defined.

End SchedulerProperties.

(** * Admission *)
Module AdmissionProperties.

(** Draining.  The lifecycle counts exactly the tasks inside [admit].  Once
    [begin_draining] or [stop] has been called, in every later state admission is
    refused, the number of tasks inside does not grow, and a wait for the drain
    returns true at once when it has reached zero. *)
Theorem drain_is_monotone l0 n0 l n :
  rtc Lifecycle.step (Lifecycle.initial, 0%nat) (l0, n0) ->
  Lifecycle.accepting l0 = false ->
  rtc Lifecycle.step (l0, n0) (l, n) ->
  Lifecycle.in_flight l = Z.of_nat n /\ (n <= n0)%nat /\
  (exists m, Lifecycle.admit_enter l = (Raise (RuntimeDrainingError m), l)) /\
  (n = 0%nat -> forall timeout wakeups, float_ltb timeout (float_of_int 0) = false ->
     Lifecycle.wait_for_drain timeout wakeups l = (Ok true, l)).
Proof.
  intros H0 Hacc H.
  assert (Hcount : forall s, rtc Lifecycle.step (Lifecycle.initial, 0%nat) s ->
            Lifecycle.in_flight (fst s) = Z.of_nat (snd s)).
  { apply rtc_ind_r; [done|]. intros s s' _ Hs IH.
    destruct Hs as [l1 l2 k Hr|l1 l2 k e Hr|l1 l2 k Hr|l1 l2 k Hr|l1 l2 k Hr]; simpl in *.
    - unfold Lifecycle.admit_enter in Hr. run_inv Hr. simpl. lia.
    - unfold Lifecycle.admit_enter, bind, get, guard, lift, require, put in Hr.
      destruct (Lifecycle.accepting l1); congruence.
    - injection Hr as <-. simpl. lia.
    - injection Hr as <-. by destruct (Lifecycle.accepting l1).
    - by injection Hr as <-. }
  assert (Hmono : forall s, rtc Lifecycle.step (l0, n0) s ->
            Lifecycle.accepting (fst s) = false /\ (snd s <= n0)%nat).
  { apply rtc_ind_r; [done|]. intros s s' _ Hs [IH1 IH2].
    destruct Hs as [l1 l2 k Hr|l1 l2 k e Hr|l1 l2 k Hr|l1 l2 k Hr|l1 l2 k Hr]; simpl in *.
    - unfold Lifecycle.admit_enter in Hr. run_inv Hr. congruence.
    - unfold Lifecycle.admit_enter, bind, get, guard, lift, require, put in Hr.
      rewrite IH1 in Hr. simpl in Hr. split; congruence.
    - injection Hr as <-. unfold Lifecycle.accepting in *. simpl. split; [done|lia].
    - injection Hr as <-. by rewrite IH1.
    - injection Hr as <-. by split. }
  destruct (Hmono _ H) as [Ha Hn]. simpl in *.
  assert (Hc : Lifecycle.in_flight l = Z.of_nat n) by (apply (Hcount (l, n)); by etrans).
  split; [done|]. split; [done|]. split.
  - unfold Lifecycle.admit_enter, bind, get, guard, lift, require. rewrite Ha. eauto.
  - intros -> timeout wakeups Ht.
    unfold Lifecycle.wait_for_drain, bind, get, guard, lift, require. rewrite Ht, Hc. done.
Qed.

Lemma drain_is_monotone_witness :
  Lifecycle.in_flight {| Lifecycle.state := Lifecycle.DRAINING; Lifecycle.in_flight := 0 |} = 0 /\
  (exists m, Lifecycle.admit_enter {| Lifecycle.state := Lifecycle.DRAINING; Lifecycle.in_flight := 0 |} =
    (Raise (RuntimeDrainingError m), {| Lifecycle.state := Lifecycle.DRAINING; Lifecycle.in_flight := 0 |})).
Proof.
  destruct (drain_is_monotone {| Lifecycle.state := Lifecycle.DRAINING; Lifecycle.in_flight := 1 |} 1
              {| Lifecycle.state := Lifecycle.DRAINING; Lifecycle.in_flight := 0 |} 0)
    as (H1 & _ & H2 & _).
  - eapply rtc_l; [by apply Lifecycle.step_enter|]. apply rtc_once. by apply Lifecycle.step_drain.
  - reflexivity.
  - apply rtc_once. by apply Lifecycle.step_exit.
  - split; assumption.
Defined.

Import Capacity.

Definition cap_ok (env : CapacityEnvelope) (s : controller * list string) : Prop :=
  total (fst s) = Z.of_nat (length (snd s)) /\
  total (fst s) <= max_in_flight env /\
  forall t, default 0 (per_tenant (fst s) !! t) = tenant_count t (snd s) /\
            tenant_count t (snd s) <= max_per_tenant_in_flight env.

Lemma tenant_count_cons t u inside :
  tenant_count t (u :: inside) = b2z (bool_decide (u = t)) + tenant_count t inside.
Proof. apply (count_if_cons (fun v => bool_decide (v = t))). Qed.

Lemma get_set_tenant t u n (c : controller) :
  default 0 (per_tenant (set_tenant t n c) !! u) =
  if decide (t = u) then n else default 0 (per_tenant c !! u).
Proof. simpl. rewrite lookup_insert. by case_decide. Qed.

Lemma cap_step_ok env s s' : Capacity.step env s s' -> cap_ok env s -> cap_ok env s'.
Proof.
  destruct 1 as [c c' t inside Hr|c c' t e inside Hr|c c' t inside inside' Hp Hr];
    intros (Ht & Hm & Hper); simpl in *.
  - unfold admit_enter in Hr. run_inv Hr. b2p. simpl in *.
    split; [simpl; lia|]. split; [simpl; lia|]. intros u. simpl.
    rewrite tenant_count_cons. destruct (Hper u) as [Hu Hle].
    destruct (decide (t = u)) as [<-|Hne].
    + rewrite lookup_insert_eq, bool_decide_true by done. simpl. lia.
    + rewrite !lookup_insert_ne, bool_decide_false by done. simpl. lia.
  - assert (Hc : c' = set_tenant t (default 0 (per_tenant c !! t)) c).
    { unfold admit_enter, bind, get, modify, guard, lift, require in Hr.
      repeat case_in Hr; congruence. }
    subst c'. split; [done|]. split; [done|]. intros u. cbn [fst snd].
    rewrite get_set_tenant. case_decide; [subst|]; apply Hper.
  - injection Hr as <-. set (r := default 0 (per_tenant c !! t) - 1).
    assert (Hlen : length inside = S (length inside')) by (rewrite Hp; done).
    assert (Hcnt : forall u, tenant_count u inside = b2z (bool_decide (t = u)) + tenant_count u inside').
    { intros u. rewrite <- tenant_count_cons. by apply count_if_perm. }
    assert (Hr : r = tenant_count t inside').
    { unfold r. rewrite (proj1 (Hper t)), Hcnt, bool_decide_true by done. simpl. lia. }
    split; [destruct (r =? 0); simpl; lia|]. split; [destruct (r =? 0); simpl; lia|].
    intros u. destruct (Hper u) as [Hu Hle]. rewrite Hcnt in Hu, Hle.
    destruct (r =? 0) eqn:E; b2p; simpl; (destruct (decide (t = u)) as [<-|Hne];
      [rewrite ?lookup_delete_eq, ?lookup_insert_eq|rewrite ?lookup_delete_ne, ?lookup_insert_ne by done]);
      simpl; rewrite ?bool_decide_true, ?bool_decide_false in * by done; simpl in *; lia.
Qed.

(** C27: backpressure is exact.  For a valid envelope, in every reachable state the
    controller's totals equal the tasks inside, overall and per tenant, neither
    exceeds its limit, and a request is admitted exactly when both limits leave
    room; a refusal changes neither count. *)
Theorem capacity_exact env c inside :
  validate_limits env = Ok tt ->
  rtc (Capacity.step env) (initial, []) (c, inside) ->
  total c = Z.of_nat (length inside) /\ total c <= max_in_flight env /\
  (forall t, default 0 (per_tenant c !! t) = tenant_count t inside /\
             tenant_count t inside <= max_per_tenant_in_flight env) /\
  forall t, is_ok (fst (admit_enter env t c)) = true <->
    Z.of_nat (length inside) < max_in_flight env /\
    tenant_count t inside < max_per_tenant_in_flight env.
Proof.
  intros Hv Hr.
  assert (Hok : cap_ok env (c, inside)).
  { revert Hr. generalize (c, inside). apply rtc_ind_r; [|intros; by eapply cap_step_ok].
    unfold validate_limits in Hv. run_inv Hv. b2p.
    split; [done|]. split; [simpl; lia|]. intros t. simpl. rewrite lookup_empty.
    unfold tenant_count, count_if. simpl. lia. }
  destruct Hok as (Ht & Hm & Hper). simpl in *. do 3 (split; [done|]).
  intros t. destruct (Hper t) as [Hu _].
  unfold admit_enter, bind, get, modify, guard, lift, require. simpl.
  rewrite <- Ht, <- Hu.
  destruct (max_in_flight env <=? total c) eqn:E1; simpl; b2p; [split; [done|lia]|].
  destruct (max_per_tenant_in_flight env <=? _) eqn:E2; simpl; b2p; split; done || lia.
Qed.

Lemma capacity_exact_witness :
  let c := snd (admit_enter REFERENCE_CAPACITY_ENVELOPE "t" initial) in
  total c = 1 /\ total c <= 128.
Proof.
  set (c := snd (admit_enter REFERENCE_CAPACITY_ENVELOPE "t" initial)).
  destruct (capacity_exact REFERENCE_CAPACITY_ENVELOPE c ["t"]) as (H1 & H2 & _).
  - vm_compute. reflexivity.
  - apply rtc_once. apply step_enter. vm_compute. reflexivity.
  - split; assumption.
Defined.

End AdmissionProperties.
