(* ===== verification/Canonical.v ===== *)
(** * Canonical JSON and digests

    Models [canonical.py]: the profile [prodkit-json-v1], its portable encoder and
    [sha256_hex].  The hash is computed, not assumed: [sha256] is FIPS 180-4 on
    lists of bytes.  Nothing is ever proved from "SHA-256 has no collisions": a
    theorem that compares digests concludes with an equality of the digested bytes
    or with the pair of distinct byte strings that collide.

    A Python value is a [pyval].  Text and byte strings are lists of characters
    (code points below 256, bytes).  A float carries its [repr], which is what the
    encoder writes, and its value, which is what comparisons read. *)

From S2P Require Import Prelude.

Abbreviation text := (list Ascii.ascii) (only parsing).
Abbreviation bytes := (list Ascii.ascii) (only parsing).

Definition txt (s : string) : text := String.list_ascii_of_string s.
Definition of_txt (t : text) : string := String.string_of_list_ascii t.
Definition chr (n : nat) : Ascii.ascii := Ascii.ascii_of_nat n.

(** ** Values *)

(** What the encoder is handed: the Python values the control plane digests. *)
Inductive pyval : Type :=
| PNone
| PBool (b : bool)
| PInt (z : Z)
| PFloat (repr : string) (value : pyfloat)
| PStr (s : string)
| PBytes (b : bytes)
| PDatetime (t : datetime)
| PUuid (u : UUID)
| PEnum (value : string)
| PList (l : list pyval)
| PDict (d : list (string * pyval)).

(** What [json.dumps] accepts *)
Inductive json : Type :=
| JNull
| JBool (b : bool)
| JInt (z : Z)
| JFloat (repr : string)
| JNonFinite
| JStr (s : string)
| JArr (l : list json)
| JObj (d : list (string * json)).

(** ** [datetime.isoformat] of an aware UTC datetime *)
Fixpoint dec_digits (n : nat) (z : Z) : string :=
  match n with
  | O => ""
  | S n' => dec_digits n' (z / 10) +:+ hex_digit (z mod 10)
  end.

(** Year, month and day of a day number since 1970-01-01, in the proleptic
    Gregorian calendar. *)
Definition civil_from_days (days : Z) : Z * Z * Z :=
  let z := days + 719468 in
  let era := z / 146097 in
  let doe := z - era * 146097 in
  let yoe := (doe - doe / 1460 + doe / 36524 - doe / 146096) / 365 in
  let doy := doe - (365 * yoe + yoe / 4 - yoe / 100) in
  let mp := (5 * doy + 2) / 153 in
  let d := doy - (153 * mp + 2) / 5 + 1 in
  let m := if mp <? 10 then mp + 3 else mp - 9 in
  let y := yoe + era * 400 in
  (if m <=? 2 then y + 1 else y, m, d).

Definition isoformat_body (t : datetime) : string :=
  let secs := t / 1000000 in
  let us := t mod 1000000 in
  let '(y, m, d) := civil_from_days (secs / 86400) in
  let s := secs mod 86400 in
  dec_digits 4 y +:+ "-" +:+ dec_digits 2 m +:+ "-" +:+ dec_digits 2 d +:+ "T" +:+
  dec_digits 2 (s / 3600) +:+ ":" +:+ dec_digits 2 ((s / 60) mod 60) +:+ ":" +:+
  dec_digits 2 (s mod 60) +:+
  (if us =? 0 then "" else "." +:+ dec_digits 6 us).

(** [value.isoformat()], and with the offset replaced as [_normalize] does *)
Definition isoformat (t : datetime) : string := isoformat_body t +:+ "+00:00".
Definition isoformat_z (t : datetime) : string := isoformat_body t +:+ "Z".

Definition hex_of_bytes (b : bytes) : string :=
  foldr (fun c acc =>
    let n := Z.of_nat (Ascii.nat_of_ascii c) in
    hex_digit (n / 16) +:+ hex_digit (n mod 16) +:+ acc) "" b.

(** ** [_normalize] *)
Fixpoint normalize (v : pyval) : json :=
  match v with
  | PNone => JNull
  | PBool b => JBool b
  | PInt z => JInt z
  | PFloat r (Finite _) => JFloat r
  | PFloat _ _ => JNonFinite
  | PStr s => JStr s
  | PBytes b => JStr (hex_of_bytes b)
  | PDatetime t => JStr (isoformat_z t)
  | PUuid u => JStr (uuid_str u)
  | PEnum s => JStr s
  | PList l => JArr (map normalize l)
  | PDict d => JObj (map (fun '(k, x) => (k, normalize x)) d)
  end.

(** ** [json.dumps(..., ensure_ascii=False, sort_keys=True, separators=(",", ":"))] *)
Definition dq : Ascii.ascii := chr 34.
Definition backslash : Ascii.ascii := chr 92.

(** The escape table of the encoder *)
Definition json_escape (c : Ascii.ascii) : text :=
  let n := Ascii.nat_of_ascii c in
  if (n =? 34)%nat then [backslash; dq]
  else if (n =? 92)%nat then [backslash; backslash]
  else if (n =? 10)%nat then txt "\n"
  else if (n =? 13)%nat then txt "\r"
  else if (n =? 9)%nat then txt "\t"
  else if (n =? 12)%nat then txt "\f"
  else if (n =? 8)%nat then txt "\b"
  else if (n <? 32)%nat
       then txt "\u00" ++ txt (hex_digit (Z.of_nat n / 16)) ++ txt (hex_digit (Z.of_nat n mod 16))
  else [c].

Definition json_str (s : string) : text := dq :: flat_map json_escape (txt s) ++ [dq].

Fixpoint join_comma (parts : list text) : text :=
  match parts with
  | [] => []
  | [p] => p
  | p :: rest => p ++ txt "," ++ join_comma rest
  end.

Definition key_leb {A} (a b : string * A) : bool := String.leb (fst a) (fst b).

Definition encode_item (kv : string * text) : text := json_str (fst kv) ++ txt ":" ++ snd kv.

Fixpoint encode (j : json) : text :=
  match j with
  | JNull => txt "null"
  | JBool b => txt (if b then "true" else "false")
  | JInt z => txt (pretty z)
  | JFloat r => txt r
  | JNonFinite => txt "NaN"
  | JStr s => json_str s
  | JArr l => txt "[" ++ join_comma (map encode l) ++ txt "]"
  | JObj d =>
      txt "{" ++
      join_comma (map encode_item (sort_by key_leb (map (fun '(k, x) => (k, encode x)) d))) ++
      txt "}"
  end.

Fixpoint all_finite (j : json) : bool :=
  match j with
  | JNonFinite => false
  | JArr l => forallb all_finite l
  | JObj d => forallb (fun '(_, x) => all_finite x) d
  | _ => true
  end.

(** [str.encode("utf-8")] *)
Definition utf8_char (c : Ascii.ascii) : bytes :=
  let n := Ascii.nat_of_ascii c in
  if (n <? 128)%nat then [c] else [chr (192 + n / 64); chr (128 + n mod 64)].

Definition utf8 (t : text) : bytes := flat_map utf8_char t.

(** [allow_nan=False] *)
Definition canonical_json_text (v : pyval) : outcome text :=
  let j := normalize v in
  if all_finite j then Ok (encode j)
  else Raise (ValueError "Out of range float values are not JSON compliant").

Definition canonical_json_bytes (v : pyval) : outcome bytes :=
  t <~ canonical_json_text v ;; Ok (utf8 t).

(** ** [canonical_portable_json] *)
Definition MAX_PORTABLE_INTEGER : Z := 9007199254740991.

Fixpoint canonical_portable_json (v : pyval) : outcome text :=
  match v with
  | PNone => Ok (txt "null")
  | PBool b => Ok (txt (if b then "true" else "false"))
  | PStr s => Ok (json_str s)
  | PEnum s => Ok (json_str s)
  | PInt z =>
      if negb ((- MAX_PORTABLE_INTEGER <=? z) && (z <=? MAX_PORTABLE_INTEGER))
      then Raise (ValueError "prodkit-json-v1 permits only JavaScript-safe integers")
      else Ok (txt (pretty z))
  | PFloat _ _ =>
      Raise (TypeError "prodkit-json-v1 does not permit binary floating-point numbers")
  | PList l =>
      parts <~ (fix go l := match l with
                | [] => Ok []
                | x :: rest => t <~ canonical_portable_json x ;; ts <~ go rest ;; Ok (t :: ts)
                end) l ;;
      Ok (txt "[" ++ join_comma parts ++ txt "]")
  | PDict d =>
      items <~ (fix go d := match d with
                | [] => Ok []
                | (k, x) :: rest => t <~ canonical_portable_json x ;; ts <~ go rest ;; Ok ((k, t) :: ts)
                end) d ;;
      Ok (txt "{" ++ join_comma (map encode_item (sort_by key_leb items)) ++ txt "}")
  | PBytes _ => Raise (TypeError "value of type bytes is outside prodkit-json-v1")
  | PDatetime _ => Raise (TypeError "value of type datetime is outside prodkit-json-v1")
  | PUuid _ => Raise (TypeError "value of type UUID is outside prodkit-json-v1")
  end.

(** ** [hashlib.sha256] *)
Section Sha256.
Definition w32 (x : Z) : Z := Z.land x 0xffffffff.
Definition rotr (n x : Z) : Z := Z.lor (Z.shiftr x n) (w32 (Z.shiftl x (32 - n))).
Definition ch x y z := Z.lxor (Z.land x y) (Z.land (Z.lxor x 0xffffffff) z).
Definition maj x y z := Z.lxor (Z.lxor (Z.land x y) (Z.land x z)) (Z.land y z).
Definition bsig0 x := Z.lxor (Z.lxor (rotr 2 x) (rotr 13 x)) (rotr 22 x).
Definition bsig1 x := Z.lxor (Z.lxor (rotr 6 x) (rotr 11 x)) (rotr 25 x).
Definition ssig0 x := Z.lxor (Z.lxor (rotr 7 x) (rotr 18 x)) (Z.shiftr x 3).
Definition ssig1 x := Z.lxor (Z.lxor (rotr 17 x) (rotr 19 x)) (Z.shiftr x 10).

(** The constants of the standard, in decimal *)
Definition K : list Z := [
  1116352408; 1899447441; 3049323471; 3921009573; 961987163; 1508970993; 2453635748; 2870763221;
  3624381080; 310598401; 607225278; 1426881987; 1925078388; 2162078206; 2614888103; 3248222580;
  3835390401; 4022224774; 264347078; 604807628; 770255983; 1249150122; 1555081692; 1996064986;
  2554220882; 2821834349; 2952996808; 3210313671; 3336571891; 3584528711; 113926993; 338241895;
  666307205; 773529912; 1294757372; 1396182291; 1695183700; 1986661051; 2177026350; 2456956037;
  2730485921; 2820302411; 3259730800; 3345764771; 3516065817; 3600352804; 4094571909; 275423344;
  430227734; 506948616; 659060556; 883997877; 958139571; 1322822218; 1537002063; 1747873779;
  1955562222; 2024104815; 2227730452; 2361852424; 2428436474; 2756734187; 3204031479; 3329325298].

Definition H0 : list Z := [
  1779033703; 3144134277; 1013904242; 2773480762; 1359893119; 2600822924; 528734635; 1541459225].

Definition be_bytes (n : nat) (z : Z) : list Z :=
  rev (map (fun i => Z.land (Z.shiftr z (8 * Z.of_nat i)) 255) (seq 0 n)).

Definition pad (m : list Z) : list Z :=
  let len := Z.of_nat (length m) in
  m ++ [0x80] ++ repeat 0 (Z.to_nat ((55 - len) mod 64)) ++ be_bytes 8 (8 * len).

Fixpoint words (m : list Z) : list Z :=
  match m with
  | a :: b :: c :: d :: rest =>
      Z.lor (Z.shiftl a 24) (Z.lor (Z.shiftl b 16) (Z.lor (Z.shiftl c 8) d)) :: words rest
  | _ => []
  end.

(** The message schedule; [ws] holds the last sixteen words, newest first. *)
Fixpoint schedule (n : nat) (ws : list Z) : list Z :=
  match n with
  | O => []
  | S n' =>
      let w := w32 (ssig1 (nth 1 ws 0) + nth 6 ws 0 + ssig0 (nth 14 ws 0) + nth 15 ws 0) in
      w :: schedule n' (w :: firstn 15 ws)
  end.

Definition round (s : list Z) (kw : Z * Z) : list Z :=
  match s with
  | [a; b; c; d; e; f; g; h] =>
      let t1 := h + bsig1 e + ch e f g + fst kw + snd kw in
      let t2 := bsig0 a + maj a b c in
      [w32 (t1 + t2); a; b; c; w32 (d + t1); e; f; g]
  | _ => s
  end.

Definition compress (h : list Z) (block : list Z) : list Z :=
  let w := block ++ schedule 48 (rev block) in
  zip_with (fun x y => w32 (x + y)) h (foldl round h (combine K w)).

Fixpoint blocks (fuel : nat) (ws : list Z) : list (list Z) :=
  match fuel, ws with
  | S fuel', _ :: _ => firstn 16 ws :: blocks fuel' (skipn 16 ws)
  | _, _ => []
  end.

Definition byte_of (c : Ascii.ascii) : Z := Z.of_nat (Ascii.nat_of_ascii c).

Definition hashlib_sha256 (m : bytes) : list Z :=
  let ws := words (pad (map byte_of m)) in
  foldl compress H0 (blocks (length ws) ws).
End Sha256.

(** [hexdigest()] *)
Definition sha256_bytes (m : bytes) : string :=
  foldr (fun w acc => hex_digits 8 w +:+ acc) "" (hashlib_sha256 m).

(** The three cases of [sha256_hex]: bytes, text, and anything else by its
    canonical bytes.  (An enum of the contracts is a [str].) *)
Definition sha256_str (s : string) : string := sha256_bytes (utf8 (txt s)).

Definition sha256_hex (v : pyval) : outcome string :=
  match v with
  | PBytes b => Ok (sha256_bytes b)
  | PStr s | PEnum s => Ok (sha256_str s)
  | _ => b <~ canonical_json_bytes v ;; Ok (sha256_bytes b)
  end.

Arguments sha256_hex : simpl never.
Arguments sha256_bytes : simpl never.
Arguments sha256_str : simpl never.

(** ** [uuid.uuid5], with [hashlib.sha1] *)
Section Sha1.
Definition rotl (n x : Z) : Z := w32 (Z.lor (Z.shiftl x n) (Z.shiftr x (32 - n))).

Fixpoint schedule1 (n : nat) (ws : list Z) : list Z :=
  match n with
  | O => []
  | S n' =>
      let w := rotl 1 (Z.lxor (Z.lxor (nth 2 ws 0) (nth 7 ws 0)) (Z.lxor (nth 13 ws 0) (nth 15 ws 0))) in
      w :: schedule1 n' (w :: firstn 15 ws)
  end.

Definition round1 (s : list Z) (iw : nat * Z) : list Z :=
  match s with
  | [a; b; c; d; e] =>
      let '(f, k) :=
        if (fst iw <? 20)%nat then (ch b c d, 0x5a827999)
        else if (fst iw <? 40)%nat then (Z.lxor (Z.lxor b c) d, 0x6ed9eba1)
        else if (fst iw <? 60)%nat then (maj b c d, 0x8f1bbcdc)
        else (Z.lxor (Z.lxor b c) d, 0xca62c1d6) in
      [w32 (rotl 5 a + f + e + k + snd iw); a; rotl 30 b; c; d]
  | _ => s
  end.

Definition compress1 (h : list Z) (block : list Z) : list Z :=
  let w := block ++ schedule1 64 (rev block) in
  zip_with (fun x y => w32 (x + y)) h (foldl round1 h (combine (seq 0 80) w)).

Definition hashlib_sha1 (m : list Z) : list Z :=
  let ws := words (pad m) in
  foldl compress1 [0x67452301; 0xefcdab89; 0x98badcfe; 0x10325476; 0xc3d2e1f0]
    (blocks (length ws) ws).
End Sha1.

Definition NAMESPACE_URL : UUID := 0x6ba7b8119dad11d180b400c04fd430c8.

(** The first 128 bits of the hash with the version and variant bits set *)
Definition uuid5 (namespace : UUID) (name : string) : UUID :=
  let h := hashlib_sha1 (be_bytes 16 namespace ++ map byte_of (utf8 (txt name))) in
  let v := foldl (fun acc w => Z.lor (Z.shiftl acc 32) w) 0 (firstn 4 h) in
  let v := Z.lor (Z.land v (Z.lnot (Z.shiftl 0xf000 64))) (Z.shiftl 5 76) in
  Z.lor (Z.land v (Z.lnot (Z.shiftl 0xc000 48))) (Z.shiftl 0x8000 48).

Example uuid5_ex :
  uuid_str (uuid5 NAMESPACE_URL "prodkit-policy:r:d") = "ea00e4e6-f0b0-50a6-b729-6fc7123fdf24".
Proof. vm_compute. reflexivity. Qed.

Example sha256_abc :
  sha256_str "abc" = "ba7816bf8f01cfea414140de5dae2223b00361a396177a9cb410ff61f20015ad".
Proof. vm_compute. reflexivity. Qed.

Example sha256_two_blocks :
  sha256_str "abcdbcdecdefdefgefghfghighijhijkijkljklmklmnlmnomnopnopq" =
  "248d6a61d20638b8e5c026930c3e6039a33ce45964ff2167f6ecedd419db06c1".
Proof. vm_compute. reflexivity. Qed.

Example isoformat_ex : isoformat_z 1709211845000007 = "2024-02-29T13:04:05.000007Z".
Proof. vm_compute. reflexivity. Qed.

(** The schema constraints on digests and trace identifiers *)
Definition is_lower_hex (c : Ascii.ascii) : bool :=
  let n := Ascii.nat_of_ascii c in
  ((48 <=? n) && (n <=? 57) || (97 <=? n) && (n <=? 102))%nat.

Definition hex_string (n : nat) (s : string) : bool :=
  (String.length s =? n)%nat && forallb is_lower_hex (txt s).

Definition Sha256 (field s : string) : outcome string :=
  if hex_string 64 s then Ok s else Raise (ValidationError field).
Definition TraceId (field s : string) : outcome string :=
  if hex_string 32 s then Ok s else Raise (ValidationError field).
Definition SpanId (field s : string) : outcome string :=
  if hex_string 16 s then Ok s else Raise (ValidationError field).
