(* ===== verification/CanonicalProofs.v ===== *)
(** * The canonical encoding identifies values up to the order of keys

    The encoder is proved injective on canonical forms by a prefix argument: an
    encoding followed by a delimiter determines the value it starts with.  From it
    come key-order independence, the agreement of the two encoders of
    [canonical.py], and the shape of digests. *)

From S2P Require Import Prelude Canonical.

(** ** Induction on nested values *)
Section JsonInd.
Context (Q : json -> Prop).
Hypothesis (Hnull : Q JNull) (Hbool : forall b, Q (JBool b)) (Hint : forall z, Q (JInt z))
  (Hfloat : forall r, Q (JFloat r)) (Hnan : Q JNonFinite) (Hstr : forall s, Q (JStr s))
  (Harr : forall l, Forall Q l -> Q (JArr l))
  (Hobj : forall d, Forall (fun kv => Q (snd kv)) d -> Q (JObj d)).

Fixpoint json_ind' (j : json) : Q j :=
  match j with
  | JNull => Hnull
  | JBool b => Hbool b
  | JInt z => Hint z
  | JFloat r => Hfloat r
  | JNonFinite => Hnan
  | JStr s => Hstr s
  | JArr l => Harr l ((fix go l := match l return Forall Q l with
      | [] => List.Forall_nil _
      | x :: rest => List.Forall_cons _ x rest (json_ind' x) (go rest)
      end) l)
  | JObj d => Hobj d ((fix go d := match d return Forall (fun kv => Q (snd kv)) d with
      | [] => List.Forall_nil _
      | kv :: rest => List.Forall_cons _ kv rest (json_ind' (snd kv)) (go rest)
      end) d)
  end.
End JsonInd.

(** ** Sorting by key *)
Definition on_value {A B} (f : A -> B) (kv : string * A) : string * B := (fst kv, f (snd kv)).

Lemma sort_insert_on_value {A B} (f : A -> B) x l :
  map (on_value f) (sort_insert key_leb x l) = sort_insert key_leb (on_value f x) (map (on_value f) l).
Proof.
  induction l as [|y l IH]; simpl; [done|].
  unfold key_leb at 1 3. simpl. destruct (String.leb (fst x) (fst y)); simpl; [done|]. by rewrite IH.
Qed.

Lemma sort_by_on_value {A B} (f : A -> B) l :
  map (on_value f) (sort_by key_leb l) = sort_by key_leb (map (on_value f) l).
Proof.
  induction l as [|x l IH]; simpl; [done|]. by rewrite sort_insert_on_value, IH.
Qed.

(** Sorting by distinct keys forgets the order of the entries. *)
Lemma sort_insert_comm {A} (x y : string * A) l :
  fst x <> fst y ->
  sort_insert key_leb x (sort_insert key_leb y l) = sort_insert key_leb y (sort_insert key_leb x l).
Proof.
  intros Hne. induction l as [|z l IH]; simpl.
  - unfold key_leb. destruct (String.leb_total (fst x) (fst y)) as [H|H]; rewrite H;
      [destruct (String.leb (fst y) (fst x)) eqn:E|destruct (String.leb (fst x) (fst y)) eqn:E];
      try done; exfalso; apply Hne; by apply String.leb_antisym.
  - unfold key_leb. simpl.
    destruct (String.leb (fst y) (fst z)) eqn:Ey, (String.leb (fst x) (fst z)) eqn:Ex; simpl;
      rewrite ?Ex, ?Ey.
    + destruct (String.leb_total (fst x) (fst y)) as [H|H]; rewrite H;
      [destruct (String.leb (fst y) (fst x)) eqn:E|destruct (String.leb (fst x) (fst y)) eqn:E];
      try done; exfalso; apply Hne; by apply String.leb_antisym.
    + destruct (String.leb (fst x) (fst y)) eqn:E; [|done].
      exfalso. rewrite (string_leb_trans _ _ _ E Ey) in Ex. done.
    + destruct (String.leb (fst y) (fst x)) eqn:E; [|done].
      exfalso. rewrite (string_leb_trans _ _ _ E Ex) in Ey. done.
    + f_equal. exact IH.
Qed.

Lemma sort_by_Permutation {A} (l k : list (string * A)) :
  NoDup (map fst l) -> l ≡ₚ k -> sort_by key_leb l = sort_by key_leb k.
Proof.
  intros Hnd Hp. induction Hp as [|x l k Hp IH|x y l|l k m H1 IH1 H2 IH2]; simpl in *.
  - done.
  - f_equal. apply IH. by apply NoDup_cons in Hnd as [_ ?].
  - apply sort_insert_comm. apply NoDup_cons in Hnd as [Hni _]. set_solver.
  - rewrite IH1 by done. apply IH2. by rewrite <- H1.
Qed.

(** ** Canonical form: the keys of every object sorted *)
Fixpoint canon (j : json) : json :=
  match j with
  | JArr l => JArr (map canon l)
  | JObj d => JObj (sort_by key_leb (map (on_value canon) d))
  | _ => j
  end.

(** Encoding without sorting *)
Fixpoint plain (j : json) : text :=
  match j with
  | JArr l => txt "[" ++ join_comma (map plain l) ++ txt "]"
  | JObj d => txt "{" ++ join_comma (map encode_item (map (on_value plain) d)) ++ txt "}"
  | _ => encode j
  end.

Lemma map_ext_Forall {A B} (f g : A -> B) l : Forall (fun x => f x = g x) l -> map f l = map g l.
Proof. induction 1; simpl; congruence. Qed.

Lemma encode_plain j : encode j = plain (canon j).
Proof.
  induction j as [| | | | | |l IH|d IH] using json_ind'; try done.
  - simpl. rewrite map_map. by rewrite (map_ext_Forall _ _ _ IH).
  - simpl. rewrite sort_by_on_value, map_map. do 4 f_equal.
    assert (Hm : map (fun '(k, x) => (k, encode x)) d =
                 map (fun kv => on_value plain (on_value canon kv)) d).
    { apply map_ext_Forall. eapply Forall_impl; [exact IH|].
      intros [k x] Hx. unfold on_value. simpl in *. by rewrite Hx. }
    by rewrite Hm.
Qed.

(** ** Tokens and delimiters *)
Definition num_char (c : Ascii.ascii) : bool :=
  let n := Ascii.nat_of_ascii c in
  ((48 <=? n) && (n <=? 57) || (n =? 45) || (n =? 43) || (n =? 46) || (n =? 101))%nat.

(** The [repr] of a finite float is a number token that is not an integer's. *)
Definition int_char (c : Ascii.ascii) : bool :=
  let n := Ascii.nat_of_ascii c in ((48 <=? n) && (n <=? 57) || (n =? 45))%nat.
Definition float_repr (r : string) : bool :=
  forallb num_char (txt r) && existsb (fun c => negb (int_char c)) (txt r) &&
  match txt r with c :: _ => int_char c | [] => false end.

Definition delim (r : text) : Prop :=
  match r with
  | [] => True
  | c :: _ => num_char c = false
  end.

Fixpoint wf_json (j : json) : bool :=
  match j with
  | JFloat r => float_repr r
  | JNonFinite => false
  | JArr l => forallb wf_json l
  | JObj d => py_unique (map fst d) && forallb (fun '(_, x) => wf_json x) d
  | _ => true
  end.

Lemma token_split (p : Ascii.ascii -> bool) a b r1 r2 :
  Forall (fun c => p c = true) a -> Forall (fun c => p c = true) b ->
  (forall c r, r1 = c :: r -> p c = false) -> (forall c r, r2 = c :: r -> p c = false) ->
  a ++ r1 = b ++ r2 -> a = b /\ r1 = r2.
Proof.
  intros Ha. revert b. induction Ha as [|c a Hc Ha IH]; intros [|d b] Hb H1 H2 E; simpl in *.
  - done.
  - inversion Hb; subst. specialize (H1 _ _ eq_refl). congruence.
  - subst. specialize (H2 _ _ eq_refl). congruence.
  - injection E as -> E. inversion Hb; subst. destruct (IH b) as [-> ->]; done.
Qed.

Lemma pretty_N_go_chars x s :
  Forall (fun c => int_char c = true) (txt s) ->
  Forall (fun c => int_char c = true) (txt (pretty_N_go x s)).
Proof.
  revert s. induction (N.lt_wf_0 x) as [x _ IH]; intros s Hs.
  assert (x = 0 \/ 0 < x)%N as [->|Hx] by lia; [by rewrite pretty_N_go_0|].
  rewrite pretty_N_go_step by done. apply IH; [by apply N.div_lt|].
  simpl. constructor; [|done]. unfold pretty_N_char. by repeat case_match.
Qed.

Lemma pretty_N_chars (x : N) : Forall (fun c => int_char c = true) (txt (pretty x)).
Proof.
  unfold pretty, pretty_N. case_decide; [by repeat constructor|]. apply pretty_N_go_chars.
  constructor.
Qed.

Lemma pretty_Z_chars (z : Z) : Forall (fun c => int_char c = true) (txt (pretty z)).
Proof.
  destruct z as [|p|p]; [by repeat constructor|apply (pretty_N_chars (Npos p))|].
  change (pretty (Zneg p)) with ("-" +:+ pretty (Npos p)). unfold txt. rewrite list_ascii_app.
  constructor; [done|apply pretty_N_chars].
Qed.

Lemma pretty_Z_nonempty (z : Z) : txt (pretty z) <> [].
Proof.
  destruct z as [|p|p]; [done| |done]. intros H.
  assert (E : pretty (Npos p) = "").
  { rewrite <- (String.string_of_list_ascii_of_string (pretty (Npos p))). unfold txt in H.
    change (pretty (Zpos p)) with (pretty (Npos p)) in H. by rewrite H. }
  assert (Hl : forall x s, pretty_N_go x s = "" -> s = "").
  { intros x. induction (N.lt_wf_0 x) as [x _ IH]; intros s.
    assert (x = 0 \/ 0 < x)%N as [->|Hx] by lia; [by rewrite pretty_N_go_0|].
    rewrite pretty_N_go_step by done. intros Hs. by apply IH in Hs; [|apply N.div_lt]. }
  unfold pretty, pretty_N in E. rewrite decide_False in E by done.
  rewrite pretty_N_go_step in E by done. by apply Hl in E.
Qed.

Lemma int_char_num c : int_char c = true -> num_char c = true.
Proof. destruct c as [[] [] [] [] [] [] [] []]; vm_compute; congruence. Qed.

Lemma txt_inj s1 s2 : txt s1 = txt s2 -> s1 = s2.
Proof.
  intros H. rewrite <- (String.string_of_list_ascii_of_string s1),
    <- (String.string_of_list_ascii_of_string s2). unfold txt in H. by rewrite H.
Qed.

(** ** Strings *)
Definition unescape (t : text) : option (Ascii.ascii * text) :=
  match t with
  | c :: rest =>
      if bool_decide (c = backslash) then
        match rest with
        | e :: rest' =>
            let n := Ascii.nat_of_ascii e in
            if (n =? 34)%nat then Some (dq, rest')
            else if (n =? 92)%nat then Some (backslash, rest')
            else if (n =? 110)%nat then Some (chr 10, rest')
            else if (n =? 114)%nat then Some (chr 13, rest')
            else if (n =? 116)%nat then Some (chr 9, rest')
            else if (n =? 102)%nat then Some (chr 12, rest')
            else if (n =? 98)%nat then Some (chr 8, rest')
            else match rest' with
                 | _ :: _ :: h :: l :: rest'' =>
                     let d c := let m := Ascii.nat_of_ascii c in if (m <? 58)%nat then (m - 48)%nat else (m - 87)%nat in
                     Some (chr (16 * d h + d l), rest'')
                 | _ => None
                 end
        | [] => None
        end
      else Some (c, rest)
  | [] => None
  end.

Lemma unescape_escape c r : unescape (json_escape c ++ r) = Some (c, r).
Proof. destruct c as [[] [] [] [] [] [] [] []]; reflexivity. Qed.

Lemma escape_not_dq c r r' : json_escape c ++ r <> dq :: r'.
Proof. destruct c as [[] [] [] [] [] [] [] []]; discriminate. Qed.

Lemma escaped_inj s1 s2 r1 r2 :
  flat_map json_escape s1 ++ dq :: r1 = flat_map json_escape s2 ++ dq :: r2 -> s1 = s2 /\ r1 = r2.
Proof.
  revert s2. induction s1 as [|c s1 IH]; intros [|d s2]; cbn [flat_map app]; intros E.
  - injection E as ->. done.
  - rewrite <- app_assoc in E. symmetry in E. by apply escape_not_dq in E.
  - rewrite <- app_assoc in E. by apply escape_not_dq in E.
  - rewrite <- !app_assoc in E. apply (f_equal unescape) in E. rewrite !unescape_escape in E.
    injection E as -> E. destruct (IH _ E) as [-> ->]. done.
Qed.

Lemma json_str_inj s1 s2 r1 r2 :
  json_str s1 ++ r1 = json_str s2 ++ r2 -> s1 = s2 /\ r1 = r2.
Proof.
  unfold json_str. cbn [app]. rewrite <- !app_assoc. intros E. injection E as E.
  apply escaped_inj in E as [E ->]. split; [by apply txt_inj|done].
Qed.

(** ** Sequences *)
Section Join.
Context {A : Type} (f : A -> text) (close : Ascii.ascii).
Hypothesis (Hnum : num_char close = false) (Hcomma : close <> chr 44).

Definition tail_of (l : list A) (r : text) : text :=
  match l with
  | [] => close :: r
  | _ => chr 44 :: join_comma (map f l) ++ close :: r
  end.

Lemma join_cons x l r : join_comma (map f (x :: l)) ++ close :: r = f x ++ tail_of l r.
Proof. destruct l; [done|]. cbn [map join_comma tail_of]. by rewrite <- !app_assoc. Qed.

Lemma tail_delim l r : delim (tail_of l r).
Proof. destruct l; [exact Hnum|reflexivity]. Qed.

Lemma join_inj l1 l2 r1 r2 :
  (forall x y r r', x ∈ l1 -> y ∈ l2 -> delim r -> delim r' ->
     f x ++ r = f y ++ r' -> x = y /\ r = r') ->
  (forall x, x ∈ l1 ++ l2 -> exists c t, f x = c :: t /\ c <> close) ->
  join_comma (map f l1) ++ close :: r1 = join_comma (map f l2) ++ close :: r2 ->
  l1 = l2 /\ r1 = r2.
Proof.
  revert l2. induction l1 as [|x l1 IH]; intros [|y l2] Hf Hh E.
  - injection E as ->. done.
  - rewrite join_cons in E. destruct (Hh y) as (c & t & Hy & Hc); [set_solver|].
    rewrite Hy in E. injection E as Hc' _. congruence.
  - rewrite join_cons in E. destruct (Hh x) as (c & t & Hx & Hc); [set_solver|].
    rewrite Hx in E. injection E as Hc' _. congruence.
  - rewrite !join_cons in E.
    apply Hf in E as [-> E]; [|set_solver|set_solver|apply tail_delim|apply tail_delim].
    destruct l1 as [|x1 l1], l2 as [|y1 l2]; cbn [tail_of] in E.
    + injection E as ->. done.
    + injection E as E _. congruence.
    + injection E as E _. congruence.
    + apply (f_equal (@tl _)) in E. cbn [tl] in E.
      apply IH in E as [-> ->]; [done| |].
      * intros x y' r r' Hx Hy. apply Hf; by constructor.
      * intros x Hx. apply Hh. apply elem_of_app in Hx as [Hx|Hx]; apply elem_of_app;
          [left|right]; by constructor.
Qed.
End Join.

(** ** The encoder without sorting is injective *)
Definition kind_of_char (c : Ascii.ascii) : nat :=
  if bool_decide (c = chr 110) then 0
  else if bool_decide (c = chr 116) then 1
  else if bool_decide (c = chr 102) then 2
  else if int_char c then 3
  else if bool_decide (c = dq) then 4
  else if bool_decide (c = chr 91) then 5
  else if bool_decide (c = chr 123) then 6
  else if bool_decide (c = chr 78) then 8 else 7.

Definition kind_of (j : json) : nat :=
  match j with
  | JNull => 0 | JBool b => if b then 1 else 2 | JInt _ | JFloat _ => 3
  | JNonFinite => 8 | JStr _ => 4 | JArr _ => 5 | JObj _ => 6
  end.

Lemma int_char_kind c : int_char c = true -> kind_of_char c = 3%nat.
Proof. destruct c as [[] [] [] [] [] [] [] []]; vm_compute; congruence. Qed.

Lemma plain_head j : wf_json j = true -> exists c t, plain j = c :: t /\ kind_of_char c = kind_of j.
Proof.
  destruct j as [|[]|z|r| |s|l|d]; intros Hwf; try (eexists _, _; split; [reflexivity|reflexivity]).
  - simpl. pose proof (pretty_Z_nonempty z) as Hn. pose proof (pretty_Z_chars z) as Hc.
    destruct (txt (pretty z)) as [|c t]; [done|]. exists c, t. split; [done|].
    apply int_char_kind. by inversion Hc.
  - simpl in *. unfold float_repr in Hwf. destruct (txt r) as [|c t]; [by b2p|].
    exists c, t. split; [done|]. b2p. by apply int_char_kind.
Qed.

Lemma delim_num r : delim r -> forall c t, r = c :: t -> num_char c = false.
Proof. intros H c t ->. exact H. Qed.

Lemma float_not_int r (z : Z) : float_repr r = true -> txt (pretty z) <> txt r.
Proof.
  intros Hr E. unfold float_repr in Hr. rewrite <- E in Hr.
  apply andb_true_iff in Hr as [[_ H0]%andb_true_iff _].
  apply existsb_exists in H0 as (c & Hin & Hc). pose proof (pretty_Z_chars z) as Hf.
  rewrite List.Forall_forall in Hf. rewrite (Hf c Hin) in Hc. done.
Qed.

Lemma Forall_forallb {A} (p : A -> bool) l : forallb p l = true -> Forall (fun x => p x = true) l.
Proof. rewrite forallb_forall, List.Forall_forall. done. Qed.

Lemma float_repr_num r : float_repr r = true -> Forall (fun c => num_char c = true) (txt r).
Proof. unfold float_repr. intros [[H _]%andb_true_iff _]%andb_true_iff. by apply Forall_forallb. Qed.

Lemma pretty_Z_num (z : Z) : Forall (fun c => num_char c = true) (txt (pretty z)).
Proof. eapply Forall_impl; [apply pretty_Z_chars|]. intros c. apply int_char_num. Qed.

Lemma num_token_split a b r1 r2 :
  Forall (fun c => num_char c = true) a -> Forall (fun c => num_char c = true) b ->
  delim r1 -> delim r2 -> a ++ r1 = b ++ r2 -> a = b /\ r1 = r2.
Proof. intros. eapply (token_split num_char); eauto using delim_num. Qed.

Lemma plain_inj j1 : forall j2 r1 r2,
  wf_json j1 = true -> wf_json j2 = true -> delim r1 -> delim r2 ->
  plain j1 ++ r1 = plain j2 ++ r2 -> j1 = j2 /\ r1 = r2.
Proof.
  induction j1 as [|b|z|r| |s|l IH|d IH] using json_ind'; intros j2 r1 r2 Hw1 Hw2 Hd1 Hd2 E;
    pose proof (plain_head _ Hw2) as (c2 & t2 & Hp2 & Hk2);
    match type of E with plain ?x ++ _ = _ =>
      pose proof (plain_head x Hw1) as (c1 & t1 & Hp1 & Hk1) end;
    assert (Hk : kind_of j2 = kind_of_char c1) by
      (rewrite Hp1, Hp2 in E; injection E as -> _; done);
    rewrite Hk1 in Hk; clear Hp1 Hp2 Hk1 Hk2.
  - destruct j2 as [|[]|z2|r'| |s2|l2|d2]; try discriminate Hk. by injection E as ->.
  - destruct j2 as [|[]|z2|r'| |s2|l2|d2], b; try discriminate Hk; by injection E as ->.
  - destruct j2 as [|[]|z2|r'| |s2|l2|d2]; try discriminate Hk; simpl in E.
    + apply num_token_split in E as [E ->]; auto using pretty_Z_num, float_repr_num.
      apply txt_inj in E. apply (inj pretty) in E. by subst.
    + exfalso. simpl in Hw2.
      apply num_token_split in E as [E ->]; auto using pretty_Z_num, float_repr_num.
      by apply (float_not_int r' z).
  - simpl in Hw1.
    destruct j2 as [|[]|z2|r'| |s2|l2|d2]; try discriminate Hk; simpl in E.
    + exfalso.
      apply num_token_split in E as [E ->]; auto using pretty_Z_num, float_repr_num.
      by apply (float_not_int r z2).
    + simpl in Hw2.
      apply num_token_split in E as [E ->]; auto using pretty_Z_num, float_repr_num.
      apply txt_inj in E. by subst.
  - done.
  - destruct j2 as [|[]|z2|r'| |s2|l2|d2]; try discriminate Hk.
    apply json_str_inj in E as [-> ->]. done.
  - destruct j2 as [|[]|z2|r'| |s2|l2|d2]; try discriminate Hk.
    cbn [plain] in E. rewrite <- !app_assoc in E. apply (f_equal (@tl _)) in E.
    simpl in Hw1, Hw2. rewrite Forall_forall in IH.
    apply Forall_forallb in Hw1, Hw2. rewrite Forall_forall in Hw1, Hw2.
    apply join_inj in E as [-> ->]; [done|done|done| |].
    + intros x y r r' Hx Hy. apply IH; auto.
    + intros x Hx. destruct (plain_head x) as (c & t & Hp & Hc).
      { apply elem_of_app in Hx as [|]; auto. }
      exists c, t. split; [done|]. intros ->. destruct x as [|[]| | | | | |]; discriminate Hc.
  - destruct j2 as [|[]|z2|r'| |s2|l2|d2]; try discriminate Hk.
    cbn [plain] in E. rewrite <- !app_assoc, !map_map in E. apply (f_equal (@tl _)) in E.
    simpl in Hw1, Hw2. b2p. rewrite Forall_forall in IH.
    apply Forall_forallb in H0, H2. rewrite Forall_forall in H0, H2.
    apply (join_inj (fun kv => encode_item (on_value plain kv))) in E as [-> ->]; [done|done|done| |].
    + intros [k x] [k' y] r r' Hx Hy Hdr Hdr'. unfold encode_item, on_value. cbn [fst snd].
      rewrite <- (app_assoc (json_str k)), <- (app_assoc (json_str k')). intros E2. apply json_str_inj in E2 as [-> E2]. rewrite <- !app_assoc in E2. apply (f_equal (@tl _)) in E2.
      apply (IH _ Hx) in E2 as [E2 ->]; [|apply (H2 _ Hx)|apply (H0 _ Hy)|done|done].
      simpl in E2. by subst.
    + intros [k x] _. unfold encode_item, json_str. simpl. eexists _, _. split; [reflexivity|]. done.
Qed.

Lemma wf_canon j : wf_json j = true -> wf_json (canon j) = true.
Proof.
  induction j as [| | | | | |l IH|d IH] using json_ind'; try done; simpl.
  - rewrite !forallb_forall. intros Hw x Hx. apply in_map_iff in Hx as (y & <- & Hy).
    rewrite List.Forall_forall in IH. auto.
  - intros Hw. b2p. apply andb_true_iff. split.
    + apply py_unique_true in H. apply py_unique_true.
      rewrite (fmap_Permutation fst _ _ (sort_by_perm _ _)). rewrite map_map. exact H.
    + rewrite forallb_forall in *. intros [k x] Hx. rewrite <- list_elem_of_In in Hx.
      apply elem_of_sort_by in Hx. rewrite list_elem_of_In in Hx.
      apply in_map_iff in Hx as ([k' y] & [= <- <-] & Hy).
      rewrite List.Forall_forall in IH. apply (IH _ Hy). exact (H0 _ Hy).
Qed.

Lemma encode_inj j1 j2 :
  wf_json j1 = true -> wf_json j2 = true -> encode j1 = encode j2 -> canon j1 = canon j2.
Proof.
  intros H1 H2 E. rewrite !encode_plain in E.
  apply (plain_inj _ _ [] []); auto using wf_canon; simpl; [done..|].
  by rewrite !app_nil_r.
Qed.

(** ** UTF-8 *)
Definition decode_char (b : bytes) : option (Ascii.ascii * bytes) :=
  match b with
  | c :: rest =>
      let n := Ascii.nat_of_ascii c in
      if (n <? 128)%nat then Some (c, rest)
      else match rest with
           | d :: rest' => Some (chr ((n - 192) * 64 + (Ascii.nat_of_ascii d - 128)), rest')
           | [] => None
           end
  | [] => None
  end.

Lemma decode_utf8_char c r : decode_char (utf8_char c ++ r) = Some (c, r).
Proof. destruct c as [[] [] [] [] [] [] [] []]; reflexivity. Qed.

Lemma utf8_inj t1 t2 : utf8 t1 = utf8 t2 -> t1 = t2.
Proof.
  revert t2. induction t1 as [|c t1 IH]; intros [|d t2]; unfold utf8; cbn [flat_map]; intros E.
  - done.
  - apply (f_equal decode_char) in E. by rewrite decode_utf8_char in E.
  - apply (f_equal decode_char) in E. by rewrite decode_utf8_char in E.
  - apply (f_equal decode_char) in E. rewrite !decode_utf8_char in E. injection E as -> E.
    f_equal. by apply IH.
Qed.

(** ** Values *)
Definition wf_value (v : pyval) : bool := wf_json (normalize v).

Lemma wf_all_finite j : wf_json j = true -> all_finite j = true.
Proof.
  induction j as [| | | | | |l IH|d IH] using json_ind'; try done; simpl.
  - rewrite !forallb_forall. rewrite List.Forall_forall in IH. auto.
  - intros Hw. b2p. rewrite List.Forall_forall in IH. rewrite !forallb_forall in *.
    intros [k x] Hin. apply (IH _ Hin). exact (H0 _ Hin).
Qed.

Lemma canonical_bytes_wf v :
  wf_value v = true -> canonical_json_bytes v = Ok (utf8 (encode (normalize v))).
Proof.
  intros Hw. unfold canonical_json_bytes, canonical_json_text.
  by rewrite (wf_all_finite _ Hw).
Qed.

Lemma canonical_bytes_canon v1 v2 :
  wf_value v1 = true -> wf_value v2 = true ->
  canonical_json_bytes v1 = canonical_json_bytes v2 -> canon (normalize v1) = canon (normalize v2).
Proof.
  intros H1 H2. rewrite !canonical_bytes_wf by done. intros [= E]. apply utf8_inj in E.
  by apply encode_inj.
Qed.

Lemma forallb_Permutation {A} (p : A -> bool) l k : l ≡ₚ k -> forallb p l = forallb p k.
Proof.
  induction 1 as [|x l k _ IH|x y l|l k m _ IH1 _ IH2]; simpl; [done|by rewrite IH| |congruence].
  destruct (p x), (p y); done.
Qed.

Lemma dict_Permutation_bytes d1 d2 :
  NoDup (map fst d1) -> d1 ≡ₚ d2 ->
  canonical_json_bytes (PDict d1) = canonical_json_bytes (PDict d2).
Proof.
  intros Hnd Hp. unfold canonical_json_bytes, canonical_json_text. simpl.
  set (f := fun '(k, x) => (k, normalize x)).
  rewrite (forallb_Permutation _ (map f d1) (map f d2)) by by apply Permutation_map.
  rewrite (sort_by_Permutation _ (map (fun '(k, x) => (k, encode x)) (map f d2))); [done| |].
  - rewrite !map_map. erewrite (map_ext _ fst); [exact Hnd|]. by intros [].
  - do 2 apply Permutation_map. exact Hp.
Qed.

(** A pair of distinct inputs with the same SHA-256 digest, written out *)
Definition collision : Prop :=
  exists b1 b2, b1 <> b2 /\ sha256_bytes b1 = sha256_bytes b2.

Lemma sha256_bytes_eq b1 b2 : sha256_bytes b1 = sha256_bytes b2 -> b1 = b2 \/ collision.
Proof.
  intros H. destruct (decide (b1 = b2)); [by left|]. right. by exists b1, b2.
Qed.

(** Equal digests: the same canonical bytes, or a collision. *)
Lemma sha256_hex_eq d1 d2 h :
  let v1 := PDict d1 in let v2 := PDict d2 in
  sha256_hex v1 = Ok h -> sha256_hex v2 = Ok h ->
  canonical_json_bytes v1 = canonical_json_bytes v2 \/ collision.
Proof.
  cbv zeta. unfold sha256_hex. set (v1 := PDict d1). set (v2 := PDict d2). destruct (canonical_json_bytes v1) as [b1|], (canonical_json_bytes v2) as [b2|];
    cbn [obind]; try discriminate. intros [= <-] [= E].
  apply sha256_bytes_eq in E as [->|]; [by left|by right].
Qed.

Lemma hex_digits_hex n z : hex_string n (hex_digits n z) = true.
Proof.
  assert (H : forall n z, String.length (hex_digits n z) = n /\
            forallb is_lower_hex (txt (hex_digits n z)) = true).
  { clear. intros n. induction n as [|n IH]; intros z; [done|].
    cbn [hex_digits]. destruct (IH (Z.shiftr z 4)) as [IH1 IH2]. unfold txt in *.
    rewrite list_ascii_app, forallb_app, IH2. split.
    - assert (Hl : forall a b, String.length (a +:+ b) = (String.length a + String.length b)%nat).
      { intros a b. induction a as [|c a IHa]; [done|]. simpl. f_equal. exact IHa. }
      rewrite Hl, IH1. simpl. lia.
    - simpl. rewrite andb_true_r.
      assert (Hb : 0 <= Z.land z 15 < 16) by
        (change 15 with (Z.ones 4); rewrite Z.land_ones by lia; apply Z.mod_pos_bound; lia).
      assert (Hall : forallb (fun d => is_lower_hex
         (Ascii.ascii_of_N (Z.to_N (if d <? 10 then 48 + d else 87 + d))))
         (map Z.of_nat (seq 0 16)) = true) by reflexivity.
      rewrite forallb_forall in Hall. apply Hall.
      apply in_map_iff. exists (Z.to_nat (Z.land z 15)). split; [lia|]. apply in_seq. lia. }
  destruct (H n z) as [Hl Hf]. unfold hex_string. rewrite Hl, Hf, Nat.eqb_refl. done.
Qed.

Lemma hex_digits_chars n z : forallb is_lower_hex (txt (hex_digits n z)) = true.
Proof. pose proof (hex_digits_hex n z) as H. unfold hex_string in H. by b2p. Qed.

Lemma sha256_bytes_chars b : forallb is_lower_hex (txt (sha256_bytes b)) = true.
Proof.
  unfold sha256_bytes. induction (hashlib_sha256 b) as [|w ws IH]; [done|].
  cbn [foldr]. unfold txt in *. rewrite list_ascii_app, forallb_app, IH.
  pose proof (hex_digits_chars 8 w) as H. unfold txt in H. by rewrite H.
Qed.

(** A digest is 64 hexadecimal digits. *)
Lemma round_length s kw : length s = 8%nat -> length (round s kw) = 8%nat.
Proof. by do 9 (destruct s as [|? s]; try discriminate). Qed.

Lemma compress_length h block : length h = 8%nat -> length (compress h block) = 8%nat.
Proof.
  intros Hh. unfold compress. rewrite length_zip_with, Hh.
  assert (Hf : forall l s, length s = 8%nat -> length (foldl round s l) = 8%nat).
  { induction l as [|kw l IH]; intros s Hs; [done|]. cbn. by apply IH, round_length. }
  by rewrite Hf.
Qed.

Lemma hashlib_sha256_length m : length (hashlib_sha256 m) = 8%nat.
Proof.
  unfold hashlib_sha256. generalize (blocks (length (words (pad (map byte_of m)))) (words (pad (map byte_of m)))).
  assert (H : length H0 = 8%nat) by reflexivity. revert H. generalize H0 as h.
  intros h Hh l. revert h Hh. induction l as [|b l IH]; intros h Hh; [done|]. cbn [foldl].
  by apply IH, compress_length.
Qed.

Lemma sha256_bytes_length b : String.length (sha256_bytes b) = 64%nat.
Proof.
  unfold sha256_bytes. pose proof (hashlib_sha256_length b) as H. revert H.
  generalize (hashlib_sha256 b). intros l Hl.
  do 9 (destruct l as [|? l]; try discriminate). cbn [foldr].
  by rewrite !length_append, !hex_digits_length.
Qed.

Lemma sha256_hex_dict_length d h : sha256_hex (PDict d) = Ok h -> String.length h = 64%nat.
Proof.
  unfold sha256_hex. intros (b & _ & [= <-])%obind_Ok. apply sha256_bytes_length.
Qed.

Lemma lower_hex_kept c : is_lower_hex c = true -> white_space c = false.
Proof. destruct c as [[] [] [] [] [] [] [] []]; vm_compute; congruence. Qed.

Module CanonicalProperties.

(** C23: the canonical bytes of two values are equal exactly when the values,
    normalised, are equal up to the order of the keys of their objects; in
    particular the order in which a dictionary was filled never shows. *)
Theorem canonical_bytes_identify v1 v2 :
  wf_value v1 = true -> wf_value v2 = true ->
  (canonical_json_bytes v1 = canonical_json_bytes v2 <->
   canon (normalize v1) = canon (normalize v2)) /\
  (forall d1 d2, v1 = PDict d1 -> v2 = PDict d2 -> NoDup (map fst d1) -> d1 ≡ₚ d2 ->
   canonical_json_bytes v1 = canonical_json_bytes v2).
Proof.
  intros H1 H2. split; [|intros d1 d2 -> ->; apply dict_Permutation_bytes].
  split; [by apply canonical_bytes_canon|].
  intros E. rewrite !canonical_bytes_wf by done. by rewrite !encode_plain, E.
Qed.

Lemma canonical_bytes_identify_witness :
  canonical_json_bytes (PDict [("b", PInt 1); ("a", PStr "x")]) =
  canonical_json_bytes (PDict [("a", PStr "x"); ("b", PInt 1)]).
Proof.
  apply (proj2 (canonical_bytes_identify (PDict [("b", PInt 1); ("a", PStr "x")])
           (PDict [("a", PStr "x"); ("b", PInt 1)]) eq_refl eq_refl)
         _ _ eq_refl eq_refl); [|apply Permutation_swap].
  repeat constructor; set_solver.
Defined.

(** The values the portable profile admits *)
Fixpoint portable (v : pyval) : bool :=
  match v with
  | PNone | PBool _ | PStr _ | PEnum _ => true
  | PInt z => (- MAX_PORTABLE_INTEGER <=? z) && (z <=? MAX_PORTABLE_INTEGER)
  | PList l => forallb portable l
  | PDict d => forallb (fun '(_, x) => portable x) d
  | _ => false
  end.

Section PyInd.
Context (Q : pyval -> Prop).
Hypothesis (Hleaf : forall v, (forall l, v <> PList l) -> (forall d, v <> PDict d) -> Q v)
  (Harr : forall l, Forall Q l -> Q (PList l))
  (Hobj : forall d, Forall (fun kv => Q (snd kv)) d -> Q (PDict d)).

Fixpoint pyval_ind' (v : pyval) : Q v.
Proof.
  destruct v; try (apply Hleaf; discriminate).
  - apply Harr. induction l as [|x l IH]; constructor; auto.
  - apply Hobj. induction d as [|[k x] d IH]; constructor; simpl; auto.
Defined.
End PyInd.

(** The portable encoder accepts exactly the portable values, and on them it
    writes what [canonical_json_bytes] writes. *)
Theorem portable_encoder_agrees v :
  (is_ok (canonical_portable_json v) = portable v) /\
  forall t, canonical_portable_json v = Ok t -> canonical_json_bytes v = Ok (utf8 t).
Proof.
  enough (H : if portable v
              then all_finite (normalize v) = true /\
                   canonical_portable_json v = Ok (encode (normalize v))
              else exists e, canonical_portable_json v = Raise e).
  { destruct (portable v); [destruct H as [Hf ->]|destruct H as [e ->]].
    - split; [done|]. intros t [= <-]. unfold canonical_json_bytes, canonical_json_text.
      by rewrite Hf.
    - split; [done|]. by intros t [=]. }
  induction v as [v Hl Hd|l IH|d IH] using pyval_ind'.
  - destruct v; simpl; eauto; [|by destruct (Hl l)|by destruct (Hd d)].
    destruct (_ && _); simpl; eauto.
  - simpl. set (go := fix go l := match l with [] => Ok [] | x :: rest => _ end).
    assert (Hgo : if forallb portable l
      then forallb all_finite (map normalize l) = true /\ go l = Ok (map encode (map normalize l))
      else exists e, go l = Raise e).
    { induction IH as [|x l Hx _ IHl]; [done|]. simpl.
      destruct (portable x); simpl.
      - destruct Hx as [-> ->]. simpl. destruct (forallb portable l).
        + destruct IHl as [-> ->]. done.
        + destruct IHl as [e ->]. eauto.
      - destruct Hx as [e ->]. eauto. }
    destruct (forallb portable l).
    + destruct Hgo as [Hf ->]. done.
    + destruct Hgo as [e ->]. eauto.
  - simpl. set (go := fix go d := match d with [] => Ok [] | (k, x) :: rest => _ end).
    assert (Hgo : if forallb (fun '(_, x) => portable x) d
      then forallb (fun '(_, x) => all_finite x) (map (fun '(k, x) => (k, normalize x)) d) = true /\
           go d = Ok (map (fun '(k, x) => (k, encode x)) (map (fun '(k, x) => (k, normalize x)) d))
      else exists e, go d = Raise e).
    { induction IH as [|[k x] d Hx _ IHl]; [done|]. simpl in *.
      destruct (portable x); simpl.
      - destruct Hx as [-> ->]. simpl. destruct (forallb _ d).
        + destruct IHl as [-> ->]. done.
        + destruct IHl as [e ->]. eauto.
      - destruct Hx as [e ->]. eauto. }
    destruct (forallb _ d).
    + destruct Hgo as [Hf ->]. done.
    + destruct Hgo as [e ->]. eauto.
Qed.

Lemma portable_encoder_agrees_witness :
  canonical_json_bytes (PDict [("n", PInt (-5))]) = Ok (utf8 (txt "{") ++ utf8 (json_str "n") ++ txt ":-5}").
Proof.
  exact (proj2 (portable_encoder_agrees (PDict [("n", PInt (-5))]))
           (txt "{" ++ json_str "n" ++ txt ":-5}") eq_refl).
Defined.

End CanonicalProperties.
