(* ===== verification/Contracts.v ===== *)
(** * The core contract records

    Models [contracts/identity.py], [artifacts.py], [actions.py], [policy.py],
    [approvals.py], [execution.py], [events.py], [runs.py] and [verification.py]:
    one [Module] per model class, with the record of its fields, its model
    validator, [create] (the constructor call: field constraints, then the
    validator; the argument is the record of the values passed) and [dump]
    ([model_dump(mode="python")]).

    A constructed record is only ever changed by [model_copy(update=...)], which
    runs no validator; such updates are written out where the code makes them. *)

From S2P Require Import Prelude Canonical.

(** ** Values of fields *)
Definition dump_opt {A} (f : A -> pyval) (o : option A) : pyval :=
  match o with None => PNone | Some a => f a end.
Definition dump_list {A} (f : A -> pyval) (l : list A) : pyval := PList (map f l).
Definition dump_str_dict (d : list (string * string)) : pyval :=
  PDict (map (fun '(k, v) => (k, PStr v)) d).

#[export] Instance pyfloat_eq_dec : EqDecision pyfloat.
Proof.
  assert (EqDecision QArith_base.Q) by (intros [a b] [c d]; solve_decision). solve_decision.
Defined.

#[export] Instance pyval_eq_dec : EqDecision pyval.
Proof.
  unfold EqDecision, Decision. fix go 1. intros v w.
  destruct v as [|b|z|r f|s|b|t|u|s|l|d], w as [|b'|z'|r' f'|s'|b'|t'|u'|s'|l'|d'];
    try (right; discriminate); try (left; reflexivity).
  - destruct (decide (b = b')); [left|right]; congruence.
  - destruct (decide (z = z')); [left|right]; congruence.
  - destruct (decide (r = r')), (decide (f = f')); (left; congruence) || (right; congruence).
  - destruct (decide (s = s')); [left|right]; congruence.
  - destruct (decide (b = b')); [left|right]; congruence.
  - destruct (decide (t = t')); [left|right]; congruence.
  - destruct (decide (u = u')); [left|right]; congruence.
  - destruct (decide (s = s')); [left|right]; congruence.
  - assert (D : {l = l'} + {l <> l'}).
    { revert l'. induction l as [|x l IH]; intros [|y l']; try (right; discriminate);
        [by left|]. destruct (go x y), (IH l'); (left; congruence) || (right; congruence). }
    destruct D; [left|right]; congruence.
  - assert (D : {d = d'} + {d <> d'}).
    { revert d'. induction d as [|[k x] d IH]; intros [|[k' y] d']; try (right; discriminate);
        [by left|]. destruct (decide (k = k')), (go x y), (IH d');
        (left; congruence) || (right; congruence). }
    destruct D; [left|right]; congruence.
Defined.

(** Python's [==] on [str | int | float | bool | None]: numbers of the three numeric
    types are compared by value. *)
Definition as_number (v : pyval) : option pyfloat :=
  match v with
  | PBool b => Some (float_of_int (b2z b))
  | PInt z => Some (float_of_int z)
  | PFloat _ f => Some f
  | _ => None
  end.

Definition scalar_eq (a b : pyval) : bool :=
  match as_number a, as_number b with
  | Some x, Some y => float_leb x y && float_leb y x
  | None, None => bool_decide (a = b)
  | _, _ => false
  end.

(** [model_dump(mode="json")] *)
Fixpoint json_mode (v : pyval) : pyval :=
  match v with
  | PDatetime t => PStr (isoformat_z t)
  | PUuid u => PStr (uuid_str u)
  | PEnum s => PStr s
  | PList l => PList (map json_mode l)
  | PDict d => PDict (map (fun '(k, x) => (k, json_mode x)) d)
  | _ => v
  end.

(** ** identity.py *)
Inductive ActorKind : Set :=
| HUMAN | AGENT | SERVICE | WORKFLOW | EXECUTOR.

#[export] Instance ActorKind_eq_dec : EqDecision ActorKind.
Proof. solve_decision. Defined.

Definition ActorKind_value (e : ActorKind) : string :=
  match e with
  | HUMAN => "human"
  | AGENT => "agent"
  | SERVICE => "service"
  | WORKFLOW => "workflow"
  | EXECUTOR => "executor"
  end.

Module ActorRef.
Record ActorRef : Type := {
  kind : ActorKind;
  id : string;
  display_name : option string;
  tenant_id : string;
  workload_identity : option string;
  attributes : list (string * string);
}.

#[global] Instance ActorRef_eq_dec : EqDecision ActorRef.
Proof. solve_decision. Defined.

Definition create (r : ActorRef) : outcome ActorRef :=
  id' <~ NonBlankStr "id" (id r) ;;
  display_name' <~ optional (NonBlankStr "display_name") (display_name r) ;;
  tenant_id' <~ NonBlankStr "tenant_id" (tenant_id r) ;;
  workload_identity' <~ optional (NonBlankStr "workload_identity") (workload_identity r) ;;
  let r := {| kind := kind r; id := id'; display_name := display_name';
            tenant_id := tenant_id'; workload_identity := workload_identity';
            attributes := attributes r |} in
  Ok r.

Definition dump (r : ActorRef) : pyval := PDict [
  ("kind", PEnum (ActorKind_value (kind r))); ("id", PStr (id r));
  ("display_name", dump_opt PStr (display_name r)); ("tenant_id", PStr (tenant_id r));
  ("workload_identity", dump_opt PStr (workload_identity r));
  ("attributes", dump_str_dict (attributes r))].

End ActorRef.
Abbreviation ActorRef := ActorRef.ActorRef.

(** ** artifacts.py *)
Inductive ContentStorageMode : Set :=
| STORE_NONE | HASH_ONLY | REDACTED | FULL.

#[export] Instance ContentStorageMode_eq_dec : EqDecision ContentStorageMode.
Proof. solve_decision. Defined.

Definition ContentStorageMode_value (e : ContentStorageMode) : string :=
  match e with
  | STORE_NONE => "none"
  | HASH_ONLY => "hash_only"
  | REDACTED => "redacted"
  | FULL => "full"
  end.

Module ArtifactRef.
Record ArtifactRef : Type := {
  tenant_id : string;
  artifact_id : string;
  media_type : string;
  sha256 : string;
  size_bytes : Z;
  storage_mode : ContentStorageMode;
  location : option string;
  encrypted : bool;
  redacted : bool;
  redaction_version : option string;
  retention_until : option datetime;
  classification : string;
}.

#[global] Instance ArtifactRef_eq_dec : EqDecision ArtifactRef.
Proof. solve_decision. Defined.

Definition validate_storage (r : ArtifactRef) : outcome unit :=
  require (negb (size_bytes r <? 0)) (ValidationError "artifact size cannot be negative") ;~
  (match storage_mode r with
   | STORE_NONE | HASH_ONLY =>
       require (negb (truthy (location r)))
         (ValidationError "none/hash_only artifacts cannot include a storage location")
   | REDACTED | FULL =>
       require (truthy (location r))
         (ValidationError "redacted/full artifacts require a storage location")
   end) ;~
  require (negb (redacted r && negb (truthy (redaction_version r))))
    (ValidationError "redacted artifacts require a redaction version").

Definition create (r : ArtifactRef) : outcome ArtifactRef :=
  tenant_id' <~ NonBlankStr "tenant_id" (tenant_id r) ;;
  artifact_id' <~ NonBlankStr "artifact_id" (artifact_id r) ;;
  media_type' <~ NonBlankStr "media_type" (media_type r) ;;
  sha256' <~ Sha256 "sha256" (sha256 r) ;;
  location' <~ optional (NonBlankStr "location") (location r) ;;
  redaction_version' <~ optional (NonBlankStr "redaction_version") (redaction_version r) ;;
  classification' <~ NonBlankStr "classification" (classification r) ;;
  let r := {| tenant_id := tenant_id'; artifact_id := artifact_id';
            media_type := media_type'; sha256 := sha256'; size_bytes := size_bytes r;
            storage_mode := storage_mode r; location := location';
            encrypted := encrypted r; redacted := redacted r;
            redaction_version := redaction_version'; retention_until := retention_until r;
            classification := classification' |} in
  validate_storage r ;~
  Ok r.

Definition dump (r : ArtifactRef) : pyval := PDict [
  ("tenant_id", PStr (tenant_id r)); ("artifact_id", PStr (artifact_id r));
  ("media_type", PStr (media_type r)); ("sha256", PStr (sha256 r));
  ("size_bytes", PInt (size_bytes r));
  ("storage_mode", PEnum (ContentStorageMode_value (storage_mode r)));
  ("location", dump_opt PStr (location r)); ("encrypted", PBool (encrypted r));
  ("redacted", PBool (redacted r));
  ("redaction_version", dump_opt PStr (redaction_version r));
  ("retention_until", dump_opt PDatetime (retention_until r));
  ("classification", PStr (classification r))].

End ArtifactRef.
Abbreviation ArtifactRef := ArtifactRef.ArtifactRef.

(** ** actions.py *)
Inductive RiskClass : Set :=
| LOW | MEDIUM | HIGH | CRITICAL.

#[export] Instance RiskClass_eq_dec : EqDecision RiskClass.
Proof. solve_decision. Defined.

Definition RiskClass_value (e : RiskClass) : string :=
  match e with
  | LOW => "low"
  | MEDIUM => "medium"
  | HIGH => "high"
  | CRITICAL => "critical"
  end.

Inductive EffectClass : Set :=
| READ | WRITE | DESTRUCTIVE | PRIVILEGED.

#[export] Instance EffectClass_eq_dec : EqDecision EffectClass.
Proof. solve_decision. Defined.

Definition EffectClass_value (e : EffectClass) : string :=
  match e with
  | READ => "read"
  | WRITE => "write"
  | DESTRUCTIVE => "destructive"
  | PRIVILEGED => "privileged"
  end.

Module ActionTarget.
Record ActionTarget : Type := {
  system : string;
  environment : string;
  resource_type : string;
  resource_id : string;
  region : option string;
  expected_pre_state_digest : option string;
}.

#[global] Instance ActionTarget_eq_dec : EqDecision ActionTarget.
Proof. solve_decision. Defined.

Definition create (r : ActionTarget) : outcome ActionTarget :=
  system' <~ NonBlankStr "system" (system r) ;;
  environment' <~ NonBlankStr "environment" (environment r) ;;
  resource_type' <~ NonBlankStr "resource_type" (resource_type r) ;;
  resource_id' <~ NonBlankStr "resource_id" (resource_id r) ;;
  region' <~ optional (NonBlankStr "region") (region r) ;;
  expected_pre_state_digest' <~ optional (Sha256 "expected_pre_state_digest") (expected_pre_state_digest r) ;;
  let r := {| system := system'; environment := environment';
            resource_type := resource_type'; resource_id := resource_id';
            region := region'; expected_pre_state_digest := expected_pre_state_digest' |} in
  Ok r.

Definition dump (r : ActionTarget) : pyval := PDict [
  ("system", PStr (system r)); ("environment", PStr (environment r));
  ("resource_type", PStr (resource_type r)); ("resource_id", PStr (resource_id r));
  ("region", dump_opt PStr (region r));
  ("expected_pre_state_digest", dump_opt PStr (expected_pre_state_digest r))].

End ActionTarget.
Abbreviation ActionTarget := ActionTarget.ActionTarget.

Module ActionSpec.
Record ActionSpec : Type := {
  action_id : UUID;
  run_id : UUID;
  tenant_id : string;
  executor : string;
  operation : string;
  effect_class : EffectClass;
  risk_class : RiskClass;
  target : ActionTarget;
  arguments : list (string * pyval);
  argument_artifact : option ArtifactRef;
  idempotency_key : string;
  proposed_at : datetime;
  expires_at : option datetime;
  work_pack_id : option string;
  repository_operation_id : option string;
  policy_context : list (string * pyval);
  expected_effect : list (string * pyval);
}.

#[global] Instance ActionSpec_eq_dec : EqDecision ActionSpec.
Proof. solve_decision. Defined.

Definition validate_expiry (r : ActionSpec) : outcome unit :=
  require (negb (match expires_at r with Some e => e <=? proposed_at r | None => false end))
    (ValidationError "expires_at must be later than proposed_at").

Definition create (r : ActionSpec) : outcome ActionSpec :=
  tenant_id' <~ NonBlankStr "tenant_id" (tenant_id r) ;;
  executor' <~ NonBlankStr "executor" (executor r) ;;
  operation' <~ NonBlankStr "operation" (operation r) ;;
  idempotency_key' <~ NonBlankStr "idempotency_key" (idempotency_key r) ;;
  work_pack_id' <~ optional (NonBlankStr "work_pack_id") (work_pack_id r) ;;
  repository_operation_id' <~ optional (NonBlankStr "repository_operation_id") (repository_operation_id r) ;;
  let r := {| action_id := action_id r; run_id := run_id r; tenant_id := tenant_id';
            executor := executor'; operation := operation'; effect_class := effect_class r;
            risk_class := risk_class r; target := target r; arguments := arguments r;
            argument_artifact := argument_artifact r; idempotency_key := idempotency_key';
            proposed_at := proposed_at r; expires_at := expires_at r;
            work_pack_id := work_pack_id';
            repository_operation_id := repository_operation_id';
            policy_context := policy_context r; expected_effect := expected_effect r |} in
  validate_expiry r ;~
  Ok r.

Definition dump (r : ActionSpec) : pyval := PDict [
  ("schema_name", PStr "prodkit.action-spec"); ("schema_version", PStr "1.0.0");
  ("action_id", PUuid (action_id r)); ("run_id", PUuid (run_id r));
  ("tenant_id", PStr (tenant_id r)); ("executor", PStr (executor r));
  ("operation", PStr (operation r));
  ("effect_class", PEnum (EffectClass_value (effect_class r)));
  ("risk_class", PEnum (RiskClass_value (risk_class r)));
  ("target", ActionTarget.dump (target r)); ("arguments", PDict (arguments r));
  ("argument_artifact", dump_opt ArtifactRef.dump (argument_artifact r));
  ("idempotency_key", PStr (idempotency_key r));
  ("proposed_at", PDatetime (proposed_at r));
  ("expires_at", dump_opt PDatetime (expires_at r));
  ("work_pack_id", dump_opt PStr (work_pack_id r));
  ("repository_operation_id", dump_opt PStr (repository_operation_id r));
  ("policy_context", PDict (policy_context r));
  ("expected_effect", PDict (expected_effect r))].

(** [model_dump(mode="python", exclude={"argument_artifact"})] *)
Definition digest_material (r : ActionSpec) : pyval :=
  match dump r with
  | PDict d => PDict (List.filter (fun kv => negb (bool_decide (fst kv = "argument_artifact"))) d)
  | v => v
  end.

Definition digest (r : ActionSpec) : outcome string := sha256_hex (digest_material r).

End ActionSpec.
Abbreviation ActionSpec := ActionSpec.ActionSpec.

Module ExecutionResult.
Record ExecutionResult : Type := {
  action_id : UUID;
  execution_attempt_id : UUID;
  executor_name : string;
  executor_version : string;
  executor_identity : string;
  started_at : datetime;
  completed_at : datetime;
  succeeded : bool;
  exit_code : option Z;
  provider_operation_id : option string;
  result : list (string * pyval);
  result_artifact : option ArtifactRef;
  retryable : bool;
  error_type : option string;
  error_message : option string;
}.

#[global] Instance ExecutionResult_eq_dec : EqDecision ExecutionResult.
Proof. solve_decision. Defined.

Definition validate_result (r : ExecutionResult) : outcome unit :=
  require (negb (completed_at r <? started_at r))
    (ValidationError "completed_at cannot precede started_at") ;~
  require (negb (succeeded r && (truthy (error_type r) || truthy (error_message r))))
    (ValidationError "successful results cannot carry an error") ;~
  require (negb (negb (succeeded r) && negb (truthy (error_type r))))
    (ValidationError "failed results require error_type").

Definition create (r : ExecutionResult) : outcome ExecutionResult :=
  executor_name' <~ NonBlankStr "executor_name" (executor_name r) ;;
  executor_version' <~ NonBlankStr "executor_version" (executor_version r) ;;
  executor_identity' <~ NonBlankStr "executor_identity" (executor_identity r) ;;
  provider_operation_id' <~ optional (NonBlankStr "provider_operation_id") (provider_operation_id r) ;;
  error_type' <~ optional (NonBlankStr "error_type") (error_type r) ;;
  error_message' <~ optional (NonBlankStr "error_message") (error_message r) ;;
  let r := {| action_id := action_id r; execution_attempt_id := execution_attempt_id r;
            executor_name := executor_name'; executor_version := executor_version';
            executor_identity := executor_identity'; started_at := started_at r;
            completed_at := completed_at r; succeeded := succeeded r;
            exit_code := exit_code r; provider_operation_id := provider_operation_id';
            result := result r; result_artifact := result_artifact r;
            retryable := retryable r; error_type := error_type';
            error_message := error_message' |} in
  validate_result r ;~
  Ok r.

Definition dump (r : ExecutionResult) : pyval := PDict [
  ("action_id", PUuid (action_id r));
  ("execution_attempt_id", PUuid (execution_attempt_id r));
  ("executor_name", PStr (executor_name r));
  ("executor_version", PStr (executor_version r));
  ("executor_identity", PStr (executor_identity r));
  ("started_at", PDatetime (started_at r)); ("completed_at", PDatetime (completed_at r));
  ("succeeded", PBool (succeeded r)); ("exit_code", dump_opt PInt (exit_code r));
  ("provider_operation_id", dump_opt PStr (provider_operation_id r));
  ("result", PDict (result r));
  ("result_artifact", dump_opt ArtifactRef.dump (result_artifact r));
  ("retryable", PBool (retryable r)); ("error_type", dump_opt PStr (error_type r));
  ("error_message", dump_opt PStr (error_message r))].

End ExecutionResult.
Abbreviation ExecutionResult := ExecutionResult.ExecutionResult.

(** ** policy.py *)
Inductive PolicyOutcome : Set :=
| ALLOW | DENY | REQUIRE_APPROVAL.

#[export] Instance PolicyOutcome_eq_dec : EqDecision PolicyOutcome.
Proof. solve_decision. Defined.

Definition PolicyOutcome_value (e : PolicyOutcome) : string :=
  match e with
  | ALLOW => "allow"
  | DENY => "deny"
  | REQUIRE_APPROVAL => "require_approval"
  end.

Module PolicyDecision.
Record PolicyDecision : Type := {
  decision_id : UUID;
  action_id : UUID;
  action_digest : string;
  tenant_id : string;
  policy_engine : string;
  policy_bundle : string;
  policy_revision : string;
  evaluated_at : datetime;
  outcome_ : PolicyOutcome;
  reason_codes : list string;
  constraints : list (string * pyval);
  required_approval_roles : list string;
  expires_at : option datetime;
  raw_decision_artifact_sha256 : option string;
}.

#[global] Instance PolicyDecision_eq_dec : EqDecision PolicyDecision.
Proof. solve_decision. Defined.

Definition create (r : PolicyDecision) : outcome PolicyDecision :=
  action_digest' <~ Sha256 "action_digest" (action_digest r) ;;
  tenant_id' <~ NonBlankStr "tenant_id" (tenant_id r) ;;
  policy_engine' <~ NonBlankStr "policy_engine" (policy_engine r) ;;
  policy_bundle' <~ NonBlankStr "policy_bundle" (policy_bundle r) ;;
  policy_revision' <~ NonBlankStr "policy_revision" (policy_revision r) ;;
  reason_codes' <~ map_o (NonBlankStr "reason_codes") (reason_codes r) ;;
  required_approval_roles' <~ map_o (NonBlankStr "required_approval_roles") (required_approval_roles r) ;;
  raw_decision_artifact_sha256' <~ optional (Sha256 "raw_decision_artifact_sha256") (raw_decision_artifact_sha256 r) ;;
  let r := {| decision_id := decision_id r; action_id := action_id r;
            action_digest := action_digest'; tenant_id := tenant_id';
            policy_engine := policy_engine'; policy_bundle := policy_bundle';
            policy_revision := policy_revision'; evaluated_at := evaluated_at r;
            outcome_ := outcome_ r; reason_codes := reason_codes';
            constraints := constraints r;
            required_approval_roles := required_approval_roles';
            expires_at := expires_at r;
            raw_decision_artifact_sha256 := raw_decision_artifact_sha256' |} in
  Ok r.

Definition dump (r : PolicyDecision) : pyval := PDict [
  ("schema_name", PStr "prodkit.policy-decision"); ("schema_version", PStr "1.0.0");
  ("decision_id", PUuid (decision_id r)); ("action_id", PUuid (action_id r));
  ("action_digest", PStr (action_digest r)); ("tenant_id", PStr (tenant_id r));
  ("policy_engine", PStr (policy_engine r)); ("policy_bundle", PStr (policy_bundle r));
  ("policy_revision", PStr (policy_revision r));
  ("evaluated_at", PDatetime (evaluated_at r));
  ("outcome", PEnum (PolicyOutcome_value (outcome_ r)));
  ("reason_codes", dump_list PStr (reason_codes r));
  ("constraints", PDict (constraints r));
  ("required_approval_roles", dump_list PStr (required_approval_roles r));
  ("expires_at", dump_opt PDatetime (expires_at r));
  ("raw_decision_artifact_sha256", dump_opt PStr (raw_decision_artifact_sha256 r))].

End PolicyDecision.
Abbreviation PolicyDecision := PolicyDecision.PolicyDecision.

(** ** approvals.py *)
Inductive ApprovalOutcome : Set :=
| APPROVED | DENIED | REVOKED | EXPIRED.

#[export] Instance ApprovalOutcome_eq_dec : EqDecision ApprovalOutcome.
Proof. solve_decision. Defined.

Definition ApprovalOutcome_value (e : ApprovalOutcome) : string :=
  match e with
  | APPROVED => "approved"
  | DENIED => "denied"
  | REVOKED => "revoked"
  | EXPIRED => "expired"
  end.

Module ApprovalDecision.
Record ApprovalDecision : Type := {
  approval_id : UUID;
  action_id : UUID;
  action_digest : string;
  target_digest : string;
  tenant_id : string;
  environment : string;
  policy_decision_id : UUID;
  policy_revision : string;
  approver : ActorRef;
  approver_role : string;
  decided_at : datetime;
  outcome_ : ApprovalOutcome;
  expires_at : datetime;
  reason : string;
}.

#[global] Instance ApprovalDecision_eq_dec : EqDecision ApprovalDecision.
Proof. solve_decision. Defined.

Definition validate_expiry (r : ApprovalDecision) : outcome unit :=
  require (negb (expires_at r <=? decided_at r))
    (ValidationError "approval expiry must be later than decision time").

Definition create (r : ApprovalDecision) : outcome ApprovalDecision :=
  action_digest' <~ Sha256 "action_digest" (action_digest r) ;;
  target_digest' <~ Sha256 "target_digest" (target_digest r) ;;
  tenant_id' <~ NonBlankStr "tenant_id" (tenant_id r) ;;
  environment' <~ NonBlankStr "environment" (environment r) ;;
  policy_revision' <~ NonBlankStr "policy_revision" (policy_revision r) ;;
  approver_role' <~ NonBlankStr "approver_role" (approver_role r) ;;
  reason' <~ NonBlankStr "reason" (reason r) ;;
  let r := {| approval_id := approval_id r; action_id := action_id r;
            action_digest := action_digest'; target_digest := target_digest';
            tenant_id := tenant_id'; environment := environment';
            policy_decision_id := policy_decision_id r;
            policy_revision := policy_revision'; approver := approver r;
            approver_role := approver_role'; decided_at := decided_at r;
            outcome_ := outcome_ r; expires_at := expires_at r; reason := reason' |} in
  validate_expiry r ;~
  Ok r.

Definition dump (r : ApprovalDecision) : pyval := PDict [
  ("schema_name", PStr "prodkit.approval-decision"); ("schema_version", PStr "1.0.0");
  ("approval_id", PUuid (approval_id r)); ("action_id", PUuid (action_id r));
  ("action_digest", PStr (action_digest r)); ("target_digest", PStr (target_digest r));
  ("tenant_id", PStr (tenant_id r)); ("environment", PStr (environment r));
  ("policy_decision_id", PUuid (policy_decision_id r));
  ("policy_revision", PStr (policy_revision r)); ("approver", ActorRef.dump (approver r));
  ("approver_role", PStr (approver_role r)); ("decided_at", PDatetime (decided_at r));
  ("outcome", PEnum (ApprovalOutcome_value (outcome_ r)));
  ("expires_at", PDatetime (expires_at r)); ("reason", PStr (reason r))].

Definition authorizes (r : ApprovalDecision) (action_digest' target_digest' : string)
    (policy_decision_id' : UUID) (policy_revision' tenant_id' environment' : string)
    (at_ : datetime) : bool :=
  bool_decide (outcome_ r = APPROVED) &&
  bool_decide (action_digest r = action_digest') &&
  bool_decide (target_digest r = target_digest') &&
  (policy_decision_id r =? policy_decision_id') &&
  bool_decide (policy_revision r = policy_revision') &&
  bool_decide (tenant_id r = tenant_id') &&
  bool_decide (environment r = environment') &&
  (at_ <? expires_at r).

End ApprovalDecision.
Abbreviation ApprovalDecision := ApprovalDecision.ApprovalDecision.

(** ** execution.py *)
Inductive ExecutionAttemptState : Set :=
| CLAIMED | STARTED | SUCCEEDED | FAILED | UNCERTAIN.

#[export] Instance ExecutionAttemptState_eq_dec : EqDecision ExecutionAttemptState.
Proof. solve_decision. Defined.

Definition ExecutionAttemptState_value (e : ExecutionAttemptState) : string :=
  match e with
  | CLAIMED => "claimed"
  | STARTED => "started"
  | SUCCEEDED => "succeeded"
  | FAILED => "failed"
  | UNCERTAIN => "uncertain"
  end.

Module ExecutionAttemptRecord.
Record ExecutionAttemptRecord : Type := {
  attempt_id : UUID;
  action_id : UUID;
  run_id : UUID;
  tenant_id : string;
  idempotency_key : string;
  action_digest : string;
  executor_name : string;
  executor_version : string;
  executor_identity : string;
  state : ExecutionAttemptState;
  claimed_at : datetime;
  started_at : option datetime;
  finished_at : option datetime;
  result_digest : option string;
  provider_operation_id : option string;
  error_type : option string;
  error_message : option string;
  uncertainty_reason : option string;
}.

#[global] Instance ExecutionAttemptRecord_eq_dec : EqDecision ExecutionAttemptRecord.
Proof. solve_decision. Defined.

Definition validate_lifecycle (r : ExecutionAttemptRecord) : outcome unit :=
  require (negb (match started_at r with Some s => s <? claimed_at r | None => false end))
    (ValidationError "started_at cannot precede claimed_at") ;~
  let floor := default (claimed_at r) (started_at r) in
  require (negb (match finished_at r with Some f => f <? floor | None => false end))
    (ValidationError "finished_at cannot precede the attempt start") ;~
  (match state r, started_at r, finished_at r with
   | CLAIMED, None, None => Ok tt
   | CLAIMED, _, _ =>
       Raise (ValidationError "claimed attempts cannot have execution timestamps")
   | STARTED, Some _, None => Ok tt
   | STARTED, _, _ =>
       Raise (ValidationError "started attempts require started_at and no finished_at")
   | _, Some _, Some _ => Ok tt
   | _, _, _ => Raise (ValidationError "terminal attempts require started_at and finished_at")
   end) ;~
  require (negb (bool_decide (state r = SUCCEEDED) && bool_decide (result_digest r = None)))
    (ValidationError "successful attempts require result_digest") ;~
  require (negb (bool_decide (state r = UNCERTAIN) && negb (truthy (uncertainty_reason r))))
    (ValidationError "uncertain attempts require uncertainty_reason").

Definition create (r : ExecutionAttemptRecord) : outcome ExecutionAttemptRecord :=
  tenant_id' <~ NonBlankStr "tenant_id" (tenant_id r) ;;
  idempotency_key' <~ NonBlankStr "idempotency_key" (idempotency_key r) ;;
  action_digest' <~ Sha256 "action_digest" (action_digest r) ;;
  executor_name' <~ NonBlankStr "executor_name" (executor_name r) ;;
  executor_version' <~ NonBlankStr "executor_version" (executor_version r) ;;
  executor_identity' <~ NonBlankStr "executor_identity" (executor_identity r) ;;
  result_digest' <~ optional (Sha256 "result_digest") (result_digest r) ;;
  provider_operation_id' <~ optional (NonBlankStr "provider_operation_id") (provider_operation_id r) ;;
  error_type' <~ optional (NonBlankStr "error_type") (error_type r) ;;
  let r := {| attempt_id := attempt_id r; action_id := action_id r; run_id := run_id r;
            tenant_id := tenant_id'; idempotency_key := idempotency_key';
            action_digest := action_digest'; executor_name := executor_name';
            executor_version := executor_version'; executor_identity := executor_identity';
            state := state r; claimed_at := claimed_at r; started_at := started_at r;
            finished_at := finished_at r; result_digest := result_digest';
            provider_operation_id := provider_operation_id'; error_type := error_type';
            error_message := error_message r;
            uncertainty_reason := uncertainty_reason r |} in
  validate_lifecycle r ;~
  Ok r.

Definition dump (r : ExecutionAttemptRecord) : pyval := PDict [
  ("schema_name", PStr "prodkit.execution-attempt"); ("schema_version", PStr "1.0.0");
  ("attempt_id", PUuid (attempt_id r)); ("action_id", PUuid (action_id r));
  ("run_id", PUuid (run_id r)); ("tenant_id", PStr (tenant_id r));
  ("idempotency_key", PStr (idempotency_key r)); ("action_digest", PStr (action_digest r));
  ("executor_name", PStr (executor_name r));
  ("executor_version", PStr (executor_version r));
  ("executor_identity", PStr (executor_identity r));
  ("state", PEnum (ExecutionAttemptState_value (state r)));
  ("claimed_at", PDatetime (claimed_at r));
  ("started_at", dump_opt PDatetime (started_at r));
  ("finished_at", dump_opt PDatetime (finished_at r));
  ("result_digest", dump_opt PStr (result_digest r));
  ("provider_operation_id", dump_opt PStr (provider_operation_id r));
  ("error_type", dump_opt PStr (error_type r));
  ("error_message", dump_opt PStr (error_message r));
  ("uncertainty_reason", dump_opt PStr (uncertainty_reason r))].

End ExecutionAttemptRecord.
Abbreviation ExecutionAttemptRecord := ExecutionAttemptRecord.ExecutionAttemptRecord.

Module CredentialLease.
Record CredentialLease : Type := {
  lease_id : UUID;
  tenant_id : string;
  action_id : UUID;
  executor_identity : string;
  audience : string;
  scopes : list string;
  credential_reference : string;
  issued_at : datetime;
  expires_at : datetime;
}.

#[global] Instance CredentialLease_eq_dec : EqDecision CredentialLease.
Proof. solve_decision. Defined.

Definition validate_expiry (r : CredentialLease) : outcome unit :=
  require (negb (expires_at r <=? issued_at r))
    (ValidationError "credential lease must expire after issuance").

Definition create (r : CredentialLease) : outcome CredentialLease :=
  tenant_id' <~ NonBlankStr "tenant_id" (tenant_id r) ;;
  executor_identity' <~ NonBlankStr "executor_identity" (executor_identity r) ;;
  audience' <~ NonBlankStr "audience" (audience r) ;;
  scopes' <~ map_o (NonBlankStr "scopes") (scopes r) ;;
  credential_reference' <~ NonBlankStr "credential_reference" (credential_reference r) ;;
  let r := {| lease_id := lease_id r; tenant_id := tenant_id'; action_id := action_id r;
            executor_identity := executor_identity'; audience := audience';
            scopes := scopes'; credential_reference := credential_reference';
            issued_at := issued_at r; expires_at := expires_at r |} in
  validate_expiry r ;~
  Ok r.

Definition dump (r : CredentialLease) : pyval := PDict [
  ("schema_name", PStr "prodkit.credential-lease"); ("schema_version", PStr "1.0.0");
  ("lease_id", PUuid (lease_id r)); ("tenant_id", PStr (tenant_id r));
  ("action_id", PUuid (action_id r)); ("executor_identity", PStr (executor_identity r));
  ("audience", PStr (audience r)); ("scopes", dump_list PStr (scopes r));
  ("credential_reference", PStr (credential_reference r));
  ("issued_at", PDatetime (issued_at r)); ("expires_at", PDatetime (expires_at r))].

End CredentialLease.
Abbreviation CredentialLease := CredentialLease.CredentialLease.

(** ** verification.py *)
Inductive VerificationOutcome : Set :=
| PASSED | VFAILED | INCONCLUSIVE.

#[export] Instance VerificationOutcome_eq_dec : EqDecision VerificationOutcome.
Proof. solve_decision. Defined.

Definition VerificationOutcome_value (e : VerificationOutcome) : string :=
  match e with
  | PASSED => "passed"
  | VFAILED => "failed"
  | INCONCLUSIVE => "inconclusive"
  end.

Inductive ReconciliationOutcome : Set :=
| MATCHED | MISSING_EXTERNAL_EVIDENCE | UNEXPECTED_EXTERNAL_ACTION | STATE_MISMATCH
| CONFLICTING_EVIDENCE | UNVERIFIABLE.

#[export] Instance ReconciliationOutcome_eq_dec : EqDecision ReconciliationOutcome.
Proof. solve_decision. Defined.

Definition ReconciliationOutcome_value (e : ReconciliationOutcome) : string :=
  match e with
  | MATCHED => "matched"
  | MISSING_EXTERNAL_EVIDENCE => "missing_external_evidence"
  | UNEXPECTED_EXTERNAL_ACTION => "unexpected_external_action"
  | STATE_MISMATCH => "state_mismatch"
  | CONFLICTING_EVIDENCE => "conflicting_evidence"
  | UNVERIFIABLE => "unverifiable"
  end.

Module StateObservation.
Record StateObservation : Type := {
  observation_id : UUID;
  action_id : UUID;
  source : string;
  observed_at : datetime;
  state_digest : string;
  state : list (string * pyval);
  evidence : list ArtifactRef;
}.

#[global] Instance StateObservation_eq_dec : EqDecision StateObservation.
Proof. solve_decision. Defined.

Definition create (r : StateObservation) : outcome StateObservation :=
  source' <~ NonBlankStr "source" (source r) ;;
  state_digest' <~ Sha256 "state_digest" (state_digest r) ;;
  let r := {| observation_id := observation_id r; action_id := action_id r;
            source := source'; observed_at := observed_at r; state_digest := state_digest';
            state := state r; evidence := evidence r |} in
  Ok r.

Definition dump (r : StateObservation) : pyval := PDict [
  ("observation_id", PUuid (observation_id r)); ("action_id", PUuid (action_id r));
  ("source", PStr (source r)); ("observed_at", PDatetime (observed_at r));
  ("state_digest", PStr (state_digest r)); ("state", PDict (state r));
  ("evidence", dump_list ArtifactRef.dump (evidence r))].

End StateObservation.
Abbreviation StateObservation := StateObservation.StateObservation.

Module VerificationResult.
Record VerificationResult : Type := {
  verification_id : UUID;
  action_id : UUID;
  verifier : string;
  verifier_version : string;
  verified_at : datetime;
  outcome_ : VerificationOutcome;
  expected_digest : option string;
  observed_digest : option string;
  checks : list string;
  details : list (string * pyval);
  evidence : list ArtifactRef;
}.

#[global] Instance VerificationResult_eq_dec : EqDecision VerificationResult.
Proof. solve_decision. Defined.

Definition create (r : VerificationResult) : outcome VerificationResult :=
  verifier' <~ NonBlankStr "verifier" (verifier r) ;;
  verifier_version' <~ NonBlankStr "verifier_version" (verifier_version r) ;;
  expected_digest' <~ optional (Sha256 "expected_digest") (expected_digest r) ;;
  observed_digest' <~ optional (Sha256 "observed_digest") (observed_digest r) ;;
  checks' <~ map_o (NonBlankStr "checks") (checks r) ;;
  let r := {| verification_id := verification_id r; action_id := action_id r;
            verifier := verifier'; verifier_version := verifier_version';
            verified_at := verified_at r; outcome_ := outcome_ r;
            expected_digest := expected_digest'; observed_digest := observed_digest';
            checks := checks'; details := details r; evidence := evidence r |} in
  Ok r.

Definition dump (r : VerificationResult) : pyval := PDict [
  ("verification_id", PUuid (verification_id r)); ("action_id", PUuid (action_id r));
  ("verifier", PStr (verifier r)); ("verifier_version", PStr (verifier_version r));
  ("verified_at", PDatetime (verified_at r));
  ("outcome", PEnum (VerificationOutcome_value (outcome_ r)));
  ("expected_digest", dump_opt PStr (expected_digest r));
  ("observed_digest", dump_opt PStr (observed_digest r));
  ("checks", dump_list PStr (checks r)); ("details", PDict (details r));
  ("evidence", dump_list ArtifactRef.dump (evidence r))].

End VerificationResult.
Abbreviation VerificationResult := VerificationResult.VerificationResult.

Module ReconciliationFinding.
Record ReconciliationFinding : Type := {
  finding_id : UUID;
  run_id : UUID;
  action_id : option UUID;
  reconciler : string;
  source_system : string;
  observed_at : datetime;
  outcome_ : ReconciliationOutcome;
  severity : string;
  summary : string;
  external_reference : option string;
  details : list (string * pyval);
  evidence : list ArtifactRef;
}.

#[global] Instance ReconciliationFinding_eq_dec : EqDecision ReconciliationFinding.
Proof. solve_decision. Defined.

Definition create (r : ReconciliationFinding) : outcome ReconciliationFinding :=
  reconciler' <~ NonBlankStr "reconciler" (reconciler r) ;;
  source_system' <~ NonBlankStr "source_system" (source_system r) ;;
  severity' <~ NonBlankStr "severity" (severity r) ;;
  summary' <~ NonBlankStr "summary" (summary r) ;;
  external_reference' <~ optional (NonBlankStr "external_reference") (external_reference r) ;;
  let r := {| finding_id := finding_id r; run_id := run_id r; action_id := action_id r;
            reconciler := reconciler'; source_system := source_system';
            observed_at := observed_at r; outcome_ := outcome_ r; severity := severity';
            summary := summary'; external_reference := external_reference';
            details := details r; evidence := evidence r |} in
  Ok r.

Definition dump (r : ReconciliationFinding) : pyval := PDict [
  ("finding_id", PUuid (finding_id r)); ("run_id", PUuid (run_id r));
  ("action_id", dump_opt PUuid (action_id r)); ("reconciler", PStr (reconciler r));
  ("source_system", PStr (source_system r)); ("observed_at", PDatetime (observed_at r));
  ("outcome", PEnum (ReconciliationOutcome_value (outcome_ r)));
  ("severity", PStr (severity r)); ("summary", PStr (summary r));
  ("external_reference", dump_opt PStr (external_reference r));
  ("details", PDict (details r)); ("evidence", dump_list ArtifactRef.dump (evidence r))].

End ReconciliationFinding.
Abbreviation ReconciliationFinding := ReconciliationFinding.ReconciliationFinding.

(** ** lineage.py, the reference to a node *)
Inductive LineageNodeKind : Set :=
| SPECIFICATION_REVISION | DECISION_SET | GENERATOR_CONFIGURATION | SOURCE_TREE
| VERIFICATION | BUILD_ARTIFACT | AUTHORIZATION | AGENT_ACTION | DEPLOYMENT
| PRODUCTION_OBSERVATION | RECONCILIATION.

#[export] Instance LineageNodeKind_eq_dec : EqDecision LineageNodeKind.
Proof. solve_decision. Defined.

Definition LineageNodeKind_value (e : LineageNodeKind) : string :=
  match e with
  | SPECIFICATION_REVISION => "specification_revision"
  | DECISION_SET => "decision_set"
  | GENERATOR_CONFIGURATION => "generator_configuration"
  | SOURCE_TREE => "source_tree"
  | VERIFICATION => "verification"
  | BUILD_ARTIFACT => "build_artifact"
  | AUTHORIZATION => "authorization"
  | AGENT_ACTION => "agent_action"
  | DEPLOYMENT => "deployment"
  | PRODUCTION_OBSERVATION => "production_observation"
  | RECONCILIATION => "reconciliation"
  end.

Module LineageNodeRef.
Record LineageNodeRef : Type := {
  kind : LineageNodeKind;
  node_id : UUID;
  digest : string;
}.

#[global] Instance LineageNodeRef_eq_dec : EqDecision LineageNodeRef.
Proof. solve_decision. Defined.

Definition create (r : LineageNodeRef) : outcome LineageNodeRef :=
  digest' <~ Sha256 "digest" (digest r) ;;
  let r := {| kind := kind r; node_id := node_id r; digest := digest' |} in
  Ok r.

Definition dump (r : LineageNodeRef) : pyval := PDict [
  ("kind", PEnum (LineageNodeKind_value (kind r))); ("node_id", PUuid (node_id r));
  ("digest", PStr (digest r))].

End LineageNodeRef.
Abbreviation LineageNodeRef := LineageNodeRef.LineageNodeRef.

(** ** events.py *)
Inductive EventType : Set :=
| RUN_STARTED | RUN_COMPLETED | MODEL_REQUESTED | MODEL_RESPONDED | CONTEXT_ACCESSED
| ACTION_PROPOSED | POLICY_EVALUATED | APPROVAL_REQUESTED | APPROVAL_DECIDED
| CREDENTIAL_LEASE_ISSUED | CREDENTIAL_LEASE_REVOKED
| CREDENTIAL_LEASE_REVOCATION_FAILED | EXECUTION_STARTED | EXECUTION_COMPLETED
| EXECUTION_UNCERTAIN | STATE_OBSERVED | VERIFICATION_COMPLETED
| RECONCILIATION_COMPLETED | ARTIFACT_RECORDED | LINEAGE_NODE_RECORDED
| LINEAGE_RELATION_RECORDED | LINEAGE_ASSESSED | ROLLBACK_STARTED | ROLLBACK_COMPLETED
| CORRECTION_RECORDED.

#[export] Instance EventType_eq_dec : EqDecision EventType.
Proof. solve_decision. Defined.

Definition EventType_value (e : EventType) : string :=
  match e with
  | RUN_STARTED => "run.started"
  | RUN_COMPLETED => "run.completed"
  | MODEL_REQUESTED => "model.requested"
  | MODEL_RESPONDED => "model.responded"
  | CONTEXT_ACCESSED => "context.accessed"
  | ACTION_PROPOSED => "action.proposed"
  | POLICY_EVALUATED => "policy.evaluated"
  | APPROVAL_REQUESTED => "approval.requested"
  | APPROVAL_DECIDED => "approval.decided"
  | CREDENTIAL_LEASE_ISSUED => "credential.lease_issued"
  | CREDENTIAL_LEASE_REVOKED => "credential.lease_revoked"
  | CREDENTIAL_LEASE_REVOCATION_FAILED => "credential.lease_revocation_failed"
  | EXECUTION_STARTED => "execution.started"
  | EXECUTION_COMPLETED => "execution.completed"
  | EXECUTION_UNCERTAIN => "execution.uncertain"
  | STATE_OBSERVED => "state.observed"
  | VERIFICATION_COMPLETED => "verification.completed"
  | RECONCILIATION_COMPLETED => "reconciliation.completed"
  | ARTIFACT_RECORDED => "artifact.recorded"
  | LINEAGE_NODE_RECORDED => "lineage.node_recorded"
  | LINEAGE_RELATION_RECORDED => "lineage.relation_recorded"
  | LINEAGE_ASSESSED => "lineage.assessed"
  | ROLLBACK_STARTED => "rollback.started"
  | ROLLBACK_COMPLETED => "rollback.completed"
  | CORRECTION_RECORDED => "correction.recorded"
  end.

Module EventIntegrity.
Record EventIntegrity : Type := {
  algorithm : string;
  canonicalization : string;
  previous_event_hash : option string;
  event_hash : string;
  signature : option string;
  signing_key_id : option string;
}.

#[global] Instance EventIntegrity_eq_dec : EqDecision EventIntegrity.
Proof. solve_decision. Defined.

Definition create (r : EventIntegrity) : outcome EventIntegrity :=
  previous_event_hash' <~ optional (Sha256 "previous_event_hash") (previous_event_hash r) ;;
  event_hash' <~ Sha256 "event_hash" (event_hash r) ;;
  signature' <~ optional (NonBlankStr "signature") (signature r) ;;
  signing_key_id' <~ optional (NonBlankStr "signing_key_id") (signing_key_id r) ;;
  let r := {| algorithm := algorithm r; canonicalization := canonicalization r;
            previous_event_hash := previous_event_hash'; event_hash := event_hash';
            signature := signature'; signing_key_id := signing_key_id' |} in
  Ok r.

Definition dump (r : EventIntegrity) : pyval := PDict [
  ("algorithm", PStr (algorithm r)); ("canonicalization", PStr (canonicalization r));
  ("previous_event_hash", dump_opt PStr (previous_event_hash r));
  ("event_hash", PStr (event_hash r)); ("signature", dump_opt PStr (signature r));
  ("signing_key_id", dump_opt PStr (signing_key_id r))].

End EventIntegrity.
Abbreviation EventIntegrity := EventIntegrity.EventIntegrity.

Module ControlEventDraft.
Record ControlEventDraft : Type := {
  event_id : UUID;
  run_id : UUID;
  tenant_id : string;
  event_type : EventType;
  occurred_at : datetime;
  recorded_at : datetime;
  actor : ActorRef;
  trace_id : string;
  span_id : string;
  parent_event_id : option UUID;
  causation_event_id : option UUID;
  correlation_id : option string;
  action_id : option UUID;
  lineage : list LineageNodeRef;
  payload : list (string * pyval);
  evidence : list ArtifactRef;
}.

#[global] Instance ControlEventDraft_eq_dec : EqDecision ControlEventDraft.
Proof. solve_decision. Defined.

Definition validate_actor_tenant (r : ControlEventDraft) : outcome unit :=
  require (bool_decide (ActorRef.tenant_id (actor r) = tenant_id r))
    (ValidationError "event actor tenant must match event tenant").

Definition create (r : ControlEventDraft) : outcome ControlEventDraft :=
  tenant_id' <~ NonBlankStr "tenant_id" (tenant_id r) ;;
  trace_id' <~ TraceId "trace_id" (trace_id r) ;;
  span_id' <~ SpanId "span_id" (span_id r) ;;
  correlation_id' <~ optional (NonBlankStr "correlation_id") (correlation_id r) ;;
  let r := {| event_id := event_id r; run_id := run_id r; tenant_id := tenant_id';
            event_type := event_type r; occurred_at := occurred_at r;
            recorded_at := recorded_at r; actor := actor r; trace_id := trace_id';
            span_id := span_id'; parent_event_id := parent_event_id r;
            causation_event_id := causation_event_id r; correlation_id := correlation_id';
            action_id := action_id r; lineage := lineage r; payload := payload r;
            evidence := evidence r |} in
  validate_actor_tenant r ;~
  Ok r.

Definition dump (r : ControlEventDraft) : pyval := PDict [
  ("schema_name", PStr "prodkit.control-event"); ("schema_version", PStr "1.0.0");
  ("event_id", PUuid (event_id r)); ("run_id", PUuid (run_id r));
  ("tenant_id", PStr (tenant_id r));
  ("event_type", PEnum (EventType_value (event_type r)));
  ("occurred_at", PDatetime (occurred_at r)); ("recorded_at", PDatetime (recorded_at r));
  ("actor", ActorRef.dump (actor r)); ("trace_id", PStr (trace_id r));
  ("span_id", PStr (span_id r)); ("parent_event_id", dump_opt PUuid (parent_event_id r));
  ("causation_event_id", dump_opt PUuid (causation_event_id r));
  ("correlation_id", dump_opt PStr (correlation_id r));
  ("action_id", dump_opt PUuid (action_id r));
  ("lineage", dump_list LineageNodeRef.dump (lineage r)); ("payload", PDict (payload r));
  ("evidence", dump_list ArtifactRef.dump (evidence r))].

End ControlEventDraft.
Abbreviation ControlEventDraft := ControlEventDraft.ControlEventDraft.

(** [ControlEvent] extends the draft with its place in the chain. *)
Record ControlEvent : Type := {
  draft : ControlEventDraft;
  sequence : Z;
  integrity : EventIntegrity;
}.

#[export] Instance ControlEvent_eq_dec : EqDecision ControlEvent.
Proof. solve_decision. Defined.

(** [{**draft.model_dump(mode="python"), "sequence": sequence}], which is also
    [hash_material]: the dump of the event without its integrity field. *)
Definition event_material (d : ControlEventDraft) (sequence : Z) : pyval :=
  match ControlEventDraft.dump d with
  | PDict fields => PDict (fields ++ [("sequence", PInt sequence)])
  | v => v
  end.

Definition hash_material (e : ControlEvent) : pyval := event_material (draft e) (sequence e).

(** ** runs.py *)
Inductive RunStatus : Set :=
| PENDING | RUNNING | WAITING_FOR_APPROVAL | RUN_SUCCEEDED | RUN_FAILED | CANCELLED
| INCOMPLETE.

#[export] Instance RunStatus_eq_dec : EqDecision RunStatus.
Proof. solve_decision. Defined.

Definition RunStatus_value (e : RunStatus) : string :=
  match e with
  | PENDING => "pending"
  | RUNNING => "running"
  | WAITING_FOR_APPROVAL => "waiting_for_approval"
  | RUN_SUCCEEDED => "succeeded"
  | RUN_FAILED => "failed"
  | CANCELLED => "cancelled"
  | INCOMPLETE => "incomplete"
  end.

Module RunRecord.
Record RunRecord : Type := {
  run_id : UUID;
  tenant_id : string;
  status : RunStatus;
  initiated_by : ActorRef;
  environment : string;
  purpose : string;
  trace_id : string;
  started_at : datetime;
  completed_at : option datetime;
  source_intent_digest : option string;
  specification_revision : option LineageNodeRef;
  lineage_graph_digest : option string;
  workflow_id : option string;
  metadata : list (string * pyval);
}.

#[global] Instance RunRecord_eq_dec : EqDecision RunRecord.
Proof. solve_decision. Defined.

Definition create (r : RunRecord) : outcome RunRecord :=
  tenant_id' <~ NonBlankStr "tenant_id" (tenant_id r) ;;
  environment' <~ NonBlankStr "environment" (environment r) ;;
  purpose' <~ NonBlankStr "purpose" (purpose r) ;;
  trace_id' <~ NonBlankStr "trace_id" (trace_id r) ;;
  source_intent_digest' <~ optional (Sha256 "source_intent_digest") (source_intent_digest r) ;;
  lineage_graph_digest' <~ optional (Sha256 "lineage_graph_digest") (lineage_graph_digest r) ;;
  workflow_id' <~ optional (NonBlankStr "workflow_id") (workflow_id r) ;;
  let r := {| run_id := run_id r; tenant_id := tenant_id'; status := status r;
            initiated_by := initiated_by r; environment := environment';
            purpose := purpose'; trace_id := trace_id'; started_at := started_at r;
            completed_at := completed_at r; source_intent_digest := source_intent_digest';
            specification_revision := specification_revision r;
            lineage_graph_digest := lineage_graph_digest'; workflow_id := workflow_id';
            metadata := metadata r |} in
  Ok r.

Definition dump (r : RunRecord) : pyval := PDict [
  ("schema_name", PStr "prodkit.control-run"); ("schema_version", PStr "1.0.0");
  ("run_id", PUuid (run_id r)); ("tenant_id", PStr (tenant_id r));
  ("status", PEnum (RunStatus_value (status r)));
  ("initiated_by", ActorRef.dump (initiated_by r)); ("environment", PStr (environment r));
  ("purpose", PStr (purpose r)); ("trace_id", PStr (trace_id r));
  ("started_at", PDatetime (started_at r));
  ("completed_at", dump_opt PDatetime (completed_at r));
  ("source_intent_digest", dump_opt PStr (source_intent_digest r));
  ("specification_revision", dump_opt LineageNodeRef.dump (specification_revision r));
  ("lineage_graph_digest", dump_opt PStr (lineage_graph_digest r));
  ("workflow_id", dump_opt PStr (workflow_id r)); ("metadata", PDict (metadata r))].

End RunRecord.
Abbreviation RunRecord := RunRecord.RunRecord.

(** ** Sample records, for the instances of the theorems *)
Definition sample_actor : ActorRef := {|
  ActorRef.kind := AGENT; ActorRef.id := "agent-1"; ActorRef.display_name := None;
  ActorRef.tenant_id := "acme"; ActorRef.workload_identity := None; ActorRef.attributes := [] |}.

Definition sample_target : ActionTarget := {|
  ActionTarget.system := "k8s"; ActionTarget.environment := "prod";
  ActionTarget.resource_type := "deployment"; ActionTarget.resource_id := "web";
  ActionTarget.region := None; ActionTarget.expected_pre_state_digest := None |}.

Definition sample_action (effect : EffectClass) (risk : RiskClass) : ActionSpec := {|
  ActionSpec.action_id := 11; ActionSpec.run_id := 12; ActionSpec.tenant_id := "acme";
  ActionSpec.executor := "dry-run"; ActionSpec.operation := "scale";
  ActionSpec.effect_class := effect; ActionSpec.risk_class := risk;
  ActionSpec.target := sample_target; ActionSpec.arguments := [("replicas", PInt 3)];
  ActionSpec.argument_artifact := None; ActionSpec.idempotency_key := "k1";
  ActionSpec.proposed_at := 0; ActionSpec.expires_at := None;
  ActionSpec.work_pack_id := None; ActionSpec.repository_operation_id := None;
  ActionSpec.policy_context := []; ActionSpec.expected_effect := [] |}.

Example sample_action_valid :
  ActionSpec.create (sample_action READ LOW) = Ok (sample_action READ LOW).
Proof. vm_compute. reflexivity. Qed.
