(* ===== verification/Lineage.v ===== *)
(** * Lineage graphs

    Models [contracts/lineage.py] and [lineage.py]: the nodes and relations of a
    provenance graph, [LineageGraph] with its validator and its depth-first check
    for cycles, [InMemoryLineageStore] and [ProductionLineagePolicy].

    The depth-first search recurses as deep as the interpreter's recursion limit
    allows; the limit is an argument here, and reaching it raises [RecursionError]
    as it does there.  Floats of attributes compare by value, so a NaN attribute
    differs from every other, the same object included. *)

From S2P Require Import Prelude Canonical Contracts.

(** ** contracts/lineage.py *)
Inductive LineageRelationType : Set :=
| GENERATED_FROM | PRODUCED | VERIFIED_BY | BUILT_AS | AUTHORIZED_BY | AUTHORIZED_ACTION
| DEPLOYED_AS | OBSERVED_AS | COMPARED_BY.

#[export] Instance LineageRelationType_eq_dec : EqDecision LineageRelationType.
Proof. solve_decision. Defined.

Definition LineageRelationType_value (e : LineageRelationType) : string :=
  match e with
  | GENERATED_FROM => "generated_from"
  | PRODUCED => "produced"
  | VERIFIED_BY => "verified_by"
  | BUILT_AS => "built_as"
  | AUTHORIZED_BY => "authorized_by"
  | AUTHORIZED_ACTION => "authorized_action"
  | DEPLOYED_AS => "deployed_as"
  | OBSERVED_AS => "observed_as"
  | COMPARED_BY => "compared_by"
  end.

(** The fields the classes derived from [LineageNodeBase] add *)
Inductive NodeDetail : Type :=
| SpecificationRevisionNode (specification_id revision constraints_digest : string)
| DecisionSetNode (decision_set_id revision : string)
| GeneratorConfigurationNode (generator_name generator_version input_digest : string)
    (provider_name model_name : option string) (succeeded : bool)
| SourceTreeNode (repository revision : option string)
| VerificationNode (verifier_name verifier_version requirements_digest results_digest : string)
    (outcome : VerificationOutcome)
| BuildArtifactNode (build_id builder_identity : string) (succeeded : bool)
| AuthorizationNode (policy_digest action_set_digest : string) (approval_digest : option string)
    (authorized : bool)
| AgentActionNode (action_id : UUID) (action_digest executor_identity : string) (succeeded : bool)
| DeploymentNode (deployment_id environment target : string) (deployed_at : datetime)
    (succeeded : bool)
| ProductionObservationNode (observation_id : UUID) (environment observer_identity : string)
    (observed_at : datetime)
| ReconciliationNode (reconciliation_id : UUID) (reconciler_name findings_digest : string)
    (outcome : ReconciliationOutcome).

#[export] Instance NodeDetail_eq_dec : EqDecision NodeDetail.
Proof. solve_decision. Defined.

(** The [kind] each class fixes *)
Definition kind_of (d : NodeDetail) : LineageNodeKind :=
  match d with
  | SpecificationRevisionNode _ _ _ => SPECIFICATION_REVISION
  | DecisionSetNode _ _ => DECISION_SET
  | GeneratorConfigurationNode _ _ _ _ _ _ => GENERATOR_CONFIGURATION
  | SourceTreeNode _ _ => SOURCE_TREE
  | VerificationNode _ _ _ _ _ => VERIFICATION
  | BuildArtifactNode _ _ _ => BUILD_ARTIFACT
  | AuthorizationNode _ _ _ _ => AUTHORIZATION
  | AgentActionNode _ _ _ _ => AGENT_ACTION
  | DeploymentNode _ _ _ _ _ => DEPLOYMENT
  | ProductionObservationNode _ _ _ _ => PRODUCTION_OBSERVATION
  | ReconciliationNode _ _ _ _ => RECONCILIATION
  end.

(** The field constraints of each class *)
Definition create_detail (d : NodeDetail) : outcome NodeDetail :=
  match d with
  | SpecificationRevisionNode a b c =>
      a <~ NonBlankStr "specification_id" a ;; b <~ NonBlankStr "revision" b ;;
      c <~ Sha256 "constraints_digest" c ;; Ok (SpecificationRevisionNode a b c)
  | DecisionSetNode a b =>
      a <~ NonBlankStr "decision_set_id" a ;; b <~ NonBlankStr "revision" b ;;
      Ok (DecisionSetNode a b)
  | GeneratorConfigurationNode a b c p m s =>
      a <~ NonBlankStr "generator_name" a ;; b <~ NonBlankStr "generator_version" b ;;
      c <~ Sha256 "input_digest" c ;; p <~ optional (NonBlankStr "provider_name") p ;;
      m <~ optional (NonBlankStr "model_name") m ;; Ok (GeneratorConfigurationNode a b c p m s)
  | SourceTreeNode a b =>
      a <~ optional (NonBlankStr "repository") a ;; b <~ optional (NonBlankStr "revision") b ;;
      Ok (SourceTreeNode a b)
  | VerificationNode a b c e o =>
      a <~ NonBlankStr "verifier_name" a ;; b <~ NonBlankStr "verifier_version" b ;;
      c <~ Sha256 "requirements_digest" c ;; e <~ Sha256 "results_digest" e ;;
      Ok (VerificationNode a b c e o)
  | BuildArtifactNode a b s =>
      a <~ NonBlankStr "build_id" a ;; b <~ NonBlankStr "builder_identity" b ;;
      Ok (BuildArtifactNode a b s)
  | AuthorizationNode a b c s =>
      a <~ Sha256 "policy_digest" a ;; b <~ Sha256 "action_set_digest" b ;;
      c <~ optional (Sha256 "approval_digest") c ;; Ok (AuthorizationNode a b c s)
  | AgentActionNode i a b s =>
      a <~ Sha256 "action_digest" a ;; b <~ NonBlankStr "executor_identity" b ;;
      Ok (AgentActionNode i a b s)
  | DeploymentNode a b c t s =>
      a <~ NonBlankStr "deployment_id" a ;; b <~ NonBlankStr "environment" b ;;
      c <~ NonBlankStr "target" c ;; Ok (DeploymentNode a b c t s)
  | ProductionObservationNode i a b t =>
      a <~ NonBlankStr "environment" a ;; b <~ NonBlankStr "observer_identity" b ;;
      Ok (ProductionObservationNode i a b t)
  | ReconciliationNode i a b o =>
      a <~ NonBlankStr "reconciler_name" a ;; b <~ Sha256 "findings_digest" b ;;
      Ok (ReconciliationNode i a b o)
  end.

(** [==] of two dictionaries of scalars.  A NaN equals nothing, itself included:
    CPython's shortcut for one object held by both dictionaries is not modelled. *)
Definition dict_eq (a b : list (string * pyval)) : bool :=
  (length a =? length b)%nat &&
  forallb (fun '(k, v) => match dict_get k b with Some w => scalar_eq v w | None => false end) a.

Module LineageNode.
Record LineageNode : Type := {
  node_id : UUID;
  run_id : UUID;
  tenant_id : string;
  digest : string;
  recorded_at : datetime;
  external_uri : option string;
  evidence : list ArtifactRef;
  attributes : list (string * pyval);
  detail : NodeDetail;
}.

Definition kind (n : LineageNode) : LineageNodeKind := kind_of (detail n).

(** [LineageNodeBase.ref] *)
Definition ref (n : LineageNode) : LineageNodeRef := {|
  LineageNodeRef.kind := kind n; LineageNodeRef.node_id := node_id n;
  LineageNodeRef.digest := digest n |}.

Definition create (n : LineageNode) : outcome LineageNode :=
  t <~ NonBlankStr "tenant_id" (tenant_id n) ;;
  d <~ Sha256 "digest" (digest n) ;;
  u <~ optional (NonBlankStr "external_uri") (external_uri n) ;;
  x <~ create_detail (detail n) ;;
  Ok {| node_id := node_id n; run_id := run_id n; tenant_id := t; digest := d;
        recorded_at := recorded_at n; external_uri := u; evidence := evidence n;
        attributes := attributes n; detail := x |}.

(** [==] of two nodes *)
Definition eqb (a b : LineageNode) : bool :=
  (node_id a =? node_id b) && (run_id a =? run_id b) &&
  bool_decide (tenant_id a = tenant_id b) && bool_decide (digest a = digest b) &&
  (recorded_at a =? recorded_at b) && bool_decide (external_uri a = external_uri b) &&
  bool_decide (evidence a = evidence b) && dict_eq (attributes a) (attributes b) &&
  bool_decide (detail a = detail b).

End LineageNode.
Abbreviation LineageNode := LineageNode.LineageNode.

Module LineageRelation.
Record LineageRelation : Type := {
  relation : LineageRelationType;
  subject : LineageNodeRef;
  object : LineageNodeRef;
  recorded_at : datetime;
  evidence : list ArtifactRef;
}.

#[global] Instance LineageRelation_eq_dec : EqDecision LineageRelation.
Proof. solve_decision. Defined.

Definition validate_not_self_referential (r : LineageRelation) : outcome unit :=
  require (negb (bool_decide (subject r = object r)))
    (ValidationError "a lineage relation cannot refer to itself").

Definition create (r : LineageRelation) : outcome LineageRelation :=
  validate_not_self_referential r ;~ Ok r.
End LineageRelation.
Abbreviation LineageRelation := LineageRelation.LineageRelation.

(** [_ALLOWED_RELATIONS] *)
Definition ALLOWED_RELATIONS (r : LineageRelationType) : list (LineageNodeKind * LineageNodeKind) :=
  match r with
  | GENERATED_FROM => [(GENERATOR_CONFIGURATION, SPECIFICATION_REVISION);
                       (GENERATOR_CONFIGURATION, DECISION_SET)]
  | PRODUCED => [(GENERATOR_CONFIGURATION, SOURCE_TREE)]
  | VERIFIED_BY => [(SOURCE_TREE, VERIFICATION)]
  | BUILT_AS => [(SOURCE_TREE, BUILD_ARTIFACT)]
  | AUTHORIZED_BY => [(BUILD_ARTIFACT, AUTHORIZATION)]
  | AUTHORIZED_ACTION => [(AUTHORIZATION, AGENT_ACTION)]
  | DEPLOYED_AS => [(AGENT_ACTION, DEPLOYMENT)]
  | OBSERVED_AS => [(DEPLOYMENT, PRODUCTION_OBSERVATION)]
  | COMPARED_BY => [(PRODUCTION_OBSERVATION, RECONCILIATION)]
  end.

Module LineageGraph.
Record LineageGraph : Type := {
  run_id : UUID;
  tenant_id : string;
  nodes : list LineageNode;
  relations : list LineageRelation;
}.

(** The first loop of [validate_graph] *)
Fixpoint index_nodes (g : LineageGraph) (ns : list LineageNode) (by_id : list (UUID * LineageNode))
    : outcome (list (UUID * LineageNode)) :=
  match ns with
  | [] => Ok by_id
  | n :: rest =>
      require ((LineageNode.run_id n =? run_id g) && bool_decide (LineageNode.tenant_id n = tenant_id g))
        (ValidationError "every lineage node must match the graph run and tenant") ;~
      require (negb (dict_has (LineageNode.node_id n) by_id))
        (ValidationError ("duplicate lineage node id: " +:+ uuid_str (LineageNode.node_id n))) ;~
      index_nodes g rest (dict_set (LineageNode.node_id n) n by_id)
  end.

Abbreviation relation_key := (LineageRelationType * UUID * UUID)%type (only parsing).

Definition key_of (r : LineageRelation) : relation_key :=
  (LineageRelation.relation r, LineageNodeRef.node_id (LineageRelation.subject r),
   LineageNodeRef.node_id (LineageRelation.object r)).

(** [adjacency[a].append(b)] *)
Definition add_edge (a b : UUID) (adjacency : list (UUID * list UUID)) : list (UUID * list UUID) :=
  dict_set a (default [] (dict_get a adjacency) ++ [b]) adjacency.

(** One turn of the second loop, on the keys seen and the adjacency lists *)
Definition check_relation (by_id : list (UUID * LineageNode))
    (acc : list relation_key * list (UUID * list UUID)) (r : LineageRelation)
    : outcome (list relation_key * list (UUID * list UUID)) :=
  let '(keys, adjacency) := acc in
  match dict_get (LineageNodeRef.node_id (LineageRelation.subject r)) by_id,
        dict_get (LineageNodeRef.node_id (LineageRelation.object r)) by_id with
  | Some subject, Some object =>
      require (bool_decide (LineageNode.ref subject = LineageRelation.subject r) &&
               bool_decide (LineageNode.ref object = LineageRelation.object r))
        (ValidationError "lineage relation endpoint digest or kind does not match its node") ;~
      require (mem (LineageNode.kind subject, LineageNode.kind object) (ALLOWED_RELATIONS (LineageRelation.relation r)))
        (ValidationError (LineageRelationType_value (LineageRelation.relation r) +:+ " cannot link " +:+
           LineageNodeKind_value (LineageNode.kind subject) +:+ " to " +:+ LineageNodeKind_value (LineageNode.kind object))) ;~
      let key := (LineageRelation.relation r, LineageNode.node_id subject, LineageNode.node_id object) in
      require (negb (mem key keys)) (ValidationError "duplicate lineage relation") ;~
      Ok (key :: keys, add_edge (LineageNode.node_id subject) (LineageNode.node_id object) adjacency)
  | _, _ => Raise (ValidationError "every lineage relation endpoint must exist in the graph")
  end.

(** [visit], on the sets [visiting] and [visited] *)
Fixpoint visit (limit : nat) (adjacency : list (UUID * list UUID)) (n : UUID)
    : M (gset UUID * gset UUID) unit :=
  match limit with
  | O => raise (OtherError "RecursionError" "maximum recursion depth exceeded")
  | S limit' =>
      st <- get ;;
      if bool_decide (n ∈ fst st) then raise (ValidationError "lineage graph must be acyclic")
      else if bool_decide (n ∈ snd st) then ret tt
      else
        modify (fun st => ({[n]} ∪ fst st, snd st)) ;;
        match dict_get n adjacency with
        | None => raise (KeyError (uuid_str n))
        | Some targets => for_m (visit limit' adjacency) targets
        end ;;
        modify (fun st => (fst st ∖ {[n]}, {[n]} ∪ snd st))
  end.

(** [_validate_acyclic] *)
Definition validate_acyclic (limit : nat) (adjacency : list (UUID * list UUID)) : outcome unit :=
  fst (for_m (visit limit adjacency) (dict_keys adjacency) (∅, ∅)).

Definition validate_graph (limit : nat) (g : LineageGraph) : outcome unit :=
  by_id <~ index_nodes g (nodes g) [] ;;
  acc <~ fold_o (check_relation by_id) (relations g) ([], map (fun id => (id, [])) (dict_keys by_id)) ;;
  validate_acyclic limit (snd acc).

Definition create (limit : nat) (g : LineageGraph) : outcome LineageGraph :=
  t <~ NonBlankStr "tenant_id" (tenant_id g) ;;
  let g := {| run_id := run_id g; tenant_id := t; nodes := nodes g; relations := relations g |} in
  validate_graph limit g ;~
  Ok g.
End LineageGraph.
Abbreviation LineageGraph := LineageGraph.LineageGraph.

(** ** [InMemoryLineageStore] *)
Module LineageStore.
Abbreviation identity := (string * UUID)%type (only parsing).

Record store : Type := {
  nodes : gmap (string * UUID) (list (UUID * LineageNode));
  relations : gmap (string * UUID) (list LineageRelation);
}.

Definition empty : store := {| nodes := ∅; relations := ∅ |}.

Definition nodes_of (id : string * UUID) (st : store) : list (UUID * LineageNode) :=
  default [] (nodes st !! id).
Definition relations_of (id : string * UUID) (st : store) : list LineageRelation :=
  default [] (relations st !! id).

(** Another tenant holds nodes of the run. *)
Definition held_elsewhere (tenant : string) (run : UUID) (st : store) : bool :=
  existsb (fun '((t, r), ns) =>
    (r =? run) && negb (bool_decide (t = tenant)) && negb (bool_decide (ns = [])))
    (map_to_list (nodes st)).

Definition record_node (n : LineageNode) : M store unit :=
  let id := (LineageNode.tenant_id n, LineageNode.run_id n) in
  st <- get ;;
  guard (negb (held_elsewhere (LineageNode.tenant_id n) (LineageNode.run_id n) st))
    (IntegrityViolationError "a lineage run cannot cross tenant boundaries") ;;
  guard (match dict_get (LineageNode.node_id n) (nodes_of id st) with
         | Some existing => LineageNode.eqb existing n
         | None => true
         end)
    (IntegrityViolationError "a lineage node id cannot be rewritten") ;;
  modify (fun st => {| nodes := <[id := dict_set (LineageNode.node_id n) n (nodes_of id st)]> (nodes st);
                       relations := relations st |}).

(** [_graph] *)
Definition graph (limit : nat) (tenant : string) (run : UUID) (rels : list LineageRelation)
    (st : store) : outcome LineageGraph :=
  match nodes_of (tenant, run) st with
  | [] => Raise (KeyError ("lineage run " +:+ uuid_str run +:+ " does not exist"))
  | ns => LineageGraph.create limit {|
      LineageGraph.run_id := run; LineageGraph.tenant_id := tenant;
      LineageGraph.nodes := dict_values ns; LineageGraph.relations := rels |}
  end.

Definition same_link (a b : LineageRelation) : bool :=
  bool_decide (LineageRelation.relation a = LineageRelation.relation b) &&
  bool_decide (LineageRelation.subject a = LineageRelation.subject b) &&
  bool_decide (LineageRelation.object a = LineageRelation.object b).

Definition record_relation (limit : nat) (tenant : string) (run : UUID) (r : LineageRelation)
    : M store unit :=
  st <- get ;;
  match List.find (fun existing => same_link existing r) (relations_of (tenant, run) st) with
  | Some existing =>
      guard (bool_decide (existing = r))
        (IntegrityViolationError "a lineage relation cannot be rewritten")
  | None =>
      g <- lift (graph limit tenant run (relations_of (tenant, run) st ++ [r]) st) ;;
      modify (fun st => {| nodes := nodes st;
                           relations := <[(tenant, run) := LineageGraph.relations g]> (relations st) |})
  end.

Definition get_graph (limit : nat) (tenant : string) (run : UUID) (st : store) : outcome LineageGraph :=
  graph limit tenant run (relations_of (tenant, run) st) st.

(** The calls, with constructed records *)
Inductive step (limit : nat) : store -> store -> Prop :=
| step_node n st o st' :
    LineageNode.create n = Ok n -> record_node n st = (o, st') -> step limit st st'
| step_relation t run r st o st' :
    LineageRelation.create r = Ok r -> record_relation limit t run r st = (o, st') ->
    step limit st st'.
End LineageStore.

(** ** [ProductionLineagePolicy] *)
Module LineagePolicy.
Inductive Requirement : Set :=
| REQ_SPECIFICATION_REVISION | REQ_DECISION_SET | SUCCESSFUL_GENERATION | REQ_SOURCE_TREE
| PASSING_VERIFICATION | SUCCESSFUL_BUILD | REQ_AUTHORIZATION | SUCCESSFUL_AGENT_ACTION
| SUCCESSFUL_DEPLOYMENT | REQ_PRODUCTION_OBSERVATION | MATCHED_RECONCILIATION.

#[global] Instance Requirement_eq_dec : EqDecision Requirement.
Proof. solve_decision. Defined.

Definition Requirement_value (e : Requirement) : string :=
  match e with
  | REQ_SPECIFICATION_REVISION => "specification_revision"
  | REQ_DECISION_SET => "decision_set"
  | SUCCESSFUL_GENERATION => "successful_generation"
  | REQ_SOURCE_TREE => "source_tree"
  | PASSING_VERIFICATION => "passing_verification"
  | SUCCESSFUL_BUILD => "successful_build"
  | REQ_AUTHORIZATION => "authorization"
  | SUCCESSFUL_AGENT_ACTION => "successful_agent_action"
  | SUCCESSFUL_DEPLOYMENT => "successful_deployment"
  | REQ_PRODUCTION_OBSERVATION => "production_observation"
  | MATCHED_RECONCILIATION => "matched_reconciliation"
  end.

(** [ProductionLineageAssessment] *)
Record Assessment : Type := {
  observation : LineageNodeRef;
  complete : bool;
  satisfied_requirements : list Requirement;
  missing_requirements : list Requirement;
  lineage_path : list LineageNodeRef;
}.

(** The [succeeded], [authorized], [outcome] fields the predicates read *)
Definition succeeded (n : LineageNode) : bool :=
  match LineageNode.detail n with
  | GeneratorConfigurationNode _ _ _ _ _ s | BuildArtifactNode _ _ s | AgentActionNode _ _ _ s
  | DeploymentNode _ _ _ _ s => s
  | _ => false
  end.
Definition authorized (n : LineageNode) : bool :=
  match LineageNode.detail n with AuthorizationNode _ _ _ s => s | _ => false end.
Definition passed (n : LineageNode) : bool :=
  match LineageNode.detail n with VerificationNode _ _ _ _ o => bool_decide (o = PASSED) | _ => false end.
Definition matched (n : LineageNode) : bool :=
  match LineageNode.detail n with ReconciliationNode _ _ _ o => bool_decide (o = MATCHED) | _ => false end.
Definition anything (n : LineageNode) : bool := true.

Section Assess.
Context (g : LineageGraph) (nodes : list (UUID * LineageNode)).

(** [nodes[id]] *)
Definition node_at (id : UUID) : outcome LineageNode :=
  match dict_get id nodes with Some n => Ok n | None => Raise (KeyError (uuid_str id)) end.

(** The candidates among [near] of the relations of a type whose [far] end is [r] *)
Fixpoint collect (ty : LineageRelationType) (far near : LineageRelation -> LineageNodeRef)
    (r : LineageNodeRef) (expected : LineageNodeKind) (rels : list LineageRelation)
    : outcome (list LineageNode) :=
  match rels with
  | [] => Ok []
  | x :: rest =>
      if bool_decide (LineageRelation.relation x = ty) && bool_decide (far x = r) then
        c <~ node_at (LineageNodeRef.node_id (near x)) ;;
        cs <~ collect ty far near r expected rest ;;
        Ok (if bool_decide (LineageNode.kind c = expected) then c :: cs else cs)
      else collect ty far near r expected rest
  end.

(** [next((node for node in candidates if predicate(node)), None) or candidates[0]] *)
Definition choose (predicate : LineageNode -> bool) (cs : list LineageNode) : option LineageNode :=
  match List.find predicate cs with Some n => Some n | None => head cs end.

Definition subject_of (ty : LineageRelationType) (object_node : option LineageNode)
    (expected : LineageNodeKind) (predicate : LineageNode -> bool) : outcome (option LineageNode) :=
  match object_node with
  | None => Ok None
  | Some n =>
      cs <~ collect ty LineageRelation.object LineageRelation.subject (LineageNode.ref n) expected
              (LineageGraph.relations g) ;;
      Ok (choose predicate cs)
  end.

Definition object_of (ty : LineageRelationType) (subject : option LineageNode)
    (expected : LineageNodeKind) (predicate : LineageNode -> bool) : outcome (option LineageNode) :=
  match subject with
  | None => Ok None
  | Some n =>
      cs <~ collect ty LineageRelation.subject LineageRelation.object (LineageNode.ref n) expected
              (LineageGraph.relations g) ;;
      Ok (choose predicate cs)
  end.

(** [_mark], on the lists [satisfied] and [missing] *)
Definition mark (condition : bool) (r : Requirement) (acc : list Requirement * list Requirement)
    : list Requirement * list Requirement :=
  if condition then (fst acc ++ [r], snd acc) else (fst acc, snd acc ++ [r]).

(** [node is not None and condition(node)] *)
Definition present (condition : LineageNode -> bool) (n : option LineageNode) : bool :=
  match n with Some n => condition n | None => false end.

(** [assess], from the observed node on *)
Definition assess_observed (observed : LineageNode) : outcome Assessment :=
  deployment <~ subject_of OBSERVED_AS (Some observed) DEPLOYMENT succeeded ;;
  let acc := mark (present succeeded deployment) SUCCESSFUL_DEPLOYMENT
               ([REQ_PRODUCTION_OBSERVATION], []) in
  action <~ subject_of DEPLOYED_AS deployment AGENT_ACTION succeeded ;;
  let acc := mark (present succeeded action) SUCCESSFUL_AGENT_ACTION acc in
  authorization <~ subject_of AUTHORIZED_ACTION action AUTHORIZATION authorized ;;
  let acc := mark (present authorized authorization) REQ_AUTHORIZATION acc in
  build <~ subject_of AUTHORIZED_BY authorization BUILD_ARTIFACT succeeded ;;
  let acc := mark (present succeeded build) SUCCESSFUL_BUILD acc in
  source_tree <~ subject_of BUILT_AS build SOURCE_TREE anything ;;
  let acc := mark (present anything source_tree) REQ_SOURCE_TREE acc in
  generator <~ subject_of PRODUCED source_tree GENERATOR_CONFIGURATION succeeded ;;
  let acc := mark (present succeeded generator) SUCCESSFUL_GENERATION acc in
  verification <~ object_of VERIFIED_BY source_tree VERIFICATION passed ;;
  let acc := mark (present passed verification) PASSING_VERIFICATION acc in
  specification <~ object_of GENERATED_FROM generator SPECIFICATION_REVISION anything ;;
  let acc := mark (present anything specification) REQ_SPECIFICATION_REVISION acc in
  decisions <~ object_of GENERATED_FROM generator DECISION_SET anything ;;
  let acc := mark (present anything decisions) REQ_DECISION_SET acc in
  reconciliation <~ object_of COMPARED_BY (Some observed) RECONCILIATION matched ;;
  let acc := mark (present matched reconciliation) MATCHED_RECONCILIATION acc in
  let chronological := [specification; decisions; generator; source_tree; verification; build;
                        authorization; action; deployment; Some observed; reconciliation] in
  Ok {| observation := LineageNode.ref observed; complete := bool_decide (snd acc = []);
        satisfied_requirements := fst acc; missing_requirements := snd acc;
        lineage_path := map LineageNode.ref (omap (fun o => o) chronological) |}.
End Assess.

(** [{node.node_id: node for node in graph.nodes}] *)
Definition by_id (g : LineageGraph) : list (UUID * LineageNode) :=
  foldl (fun d n => dict_set (LineageNode.node_id n) n d) [] (LineageGraph.nodes g).

(** [UUID | LineageNodeRef] *)
Definition observation_id (o : UUID + LineageNodeRef) : UUID :=
  match o with inl id => id | inr r => LineageNodeRef.node_id r end.

Definition assess (g : LineageGraph) (o : UUID + LineageNodeRef) : outcome Assessment :=
  let nodes := by_id g in
  match dict_get (observation_id o) nodes with
  | Some observed =>
      require (bool_decide (LineageNode.kind observed = PRODUCTION_OBSERVATION))
        (ValueError "production observation is not present in the lineage graph") ;~
      require (match o with inr r => bool_decide (LineageNode.ref observed = r) | inl _ => true end)
        (ValueError "production observation reference does not match the graph") ;~
      assess_observed g nodes observed
  | None => Raise (ValueError "production observation is not present in the lineage graph")
  end.

Definition enforce (g : LineageGraph) (o : UUID + LineageNodeRef) : outcome Assessment :=
  assessment <~ assess g o ;;
  require (complete assessment)
    (IncompleteLineageError (map Requirement_value (missing_requirements assessment))) ;~
  Ok assessment.
End LineagePolicy.
