(* ===== verification/LineageProofs.v ===== *)
(** * Lineage: the validator, the store and the policy

    [AcyclicFacts] proves the depth-first search against acyclicity of the edge
    relation; [GraphFacts] that [validate_graph] decides a declarative
    well-formedness; [LineageProperties] states the results, the store's and the
    policy's. *)

From S2P Require Import Prelude Canonical Contracts Lineage.
From Stdlib Require Import QArith_base.
From stdpp Require Import relations.
Open Scope Z_scope.

(** ** The depth-first search *)
Module AcyclicFacts.
Import LineageGraph.

Definition edge (adj : list (UUID * list UUID)) (a b : UUID) : Prop :=
  exists ts, dict_get a adj = Some ts /\ b ∈ ts.

(** Every target is a key. *)
Definition closed (adj : list (UUID * list UUID)) : Prop :=
  forall a b, edge adj a b -> b ∈ dict_keys adj.

Definition cyclic : exn := ValidationError "lineage graph must be acyclic".

Section Visit.
Context (adj : list (UUID * list UUID)) (Hclosed : closed adj).

(** [deep limit visiting n]: the limit suffices to visit [n] below [visiting]. *)
Context (deep : nat -> gset UUID -> UUID -> Prop).
Hypothesis deep_O : forall vg n, ~ deep 0 vg n.
Hypothesis deep_S : forall l vg n t,
  deep (S l) vg n -> n ∉ vg -> n ∈ dict_keys adj -> edge adj n t -> deep l ({[n]} ∪ vg) t.

(** The visited nodes are closed under successors and on no cycle. *)
Definition settled (vd : gset UUID) : Prop :=
  forall x, x ∈ vd -> (forall y, edge adj x y -> y ∈ vd) /\ ~ tc (edge adj) x x.

Lemma settled_reach vd x y : settled vd -> x ∈ vd -> rtc (edge adj) x y -> y ∈ vd.
Proof. intros Hs Hx H. induction H as [x|x y z Hxy _ IH]; [done|]. apply IH. by apply (Hs x). Qed.

Lemma settled_add vd n :
  settled vd -> (forall y, edge adj n y -> y ∈ vd) -> settled ({[n]} ∪ vd).
Proof.
  intros Hs Hn x Hx. apply elem_of_union in Hx as [->%elem_of_singleton|Hx].
  - split; [set_solver|]. intros Hc.
    assert (exists s, edge adj n s /\ rtc (edge adj) s n) as (s & Hns & Hsn).
    { inversion Hc as [a b Hab|a b c Hab Hbc]; subst; eauto using tc_rtc. }
    pose proof (settled_reach _ _ _ Hs (Hn _ Hns) Hsn) as Hvd.
    by apply (Hs n Hvd).
  - destruct (Hs x Hx). split; [set_solver|done].
Qed.

Definition good (vg vd : gset UUID) (ns : list UUID) (r : outcome unit * (gset UUID * gset UUID)) : Prop :=
  match r with
  | (Ok _, (vg', vd')) => vg' = vg /\ vd ⊆ vd' /\ (forall n, n ∈ ns -> n ∈ vd') /\ settled vd'
  | (Raise e, _) => e = cyclic /\ exists x, tc (edge adj) x x
  end.

Lemma for_m_good limit vg ts :
  (forall n vd, n ∈ ts -> settled vd -> good vg vd [n] (visit limit adj n (vg, vd))) ->
  forall vd, settled vd -> good vg vd ts (for_m (visit limit adj) ts (vg, vd)).
Proof.
  unfold for_m. induction ts as [|t ts IH]; intros Hv vd Hs; simpl.
  - split_and!; [done..|set_solver|done].
  - unfold bind. pose proof (Hv t vd ltac:(set_solver) Hs) as H1.
    destruct (visit limit adj t (vg, vd)) as [[[]|e] [vg1 vd1]]; [|done].
    destruct H1 as (-> & Hsub & Hin & Hs1).
    specialize (IH ltac:(intros; apply Hv; [set_solver|done]) vd1 Hs1). unfold good in *.
    destruct (fold_m _ ts tt (vg, vd1)) as [[u|e] [vg2 vd2]]; [|done].
    destruct IH as (-> & Hsub2 & Hin2 & Hs2). split_and!; [done|set_solver|set_solver|done].
Qed.

Lemma visit_good limit : forall n vg vd,
  deep limit vg n -> n ∈ dict_keys adj -> settled vd -> (forall x, x ∈ vg -> tc (edge adj) x n) ->
  good vg vd [n] (visit limit adj n (vg, vd)).
Proof.
  induction limit as [|l IH]; intros n vg vd Hd Hn Hs Hp; [by destruct (deep_O vg n)|].
  simpl. unfold bind at 1, get. simpl.
  case_bool_decide as Hvg; [split; [done|]; eauto|].
  case_bool_decide as Hvd; [split_and!; [done..|set_solver|done]|].
  unfold bind, modify. simpl.
  destruct (dict_get n adj) as [ts|] eqn:E; [|apply dict_get_None in E; done].
  assert (Hedge : forall t, t ∈ ts -> edge adj n t) by (intros t Ht; by exists ts).
  pose proof (for_m_good l ({[n]} ∪ vg) ts) as Hf.
  specialize (Hf ltac:(intros t vd' Ht Hs'; apply IH; [by eapply deep_S; eauto|
    by apply (Hclosed n), Hedge|done|
    intros x [->%elem_of_singleton|Hx]%elem_of_union;
      [by apply tc_once, Hedge|eapply tc_r; [by apply Hp|by apply Hedge]]]) vd Hs).
  unfold good in *. destruct (for_m _ ts _) as [[u|e] [vg1 vd1]]; [|done].
  destruct Hf as (-> & Hsub & Hin & Hs1). simpl. split_and!; [set_solver..|].
  apply settled_add; [done|]. intros y (ts' & E' & Hy). apply Hin. congruence.
Qed.

Lemma validate_good limit :
  (forall n, n ∈ dict_keys adj -> deep limit ∅ n) ->
  match validate_acyclic limit adj with
  | Ok _ => forall x, ~ tc (edge adj) x x
  | Raise e => e = cyclic /\ exists x, tc (edge adj) x x
  end.
Proof.
  intros Hd. unfold validate_acyclic.
  pose proof (for_m_good limit ∅ (dict_keys adj)) as Hf.
  specialize (Hf ltac:(intros; apply visit_good; [by apply Hd|done..|set_solver]) ∅ ltac:(by intros x Hx)).
  unfold good in Hf. destruct (for_m _ _ _) as [[u|e] [vg vd]]; simpl; [|done].
  destruct Hf as (_ & _ & Hin & Hs). intros x Hx. assert (x ∈ vd) as Hvd; [|by apply (Hs x Hvd)].
  apply Hin. assert (exists y, edge adj x y) as (y & ts & E & _).
  { inversion Hx; eauto. }
  destruct (decide (x ∈ dict_keys adj)) as [|Hni]; [done|]. apply dict_get_None in Hni. congruence.
Qed.
End Visit.

Lemma size_keys (l : list UUID) : (size (list_to_set l : gset UUID) <= length l)%nat.
Proof.
  induction l as [|x l IH]; [done|]. simpl. rewrite size_union_alt, size_singleton.
  pose proof (subseteq_size (list_to_set l ∖ {[x]} : gset UUID) (list_to_set l) ltac:(set_solver)). lia.
Qed.

(** Without any knowledge of the graph, one more than its size is enough. *)
Lemma deep_size (adj : list (UUID * list UUID)) :
  let deep l (vg : gset UUID) (n : UUID) := (size (list_to_set (dict_keys adj) ∖ vg : gset UUID) < l)%nat in
  (forall vg n, ~ deep 0%nat vg n) /\
  (forall l vg n t, deep (S l) vg n -> n ∉ vg -> n ∈ dict_keys adj -> edge adj n t ->
     deep l ({[n]} ∪ vg) t).
Proof.
  split; [intros; lia|]. intros l vg n t H Hvg Hn _.
  enough (size (list_to_set (dict_keys adj) ∖ ({[n]} ∪ vg) : gset UUID) <
          size (list_to_set (dict_keys adj) ∖ vg : gset UUID))%nat by lia.
  apply subset_size. split; [set_solver|]. intros Hsub. specialize (Hsub n). set_solver.
Qed.

(** With a rank that falls along every edge, the rank of the node is. *)
Lemma deep_rank (adj : list (UUID * list UUID)) (rank : UUID -> nat) :
  (forall a b, edge adj a b -> (rank b < rank a)%nat) ->
  let deep l (_ : gset UUID) (n : UUID) := (rank n < l)%nat in
  (forall vg n, ~ deep 0%nat vg n) /\
  (forall l vg n t, deep (S l) vg n -> n ∉ vg -> n ∈ dict_keys adj -> edge adj n t ->
     deep l ({[n]} ∪ vg) t).
Proof. intros Hr. split; [intros; lia|]. intros l vg n t H _ _ He. specialize (Hr _ _ He). lia. Qed.

Lemma rank_acyclic (R : UUID -> UUID -> Prop) (rank : UUID -> nat) :
  (forall a b, R a b -> (rank b < rank a)%nat) -> forall x, ~ tc R x x.
Proof.
  intros Hr. assert (forall x y, tc R x y -> (rank y < rank x)%nat) as H.
  { induction 1 as [x y Hxy|x y z Hxy _ IH]; [by apply Hr|]. specialize (Hr _ _ Hxy). lia. }
  intros x Hx. specialize (H _ _ Hx). lia.
Qed.
End AcyclicFacts.

(** ** The validator *)
Module GraphFacts.
Import LineageGraph AcyclicFacts.

Definition node_key (n : LineageNode) : UUID * LineageNode := (LineageNode.node_id n, n).

Definition subject_id (r : LineageRelation) : UUID := LineageNodeRef.node_id (LineageRelation.subject r).
Definition object_id (r : LineageRelation) : UUID := LineageNodeRef.node_id (LineageRelation.object r).

(** [a] is linked to [b] by one of the relations. *)
Definition link (rels : list LineageRelation) (a b : UUID) : Prop :=
  exists r, r ∈ rels /\ subject_id r = a /\ object_id r = b.

Definition sound_relation (ns : list LineageNode) (r : LineageRelation) : Prop :=
  exists s o, s ∈ ns /\ o ∈ ns /\ LineageNode.ref s = LineageRelation.subject r /\
    LineageNode.ref o = LineageRelation.object r /\
    (LineageNode.kind s, LineageNode.kind o) ∈ ALLOWED_RELATIONS (LineageRelation.relation r).

(** What [validate_graph] decides *)
Record well_formed (g : LineageGraph) : Prop := {
  wf_owner n : n ∈ nodes g ->
    LineageNode.run_id n = run_id g /\ LineageNode.tenant_id n = tenant_id g;
  wf_nodes : NoDup (map LineageNode.node_id (nodes g));
  wf_relations r : r ∈ relations g -> sound_relation (nodes g) r;
  wf_keys : NoDup (map key_of (relations g));
}.

Lemma dict_set_new {V} (k : UUID) (v : V) d : k ∉ dict_keys d -> dict_set k v d = d ++ [(k, v)].
Proof.
  induction d as [|[k' v'] d IH]; simpl; [done|]. intros H. rewrite decide_False by set_solver.
  rewrite IH by set_solver. done.
Qed.

Lemma keys_of_nodes ns : dict_keys (map node_key ns) = map LineageNode.node_id ns.
Proof. unfold dict_keys. rewrite map_map. done. Qed.

Lemma index_nodes_spec g ns d :
  (exists d', index_nodes g ns d = Ok d') <->
  (forall n, n ∈ ns -> LineageNode.run_id n = run_id g /\ LineageNode.tenant_id n = tenant_id g) /\
  NoDup (map LineageNode.node_id ns) /\
  (forall n, n ∈ ns -> LineageNode.node_id n ∉ dict_keys d).
Proof.
  revert d. induction ns as [|n ns IH]; intros d; simpl.
  - split; [intros _|by eauto]. split_and!; [set_solver|constructor|set_solver].
  - unfold require, dict_has.
    destruct (andb (LineageNode.run_id n =? run_id g) (bool_decide (LineageNode.tenant_id n = tenant_id g))) eqn:E1; simpl.
    2: { split; [by intros [d' [=]]|]. intros (Ho & _). destruct (Ho n ltac:(set_solver)) as [H1 H2].
         rewrite H1, H2, Z.eqb_refl, bool_decide_true in E1 by done. done. }
    b2p. destruct (dict_get (LineageNode.node_id n) d) as [x|] eqn:E2; simpl.
    { split; [by intros [d' [=]]|]. intros (_ & _ & Hd). specialize (Hd n ltac:(set_solver)).
      apply dict_get_None in Hd. congruence. }
    rewrite IH. apply dict_get_None in E2.
    rewrite dict_set_new by done. unfold dict_keys. rewrite map_app. simpl.
    rewrite NoDup_cons, list_elem_of_fmap. split.
    + intros (Ho & Hnd & Hd). split_and!; [|intros (m & Hm & Hin); by apply (Hd m Hin); set_solver|done|].
      * intros m [->|Hm]%elem_of_cons; [done|by apply Ho].
      * intros m [->|Hm]%elem_of_cons; [done|]. specialize (Hd m Hm). set_solver.
    + intros (Ho & [Hni Hnd] & Hd). split_and!; [set_solver|done|].
      intros m Hm. specialize (Hd m ltac:(set_solver)).
      rewrite not_elem_of_app, list_elem_of_singleton. split; [done|]. intros Heq. apply Hni. by exists m.
Qed.

Lemma index_nodes_value g ns d d' :
  index_nodes g ns d = Ok d' -> d' = d ++ map node_key ns.
Proof.
  revert d. induction ns as [|n ns IH]; intros d; simpl; [by intros [= <-]; rewrite app_nil_r|].
  intros H. run_inv H. apply IH in H2. b2p. unfold dict_has in *.
  rewrite dict_set_new, <- app_assoc in H2; [done|].
  apply dict_get_None. by destruct (dict_get _ d).
Qed.

Lemma node_lookup ns k n :
  NoDup (map LineageNode.node_id ns) ->
  dict_get k (map node_key ns) = Some n <-> n ∈ ns /\ LineageNode.node_id n = k.
Proof.
  intros Hnd. split.
  - intros H%dict_get_elem%list_elem_of_fmap. by destruct H as (m & [= -> ->] & Hm).
  - intros [Hn <-]. apply elem_dict_get; [by rewrite keys_of_nodes|].
    apply list_elem_of_fmap. by exists n.
Qed.

Lemma add_edge_keys a b adj : a ∈ dict_keys adj -> dict_keys (add_edge a b adj) = dict_keys adj.
Proof.
  intros H. unfold add_edge. rewrite dict_keys_set. unfold dict_has.
  destruct (dict_get a adj) eqn:E; [done|]. by apply dict_get_None in E.
Qed.

Lemma add_edge_edge a b adj x y :
  edge (add_edge a b adj) x y <-> edge adj x y \/ (x = a /\ y = b).
Proof.
  unfold edge, add_edge. destruct (decide (x = a)) as [->|Hne].
  - rewrite dict_get_set_eq. split.
    + intros (ts & [= <-] & Hy). apply elem_of_app in Hy as [Hy| ->%list_elem_of_singleton]; [|by right].
      left. destruct (dict_get a adj) as [us|]; [by exists us|by apply elem_of_nil in Hy].
    + intros [(ts & E & Hy)|[_ ->]]; eexists; (split; [done|]); [rewrite E; set_solver|set_solver].
  - rewrite dict_get_set_ne by done. naive_solver.
Qed.

Section Relations.
Context (ns : list LineageNode) (Hnd : NoDup (map LineageNode.node_id ns)).
Abbreviation by_id := (map node_key ns).

Lemma check_relation_spec keys adj r acc :
  check_relation by_id (keys, adj) r = Ok acc <->
  sound_relation ns r /\ key_of r ∉ keys /\
  acc = (key_of r :: keys, add_edge (subject_id r) (object_id r) adj).
Proof.
  unfold check_relation, sound_relation. split.
  - destruct (dict_get _ by_id) as [s|] eqn:Es; [|discriminate].
    destruct (dict_get (LineageNodeRef.node_id (LineageRelation.object r)) by_id) as [o|] eqn:Eo;
      [|discriminate].
    apply node_lookup in Es as [Hs Ks]; [|done]. apply node_lookup in Eo as [Ho Ko]; [|done].
    intros H. run_inv H. b2p. unfold key_of, subject_id, object_id. rewrite <- Ks, <- Ko.
    split; [by exists s, o|]. by split.
  - intros ((s & o & Hs & Ho & Rs & Ro & Hk) & Hkey & ->).
    assert (Ks : LineageNode.node_id s = subject_id r) by (unfold subject_id; by rewrite <- Rs).
    assert (Ko : LineageNode.node_id o = object_id r) by (unfold object_id; by rewrite <- Ro).
    fold (subject_id r) (object_id r).
    rewrite (proj2 (node_lookup ns _ s Hnd) (conj Hs Ks)), (proj2 (node_lookup ns _ o Hnd) (conj Ho Ko)).
    rewrite Rs, Ro, !bool_decide_true by done. simpl.
    apply mem_true in Hk. rewrite Hk. simpl. unfold key_of in Hkey |- *.
    fold (subject_id r) (object_id r) in Hkey |- *. rewrite Ks, Ko.
    apply mem_false in Hkey. by rewrite Hkey.
Qed.

#[local] Arguments check_relation : simpl never.

Lemma sound_ends r : sound_relation ns r ->
  subject_id r ∈ map LineageNode.node_id ns /\ object_id r ∈ map LineageNode.node_id ns.
Proof.
  intros (s & o & Hs & Ho & Rs & Ro & _). unfold subject_id, object_id. rewrite <- Rs, <- Ro.
  split; apply list_elem_of_fmap; eauto.
Qed.

Lemma check_fold_spec rels keys adj :
  (exists acc, fold_o (check_relation by_id) rels (keys, adj) = Ok acc) <->
  (forall r, r ∈ rels -> sound_relation ns r) /\ NoDup (map key_of rels) /\
  (forall r, r ∈ rels -> key_of r ∉ keys).
Proof.
  revert keys adj. induction rels as [|r rels IH]; intros keys adj; simpl.
  - split; [intros _|by eauto]. split_and!; [set_solver|constructor|set_solver].
  - rewrite NoDup_cons, list_elem_of_fmap. split.
    + intros [acc H]. apply obind_Ok in H as (a & H0 & H2). apply check_relation_spec in H0 as (Hs & Hk & ->).
      destruct (proj1 (IH _ _) (ex_intro _ _ H2)) as (H3 & H4 & H5).
      split; [|split; [split; [|exact H4]|]].
      * intros m [->|Hm]%elem_of_cons; [exact Hs|by apply H3].
      * intros (m & Hm & Hin). apply (H5 m Hin). rewrite Hm. by left.
      * intros m [->|Hm]%elem_of_cons; [exact Hk|]. intros Hin. apply (H5 m Hm). by right.
    + intros (Hs & [Hni Hd] & Hk).
      rewrite (proj2 (check_relation_spec keys adj r
        (key_of r :: keys, add_edge (subject_id r) (object_id r) adj))).
      2: { split; [apply Hs; by left|]. split; [apply Hk; by left|done]. }
      cbn [obind]. apply IH. split; [intros m Hm; apply Hs; by right|]. split; [exact Hd|].
      intros m Hm [Heq|Hin]%elem_of_cons; [by apply Hni; exists m|].
      revert Hin. apply Hk. by right.
Qed.

Lemma check_fold_value rels keys adj acc :
  fold_o (check_relation by_id) rels (keys, adj) = Ok acc ->
  dict_keys adj = map LineageNode.node_id ns ->
  dict_keys (snd acc) = map LineageNode.node_id ns /\
  forall x y, edge (snd acc) x y <-> edge adj x y \/ link rels x y.
Proof.
  revert keys adj. induction rels as [|r rels IH]; intros keys adj; simpl.
  - intros [= <-] H. split; [done|]. intros x y. split; [by left|]. intros [H'|(r & Hr & _)]; [done|].
    by apply elem_of_nil in Hr.
  - intros H Hk. apply obind_Ok in H as (a & H0 & H2). apply check_relation_spec in H0 as (Hs & _ & ->).
    apply IH in H2 as [H3 H4].
    2: { rewrite add_edge_keys; [done|]. rewrite Hk. by apply sound_ends. }
    split; [done|]. intros x y. rewrite H4, add_edge_edge. unfold link. set_solver.
Qed.
End Relations.

(** The kinds are ordered: every relation goes down. *)
Definition kind_rank (k : LineageNodeKind) : nat :=
  match k with
  | GENERATOR_CONFIGURATION => 7 | SOURCE_TREE => 6 | BUILD_ARTIFACT => 5 | AUTHORIZATION => 4
  | AGENT_ACTION => 3 | DEPLOYMENT => 2 | PRODUCTION_OBSERVATION => 1
  | SPECIFICATION_REVISION | DECISION_SET | VERIFICATION | RECONCILIATION => 0
  end%nat.

Lemma allowed_rank ty a b : (a, b) ∈ ALLOWED_RELATIONS ty -> (kind_rank b < kind_rank a)%nat.
Proof.
  destruct ty; simpl; intros H;
    repeat (apply elem_of_cons in H as [[= -> ->]|H]; [simpl; lia|]); by apply elem_of_nil in H.
Qed.

Definition node_rank (ns : list LineageNode) (id : UUID) : nat :=
  match dict_get id (map node_key ns) with Some n => kind_rank (LineageNode.kind n) | None => 0%nat end.

Lemma node_rank_bound ns id : (node_rank ns id <= 7)%nat.
Proof. unfold node_rank. destruct (dict_get _ _) as [n|]; [|lia]. destruct (LineageNode.kind n); simpl; lia. Qed.

Lemma link_rank ns rels a b :
  NoDup (map LineageNode.node_id ns) -> (forall r, r ∈ rels -> sound_relation ns r) ->
  link rels a b -> (node_rank ns b < node_rank ns a)%nat.
Proof.
  intros Hnd Hs (r & Hr & <- & <-). destruct (Hs r Hr) as (s & o & Hsn & Hon & Rs & Ro & Hk).
  unfold node_rank, subject_id, object_id. rewrite <- Rs, <- Ro.
  cbn [LineageNode.ref LineageNodeRef.node_id].
  rewrite (proj2 (node_lookup ns (LineageNode.node_id s) s Hnd)) by done.
  rewrite (proj2 (node_lookup ns (LineageNode.node_id o) o Hnd)) by done.
  by apply (allowed_rank (LineageRelation.relation r)).
Qed.

Lemma well_formed_acyclic g : well_formed g -> forall x, ~ tc (link (relations g)) x x.
Proof.
  intros Hw. apply (rank_acyclic _ (node_rank (nodes g))). intros a b.
  apply link_rank; [by apply wf_nodes|intros r; by apply wf_relations].
Qed.

Lemma start_keys ids : dict_keys (map (fun id : UUID => (id, @nil UUID)) ids) = ids.
Proof. unfold dict_keys. rewrite map_map. apply map_id. Qed.

Lemma start_edge ids x y : ~ edge (map (fun id : UUID => (id, @nil UUID)) ids) x y.
Proof.
  intros (ts & E%dict_get_elem & Hy). apply list_elem_of_fmap in E as (id & [= -> ->] & _).
  by apply elem_of_nil in Hy.
Qed.

Lemma validate_graph_spec limit g :
  (8 <= limit)%nat -> (validate_graph limit g = Ok tt <-> well_formed g).
Proof.
  intros Hl. unfold validate_graph. split.
  - intros H. apply obind_Ok in H as (a & H0 & H). apply obind_Ok in H as (b & H1 & _).
    assert (a = map node_key (nodes g)) as -> by (by apply index_nodes_value in H0).
    destruct (proj1 (index_nodes_spec _ _ _) (ex_intro _ _ H0)) as (Ho & Hnd & _).
    destruct (proj1 (check_fold_spec _ Hnd _ _ _) (ex_intro _ _ H1)) as (Hs & Hk & _).
    by split.
  - intros Hw. pose proof (wf_nodes _ Hw) as Hnd.
    destruct (proj2 (index_nodes_spec g (nodes g) [])) as [d Hd].
    { split; [by apply wf_owner|]. split; [done|]. intros n _. apply not_elem_of_nil. }
    rewrite Hd. simpl. apply index_nodes_value in Hd as ->. simpl.
    edestruct (proj2 (check_fold_spec (nodes g) Hnd (relations g) []
      (map (fun id => (id, [])) (dict_keys (map node_key (nodes g)))))) as [acc Hacc].
    { split; [by apply wf_relations|]. split; [by apply wf_keys|]. intros r _. apply not_elem_of_nil. }
    rewrite Hacc. simpl. destruct (check_fold_value _ Hnd _ _ _ _ Hacc) as [Hkeys Hedge].
    { by rewrite start_keys, keys_of_nodes. }
    assert (Hlink : forall x y, edge (snd acc) x y -> link (relations g) x y).
    { intros x y [H|H]%Hedge; [by apply start_edge in H|done]. }
    assert (Hrank : forall x y, edge (snd acc) x y -> (node_rank (nodes g) y < node_rank (nodes g) x)%nat).
    { intros x y H%Hlink. eapply link_rank; [done|by apply wf_relations|done]. }
    destruct (deep_rank (snd acc) (node_rank (nodes g)) Hrank) as [D0 DS].
    pose proof (validate_good (snd acc)) as Hv.
    specialize (Hv ltac:(intros x y (r & Hr & <- & <-)%Hlink; rewrite Hkeys;
                         by apply sound_ends, wf_relations)
      (fun l _ n => (node_rank (nodes g) n < l)%nat) D0 DS limit).
    specialize (Hv ltac:(intros n _; pose proof (node_rank_bound (nodes g) n); cbv beta; lia)).
    destruct (validate_acyclic limit (snd acc)) as [[]|e]; [done|].
    destruct Hv as (_ & x & Hx). by apply (rank_acyclic _ _ Hrank) in Hx.
Qed.
End GraphFacts.

(** ** The store *)
Module StoreFacts.
Import LineageStore AcyclicFacts GraphFacts.

(** The graph the store holds for a run *)
Definition graph_of (id : string * UUID) (ns : list (UUID * LineageNode)) (rels : list LineageRelation)
    : LineageGraph := {|
  LineageGraph.run_id := snd id; LineageGraph.tenant_id := fst id;
  LineageGraph.nodes := dict_values ns; LineageGraph.relations := rels |}.

(** Nodes are filed under their own ids and run. *)
Record nodes_ok (id : string * UUID) (ns : list (UUID * LineageNode)) : Prop := {
  ok_keys : NoDup (dict_keys ns);
  ok_filed k n : (k, n) ∈ ns -> LineageNode.node_id n = k /\ LineageNode.create n = Ok n /\
    LineageNode.tenant_id n = fst id /\ LineageNode.run_id n = snd id;
}.

Record store_ok (st : store) : Prop := {
  store_nodes id : nodes_ok id (nodes_of id st);
  store_graph id : relations_of id st <> [] -> well_formed (graph_of id (nodes_of id st) (relations_of id st));
  store_owner t1 t2 r : nodes_of (t1, r) st <> [] -> nodes_of (t2, r) st <> [] -> t1 = t2;
}.

Lemma keys_values id ns : nodes_ok id ns -> map LineageNode.node_id (dict_values ns) = dict_keys ns.
Proof.
  intros [_ Hf]. unfold dict_values, dict_keys. rewrite map_map. apply map_ext_in.
  intros [k n] Hin. apply list_elem_of_In in Hin. by destruct (Hf _ _ Hin).
Qed.

Lemma elem_values {V} (d : list (UUID * V)) v : v ∈ dict_values d <-> exists k, (k, v) ∈ d.
Proof.
  unfold dict_values. rewrite list_elem_of_fmap. split.
  - intros ([k w] & -> & H). by exists k.
  - intros [k H]. by exists (k, v).
Qed.

(** Sound relations stay sound when nodes are added or replaced by equal ones. *)
Lemma sound_mono ns ns' r :
  (forall n, n ∈ ns -> exists n', n' ∈ ns' /\ LineageNode.ref n' = LineageNode.ref n /\
                       LineageNode.kind n' = LineageNode.kind n) ->
  sound_relation ns r -> sound_relation ns' r.
Proof.
  intros H (s & o & Hs & Ho & Rs & Ro & Hk).
  destruct (H s Hs) as (s' & Hs' & Rs' & Ks), (H o Ho) as (o' & Ho' & Ro' & Ko).
  exists s', o'. rewrite Rs', Ro', Ks, Ko. done.
Qed.

Lemma nodes_graph id ns rels :
  nodes_ok id ns -> (forall r, r ∈ rels -> sound_relation (dict_values ns) r) ->
  NoDup (map LineageGraph.key_of rels) -> well_formed (graph_of id ns rels).
Proof.
  intros Hok Hs Hk. split; [| |exact Hs|exact Hk]; simpl.
  - intros n [k Hin]%elem_values. by apply (ok_filed _ _ Hok) in Hin as (_ & _ & Ht & Hr).
  - rewrite (keys_values _ _ Hok). apply Hok.
Qed.

Lemma nodes_of_set id v st rels id' :
  nodes_of id' {| nodes := <[id := v]> (nodes st); relations := rels |} =
  if decide (id = id') then v else nodes_of id' st.
Proof. unfold nodes_of. simpl. rewrite lookup_insert. by case_decide. Qed.

Lemma relations_of_set id v ns st id' :
  relations_of id' {| nodes := ns; relations := <[id := v]> (relations st) |} =
  if decide (id = id') then v else relations_of id' st.
Proof. unfold relations_of. simpl. rewrite lookup_insert. by case_decide. Qed.

(** Two scalars Python compares equal: the same value, or numbers ([bool], [int] or
    [float]) of one value, like [1], [True] and [1.0] *)
Definition same_number (x y : pyfloat) : Prop :=
  match x, y with
  | Finite p, Finite q => Qeq p q
  | PosInf, PosInf | NegInf, NegInf => True
  | _, _ => False
  end.

Definition same_scalar (v w : pyval) : Prop :=
  v = w \/ exists x y, as_number v = Some x /\ as_number w = Some y /\ same_number x y.

(** Two dictionaries Python compares equal: as many keys, each key of the first in the
    second with an equal scalar *)
Definition same_attributes (a b : list (string * pyval)) : Prop :=
  a = b \/ (length a = length b /\
           forall k v, (k, v) ∈ a -> exists w, dict_get k b = Some w /\ same_scalar v w).

(** [keeps n n']: the two differ at most in how equal attributes are written. *)
Record keeps (n n' : LineageNode) : Prop := {
  keeps_kind : LineageNode.kind n' = LineageNode.kind n;
  keeps_node_id : LineageNode.node_id n' = LineageNode.node_id n;
  keeps_run_id : LineageNode.run_id n' = LineageNode.run_id n;
  keeps_tenant : LineageNode.tenant_id n' = LineageNode.tenant_id n;
  keeps_digest : LineageNode.digest n' = LineageNode.digest n;
  keeps_recorded_at : LineageNode.recorded_at n' = LineageNode.recorded_at n;
  keeps_uri : LineageNode.external_uri n' = LineageNode.external_uri n;
  keeps_evidence : LineageNode.evidence n' = LineageNode.evidence n;
  keeps_detail : LineageNode.detail n' = LineageNode.detail n;
  keeps_attributes : same_attributes (LineageNode.attributes n) (LineageNode.attributes n');
}.

Lemma same_number_leb x y : float_leb x y && float_leb y x = true -> same_number x y.
Proof.
  destruct x as [p| | |], y as [q| | |]; cbn; try done. intros H. b2p. unfold Qeq. lia.
Qed.

Lemma same_number_trans x y z : same_number x y -> same_number y z -> same_number x z.
Proof.
  destruct x as [p| | |], y as [q| | |], z as [r| | |]; cbn; try done. intros H1 H2. by rewrite H1.
Qed.

Lemma same_scalar_trans u v w : same_scalar u v -> same_scalar v w -> same_scalar u w.
Proof.
  intros [->|(x & y & Hx & Hy & H1)] [<-|(y' & z & Hy' & Hz & H2)]; [by left|right; eauto..|].
  right. exists x, z. split_and!; [done..|]. rewrite Hy in Hy'. injection Hy' as <-.
  by eapply same_number_trans.
Qed.

Lemma same_scalar_eq v w : scalar_eq v w = true -> same_scalar v w.
Proof.
  unfold scalar_eq, same_scalar. destruct (as_number v) as [x|], (as_number w) as [y|]; try done.
  - intros H%same_number_leb. right. eauto.
  - intros H%bool_decide_eq_true. by left.
Qed.

Lemma same_attributes_trans a b c :
  same_attributes a b -> same_attributes b c -> same_attributes a c.
Proof.
  intros [->|[L1 H1]] [<-|[L2 H2]]; [by left|by right..|]. right. split; [congruence|].
  intros k u Hu. destruct (H1 k u Hu) as (v & Hv & S1).
  destruct (H2 k v (dict_get_elem _ _ _ Hv)) as (w & Hw & S2). eauto using same_scalar_trans.
Qed.

Lemma same_attributes_eq a b : dict_eq a b = true -> same_attributes a b.
Proof.
  unfold dict_eq. intros [Hl%Nat.eqb_eq Hf]%andb_true_iff. right. split; [done|].
  rewrite forallb_forall in Hf. intros k v Hin%list_elem_of_In. specialize (Hf _ Hin). simpl in Hf.
  destruct (dict_get k b) as [w|]; [|done]. eauto using same_scalar_eq.
Qed.

Lemma keeps_refl n : keeps n n.
Proof. split; try done. by left. Qed.

Lemma keeps_trans n1 n2 n3 : keeps n1 n2 -> keeps n2 n3 -> keeps n1 n3.
Proof.
  intros [] []. split; [congruence..|]. by eapply same_attributes_trans.
Qed.

(** A node equal to a recorded one keeps it. *)
Lemma eqb_keeps a b : LineageNode.eqb a b = true -> keeps a b.
Proof.
  unfold LineageNode.eqb. rewrite !andb_true_iff, !Z.eqb_eq, !bool_decide_eq_true.
  intros ((((((((E1 & E2) & E3) & E4) & E5) & E6) & E7) & E8) & E9).
  split; try done. { unfold LineageNode.kind. by rewrite E9. } by apply same_attributes_eq.
Qed.

(** What a call does to the nodes and relations of a run *)
Definition extends (st st' : store) : Prop :=
  (forall id k n, dict_get k (nodes_of id st) = Some n ->
     exists n', dict_get k (nodes_of id st') = Some n' /\ keeps n n') /\
  (forall id, relations_of id st `prefix_of` relations_of id st').

Lemma extends_refl st : extends st st.
Proof. split; [|done]. eauto using keeps_refl. Qed.

Lemma extends_trans st1 st2 st3 : extends st1 st2 -> extends st2 st3 -> extends st1 st3.
Proof.
  intros [N1 R1] [N2 R2]. split.
  - intros id k n H. destruct (N1 id k n H) as (n1 & H1 & K1).
    destruct (N2 id k n1 H1) as (n2 & H2 & K2). eauto using keeps_trans.
  - intros id. by transitivity (relations_of id st2).
Qed.

Lemma node_extends n ns :
  (forall m, dict_get (LineageNode.node_id n) ns = Some m -> LineageNode.eqb m n = true) ->
  forall k m, dict_get k ns = Some m ->
  exists m', dict_get k (dict_set (LineageNode.node_id n) n ns) = Some m' /\ keeps m m'.
Proof.
  intros He k m Hm. destruct (decide (LineageNode.node_id n = k)) as [<-|Hne].
  - exists n. rewrite dict_get_set_eq. split; [done|]. by apply eqb_keeps, He.
  - exists m. rewrite dict_get_set_ne by done. eauto using keeps_refl.
Qed.

Lemma owner_held t r st : held_elsewhere t r st = false ->
  forall t', nodes_of (t', r) st <> [] -> t' = t.
Proof.
  intros H t' Hne. destruct (decide (t' = t)) as [|Hd]; [done|]. exfalso.
  unfold held_elsewhere in H. apply not_true_iff_false in H. apply H. apply existsb_exists.
  unfold nodes_of in Hne. destruct (nodes st !! (t', r)) as [ns|] eqn:E; [|done].
  exists ((t', r), ns). split; [by apply list_elem_of_In, elem_of_map_to_list|]. simpl in *.
  by rewrite Z.eqb_refl, !bool_decide_false.
Qed.

Lemma record_node_step n st o st' :
  LineageNode.create n = Ok n -> store_ok st -> record_node n st = (o, st') ->
  store_ok st' /\ extends st st'.
Proof.
  intros Hc Hok H. unfold record_node, bind, get, guard, lift, require, modify in H.
  destruct (held_elsewhere _ _ st) eqn:Hh; simpl in H; [injection H as <- <-; by split; [|apply extends_refl]|].
  set (id := (LineageNode.tenant_id n, LineageNode.run_id n)) in *.
  destruct (match dict_get _ _ with Some _ => _ | None => _ end) eqn:He; simpl in H;
    [|injection H as <- <-; by split; [|apply extends_refl]].
  injection H as <- <-.
  assert (He' : forall m, dict_get (LineageNode.node_id n) (nodes_of id st) = Some m ->
                          LineageNode.eqb m n = true) by (intros m Hm; by rewrite Hm in He).
  pose proof (node_extends n (nodes_of id st) He') as Hx.
  assert (Hns : nodes_ok id (dict_set (LineageNode.node_id n) n (nodes_of id st))).
  { destruct (store_nodes _ Hok id) as [Hk Hf]. split; [by apply dict_set_NoDup|].
    intros k m [[-> ->]|Hin]%elem_of_dict_set; [done|by apply Hf]. }
  split.
  - split.
    + intros id'. rewrite nodes_of_set. case_decide; [by subst|apply Hok].
    + intros id' Hne. change (relations_of id' st <> []) in Hne.
      change (relations_of id' _) with (relations_of id' st). rewrite nodes_of_set.
      case_decide as Eid; [|by apply Hok]. subst id'.
      pose proof (store_graph _ Hok id Hne) as Hw.
      apply nodes_graph; [done| |apply Hw]. intros r Hr.
      eapply sound_mono; [|by apply (wf_relations _ Hw)].
      intros m [k Hm]%elem_values. pose proof (ok_keys _ _ (store_nodes _ Hok id)) as Hnd.
      destruct (Hx k m (elem_dict_get _ _ _ Hnd Hm)) as (m' & Hm' & [E1 E2 E3 E4 E5]).
      exists m'. unfold LineageNode.ref. rewrite E1, E2, E5. split_and!; [|done..]. apply elem_values. exists k. by apply dict_get_elem.
    + intros t1 t2 r. rewrite !nodes_of_set. pose proof (owner_held _ _ _ Hh) as Ho.
      unfold id. destruct (decide (_ = (t1, r))) as [E1|E1], (decide (_ = (t2, r))) as [E2|E2];
        intros H1 H2.
      * congruence.
      * injection E1 as <- <-. symmetry. by apply Ho.
      * injection E2 as <- <-. by apply Ho.
      * by eapply (store_owner _ Hok).
  - split; [|done]. intros id' k m Hm. rewrite nodes_of_set. case_decide as Eid; [|by eauto using keeps_refl].
    subst id'. by apply Hx.
Qed.

(** Building a run's graph succeeds exactly when it is well formed. *)
Lemma graph_spec limit id rels st :
  (8 <= limit)%nat -> nodes_ok id (nodes_of id st) -> nodes_of id st <> [] ->
  (forall g, graph limit (fst id) (snd id) rels st = Ok g <->
     g = graph_of id (nodes_of id st) rels /\ well_formed g).
Proof.
  intros Hl Hok Hne g. unfold graph. rewrite <- surjective_pairing.
  assert (Hstrip : NonBlankStr "tenant_id" (fst id) = Ok (fst id)).
  { destruct (nodes_of id st) as [|[k n] ns] eqn:E; [done|].
    destruct (ok_filed _ _ Hok k n ltac:(by left)) as (_ & Hc & Ht & _).
    unfold LineageNode.create in Hc. rewrite <- Ht.
    apply obind_Ok in Hc as (t & -> & Hc).
    apply obind_Ok in Hc as (d & _ & Hc). apply obind_Ok in Hc as (u & _ & Hc).
    apply obind_Ok in Hc as (x & _ & Hc). f_equal.
    apply (f_equal (fun o => match o with Ok m => LineageNode.tenant_id m | Raise _ => t end)) in Hc.
    exact Hc. }
  replace (match nodes_of id st with [] => Raise _ | _ :: _ => _ end)
    with (LineageGraph.create limit (graph_of id (nodes_of id st) rels)) by (by destruct (nodes_of id st)).
  unfold LineageGraph.create. simpl. rewrite Hstrip. simpl.
  change {| LineageGraph.run_id := _ |} with (graph_of id (nodes_of id st) rels). split.
  - intros H. apply obind_Ok in H as ([] & Hv & [= <-]). split; [done|].
    by apply (validate_graph_spec limit).
  - intros [-> Hw]. apply (validate_graph_spec limit) in Hw; [|done]. by rewrite Hw.
Qed.

Lemma record_relation_step limit t run r st o st' :
  (8 <= limit)%nat -> store_ok st -> record_relation limit t run r st = (o, st') ->
  store_ok st' /\ extends st st'.
Proof.
  intros Hl Hok H. unfold record_relation, bind, get, lift in H.
  destruct (List.find _ _) as [ex|].
  { unfold guard, lift in H. injection H as _ <-. by split; [|apply extends_refl]. }
  destruct (graph limit t run _ st) as [g|e] eqn:Hg; [|injection H as _ <-; by split; [|apply extends_refl]].
  unfold modify in H. injection H as _ <-.
  assert (Hne : nodes_of (t, run) st <> []).
  { unfold graph in Hg. by destruct (nodes_of (t, run) st). }
  apply (graph_spec limit (t, run)) in Hg as [-> Hw]; [|done|apply Hok|done].
  simpl. split.
  - split.
    + intros id. change (nodes_of id _) with (nodes_of id st). apply Hok.
    + intros id. rewrite relations_of_set. change (nodes_of id {| nodes := _ |}) with (nodes_of id st).
      case_decide as E; [subst id; by intros _|apply Hok].
    + intros t1 t2 r'. change (nodes_of ?i {| nodes := _ |}) with (nodes_of i st). apply Hok.
  - split; [by eauto using keeps_refl|]. intros id. rewrite relations_of_set. case_decide as E; [|done].
    subst id. by eexists.
Qed.

Lemma store_step_ok limit st st' :
  (8 <= limit)%nat -> store_ok st -> step limit st st' -> store_ok st' /\ extends st st'.
Proof.
  intros Hl Hok Hs. revert Hok. destruct Hs as [n s o s' Hc H|t run r s o s' Hc H]; intros Hok.
  - by eapply record_node_step.
  - by eapply record_relation_step.
Qed.

Lemma store_empty_ok : store_ok empty.
Proof.
  split.
  - intros id. split; [constructor|]. intros k n Hin. by apply elem_of_nil in Hin.
  - done.
  - done.
Qed.

Lemma store_reach limit st st' :
  (8 <= limit)%nat -> store_ok st -> rtc (step limit) st st' -> store_ok st' /\ extends st st'.
Proof.
  intros Hl Hok H. induction H as [st|st s1 st' Hs _ IH]; [by split; [|apply extends_refl]|].
  destruct (store_step_ok _ _ _ Hl Hok Hs) as [Hok1 Hx]. destruct (IH Hok1) as [Hok2 Hx2].
  split; [done|]. by eapply extends_trans.
Qed.
End StoreFacts.

(** ** The policy *)
Module PolicyFacts.
Import LineagePolicy GraphFacts.

Section Policy.
Context (g : LineageGraph) (Hw : well_formed g).

(** [a] and [b] are nodes of the graph with a relation of the type between them. *)
Definition linked (ty : LineageRelationType) (a b : LineageNode) : Prop :=
  a ∈ LineageGraph.nodes g /\ b ∈ LineageGraph.nodes g /\
  exists r, r ∈ LineageGraph.relations g /\ LineageRelation.relation r = ty /\
    LineageRelation.subject r = LineageNode.ref a /\ LineageRelation.object r = LineageNode.ref b.

Lemma by_id_nodes : by_id g = map node_key (LineageGraph.nodes g).
Proof.
  unfold by_id. pose proof (wf_nodes _ Hw) as Hnd.
  enough (forall ns d, NoDup (dict_keys d ++ map LineageNode.node_id ns) ->
    foldl (fun d n => dict_set (LineageNode.node_id n) n d) d ns = d ++ map node_key ns) as H by (by apply H).
  induction ns as [|n ns IH]; intros d H; simpl; [by rewrite app_nil_r|].
  simpl in H. rewrite dict_set_new, IH, <- app_assoc; [done| |].
  - unfold dict_keys in *. rewrite map_app, <- app_assoc. exact H.
  - apply NoDup_app in H as (_ & H & _). intros Hin. apply (H _ Hin). by left.
Qed.

Lemma node_at_ref r s :
  s ∈ LineageGraph.nodes g -> LineageNode.ref s = r ->
  node_at (by_id g) (LineageNodeRef.node_id r) = Ok s.
Proof.
  intros Hs <-. unfold node_at. rewrite by_id_nodes.
  cbn [LineageNode.ref LineageNodeRef.node_id].
  by rewrite (proj2 (node_lookup _ (LineageNode.node_id s) s (wf_nodes _ Hw))).
Qed.

(** [collect] finds the nodes of the expected kind at the near ends, in order. *)
Lemma near_nodes_spec ty far near r k rels :
  (forall x, x ∈ rels -> exists c, c ∈ LineageGraph.nodes g /\ LineageNode.ref c = near x) ->
  exists cs, collect (by_id g) ty far near r k rels = Ok cs /\
    forall c, c ∈ cs -> LineageNode.kind c = k /\ c ∈ LineageGraph.nodes g /\
      exists x, x ∈ rels /\ LineageRelation.relation x = ty /\ far x = r /\ near x = LineageNode.ref c.
Proof.
  induction rels as [|x rels IH]; intros Hn; simpl.
  - exists []. split; [done|]. intros c Hc. by apply elem_of_nil in Hc.
  - destruct IH as (cs & Hcs & Hall); [intros y Hy; apply Hn; by right|].
    destruct (Hn x ltac:(by left)) as (c & Hc & Hr).
    assert (Hrest : forall d, d ∈ cs -> LineageNode.kind d = k /\ d ∈ LineageGraph.nodes g /\
      exists y, y ∈ x :: rels /\ LineageRelation.relation y = ty /\ far y = r /\ near y = LineageNode.ref d).
    { intros d Hd. destruct (Hall d Hd) as (H1 & H2 & y & Hy & H3). split; [done|]. split; [done|].
      exists y. split; [by right|done]. }
    destruct (bool_decide (LineageRelation.relation x = ty) && bool_decide (far x = r)) eqn:E;
      [|by exists cs].
    b2p. rewrite (node_at_ref _ c Hc Hr), Hcs. simpl.
    case_bool_decide as Hk; eexists; (split; [done|]); [|done].
    intros d [->|Hd]%elem_of_cons; [|by apply Hrest]. split; [done|]. split; [done|].
    exists x. split; [by left|]. by split_and!.
Qed.

Lemma choose_in p cs n : choose p cs = Some n -> n ∈ cs.
Proof.
  unfold choose. destruct (List.find p cs) as [m|] eqn:E.
  - intros [= ->]. apply find_some in E as [E _]. by apply list_elem_of_In.
  - destruct cs; [done|]. intros [= ->]. by left.
Qed.

Lemma subject_of_spec ty o k p :
  (forall n, o = Some n -> n ∈ LineageGraph.nodes g) ->
  exists m, subject_of g (by_id g) ty o k p = Ok m /\
    forall s, m = Some s -> LineageNode.kind s = k /\ s ∈ LineageGraph.nodes g /\
      exists n, o = Some n /\ linked ty s n.
Proof.
  intros Ho. unfold subject_of. destruct o as [n|]; [|by eexists].
  destruct (near_nodes_spec ty LineageRelation.object LineageRelation.subject (LineageNode.ref n) k
              (LineageGraph.relations g)) as (cs & -> & Hcs).
  { intros x Hx. destruct (wf_relations _ Hw x Hx) as (s & o & Hs & _ & Rs & _). by exists s. }
  simpl. eexists. split; [done|]. intros s Hs%choose_in.
  destruct (Hcs s Hs) as (Hk & Hin & x & Hx & H1 & H2 & H3). split; [done|]. split; [done|].
  exists n. split; [done|]. split; [done|]. split; [by apply Ho|]. by exists x.
Qed.

Lemma object_of_spec ty o k p :
  (forall n, o = Some n -> n ∈ LineageGraph.nodes g) ->
  exists m, object_of g (by_id g) ty o k p = Ok m /\
    forall s, m = Some s -> LineageNode.kind s = k /\ s ∈ LineageGraph.nodes g /\
      exists n, o = Some n /\ linked ty n s.
Proof.
  intros Ho. unfold object_of. destruct o as [n|]; [|by eexists].
  destruct (near_nodes_spec ty LineageRelation.subject LineageRelation.object (LineageNode.ref n) k
              (LineageGraph.relations g)) as (cs & -> & Hcs).
  { intros x Hx. destruct (wf_relations _ Hw x Hx) as (s & o & _ & Ho' & _ & Ro & _). by exists o. }
  simpl. eexists. split; [done|]. intros s Hs%choose_in.
  destruct (Hcs s Hs) as (Hk & Hin & x & Hx & H1 & H2 & H3). split; [done|]. split; [done|].
  exists n. split; [done|]. split; [by apply Ho|]. split; [done|]. by exists x.
Qed.

(** The verdicts of [assess], in order *)
Definition marks (l : list (bool * Requirement)) (acc : list Requirement * list Requirement)
    : list Requirement * list Requirement := foldl (fun acc '(c, r) => mark c r acc) acc l.

Lemma marks_missing l acc : snd (marks l acc) = [] <-> snd acc = [] /\ Forall (fun x => fst x = true) l.
Proof.
  revert acc. induction l as [|[c r] l IH]; intros acc.
  - split; [|by intros [? _]]. intros H. by split; [|constructor].
  - change (marks ((c, r) :: l) acc) with (marks l (mark c r acc)). rewrite IH, Forall_cons. simpl. unfold mark. destruct c; simpl; [naive_solver|].
    split; [intros [H _]; by apply app_eq_nil in H as [_ [=]]|by intros (_ & [=] & _)].
Qed.

Lemma marks_perm l acc :
  fst (marks l acc) ++ snd (marks l acc) ≡ₚ fst acc ++ snd acc ++ map snd l.
Proof.
  revert acc. induction l as [|[c r] l IH]; intros acc; [simpl; by rewrite app_nil_r|].
  change (marks ((c, r) :: l) acc) with (marks l (mark c r acc)). rewrite IH. unfold mark. destruct c; simpl.
  - rewrite <- !app_assoc. simpl. apply Permutation_app_head. by rewrite Permutation_middle.
  - by rewrite <- !app_assoc.
Qed.

(** [m] is empty or an end of a relation from or to what [o] holds. *)
Definition subject_step (ty : LineageRelationType) (o : option LineageNode) (k : LineageNodeKind)
    (m : option LineageNode) : Prop :=
  forall s, m = Some s -> LineageNode.kind s = k /\ s ∈ LineageGraph.nodes g /\
    exists n, o = Some n /\ linked ty s n.
Definition object_step (ty : LineageRelationType) (o : option LineageNode) (k : LineageNodeKind)
    (m : option LineageNode) : Prop :=
  forall s, m = Some s -> LineageNode.kind s = k /\ s ∈ LineageGraph.nodes g /\
    exists n, o = Some n /\ linked ty n s.

(** The nodes [assess] finds *)
Record chain (obs : LineageNode) (dep act auth bld src gen ver spec dec rec : option LineageNode)
    : Prop := {
  c_dep : subject_step OBSERVED_AS (Some obs) DEPLOYMENT dep;
  c_act : subject_step DEPLOYED_AS dep AGENT_ACTION act;
  c_auth : subject_step AUTHORIZED_ACTION act AUTHORIZATION auth;
  c_bld : subject_step AUTHORIZED_BY auth BUILD_ARTIFACT bld;
  c_src : subject_step BUILT_AS bld SOURCE_TREE src;
  c_gen : subject_step PRODUCED src GENERATOR_CONFIGURATION gen;
  c_ver : object_step VERIFIED_BY src VERIFICATION ver;
  c_spec : object_step GENERATED_FROM gen SPECIFICATION_REVISION spec;
  c_dec : object_step GENERATED_FROM gen DECISION_SET dec;
  c_rec : object_step COMPARED_BY (Some obs) RECONCILIATION rec;
}.

Definition verdicts (dep act auth bld src gen ver spec dec rec : option LineageNode)
    : list (bool * Requirement) := [
  (present succeeded dep, SUCCESSFUL_DEPLOYMENT); (present succeeded act, SUCCESSFUL_AGENT_ACTION);
  (present authorized auth, REQ_AUTHORIZATION); (present succeeded bld, SUCCESSFUL_BUILD);
  (present anything src, REQ_SOURCE_TREE); (present succeeded gen, SUCCESSFUL_GENERATION);
  (present passed ver, PASSING_VERIFICATION); (present anything spec, REQ_SPECIFICATION_REVISION);
  (present anything dec, REQ_DECISION_SET); (present matched rec, MATCHED_RECONCILIATION)].

Lemma step_nodes (P : Prop) ty o k m n : subject_step ty o k m \/ object_step ty o k m ->
  m = Some n -> n ∈ LineageGraph.nodes g.
Proof. intros [H|H] E; by destruct (H n E) as (_ & ? & _). Qed.

(** One lookup of [assess]: names its answer [m] and its fact [H]. *)
Tactic Notation "look" constr(spec) constr(Hprev) ident(m) ident(H) :=
  edestruct spec as (m & -> & H);
  [solve [intros ? E; first [by apply Hprev|by destruct (Hprev _ E) as (_ & ? & _)]]|cbn [obind]].

Lemma assess_observed_spec obs :
  obs ∈ LineageGraph.nodes g ->
  exists dep act auth bld src gen ver spec dec rec,
    chain obs dep act auth bld src gen ver spec dec rec /\
    let acc := marks (verdicts dep act auth bld src gen ver spec dec rec)
                 ([REQ_PRODUCTION_OBSERVATION], []) in
    assess_observed g (by_id g) obs = Ok {|
      observation := LineageNode.ref obs; complete := bool_decide (snd acc = []);
      satisfied_requirements := fst acc; missing_requirements := snd acc;
      lineage_path := map LineageNode.ref (omap (fun o => o)
        [spec; dec; gen; src; ver; bld; auth; act; dep; Some obs; rec]) |}.
Proof.
  intros Hobs. assert (Ho : forall n, Some obs = Some n -> n ∈ LineageGraph.nodes g) by by intros n [= <-].
  unfold assess_observed.
  look (subject_of_spec OBSERVED_AS (Some obs) DEPLOYMENT succeeded) Ho dep H1.
  look (subject_of_spec DEPLOYED_AS dep AGENT_ACTION succeeded) H1 act H2.
  look (subject_of_spec AUTHORIZED_ACTION act AUTHORIZATION authorized) H2 auth H3.
  look (subject_of_spec AUTHORIZED_BY auth BUILD_ARTIFACT succeeded) H3 bld H4.
  look (subject_of_spec BUILT_AS bld SOURCE_TREE anything) H4 src H5.
  look (subject_of_spec PRODUCED src GENERATOR_CONFIGURATION succeeded) H5 gen H6.
  look (object_of_spec VERIFIED_BY src VERIFICATION passed) H5 ver H7.
  look (object_of_spec GENERATED_FROM gen SPECIFICATION_REVISION anything) H6 spec H8.
  look (object_of_spec GENERATED_FROM gen DECISION_SET anything) H6 dec H9.
  look (object_of_spec COMPARED_BY (Some obs) RECONCILIATION matched) Ho rec H10.
  exists dep, act, auth, bld, src, gen, ver, spec, dec, rec. split; [by split|reflexivity].
Qed.

Lemma present_Some c o : present c o = true <-> exists n, o = Some n /\ c n = true.
Proof. destruct o; simpl; naive_solver. Qed.

(** When every verdict is positive, the nodes found are all there and linked. *)
Lemma complete_chain obs dep act auth bld src gen ver spec dec rec :
  chain obs dep act auth bld src gen ver spec dec rec ->
  Forall (fun x => fst x = true) (verdicts dep act auth bld src gen ver spec dec rec) ->
  exists spec' dec' gen' src' ver' bld' auth' act' dep' rec',
    map LineageNode.ref (omap (fun o => o)
      [spec; dec; gen; src; ver; bld; auth; act; dep; Some obs; rec]) =
      map LineageNode.ref [spec'; dec'; gen'; src'; ver'; bld'; auth'; act'; dep'; obs; rec'] /\
    linked GENERATED_FROM gen' spec' /\ LineageNode.kind spec' = SPECIFICATION_REVISION /\
    linked GENERATED_FROM gen' dec' /\ LineageNode.kind dec' = DECISION_SET /\
    linked PRODUCED gen' src' /\ succeeded gen' = true /\
    linked VERIFIED_BY src' ver' /\ passed ver' = true /\
    linked BUILT_AS src' bld' /\ succeeded bld' = true /\
    linked AUTHORIZED_BY bld' auth' /\ authorized auth' = true /\
    linked AUTHORIZED_ACTION auth' act' /\ succeeded act' = true /\
    linked DEPLOYED_AS act' dep' /\ succeeded dep' = true /\
    linked OBSERVED_AS dep' obs /\ linked COMPARED_BY obs rec' /\ matched rec' = true.
Proof.
  intros [C1 C2 C3 C4 C5 C6 C7 C8 C9 C10] Hv. unfold verdicts in Hv.
  repeat match goal with
  | H : Forall _ (_ :: _) |- _ => apply Forall_cons in H as [? H]
  | H : Forall _ [] |- _ => clear H
  | H : fst (present _ _, _) = true |- _ => apply present_Some in H as (? & -> & ?)
  end.
  repeat match goal with
  | H : subject_step _ _ _ (Some _) |- _ => destruct (H _ eq_refl) as (? & ? & ? & ? & ?); clear H
  | H : object_step _ _ _ (Some _) |- _ => destruct (H _ eq_refl) as (? & ? & ? & ? & ?); clear H
  end.
  simplify_eq. do 10 eexists. split; [reflexivity|]. by split_and!.
Qed.
End Policy.
End PolicyFacts.

Module LineageProperties.
Import AcyclicFacts GraphFacts StoreFacts PolicyFacts.

(** C37: the cycle check is exact.  On adjacency lists whose targets are all keys, with
    a recursion limit above their number, the depth-first search returns exactly when
    no node reaches itself, and otherwise raises the validation error and no other:
    it terminates and never runs into a missing key or the recursion limit. *)
Theorem acyclic_check_exact (adj : list (UUID * list UUID)) limit :
  closed adj -> (length adj < limit)%nat ->
  (LineageGraph.validate_acyclic limit adj = Ok tt <-> forall x, ~ tc (edge adj) x x) /\
  (LineageGraph.validate_acyclic limit adj <> Ok tt ->
   LineageGraph.validate_acyclic limit adj = Raise cyclic).
Proof.
  intros Hc Hl. destruct (deep_size adj) as [D0 DS].
  pose proof (validate_good adj Hc
    (fun l vg _ => (size (list_to_set (dict_keys adj) ∖ vg : gset UUID) < l)%nat) D0 DS limit) as Hv.
  specialize (Hv ltac:(intros n _; cbv beta; rewrite difference_empty_L;
    pose proof (size_keys (dict_keys adj)) as Hle;
    unfold dict_keys in *; rewrite length_map in Hle; lia)).
  destruct (LineageGraph.validate_acyclic limit adj) as [[]|e].
  - split; [|done]. by split.
  - destruct Hv as [-> [x Hx]]. split; [|done]. split; [done|]. intros H. by destruct (H x).
Qed.

(** C35: what a lineage graph is.  With any recursion limit of at least eight frames,
    [validate_graph] accepts exactly the well-formed graphs: every node belongs to the
    graph's run and tenant, node ids are unique, every relation joins existing nodes
    by their exact references with a pair of kinds its type allows, and no relation
    is repeated.  Such a graph has no cycle, so the final check never refuses one. *)
Theorem graph_check_exact limit g :
  (8 <= limit)%nat ->
  (LineageGraph.validate_graph limit g = Ok tt <-> well_formed g) /\
  (well_formed g -> forall x, ~ tc (link (LineageGraph.relations g)) x x).
Proof. intros Hl. split; [by apply validate_graph_spec|apply well_formed_acyclic]. Qed.

(** C36: the lineage store never loses or breaks a graph.  From the empty store, by any
    sequence of calls: reading a run with nodes gives the well-formed graph of exactly
    the recorded nodes and relations, and one without nodes a [KeyError]; no run has
    nodes of two tenants; and whatever is recorded later, a recorded node keeps its
    kind, ids, digest, instant, URI, evidence and the fields of its kind, exactly, and
    its attributes up to Python's equality ([1], [True] and [1.0] are one value), and
    the recorded relations stay, in order. *)
Theorem lineage_store_sound limit st st' tenant run :
  (8 <= limit)%nat ->
  rtc (LineageStore.step limit) LineageStore.empty st ->
  rtc (LineageStore.step limit) st st' ->
  (LineageStore.nodes_of (tenant, run) st <> [] ->
     let g := graph_of (tenant, run) (LineageStore.nodes_of (tenant, run) st)
                (LineageStore.relations_of (tenant, run) st) in
     LineageStore.get_graph limit tenant run st = Ok g /\ well_formed g /\
     forall other, LineageStore.nodes_of (other, run) st <> [] -> other = tenant) /\
  (LineageStore.nodes_of (tenant, run) st = [] ->
     exists k, LineageStore.get_graph limit tenant run st = Raise (KeyError k)) /\
  extends st st'.
Proof.
  intros Hl H1 H2. destruct (store_reach _ _ _ Hl store_empty_ok H1) as [Hok _].
  destruct (store_reach _ _ _ Hl Hok H2) as [_ Hx]. split_and!; [| |done].
  - intros Hne. pose proof (store_nodes _ Hok (tenant, run)) as Hns.
    assert (Hw : well_formed (graph_of (tenant, run) (LineageStore.nodes_of (tenant, run) st)
                   (LineageStore.relations_of (tenant, run) st))).
    { destruct (decide (LineageStore.relations_of (tenant, run) st = [])) as [E|E]; [|by apply Hok].
      rewrite E. apply nodes_graph; [done| |constructor]. intros r Hr. by apply elem_of_nil in Hr. }
    split_and!; [by apply (graph_spec limit (tenant, run))|done|].
    intros other Ho. by eapply (store_owner _ Hok).
  - intros E. unfold LineageStore.get_graph, LineageStore.graph. rewrite E. eauto.
Qed.

(** C34: accepted production state has a complete provenance.  On a well-formed graph,
    [assess] returns for the id of any production observation, with each of the eleven
    requirements either satisfied or missing; and when [enforce] accepts, the graph
    holds a chain from a specification and a decision set through a successful
    generation, its source tree with a passing verification, a successful build, a
    granted authorization, a successful action and a successful deployment to the
    observation and a matching reconciliation, joined by relations of the right types,
    and the reported path is that chain. *)
Theorem enforced_lineage_complete g id obs :
  well_formed g -> obs ∈ LineageGraph.nodes g -> LineageNode.node_id obs = id ->
  LineageNode.kind obs = PRODUCTION_OBSERVATION ->
  exists a, LineagePolicy.assess g (inl id) = Ok a /\
    length (LineagePolicy.satisfied_requirements a ++ LineagePolicy.missing_requirements a) = 11%nat /\
    NoDup (LineagePolicy.satisfied_requirements a ++ LineagePolicy.missing_requirements a) /\
    (LineagePolicy.complete a = false ->
       LineagePolicy.enforce g (inl id) = Raise (IncompleteLineageError
         (map LineagePolicy.Requirement_value (LineagePolicy.missing_requirements a)))) /\
    (LineagePolicy.complete a = true ->
       LineagePolicy.enforce g (inl id) = Ok a /\
       exists spec dec gen src ver bld auth act dep rec,
         LineagePolicy.lineage_path a =
           map LineageNode.ref [spec; dec; gen; src; ver; bld; auth; act; dep; obs; rec] /\
         linked g GENERATED_FROM gen spec /\ LineageNode.kind spec = SPECIFICATION_REVISION /\
         linked g GENERATED_FROM gen dec /\ LineageNode.kind dec = DECISION_SET /\
         linked g PRODUCED gen src /\ LineagePolicy.succeeded gen = true /\
         linked g VERIFIED_BY src ver /\ LineagePolicy.passed ver = true /\
         linked g BUILT_AS src bld /\ LineagePolicy.succeeded bld = true /\
         linked g AUTHORIZED_BY bld auth /\ LineagePolicy.authorized auth = true /\
         linked g AUTHORIZED_ACTION auth act /\ LineagePolicy.succeeded act = true /\
         linked g DEPLOYED_AS act dep /\ LineagePolicy.succeeded dep = true /\
         linked g OBSERVED_AS dep obs /\
         linked g COMPARED_BY obs rec /\ LineagePolicy.matched rec = true).
Proof.
  intros Hw Hobs Hid Hkind. unfold LineagePolicy.assess, LineagePolicy.enforce, LineagePolicy.assess.
  simpl. rewrite (by_id_nodes g Hw).
  rewrite (proj2 (node_lookup _ id obs (wf_nodes _ Hw))) by done.
  rewrite bool_decide_true by done. simpl. rewrite <- (by_id_nodes g Hw).
  destruct (assess_observed_spec g Hw obs Hobs) as
    (dep & act & auth & bld & src & gen & ver & spec & dec & rec & Hch & ->).
  set (vs := verdicts _ _ _ _ _ _ _ _ _ _). cbn [obind LineagePolicy.complete].
  pose proof (marks_perm vs ([LineagePolicy.REQ_PRODUCTION_OBSERVATION], [])) as Hp.
  pose proof (marks_missing vs ([LineagePolicy.REQ_PRODUCTION_OBSERVATION], [])) as Hm.
  destruct (marks vs _) as [sat mis]. simpl in Hp, Hm.
  eexists. split; [reflexivity|]. cbn [LineagePolicy.satisfied_requirements
    LineagePolicy.missing_requirements LineagePolicy.complete LineagePolicy.lineage_path].
  split; [by rewrite Hp|]. split; [rewrite Hp; by apply (bool_decide_unpack _)|].
  split; [by intros ->|]. intros Hc. rewrite Hc. split; [done|].
  apply bool_decide_eq_true in Hc. apply Hm in Hc as [_ Hc].
  by apply complete_chain.
Qed.

(** A complete provenance, for the instances *)
Definition w_digest : string := "ba7816bf8f01cfea414140de5dae2223b00361a396177a9cb410ff61f20015ad".

Definition w_node (id : UUID) (d : NodeDetail) : LineageNode := {|
  LineageNode.node_id := id; LineageNode.run_id := 12; LineageNode.tenant_id := "acme";
  LineageNode.digest := w_digest; LineageNode.recorded_at := 0; LineageNode.external_uri := None;
  LineageNode.evidence := []; LineageNode.attributes := [("tier", PInt 1)]; LineageNode.detail := d |}.

Definition w_nodes : list LineageNode := [
  w_node 1 (SpecificationRevisionNode "s" "1" w_digest); w_node 2 (DecisionSetNode "d" "1");
  w_node 3 (GeneratorConfigurationNode "g" "1" w_digest None None true);
  w_node 4 (SourceTreeNode None None); w_node 5 (VerificationNode "v" "1" w_digest w_digest PASSED);
  w_node 6 (BuildArtifactNode "b" "ci" true); w_node 7 (AuthorizationNode w_digest w_digest None true);
  w_node 8 (AgentActionNode 80 w_digest "sa" true); w_node 9 (DeploymentNode "x" "prod" "web" 5 true);
  w_node 10 (ProductionObservationNode 100 "prod" "watch" 6);
  w_node 11 (ReconciliationNode 110 "rec" w_digest MATCHED)].

Definition w_link (ty : LineageRelationType) (a b : UUID) : LineageRelation := {|
  LineageRelation.relation := ty;
  LineageRelation.subject := LineageNode.ref (nth (Z.to_nat (a - 1)) w_nodes (w_node 0 (SourceTreeNode None None)));
  LineageRelation.object := LineageNode.ref (nth (Z.to_nat (b - 1)) w_nodes (w_node 0 (SourceTreeNode None None)));
  LineageRelation.recorded_at := 1; LineageRelation.evidence := [] |}.

Definition w_links : list LineageRelation := [
  w_link GENERATED_FROM 3 1; w_link GENERATED_FROM 3 2; w_link PRODUCED 3 4; w_link VERIFIED_BY 4 5;
  w_link BUILT_AS 4 6; w_link AUTHORIZED_BY 6 7; w_link AUTHORIZED_ACTION 7 8; w_link DEPLOYED_AS 8 9;
  w_link OBSERVED_AS 9 10; w_link COMPARED_BY 10 11].

Definition w_graph : LineageGraph := {|
  LineageGraph.run_id := 12; LineageGraph.tenant_id := "acme"; LineageGraph.nodes := w_nodes;
  LineageGraph.relations := w_links |}.

Lemma w_graph_wf : well_formed w_graph.
Proof. apply (validate_graph_spec 8); [lia|]. vm_compute. reflexivity. Qed.

Lemma acyclic_check_exact_witness :
  LineageGraph.validate_acyclic 3 [(1, [2]); (2, [1])] = Raise cyclic.
Proof.
  apply (fun Hc Hl => proj2 (acyclic_check_exact [(1, [2]); (2, [1])] 3 Hc Hl)).
  - intros a b (ts & E & Hb). simpl in E. repeat case_decide; simplify_eq; set_solver.
  - simpl. lia.
  - vm_compute. discriminate.
Defined.

Lemma graph_check_exact_witness : LineageGraph.validate_graph 8 w_graph = Ok tt.
Proof.
  destruct (graph_check_exact 8 w_graph ltac:(lia)) as [H _]. apply H. exact w_graph_wf.
Defined.

Lemma enforced_lineage_complete_witness :
  is_ok (LineagePolicy.enforce w_graph (inl 10)) = true.
Proof.
  destruct (enforced_lineage_complete w_graph 10 (w_node 10 (ProductionObservationNode 100 "prod" "watch" 6)))
    as (a & Ha & _ & _ & _ & Hc).
  - exact w_graph_wf.
  - simpl. set_solver.
  - reflexivity.
  - reflexivity.
  - destruct Hc as [Hc _]; [|by rewrite Hc].
    revert Ha. vm_compute. by intros [= <-].
Defined.

Definition w_store : LineageStore.store :=
  snd (LineageStore.record_relation 8 "acme" 12 (w_link OBSERVED_AS 9 10)
    (snd (LineageStore.record_node (w_node 10 (ProductionObservationNode 100 "prod" "watch" 6))
      (snd (LineageStore.record_node (w_node 9 (DeploymentNode "x" "prod" "web" 5 true))
         LineageStore.empty))))).

Lemma lineage_store_sound_witness :
  exists g, LineageStore.get_graph 8 "acme" 12 w_store = Ok g /\ well_formed g /\
    length (LineageGraph.relations g) = 1%nat.
Proof.
  assert (Hr : rtc (LineageStore.step 8) LineageStore.empty w_store).
  { eapply rtc_l; [eapply (LineageStore.step_node 8 (w_node 9 (DeploymentNode "x" "prod" "web" 5 true)));
      [vm_compute; reflexivity|apply surjective_pairing]|].
    eapply rtc_l; [eapply (LineageStore.step_node 8 (w_node 10 (ProductionObservationNode 100 "prod" "watch" 6)));
      [vm_compute; reflexivity|apply surjective_pairing]|].
    eapply rtc_l; [eapply (LineageStore.step_relation 8 "acme" 12 (w_link OBSERVED_AS 9 10));
      [vm_compute; reflexivity|apply surjective_pairing]|apply rtc_refl]. }
  destruct (lineage_store_sound 8 w_store w_store "acme" 12 ltac:(lia) Hr (rtc_refl _ _)) as [H _].
  destruct H as (H1 & H2 & _); [vm_compute; discriminate|].
  eexists. split; [exact H1|]. split; [exact H2|]. vm_compute. reflexivity.
Defined.
End LineageProperties.
