(* ===== verification/Reconciliation.v ===== *)
(** * Reconciliation of controlled intent with external evidence

    Models [contracts/reconciliation.py], [reconciliation/engine.py] and the
    runtime's [reconciliation.py]: the batch of evidence a source reports, the
    engine that compares it with the expected actions, the assessment of
    production completeness, [InMemoryReconciliationStore] and
    [ReconciliationCoordinator].

    [timedelta.total_seconds()] is compared as the exact number of microseconds:
    below 2^33 seconds the binary float it returns is on the same side of any
    integer.  The store's calls never suspend, so each is one step; [collect] of a
    source is an argument, the outcome of the awaited call. *)

From S2P Require Import Prelude Canonical Contracts.

(** ** contracts/reconciliation.py *)
Module Severity.
Inductive ReconciliationSeverity : Set := INFO | LOW | MEDIUM | HIGH | CRITICAL.

Definition value (e : ReconciliationSeverity) : string :=
  match e with
  | INFO => "info" | LOW => "low" | MEDIUM => "medium" | HIGH => "high" | CRITICAL => "critical"
  end.
End Severity.
Abbreviation ReconciliationSeverity := Severity.ReconciliationSeverity.

Module Health.
Inductive ReconciliationSourceHealth : Set := HEALTHY | STALE | UNAVAILABLE | CONFLICTING.

#[export] Instance ReconciliationSourceHealth_eq_dec : EqDecision ReconciliationSourceHealth.
Proof. solve_decision. Defined.

Definition value (e : ReconciliationSourceHealth) : string :=
  match e with
  | HEALTHY => "healthy" | STALE => "stale" | UNAVAILABLE => "unavailable"
  | CONFLICTING => "conflicting"
  end.
End Health.
Abbreviation ReconciliationSourceHealth := Health.ReconciliationSourceHealth.
Export (hints) Health.

(** [PositiveInt] *)
Definition PositiveInt (field : string) (n : Z) : outcome Z :=
  require (0 <? n) (ValidationError field) ;~ Ok n.

Module ExpectedAction.
Record ExpectedExternalAction : Type := {
  action_id : UUID;
  run_id : UUID;
  tenant_id : string;
  source_system : string;
  expected_state_digest : option string;
  external_reference : option string;
}.

Definition create (r : ExpectedExternalAction) : outcome ExpectedExternalAction :=
  t <~ NonBlankStr "tenant_id" (tenant_id r) ;;
  s <~ NonBlankStr "source_system" (source_system r) ;;
  d <~ optional (Sha256 "expected_state_digest") (expected_state_digest r) ;;
  x <~ optional (NonBlankStr "external_reference") (external_reference r) ;;
  Ok {| action_id := action_id r; run_id := run_id r; tenant_id := t; source_system := s;
        expected_state_digest := d; external_reference := x |}.
End ExpectedAction.
Abbreviation ExpectedExternalAction := ExpectedAction.ExpectedExternalAction.

Module ExtObservation.
Record ExternalStateObservation : Type := {
  observation_id : string;
  tenant_id : string;
  source_system : string;
  observed_at : datetime;
  state_digest : string;
  action_id : option UUID;
  run_id : option UUID;
  external_reference : option string;
  state : list (string * pyval);
  evidence : list ArtifactRef;
}.

Definition create (r : ExternalStateObservation) : outcome ExternalStateObservation :=
  i <~ NonBlankStr "observation_id" (observation_id r) ;;
  t <~ NonBlankStr "tenant_id" (tenant_id r) ;;
  s <~ NonBlankStr "source_system" (source_system r) ;;
  d <~ Sha256 "state_digest" (state_digest r) ;;
  x <~ optional (NonBlankStr "external_reference") (external_reference r) ;;
  Ok {| observation_id := i; tenant_id := t; source_system := s; observed_at := observed_at r;
        state_digest := d; action_id := action_id r; run_id := run_id r;
        external_reference := x; state := state r; evidence := evidence r |}.
End ExtObservation.
Abbreviation ExternalStateObservation := ExtObservation.ExternalStateObservation.

Module AuditEvent.
Record ExternalAuditEvent : Type := {
  event_id : string;
  tenant_id : string;
  source_system : string;
  event_type : string;
  occurred_at : datetime;
  payload_digest : string;
  actor : option string;
  resource : option string;
  action_id : option UUID;
  run_id : option UUID;
  external_reference : option string;
  payload : list (string * pyval);
  evidence : list ArtifactRef;
}.

Definition create (r : ExternalAuditEvent) : outcome ExternalAuditEvent :=
  i <~ NonBlankStr "event_id" (event_id r) ;;
  t <~ NonBlankStr "tenant_id" (tenant_id r) ;;
  s <~ NonBlankStr "source_system" (source_system r) ;;
  y <~ NonBlankStr "event_type" (event_type r) ;;
  d <~ Sha256 "payload_digest" (payload_digest r) ;;
  a <~ optional (NonBlankStr "actor") (actor r) ;;
  e <~ optional (NonBlankStr "resource") (resource r) ;;
  x <~ optional (NonBlankStr "external_reference") (external_reference r) ;;
  Ok {| event_id := i; tenant_id := t; source_system := s; event_type := y;
        occurred_at := occurred_at r; payload_digest := d; actor := a; resource := e;
        action_id := action_id r; run_id := run_id r; external_reference := x;
        payload := payload r; evidence := evidence r |}.
End AuditEvent.
Abbreviation ExternalAuditEvent := AuditEvent.ExternalAuditEvent.

Module Cursor.
Record ReconciliationCursor : Type := {
  tenant_id : string;
  source_system : string;
  cursor : option string;
  high_watermark : option datetime;
  health : ReconciliationSourceHealth;
  consecutive_failures : Z;
  next_attempt_at : option datetime;
  updated_at : datetime;
}.

Definition create (r : ReconciliationCursor) : outcome ReconciliationCursor :=
  t <~ NonBlankStr "tenant_id" (tenant_id r) ;;
  s <~ NonBlankStr "source_system" (source_system r) ;;
  c <~ optional (NonBlankStr "cursor") (cursor r) ;;
  require (0 <=? consecutive_failures r) (ValidationError "consecutive_failures") ;~
  Ok {| tenant_id := t; source_system := s; cursor := c; high_watermark := high_watermark r;
        health := health r; consecutive_failures := consecutive_failures r;
        next_attempt_at := next_attempt_at r; updated_at := updated_at r |}.
End Cursor.
Abbreviation ReconciliationCursor := Cursor.ReconciliationCursor.

Module SourceConfig.
Record ReconciliationSourceConfig : Type := {
  source_system : string;
  enabled : bool;
  poll_interval_seconds : Z;
  stale_after_seconds : Z;
  base_backoff_seconds : Z;
  max_backoff_seconds : Z;
}.

Definition validate_backoff (r : ReconciliationSourceConfig) : outcome unit :=
  require (negb (max_backoff_seconds r <? base_backoff_seconds r))
    (ValidationError "base backoff cannot exceed maximum backoff").

Definition create (r : ReconciliationSourceConfig) : outcome ReconciliationSourceConfig :=
  s <~ NonBlankStr "source_system" (source_system r) ;;
  p <~ PositiveInt "poll_interval_seconds" (poll_interval_seconds r) ;;
  a <~ PositiveInt "stale_after_seconds" (stale_after_seconds r) ;;
  b <~ PositiveInt "base_backoff_seconds" (base_backoff_seconds r) ;;
  m <~ PositiveInt "max_backoff_seconds" (max_backoff_seconds r) ;;
  let r := {| source_system := s; enabled := enabled r; poll_interval_seconds := p;
              stale_after_seconds := a; base_backoff_seconds := b; max_backoff_seconds := m |} in
  validate_backoff r ;~ Ok r.

(** [timedelta(seconds=n)] overflows beyond 999999999 days. *)
Definition backoff_for (r : ReconciliationSourceConfig) (failures : Z) : outcome timedelta :=
  if failures <=? 0 then timedelta_seconds (float_of_int (poll_interval_seconds r))
  else timedelta_seconds (float_of_int
         (Z.min (max_backoff_seconds r) (base_backoff_seconds r * 2 ^ Z.min (failures - 1) 30))).
End SourceConfig.
Abbreviation ReconciliationSourceConfig := SourceConfig.ReconciliationSourceConfig.

Module Profile.
Record ProductionCompletenessProfile : Type := {
  profile_id : string;
  tenant_id : string;
  organization_id : option string;
  required_sources : list string;
  max_source_age_seconds : Z;
  require_matched_reconciliation : bool;
}.

Definition validate_sources (r : ProductionCompletenessProfile) : outcome unit :=
  require (negb (bool_decide (required_sources r = [])))
    (ValidationError "production completeness profile requires at least one source") ;~
  require (py_unique (required_sources r))
    (ValidationError "production completeness sources must be unique").

Definition create (r : ProductionCompletenessProfile) : outcome ProductionCompletenessProfile :=
  i <~ NonBlankStr "profile_id" (profile_id r) ;;
  t <~ NonBlankStr "tenant_id" (tenant_id r) ;;
  o <~ optional (NonBlankStr "organization_id") (organization_id r) ;;
  s <~ map_o (NonBlankStr "required_sources") (required_sources r) ;;
  a <~ PositiveInt "max_source_age_seconds" (max_source_age_seconds r) ;;
  let r := {| profile_id := i; tenant_id := t; organization_id := o; required_sources := s;
              max_source_age_seconds := a;
              require_matched_reconciliation := require_matched_reconciliation r |} in
  validate_sources r ;~ Ok r.
End Profile.
Abbreviation ProductionCompletenessProfile := Profile.ProductionCompletenessProfile.

Module Batch.
Record ReconciliationBatch : Type := {
  tenant_id : string;
  source_system : string;
  collected_at : datetime;
  health : ReconciliationSourceHealth;
  cursor : option string;
  high_watermark : option datetime;
  observations : list ExternalStateObservation;
  audit_events : list ExternalAuditEvent;
}.

Definition validate_scope (r : ReconciliationBatch) : outcome unit :=
  require (forallb (fun o =>
      bool_decide (ExtObservation.tenant_id o = tenant_id r) &&
      bool_decide (ExtObservation.source_system o = source_system r)) (observations r))
    (ValidationError "observation scope must match reconciliation batch") ;~
  require (forallb (fun e =>
      bool_decide (AuditEvent.tenant_id e = tenant_id r) &&
      bool_decide (AuditEvent.source_system e = source_system r)) (audit_events r))
    (ValidationError "audit event scope must match reconciliation batch") ;~
  require (match high_watermark r with Some h => negb (collected_at r <? h) | None => true end)
    (ValidationError "high watermark cannot be after collection time").

Definition create (r : ReconciliationBatch) : outcome ReconciliationBatch :=
  t <~ NonBlankStr "tenant_id" (tenant_id r) ;;
  s <~ NonBlankStr "source_system" (source_system r) ;;
  c <~ optional (NonBlankStr "cursor") (cursor r) ;;
  let r := {| tenant_id := t; source_system := s; collected_at := collected_at r;
              health := health r; cursor := c; high_watermark := high_watermark r;
              observations := observations r; audit_events := audit_events r |} in
  validate_scope r ;~ Ok r.

(** [batch.model_copy(update={"health": h})] *)
Definition with_health (r : ReconciliationBatch) (h : ReconciliationSourceHealth)
    : ReconciliationBatch :=
  {| tenant_id := tenant_id r; source_system := source_system r; collected_at := collected_at r;
     health := h; cursor := cursor r; high_watermark := high_watermark r;
     observations := observations r; audit_events := audit_events r |}.
End Batch.
Abbreviation ReconciliationBatch := Batch.ReconciliationBatch.

Module Completeness.
Record ProductionCompletenessAssessment : Type := {
  profile_id : string;
  tenant_id : string;
  organization_id : option string;
  assessed_at : datetime;
  complete : bool;
  healthy_sources : list string;
  stale_sources : list string;
  unavailable_sources : list string;
  conflicting_sources : list string;
  blocking_findings : list UUID;
}.

Definition create (r : ProductionCompletenessAssessment)
    : outcome ProductionCompletenessAssessment :=
  i <~ NonBlankStr "profile_id" (profile_id r) ;;
  t <~ NonBlankStr "tenant_id" (tenant_id r) ;;
  o <~ optional (NonBlankStr "organization_id") (organization_id r) ;;
  h <~ map_o (NonBlankStr "healthy_sources") (healthy_sources r) ;;
  s <~ map_o (NonBlankStr "stale_sources") (stale_sources r) ;;
  u <~ map_o (NonBlankStr "unavailable_sources") (unavailable_sources r) ;;
  c <~ map_o (NonBlankStr "conflicting_sources") (conflicting_sources r) ;;
  Ok {| profile_id := i; tenant_id := t; organization_id := o; assessed_at := assessed_at r;
        complete := complete r; healthy_sources := h; stale_sources := s;
        unavailable_sources := u; conflicting_sources := c;
        blocking_findings := blocking_findings r |}.
End Completeness.
Abbreviation ProductionCompletenessAssessment := Completeness.ProductionCompletenessAssessment.

Module RunResult.
Record ReconciliationRunResult : Type := {
  reconciliation_id : UUID;
  run_id : UUID;
  tenant_id : string;
  source_system : string;
  started_at : datetime;
  completed_at : datetime;
  health : ReconciliationSourceHealth;
  cursor : option string;
  high_watermark : option datetime;
  findings : list ReconciliationFinding;
}.

Definition create (r : ReconciliationRunResult) : outcome ReconciliationRunResult :=
  t <~ NonBlankStr "tenant_id" (tenant_id r) ;;
  s <~ NonBlankStr "source_system" (source_system r) ;;
  c <~ optional (NonBlankStr "cursor") (cursor r) ;;
  Ok {| reconciliation_id := reconciliation_id r; run_id := run_id r; tenant_id := t;
        source_system := s; started_at := started_at r; completed_at := completed_at r;
        health := health r; cursor := c; high_watermark := high_watermark r;
        findings := findings r |}.
End RunResult.
Abbreviation ReconciliationRunResult := RunResult.ReconciliationRunResult.

(** ** reconciliation/engine.py *)
Module Engine.
Import Health.

(** [_SEVERITY_RANK.get(severity, 99)] *)
Definition SEVERITY_RANK (severity : string) : Z :=
  default 99 (dict_get severity
    [(Severity.value Severity.INFO, 0); (Severity.value Severity.LOW, 1);
     (Severity.value Severity.MEDIUM, 2); (Severity.value Severity.HIGH, 3);
     (Severity.value Severity.CRITICAL, 4)]).

(** [str(action_id or "")]; a UUID is always true *)
Definition action_str (action_id : option UUID) : string :=
  match action_id with Some u => uuid_str u | None => "" end.

Definition finding_name (run_id : UUID) (source_system : string) (o : ReconciliationOutcome)
    (action_id : option UUID) (external_reference : option string) (discriminator : string)
    : string :=
  py_join "|" ["prodkit-control-reconciliation-v1"; uuid_str run_id; source_system;
               ReconciliationOutcome_value o; action_str action_id;
               str_or external_reference ""; discriminator].

Definition finding_id (run_id : UUID) (source_system : string) (o : ReconciliationOutcome)
    (action_id : option UUID) (external_reference : option string) (discriminator : string)
    : UUID :=
  uuid5 NAMESPACE_URL
    (finding_name run_id source_system o action_id external_reference discriminator).

Definition finding (run_id : UUID) (source_system : string) (observed_at : datetime)
    (o : ReconciliationOutcome) (severity : ReconciliationSeverity) (summary : string)
    (action_id : option UUID) (external_reference : option string) (discriminator : string)
    (details : list (string * pyval)) : outcome ReconciliationFinding :=
  ReconciliationFinding.create {|
    ReconciliationFinding.finding_id :=
      finding_id run_id source_system o action_id external_reference discriminator;
    ReconciliationFinding.run_id := run_id;
    ReconciliationFinding.action_id := action_id;
    ReconciliationFinding.reconciler := "prodkit:" +:+ source_system;
    ReconciliationFinding.source_system := source_system;
    ReconciliationFinding.observed_at := observed_at;
    ReconciliationFinding.outcome_ := o;
    ReconciliationFinding.severity := Severity.value severity;
    ReconciliationFinding.summary := summary;
    ReconciliationFinding.external_reference := external_reference;
    ReconciliationFinding.details := details;
    ReconciliationFinding.evidence := [] |}.

(** The dictionary of the expected actions in the batch's scope *)
Definition in_scope (batch : ReconciliationBatch) (a : ExpectedExternalAction) : bool :=
  bool_decide (ExpectedAction.tenant_id a = Batch.tenant_id batch) &&
  bool_decide (ExpectedAction.source_system a = Batch.source_system batch).

Definition expected_of (batch : ReconciliationBatch) (actions : list ExpectedExternalAction)
    : list (UUID * ExpectedExternalAction) :=
  foldl (fun d a => dict_set (ExpectedAction.action_id a) a d) []
    (List.filter (in_scope batch) actions).

Section Reconcile.
Context (run_id : UUID) (batch : ReconciliationBatch)
  (expected : list (UUID * ExpectedExternalAction)).
Let source := Batch.source_system batch.
Let health := Batch.health batch.
Let healthy := bool_decide (health = HEALTHY).

(** [id is not None and id in expected] *)
Definition controlled (id : option UUID) : bool :=
  match id with Some i => dict_has i expected | None => false end.

Definition health_findings : outcome (list ReconciliationFinding) :=
  if healthy then Ok []
  else
    let severity :=
      if mem health [UNAVAILABLE; CONFLICTING] then Severity.HIGH else Severity.MEDIUM in
    f <~ finding run_id source (Batch.collected_at batch)
           (if bool_decide (health = CONFLICTING) then CONFLICTING_EVIDENCE else UNVERIFIABLE)
           severity ("source evidence is " +:+ value health +:+ "; reconciliation cannot pass")
           None None ("source-health:" +:+ value health)
           [("source_health", PStr (value health))] ;;
    Ok [f].

Definition unexpected_observation (o : ExternalStateObservation) : outcome ReconciliationFinding :=
  finding run_id source (ExtObservation.observed_at o) UNEXPECTED_EXTERNAL_ACTION
    Severity.HIGH "external state has no corresponding controlled action"
    (ExtObservation.action_id o) (ExtObservation.external_reference o)
    ("observation:" +:+ ExtObservation.observation_id o)
    [("observation_id", PStr (ExtObservation.observation_id o))].

(** [observations[id].append(o)] *)
Definition file_observation (id : UUID) (o : ExternalStateObservation)
    (observations : list (UUID * list ExternalStateObservation))
    : list (UUID * list ExternalStateObservation) :=
  dict_set id (default [] (dict_get id observations) ++ [o]) observations.

(** One turn of the loop over the observations, on the findings and on the
    observations by action *)
Definition observe
    (acc : list ReconciliationFinding * list (UUID * list ExternalStateObservation))
    (o : ExternalStateObservation)
    : outcome (list ReconciliationFinding * list (UUID * list ExternalStateObservation)) :=
  let '(findings, observations) := acc in
  match ExtObservation.action_id o with
  | Some id =>
      if dict_has id expected then Ok (findings, file_observation id o observations)
      else f <~ unexpected_observation o ;; Ok (findings ++ [f], observations)
  | None => f <~ unexpected_observation o ;; Ok (findings ++ [f], observations)
  end.

(** [_unexpected_audit_event] *)
Definition unexpected_audit_event (e : ExternalAuditEvent) : outcome ReconciliationFinding :=
  finding run_id (AuditEvent.source_system e) (AuditEvent.occurred_at e)
    UNEXPECTED_EXTERNAL_ACTION Severity.HIGH
    "external audit event has no corresponding controlled action"
    (AuditEvent.action_id e) (AuditEvent.external_reference e)
    ("audit:" +:+ AuditEvent.event_id e +:+ ":" +:+ AuditEvent.payload_digest e)
    [("event_id", PStr (AuditEvent.event_id e)); ("event_type", PStr (AuditEvent.event_type e))].

Definition audit (findings : list ReconciliationFinding) (e : ExternalAuditEvent)
    : outcome (list ReconciliationFinding) :=
  if controlled (AuditEvent.action_id e) then Ok findings
  else f <~ unexpected_audit_event e ;; Ok (findings ++ [f]).

(** [a or b], on optional strings *)
Definition or_opt (a b : option string) : option string := if truthy a then a else b.

(** [max(xs, key=lambda item: item.observed_at)] *)
Definition latest (os : list ExternalStateObservation) : option ExternalStateObservation :=
  max_by (fun a b => ExtObservation.observed_at a <? ExtObservation.observed_at b) os.

(** The finding about one expected action, if its turn of the loop appends one *)
Definition verdict (os : list ExternalStateObservation) (action_id : UUID)
    (action : ExpectedExternalAction) : option (outcome ReconciliationFinding) :=
  match latest os with
  | None => Some (finding run_id source (Batch.collected_at batch)
      (if healthy then MISSING_EXTERNAL_EVIDENCE else UNVERIFIABLE) Severity.HIGH
      (if healthy then "controlled action has no external evidence"
       else "expected action cannot be verified because source evidence is unavailable")
      (Some action_id) (ExpectedAction.external_reference action) "missing" [])
  | Some observed =>
      let digests := sorted_set (map ExtObservation.state_digest os) in
      if (1 <? length digests)%nat then
        Some (finding run_id source (ExtObservation.observed_at observed)
          CONFLICTING_EVIDENCE Severity.HIGH "external observations disagree about action state"
          (Some action_id) (ExpectedAction.external_reference action)
          ("conflicting-digests:" +:+ py_join "," digests)
          [("observed_digests", PList (map PStr digests))])
      else
        let reference := or_opt (ExtObservation.external_reference observed)
                           (ExpectedAction.external_reference action) in
        let matched :=
          if healthy then
            Some (finding run_id source (ExtObservation.observed_at observed) MATCHED
              Severity.INFO "external evidence matches controlled action" (Some action_id) reference
              ("matched:" +:+ ExtObservation.state_digest observed) [])
          else None in
        match ExpectedAction.expected_state_digest action with
        | Some digest =>
            if bool_decide (ExtObservation.state_digest observed = digest) then matched
            else
              Some (finding run_id source (ExtObservation.observed_at observed) STATE_MISMATCH
                Severity.HIGH "external state digest differs from controlled expectation"
                (Some action_id) reference
                ("mismatch:" +:+ digest +:+ ":" +:+ ExtObservation.state_digest observed)
                [("expected_digest", PStr digest);
                 ("observed_digest", PStr (ExtObservation.state_digest observed))])
        | None => matched
        end
  end.

Definition judge (observations : list (UUID * list ExternalStateObservation))
    (findings : list ReconciliationFinding) (kv : UUID * ExpectedExternalAction)
    : outcome (list ReconciliationFinding) :=
  match verdict (default [] (dict_get (fst kv) observations)) (fst kv) (snd kv) with
  | Some f => f <~ f ;; Ok (findings ++ [f])
  | None => Ok findings
  end.

(** Everything appended to [findings], in order *)
Definition collect_findings : outcome (list ReconciliationFinding) :=
  findings <~ health_findings ;;
  acc <~ fold_o observe (Batch.observations batch) (findings, []) ;;
  findings <~ fold_o audit (Batch.audit_events batch) (fst acc) ;;
  fold_o (judge (snd acc))
    (sort_by (fun a b => String.leb (uuid_str (fst a)) (uuid_str (fst b))) expected) findings.
End Reconcile.

(** The sort key [(-rank, outcome, str(action_id or ""), str(finding_id))] *)
Definition finding_leb (a b : ReconciliationFinding) : bool :=
  let key f := (SEVERITY_RANK (ReconciliationFinding.severity f),
                ReconciliationOutcome_value (ReconciliationFinding.outcome_ f),
                action_str (ReconciliationFinding.action_id f),
                uuid_str (ReconciliationFinding.finding_id f)) in
  let '(r1, o1, a1, i1) := key a in
  let '(r2, o2, a2, i2) := key b in
  (r2 <? r1) || (r1 =? r2) &&
    (String.ltb o1 o2 || String.eqb o1 o2 &&
      (String.ltb a1 a2 || String.eqb a1 a2 && String.leb i1 i2)).

(** [{finding.finding_id: finding for finding in findings}.values()] *)
Definition by_finding_id (fs : list ReconciliationFinding)
    : list (UUID * ReconciliationFinding) :=
  foldl (fun d f => dict_set (ReconciliationFinding.finding_id f) f d) [] fs.

Definition reconcile (run_id : UUID) (expected_actions : list ExpectedExternalAction)
    (batch : ReconciliationBatch) : outcome (list ReconciliationFinding) :=
  fs <~ collect_findings run_id batch (expected_of batch expected_actions) ;;
  Ok (sort_by finding_leb (dict_values (by_finding_id fs))).

(** *** [assess_production_completeness] *)
Inductive SourceClass : Set := Healthy | Stale | Unavailable | Conflicting.

#[export] Instance SourceClass_eq_dec : EqDecision SourceClass.
Proof. solve_decision. Defined.

(** The branch of the loop a source takes *)
Definition classify (max_age : Z) (assessed_at : datetime)
    (entry : ReconciliationSourceHealth * option datetime) : SourceClass :=
  let '(health, high_watermark) := entry in
  if bool_decide (health = HEALTHY) &&
     match high_watermark with
     | Some h => assessed_at - h <=? seconds max_age
     | None => false
     end
  then Healthy
  else if bool_decide (health = CONFLICTING) then Conflicting
  else if bool_decide (health = UNAVAILABLE) || bool_decide (high_watermark = None) then Unavailable
  else Stale.

Section Assess.
Context (profile : ProductionCompletenessProfile) (assessed_at : datetime)
  (source_health : list (string * (ReconciliationSourceHealth * option datetime)))
  (findings : list ReconciliationFinding).
Let required := Profile.required_sources profile.

Definition source_class (s : string) : SourceClass :=
  classify (Profile.max_source_age_seconds profile) assessed_at
    (default (UNAVAILABLE, None) (dict_get s source_health)).

(** The list the loop fills with the sources of a class *)
Definition sources_of (c : SourceClass) : list string :=
  List.filter (fun s => bool_decide (source_class s = c)) required.

Definition blocking : list UUID :=
  map ReconciliationFinding.finding_id (List.filter (fun f =>
    mem (ReconciliationFinding.source_system f) required &&
    negb (bool_decide (ReconciliationFinding.outcome_ f = MATCHED))) findings).

Definition matched_sources : list string :=
  map ReconciliationFinding.source_system (List.filter (fun f =>
    bool_decide (ReconciliationFinding.outcome_ f = MATCHED)) findings).

Definition is_complete : bool :=
  let complete := bool_decide (sources_of Stale = []) && bool_decide (sources_of Unavailable = []) &&
                  bool_decide (sources_of Conflicting = []) && bool_decide (blocking = []) in
  if Profile.require_matched_reconciliation profile
  then complete && forallb (fun s => mem s matched_sources) required
  else complete.

Definition assess_production_completeness : outcome ProductionCompletenessAssessment :=
  Completeness.create {|
    Completeness.profile_id := Profile.profile_id profile;
    Completeness.tenant_id := Profile.tenant_id profile;
    Completeness.organization_id := Profile.organization_id profile;
    Completeness.assessed_at := assessed_at;
    Completeness.complete := is_complete;
    Completeness.healthy_sources := sort_by String.leb (sources_of Healthy);
    Completeness.stale_sources := sort_by String.leb (sources_of Stale);
    Completeness.unavailable_sources := sort_by String.leb (sources_of Unavailable);
    Completeness.conflicting_sources := sort_by String.leb (sources_of Conflicting);
    Completeness.blocking_findings := blocking |}.
End Assess.
End Engine.

(** ** The runtime's [reconciliation.py] *)

(** [==] of two values of a [dict[str, Any]] *)
Fixpoint py_eq (a b : pyval) : bool :=
  match a, b with
  | PList l, PList k =>
      (fix go l k := match l, k with
                     | [], [] => true
                     | x :: l, y :: k => py_eq x y && go l k
                     | _, _ => false
                     end) l k
  | PDict d, PDict e =>
      (length d =? length e)%nat &&
      forallb (fun '(k, x) => match dict_get k e with Some y => py_eq x y | None => false end) d
  | _, _ => scalar_eq a b
  end.

(** [==] of two findings *)
Definition finding_eqb (a b : ReconciliationFinding) : bool :=
  (ReconciliationFinding.finding_id a =? ReconciliationFinding.finding_id b) &&
  (ReconciliationFinding.run_id a =? ReconciliationFinding.run_id b) &&
  bool_decide (ReconciliationFinding.action_id a = ReconciliationFinding.action_id b) &&
  bool_decide (ReconciliationFinding.reconciler a = ReconciliationFinding.reconciler b) &&
  bool_decide (ReconciliationFinding.source_system a = ReconciliationFinding.source_system b) &&
  (ReconciliationFinding.observed_at a =? ReconciliationFinding.observed_at b) &&
  bool_decide (ReconciliationFinding.outcome_ a = ReconciliationFinding.outcome_ b) &&
  bool_decide (ReconciliationFinding.severity a = ReconciliationFinding.severity b) &&
  bool_decide (ReconciliationFinding.summary a = ReconciliationFinding.summary b) &&
  bool_decide (ReconciliationFinding.external_reference a =
               ReconciliationFinding.external_reference b) &&
  py_eq (PDict (ReconciliationFinding.details a)) (PDict (ReconciliationFinding.details b)) &&
  bool_decide (ReconciliationFinding.evidence a = ReconciliationFinding.evidence b).

Fixpoint findings_eqb (a b : list ReconciliationFinding) : bool :=
  match a, b with
  | [], [] => true
  | x :: a, y :: b => finding_eqb x y && findings_eqb a b
  | _, _ => false
  end.

Definition result_eqb (a b : ReconciliationRunResult) : bool :=
  (RunResult.reconciliation_id a =? RunResult.reconciliation_id b) &&
  (RunResult.run_id a =? RunResult.run_id b) &&
  bool_decide (RunResult.tenant_id a = RunResult.tenant_id b) &&
  bool_decide (RunResult.source_system a = RunResult.source_system b) &&
  (RunResult.started_at a =? RunResult.started_at b) &&
  (RunResult.completed_at a =? RunResult.completed_at b) &&
  bool_decide (RunResult.health a = RunResult.health b) &&
  bool_decide (RunResult.cursor a = RunResult.cursor b) &&
  bool_decide (RunResult.high_watermark a = RunResult.high_watermark b) &&
  findings_eqb (RunResult.findings a) (RunResult.findings b).

(** *** [InMemoryReconciliationStore] *)
Module RStore.
Record store : Type := {
  cursors : gmap (string * string) ReconciliationCursor;
  results : gmap UUID ReconciliationRunResult;
  findings : list (UUID * ReconciliationFinding);
  finding_tenants : gmap UUID string;
  audit_events : gset (string * string * string);
}.

Definition empty : store :=
  {| cursors := ∅; results := ∅; findings := []; finding_tenants := ∅; audit_events := ∅ |}.

Definition get_cursor (tenant source : string) (st : store) : option ReconciliationCursor :=
  cursors st !! (tenant, source).

Definition save_cursor (c : ReconciliationCursor) : M store unit :=
  modify (fun st => {|
    cursors := <[(Cursor.tenant_id c, Cursor.source_system c) := c]> (cursors st);
    results := results st; findings := findings st; finding_tenants := finding_tenants st;
    audit_events := audit_events st |}).

(** The body of the loop of [save_result] *)
Definition save_finding (tenant : string) (f : ReconciliationFinding) : M store unit :=
  let id := ReconciliationFinding.finding_id f in
  st <- get ;;
  guard (match dict_get id (findings st) with Some prior => finding_eqb prior f | None => true end)
    (ValueError "reconciliation finding identity cannot be rewritten") ;;
  modify (fun st => {|
    cursors := cursors st; results := results st; findings := dict_set id f (findings st);
    finding_tenants := <[id := tenant]> (finding_tenants st); audit_events := audit_events st |}).

Definition save_result (r : ReconciliationRunResult) : M store unit :=
  st <- get ;;
  guard (match results st !! RunResult.reconciliation_id r with
         | Some existing => result_eqb existing r
         | None => true
         end)
    (ValueError "reconciliation result identity cannot be rewritten") ;;
  modify (fun st => {|
    cursors := cursors st; results := <[RunResult.reconciliation_id r := r]> (results st);
    findings := findings st; finding_tenants := finding_tenants st;
    audit_events := audit_events st |}) ;;
  for_m (save_finding (RunResult.tenant_id r)) (RunResult.findings r).

Definition ingest_audit_event (e : ExternalAuditEvent) : M store bool :=
  let key := (AuditEvent.tenant_id e, AuditEvent.source_system e, AuditEvent.event_id e) in
  st <- get ;;
  if bool_decide (key ∈ audit_events st) then ret false
  else
    modify (fun st => {|
      cursors := cursors st; results := results st; findings := findings st;
      finding_tenants := finding_tenants st; audit_events := {[key]} ∪ audit_events st |}) ;;
    ret true.

(** [(item.observed_at, str(item.finding_id))] *)
Definition listed_leb (a b : ReconciliationFinding) : bool :=
  (ReconciliationFinding.observed_at a <? ReconciliationFinding.observed_at b) ||
  (ReconciliationFinding.observed_at a =? ReconciliationFinding.observed_at b) &&
  String.leb (uuid_str (ReconciliationFinding.finding_id a))
             (uuid_str (ReconciliationFinding.finding_id b)).

Fixpoint select_tenant (st : store) (tenant : string) (fs : list (UUID * ReconciliationFinding))
    : outcome (list ReconciliationFinding) :=
  match fs with
  | [] => Ok []
  | (key, item) :: rest =>
      match finding_tenants st !! key with
      | None => Raise (KeyError (uuid_str key))
      | Some t =>
          items <~ select_tenant st tenant rest ;;
          Ok (if bool_decide (t = tenant) then item :: items else items)
      end
  end.

Definition list_findings (tenant : string) (st : store) : outcome (list ReconciliationFinding) :=
  items <~ select_tenant st tenant (findings st) ;; Ok (sort_by listed_leb items).

(** The calls *)
Inductive step : store -> store -> Prop :=
| step_cursor c st o st' : save_cursor c st = (o, st') -> step st st'
| step_result r st o st' : save_result r st = (o, st') -> step st st'
| step_audit e st o st' : ingest_audit_event e st = (o, st') -> step st st'.
End RStore.

(** *** [ReconciliationCoordinator] *)
Module RCoordinator.
Import Health.

(** [next_attempt_at] of the cursor is still ahead. *)
Definition not_due (cursor : option ReconciliationCursor) (now : datetime) : bool :=
  match cursor with
  | Some c => match Cursor.next_attempt_at c with Some t => now <? t | None => false end
  | None => false
  end.

(** [finding.model_copy(update={"details": {**finding.details, ...}})] *)
Definition with_error_type (type_name : string) (f : ReconciliationFinding) : ReconciliationFinding :=
  {| ReconciliationFinding.finding_id := ReconciliationFinding.finding_id f;
     ReconciliationFinding.run_id := ReconciliationFinding.run_id f;
     ReconciliationFinding.action_id := ReconciliationFinding.action_id f;
     ReconciliationFinding.reconciler := ReconciliationFinding.reconciler f;
     ReconciliationFinding.source_system := ReconciliationFinding.source_system f;
     ReconciliationFinding.observed_at := ReconciliationFinding.observed_at f;
     ReconciliationFinding.outcome_ := ReconciliationFinding.outcome_ f;
     ReconciliationFinding.severity := ReconciliationFinding.severity f;
     ReconciliationFinding.summary := ReconciliationFinding.summary f;
     ReconciliationFinding.external_reference := ReconciliationFinding.external_reference f;
     ReconciliationFinding.details :=
       dict_set "collection_error_type" (PStr type_name) (ReconciliationFinding.details f);
     ReconciliationFinding.evidence := ReconciliationFinding.evidence f |}.

Section Run.
Context (reconciliation_id run_id : UUID) (tenant_id source_system : string)
  (config : ReconciliationSourceConfig) (expected_actions : list ExpectedExternalAction)
  (now : datetime).

(** The [except Exception] branch *)
Definition collection_failed (cursor : option ReconciliationCursor) (exc : exn)
    : M RStore.store ReconciliationRunResult :=
  let failures := match cursor with Some c => Cursor.consecutive_failures c | None => 0 end + 1 in
  batch <- lift (Batch.create {|
    Batch.tenant_id := tenant_id; Batch.source_system := source_system;
    Batch.collected_at := now; Batch.health := UNAVAILABLE; Batch.cursor := None;
    Batch.high_watermark := None; Batch.observations := []; Batch.audit_events := [] |}) ;;
  delay <- lift (SourceConfig.backoff_for config failures) ;;
  failure_cursor <- lift (Cursor.create {|
    Cursor.tenant_id := tenant_id; Cursor.source_system := source_system;
    Cursor.cursor := match cursor with Some c => Cursor.cursor c | None => None end;
    Cursor.high_watermark := match cursor with Some c => Cursor.high_watermark c | None => None end;
    Cursor.health := UNAVAILABLE; Cursor.consecutive_failures := failures;
    Cursor.next_attempt_at := Some (now + delay); Cursor.updated_at := now |}) ;;
  RStore.save_cursor failure_cursor ;;
  findings <- lift (Engine.reconcile run_id expected_actions batch) ;;
  result <- lift (RunResult.create {|
    RunResult.reconciliation_id := reconciliation_id; RunResult.run_id := run_id;
    RunResult.tenant_id := tenant_id; RunResult.source_system := source_system;
    RunResult.started_at := now; RunResult.completed_at := now;
    RunResult.health := UNAVAILABLE; RunResult.cursor := Cursor.cursor failure_cursor;
    RunResult.high_watermark := Cursor.high_watermark failure_cursor;
    RunResult.findings := map (with_error_type (exn_type_name exc)) findings |}) ;;
  RStore.save_result result ;;
  ret result.

(** A healthy batch whose watermark is older than the source may be is stale. *)
Definition effective (batch : ReconciliationBatch) : ReconciliationBatch :=
  if bool_decide (Batch.health batch = HEALTHY) &&
     match Batch.high_watermark batch with
     | Some h => seconds (SourceConfig.stale_after_seconds config) <? now - h
     | None => false
     end
  then Batch.with_health batch STALE
  else batch.

(** The statements after the [try] *)
Definition collected (batch : ReconciliationBatch) : M RStore.store ReconciliationRunResult :=
  for_m (fun e => RStore.ingest_audit_event e ;; ret tt) (Batch.audit_events batch) ;;
  let batch := effective batch in
  findings <- lift (Engine.reconcile run_id expected_actions batch) ;;
  delay <- lift (SourceConfig.backoff_for config 0) ;;
  next_cursor <- lift (Cursor.create {|
    Cursor.tenant_id := tenant_id; Cursor.source_system := source_system;
    Cursor.cursor := Batch.cursor batch; Cursor.high_watermark := Batch.high_watermark batch;
    Cursor.health := Batch.health batch; Cursor.consecutive_failures := 0;
    Cursor.next_attempt_at := Some (now + delay); Cursor.updated_at := now |}) ;;
  result <- lift (RunResult.create {|
    RunResult.reconciliation_id := reconciliation_id; RunResult.run_id := run_id;
    RunResult.tenant_id := tenant_id; RunResult.source_system := source_system;
    RunResult.started_at := now; RunResult.completed_at := now;
    RunResult.health := Batch.health batch; RunResult.cursor := Batch.cursor batch;
    RunResult.high_watermark := Batch.high_watermark batch;
    RunResult.findings := findings |}) ;;
  RStore.save_result result ;;
  RStore.save_cursor next_cursor ;;
  ret result.

(** [run_source], for a [collect] that leaves the store alone *)
Definition run_source (collect : string -> option ReconciliationCursor -> datetime ->
      outcome ReconciliationBatch) : M RStore.store (option ReconciliationRunResult) :=
  if negb (SourceConfig.enabled config) then ret None
  else
    guard (bool_decide (source_system = SourceConfig.source_system config))
      (ValueError "source implementation and configuration names differ") ;;
    st <- get ;;
    let cursor := RStore.get_cursor tenant_id source_system st in
    if not_due cursor now then ret None
    else
      match collect tenant_id cursor now with
      | Raise exc => r <- collection_failed cursor exc ;; ret (Some r)
      | Ok batch => r <- collected batch ;; ret (Some r)
      end.
End Run.

Definition health_of (st : RStore.store) (tenant : string) (source : string)
    : ReconciliationSourceHealth * option datetime :=
  match RStore.get_cursor tenant source st with
  | None => (UNAVAILABLE, None)
  | Some c => (Cursor.health c, Cursor.high_watermark c)
  end.

Definition assess_completeness (profile : ProductionCompletenessProfile) (now : datetime)
    (st : RStore.store) : outcome ProductionCompletenessAssessment :=
  let health := foldl (fun d s => dict_set s (health_of st (Profile.tenant_id profile) s) d) []
                  (Profile.required_sources profile) in
  findings <~ RStore.list_findings (Profile.tenant_id profile) st ;;
  Engine.assess_production_completeness profile now health findings.
End RCoordinator.
