(* ===== verification/ReconciliationProofs.v ===== *)
(** * Reconciliation: the verdicts, the assessment, the store and the coordinator

    [Judgement] states what the engine promises about one expected action;
    [EngineFacts] shows that the findings about an action are the ones the
    judgement calls for; [AssessFacts] treats the completeness assessment,
    [RStoreFacts] the store and the coordinator.  Finding identities are version-5
    UUIDs: where two findings must not be confused the conclusion is that they are
    kept apart, or that two names with one UUID can be exhibited. *)

From S2P Require Import Prelude Canonical Contracts Reconciliation.
From Stdlib Require Import Lia.

(** ** The abstract verdict about one expected action *)
Module Judgement.
Import Health.

(** What a source of health [h] that reported the observations [os] of an action
    says of it, when the digest [expected] was promised. *)
Inductive judged (h : ReconciliationSourceHealth) (os : list ExternalStateObservation)
    (expected : option string) : option ReconciliationOutcome -> Prop :=
| judged_missing : h = HEALTHY -> os = [] -> judged h os expected (Some MISSING_EXTERNAL_EVIDENCE)
| judged_unverifiable : h <> HEALTHY -> os = [] -> judged h os expected (Some UNVERIFIABLE)
| judged_conflicting o1 o2 :
    o1 ∈ os -> o2 ∈ os -> ExtObservation.state_digest o1 <> ExtObservation.state_digest o2 ->
    judged h os expected (Some CONFLICTING_EVIDENCE)
| judged_mismatch d e :
    os <> [] -> (forall o, o ∈ os -> ExtObservation.state_digest o = d) ->
    expected = Some e -> d <> e -> judged h os expected (Some STATE_MISMATCH)
| judged_matched d :
    h = HEALTHY -> os <> [] -> (forall o, o ∈ os -> ExtObservation.state_digest o = d) ->
    (forall e, expected = Some e -> e = d) -> judged h os expected (Some MATCHED)
| judged_withheld d :
    h <> HEALTHY -> os <> [] -> (forall o, o ∈ os -> ExtObservation.state_digest o = d) ->
    (forall e, expected = Some e -> e = d) -> judged h os expected None.

(** The observations of a batch that are about an action *)
Definition about (id : UUID) (os : list ExternalStateObservation) : list ExternalStateObservation :=
  List.filter (fun o => bool_decide (ExtObservation.action_id o = Some id)) os.

(** Two names with one version-5 UUID *)
Definition uuid5_collision : Prop :=
  exists n m, n <> m /\ uuid5 NAMESPACE_URL n = uuid5 NAMESPACE_URL m.
End Judgement.

Module EngineFacts.
Import Health Engine Judgement.

(** ** Single findings *)
Lemma finding_fields run src t o sev sm a x d det f :
  finding run src t o sev sm a x d det = Ok f ->
  ReconciliationFinding.finding_id f = finding_id run src o a x d /\
  ReconciliationFinding.action_id f = a /\ ReconciliationFinding.outcome_ f = o /\
  ReconciliationFinding.observed_at f = t /\
  ReconciliationFinding.source_system f = strip_by white_space src.
Proof.
  unfold finding, ReconciliationFinding.create. cbn. intros H.
  run_inv H. cbn.
  match goal with Hs : NonBlankStr "source_system" _ = _ |- _ => apply NonBlankStr_Ok in Hs as [_ ->] end.
  done.
Qed.

(** A constructed text field: stripping leaves it alone. *)
Abbreviation text f s := (NonBlankStr f s = Ok s) (only parsing).

Lemma reconciler_text src : exists r, NonBlankStr "reconciler" ("prodkit:" +:+ src) = Ok r.
Proof.
  unfold NonBlankStr. rewrite bool_decide_false; [by eexists|].
  eapply (strip_by_nonempty _ _ [] (Ascii.ascii_of_nat 112)); [reflexivity|done].
Qed.

Lemma finding_total run src t o sev sm a x d det :
  text "source_system" src -> text "summary" sm ->
  optional (NonBlankStr "external_reference") x = Ok x ->
  exists f, finding run src t o sev sm a x d det = Ok f.
Proof.
  intros Hs Hm Hx. unfold finding, ReconciliationFinding.create.
  cbn [ReconciliationFinding.reconciler ReconciliationFinding.source_system
       ReconciliationFinding.severity ReconciliationFinding.summary
       ReconciliationFinding.external_reference].
  destruct (reconciler_text src) as [r ->]. rewrite Hs, Hm, Hx. cbn [obind].
  destruct sev; cbn; by eexists.
Qed.

(** ** The names findings are identified by *)
Lemma append_head_inj a b c : a +:+ b = a +:+ c -> b = c.
Proof. induction a; simpl; [done|]. intros [= H]. auto. Qed.

Lemma outcome_value_delim o1 o2 r1 r2 :
  ReconciliationOutcome_value o1 +:+ "|" +:+ r1 = ReconciliationOutcome_value o2 +:+ "|" +:+ r2 ->
  o1 = o2 /\ r1 = r2.
Proof.
  destruct o1, o2; simpl; intros H; try discriminate H; split; try done; by injection H.
Qed.

Lemma action_str_delim a1 a2 r1 r2 :
  (forall u, a1 = Some u -> valid_uuid u) -> (forall u, a2 = Some u -> valid_uuid u) ->
  action_str a1 +:+ "|" +:+ r1 = action_str a2 +:+ "|" +:+ r2 -> a1 = a2.
Proof.
  assert (Hne : forall u r s, uuid_str u +:+ r <> "|" +:+ s).
  { intros u r s H. destruct (uuid_str_head u) as (c & t & Hc & Hb). rewrite Hc in H.
    injection H as H _. by apply Hb. }
  destruct a1 as [u|], a2 as [v|]; cbn [action_str]; intros Hu Hv H; [|destruct (Hne _ _ _ H)| |done].
  - apply append_inj_length in H as [H _]; [|by rewrite !uuid_str_length].
    apply uuid_str_inj in H; [by subst|auto|auto].
  - symmetry in H. destruct (Hne _ _ _ H).
Qed.

(** Within a run and a source the name tells the outcome and the action. *)
Lemma finding_id_inj run src o1 o2 a1 a2 x1 x2 d1 d2 :
  finding_id run src o1 a1 x1 d1 = finding_id run src o2 a2 x2 d2 ->
  o1 = o2 /\ ((forall u, a1 = Some u -> valid_uuid u) -> (forall u, a2 = Some u -> valid_uuid u) ->
              a1 = a2) \/ uuid5_collision.
Proof.
  intros H.
  destruct (decide (finding_name run src o1 a1 x1 d1 = finding_name run src o2 a2 x2 d2)) as [E|E].
  - left. unfold finding_name in E. cbn [py_join] in E.
    do 6 apply append_head_inj in E. apply outcome_value_delim in E as [-> E].
    split; [done|]. intros H1 H2. by apply action_str_delim in E.
  - right. by exists (finding_name run src o1 a1 x1 d1), (finding_name run src o2 a2 x2 d2).
Qed.

(** ** Constructed inputs *)
Definition constructed_batch (b : ReconciliationBatch) : Prop :=
  Batch.create b = Ok b /\
  (forall o, o ∈ Batch.observations b -> ExtObservation.create o = Ok o) /\
  (forall e, e ∈ Batch.audit_events b -> AuditEvent.create e = Ok e).

Definition constructed_actions (l : list ExpectedExternalAction) : Prop :=
  forall a, a ∈ l -> ExpectedAction.create a = Ok a /\ valid_uuid (ExpectedAction.action_id a).

Lemma batch_create b : Batch.create b = Ok b ->
  text "source_system" (Batch.source_system b) /\ Batch.validate_scope b = Ok tt.
Proof.
  unfold Batch.create. intros H. run_inv H. destruct a2.
  destruct b; cbn in *. injection H4 as -> -> ->. done.
Qed.

Lemma observation_reference o : ExtObservation.create o = Ok o ->
  optional (NonBlankStr "external_reference") (ExtObservation.external_reference o) =
    Ok (ExtObservation.external_reference o).
Proof.
  unfold ExtObservation.create. intros H. run_inv H. destruct o; cbn in *. congruence.
Qed.

Lemma audit_reference e : AuditEvent.create e = Ok e ->
  optional (NonBlankStr "external_reference") (AuditEvent.external_reference e) =
    Ok (AuditEvent.external_reference e).
Proof.
  unfold AuditEvent.create. intros H. run_inv H. destruct e; cbn in *. congruence.
Qed.

Lemma action_reference a : ExpectedAction.create a = Ok a ->
  optional (NonBlankStr "external_reference") (ExpectedAction.external_reference a) =
    Ok (ExpectedAction.external_reference a).
Proof.
  unfold ExpectedAction.create. intros H. run_inv H. destruct a; cbn in *. congruence.
Qed.

Lemma batch_scope b : constructed_batch b ->
  text "source_system" (Batch.source_system b) /\
  (forall o, o ∈ Batch.observations b ->
     ExtObservation.source_system o = Batch.source_system b) /\
  (forall e, e ∈ Batch.audit_events b -> AuditEvent.source_system e = Batch.source_system b).
Proof.
  intros (Hb & _ & _). apply batch_create in Hb as [Ht Hs]. split; [done|].
  unfold Batch.validate_scope in Hs. run_inv Hs. rewrite forallb_forall in H, H1.
  split; intros x Hx%list_elem_of_In; [apply H in Hx|apply H1 in Hx]; b2p; done.
Qed.

(** ** The dictionary of expected actions *)
Lemma expected_of_fold acts d :
  NoDup (dict_keys d) -> (forall k a, (k, a) ∈ d -> k = ExpectedAction.action_id a) ->
  let r := foldl (fun d a => dict_set (ExpectedAction.action_id a) a d) d acts in
  NoDup (dict_keys r) /\
  (forall k a, (k, a) ∈ r -> k = ExpectedAction.action_id a /\ ((k, a) ∈ d \/ a ∈ acts)).
Proof.
  revert d. induction acts as [|a acts IH]; intros d Hn Hk; simpl; [split; [done|]; eauto|].
  destruct (IH (dict_set (ExpectedAction.action_id a) a d)) as [H1 H2].
  - by apply dict_set_NoDup.
  - intros k b [[-> ->]|H]%elem_of_dict_set; auto.
  - split; [done|]. intros k b Hb. apply H2 in Hb as [-> [Hb|Hb]]; (split; [done|]).
    + apply elem_of_dict_set in Hb as [[_ ->]|Hb]; set_solver.
    + set_solver.
Qed.

Lemma expected_of_NoDup b acts : NoDup (dict_keys (expected_of b acts)).
Proof. apply expected_of_fold; [constructor|set_solver]. Qed.

Lemma expected_of_elem b acts k a :
  (k, a) ∈ expected_of b acts ->
  k = ExpectedAction.action_id a /\ a ∈ acts /\ in_scope b a = true.
Proof.
  intros H. destruct (expected_of_fold (List.filter (in_scope b) acts) []) as [_ Hf];
    [constructor|set_solver|].
  apply Hf in H as [Hk [H|H]]; [set_solver|].
  apply list_elem_of_In, filter_In in H as [H ?]. apply list_elem_of_In in H. done.
Qed.

(** ** What [collect_findings] appends *)
Lemma about_cons id o os :
  about id (o :: os) = if bool_decide (ExtObservation.action_id o = Some id) then o :: about id os
                       else about id os.
Proof. reflexivity. Qed.

Section Collect.
Context (run : UUID) (b : ReconciliationBatch) (expected : list (UUID * ExpectedExternalAction)).
Hypothesis expected_nodup : NoDup (dict_keys expected).

Lemma observe_fold os fs m r :
  fold_o (observe run b expected) os (fs, m) = Ok r ->
  (forall f, f ∈ fst r <-> f ∈ fs \/ exists o, o ∈ os /\
     controlled expected (ExtObservation.action_id o) = false /\
     unexpected_observation run b o = Ok f) /\
  (forall id, dict_has id expected = true ->
     default [] (dict_get id (snd r)) = default [] (dict_get id m) ++ about id os).
Proof.
  revert fs m. induction os as [|o os IH]; intros fs m; cbn [fold_o].
  - intros [= <-]. simpl. split; [set_solver|]. intros. by rewrite app_nil_r.
  - intros (acc & H1 & H2)%obind_Ok. unfold observe in H1.
    destruct (controlled expected (ExtObservation.action_id o)) eqn:Hc.
    + destruct (ExtObservation.action_id o) as [i|] eqn:Hi; [|done]. cbn [controlled] in Hc.
      rewrite Hc in H1. injection H1 as <-. apply IH in H2 as [Ha Hb]. split.
      * intros f. rewrite Ha. split; [set_solver|]. intros [H|(o' & Ho & Hn & Hf)]; [auto|].
        apply elem_of_cons in Ho as [->|Ho]; [rewrite Hi in Hn; cbn in Hn; congruence|eauto].
      * intros id Hid. rewrite (Hb id Hid), about_cons, Hi. unfold file_observation.
        destruct (decide (i = id)) as [->|Hne].
        -- rewrite dict_get_set_eq, bool_decide_true by done. exact (eq_sym (app_assoc _ [o] _)).
        -- rewrite dict_get_set_ne, bool_decide_false by congruence. done.
    + assert (Hu : exists f, unexpected_observation run b o = Ok f /\ acc = (fs ++ [f], m)).
      { destruct (ExtObservation.action_id o); cbn [controlled] in Hc; rewrite ?Hc in H1;
          apply obind_Ok in H1 as (f & Hf & [= <-]); eauto. }
      destruct Hu as (f0 & Hf0 & ->). apply IH in H2 as [Ha Hb]. split.
      * intros f. rewrite Ha, elem_of_app, list_elem_of_singleton. split.
        -- intros [[?| ->]|(o' & ? & ? & ?)]; [by left|right; exists o|right; exists o'];
             (split; [by constructor|done]).
        -- intros [?|(o' & [->|Ho]%elem_of_cons & Hn & Hf)]; [auto| |eauto 6].
           left. right. congruence.
      * intros id Hid. rewrite (Hb id Hid), about_cons, bool_decide_false; [done|].
        intros E. rewrite E in Hc. cbn in Hc. congruence.
Qed.

Lemma audit_fold es fs r :
  fold_o (audit run expected) es fs = Ok r ->
  forall f, f ∈ r <-> f ∈ fs \/ exists e, e ∈ es /\
    controlled expected (AuditEvent.action_id e) = false /\ unexpected_audit_event run e = Ok f.
Proof.
  intros H f. rewrite (fold_o_emit (audit run expected) (fun e => if controlled expected (AuditEvent.action_id e) then None
    else Some (unexpected_audit_event run e)) ltac:(intros; unfold audit; by destruct (controlled _ _)) _ _ _ H).
  split; (intros [Hf|(e & He & Hx)]; [by left|right; exists e]).
  - split; [done|]. case_match; [discriminate|]. split; congruence.
  - destruct Hx as [-> Hx]. split; congruence.
Qed.

Lemma judge_fold m xs fs r :
  fold_o (judge run b m) xs fs = Ok r ->
  forall f, f ∈ r <-> f ∈ fs \/ exists kv, kv ∈ xs /\
    verdict run b (default [] (dict_get (fst kv) m)) (fst kv) (snd kv) = Some (Ok f).
Proof.
  intros H f. by rewrite (fold_o_emit (judge run b m) (fun kv =>
    verdict run b (default [] (dict_get (fst kv) m)) (fst kv) (snd kv)) ltac:(intros; reflexivity) _ _ _ H).
Qed.

Lemma dict_has_elem id a : (id, a) ∈ expected -> dict_has id expected = true.
Proof. intros H. unfold dict_has. by rewrite (elem_dict_get _ _ _ expected_nodup H). Qed.

(** The findings before deduplication and sorting *)
Inductive raw : ReconciliationFinding -> Prop :=
| raw_health fs f : health_findings run b = Ok fs -> f ∈ fs -> raw f
| raw_observation o f : o ∈ Batch.observations b ->
    controlled expected (ExtObservation.action_id o) = false ->
    unexpected_observation run b o = Ok f -> raw f
| raw_audit e f : e ∈ Batch.audit_events b ->
    controlled expected (AuditEvent.action_id e) = false ->
    unexpected_audit_event run e = Ok f -> raw f
| raw_verdict id a f : (id, a) ∈ expected ->
    verdict run b (about id (Batch.observations b)) id a = Some (Ok f) -> raw f.

Lemma collect_raw fs : collect_findings run b expected = Ok fs -> forall f, f ∈ fs <-> raw f.
Proof.
  unfold collect_findings. intros H f.
  apply obind_Ok in H as (hs & Hh & H). apply obind_Ok in H as (acc & Ho & H).
  apply obind_Ok in H as (as_ & Ha & H).
  rewrite (judge_fold _ _ _ _ H f), (audit_fold _ _ _ Ha f).
  apply observe_fold in Ho as [Ho Hd]. rewrite (Ho f).
  assert (Hv : forall kv, kv ∈ expected -> default [] (dict_get (fst kv) (snd acc)) =
            about (fst kv) (Batch.observations b)).
  { intros [id a] Hin. cbn [fst]. rewrite (Hd id (dict_has_elem _ _ Hin)). done. }
  setoid_rewrite elem_of_sort_by. split.
  - intros [[[?|(o & ? & ? & ?)]|(e & ? & ? & ?)]|([id a] & Hin & Hf)].
    + by eapply raw_health. + by eapply raw_observation. + by eapply raw_audit.
    + rewrite (Hv _ Hin) in Hf. by eapply raw_verdict.
  - intros [fs' f' ? ?|o f' ? ? ?|e f' ? ? ?|id a f' Hin Hf].
    + left. left. left. congruence.
    + left. left. right. eauto.
    + left. right. eauto.
    + right. exists (id, a). split; [done|]. by rewrite (Hv _ Hin).
Qed.
End Collect.

(** ** The verdict about an action *)
Lemma foldl_best_in {A} (better : A -> A -> bool) l x :
  foldl (fun best y => if better best y then y else best) x l ∈ x :: l.
Proof.
  revert x. induction l as [|y l IH]; intros x; simpl; [set_solver|].
  specialize (IH (if better x y then y else x)). destruct (better x y); set_solver.
Qed.

Lemma latest_in os o : latest os = Some o -> o ∈ os.
Proof.
  unfold latest, max_by. destruct os as [|x os]; [discriminate|]. intros [= <-]. apply foldl_best_in.
Qed.

Lemma latest_None os : latest os = None -> os = [].
Proof. by destruct os. Qed.

Lemma sorted_set_several l :
  if (1 <? length (sorted_set l))%nat then exists x y, x ∈ l /\ y ∈ l /\ x <> y
  else forall x y, x ∈ l -> y ∈ l -> x = y.
Proof.
  assert (Hn : NoDup (sorted_set l)) by (unfold sorted_set; rewrite sort_by_perm; apply NoDup_remove_dups).
  pose proof (fun x => elem_of_sorted_set x l) as He.
  destruct (sorted_set l) as [|x [|y r]]; simpl.
  - intros x y Hx%He. set_solver.
  - intros y z Hy%He Hz%He. set_solver.
  - exists x, y. rewrite <- !He. apply NoDup_cons in Hn as [Hx _]. set_solver.
Qed.

Lemma digests_several os :
  if (1 <? length (sorted_set (map ExtObservation.state_digest os)))%nat
  then exists o1 o2, o1 ∈ os /\ o2 ∈ os /\
         ExtObservation.state_digest o1 <> ExtObservation.state_digest o2
  else forall o1 o2, o1 ∈ os -> o2 ∈ os ->
         ExtObservation.state_digest o1 = ExtObservation.state_digest o2.
Proof.
  pose proof (sorted_set_several (map ExtObservation.state_digest os)) as H.
  case_match.
  - destruct H as (x & y & Hx & Hy & Hne).
    apply list_elem_of_fmap in Hx as (o1 & -> & ?). apply list_elem_of_fmap in Hy as (o2 & -> & ?).
    by exists o1, o2.
  - intros o1 o2 H1 H2. apply H; by apply (list_elem_of_fmap_2 ExtObservation.state_digest).
Qed.

(** The shape of a finding about an expected action *)
Definition names_action (run : UUID) (src : string) (id : UUID) (f : ReconciliationFinding) : Prop :=
  ReconciliationFinding.action_id f = Some id /\
  ReconciliationFinding.outcome_ f <> UNEXPECTED_EXTERNAL_ACTION /\
  exists x d, ReconciliationFinding.finding_id f =
    finding_id run src (ReconciliationFinding.outcome_ f) (Some id) x d.

Lemma finding_names run src t o sev sm id x d det f :
  finding run src t o sev sm (Some id) x d det = Ok f -> o <> UNEXPECTED_EXTERNAL_ACTION ->
  names_action run src id f /\ ReconciliationFinding.outcome_ f = o.
Proof. intros (Hi & Ha & <- & _)%finding_fields Hne. repeat split; eauto. Qed.

(** One branch of [verdict]: the finding it makes is the one judged. *)
Ltac verdict_case :=
  let f := fresh "f" in let E := fresh "E" in
  intros f E; apply finding_names in E as [? ->]; [split; [done|]|by repeat case_bool_decide].

Lemma verdict_judged run b os id a :
  match verdict run b os id a with
  | Some o => forall f, o = Ok f -> names_action run (Batch.source_system b) id f /\
      judged (Batch.health b) os (ExpectedAction.expected_state_digest a)
        (Some (ReconciliationFinding.outcome_ f))
  | None => judged (Batch.health b) os (ExpectedAction.expected_state_digest a) None
  end.
Proof.
  unfold verdict. destruct (latest os) as [obs|] eqn:El.
  - pose proof (latest_in _ _ El) as Hin. pose proof (digests_several os) as Hd.
    destruct (_ <? _)%nat.
    + destruct Hd as (o1 & o2 & H1 & H2 & Hne). verdict_case.
      exact (judged_conflicting _ _ _ o1 o2 H1 H2 Hne).
    + assert (Hall : forall o, o ∈ os -> ExtObservation.state_digest o = ExtObservation.state_digest obs)
        by auto.
      assert (Hos : os <> []) by (by destruct os; [set_solver|]).
      destruct (ExpectedAction.expected_state_digest a) as [d|]; [case_bool_decide as Ed|].
      2: { verdict_case. by apply (judged_mismatch _ _ _ (ExtObservation.state_digest obs) d). }
      all: case_bool_decide; [verdict_case; apply (judged_matched _ _ _ (ExtObservation.state_digest obs))
                             |apply (judged_withheld _ _ _ (ExtObservation.state_digest obs))];
        try done; congruence.
  - apply latest_None in El as ->. verdict_case. case_bool_decide.
    + by apply judged_missing. + by apply judged_unverifiable.
Qed.

(** ** The order of the report *)
Lemma string_ltb_spec a b : String.ltb a b = true <-> String.leb a b = true /\ a <> b.
Proof.
  unfold String.ltb, String.leb. destruct (String.compare a b) eqn:E; split; try done.
  - intros [_ H]. apply String.compare_eq_iff in E. done.
  - intros _. split; [done|]. intros ->.
    pose proof (String.compare_antisym b b) as H. rewrite E in H. done.
  - by intros [? _].
Qed.

(** The lexicographic combination of strings with another order *)
Definition slex (x y : string) (rest : Prop) : Prop :=
  String.leb x y = true /\ x <> y \/ x = y /\ rest.

Lemma slex_total x y (P Q : Prop) : P \/ Q -> slex x y P \/ slex y x Q.
Proof.
  unfold slex. intros H. destruct (decide (x = y)) as [->|Hne]; [tauto|].
  destruct (String.leb_total x y); [left|right]; left; (split; [done|congruence]).
Qed.

Lemma slex_trans x y z (P Q R : Prop) : (P -> Q -> R) -> slex x y P -> slex y z Q -> slex x z R.
Proof.
  unfold slex. intros H [[H1 N1]|[-> HP]] [[H2 N2]|[<- HQ]]; [|by left|by left|by right; auto].
  left. split; [by eapply string_leb_trans|]. intros ->. apply N1. by apply String.leb_antisym.
Qed.

Lemma finding_leb_spec a b :
  finding_leb a b = true <->
  SEVERITY_RANK (ReconciliationFinding.severity b) < SEVERITY_RANK (ReconciliationFinding.severity a) \/
  SEVERITY_RANK (ReconciliationFinding.severity a) = SEVERITY_RANK (ReconciliationFinding.severity b) /\
  slex (ReconciliationOutcome_value (ReconciliationFinding.outcome_ a))
       (ReconciliationOutcome_value (ReconciliationFinding.outcome_ b))
    (slex (action_str (ReconciliationFinding.action_id a)) (action_str (ReconciliationFinding.action_id b))
      (String.leb (uuid_str (ReconciliationFinding.finding_id a))
                  (uuid_str (ReconciliationFinding.finding_id b)) = true)).
Proof.
  unfold finding_leb, slex.
  rewrite !orb_true_iff, !andb_true_iff, !orb_true_iff, !andb_true_iff, !orb_true_iff, !andb_true_iff,
    !string_ltb_spec, !String.eqb_eq, Z.ltb_lt, Z.eqb_eq. done.
Qed.

Lemma finding_leb_total a b : finding_leb a b = true \/ finding_leb b a = true.
Proof.
  rewrite !finding_leb_spec.
  destruct (Z.lt_trichotomy (SEVERITY_RANK (ReconciliationFinding.severity a))
              (SEVERITY_RANK (ReconciliationFinding.severity b))) as [H|[H|H]]; [by right; left| |by left; left].
  rewrite H. match goal with |- (_ \/ _ /\ ?P) \/ _ \/ _ /\ ?Q => enough (P \/ Q) by tauto end.
  apply slex_total, slex_total, String.leb_total.
Qed.

Lemma finding_leb_trans a b c :
  finding_leb a b = true -> finding_leb b c = true -> finding_leb a c = true.
Proof.
  rewrite !finding_leb_spec. intros [H1|[E1 H1]] [H2|[E2 H2]]; [left; lia|left; lia|left; lia|].
  right. split; [congruence|]. revert H1 H2. apply slex_trans, slex_trans, string_leb_trans.
Qed.

(** ** Deduplication by identity *)
Lemma by_id_fold fs d :
  NoDup (dict_keys d) -> (forall k f, (k, f) ∈ d -> k = ReconciliationFinding.finding_id f) ->
  let r := foldl (fun d f => dict_set (ReconciliationFinding.finding_id f) f d) d fs in
  NoDup (dict_keys r) /\
  (forall k f, (k, f) ∈ r -> k = ReconciliationFinding.finding_id f /\ ((k, f) ∈ d \/ f ∈ fs)) /\
  (forall k, k ∈ dict_keys d \/ k ∈ map ReconciliationFinding.finding_id fs -> k ∈ dict_keys r).
Proof.
  revert d. induction fs as [|f fs IH]; intros d Hn Hk; simpl.
  - split; [done|]. split; [eauto|]. set_solver.
  - destruct (IH (dict_set (ReconciliationFinding.finding_id f) f d)) as (H1 & H2 & H3).
    + by apply dict_set_NoDup.
    + intros k g [[-> ->]|H]%elem_of_dict_set; auto.
    + split; [done|]. split.
      * intros k g Hg. apply H2 in Hg as [-> [Hg|Hg]]; (split; [done|]); [|set_solver].
        apply elem_of_dict_set in Hg as [[_ ->]|Hg]; set_solver.
      * intros k Hin. apply H3. rewrite dict_keys_set. unfold dict_has.
        destruct (dict_get (ReconciliationFinding.finding_id f) d) eqn:E; [|set_solver].
        apply dict_get_elem, (list_elem_of_fmap_2 fst) in E. simpl in E. set_solver.
Qed.

Lemma dedup_spec fs :
  let r := dict_values (by_finding_id fs) in
  NoDup r /\ NoDup (map ReconciliationFinding.finding_id r) /\ (forall f, f ∈ r -> f ∈ fs) /\
  (forall f, f ∈ fs -> exists g, g ∈ r /\
     ReconciliationFinding.finding_id g = ReconciliationFinding.finding_id f).
Proof.
  destruct (by_id_fold fs []) as (H1 & H2 & H3); [constructor|set_solver|]. simpl in *.
  fold (by_finding_id fs) in H1, H2, H3.
  assert (Hk : map ReconciliationFinding.finding_id (dict_values (by_finding_id fs)) =
               dict_keys (by_finding_id fs)).
  { unfold dict_values, dict_keys. rewrite map_map. apply map_ext_in. intros [k f] Hin.
    apply list_elem_of_In in Hin. apply H2 in Hin as [-> _]. done. }
  split; [|rewrite Hk; split; [done|]].
  - apply (NoDup_fmap_1 ReconciliationFinding.finding_id). by rewrite <- Hk in H1.
  - split.
    + intros f Hf. apply list_elem_of_fmap in Hf as ([k g] & -> & Hin).
      apply H2 in Hin as [_ [Hin|Hin]]; [set_solver|done].
    + intros f Hf. specialize (H3 (ReconciliationFinding.finding_id f)).
      rewrite <- Hk in H3. destruct (list_elem_of_fmap_1 ReconciliationFinding.finding_id _ _
        (H3 (or_intror (list_elem_of_fmap_2 ReconciliationFinding.finding_id _ _ Hf)))) as (g & Hg & Hin).
      by exists g.
Qed.

(** ** Constructed inputs never make the engine raise *)
Lemma verdict_total run b os id a :
  text "source_system" (Batch.source_system b) ->
  (forall o, o ∈ os -> optional (NonBlankStr "external_reference") (ExtObservation.external_reference o) =
       Ok (ExtObservation.external_reference o)) ->
  optional (NonBlankStr "external_reference") (ExpectedAction.external_reference a) =
    Ok (ExpectedAction.external_reference a) ->
  match verdict run b os id a with Some o => exists f, o = Ok f | None => True end.
Proof.
  intros Hs Ho Ha. unfold verdict. destruct (latest os) as [obs|] eqn:El.
  - apply latest_in, Ho in El.
    assert (Hr : optional (NonBlankStr "external_reference")
        (or_opt (ExtObservation.external_reference obs) (ExpectedAction.external_reference a)) =
      Ok (or_opt (ExtObservation.external_reference obs) (ExpectedAction.external_reference a)))
      by (unfold or_opt; by destruct (truthy _)).
    destruct (_ <? _)%nat; [by apply finding_total|].
    destruct (ExpectedAction.expected_state_digest a); repeat case_bool_decide; try done;
      by apply finding_total.
  - apply finding_total; [done| |done]. by case_bool_decide.
Qed.

Lemma health_total run b : text "source_system" (Batch.source_system b) ->
  exists fs, health_findings run b = Ok fs.
Proof.
  intros Hs. unfold health_findings. case_bool_decide; [by eexists|].
  edestruct finding_total as [f ->]; [exact Hs| |reflexivity|by eexists].
  by destruct (Batch.health b).
Qed.

Lemma collect_total run b expected :
  constructed_batch b -> NoDup (dict_keys expected) ->
  (forall k a, (k, a) ∈ expected -> ExpectedAction.create a = Ok a) ->
  exists fs, collect_findings run b expected = Ok fs.
Proof.
  intros Hb Hn Ha. destruct (batch_scope _ Hb) as (Hs & Hso & Hse). destruct Hb as (_ & Ho & He).
  unfold collect_findings. destruct (health_total run b Hs) as [hs ->]. cbn [obind].
  assert (Hobs : exists acc, fold_o (observe run b expected) (Batch.observations b) (hs, []) = Ok acc).
  { apply fold_o_total. intros [fs m] o Hin. unfold observe, unexpected_observation.
    pose proof (observation_reference _ (Ho _ Hin)) as Hr.
    destruct (ExtObservation.action_id o); [destruct (dict_has _ expected); [by eexists|]|];
      (edestruct finding_total as [f ->]; [exact Hs|reflexivity|exact Hr|by eexists]). }
  destruct Hobs as [acc Hobs]. rewrite Hobs. cbn [obind].
  assert (Haud : exists fs, fold_o (audit run expected) (Batch.audit_events b) (fst acc) = Ok fs).
  { apply fold_o_total. intros fs e Hin. unfold audit, unexpected_audit_event.
    destruct (controlled _ _); [by eexists|]. rewrite (Hse _ Hin).
    edestruct finding_total as [f ->]; [exact Hs|reflexivity|apply audit_reference; auto|by eexists]. }
  destruct Haud as [fs ->]. cbn [obind].
  apply fold_o_total. intros fs' [k a] Hin. rewrite elem_of_sort_by in Hin. unfold judge. cbn [fst snd].
  apply (observe_fold run b expected Hn) in Hobs as [_ Hd].
  rewrite (Hd k (dict_has_elem _ Hn _ _ Hin)). cbn [dict_get default app].
  pose proof (verdict_total run b (about k (Batch.observations b)) k a Hs) as Hv.
  destruct (verdict _ _ _ _ _); [|by eexists].
  destruct Hv as [f ->]; [|by apply action_reference; eauto|by eexists].
  intros x Hin'. apply observation_reference, Ho.
  unfold about in Hin'. by apply list_elem_of_In, filter_In in Hin' as [Hin'%list_elem_of_In _].
Qed.

(** ** The report *)
Lemma reconcile_members run acts b fs :
  reconcile run acts b = Ok fs ->
  NoDup fs /\ NoDup (map ReconciliationFinding.finding_id fs) /\ sorted_by finding_leb fs /\
  (forall f, f ∈ fs -> raw run b (expected_of b acts) f) /\
  (forall f, raw run b (expected_of b acts) f -> exists g, g ∈ fs /\
     ReconciliationFinding.finding_id g = ReconciliationFinding.finding_id f).
Proof.
  unfold reconcile. intros (raws & Hc & [= <-])%obind_Ok.
  pose proof (collect_raw run b _ (expected_of_NoDup b acts) _ Hc) as Hraw.
  destruct (dedup_spec raws) as (H1 & H2 & H3 & H4).
  split; [by rewrite sort_by_perm|]. split.
  { rewrite (fmap_Permutation ReconciliationFinding.finding_id _ _ (sort_by_perm finding_leb _)). done. }
  split; [apply sort_by_sorted; [apply finding_leb_total|apply finding_leb_trans]|].
  split; intros f Hf.
  - apply Hraw, H3. by rewrite elem_of_sort_by in Hf.
  - apply Hraw, H4 in Hf as (g & Hg & E). exists g. by rewrite elem_of_sort_by.
Qed.

(** The findings of a report about an action *)
Definition concerning (id : UUID) (fs : list ReconciliationFinding) : list ReconciliationFinding :=
  List.filter (fun f => bool_decide (ReconciliationFinding.action_id f = Some id)) fs.

Lemma elem_of_concerning id fs f :
  f ∈ concerning id fs <-> f ∈ fs /\ ReconciliationFinding.action_id f = Some id.
Proof.
  unfold concerning. rewrite list_elem_of_In, filter_In, <- list_elem_of_In, bool_decide_eq_true. done.
Qed.

(** Raw findings that are not verdicts *)
Lemma raw_other run b expected f id a :
  constructed_batch b -> NoDup (dict_keys expected) -> (id, a) ∈ expected ->
  raw run b expected f ->
  (ReconciliationFinding.action_id f <> Some id /\
   (ReconciliationFinding.action_id f = None \/
    ReconciliationFinding.outcome_ f = UNEXPECTED_EXTERNAL_ACTION) /\
   exists x d, ReconciliationFinding.finding_id f = finding_id run (Batch.source_system b)
     (ReconciliationFinding.outcome_ f) (ReconciliationFinding.action_id f) x d) \/
  exists id' a', (id', a') ∈ expected /\
    verdict run b (about id' (Batch.observations b)) id' a' = Some (Ok f).
Proof.
  intros Hb Hn Hin. destruct (batch_scope _ Hb) as (_ & _ & Hse).
  pose proof (dict_has_elem _ Hn _ _ Hin) as Hh.
  intros [fs f' H1 H2|o f' H1 H2 H3|e f' H1 H2 H3|id' a' f' H1 H2]; [left..|right; eauto].
  - unfold health_findings in H1. case_bool_decide; [injection H1 as <-; set_solver|].
    apply obind_Ok in H1 as (g & Hg & [= <-]). apply list_elem_of_singleton in H2 as ->.
    apply finding_fields in Hg as (Hi & Ha & Ho & _). rewrite Ha, Ho. split; [done|]. eauto.
  - unfold unexpected_observation in H3.
    apply finding_fields in H3 as (Hi & Ha & Ho & _). rewrite Ha, Ho. split; [|eauto].
    intros E. rewrite E in H2. cbn in H2. congruence.
  - unfold unexpected_audit_event in H3. rewrite (Hse _ H1) in H3.
    apply finding_fields in H3 as (Hi & Ha & Ho & _). rewrite Ha, Ho. split; [|eauto].
    intros E. rewrite E in H2. cbn in H2. congruence.
Qed.

Lemma singleton_list {A} (l : list A) v : NoDup l -> (forall x, x ∈ l <-> x = v) -> l = [v].
Proof.
  intros Hn Hv. destruct l as [|x l].
  - pose proof (proj2 (Hv v) eq_refl). set_solver.
  - assert (x = v) as -> by (apply Hv; set_solver). destruct l as [|y l]; [done|].
    assert (y = v) as -> by (apply Hv; set_solver). apply NoDup_cons in Hn. set_solver.
Qed.

Section Action.
Context (run : UUID) (acts : list ExpectedExternalAction) (b : ReconciliationBatch)
  (id : UUID) (a : ExpectedExternalAction).
Hypothesis Hb : constructed_batch b.
Hypothesis Hacts : constructed_actions acts.
Hypothesis Hin : (id, a) ∈ expected_of b acts.

Let verdict_on (i : UUID) (c : ExpectedExternalAction) : option (outcome ReconciliationFinding) :=
  verdict run b (about i (Batch.observations b)) i c.

Lemma expected_valid i c : (i, c) ∈ expected_of b acts -> valid_uuid i.
Proof using Hacts. intros (-> & Hc & _)%expected_of_elem. by apply Hacts. Qed.

Lemma raw_concerning f :
  raw run b (expected_of b acts) f -> ReconciliationFinding.action_id f = Some id ->
  verdict_on id a = Some (Ok f).
Proof using Hb Hin.
  intros Hf Ha. pose proof (expected_of_NoDup b acts) as Hn.
  destruct (raw_other _ _ _ _ _ _ Hb Hn Hin Hf) as [[Hne _]|(id' & a' & Hin' & Hv)]; [done|].
  pose proof (verdict_judged run b (about id' (Batch.observations b)) id' a') as Hj. rewrite Hv in Hj.
  destruct (Hj f eq_refl) as [[Ha' _] _]. assert (id' = id) as -> by congruence.
  assert (a' = a) as -> by (apply (elem_dict_get _ _ _ Hn) in Hin', Hin; congruence). done.
Qed.

(** Nothing else takes the identity of a verdict. *)
Lemma verdict_identity v g :
  verdict_on id a = Some (Ok v) -> raw run b (expected_of b acts) g ->
  ReconciliationFinding.finding_id g = ReconciliationFinding.finding_id v ->
  g = v \/ uuid5_collision.
Proof using Hb Hacts Hin.
  unfold verdict_on. intros Ev Hg Eg. pose proof (expected_of_NoDup b acts) as Hn.
  pose proof (verdict_judged run b (about id (Batch.observations b)) id a) as Hj. rewrite Ev in Hj.
  destruct (Hj v eq_refl) as [(Hva & Hvo & x & d & Hvi) _].
  destruct (raw_other _ _ _ _ _ _ Hb Hn Hin Hg) as [(Hne & Hor & x' & d' & Hgi)|(id' & a' & Hin' & Hv')].
  - rewrite Hgi, Hvi in Eg. apply finding_id_inj in Eg as [[Eo Ea]|]; [|by right].
    destruct Hor as [Hnone|Hun]; [|congruence]. rewrite Hnone in Ea.
    assert (None = Some id) as [=]. apply Ea; [done|]. intros u [= <-]. by eapply expected_valid.
  - pose proof (verdict_judged run b (about id' (Batch.observations b)) id' a') as Hj'. rewrite Hv' in Hj'.
    destruct (Hj' g eq_refl) as [(Hga & _ & x' & d' & Hgi) _].
    rewrite Hgi, Hvi in Eg. apply finding_id_inj in Eg as [[Eo Ea]|]; [|by right].
    assert (Some id' = Some id) as [= ->] by (apply Ea; intros u [= <-]; by eapply expected_valid).
    left. pose proof (raw_concerning g Hg Hga) as H. unfold verdict_on in H. congruence.
Qed.

Lemma verdict_ok o : verdict_on id a = Some o -> exists v, o = Ok v.
Proof using Hb Hacts Hin.
  unfold verdict_on. intros Ev.
  pose proof (verdict_total run b (about id (Batch.observations b)) id a) as Ht. rewrite Ev in Ht.
  apply Ht; [by apply batch_scope| |].
  - intros x Hx. apply observation_reference. destruct Hb as (_ & Ho & _). apply Ho.
    unfold about in Hx. by apply list_elem_of_In, filter_In in Hx as [Hx%list_elem_of_In _].
  - apply action_reference. apply expected_of_elem in Hin as (_ & Hx & _). by apply Hacts.
Qed.

(** What the report says about an expected action is its verdict. *)
Lemma concerning_verdict fs :
  reconcile run acts b = Ok fs ->
  match verdict_on id a with
  | None => concerning id fs = []
  | Some o => exists v, o = Ok v /\ (concerning id fs = [v] \/ uuid5_collision)
  end.
Proof using Hb Hacts Hin.
  intros Hrec. destruct (reconcile_members _ _ _ _ Hrec) as (Hnd & _ & _ & Hraw & Hkept).
  destruct (verdict_on id a) as [o|] eqn:Ev.
  2:{ destruct (concerning id fs) as [|f l] eqn:E; [done|].
      assert (f ∈ concerning id fs) as [Hf Ha]%elem_of_concerning by (rewrite E; constructor).
      pose proof (raw_concerning f (Hraw f Hf) Ha). congruence. }
  destruct (verdict_ok o Ev) as [v ->]. exists v. split; [done|].
  destruct (Hkept v (raw_verdict _ _ _ id a v Hin Ev)) as (g & Hg & Eg).
  destruct (verdict_identity v g Ev (Hraw g Hg) Eg) as [->|]; [left|by right].
  apply singleton_list.
  { unfold concerning. by apply NoDup_ListNoDup, List.NoDup_filter, NoDup_ListNoDup. }
  intros y. rewrite elem_of_concerning. split.
  - intros [Hy Hya]. pose proof (raw_concerning y (Hraw y Hy) Hya). congruence.
  - intros ->. split; [done|].
    pose proof (verdict_judged run b (about id (Batch.observations b)) id a) as Hj.
    unfold verdict_on in Ev. rewrite Ev in Hj. by destruct (Hj v eq_refl) as [[? _] _].
Qed.
End Action.
(** Where a finding MATCHED comes from *)
Lemma reconcile_matched run acts b fs f :
  reconcile run acts b = Ok fs -> f ∈ fs -> ReconciliationFinding.outcome_ f = MATCHED ->
  Batch.health b = HEALTHY /\
  exists a d, a ∈ acts /\ in_scope b a = true /\
    ReconciliationFinding.action_id f = Some (ExpectedAction.action_id a) /\
    about (ExpectedAction.action_id a) (Batch.observations b) <> [] /\
    (forall o, o ∈ about (ExpectedAction.action_id a) (Batch.observations b) ->
       ExtObservation.state_digest o = d) /\
    (forall e, ExpectedAction.expected_state_digest a = Some e -> e = d).
Proof.
  intros Hrec Hf Hm. destruct (reconcile_members _ _ _ _ Hrec) as (_ & _ & _ & Hraw & _).
  destruct (Hraw f Hf) as [hs f H1 H2|o f H1 H2 H3|e f H1 H2 H3|id a f Hin Hv].
  - unfold health_findings in H1. case_bool_decide; [injection H1 as <-; set_solver|].
    apply obind_Ok in H1 as (g & Hg & [= <-]). apply list_elem_of_singleton in H2 as ->.
    apply finding_fields in Hg as (_ & _ & Ho & _). rewrite Ho in Hm. by case_bool_decide.
  - unfold unexpected_observation in H3. apply finding_fields in H3 as (_ & _ & Ho & _). congruence.
  - unfold unexpected_audit_event in H3. apply finding_fields in H3 as (_ & _ & Ho & _). congruence.
  - pose proof (verdict_judged run b (about id (Batch.observations b)) id a) as Hj. rewrite Hv in Hj.
    destruct (Hj f eq_refl) as [(Ha & _) J]. rewrite Hm in J. inversion J; subst.
    apply expected_of_elem in Hin as (-> & Hin & Hs). split; [done|]. exists a, d. done.
Qed.
End EngineFacts.

Module AssessFacts.
Import Health Engine EngineFacts.

Lemma map_o_same {A} (f : A -> outcome A) l : (forall x, x ∈ l -> f x = Ok x) -> map_o f l = Ok l.
Proof.
  induction l as [|x l IH]; simpl; [done|]. intros H. rewrite H by constructor.
  rewrite IH; [done|]. intros y Hy. apply H. by constructor.
Qed.

Lemma map_o_elem {A B} (f : A -> outcome B) l k y :
  map_o f l = Ok k -> y ∈ k -> exists x, x ∈ l /\ f x = Ok y.
Proof.
  revert k. induction l as [|x l IH]; simpl; intros k H Hy.
  - injection H as <-. set_solver.
  - apply obind_Ok in H as (b & Hb & (bs & Hbs & [= <-])%obind_Ok). set_solver.
Qed.

Lemma optional_idem {A} (f : A -> outcome A) o r :
  (forall x y, f x = Ok y -> f y = Ok y) -> optional f o = Ok r -> optional f r = Ok r.
Proof.
  intros Hf. destruct o as [x|]; simpl; [|by intros [= <-]].
  intros (y & Hy & [= <-])%obind_Ok. simpl. by rewrite (Hf _ _ Hy).
Qed.

Lemma classify_healthy age now e :
  classify age now e = Healthy <-> exists h, e = (HEALTHY, Some h) /\ now - h <= seconds age.
Proof.
  unfold classify. destruct e as [h w]. split.
  - destruct (_ && _) eqn:E.
    + intros _. b2p. subst. destruct w as [w|]; [|done]. b2p. eauto.
    + repeat case_match; discriminate.
  - intros (w' & [= -> ->] & Hw). rewrite bool_decide_true by done. cbn.
    by apply Z.leb_le in Hw as ->.
Qed.
Lemma elem_of_matched findings s : s ∈ matched_sources findings <-> exists f, f ∈ findings /\
  ReconciliationFinding.source_system f = s /\ ReconciliationFinding.outcome_ f = MATCHED.
Proof.
  unfold matched_sources. rewrite list_elem_of_fmap. setoid_rewrite list_elem_of_In at 1.
  setoid_rewrite filter_In. setoid_rewrite <- list_elem_of_In. setoid_rewrite bool_decide_eq_true.
  naive_solver.
Qed.

Section Assess.
Context (profile : ProductionCompletenessProfile) (now : datetime)
  (sh : list (string * (ReconciliationSourceHealth * option datetime)))
  (findings : list ReconciliationFinding).
Let required := Profile.required_sources profile.
Let class := source_class profile now sh.
Let of_class := sources_of profile now sh.

Lemma elem_of_class c s : s ∈ of_class c <-> s ∈ required /\ class s = c.
Proof.
  unfold of_class, sources_of.
  rewrite list_elem_of_In, filter_In, <- list_elem_of_In, bool_decide_eq_true. done.
Qed.

Lemma of_class_nil c : of_class c = [] <-> forall s, s ∈ required -> class s <> c.
Proof.
  split.
  - intros E s Hs Hc. assert (s ∈ of_class c) as H by (by apply elem_of_class).
    rewrite E in H. set_solver.
  - intros H. destruct (of_class c) as [|s k] eqn:E; [done|].
    assert (s ∈ of_class c) as [Hs Hc]%elem_of_class by (rewrite E; constructor).
    by destruct (H s).
Qed.

Lemma classes_partition :
  of_class Healthy ++ of_class Stale ++ of_class Unavailable ++ of_class Conflicting ≡ₚ required.
Proof.
  unfold of_class, sources_of. fold required. fold class.
  induction required as [|s l IH]; [done|]. simpl.
  destruct (class s); simpl; [by constructor| | |].
  - etransitivity; [symmetry; apply Permutation_middle|]. by constructor.
  - rewrite app_assoc. etransitivity; [symmetry; apply Permutation_middle|]. rewrite <- app_assoc.
    by constructor.
  - rewrite (app_assoc (List.filter (fun x => bool_decide (class x = Stale)) l)), app_assoc.
    etransitivity; [symmetry; apply Permutation_middle|]. rewrite <- !app_assoc. by constructor.
Qed.

Lemma elem_of_blocking i : i ∈ blocking profile findings <-> exists f, f ∈ findings /\
  ReconciliationFinding.finding_id f = i /\ ReconciliationFinding.source_system f ∈ required /\
  ReconciliationFinding.outcome_ f <> MATCHED.
Proof.
  unfold blocking. rewrite list_elem_of_fmap. setoid_rewrite list_elem_of_In at 1.
  setoid_rewrite filter_In. setoid_rewrite <- list_elem_of_In.
  split; intros (f & H1 & H2); exists f.
  - destruct H2 as [H2 H3]. b2p. done.
  - destruct H2 as (H2 & H3 & H4). split; [done|]. split; [done|].
    rewrite andb_true_iff, negb_true_iff, bool_decide_eq_false, mem_true. done.
Qed.

Lemma source_healthy s : class s = Healthy <->
  exists h, dict_get s sh = Some (HEALTHY, Some h) /\
    now - h <= seconds (Profile.max_source_age_seconds profile).
Proof.
  unfold class, source_class. rewrite classify_healthy.
  destruct (dict_get s sh) as [e|]; simpl; [naive_solver|]. naive_solver.
Qed.

Lemma is_complete_spec : is_complete profile now sh findings = true <->
  (forall s, s ∈ required -> class s = Healthy) /\ blocking profile findings = [] /\
  (Profile.require_matched_reconciliation profile = true ->
   forall s, s ∈ required -> s ∈ matched_sources findings).
Proof.
  unfold is_complete. fold of_class. fold required.
  assert (Hh : (of_class Stale = [] /\ of_class Unavailable = [] /\ of_class Conflicting = []) <->
               forall s, s ∈ required -> class s = Healthy).
  { rewrite !of_class_nil. split.
    - intros (H1 & H2 & H3) s Hs. specialize (H1 s Hs). specialize (H2 s Hs). specialize (H3 s Hs).
      by destruct (class s).
    - intros H. repeat split; intros s Hs; rewrite (H s Hs); discriminate. }
  rewrite <- Hh.
  assert (Hm : forallb (fun s => mem s (matched_sources findings)) required = true <->
               forall s, s ∈ required -> s ∈ matched_sources findings).
  { rewrite forallb_forall. setoid_rewrite mem_true. setoid_rewrite list_elem_of_In at 2.
    done. }
  rewrite <- Hm.
  destruct (Profile.require_matched_reconciliation profile); rewrite ?andb_true_iff, !bool_decide_eq_true;
    naive_solver.
Qed.

(** A constructed profile's assessment is constructed without an error. *)
Lemma assess_total : Profile.create profile = Ok profile ->
  exists r, assess_production_completeness profile now sh findings = Ok r /\
    Completeness.complete r = is_complete profile now sh findings /\
    Completeness.healthy_sources r = sort_by String.leb (of_class Healthy) /\
    Completeness.stale_sources r = sort_by String.leb (of_class Stale) /\
    Completeness.unavailable_sources r = sort_by String.leb (of_class Unavailable) /\
    Completeness.conflicting_sources r = sort_by String.leb (of_class Conflicting) /\
    Completeness.blocking_findings r = blocking profile findings.
Proof.
  unfold Profile.create. intros H. run_inv H.
  unfold assess_production_completeness, Completeness.create. fold of_class. cbn.
  assert (Hreq : forall f c, map_o (NonBlankStr f) (sort_by String.leb (of_class c)) =
                             Ok (sort_by String.leb (of_class c))).
  { intros f c. apply map_o_same. intros s. rewrite elem_of_sort_by.
    intros [Hs _]%elem_of_class. unfold required in Hs.
    assert (Hmap : map_o (NonBlankStr "required_sources") (Profile.required_sources profile) =
                   Ok (Profile.required_sources profile)) by (destruct profile; cbn in *; congruence).
    clear - Hs Hmap.
    destruct (map_o_elem _ _ _ _ Hmap Hs) as (x & _ & Hx). exact (NonBlankStr_again _ _ _ _ Hx). }
  rewrite !Hreq. destruct profile; cbn in *.
  match goal with E : _ = {| Profile.profile_id := _ |} |- _ => injection E as -> -> -> -> -> end.
  repeat match goal with E : ?x = Ok _ |- context [?x] => rewrite E end. cbn. eauto 10.
Qed.
End Assess.
End AssessFacts.

Module ReconciliationProperties.
Import Health Engine Judgement EngineFacts AssessFacts.

(** C38: A finding MATCHED is earned, on every input: the batch is HEALTHY, the finding
    is about an expected action of the batch's tenant and source, the batch holds at
    least one observation of it, all of them carry one digest, and that digest is the
    promised one if there is one.  No stale, unavailable or conflicting evidence is
    ever turned into success, and no hash assumption is needed. *)
Theorem matched_is_earned run acts b fs f :
  reconcile run acts b = Ok fs -> f ∈ fs -> ReconciliationFinding.outcome_ f = MATCHED ->
  Batch.health b = HEALTHY /\
  exists a d, a ∈ acts /\ in_scope b a = true /\
    ReconciliationFinding.action_id f = Some (ExpectedAction.action_id a) /\
    about (ExpectedAction.action_id a) (Batch.observations b) <> [] /\
    (forall o, o ∈ about (ExpectedAction.action_id a) (Batch.observations b) ->
       ExtObservation.state_digest o = d) /\
    (forall e, ExpectedAction.expected_state_digest a = Some e -> e = d).
Proof. apply reconcile_matched. Qed.

(** C39: For constructed inputs the engine always reports, and its report is
    fail-closed and deterministic: at most one finding per identity, sorted by
    severity, outcome, action and identity; and what it says about each expected
    action of the batch's scope is exactly the abstract verdict, one finding of the
    outcome judged or, when agreeing evidence comes from a source that is not healthy,
    none (unless two names with one version-5 UUID can be exhibited). *)
Theorem reconcile_refines_judgement run acts b :
  constructed_batch b -> constructed_actions acts ->
  exists fs, reconcile run acts b = Ok fs /\ sorted_by finding_leb fs /\
    NoDup (map ReconciliationFinding.finding_id fs) /\
    forall id a, (id, a) ∈ expected_of b acts -> exists v,
      judged (Batch.health b) (about id (Batch.observations b))
        (ExpectedAction.expected_state_digest a) v /\
      (map ReconciliationFinding.outcome_ (concerning id fs) = match v with Some o => [o] | None => [] end
       \/ uuid5_collision).
Proof.
  intros Hb Ha. destruct (collect_total run b (expected_of b acts) Hb (expected_of_NoDup b acts)) as [raws Hc].
  { intros k a (_ & Hin & _)%expected_of_elem. by apply Ha. }
  assert (Hrec : exists fs, reconcile run acts b = Ok fs) by (unfold reconcile; rewrite Hc; by eexists).
  destruct Hrec as [fs Hrec]. exists fs.
  destruct (reconcile_members _ _ _ _ Hrec) as (_ & Hid & Hs & _). repeat split; [done..|].
  intros id a Hin. pose proof (concerning_verdict run acts b id a Hb Ha Hin fs Hrec) as Hcv. cbv beta zeta in Hcv.
  pose proof (verdict_judged run b (about id (Batch.observations b)) id a) as Hj.
  destruct (verdict _ _ _ _ _) as [o|]; [|exists None; rewrite Hcv; auto].
  destruct Hcv as (v & -> & Hv). destruct (Hj v eq_refl) as [_ J].
  eexists. split; [exact J|]. destruct Hv as [->|]; [by left|by right].
Qed.

(** The assessment of a constructed profile is complete exactly when every
    required source has a HEALTHY cursor whose watermark is at most the maximal age
    old, no finding of a required source is anything but MATCHED, and, where matched
    reconciliation is required, every required source has a MATCHED finding.  The four
    source lists are sorted and partition the required sources, and the blocking
    findings are the identities of the findings that block. *)
Theorem completeness_exact profile now sh findings :
  Profile.create profile = Ok profile ->
  exists r, assess_production_completeness profile now sh findings = Ok r /\
  (Completeness.complete r = true <->
    (forall s, s ∈ Profile.required_sources profile -> exists h,
       dict_get s sh = Some (HEALTHY, Some h) /\
       now - h <= seconds (Profile.max_source_age_seconds profile)) /\
    (forall f, f ∈ findings ->
       ReconciliationFinding.source_system f ∈ Profile.required_sources profile ->
       ReconciliationFinding.outcome_ f = MATCHED) /\
    (Profile.require_matched_reconciliation profile = true ->
     forall s, s ∈ Profile.required_sources profile -> exists f, f ∈ findings /\
       ReconciliationFinding.source_system f = s /\ ReconciliationFinding.outcome_ f = MATCHED)) /\
  Completeness.healthy_sources r ++ Completeness.stale_sources r ++
    Completeness.unavailable_sources r ++ Completeness.conflicting_sources r
    ≡ₚ Profile.required_sources profile /\
  Forall (sorted_by String.leb) [Completeness.healthy_sources r; Completeness.stale_sources r;
    Completeness.unavailable_sources r; Completeness.conflicting_sources r] /\
  (forall i, i ∈ Completeness.blocking_findings r <-> exists f, f ∈ findings /\
     ReconciliationFinding.finding_id f = i /\
     ReconciliationFinding.source_system f ∈ Profile.required_sources profile /\
     ReconciliationFinding.outcome_ f <> MATCHED).
Proof.
  intros Hp. destruct (assess_total profile now sh findings Hp) as (r & Hr & Hc & Hh & Hs & Hu & Hcf & Hb).
  exists r. split; [done|]. rewrite Hc, Hh, Hs, Hu, Hcf, Hb.
  split; [|split; [by rewrite !sort_by_perm; apply classes_partition|split]].
  - rewrite is_complete_spec. setoid_rewrite source_healthy. setoid_rewrite elem_of_matched.
    apply and_iff_compat_l, and_iff_compat_r. split.
    + intros Hnil f Hf Hsrc. destruct (decide (ReconciliationFinding.outcome_ f = MATCHED)); [done|].
      assert (ReconciliationFinding.finding_id f ∈ blocking profile findings) as Hin
        by (apply elem_of_blocking; eauto). rewrite Hnil in Hin. set_solver.
    + intros Hall. destruct (blocking profile findings) as [|i l] eqn:E; [done|].
      assert (i ∈ blocking profile findings) as (f & Hf & _ & Hsrc & Hne)%elem_of_blocking
        by (rewrite E; constructor). by destruct Hne; apply Hall.
  - repeat constructor; apply sort_by_sorted; first [exact String.leb_total|exact string_leb_trans].
  - apply elem_of_blocking.
Qed.

(** ** A concrete batch *)
Definition w_digest : string := "aaaaaaaaaaaaaaaaaaaaaaaaaaaaaaaaaaaaaaaaaaaaaaaaaaaaaaaaaaaaaaaa".

Definition w_action : ExpectedExternalAction := {|
  ExpectedAction.action_id := 5; ExpectedAction.run_id := 1; ExpectedAction.tenant_id := "acme";
  ExpectedAction.source_system := "github"; ExpectedAction.expected_state_digest := Some w_digest;
  ExpectedAction.external_reference := Some "pr/1" |}.

Definition w_observation : ExternalStateObservation := {|
  ExtObservation.observation_id := "o-1"; ExtObservation.tenant_id := "acme";
  ExtObservation.source_system := "github"; ExtObservation.observed_at := seconds 90;
  ExtObservation.state_digest := w_digest; ExtObservation.action_id := Some 5;
  ExtObservation.run_id := Some 1; ExtObservation.external_reference := None;
  ExtObservation.state := []; ExtObservation.evidence := [] |}.

Definition w_batch : ReconciliationBatch := {|
  Batch.tenant_id := "acme"; Batch.source_system := "github"; Batch.collected_at := seconds 100;
  Batch.health := HEALTHY; Batch.cursor := Some "c-1"; Batch.high_watermark := Some (seconds 95);
  Batch.observations := [w_observation]; Batch.audit_events := [] |}.

Lemma w_batch_constructed : constructed_batch w_batch.
Proof.
  split; [vm_compute; reflexivity|].
  split; [intros o [->|Ho]%elem_of_cons|intros e He]; [vm_compute; reflexivity|set_solver..].
Qed.

Lemma w_actions_constructed : constructed_actions [w_action].
Proof. intros a [->|Ha]%elem_of_cons; [|set_solver]. split; [vm_compute; reflexivity|unfold valid_uuid; cbn; lia]. Qed.

Lemma w_reconciled : exists f, reconcile 1 [w_action] w_batch = Ok [f] /\
  ReconciliationFinding.outcome_ f = MATCHED.
Proof. eexists. split; vm_compute; reflexivity. Qed.

Lemma matched_is_earned_witness : exists f, reconcile 1 [w_action] w_batch = Ok [f] /\
  ReconciliationFinding.outcome_ f = MATCHED /\ Batch.health w_batch = HEALTHY.
Proof.
  destruct w_reconciled as (f & H & Hm). exists f. split; [exact H|]. split; [exact Hm|].
  exact (proj1 (matched_is_earned 1 [w_action] w_batch [f] f H (list_elem_of_here _ _) Hm)).
Defined.

Lemma reconcile_refines_judgement_witness :
  exists fs, reconcile 1 [w_action] w_batch = Ok fs /\ sorted_by finding_leb fs.
Proof.
  destruct (reconcile_refines_judgement 1 [w_action] w_batch w_batch_constructed w_actions_constructed)
    as (fs & H & Hs & _).
  exists fs. split; [exact H|exact Hs].
Defined.

Definition w_profile : ProductionCompletenessProfile := {|
  Profile.profile_id := "p"; Profile.tenant_id := "acme"; Profile.organization_id := None;
  Profile.required_sources := ["github"; "jira"]; Profile.max_source_age_seconds := 900;
  Profile.require_matched_reconciliation := true |}.

Lemma completeness_exact_witness : exists r,
  assess_production_completeness w_profile (seconds 100) [("github", (HEALTHY, Some (seconds 95)))] [] = Ok r /\
  Completeness.unavailable_sources r = ["jira"].
Proof.
  destruct (completeness_exact w_profile (seconds 100) [("github", (HEALTHY, Some (seconds 95)))] []
              ltac:(vm_compute; reflexivity)) as (r & H & _).
  exists r. split; [exact H|]. vm_compute in H. injection H as <-. reflexivity.
Defined.
End ReconciliationProperties.
