(* ===== verification/ReconciliationRuns.v ===== *)
(** * Reconciliation: the store and the polling of sources

    [RStoreFacts] shows that the store only grows and never rewrites an identity;
    [RunProperties] states what a poll of a source does on each path: a failed
    collection, a collected batch, a poll that is not due. *)

From S2P Require Import Prelude Canonical Contracts Reconciliation ReconciliationProofs.
From Stdlib Require Import Lia.

Module RStoreFacts.
Import RStore.

(** What two findings, and two results, that compare equal share *)
Definition same_finding (a b : ReconciliationFinding) : Prop :=
  ReconciliationFinding.finding_id a = ReconciliationFinding.finding_id b /\
  ReconciliationFinding.run_id a = ReconciliationFinding.run_id b /\
  ReconciliationFinding.action_id a = ReconciliationFinding.action_id b /\
  ReconciliationFinding.source_system a = ReconciliationFinding.source_system b /\
  ReconciliationFinding.observed_at a = ReconciliationFinding.observed_at b /\
  ReconciliationFinding.outcome_ a = ReconciliationFinding.outcome_ b /\
  ReconciliationFinding.severity a = ReconciliationFinding.severity b /\
  ReconciliationFinding.summary a = ReconciliationFinding.summary b /\
  ReconciliationFinding.external_reference a = ReconciliationFinding.external_reference b.

Definition same_result (a b : ReconciliationRunResult) : Prop :=
  RunResult.reconciliation_id a = RunResult.reconciliation_id b /\
  RunResult.run_id a = RunResult.run_id b /\ RunResult.tenant_id a = RunResult.tenant_id b /\
  RunResult.source_system a = RunResult.source_system b /\
  RunResult.completed_at a = RunResult.completed_at b /\
  RunResult.health a = RunResult.health b /\ RunResult.cursor a = RunResult.cursor b /\
  RunResult.high_watermark a = RunResult.high_watermark b /\
  Forall2 same_finding (RunResult.findings a) (RunResult.findings b).

#[export] Instance same_finding_preorder : PreOrder same_finding.
Proof.
  split.
  - intros a. by repeat split.
  - unfold same_finding. intros a b c. intuition congruence.
Qed.

#[export] Instance same_result_preorder : PreOrder same_result.
Proof.
  split.
  - intros a. by repeat split.
  - unfold same_result. intros a b c E1 E2. destruct_and! E1. destruct_and! E2.
    repeat split; try congruence. by etransitivity.
Qed.

Lemma finding_eqb_same a b : finding_eqb a b = true -> same_finding a b.
Proof. unfold finding_eqb, same_finding. intros H. b2p. done. Qed.

Lemma findings_eqb_same l k : findings_eqb l k = true -> Forall2 same_finding l k.
Proof.
  revert k. induction l as [|a l IH]; intros [|b k]; simpl; try done. intros H. b2p.
  constructor; auto using finding_eqb_same.
Qed.

Lemma result_eqb_same a b : result_eqb a b = true -> same_result a b.
Proof.
  unfold result_eqb, same_result. intros H. b2p. repeat split; auto using findings_eqb_same.
Qed.

(** ** What every call keeps *)
Definition store_ok (st : store) : Prop :=
  NoDup (dict_keys (findings st)) /\
  (forall k f, (k, f) ∈ findings st ->
     ReconciliationFinding.finding_id f = k /\ is_Some (finding_tenants st !! k)) /\
  (forall k r, results st !! k = Some r -> RunResult.reconciliation_id r = k).

Definition extends (st st' : store) : Prop :=
  (forall k f, dict_get k (findings st) = Some f ->
     exists g, dict_get k (findings st') = Some g /\ same_finding f g) /\
  (forall k r, results st !! k = Some r ->
     exists q, results st' !! k = Some q /\ same_result r q) /\
  audit_events st ⊆ audit_events st'.

#[export] Instance extends_preorder : PreOrder extends.
Proof.
  split.
  - intros st. split; [|split; [|done]]; intros k x Hx; exists x; (split; [done|reflexivity]).
  - intros s1 s2 s3 (A1 & B1 & C1) (A2 & B2 & C2). split; [|split; [|set_solver]].
    + intros k f (g & Hg & E)%A1. apply A2 in Hg as (h & Hh & E'). exists h. split; [done|].
      by etransitivity.
    + intros k f (g & Hg & E)%B1. apply B2 in Hg as (h & Hh & E'). exists h. split; [done|].
      by etransitivity.
Qed.

(** A call that keeps the store in order and extends it *)
Definition keeps (st st' : store) : Prop := store_ok st -> store_ok st' /\ extends st st'.

#[export] Instance keeps_preorder : PreOrder keeps.
Proof.
  split.
  - intros st Hok. by split.
  - intros s1 s2 s3 H1 H2 Hok. destruct (H1 Hok) as [Hok2 E1]. destruct (H2 Hok2) as [Hok3 E2].
    split; [done|]. by etransitivity.
Qed.

#[export] Instance same_view_preorder {A B} (view : A -> B) :
  PreOrder (fun s s' => view s' = view s).
Proof. split; [done|]. intros a b c -> ->. done. Qed.

(** Inversion of [guard] in the middle of a call *)
Lemma guard_bind {S A} b e (k : M S A) s o s' :
  bind (guard b e) (fun _ => k) s = (o, s') ->
  b = true /\ k s = (o, s') \/ b = false /\ o = Raise e /\ s' = s.
Proof.
  unfold bind, guard, lift, require. destruct b; [by left|]. intros [= <- <-]. by right.
Qed.

Lemma save_finding_run t f st o st' :
  save_finding t f st = (o, st') ->
  keeps st st' /\ cursors st' = cursors st /\ results st' = results st /\
  (o = Ok tt \/ o = Raise (ValueError "reconciliation finding identity cannot be rewritten")).
Proof.
  unfold save_finding, bind at 1, get. cbn beta iota.
  intros [[Hg [= <- <-]]|(_ & -> & ->)]%guard_bind; [|by split; [reflexivity|auto]].
  split; [|cbn; auto]. intros (Hn & Hf & Hr).
  set (id := ReconciliationFinding.finding_id f) in *. split.
  - split; [by apply dict_set_NoDup|]. split; [|done]. cbn. intros k g Hin.
    apply elem_of_dict_set in Hin as [[-> ->]|Hin].
    + split; [done|]. rewrite lookup_insert_eq. by eexists.
    + apply Hf in Hin as [-> Ht]. split; [done|]. destruct (decide (id = k)) as [->|Hne].
      * rewrite lookup_insert_eq. by eexists.
      * by rewrite lookup_insert_ne.
  - split; [|split; [|done]]; cbn.
    + intros k g Hk. destruct (decide (id = k)) as [<-|Hne].
      * rewrite dict_get_set_eq. rewrite Hk in Hg. exists f. split; [done|]. by apply finding_eqb_same.
      * rewrite dict_get_set_ne by done. exists g. split; [done|]. reflexivity.
    + intros k r Hk. exists r. split; [done|]. reflexivity.
Qed.

Lemma save_findings_run t fs st o st' :
  for_m (save_finding t) fs st = (o, st') ->
  keeps st st' /\ cursors st' = cursors st /\ results st' = results st /\
  (o = Ok tt \/ o = Raise (ValueError "reconciliation finding identity cannot be rewritten")).
Proof.
  intros H. split; [|split; [|split]].
  - revert H. apply (fold_m_rel keeps). intros _ x s o' s'. apply save_finding_run.
  - revert H. apply (fold_m_rel (fun s s' => cursors s' = cursors s)).
    intros _ x s o' s' E. by apply save_finding_run in E as (_ & ? & _).
  - revert H. apply (fold_m_rel (fun s s' => results s' = results s)).
    intros _ x s o' s' E. by apply save_finding_run in E as (_ & _ & ? & _).
  - destruct o as [[]|e]; [by left|right]. f_equal. revert H.
    apply (fold_m_raise (fun e => e = ValueError _)). intros _ x s e' s' E.
    apply save_finding_run in E as (_ & _ & _ & [[=]|[= ->]]). done.
Qed.

Lemma save_result_run r st o st' :
  save_result r st = (o, st') ->
  keeps st st' /\ cursors st' = cursors st /\
  ((o = Ok tt /\ results st' !! RunResult.reconciliation_id r = Some r) \/
   o = Raise (ValueError "reconciliation result identity cannot be rewritten") \/
   o = Raise (ValueError "reconciliation finding identity cannot be rewritten")).
Proof.
  unfold save_result, bind at 1, get. cbn beta iota.
  intros [[Hg H]|(_ & -> & ->)]%guard_bind; [|split; [reflexivity|auto]].
  unfold bind, modify in H. cbn beta iota in H.
  apply save_findings_run in H as (Hk & Hc & Hr & Ho). cbn in Hc, Hr.
  split; [|split; [done|]].
  - intros Hok. destruct Hok as (Hn & Hf & Hi). destruct Hk as [Hok' Hext].
    { split; [done|]. split; [done|]. cbn. intros k q. destruct (decide (RunResult.reconciliation_id r = k)) as [<-|Hne].
      - rewrite lookup_insert_eq. by intros [= <-].
      - rewrite lookup_insert_ne by done. apply Hi. }
    split; [done|]. etransitivity; [|exact Hext]. split; [|split; [|done]]; cbn.
    + intros k f Hf'. exists f. split; [done|reflexivity].
    + intros k q Hq. destruct (decide (RunResult.reconciliation_id r = k)) as [<-|Hne].
      * rewrite lookup_insert_eq. rewrite Hq in Hg. exists r. split; [done|]. by apply result_eqb_same.
      * rewrite lookup_insert_ne by done. exists q. split; [done|reflexivity].
  - destruct Ho as [-> | ->]; [left|auto]. split; [done|]. rewrite Hr. apply lookup_insert_eq.
Qed.

Lemma ingest_run e st o st' :
  ingest_audit_event e st = (o, st') ->
  keeps st st' /\ cursors st' = cursors st /\
  o = Ok (negb (bool_decide
    ((AuditEvent.tenant_id e, AuditEvent.source_system e, AuditEvent.event_id e) ∈ audit_events st))) /\
  (AuditEvent.tenant_id e, AuditEvent.source_system e, AuditEvent.event_id e) ∈ audit_events st'.
Proof.
  unfold ingest_audit_event, bind, get, modify, ret. case_bool_decide as E; intros [= <- <-].
  - split; [reflexivity|]. done.
  - split; [|cbn; split; [done|split; [done|set_solver]]]. intros (Hn & Hf & Hr). split; [done|].
    split; [|split; [|cbn; set_solver]]; cbn; intros k x Hx; exists x; (split; [done|reflexivity]).
Qed.

Lemma ingest_mono e st o st' :
  ingest_audit_event e st = (o, st') -> audit_events st ⊆ audit_events st'.
Proof.
  unfold ingest_audit_event, bind, get, modify, ret. case_bool_decide; intros [= <- <-]; cbn; set_solver.
Qed.

Lemma save_cursor_run c st o st' :
  save_cursor c st = (o, st') ->
  keeps st st' /\ o = Ok tt /\ st' = snd (save_cursor c st) /\
  get_cursor (Cursor.tenant_id c) (Cursor.source_system c) st' = Some c.
Proof.
  intros E. assert (E' := E). unfold save_cursor, modify in E. injection E as <- <-.
  split; [|split; [done|split; [done|apply lookup_insert_eq]]]. intros (Hn & Hf & Hr). split; [done|].
  split; [|split; [|done]]; cbn; intros k x Hx; exists x; (split; [done|reflexivity]).
Qed.

Lemma step_keeps st st' : step st st' -> keeps st st'.
Proof.
  intros [c s o s' H|r s o s' H|e s o s' H].
  - by apply save_cursor_run in H as [? _].
  - by apply save_result_run in H as [? _].
  - by apply ingest_run in H as [? _].
Qed.

Lemma steps_keep st st' : rtc step st st' -> keeps st st'.
Proof. induction 1; [reflexivity|]. etransitivity; [by apply step_keeps|done]. Qed.

Lemma empty_ok : store_ok empty.
Proof. split; [constructor|]. split; [set_solver|]. intros k r H. cbn in H. by rewrite lookup_empty in H. Qed.

Lemma select_total st tenant fs :
  (forall k f, (k, f) ∈ fs -> is_Some (finding_tenants st !! k)) ->
  exists l, select_tenant st tenant fs = Ok l /\
    forall f, f ∈ l <-> exists k, (k, f) ∈ fs /\ finding_tenants st !! k = Some tenant.
Proof.
  induction fs as [|[k f] fs IH]; simpl; intros Ht.
  - exists []. split; [done|]. set_solver.
  - destruct (Ht k f) as [t Hkt]; [constructor|]. rewrite Hkt.
    destruct IH as (l & -> & Hl); [intros; apply (Ht k0 f0); by constructor|].
    eexists. split; [reflexivity|]. intros g. case_bool_decide as E; subst.
    + rewrite elem_of_cons, Hl. split.
      * intros [->|(k' & Hin & Hk')]; [exists k; split; [constructor|done]|].
        exists k'. split; [by constructor|done].
      * intros (k' & [[= -> ->]|Hin]%elem_of_cons & Hk'); eauto.
    + rewrite Hl. split.
      * intros (k' & Hin & Hk'). exists k'. split; [by constructor|done].
      * intros (k' & [[= -> ->]|Hin]%elem_of_cons & Hk'); [congruence|eauto].
Qed.
End RStoreFacts.

(** ** Polls *)
Module PollFacts.
Import Health Engine EngineFacts RStore RStoreFacts RCoordinator.

Lemma timedelta_int n : Z.abs n < 86400 * 1000000000 -> timedelta_seconds (float_of_int n) = Ok (seconds n).
Proof.
  intros Hn. unfold timedelta_seconds, float_of_int. cbn [QArith_base.Qnum QArith_base.Qden].
  assert (E : round_half_even (n * 1000000) 1 = seconds n).
  { unfold round_half_even, seconds. rewrite Z.mod_1_r, Z.div_1_r. done. }
  rewrite E. unfold seconds. by rewrite (proj2 (Z.ltb_lt _ _)) by lia.
Qed.

(** A configuration that was constructed, with delays a [timedelta] can hold *)
Definition usable (c : ReconciliationSourceConfig) : Prop :=
  SourceConfig.create c = Ok c /\
  SourceConfig.poll_interval_seconds c < 86400 * 1000000000 /\
  SourceConfig.max_backoff_seconds c < 86400 * 1000000000.

Lemma usable_bounds c : usable c ->
  0 < SourceConfig.poll_interval_seconds c /\ 0 < SourceConfig.base_backoff_seconds c /\
  SourceConfig.base_backoff_seconds c <= SourceConfig.max_backoff_seconds c.
Proof.
  intros (H & _ & _). unfold SourceConfig.create, PositiveInt, SourceConfig.validate_backoff in H.
  run_inv H. destruct c; cbn in *. b2p.
  match goal with E : _ = {| SourceConfig.source_system := _ |} |- _ => injection E; intros; subst end.
  lia.
Qed.

(** The delay in seconds *)
Definition delay (c : ReconciliationSourceConfig) (failures : Z) : Z :=
  if failures <=? 0 then SourceConfig.poll_interval_seconds c
  else Z.min (SourceConfig.max_backoff_seconds c)
         (SourceConfig.base_backoff_seconds c * 2 ^ Z.min (failures - 1) 30).

Lemma delay_bounds c n : usable c ->
  0 < delay c n < 86400 * 1000000000 /\
  (0 < n -> SourceConfig.base_backoff_seconds c <= delay c n <= SourceConfig.max_backoff_seconds c).
Proof.
  intros Hc. destruct (usable_bounds c Hc) as (Hp & Hb & Hm). destruct Hc as (_ & Hp' & Hm').
  unfold delay. destruct (Z.leb_spec n 0); [lia|].
  assert (1 <= 2 ^ Z.min (n - 1) 30) by (pose proof (Z.pow_pos_nonneg 2 (Z.min (n - 1) 30)); lia). nia.
Qed.

Lemma backoff_delay c n : usable c -> SourceConfig.backoff_for c n = Ok (seconds (delay c n)).
Proof.
  intros Hc. destruct (delay_bounds c n Hc) as [Hd _]. revert Hd.
  unfold SourceConfig.backoff_for, delay. case_match; intros Hd; apply timedelta_int; lia.
Qed.

Section Poll.
Context (rid run : UUID) (tenant src : string) (config : ReconciliationSourceConfig)
  (acts : list ExpectedExternalAction) (now : datetime).
Hypothesis tenant_text : NonBlankStr "tenant_id" tenant = Ok tenant.
Hypothesis src_text : NonBlankStr "source_system" src = Ok src.
Hypothesis config_usable : usable config.
Hypothesis acts_constructed : constructed_actions acts.

Lemma reconcile_total b : constructed_batch b -> exists fs, Engine.reconcile run acts b = Ok fs.
Proof using acts_constructed.
  intros Hb. destruct (collect_total run b (expected_of b acts) Hb (expected_of_NoDup b acts)) as [raws Hc].
  - intros k a (_ & Hin & _)%expected_of_elem. by apply acts_constructed.
  - unfold Engine.reconcile. rewrite Hc. by eexists.
Qed.

(** A poll that is due runs [collect] on the stored cursor. *)
Lemma run_due collect st :
  SourceConfig.enabled config = true -> SourceConfig.source_system config = src ->
  not_due (get_cursor tenant src st) now = false ->
  run_source rid run tenant src config acts now collect st =
  match collect tenant (get_cursor tenant src st) now with
  | Raise exc => (r <- collection_failed rid run tenant src config acts now (get_cursor tenant src st) exc ;;
                  ret (Some r)) st
  | Ok batch => (r <- collected rid run tenant src config acts now batch ;; ret (Some r)) st
  end.
Proof.
  intros He Hs Hd. unfold run_source. rewrite He. cbn [negb]. rewrite bool_decide_true by done.
  unfold guard, require, bind at 1, lift. cbn beta iota. unfold bind at 1, get. cbn beta iota.
  rewrite Hd. by destruct (collect _ _ _).
Qed.

Definition constructed_cursor (c : option ReconciliationCursor) : Prop :=
  forall k, c = Some k -> Cursor.create k = Ok k.

Definition position (c : option ReconciliationCursor) : option string :=
  match c with Some k => Cursor.cursor k | None => None end.
Definition watermark (c : option ReconciliationCursor) : option datetime :=
  match c with Some k => Cursor.high_watermark k | None => None end.
Definition failures_of (c : option ReconciliationCursor) : Z :=
  match c with Some k => Cursor.consecutive_failures k | None => 0 end.

Lemma cursor_fields c : constructed_cursor c ->
  optional (NonBlankStr "cursor") (position c) = Ok (position c) /\ 0 <= failures_of c.
Proof.
  intros H. destruct c as [k|]; [|done]. specialize (H k eq_refl). unfold Cursor.create in H.
  run_inv H. destruct k; cbn in *. b2p.
  match goal with E : _ = {| Cursor.tenant_id := _ |} |- _ => injection E; intros; subst end. done.
Qed.

Lemma lift_ok_bind {S A B} (m : outcome A) (x : A) (k : A -> M S B) s :
  m = Ok x -> bind (lift m) k s = k x s.
Proof. by intros ->. Qed.

Lemma save_cursor_bind {A} c (k : M store A) st :
  bind (save_cursor c) (fun _ => k) st = k (snd (save_cursor c st)).
Proof. reflexivity. Qed.

(** Saving a result at the end of a computation *)
Lemma save_result_bind {A} r (k : M store A) st o st' :
  bind (save_result r) (fun _ => k) st = (o, st') ->
  (exists st1, save_result r st = (Ok tt, st1) /\ cursors st1 = cursors st /\
     results st1 !! RunResult.reconciliation_id r = Some r /\ k st1 = (o, st')) \/
  (exists m, o = Raise (ValueError m)) /\ cursors st' = cursors st.
Proof.
  unfold bind. destruct (save_result r st) as [o1 st1] eqn:E. intros H.
  destruct (save_result_run _ _ _ _ E) as (_ & Hc & [[-> Hr]|[-> | ->]]); [left; eauto|right..];
    injection H as <- <-; eauto.
Qed.

Definition failed_batch : ReconciliationBatch := {|
  Batch.tenant_id := tenant; Batch.source_system := src; Batch.collected_at := now;
  Batch.health := UNAVAILABLE; Batch.cursor := None; Batch.high_watermark := None;
  Batch.observations := []; Batch.audit_events := [] |}.

Lemma failed_batch_constructed : constructed_batch failed_batch.
Proof using tenant_text src_text.
  split; [|split; intros x Hx; by apply elem_of_nil in Hx].
  unfold Batch.create, failed_batch. cbn. by rewrite tenant_text, src_text.
Qed.

(** The cursor a failed collection leaves *)
Definition failure_cursor (c : option ReconciliationCursor) : ReconciliationCursor := {|
  Cursor.tenant_id := tenant; Cursor.source_system := src; Cursor.cursor := position c;
  Cursor.high_watermark := watermark c; Cursor.health := UNAVAILABLE;
  Cursor.consecutive_failures := failures_of c + 1;
  Cursor.next_attempt_at := Some (now + seconds (delay config (failures_of c + 1)));
  Cursor.updated_at := now |}.

Lemma failed_run c exc st o st' :
  constructed_cursor c ->
  collection_failed rid run tenant src config acts now c exc st = (o, st') ->
  get_cursor tenant src st' = Some (failure_cursor c) /\
  (forall t s, (t, s) <> (tenant, src) -> get_cursor t s st' = get_cursor t s st) /\
  ((exists r, o = Ok r /\ results st' !! rid = Some r /\
      RunResult.health r = UNAVAILABLE /\ RunResult.cursor r = position c /\
      RunResult.high_watermark r = watermark c /\
      exists fs, Engine.reconcile run acts failed_batch = Ok fs /\
        RunResult.findings r = map (with_error_type (exn_type_name exc)) fs) \/
   exists m, o = Raise (ValueError m)).
Proof using tenant_text src_text config_usable acts_constructed.
  intros Hc H. destruct (cursor_fields c Hc) as [Hpos Hfail].
  destruct (reconcile_total failed_batch failed_batch_constructed) as [fs Hfs].
  unfold collection_failed in H.
  rewrite (lift_ok_bind _ failed_batch) in H by apply failed_batch_constructed.
  fold (failures_of c) in H. fold (position c) in H. fold (watermark c) in H.
  rewrite (lift_ok_bind _ (seconds (delay config (failures_of c + 1)))) in H by by apply backoff_delay.
  rewrite (lift_ok_bind _ (failure_cursor c)) in H.
  2:{ unfold Cursor.create. cbn. rewrite tenant_text, src_text. cbn. rewrite Hpos. cbn.
      by rewrite (proj2 (Z.leb_le _ _)) by lia. }
  rewrite save_cursor_bind in H. set (st1 := snd (save_cursor (failure_cursor c) st)) in H.
  rewrite (lift_ok_bind _ _ _ _ Hfs) in H.
  erewrite lift_ok_bind in H
    by (unfold RunResult.create; cbn; rewrite tenant_text, src_text; cbn; rewrite Hpos; reflexivity).
  assert (Hsame : forall st2, cursors st2 = cursors st1 ->
    get_cursor tenant src st2 = Some (failure_cursor c) /\
    forall t s, (t, s) <> (tenant, src) -> get_cursor t s st2 = get_cursor t s st).
  { intros st2 E. unfold get_cursor. rewrite E. cbn. split; [apply lookup_insert_eq|].
    intros t s Hne. by apply lookup_insert_ne. }
  apply save_result_bind in H as [(st2 & _ & Hcur & Hres & [= <- <-])|([m ->] & Hcur)];
    destruct (Hsame _ Hcur) as [H1 H2]; (split; [done|]); (split; [done|]); [left|right; eauto].
  eexists. split; [reflexivity|]. split; [exact Hres|]. cbn. eauto 6.
Qed.

(** ** A collected batch *)
Lemma effective_constructed b : constructed_batch b -> constructed_batch (effective config now b).
Proof.
  unfold effective. destruct (_ && _); [|done]. intros (Hb & Ho & He). split; [|done].
  revert Hb. unfold Batch.create. intros Hb. run_inv Hb.
  match goal with E : {| Batch.tenant_id := _ |} = b |- _ => rewrite <- E in * end. cbn in *.
  repeat match goal with E : ?x = Ok _ |- context [?x] => rewrite E; cbn end.
  match goal with E : Batch.validate_scope _ = Ok ?u |- _ => unfold Batch.validate_scope in *; cbn in *; rewrite E end.
  done.
Qed.

Lemma batch_cursor b : Batch.create b = Ok b ->
  optional (NonBlankStr "cursor") (Batch.cursor b) = Ok (Batch.cursor b).
Proof. unfold Batch.create. intros H. run_inv H. destruct b; cbn in *. congruence. Qed.

Definition ingested (e : ExternalAuditEvent) (st : store) : Prop :=
  (AuditEvent.tenant_id e, AuditEvent.source_system e, AuditEvent.event_id e) ∈ audit_events st.

Lemma ingest_all es : forall st, exists st',
  for_m (fun e => ingest_audit_event e ;; ret tt) es st = (Ok tt, st') /\
  keeps st st' /\ cursors st' = cursors st /\
  audit_events st ⊆ audit_events st' /\ (forall e, e ∈ es -> ingested e st').
Proof.
  set (f := fun e => ingest_audit_event e ;; ret tt).
  unfold for_m. induction es as [|e es IH]; intros st; cbn [fold_m].
  - exists st. split; [done|]. split; [reflexivity|]. set_solver.
  - destruct (ingest_audit_event e st) as [o st1] eqn:E.
    pose proof (ingest_mono _ _ _ _ E) as Hsub. apply ingest_run in E as E'.
    destruct E' as (Hk & Hc & -> & Hin).
    assert (Hf : f e st = (Ok tt, st1)) by (unfold f, bind; by rewrite E).
    destruct (IH st1) as (st' & Hrest & Hk' & Hc' & Hs' & Hin'). exists st'.
    unfold bind at 1. rewrite Hf, Hrest.
    split; [done|]. split; [by etransitivity|]. split; [congruence|]. split; [set_solver|].
    intros e' [->|He']%elem_of_cons; [by apply Hs'|auto].
Qed.

(** The cursor a collected batch leaves *)
Definition next_cursor (b : ReconciliationBatch) : ReconciliationCursor := {|
  Cursor.tenant_id := tenant; Cursor.source_system := src; Cursor.cursor := Batch.cursor b;
  Cursor.high_watermark := Batch.high_watermark b; Cursor.health := Batch.health b;
  Cursor.consecutive_failures := 0;
  Cursor.next_attempt_at := Some (now + seconds (delay config 0)); Cursor.updated_at := now |}.

Lemma collected_run b st o st' :
  constructed_batch b -> store_ok st ->
  collected rid run tenant src config acts now b st = (o, st') ->
  (forall e, e ∈ Batch.audit_events b -> ingested e st') /\
  ((exists r, o = Ok r /\ results st' !! rid = Some r /\
      RunResult.health r = Batch.health (effective config now b) /\
      Engine.reconcile run acts (effective config now b) = Ok (RunResult.findings r) /\
      get_cursor tenant src st' = Some (next_cursor (effective config now b))) \/
   (exists m, o = Raise (ValueError m)) /\ cursors st' = cursors st).
Proof using tenant_text src_text config_usable acts_constructed.
  intros Hb Hok H. pose proof (effective_constructed b Hb) as Heff. unfold collected in H.
  destruct (ingest_all (Batch.audit_events b) st) as (st1 & Hi & Hk1 & Hc1 & _ & Hin).
  destruct (Hk1 Hok) as [Hok1 _]. unfold bind at 1 in H. rewrite Hi in H. cbv zeta in H.
  set (eb := effective config now b) in *.
  destruct (reconcile_total eb Heff) as [fs Hfs]. rewrite (lift_ok_bind _ _ _ _ Hfs) in H.
  rewrite (lift_ok_bind _ _ _ _ (backoff_delay config 0 config_usable)) in H.
  pose proof (batch_cursor eb (proj1 Heff)) as Hcur.
  rewrite (lift_ok_bind _ (next_cursor eb)) in H
    by (unfold Cursor.create; cbn; rewrite tenant_text, src_text; cbn; by rewrite Hcur).
  erewrite lift_ok_bind in H
    by (unfold RunResult.create; cbn; rewrite tenant_text, src_text; cbn; rewrite Hcur; reflexivity).
  match type of H with bind (save_result ?r) _ _ = _ => destruct (save_result r st1) as [o2 st2] eqn:Es end.
  assert (Hin2 : forall e, e ∈ Batch.audit_events b -> ingested e st2).
  { apply save_result_run in Es as [Hk2 _]. destruct (Hk2 Hok1) as [_ (_ & _ & Hsub)].
    intros e He. by apply Hsub, Hin. }
  apply save_result_run in Es as Es'. destruct Es' as (_ & Hc2 & Ho2). unfold bind in H. rewrite Es in H.
  destruct Ho2 as [[-> Hr]|Ho2].
  - injection H as <- <-. split; [exact Hin2|left]. eexists. split; [reflexivity|].
    split; [exact Hr|]. cbn. split; [done|]. split; [done|]. apply lookup_insert_eq.
  - assert (exists m, o2 = Raise (ValueError m)) as [m ->] by (destruct Ho2 as [-> | ->]; eauto).
    injection H as <- <-. split; [exact Hin2|right]. split; [eauto|]. congruence.
Qed.
End Poll.
End PollFacts.

Module RunProperties.
Import Health Engine EngineFacts RStore RStoreFacts RCoordinator PollFacts.

(** C40: A due poll whose collection raises is fail-closed on every path: the stored
    position and watermark of the source stay, its health becomes UNAVAILABLE, its
    failures are counted and its next attempt is put off by the backoff; other cursors
    are untouched; the result, if the store accepts it, is UNAVAILABLE, has no MATCHED
    finding and names the type of the error in every finding; the only other outcome
    is the store's refusal of a rewritten identity.  Until the next attempt is due every
    poll of the source returns nothing and changes nothing. *)
Theorem failed_collection_fails_closed rid run tenant src config acts now collect exc st o st' :
  NonBlankStr "tenant_id" tenant = Ok tenant -> NonBlankStr "source_system" src = Ok src ->
  usable config -> SourceConfig.enabled config = true -> SourceConfig.source_system config = src ->
  constructed_actions acts -> constructed_cursor (get_cursor tenant src st) ->
  not_due (get_cursor tenant src st) now = false ->
  collect tenant (get_cursor tenant src st) now = Raise exc ->
  run_source rid run tenant src config acts now collect st = (o, st') ->
  get_cursor tenant src st' = Some (failure_cursor tenant src config now (get_cursor tenant src st)) /\
  (forall t s, (t, s) <> (tenant, src) -> get_cursor t s st' = get_cursor t s st) /\
  ((exists r, o = Ok (Some r) /\ results st' !! rid = Some r /\
      RunResult.health r = UNAVAILABLE /\ RunResult.cursor r = position (get_cursor tenant src st) /\
      RunResult.high_watermark r = watermark (get_cursor tenant src st) /\
      forall f, f ∈ RunResult.findings r -> ReconciliationFinding.outcome_ f <> MATCHED /\
        dict_get "collection_error_type" (ReconciliationFinding.details f) =
          Some (PStr (exn_type_name exc))) \/
   exists m, o = Raise (ValueError m)) /\
  (forall rid' run' acts' collect' now',
     now' < now + seconds (delay config (failures_of (get_cursor tenant src st) + 1)) ->
     run_source rid' run' tenant src config acts' now' collect' st' = (Ok None, st')).
Proof.
  intros Ht Hs Hu He Hn Ha Hc Hd Hcol H. rewrite run_due, Hcol in H by done. unfold bind in H.
  destruct (collection_failed _ _ _ _ _ _ _ _ _ _) as [o1 st1] eqn:E.
  apply failed_run in E as (Hk & Hother & Ho); [|done..].
  assert (Heq : st1 = st') by (by destruct o1; injection H). subst st1.
  split; [done|]. split; [done|]. split.
  - destruct Ho as [(r & -> & Hr & Hh & Hp & Hw & fs & Hfs & Hfr)|[m ->]]; [left|right; injection H as <-; eauto].
    injection H as <-. exists r. repeat (split; [done|]). intros f Hf. rewrite Hfr in Hf.
    apply list_elem_of_fmap in Hf as (g & -> & Hg). split; [|apply dict_get_set_eq].
    intros Hm. destruct (reconcile_matched _ _ _ _ _ Hfs Hg Hm) as [Hbad _]. discriminate.
  - intros rid' run' acts' collect' now' Hlt. unfold run_source. rewrite He. cbn [negb].
    rewrite bool_decide_true by done. unfold guard, require, bind at 1, lift. cbn beta iota.
    unfold bind at 1, get. cbn beta iota. rewrite Hk. cbn [not_due failure_cursor Cursor.next_attempt_at].
    by rewrite (proj2 (Z.ltb_lt _ _) Hlt).
Qed.

(** A due poll that collects a constructed batch records every audit event of the
    batch; and either its result is stored, carries the engine's report of the batch
    (downgraded to STALE when its watermark is too old) and the cursor advances to the
    batch's position, or the store refuses a rewritten identity and no cursor moves: the
    cursor never passes evidence whose result was not kept.  A MATCHED finding in the
    result means the source reported HEALTHY and its watermark, if it gave one, is not
    older than the configuration allows. *)
Theorem cursor_follows_result rid run tenant src config acts now collect batch st o st' :
  NonBlankStr "tenant_id" tenant = Ok tenant -> NonBlankStr "source_system" src = Ok src ->
  usable config -> SourceConfig.enabled config = true -> SourceConfig.source_system config = src ->
  constructed_actions acts -> store_ok st ->
  not_due (get_cursor tenant src st) now = false ->
  collect tenant (get_cursor tenant src st) now = Ok batch -> constructed_batch batch ->
  run_source rid run tenant src config acts now collect st = (o, st') ->
  (forall e, e ∈ Batch.audit_events batch -> ingested e st') /\
  ((exists r, o = Ok (Some r) /\ results st' !! rid = Some r /\
      Engine.reconcile run acts (effective config now batch) = Ok (RunResult.findings r) /\
      get_cursor tenant src st' = Some (next_cursor tenant src config now (effective config now batch)) /\
      forall f, f ∈ RunResult.findings r -> ReconciliationFinding.outcome_ f = MATCHED ->
        Batch.health batch = HEALTHY /\
        forall h, Batch.high_watermark batch = Some h ->
          now - h <= seconds (SourceConfig.stale_after_seconds config)) \/
   (exists m, o = Raise (ValueError m)) /\ cursors st' = cursors st).
Proof.
  intros Ht Hs Hu He Hn Ha Hok Hd Hcol Hb H. rewrite run_due, Hcol in H by done. unfold bind in H.
  destruct (collected _ _ _ _ _ _ _ _ _) as [o1 st1] eqn:E.
  assert (Heq : st1 = st') by (by destruct o1; injection H). subst st1.
  apply collected_run in E as [Hin Ho]; [|done..]. split; [done|].
  destruct Ho as [(r & -> & Hr & _ & Hrec & Hk)|[[m ->] Hk]]; [left|right; injection H as <-; eauto].
  injection H as <-. exists r. repeat (split; [done|]). intros f Hf Hm.
  destruct (reconcile_matched _ _ _ _ _ Hrec Hf Hm) as [Hh _]. revert Hh. unfold effective.
  destruct (bool_decide (Batch.health batch = HEALTHY)) eqn:Eh; [|cbn; intros Hh; b2p; congruence].
  b2p. destruct (Batch.high_watermark batch) as [w|]; cbn; [|by split].
  case_match; [discriminate|]. intros _. b2p. split; [done|]. intros h [= <-]. done.
Qed.

Lemma listed_leb_total a b : listed_leb a b = true \/ listed_leb b a = true.
Proof.
  unfold listed_leb. rewrite !orb_true_iff, !andb_true_iff, !Z.ltb_lt, !Z.eqb_eq.
  destruct (Z.lt_trichotomy (ReconciliationFinding.observed_at a) (ReconciliationFinding.observed_at b))
    as [H|[H|H]]; [by left; left| |by right; left].
  destruct (String.leb_total (uuid_str (ReconciliationFinding.finding_id a))
              (uuid_str (ReconciliationFinding.finding_id b))); [left|right]; right; by split.
Qed.

Lemma listed_leb_trans a b c : listed_leb a b = true -> listed_leb b c = true -> listed_leb a c = true.
Proof.
  unfold listed_leb. rewrite !orb_true_iff, !andb_true_iff, !Z.ltb_lt, !Z.eqb_eq.
  intros [H1|[E1 H1]] [H2|[E2 H2]]; [left; lia|left; lia|left; lia|right].
  split; [lia|]. by eapply string_leb_trans.
Qed.

(** Whatever calls are made, in whatever order, the store never rewrites: a stored
    finding keeps its identity, action, source, time, outcome, severity, summary and
    reference, a stored result its scope, health, cursor and findings; listing a
    tenant's findings always succeeds, in order of time and identity, with exactly the
    findings filed under the tenant; and an audit event once ingested is reported as a
    duplicate ever after, without a change. *)
Theorem reconciliation_store_append_only st st' tenant :
  rtc step empty st -> rtc step st st' ->
  (forall k f, dict_get k (findings st) = Some f ->
     exists g, dict_get k (findings st') = Some g /\ same_finding f g) /\
  (forall k r, results st !! k = Some r -> exists q, results st' !! k = Some q /\ same_result r q) /\
  (exists l, list_findings tenant st' = Ok l /\ sorted_by listed_leb l /\
     forall f, f ∈ l <-> exists k, (k, f) ∈ findings st' /\ finding_tenants st' !! k = Some tenant) /\
  (forall e, ingested e st -> ingest_audit_event e st' = (Ok false, st')).
Proof.
  intros H1 H2. destruct (steps_keep _ _ H1 empty_ok) as [Hok _].
  destruct (steps_keep _ _ H2 Hok) as [(Hn & Hf & Hr) (Hef & Her & Hea)].
  split; [done|]. split; [done|]. split.
  - destruct (select_total st' tenant (findings st')) as (l & Hl & Hin); [intros k f Hk; by destruct (Hf k f Hk)|].
    unfold list_findings. rewrite Hl. eexists. split; [reflexivity|].
    split; [apply sort_by_sorted; [apply listed_leb_total|apply listed_leb_trans]|].
    intros f. by rewrite elem_of_sort_by, Hin.
  - intros e He. unfold ingest_audit_event, bind, get. cbn beta iota.
    by rewrite bool_decide_true by (by apply Hea).
Qed.

(** The delay of a usable configuration is always a representable duration: after
    n failures it lies between the base and the maximal backoff, doubles with each
    failure until the maximum caps it, never decreases, and stays constant from the
    31st failure on; without failures it is the poll interval. *)
Theorem backoff_bounded config n :
  usable config ->
  exists d d', SourceConfig.backoff_for config n = Ok d /\ SourceConfig.backoff_for config (n + 1) = Ok d' /\
  (n <= 0 -> d = seconds (SourceConfig.poll_interval_seconds config)) /\
  (0 < n ->
     seconds (SourceConfig.base_backoff_seconds config) <= d <= seconds (SourceConfig.max_backoff_seconds config) /\
     d <= d' /\
     (n <= 30 -> d' = Z.min (seconds (SourceConfig.max_backoff_seconds config)) (2 * d)) /\
     (31 <= n -> d' = d)).
Proof.
  intros Hu. exists (seconds (delay config n)), (seconds (delay config (n + 1))).
  split; [by apply backoff_delay|]. split; [by apply backoff_delay|].
  destruct (delay_bounds config n Hu) as [_ Hb]. destruct (usable_bounds config Hu) as (_ & Hbase & Hmax).
  revert Hb. unfold delay, seconds. split.
  - intros Hn. by rewrite (proj2 (Z.leb_le _ _)) by lia.
  - intros Hn. revert Hb. rewrite !(proj2 (Z.leb_gt _ _)) by lia. intros Hb. specialize (Hb Hn).
    replace (n + 1 - 1) with n by lia.
    destruct (Z_le_gt_dec n 30) as [Hle|Hgt].
    + rewrite (Z.min_l (n - 1)), (Z.min_l n) in * by lia.
      assert (E : 2 ^ n = 2 * 2 ^ (n - 1)) by (rewrite <- Z.pow_succ_r by lia; f_equal; lia).
      assert (0 < 2 ^ (n - 1)) by (apply Z.pow_pos_nonneg; lia). rewrite E. nia.
    + rewrite (Z.min_r (n - 1)), (Z.min_r n) in * by lia. lia.
Qed.

(** ** A source that is polled *)
Definition w_config : ReconciliationSourceConfig := {|
  SourceConfig.source_system := "github"; SourceConfig.enabled := true;
  SourceConfig.poll_interval_seconds := 300; SourceConfig.stale_after_seconds := 900;
  SourceConfig.base_backoff_seconds := 30; SourceConfig.max_backoff_seconds := 1800 |}.

Lemma w_config_usable : usable w_config.
Proof. split; [vm_compute; reflexivity|]. cbn. lia. Qed.

(** A poll on an empty store *)
Definition w_poll (collect : outcome ReconciliationBatch)
    : outcome (option ReconciliationRunResult) * store :=
  run_source 9 1 "acme" "github" w_config [ReconciliationProperties.w_action] (seconds 100)
    (fun _ _ _ => collect) empty.

Definition w_down : outcome ReconciliationBatch := Raise (OtherError "ConnectTimeout" "timed out").

Lemma failed_collection_fails_closed_witness :
  get_cursor "acme" "github" (snd (w_poll w_down)) =
    Some (failure_cursor "acme" "github" w_config (seconds 100) None).
Proof.
  destruct (w_poll w_down) as [o st'] eqn:E.
  destruct (failed_collection_fails_closed 9 1 "acme" "github" w_config
              [ReconciliationProperties.w_action] (seconds 100) (fun _ _ _ => w_down) _ empty o st'
              eq_refl eq_refl w_config_usable eq_refl eq_refl
              ReconciliationProperties.w_actions_constructed
              ltac:(intros k Hk; vm_compute in Hk; discriminate) eq_refl eq_refl E) as [H _].
  exact H.
Defined.

Definition w_event : ExternalAuditEvent := {|
  AuditEvent.event_id := "e-1"; AuditEvent.tenant_id := "acme"; AuditEvent.source_system := "github";
  AuditEvent.event_type := "push"; AuditEvent.occurred_at := seconds 80;
  AuditEvent.payload_digest := ReconciliationProperties.w_digest; AuditEvent.actor := None;
  AuditEvent.resource := None; AuditEvent.action_id := None; AuditEvent.run_id := None;
  AuditEvent.external_reference := None; AuditEvent.payload := []; AuditEvent.evidence := [] |}.

Definition w_full : ReconciliationBatch := {|
  Batch.tenant_id := "acme"; Batch.source_system := "github"; Batch.collected_at := seconds 100;
  Batch.health := HEALTHY; Batch.cursor := Some "c-1"; Batch.high_watermark := Some (seconds 95);
  Batch.observations := [ReconciliationProperties.w_observation]; Batch.audit_events := [w_event] |}.

Lemma w_full_constructed : constructed_batch w_full.
Proof.
  split; [vm_compute; reflexivity|].
  split; [intros o [->|Ho]%elem_of_cons|intros e [->|He]%elem_of_cons];
    (vm_compute; reflexivity) || set_solver.
Qed.

Lemma cursor_follows_result_witness : ingested w_event (snd (w_poll (Ok w_full))).
Proof.
  destruct (w_poll (Ok w_full)) as [o st'] eqn:E.
  destruct (cursor_follows_result 9 1 "acme" "github" w_config
              [ReconciliationProperties.w_action] (seconds 100) (fun _ _ _ => Ok w_full) w_full empty o st'
              eq_refl eq_refl w_config_usable eq_refl eq_refl
              ReconciliationProperties.w_actions_constructed empty_ok eq_refl eq_refl
              w_full_constructed E) as [H _].
  apply H. apply list_elem_of_here.
Defined.

Definition w_ingested : store := snd (ingest_audit_event w_event empty).

Lemma reconciliation_store_append_only_witness :
  ingest_audit_event w_event w_ingested = (Ok false, w_ingested).
Proof.
  destruct (reconciliation_store_append_only w_ingested w_ingested "acme"
              (rtc_once _ _ (step_audit w_event empty (Ok true) w_ingested eq_refl)) (rtc_refl _ _))
    as (_ & _ & _ & H).
  apply H. unfold ingested. cbn. set_solver.
Defined.

Lemma backoff_bounded_witness : exists d, SourceConfig.backoff_for w_config 3 = Ok d /\ d <= seconds 1800.
Proof.
  destruct (backoff_bounded w_config 3 w_config_usable) as (d & d' & H & _ & _ & Hb).
  exists d. split; [exact H|]. exact (proj2 (proj1 (Hb ltac:(lia)))).
Defined.

(** A second poll of the same run while an action is still missing finds the same
    identity at a later time, and the store refuses it: the poll raises. *)
Definition w_missing (collected_at : datetime) : ReconciliationBatch := {|
  Batch.tenant_id := "acme"; Batch.source_system := "github"; Batch.collected_at := collected_at;
  Batch.health := HEALTHY; Batch.cursor := None; Batch.high_watermark := None;
  Batch.observations := []; Batch.audit_events := [] |}.

Definition w_poll_at (rid : UUID) (now : datetime) :=
  run_source rid 1 "acme" "github" w_config [ReconciliationProperties.w_action] now
    (fun _ _ t => Ok (w_missing t)).

Example repeated_missing_poll_raises :
  is_ok (fst (w_poll_at 9 (seconds 100) empty)) = true /\
  fst (w_poll_at 10 (seconds 500) (snd (w_poll_at 9 (seconds 100) empty))) =
    Raise (ValueError "reconciliation finding identity cannot be rewritten").
Proof. split; vm_compute; reflexivity. Qed.
End RunProperties.
