(* ===== verification/Policy.v ===== *)
(** * Policy evaluation and fail-closed composition

    Models [policy_semantics.py] (the two language-neutral profiles) and [policy.py]
    (the engines that adapt them).  An engine is a computation on a state of its
    own, so that adapters of external policy services fit the same port. *)

From S2P Require Import Prelude Canonical Contracts.

Record PolicySemanticDecision : Type := {
  engine : string;
  outcome_ : PolicyOutcome;
  reason_codes : list string;
  required_approval_roles : list string;
  constraints : list (string * pyval);
}.

Record PolicySemanticResult : Type := {
  result_outcome : PolicyOutcome;
  result_reason_codes : list string;
  result_required_approval_roles : list string;
  result_constraints : list (string * pyval);
}.

Definition evaluate_default_policy_semantics (effect_class : EffectClass) (risk_class : RiskClass)
    : PolicySemanticResult :=
  if bool_decide (effect_class = PRIVILEGED) && bool_decide (risk_class = CRITICAL) then
    {| result_outcome := DENY;
       result_reason_codes := ["critical_privileged_action_denied_by_default"];
       result_required_approval_roles := []; result_constraints := [] |}
  else if mem effect_class [WRITE; DESTRUCTIVE; PRIVILEGED] || mem risk_class [HIGH; CRITICAL] then
    {| result_outcome := REQUIRE_APPROVAL;
       result_reason_codes := ["side_effect_requires_exact_approval"];
       result_required_approval_roles := ["production_approver"]; result_constraints := [] |}
  else
    {| result_outcome := ALLOW; result_reason_codes := ["low_risk_action_allowed"];
       result_required_approval_roles := []; result_constraints := [] |}.

Definition rank (o : PolicyOutcome) : Z :=
  match o with ALLOW => 0 | REQUIRE_APPROVAL => 1 | DENY => 2 end.

(** The body of the constraint loop, on the pair (constraints, conflicts) *)
Definition merge_constraint (acc : list (string * pyval) * list string) (kv : string * pyval)
    : list (string * pyval) * list string :=
  let '(merged, conflicts) := acc in
  let '(key, value) := kv in
  match dict_get key merged with
  | Some v =>
      if negb (scalar_eq v value) then (merged, key :: conflicts)
      else (dict_set key value merged, conflicts)
  | None => (dict_set key value merged, conflicts)
  end.

Definition merge_constraints (decisions : list PolicySemanticDecision)
    : list (string * pyval) * list string :=
  foldl merge_constraint ([], []) (flat_map constraints decisions).

Definition combine_policy_semantics (decisions : list PolicySemanticDecision)
    : outcome PolicySemanticResult :=
  match max_by (fun a b => rank a <? rank b) (map outcome_ decisions) with
  | None => Raise (ValueError "conjunctive policy requires at least one decision")
  | Some strictest =>
      let reasons := flat_map (fun d => map (fun r => engine d +:+ ":" +:+ r) (reason_codes d))
                       decisions in
      let roles := sorted_set (flat_map required_approval_roles decisions) in
      let '(merged, conflicts) := merge_constraints decisions in
      let '(o, reasons) :=
        match conflicts with
        | [] => (strictest, reasons)
        | _ => (DENY, reasons ++ map (fun key => "constraint_conflict:" +:+ key)
                        (sorted_set conflicts))
        end in
      Ok {| result_outcome := o;
            result_reason_codes :=
              match reasons with [] => ["all_policy_engines_returned_no_reason"] | _ => reasons end;
            result_required_approval_roles := roles;
            result_constraints := merged |}
  end.

(** ** [DefaultPolicyEngine] *)
Definition DefaultPolicyEngine_evaluate (revision : string) (action : ActionSpec) (now : datetime)
    : outcome PolicyDecision :=
  let semantic := evaluate_default_policy_semantics
    (ActionSpec.effect_class action) (ActionSpec.risk_class action) in
  d <~ ActionSpec.digest action ;;
  PolicyDecision.create {|
    PolicyDecision.decision_id :=
      uuid5 NAMESPACE_URL ("prodkit-policy:" +:+ revision +:+ ":" +:+ d);
    PolicyDecision.action_id := ActionSpec.action_id action;
    PolicyDecision.action_digest := d;
    PolicyDecision.tenant_id := ActionSpec.tenant_id action;
    PolicyDecision.policy_engine := "prodkit-default";
    PolicyDecision.policy_bundle := "builtin";
    PolicyDecision.policy_revision := revision;
    PolicyDecision.evaluated_at := now;
    PolicyDecision.outcome_ := result_outcome semantic;
    PolicyDecision.reason_codes := result_reason_codes semantic;
    PolicyDecision.constraints := result_constraints semantic;
    PolicyDecision.required_approval_roles := result_required_approval_roles semantic;
    PolicyDecision.expires_at := Some (now + minutes 15);
    PolicyDecision.raw_decision_artifact_sha256 := None |}.

(** ** [ConjunctivePolicyEngine] *)
Section Conjunctive.
Context {S : Type}.

(** The port [PolicyEngine] *)
Definition PolicyEngine : Type := ActionSpec -> M S PolicyDecision.

Fixpoint collect (engines : list PolicyEngine) (action : ActionSpec) : M S (list PolicyDecision) :=
  match engines with
  | [] => ret []
  | e :: rest => d <- e action ;; ds <- collect rest action ;; ret (d :: ds)
  end.

Definition check_binding (action : ActionSpec) (digest : string) (d : PolicyDecision) : outcome unit :=
  require (negb (negb (PolicyDecision.action_id d =? ActionSpec.action_id action) ||
                 negb (bool_decide (PolicyDecision.action_digest d = digest))))
    (IntegrityViolationError "policy adapter returned a decision for another action") ;~
  require (bool_decide (PolicyDecision.tenant_id d = ActionSpec.tenant_id action))
    (IntegrityViolationError "policy adapter returned a cross-tenant decision").

Definition semantic_of (d : PolicyDecision) : PolicySemanticDecision :=
  {| engine := PolicyDecision.policy_engine d; outcome_ := PolicyDecision.outcome_ d;
     reason_codes := PolicyDecision.reason_codes d;
     required_approval_roles := PolicyDecision.required_approval_roles d;
     constraints := PolicyDecision.constraints d |}.

(** [min(expiries) if expiries else None] *)
Definition min_expiry (decisions : list PolicyDecision) : option datetime :=
  match omap PolicyDecision.expires_at decisions with
  | [] => None
  | e :: rest => Some (foldl Z.min e rest)
  end.

Definition fingerprint_entry (d : PolicyDecision) : pyval := PDict [
  ("engine", PStr (PolicyDecision.policy_engine d));
  ("bundle", PStr (PolicyDecision.policy_bundle d));
  ("revision", PStr (PolicyDecision.policy_revision d));
  ("decision_id", PStr (uuid_str (PolicyDecision.decision_id d)));
  ("outcome", PStr (PolicyOutcome_value (PolicyDecision.outcome_ d)))].

Definition ConjunctivePolicyEngine (engines : list PolicyEngine) : outcome (list PolicyEngine) :=
  match engines with
  | [] => Raise (ValueError "conjunctive policy requires at least one engine")
  | _ => Ok engines
  end.

Definition ConjunctivePolicyEngine_evaluate (engines : list PolicyEngine) (revision : string)
    (action : ActionSpec) (now : datetime) : M S PolicyDecision :=
  decisions <- collect engines action ;;
  digest <- lift (ActionSpec.digest action) ;;
  lift (fold_o (fun _ d => check_binding action digest d) decisions tt) ;;
  semantic <- lift (combine_policy_semantics (map semantic_of decisions)) ;;
  fingerprint <- lift (sha256_hex (PList (map fingerprint_entry decisions))) ;;
  lift (PolicyDecision.create {|
    PolicyDecision.decision_id := uuid5 NAMESPACE_URL
      ("prodkit-policy:" +:+ revision +:+ ":" +:+ digest +:+ ":" +:+ fingerprint);
    PolicyDecision.action_id := ActionSpec.action_id action;
    PolicyDecision.action_digest := digest;
    PolicyDecision.tenant_id := ActionSpec.tenant_id action;
    PolicyDecision.policy_engine := "prodkit-conjunctive";
    PolicyDecision.policy_bundle := "composed";
    PolicyDecision.policy_revision := revision;
    PolicyDecision.evaluated_at := now;
    PolicyDecision.outcome_ := result_outcome semantic;
    PolicyDecision.reason_codes := result_reason_codes semantic;
    PolicyDecision.constraints := result_constraints semantic;
    PolicyDecision.required_approval_roles := result_required_approval_roles semantic;
    PolicyDecision.expires_at := min_expiry decisions;
    PolicyDecision.raw_decision_artifact_sha256 := None |}).
End Conjunctive.

(** * Facts *)
Module PolicyFacts.

Lemma fold_max_rank l o :
  let r := foldl (fun best y => if rank best <? rank y then y else best) o l in
  (r = o \/ r ∈ l) /\ rank o <= rank r /\ forall x, x ∈ l -> rank x <= rank r.
Proof.
  revert o. induction l as [|y l IH]; intros o; simpl.
  - split; [by left|]. split; [lia|]. set_solver.
  - destruct (rank o <? rank y) eqn:E; b2p.
    + destruct (IH y) as ([->|Hin] & Hle & Hall); (split; [right; set_solver|]);
        (split; [lia|]); intros x [->|Hx]%elem_of_cons; auto.
    + destruct (IH o) as ([Hr|Hin] & Hle & Hall).
      * rewrite Hr. split; [by left|]. split; [lia|].
        intros x [->|Hx]%elem_of_cons; [lia|]. rewrite <- Hr. auto.
      * split; [right; set_solver|]. split; [done|].
        intros x [->|Hx]%elem_of_cons; [lia|auto].
Qed.

Lemma max_by_rank l o :
  max_by (fun a b => rank a <? rank b) l = Some o ->
  o ∈ l /\ forall x, x ∈ l -> rank x <= rank o.
Proof.
  destruct l as [|y l]; simpl; [done|]. intros [= Ho].
  destruct (fold_max_rank l y) as (Hin & Hle & Hall). rewrite Ho in *.
  split; [set_solver|]. intros x [->|Hx]%elem_of_cons; auto.
Qed.

Lemma rank_inj a b : rank a = rank b -> a = b.
Proof. destruct a, b; simpl; congruence. Qed.

(** *** Merging constraints: without a conflict, every value merged equals (in
    Python's sense) the value the result holds for its key, which is one of the
    merged values. *)
Definition honoured (m : list (string * pyval)) (kv : string * pyval) : Prop :=
  exists v, dict_get (fst kv) m = Some v /\ (v = snd kv \/ scalar_eq v (snd kv) = true).

Lemma scalar_eq_trans a b c : scalar_eq a b = true -> scalar_eq b c = true -> scalar_eq a c = true.
Proof.
  unfold scalar_eq. intros Hab Hbc.
  destruct (as_number a) as [x|] eqn:Ea, (as_number b) as [y|] eqn:Eb, (as_number c) as [z|] eqn:Ec;
    try done.
  - destruct x as [p| | |], y as [q| | |], z as [r| | |]; simpl in *; try done. b2p.
    apply andb_true_iff. split; apply Z.leb_le; nia.
  - b2p. apply bool_decide_eq_true. congruence.
Qed.

Lemma scalar_eq_sym a b : scalar_eq a b = scalar_eq b a.
Proof.
  unfold scalar_eq. destruct (as_number a), (as_number b); try done; [apply andb_comm|].
  apply bool_decide_ext. split; congruence.
Qed.

Lemma merge_spec kvs m c m' :
  foldl merge_constraint (m, c) kvs = (m', []) ->
  c = [] /\
  (forall kv, kv ∈ kvs -> honoured m' kv) /\
  (forall k v, dict_get k m = Some v -> honoured m' (k, v)) /\
  (forall k v, dict_get k m' = Some v -> dict_get k m = Some v \/ (k, v) ∈ kvs).
Proof.
  revert m c. induction kvs as [|[k v] kvs IH]; intros m c; simpl.
  - intros [= -> ->]. split; [done|]. split; [set_solver|]. split; [|tauto].
    intros k v Hk. exists v. simpl. auto.
  - destruct (dict_get k m) as [w|] eqn:Ew; [destruct (scalar_eq w v) eqn:Es|]; simpl; intros H;
      apply IH in H as (Hc & Hkv & Hm & Hm').
    + split; [done|]. split; [|split].
      * intros kv [->|Hin]%elem_of_cons; [|auto]. apply Hm. apply dict_get_set_eq.
      * intros k' v' Hk'. destruct (decide (k = k')) as [<-|Hne].
        -- rewrite Ew in Hk'. injection Hk' as <-.
           destruct (Hm k v) as (u & Hu & Hor); [apply dict_get_set_eq|].
           exists u. split; [done|]. right. simpl in *. rewrite scalar_eq_sym in Es.
           destruct Hor as [->|Hor]; [done|]. by eapply scalar_eq_trans.
        -- apply Hm. by rewrite dict_get_set_ne.
      * intros k' v' Hk'. apply Hm' in Hk' as [Hk'|Hin]; [|set_solver].
        destruct (decide (k = k')) as [<-|Hne].
        -- rewrite dict_get_set_eq in Hk'. set_solver.
        -- rewrite dict_get_set_ne in Hk' by done. auto.
    + done.
    + split; [done|]. split; [|split].
      * intros kv [->|Hin]%elem_of_cons; [|auto]. apply Hm. apply dict_get_set_eq.
      * intros k' v' Hk'. apply Hm. rewrite dict_get_set_ne by congruence. done.
      * intros k' v' Hk'. apply Hm' in Hk' as [Hk'|Hin]; [|set_solver].
        destruct (decide (k = k')) as [<-|Hne].
        -- rewrite dict_get_set_eq in Hk'. set_solver.
        -- rewrite dict_get_set_ne in Hk' by done. auto.
Qed.

Lemma string_leb_refl s : String.leb s s = true.
Proof. destruct (String.leb_total s s); done. Qed.

(** The composition, in one statement used by both engines' theorems. *)
Lemma combine_spec ds r :
  combine_policy_semantics ds = Ok r ->
  ds <> [] /\
  (forall d, d ∈ ds -> rank (outcome_ d) <= rank (result_outcome r)) /\
  (result_outcome r = DENY \/
   ((exists d, d ∈ ds /\ result_outcome r = outcome_ d) /\
    (forall d kv, d ∈ ds -> kv ∈ constraints d -> honoured (result_constraints r) kv) /\
    (forall k v, dict_get k (result_constraints r) = Some v -> exists d, d ∈ ds /\ (k, v) ∈ constraints d))) /\
  (forall role, role ∈ result_required_approval_roles r <->
     exists d, d ∈ ds /\ role ∈ required_approval_roles d) /\
  sorted_by String.leb (result_required_approval_roles r) /\
  NoDup (result_required_approval_roles r) /\
  result_reason_codes r <> [].
Proof.
  unfold combine_policy_semantics.
  destruct (max_by _ _) as [strictest|] eqn:Hmax; [|discriminate].
  apply max_by_rank in Hmax as [Hin Hmax].
  destruct (merge_constraints ds) as [merged conflicts] eqn:Hm. intros Hr.
  assert (Hne : ds <> []) by (intros ->; simpl in Hin; set_solver).
  assert (Hrank : forall d, d ∈ ds -> rank (outcome_ d) <= rank strictest)
    by (intros d Hd; apply Hmax; by apply list_elem_of_fmap_2).
  assert (Hroles : forall role, role ∈ sorted_set (flat_map required_approval_roles ds) <->
            exists d, d ∈ ds /\ role ∈ required_approval_roles d).
  { intros role. rewrite elem_of_sorted_set, list_elem_of_In, in_flat_map.
    setoid_rewrite list_elem_of_In. done. }
  assert (Hsorted : forall l, sorted_by String.leb (sorted_set l) /\ NoDup (sorted_set l)).
  { intros l. split; [apply sort_by_sorted; [apply String.leb_total|apply string_leb_trans]|].
    unfold sorted_set. rewrite sort_by_perm. apply NoDup_remove_dups. }
  destruct conflicts as [|k conflicts]; injection Hr as <-; cbn [result_outcome
    result_constraints result_required_approval_roles result_reason_codes].
  - split; [done|]. split; [done|]. split.
    + right. unfold merge_constraints in Hm. apply merge_spec in Hm as (_ & Hkv & _ & Hback).
      split; [|split].
      * apply list_elem_of_fmap in Hin as (d & -> & Hd). eauto.
      * intros d kv Hd Hk. apply Hkv. rewrite list_elem_of_In, in_flat_map. exists d.
        rewrite <- !list_elem_of_In. done.
      * intros k v Hk. apply Hback in Hk as [Hk|Hk]; [done|].
        rewrite list_elem_of_In, in_flat_map in Hk. destruct Hk as (d & Hd & Hk).
        exists d. rewrite !list_elem_of_In. done.
    + split; [done|]. split; [apply Hsorted|]. split; [apply Hsorted|]. by case_match.
  - split; [done|]. split; [intros d Hd; destruct (outcome_ d); simpl; lia|].
    split; [by left|]. split; [done|]. split; [apply Hsorted|]. split; [apply Hsorted|].
    case_match eqn:E; [|done]. done.
Qed.

End PolicyFacts.

Module PolicyProperties.
Import PolicyFacts.

(** Composition is fail-closed and exact.  The composed outcome is at least
    as strict as every decision's; unless it is DENY, it is one of the engines'
    outcomes, and every constraint of every engine is honoured by the composed
    constraints, which contain nothing else; the roles required are exactly the
    union of the engines', sorted and without repetition. *)
Theorem combine_fail_closed ds r :
  combine_policy_semantics ds = Ok r ->
  (forall d, d ∈ ds -> rank (outcome_ d) <= rank (result_outcome r)) /\
  (result_outcome r <> DENY ->
     (exists d, d ∈ ds /\ result_outcome r = outcome_ d) /\
     (forall d kv, d ∈ ds -> kv ∈ constraints d -> honoured (result_constraints r) kv) /\
     (forall k v, dict_get k (result_constraints r) = Some v ->
        exists d, d ∈ ds /\ (k, v) ∈ constraints d)) /\
  (forall role, role ∈ result_required_approval_roles r <->
     exists d, d ∈ ds /\ role ∈ required_approval_roles d) /\
  sorted_by String.leb (result_required_approval_roles r) /\
  NoDup (result_required_approval_roles r) /\ result_reason_codes r <> [].
Proof.
  intros H. apply combine_spec in H as (_ & Hrank & Hor & Hroles & Hsorted & Hnd & Hne).
  do 2 (split; [tauto|]). tauto.
Qed.

Definition w_decision (e : string) (o : PolicyOutcome) (roles : list string)
    (cs : list (string * pyval)) : PolicySemanticDecision :=
  {| engine := e; outcome_ := o; reason_codes := ["r"]; required_approval_roles := roles;
     constraints := cs |}.

Lemma combine_fail_closed_witness :
  exists r, combine_policy_semantics
    [w_decision "a" ALLOW ["x"] [("k", PInt 1)]; w_decision "b" REQUIRE_APPROVAL ["w"] [("k", PBool true)]]
    = Ok r /\ result_outcome r = REQUIRE_APPROVAL /\
    honoured (result_constraints r) ("k", PInt 1) /\ "w" ∈ result_required_approval_roles r.
Proof.
  eexists. split; [reflexivity|]. split; [reflexivity|].
  match goal with |- honoured (result_constraints ?r) _ /\ _ =>
    destruct (combine_fail_closed
      [w_decision "a" ALLOW ["x"] [("k", PInt 1)]; w_decision "b" REQUIRE_APPROVAL ["w"] [("k", PBool true)]]
      r eq_refl) as (_ & H2 & H3 & _) end.
  split.
  - apply (proj1 (proj2 (H2 ltac:(discriminate)))) with
      (d := w_decision "a" ALLOW ["x"] [("k", PInt 1)]); set_solver.
  - apply H3. exists (w_decision "b" REQUIRE_APPROVAL ["w"] [("k", PBool true)]). set_solver.
Defined.

(** Two engines that give a key different values deny the action, whatever
    their outcomes were. *)
Theorem conflicting_constraints_deny ds r k v w d1 d2 :
  combine_policy_semantics ds = Ok r ->
  d1 ∈ ds -> d2 ∈ ds -> (k, v) ∈ constraints d1 -> (k, w) ∈ constraints d2 ->
  v <> w -> scalar_eq v w = false ->
  result_outcome r = DENY.
Proof.
  intros H H1 H2 Hv Hw Hne Hs.
  apply combine_spec in H as (_ & _ & [Hd|(_ & Hh & _)] & _); [done|].
  destruct (Hh d1 _ H1 Hv) as (x & Hx & Hxv), (Hh d2 _ H2 Hw) as (y & Hy & Hyw).
  simpl in *. rewrite Hx in Hy. injection Hy as <-.
  destruct Hxv as [->|Hxv], Hyw as [->|Hyw]; try congruence.
  - by rewrite scalar_eq_sym, Hxv in Hs.
  - rewrite scalar_eq_sym in Hxv. by rewrite (scalar_eq_trans _ _ _ Hxv Hyw) in Hs.
Qed.

Lemma conflicting_constraints_deny_witness :
  exists r, combine_policy_semantics
    [w_decision "a" ALLOW [] [("region", PStr "eu")]; w_decision "b" ALLOW [] [("region", PStr "us")]]
    = Ok r /\ result_outcome r = DENY.
Proof.
  eexists. split; [reflexivity|].
  apply (conflicting_constraints_deny
    [w_decision "a" ALLOW [] [("region", PStr "eu")]; w_decision "b" ALLOW [] [("region", PStr "us")]]
    _ "region" (PStr "eu") (PStr "us")
    (w_decision "a" ALLOW [] [("region", PStr "eu")])
    (w_decision "b" ALLOW [] [("region", PStr "us")]) eq_refl);
    [set_solver|set_solver|set_solver|set_solver|discriminate|reflexivity].
Defined.

Lemma collect_spec {S} (engines : list (PolicyEngine (S := S))) action s ds s' :
  collect engines action s = (Ok ds, s') ->
  Forall2 (fun e d => exists t t', e action t = (Ok d, t')) engines ds.
Proof.
  revert s ds. induction engines as [|e engines IH]; intros s ds H; simpl in H; run_inv H.
  - constructor.
  - constructor; [by eexists _, _|]. by eapply IH.
Qed.

Lemma check_all_spec action digest ds u :
  fold_o (fun _ d => check_binding action digest d) ds u = Ok tt ->
  forall d, d ∈ ds -> PolicyDecision.action_id d = ActionSpec.action_id action /\
    PolicyDecision.action_digest d = digest /\
    PolicyDecision.tenant_id d = ActionSpec.tenant_id action.
Proof.
  revert u. induction ds as [|d ds IH]; intros u H d' Hd'; [set_solver|].
  simpl in H. apply obind_Ok in H as ([] & Hc & H).
  apply elem_of_cons in Hd' as [->|Hd']; [|by eapply IH].
  unfold check_binding in Hc. run_inv Hc. b2p. auto.
Qed.

Lemma foldl_min_le l a x : x = a \/ x ∈ l -> foldl Z.min a l <= x.
Proof.
  revert a x. induction l as [|y l IH]; intros a x; simpl.
  - intros [->|Hx]; [lia|set_solver].
  - intros [->|[->|Hx]%elem_of_cons].
    + pose proof (IH (Z.min a y) _ (or_introl eq_refl)). lia.
    + pose proof (IH (Z.min a y) _ (or_introl eq_refl)). lia.
    + apply IH. by right.
Qed.

(** C21: no adapter can weaken a stricter one.  When the conjunctive engine
    returns, every engine was consulted and answered for exactly this action and
    tenant; the decision returned is bound to the action's digest, is at least as
    strict as every answer and expires no later than any of them. *)
Theorem conjunctive_cannot_weaken {S} (engines : list (PolicyEngine (S := S))) revision action now s d s' :
  ConjunctivePolicyEngine_evaluate engines revision action now s = (Ok d, s') ->
  exists ds digest, ActionSpec.digest action = Ok digest /\
    Forall2 (fun e d' => exists t t', e action t = (Ok d', t')) engines ds /\
    PolicyDecision.action_id d = ActionSpec.action_id action /\
    PolicyDecision.action_digest d = digest /\
    forall d', d' ∈ ds ->
      (PolicyDecision.action_id d' = ActionSpec.action_id action /\
       PolicyDecision.action_digest d' = digest /\
       PolicyDecision.tenant_id d' = ActionSpec.tenant_id action) /\
      rank (PolicyDecision.outcome_ d') <= rank (PolicyDecision.outcome_ d) /\
      (forall e', PolicyDecision.expires_at d' = Some e' ->
         exists e, PolicyDecision.expires_at d = Some e /\ e <= e').
Proof.
  unfold ConjunctivePolicyEngine_evaluate. intros H. run_inv H.
  match goal with H : combine_policy_semantics _ = _ |- _ => apply combine_spec in H as (_ & Hrank & _) end.
  destruct a1.
  match goal with H : fold_o _ _ _ = _ |- _ => pose proof (check_all_spec _ _ _ _ H) as Hb end.
  match goal with H : Forall2 _ _ _ |- _ => idtac | H : collect _ _ _ = _ |- _ => apply collect_spec in H end.
  exists a, a0.
  match goal with H : PolicyDecision.create _ = _ |- _ => unfold PolicyDecision.create in H; run_inv H end.
  simpl in *.
  match goal with H : Sha256 _ _ = _ |- _ => unfold Sha256 in H; case_in H; [|discriminate H]; injection H as <- end.
  do 4 (split; [done|]). intros d' Hd'. split; [by apply Hb|]. split.
  - apply (Hrank (semantic_of d')). by apply list_elem_of_fmap_2.
  - intros e' He'. unfold min_expiry.
    assert (Hin : e' ∈ omap PolicyDecision.expires_at a)
      by (apply list_elem_of_omap; eauto).
    destruct (omap _ _) as [|e rest]; [set_solver|]. eexists. split; [reflexivity|].
    apply foldl_min_le. by apply elem_of_cons in Hin.
Qed.

Definition w_engine : PolicyEngine (S := unit) :=
  fun a => lift (DefaultPolicyEngine_evaluate "r1" a 0).

Lemma conjunctive_cannot_weaken_witness :
  exists d s', ConjunctivePolicyEngine_evaluate [w_engine; w_engine] "c1" (sample_action WRITE LOW) 5 tt
    = (Ok d, s') /\ PolicyDecision.action_id d = 11.
Proof.
  eexists _, _. split; [vm_compute; reflexivity|].
  edestruct (conjunctive_cannot_weaken [w_engine; w_engine] "c1" (sample_action WRITE LOW) 5 tt)
    as (ds & digest & _ & _ & H & _); [vm_compute; reflexivity|exact H].
Defined.

End PolicyProperties.
