(* ===== verification/Ledger.v ===== *)
(** * The tenant-partitioned, hash-chained event ledger

    Models [InMemoryEventLedger] of [memory.py] and [project_run] of
    [projectors.py].  Each (tenant, run) has its own list of events; an event's
    hash covers its own content, its place in the list and the hash before it. *)

From S2P Require Import Prelude Canonical CanonicalProofs Contracts.

Definition identity : Type := string * UUID.

(** [self._events]; the locks are the atomicity of the operations. *)
Abbreviation ledger := (gmap (string * UUID) (list ControlEvent)).

Definition empty : ledger := ∅.

Definition events_of (id : string * UUID) (l : ledger) : list ControlEvent := default [] (l !! id).

(** [any(run_id == draft.run_id and tenant_id != draft.tenant_id and events ...)] *)
Definition owned_elsewhere (tenant : string) (run : UUID) (l : ledger) : bool :=
  existsb (fun '((t, r), evs) =>
    (r =? run) && negb (bool_decide (t = tenant)) && negb (bool_decide (evs = [])))
    (map_to_list l).

Definition event_hash_of (e : ControlEvent) : string := EventIntegrity.event_hash (integrity e).
Definition previous_of (e : ControlEvent) : option string :=
  EventIntegrity.previous_event_hash (integrity e).

Definition chain_material (material : pyval) (previous : option string) : pyval :=
  PDict [("event", material); ("previous_event_hash", dump_opt PStr previous)].

Definition append (d : ControlEventDraft) : M ledger ControlEvent :=
  let id := (ControlEventDraft.tenant_id d, ControlEventDraft.run_id d) in
  l <- get ;;
  guard (negb (owned_elsewhere (ControlEventDraft.tenant_id d) (ControlEventDraft.run_id d) l))
    (IntegrityViolationError "a control run cannot cross tenant ledgers") ;;
  let run_events := events_of id l in
  modify (fun l => <[id := run_events]> l) ;;
  let sequence := Z.of_nat (length run_events) + 1 in
  let previous := option_map event_hash_of (last run_events) in
  h <- lift (sha256_hex (chain_material (event_material d sequence) previous)) ;;
  let event := {| draft := d; sequence := sequence;
                  integrity := {| EventIntegrity.algorithm := "sha256";
                                  EventIntegrity.canonicalization := "prodkit-json-v1";
                                  EventIntegrity.previous_event_hash := previous;
                                  EventIntegrity.event_hash := h;
                                  EventIntegrity.signature := None;
                                  EventIntegrity.signing_key_id := None |} |} in
  modify (fun l => <[id := run_events ++ [event]]> l) ;;
  ret event.

Definition list_run_events (tenant : string) (run : UUID) (l : ledger) : list ControlEvent :=
  events_of (tenant, run) l.

(** The body of the loop of [verify_run], on (previous, expected_sequence) *)
Definition verify_event (tenant : string) (run : UUID) (acc : option string * Z) (e : ControlEvent)
    : outcome (option string * Z) :=
  let '(previous, expected) := acc in
  require (sequence e =? expected) (IntegrityViolationError
    ("run " +:+ uuid_str run +:+ " expected sequence " +:+ pretty expected +:+ ", got " +:+
     pretty (sequence e))) ;~
  require (bool_decide (ControlEventDraft.tenant_id (draft e) = tenant))
    (IntegrityViolationError "tenant-scoped ledger returned a foreign-tenant event") ;~
  require (bool_decide (previous_of e = previous)) (IntegrityViolationError
    ("run " +:+ uuid_str run +:+ " sequence " +:+ pretty (sequence e) +:+ " has invalid previous hash")) ;~
  h <~ sha256_hex (chain_material (hash_material e) previous) ;;
  require (bool_decide (event_hash_of e = h)) (IntegrityViolationError
    ("run " +:+ uuid_str run +:+ " sequence " +:+ pretty (sequence e) +:+ " has invalid event hash")) ;~
  Ok (Some (event_hash_of e), expected + 1).

Definition verify_events (tenant : string) (run : UUID) (evs : list ControlEvent) : outcome unit :=
  fold_o (verify_event tenant run) evs (None, 1) ;~ Ok tt.

Definition verify_run (tenant : string) (run : UUID) (l : ledger) : outcome unit :=
  verify_events tenant run (list_run_events tenant run l).

Inductive step : ledger -> ledger -> Prop :=
| step_append d l o l' : append d l = (o, l') -> step l l'.

(** ** [project_run] *)
Record RunProjection : Type := {
  run_id : UUID;
  event_count : Z;
  final_event_hash : option string;
  counts_by_type : list (string * Z);
  action_ids : list UUID;
  completed : bool;
}.

(** [tuple(dict.fromkeys(...))]: the distinct elements in order of first occurrence *)
Definition unique_in_order {A} `{EqDecision A} (l : list A) : list A :=
  foldl (fun acc x => if mem x acc then acc else acc ++ [x]) [] l.

Definition event_type_of (e : ControlEvent) : EventType := ControlEventDraft.event_type (draft e).

Definition count_type (t : string) (evs : list ControlEvent) : Z :=
  count_if (fun e => bool_decide (EventType_value (event_type_of e) = t)) evs.

(** A [UUID] is always true, so [if event.action_id] keeps the ids present. *)
Definition project_run (evs : list ControlEvent) : outcome RunProjection :=
  match evs with
  | [] => Raise (ValueError "cannot project an empty run")
  | first :: _ =>
      let rid := ControlEventDraft.run_id (draft first) in
      require (forallb (fun e => ControlEventDraft.run_id (draft e) =? rid) evs)
        (ValueError "all events must belong to the same run") ;~
      Ok {| run_id := rid;
            event_count := Z.of_nat (length evs);
            final_event_hash := option_map event_hash_of (last evs);
            counts_by_type := map (fun t => (t, count_type t evs))
              (sort_by String.leb (remove_dups (map (fun e => EventType_value (event_type_of e)) evs)));
            action_ids := unique_in_order (omap (fun e => ControlEventDraft.action_id (draft e)) evs);
            completed := 0 <? count_type (EventType_value RUN_COMPLETED) evs |}
  end.

(** * Facts *)
Module LedgerFacts.

Lemma fold_o_app {A B} (f : B -> A -> outcome B) l1 l2 acc :
  fold_o f (l1 ++ l2) acc = (acc' <~ fold_o f l1 acc ;; fold_o f l2 acc').
Proof.
  revert acc. induction l1 as [|x l1 IH]; intros acc; simpl; [done|].
  destruct (f acc x); simpl; [apply IH|done].
Qed.

(** What verification knows at the end of a list it accepted *)
Lemma verify_fold_end tenant run evs acc :
  fold_o (verify_event tenant run) evs (None, 1) = Ok acc ->
  acc = (option_map event_hash_of (last evs), Z.of_nat (length evs) + 1).
Proof.
  revert acc. induction evs as [|e evs IH] using rev_ind; intros acc H.
  - injection H as <-. done.
  - rewrite fold_o_app in H. apply obind_Ok in H as ([p n] & H1 & H2).
    apply IH in H1 as [= -> ->]. simpl in H2. run_inv H2. simpl in *.
    rewrite last_snoc, length_app. simpl. f_equal. lia.
Qed.

Lemma append_spec d l o l' :
  append d l = (o, l') ->
  let id := (ControlEventDraft.tenant_id d, ControlEventDraft.run_id d) in
  (exists e, o = Raise e /\ forall k, events_of k l' = events_of k l) \/
  (exists event, o = Ok event /\ draft event = d /\
     owned_elsewhere (ControlEventDraft.tenant_id d) (ControlEventDraft.run_id d) l = false /\
     sequence event = Z.of_nat (length (events_of id l)) + 1 /\
     previous_of event = option_map event_hash_of (last (events_of id l)) /\
     sha256_hex (chain_material (hash_material event) (previous_of event)) = Ok (event_hash_of event) /\
     l' = <[id := events_of id l ++ [event]]> l).
Proof.
  intros H id. unfold append, bind, get, guard, lift, require, modify, ret in H. fold id in H.
  destruct (owned_elsewhere _ _ l) eqn:Ho; simpl in H.
  { injection H as <- <-. left. eauto. }
  destruct (sha256_hex _) as [h|e] eqn:Hh; injection H as <- <-.
  - right. eexists. split; [reflexivity|]. do 4 (split; [done|]). split; [exact Hh|].
    by rewrite insert_insert_eq.
  - left. eexists. split; [reflexivity|]. intros k. unfold events_of at 1.
    destruct (decide (id = k)) as [<-|Hne].
    + by rewrite lookup_insert_eq.
    + by rewrite lookup_insert_ne.
Qed.

(** The two invariants of every reachable ledger *)
Definition chains_ok (l : ledger) : Prop :=
  forall t r, verify_run t r l = Ok tt /\
    forall e, e ∈ events_of (t, r) l ->
      ControlEventDraft.tenant_id (draft e) = t /\ ControlEventDraft.run_id (draft e) = r.
Definition single_owner (l : ledger) : Prop :=
  forall t1 t2 r, events_of (t1, r) l <> [] -> events_of (t2, r) l <> [] -> t1 = t2.

Lemma verify_append t r evs e :
  verify_events t r evs = Ok tt ->
  sequence e = Z.of_nat (length evs) + 1 -> ControlEventDraft.tenant_id (draft e) = t ->
  previous_of e = option_map event_hash_of (last evs) ->
  sha256_hex (chain_material (hash_material e) (previous_of e)) = Ok (event_hash_of e) ->
  verify_events t r (evs ++ [e]) = Ok tt.
Proof.
  unfold verify_events. intros H Hs Ht Hp Hh. apply obind_Ok in H as (acc & H & _).
  rewrite fold_o_app, H. simpl. apply verify_fold_end in H as ->.
  unfold verify_event. rewrite Hs, Z.eqb_refl. simpl. rewrite Ht, bool_decide_true by done. simpl.
  rewrite bool_decide_true by done. simpl. rewrite <- Hp, Hh. simpl.
  by rewrite bool_decide_true.
Qed.

Lemma owned_elsewhere_false t r l t' :
  owned_elsewhere t r l = false -> events_of (t', r) l <> [] -> t' = t.
Proof.
  unfold owned_elsewhere, events_of. intros H Hne.
  destruct (l !! (t', r)) as [evs|] eqn:El; [|done]. simpl in Hne.
  destruct (decide (t' = t)) as [|Hneq]; [done|]. exfalso.
  assert (Hin : ((t', r), evs) ∈ map_to_list l) by by apply elem_of_map_to_list.
  apply not_true_iff_false in H. apply H. apply existsb_exists. exists ((t', r), evs).
  split; [by apply list_elem_of_In|]. rewrite Z.eqb_refl. simpl.
  by rewrite !bool_decide_false.
Qed.

Lemma events_of_insert (k k' : string * UUID) (evs : list ControlEvent) (l : ledger) :
  events_of k' (<[k := evs]> l) = if decide (k = k') then evs else events_of k' l.
Proof. unfold events_of. rewrite lookup_insert. by case_decide. Qed.

Lemma ledger_step_ok l l' : step l l' -> chains_ok l -> single_owner l -> chains_ok l' /\ single_owner l'.
Proof.
  intros [d l0 o l1 H] Hc Ho. apply append_spec in H as
    [(e & _ & Heq)|(e & _ & Hd & Hown & Hs & Hp & Hh & ->)].
  - split.
    + intros t r. unfold verify_run, list_run_events. rewrite Heq. apply Hc.
    + intros t1 t2 r. rewrite !Heq. apply Ho.
  - split.
    + intros t r. unfold verify_run, list_run_events. rewrite events_of_insert.
      case_decide as E; [|apply Hc]. injection E as <- <-.
      destruct (Hc (ControlEventDraft.tenant_id d) (ControlEventDraft.run_id d)) as [Hv Hall].
      split; [apply verify_append; auto; by rewrite Hd|].
      intros e' [He|He%list_elem_of_singleton]%elem_of_app; [auto|]. by rewrite He, Hd.
    + intros t1 t2 r. rewrite !events_of_insert.
      pose proof (owned_elsewhere_false _ _ _ t1 Hown) as H1.
      pose proof (owned_elsewhere_false _ _ _ t2 Hown) as H2.
      case_decide as E1; case_decide as E2; intros Hn1 Hn2.
      * congruence.
      * injection E1 as <- <-. symmetry. auto.
      * injection E2 as <- <-. auto.
      * by apply (Ho t1 t2 r).
Qed.

Lemma ledger_reachable_ok l : rtc step empty l -> chains_ok l /\ single_owner l.
Proof.
  revert l. apply rtc_ind_r.
  - split.
    + intros t r. unfold verify_run, list_run_events, events_of, empty. rewrite lookup_empty.
      split; [done|]. simpl. set_solver.
    + intros t1 t2 r. unfold events_of, empty. rewrite lookup_empty. done.
  - intros l l' _ Hs [Hc Ho]. by eapply ledger_step_ok.
Qed.

End LedgerFacts.

Module LedgerProperties.
Import LedgerFacts.

(** C4: the ledger is append-only and always verifies.  From the empty ledger, by
    any sequence of appends, every run of every tenant verifies, holds only events
    of that tenant and run, and no run has events under two tenants; a further
    append either fails and leaves every list as it was, or adds exactly the
    returned event, numbered next, at the end of its own run's list. *)
Theorem ledger_append_only l d o l' :
  rtc step empty l -> append d l = (o, l') ->
  (forall t r, verify_run t r l' = Ok tt /\
     forall e, e ∈ list_run_events t r l' ->
       ControlEventDraft.tenant_id (draft e) = t /\ ControlEventDraft.run_id (draft e) = r) /\
  (forall t1 t2 r, list_run_events t1 r l' <> [] -> list_run_events t2 r l' <> [] -> t1 = t2) /\
  let id := (ControlEventDraft.tenant_id d, ControlEventDraft.run_id d) in
  match o with
  | Ok e => draft e = d /\ sequence e = Z.of_nat (length (events_of id l)) + 1 /\
      forall k, events_of k l' = if decide (id = k) then events_of id l ++ [e] else events_of k l
  | Raise _ => forall k, events_of k l' = events_of k l
  end.
Proof.
  intros Hr Ha. assert (Hr' : rtc step empty l') by (eapply rtc_r; [exact Hr|by econstructor]).
  destruct (ledger_reachable_ok _ Hr') as [Hc Ho]. split; [exact Hc|]. split; [exact Ho|].
  intros id. apply append_spec in Ha as [(e & -> & Heq)|(e & -> & Hd & _ & Hs & _ & _ & ->)];
    [done|].
  split; [done|]. split; [done|]. intros k. apply events_of_insert.
Qed.

Definition w_draft (n : Z) : ControlEventDraft := {|
  ControlEventDraft.event_id := n; ControlEventDraft.run_id := 12;
  ControlEventDraft.tenant_id := "acme"; ControlEventDraft.event_type := RUN_STARTED;
  ControlEventDraft.occurred_at := 0; ControlEventDraft.recorded_at := 0;
  ControlEventDraft.actor := sample_actor;
  ControlEventDraft.trace_id := "0123456789abcdef0123456789abcdef";
  ControlEventDraft.span_id := "0123456789abcdef"; ControlEventDraft.parent_event_id := None;
  ControlEventDraft.causation_event_id := None; ControlEventDraft.correlation_id := None;
  ControlEventDraft.action_id := None; ControlEventDraft.lineage := [];
  ControlEventDraft.payload := []; ControlEventDraft.evidence := [] |}.

Lemma ledger_append_only_witness :
  verify_run "acme" 12 (snd (append (w_draft 1) empty)) = Ok tt /\
  list_run_events "acme" 12 (snd (append (w_draft 1) empty)) <> [].
Proof.
  destruct (append (w_draft 1) empty) as [o l'] eqn:E.
  destruct (ledger_append_only empty (w_draft 1) o l' (rtc_refl _ _) E) as (H1 & _ & H3).
  split; [apply H1|].
  assert (Ho : is_ok (fst (append (w_draft 1) empty)) = true) by (vm_compute; reflexivity).
  rewrite E in Ho. destruct o as [e|e]; [|discriminate].
  destruct H3 as (_ & _ & H3). unfold list_run_events. cbn [snd]. rewrite (H3 ("acme", 12)). discriminate.
Defined.

(** An event whose floats are spelled as Python spells them *)
Definition wf_event (e : ControlEvent) : bool := wf_value (hash_material e).

Lemma chain_material_eq m1 p1 m2 p2 :
  wf_value m1 = true -> wf_value m2 = true ->
  canonical_json_bytes (chain_material m1 p1) = canonical_json_bytes (chain_material m2 p2) ->
  canon (normalize m1) = canon (normalize m2) /\ p1 = p2.
Proof.
  intros H1 H2.
  assert (Hw : forall m p, wf_value m = true -> wf_value (chain_material m p) = true).
  { intros m p Hm. unfold chain_material, wf_value in *. simpl. rewrite Hm. by destruct p. }
  intros E. apply canonical_bytes_canon in E; [|by apply Hw..].
  simpl in E. injection E as E1 E2. split; [exact E1|]. destruct p1, p2; simpl in *; congruence.
Qed.

(** C5: tamper evidence.  If two histories of a run both verify and end in the same
    event hash, then they have the same number of events and agree event by event
    on everything the hash covers (the canonical form of every field but the
    integrity record), or a SHA-256 collision can be exhibited. *)
Theorem ledger_tamper_evident tenant run evs1 evs2 :
  verify_events tenant run evs1 = Ok tt -> verify_events tenant run evs2 = Ok tt ->
  forallb wf_event evs1 = true -> forallb wf_event evs2 = true ->
  option_map event_hash_of (last evs1) = option_map event_hash_of (last evs2) ->
  Forall2 (fun e1 e2 => canon (normalize (hash_material e1)) = canon (normalize (hash_material e2)))
    evs1 evs2 \/ collision.
Proof.
  unfold verify_events. intros H1 H2. apply obind_Ok in H1 as (a1 & H1 & _).
  apply obind_Ok in H2 as (a2 & H2 & _). revert evs2 a1 a2 H1 H2.
  induction evs1 as [|e1 evs1 IH] using rev_ind; intros evs2 a1 a2 H1 H2 Hw1 Hw2 Hl.
  - left. destruct (last evs2) eqn:E; [by rewrite last_nil in Hl|].
    apply last_None in E as ->. constructor.
  - destruct evs2 as [|e2 evs2 _] using rev_ind; [by rewrite last_snoc in Hl|].
    rewrite !last_snoc in Hl. injection Hl as Hl.
    rewrite fold_o_app in H1, H2. rewrite !forallb_app in Hw1, Hw2. simpl in Hw1, Hw2.
    rewrite andb_true_r in Hw1, Hw2. apply andb_true_iff in Hw1 as [Hw1 He1], Hw2 as [Hw2 He2].
    apply obind_Ok in H1 as (b1 & H1 & V1), H2 as (b2 & H2 & V2).
    pose proof (verify_fold_end _ _ _ _ H1) as ->. pose proof (verify_fold_end _ _ _ _ H2) as ->.
    simpl in V1, V2. run_inv V1. run_inv V2. b2p.
    match goal with
    | Ha : sha256_hex (chain_material (hash_material e1) _) = Ok ?h1,
      Hb : sha256_hex (chain_material (hash_material e2) _) = Ok ?h2 |- _ =>
        assert (h1 = h2) as -> by congruence;
        destruct (sha256_hex_eq _ _ _ Ha Hb) as [Heq|]; [|by right]
    end.
    apply chain_material_eq in Heq as [Hm Hp]; [|done..].
    destruct (IH _ _ _ H1 H2 Hw1 Hw2 Hp) as [HF|]; [|by right].
    left. apply Forall2_app; [done|]. by constructor.
Qed.

Lemma ledger_tamper_evident_witness :
  let evs := list_run_events "acme" 12 (snd (append (w_draft 2) (snd (append (w_draft 1) empty)))) in
  Forall2 (fun e1 e2 => canon (normalize (hash_material e1)) = canon (normalize (hash_material e2)))
    evs evs \/ collision.
Proof.
  intros evs. apply (ledger_tamper_evident "acme" 12 evs evs);
    [vm_compute; reflexivity|vm_compute; reflexivity|vm_compute; reflexivity
    |vm_compute; reflexivity|reflexivity].
Defined.

End LedgerProperties.
