(* ===== verification/Stores.v ===== *)
(** * The in-memory stores and the run coordinator

    [Module ApprovalStore], [Module IdempotencyStore] and [Module ArtifactStore]
    are the stores of [memory.py], [Module AttemptStore] is [attempts.py], [Module
    RunStore] is [runs.py], [Module Coordinator] is [coordinator.py] and [Module
    ExecutorRegistry] the registry of [executors.py].  Each store's lock makes an
    operation one atomic step. *)

From S2P Require Import Prelude Canonical CanonicalProofs Contracts Ledger.

(** ** [InMemoryApprovalStore] *)
Module ApprovalStore.
Abbreviation store := (gmap UUID (list ApprovalDecision)).

Definition empty : store := ∅.

Definition record (d : ApprovalDecision) : M store unit := modify (fun st =>
  let id := ApprovalDecision.action_id d in <[id := default [] (st !! id) ++ [d]]> st).

(** The loop of [find_valid_approval] over the approvals, latest first; the
    action's digest is computed for each of them. *)
Fixpoint first_valid (action : ActionSpec) (policy_decision : PolicyDecision)
    (target_digest : string) (now : datetime) (approvals : list ApprovalDecision)
    : outcome (option ApprovalDecision) :=
  match approvals with
  | [] => Ok None
  | approval :: rest =>
      d <~ ActionSpec.digest action ;;
      if ApprovalDecision.authorizes approval d target_digest
           (PolicyDecision.decision_id policy_decision)
           (PolicyDecision.policy_revision policy_decision)
           (ActionSpec.tenant_id action)
           (ActionTarget.environment (ActionSpec.target action)) now
      then Ok (Some approval)
      else first_valid action policy_decision target_digest now rest
  end.

Definition find_valid_approval (action : ActionSpec) (policy_decision : PolicyDecision)
    (target_digest : string) (now : datetime) (st : store) : outcome (option ApprovalDecision) :=
  first_valid action policy_decision target_digest now
    (rev (default [] (st !! ActionSpec.action_id action))).
End ApprovalStore.

(** ** [InMemoryIdempotencyStore] *)
Module IdempotencyStore.
Record entry : Type := { action_digest : string; entry_result : option ExecutionResult }.

Abbreviation store := (gmap (string * string) entry).

Definition empty : store := ∅.

Definition claim (tenant key digest : string) : M store bool :=
  st <- get ;;
  match st !! (tenant, key) with
  | None =>
      modify (fun st => <[(tenant, key) := {| action_digest := digest; entry_result := None |}]> st) ;;
      ret true
  | Some current =>
      guard (bool_decide (action_digest current = digest))
        (DuplicateActionError ("idempotency key '" +:+ key +:+ "' already belongs to another action digest")) ;;
      ret false
  end.

Definition complete (tenant key : string) (r : ExecutionResult) : M store unit :=
  st <- get ;;
  match st !! (tenant, key) with
  | None => raise (KeyError ("idempotency key '" +:+ key +:+ "' was not claimed"))
  | Some e => modify (fun st =>
      <[(tenant, key) := {| action_digest := action_digest e; entry_result := Some r |}]> st)
  end.

Definition result (tenant key : string) (st : store) : option ExecutionResult :=
  match st !! (tenant, key) with Some e => entry_result e | None => None end.

(** The calls, with the answer of a claim *)
Inductive op : Type :=
| Claim (tenant key digest : string) (answer : outcome bool)
| Complete (tenant key : string) (r : ExecutionResult).

Inductive step : store -> op -> store -> Prop :=
| step_claim t k d st o st' : claim t k d st = (o, st') -> step st (Claim t k d o) st'
| step_complete t k r st o st' : complete t k r st = (o, st') -> step st (Complete t k r) st'.

Inductive steps : store -> list op -> store -> Prop :=
| steps_nil st : steps st [] st
| steps_cons st o st1 os st2 : step st o st1 -> steps st1 os st2 -> steps st (o :: os) st2.
End IdempotencyStore.

(** ** [InMemoryExecutionAttemptStore] *)
Module AttemptStore.
Record store : Type := {
  records : gmap (string * UUID) ExecutionAttemptRecord;
  latest_by_action : gmap (string * UUID) UUID;
}.

Definition empty : store := {| records := ∅; latest_by_action := ∅ |}.

Definition put (a : ExecutionAttemptRecord) : M store unit := modify (fun st =>
  {| records := <[(ExecutionAttemptRecord.tenant_id a, ExecutionAttemptRecord.attempt_id a) := a]>
                  (records st);
     latest_by_action := <[(ExecutionAttemptRecord.tenant_id a, ExecutionAttemptRecord.action_id a) :=
                           ExecutionAttemptRecord.attempt_id a]> (latest_by_action st) |}).

Definition create (a : ExecutionAttemptRecord) : M store unit :=
  let id := ExecutionAttemptRecord.attempt_id a in
  st <- get ;;
  guard (bool_decide (records st !! (ExecutionAttemptRecord.tenant_id a, id) = None))
    (ValueError ("execution attempt " +:+ uuid_str id +:+ " already exists")) ;;
  guard (negb (existsb (fun '((_, i), _) => i =? id) (map_to_list (records st))))
    (ValueError "execution attempt id is already owned by another tenant") ;;
  put a.

Definition replace (a : ExecutionAttemptRecord) : M store unit :=
  let id := ExecutionAttemptRecord.attempt_id a in
  st <- get ;;
  match records st !! (ExecutionAttemptRecord.tenant_id a, id) with
  | None => raise (KeyError ("execution attempt " +:+ uuid_str id +:+ " does not exist"))
  | Some current =>
      guard (negb (negb (ExecutionAttemptRecord.action_id current =? ExecutionAttemptRecord.action_id a) ||
                   negb (ExecutionAttemptRecord.run_id current =? ExecutionAttemptRecord.run_id a)))
        (ValueError "execution-attempt identity is immutable") ;;
      put a
  end.

Definition get_attempt (tenant : string) (id : UUID) (st : store) : option ExecutionAttemptRecord :=
  records st !! (tenant, id).

Definition latest_for_action (tenant : string) (action_id : UUID) (st : store)
    : option ExecutionAttemptRecord :=
  match latest_by_action st !! (tenant, action_id) with
  | Some id => records st !! (tenant, id)
  | None => None
  end.

Inductive step : store -> store -> Prop :=
| step_create a st o st' : create a st = (o, st') -> step st st'
| step_replace a st o st' : replace a st = (o, st') -> step st st'.
End AttemptStore.

(** ** [InMemoryRunStore] *)
Module RunStore.
Abbreviation store := (gmap (string * UUID) RunRecord).

Definition empty : store := ∅.

Definition key (r : RunRecord) : string * UUID := (RunRecord.tenant_id r, RunRecord.run_id r).

Definition create (r : RunRecord) : M store unit :=
  st <- get ;;
  guard (bool_decide (st !! key r = None))
    (ValueError ("run " +:+ uuid_str (RunRecord.run_id r) +:+ " already exists")) ;;
  guard (negb (existsb (fun '((_, i), _) => i =? RunRecord.run_id r) (map_to_list st)))
    (ValueError ("run " +:+ uuid_str (RunRecord.run_id r) +:+ " is already owned by another tenant")) ;;
  modify (fun st => <[key r := r]> st).

Definition replace (r : RunRecord) : M store unit :=
  st <- get ;;
  match st !! key r with
  | None => raise (KeyError (uuid_str (RunRecord.run_id r)))
  | Some current =>
      guard (RunRecord.started_at current =? RunRecord.started_at r)
        (ValueError "run identity is immutable") ;;
      modify (fun st => <[key r := r]> st)
  end.

Definition get_run (tenant : string) (id : UUID) (st : store) : option RunRecord := st !! (tenant, id).
End RunStore.

(** ** [ExecutorRegistry]: executors by name; registration never replaces *)
Module ExecutorRegistry.
Section Registry.
Context {E : Type} (name : E -> string).

Definition register (e : E) : M (list (string * E)) unit :=
  st <- get ;;
  guard (negb (dict_has (name e) st))
    (ValueError ("executor '" +:+ name e +:+ "' already registered")) ;;
  modify (dict_set (name e) e).

Definition find_executor (n : string) (st : list (string * E)) : outcome E :=
  match dict_get n st with
  | Some e => Ok e
  | None => Raise (ExecutorNotFoundError ("no controlled executor named '" +:+ n +:+ "'"))
  end.
End Registry.
End ExecutorRegistry.

(** ** [InMemoryArtifactStore], without a filesystem root *)
Module ArtifactStore.
Abbreviation store := (gmap (string * string) bytes).

Definition empty : store := ∅.

Definition redaction_marker (original_digest : string) : pyval := PDict [
  ("redacted", PBool true); ("original_sha256", PStr original_digest);
  ("redaction_version", PStr "runtime-redaction-v1")].

Definition put (tenant media_type : string) (content : bytes) (classification : string)
    (redact : bool) : M store ArtifactRef :=
  let original_digest := sha256_bytes content in
  stored <- lift (if redact then canonical_json_bytes (redaction_marker original_digest)
                  else Ok content) ;;
  let digest := sha256_bytes stored in
  let location := "memory://" +:+ tenant +:+ "/" +:+ digest in
  modify (fun st => <[(tenant, location) := stored]> st) ;;
  lift (ArtifactRef.create {|
    ArtifactRef.tenant_id := tenant;
    ArtifactRef.artifact_id := "artifact-" +:+ digest;
    ArtifactRef.media_type := media_type;
    ArtifactRef.sha256 := digest;
    ArtifactRef.size_bytes := Z.of_nat (length stored);
    ArtifactRef.storage_mode := if redact then REDACTED else FULL;
    ArtifactRef.location := Some location;
    ArtifactRef.encrypted := false;
    ArtifactRef.redacted := redact;
    ArtifactRef.redaction_version := if redact then Some "runtime-redaction-v1" else None;
    ArtifactRef.retention_until := None;
    ArtifactRef.classification := classification |}).

Definition starts_with (prefix s : string) : bool := String.prefix prefix s.

Definition get_content (tenant : string) (a : ArtifactRef) (st : store) : outcome bytes :=
  require (bool_decide (ArtifactRef.tenant_id a = tenant))
    (AuthorizationDeniedError "artifact is not owned by the requested tenant") ;~
  match ArtifactRef.location a with
  | None => Raise (KeyError "artifact has no retrievable location")
  | Some location =>
      if starts_with "file:" location
      then Raise (KeyError "filesystem artifacts require a configured root")
      else
        match st !! (tenant, location) with
        | None => Raise (KeyError location)
        | Some content =>
            require (bool_decide (sha256_bytes content = ArtifactRef.sha256 a))
              (IntegrityViolationError ("artifact " +:+ ArtifactRef.artifact_id a +:+
                 " failed digest verification")) ;~
            Ok content
        end
  end.

Inductive step : store -> store -> Prop :=
| step_put t m c cl r st o st' : put t m c cl r st = (o, st') -> step st st'.
End ArtifactStore.

(** ** [RunCoordinator] *)
Module Coordinator.
Record state : Type := { led : ledger; runs : RunStore.store }.

Definition on_ledger {A} (m : M ledger A) : M state A :=
  zoom led (fun l s => {| led := l; runs := runs s |}) m.
Definition on_runs {A} (m : M RunStore.store A) : M state A :=
  zoom runs (fun r s => {| led := led s; runs := r |}) m.

Definition terminal (s : RunStatus) : bool :=
  mem s [RUN_SUCCEEDED; RUN_FAILED; CANCELLED; INCOMPLETE].

Definition make_draft (event_id run_id : UUID) (tenant : string) (ty : EventType) (now : datetime)
    (actor : ActorRef) (trace_id span_id : string) (action_id : option UUID)
    (payload : list (string * pyval)) : outcome ControlEventDraft :=
  ControlEventDraft.create {|
    ControlEventDraft.event_id := event_id; ControlEventDraft.run_id := run_id;
    ControlEventDraft.tenant_id := tenant; ControlEventDraft.event_type := ty;
    ControlEventDraft.occurred_at := now; ControlEventDraft.recorded_at := now;
    ControlEventDraft.actor := actor; ControlEventDraft.trace_id := trace_id;
    ControlEventDraft.span_id := span_id; ControlEventDraft.parent_event_id := None;
    ControlEventDraft.causation_event_id := None; ControlEventDraft.correlation_id := None;
    ControlEventDraft.action_id := action_id; ControlEventDraft.lineage := [];
    ControlEventDraft.payload := payload; ControlEventDraft.evidence := [] |}.

Definition fields_of (v : pyval) : list (string * pyval) := match v with PDict d => d | _ => [] end.

(** [run_id], [event_id], [trace_id] and [span_id] are the fresh identifiers. *)
Definition start_run (tenant : string) (initiated_by : ActorRef) (environment purpose : string)
    (source_intent : option pyval) (specification_revision : option LineageNodeRef)
    (workflow_id : option string) (now : datetime) (run_id event_id : UUID)
    (trace_id span_id : string) : M state RunRecord :=
  guard (bool_decide (ActorRef.tenant_id initiated_by = tenant))
    (AuthorizationDeniedError "initiating actor tenant does not match run tenant") ;;
  intent <- lift (match source_intent with
                  | None => Ok None
                  | Some v => d <~ sha256_hex v ;; Ok (Some d)
                  end) ;;
  run <- lift (RunRecord.create {|
    RunRecord.run_id := run_id; RunRecord.tenant_id := tenant; RunRecord.status := RUNNING;
    RunRecord.initiated_by := initiated_by; RunRecord.environment := environment;
    RunRecord.purpose := purpose; RunRecord.trace_id := trace_id; RunRecord.started_at := now;
    RunRecord.completed_at := None; RunRecord.source_intent_digest := intent;
    RunRecord.specification_revision := specification_revision;
    RunRecord.lineage_graph_digest := None; RunRecord.workflow_id := workflow_id;
    RunRecord.metadata := [] |}) ;;
  event <- lift (make_draft event_id run_id tenant RUN_STARTED now initiated_by
                   (RunRecord.trace_id run) span_id None
                   (fields_of (json_mode (RunRecord.dump run)))) ;;
  on_runs (RunStore.create run) ;;
  on_ledger (append event) ;;
  ret run.

Definition require_run (tenant : string) (id : UUID) : M state RunRecord :=
  s <- get ;;
  match RunStore.get_run tenant id (runs s) with
  | None => raise (KeyError (uuid_str id))
  | Some r => ret r
  end.

Definition with_status (r : RunRecord) (st : RunStatus) (completed : option datetime) : RunRecord := {|
  RunRecord.run_id := RunRecord.run_id r; RunRecord.tenant_id := RunRecord.tenant_id r;
  RunRecord.status := st; RunRecord.initiated_by := RunRecord.initiated_by r;
  RunRecord.environment := RunRecord.environment r; RunRecord.purpose := RunRecord.purpose r;
  RunRecord.trace_id := RunRecord.trace_id r; RunRecord.started_at := RunRecord.started_at r;
  RunRecord.completed_at := completed;
  RunRecord.source_intent_digest := RunRecord.source_intent_digest r;
  RunRecord.specification_revision := RunRecord.specification_revision r;
  RunRecord.lineage_graph_digest := RunRecord.lineage_graph_digest r;
  RunRecord.workflow_id := RunRecord.workflow_id r; RunRecord.metadata := RunRecord.metadata r |}.

Definition complete_run (run_id : UUID) (actor : ActorRef) (status : RunStatus)
    (summary : option (list (string * pyval))) (now : datetime) (event_id : UUID) (span_id : string)
    : M state RunRecord :=
  current <- require_run (ActorRef.tenant_id actor) run_id ;;
  guard (terminal status) (ValueError "run completion requires a terminal status") ;;
  guard (negb (terminal (RunRecord.status current))) (ValueError "run is already terminal") ;;
  let completed := with_status current status (Some now) in
  event <- lift (make_draft event_id run_id (RunRecord.tenant_id current) RUN_COMPLETED now actor
                   (RunRecord.trace_id current) span_id None
                   [("status", PStr (RunStatus_value status));
                    ("summary", PDict (default [] summary))]) ;;
  on_ledger (append event) ;;
  on_runs (RunStore.replace completed) ;;
  ret completed.

Definition bind_lineage (run_id : UUID) (tenant lineage_graph_digest : string)
    (specification_revision : option LineageNodeRef) : M state RunRecord :=
  current <- require_run tenant run_id ;;
  guard (match RunRecord.specification_revision current, specification_revision with
         | Some a, Some b => bool_decide (a = b)
         | _, _ => true
         end)
    (ValueError "a run cannot be rebound to another specification revision") ;;
  let updated := {|
    RunRecord.run_id := RunRecord.run_id current; RunRecord.tenant_id := RunRecord.tenant_id current;
    RunRecord.status := RunRecord.status current;
    RunRecord.initiated_by := RunRecord.initiated_by current;
    RunRecord.environment := RunRecord.environment current;
    RunRecord.purpose := RunRecord.purpose current; RunRecord.trace_id := RunRecord.trace_id current;
    RunRecord.started_at := RunRecord.started_at current;
    RunRecord.completed_at := RunRecord.completed_at current;
    RunRecord.source_intent_digest := RunRecord.source_intent_digest current;
    RunRecord.specification_revision :=
      match specification_revision with
      | Some b => Some b
      | None => RunRecord.specification_revision current
      end;
    RunRecord.lineage_graph_digest := Some lineage_graph_digest;
    RunRecord.workflow_id := RunRecord.workflow_id current;
    RunRecord.metadata := RunRecord.metadata current |} in
  on_runs (RunStore.replace updated) ;;
  ret updated.

(** The calls of the coordinator's clients, each run to its end *)
Inductive step : state -> state -> Prop :=
| step_start t a env p si sr wf now rid eid tid sid s o s' :
    start_run t a env p si sr wf now rid eid tid sid s = (o, s') -> step s s'
| step_complete rid a st sm now eid sid s o s' :
    complete_run rid a st sm now eid sid s = (o, s') -> step s s'
| step_bind rid t d sr s o s' : bind_lineage rid t d sr s = (o, s') -> step s s'.
End Coordinator.

(** * Facts *)
Module StoreFacts.
Import IdempotencyStore.

(** How often a key was claimed with the answer true *)
Definition granted (t k : string) (o : op) : bool :=
  match o with
  | Claim t' k' _ (Ok true) => bool_decide (t' = t) && bool_decide (k' = k)
  | _ => false
  end.

Definition held (t k : string) (st : store) : Z :=
  match st !! (t, k) with Some _ => 1 | None => 0 end.

Lemma steps_granted t k st os st' :
  steps st os st' -> count_if (granted t k) os + held t k st = held t k st'.
Proof.
  induction 1 as [st|st o st1 os st2 Hs _ IH]; [unfold count_if; simpl; lia|].
  rewrite count_if_cons. enough (b2z (granted t k o) + held t k st = held t k st1) by lia.
  unfold held.
  destruct Hs as [t' k' d st o st' H|t' k' r st o st' H]; unfold granted.
  - unfold claim, bind, get, guard, lift, require, modify, ret in H.
    destruct (st !! (t', k')) as [e|] eqn:E.
    + assert (st' = st /\ o <> Ok true) as [-> Ho] by (repeat case_in H; split; congruence).
      destruct o as [[]|]; [congruence|simpl; lia..].
    + injection H as <- <-. rewrite lookup_insert.
      destruct (decide (t' = t)) as [<-|Ht]; [destruct (decide (k' = k)) as [<-|Hk]|].
      * rewrite decide_True, E, !bool_decide_true by done. simpl. lia.
      * rewrite decide_False by congruence. rewrite (bool_decide_false (k' = k)), andb_false_r by done.
        simpl. lia.
      * rewrite decide_False by congruence. rewrite (bool_decide_false (t' = t)) by done. simpl. lia.
  - simpl. unfold complete, bind, get, raise, modify in H.
    destruct (st !! (t', k')) as [e|] eqn:E; injection H as <- <-; [|lia].
    rewrite lookup_insert. case_decide as Ek; [|lia]. injection Ek as -> ->. rewrite E. lia.
Qed.

(** An entry keeps the digest it was claimed with, and its result once it has one
    is only replaced by another completion. *)
Lemma steps_digest t k st os st' e :
  steps st os st' -> st !! (t, k) = Some e ->
  exists e', st' !! (t, k) = Some e' /\ action_digest e' = action_digest e /\
    (entry_result e <> None -> entry_result e' <> None).
Proof.
  intros H. revert e. induction H as [st|st o st1 os st2 Hs _ IH]; intros e He; [eauto|].
  enough (exists e1, st1 !! (t, k) = Some e1 /\ action_digest e1 = action_digest e /\
    (entry_result e <> None -> entry_result e1 <> None)) as (e1 & H1 & Hd1 & Hr1).
  { destruct (IH _ H1) as (e2 & H2 & Hd2 & Hr2). exists e2. split; [done|]. split; [congruence|]. auto. }
  destruct Hs as [t' k' d st o st' H|t' k' r st o st' H].
  - unfold claim, bind, get, guard, lift, require, modify, ret in H.
    destruct (st !! (t', k')) as [e0|] eqn:E.
    + assert (st' = st) as -> by (repeat case_in H; congruence). eauto.
    + injection H as <- <-. exists e. rewrite lookup_insert_ne by congruence. eauto.
  - unfold complete, bind, get, raise, modify in H.
    destruct (st !! (t', k')) as [e0|] eqn:E; injection H as <- <-; [|eauto].
    rewrite lookup_insert. case_decide as Ek; [|eauto]. injection Ek as -> ->.
    assert (e0 = e) as -> by congruence. eexists. split; [reflexivity|]. done.
Qed.

Import Coordinator.

(** The part of a run's record nothing may change: its whole record once terminal,
    except for the binding of a lineage; its identity always. *)
Definition run_ext (r r' : RunRecord) : Prop :=
  RunRecord.tenant_id r' = RunRecord.tenant_id r /\ RunRecord.run_id r' = RunRecord.run_id r /\
  RunRecord.started_at r' = RunRecord.started_at r /\
  RunRecord.initiated_by r' = RunRecord.initiated_by r /\
  (terminal (RunRecord.status r) = true ->
     RunRecord.status r' = RunRecord.status r /\ RunRecord.completed_at r' = RunRecord.completed_at r) /\
  (forall s, RunRecord.specification_revision r = Some s -> RunRecord.specification_revision r' = Some s).

Lemma run_ext_refl r : run_ext r r.
Proof. repeat split; auto. Qed.

Lemma run_ext_trans r1 r2 r3 : run_ext r1 r2 -> run_ext r2 r3 -> run_ext r1 r3.
Proof.
  intros (H1 & H2 & H3 & H4 & H5 & H6) (G1 & G2 & G3 & G4 & G5 & G6).
  repeat split; try congruence; auto.
  - destruct (H5 H) as [E _]. destruct G5; congruence.
  - destruct (H5 H) as [E E']. destruct G5; congruence.
Qed.

Lemma bind_inv {S A B} (m : M S A) (k : A -> M S B) s o s' :
  bind m k s = (o, s') ->
  (exists e, m s = (Raise e, s') /\ o = Raise e) \/
  (exists a s1, m s = (Ok a, s1) /\ k a s1 = (o, s')).
Proof. unfold bind. destruct (m s) as [[a|e] s1]; [eauto|]. intros [= <- <-]. eauto. Qed.

Lemma replace_runs (r : RunRecord) (st : RunStore.store) o st' :
  RunStore.replace r st = (o, st') -> st' = st \/ st' = <[RunStore.key r := r]> st.
Proof.
  unfold RunStore.replace, bind, get, raise, guard, lift, require, modify. intros H.
  repeat case_in H; injection H as <- <-; auto.
Qed.

Lemma create_runs (r : RunRecord) (st : RunStore.store) o st' :
  RunStore.create r st = (o, st') ->
  st' = st \/ (st !! RunStore.key r = None /\ st' = <[RunStore.key r := r]> st).
Proof.
  unfold RunStore.create, bind, get, guard, lift, require, modify. intros H.
  destruct (bool_decide (st !! RunStore.key r = None)) eqn:E; [|injection H as <- <-; auto].
  b2p. case_in H; injection H as <- <-; auto.
Qed.

(** A key under which a record is filed is the record's own. *)
Definition filed (st : RunStore.store) : Prop := forall k r, st !! k = Some r -> RunStore.key r = k.

Lemma filed_insert (r : RunRecord) (st : RunStore.store) : filed st -> filed (<[RunStore.key r := r]> st).
Proof. intros Hf k r'. rewrite lookup_insert. case_decide; [|auto]. congruence. Qed.

Lemma coordinator_step s s' :
  Coordinator.step s s' -> filed (runs s) ->
  filed (runs s') /\
  forall k r, runs s !! k = Some r -> exists r', runs s' !! k = Some r' /\ run_ext r r'.
Proof.
  assert (Hsame : forall s : state, filed (runs s) ->
    filed (runs s) /\
    forall k r, runs s !! k = Some r -> exists r', runs s !! k = Some r' /\ run_ext r r').
  { intros s0 Hf. split; [done|]. eauto using run_ext_refl. }
  assert (Hrepl : forall (s0 : state) l cur new o st1, filed (runs s0) ->
    runs s0 !! RunStore.key cur = Some cur -> RunStore.key new = RunStore.key cur -> run_ext cur new ->
    RunStore.replace new (runs s0) = (o, st1) ->
    filed (runs {| led := l; runs := st1 |}) /\
    forall k r, runs s0 !! k = Some r ->
      exists r', runs {| led := l; runs := st1 |} !! k = Some r' /\ run_ext r r').
  { intros s0 l cur new o st1 Hf Hcur Hk Hext H. simpl.
    destruct (replace_runs _ _ _ _ H) as [-> | ->]; [by apply Hsame|].
    split; [by apply filed_insert|]. intros k r Hr. rewrite lookup_insert.
    case_decide as E; [|eauto using run_ext_refl]. exists new. split; [done|].
    rewrite <- E, Hk, Hcur in Hr. by injection Hr as <-. }
  assert (Hreq : forall t id s0 o s1, require_run t id s0 = (o, s1) ->
    s1 = s0 /\ forall r, o = Ok r -> runs s0 !! (t, id) = Some r).
  { unfold require_run, bind, get, raise, ret, RunStore.get_run. intros t id s0 o s1 H.
    case_in H; injection H as <- <-; split; congruence. }
  destruct 1 as [t a env p si sr wf now rid eid tid sid s o s' H|rid a st sm now eid sid s o s' H
                |rid t d sr s o s' H]; intros Hf.
  - unfold start_run in H.
    apply bind_inv in H as [(e & H & _)|(u & s1 & H1 & H)];
      [unfold guard, lift in H; injection H as _ <-; auto|].
    unfold guard, lift in H1. injection H1 as _ <-.
    apply bind_inv in H as [(e & H & _)|(intent & s1 & H1 & H)];
      [unfold lift in H; injection H as _ <-; auto|].
    unfold lift in H1. injection H1 as _ <-.
    apply bind_inv in H as [(e & H & _)|(run & s1 & H1 & H)];
      [unfold lift in H; injection H as _ <-; auto|].
    unfold lift in H1. injection H1 as _ <-.
    apply bind_inv in H as [(e & H & _)|(ev & s1 & H1 & H)];
      [unfold lift in H; injection H as _ <-; auto|].
    unfold lift in H1. injection H1 as _ <-.
    assert (Hrun : forall s1 o1, on_runs (RunStore.create run) s = (o1, s1) -> filed (runs s1) /\
      forall k r, runs s !! k = Some r -> exists r', runs s1 !! k = Some r' /\ run_ext r r').
    { intros s1 o1 H1. unfold on_runs, zoom in H1. case_in H1. injection H1 as <- <-. simpl.
      destruct (create_runs _ _ _ _ Heqp0) as [->|[Hn ->]]; [by apply Hsame|].
      split; [by apply filed_insert|]. intros k r Hr. exists r. split; [|apply run_ext_refl].
      rewrite lookup_insert_ne; [done|]. congruence. }
    apply bind_inv in H as [(e & H & _)|(u2 & s1 & H1 & H)]; [by eapply Hrun|].
    apply Hrun in H1.
    assert (runs s' = runs s1) as ->; [|done].
    unfold bind, on_ledger, zoom, ret in H.
    destruct (append ev (led s1)) as [[e1|e1] l2]; injection H as _ <-; done.
  - unfold complete_run in H.
    apply bind_inv in H as [(e & H & _)|(cur & s1 & H1 & H)];
      [apply Hreq in H as [-> _]; auto|].
    apply Hreq in H1 as [-> Hcur]. specialize (Hcur _ eq_refl).
    unfold bind at 1, guard, lift, require in H. destruct (terminal st); [|injection H as _ <-; auto].
    unfold bind at 1, guard, lift, require in H.
    destruct (terminal (RunRecord.status cur)) eqn:Ht; [injection H as _ <-; auto|]. cbn [negb] in H.
    unfold bind at 1, lift in H.
    destruct (make_draft _ _ _ _ _ _ _ _ _ _) as [c|e0]; [|injection H as _ <-; auto].
    unfold bind, on_ledger, on_runs, zoom, ret in H.
    pose proof (Hf _ _ Hcur) as Hk.
    destruct (append c (led s)) as [[ev|e] l']; [|injection H as <- <-; exact (Hsame s Hf)].
    cbn [led runs] in H.
    destruct (RunStore.replace _ (runs s)) as [o1 st1] eqn:Er.
    assert (s' = {| led := l'; runs := st1 |}) as -> by (destruct o1; injection H as <- <-; done).
    eapply (Hrepl s l' cur); [done|congruence| | |exact Er]; [done|].
    repeat split; auto; congruence.
  - unfold bind_lineage in H.
    apply bind_inv in H as [(e & H & _)|(cur & s1 & H1 & H)];
      [apply Hreq in H as [-> _]; auto|].
    apply Hreq in H1 as [-> Hcur]. specialize (Hcur _ eq_refl).
    apply bind_inv in H as [(e & H & _)|(u & s1 & H1 & H)];
      [unfold guard, lift in H; injection H as _ <-; auto|].
    unfold guard, lift in H1. injection H1 as Hguard <-.
    pose proof (Hf _ _ Hcur) as Hk.
    unfold bind, on_runs, zoom, ret in H.
    destruct (RunStore.replace _ (runs s)) as [o1 st1] eqn:Er.
    assert (s' = {| led := led s; runs := st1 |}) as -> by (destruct o1; injection H as <- <-; done).
    eapply (Hrepl s (led s) cur); [done|congruence| | |exact Er]; [done|].
    repeat split; auto. simpl. intros sp Hsp. rewrite Hsp in Hguard.
    destruct sr; [|done]. unfold require in Hguard. case_in Hguard; [|done]. b2p. congruence.
Qed.

End StoreFacts.

Module StoreProperties.
Import StoreFacts.

(** C22: permanent ownership of an external effect.  Over any sequence of claims and
    completions, a key of a tenant is granted at most once, a claim under another
    digest is an error, and once a result is recorded the key always has one. *)
Theorem claim_granted_once t k ops st :
  IdempotencyStore.steps IdempotencyStore.empty ops st ->
  count_if (granted t k) ops <= 1 /\
  (forall e, st !! (t, k) = Some e ->
     forall ops' st', IdempotencyStore.steps st ops' st' ->
       count_if (granted t k) ops' = 0 /\
       (forall d, fst (IdempotencyStore.claim t k d st') =
          if bool_decide (IdempotencyStore.action_digest e = d) then Ok false
          else Raise (DuplicateActionError
                 ("idempotency key '" +:+ k +:+ "' already belongs to another action digest"))) /\
       (IdempotencyStore.entry_result e <> None -> IdempotencyStore.result t k st' <> None)).
Proof.
  intros H. split.
  - pose proof (steps_granted t k _ _ _ H) as Hg.
    unfold held, IdempotencyStore.empty in Hg. rewrite lookup_empty in Hg.
    case_match; lia.
  - intros e He ops' st' H'. pose proof (steps_granted t k _ _ _ H') as Hg.
    destruct (steps_digest _ _ _ _ _ _ H' He) as (e' & He' & Hd & Hr).
    unfold held in Hg. rewrite He, He' in Hg. split; [lia|]. split.
    + intros d. unfold IdempotencyStore.claim, bind, get, guard, lift, require, ret.
      rewrite He', Hd. by case_bool_decide.
    + unfold IdempotencyStore.result. by rewrite He'.
Qed.

Lemma claim_granted_once_witness :
  let claim1 := IdempotencyStore.claim "acme" "k" "d1" IdempotencyStore.empty in
  count_if (granted "acme" "k") [IdempotencyStore.Claim "acme" "k" "d1" (fst claim1)] <= 1.
Proof.
  intros claim1.
  apply (claim_granted_once "acme" "k" [IdempotencyStore.Claim "acme" "k" "d1" (fst claim1)] (snd claim1)).
  eapply IdempotencyStore.steps_cons; [|apply IdempotencyStore.steps_nil].
  apply IdempotencyStore.step_claim. reflexivity.
Defined.

(** The life of a run.  From the empty state, by any sequence of coordinator
    calls, a recorded run keeps its tenant, start and initiator; once its status is
    terminal, status and completion time never change again, and a further
    completion is refused; a specification revision it is bound to is never replaced. *)
Theorem terminal_run_final s1 s2 t id r :
  rtc Coordinator.step {| Coordinator.led := Ledger.empty; Coordinator.runs := RunStore.empty |} s1 ->
  Coordinator.runs s1 !! (t, id) = Some r ->
  rtc Coordinator.step s1 s2 ->
  exists r', Coordinator.runs s2 !! (t, id) = Some r' /\ run_ext r r' /\
    (Coordinator.terminal (RunRecord.status r) = true ->
     forall actor status sm now eid sid, ActorRef.tenant_id actor = t ->
       is_ok (fst (Coordinator.complete_run id actor status sm now eid sid s2)) = false).
Proof.
  intros H1 Hr H2.
  assert (Hf : filed (Coordinator.runs s1)).
  { revert H1. revert s1 Hr H2. intros s1 _ _. revert s1. apply rtc_ind_r; [done|].
    intros y z _ Hs Hf. by apply (coordinator_step y z). }
  assert (Hext : exists r', Coordinator.runs s2 !! (t, id) = Some r' /\ run_ext r r').
  { clear H1. revert r Hr Hf. induction H2 as [s|s1 s1' s2 Hs _ IH]; intros r Hr Hf.
    - eauto using run_ext_refl.
    - destruct (coordinator_step _ _ Hs Hf) as [Hf' Hk].
      destruct (Hk _ _ Hr) as (r1 & Hr1 & He1). destruct (IH _ Hr1 Hf') as (r2 & Hr2 & He2).
      eauto using run_ext_trans. }
  destruct Hext as (r' & Hr' & He). exists r'. split; [done|]. split; [done|].
  intros Hterm actor status sm now eid sid <-.
  destruct He as (_ & _ & _ & _ & Hst & _). destruct (Hst Hterm) as [Hs _].
  unfold Coordinator.complete_run, Coordinator.require_run, RunStore.get_run, bind, get, guard,
    lift, require, ret.
  rewrite Hr'. destruct (Coordinator.terminal status); [|done]. by rewrite Hs, Hterm.
Qed.

Definition w_run : outcome RunRecord * Coordinator.state :=
  Coordinator.start_run "acme" sample_actor "prod" "deploy" None None None 10 12 13
    "0123456789abcdef0123456789abcdef" "0123456789abcdef"
    {| Coordinator.led := Ledger.empty; Coordinator.runs := RunStore.empty |}.
Definition w_run_done : outcome RunRecord * Coordinator.state :=
  Coordinator.complete_run 12 sample_actor RUN_SUCCEEDED None 20 14 "0123456789abcdef" (snd w_run).

Lemma terminal_run_final_witness :
  is_ok (fst (Coordinator.complete_run 12 sample_actor RUN_FAILED None 30 15 "0123456789abcdef"
                (snd w_run_done))) = false.
Proof.
  assert (Hr : exists r, Coordinator.runs (snd w_run_done) !! ("acme", 12) = Some r /\
            Coordinator.terminal (RunRecord.status r) = true).
  { eexists. split; vm_compute; reflexivity. }
  destruct Hr as (r & Hr & Ht).
  destruct (terminal_run_final (snd w_run_done) (snd w_run_done) "acme" 12 r) as (r' & _ & _ & H);
    [|exact Hr|apply rtc_refl|by apply H].
  pose proof (surjective_pairing w_run) as E1. unfold w_run at 1 in E1.
  pose proof (surjective_pairing w_run_done) as E2. unfold w_run_done at 1 in E2.
  eapply rtc_l; [exact (Coordinator.step_start _ _ _ _ _ _ _ _ _ _ _ _ _ _ _ E1)|].
  apply rtc_once. exact (Coordinator.step_complete _ _ _ _ _ _ _ _ _ _ E2).
Defined.

Lemma artifact_stored t1 t2 m c cl r st o st' tenant loc content :
  ArtifactStore.put t2 m c cl r st = (o, st') ->
  loc = "memory://" +:+ t1 +:+ "/" +:+ sha256_bytes content ->
  st !! (tenant, loc) = Some content -> tenant = t1 ->
  st' !! (tenant, loc) = Some content \/ collision.
Proof.
  intros H -> Hst ->. unfold ArtifactStore.put, bind, lift, modify in H.
  destruct (if r then _ else _) as [stored|e]; [|injection H as _ <-; by left].
  injection H as _ <-. rewrite lookup_insert. case_decide as E; [|by left].
  injection E as -> E.
  assert (Hd : sha256_bytes stored = sha256_bytes content).
  { assert (Hinj : forall a x y, a +:+ x = a +:+ y -> x = y).
    { intros a x y. induction a as [|h a IH]; [done|]. intros [= Hx]. by apply IH. }
    apply (Hinj "/"), (Hinj t1). exact E. }
  apply sha256_bytes_eq in Hd as [->|]; [by left|by right].
Qed.

Lemma ArtifactRef_create_Ok r a :
  ArtifactRef.create r = Ok a ->
  NonBlankStr "tenant_id" (ArtifactRef.tenant_id r) = Ok (ArtifactRef.tenant_id a) /\
  optional (NonBlankStr "location") (ArtifactRef.location r) = Ok (ArtifactRef.location a) /\
  ArtifactRef.sha256 a = ArtifactRef.sha256 r.
Proof.
  unfold ArtifactRef.create. intros H.
  repeat (apply obind_Ok in H as (? & ? & H)). injection H as <-. simpl.
  repeat split; auto.
  match goal with H : Sha256 _ _ = _ |- _ => unfold Sha256 in H; case_in H; congruence end.
Qed.

Lemma location_kept tenant b :
  let location := "memory://" +:+ tenant +:+ "/" +:+ sha256_bytes b in
  strip_by white_space location = location /\ ArtifactStore.starts_with "file:" location = false.
Proof.
  intros location. split; [|reflexivity].
  assert (Hd : exists m d, txt ("/" +:+ sha256_bytes b) = m ++ [d] /\ white_space d = false).
  { pose proof (sha256_bytes_chars b) as Hc. unfold txt in *. rewrite list_ascii_app.
    destruct (String.list_ascii_of_string (sha256_bytes b)) as [|d l _] using rev_ind.
    - eexists [], _. split; reflexivity.
    - rewrite forallb_app in Hc. simpl in Hc. b2p.
      exists (txt "/" ++ l), d. split; [by rewrite <- app_assoc|]. by apply lower_hex_kept. }
  destruct Hd as (m & d & Hm & Hw). unfold txt in Hm.
  apply (strip_by_keep _ _ (chr 109) (txt "emory://" ++ (txt tenant ++ m)) d);
    [|reflexivity|exact Hw].
  unfold location. rewrite (list_ascii_app "memory://"), (list_ascii_app tenant), Hm.
  rewrite (app_assoc (String.list_ascii_of_string tenant)).
  rewrite <- (app_assoc (txt "emory://")). reflexivity.
Qed.

(** Content-addressed storage round trip.  What was put for a tenant comes back,
    after any later puts, byte for byte (the content, or the marker that replaces
    it when it is redacted), unless a SHA-256 collision occurred; another tenant is
    refused; and bytes that do not match the digest are never returned. *)
Theorem artifact_round_trip tenant m content cl redact st a st1 st2 :
  NonBlankStr "tenant_id" tenant = Ok tenant ->
  ArtifactStore.put tenant m content cl redact st = (Ok a, st1) ->
  rtc ArtifactStore.step st1 st2 ->
  (exists stored,
     (if redact
      then canonical_json_bytes (ArtifactStore.redaction_marker (sha256_bytes content)) = Ok stored
      else stored = content) /\
     ArtifactRef.sha256 a = sha256_bytes stored /\
     (ArtifactStore.get_content tenant a st2 = Ok stored \/ collision)) /\
  (forall t', t' <> tenant -> exists msg,
     ArtifactStore.get_content t' a st2 = Raise (AuthorizationDeniedError msg)) /\
  (forall st' b, ArtifactStore.get_content tenant a st' = Ok b ->
     sha256_bytes b = ArtifactRef.sha256 a).
Proof.
  intros Hten Hput Hsteps. unfold ArtifactStore.put, bind, lift, modify in Hput.
  destruct (if redact then _ else _) as [stored|e] eqn:Hstored; [|discriminate].
  injection Hput as Hc <-. set (loc := "memory://" +:+ tenant +:+ "/" +:+ sha256_bytes stored) in *.
  destruct (location_kept tenant stored) as [Hkeep Hfile]. fold loc in Hkeep, Hfile.
  assert (Ha : ArtifactRef.tenant_id a = tenant /\ ArtifactRef.location a = Some loc /\
               ArtifactRef.sha256 a = sha256_bytes stored).
  { apply ArtifactRef_create_Ok in Hc as (H1 & H2 & H3). cbn in H1, H2, H3.
    rewrite Hten in H1. injection H1 as <-. split; [done|]. split; [|done].
    unfold NonBlankStr in H2. rewrite Hkeep in H2. simpl in H2. congruence. }
  destruct Ha as (Hta & Hla & Hsa). split; [|split].
  - exists stored. split; [destruct redact; congruence|]. split; [done|].
    assert (Hst : st2 !! (tenant, loc) = Some stored \/ collision).
    { clear Hc. assert (H0 : <[(tenant, loc) := stored]> st !! (tenant, loc) = Some stored)
        by apply lookup_insert_eq.
      revert H0 Hsteps. generalize (<[(tenant, loc) := stored]> st). intros s1 H0 Hsteps.
      induction Hsteps as [s|s s' s2 [t' m' c' cl' r' s0 o s0' Hp] _ IH]; [by left|].
      destruct (artifact_stored tenant _ _ _ _ _ _ _ _ tenant loc stored Hp eq_refl H0 eq_refl)
        as [H1|]; [by apply IH|by right]. }
    destruct Hst as [Hst|]; [left|by right].
    unfold ArtifactStore.get_content. rewrite Hta, Hla, Hfile, Hst, Hsa.
    by rewrite !bool_decide_true.
  - intros t' Hne. unfold ArtifactStore.get_content. rewrite Hta, bool_decide_false by done.
    eexists. reflexivity.
  - intros st' b H. unfold ArtifactStore.get_content in H. rewrite Hla, Hfile in H.
    apply obind_Ok in H as (u & _ & H). case_in H; [|discriminate].
    apply obind_Ok in H as (u2 & Hu & H). destruct u2. apply require_Ok in Hu. b2p. congruence.
Qed.

Definition w_put : outcome ArtifactRef * ArtifactStore.store :=
  ArtifactStore.put "acme" "text/plain" (txt "hello") "internal" false ArtifactStore.empty.

Lemma artifact_round_trip_witness :
  exists a, fst w_put = Ok a /\
    (ArtifactStore.get_content "acme" a (snd w_put) = Ok (txt "hello") \/ collision).
Proof.
  assert (E : exists a, w_put = (Ok a, snd w_put)) by (eexists; vm_compute; reflexivity).
  destruct E as [a E]. exists a. split; [by rewrite E|]. unfold w_put at 1 in E.
  destruct (artifact_round_trip "acme" "text/plain" (txt "hello") "internal" false
              ArtifactStore.empty a (snd w_put) (snd w_put) eq_refl E (rtc_refl _ _))
    as ((stored & Hs & _ & Hget) & _).
  rewrite <- Hs. exact Hget.
Defined.

End StoreProperties.
