(* ===== verification/Effects.v ===== *)
(** * Programs that call their environment

    An asynchronous method of the control plane is a program: it computes, and it
    awaits calls to ports (stores, executors, clocks) that may answer anything or
    raise.  [trace] and [run] say what sequences of calls and answers an execution,
    unfinished or finished, can show, whatever the environment does; [safe] is the
    rule system that proves a program keeps to a monitor. *)

From S2P Require Import Prelude.

Section Programs.
Context {Q : Type} (R : Q -> Type).

Inductive prog (A : Type) : Type :=
| Ret (a : A)
| Throw (e : exn)
| Call (q : Q) (k : outcome (R q) -> prog A).
Arguments Ret {A} a.
Arguments Throw {A} e.
Arguments Call {A} q k.

Definition of_outcome {A} (o : outcome A) : prog A :=
  match o with Ok a => Ret a | Raise e => Throw e end.

Definition call (q : Q) : prog (R q) := Call q of_outcome.

Fixpoint pbind {A B} (p : prog A) (f : A -> prog B) : prog B :=
  match p with
  | Ret a => f a
  | Throw e => Throw e
  | Call q k => Call q (fun o => pbind (k o) f)
  end.

(** [try: p except Exception as exc: h(exc)] *)
Fixpoint pcatch {A} (p : prog A) (h : exn -> prog A) : prog A :=
  match p with
  | Ret a => Ret a
  | Throw e => h e
  | Call q k => Call q (fun o => pcatch (k o) h)
  end.

(** A call with the answer it got *)
Record event : Type := Ev { ev_call : Q; ev_answer : outcome (R ev_call) }.

(** The traces of an execution that may have stopped anywhere *)
Fixpoint trace {A} (p : prog A) (tr : list event) : Prop :=
  match p with
  | Ret _ | Throw _ => tr = []
  | Call q k => tr = [] \/ exists o tr', tr = Ev q o :: tr' /\ trace (k o) tr'
  end.

(** The traces and results of finished executions *)
Fixpoint run {A} (p : prog A) (tr : list event) (res : outcome A) : Prop :=
  match p with
  | Ret a => tr = [] /\ res = Ok a
  | Throw e => tr = [] /\ res = Raise e
  | Call q k => exists o tr', tr = Ev q o :: tr' /\ run (k o) tr' res
  end.

(** Execution against a stateful environment, with the trace it shows *)
Fixpoint exec {A S} (h : forall q, M S (R q)) (p : prog A) (s : S) : outcome A * S * list event :=
  match p with
  | Ret a => (Ok a, s, [])
  | Throw e => (Raise e, s, [])
  | Call q k =>
      let '(o, s1) := h q s in
      let '(res, s2, tr) := exec h (k o) s1 in
      (res, s2, Ev q o :: tr)
  end.

Lemma exec_run {A S} (h : forall q, M S (R q)) (p : prog A) s :
  run p (snd (exec h p s)) (fst (fst (exec h p s))).
Proof.
  revert s. induction p as [a|e|q k IH]; intros s; simpl; [done..|].
  destruct (h q s) as [o s1]. specialize (IH o s1).
  destruct (exec h (k o) s1) as [[res s2] tr]. eauto.
Qed.

(** The state of the environment after the calls of a trace *)
Definition after {S} (h : forall q, M S (R q)) (tr : list event) (s : S) : S :=
  foldl (fun s e => snd (h (ev_call e) s)) s tr.

(** Each answer of an execution is the environment's, in the state the calls before it
    left. *)
Lemma exec_answer {A S} (h : forall q, M S (R q)) (p : prog A) s pre e post :
  snd (exec h p s) = pre ++ e :: post -> ev_answer e = fst (h (ev_call e) (after h pre s)).
Proof.
  revert s pre. induction p as [a|x|q k IH]; intros s pre H; [by destruct pre..|].
  cbn [exec] in H. destruct (h q s) as [o s1] eqn:Eh. specialize (IH o s1).
  destruct (exec h (k o) s1) as [[res s2] tr] eqn:Ee. cbn in *.
  destruct pre as [|e0 pre]; injection H as <- H; cbn; [by rewrite Eh|]. rewrite Eh. by apply IH.
Qed.

Lemma run_trace {A} (p : prog A) tr res : run p tr res -> trace p tr.
Proof.
  revert tr. induction p as [a|e|q k IH]; intros tr; simpl; [by intros [-> _]..|].
  intros (o & tr' & -> & H). right. eauto.
Qed.

(** A monitor reads the events and may refuse one. *)
Context {St : Type} (step : St -> event -> option St).

Fixpoint monitor (m : St) (tr : list event) : option St :=
  match tr with
  | [] => Some m
  | e :: rest => match step m e with Some m' => monitor m' rest | None => None end
  end.

(** From monitor state [m] the program shows only accepted events, and ends in a
    monitor state related to its result by [post]. *)
Fixpoint safe {A} (m : St) (p : prog A) (post : St -> outcome A -> Prop) : Prop :=
  match p with
  | Ret a => post m (Ok a)
  | Throw e => post m (Raise e)
  | Call q k => forall o, match step m (Ev q o) with
                          | Some m' => safe m' (k o) post
                          | None => False
                          end
  end.

Lemma safe_bind {A B} m (p : prog A) (f : A -> prog B) post :
  safe m p (fun m' o => match o with Ok a => safe m' (f a) post | Raise e => post m' (Raise e) end) ->
  safe m (pbind p f) post.
Proof.
  revert m. induction p as [a|e|q k IH]; intros m; simpl; [done..|].
  intros H o. specialize (H o). destruct (step m _); [|done]. by apply IH.
Qed.

Lemma safe_catch {A} m (p : prog A) (h : exn -> prog A) post :
  safe m p (fun m' o => match o with Ok a => post m' (Ok a) | Raise e => safe m' (h e) post end) ->
  safe m (pcatch p h) post.
Proof.
  revert m. induction p as [a|e|q k IH]; intros m; simpl; [done..|].
  intros H o. specialize (H o). destruct (step m _); [|done]. by apply IH.
Qed.

Lemma safe_call m q (post : St -> outcome (R q) -> Prop) :
  (forall o, match step m (Ev q o) with Some m' => post m' o | None => False end) ->
  safe m (call q) post.
Proof. simpl. intros H o. specialize (H o). destruct (step m _); [|done]. by destruct o. Qed.

Lemma safe_ret {A} m (a : A) (post : St -> outcome A -> Prop) :
  post m (Ok a) -> safe m (Ret a) post.
Proof. done. Qed.

Lemma safe_throw {A} m e (post : St -> outcome A -> Prop) :
  post m (Raise e) -> safe m (Throw e) post.
Proof. done. Qed.

Lemma safe_outcome {A} m (o : outcome A) (post : St -> outcome A -> Prop) :
  post m o -> safe m (of_outcome o) post.
Proof. by destruct o. Qed.

Lemma safe_mono {A} m (p : prog A) (post post' : St -> outcome A -> Prop) :
  (forall m' o, post m' o -> post' m' o) -> safe m p post -> safe m p post'.
Proof.
  intros Hp. revert m. induction p as [a|e|q k IH]; intros m; simpl; [by apply Hp..|].
  intros H o. specialize (H o). destruct (step m _); [|done]. by apply IH.
Qed.

Lemma safe_trace {A} m (p : prog A) post tr :
  safe m p post -> trace p tr -> exists m', monitor m tr = Some m'.
Proof.
  revert m tr. induction p as [a|e|q k IH]; intros m tr; simpl.
  - intros _ ->. by exists m.
  - intros _ ->. by exists m.
  - intros Hs [->|(o & tr' & -> & Ht)]; [by exists m|]. specialize (Hs o). simpl.
    destruct (step m _) as [m'|]; [|done]. by eapply IH.
Qed.

Lemma safe_run {A} m (p : prog A) post tr res :
  safe m p post -> run p tr res -> exists m', monitor m tr = Some m' /\ post m' res.
Proof.
  revert m tr. induction p as [a|e|q k IH]; intros m tr; simpl.
  - intros H [-> ->]. eauto.
  - intros H [-> ->]. eauto.
  - intros Hs (o & tr' & -> & Hr). specialize (Hs o). simpl.
    destruct (step m _) as [m'|]; [|done]. by eapply IH.
Qed.

Lemma monitor_app m tr1 tr2 :
  monitor m (tr1 ++ tr2) = match monitor m tr1 with Some m' => monitor m' tr2 | None => None end.
Proof. revert m. induction tr1 as [|e tr1 IH]; intros m; simpl; [done|]. by destruct (step m e). Qed.
End Programs.

Arguments Ret {Q R A} a.
Arguments Throw {Q R A} e.
Arguments Call {Q R A} q k.
Arguments of_outcome {Q R A} o.
Arguments call {Q R} q.
Arguments pbind {Q R A B} p f.
Arguments pcatch {Q R A} p h.
Arguments Ev {Q R} ev_call ev_answer.
Arguments ev_call {Q R} e.
Arguments ev_answer {Q R} e.
Arguments trace {Q R A} p tr.
Arguments run {Q R A} p tr res.
Arguments exec {Q R A S} h p s.
Arguments after {Q R S} h tr s.
Arguments monitor {Q R St} step m tr.
Arguments safe {Q R St} step {A} m p post.

Arguments safe : simpl never.

Declare Scope prog_scope.
Delimit Scope prog_scope with prog.
Notation "x <- m ;; k" := (pbind m (fun x => k))
  (at level 100, m at next level, right associativity) : prog_scope.
Notation "m ;; k" := (pbind m (fun _ => k))
  (at level 100, k at level 200, right associativity) : prog_scope.
