(* ===== verification/Broker.v ===== *)
(** * The action broker

    Models [ActionBroker] of [broker.py]: [execute] is the method, [event],
    [revoke_lease], [observe_and_verify] and [validate_result] its helpers; the body
    of [execute] is cut at its comments-worthy seams ([authorize], [lease_for],
    [reuse], [open_attempt], [on_executor_failure], [settle]) and composed as the
    method composes them.  The ports it was constructed with are the calls of
    [request]: ledger, policy, approvals, idempotency, attempts, credential leases,
    executor and verifier, and the clock and the generators of identifiers.

    Every awaited call is one step, so two executions interleave between any two
    calls.  Cancellation ([BaseException]) is an execution that stops. *)

From S2P Require Import Prelude Canonical Contracts Stores Effects.

(** ** Ports *)

(** What the broker reads of an executor: its attributes and the protocols it
    satisfies ([isinstance] on the runtime-checkable protocols). *)
Record Executor : Type := {
  ex_name : string;
  ex_version : string;
  ex_identity : string;
  attempt_aware : bool;
  lease_aware : bool;
}.

(** The optional collaborators, present or absent, and the registry *)
Record Config : Type := {
  execution_attempts : bool;
  credential_leases : bool;
  executors : list (string * Executor);
}.

(** Which method of the executor is called *)
Inductive how : Type :=
| Plain
| Attempt (attempt_id : UUID)
| AttemptWithLease (attempt_id : UUID) (lease : CredentialLease).

Inductive request : Type :=
| Now
| NewUuid
| NewSpan
| Append (draft : ControlEventDraft)
| Evaluate (action : ActionSpec)
| FindApproval (action : ActionSpec) (decision : PolicyDecision) (target_digest : string)
| IssueLease (action : ActionSpec) (executor_identity : string)
| RevokeLease (lease_id : UUID)
| Claim (tenant key digest : string)
| StoredResult (tenant key : string)
| CompleteKey (tenant key : string) (result : ExecutionResult)
| CreateAttempt (attempt : ExecutionAttemptRecord)
| ReplaceAttempt (attempt : ExecutionAttemptRecord)
| Execute (method : how) (executor : string) (action : ActionSpec)
| Observe (executor : string) (action : ActionSpec) (result : ExecutionResult)
| Verify (action : ActionSpec) (result : ExecutionResult) (observation : StateObservation).

Definition answer (q : request) : Type :=
  match q with
  | Now => datetime
  | NewUuid => UUID
  | NewSpan => string
  | Append _ => ControlEvent
  | Evaluate _ => PolicyDecision
  | FindApproval _ _ _ => option ApprovalDecision
  | IssueLease _ _ => CredentialLease
  | RevokeLease _ => unit
  | Claim _ _ _ => bool
  | StoredResult _ _ => option ExecutionResult
  | CompleteKey _ _ _ => unit
  | CreateAttempt _ => unit
  | ReplaceAttempt _ => unit
  | Execute _ _ _ => ExecutionResult
  | Observe _ _ _ => StateObservation
  | Verify _ _ _ => VerificationResult
  end.

Abbreviation prog := (Effects.prog answer).
Abbreviation event_of_run := (Effects.event answer).
Abbreviation ask := (Effects.call (R := answer)).
Local Open Scope prog_scope.

Record BrokerOutcome : Type := {
  bo_action : ActionSpec;
  bo_result : ExecutionResult;
  bo_observation : StateObservation;
  bo_verification : VerificationResult;
  reused_idempotent_result : bool;
}.

Section Broker.
Context (cfg : Config) (action : ActionSpec) (actor : ActorRef) (trace_id : string).

Definition digest_of : prog string := of_outcome (ActionSpec.digest action).

Definition opt_uuid (o : option UUID) : pyval := dump_opt (fun u => PStr (uuid_str u)) o.

(** [_event] *)
Definition event (who : ActorRef) (ty : EventType) (payload : list (string * pyval)) : prog unit :=
  now <- ask Now ;;
  event_id <- ask NewUuid ;;
  span_id <- ask NewSpan ;;
  draft <- of_outcome (Coordinator.make_draft event_id (ActionSpec.run_id action)
             (ActionSpec.tenant_id action) ty now who trace_id span_id
             (Some (ActionSpec.action_id action)) payload) ;;
  ask (Append draft) ;;
  Ret tt.

(** [_revoke_lease] *)
Definition revoke_lease (lease : CredentialLease) : prog unit :=
  if negb (credential_leases cfg) then Ret tt
  else
    pcatch (ask (RevokeLease (CredentialLease.lease_id lease)))
      (fun exc =>
         event actor CREDENTIAL_LEASE_REVOCATION_FAILED
           [("lease_id", PStr (uuid_str (CredentialLease.lease_id lease)));
            ("error_type", PStr (exn_type_name exc))] ;;
         Throw exc) ;;
    event actor CREDENTIAL_LEASE_REVOKED
      [("lease_id", PStr (uuid_str (CredentialLease.lease_id lease)))].

(** [_validate_result] *)
Definition validate_result (executor : Executor) (result : ExecutionResult)
    (require_current_version : bool) : outcome unit :=
  (require (ExecutionResult.action_id result =? ActionSpec.action_id action)
    (IntegrityViolationError "execution result is not bound to the requested action") ;~
  require (bool_decide (ExecutionResult.executor_name result = ex_name executor))
    (IntegrityViolationError "execution result does not match the selected executor") ;~
  require (negb (require_current_version &&
                 negb (bool_decide (ExecutionResult.executor_version result = ex_version executor))))
    (IntegrityViolationError "execution result does not match the selected executor version"))%py.

(** [_observe_and_verify] *)
Definition observe_and_verify (executor : Executor) (result : ExecutionResult) (reused : bool)
    : prog (StateObservation * VerificationResult) :=
  observation <- ask (Observe (ex_name executor) action result) ;;
  of_outcome (require (StateObservation.action_id observation =? ActionSpec.action_id action)
    (IntegrityViolationError "state observation is not bound to the requested action")) ;;
  event actor STATE_OBSERVED
    [("observation", json_mode (StateObservation.dump observation));
     ("reused_idempotent_result", PBool reused)] ;;
  verification <- ask (Verify action result observation) ;;
  of_outcome (require (VerificationResult.action_id verification =? ActionSpec.action_id action)
    (IntegrityViolationError "verification is not bound to the requested action")) ;;
  event actor VERIFICATION_COMPLETED
    [("verification", json_mode (VerificationResult.dump verification));
     ("reused_idempotent_result", PBool reused)] ;;
  Ret (observation : StateObservation, verification : VerificationResult).

(** *** [execute], up to the policy decision and the approval *)
Definition check_request : prog unit :=
  of_outcome (require (bool_decide (ActorRef.tenant_id actor = ActionSpec.tenant_id action))
    (AuthorizationDeniedError "actor tenant does not match action tenant")) ;;
  match ActionSpec.expires_at action with
  | None => Ret tt
  | Some expires =>
      now <- ask Now ;;
      of_outcome (require (negb (expires <=? now)) (AuthorizationDeniedError "action has expired"))
  end.

Definition check_policy : prog PolicyDecision :=
  d <- digest_of ;;
  event actor ACTION_PROPOSED
    [("action", json_mode (ActionSpec.dump action)); ("action_digest", PStr d)] ;;
  policy <- ask (Evaluate action) ;;
  d <- digest_of ;;
  of_outcome (require (bool_decide (PolicyDecision.action_digest policy = d))
    (AuthorizationDeniedError "policy decision is not bound to the action digest")) ;;
  event actor POLICY_EVALUATED [("decision", json_mode (PolicyDecision.dump policy))] ;;
  of_outcome (require (negb (bool_decide (PolicyDecision.outcome_ policy = DENY)))
    (AuthorizationDeniedError ("policy denied action: " +:+
       str_or (Some (py_join ", " (PolicyDecision.reason_codes policy))) "no reason supplied"))) ;;
  Ret policy.

Definition check_approval (policy : PolicyDecision) : prog unit :=
  target_digest <- of_outcome (sha256_hex (ActionTarget.dump (ActionSpec.target action))) ;;
  if negb (bool_decide (PolicyDecision.outcome_ policy = REQUIRE_APPROVAL)) then Ret tt
  else
    approval <- ask (FindApproval action policy target_digest) ;;
    match approval with
    | None =>
        d <- digest_of ;;
        event actor APPROVAL_REQUESTED
          [("action_digest", PStr d); ("target_digest", PStr target_digest);
           ("policy_decision_id", PStr (uuid_str (PolicyDecision.decision_id policy)));
           ("required_roles", dump_list PStr (PolicyDecision.required_approval_roles policy))] ;;
        Throw (ApprovalRequiredError (uuid_str (ActionSpec.action_id action)) d)
    | Some approval =>
        event (ApprovalDecision.approver approval) APPROVAL_DECIDED
          [("approval", json_mode (ApprovalDecision.dump approval))] ;;
        of_outcome (require (bool_decide (ApprovalDecision.outcome_ approval = APPROVED))
          (ApprovalDeniedError ("approval " +:+ uuid_str (ApprovalDecision.approval_id approval) +:+
                                " is not approved")))
    end.

(** *** The executor and its credential lease *)
Definition select_executor : prog Executor :=
  executor <- of_outcome (ExecutorRegistry.find_executor (ActionSpec.executor action) (executors cfg)) ;;
  of_outcome (require (negb ((execution_attempts cfg || credential_leases cfg) &&
                             negb (attempt_aware executor)))
    (AuthorizationDeniedError ("executor '" +:+ ex_name executor +:+
       "' does not support durable attempt ownership"))) ;;
  of_outcome (require (negb (credential_leases cfg && negb (lease_aware executor)))
    (AuthorizationDeniedError ("executor '" +:+ ex_name executor +:+
       "' cannot consume an isolated credential lease"))) ;;
  Ret executor.

Definition lease_for (executor : Executor) : prog (option CredentialLease) :=
  if credential_leases cfg then
    lease <- ask (IssueLease action (ex_identity executor)) ;;
    event actor CREDENTIAL_LEASE_ISSUED
      [("lease_id", PStr (uuid_str (CredentialLease.lease_id lease)));
       ("executor_identity", PStr (CredentialLease.executor_identity lease));
       ("audience", PStr (CredentialLease.audience lease));
       ("scopes", dump_list PStr (CredentialLease.scopes lease));
       ("issued_at", PStr (isoformat (CredentialLease.issued_at lease)));
       ("expires_at", PStr (isoformat (CredentialLease.expires_at lease)))] ;;
    Ret (Some lease)
  else Ret None.

(** *** The branch of a claim that was not granted *)
Definition reuse (executor : Executor) (lease : option CredentialLease) : prog BrokerOutcome :=
  match lease with Some l => revoke_lease l | None => Ret tt end ;;
  existing <- ask (StoredResult (ActionSpec.tenant_id action) (ActionSpec.idempotency_key action)) ;;
  match existing with
  | None => Throw (DuplicateActionError
      "an identical action is already in progress or uncertain; execution is not duplicated")
  | Some result =>
      of_outcome (validate_result executor result false) ;;
      ov <- observe_and_verify executor result true ;;
      Ret {| bo_action := action; bo_result := result; bo_observation := fst ov;
             bo_verification := snd ov; reused_idempotent_result := true |}
  end.

(** *** The durable attempt *)

(** [attempt.model_copy(update=...)] *)
Definition update_attempt (a : ExecutionAttemptRecord) (st : ExecutionAttemptState)
    (started finished : option datetime) (result_digest provider error_type error_message
     reason : option string) : ExecutionAttemptRecord := {|
  ExecutionAttemptRecord.attempt_id := ExecutionAttemptRecord.attempt_id a;
  ExecutionAttemptRecord.action_id := ExecutionAttemptRecord.action_id a;
  ExecutionAttemptRecord.run_id := ExecutionAttemptRecord.run_id a;
  ExecutionAttemptRecord.tenant_id := ExecutionAttemptRecord.tenant_id a;
  ExecutionAttemptRecord.idempotency_key := ExecutionAttemptRecord.idempotency_key a;
  ExecutionAttemptRecord.action_digest := ExecutionAttemptRecord.action_digest a;
  ExecutionAttemptRecord.executor_name := ExecutionAttemptRecord.executor_name a;
  ExecutionAttemptRecord.executor_version := ExecutionAttemptRecord.executor_version a;
  ExecutionAttemptRecord.executor_identity := ExecutionAttemptRecord.executor_identity a;
  ExecutionAttemptRecord.state := st;
  ExecutionAttemptRecord.claimed_at := ExecutionAttemptRecord.claimed_at a;
  ExecutionAttemptRecord.started_at := started;
  ExecutionAttemptRecord.finished_at := finished;
  ExecutionAttemptRecord.result_digest := result_digest;
  ExecutionAttemptRecord.provider_operation_id := provider;
  ExecutionAttemptRecord.error_type := error_type;
  ExecutionAttemptRecord.error_message := error_message;
  ExecutionAttemptRecord.uncertainty_reason := reason |}.

Definition open_attempt (executor : Executor) : prog (option ExecutionAttemptRecord) :=
  if execution_attempts cfg then
    attempt_id <- ask NewUuid ;;
    d <- digest_of ;;
    claimed_at <- ask Now ;;
    attempt <- of_outcome (ExecutionAttemptRecord.create {|
      ExecutionAttemptRecord.attempt_id := attempt_id;
      ExecutionAttemptRecord.action_id := ActionSpec.action_id action;
      ExecutionAttemptRecord.run_id := ActionSpec.run_id action;
      ExecutionAttemptRecord.tenant_id := ActionSpec.tenant_id action;
      ExecutionAttemptRecord.idempotency_key := ActionSpec.idempotency_key action;
      ExecutionAttemptRecord.action_digest := d;
      ExecutionAttemptRecord.executor_name := ex_name executor;
      ExecutionAttemptRecord.executor_version := ex_version executor;
      ExecutionAttemptRecord.executor_identity := ex_identity executor;
      ExecutionAttemptRecord.state := CLAIMED;
      ExecutionAttemptRecord.claimed_at := claimed_at;
      ExecutionAttemptRecord.started_at := None; ExecutionAttemptRecord.finished_at := None;
      ExecutionAttemptRecord.result_digest := None;
      ExecutionAttemptRecord.provider_operation_id := None;
      ExecutionAttemptRecord.error_type := None; ExecutionAttemptRecord.error_message := None;
      ExecutionAttemptRecord.uncertainty_reason := None |}) ;;
    ask (CreateAttempt attempt) ;;
    started_at <- ask Now ;;
    let started := update_attempt attempt STARTED (Some started_at) None None None None None None in
    ask (ReplaceAttempt started) ;;
    Ret (Some started)
  else Ret None.

Definition attempt_id_of (a : option ExecutionAttemptRecord) : option UUID :=
  option_map ExecutionAttemptRecord.attempt_id a.

(** [attempt.model_copy(update={"state": UNCERTAIN, ...})] and its [replace] *)
Definition mark_uncertain (attempt : option ExecutionAttemptRecord) (exc : exn) (reason : string)
    : prog unit :=
  match attempt with
  | None => Ret tt
  | Some a =>
      now <- ask Now ;;
      (ask (ReplaceAttempt (update_attempt a UNCERTAIN (ExecutionAttemptRecord.started_at a)
        (Some now) (ExecutionAttemptRecord.result_digest a)
        (ExecutionAttemptRecord.provider_operation_id a) (Some (exn_type_name exc))
        (Some (exn_str exc)) (Some reason))) : prog unit)
  end.

(** *** The executor raised *)
Definition on_executor_failure (executor : Executor) (lease : option CredentialLease)
    (attempt : option ExecutionAttemptRecord) (exc : exn) : prog ExecutionResult :=
  mark_uncertain attempt exc "executor raised after execution was marked started" ;;
  revocation_error <-
    match lease with
    | Some l => pcatch (revoke_lease l ;; Ret None) (fun e => Ret (Some e))
    | None => Ret None
    end ;;
  d <- digest_of ;;
  event actor EXECUTION_UNCERTAIN
    [("executor", PStr (ex_name executor)); ("executor_version", PStr (ex_version executor));
     ("action_digest", PStr d); ("execution_attempt_id", opt_uuid (attempt_id_of attempt));
     ("error_type", PStr (exn_type_name exc)); ("idempotency_key_retained", PBool true);
     ("automatic_retry_permitted", PBool false);
     ("credential_revocation_failed",
       PBool (match revocation_error with Some _ => true | None => false end))] ;;
  Throw exc.

Definition invoke (executor : Executor) (lease : option CredentialLease)
    (attempt : option ExecutionAttemptRecord) : prog ExecutionResult :=
  let method :=
    match attempt_id_of attempt, lease with
    | Some id, Some l => AttemptWithLease id l
    | Some id, None => Attempt id
    | None, _ => Plain
    end in
  ask (Execute method (ex_name executor) action).

(** *** The lease of a finished execution *)
Definition return_lease (executor : Executor) (lease : option CredentialLease)
    (attempt : option ExecutionAttemptRecord) : prog unit :=
  match lease with
  | None => Ret tt
  | Some l =>
      pcatch (revoke_lease l) (fun exc =>
        mark_uncertain attempt exc "executor returned but credential lease revocation failed" ;;
        event actor EXECUTION_UNCERTAIN
          [("executor", PStr (ex_name executor));
           ("execution_attempt_id", opt_uuid (attempt_id_of attempt));
           ("reason", PStr "credential_lease_revocation_failed");
           ("idempotency_key_retained", PBool true); ("automatic_retry_permitted", PBool false)] ;;
        Throw (IntegrityViolationError "credential lease revocation failed after external execution"))
  end.

(** *** The result is recorded *)
Definition settle (executor : Executor) (attempt : option ExecutionAttemptRecord)
    (result : ExecutionResult) : prog unit :=
  match attempt with
  | None => Ret tt
  | Some a =>
      rd <- of_outcome (sha256_hex (ExecutionResult.dump result)) ;;
      (ask (ReplaceAttempt (update_attempt a
        (if ExecutionResult.succeeded result then SUCCEEDED else FAILED)
        (ExecutionAttemptRecord.started_at a) (Some (ExecutionResult.completed_at result))
        (Some rd) (ExecutionResult.provider_operation_id result)
        (ExecutionResult.error_type result) (ExecutionResult.error_message result)
        (ExecutionAttemptRecord.uncertainty_reason a))) : prog unit)
  end ;;
  ask (CompleteKey (ActionSpec.tenant_id action) (ActionSpec.idempotency_key action) result) ;;
  event actor EXECUTION_COMPLETED [("result", json_mode (ExecutionResult.dump result))].

(** [execute] from the grant of the claim on *)
Definition perform (executor : Executor) (lease : option CredentialLease) : prog BrokerOutcome :=
  attempt <- open_attempt executor ;;
  d <- digest_of ;;
  event actor EXECUTION_STARTED
    [("executor", PStr (ex_name executor)); ("executor_version", PStr (ex_version executor));
     ("action_digest", PStr d); ("execution_attempt_id", opt_uuid (attempt_id_of attempt));
     ("credential_lease_id", opt_uuid (option_map CredentialLease.lease_id lease))] ;;
  result <- pcatch (invoke executor lease attempt) (on_executor_failure executor lease attempt) ;;
  of_outcome (validate_result executor result true) ;;
  of_outcome (require (match attempt_id_of attempt with
                       | Some id => ExecutionResult.execution_attempt_id result =? id
                       | None => true
                       end)
    (IntegrityViolationError "executor changed the broker-owned execution attempt id")) ;;
  return_lease executor lease attempt ;;
  settle executor attempt result ;;
  ov <- observe_and_verify executor result false ;;
  Ret {| bo_action := action; bo_result := result; bo_observation := fst ov;
         bo_verification := snd ov; reused_idempotent_result := false |}.

Definition execute : prog BrokerOutcome :=
  check_request ;;
  policy <- check_policy ;;
  check_approval policy ;;
  executor <- select_executor ;;
  lease <- lease_for executor ;;
  d <- digest_of ;;
  claimed <- ask (Claim (ActionSpec.tenant_id action) (ActionSpec.idempotency_key action) d) ;;
  if negb claimed then reuse executor lease else perform executor lease.
End Broker.
