(* ===== verification/BrokerProofs.v ===== *)
(** * What every execution of the action broker respects

    A monitor reads the calls of one execution together with the answers they got,
    remembers what matters for the broker's promises, and refuses a call that would
    break one: an execution without a bound policy decision, an approval where one
    is required, a granted claim, a started record; a second execution; a completed
    key without the executor's result.  [execute_safe] shows that no trace of
    [Broker.execute] is ever refused, whatever the ports answer, and relates the
    monitor's final state to the result.  The properties read that off. *)

From S2P Require Import Prelude Canonical Contracts Stores Effects Broker.

(** ** The monitor *)
Record mon : Type := {
  m_policy : option PolicyDecision;
  m_approval : option ApprovalDecision;
  m_lease : option CredentialLease;
  m_revoked : bool;
  m_claim : option bool;
  m_attempt : option ExecutionAttemptRecord;
  m_started : bool;
  m_exec : option (outcome ExecutionResult);
  m_completed : option ExecutionResult;
  m_uncertain : bool;
  (** the completion event in the ledger *)
  m_recorded : option ControlEventDraft;
  (** a clock, a generator, the ledger or the attempt store failed *)
  m_fault : bool;
}.

Definition mon0 : mon := {|
  m_policy := None; m_approval := None; m_lease := None; m_revoked := false; m_claim := None;
  m_attempt := None; m_started := false; m_exec := None; m_completed := None;
  m_uncertain := false; m_recorded := None; m_fault := false |}.

Definition set_fault (m : mon) : mon := {|
  m_policy := m_policy m; m_approval := m_approval m; m_lease := m_lease m;
  m_revoked := m_revoked m; m_claim := m_claim m; m_attempt := m_attempt m;
  m_started := m_started m; m_exec := m_exec m; m_completed := m_completed m;
  m_uncertain := m_uncertain m; m_recorded := m_recorded m; m_fault := true |}.
Definition set_policy (p : PolicyDecision) (m : mon) : mon := {|
  m_policy := Some p; m_approval := m_approval m; m_lease := m_lease m;
  m_revoked := m_revoked m; m_claim := m_claim m; m_attempt := m_attempt m;
  m_started := m_started m; m_exec := m_exec m; m_completed := m_completed m;
  m_uncertain := m_uncertain m; m_recorded := m_recorded m; m_fault := m_fault m |}.
Definition set_approval (a : option ApprovalDecision) (m : mon) : mon := {|
  m_policy := m_policy m; m_approval := a; m_lease := m_lease m;
  m_revoked := m_revoked m; m_claim := m_claim m; m_attempt := m_attempt m;
  m_started := m_started m; m_exec := m_exec m; m_completed := m_completed m;
  m_uncertain := m_uncertain m; m_recorded := m_recorded m; m_fault := m_fault m |}.
Definition set_lease (l : option CredentialLease) (revoked : bool) (m : mon) : mon := {|
  m_policy := m_policy m; m_approval := m_approval m; m_lease := l;
  m_revoked := revoked; m_claim := m_claim m; m_attempt := m_attempt m;
  m_started := m_started m; m_exec := m_exec m; m_completed := m_completed m;
  m_uncertain := m_uncertain m; m_recorded := m_recorded m; m_fault := m_fault m |}.
Definition set_claim (b : bool) (m : mon) : mon := {|
  m_policy := m_policy m; m_approval := m_approval m; m_lease := m_lease m;
  m_revoked := m_revoked m; m_claim := Some b; m_attempt := m_attempt m;
  m_started := m_started m; m_exec := m_exec m; m_completed := m_completed m;
  m_uncertain := m_uncertain m; m_recorded := m_recorded m; m_fault := m_fault m |}.
Definition set_attempt (a : ExecutionAttemptRecord) (m : mon) : mon := {|
  m_policy := m_policy m; m_approval := m_approval m; m_lease := m_lease m;
  m_revoked := m_revoked m; m_claim := m_claim m; m_attempt := Some a;
  m_started := m_started m; m_exec := m_exec m; m_completed := m_completed m;
  m_uncertain := m_uncertain m; m_recorded := m_recorded m; m_fault := m_fault m |}.
Definition set_exec (o : outcome ExecutionResult) (m : mon) : mon := {|
  m_policy := m_policy m; m_approval := m_approval m; m_lease := m_lease m;
  m_revoked := m_revoked m; m_claim := m_claim m; m_attempt := m_attempt m;
  m_started := m_started m; m_exec := Some o; m_completed := m_completed m;
  m_uncertain := m_uncertain m; m_recorded := m_recorded m; m_fault := m_fault m |}.
Definition set_completed (r : ExecutionResult) (m : mon) : mon := {|
  m_policy := m_policy m; m_approval := m_approval m; m_lease := m_lease m;
  m_revoked := m_revoked m; m_claim := m_claim m; m_attempt := m_attempt m;
  m_started := m_started m; m_exec := m_exec m; m_completed := Some r;
  m_uncertain := m_uncertain m; m_recorded := m_recorded m; m_fault := m_fault m |}.

Definition set_recorded (d : ControlEventDraft) (m : mon) : mon := {|
  m_policy := m_policy m; m_approval := m_approval m; m_lease := m_lease m;
  m_revoked := m_revoked m; m_claim := m_claim m; m_attempt := m_attempt m;
  m_started := m_started m; m_exec := m_exec m; m_completed := m_completed m;
  m_uncertain := m_uncertain m; m_recorded := Some d; m_fault := m_fault m |}.

(** A recorded event sets the flag of its type; the completion is kept. *)
Definition after_append (ty : EventType) (m : mon) : mon := {|
  m_policy := m_policy m; m_approval := m_approval m; m_lease := m_lease m;
  m_revoked := m_revoked m; m_claim := m_claim m; m_attempt := m_attempt m;
  m_started := m_started m || bool_decide (ty = EXECUTION_STARTED);
  m_exec := m_exec m; m_completed := m_completed m;
  m_uncertain := m_uncertain m || bool_decide (ty = EXECUTION_UNCERTAIN);
  m_recorded := m_recorded m; m_fault := m_fault m |}.
Definition after_draft (d : ControlEventDraft) (m : mon) : mon :=
  if bool_decide (ControlEventDraft.event_type d = EXECUTION_COMPLETED) then set_recorded d m
  else after_append (ControlEventDraft.event_type d) m.

Section Monitor.
Context (cfg : Config) (action : ActionSpec).

Definition bound (d : string) : bool := bool_decide (ActionSpec.digest action = Ok d).

(** The action is authorised: a decision bound to its digest that does not deny
    it, with a granted approval where the decision asks for one. *)
Definition authorized (m : mon) : bool :=
  match m_policy m with
  | None => false
  | Some p =>
      bound (PolicyDecision.action_digest p) &&
      match PolicyDecision.outcome_ p with
      | ALLOW => true
      | DENY => false
      | REQUIRE_APPROVAL =>
          match m_approval m with
          | Some a => bool_decide (ApprovalDecision.outcome_ a = APPROVED)
          | None => false
          end
      end
  end.

Definition attempt_open (m : mon) : bool :=
  negb (execution_attempts cfg) ||
  match m_attempt m with
  | Some a => bool_decide (ExecutionAttemptRecord.state a = STARTED)
  | None => false
  end.

Definition may_execute (m : mon) : bool :=
  authorized m && bool_decide (m_claim m = Some true) && m_started m && attempt_open m &&
  bool_decide (m_exec m = None).

Definition own_key (tenant key : string) : bool :=
  bool_decide (tenant = ActionSpec.tenant_id action) &&
  bool_decide (key = ActionSpec.idempotency_key action).

Definition mstep (m : mon) (e : Effects.event answer) : option mon :=
  match e with
  | Ev q o =>
    match q as q' return outcome (answer q') -> option mon with
    | Now | NewUuid => fun o => Some (if is_ok o then m else set_fault m)
    | NewSpan => fun o => Some (match o with
        | Ok s => if hex_string 16 s then m else set_fault m
        | Raise _ => set_fault m
        end)
    | Append d => fun o =>
        Some (if is_ok o then after_draft d m else set_fault m)
    | Evaluate a => fun o =>
        if bool_decide (a = action) && bool_decide (m_policy m = None)
        then Some (match o with Ok p => set_policy p m | Raise _ => m end)
        else None
    | FindApproval a p td => fun o =>
        if bool_decide (a = action) && bool_decide (m_policy m = Some p) &&
           bool_decide (sha256_hex (ActionTarget.dump (ActionSpec.target action)) = Ok td)
        then Some (match o with Ok r => set_approval r m | Raise _ => m end)
        else None
    | IssueLease _ _ => fun o =>
        if authorized m && bool_decide (m_claim m = None) && bool_decide (m_lease m = None)
        then Some (match o with Ok l => set_lease (Some l) false m | Raise _ => m end)
        else None
    | RevokeLease id => fun o =>
        if bool_decide (option_map CredentialLease.lease_id (m_lease m) = Some id)
        then Some (match o with Ok _ => set_lease (m_lease m) true m | Raise _ => m end)
        else None
    | Claim t k d => fun o =>
        if authorized m && bool_decide (m_claim m = None) && own_key t k && bound d
        then Some (match o with Ok b => set_claim b m | Raise _ => m end)
        else None
    | StoredResult _ _ => fun _ => Some m
    | CompleteKey t k r => fun o =>
        if own_key t k && bool_decide (m_exec m = Some (Ok r)) && bool_decide (m_completed m = None)
        then Some (match o with Ok _ => set_completed r m | Raise _ => m end)
        else None
    | CreateAttempt a | ReplaceAttempt a => fun o =>
        Some (match o with Ok _ => set_attempt a m | Raise _ => set_fault m end)
    | Execute _ _ a => fun o =>
        if may_execute m && bool_decide (a = action) then Some (set_exec o m) else None
    | Observe _ _ _ => fun _ => Some m
    | Verify _ _ _ => fun _ => Some m
    end o
  end.

Abbreviation safe := (Effects.safe mstep).

Context (actor : ActorRef).

(** The event of [who] about the action, with that payload *)
Definition drafted (who : ActorRef) (ty : EventType) (payload : list (string * pyval))
    (d : ControlEventDraft) : Prop :=
  ControlEventDraft.event_type d = ty /\ ControlEventDraft.run_id d = ActionSpec.run_id action /\
  NonBlankStr "tenant_id" (ActionSpec.tenant_id action) = Ok (ControlEventDraft.tenant_id d) /\
  ControlEventDraft.action_id d = Some (ActionSpec.action_id action) /\
  ControlEventDraft.actor d = who /\ ControlEventDraft.payload d = payload.

Definition completion_payload (r : ExecutionResult) : list (string * pyval) :=
  [("result", json_mode (ExecutionResult.dump r))].

(** The attempt record that says how the result came out *)
Definition attempt_settled (r : ExecutionResult) (a : ExecutionAttemptRecord) : Prop :=
  ExecutionAttemptRecord.state a = (if ExecutionResult.succeeded r then SUCCEEDED else FAILED) /\
  exists rd, sha256_hex (ExecutionResult.dump r) = Ok rd /\ ExecutionAttemptRecord.result_digest a = Some rd.

(** The relation between the monitor's final state and the result *)
Definition bound_outcome (out : BrokerOutcome) : Prop :=
  bo_action out = action /\
  ExecutionResult.action_id (bo_result out) = ActionSpec.action_id action /\
  StateObservation.action_id (bo_observation out) = ActionSpec.action_id action /\
  VerificationResult.action_id (bo_verification out) = ActionSpec.action_id action.

Definition attempt_in (m : mon) (states : list ExecutionAttemptState) : Prop :=
  execution_attempts cfg = true ->
  exists a, m_attempt m = Some a /\ ExecutionAttemptRecord.state a ∈ states.

Definition settled_in (m : mon) (r : ExecutionResult) : Prop :=
  execution_attempts cfg = true -> exists a, m_attempt m = Some a /\ attempt_settled r a.

Definition final (m : mon) (res : outcome BrokerOutcome) : Prop :=
  match m_exec m with
  | None =>
      m_completed m = None /\
      forall out, res = Ok out ->
        reused_idempotent_result out = true /\ m_claim m = Some false /\ bound_outcome out
  | Some (Raise x) =>
      m_completed m = None /\ is_ok res = false /\
      (m_fault m = false -> res = Raise x /\ m_uncertain m = true /\ attempt_in m [UNCERTAIN])
  | Some (Ok r) =>
      forall out, res = Ok out ->
        reused_idempotent_result out = false /\ bound_outcome out /\ bo_result out = r /\
        m_completed m = Some r /\
        (exists d, m_recorded m = Some d /\ drafted actor EXECUTION_COMPLETED (completion_payload r) d) /\
        settled_in m r
  end /\
  (forall out l, res = Ok out -> m_lease m = Some l -> m_revoked m = true).

(** ** Events *)
Context (trace_id : string).

(** An event by [who] can be built, given a well-formed span id. *)
Definition draftable (who : ActorRef) : Prop :=
  forall id ty now span payload, hex_string 16 span = true ->
  exists d, Coordinator.make_draft id (ActionSpec.run_id action) (ActionSpec.tenant_id action) ty
              now who trace_id span (Some (ActionSpec.action_id action)) payload = Ok d /\
            ControlEventDraft.event_type d = ty.

Lemma make_draft_Ok id ty now who span payload d :
  Coordinator.make_draft id (ActionSpec.run_id action) (ActionSpec.tenant_id action) ty
    now who trace_id span (Some (ActionSpec.action_id action)) payload = Ok d ->
  drafted who ty payload d /\ draftable who.
Proof.
  unfold draftable, drafted, Coordinator.make_draft, ControlEventDraft.create,
    ControlEventDraft.validate_actor_tenant. simpl.
  destruct (NonBlankStr "tenant_id" _) as [t|]; simpl; [|discriminate].
  destruct (TraceId "trace_id" trace_id) as [tr|] eqn:Htr; simpl; [|discriminate].
  unfold SpanId. destruct (hex_string 16 span); simpl; [|discriminate].
  unfold require. destruct (bool_decide _) eqn:Ht; simpl; [|discriminate].
  intros [= <-]. split; [done|]. intros id' ty' now' span' payload' ->. simpl. eauto.
Qed.

(** Evaluates the monitor at a call and the guards of the broker, nothing else. *)
Ltac red_m := cbn [mstep is_ok negb require option_map].

Lemma safe_draft m who ty payload (post : mon -> outcome unit -> Prop) :
  (forall d, drafted who ty payload d -> draftable who -> post (after_draft d m) (Ok tt)) ->
  (forall e m', m' = set_fault m \/ (m' = m /\ ~ draftable who) -> post m' (Raise e)) ->
  safe m (event action trace_id who ty payload) post.
Proof.
  intros Hok Hr. unfold event.
  apply safe_bind, safe_call. intros [now|e]; red_m; [|apply Hr; by left].
  apply safe_bind, safe_call. intros [id|e]; red_m; [|apply Hr; by left].
  apply safe_bind, safe_call. intros [span|e]; red_m; [|apply Hr; by left].
  apply safe_bind, safe_outcome.
  destruct (hex_string 16 span) eqn:Hs.
  - destruct (Coordinator.make_draft _ _ _ _ _ _ _ _ _ _) as [d|e] eqn:Hd; red_m.
    + apply make_draft_Ok in Hd as [Hdr Hw]. apply safe_bind, safe_call. intros [ev|e]; red_m.
      * by apply Hok.
      * apply Hr. by left.
    + apply Hr. right. split; [done|]. intros Hw.
      destruct (Hw id ty now span payload Hs) as (d & Hd' & _). congruence.
  - destruct (Coordinator.make_draft _ _ _ _ _ _ _ _ _ _) as [d|e] eqn:Hd; red_m.
    + exfalso. unfold Coordinator.make_draft, ControlEventDraft.create in Hd. simpl in Hd.
      run_inv Hd. unfold SpanId in *. rewrite Hs in *. discriminate.
    + apply Hr. by left.
Qed.

(** An event other than the completion *)
Lemma safe_event m who ty payload (post : mon -> outcome unit -> Prop) :
  ty <> EXECUTION_COMPLETED ->
  (draftable who -> post (after_append ty m) (Ok tt)) ->
  (forall e m', m' = set_fault m \/ (m' = m /\ ~ draftable who) -> post m' (Raise e)) ->
  safe m (event action trace_id who ty payload) post.
Proof.
  intros Hty Hok Hr. apply safe_draft; [|done]. intros d (Hd & _) Hw. unfold after_draft.
  rewrite Hd, bool_decide_false by done. by apply Hok.
Qed.

(** ** Events that set no flag *)
Definition unflagged (ty : EventType) : bool :=
  negb (bool_decide (ty = EXECUTION_STARTED) || bool_decide (ty = EXECUTION_UNCERTAIN)).

Lemma after_append_other ty m : unflagged ty = true -> after_append ty m = m.
Proof.
  unfold unflagged, after_append. intros H. destruct m; simpl.
  destruct (bool_decide (ty = EXECUTION_STARTED)), (bool_decide (ty = EXECUTION_UNCERTAIN)); try discriminate.
  by rewrite !orb_false_r.
Qed.

(** ** Before the claim *)
Definition quiet (m : mon) : Prop := m_exec m = None /\ m_completed m = None.
Definition fresh (m : mon) : Prop := quiet m /\ m_claim m = None /\ m_lease m = None.
Definition ready (claim : option bool) (lease : option CredentialLease) (m : mon) : Prop :=
  quiet m /\ m_claim m = claim /\ m_lease m = lease /\ authorized m = true /\
  (is_Some lease -> credential_leases cfg = true).

Lemma quiet_final m e : quiet m -> final m (Raise e).
Proof. intros [He Hc]. unfold final. rewrite He. split; [|done]. by split. Qed.

Lemma safe_digest m (post : mon -> outcome string -> Prop) :
  (forall o, ActionSpec.digest action = o -> post m o) -> safe m (digest_of action) post.
Proof. intros H. apply safe_outcome. by apply H. Qed.

Ltac stage := first [apply safe_bind|apply safe_outcome|apply safe_digest; intros ? ?].

Lemma safe_check_request m :
  fresh m -> m_policy m = None ->
  safe m (check_request action actor) (fun m' _ => fresh m' /\ m_policy m' = None).
Proof.
  intros Hf Hp. unfold check_request. apply safe_bind, safe_outcome. destruct (require _ _); [|done].
  destruct (ActionSpec.expires_at action); [|done].
  apply safe_bind, safe_call. intros [now|e]; red_m; [|done]. by apply safe_outcome.
Qed.

Lemma safe_check_policy m :
  fresh m -> m_policy m = None ->
  safe m (check_policy action actor trace_id) (fun m' o =>
    match o with
    | Ok p => fresh m' /\ m_policy m' = Some p /\ bound (PolicyDecision.action_digest p) = true /\
              PolicyDecision.outcome_ p <> DENY
    | Raise _ => quiet m'
    end).
Proof.
  intros Hf Hp. unfold check_policy. apply safe_bind, safe_digest. intros [d|e] Hd; [|apply Hf].
  apply safe_bind, safe_event; [done|intros _|intros e m' [->|[-> _]]; apply Hf].
  apply safe_bind, safe_call. intros o. rewrite after_append_other by done.
  red_m. rewrite Hp, !bool_decide_true by done. red_m. cbn [andb].
  destruct o as [p|e]; [|apply Hf].
  apply safe_bind, safe_digest. intros [d'|e] Hd'; [|apply Hf].
  apply safe_bind, safe_outcome.
  destruct (bool_decide (PolicyDecision.action_digest p = d')) eqn:Hb; red_m; [|apply Hf]. b2p.
  apply safe_bind, safe_event; [done|intros _|intros e m' [->|[-> _]]; apply Hf].
  apply safe_bind, safe_outcome.
  destruct (bool_decide (PolicyDecision.outcome_ p = DENY)) eqn:Ho; red_m; [apply Hf|]. b2p.
  split; [apply Hf|]. split; [done|]. split; [|done].
  unfold bound. apply bool_decide_eq_true. congruence.
Qed.

Lemma safe_check_approval m p :
  fresh m -> m_policy m = Some p -> bound (PolicyDecision.action_digest p) = true ->
  PolicyDecision.outcome_ p <> DENY ->
  safe m (check_approval action actor trace_id p) (fun m' o =>
    match o with Ok _ => ready None None m' | Raise _ => quiet m' end).
Proof.
  intros (Hq & Hc & Hl) Hp Hb Hd. unfold check_approval. apply safe_bind, safe_outcome.
  destruct (sha256_hex _) as [td|e] eqn:Htd; [|done].
  destruct (bool_decide (PolicyDecision.outcome_ p = REQUIRE_APPROVAL)) eqn:Ho; red_m; b2p.
  - apply safe_bind, safe_call. intros o. red_m. rewrite Hp, Htd, !bool_decide_true by done.
    red_m. cbn [andb]. destruct o as [[a|]|e]; [| |done].
    + apply safe_bind, safe_event; [done|intros _|intros e m' [->|[-> _]]; done].
      apply safe_outcome. destruct (bool_decide (ApprovalDecision.outcome_ a = APPROVED)) eqn:Ha;
        [|done].
      red_m. repeat split; try apply Hq; auto; [|by intros []].
      unfold authorized. simpl. by rewrite Hp, Hb, Ho, Ha.
    + apply safe_bind, safe_digest. intros [d|e] _; [|done].
      apply safe_bind, safe_event; [done|done|intros e m' [->|[-> _]]; done].
  - repeat split; try apply Hq; auto; [|by intros []].
    unfold authorized. rewrite Hp, Hb. by destruct (PolicyDecision.outcome_ p).
Qed.

Lemma safe_lease_for m executor :
  ready None None m ->
  safe m (lease_for cfg action actor trace_id executor) (fun m' o =>
    match o with Ok l => ready None l m' | Raise _ => quiet m' end).
Proof.
  intros (Hq & Hc & Hl & Ha & Hn). unfold lease_for.
  destruct (credential_leases cfg) eqn:Hcfg; [|by repeat split; try apply Hq].
  apply safe_bind, safe_call. intros o. red_m. rewrite Ha, Hc, Hl, !bool_decide_true by done. red_m.
  cbn [andb]. destruct o as [l|e]; [|done].
  apply safe_bind, safe_event; [done|intros _|intros e m' [->|[-> _]]; done].
  by repeat split; try apply Hq.
Qed.

(** The monitor at most noted a fault. *)
Definition maybe_fault (m m' : mon) : Prop := m' = m \/ m' = set_fault m.

Lemma safe_note m who ty payload (post : mon -> outcome unit -> Prop) :
  unflagged ty = true -> ty <> EXECUTION_COMPLETED ->
  (draftable who -> post m (Ok tt)) ->
  (forall e m', m' = set_fault m \/ (m' = m /\ ~ draftable who) -> post m' (Raise e)) ->
  safe m (event action trace_id who ty payload) post.
Proof. intros Hty Hc Hok Hr. apply safe_event; [done| |done]. by rewrite after_append_other. Qed.

Lemma safe_observe m executor r reused :
  safe m (observe_and_verify action actor trace_id executor r reused) (fun m' o =>
    match o with
    | Ok (ob, v) => m' = m /\ StateObservation.action_id ob = ActionSpec.action_id action /\
                    VerificationResult.action_id v = ActionSpec.action_id action
    | Raise _ => maybe_fault m m'
    end).
Proof.
  unfold observe_and_verify, maybe_fault.
  apply safe_bind, safe_call. intros [ob|e]; red_m; [|by left].
  apply safe_bind, safe_outcome.
  destruct (StateObservation.action_id ob =? _) eqn:Ho; red_m; [|by left].
  apply safe_bind, safe_note; [done|done|intros _|intros e m' [->|[-> _]]; auto].
  apply safe_bind, safe_call. intros [v|e]; red_m; [|by left].
  apply safe_bind, safe_outcome.
  destruct (VerificationResult.action_id v =? _) eqn:Hv; red_m; [|by left].
  apply safe_bind, safe_note; [done|done|intros _|intros e m' [->|[-> _]]; auto].
  apply safe_ret. b2p. by split_and!; [|lia..].
Qed.

(** ** Revocation, from any state that holds the lease *)
Definition same_but_lease (m m' : mon) : Prop :=
  m_policy m' = m_policy m /\ m_claim m' = m_claim m /\ m_lease m' = m_lease m /\
  m_exec m' = m_exec m /\ m_completed m' = m_completed m /\ m_attempt m' = m_attempt m /\
  m_recorded m' = m_recorded m /\ m_uncertain m' = m_uncertain m.

Lemma safe_revoke m l :
  m_lease m = Some l ->
  safe m (revoke_lease cfg action actor trace_id l) (fun m' o =>
    same_but_lease m m' /\ (m_fault m = true -> m_fault m' = true) /\
    match o with Ok _ => credential_leases cfg = true -> m_revoked m' = true | Raise _ => True end).
Proof.
  intros Hl. unfold revoke_lease. destruct (credential_leases cfg); cbn [negb]; [|done].
  apply safe_bind, safe_catch, safe_call. intros o. red_m. rewrite Hl. red_m.
  rewrite bool_decide_true by done. destruct o as [[]|e].
  - apply safe_note; [done|done|intros _|intros e m' [->|[-> _]]]; done.
  - apply safe_bind, safe_note; [done|done|intros _|intros e' m' [->|[-> _]]]; done.
Qed.

(** ** The branch of a refused claim *)
Lemma validate_ok executor r current :
  validate_result action executor r current = Ok tt ->
  ExecutionResult.action_id r = ActionSpec.action_id action.
Proof. unfold validate_result. intros H. run_inv H. b2p. lia. Qed.

Lemma safe_reuse m executor lease :
  ready (Some false) lease m ->
  safe m (reuse cfg action actor trace_id executor lease) final.
Proof.
  intros ([He Hc] & Hcl & Hl & Ha & Hn). unfold reuse.
  apply safe_bind. apply safe_mono with (post := fun m' o =>
    quiet m' /\ m_claim m' = Some false /\
    (is_ok o = true -> forall l, m_lease m' = Some l -> m_revoked m' = true)).
  2: { destruct lease as [l|].
    - eapply safe_mono; [|by apply safe_revoke]. intros m' o (Hs & _ & Hr).
      destruct Hs as (_ & S1 & S2 & S3 & S4 & _).
      split; [by split; congruence|]. split; [congruence|].
      intros Ho l' _. destruct o; [apply Hr, Hn; eauto|done].
    - apply safe_ret. split_and!; [by split|done|congruence]. }
  intros m' [u|e] (Hq & Hcl' & Hr); [|by apply quiet_final]. specialize (Hr eq_refl).
  apply safe_bind, safe_call. intros [[r|]|e]; red_m; [| |by apply quiet_final];
    [|by apply quiet_final].
  apply safe_bind, safe_outcome. destruct (validate_result _ _ _ _) as [[]|] eqn:Hv;
    [|by apply quiet_final]. apply validate_ok in Hv.
  apply safe_bind. eapply safe_mono; [|apply safe_observe]. intros m'' [[ob v]|e] H; simpl in H.
  - destruct H as (-> & Ho & Hve). apply safe_ret. unfold final. destruct Hq as [-> ->].
    split; [split; [done|]|eauto]. by intros out [= <-].
  - apply quiet_final. destruct H as [-> | ->]; apply Hq.
Qed.

(** ** From the claim to the call of the executor *)
Definition held (m : mon) : option ExecutionAttemptRecord :=
  if execution_attempts cfg then m_attempt m else None.

Lemma safe_open_attempt m lease executor :
  ready (Some true) lease m ->
  safe m (open_attempt cfg action executor) (fun m' o =>
    match o with
    | Ok at_ => ready (Some true) lease m' /\ at_ = held m' /\ attempt_open m' = true
    | Raise _ => quiet m'
    end).
Proof.
  intros Hm. pose proof Hm as (Hq & Hc & Hl & Ha & Hn). unfold open_attempt, held, attempt_open.
  destruct (execution_attempts cfg) eqn:Hx; [|done].
  apply safe_bind, safe_call. intros [id|e]; red_m; [|apply Hq].
  apply safe_bind, safe_digest. intros [d|e] _; [|apply Hq].
  apply safe_bind, safe_call. intros [now|e]; red_m; [|apply Hq].
  apply safe_bind, safe_outcome. destruct (ExecutionAttemptRecord.create _) as [a|e]; [|apply Hq].
  apply safe_bind, safe_call. intros [[]|e]; red_m; [|apply Hq].
  apply safe_bind, safe_call. intros [now'|e]; red_m; [|apply Hq].
  apply safe_bind, safe_call. intros [[]|e]; red_m; [|apply Hq].
  apply safe_ret. by split_and!.
Qed.

(** ** The executor raised *)
Definition raised (x : exn) (m : mon) : Prop := m_exec m = Some (Raise x) /\ m_completed m = None.

Lemma raised_final x e m :
  raised x m ->
  (m_fault m = false -> e = x /\ m_uncertain m = true /\ attempt_in m [UNCERTAIN]) ->
  final m (Raise e).
Proof.
  intros [He Hc] Hf. unfold final. rewrite He. split; [|done]. split_and!; [done..|].
  intros H. destruct (Hf H) as (-> & H1 & H2). done.
Qed.

Lemma safe_mark_uncertain m x e why :
  raised x m -> attempt_open m = true ->
  safe m (mark_uncertain (held m) e why) (fun m' o =>
    raised x m' /\ m_lease m' = m_lease m /\
    (m_fault m' = false -> is_ok o = true /\ attempt_in m' [UNCERTAIN])).
Proof.
  intros Hr. unfold attempt_open, held, attempt_in, mark_uncertain.
  destruct (execution_attempts cfg) eqn:Hx; [|done].
  destruct (m_attempt m) as [a|] eqn:Ha; cbn [orb negb]; [|discriminate]. intros _.
  apply safe_bind, safe_call. intros [now|y]; red_m; [|done].
  apply safe_call. intros [[]|y]; red_m; [|done].
  split; [apply Hr|]. split; [done|]. intros _. split; [done|]. intros _.
  eexists. split; [done|]. simpl. set_solver.
Qed.

Lemma safe_on_executor_failure m executor lease x d :
  raised x m -> attempt_open m = true -> m_lease m = lease -> draftable actor ->
  ActionSpec.digest action = Ok d ->
  safe m (on_executor_failure cfg action actor trace_id executor lease (held m) x)
    (fun m' o => exists e, o = Raise e /\ final m' (Raise e)).
Proof.
  intros Hr Ho Hl Hw Hd. unfold on_executor_failure.
  apply safe_bind. eapply safe_mono; [|by apply safe_mark_uncertain].
  intros m1 [[]|e] (Hr1 & Hl1 & Hf1); [|eexists; split; [done|]; apply (raised_final x); [done|];
    intros Hf; by destruct (Hf1 Hf)].
  apply safe_bind. apply safe_mono with (post := fun m' o =>
    is_ok o = true /\ raised x m' /\ (m_fault m' = false -> attempt_in m' [UNCERTAIN])).
  2: { destruct lease as [l|].
    - apply safe_catch, safe_bind. eapply safe_mono; [|apply safe_revoke; congruence].
      intros m2 o ((_ & _ & _ & S3 & S4 & S5 & _) & Hff & _).
      assert (m_fault m2 = false -> m_fault m1 = false)
        by (intros; destruct (m_fault m1); [by rewrite Hff in *|done]).
      destruct o; apply safe_ret; unfold raised, attempt_in; rewrite S3, S4, S5;
        (split_and!; [done|apply Hr1..|]; intros Hf; apply Hf1; auto).
    - apply safe_ret. split_and!; [done|apply Hr1..|]. intros Hf. by apply Hf1. }
  intros m2 [er|e] (Hok & Hr2 & Hf2); [|done].
  apply safe_bind, safe_digest. intros o Hd'. rewrite Hd in Hd'. subst o.
  apply safe_bind, safe_event; [done| |].
  - intros _. apply safe_throw. eexists. split; [done|]. apply (raised_final x); [apply Hr2|].
    intros Hf. simpl in *. rewrite orb_true_r. split_and!; [done..|]. by apply Hf2.
  - intros e m' [->|[-> Hnw]]; [|done]. eexists. split; [done|]. by apply (raised_final x).
Qed.

(** ** The executor returned *)
Definition ran (r : ExecutionResult) (m : mon) : Prop :=
  m_exec m = Some (Ok r) /\ m_completed m = None.

Lemma ran_final r m e : m_exec m = Some (Ok r) -> final m (Raise e).
Proof. intros He. unfold final. rewrite He. by split. Qed.

Lemma safe_return_lease m executor lease r :
  ran r m -> m_lease m = lease -> (is_Some lease -> credential_leases cfg = true) ->
  safe m (return_lease cfg action actor trace_id executor lease (held m)) (fun m' o =>
    m_exec m' = Some (Ok r) /\
    (is_ok o = true -> ran r m' /\ m_attempt m' = m_attempt m /\
       forall l, m_lease m' = Some l -> m_revoked m' = true)).
Proof.
  intros Hr Hl Hn. unfold return_lease. destruct lease as [l|].
  2: { apply safe_ret. split; [apply Hr|]. intros _. split_and!; [apply Hr..|done|congruence]. }
  apply safe_catch. eapply safe_mono; [|by apply safe_revoke].
  intros m1 o ((_ & _ & S2 & S3 & S4 & S5 & _) & _ & Hv). destruct Hr as [Hr1 Hr2].
  destruct o as [[]|e].
  - split; [congruence|]. intros _. unfold ran. rewrite S3, S4, S5. split_and!; auto.
  - assert (Hex : m_exec m1 = Some (Ok r)) by congruence. clear - Hex.
    apply safe_bind. apply safe_mono with (post := fun m' _ => m_exec m' = Some (Ok r)).
    + intros m2 [u|e'] He; [|by split]. apply safe_bind, safe_event; [done|by intros _|].
      intros e' m3 [->|[-> _]]; by split.
    + unfold mark_uncertain. destruct (held m) as [a|]; [|done].
      apply safe_bind, safe_call. intros [now|e']; red_m; [|done].
      apply safe_call. by intros [[]|e']; red_m.
Qed.

Lemma own_key_refl : own_key (ActionSpec.tenant_id action) (ActionSpec.idempotency_key action) = true.
Proof. unfold own_key. by rewrite !bool_decide_true. Qed.

Lemma safe_settle m executor r :
  ran r m -> attempt_open m = true ->
  safe m (settle action actor trace_id executor (held m) r) (fun m' o =>
    m_exec m' = Some (Ok r) /\
    (is_ok o = true -> m_completed m' = Some r /\
       (exists d, m_recorded m' = Some d /\ drafted actor EXECUTION_COMPLETED (completion_payload r) d) /\
       settled_in m' r /\
       m_lease m' = m_lease m /\ m_revoked m' = m_revoked m)).
Proof.
  intros [He Hc]. unfold attempt_open, held, settle, settled_in. intros Ho.
  apply safe_bind. apply safe_mono with (post := fun m' o =>
    m_exec m' = Some (Ok r) /\ m_completed m' = None /\ m_lease m' = m_lease m /\
    m_revoked m' = m_revoked m /\
    (is_ok o = true -> settled_in m' r)).
  - intros m1 [[]|e] (He1 & Hc1 & Hl1 & Hr1 & Ha1); [|done].
    apply safe_bind, safe_call. intros o. red_m.
    rewrite own_key_refl, He1, Hc1, !bool_decide_true by done. red_m. cbn [andb].
    destruct o as [[]|e]; [|done].
    apply safe_draft; [intros d Hd _|intros e m' [->|[-> _]]; done]. unfold after_draft.
    rewrite bool_decide_true by apply Hd. split; [done|]. intros _. simpl. split_and!; [done|by exists d|by apply Ha1|done..].
  - unfold settled_in, attempt_settled. destruct (execution_attempts cfg) eqn:Hx; [|by apply safe_ret; split_and!].
    destruct (m_attempt m) as [a|] eqn:Ha; [|discriminate].
    apply safe_bind, safe_outcome. destruct (sha256_hex (ExecutionResult.dump r)) as [rd|e]; [|by split_and!].
    apply safe_call. intros [[]|e]; red_m; [|by split_and!]. split_and!; [done..|].
    intros _ _. eexists. split; [done|]. split; [done|]. by exists rd.
Qed.

(** ** The whole method *)
Lemma safe_invoke m executor lease at_ (post : mon -> outcome ExecutionResult -> Prop) :
  may_execute m = true -> (forall o, post (set_exec o m) o) ->
  safe m (invoke action executor lease at_) post.
Proof.
  intros Hm Hp. unfold invoke. apply safe_call. intros o. red_m.
  rewrite Hm, bool_decide_true by done. apply Hp.
Qed.

Lemma safe_finish m executor r reused :
  (forall m', maybe_fault m m' -> forall e, final m' (Raise e)) ->
  (forall ob v, StateObservation.action_id ob = ActionSpec.action_id action ->
     VerificationResult.action_id v = ActionSpec.action_id action ->
     final m (Ok {| bo_action := action; bo_result := r; bo_observation := ob;
                    bo_verification := v; reused_idempotent_result := reused |})) ->
  safe m (pbind (observe_and_verify action actor trace_id executor r reused) (fun ov =>
    Ret {| bo_action := action; bo_result := r; bo_observation := fst ov;
           bo_verification := snd ov; reused_idempotent_result := reused |})) final.
Proof.
  intros Hf Ho. apply safe_bind. eapply safe_mono; [|apply safe_observe].
  intros m' [[ob v]|e] H; simpl in H; [|by apply Hf]. destruct H as (-> & H1 & H2).
  by apply safe_ret, Ho.
Qed.

Lemma safe_perform m executor lease :
  ready (Some true) lease m ->
  safe m (perform cfg action actor trace_id executor lease) final.
Proof.
  intros Hm. unfold perform.
  apply safe_bind. eapply safe_mono; [|by apply safe_open_attempt].
  intros m1 [at_|e] H; simpl in H; [|by apply quiet_final].
  destruct H as (([He Hc] & Hcl & Hl & Ha & Hn) & -> & Ho).
  apply safe_bind, safe_digest. intros [d|e] Hd; [|by apply quiet_final].
  apply safe_bind, safe_event; [done|intros Hw|intros e m' [->|[-> _]]; by apply quiet_final].
  set (m2 := after_append EXECUTION_STARTED m1).
  apply safe_bind, safe_catch, safe_invoke.
  { unfold may_execute, m2. simpl. rewrite Hcl, He, orb_true_r, !bool_decide_true by done.
    unfold authorized, attempt_open in *. simpl. by rewrite Ha, Ho. }
  intros [r|x].
  2: { eapply safe_mono; [|by apply (safe_on_executor_failure (set_exec (Raise x) m2) _ _ _ d)].
       by intros m' o (e & -> & Hf). }
  set (m3 := set_exec (Ok r) m2). assert (Hr : ran r m3) by done.
  apply safe_bind, safe_outcome.
  destruct (validate_result _ _ _ _) as [[]|] eqn:Hv; [|by apply (ran_final r)].
  apply validate_ok in Hv.
  apply safe_bind, safe_outcome. destruct (require _ _) as [[]|]; [|by apply (ran_final r)].
  apply safe_bind. eapply safe_mono; [|by apply (safe_return_lease m3 _ _ r)].
  intros m4 [[]|e] [He4 H4]; [|by apply (ran_final r)].
  destruct (H4 eq_refl) as (Hr4 & Ha4 & Hv4).
  replace (held m1) with (held m4) by (unfold held; by rewrite Ha4).
  apply safe_bind. eapply safe_mono; [|apply (safe_settle m4 _ r); [done|]].
  2: { unfold attempt_open in *. by rewrite Ha4. }
  intros m5 [[]|e] [He5 H5]; [|by apply (ran_final r)].
  destruct (H5 eq_refl) as (Hc5 & Hr5 & Ha5 & Hl5 & Hv5).
  apply safe_finish.
  - intros m' [-> | ->] e; by apply (ran_final r).
  - intros ob v Hob Hve. unfold final. rewrite He5. split.
    + intros out [= <-]. unfold bound_outcome. simpl. by split_and!.
    + intros out l _. rewrite Hl5, Hv5. apply Hv4.
Qed.

Lemma execute_safe : safe mon0 (execute cfg action actor trace_id) final.
Proof.
  unfold execute. assert (Hf0 : fresh mon0) by done.
  apply safe_bind. eapply safe_mono; [|by apply safe_check_request].
  intros m1 [u|e] [H1 Hp1]; [|apply quiet_final, H1].
  apply safe_bind. eapply safe_mono; [|by apply safe_check_policy].
  intros m2 [p|e] H2; [|by apply quiet_final]. destruct H2 as (Hf2 & Hp & Hb & Hd).
  apply safe_bind. eapply safe_mono; [|by apply (safe_check_approval m2 p)].
  intros m3 [u'|e] H3; [|by apply quiet_final].
  apply safe_bind. apply safe_mono with (post := fun m' o => ready None None m').
  2: { unfold select_executor. apply safe_bind, safe_outcome.
       destruct (ExecutorRegistry.find_executor _ _); [|done].
       apply safe_bind, safe_outcome. destruct (require _ _); [|done].
       apply safe_bind, safe_outcome. by destruct (require _ _). }
  intros m4 [executor|e] H4; [|apply quiet_final, H4].
  apply safe_bind. eapply safe_mono; [|by apply safe_lease_for].
  intros m5 [lease|e] H5; [|by apply quiet_final].
  destruct H5 as (Hq & Hc & Hl & Ha & Hn).
  apply safe_bind, safe_digest. intros [d|e] Hdg; [|by apply quiet_final].
  apply safe_bind, safe_call. intros o. red_m.
  rewrite Ha, Hc, own_key_refl. unfold bound. rewrite !bool_decide_true by done. cbn [andb].
  destruct o as [[]|e]; cbn [negb]; [| |by apply quiet_final].
  - by apply safe_perform.
  - by apply safe_reuse.
Qed.

End Monitor.

(** ** Reading the monitor off the trace *)

(** A clock, a generator, the ledger or the attempt store failed, or a generator
    produced no span id. *)
Definition fault (e : Effects.event answer) : bool :=
  match e with
  | Ev q o =>
    match q as q' return outcome (answer q') -> bool with
    | Now | NewUuid | Append _ | CreateAttempt _ | ReplaceAttempt _ => fun o => negb (is_ok o)
    | NewSpan => fun o => match o with Ok s => negb (hex_string 16 s) | Raise _ => true end
    | _ => fun _ => false
    end o
  end.

(** What the executor answered, the leases issued, the attempt records stored and
    the results completed in a trace, in order *)
Definition executed (e : Effects.event answer) : option (outcome ExecutionResult) :=
  match e with Ev (Execute _ _ _) o => Some o | _ => None end.

Definition lease_issued (e : Effects.event answer) : option CredentialLease :=
  match e with Ev (IssueLease _ _) (Ok l) => Some l | _ => None end.

Definition attempt_written (e : Effects.event answer) : option ExecutionAttemptRecord :=
  match e with
  | Ev (CreateAttempt a) (Ok _) | Ev (ReplaceAttempt a) (Ok _) => Some a
  | _ => None
  end.

(** The keys completed, with their results *)
Definition key_completed (e : Effects.event answer) : option (string * string * ExecutionResult) :=
  match e with Ev (CompleteKey t k r) (Ok _) => Some (t, k, r) | _ => None end.

Definition completed (e : Effects.event answer) : option ExecutionResult :=
  match e with Ev (CompleteKey _ _ r) (Ok _) => Some r | _ => None end.

(** An event of type [ty] is in the ledger. *)
Definition recorded (ty : EventType) (tr : list (Effects.event answer)) : Prop :=
  exists d ev, Ev (Append d) (Ok ev) ∈ tr /\ ControlEventDraft.event_type d = ty.

Definition revoked (l : CredentialLease) (tr : list (Effects.event answer)) : Prop :=
  Ev (RevokeLease (CredentialLease.lease_id l)) (Ok tt) ∈ tr.

Section Seen.
Context (cfg : Config) (action : ActionSpec).

(** What the monitor noted happened. *)
Record noted (tr : list (Effects.event answer)) (m : mon) : Prop := {
  noted_policy p : m_policy m = Some p -> Ev (Evaluate action) (Ok p) ∈ tr;
  noted_approval a : m_approval m = Some a -> exists p td, m_policy m = Some p /\
    sha256_hex (ActionTarget.dump (ActionSpec.target action)) = Ok td /\
    Ev (FindApproval action p td) (Ok (Some a)) ∈ tr;
  noted_revoked l : m_lease m = Some l -> m_revoked m = true -> revoked l tr;
  noted_claim b : m_claim m = Some b -> exists d, ActionSpec.digest action = Ok d /\
    Ev (Claim (ActionSpec.tenant_id action) (ActionSpec.idempotency_key action) d) (Ok b) ∈ tr;
  noted_started : m_started m = true -> recorded EXECUTION_STARTED tr;
  noted_uncertain : m_uncertain m = true -> recorded EXECUTION_UNCERTAIN tr;
  noted_recorded d : m_recorded m = Some d -> exists ev, Ev (Append d) (Ok ev) ∈ tr;
  noted_exec o : m_exec m = Some o -> m_claim m = Some true /\
    exists h n, Ev (Execute h n action) o ∈ tr;
  noted_completed r : m_completed m = Some r ->
    Ev (CompleteKey (ActionSpec.tenant_id action) (ActionSpec.idempotency_key action) r) (Ok tt) ∈ tr;
  noted_fault : m_fault m = true -> existsb fault tr = true;
}.

(** What the monitor keeps is all there was. *)
Record exact (tr : list (Effects.event answer)) (m : mon) : Prop := {
  exact_lease : omap lease_issued tr = option_list (m_lease m);
  exact_attempt : m_attempt m = last (omap attempt_written tr);
  exact_exec : omap executed tr = option_list (m_exec m);
  exact_completed : omap completed tr = option_list (m_completed m);
  exact_keys : omap key_completed tr = option_list
    (option_map (fun r => (ActionSpec.tenant_id action, ActionSpec.idempotency_key action, r)) (m_completed m));
  exact_calls t k r o : Ev (CompleteKey t k r) o ∈ tr ->
    t = ActionSpec.tenant_id action /\ k = ActionSpec.idempotency_key action /\ m_exec m = Some (Ok r);
}.

Lemma elem_old (tr : list (Effects.event answer)) e e' : e' ∈ tr -> e' ∈ tr ++ [e].
Proof. set_solver. Qed.

Lemma elem_new (tr : list (Effects.event answer)) e : e ∈ tr ++ [e].
Proof. set_solver. Qed.

Lemma recorded_old ty tr e : recorded ty tr -> recorded ty (tr ++ [e]).
Proof. intros (d & ev & H & Ht). exists d, ev. split; [by apply elem_old|done]. Qed.

Lemma recorded_new d ev ty tr :
  ControlEventDraft.event_type d = ty -> recorded ty (tr ++ [Ev (Append d) (Ok ev)]).
Proof. intros H. exists d, ev. split; [apply elem_new|done]. Qed.

Lemma noted_old tr m e : noted tr m -> noted (tr ++ [e]) m.
Proof.
  intros [N1 N2 N3 N4 N5 N6 N7 N8 N9 N10]. split; intros.
  - by apply elem_old, N1.
  - destruct (N2 _ H) as (p & td & H1 & H2 & H3). exists p, td. by split_and!; [..|apply elem_old].
  - by apply elem_old, N3.
  - destruct (N4 _ H) as (d & H1 & H2). exists d. split; [done|]. by apply elem_old.
  - by apply recorded_old, N5.
  - by apply recorded_old, N6.
  - destruct (N7 _ H) as (ev & H1). exists ev. by apply elem_old.
  - destruct (N8 _ H) as (H1 & h & n & H2). split; [done|]. exists h, n. by apply elem_old.
  - by apply elem_old, N9.
  - rewrite existsb_app, N10; done.
Qed.

(** Opens an accepted event. *)
Ltac open_step H :=
  cbn in H; repeat case_in H; try discriminate H; injection H as <-;
  repeat match goal with
  | E : may_execute _ _ _ = true |- _ => unfold may_execute in E
  | E : own_key _ _ _ = true |- _ => unfold own_key in E
  | E : bound _ _ = true |- _ => unfold bound in E
  | E : _ && _ = true |- _ => apply andb_true_iff in E as [? ?]
  end; b2p.

(** What is kept of the calls that complete a key *)
Lemma exact_calls_step tr m e m' t k r o :
  exact tr m -> mstep cfg action m e = Some m' -> Ev (CompleteKey t k r) o ∈ tr ++ [e] ->
  t = ActionSpec.tenant_id action /\ k = ActionSpec.idempotency_key action /\ m_exec m' = Some (Ok r).
Proof.
  intros Hex H Hin. apply elem_of_app in Hin as [Hin|Hin%list_elem_of_singleton].
  - destruct (exact_calls _ _ Hex _ _ _ _ Hin) as (-> & -> & He). split; [done|]. split; [done|].
    destruct e as [q o']. destruct q; open_step H; unfold after_draft; try case_bool_decide; simpl; congruence.
  - subst e. open_step H; simpl; by split_and!.
Qed.

Lemma exact_step tr m e m' : exact tr m -> mstep cfg action m e = Some m' -> exact (tr ++ [e]) m'.
Proof.
  intros Hex H. split; [..|intros; by eapply exact_calls_step]; destruct Hex as [E1 E2 E3 E4 E5 _].
  all: destruct e as [q o]; destruct q; open_step H; unfold after_draft; try case_bool_decide;
    rewrite omap_app; simpl; rewrite ?E1, ?E2, ?E3, ?E4, ?E5, ?app_nil_r, ?last_snoc; try done.
  all: match goal with E : _ = None |- _ => rewrite E; simpl; congruence end.
Qed.

(** Proves a field of [noted] for the new event, the old fields in [N]. *)
Ltac field N :=
  cbn in *; intros;
  repeat match goal with
  | H : _ || _ = true |- _ => apply orb_true_iff in H as [H|H]; b2p
  | H : m_approval _ = Some _ |- _ => apply (noted_approval _ _ N) in H as (? & ? & ? & ? & ?)
  | H : is_ok ?o = _ |- _ => destruct o; [|try discriminate H]; try discriminate H; clear H
  | u : () |- _ => destruct u
  end; simplify_eq/=;
  first
  [ done
  | solve [eauto 3 using noted_policy, noted_revoked, noted_claim, noted_started, noted_uncertain,
             noted_recorded, noted_exec, noted_completed, noted_fault, recorded_new]
  | solve [split_and?; repeat eexists; split_and?; eauto 1; apply elem_new]
  | solve [rewrite existsb_app; cbn; simplify_option_eq; by rewrite orb_true_r]
  | match goal with H : m_exec _ = Some _ |- _ =>
      apply (noted_exec _ _ N) in H as [? _]; congruence end
  | match goal with H : option_map _ ?o = _, E : ?o = Some _ |- _ =>
      rewrite E in H; injection H as <-; apply elem_new end
  | idtac ].

Lemma noted_step tr m e m' : noted tr m -> mstep cfg action m e = Some m' -> noted (tr ++ [e]) m'.
Proof.
  intros N H. apply (noted_old _ _ e) in N. destruct e as [q o].
  destruct q; open_step H; try done; unfold after_draft; try case_bool_decide; split; field N.
  rewrite existsb_app. cbn. rewrite Heqb. by rewrite orb_true_r.
Qed.

Lemma seen_monitor tr m :
  monitor (mstep cfg action) mon0 tr = Some m -> noted tr m /\ exact tr m.
Proof.
  revert m. induction tr as [|e tr IH] using rev_ind; intros m.
  - simpl. intros [= <-]. split; split; try done. by intros ? ? ? ? ?%not_elem_of_nil.
  - rewrite monitor_app. destruct (monitor _ _ tr) as [m1|]; simpl; [|discriminate].
    destruct (mstep cfg action m1 e) as [m2|] eqn:Hs; [|discriminate].
    intros [= <-]. destruct (IH m1 eq_refl) as [Hn He].
    split; [by eapply noted_step|by eapply exact_step].
Qed.

(** The monitor at a call of the executor *)
Lemma execute_step m h n a o m' :
  mstep cfg action m (Ev (Execute h n a) o) = Some m' ->
  may_execute cfg action m = true /\ a = action.
Proof. cbn. destruct (may_execute _ _ _); [|done]. simpl. by case_bool_decide. Qed.

Context (actor : ActorRef) (trace_id : string).

Lemma execute_trace tr :
  trace (execute cfg action actor trace_id) tr ->
  exists m, monitor (mstep cfg action) mon0 tr = Some m /\ noted tr m /\ exact tr m.
Proof.
  intros H. destruct (safe_trace _ _ _ _ _ _ (execute_safe cfg action actor trace_id) H) as [m Hm].
  exists m. split; [done|]. by apply seen_monitor.
Qed.

Lemma execute_run tr res :
  run (execute cfg action actor trace_id) tr res ->
  exists m, noted tr m /\ exact tr m /\ final cfg action actor m res.
Proof.
  intros H. destruct (safe_run _ _ _ _ _ _ _ (execute_safe cfg action actor trace_id) H) as (m & Hm & Hf).
  exists m. apply seen_monitor in Hm as [Hn He]. by split_and!.
Qed.
End Seen.
