(* ===== verification/BrokerProperties.v ===== *)
(** * The promises of the action broker

    The properties of [Broker.execute], read off the monitor of [BrokerProofs]:
    what must precede a call of the executor, what a failed call, a finished
    execution and a refused claim leave behind, and that interleaved executions
    sharing one idempotency store perform an external effect at most once per key.
    A sample environment runs the program for the instances. *)

From S2P Require Import Prelude Canonical Contracts Stores Effects Broker BrokerProofs.

(** ** A sample environment *)
Section Sample.
Context (policy : PolicyOutcome) (claimed : bool) (executor_answer : outcome ExecutionResult).

Definition sample_lease : CredentialLease := {|
  CredentialLease.lease_id := 51; CredentialLease.tenant_id := "acme";
  CredentialLease.action_id := 11; CredentialLease.executor_identity := "sa/dry-run";
  CredentialLease.audience := "k8s"; CredentialLease.scopes := ["scale"];
  CredentialLease.credential_reference := "vault:1"; CredentialLease.issued_at := 100;
  CredentialLease.expires_at := 900 |}.

Definition sample_result : ExecutionResult := {|
  ExecutionResult.action_id := 11; ExecutionResult.execution_attempt_id := 77;
  ExecutionResult.executor_name := "dry-run"; ExecutionResult.executor_version := "1";
  ExecutionResult.executor_identity := "sa/dry-run"; ExecutionResult.started_at := 100;
  ExecutionResult.completed_at := 200; ExecutionResult.succeeded := true;
  ExecutionResult.exit_code := Some 0; ExecutionResult.provider_operation_id := None;
  ExecutionResult.result := []; ExecutionResult.result_artifact := None;
  ExecutionResult.retryable := false; ExecutionResult.error_type := None;
  ExecutionResult.error_message := None |}.

Definition sample_policy (a : ActionSpec) : PolicyDecision := {|
  PolicyDecision.decision_id := 31; PolicyDecision.action_id := ActionSpec.action_id a;
  PolicyDecision.action_digest := match ActionSpec.digest a with Ok d => d | Raise _ => "" end;
  PolicyDecision.tenant_id := "acme"; PolicyDecision.policy_engine := "policy";
  PolicyDecision.policy_bundle := "b"; PolicyDecision.policy_revision := "r1";
  PolicyDecision.evaluated_at := 90; PolicyDecision.outcome_ := policy;
  PolicyDecision.reason_codes := []; PolicyDecision.constraints := [];
  PolicyDecision.required_approval_roles := ["sre"]; PolicyDecision.expires_at := None;
  PolicyDecision.raw_decision_artifact_sha256 := None |}.

Definition sample_approval (a : ActionSpec) (td : string) : ApprovalDecision := {|
  ApprovalDecision.approval_id := 41; ApprovalDecision.action_id := ActionSpec.action_id a;
  ApprovalDecision.action_digest := match ActionSpec.digest a with Ok d => d | Raise _ => "" end;
  ApprovalDecision.target_digest := td; ApprovalDecision.tenant_id := "acme";
  ApprovalDecision.environment := "prod"; ApprovalDecision.policy_decision_id := 31;
  ApprovalDecision.policy_revision := "r1"; ApprovalDecision.approver := sample_actor;
  ApprovalDecision.approver_role := "sre"; ApprovalDecision.decided_at := 95;
  ApprovalDecision.outcome_ := APPROVED; ApprovalDecision.expires_at := 1000;
  ApprovalDecision.reason := "ok" |}.

Definition sample_answer (q : request) : outcome (answer q) :=
  match q with
  | Now => Ok 100
  | NewUuid => Ok 77
  | NewSpan => Ok "0123456789abcdef"
  | Append d => Ok {| draft := d; sequence := 1; integrity := {|
      EventIntegrity.algorithm := "sha-256"; EventIntegrity.canonicalization := "json";
      EventIntegrity.previous_event_hash := None; EventIntegrity.event_hash := "";
      EventIntegrity.signature := None; EventIntegrity.signing_key_id := None |} |}
  | Evaluate a => Ok (sample_policy a)
  | FindApproval a p td => Ok (Some (sample_approval a td))
  | IssueLease _ _ => Ok sample_lease
  | RevokeLease _ => Ok tt
  | Claim _ _ _ => Ok claimed
  | StoredResult _ _ => Ok (Some sample_result)
  | CompleteKey _ _ _ => Ok tt
  | CreateAttempt _ => Ok tt
  | ReplaceAttempt _ => Ok tt
  | Execute _ _ _ => executor_answer
  | Observe _ a _ => Ok {| StateObservation.observation_id := 61;
      StateObservation.action_id := ActionSpec.action_id a; StateObservation.source := "k8s";
      StateObservation.observed_at := 300; StateObservation.state_digest := "";
      StateObservation.state := []; StateObservation.evidence := [] |}
  | Verify a _ _ => Ok {| VerificationResult.verification_id := 71;
      VerificationResult.action_id := ActionSpec.action_id a; VerificationResult.verifier := "v";
      VerificationResult.verifier_version := "1"; VerificationResult.verified_at := 400;
      VerificationResult.outcome_ := PASSED; VerificationResult.expected_digest := None;
      VerificationResult.observed_digest := None; VerificationResult.checks := [];
      VerificationResult.details := []; VerificationResult.evidence := [] |}
  end.
End Sample.

Definition sample_executor : Executor := {|
  ex_name := "dry-run"; ex_version := "1"; ex_identity := "sa/dry-run";
  attempt_aware := true; lease_aware := true |}.

Definition sample_config : Config := {|
  execution_attempts := true; credential_leases := true;
  executors := [("dry-run", sample_executor)] |}.

Definition sample_program : prog BrokerOutcome :=
  execute sample_config (sample_action WRITE LOW) sample_actor "0123456789abcdef0123456789abcdef".

Definition sample_run (policy : PolicyOutcome) (claimed : bool) (o : outcome ExecutionResult)
    : outcome BrokerOutcome * unit * list (Effects.event answer) :=
  exec (fun q s => (sample_answer policy claimed o q, s)) sample_program tt.

Definition sample_trace (policy : PolicyOutcome) (claimed : bool) (o : outcome ExecutionResult)
    : list (Effects.event answer) := snd (sample_run policy claimed o).

(** ** Shared facts *)
Section Facts.
Context (cfg : Config) (action : ActionSpec).

Lemma authorized_policy m tr :
  noted action tr m -> authorized action m = true ->
  exists p, m_policy m = Some p /\ Ev (Evaluate action) (Ok p) ∈ tr /\
    ActionSpec.digest action = Ok (PolicyDecision.action_digest p) /\
    PolicyDecision.outcome_ p <> DENY /\
    (PolicyDecision.outcome_ p = REQUIRE_APPROVAL -> exists td ap,
       sha256_hex (ActionTarget.dump (ActionSpec.target action)) = Ok td /\
       Ev (FindApproval action p td) (Ok (Some ap)) ∈ tr /\
       ApprovalDecision.outcome_ ap = APPROVED).
Proof.
  intros Hn Ha. unfold authorized in Ha. destruct (m_policy m) as [p|] eqn:Hp; [|discriminate].
  apply andb_true_iff in Ha as [Hb Ha]. unfold bound in Hb. b2p.
  exists p. split; [done|]. split; [by eapply noted_policy|]. split; [done|].
  split; [by destruct (PolicyDecision.outcome_ p)|].
  intros Ho. rewrite Ho in Ha. destruct (m_approval m) as [ap|] eqn:Hap; [|discriminate]. b2p.
  destruct (noted_approval _ _ _ Hn _ Hap) as (p' & td & Hp' & Htd & Hev).
  rewrite Hp in Hp'. injection Hp' as <-. by exists td, ap.
Qed.

Context (actor : ActorRef) (trace_id : string).

(** The state of the monitor when the executor is called *)
Lemma at_execute pre h n a o post :
  trace (execute cfg action actor trace_id) (pre ++ Ev (Execute h n a) o :: post) ->
  a = action /\ omap executed pre = [] /\ omap executed post = [] /\
  exists m, noted action pre m /\ exact action pre m /\ may_execute cfg action m = true.
Proof.
  intros H. destruct (execute_trace _ _ _ _ _ H) as (mf & Hm & _ & Hex).
  rewrite monitor_app in Hm. destruct (monitor _ _ pre) as [m|] eqn:E; [|discriminate].
  cbn [monitor] in Hm. destruct (mstep cfg action m _) as [m'|] eqn:Hs; [|discriminate].
  destruct (execute_step _ _ _ _ _ _ _ _ Hs) as [Hmay ->].
  destruct (seen_monitor _ _ _ _ E) as [Hn He]. split; [done|].
  assert (Hpre : omap executed pre = []).
  { rewrite (exact_exec _ _ _ He). unfold may_execute in Hmay.
    apply andb_true_iff in Hmay as [_ Hx]. b2p. by rewrite Hx. }
  split; [done|]. split; [|eauto].
  pose proof (exact_exec _ _ _ Hex) as Hx. rewrite omap_app, Hpre in Hx. simpl in Hx.
  apply (f_equal length) in Hx.
  change (list_omap _ _ executed post) with (omap executed post) in Hx.
  destruct (omap executed post); [done|]. destruct (m_exec mf); discriminate Hx.
Qed.

Lemma may_execute_inv m : may_execute cfg action m = true ->
  authorized action m = true /\ m_claim m = Some true /\ m_started m = true /\
  attempt_open cfg m = true.
Proof.
  unfold may_execute. intros H. repeat (apply andb_true_iff in H as [H ?]). b2p. done.
Qed.

Lemma executed_in (tr : list (Effects.event answer)) h n a (o : outcome ExecutionResult) :
  (Ev (Execute h n a) o : Effects.event answer) ∈ tr -> o ∈ omap executed tr.
Proof. intros H. apply list_elem_of_omap. by eexists. Qed.

Lemma completed_in (tr : list (Effects.event answer)) t k r (u : unit) :
  (Ev (CompleteKey t k r) (Ok u) : Effects.event answer) ∈ tr -> r ∈ omap completed tr.
Proof. intros H. apply list_elem_of_omap. by eexists. Qed.

Lemma issued_in (tr : list (Effects.event answer)) a x (l : CredentialLease) :
  (Ev (IssueLease a x) (Ok l) : Effects.event answer) ∈ tr -> l ∈ omap lease_issued tr.
Proof. intros H. apply list_elem_of_omap. by eexists. Qed.
End Facts.

(** The loop of [find_valid_approval] returns an approval on record that authorises
    exactly this action under this decision. *)
Lemma first_valid_granted action p td now l ap :
  ApprovalStore.first_valid action p td now l = Ok (Some ap) ->
  ap ∈ l /\ ApprovalDecision.outcome_ ap = APPROVED /\
  ActionSpec.digest action = Ok (ApprovalDecision.action_digest ap) /\
  ApprovalDecision.target_digest ap = td /\
  ApprovalDecision.policy_decision_id ap = PolicyDecision.decision_id p /\
  ApprovalDecision.policy_revision ap = PolicyDecision.policy_revision p /\
  ApprovalDecision.tenant_id ap = ActionSpec.tenant_id action /\
  ApprovalDecision.environment ap = ActionTarget.environment (ActionSpec.target action) /\
  now < ApprovalDecision.expires_at ap.
Proof.
  induction l as [|x l IH]; simpl; intros H; [discriminate|].
  destruct (ActionSpec.digest action) as [d|e] eqn:Hd; simpl in H; [|discriminate].
  destruct (ApprovalDecision.authorizes _ _ _ _ _ _ _ _) eqn:Ha.
  - injection H as <-. unfold ApprovalDecision.authorizes in Ha. b2p. split_and!; [set_solver|congruence..|done].
  - destruct (IH H) as [H1 H2]. split; [set_solver|done].
Qed.

(** A sample execution that needs an approval and gets it *)
Definition sample_granted : list (Effects.event answer) :=
  sample_trace REQUIRE_APPROVAL true (Ok sample_result).

Lemma sample_trace_run p c o :
  run sample_program (sample_trace p c o) (fst (fst (sample_run p c o))).
Proof.
  unfold sample_trace, sample_run.
  exact (exec_run answer (fun q s => (sample_answer p c o q, s)) sample_program tt).
Qed.

Lemma sample_granted_trace : trace sample_program sample_granted.
Proof. exact (run_trace _ _ _ _ (sample_trace_run REQUIRE_APPROVAL true (Ok sample_result))). Qed.

Lemma sample_granted_split :
  sample_granted = take 29 sample_granted ++
    Ev (Execute (AttemptWithLease 77 sample_lease) "dry-run" (sample_action WRITE LOW))
       (Ok sample_result) :: drop 30 sample_granted.
Proof. vm_compute. reflexivity. Qed.

Definition sample_outcome (p : PolicyOutcome) (c : bool) : BrokerOutcome :=
  {| bo_action := sample_action WRITE LOW; bo_result := sample_result;
     bo_observation := match sample_answer p c (Ok sample_result)
       (Observe "dry-run" (sample_action WRITE LOW) sample_result) with Ok o => o | Raise _ =>
       {| StateObservation.observation_id := 0; StateObservation.action_id := 0;
          StateObservation.source := ""; StateObservation.observed_at := 0;
          StateObservation.state_digest := ""; StateObservation.state := [];
          StateObservation.evidence := [] |} end;
     bo_verification := {| VerificationResult.verification_id := 71;
      VerificationResult.action_id := 11; VerificationResult.verifier := "v";
      VerificationResult.verifier_version := "1"; VerificationResult.verified_at := 400;
      VerificationResult.outcome_ := PASSED; VerificationResult.expected_digest := None;
      VerificationResult.observed_digest := None; VerificationResult.checks := [];
      VerificationResult.details := []; VerificationResult.evidence := [] |};
     reused_idempotent_result := negb c |}.

Lemma sample_granted_result :
  fst (fst (sample_run REQUIRE_APPROVAL true (Ok sample_result))) =
  Ok (sample_outcome REQUIRE_APPROVAL true).
Proof. vm_compute. reflexivity. Qed.

Lemma sample_reused_result :
  fst (fst (sample_run ALLOW false (Ok sample_result))) = Ok (sample_outcome ALLOW false).
Proof. vm_compute. reflexivity. Qed.

(** ** Many executions on one idempotency store *)

(** An execution of the broker: its collaborators and arguments *)
Record call_args : Type := {
  ca_cfg : Config; ca_action : ActionSpec; ca_actor : ActorRef; ca_trace_id : string;
}.

Definition run_of (c : call_args) : prog BrokerOutcome :=
  execute (ca_cfg c) (ca_action c) (ca_actor c) (ca_trace_id c).

(** The calls of many executions, in the order they happened, each with the number
    of its execution *)
Abbreviation log := (list (nat * Effects.event answer)).

Definition of_process (i : nat) (l : log) : list (Effects.event answer) :=
  omap (fun '(j, e) => if decide (j = i) then Some e else None) l.

(** What a call does to the idempotency store *)
Definition idempotency_op (e : Effects.event answer) : option IdempotencyStore.op :=
  match e with
  | Ev (Claim t k d) o => Some (IdempotencyStore.Claim t k d o)
  | Ev (CompleteKey t k r) _ => Some (IdempotencyStore.Complete t k r)
  | _ => None
  end.

(** A call of an executor with an action of tenant [t] and key [k] *)
Definition effect_on (t k : string) (e : Effects.event answer) : bool :=
  match ev_call e with
  | Execute _ _ a => bool_decide (ActionSpec.tenant_id a = t) &&
                     bool_decide (ActionSpec.idempotency_key a = k)
  | _ => false
  end.

Definition granted_to (t k : string) (e : Effects.event answer) : bool :=
  match idempotency_op e with Some o => StoreFacts.granted t k o | None => false end.

Definition sum_over (f : nat -> Z) (ids : list nat) : Z := foldr (fun i z => f i + z) 0 ids.

Lemma sum_over_le f g ids :
  (forall i, f i <= g i) -> sum_over f ids <= sum_over g ids.
Proof. intros H. induction ids as [|i ids IH]; simpl; [lia|]. specialize (H i). lia. Qed.

Lemma sum_over_one f g i z ids :
  NoDup ids -> i ∈ ids -> f i = z + g i -> (forall j, j <> i -> f j = g j) ->
  sum_over f ids = z + sum_over g ids.
Proof.
  intros Hnd Hin Hi Hj. induction ids as [|x ids IH]; [by apply elem_of_nil in Hin|].
  apply NoDup_cons in Hnd as [Hx Hnd]. simpl. apply elem_of_cons in Hin as [->|Hin].
  - rewrite Hi. enough (sum_over f ids = sum_over g ids) by lia.
    clear -Hx Hj. induction ids as [|y ids IH]; [done|]. simpl.
    rewrite IH by set_solver. rewrite Hj by set_solver. done.
  - rewrite IH by done. rewrite Hj by set_solver. lia.
Qed.

(** A count over the log is the sum of the counts of its executions. *)
Lemma count_by_process f ids (l : log) :
  NoDup ids -> (forall i e, (i, e) ∈ l -> i ∈ ids) ->
  count_if f (map snd l) = sum_over (fun i => count_if f (of_process i l)) ids.
Proof.
  intros Hnd. induction l as [|[i e] l IH]; intros Hin.
  - unfold count_if. simpl. induction ids as [|x ids IHi]; [done|]. simpl.
    apply NoDup_cons in Hnd as [_ Hnd]. rewrite <- IHi; [done|done|set_solver].
  - simpl map. rewrite count_if_cons, IH by set_solver. symmetry.
    apply (sum_over_one _ _ i); [done|set_solver| |].
    + simpl. rewrite decide_True by done. by rewrite count_if_cons.
    + intros j Hj. simpl. by rewrite decide_False by done.
Qed.

Lemma count_if_omap {A B} (f : A -> option B) p l :
  count_if p (omap f l) = count_if (fun a => match f a with Some b => p b | None => false end) l.
Proof.
  induction l as [|a l IH]; [done|]. rewrite count_if_cons, <- IH. simpl.
  destruct (f a); [by rewrite count_if_cons|done].
Qed.

Lemma count_if_in {A} (p : A -> bool) x l : x ∈ l -> p x = true -> 1 <= count_if p l.
Proof.
  intros Hin Hp. induction l as [|y l IH]; [by apply elem_of_nil in Hin|]. rewrite count_if_cons.
  pose proof (count_if_nonneg p l). apply elem_of_cons in Hin as [->|Hin].
  - rewrite Hp. simpl. lia.
  - specialize (IH Hin). destruct (p y); simpl; lia.
Qed.

Lemma effect_executed t k e :
  b2z (effect_on t k e) <= match executed e with Some _ => 1 | None => 0 end.
Proof.
  destruct e as [q o]. destruct q; simpl; try done.
  unfold effect_on. simpl. repeat case_bool_decide; simpl; lia.
Qed.

Lemma effects_executed t k (tr : list (Effects.event answer)) :
  count_if (effect_on t k) tr <= Z.of_nat (length (omap executed tr)).
Proof.
  induction tr as [|e tr IH]; [done|]. rewrite count_if_cons.
  pose proof (effect_executed t k e) as Hx.
  change (omap executed (e :: tr)) with
    (match executed e with Some y => y :: omap executed tr | None => omap executed tr end).
  destruct (executed e); simpl length; lia.
Qed.

(** An execution performs the effect no more often than it was granted the key. *)
Lemma effects_granted t k c tr :
  trace (run_of c) tr -> count_if (effect_on t k) tr <= count_if (granted_to t k) tr.
Proof.
  intros H. destruct (execute_trace _ _ _ _ _ H) as (m & _ & Hn & He).
  assert (Hle : count_if (effect_on t k) tr <= Z.of_nat (length (omap executed tr))).
  { apply effects_executed. }
  pose proof (count_if_nonneg (granted_to t k) tr) as Hg.
  rewrite (exact_exec _ _ _ He) in Hle. destruct (m_exec m) as [o|] eqn:Ho; simpl in Hle; [|lia].
  destruct (noted_exec _ _ _ Hn _ Ho) as [Hc _].
  destruct (noted_claim _ _ _ Hn _ Hc) as (d & _ & Hin).
  destruct (decide (count_if (effect_on t k) tr = 0)) as [->|Hnz]; [done|].
  enough (1 <= count_if (granted_to t k) tr) by lia.
  assert (Hkey : own_key (ca_action c) t k = true).
  { clear -H Hnz. destruct (own_key (ca_action c) t k) eqn:E; [done|]. exfalso. apply Hnz.
    assert (forall e, e ∈ tr -> effect_on t k e = false) as Hall.
    { intros [q o] Hin. unfold effect_on. simpl. destruct q as [| | | | | | | | | | | | |h n a| |]; try done.
      apply list_elem_of_split in Hin as (pre & post & ->).
      apply at_execute in H as (-> & _). unfold own_key in E.
      clear -E. repeat case_bool_decide; simpl in *; congruence. }
    clear -Hall. induction tr as [|e tr IH]; [done|]. rewrite count_if_cons, Hall, IH by set_solver.
    done. }
  unfold own_key in Hkey. b2p. eapply count_if_in; [exact Hin|].
  unfold granted_to. simpl. by rewrite !bool_decide_true.
Qed.

(** Replays the calls on the store, checking the answers of the claims *)
Fixpoint replay (ops : list IdempotencyStore.op) (st : IdempotencyStore.store)
    : option IdempotencyStore.store :=
  match ops with
  | [] => Some st
  | IdempotencyStore.Claim t k d o :: rest =>
      let '(o', st') := IdempotencyStore.claim t k d st in
      if bool_decide (o' = o) then replay rest st' else None
  | IdempotencyStore.Complete t k r :: rest => replay rest (snd (IdempotencyStore.complete t k r st))
  end.

Lemma replay_steps ops st st' : replay ops st = Some st' -> IdempotencyStore.steps st ops st'.
Proof.
  revert st. induction ops as [|[t k d o|t k r] ops IH]; intros st; simpl.
  - intros [= <-]. apply IdempotencyStore.steps_nil.
  - destruct (IdempotencyStore.claim t k d st) as [o' st1] eqn:E.
    case_bool_decide as Ho; [|discriminate]. subst o'. intros H.
    eapply IdempotencyStore.steps_cons; [by apply IdempotencyStore.step_claim|by apply IH].
  - destruct (IdempotencyStore.complete t k r st) as [o' st1] eqn:E. simpl. intros H.
    eapply IdempotencyStore.steps_cons; [by eapply IdempotencyStore.step_complete|by apply IH].
Qed.

Lemma trace_nil {A} (p : prog A) : trace p [].
Proof. destruct p; simpl; auto. Qed.

Lemma of_process_pair i j (tr : list (Effects.event answer)) :
  of_process i (map (pair j) tr) = if decide (j = i) then tr else [].
Proof.
  unfold of_process. induction tr as [|e tr IH]; simpl; [by case_decide|].
  unfold omap in IH. rewrite IH. by case_decide.
Qed.

Lemma of_process_app i l l' : of_process i (l ++ l') = of_process i l ++ of_process i l'.
Proof. apply omap_app. Qed.

(** Two executions of the sample action, the second after the first *)
Definition sample_args : call_args := {|
  ca_cfg := sample_config; ca_action := sample_action WRITE LOW; ca_actor := sample_actor;
  ca_trace_id := "0123456789abcdef0123456789abcdef" |}.

Definition sample_reused : list (Effects.event answer) := sample_trace ALLOW false (Ok sample_result).

Definition sample_log : log := map (pair 0%nat) sample_granted ++ map (pair 1%nat) sample_reused.

Lemma sample_log_replays :
  exists st, replay (omap idempotency_op (map snd sample_log)) IdempotencyStore.empty = Some st.
Proof. eexists. vm_compute. reflexivity. Qed.

Lemma sample_log_traces i : trace (run_of sample_args) (of_process i sample_log).
Proof.
  unfold sample_log. rewrite of_process_app, !of_process_pair. change (run_of sample_args) with sample_program.
  destruct (decide (0%nat = i)) as [<-|H0].
  - rewrite decide_False by done. rewrite app_nil_r. apply sample_granted_trace.
  - case_decide; [|apply trace_nil].
    exact (run_trace _ _ _ _ (sample_trace_run ALLOW false (Ok sample_result))).
Qed.

Module BrokerProperties.

(** C2: no external effect without authority.  Whenever an execution of the broker
    calls the executor, it calls it with the requested action, for the only time,
    and before that: the policy engine's decision on the action was obtained, is
    bound to the action's digest and does not deny it; if it requires approval, a
    granted approval was found for this action, decision and target; the claim of
    the action's idempotency key was granted for its digest; the start is in the
    ledger; and, with durable attempts, the last stored attempt record is started. *)
Theorem execution_authorized cfg action actor trace_id pre h n a o post :
  trace (execute cfg action actor trace_id) (pre ++ Ev (Execute h n a) o :: post) ->
  a = action /\ omap executed pre = [] /\ omap executed post = [] /\
  (exists p, Ev (Evaluate action) (Ok p) ∈ pre /\
     ActionSpec.digest action = Ok (PolicyDecision.action_digest p) /\
     PolicyDecision.outcome_ p <> DENY /\
     (PolicyDecision.outcome_ p = REQUIRE_APPROVAL -> exists td ap,
        sha256_hex (ActionTarget.dump (ActionSpec.target action)) = Ok td /\
        Ev (FindApproval action p td) (Ok (Some ap)) ∈ pre /\
        ApprovalDecision.outcome_ ap = APPROVED)) /\
  (exists d, ActionSpec.digest action = Ok d /\
     Ev (Claim (ActionSpec.tenant_id action) (ActionSpec.idempotency_key action) d) (Ok true) ∈ pre) /\
  recorded EXECUTION_STARTED pre /\
  (execution_attempts cfg = true -> exists r, last (omap attempt_written pre) = Some r /\
     ExecutionAttemptRecord.state r = STARTED).
Proof.
  intros H. destruct (at_execute _ _ _ _ _ _ _ _ _ _ H) as (-> & H1 & H2 & m & Hn & He & Hm).
  apply may_execute_inv in Hm as (Ha & Hc & Hs & Ho).
  destruct (authorized_policy _ _ _ Hn Ha) as (p & _ & Hp).
  split_and!; [done..|by exists p|by eapply noted_claim|by eapply noted_started|].
  intros Hx. rewrite <- (exact_attempt _ _ _ He). unfold attempt_open in Ho. rewrite Hx in Ho.
  destruct (m_attempt m) as [r|]; [|discriminate]. simpl in Ho. b2p. eauto.
Qed.

Lemma execution_authorized_witness :
  omap executed sample_granted = [Ok sample_result] /\
  recorded EXECUTION_STARTED (take 29 sample_granted).
Proof.
  split; [vm_compute; reflexivity|].
  pose proof sample_granted_trace as Ht. rewrite sample_granted_split in Ht.
  destruct (execution_authorized _ _ _ _ _ _ _ _ _ _ Ht) as (_ & _ & _ & _ & _ & H & _).
  exact H.
Defined.

(** C17: an execution whose approval port is the in-memory provider, whatever the other
    ports do and whatever becomes of the provider between the calls: if it calls the
    executor under a decision that requires approval, then at the moment of its lookup,
    under that decision, the provider held an approval on record for this action that is
    granted, for the action's own digest, the digest of its target, this decision and its
    policy revision, the tenant and the environment, and that had not expired by the
    provider's clock. *)
Theorem required_approval_exact {S} cfg action actor trace_id
    (h : forall q, M S (answer q)) (clock : S -> datetime) (approvals : S -> ApprovalStore.store)
    s0 pre hw n a o post :
  (forall x p td s, fst (h (FindApproval x p td) s) =
     ApprovalStore.find_valid_approval x p td (clock s) (approvals s)) ->
  snd (exec h (execute cfg action actor trace_id) s0) = pre ++ Ev (Execute hw n a) o :: post ->
  exists p, Ev (Evaluate action) (Ok p) ∈ pre /\ PolicyDecision.outcome_ p <> DENY /\
    (PolicyDecision.outcome_ p = REQUIRE_APPROVAL -> exists before td ap rest,
       pre = before ++ Ev (FindApproval action p td) (Ok (Some ap)) :: rest /\
       let s := after h before s0 in
       ap ∈ default [] (approvals s !! ActionSpec.action_id action) /\
       ApprovalDecision.outcome_ ap = APPROVED /\
       ActionSpec.digest action = Ok (ApprovalDecision.action_digest ap) /\
       sha256_hex (ActionTarget.dump (ActionSpec.target action)) = Ok (ApprovalDecision.target_digest ap) /\
       ApprovalDecision.policy_decision_id ap = PolicyDecision.decision_id p /\
       ApprovalDecision.policy_revision ap = PolicyDecision.policy_revision p /\
       ApprovalDecision.tenant_id ap = ActionSpec.tenant_id action /\
       ApprovalDecision.environment ap = ActionTarget.environment (ActionSpec.target action) /\
       clock s < ApprovalDecision.expires_at ap).
Proof.
  intros Hport He. pose proof (exec_run answer h (execute cfg action actor trace_id) s0) as Hrun.
  apply run_trace in Hrun. rewrite He in Hrun.
  destruct (at_execute _ _ _ _ _ _ _ _ _ _ Hrun) as (-> & _ & _ & m & Hn & _ & Hm).
  apply may_execute_inv in Hm as (Ha & _).
  destruct (authorized_policy _ _ _ Hn Ha) as (p & _ & Hev & Hd & Hdeny & Hap).
  exists p. split_and!; [done..|]. intros Ho. destruct (Hap Ho) as (td & ap & Htd & Hf & _).
  apply list_elem_of_split in Hf as (before & rest & ->). exists before, td, ap, rest. split; [done|].
  rewrite <- app_assoc in He. pose proof (exec_answer answer h _ _ _ _ _ He) as Hans.
  pose proof (eq_sym (eq_trans Hans (Hport action p td _))) as Hfound.
  apply first_valid_granted in Hfound as (Hin & H1 & H2 & <- & Hrest).
  cbv zeta. split; [|split; [done|split; [done|split; [exact Htd|exact Hrest]]]].
  apply list_elem_of_In, in_rev. by apply list_elem_of_In.
Qed.

(** The sample environment with an in-memory provider that holds the approval *)
Definition sample_store : ApprovalStore.store :=
  match sha256_hex (ActionTarget.dump (ActionSpec.target (sample_action WRITE LOW))) with
  | Ok td => snd (ApprovalStore.record (sample_approval (sample_action WRITE LOW) td) ApprovalStore.empty)
  | Raise _ => ApprovalStore.empty
  end.

Definition sample_handler (q : request) : M ApprovalStore.store (answer q) := fun st =>
  (match q as q' return outcome (answer q') with
   | FindApproval x p td => ApprovalStore.find_valid_approval x p td 100 st
   | q' => sample_answer REQUIRE_APPROVAL true (Ok sample_result) q'
   end, st).

Lemma sample_handled : snd (exec sample_handler sample_program sample_store) = sample_granted.
Proof. vm_compute. reflexivity. Qed.

Lemma required_approval_exact_witness :
  exists p, Ev (Evaluate (sample_action WRITE LOW)) (Ok p) ∈ take 29 sample_granted /\
    PolicyDecision.outcome_ p <> DENY.
Proof.
  pose proof sample_handled as Hs. rewrite sample_granted_split in Hs.
  destruct (required_approval_exact _ _ _ _ sample_handler (fun _ => 100) (fun st => st) sample_store _ _ _ _ _ _
              (fun x p td s => eq_refl) Hs) as (p & H1 & H2 & _).
  exists p. split; [exact H1|exact H2].
Defined.

(** C3: an executor that raises is ambiguous and never retried.  If the call of the
    executor raised, [execute] raises and the idempotency key is not completed; and
    unless the clock, a generator, the ledger or the attempt store failed too, the
    exception is the executor's own, the uncertainty is in the ledger and the last
    attempt record stored is uncertain, even when revoking the lease fails. *)
Theorem executor_failure_uncertain cfg action actor trace_id tr res h n a x :
  run (execute cfg action actor trace_id) tr res -> Ev (Execute h n a) (Raise x) ∈ tr ->
  is_ok res = false /\ omap completed tr = [] /\
  (existsb fault tr = false ->
     res = Raise x /\ recorded EXECUTION_UNCERTAIN tr /\
     (execution_attempts cfg = true -> exists r, last (omap attempt_written tr) = Some r /\
        ExecutionAttemptRecord.state r = UNCERTAIN)).
Proof.
  intros H Hx. destruct (execute_run _ _ _ _ _ _ H) as (m & Hn & He & Hf & _).
  apply executed_in in Hx. rewrite (exact_exec _ _ _ He) in Hx.
  destruct (m_exec m) as [o|]; [|by apply elem_of_nil in Hx]. apply list_elem_of_singleton in Hx as <-.
  destruct Hf as (Hc & Hok & Hff). split; [done|]. split; [by rewrite (exact_completed _ _ _ He), Hc|].
  intros Hfault. destruct Hff as (-> & Hu & Ha).
  { destruct (m_fault m) eqn:E; [|done]. by rewrite (noted_fault _ _ _ Hn E) in Hfault. }
  split; [done|]. split; [by eapply noted_uncertain|]. intros Hcfg.
  destruct (Ha Hcfg) as (r & Hr & Hs). exists r. rewrite <- (exact_attempt _ _ _ He).
  split; [done|]. by apply list_elem_of_singleton in Hs.
Qed.

Lemma executor_failure_uncertain_witness :
  let x := OtherError "TimeoutError" "gateway" in
  fst (fst (sample_run ALLOW true (Raise x))) = Raise x /\
  recorded EXECUTION_UNCERTAIN (sample_trace ALLOW true (Raise x)).
Proof.
  intros x. pose proof (sample_trace_run ALLOW true (Raise x)) as Hr.
  destruct (executor_failure_uncertain _ _ _ _ _ _ (AttemptWithLease 77 sample_lease) "dry-run"
              (sample_action WRITE LOW) x Hr) as (_ & _ & H).
  - apply (list_elem_of_lookup_2 _ 24). vm_compute. reflexivity.
  - destruct H as (H1 & H2 & _); [vm_compute; reflexivity|]. split; [exact H1|exact H2].
Defined.

(** C16: what a finished execution has done.  If [execute] returns a result that is
    not reused, the executor was called once and returned it, and it is bound to the
    action as are the observation and the verification.  One completion of a key
    succeeded, that of the action's tenant and idempotency key with this result, and no
    call asked for any other.  The ledger holds the completion event: of the action's run
    and tenant, for this action, by the actor of the call, with this result as its
    payload.  With durable attempts, the last attempt record stored is succeeded or
    failed as the result says and carries the result's digest. *)
Theorem finished_execution cfg action actor trace_id tr out :
  run (execute cfg action actor trace_id) tr (Ok out) -> reused_idempotent_result out = false ->
  bound_outcome action out /\ omap executed tr = [Ok (bo_result out)] /\
  omap key_completed tr =
    [(ActionSpec.tenant_id action, ActionSpec.idempotency_key action, bo_result out)] /\
  (forall t k r o, Ev (CompleteKey t k r) o ∈ tr ->
     t = ActionSpec.tenant_id action /\ k = ActionSpec.idempotency_key action /\ r = bo_result out) /\
  (exists d ev, Ev (Append d) (Ok ev) ∈ tr /\
     ControlEventDraft.event_type d = EXECUTION_COMPLETED /\
     ControlEventDraft.run_id d = ActionSpec.run_id action /\
     NonBlankStr "tenant_id" (ActionSpec.tenant_id action) = Ok (ControlEventDraft.tenant_id d) /\
     ControlEventDraft.action_id d = Some (ActionSpec.action_id action) /\
     ControlEventDraft.actor d = actor /\
     ControlEventDraft.payload d = [("result", json_mode (ExecutionResult.dump (bo_result out)))]) /\
  (execution_attempts cfg = true -> exists a rd, last (omap attempt_written tr) = Some a /\
     ExecutionAttemptRecord.state a =
       (if ExecutionResult.succeeded (bo_result out) then SUCCEEDED else FAILED) /\
     sha256_hex (ExecutionResult.dump (bo_result out)) = Ok rd /\
     ExecutionAttemptRecord.result_digest a = Some rd).
Proof.
  intros H Hre. destruct (execute_run _ _ _ _ _ _ H) as (m & Hn & He & Hf & _).
  pose proof (exact_calls _ _ _ He) as Hcalls.
  rewrite (exact_exec _ _ _ He), (exact_keys _ _ _ He), <- (exact_attempt _ _ _ He).
  destruct (m_exec m) as [[r|x]|]; [| |].
  - destruct (Hf _ eq_refl) as (_ & Hb & <- & Hc & (d & Hd & Hdr) & Ha). rewrite Hc.
    destruct (noted_recorded _ _ _ Hn _ Hd) as (ev & Hev).
    split_and!; [done..| |by exists d, ev|].
    + intros t k r' o (-> & -> & [= ->])%Hcalls. done.
    + intros Hcfg. destruct (Ha Hcfg) as (a & Hat & Hs & rd & Hrd & Had). by exists a, rd.
  - by destruct Hf as (_ & ? & _).
  - destruct Hf as [_ Hf]. destruct (Hf _ eq_refl) as [Hf' _]. congruence.
Qed.

Lemma finished_execution_witness :
  omap key_completed sample_granted = [("acme", "k1", sample_result)] /\
  exists d ev, Ev (Append d) (Ok ev) ∈ sample_granted /\ ControlEventDraft.event_type d = EXECUTION_COMPLETED.
Proof.
  pose proof (sample_trace_run REQUIRE_APPROVAL true (Ok sample_result)) as Hr.
  rewrite sample_granted_result in Hr.
  destruct (finished_execution _ _ _ _ _ _ Hr) as (_ & _ & H1 & _ & (d & ev & H2 & H3 & _) & _); [reflexivity|].
  split; [exact H1|]. exists d, ev. split; [exact H2|exact H3].
Defined.

(** A reused result causes no effect.  If [execute] returns a reused result, the
    claim of the key was refused, the executor was not called and no key was
    completed; the result, observation and verification are still bound to the
    action. *)
Theorem reused_result_no_effect cfg action actor trace_id tr out :
  run (execute cfg action actor trace_id) tr (Ok out) -> reused_idempotent_result out = true ->
  bound_outcome action out /\ omap executed tr = [] /\ omap completed tr = [] /\
  exists d, ActionSpec.digest action = Ok d /\
    Ev (Claim (ActionSpec.tenant_id action) (ActionSpec.idempotency_key action) d) (Ok false) ∈ tr.
Proof.
  intros H Hre. destruct (execute_run _ _ _ _ _ _ H) as (m & Hn & He & Hf & _).
  rewrite (exact_exec _ _ _ He), (exact_completed _ _ _ He).
  destruct (m_exec m) as [[r|x]|].
  - destruct (Hf _ eq_refl) as [Hf' _]. congruence.
  - by destruct Hf as (_ & ? & _).
  - destruct Hf as [-> Hf]. destruct (Hf _ eq_refl) as (_ & Hc & Hb).
    split_and!; [done..|]. by eapply noted_claim.
Qed.

Lemma reused_result_no_effect_witness :
  omap executed (sample_trace ALLOW false (Ok sample_result)) = [].
Proof.
  pose proof (sample_trace_run ALLOW false (Ok sample_result)) as Hr.
  rewrite sample_reused_result in Hr.
  destruct (reused_result_no_effect _ _ _ _ _ _ Hr) as (_ & H & _); [reflexivity|exact H].
Defined.

(** No credential outlives a successful execution.  If [execute] returns, fresh
    or reused, every credential lease issued for it has been revoked. *)
Theorem leases_revoked_on_success cfg action actor trace_id tr out l :
  run (execute cfg action actor trace_id) tr (Ok out) ->
  l ∈ omap lease_issued tr -> revoked l tr.
Proof.
  intros H Hl. destruct (execute_run _ _ _ _ _ _ H) as (m & Hn & He & _ & Hv).
  rewrite (exact_lease _ _ _ He) in Hl. destruct (m_lease m) as [l'|] eqn:E; [|by apply elem_of_nil in Hl].
  apply list_elem_of_singleton in Hl as ->. eapply noted_revoked; eauto.
Qed.

Lemma leases_revoked_on_success_witness : revoked sample_lease sample_granted.
Proof.
  pose proof (sample_trace_run REQUIRE_APPROVAL true (Ok sample_result)) as Hr.
  rewrite sample_granted_result in Hr.
  apply (leases_revoked_on_success _ _ _ _ _ _ sample_lease Hr).
  apply (list_elem_of_lookup_2 _ 0). vm_compute. reflexivity.
Defined.

(** C1: exactly-once ownership of external effects.  Let any number of executions
    of the broker, each possibly stopped anywhere, interleave their calls in any
    order on one idempotency store that starts empty.  For every tenant and key the
    executors are called at most once. *)
Theorem effect_at_most_once (procs : nat -> call_args) (l : log) st t k :
  (forall i, trace (run_of (procs i)) (of_process i l)) ->
  IdempotencyStore.steps IdempotencyStore.empty (omap idempotency_op (map snd l)) st ->
  count_if (effect_on t k) (map snd l) <= 1.
Proof.
  intros Hp Hs. pose proof (StoreFacts.steps_granted t k _ _ _ Hs) as Hg.
  rewrite count_if_omap in Hg. change (fun a => _) with (granted_to t k) in Hg.
  unfold StoreFacts.held, IdempotencyStore.empty in Hg. rewrite lookup_empty in Hg.
  set (ids := remove_dups (map fst l)).
  assert (Hnd : NoDup ids) by apply NoDup_remove_dups.
  assert (Hin : forall i e, (i, e) ∈ l -> i ∈ ids).
  { intros i e H. apply elem_of_remove_dups, list_elem_of_fmap. by exists (i, e). }
  rewrite (count_by_process _ ids) in Hg by done. rewrite (count_by_process _ ids) by done.
  enough (sum_over (fun i => count_if (effect_on t k) (of_process i l)) ids <=
          sum_over (fun i => count_if (granted_to t k) (of_process i l)) ids)
    by (case_match; lia).
  apply sum_over_le. intros i. apply (effects_granted t k (procs i)), Hp.
Qed.

Lemma effect_at_most_once_witness :
  count_if (effect_on "acme" "k1") (map snd sample_log) <= 1 /\
  effect_on "acme" "k1" <$> (snd <$> sample_log) !! 29%nat = Some true.
Proof.
  split; [|vm_compute; reflexivity].
  destruct sample_log_replays as [st E].
  apply (effect_at_most_once (fun _ => sample_args) sample_log st).
  - intros i. apply sample_log_traces.
  - apply replay_steps. exact E.
Defined.
End BrokerProperties.
