(* ===== verification/Host.v ===== *)
(** * The host: the clock and the source of fresh identifiers

    The control-plane stores read [datetime.now(UTC)] and draw [uuid4()] in the
    middle of an operation.  Both are streams of arbitrary values here: an operation
    takes the next reading, whatever it is, so no theorem rests on a clock that
    advances or on identifiers that differ unless it says so. *)

From S2P Require Import Prelude.

Record host : Type := {
  clock : nat -> datetime;
  ticks : nat;
  entropy : nat -> UUID;
  drawn : nat;
}.

Definition read_clock : M host datetime := fun h =>
  (Ok (clock h (ticks h)),
   {| clock := clock h; ticks := S (ticks h); entropy := entropy h; drawn := drawn h |}).

Definition draw_uuid : M host UUID := fun h =>
  (Ok (entropy h (drawn h)),
   {| clock := clock h; ticks := ticks h; entropy := entropy h; drawn := S (drawn h) |}).

(** The streams are the same, and at most more of them was read. *)
Definition host_le (h h' : host) : Prop :=
  clock h' = clock h /\ entropy h' = entropy h /\ (ticks h <= ticks h')%nat /\
  (drawn h <= drawn h')%nat.

#[export] Instance host_le_preorder : PreOrder host_le.
Proof.
  split; [by repeat split|]. intros a b c (A1 & A2 & A3 & A4) (B1 & B2 & B3 & B4).
  repeat split; congruence || lia.
Qed.

(** Fresh identifiers are never drawn twice: what [uuid4] is used for. *)
Definition fresh_ids (h : host) : Prop := forall i j, entropy h i = entropy h j -> i = j.

Lemma fresh_le h h' : host_le h h' -> fresh_ids h -> fresh_ids h'.
Proof. intros (_ & E & _) Hf i j. rewrite E. apply Hf. Qed.

(** A store with a host inside: the readings of [zoom env set_env]. *)
Section Rules.
Context {S : Type} (env : S -> host) (set_env : host -> S -> S) (K : S -> Prop).

Lemma wp_clock Q s :
  (forall h, host_le (env s) h -> drawn h = drawn (env s) -> Q (clock (env s) (ticks (env s))) (set_env h s)) ->
  wp K (zoom env set_env read_clock) Q s.
Proof. intros H. apply H; [|done]. repeat split; simpl; lia. Qed.

Lemma wp_draw Q s :
  (forall h, host_le (env s) h -> drawn h = Datatypes.S (drawn (env s)) ->
     Q (entropy (env s) (drawn (env s))) (set_env h s)) ->
  wp K (zoom env set_env draw_uuid) Q s.
Proof. intros H. apply H; [|done]. repeat split; simpl; lia. Qed.
End Rules.
