(* ===== verification/Tenancy.v ===== *)
(** * Tenants: access contexts, support elevation, lifecycle

    Models [contracts/tenancy.py]: the authoritative access context that crosses
    every service boundary and its capability check, the time-bounded support grant,
    the isolation profile, the lifecycle record of a tenant and the audit event.
    [schema_name] and [schema_version] keep their defaults. *)

From S2P Require Import Prelude Canonical Contracts.

Inductive TenantAccessMode : Set :=
| TENANT | SUPPORT.

#[export] Instance TenantAccessMode_eq_dec : EqDecision TenantAccessMode.
Proof. solve_decision. Defined.

Definition TenantAccessMode_value (e : TenantAccessMode) : string :=
  match e with
  | TENANT => "tenant"
  | SUPPORT => "support"
  end.

Inductive TenantCapability : Set :=
| CAP_READ | CAP_WRITE | CAP_EXECUTE | CAP_APPROVE | CAP_EXPORT | CAP_DELETE
| CAP_LEGAL_HOLD | CAP_CONFIGURE.

#[export] Instance TenantCapability_eq_dec : EqDecision TenantCapability.
Proof. solve_decision. Defined.

Definition TenantCapability_value (e : TenantCapability) : string :=
  match e with
  | CAP_READ => "read"
  | CAP_WRITE => "write"
  | CAP_EXECUTE => "execute"
  | CAP_APPROVE => "approve"
  | CAP_EXPORT => "export"
  | CAP_DELETE => "delete"
  | CAP_LEGAL_HOLD => "legal_hold"
  | CAP_CONFIGURE => "configure"
  end.

Module TenantAccessContext.
Record TenantAccessContext : Type := {
  tenant_id : string;
  actor : ActorRef;
  mode : TenantAccessMode;
  capabilities : list TenantCapability;
  elevation_id : option UUID;
  reason : option string;
  ticket_reference : option string;
  issued_at : datetime;
  expires_at : option datetime;
}.

#[global] Instance TenantAccessContext_eq_dec : EqDecision TenantAccessContext.
Proof. solve_decision. Defined.

Definition validate_scope (r : TenantAccessContext) : outcome unit :=
  require (negb (match expires_at r with Some e => e <=? issued_at r | None => false end))
    (ValidationError "tenant access context must expire after issuance") ;~
  require (py_unique (capabilities r)) (ValidationError "tenant capabilities must be unique") ;~
  match mode r with
  | TENANT =>
      require (bool_decide (ActorRef.tenant_id (actor r) = tenant_id r))
        (ValidationError "ordinary tenant access cannot cross tenant boundaries") ;~
      require (bool_decide (elevation_id r = None) && bool_decide (reason r = None) &&
               bool_decide (ticket_reference r = None))
        (ValidationError "ordinary tenant access cannot carry support-elevation metadata")
  | SUPPORT =>
      require (negb (bool_decide (elevation_id r = None)) && truthy (reason r) &&
               truthy (ticket_reference r))
        (ValidationError "support access requires elevation, reason, and ticket reference") ;~
      require (negb (bool_decide (capabilities r = [])))
        (ValidationError "support access requires explicit capabilities")
  end.

Definition create (r : TenantAccessContext) : outcome TenantAccessContext :=
  tenant_id' <~ NonBlankStr "tenant_id" (tenant_id r) ;;
  reason' <~ optional (NonBlankStr "reason") (reason r) ;;
  ticket_reference' <~ optional (NonBlankStr "ticket_reference") (ticket_reference r) ;;
  let r := {| tenant_id := tenant_id'; actor := actor r; mode := mode r;
            capabilities := capabilities r; elevation_id := elevation_id r;
            reason := reason'; ticket_reference := ticket_reference';
            issued_at := issued_at r; expires_at := expires_at r |} in
  validate_scope r ;~
  Ok r.

(** [require] at the instant [now] *)
Definition require_capability (r : TenantAccessContext) (cap : TenantCapability) (now : datetime)
    : outcome unit :=
  require (negb (match expires_at r with Some e => e <=? now | None => false end))
    (PermissionError "tenant access context has expired") ;~
  require (mem cap (capabilities r))
    (PermissionError ("tenant capability '" +:+ TenantCapability_value cap +:+ "' is not granted")).

(** [self.actor.model_copy(update={"attributes": {...}})] *)
Definition with_attributes (a : ActorRef) (attrs : list (string * string)) : ActorRef :=
  {| ActorRef.kind := ActorRef.kind a; ActorRef.id := ActorRef.id a;
     ActorRef.display_name := ActorRef.display_name a; ActorRef.tenant_id := ActorRef.tenant_id a;
     ActorRef.workload_identity := ActorRef.workload_identity a; ActorRef.attributes := attrs |}.

Definition audited_actor (r : TenantAccessContext) : outcome ActorRef :=
  match mode r, elevation_id r with
  | TENANT, _ => Ok (actor r)
  | SUPPORT, None => Raise AssertionError
  | SUPPORT, Some e =>
      Ok (with_attributes (actor r)
            (dict_set "prodkit.target_tenant" (tenant_id r)
              (dict_set "prodkit.support_elevation" (uuid_str e) (ActorRef.attributes (actor r)))))
  end.

End TenantAccessContext.
Abbreviation TenantAccessContext := TenantAccessContext.TenantAccessContext.

Module SupportElevationGrant.
Record SupportElevationGrant : Type := {
  grant_id : UUID;
  target_tenant_id : string;
  operator : ActorRef;
  issued_by : ActorRef;
  capabilities : list TenantCapability;
  reason : string;
  ticket_reference : string;
  issued_at : datetime;
  expires_at : datetime;
  revoked_at : option datetime;
}.

#[global] Instance SupportElevationGrant_eq_dec : EqDecision SupportElevationGrant.
Proof. solve_decision. Defined.

Definition validate_grant (r : SupportElevationGrant) : outcome unit :=
  require (negb (bool_decide (capabilities r = [])))
    (ValidationError "support elevation requires at least one capability") ;~
  require (py_unique (capabilities r))
    (ValidationError "support elevation capabilities must be unique") ;~
  require (negb (expires_at r <=? issued_at r))
    (ValidationError "support elevation must expire after issuance") ;~
  require (negb (match revoked_at r with Some t => t <? issued_at r | None => false end))
    (ValidationError "support elevation cannot be revoked before issuance").

Definition create (r : SupportElevationGrant) : outcome SupportElevationGrant :=
  target_tenant_id' <~ NonBlankStr "target_tenant_id" (target_tenant_id r) ;;
  reason' <~ NonBlankStr "reason" (reason r) ;;
  ticket_reference' <~ NonBlankStr "ticket_reference" (ticket_reference r) ;;
  let r := {| grant_id := grant_id r; target_tenant_id := target_tenant_id';
            operator := operator r; issued_by := issued_by r;
            capabilities := capabilities r; reason := reason';
            ticket_reference := ticket_reference'; issued_at := issued_at r;
            expires_at := expires_at r; revoked_at := revoked_at r |} in
  validate_grant r ;~
  Ok r.

Definition active (r : SupportElevationGrant) (now : datetime) : bool :=
  bool_decide (revoked_at r = None) && (issued_at r <=? now) && (now <? expires_at r).

End SupportElevationGrant.
Abbreviation SupportElevationGrant := SupportElevationGrant.SupportElevationGrant.

Module TenantIsolationProfile.
Record TenantIsolationProfile : Type := {
  tenant_id : string;
  policy_profile : string;
  signing_profile : string;
  retention_profile : string;
  executor_profile : string;
  storage_partition : string;
  cache_namespace : string;
  allow_support_access : bool;
  attributes : list (string * string);
}.

#[global] Instance TenantIsolationProfile_eq_dec : EqDecision TenantIsolationProfile.
Proof. solve_decision. Defined.

Definition create (r : TenantIsolationProfile) : outcome TenantIsolationProfile :=
  tenant_id' <~ NonBlankStr "tenant_id" (tenant_id r) ;;
  policy_profile' <~ NonBlankStr "policy_profile" (policy_profile r) ;;
  signing_profile' <~ NonBlankStr "signing_profile" (signing_profile r) ;;
  retention_profile' <~ NonBlankStr "retention_profile" (retention_profile r) ;;
  executor_profile' <~ NonBlankStr "executor_profile" (executor_profile r) ;;
  storage_partition' <~ NonBlankStr "storage_partition" (storage_partition r) ;;
  cache_namespace' <~ NonBlankStr "cache_namespace" (cache_namespace r) ;;
  let r := {| tenant_id := tenant_id'; policy_profile := policy_profile';
            signing_profile := signing_profile'; retention_profile := retention_profile';
            executor_profile := executor_profile'; storage_partition := storage_partition';
            cache_namespace := cache_namespace';
            allow_support_access := allow_support_access r; attributes := attributes r |} in
  Ok r.

Definition dump (r : TenantIsolationProfile) : pyval := PDict [
  ("schema_name", PStr "prodkit.tenant-isolation-profile");
  ("schema_version", PStr "1.0.0"); ("tenant_id", PStr (tenant_id r));
  ("policy_profile", PStr (policy_profile r));
  ("signing_profile", PStr (signing_profile r));
  ("retention_profile", PStr (retention_profile r));
  ("executor_profile", PStr (executor_profile r));
  ("storage_partition", PStr (storage_partition r));
  ("cache_namespace", PStr (cache_namespace r));
  ("allow_support_access", PBool (allow_support_access r));
  ("attributes", dump_str_dict (attributes r))].

End TenantIsolationProfile.
Abbreviation TenantIsolationProfile := TenantIsolationProfile.TenantIsolationProfile.

Inductive TenantLifecycleStatus : Set :=
| TENANT_ACTIVE | TENANT_DELETION_SCHEDULED | TENANT_DELETED.

#[export] Instance TenantLifecycleStatus_eq_dec : EqDecision TenantLifecycleStatus.
Proof. solve_decision. Defined.

Definition TenantLifecycleStatus_value (e : TenantLifecycleStatus) : string :=
  match e with
  | TENANT_ACTIVE => "active"
  | TENANT_DELETION_SCHEDULED => "deletion_scheduled"
  | TENANT_DELETED => "deleted"
  end.

Module TenantLifecycleRecord.
Record TenantLifecycleRecord : Type := {
  tenant_id : string;
  status : TenantLifecycleStatus;
  legal_hold : bool;
  deletion_not_before : option datetime;
  updated_at : datetime;
  updated_by : ActorRef;
  elevation_id : option UUID;
}.

#[global] Instance TenantLifecycleRecord_eq_dec : EqDecision TenantLifecycleRecord.
Proof. solve_decision. Defined.

Definition validate_lifecycle (r : TenantLifecycleRecord) : outcome unit :=
  let support_marker := dict_get "prodkit.support_elevation" (ActorRef.attributes (updated_by r)) in
  let marked := match elevation_id r with
                | Some e => bool_decide (support_marker = Some (uuid_str e))
                | None => false
                end in
  (if bool_decide (ActorRef.tenant_id (updated_by r) <> tenant_id r) then
     require marked
       (ValidationError "cross-tenant lifecycle mutation requires recorded support elevation")
   else
     require (bool_decide (elevation_id r = None) || marked)
       (ValidationError "lifecycle elevation identity does not match the audited actor")) ;~
  require (negb (legal_hold r && bool_decide (status r = TENANT_DELETED)))
    (ValidationError "a tenant under legal hold cannot be marked deleted") ;~
  if bool_decide (status r = TENANT_DELETION_SCHEDULED) then
    require (negb (bool_decide (deletion_not_before r = None)))
      (ValidationError "scheduled deletion requires deletion_not_before") ;~
    require (negb (legal_hold r))
      (ValidationError "deletion cannot be scheduled while legal hold is active")
  else
    require (bool_decide (deletion_not_before r = None))
      (ValidationError "deletion_not_before is only valid for scheduled deletion").

Definition create (r : TenantLifecycleRecord) : outcome TenantLifecycleRecord :=
  tenant_id' <~ NonBlankStr "tenant_id" (tenant_id r) ;;
  let r := {| tenant_id := tenant_id'; status := status r; legal_hold := legal_hold r;
            deletion_not_before := deletion_not_before r; updated_at := updated_at r;
            updated_by := updated_by r; elevation_id := elevation_id r |} in
  validate_lifecycle r ;~
  Ok r.

End TenantLifecycleRecord.
Abbreviation TenantLifecycleRecord := TenantLifecycleRecord.TenantLifecycleRecord.

Inductive TenantAuditEventType : Set :=
| SUPPORT_ELEVATION_ISSUED | SUPPORT_ELEVATION_USED | SUPPORT_ELEVATION_REVOKED
| EXPORT_CREATED | DELETION_SCHEDULED | DELETION_COMPLETED | TENANT_LEGAL_HOLD_PLACED
| TENANT_LEGAL_HOLD_RELEASED | CONFIGURATION_CHANGED.

#[export] Instance TenantAuditEventType_eq_dec : EqDecision TenantAuditEventType.
Proof. solve_decision. Defined.

Definition TenantAuditEventType_value (e : TenantAuditEventType) : string :=
  match e with
  | SUPPORT_ELEVATION_ISSUED => "support_elevation_issued"
  | SUPPORT_ELEVATION_USED => "support_elevation_used"
  | SUPPORT_ELEVATION_REVOKED => "support_elevation_revoked"
  | EXPORT_CREATED => "export_created"
  | DELETION_SCHEDULED => "deletion_scheduled"
  | DELETION_COMPLETED => "deletion_completed"
  | TENANT_LEGAL_HOLD_PLACED => "legal_hold_placed"
  | TENANT_LEGAL_HOLD_RELEASED => "legal_hold_released"
  | CONFIGURATION_CHANGED => "configuration_changed"
  end.

Module TenantAuditEvent.
Record TenantAuditEvent : Type := {
  audit_id : UUID;
  tenant_id : string;
  event_type : TenantAuditEventType;
  actor : ActorRef;
  occurred_at : datetime;
  elevation_id : option UUID;
  reason : option string;
  ticket_reference : option string;
  attributes : list (string * string);
}.

#[global] Instance TenantAuditEvent_eq_dec : EqDecision TenantAuditEvent.
Proof. solve_decision. Defined.

Definition create (r : TenantAuditEvent) : outcome TenantAuditEvent :=
  tenant_id' <~ NonBlankStr "tenant_id" (tenant_id r) ;;
  reason' <~ optional (NonBlankStr "reason") (reason r) ;;
  ticket_reference' <~ optional (NonBlankStr "ticket_reference") (ticket_reference r) ;;
  let r := {| audit_id := audit_id r; tenant_id := tenant_id'; event_type := event_type r;
            actor := actor r; occurred_at := occurred_at r; elevation_id := elevation_id r;
            reason := reason'; ticket_reference := ticket_reference';
            attributes := attributes r |} in
  Ok r.

End TenantAuditEvent.
Abbreviation TenantAuditEvent := TenantAuditEvent.TenantAuditEvent.

Module TenantExportManifest.
Record TenantExportManifest : Type := {
  export_id : UUID;
  tenant_id : string;
  created_at : datetime;
  created_by : ActorRef;
  elevation_id : option UUID;
  record_counts : list (string * Z);
  content_digests : list string;
  legal_hold_preserved : bool;
}.

#[global] Instance TenantExportManifest_eq_dec : EqDecision TenantExportManifest.
Proof. solve_decision. Defined.

Definition create (r : TenantExportManifest) : outcome TenantExportManifest :=
  tenant_id' <~ NonBlankStr "tenant_id" (tenant_id r) ;;
  content_digests' <~ map_o (NonBlankStr "content_digests") (content_digests r) ;;
  Ok {| export_id := export_id r; tenant_id := tenant_id'; created_at := created_at r;
        created_by := created_by r; elevation_id := elevation_id r;
        record_counts := record_counts r; content_digests := content_digests';
        legal_hold_preserved := legal_hold_preserved r |}.

Definition dump (r : TenantExportManifest) : pyval := PDict [
  ("schema_name", PStr "prodkit.tenant-export-manifest"); ("schema_version", PStr "1.0.0");
  ("export_id", PUuid (export_id r)); ("tenant_id", PStr (tenant_id r));
  ("created_at", PDatetime (created_at r)); ("created_by", ActorRef.dump (created_by r));
  ("elevation_id", dump_opt PUuid (elevation_id r));
  ("record_counts", PDict (map (fun '(k, n) => (k, PInt n)) (record_counts r)));
  ("content_digests", dump_list PStr (content_digests r));
  ("legal_hold_preserved", PBool (legal_hold_preserved r))].

End TenantExportManifest.
Abbreviation TenantExportManifest := TenantExportManifest.TenantExportManifest.
