(* ===== verification/Attestations.v ===== *)
(** * Signing keys, trust roots and signed checkpoints

    Models [contracts/attestations.py] as far as the trust of a checkpoint needs it
    and, of [attestations.py], the checkpoint signer and the offline verifier's check
    of a checkpoint and of a retention lock.  Ed25519 is the [cryptography] package:
    its key derivation, signing and verification are arguments. *)

From S2P Require Import Prelude Canonical Contracts.

(** ** [base64.b64encode] and [base64.b64decode(..., validate=True)] *)
Definition b64_alphabet : string :=
  "ABCDEFGHIJKLMNOPQRSTUVWXYZabcdefghijklmnopqrstuvwxyz0123456789+/".

Definition b64_char (d : Z) : Ascii.ascii :=
  nth (Z.to_nat d) (String.list_ascii_of_string b64_alphabet) Ascii.zero.

Definition b64_value (c : Ascii.ascii) : option Z :=
  let n := Z.of_nat (Ascii.nat_of_ascii c) in
  if (65 <=? n) && (n <=? 90) then Some (n - 65)
  else if (97 <=? n) && (n <=? 122) then Some (n - 71)
  else if (48 <=? n) && (n <=? 57) then Some (n + 4)
  else if n =? 43 then Some 62
  else if n =? 47 then Some 63
  else None.

Definition is_pad (c : Ascii.ascii) : bool := bool_decide (c = Ascii.ascii_of_nat 61).

(** Quads of characters; the last one may be padded, and nothing follows it. *)
Fixpoint b64_decode_chars (l : list Ascii.ascii) : option (list Z) :=
  match l with
  | [] => Some []
  | a :: b :: c :: d :: rest =>
      match b64_value a, b64_value b with
      | Some x, Some y =>
          let b1 := Z.lor (Z.shiftl x 2) (Z.shiftr y 4) in
          match b64_value c, b64_value d, rest with
          | Some z, Some w, _ =>
              match b64_decode_chars rest with
              | Some bs =>
                  Some (b1 :: Z.lor (Z.shiftl (Z.land y 15) 4) (Z.shiftr z 2)
                           :: Z.lor (Z.shiftl (Z.land z 3) 6) w :: bs)
              | None => None
              end
          | Some z, None, [] =>
              if is_pad d then Some [b1; Z.lor (Z.shiftl (Z.land y 15) 4) (Z.shiftr z 2)] else None
          | None, None, [] => if is_pad c && is_pad d then Some [b1] else None
          | _, _, _ => None
          end
      | _, _ => None
      end
  | _ => None
  end.

Definition b64decode (e : exn) (s : string) : outcome (list Z) :=
  match b64_decode_chars (String.list_ascii_of_string s) with Some l => Ok l | None => Raise e end.

Fixpoint b64_encode_bytes (l : list Z) : list Ascii.ascii :=
  match l with
  | [] => []
  | [a] => [b64_char (Z.shiftr a 2); b64_char (Z.shiftl (Z.land a 3) 4);
            Ascii.ascii_of_nat 61; Ascii.ascii_of_nat 61]
  | [a; b] => [b64_char (Z.shiftr a 2); b64_char (Z.lor (Z.shiftl (Z.land a 3) 4) (Z.shiftr b 4));
               b64_char (Z.shiftl (Z.land b 15) 2); Ascii.ascii_of_nat 61]
  | a :: b :: c :: rest =>
      b64_char (Z.shiftr a 2) :: b64_char (Z.lor (Z.shiftl (Z.land a 3) 4) (Z.shiftr b 4)) ::
      b64_char (Z.lor (Z.shiftl (Z.land b 15) 2) (Z.shiftr c 6)) :: b64_char (Z.land c 63) ::
      b64_encode_bytes rest
  end.

Definition b64encode (l : list Z) : string := String.string_of_list_ascii (b64_encode_bytes l).

Example b64_ex : b64encode [77; 97; 110; 77; 97] = "TWFuTWE=" /\
  b64decode AssertionError "TWFuTWE=" = Ok [77; 97; 110; 77; 97].
Proof. split; vm_compute; reflexivity. Qed.

Inductive CheckpointSigningAlgorithm : Set :=
| ED25519.

#[export] Instance CheckpointSigningAlgorithm_eq_dec : EqDecision CheckpointSigningAlgorithm.
Proof. solve_decision. Defined.

Definition CheckpointSigningAlgorithm_value (e : CheckpointSigningAlgorithm) : string :=
  match e with
  | ED25519 => "ed25519"
  end.

Inductive SigningRequirement : Set :=
| SIGNING_OPTIONAL | SIGNING_REQUIRED.

#[export] Instance SigningRequirement_eq_dec : EqDecision SigningRequirement.
Proof. solve_decision. Defined.

Definition SigningRequirement_value (e : SigningRequirement) : string :=
  match e with
  | SIGNING_OPTIONAL => "optional"
  | SIGNING_REQUIRED => "required"
  end.

Inductive RetentionLockMode : Set :=
| LOGICAL | GOVERNANCE | COMPLIANCE | WRITE_ONCE.

#[export] Instance RetentionLockMode_eq_dec : EqDecision RetentionLockMode.
Proof. solve_decision. Defined.

Definition RetentionLockMode_value (e : RetentionLockMode) : string :=
  match e with
  | LOGICAL => "logical"
  | GOVERNANCE => "governance"
  | COMPLIANCE => "compliance"
  | WRITE_ONCE => "write_once"
  end.

Module TrustedSigningKey.
Record TrustedSigningKey : Type := {
  key_id : string;
  algorithm : CheckpointSigningAlgorithm;
  public_key_base64 : string;
  signer_id : string;
  valid_from : datetime;
  valid_until : option datetime;
  revoked_at : option datetime;
}.

#[global] Instance TrustedSigningKey_eq_dec : EqDecision TrustedSigningKey.
Proof. solve_decision. Defined.

Definition validate_key (r : TrustedSigningKey) : outcome unit :=
  raw <~ b64decode (ValidationError "trusted signing key must contain strict base64")
           (public_key_base64 r) ;;
  require (length raw =? 32)%nat (ValidationError "Ed25519 public keys must be exactly 32 bytes") ;~
  require (negb (match valid_until r with Some t => t <=? valid_from r | None => false end))
    (ValidationError "trusted signing key valid_until must follow valid_from") ;~
  require (negb (match revoked_at r with Some t => t <? valid_from r | None => false end))
    (ValidationError "trusted signing key cannot be revoked before becoming valid").

Definition create (r : TrustedSigningKey) : outcome TrustedSigningKey :=
  key_id' <~ NonBlankStr "key_id" (key_id r) ;;
  public_key_base64' <~ NonBlankStr "public_key_base64" (public_key_base64 r) ;;
  signer_id' <~ NonBlankStr "signer_id" (signer_id r) ;;
  let r := {| key_id := key_id'; algorithm := algorithm r;
            public_key_base64 := public_key_base64'; signer_id := signer_id';
            valid_from := valid_from r; valid_until := valid_until r;
            revoked_at := revoked_at r |} in
  validate_key r ;~
  Ok r.

Definition dump (r : TrustedSigningKey) : pyval := PDict [
  ("key_id", PStr (key_id r));
  ("algorithm", PEnum (CheckpointSigningAlgorithm_value (algorithm r)));
  ("public_key_base64", PStr (public_key_base64 r)); ("signer_id", PStr (signer_id r));
  ("valid_from", PDatetime (valid_from r));
  ("valid_until", dump_opt PDatetime (valid_until r));
  ("revoked_at", dump_opt PDatetime (revoked_at r))].

End TrustedSigningKey.
Abbreviation TrustedSigningKey := TrustedSigningKey.TrustedSigningKey.

Module TrustRootPolicy.
Record TrustRootPolicy : Type := {
  policy_id : string;
  revision : string;
  trusted_keys : list TrustedSigningKey;
  allowed_signers : list string;
  allow_historical_signatures_before_revocation : bool;
}.

#[global] Instance TrustRootPolicy_eq_dec : EqDecision TrustRootPolicy.
Proof. solve_decision. Defined.

Definition validate_keys (r : TrustRootPolicy) : outcome unit :=
  require (negb (bool_decide (trusted_keys r = [])))
    (ValidationError "trust-root policy requires at least one trusted key") ;~
  require (py_unique (map TrustedSigningKey.key_id (trusted_keys r)))
    (ValidationError "trust-root policy key ids must be unique").

Definition create (r : TrustRootPolicy) : outcome TrustRootPolicy :=
  policy_id' <~ NonBlankStr "policy_id" (policy_id r) ;;
  revision' <~ NonBlankStr "revision" (revision r) ;;
  allowed_signers' <~ map_o (NonBlankStr "allowed_signers") (allowed_signers r) ;;
  let r := {| policy_id := policy_id'; revision := revision';
            trusted_keys := trusted_keys r; allowed_signers := allowed_signers';
            allow_historical_signatures_before_revocation := allow_historical_signatures_before_revocation r |} in
  validate_keys r ;~
  Ok r.

Definition dump (r : TrustRootPolicy) : pyval := PDict [
  ("schema_name", PStr "prodkit.trust-root-policy"); ("schema_version", PStr "1.0.0");
  ("policy_id", PStr (policy_id r)); ("revision", PStr (revision r));
  ("trusted_keys", dump_list TrustedSigningKey.dump (trusted_keys r));
  ("allowed_signers", dump_list PStr (allowed_signers r));
  ("allow_historical_signatures_before_revocation", PBool (allow_historical_signatures_before_revocation r))].

End TrustRootPolicy.
Abbreviation TrustRootPolicy := TrustRootPolicy.TrustRootPolicy.

Module AssuranceProfile.
Record AssuranceProfile : Type := {
  profile_id : string;
  signing : SigningRequirement;
  require_retention_lock : bool;
  minimum_retention_days : Z;
  accepted_retention_modes : list RetentionLockMode;
}.

#[global] Instance AssuranceProfile_eq_dec : EqDecision AssuranceProfile.
Proof. solve_decision. Defined.

Definition create (r : AssuranceProfile) : outcome AssuranceProfile :=
  profile_id' <~ NonBlankStr "profile_id" (profile_id r) ;;
  require (1 <=? minimum_retention_days r) (ValidationError "minimum_retention_days") ;~
  let r := {| profile_id := profile_id'; signing := signing r;
            require_retention_lock := require_retention_lock r;
            minimum_retention_days := minimum_retention_days r;
            accepted_retention_modes := accepted_retention_modes r |} in
  Ok r.

End AssuranceProfile.
Abbreviation AssuranceProfile := AssuranceProfile.AssuranceProfile.

Module SignedCheckpoint.
Record SignedCheckpoint : Type := {
  checkpoint_id : UUID;
  run_id : UUID;
  tenant_id : string;
  created_at : datetime;
  sequence : Z;
  final_event_hash : string;
  evidence_bundle_sha256 : string;
  attestation_sha256 : option string;
  previous_checkpoint_sha256 : option string;
  signer_id : string;
  key_id : string;
  algorithm : CheckpointSigningAlgorithm;
  signature_base64 : string;
}.

#[global] Instance SignedCheckpoint_eq_dec : EqDecision SignedCheckpoint.
Proof. solve_decision. Defined.

Definition validate_signature_encoding (r : SignedCheckpoint) : outcome unit :=
  raw <~ b64decode (ValidationError "checkpoint signature must contain strict base64")
           (signature_base64 r) ;;
  require (length raw =? 64)%nat (ValidationError "Ed25519 signatures must be exactly 64 bytes").

Definition create (r : SignedCheckpoint) : outcome SignedCheckpoint :=
  tenant_id' <~ NonBlankStr "tenant_id" (tenant_id r) ;;
  require (1 <=? sequence r) (ValidationError "sequence") ;~
  final_event_hash' <~ Sha256 "final_event_hash" (final_event_hash r) ;;
  evidence_bundle_sha256' <~ Sha256 "evidence_bundle_sha256" (evidence_bundle_sha256 r) ;;
  attestation_sha256' <~ optional (Sha256 "attestation_sha256") (attestation_sha256 r) ;;
  previous_checkpoint_sha256' <~ optional (Sha256 "previous_checkpoint_sha256") (previous_checkpoint_sha256 r) ;;
  signer_id' <~ NonBlankStr "signer_id" (signer_id r) ;;
  key_id' <~ NonBlankStr "key_id" (key_id r) ;;
  signature_base64' <~ NonBlankStr "signature_base64" (signature_base64 r) ;;
  let r := {| checkpoint_id := checkpoint_id r; run_id := run_id r;
            tenant_id := tenant_id'; created_at := created_at r; sequence := sequence r;
            final_event_hash := final_event_hash';
            evidence_bundle_sha256 := evidence_bundle_sha256';
            attestation_sha256 := attestation_sha256';
            previous_checkpoint_sha256 := previous_checkpoint_sha256';
            signer_id := signer_id'; key_id := key_id'; algorithm := algorithm r;
            signature_base64 := signature_base64' |} in
  validate_signature_encoding r ;~
  Ok r.

Definition dump (r : SignedCheckpoint) : pyval := PDict [
  ("schema_name", PStr "prodkit.signed-checkpoint"); ("schema_version", PStr "1.0.0");
  ("checkpoint_id", PUuid (checkpoint_id r)); ("run_id", PUuid (run_id r));
  ("tenant_id", PStr (tenant_id r)); ("created_at", PDatetime (created_at r));
  ("sequence", PInt (sequence r)); ("final_event_hash", PStr (final_event_hash r));
  ("evidence_bundle_sha256", PStr (evidence_bundle_sha256 r));
  ("attestation_sha256", dump_opt PStr (attestation_sha256 r));
  ("previous_checkpoint_sha256", dump_opt PStr (previous_checkpoint_sha256 r));
  ("signer_id", PStr (signer_id r)); ("key_id", PStr (key_id r));
  ("algorithm", PEnum (CheckpointSigningAlgorithm_value (algorithm r)));
  ("signature_base64", PStr (signature_base64 r))].

(** [model_dump(mode="python", exclude={"signature_base64"})] *)
Definition signing_material (r : SignedCheckpoint) : pyval :=
  match dump r with
  | PDict d => PDict (List.filter (fun kv => negb (bool_decide (fst kv = "signature_base64"))) d)
  | v => v
  end.

End SignedCheckpoint.
Abbreviation SignedCheckpoint := SignedCheckpoint.SignedCheckpoint.

Module RetentionLockReceipt.
Record RetentionLockReceipt : Type := {
  object_sha256 : string;
  locked_at : datetime;
  retain_until : datetime;
  mode : RetentionLockMode;
  provider : string;
  provider_reference : string;
  immutable : bool;
}.

#[global] Instance RetentionLockReceipt_eq_dec : EqDecision RetentionLockReceipt.
Proof. solve_decision. Defined.

Definition validate_retention (r : RetentionLockReceipt) : outcome unit :=
  require (negb (retain_until r <=? locked_at r))
    (ValidationError "retention lock must expire after it is established") ;~
  require (immutable r)
    (ValidationError "retention lock receipts must attest immutable retention").

Definition create (r : RetentionLockReceipt) : outcome RetentionLockReceipt :=
  object_sha256' <~ Sha256 "object_sha256" (object_sha256 r) ;;
  provider' <~ NonBlankStr "provider" (provider r) ;;
  provider_reference' <~ NonBlankStr "provider_reference" (provider_reference r) ;;
  let r := {| object_sha256 := object_sha256'; locked_at := locked_at r;
            retain_until := retain_until r; mode := mode r; provider := provider';
            provider_reference := provider_reference'; immutable := immutable r |} in
  validate_retention r ;~
  Ok r.

End RetentionLockReceipt.
Abbreviation RetentionLockReceipt := RetentionLockReceipt.RetentionLockReceipt.

(** ** [Ed25519CheckpointSigner] and [OfflineAssuranceVerifier] *)
Module Assurance.
Section Ed25519.
Context (PrivateKey : Type).
Context (public_bytes : PrivateKey -> list Z).
Context (ed25519_sign : PrivateKey -> bytes -> list Z).
(** [Ed25519PublicKey.from_public_bytes(public).verify(signature, message)] succeeds *)
Context (ed25519_verify : list Z -> list Z -> bytes -> bool).

Record Signer : Type := { key_id : string; signer_id : string; private_key : PrivateKey }.

Definition new_signer (key signer : string) (private : PrivateKey) : outcome Signer :=
  require (negb (bool_decide (key = "") || bool_decide (signer = "")))
    (ValueError "checkpoint signer requires non-empty key and signer ids") ;~
  Ok {| key_id := key; signer_id := signer; private_key := private |}.

Definition trusted_key (s : Signer) (valid_from : datetime) (valid_until revoked_at : option datetime)
    : outcome TrustedSigningKey :=
  TrustedSigningKey.create {|
    TrustedSigningKey.key_id := key_id s; TrustedSigningKey.algorithm := ED25519;
    TrustedSigningKey.public_key_base64 := b64encode (public_bytes (private_key s));
    TrustedSigningKey.signer_id := signer_id s; TrustedSigningKey.valid_from := valid_from;
    TrustedSigningKey.valid_until := valid_until; TrustedSigningKey.revoked_at := revoked_at |}.

Definition sign (s : Signer) (run_id : UUID) (tenant_id : string) (created_at : datetime)
    (sequence : Z) (final_event_hash evidence_bundle_sha256 : string)
    (attestation_sha256 previous_checkpoint_sha256 : option string) : outcome SignedCheckpoint :=
  let checkpoint_id := uuid5 NAMESPACE_URL (py_join ":"
    ["prodkit-control-checkpoint-v1"; uuid_str run_id; pretty sequence; evidence_bundle_sha256;
     str_or attestation_sha256 "none"; signer_id s; key_id s]) in
  material <~ canonical_json_bytes (PDict [
    ("schema_name", PStr "prodkit.signed-checkpoint"); ("schema_version", PStr "1.0.0");
    ("checkpoint_id", PUuid checkpoint_id); ("run_id", PUuid run_id); ("tenant_id", PStr tenant_id);
    ("created_at", PDatetime created_at); ("sequence", PInt sequence);
    ("final_event_hash", PStr final_event_hash);
    ("evidence_bundle_sha256", PStr evidence_bundle_sha256);
    ("attestation_sha256", dump_opt PStr attestation_sha256);
    ("previous_checkpoint_sha256", dump_opt PStr previous_checkpoint_sha256);
    ("signer_id", PStr (signer_id s)); ("key_id", PStr (key_id s));
    ("algorithm", PEnum (CheckpointSigningAlgorithm_value ED25519))]) ;;
  SignedCheckpoint.create {|
    SignedCheckpoint.checkpoint_id := checkpoint_id; SignedCheckpoint.run_id := run_id;
    SignedCheckpoint.tenant_id := tenant_id; SignedCheckpoint.created_at := created_at;
    SignedCheckpoint.sequence := sequence; SignedCheckpoint.final_event_hash := final_event_hash;
    SignedCheckpoint.evidence_bundle_sha256 := evidence_bundle_sha256;
    SignedCheckpoint.attestation_sha256 := attestation_sha256;
    SignedCheckpoint.previous_checkpoint_sha256 := previous_checkpoint_sha256;
    SignedCheckpoint.signer_id := signer_id s; SignedCheckpoint.key_id := key_id s;
    SignedCheckpoint.algorithm := ED25519;
    SignedCheckpoint.signature_base64 := b64encode (ed25519_sign (private_key s) material) |}.

(** The windows of a key, at the checkpoint's creation *)
Definition check_windows (policy : TrustRootPolicy) (key : TrustedSigningKey) (created_at : datetime)
    : outcome unit :=
  require (negb (created_at <? TrustedSigningKey.valid_from key))
    (IntegrityViolationError "checkpoint predates signing-key validity") ;~
  require (negb (match TrustedSigningKey.valid_until key with
                 | Some t => t <? created_at | None => false end))
    (IntegrityViolationError "checkpoint postdates signing-key validity") ;~
  match TrustedSigningKey.revoked_at key with
  | None => Ok tt
  | Some t =>
      require (TrustRootPolicy.allow_historical_signatures_before_revocation policy)
        (IntegrityViolationError "checkpoint signing key has been revoked") ;~
      require (created_at <? t)
        (IntegrityViolationError "checkpoint was created after signing-key revocation")
  end.

Definition verify_checkpoint (c : SignedCheckpoint) (policy : TrustRootPolicy)
    : outcome TrustedSigningKey :=
  match List.filter (fun k => bool_decide (TrustedSigningKey.key_id k = SignedCheckpoint.key_id c))
          (TrustRootPolicy.trusted_keys policy) with
  | [key] =>
      require (bool_decide (SignedCheckpoint.algorithm c = TrustedSigningKey.algorithm key))
        (IntegrityViolationError "checkpoint signing algorithm does not match trusted key") ;~
      require (bool_decide (SignedCheckpoint.signer_id c = TrustedSigningKey.signer_id key))
        (IntegrityViolationError "checkpoint signer identity does not match trusted key") ;~
      require (bool_decide (TrustRootPolicy.allowed_signers policy = []) ||
               mem (SignedCheckpoint.signer_id c) (TrustRootPolicy.allowed_signers policy))
        (IntegrityViolationError "checkpoint signer is not allowed by trust-root policy") ;~
      check_windows policy key (SignedCheckpoint.created_at c) ;~
      public <~ b64decode (IntegrityViolationError "checkpoint signing material is malformed")
                  (TrustedSigningKey.public_key_base64 key) ;;
      signature <~ b64decode (IntegrityViolationError "checkpoint signing material is malformed")
                     (SignedCheckpoint.signature_base64 c) ;;
      material <~ canonical_json_bytes (SignedCheckpoint.signing_material c) ;;
      require (ed25519_verify public signature material)
        (IntegrityViolationError "checkpoint signature verification failed") ;~
      Ok key
  | _ => Raise (IntegrityViolationError "checkpoint signing key is not uniquely trusted")
  end.
End Ed25519.

Definition verify_retention_lock (receipt : RetentionLockReceipt) (object_sha256 : string)
    (profile : AssuranceProfile) : outcome unit :=
  require (bool_decide (RetentionLockReceipt.object_sha256 receipt = object_sha256))
    (IntegrityViolationError "retention-lock receipt does not identify evidence object") ;~
  require (mem (RetentionLockReceipt.mode receipt) (AssuranceProfile.accepted_retention_modes profile))
    (IntegrityViolationError "retention-lock mode is not accepted by assurance profile") ;~
  require (negb (RetentionLockReceipt.retain_until receipt - RetentionLockReceipt.locked_at receipt
                 <? seconds (AssuranceProfile.minimum_retention_days profile * 86400)))
    (IntegrityViolationError "retention-lock duration is below assurance profile minimum").
End Assurance.
