(* ===== verification/AttestationProofs.v ===== *)
(** * Signed checkpoints: what the signer makes, the verifier accepts

    The base64 codec is inverted, and a checkpoint verifies under a policy that trusts
    its signer's key exactly when it was created inside the key's windows. *)

From S2P Require Import Prelude Canonical CanonicalProofs Contracts Attestations.

(** ** base64 *)
Definition byte (z : Z) : Prop := 0 <= z < 256.

Definition all_below (n : nat) (p : Z -> bool) : bool := forallb (fun i => p (Z.of_nat i)) (seq 0 n).

Lemma all_below_spec n p z : all_below n p = true -> 0 <= z < Z.of_nat n -> p z = true.
Proof.
  unfold all_below. rewrite forallb_forall. intros H Hz.
  replace z with (Z.of_nat (Z.to_nat z)) by lia. apply H, in_seq. lia.
Qed.

Lemma b64_char_spec d : 0 <= d < 64 ->
  b64_value (b64_char d) = Some d /\ white_space (b64_char d) = false.
Proof.
  intros Hd.
  assert (H : all_below 64 (fun d => bool_decide (b64_value (b64_char d) = Some d) &&
    negb (white_space (b64_char d))) = true) by (vm_compute; reflexivity).
  apply all_below_spec with (z := d) in H; [|exact Hd]. b2p. done.
Qed.

Lemma b64_char_value d : 0 <= d < 64 -> b64_value (b64_char d) = Some d.
Proof. intros Hd. by apply b64_char_spec. Qed.

(** The middle sextets, of two neighbouring bytes *)
Definition sextet2 (a b : Z) : Z := Z.lor (Z.shiftl (Z.land a 3) 4) (Z.shiftr b 4).
Definition sextet3 (b c : Z) : Z := Z.lor (Z.shiftl (Z.land b 15) 2) (Z.shiftr c 6).

Lemma sextet2_spec a b : byte a -> byte b ->
  0 <= sextet2 a b < 64 /\ Z.shiftr (sextet2 a b) 4 = Z.land a 3 /\
  Z.land (sextet2 a b) 15 = Z.shiftr b 4.
Proof.
  intros Ha Hb.
  assert (H : all_below 256 (fun a => all_below 256 (fun b =>
    (0 <=? sextet2 a b) && (sextet2 a b <? 64) && (Z.shiftr (sextet2 a b) 4 =? Z.land a 3) &&
    (Z.land (sextet2 a b) 15 =? Z.shiftr b 4))) = true) by (vm_compute; reflexivity).
  apply all_below_spec with (z := a) in H; [|exact Ha].
  apply all_below_spec with (z := b) in H; [|exact Hb]. b2p. done.
Qed.

Lemma sextet3_spec b c : byte b -> byte c ->
  0 <= sextet3 b c < 64 /\ Z.shiftr (sextet3 b c) 2 = Z.land b 15 /\
  Z.land (sextet3 b c) 3 = Z.shiftr c 6.
Proof.
  intros Ha Hb.
  assert (H : all_below 256 (fun b => all_below 256 (fun c =>
    (0 <=? sextet3 b c) && (sextet3 b c <? 64) && (Z.shiftr (sextet3 b c) 2 =? Z.land b 15) &&
    (Z.land (sextet3 b c) 3 =? Z.shiftr c 6))) = true) by (vm_compute; reflexivity).
  apply all_below_spec with (z := b) in H; [|exact Ha].
  apply all_below_spec with (z := c) in H; [|exact Hb]. b2p. done.
Qed.

(** The outer sextets, and the bytes put together again *)
Lemma byte_parts a : byte a ->
  0 <= Z.shiftr a 2 < 64 /\ 0 <= Z.land a 63 < 64 /\
  Z.lor (Z.shiftl (Z.shiftr a 2) 2) (Z.land a 3) = a /\
  Z.lor (Z.shiftl (Z.shiftr a 4) 4) (Z.land a 15) = a /\
  Z.lor (Z.shiftl (Z.shiftr a 6) 6) (Z.land a 63) = a.
Proof.
  intros Ha.
  assert (H : all_below 256 (fun a =>
    (0 <=? Z.shiftr a 2) && (Z.shiftr a 2 <? 64) && (0 <=? Z.land a 63) && (Z.land a 63 <? 64) &&
    (Z.lor (Z.shiftl (Z.shiftr a 2) 2) (Z.land a 3) =? a) &&
    (Z.lor (Z.shiftl (Z.shiftr a 4) 4) (Z.land a 15) =? a) &&
    (Z.lor (Z.shiftl (Z.shiftr a 6) 6) (Z.land a 63) =? a)) = true) by (vm_compute; reflexivity).
  apply all_below_spec with (z := a) in H; [|exact Ha]. b2p. done.
Qed.

(** Induction by three bytes *)
Lemma by_three {A} (P : list A -> Prop) :
  P [] -> (forall a, P [a]) -> (forall a b, P [a; b]) ->
  (forall a b c l, P l -> P (a :: b :: c :: l)) -> forall l, P l.
Proof.
  intros H0 H1 H2 H3. fix go 1. intros [|a [|b [|c l]]]; [exact H0|apply H1|apply H2|]. apply H3, go.
Qed.

Lemma zero_byte : byte 0.
Proof. unfold byte. lia. Qed.

(** The last sextet of an unfinished group is one whose next byte is zero. *)
Lemma sextet2_zero a : Z.shiftl (Z.land a 3) 4 = sextet2 a 0.
Proof. unfold sextet2. by rewrite Z.shiftr_0_l, Z.lor_0_r. Qed.
Lemma sextet3_zero b : Z.shiftl (Z.land b 15) 2 = sextet3 b 0.
Proof. unfold sextet3. by rewrite Z.shiftr_0_l, Z.lor_0_r. Qed.

Lemma b64_round_trip l : Forall byte l -> b64_decode_chars (b64_encode_bytes l) = Some l.
Proof.
  induction l as [|a|a b|a b c l IH] using by_three; intros Hl; [done| | |];
    repeat (apply Forall_cons in Hl as [? Hl]); cbn [b64_encode_bytes b64_decode_chars].
  - rewrite sextet2_zero. destruct (sextet2_spec a 0 H zero_byte) as (H2 & E2 & _).
    destruct (byte_parts a H) as (Ha & _ & E & _).
    rewrite !b64_char_value by done. cbn. by rewrite E2, E.
  - rewrite sextet3_zero. fold (sextet2 a b).
    destruct (sextet2_spec a b H H0) as (H2 & E2 & E2'), (sextet3_spec b 0 H0 zero_byte) as (H3 & E3 & _).
    destruct (byte_parts a H) as (Ha & _ & E & _), (byte_parts b H0) as (_ & _ & _ & Eb & _).
    rewrite !b64_char_value by done. cbn -[Z.lor Z.shiftl Z.shiftr Z.land]. rewrite E2, E2', E3, E, Eb. done.
  - fold (sextet2 a b) (sextet3 b c).
    destruct (sextet2_spec a b H H0) as (H2 & E2 & E2'), (sextet3_spec b c H0 H1) as (H3 & E3 & E3').
    destruct (byte_parts a H) as (Ha & _ & E & _), (byte_parts b H0) as (_ & _ & _ & Eb & _),
      (byte_parts c H1) as (_ & Hc & _ & _ & Ec).
    rewrite !b64_char_value by done. rewrite IH by done. by rewrite E2, E2', E3, E3', E, Eb, Ec.
Qed.

(** ** Text that is kept as it is *)
Lemma strip_by_none p l : Forall (fun c => p c = false) l -> strip_by p (String.string_of_list_ascii l) = String.string_of_list_ascii l.
Proof.
  intros Hl. unfold strip_by. rewrite String.list_ascii_of_string_of_list_ascii.
  assert (Hid : forall k, Forall (fun c => p c = false) k -> lstrip_by p k = k).
  { intros k Hk. apply lstrip_by_id. intros c r ->. by apply Forall_cons in Hk as [? _]. }
  rewrite (Hid l Hl), Hid, rev_involutive; [done|]. by apply Forall_rev.
Qed.

Lemma b64_encode_kept l : Forall byte l -> Forall (fun c => white_space c = false) (b64_encode_bytes l).
Proof.
  assert (Hc : forall d, 0 <= d < 64 -> white_space (b64_char d) = false) by (intros d Hd; by apply b64_char_spec).
  assert (Hpad : white_space (Ascii.ascii_of_nat 61) = false) by reflexivity.
  induction l as [|a|a b|a b c l IH] using by_three; intros Hl; [constructor| | |];
    repeat (apply Forall_cons in Hl as [? Hl]); cbn [b64_encode_bytes].
  - rewrite sextet2_zero. destruct (byte_parts a H) as (Ha & _), (sextet2_spec a 0 H zero_byte) as (H2 & _).
    repeat constructor; auto.
  - rewrite sextet3_zero. fold (sextet2 a b).
    destruct (byte_parts a H) as (Ha & _), (sextet2_spec a b H H0) as (H2 & _),
      (sextet3_spec b 0 H0 zero_byte) as (H3 & _). repeat constructor; auto.
  - fold (sextet2 a b) (sextet3 b c).
    destruct (byte_parts a H) as (Ha & _), (sextet2_spec a b H H0) as (H2 & _),
      (sextet3_spec b c H0 H1) as (H3 & _), (byte_parts c H1) as (_ & Hcc & _). repeat constructor; auto.
Qed.

Lemma b64encode_nonblank f l : Forall byte l -> l <> [] -> NonBlankStr f (b64encode l) = Ok (b64encode l).
Proof.
  intros Hl Hne. unfold NonBlankStr, b64encode. rewrite strip_by_none by (by apply b64_encode_kept).
  rewrite bool_decide_false; [done|]. destruct l as [|a [|b [|c l]]]; [done|discriminate..].
Qed.

Lemma b64decode_encode e l : Forall byte l -> b64decode e (b64encode l) = Ok l.
Proof.
  intros Hl. unfold b64decode, b64encode. rewrite String.list_ascii_of_string_of_list_ascii.
  by rewrite b64_round_trip.
Qed.

Lemma Sha256_Ok f s t : Sha256 f s = Ok t -> t = s.
Proof. unfold Sha256. by case_match; intros [= <-]. Qed.

Lemma optional_Sha256_Ok f o p : optional (Sha256 f) o = Ok p -> p = o.
Proof. destruct o; cbn; [|by intros [= <-]]. intros H. run_inv H. by match goal with E : _ = Ok _ |- _ => apply Sha256_Ok in E as -> end. Qed.

Module AttestationProperties.
Section Ed25519.
Context (PrivateKey : Type) (public_bytes : PrivateKey -> list Z)
  (ed25519_sign : PrivateKey -> bytes -> list Z) (ed25519_verify : list Z -> list Z -> bytes -> bool).
(** RFC 8032: keys of 32 bytes, signatures of 64, and a signature verifies *)
Hypothesis public_bytes_32 : forall k, length (public_bytes k) = 32%nat /\ Forall byte (public_bytes k).
Hypothesis signature_64 : forall k m, length (ed25519_sign k m) = 64%nat /\ Forall byte (ed25519_sign k m).
Hypothesis signature_verifies : forall k m, ed25519_verify (public_bytes k) (ed25519_sign k m) m = true.

(** Under one key identity and with the signer allowed, only the windows decide. *)
Lemma checkpoint_windows (s : Assurance.Signer PrivateKey) run tenant created seq feh ebs att prev
    from until revoked policy key c :
  NonBlankStr "key_id" (Assurance.key_id _ s) = Ok (Assurance.key_id _ s) ->
  NonBlankStr "signer_id" (Assurance.signer_id _ s) = Ok (Assurance.signer_id _ s) ->
  NonBlankStr "tenant_id" tenant = Ok tenant ->
  Assurance.trusted_key _ public_bytes s from until revoked = Ok key ->
  Assurance.sign _ ed25519_sign s run tenant created seq feh ebs att prev = Ok c ->
  List.filter (fun k => bool_decide (TrustedSigningKey.key_id k = Assurance.key_id _ s))
    (TrustRootPolicy.trusted_keys policy) = [key] ->
  TrustRootPolicy.allowed_signers policy = [] \/
    Assurance.signer_id _ s ∈ TrustRootPolicy.allowed_signers policy ->
  Assurance.verify_checkpoint ed25519_verify c policy =
    (Assurance.check_windows policy key created ;~ Ok key).
Proof.
  intros Hk Hs Ht Hkey Hc Hf Hallowed.
  destruct (public_bytes_32 (Assurance.private_key _ s)) as [Hl32 Hb32].
  unfold Assurance.trusted_key, TrustedSigningKey.create in Hkey. cbn in Hkey. rewrite Hk, Hs in Hkey.
  rewrite b64encode_nonblank in Hkey; [|done|intros E; by rewrite E in Hl32]. run_inv Hkey.
  unfold Assurance.sign in Hc. cbv zeta in Hc. apply obind_Ok in Hc as (material & Hm & Hc).
  unfold SignedCheckpoint.create in Hc. cbn in Hc. rewrite Ht, Hk, Hs in Hc.
  destruct (signature_64 (Assurance.private_key _ s) material) as [Hl64 Hb64].
  rewrite b64encode_nonblank in Hc; [|done|intros E; by rewrite E in Hl64].
  run_inv Hc.
  repeat match goal with
  | E : Sha256 _ _ = Ok _ |- _ => apply Sha256_Ok in E; subst
  | E : optional (Sha256 _) _ = Ok _ |- _ => apply optional_Sha256_Ok in E; subst
  end.
  unfold Assurance.verify_checkpoint. cbn [SignedCheckpoint.key_id]. rewrite Hf.
  cbn [SignedCheckpoint.algorithm SignedCheckpoint.signer_id TrustedSigningKey.algorithm
       TrustedSigningKey.signer_id SignedCheckpoint.created_at TrustedSigningKey.public_key_base64
       SignedCheckpoint.signature_base64].
  rewrite !bool_decide_true by done. cbn [require obind].
  replace (bool_decide (TrustRootPolicy.allowed_signers policy = []) || mem _ _) with true
    by (symmetry; apply orb_true_iff; rewrite bool_decide_eq_true, mem_true; exact Hallowed).
  cbn [require obind]. destruct (Assurance.check_windows _ _ _) as [[]|e]; [|done]. cbn [obind].
  rewrite !b64decode_encode by done. cbn [obind].
  match goal with |- context [canonical_json_bytes ?v] =>
    match type of Hm with canonical_json_bytes ?w = _ => change v with w end end.
  rewrite Hm. cbn [obind]. by rewrite signature_verifies.
Qed.
Lemma trusted_key_fields (s : Assurance.Signer PrivateKey) from until revoked key :
  Assurance.trusted_key _ public_bytes s from until revoked = Ok key ->
  TrustedSigningKey.valid_from key = from /\ TrustedSigningKey.valid_until key = until /\
  TrustedSigningKey.revoked_at key = revoked.
Proof. unfold Assurance.trusted_key, TrustedSigningKey.create. cbn. intros H. run_inv H. done. Qed.

(** C31: A checkpoint that the signer made verifies against a policy that trusts the
    signer's key, under one key identity and with the signer allowed, exactly when its
    instant lies inside the key's windows: not before the key is valid, not after it
    expires, and, for a revoked key, before the revocation and with historical signatures
    allowed; the verification then returns that key.  Otherwise it raises the integrity
    violation of the first window missed.  The identities have no white space around
    them: the signer signs them as passed, and the record holds them stripped. *)
Theorem signed_checkpoint_verifies (s : Assurance.Signer PrivateKey) run tenant created seq feh ebs att prev
    from until revoked policy key c :
  NonBlankStr "key_id" (Assurance.key_id _ s) = Ok (Assurance.key_id _ s) ->
  NonBlankStr "signer_id" (Assurance.signer_id _ s) = Ok (Assurance.signer_id _ s) ->
  NonBlankStr "tenant_id" tenant = Ok tenant ->
  Assurance.trusted_key _ public_bytes s from until revoked = Ok key ->
  Assurance.sign _ ed25519_sign s run tenant created seq feh ebs att prev = Ok c ->
  List.filter (fun k => bool_decide (TrustedSigningKey.key_id k = Assurance.key_id _ s))
    (TrustRootPolicy.trusted_keys policy) = [key] ->
  TrustRootPolicy.allowed_signers policy = [] \/
    Assurance.signer_id _ s ∈ TrustRootPolicy.allowed_signers policy ->
  let historical := TrustRootPolicy.allow_historical_signatures_before_revocation policy in
  let verdict := Assurance.verify_checkpoint ed25519_verify c policy in
  let violation m := @Raise TrustedSigningKey (IntegrityViolationError m) in
  (verdict = Ok key <->
     from <= created /\ (forall u, until = Some u -> created <= u) /\
     (forall r, revoked = Some r -> historical = true /\ created < r)) /\
  (created < from -> verdict = violation "checkpoint predates signing-key validity") /\
  (forall u, from <= created -> until = Some u -> u < created ->
     verdict = violation "checkpoint postdates signing-key validity") /\
  (forall r, from <= created -> (forall u, until = Some u -> created <= u) -> revoked = Some r ->
     (historical = false -> verdict = violation "checkpoint signing key has been revoked") /\
     (historical = true -> r <= created ->
        verdict = violation "checkpoint was created after signing-key revocation")).
Proof.
  intros Hk Hs Ht Hkey Hc Hf Hallowed. cbv zeta.
  rewrite (checkpoint_windows s run tenant created seq feh ebs att prev from until revoked policy key c) by done.
  destruct (trusted_key_fields s from until revoked key Hkey) as (Hfrom & Huntil & Hrev).
  unfold Assurance.check_windows. rewrite Hfrom, Huntil, Hrev. unfold require.
  destruct (Z.ltb_spec created from) as [H1|H1]; cbn [negb obind]; [split_and!; [split; [discriminate|lia]|done|lia|lia]|].
  destruct until as [u|]; [destruct (Z.ltb_spec u created) as [H2|H2]|]; cbn [negb obind].
  1: { split_and!; [|lia|done|intros r _ Hu; specialize (Hu u eq_refl); lia].
       split; [discriminate|]. intros (_ & Hu & _). specialize (Hu u eq_refl). lia. }
  all: destruct revoked as [r|]; [destruct (TrustRootPolicy.allow_historical_signatures_before_revocation policy) eqn:Hh;
    [destruct (Z.ltb_spec created r) as [H3|H3]|]|]; cbn [negb obind];
    (split_and!; [split|lia|intros u' _ [= <-]; lia || done|intros r' _ _ [= <-]; split; done || (intros; lia) || (intros; congruence)]);
    try discriminate; try done;
    try (intros _; split_and!; [done|by intros u' [= <-]|by intros r' [= <-]]);
    try (intros (_ & _ & Hr); destruct (Hr r eq_refl); lia || congruence).
Qed.
End Ed25519.

(** ** A scheme with the three laws, and a checkpoint *)
Definition w_public (k : unit) : list Z := repeat 7 32.
Definition w_sign (k : unit) (m : bytes) : list Z := repeat (Z.of_nat (length m) mod 256) 64.
Definition w_verify (p s : list Z) (m : bytes) : bool := bool_decide (s = w_sign tt m).

Lemma repeat_spec_stdpp {A} (x y : A) n : y ∈ repeat x n -> y = x.
Proof. intros H%list_elem_of_In. by apply repeat_spec in H. Qed.

Lemma w_public_32 k : length (w_public k) = 32%nat /\ Forall byte (w_public k).
Proof. split; [done|]. unfold w_public. apply Forall_forall. intros x Hx%repeat_spec_stdpp. subst. unfold byte. lia. Qed.

Lemma w_sign_64 k m : length (w_sign k m) = 64%nat /\ Forall byte (w_sign k m).
Proof.
  split; [apply repeat_length|]. apply Forall_forall. intros x Hx%repeat_spec_stdpp. subst.
  apply Z.mod_pos_bound. lia.
Qed.

Lemma w_signature_verifies k m : w_verify (w_public k) (w_sign k m) m = true.
Proof. unfold w_verify. by apply bool_decide_true. Qed.

Definition w_signer : Assurance.Signer unit :=
  {| Assurance.key_id := "k-1"; Assurance.signer_id := "ops"; Assurance.private_key := tt |}.

Definition w_key : TrustedSigningKey := {|
  TrustedSigningKey.key_id := "k-1"; TrustedSigningKey.algorithm := ED25519;
  TrustedSigningKey.public_key_base64 := b64encode (w_public tt); TrustedSigningKey.signer_id := "ops";
  TrustedSigningKey.valid_from := 0; TrustedSigningKey.valid_until := None;
  TrustedSigningKey.revoked_at := Some (seconds 10) |}.

Definition w_policy : TrustRootPolicy := {|
  TrustRootPolicy.policy_id := "root"; TrustRootPolicy.revision := "1";
  TrustRootPolicy.trusted_keys := [w_key]; TrustRootPolicy.allowed_signers := ["ops"];
  TrustRootPolicy.allow_historical_signatures_before_revocation := true |}.

Definition w_hash : string := sha256_str "x".

Local Notation w_checkpoint created :=
  (Assurance.sign unit w_sign w_signer 1 "acme" created 1 w_hash w_hash None None).

Lemma w_checkpoint_ok : is_ok (w_checkpoint (seconds 5)) = true /\
  Assurance.trusted_key unit w_public w_signer 0 None (Some (seconds 10)) = Ok w_key.
Proof. split; vm_compute; reflexivity. Qed.

Lemma w_trusted : List.filter (fun k => bool_decide (TrustedSigningKey.key_id k = Assurance.key_id _ w_signer))
  (TrustRootPolicy.trusted_keys w_policy) = [w_key].
Proof. reflexivity. Qed.

Lemma signed_checkpoint_verifies_witness :
  exists c, w_checkpoint (seconds 5) = Ok c /\ Assurance.verify_checkpoint w_verify c w_policy = Ok w_key.
Proof.
  destruct w_checkpoint_ok as [Hok Hkey]. destruct (w_checkpoint (seconds 5)) as [c|e] eqn:E; [|discriminate Hok].
  exists c. split; [reflexivity|].
  apply (signed_checkpoint_verifies unit w_public w_sign w_verify w_public_32 w_sign_64 w_signature_verifies
    w_signer 1 "acme" (seconds 5) 1 w_hash w_hash None None 0 None (Some (seconds 10)) w_policy w_key c
    eq_refl eq_refl eq_refl Hkey E w_trusted (or_intror (list_elem_of_here _ _))).
  split; [vm_compute; discriminate|]. split; [discriminate|].
  intros r [= <-]. split; [reflexivity|vm_compute; reflexivity].
Defined.
End AttestationProperties.
