(* ===== verification/GovernanceContracts.v ===== *)
(** * Governance contracts

    Models [contracts/governance.py] and, of [contracts/transfers.py], the offline
    verification of an evidence transfer: change requests and their approvals,
    retention policies, candidates and decisions, legal holds, the governed trust
    roots and their history, transfer manifests, import receipts, the compatibility
    policy and the audit event.  [schema_name] and [schema_version] keep their
    defaults and occur in the dumps only. *)

From S2P Require Import Prelude Canonical Contracts Attestations.

Inductive GovernanceRisk : Set :=
| RISK_LOW | RISK_MEDIUM | RISK_HIGH | RISK_CRITICAL.

#[export] Instance GovernanceRisk_eq_dec : EqDecision GovernanceRisk.
Proof. solve_decision. Defined.

Definition GovernanceRisk_value (e : GovernanceRisk) : string :=
  match e with
  | RISK_LOW => "low"
  | RISK_MEDIUM => "medium"
  | RISK_HIGH => "high"
  | RISK_CRITICAL => "critical"
  end.

Inductive GovernanceTargetType : Set :=
| RETENTION_POLICY | TRUST_ROOT_POLICY | LEGAL_HOLD_RELEASE | TENANT_CONFIGURATION
| COMPATIBILITY_POLICY | DEPRECATION_POLICY.

#[export] Instance GovernanceTargetType_eq_dec : EqDecision GovernanceTargetType.
Proof. solve_decision. Defined.

Definition GovernanceTargetType_value (e : GovernanceTargetType) : string :=
  match e with
  | RETENTION_POLICY => "retention_policy"
  | TRUST_ROOT_POLICY => "trust_root_policy"
  | LEGAL_HOLD_RELEASE => "legal_hold_release"
  | TENANT_CONFIGURATION => "tenant_configuration"
  | COMPATIBILITY_POLICY => "compatibility_policy"
  | DEPRECATION_POLICY => "deprecation_policy"
  end.

Inductive GovernanceChangeStatus : Set :=
| STATUS_PROPOSED | STATUS_APPROVED | STATUS_REJECTED | STATUS_APPLIED
| STATUS_CANCELLED.

#[export] Instance GovernanceChangeStatus_eq_dec : EqDecision GovernanceChangeStatus.
Proof. solve_decision. Defined.

Definition GovernanceChangeStatus_value (e : GovernanceChangeStatus) : string :=
  match e with
  | STATUS_PROPOSED => "proposed"
  | STATUS_APPROVED => "approved"
  | STATUS_REJECTED => "rejected"
  | STATUS_APPLIED => "applied"
  | STATUS_CANCELLED => "cancelled"
  end.

Inductive GovernanceApprovalDecision : Set :=
| APPROVE | REJECT.

#[export] Instance GovernanceApprovalDecision_eq_dec : EqDecision GovernanceApprovalDecision.
Proof. solve_decision. Defined.

Definition GovernanceApprovalDecision_value (e : GovernanceApprovalDecision) : string :=
  match e with
  | APPROVE => "approve"
  | REJECT => "reject"
  end.

Inductive RetentionDisposition : Set :=
| RETAIN | DELETE.

#[export] Instance RetentionDisposition_eq_dec : EqDecision RetentionDisposition.
Proof. solve_decision. Defined.

Definition RetentionDisposition_value (e : RetentionDisposition) : string :=
  match e with
  | RETAIN => "retain"
  | DELETE => "delete"
  end.

Inductive LegalHoldStatus : Set :=
| HOLD_ACTIVE | HOLD_RELEASED.

#[export] Instance LegalHoldStatus_eq_dec : EqDecision LegalHoldStatus.
Proof. solve_decision. Defined.

Definition LegalHoldStatus_value (e : LegalHoldStatus) : string :=
  match e with
  | HOLD_ACTIVE => "active"
  | HOLD_RELEASED => "released"
  end.

Inductive GovernanceAuditEventType : Set :=
| CHANGE_PROPOSED | CHANGE_APPROVED | CHANGE_REJECTED | CHANGE_APPLIED
| RETENTION_EVALUATED | RETENTION_DELETION_INTENT_RECORDED
| RETENTION_DELETION_CANCELLED | RETENTION_DELETION_EXECUTED | LEGAL_HOLD_PLACED
| LEGAL_HOLD_RELEASED | TRUST_ROOT_ACTIVATED | EVIDENCE_EXPORT_CREATED
| EVIDENCE_IMPORT_VERIFIED | MIGRATION_RECORDED.

#[export] Instance GovernanceAuditEventType_eq_dec : EqDecision GovernanceAuditEventType.
Proof. solve_decision. Defined.

Definition GovernanceAuditEventType_value (e : GovernanceAuditEventType) : string :=
  match e with
  | CHANGE_PROPOSED => "change_proposed"
  | CHANGE_APPROVED => "change_approved"
  | CHANGE_REJECTED => "change_rejected"
  | CHANGE_APPLIED => "change_applied"
  | RETENTION_EVALUATED => "retention_evaluated"
  | RETENTION_DELETION_INTENT_RECORDED => "retention_deletion_intent_recorded"
  | RETENTION_DELETION_CANCELLED => "retention_deletion_cancelled"
  | RETENTION_DELETION_EXECUTED => "retention_deletion_executed"
  | LEGAL_HOLD_PLACED => "legal_hold_placed"
  | LEGAL_HOLD_RELEASED => "legal_hold_released"
  | TRUST_ROOT_ACTIVATED => "trust_root_activated"
  | EVIDENCE_EXPORT_CREATED => "evidence_export_created"
  | EVIDENCE_IMPORT_VERIFIED => "evidence_import_verified"
  | MIGRATION_RECORDED => "migration_recorded"
  end.

Module RetentionRule.
Record RetentionRule : Type := {
  resource_type : string;
  retain_for_seconds : option Z;
  deletion_grace_seconds : Z;
  deletion_allowed : bool;
}.

#[global] Instance RetentionRule_eq_dec : EqDecision RetentionRule.
Proof. solve_decision. Defined.

Definition validate_rule (r : RetentionRule) : outcome unit :=
  require (negb (negb (deletion_allowed r) && negb (bool_decide (retain_for_seconds r = None))))
    (ValidationError "non-deletable retention rules must retain indefinitely").

Definition create (r : RetentionRule) : outcome RetentionRule :=
  resource_type' <~ NonBlankStr "resource_type" (resource_type r) ;;
  require (match retain_for_seconds r with Some n => 0 <=? n | None => true end) (ValidationError "retain_for_seconds") ;~
  require (0 <=? deletion_grace_seconds r) (ValidationError "deletion_grace_seconds") ;~
  let r := {| resource_type := resource_type'; retain_for_seconds := retain_for_seconds r;
            deletion_grace_seconds := deletion_grace_seconds r;
            deletion_allowed := deletion_allowed r |} in
  validate_rule r ;~
  Ok r.

Definition dump (r : RetentionRule) : pyval := PDict [
  ("resource_type", PStr (resource_type r));
  ("retain_for_seconds", dump_opt PInt (retain_for_seconds r));
  ("deletion_grace_seconds", PInt (deletion_grace_seconds r));
  ("deletion_allowed", PBool (deletion_allowed r))].

End RetentionRule.
Abbreviation RetentionRule := RetentionRule.RetentionRule.

Module RetentionPolicy.
Record RetentionPolicy : Type := {
  policy_id : UUID;
  tenant_id : string;
  revision : Z;
  effective_at : datetime;
  default_retain_for_seconds : option Z;
  rules : list RetentionRule;
  created_at : datetime;
  created_by : ActorRef;
}.

#[global] Instance RetentionPolicy_eq_dec : EqDecision RetentionPolicy.
Proof. solve_decision. Defined.

Definition validate_policy (r : RetentionPolicy) : outcome unit :=
  require (py_unique (map RetentionRule.resource_type (rules r)))
    (ValidationError "retention policy resource types must be unique") ;~
  require (negb (effective_at r <? created_at r))
    (ValidationError "retention policy cannot become effective before it is created").

Definition create (r : RetentionPolicy) : outcome RetentionPolicy :=
  tenant_id' <~ NonBlankStr "tenant_id" (tenant_id r) ;;
  require (1 <=? revision r) (ValidationError "revision") ;~
  require (match default_retain_for_seconds r with Some n => 0 <=? n | None => true end) (ValidationError "default_retain_for_seconds") ;~
  let r := {| policy_id := policy_id r; tenant_id := tenant_id'; revision := revision r;
            effective_at := effective_at r;
            default_retain_for_seconds := default_retain_for_seconds r; rules := rules r;
            created_at := created_at r; created_by := created_by r |} in
  validate_policy r ;~
  Ok r.

Definition dump (r : RetentionPolicy) : pyval := PDict [
  ("schema_name", PStr "prodkit.retention-policy"); ("schema_version", PStr "1.0.0");
  ("policy_id", PUuid (policy_id r)); ("tenant_id", PStr (tenant_id r));
  ("revision", PInt (revision r)); ("effective_at", PDatetime (effective_at r));
  ("default_retain_for_seconds", dump_opt PInt (default_retain_for_seconds r));
  ("rules", dump_list RetentionRule.dump (rules r));
  ("created_at", PDatetime (created_at r)); ("created_by", ActorRef.dump (created_by r))].

Definition rule_for (r : RetentionPolicy) (resource_type : string) : option RetentionRule :=
  List.find (fun rule => bool_decide (RetentionRule.resource_type rule = resource_type)) (rules r).

End RetentionPolicy.
Abbreviation RetentionPolicy := RetentionPolicy.RetentionPolicy.

Module RetentionCandidate.
Record RetentionCandidate : Type := {
  tenant_id : string;
  resource_type : string;
  resource_id : string;
  created_at : datetime;
  content_sha256 : option string;
  attributes : list (string * string);
}.

#[global] Instance RetentionCandidate_eq_dec : EqDecision RetentionCandidate.
Proof. solve_decision. Defined.

Definition create (r : RetentionCandidate) : outcome RetentionCandidate :=
  tenant_id' <~ NonBlankStr "tenant_id" (tenant_id r) ;;
  resource_type' <~ NonBlankStr "resource_type" (resource_type r) ;;
  resource_id' <~ NonBlankStr "resource_id" (resource_id r) ;;
  content_sha256' <~ optional (Sha256 "content_sha256") (content_sha256 r) ;;
  let r := {| tenant_id := tenant_id'; resource_type := resource_type';
            resource_id := resource_id'; created_at := created_at r;
            content_sha256 := content_sha256'; attributes := attributes r |} in
  Ok r.

End RetentionCandidate.
Abbreviation RetentionCandidate := RetentionCandidate.RetentionCandidate.

Module RetentionDecision.
Record RetentionDecision : Type := {
  tenant_id : string;
  resource_type : string;
  resource_id : string;
  disposition : RetentionDisposition;
  evaluated_at : datetime;
  policy_id : UUID;
  policy_revision : Z;
  delete_not_before : option datetime;
  legal_hold_ids : list UUID;
  reason : string;
}.

#[global] Instance RetentionDecision_eq_dec : EqDecision RetentionDecision.
Proof. solve_decision. Defined.

Definition validate_decision (r : RetentionDecision) : outcome unit :=
  match disposition r with
  | DELETE =>
      require (negb (bool_decide (delete_not_before r = None)))
        (ValidationError "delete decisions require delete_not_before") ;~
      require (bool_decide (legal_hold_ids r = []))
        (ValidationError "legal hold cannot coexist with a delete decision")
  | RETAIN =>
      require (bool_decide (delete_not_before r = None))
        (ValidationError "retain decisions cannot carry delete_not_before")
  end.

Definition create (r : RetentionDecision) : outcome RetentionDecision :=
  tenant_id' <~ NonBlankStr "tenant_id" (tenant_id r) ;;
  resource_type' <~ NonBlankStr "resource_type" (resource_type r) ;;
  resource_id' <~ NonBlankStr "resource_id" (resource_id r) ;;
  require (1 <=? policy_revision r) (ValidationError "policy_revision") ;~
  reason' <~ NonBlankStr "reason" (reason r) ;;
  let r := {| tenant_id := tenant_id'; resource_type := resource_type';
            resource_id := resource_id'; disposition := disposition r;
            evaluated_at := evaluated_at r; policy_id := policy_id r;
            policy_revision := policy_revision r; delete_not_before := delete_not_before r;
            legal_hold_ids := legal_hold_ids r; reason := reason' |} in
  validate_decision r ;~
  Ok r.

Definition dump (r : RetentionDecision) : pyval := PDict [
  ("schema_name", PStr "prodkit.retention-decision"); ("schema_version", PStr "1.0.0");
  ("tenant_id", PStr (tenant_id r)); ("resource_type", PStr (resource_type r));
  ("resource_id", PStr (resource_id r));
  ("disposition", PEnum (RetentionDisposition_value (disposition r)));
  ("evaluated_at", PDatetime (evaluated_at r)); ("policy_id", PUuid (policy_id r));
  ("policy_revision", PInt (policy_revision r));
  ("delete_not_before", dump_opt PDatetime (delete_not_before r));
  ("legal_hold_ids", dump_list PUuid (legal_hold_ids r)); ("reason", PStr (reason r))].

End RetentionDecision.
Abbreviation RetentionDecision := RetentionDecision.RetentionDecision.

Module RetentionExecutionRecord.
Record RetentionExecutionRecord : Type := {
  execution_id : UUID;
  tenant_id : string;
  resource_type : string;
  resource_id : string;
  executed_at : datetime;
  executed_by : ActorRef;
  policy_id : UUID;
  policy_revision : Z;
  content_sha256 : option string;
  deletion_reference : string;
}.

#[global] Instance RetentionExecutionRecord_eq_dec : EqDecision RetentionExecutionRecord.
Proof. solve_decision. Defined.

Definition create (r : RetentionExecutionRecord) : outcome RetentionExecutionRecord :=
  tenant_id' <~ NonBlankStr "tenant_id" (tenant_id r) ;;
  resource_type' <~ NonBlankStr "resource_type" (resource_type r) ;;
  resource_id' <~ NonBlankStr "resource_id" (resource_id r) ;;
  require (1 <=? policy_revision r) (ValidationError "policy_revision") ;~
  content_sha256' <~ optional (Sha256 "content_sha256") (content_sha256 r) ;;
  deletion_reference' <~ NonBlankStr "deletion_reference" (deletion_reference r) ;;
  let r := {| execution_id := execution_id r; tenant_id := tenant_id';
            resource_type := resource_type'; resource_id := resource_id';
            executed_at := executed_at r; executed_by := executed_by r;
            policy_id := policy_id r; policy_revision := policy_revision r;
            content_sha256 := content_sha256';
            deletion_reference := deletion_reference' |} in
  Ok r.

End RetentionExecutionRecord.
Abbreviation RetentionExecutionRecord := RetentionExecutionRecord.RetentionExecutionRecord.

Module LegalHold.
Record LegalHold : Type := {
  hold_id : UUID;
  tenant_id : string;
  status : LegalHoldStatus;
  reason : string;
  case_reference : string;
  resource_types : list string;
  resource_ids : list string;
  placed_at : datetime;
  placed_by : ActorRef;
  released_at : option datetime;
  released_by : option ActorRef;
  release_change_request_id : option UUID;
}.

#[global] Instance LegalHold_eq_dec : EqDecision LegalHold.
Proof. solve_decision. Defined.

Definition validate_hold (r : LegalHold) : outcome unit :=
  require (py_unique (resource_types r)) (ValidationError "legal-hold resource types must be unique") ;~
  require (py_unique (resource_ids r)) (ValidationError "legal-hold resource ids must be unique") ;~
  match status r with
  | HOLD_ACTIVE =>
      require (bool_decide (released_at r = None) && bool_decide (released_by r = None) &&
               bool_decide (release_change_request_id r = None))
        (ValidationError "active legal holds cannot carry release metadata")
  | HOLD_RELEASED =>
      match released_at r, released_by r, release_change_request_id r with
      | Some t, Some _, Some _ =>
          require (negb (t <? placed_at r))
            (ValidationError "legal hold cannot be released before placement")
      | _, _, _ => Raise (ValidationError "released legal holds require complete release metadata")
      end
  end.

Definition create (r : LegalHold) : outcome LegalHold :=
  tenant_id' <~ NonBlankStr "tenant_id" (tenant_id r) ;;
  reason' <~ NonBlankStr "reason" (reason r) ;;
  case_reference' <~ NonBlankStr "case_reference" (case_reference r) ;;
  resource_types' <~ map_o (NonBlankStr "resource_types") (resource_types r) ;;
  resource_ids' <~ map_o (NonBlankStr "resource_ids") (resource_ids r) ;;
  let r := {| hold_id := hold_id r; tenant_id := tenant_id'; status := status r;
            reason := reason'; case_reference := case_reference';
            resource_types := resource_types'; resource_ids := resource_ids';
            placed_at := placed_at r; placed_by := placed_by r;
            released_at := released_at r; released_by := released_by r;
            release_change_request_id := release_change_request_id r |} in
  validate_hold r ;~
  Ok r.

Definition applies_to (r : LegalHold) (c : RetentionCandidate) : bool :=
  bool_decide (status r = HOLD_ACTIVE) &&
  bool_decide (tenant_id r = RetentionCandidate.tenant_id c) &&
  (bool_decide (resource_types r = []) || mem (RetentionCandidate.resource_type c) (resource_types r)) &&
  (bool_decide (resource_ids r = []) || mem (RetentionCandidate.resource_id c) (resource_ids r)).

End LegalHold.
Abbreviation LegalHold := LegalHold.LegalHold.

Module GovernanceChangeRequest.
Record GovernanceChangeRequest : Type := {
  request_id : UUID;
  tenant_id : string;
  target_type : GovernanceTargetType;
  target_id : string;
  proposed_digest : string;
  expected_current_digest : option string;
  risk : GovernanceRisk;
  reason : string;
  ticket_reference : string;
  proposed_at : datetime;
  proposed_by : ActorRef;
  status : GovernanceChangeStatus;
  approved_at : option datetime;
  approved_by : option ActorRef;
  applied_at : option datetime;
}.

#[global] Instance GovernanceChangeRequest_eq_dec : EqDecision GovernanceChangeRequest.
Proof. solve_decision. Defined.

Definition high_risk (r : GovernanceChangeRequest) : bool := mem (risk r) [RISK_HIGH; RISK_CRITICAL].

Definition approved (r : GovernanceChangeRequest) : bool :=
  mem (status r) [STATUS_APPROVED; STATUS_APPLIED].

Definition same_actor (a b : ActorRef) : bool :=
  bool_decide (ActorRef.kind a = ActorRef.kind b) && bool_decide (ActorRef.id a = ActorRef.id b) &&
  bool_decide (ActorRef.tenant_id a = ActorRef.tenant_id b).

Definition validate_change (r : GovernanceChangeRequest) : outcome unit :=
  (if approved r then
     match approved_at r, approved_by r with
     | Some _, Some by_ =>
         require (negb (high_risk r && same_actor by_ (proposed_by r)))
           (ValidationError "high-risk governance changes require independent approval")
     | _, _ => Raise (ValidationError "approved governance changes require approval evidence")
     end
   else
     require (bool_decide (approved_at r = None) && bool_decide (approved_by r = None))
       (ValidationError "unapproved governance changes cannot carry approval evidence")) ;~
  require (negb (bool_decide (status r = STATUS_APPLIED) && bool_decide (applied_at r = None)))
    (ValidationError "applied governance changes require applied_at") ;~
  require (bool_decide (status r = STATUS_APPLIED) || bool_decide (applied_at r = None))
    (ValidationError "only applied governance changes can carry applied_at").

Definition create (r : GovernanceChangeRequest) : outcome GovernanceChangeRequest :=
  tenant_id' <~ NonBlankStr "tenant_id" (tenant_id r) ;;
  target_id' <~ NonBlankStr "target_id" (target_id r) ;;
  proposed_digest' <~ Sha256 "proposed_digest" (proposed_digest r) ;;
  expected_current_digest' <~ optional (Sha256 "expected_current_digest") (expected_current_digest r) ;;
  reason' <~ NonBlankStr "reason" (reason r) ;;
  ticket_reference' <~ NonBlankStr "ticket_reference" (ticket_reference r) ;;
  let r := {| request_id := request_id r; tenant_id := tenant_id';
            target_type := target_type r; target_id := target_id';
            proposed_digest := proposed_digest';
            expected_current_digest := expected_current_digest'; risk := risk r;
            reason := reason'; ticket_reference := ticket_reference';
            proposed_at := proposed_at r; proposed_by := proposed_by r; status := status r;
            approved_at := approved_at r; approved_by := approved_by r;
            applied_at := applied_at r |} in
  validate_change r ;~
  Ok r.

End GovernanceChangeRequest.
Abbreviation GovernanceChangeRequest := GovernanceChangeRequest.GovernanceChangeRequest.

Module GovernanceApproval.
Record GovernanceApproval : Type := {
  approval_id : UUID;
  request_id : UUID;
  tenant_id : string;
  decision : GovernanceApprovalDecision;
  actor : ActorRef;
  occurred_at : datetime;
  reason : string;
}.

#[global] Instance GovernanceApproval_eq_dec : EqDecision GovernanceApproval.
Proof. solve_decision. Defined.

Definition create (r : GovernanceApproval) : outcome GovernanceApproval :=
  tenant_id' <~ NonBlankStr "tenant_id" (tenant_id r) ;;
  reason' <~ NonBlankStr "reason" (reason r) ;;
  let r := {| approval_id := approval_id r; request_id := request_id r;
            tenant_id := tenant_id'; decision := decision r; actor := actor r;
            occurred_at := occurred_at r; reason := reason' |} in
  Ok r.

End GovernanceApproval.
Abbreviation GovernanceApproval := GovernanceApproval.GovernanceApproval.

Module GovernedTrustRoot.
Record GovernedTrustRoot : Type := {
  tenant_id : string;
  revision : Z;
  policy : TrustRootPolicy;
  policy_sha256 : string;
  activated_at : datetime;
  retired_at : option datetime;
  change_request_id : UUID;
}.

#[global] Instance GovernedTrustRoot_eq_dec : EqDecision GovernedTrustRoot.
Proof. solve_decision. Defined.

Definition validate_root (r : GovernedTrustRoot) : outcome unit :=
  require (negb (match retired_at r with Some t => t <=? activated_at r | None => false end))
    (ValidationError "trust-root retirement must follow activation").

Definition create (r : GovernedTrustRoot) : outcome GovernedTrustRoot :=
  tenant_id' <~ NonBlankStr "tenant_id" (tenant_id r) ;;
  require (1 <=? revision r) (ValidationError "revision") ;~
  policy_sha256' <~ Sha256 "policy_sha256" (policy_sha256 r) ;;
  let r := {| tenant_id := tenant_id'; revision := revision r; policy := policy r;
            policy_sha256 := policy_sha256'; activated_at := activated_at r;
            retired_at := retired_at r; change_request_id := change_request_id r |} in
  validate_root r ;~
  Ok r.

(** [policy_for]'s test of a root *)
Definition covers (r : GovernedTrustRoot) (signed_at : datetime) (key_id : option string) : bool :=
  (activated_at r <=? signed_at) &&
  match retired_at r with Some t => signed_at <? t | None => true end &&
  match key_id with
  | Some k => existsb (fun key => bool_decide (TrustedSigningKey.key_id key = k))
                (TrustRootPolicy.trusted_keys (policy r))
  | None => true
  end.

End GovernedTrustRoot.
Abbreviation GovernedTrustRoot := GovernedTrustRoot.GovernedTrustRoot.

Module KeyRotationPlan.
Record KeyRotationPlan : Type := {
  rotation_id : UUID;
  tenant_id : string;
  from_revision : Z;
  to_revision : Z;
  activate_at : datetime;
  overlap_until : datetime;
  change_request_id : UUID;
  emergency : bool;
}.

#[global] Instance KeyRotationPlan_eq_dec : EqDecision KeyRotationPlan.
Proof. solve_decision. Defined.

Definition validate_rotation (r : KeyRotationPlan) : outcome unit :=
  require (negb (to_revision r <=? from_revision r))
    (ValidationError "key rotation must advance trust-root revision") ;~
  require (negb (overlap_until r <? activate_at r))
    (ValidationError "key rotation overlap cannot end before activation").

Definition create (r : KeyRotationPlan) : outcome KeyRotationPlan :=
  tenant_id' <~ NonBlankStr "tenant_id" (tenant_id r) ;;
  require (1 <=? from_revision r) (ValidationError "from_revision") ;~
  require (2 <=? to_revision r) (ValidationError "to_revision") ;~
  let r := {| rotation_id := rotation_id r; tenant_id := tenant_id';
            from_revision := from_revision r; to_revision := to_revision r;
            activate_at := activate_at r; overlap_until := overlap_until r;
            change_request_id := change_request_id r; emergency := emergency r |} in
  validate_rotation r ;~
  Ok r.

End KeyRotationPlan.
Abbreviation KeyRotationPlan := KeyRotationPlan.KeyRotationPlan.

Module TrustRootHistory.
Record TrustRootHistory : Type := {
  tenant_id : string;
  roots : list GovernedTrustRoot;
}.

#[global] Instance TrustRootHistory_eq_dec : EqDecision TrustRootHistory.
Proof. solve_decision. Defined.

Definition validate_history (r : TrustRootHistory) : outcome unit :=
  require (negb (bool_decide (roots r = [])))
    (ValidationError "trust-root history requires at least one revision") ;~
  let revisions := map GovernedTrustRoot.revision (roots r) in
  require (bool_decide (revisions = sort_by Z.leb revisions) && py_unique revisions)
    (ValidationError "trust-root revisions must be unique and ascending") ;~
  require (count_if (fun root => bool_decide (GovernedTrustRoot.retired_at root = None)) (roots r) =? 1)
    (ValidationError "trust-root history requires exactly one current revision").

Definition create (r : TrustRootHistory) : outcome TrustRootHistory :=
  tenant_id' <~ NonBlankStr "tenant_id" (tenant_id r) ;;
  let r := {| tenant_id := tenant_id'; roots := roots r |} in
  validate_history r ;~
  Ok r.

Definition policy_for (r : TrustRootHistory) (signed_at : datetime) (key_id : option string)
    : outcome TrustRootPolicy :=
  match List.filter (fun root => GovernedTrustRoot.covers root signed_at key_id) (roots r) with
  | [root] => Ok (GovernedTrustRoot.policy root)
  | _ => Raise (ValueError "no unique trust-root revision covers the signing evidence")
  end.

End TrustRootHistory.
Abbreviation TrustRootHistory := TrustRootHistory.TrustRootHistory.

Module EvidenceTransferManifest.
Record EvidenceTransferManifest : Type := {
  transfer_id : UUID;
  tenant_id : string;
  created_at : datetime;
  created_by : ActorRef;
  source_control_version : string;
  source_schema_version : Z;
  archive_sha256 : string;
  bundle_manifest_sha256 : string;
  trust_root_revision : option Z;
  legal_hold_preserved : bool;
}.

#[global] Instance EvidenceTransferManifest_eq_dec : EqDecision EvidenceTransferManifest.
Proof. solve_decision. Defined.

Definition create (r : EvidenceTransferManifest) : outcome EvidenceTransferManifest :=
  tenant_id' <~ NonBlankStr "tenant_id" (tenant_id r) ;;
  source_control_version' <~ NonBlankStr "source_control_version" (source_control_version r) ;;
  require (1 <=? source_schema_version r) (ValidationError "source_schema_version") ;~
  archive_sha256' <~ Sha256 "archive_sha256" (archive_sha256 r) ;;
  bundle_manifest_sha256' <~ Sha256 "bundle_manifest_sha256" (bundle_manifest_sha256 r) ;;
  require (match trust_root_revision r with Some n => 1 <=? n | None => true end) (ValidationError "trust_root_revision") ;~
  let r := {| transfer_id := transfer_id r; tenant_id := tenant_id';
            created_at := created_at r; created_by := created_by r;
            source_control_version := source_control_version';
            source_schema_version := source_schema_version r;
            archive_sha256 := archive_sha256';
            bundle_manifest_sha256 := bundle_manifest_sha256';
            trust_root_revision := trust_root_revision r;
            legal_hold_preserved := legal_hold_preserved r |} in
  Ok r.

Definition dump (r : EvidenceTransferManifest) : pyval := PDict [
  ("schema_name", PStr "prodkit.evidence-transfer-manifest");
  ("schema_version", PStr "1.0.0"); ("transfer_id", PUuid (transfer_id r));
  ("tenant_id", PStr (tenant_id r)); ("created_at", PDatetime (created_at r));
  ("created_by", ActorRef.dump (created_by r));
  ("source_control_version", PStr (source_control_version r));
  ("source_schema_version", PInt (source_schema_version r));
  ("archive_sha256", PStr (archive_sha256 r));
  ("bundle_manifest_sha256", PStr (bundle_manifest_sha256 r));
  ("trust_root_revision", dump_opt PInt (trust_root_revision r));
  ("legal_hold_preserved", PBool (legal_hold_preserved r))].

End EvidenceTransferManifest.
Abbreviation EvidenceTransferManifest := EvidenceTransferManifest.EvidenceTransferManifest.

Module EvidenceTransferVerification.
Record EvidenceTransferVerification : Type := {
  verification_id : UUID;
  transfer_id : UUID;
  tenant_id : string;
  verified_at : datetime;
  source_control_version : string;
  source_schema_version : Z;
  package_sha256 : string;
  bundle_manifest_sha256 : string;
  trust_anchor_sha256 : string;
  verified_offline : bool;
}.

#[global] Instance EvidenceTransferVerification_eq_dec : EqDecision EvidenceTransferVerification.
Proof. solve_decision. Defined.

Definition require_offline_verification (r : EvidenceTransferVerification) : outcome unit :=
  require (verified_offline r)
    (ValidationError "evidence transfer verification must be offline verified").

Definition create (r : EvidenceTransferVerification) : outcome EvidenceTransferVerification :=
  tenant_id' <~ NonBlankStr "tenant_id" (tenant_id r) ;;
  source_control_version' <~ NonBlankStr "source_control_version" (source_control_version r) ;;
  require (1 <=? source_schema_version r) (ValidationError "source_schema_version") ;~
  package_sha256' <~ Sha256 "package_sha256" (package_sha256 r) ;;
  bundle_manifest_sha256' <~ Sha256 "bundle_manifest_sha256" (bundle_manifest_sha256 r) ;;
  trust_anchor_sha256' <~ Sha256 "trust_anchor_sha256" (trust_anchor_sha256 r) ;;
  let r := {| verification_id := verification_id r; transfer_id := transfer_id r;
            tenant_id := tenant_id'; verified_at := verified_at r;
            source_control_version := source_control_version';
            source_schema_version := source_schema_version r;
            package_sha256 := package_sha256';
            bundle_manifest_sha256 := bundle_manifest_sha256';
            trust_anchor_sha256 := trust_anchor_sha256';
            verified_offline := verified_offline r |} in
  require_offline_verification r ;~
  Ok r.

Definition dump (r : EvidenceTransferVerification) : pyval := PDict [
  ("schema_name", PStr "prodkit.evidence-transfer-verification");
  ("schema_version", PStr "1.0.0"); ("verification_id", PUuid (verification_id r));
  ("transfer_id", PUuid (transfer_id r)); ("tenant_id", PStr (tenant_id r));
  ("verified_at", PDatetime (verified_at r));
  ("source_control_version", PStr (source_control_version r));
  ("source_schema_version", PInt (source_schema_version r));
  ("package_sha256", PStr (package_sha256 r));
  ("bundle_manifest_sha256", PStr (bundle_manifest_sha256 r));
  ("trust_anchor_sha256", PStr (trust_anchor_sha256 r));
  ("verified_offline", PBool (verified_offline r))].

End EvidenceTransferVerification.
Abbreviation EvidenceTransferVerification := EvidenceTransferVerification.EvidenceTransferVerification.

Module EvidenceImportReceipt.
Record EvidenceImportReceipt : Type := {
  import_id : UUID;
  transfer_id : UUID;
  tenant_id : string;
  imported_at : datetime;
  imported_by : ActorRef;
  source_control_version : string;
  source_schema_version : Z;
  archive_sha256 : string;
  verification_id : UUID;
  verification_sha256 : string;
  trust_anchor_sha256 : string;
  verified : bool;
}.

#[global] Instance EvidenceImportReceipt_eq_dec : EqDecision EvidenceImportReceipt.
Proof. solve_decision. Defined.

Definition validate_import (r : EvidenceImportReceipt) : outcome unit :=
  require (verified r)
    (ValidationError "evidence import receipts are emitted only after verification").

Definition create (r : EvidenceImportReceipt) : outcome EvidenceImportReceipt :=
  tenant_id' <~ NonBlankStr "tenant_id" (tenant_id r) ;;
  source_control_version' <~ NonBlankStr "source_control_version" (source_control_version r) ;;
  require (1 <=? source_schema_version r) (ValidationError "source_schema_version") ;~
  archive_sha256' <~ Sha256 "archive_sha256" (archive_sha256 r) ;;
  verification_sha256' <~ Sha256 "verification_sha256" (verification_sha256 r) ;;
  trust_anchor_sha256' <~ Sha256 "trust_anchor_sha256" (trust_anchor_sha256 r) ;;
  let r := {| import_id := import_id r; transfer_id := transfer_id r;
            tenant_id := tenant_id'; imported_at := imported_at r;
            imported_by := imported_by r;
            source_control_version := source_control_version';
            source_schema_version := source_schema_version r;
            archive_sha256 := archive_sha256'; verification_id := verification_id r;
            verification_sha256 := verification_sha256';
            trust_anchor_sha256 := trust_anchor_sha256'; verified := verified r |} in
  validate_import r ;~
  Ok r.

Definition dump (r : EvidenceImportReceipt) : pyval := PDict [
  ("schema_name", PStr "prodkit.evidence-import-receipt");
  ("schema_version", PStr "1.0.0"); ("import_id", PUuid (import_id r));
  ("transfer_id", PUuid (transfer_id r)); ("tenant_id", PStr (tenant_id r));
  ("imported_at", PDatetime (imported_at r));
  ("imported_by", ActorRef.dump (imported_by r));
  ("source_control_version", PStr (source_control_version r));
  ("source_schema_version", PInt (source_schema_version r));
  ("archive_sha256", PStr (archive_sha256 r));
  ("verification_id", PUuid (verification_id r));
  ("verification_sha256", PStr (verification_sha256 r));
  ("trust_anchor_sha256", PStr (trust_anchor_sha256 r)); ("verified", PBool (verified r))].

End EvidenceImportReceipt.
Abbreviation EvidenceImportReceipt := EvidenceImportReceipt.EvidenceImportReceipt.

Module MigrationPath.
Record MigrationPath : Type := {
  from_schema_version : Z;
  to_schema_version : Z;
  minimum_control_version : string;
  requires_backup : bool;
  reversible : bool;
}.

#[global] Instance MigrationPath_eq_dec : EqDecision MigrationPath.
Proof. solve_decision. Defined.

Definition validate_path (r : MigrationPath) : outcome unit :=
  require (to_schema_version r =? from_schema_version r + 1)
    (ValidationError "supported migration paths must be single-step and sequential").

Definition create (r : MigrationPath) : outcome MigrationPath :=
  require (1 <=? from_schema_version r) (ValidationError "from_schema_version") ;~
  require (2 <=? to_schema_version r) (ValidationError "to_schema_version") ;~
  minimum_control_version' <~ NonBlankStr "minimum_control_version" (minimum_control_version r) ;;
  let r := {| from_schema_version := from_schema_version r;
            to_schema_version := to_schema_version r;
            minimum_control_version := minimum_control_version';
            requires_backup := requires_backup r; reversible := reversible r |} in
  validate_path r ;~
  Ok r.

End MigrationPath.
Abbreviation MigrationPath := MigrationPath.MigrationPath.

Module DeprecationWindow.
Record DeprecationWindow : Type := {
  surface : string;
  deprecated_in_version : string;
  removal_not_before_version : string;
  announced_at : datetime;
  replacement : option string;
}.

#[global] Instance DeprecationWindow_eq_dec : EqDecision DeprecationWindow.
Proof. solve_decision. Defined.

Definition create (r : DeprecationWindow) : outcome DeprecationWindow :=
  surface' <~ NonBlankStr "surface" (surface r) ;;
  deprecated_in_version' <~ NonBlankStr "deprecated_in_version" (deprecated_in_version r) ;;
  removal_not_before_version' <~ NonBlankStr "removal_not_before_version" (removal_not_before_version r) ;;
  replacement' <~ optional (NonBlankStr "replacement") (replacement r) ;;
  let r := {| surface := surface'; deprecated_in_version := deprecated_in_version';
            removal_not_before_version := removal_not_before_version';
            announced_at := announced_at r; replacement := replacement' |} in
  Ok r.

End DeprecationWindow.
Abbreviation DeprecationWindow := DeprecationWindow.DeprecationWindow.

Module CompatibilityPolicy.
Record CompatibilityPolicy : Type := {
  current_schema_version : Z;
  minimum_supported_schema_version : Z;
  migration_paths : list MigrationPath;
  deprecations : list DeprecationWindow;
}.

#[global] Instance CompatibilityPolicy_eq_dec : EqDecision CompatibilityPolicy.
Proof. solve_decision. Defined.

(** [range(first, last)] *)
Definition py_range (first last : Z) : list Z :=
  map (fun i => first + Z.of_nat i) (seq 0 (Z.to_nat (last - first))).

Definition validate_compatibility (r : CompatibilityPolicy) : outcome unit :=
  require (negb (current_schema_version r <? minimum_supported_schema_version r))
    (ValidationError "minimum supported schema version cannot exceed current") ;~
  require (bool_decide (map MigrationPath.from_schema_version (migration_paths r) =
                        py_range (minimum_supported_schema_version r) (current_schema_version r)))
    (ValidationError "compatibility policy must enumerate every supported upgrade step") ;~
  require (forallb (fun p => MigrationPath.to_schema_version p =? MigrationPath.from_schema_version p + 1)
             (migration_paths r))
    (ValidationError "compatibility policy contains a non-sequential migration").

Definition create (r : CompatibilityPolicy) : outcome CompatibilityPolicy :=
  require (1 <=? current_schema_version r) (ValidationError "current_schema_version") ;~
  require (1 <=? minimum_supported_schema_version r) (ValidationError "minimum_supported_schema_version") ;~
  validate_compatibility r ;~
  Ok r.

Definition path_from (r : CompatibilityPolicy) (schema_version : Z) : outcome (list MigrationPath) :=
  require (negb (schema_version <? minimum_supported_schema_version r))
    (ValueError "database schema is older than the supported upgrade window") ;~
  require (negb (current_schema_version r <? schema_version))
    (ValueError "database schema is newer than this runtime") ;~
  Ok (List.filter (fun p => schema_version <=? MigrationPath.from_schema_version p) (migration_paths r)).

End CompatibilityPolicy.
Abbreviation CompatibilityPolicy := CompatibilityPolicy.CompatibilityPolicy.

Module GovernanceAuditEvent.
Record GovernanceAuditEvent : Type := {
  event_id : UUID;
  tenant_id : string;
  event_type : GovernanceAuditEventType;
  actor : ActorRef;
  occurred_at : datetime;
  request_id : option UUID;
  target_type : option GovernanceTargetType;
  target_id : option string;
  before_digest : option string;
  after_digest : option string;
  reason : string;
  ticket_reference : option string;
  attributes : list (string * string);
}.

#[global] Instance GovernanceAuditEvent_eq_dec : EqDecision GovernanceAuditEvent.
Proof. solve_decision. Defined.

Definition create (r : GovernanceAuditEvent) : outcome GovernanceAuditEvent :=
  tenant_id' <~ NonBlankStr "tenant_id" (tenant_id r) ;;
  target_id' <~ optional (NonBlankStr "target_id") (target_id r) ;;
  before_digest' <~ optional (Sha256 "before_digest") (before_digest r) ;;
  after_digest' <~ optional (Sha256 "after_digest") (after_digest r) ;;
  reason' <~ NonBlankStr "reason" (reason r) ;;
  ticket_reference' <~ optional (NonBlankStr "ticket_reference") (ticket_reference r) ;;
  let r := {| event_id := event_id r; tenant_id := tenant_id'; event_type := event_type r;
            actor := actor r; occurred_at := occurred_at r; request_id := request_id r;
            target_type := target_type r; target_id := target_id';
            before_digest := before_digest'; after_digest := after_digest';
            reason := reason'; ticket_reference := ticket_reference';
            attributes := attributes r |} in
  Ok r.

End GovernanceAuditEvent.
Abbreviation GovernanceAuditEvent := GovernanceAuditEvent.GovernanceAuditEvent.

