(* ===== verification/Governance.v ===== *)
(** * The governance store

    Models the runtime's [governance.py]: [InMemoryGovernanceStore] with its private
    helpers.  Every operation authorises its context, may read the clock and build a
    record, and then runs its body under the store's lock; what precedes the lock
    touches the host only, so an operation is one atomic step on the state.  The one
    body that awaits while it holds the lock is [execute_retention]: its deletion
    adapter is an argument, a function of the calls made so far and of the arguments
    of the call, and [deletions] logs those calls.

    [propose_legal_hold_release] takes the lock twice; what another task does in
    between it does to a store on which only the check of the hold has run. *)

From S2P Require Import Prelude Canonical Contracts Attestations Tenancy Host GovernanceContracts.

Definition legal_hold_release_digest (tenant_id : string) (hold_id : UUID) : outcome string :=
  sha256_hex (PDict [
    ("schema", PStr "prodkit.legal-hold-release-intent/v1");
    ("tenant_id", PStr tenant_id); ("hold_id", PStr (uuid_str hold_id))]).

Module Store.
Abbreviation key := (string * UUID)%type (only parsing).

(** A call of [RetentionDeletionAdapter.delete] *)
Record deletion : Type := {
  by_context : TenantAccessContext;
  deleted : RetentionCandidate;
  upon : RetentionDecision;
}.

Record store : Type := {
  env : host;
  changes : gmap (string * UUID) GovernanceChangeRequest;
  approvals : gmap (string * UUID) (list GovernanceApproval);
  retention : gmap string (list RetentionPolicy);
  holds : list ((string * UUID) * LegalHold);
  trust_roots : gmap string (list GovernedTrustRoot);
  exports : gmap (string * UUID) EvidenceTransferManifest;
  imports : gmap (string * UUID) EvidenceImportReceipt;
  audit : gmap string (list GovernanceAuditEvent);
  deletions : list deletion;
}.

Definition empty (h : host) : store := {|
  env := h; changes := ∅; approvals := ∅; retention := ∅; holds := []; trust_roots := ∅;
  exports := ∅; imports := ∅; audit := ∅; deletions := [] |}.

Definition set_env (x : host) (s : store) : store := {|
  env := x; changes := changes s; approvals := approvals s; retention := retention s;
  holds := holds s; trust_roots := trust_roots s; exports := exports s; imports := imports s;
  audit := audit s; deletions := deletions s |}.
Definition set_changes x (s : store) : store := {|
  env := env s; changes := x; approvals := approvals s; retention := retention s;
  holds := holds s; trust_roots := trust_roots s; exports := exports s; imports := imports s;
  audit := audit s; deletions := deletions s |}.
Definition set_approvals x (s : store) : store := {|
  env := env s; changes := changes s; approvals := x; retention := retention s;
  holds := holds s; trust_roots := trust_roots s; exports := exports s; imports := imports s;
  audit := audit s; deletions := deletions s |}.
Definition set_retention x (s : store) : store := {|
  env := env s; changes := changes s; approvals := approvals s; retention := x;
  holds := holds s; trust_roots := trust_roots s; exports := exports s; imports := imports s;
  audit := audit s; deletions := deletions s |}.
Definition set_holds x (s : store) : store := {|
  env := env s; changes := changes s; approvals := approvals s; retention := retention s;
  holds := x; trust_roots := trust_roots s; exports := exports s; imports := imports s;
  audit := audit s; deletions := deletions s |}.
Definition set_trust_roots x (s : store) : store := {|
  env := env s; changes := changes s; approvals := approvals s; retention := retention s;
  holds := holds s; trust_roots := x; exports := exports s; imports := imports s;
  audit := audit s; deletions := deletions s |}.
Definition set_exports x (s : store) : store := {|
  env := env s; changes := changes s; approvals := approvals s; retention := retention s;
  holds := holds s; trust_roots := trust_roots s; exports := x; imports := imports s;
  audit := audit s; deletions := deletions s |}.
Definition set_imports x (s : store) : store := {|
  env := env s; changes := changes s; approvals := approvals s; retention := retention s;
  holds := holds s; trust_roots := trust_roots s; exports := exports s; imports := x;
  audit := audit s; deletions := deletions s |}.
Definition set_audit x (s : store) : store := {|
  env := env s; changes := changes s; approvals := approvals s; retention := retention s;
  holds := holds s; trust_roots := trust_roots s; exports := exports s; imports := imports s;
  audit := x; deletions := deletions s |}.
Definition set_deletions x (s : store) : store := {|
  env := env s; changes := changes s; approvals := approvals s; retention := retention s;
  holds := holds s; trust_roots := trust_roots s; exports := exports s; imports := imports s;
  audit := audit s; deletions := x |}.

(** [datetime.now(UTC)] and [uuid4()] *)
Definition now_utc : M store datetime := zoom env set_env read_clock.
Definition uuid4 : M store UUID := zoom env set_env draw_uuid.

(** ** Authorisation and the audit log *)

(** [_require] *)
Definition require_access (ctx : TenantAccessContext) (cap : TenantCapability) : M store unit :=
  guard (bool_decide (TenantAccessContext.mode ctx = TENANT))
    (AuthorizationDeniedError
       "standalone governance cannot use support elevation without live grant revalidation") ;;
  now <- now_utc ;;
  match TenantAccessContext.require_capability ctx cap now with
  | Raise (PermissionError m) => raise (AuthorizationDeniedError m)
  | o => lift o
  end.

Definition audit_of (tenant : string) (s : store) : list GovernanceAuditEvent :=
  default [] (audit s !! tenant).

(** [_append_audit], of an event built on the spot with a fresh identity *)
Definition append_audit (event : UUID -> GovernanceAuditEvent) : M store unit :=
  id <- uuid4 ;;
  e <- lift (GovernanceAuditEvent.create (event id)) ;;
  modify (fun s => set_audit
    (<[GovernanceAuditEvent.tenant_id e := audit_of (GovernanceAuditEvent.tenant_id e) s ++ [e]]>
       (audit s)) s).

(** The fields every audit event of the store sets; the others keep their defaults. *)
Definition event_of (ctx : TenantAccessContext) (kind : GovernanceAuditEventType) (at_ : datetime)
    (request : option UUID) (target : option GovernanceTargetType) (target_id : option string)
    (before after : option string) (reason : string) (ticket : option string)
    (attrs : list (string * string)) (id : UUID) : GovernanceAuditEvent := {|
  GovernanceAuditEvent.event_id := id;
  GovernanceAuditEvent.tenant_id := TenantAccessContext.tenant_id ctx;
  GovernanceAuditEvent.event_type := kind;
  GovernanceAuditEvent.actor := TenantAccessContext.actor ctx;
  GovernanceAuditEvent.occurred_at := at_; GovernanceAuditEvent.request_id := request;
  GovernanceAuditEvent.target_type := target; GovernanceAuditEvent.target_id := target_id;
  GovernanceAuditEvent.before_digest := before; GovernanceAuditEvent.after_digest := after;
  GovernanceAuditEvent.reason := reason; GovernanceAuditEvent.ticket_reference := ticket;
  GovernanceAuditEvent.attributes := attrs |}.

(** ** Change requests *)

(** [_request_locked] *)
Definition request_locked (tenant : string) (id : UUID) : M store GovernanceChangeRequest := fun s =>
  match changes s !! (tenant, id) with
  | Some r => (Ok r, s)
  | None => (Raise (KeyError (uuid_str id)), s)
  end.

(** [_approved_request_locked] *)
Definition approved_request_locked (tenant : string) (id : UUID) (target : GovernanceTargetType)
    (target_id proposed_digest : string) (current_digest : option string)
    : M store GovernanceChangeRequest :=
  r <- request_locked tenant id ;;
  guard (bool_decide (GovernanceChangeRequest.status r = STATUS_APPROVED))
    (AuthorizationDeniedError "governance change is not approved") ;;
  guard (bool_decide (GovernanceChangeRequest.target_type r = target) &&
         bool_decide (GovernanceChangeRequest.target_id r = target_id) &&
         bool_decide (GovernanceChangeRequest.proposed_digest r = proposed_digest))
    (AuthorizationDeniedError "approved governance change does not match payload") ;;
  guard (bool_decide (GovernanceChangeRequest.expected_current_digest r = current_digest))
    (AuthorizationDeniedError "governance change lost optimistic-concurrency race") ;;
  ret r.

(** [request.model_copy(update=...)] of the fields of the request's lifecycle *)
Definition with_lifecycle (r : GovernanceChangeRequest) (status : GovernanceChangeStatus)
    (approved_at : option datetime) (approved_by : option ActorRef) (applied_at : option datetime)
    : GovernanceChangeRequest := {|
  GovernanceChangeRequest.request_id := GovernanceChangeRequest.request_id r;
  GovernanceChangeRequest.tenant_id := GovernanceChangeRequest.tenant_id r;
  GovernanceChangeRequest.target_type := GovernanceChangeRequest.target_type r;
  GovernanceChangeRequest.target_id := GovernanceChangeRequest.target_id r;
  GovernanceChangeRequest.proposed_digest := GovernanceChangeRequest.proposed_digest r;
  GovernanceChangeRequest.expected_current_digest := GovernanceChangeRequest.expected_current_digest r;
  GovernanceChangeRequest.risk := GovernanceChangeRequest.risk r;
  GovernanceChangeRequest.reason := GovernanceChangeRequest.reason r;
  GovernanceChangeRequest.ticket_reference := GovernanceChangeRequest.ticket_reference r;
  GovernanceChangeRequest.proposed_at := GovernanceChangeRequest.proposed_at r;
  GovernanceChangeRequest.proposed_by := GovernanceChangeRequest.proposed_by r;
  GovernanceChangeRequest.status := status; GovernanceChangeRequest.approved_at := approved_at;
  GovernanceChangeRequest.approved_by := approved_by;
  GovernanceChangeRequest.applied_at := applied_at |}.

Definition rejected (r : GovernanceChangeRequest) : GovernanceChangeRequest :=
  with_lifecycle r STATUS_REJECTED (GovernanceChangeRequest.approved_at r)
    (GovernanceChangeRequest.approved_by r) (GovernanceChangeRequest.applied_at r).
Definition approved (r : GovernanceChangeRequest) (now : datetime) (by_ : ActorRef)
    : GovernanceChangeRequest :=
  with_lifecycle r STATUS_APPROVED (Some now) (Some by_) (GovernanceChangeRequest.applied_at r).
Definition applied (r : GovernanceChangeRequest) (now : datetime) : GovernanceChangeRequest :=
  with_lifecycle r STATUS_APPLIED (GovernanceChangeRequest.approved_at r)
    (GovernanceChangeRequest.approved_by r) (Some now).

(** [_mark_applied_locked] *)
Definition mark_applied (r : GovernanceChangeRequest) (now : datetime) : M store unit :=
  modify (fun s => set_changes
    (<[(GovernanceChangeRequest.tenant_id r, GovernanceChangeRequest.request_id r) := applied r now]>
       (changes s)) s).

Definition propose_change (ctx : TenantAccessContext) (target : GovernanceTargetType)
    (target_id proposed_digest : string) (risk : GovernanceRisk) (reason ticket_reference : string)
    (expected_current_digest : option string) : M store GovernanceChangeRequest :=
  require_access ctx CAP_CONFIGURE ;;
  now <- now_utc ;;
  id <- uuid4 ;;
  request <- lift (GovernanceChangeRequest.create {|
    GovernanceChangeRequest.request_id := id;
    GovernanceChangeRequest.tenant_id := TenantAccessContext.tenant_id ctx;
    GovernanceChangeRequest.target_type := target; GovernanceChangeRequest.target_id := target_id;
    GovernanceChangeRequest.proposed_digest := proposed_digest;
    GovernanceChangeRequest.expected_current_digest := expected_current_digest;
    GovernanceChangeRequest.risk := risk; GovernanceChangeRequest.reason := reason;
    GovernanceChangeRequest.ticket_reference := ticket_reference;
    GovernanceChangeRequest.proposed_at := now;
    GovernanceChangeRequest.proposed_by := TenantAccessContext.actor ctx;
    GovernanceChangeRequest.status := STATUS_PROPOSED; GovernanceChangeRequest.approved_at := None;
    GovernanceChangeRequest.approved_by := None; GovernanceChangeRequest.applied_at := None |}) ;;
  modify (fun s => set_changes
    (<[(TenantAccessContext.tenant_id ctx, GovernanceChangeRequest.request_id request) := request]>
       (changes s)) s) ;;
  append_audit (event_of ctx CHANGE_PROPOSED now (Some (GovernanceChangeRequest.request_id request))
    (Some target) (Some target_id) None (Some proposed_digest) reason (Some ticket_reference)
    [("risk", GovernanceRisk_value risk)]) ;;
  ret request.

Definition approve_change (ctx : TenantAccessContext) (request_id : UUID)
    (decision : GovernanceApprovalDecision) (reason : string) : M store GovernanceChangeRequest :=
  require_access ctx CAP_APPROVE ;;
  now <- now_utc ;;
  request <- request_locked (TenantAccessContext.tenant_id ctx) request_id ;;
  guard (bool_decide (GovernanceChangeRequest.status request = STATUS_PROPOSED))
    (AuthorizationDeniedError "governance change is no longer awaiting approval") ;;
  guard (negb (GovernanceChangeRequest.high_risk request &&
               GovernanceChangeRequest.same_actor (GovernanceChangeRequest.proposed_by request)
                 (TenantAccessContext.actor ctx)))
    (AuthorizationDeniedError "high-risk governance changes require an independent approver") ;;
  id <- uuid4 ;;
  approval <- lift (GovernanceApproval.create {|
    GovernanceApproval.approval_id := id; GovernanceApproval.request_id := request_id;
    GovernanceApproval.tenant_id := TenantAccessContext.tenant_id ctx;
    GovernanceApproval.decision := decision;
    GovernanceApproval.actor := TenantAccessContext.actor ctx;
    GovernanceApproval.occurred_at := now; GovernanceApproval.reason := reason |}) ;;
  let key := (TenantAccessContext.tenant_id ctx, request_id) in
  modify (fun s => set_approvals
    (<[key := default [] (approvals s !! key) ++ [approval]]> (approvals s)) s) ;;
  let updated := match decision with
                 | REJECT => rejected request
                 | APPROVE => approved request now (TenantAccessContext.actor ctx)
                 end in
  modify (fun s => set_changes (<[key := updated]> (changes s)) s) ;;
  append_audit (event_of ctx (match decision with REJECT => CHANGE_REJECTED | APPROVE => CHANGE_APPROVED end)
    now (Some request_id) (Some (GovernanceChangeRequest.target_type request))
    (Some (GovernanceChangeRequest.target_id request)) None
    (Some (GovernanceChangeRequest.proposed_digest request)) reason
    (Some (GovernanceChangeRequest.ticket_reference request)) []) ;;
  ret updated.

(** ** Retention policies *)
Definition retention_of (tenant : string) (s : store) : list RetentionPolicy :=
  default [] (retention s !! tenant).

(** [_effective_policy_locked] *)
Definition effective_policy (tenant : string) (at_ : datetime) (s : store) : option RetentionPolicy :=
  last (List.filter (fun p => RetentionPolicy.effective_at p <=? at_) (retention_of tenant s)).

Definition apply_retention_policy (ctx : TenantAccessContext) (policy : RetentionPolicy)
    (request_id : UUID) : M store RetentionPolicy :=
  require_access ctx CAP_CONFIGURE ;;
  guard (bool_decide (RetentionPolicy.tenant_id policy = TenantAccessContext.tenant_id ctx))
    (AuthorizationDeniedError "retention policy crossed tenant boundary") ;;
  now <- now_utc ;;
  let tenant := TenantAccessContext.tenant_id ctx in
  modify (fun s => set_retention (<[tenant := retention_of tenant s]> (retention s)) s) ;;
  s <- get ;;
  let current := last (retention_of tenant s) in
  let expected_revision := match current with None => 1 | Some c => RetentionPolicy.revision c + 1 end in
  guard (RetentionPolicy.revision policy =? expected_revision)
    (ValueError ("retention policy revision must advance to " +:+ pretty expected_revision)) ;;
  before_digest <- lift (optional (fun c => sha256_hex (RetentionPolicy.dump c)) current) ;;
  digest <- lift (sha256_hex (RetentionPolicy.dump policy)) ;;
  request <- approved_request_locked tenant request_id RETENTION_POLICY
               (uuid_str (RetentionPolicy.policy_id policy)) digest before_digest ;;
  modify (fun s => set_retention (<[tenant := retention_of tenant s ++ [policy]]> (retention s)) s) ;;
  mark_applied request now ;;
  append_audit (event_of ctx CHANGE_APPLIED now (Some request_id) (Some RETENTION_POLICY)
    (Some (uuid_str (RetentionPolicy.policy_id policy))) before_digest (Some digest)
    (GovernanceChangeRequest.reason request)
    (Some (GovernanceChangeRequest.ticket_reference request))
    [("revision", pretty (RetentionPolicy.revision policy))]) ;;
  ret policy.

(** [at or datetime.now(UTC)] *)
Definition instant (at_ : option datetime) : M store datetime :=
  match at_ with Some t => ret t | None => now_utc end.

Definition current_retention_policy (ctx : TenantAccessContext) (at_ : option datetime)
    : M store (option RetentionPolicy) :=
  require_access ctx CAP_READ ;;
  now <- instant at_ ;;
  s <- get ;;
  ret (effective_policy (TenantAccessContext.tenant_id ctx) now s).

(** ** Legal holds *)
Definition place_legal_hold (ctx : TenantAccessContext) (hold : LegalHold) : M store LegalHold :=
  require_access ctx CAP_LEGAL_HOLD ;;
  guard (bool_decide (LegalHold.tenant_id hold = TenantAccessContext.tenant_id ctx))
    (AuthorizationDeniedError "legal hold crossed tenant boundary") ;;
  guard (bool_decide (LegalHold.status hold = HOLD_ACTIVE))
    (ValueError "only active legal holds can be placed") ;;
  let key := (TenantAccessContext.tenant_id ctx, LegalHold.hold_id hold) in
  s <- get ;;
  guard (negb (dict_has key (holds s))) (ValueError "legal hold already exists") ;;
  modify (fun s => set_holds (dict_set key hold (holds s)) s) ;;
  append_audit (event_of ctx LEGAL_HOLD_PLACED (LegalHold.placed_at hold) None None
    (Some (uuid_str (LegalHold.hold_id hold))) None None (LegalHold.reason hold)
    (Some (LegalHold.case_reference hold)) []) ;;
  ret hold.

(** The hold of an identity, when it is active *)
Definition active_hold (tenant : string) (hold_id : UUID) : M store LegalHold := fun s =>
  match dict_get (tenant, hold_id) (holds s) with
  | Some h => if bool_decide (LegalHold.status h = HOLD_ACTIVE) then (Ok h, s)
              else (Raise (KeyError (uuid_str hold_id)), s)
  | None => (Raise (KeyError (uuid_str hold_id)), s)
  end.

Definition propose_legal_hold_release (ctx : TenantAccessContext) (hold_id : UUID)
    (reason ticket_reference : string) : M store GovernanceChangeRequest :=
  require_access ctx CAP_CONFIGURE ;;
  active_hold (TenantAccessContext.tenant_id ctx) hold_id ;;
  digest <- lift (legal_hold_release_digest (TenantAccessContext.tenant_id ctx) hold_id) ;;
  propose_change ctx LEGAL_HOLD_RELEASE (uuid_str hold_id) digest RISK_CRITICAL reason
    ticket_reference None.

Definition released (h : LegalHold) (now : datetime) (by_ : ActorRef) (request_id : UUID) : LegalHold := {|
  LegalHold.hold_id := LegalHold.hold_id h; LegalHold.tenant_id := LegalHold.tenant_id h;
  LegalHold.status := HOLD_RELEASED; LegalHold.reason := LegalHold.reason h;
  LegalHold.case_reference := LegalHold.case_reference h;
  LegalHold.resource_types := LegalHold.resource_types h;
  LegalHold.resource_ids := LegalHold.resource_ids h; LegalHold.placed_at := LegalHold.placed_at h;
  LegalHold.placed_by := LegalHold.placed_by h; LegalHold.released_at := Some now;
  LegalHold.released_by := Some by_; LegalHold.release_change_request_id := Some request_id |}.

Definition release_legal_hold (ctx : TenantAccessContext) (hold_id request_id : UUID)
    : M store LegalHold :=
  require_access ctx CAP_LEGAL_HOLD ;;
  now <- now_utc ;;
  let tenant := TenantAccessContext.tenant_id ctx in
  hold <- active_hold tenant hold_id ;;
  digest <- lift (legal_hold_release_digest tenant hold_id) ;;
  request <- approved_request_locked tenant request_id LEGAL_HOLD_RELEASE (uuid_str hold_id)
               digest None ;;
  let hold' := released hold now (TenantAccessContext.actor ctx) request_id in
  modify (fun s => set_holds (dict_set (tenant, hold_id) hold' (holds s)) s) ;;
  mark_applied request now ;;
  append_audit (event_of ctx LEGAL_HOLD_RELEASED now (Some request_id) (Some LEGAL_HOLD_RELEASE)
    (Some (uuid_str hold_id)) None (Some digest) (GovernanceChangeRequest.reason request)
    (Some (GovernanceChangeRequest.ticket_reference request)) []) ;;
  ret hold'.

(** ** Retention decisions *)

(** [datetime.max] *)
Definition MAX_DATETIME : datetime := 253402300799999999.

(** [created + timedelta(seconds=n)] *)
Definition plus_seconds (created : datetime) (n : Z) : outcome datetime :=
  d <~ timedelta_seconds (float_of_int n) ;;
  require (created + d <=? MAX_DATETIME) (OverflowError "date value out of range") ;~
  Ok (created + d).

Definition decision_of (policy : RetentionPolicy) (c : RetentionCandidate) (at_ : datetime)
    (disposition : RetentionDisposition) (delete_not_before : option datetime)
    (legal_hold_ids : list UUID) (reason : string) : outcome RetentionDecision :=
  RetentionDecision.create {|
    RetentionDecision.tenant_id := RetentionCandidate.tenant_id c;
    RetentionDecision.resource_type := RetentionCandidate.resource_type c;
    RetentionDecision.resource_id := RetentionCandidate.resource_id c;
    RetentionDecision.disposition := disposition; RetentionDecision.evaluated_at := at_;
    RetentionDecision.policy_id := RetentionPolicy.policy_id policy;
    RetentionDecision.policy_revision := RetentionPolicy.revision policy;
    RetentionDecision.delete_not_before := delete_not_before;
    RetentionDecision.legal_hold_ids := legal_hold_ids; RetentionDecision.reason := reason |}.

(** The retention period and the grace of a resource type: of its rule, or the default *)
Definition retain_for (policy : RetentionPolicy) (rule : option RetentionRule) : option Z :=
  match rule with
  | Some r => RetentionRule.retain_for_seconds r
  | None => RetentionPolicy.default_retain_for_seconds policy
  end.
Definition grace_of (rule : option RetentionRule) : Z :=
  match rule with Some r => RetentionRule.deletion_grace_seconds r | None => 0 end.
Definition undeletable (rule : option RetentionRule) : bool :=
  match rule with Some r => negb (RetentionRule.deletion_allowed r) | None => false end.

(** [_decision_for] *)
Definition decision_for (policy : RetentionPolicy) (held : list LegalHold) (c : RetentionCandidate)
    (at_ : datetime) : outcome RetentionDecision :=
  require (bool_decide (RetentionCandidate.tenant_id c = RetentionPolicy.tenant_id policy))
    (AuthorizationDeniedError "retention candidate crossed tenant boundary") ;~
  let matching := map LegalHold.hold_id (List.filter (fun h => LegalHold.applies_to h c) held) in
  if negb (bool_decide (matching = [])) then
    decision_of policy c at_ RETAIN None matching
      "active legal hold takes precedence over deletion policy"
  else
    let rule := RetentionPolicy.rule_for policy (RetentionCandidate.resource_type c) in
    if undeletable rule then
      decision_of policy c at_ RETAIN None [] "resource type is configured as non-deletable"
    else
      match retain_for policy rule with
      | None =>
          decision_of policy c at_ RETAIN None []
            "retention policy keeps this resource indefinitely"
      | Some seconds =>
          delete_not_before <~ plus_seconds (RetentionCandidate.created_at c) (seconds + grace_of rule) ;;
          if at_ <? delete_not_before then
            decision_of policy c at_ RETAIN None [] "retention window has not elapsed"
          else
            decision_of policy c at_ DELETE (Some delete_not_before) []
              "retention and deletion-grace windows elapsed"
      end.

Definition active_holds (tenant : string) (s : store) : list LegalHold :=
  map snd (List.filter (fun '((t, _), h) =>
    bool_decide (t = tenant) && bool_decide (LegalHold.status h = HOLD_ACTIVE)) (holds s)).

(** [_retention_decisions_locked] *)
Definition retention_decisions (tenant : string) (candidates : list RetentionCandidate)
    (at_ : datetime) (s : store) : outcome (list RetentionDecision) :=
  match effective_policy tenant at_ s with
  | None => Raise (AuthorizationDeniedError "no effective retention policy is configured")
  | Some policy => map_o (fun c => decision_for policy (active_holds tenant s) c at_) candidates
  end.

Definition resource_target (resource_type resource_id : string) : string :=
  resource_type +:+ ":" +:+ resource_id.

(** [_audit_decisions_locked] *)
Definition audit_decisions (ctx : TenantAccessContext) (decisions : list RetentionDecision)
    (occurred_at : datetime) : M store unit :=
  for_m (fun d =>
    append_audit (event_of ctx RETENTION_EVALUATED occurred_at None None
      (Some (resource_target (RetentionDecision.resource_type d) (RetentionDecision.resource_id d)))
      None None (RetentionDecision.reason d) None
      [("disposition", RetentionDisposition_value (RetentionDecision.disposition d))]))
    decisions.

Definition evaluate_retention (ctx : TenantAccessContext) (candidates : list RetentionCandidate)
    (at_ : option datetime) : M store (list RetentionDecision) :=
  require_access ctx CAP_READ ;;
  decision_at <- instant at_ ;;
  s <- get ;;
  decisions <- lift (retention_decisions (TenantAccessContext.tenant_id ctx) candidates decision_at s) ;;
  audit_decisions ctx decisions decision_at ;;
  ret decisions.

(** [_require_unique_candidates] *)
Definition require_unique_candidates (candidates : list RetentionCandidate) : outcome unit :=
  require (py_unique (map (fun c => (RetentionCandidate.resource_type c, RetentionCandidate.resource_id c))
             candidates))
    (ValueError "retention candidates must have unique resource identities").

Section Adapter.
Context (delete : list deletion -> deletion -> outcome string).

(** [await adapter.delete(...)] *)
Definition adapter_delete (d : deletion) : M store string := fun s =>
  (delete (deletions s) d, set_deletions (deletions s ++ [d]) s).

(** The body of the loop over the decisions *)
Definition execute_decision (ctx : TenantAccessContext) (decision_at : datetime)
    (records : list RetentionExecutionRecord) (cd : RetentionCandidate * RetentionDecision)
    : M store (list RetentionExecutionRecord) :=
  let '(c, d) := cd in
  if negb (bool_decide (RetentionDecision.disposition d = DELETE)) then ret records
  else
    execution_id <- uuid4 ;;
    decision_sha256 <- lift (sha256_hex (RetentionDecision.dump d)) ;;
    let target := Some (resource_target (RetentionCandidate.resource_type c) (RetentionCandidate.resource_id c)) in
    append_audit (event_of ctx RETENTION_DELETION_INTENT_RECORDED decision_at None None target
      None None (RetentionDecision.reason d) None
      [("execution_id", uuid_str execution_id); ("decision_sha256", decision_sha256);
       ("content_sha256", str_or (RetentionCandidate.content_sha256 c) "")]) ;;
    deletion_reference <- adapter_delete {| by_context := ctx; deleted := c; upon := d |} ;;
    record <- lift (RetentionExecutionRecord.create {|
      RetentionExecutionRecord.execution_id := execution_id;
      RetentionExecutionRecord.tenant_id := TenantAccessContext.tenant_id ctx;
      RetentionExecutionRecord.resource_type := RetentionCandidate.resource_type c;
      RetentionExecutionRecord.resource_id := RetentionCandidate.resource_id c;
      RetentionExecutionRecord.executed_at := decision_at;
      RetentionExecutionRecord.executed_by := TenantAccessContext.actor ctx;
      RetentionExecutionRecord.policy_id := RetentionDecision.policy_id d;
      RetentionExecutionRecord.policy_revision := RetentionDecision.policy_revision d;
      RetentionExecutionRecord.content_sha256 := RetentionCandidate.content_sha256 c;
      RetentionExecutionRecord.deletion_reference := deletion_reference |}) ;;
    append_audit (event_of ctx RETENTION_DELETION_EXECUTED decision_at None None target
      None None (RetentionDecision.reason d) None
      [("execution_id", uuid_str execution_id); ("deletion_reference", deletion_reference)]) ;;
    ret (records ++ [record]).

Definition execute_retention (ctx : TenantAccessContext) (candidates : list RetentionCandidate)
    (at_ : option datetime) : M store (list RetentionExecutionRecord) :=
  require_access ctx CAP_DELETE ;;
  require_access ctx CAP_READ ;;
  guard (bool_decide (at_ = None))
    (ValueError "destructive retention execution uses authoritative current time; caller-supplied evaluation time is not permitted") ;;
  lift (require_unique_candidates candidates) ;;
  decision_at <- now_utc ;;
  s <- get ;;
  decisions <- lift (retention_decisions (TenantAccessContext.tenant_id ctx) candidates decision_at s) ;;
  audit_decisions ctx decisions decision_at ;;
  fold_m (execute_decision ctx decision_at) (combine candidates decisions) [].
End Adapter.

(** ** Trust roots *)
Definition roots_of (tenant : string) (s : store) : list GovernedTrustRoot :=
  default [] (trust_roots s !! tenant).

Definition bootstrap_trust_root (ctx : TenantAccessContext) (policy : TrustRootPolicy)
    (activated_at : datetime) (request_id : UUID) : M store GovernedTrustRoot :=
  require_access ctx CAP_CONFIGURE ;;
  digest <- lift (sha256_hex (TrustRootPolicy.dump policy)) ;;
  let tenant := TenantAccessContext.tenant_id ctx in
  s <- get ;;
  guard (bool_decide (roots_of tenant s = []))
    (ValueError "trust-root history is already initialized") ;;
  request <- approved_request_locked tenant request_id TRUST_ROOT_POLICY
               (TrustRootPolicy.policy_id policy) digest None ;;
  root <- lift (GovernedTrustRoot.create {|
    GovernedTrustRoot.tenant_id := tenant; GovernedTrustRoot.revision := 1;
    GovernedTrustRoot.policy := policy; GovernedTrustRoot.policy_sha256 := digest;
    GovernedTrustRoot.activated_at := activated_at; GovernedTrustRoot.retired_at := None;
    GovernedTrustRoot.change_request_id := request_id |}) ;;
  modify (fun s => set_trust_roots (<[tenant := [root]]> (trust_roots s)) s) ;;
  now <- now_utc ;;
  mark_applied request now ;;
  append_audit (event_of ctx TRUST_ROOT_ACTIVATED now (Some request_id) (Some TRUST_ROOT_POLICY)
    (Some (TrustRootPolicy.policy_id policy)) None (Some digest)
    (GovernanceChangeRequest.reason request)
    (Some (GovernanceChangeRequest.ticket_reference request)) [("revision", "1")]) ;;
  ret root.

(** [current.model_copy(update={"retired_at": ...})] *)
Definition retired (r : GovernedTrustRoot) (t : datetime) : GovernedTrustRoot := {|
  GovernedTrustRoot.tenant_id := GovernedTrustRoot.tenant_id r;
  GovernedTrustRoot.revision := GovernedTrustRoot.revision r;
  GovernedTrustRoot.policy := GovernedTrustRoot.policy r;
  GovernedTrustRoot.policy_sha256 := GovernedTrustRoot.policy_sha256 r;
  GovernedTrustRoot.activated_at := GovernedTrustRoot.activated_at r;
  GovernedTrustRoot.retired_at := Some t;
  GovernedTrustRoot.change_request_id := GovernedTrustRoot.change_request_id r |}.

(** [roots[-1] = ...] *)
Definition set_last {A} (x : A) (l : list A) : list A := removelast l ++ [x].

Definition rotate_trust_root (ctx : TenantAccessContext) (plan : KeyRotationPlan)
    (policy : TrustRootPolicy) : M store TrustRootHistory :=
  require_access ctx CAP_CONFIGURE ;;
  guard (bool_decide (KeyRotationPlan.tenant_id plan = TenantAccessContext.tenant_id ctx))
    (AuthorizationDeniedError "trust-root rotation crossed tenant boundary") ;;
  now <- now_utc ;;
  guard (negb ((KeyRotationPlan.activate_at plan <? now) && negb (KeyRotationPlan.emergency plan)))
    (ValueError "non-emergency key rotation cannot activate in the past") ;;
  digest <- lift (sha256_hex (TrustRootPolicy.dump policy)) ;;
  let tenant := TenantAccessContext.tenant_id ctx in
  modify (fun s => set_trust_roots (<[tenant := roots_of tenant s]> (trust_roots s)) s) ;;
  s <- get ;;
  match last (roots_of tenant s) with
  | None => raise (ValueError "trust-root rotation requires an initialized trust root")
  | Some current =>
      guard ((GovernedTrustRoot.revision current =? KeyRotationPlan.from_revision plan) &&
             (KeyRotationPlan.to_revision plan =? GovernedTrustRoot.revision current + 1))
        (ValueError "key rotation revisions do not match current trust root") ;;
      request <- approved_request_locked tenant (KeyRotationPlan.change_request_id plan)
                   TRUST_ROOT_POLICY (TrustRootPolicy.policy_id policy) digest
                   (Some (GovernedTrustRoot.policy_sha256 current)) ;;
      modify (fun s => set_trust_roots
        (<[tenant := set_last (retired current (KeyRotationPlan.overlap_until plan)) (roots_of tenant s)]>
           (trust_roots s)) s) ;;
      root <- lift (GovernedTrustRoot.create {|
        GovernedTrustRoot.tenant_id := tenant;
        GovernedTrustRoot.revision := KeyRotationPlan.to_revision plan;
        GovernedTrustRoot.policy := policy; GovernedTrustRoot.policy_sha256 := digest;
        GovernedTrustRoot.activated_at := KeyRotationPlan.activate_at plan;
        GovernedTrustRoot.retired_at := None;
        GovernedTrustRoot.change_request_id := KeyRotationPlan.change_request_id plan |}) ;;
      modify (fun s => set_trust_roots (<[tenant := roots_of tenant s ++ [root]]> (trust_roots s)) s) ;;
      mark_applied request now ;;
      append_audit (event_of ctx TRUST_ROOT_ACTIVATED now
        (Some (KeyRotationPlan.change_request_id plan)) (Some TRUST_ROOT_POLICY)
        (Some (TrustRootPolicy.policy_id policy)) (Some (GovernedTrustRoot.policy_sha256 current))
        (Some digest) (GovernanceChangeRequest.reason request)
        (Some (GovernanceChangeRequest.ticket_reference request))
        [("from_revision", pretty (KeyRotationPlan.from_revision plan));
         ("to_revision", pretty (KeyRotationPlan.to_revision plan));
         ("overlap_until", isoformat (KeyRotationPlan.overlap_until plan))]) ;;
      s <- get ;;
      lift (TrustRootHistory.create {|
        TrustRootHistory.tenant_id := tenant; TrustRootHistory.roots := roots_of tenant s |})
  end.

Definition trust_root_history (ctx : TenantAccessContext) : M store TrustRootHistory :=
  require_access ctx CAP_READ ;;
  s <- get ;;
  lift (TrustRootHistory.create {|
    TrustRootHistory.tenant_id := TenantAccessContext.tenant_id ctx;
    TrustRootHistory.roots := roots_of (TenantAccessContext.tenant_id ctx) s |}).

Definition verify_checkpoint_history (ed25519_verify : list Z -> list Z -> bytes -> bool)
    (c : SignedCheckpoint) (history : TrustRootHistory) : outcome unit :=
  require (bool_decide (SignedCheckpoint.tenant_id c = TrustRootHistory.tenant_id history))
    (AuthorizationDeniedError "checkpoint tenant does not match trust-root history") ;~
  policy <~ TrustRootHistory.policy_for history (SignedCheckpoint.created_at c)
              (Some (SignedCheckpoint.key_id c)) ;;
  Assurance.verify_checkpoint ed25519_verify c policy ;~
  Ok tt.

(** ** Evidence transfers *)
Definition create_transfer_manifest (ctx : TenantAccessContext) (source_control_version : string)
    (source_schema_version : Z) (archive_sha256 bundle_manifest_sha256 : string)
    (trust_root_revision : option Z) : M store EvidenceTransferManifest :=
  require_access ctx CAP_EXPORT ;;
  now <- now_utc ;;
  id <- uuid4 ;;
  manifest <- lift (EvidenceTransferManifest.create {|
    EvidenceTransferManifest.transfer_id := id;
    EvidenceTransferManifest.tenant_id := TenantAccessContext.tenant_id ctx;
    EvidenceTransferManifest.created_at := now;
    EvidenceTransferManifest.created_by := TenantAccessContext.actor ctx;
    EvidenceTransferManifest.source_control_version := source_control_version;
    EvidenceTransferManifest.source_schema_version := source_schema_version;
    EvidenceTransferManifest.archive_sha256 := archive_sha256;
    EvidenceTransferManifest.bundle_manifest_sha256 := bundle_manifest_sha256;
    EvidenceTransferManifest.trust_root_revision := trust_root_revision;
    EvidenceTransferManifest.legal_hold_preserved := true |}) ;;
  modify (fun s => set_exports
    (<[(TenantAccessContext.tenant_id ctx, EvidenceTransferManifest.transfer_id manifest) := manifest]>
       (exports s)) s) ;;
  digest <- lift (sha256_hex (EvidenceTransferManifest.dump manifest)) ;;
  append_audit (event_of ctx EVIDENCE_EXPORT_CREATED now None None
    (Some (uuid_str (EvidenceTransferManifest.transfer_id manifest))) None (Some digest)
    (str_or (TenantAccessContext.reason ctx) "evidence export")
    (TenantAccessContext.ticket_reference ctx) []) ;;
  ret manifest.

(** [_validate_import_verification] *)
Definition validate_import_verification (ctx : TenantAccessContext)
    (m : EvidenceTransferManifest) (v : EvidenceTransferVerification) (archive_sha256 : string)
    : outcome unit :=
  require (bool_decide (EvidenceTransferManifest.tenant_id m = TenantAccessContext.tenant_id ctx) &&
           bool_decide (EvidenceTransferVerification.tenant_id v = TenantAccessContext.tenant_id ctx))
    (AuthorizationDeniedError "evidence import crossed tenant boundary") ;~
  require (EvidenceTransferVerification.transfer_id v =? EvidenceTransferManifest.transfer_id m)
    (ValueError "verification does not belong to the transfer manifest") ;~
  require (bool_decide (EvidenceTransferManifest.archive_sha256 m = archive_sha256) &&
           bool_decide (EvidenceTransferVerification.package_sha256 v = archive_sha256))
    (ValueError "import archive digest does not match verified transfer evidence") ;~
  require (bool_decide (EvidenceTransferVerification.bundle_manifest_sha256 v =
                        EvidenceTransferManifest.bundle_manifest_sha256 m))
    (ValueError "verified bundle-manifest digest does not match transfer manifest") ;~
  require (bool_decide (EvidenceTransferVerification.source_control_version v =
                        EvidenceTransferManifest.source_control_version m))
    (ValueError "verified source control version does not match transfer manifest") ;~
  require (EvidenceTransferVerification.source_schema_version v =?
           EvidenceTransferManifest.source_schema_version m)
    (ValueError "verified source schema version does not match transfer manifest") ;~
  require (EvidenceTransferVerification.verified_offline v)
    (ValueError "evidence import requires offline verification evidence").

Definition record_verified_import (ctx : TenantAccessContext) (m : EvidenceTransferManifest)
    (v : EvidenceTransferVerification) (archive_sha256 : string) (compatibility : CompatibilityPolicy)
    : M store EvidenceImportReceipt :=
  require_access ctx CAP_WRITE ;;
  lift (validate_import_verification ctx m v archive_sha256) ;;
  lift (CompatibilityPolicy.path_from compatibility (EvidenceTransferManifest.source_schema_version m)) ;;
  now <- now_utc ;;
  id <- uuid4 ;;
  verification_sha256 <- lift (sha256_hex (EvidenceTransferVerification.dump v)) ;;
  receipt <- lift (EvidenceImportReceipt.create {|
    EvidenceImportReceipt.import_id := id;
    EvidenceImportReceipt.transfer_id := EvidenceTransferManifest.transfer_id m;
    EvidenceImportReceipt.tenant_id := TenantAccessContext.tenant_id ctx;
    EvidenceImportReceipt.imported_at := now;
    EvidenceImportReceipt.imported_by := TenantAccessContext.actor ctx;
    EvidenceImportReceipt.source_control_version := EvidenceTransferManifest.source_control_version m;
    EvidenceImportReceipt.source_schema_version := EvidenceTransferManifest.source_schema_version m;
    EvidenceImportReceipt.archive_sha256 := archive_sha256;
    EvidenceImportReceipt.verification_id := EvidenceTransferVerification.verification_id v;
    EvidenceImportReceipt.verification_sha256 := verification_sha256;
    EvidenceImportReceipt.trust_anchor_sha256 := EvidenceTransferVerification.trust_anchor_sha256 v;
    EvidenceImportReceipt.verified := true |}) ;;
  modify (fun s => set_imports
    (<[(TenantAccessContext.tenant_id ctx, EvidenceImportReceipt.import_id receipt) := receipt]>
       (imports s)) s) ;;
  digest <- lift (sha256_hex (EvidenceImportReceipt.dump receipt)) ;;
  append_audit (event_of ctx EVIDENCE_IMPORT_VERIFIED now None None
    (Some (uuid_str (EvidenceImportReceipt.import_id receipt))) None (Some digest)
    (str_or (TenantAccessContext.reason ctx) "verified evidence import")
    (TenantAccessContext.ticket_reference ctx)
    [("verification_id", uuid_str (EvidenceTransferVerification.verification_id v));
     ("verification_sha256", verification_sha256);
     ("trust_anchor_sha256", EvidenceTransferVerification.trust_anchor_sha256 v)]) ;;
  ret receipt.

Definition list_audit (ctx : TenantAccessContext) : M store (list GovernanceAuditEvent) :=
  require_access ctx CAP_READ ;;
  s <- get ;;
  ret (audit_of (TenantAccessContext.tenant_id ctx) s).

(** ** The calls on the store, by tenant

    A call is made with a constructed context; what it returns or raises does not
    matter to the states it reaches. *)
Definition tenant_context (t : string) (ctx : TenantAccessContext) : Prop :=
  TenantAccessContext.create ctx = Ok ctx /\ TenantAccessContext.tenant_id ctx = t.

Inductive operation : Type -> Type :=
| op_propose (target : GovernanceTargetType) (target_id digest : string) (risk : GovernanceRisk)
    (reason ticket : string) (expected : option string) : operation GovernanceChangeRequest
| op_approve (request : UUID) (decision : GovernanceApprovalDecision) (reason : string)
    : operation GovernanceChangeRequest
| op_apply_policy (policy : RetentionPolicy) (request : UUID) : operation RetentionPolicy
| op_current_policy (at_ : option datetime) : operation (option RetentionPolicy)
| op_place_hold (hold : LegalHold) : operation LegalHold
| op_propose_release (hold : UUID) (reason ticket : string) : operation GovernanceChangeRequest
| op_release (hold request : UUID) : operation LegalHold
| op_evaluate (candidates : list RetentionCandidate) (at_ : option datetime)
    : operation (list RetentionDecision)
| op_execute (delete : list deletion -> deletion -> outcome string)
    (candidates : list RetentionCandidate) (at_ : option datetime)
    : operation (list RetentionExecutionRecord)
| op_bootstrap (policy : TrustRootPolicy) (activated_at : datetime) (request : UUID)
    : operation GovernedTrustRoot
| op_rotate (plan : KeyRotationPlan) (policy : TrustRootPolicy) : operation TrustRootHistory
| op_history : operation TrustRootHistory
| op_export (version : string) (schema : Z) (archive bundle : string) (root : option Z)
    : operation EvidenceTransferManifest
| op_import (m : EvidenceTransferManifest) (v : EvidenceTransferVerification) (archive : string)
    (c : CompatibilityPolicy) : operation EvidenceImportReceipt
| op_list_audit : operation (list GovernanceAuditEvent).

Definition run_op {A} (ctx : TenantAccessContext) (op : operation A) : M store A :=
  match op with
  | op_propose target id digest risk reason ticket expected =>
      propose_change ctx target id digest risk reason ticket expected
  | op_approve request decision reason => approve_change ctx request decision reason
  | op_apply_policy policy request => apply_retention_policy ctx policy request
  | op_current_policy at_ => current_retention_policy ctx at_
  | op_place_hold hold => place_legal_hold ctx hold
  | op_propose_release hold reason ticket => propose_legal_hold_release ctx hold reason ticket
  | op_release hold request => release_legal_hold ctx hold request
  | op_evaluate candidates at_ => evaluate_retention ctx candidates at_
  | op_execute delete candidates at_ => execute_retention delete ctx candidates at_
  | op_bootstrap policy activated_at request => bootstrap_trust_root ctx policy activated_at request
  | op_rotate plan policy => rotate_trust_root ctx plan policy
  | op_history => trust_root_history ctx
  | op_export version schema archive bundle root =>
      create_transfer_manifest ctx version schema archive bundle root
  | op_import m v archive c => record_verified_import ctx m v archive c
  | op_list_audit => list_audit ctx
  end.

(** The capability an operation demands first *)
Definition demands {A} (op : operation A) : TenantCapability :=
  match op with
  | op_propose _ _ _ _ _ _ _ | op_apply_policy _ _ | op_propose_release _ _ _
  | op_bootstrap _ _ _ | op_rotate _ _ => CAP_CONFIGURE
  | op_approve _ _ _ => CAP_APPROVE
  | op_place_hold _ | op_release _ _ => CAP_LEGAL_HOLD
  | op_execute _ _ _ => CAP_DELETE
  | op_export _ _ _ _ _ => CAP_EXPORT
  | op_import _ _ _ _ => CAP_WRITE
  | op_current_policy _ | op_evaluate _ _ | op_history | op_list_audit => CAP_READ
  end.

(** A rotation plan is a constructed record. *)
Definition constructed_arguments {A} (op : operation A) : Prop :=
  match op with op_rotate plan _ => KeyRotationPlan.create plan = Ok plan | _ => True end.

Inductive step (t : string) : store -> store -> Prop :=
| step_op {A} ctx (op : operation A) s o s' :
    tenant_context t ctx -> constructed_arguments op -> run_op ctx op s = (o, s') -> step t s s'.

Definition any_step (s s' : store) : Prop := exists t, step t s s'.

Definition reachable (s : store) : Prop := exists h, rtc any_step (empty h) s.
End Store.
