(* ===== verification/GovernanceProofs.v ===== *)
(** * The governance store: what it promises

    [Module Spec] is the abstract machine of one tenant's governance: its transitions
    are the effects an operation may have on the store, each with the condition that
    licenses it.  [Module Refinement] shows that every operation, whether it returns
    or raises, is a sequence of transitions of its own tenant; [Module
    GovernanceProperties] holds the theorems, by induction on the transitions. *)

From S2P Require Import Prelude Canonical CanonicalProofs Contracts Attestations Tenancy Host GovernanceContracts Governance.
Import Governance.Store.

Module Spec.
(** The approval evidence of a request: an approval of the log, by its approver at
    the instant it carries *)
Definition approval_on (r : GovernanceChangeRequest) (a : GovernanceApproval) : Prop :=
  GovernanceApproval.decision a = APPROVE /\
  GovernanceApproval.request_id a = GovernanceChangeRequest.request_id r /\
  GovernanceApproval.tenant_id a = GovernanceChangeRequest.tenant_id r /\
  GovernanceChangeRequest.approved_by r = Some (GovernanceApproval.actor a) /\
  GovernanceChangeRequest.approved_at r = Some (GovernanceApproval.occurred_at a).

(** The request at [k] is for this target and this digest. *)
Definition is_for (r : GovernanceChangeRequest) (target : GovernanceTargetType)
    (target_id digest : string) (current : option string) : Prop :=
  GovernanceChangeRequest.target_type r = target /\
  GovernanceChangeRequest.target_id r = target_id /\
  GovernanceChangeRequest.proposed_digest r = digest /\
  GovernanceChangeRequest.expected_current_digest r = current.

Definition change_key (r : GovernanceChangeRequest) : string * UUID :=
  (GovernanceChangeRequest.tenant_id r, GovernanceChangeRequest.request_id r).

(** What the record's validators keep of a request *)
Definition well_formed (r : GovernanceChangeRequest) : Prop :=
  hex_string 64 (GovernanceChangeRequest.proposed_digest r) = true /\
  GovernanceChangeRequest.validate_change r = Ok tt.

(** The store after [r] was applied *)
Definition mark (r : GovernanceChangeRequest) (now : datetime) (s : store) : store :=
  set_changes (<[change_key r := Store.applied r now]> (changes s)) s.

Definition ready (t : string) (s : store) (r : GovernanceChangeRequest) : Prop :=
  changes s !! change_key r = Some r /\ GovernanceChangeRequest.tenant_id r = t /\
  GovernanceChangeRequest.status r = STATUS_APPROVED.

(** The transitions of the tenant [t] *)
Inductive delta (t : string) (s : store) : store -> Prop :=
| d_env h : host_le (env s) h -> delta t s (set_env h s)
| d_audit e :
    GovernanceAuditEvent.tenant_id e = t ->
    delta t s (set_audit (<[t := audit_of t s ++ [e]]> (audit s)) s)
| d_touch_retention : delta t s (set_retention (<[t := retention_of t s]> (retention s)) s)
| d_touch_roots : delta t s (set_trust_roots (<[t := roots_of t s]> (trust_roots s)) s)
| d_propose h r i :
    host_le (env s) h -> (drawn (env s) <= i < drawn h)%nat ->
    GovernanceChangeRequest.request_id r = entropy (env s) i ->
    GovernanceChangeRequest.tenant_id r = t -> GovernanceChangeRequest.status r = STATUS_PROPOSED ->
    well_formed r ->
    delta t s (set_changes (<[change_key r := r]> (changes s)) (set_env h s))
| d_reject r a :
    changes s !! change_key r = Some r -> GovernanceChangeRequest.tenant_id r = t ->
    GovernanceChangeRequest.status r = STATUS_PROPOSED ->
    delta t s (set_changes (<[change_key r := rejected r]> (changes s))
                (set_approvals (<[change_key r := default [] (approvals s !! change_key r) ++ [a]]>
                                  (approvals s)) s))
| d_approve r a now by_ :
    changes s !! change_key r = Some r -> GovernanceChangeRequest.tenant_id r = t ->
    GovernanceChangeRequest.status r = STATUS_PROPOSED ->
    GovernanceChangeRequest.high_risk r = false \/
      GovernanceChangeRequest.same_actor (GovernanceChangeRequest.proposed_by r) by_ = false ->
    approval_on (Store.approved r now by_) a ->
    delta t s (set_changes (<[change_key r := Store.approved r now by_]> (changes s))
                (set_approvals (<[change_key r := default [] (approvals s !! change_key r) ++ [a]]>
                                  (approvals s)) s))
| d_policy r now p digest before :
    ready t s r -> RetentionPolicy.tenant_id p = t ->
    RetentionPolicy.revision p = Z.of_nat (length (retention_of t s)) + 1 ->
    sha256_hex (RetentionPolicy.dump p) = Ok digest ->
    is_for r RETENTION_POLICY (uuid_str (RetentionPolicy.policy_id p)) digest before ->
    delta t s (mark r now (set_retention (<[t := retention_of t s ++ [p]]> (retention s)) s))
| d_hold h :
    LegalHold.tenant_id h = t -> LegalHold.status h = HOLD_ACTIVE ->
    dict_get (t, LegalHold.hold_id h) (holds s) = None ->
    delta t s (set_holds (dict_set (t, LegalHold.hold_id h) h (holds s)) s)
| d_release r now h by_ digest :
    ready t s r -> dict_get (t, LegalHold.hold_id h) (holds s) = Some h ->
    LegalHold.status h = HOLD_ACTIVE ->
    legal_hold_release_digest t (LegalHold.hold_id h) = Ok digest ->
    is_for r LEGAL_HOLD_RELEASE (uuid_str (LegalHold.hold_id h)) digest None ->
    delta t s (mark r now (set_holds
      (dict_set (t, LegalHold.hold_id h) (released h now by_ (GovernanceChangeRequest.request_id r))
         (holds s)) s))
| d_bootstrap r now h root :
    ready t s r -> roots_of t s = [] -> host_le (env s) h ->
    GovernedTrustRoot.tenant_id root = t -> GovernedTrustRoot.revision root = 1 ->
    GovernedTrustRoot.retired_at root = None ->
    sha256_hex (TrustRootPolicy.dump (GovernedTrustRoot.policy root)) =
      Ok (GovernedTrustRoot.policy_sha256 root) ->
    GovernedTrustRoot.change_request_id root = GovernanceChangeRequest.request_id r ->
    is_for r TRUST_ROOT_POLICY (TrustRootPolicy.policy_id (GovernedTrustRoot.policy root))
      (GovernedTrustRoot.policy_sha256 root) None ->
    delta t s (mark r now (set_env h (set_trust_roots (<[t := [root]]> (trust_roots s)) s)))
| d_rotate r now current overlap root :
    ready t s r -> last (roots_of t s) = Some current ->
    GovernedTrustRoot.tenant_id root = t ->
    GovernedTrustRoot.revision root = GovernedTrustRoot.revision current + 1 ->
    GovernedTrustRoot.activated_at root <= overlap ->
    GovernedTrustRoot.retired_at root = None ->
    sha256_hex (TrustRootPolicy.dump (GovernedTrustRoot.policy root)) =
      Ok (GovernedTrustRoot.policy_sha256 root) ->
    GovernedTrustRoot.change_request_id root = GovernanceChangeRequest.request_id r ->
    is_for r TRUST_ROOT_POLICY (TrustRootPolicy.policy_id (GovernedTrustRoot.policy root))
      (GovernedTrustRoot.policy_sha256 root) (Some (GovernedTrustRoot.policy_sha256 current)) ->
    delta t s (mark r now (set_trust_roots
      (<[t := set_last (retired current overlap) (roots_of t s) ++ [root]]> (trust_roots s)) s))
| d_export m id :
    EvidenceTransferManifest.tenant_id m = t ->
    delta t s (set_exports (<[(t, id) := m]> (exports s)) s)
| d_import m id :
    EvidenceImportReceipt.tenant_id m = t ->
    delta t s (set_imports (<[(t, id) := m]> (imports s)) s)
| d_delete d :
    TenantAccessContext.tenant_id (by_context d) = t ->
    delta t s (set_deletions (deletions s ++ [d]) s).

(** ** The order the store is in *)
Definition revisions_from_one {A} (revision : A -> Z) (l : list A) : Prop :=
  forall i x, l !! i = Some x -> revision x = Z.of_nat i + 1.

Definition policies_ok (t : string) (l : list RetentionPolicy) : Prop :=
  revisions_from_one RetentionPolicy.revision l /\
  Forall (fun p => RetentionPolicy.tenant_id p = t) l.

(** Only the last root is current. *)
Definition roots_ok (t : string) (l : list GovernedTrustRoot) : Prop :=
  revisions_from_one GovernedTrustRoot.revision l /\
  Forall (fun r => GovernedTrustRoot.tenant_id r = t) l /\
  Forall (fun r => GovernedTrustRoot.retired_at r <> None) (removelast l) /\
  (forall r, last l = Some r -> GovernedTrustRoot.retired_at r = None).

Definition holds_ok (l : list ((string * UUID) * LegalHold)) : Prop :=
  NoDup (dict_keys l) /\
  dict_forall (fun k h => k = (LegalHold.tenant_id h, LegalHold.hold_id h)) l.

Lemma revisions_snoc {A} (revision : A -> Z) l x :
  revisions_from_one revision l -> revision x = Z.of_nat (length l) + 1 ->
  revisions_from_one revision (l ++ [x]).
Proof.
  intros Hl Hx i y [Hi|[? Hi]]%lookup_app_Some; [by apply Hl|].
  apply list_lookup_singleton_Some in Hi as [? <-].
  replace i with (length l) by lia. exact Hx.
Qed.

Lemma revisions_last {A} (revision : A -> Z) l x :
  revisions_from_one revision l -> last l = Some x -> revision x = Z.of_nat (length l).
Proof.
  intros Hl Hx. rewrite last_lookup in Hx. rewrite (Hl _ _ Hx).
  destruct l; [discriminate|]. simpl. lia.
Qed.

Lemma last_snoc_inv {A} (l : list A) x : last l = Some x -> l = removelast l ++ [x].
Proof.
  induction l as [|z k _] using rev_ind; [done|].
  rewrite last_snoc, List.removelast_last. by intros [= ->].
Qed.

Lemma policies_ok_snoc t l p :
  policies_ok t l -> RetentionPolicy.tenant_id p = t ->
  RetentionPolicy.revision p = Z.of_nat (length l) + 1 -> policies_ok t (l ++ [p]).
Proof.
  intros [Hr Ht] Hp Hrev. split; [by apply revisions_snoc|].
  apply Forall_app. by split; [|constructor].
Qed.

Lemma roots_ok_one t root :
  GovernedTrustRoot.tenant_id root = t -> GovernedTrustRoot.revision root = 1 ->
  GovernedTrustRoot.retired_at root = None -> roots_ok t [root].
Proof.
  intros Ht Hr Hn. split; [|split; [|split]].
  - by intros i x [-> <-]%list_lookup_singleton_Some.
  - by constructor.
  - constructor.
  - by intros r [= <-].
Qed.

Lemma roots_ok_rotate t l current overlap root :
  roots_ok t l -> last l = Some current ->
  GovernedTrustRoot.tenant_id root = t ->
  GovernedTrustRoot.revision root = GovernedTrustRoot.revision current + 1 ->
  GovernedTrustRoot.retired_at root = None ->
  roots_ok t (set_last (retired current overlap) l ++ [root]).
Proof.
  intros (Hr & Ht & Hp & Hl) Hc Hroot Hrev Hn. unfold set_last.
  pose proof (revisions_last _ _ _ Hr Hc) as Hrc.
  pose proof (last_snoc_inv _ _ Hc) as E. rewrite E in Hr, Ht. set (front := removelast l) in *.
  assert (Hlen : length l = S (length front)) by (rewrite E, length_app; simpl; lia).
  apply Forall_app in Ht as [Hft Hct]. rewrite Forall_singleton in Hct.
  split; [|split; [|split]].
  - apply revisions_snoc; [|rewrite length_app; simpl; lia].
    intros i x Hi. apply lookup_app_Some in Hi as [Hi|[? Hi]].
    + apply Hr. rewrite lookup_app_l; [done|]. by eapply lookup_lt_Some.
    + apply list_lookup_singleton_Some in Hi as [? <-].
      change (GovernedTrustRoot.revision current = Z.of_nat i + 1). lia.
  - rewrite !Forall_app. split; [split|]; [done| |].
    + rewrite Forall_singleton. exact Hct.
    + rewrite Forall_singleton. exact Hroot.
  - rewrite List.removelast_last. apply Forall_app. split; [done|]. by constructor.
  - intros r. rewrite last_snoc. by intros [= <-].
Qed.

Lemma holds_ok_set t h l :
  holds_ok l -> LegalHold.tenant_id h = t -> holds_ok (dict_set (t, LegalHold.hold_id h) h l).
Proof. intros [Hn Hk] <-. split; [by apply dict_set_NoDup|]. by apply dict_forall_set. Qed.

Lemma with_lifecycle_key r st a b c : change_key (with_lifecycle r st a b c) = change_key r.
Proof. reflexivity. Qed.

(** What the status machine does to a well-formed record *)
Lemma well_formed_rejected r :
  well_formed r -> GovernanceChangeRequest.status r = STATUS_PROPOSED -> well_formed (rejected r).
Proof.
  intros [Hd Hv] Hs. split; [done|]. revert Hv.
  unfold GovernanceChangeRequest.validate_change, GovernanceChangeRequest.approved. cbn.
  rewrite Hs. cbn. done.
Qed.

Lemma well_formed_approved r now by_ :
  well_formed r -> GovernanceChangeRequest.status r = STATUS_PROPOSED ->
  GovernanceChangeRequest.high_risk r = false \/
    GovernanceChangeRequest.same_actor (GovernanceChangeRequest.proposed_by r) by_ = false ->
  well_formed (Store.approved r now by_).
Proof.
  intros [Hd Hv] Hs Hi. split; [done|]. revert Hv.
  assert (Hsame : forall a b, GovernanceChangeRequest.same_actor a b = GovernanceChangeRequest.same_actor b a).
  { intros a b. unfold GovernanceChangeRequest.same_actor. f_equal; [f_equal|];
      apply bool_decide_ext; split; congruence. }
  unfold GovernanceChangeRequest.validate_change, GovernanceChangeRequest.approved.
  change (GovernanceChangeRequest.high_risk (Store.approved r now by_))
    with (GovernanceChangeRequest.high_risk r).
  cbn [Store.approved with_lifecycle GovernanceChangeRequest.status GovernanceChangeRequest.approved_at
       GovernanceChangeRequest.approved_by GovernanceChangeRequest.applied_at
       GovernanceChangeRequest.proposed_by].
  rewrite Hs, (Hsame by_). change (mem STATUS_PROPOSED _) with false.
  change (mem STATUS_APPROVED _) with true. cbn match. intros Hv. run_inv Hv.
  change (bool_decide (STATUS_PROPOSED = STATUS_APPLIED)) with false in H2.
  change (bool_decide (STATUS_APPROVED = STATUS_APPLIED)) with false. cbn [orb andb] in *. rewrite H2.
  destruct Hi as [-> | ->]; rewrite ?andb_false_r; reflexivity.
Qed.

Lemma well_formed_applied r now :
  well_formed r -> GovernanceChangeRequest.status r = STATUS_APPROVED ->
  well_formed (Store.applied r now).
Proof.
  intros [Hd Hv] Hs. split; [done|]. revert Hv.
  unfold GovernanceChangeRequest.validate_change, GovernanceChangeRequest.approved.
  change (GovernanceChangeRequest.high_risk (Store.applied r now))
    with (GovernanceChangeRequest.high_risk r).
  cbn [Store.applied with_lifecycle GovernanceChangeRequest.status GovernanceChangeRequest.approved_at
       GovernanceChangeRequest.approved_by GovernanceChangeRequest.applied_at
       GovernanceChangeRequest.proposed_by].
  rewrite Hs. change (mem STATUS_APPROVED _) with true. change (mem STATUS_APPLIED _) with true.
  cbn match. destruct (GovernanceChangeRequest.approved_at r), (GovernanceChangeRequest.approved_by r);
    try discriminate. intros Hv. run_inv Hv. by rewrite H.
Qed.

Lemma of_insert {A} t t' (l : list A) (m : gmap string (list A)) :
  default [] (<[t := l]> m !! t') = if decide (t' = t) then l else default [] (m !! t').
Proof. destruct (decide (t' = t)) as [->|]; [by rewrite lookup_insert_eq|by rewrite lookup_insert_ne]. Qed.

Lemma of_touch {A} t t' (m : gmap string (list A)) :
  default [] (<[t := default [] (m !! t)]> m !! t') = default [] (m !! t').
Proof. rewrite of_insert. by case_decide; subst. Qed.

Definition keyed (k : string * UUID) (r : GovernanceChangeRequest) : Prop :=
  change_key r = k /\ well_formed r.

Lemma delta_changes t s s' :
  map_Forall keyed (changes s) -> delta t s s' -> map_Forall keyed (changes s').
Proof.
  intros Hc Hd.
  assert (Hmark : forall r now, ready t s r -> map_Forall keyed (<[change_key r := Store.applied r now]> (changes s))).
  { intros r now (Hk & _ & Hs). apply map_Forall_insert_2; [|done]. split; [done|].
    apply well_formed_applied; [exact (proj2 (Hc _ _ Hk))|done]. }
  destruct Hd; cbn; try done; try (by apply Hmark);
    apply map_Forall_insert_2; try done; (split; [done|]); try done.
  - apply well_formed_rejected; [exact (proj2 (Hc _ _ H))|done].
  - apply well_formed_approved; [exact (proj2 (Hc _ _ H))|done|done].
Qed.

Lemma delta_policies t s s' :
  (forall t, policies_ok t (retention_of t s)) -> delta t s s' ->
  forall t, policies_ok t (retention_of t s').
Proof.
  intros Hp Hd t'. destruct Hd; try exact (Hp t'); unfold retention_of in *; cbn.
  - rewrite of_touch. apply Hp.
  - rewrite of_insert. case_decide; subst; [|apply Hp]. by apply policies_ok_snoc.
Qed.

Lemma delta_roots t s s' :
  (forall t, roots_ok t (roots_of t s)) -> delta t s s' -> forall t, roots_ok t (roots_of t s').
Proof.
  intros Hr Hd t'. destruct Hd; try exact (Hr t'); unfold roots_of in *; cbn.
  - rewrite of_touch. apply Hr.
  - rewrite of_insert. case_decide; subst; [|apply Hr]. by apply roots_ok_one.
  - rewrite of_insert. case_decide; subst; [|apply Hr]. by eapply roots_ok_rotate.
Qed.

Lemma delta_holds t s s' : holds_ok (holds s) -> delta t s s' -> holds_ok (holds s').
Proof.
  intros Hh Hd. destruct Hd; try exact Hh; cbn.
  - by apply holds_ok_set.
  - apply (holds_ok_set t (released h now by_ (GovernanceChangeRequest.request_id r))); [done|].
    cbn. apply dict_get_elem in H0. destruct Hh as [_ Hk]. specialize (Hk _ _ H0). congruence.
Qed.

Record ordered (s : store) : Prop := {
  changes_keyed : map_Forall keyed (changes s);
  policies_kept : forall t, policies_ok t (retention_of t s);
  roots_kept : forall t, roots_ok t (roots_of t s);
  holds_keyed : holds_ok (holds s);
}.

Lemma delta_ordered t s s' : ordered s -> delta t s s' -> ordered s'.
Proof.
  intros [Hc Hp Hr Hh] Hd. split; eauto using delta_changes, delta_policies, delta_roots, delta_holds.
Qed.

Lemma deltas_ordered t s s' : ordered s -> rtc (delta t) s s' -> ordered s'.
Proof. intros Ho. induction 1; eauto using delta_ordered. Qed.

Lemma empty_ordered h : ordered (Store.empty h).
Proof.
  split; cbn.
  - apply map_Forall_empty.
  - intros t. split; [by intros i x|constructor].
  - intros t. split; [by intros i x|]. split; [constructor|]. split; [constructor|]. by intros r.
  - split; [constructor|]. intros k h' Hin. inversion Hin.
Qed.
End Spec.

(** ** Every operation is a sequence of transitions *)
Module Refinement.
Import Spec.

Section Rules.
Context (K : store -> Prop).

Lemma wp_now Q s :
  (forall t h, host_le (env s) h -> drawn h = drawn (env s) -> Q t (set_env h s)) -> wp K now_utc Q s.
Proof. intros H. apply wp_clock. eauto. Qed.

Lemma wp_uuid Q s :
  (forall h, host_le (env s) h -> drawn h = S (drawn (env s)) ->
     Q (entropy (env s) (drawn (env s))) (set_env h s)) -> wp K uuid4 Q s.
Proof. apply wp_draw. Qed.
End Rules.

Lemma plan_bounds plan :
  KeyRotationPlan.create plan = Ok plan ->
  2 <= KeyRotationPlan.to_revision plan /\
  KeyRotationPlan.activate_at plan <= KeyRotationPlan.overlap_until plan.
Proof.
  unfold KeyRotationPlan.create, KeyRotationPlan.validate_rotation. intros H. run_inv H. cbn in *. b2p.
  split; lia.
Qed.

Section Tenant.
Context (t : string) (s0 : store).
Hypothesis s0_ordered : ordered s0.

(** The states the tenant's transitions reach from [s0] *)
Definition K (s : store) : Prop := rtc (delta t) s0 s.

Lemma K_step s s' : K s -> delta t s s' -> K s'.
Proof. apply rtc_r. Qed.

Lemma K_ordered s : K s -> ordered s.
Proof. by apply deltas_ordered. Qed.

Lemma K_env s h : K s -> host_le (env s) h -> K (set_env h s).
Proof. intros HK Hh. eapply K_step; [exact HK|]. by constructor. Qed.

Lemma wp_K_now Q s : K s -> (forall x s', K s' -> (exists h, s' = set_env h s) -> Q x s') -> wp K now_utc Q s.
Proof. intros HK HQ. apply wp_now. intros x h Hh _. apply HQ; [by apply K_env|by eexists]. Qed.

Lemma wp_K_uuid Q s : K s -> (forall x s', K s' -> (exists h, s' = set_env h s) -> Q x s') -> wp K uuid4 Q s.
Proof. intros HK HQ. apply wp_uuid. intros h Hh _. apply HQ; [by apply K_env|by eexists]. Qed.

Lemma wp_require_access ctx cap Q s :
  K s ->
  (forall s', K s' -> (exists h, s' = set_env h s) -> mem cap (TenantAccessContext.capabilities ctx) = true ->
     TenantAccessContext.mode ctx = TENANT -> Q tt s') ->
  wp K (require_access ctx cap) Q s.
Proof.
  intros HK HQ. unfold require_access. apply wp_bind, wp_guard; [done|]. intros Hm. b2p.
  apply wp_bind, wp_K_now; [done|]. intros now s' HK' He.
  unfold TenantAccessContext.require_capability. destruct (negb _); cbn [require obind].
  - destruct (mem cap _) eqn:Hc; cbn; [by apply HQ|exact HK'].
  - exact HK'.
Qed.

Abbreviation access := (tenant_context t).

Lemma access_tenant ctx f : access ctx -> NonBlankStr f (TenantAccessContext.tenant_id ctx) = Ok t.
Proof.
  intros [Hc <-]. unfold TenantAccessContext.create in Hc.
  apply obind_Ok in Hc as (x & Hx & Hc). replace (TenantAccessContext.tenant_id ctx) with x.
  - by eapply NonBlankStr_again.
  - run_inv Hc. match goal with E : _ = ctx |- _ => exact (f_equal TenantAccessContext.tenant_id E) end.
Qed.

Lemma wp_audit ctx kind at_ rid target tid before after reason ticket attrs Q s :
  access ctx -> K s ->
  (forall s', K s' -> (exists h e, s' = set_audit (<[t := audit_of t s ++ [e]]> (audit s)) (set_env h s) /\
       GovernanceAuditEvent.event_type e = kind /\ GovernanceAuditEvent.attributes e = attrs) -> Q tt s') ->
  wp K (append_audit (event_of ctx kind at_ rid target tid before after reason ticket attrs)) Q s.
Proof.
  intros Ha HK HQ. unfold append_audit.
  apply wp_bind, wp_K_uuid; [done|]. intros id s1 HK1 [h ->].
  apply wp_bind, wp_lift; [done|]. intros e He. apply wp_modify.
  assert (He' : GovernanceAuditEvent.tenant_id e = t /\ GovernanceAuditEvent.event_type e = kind /\
                GovernanceAuditEvent.attributes e = attrs).
  { unfold GovernanceAuditEvent.create in He. cbn in He. rewrite (access_tenant _ _ Ha) in He.
    run_inv He. done. }
  destruct He' as (He' & Hk & Hat). rewrite He'. apply HQ; [|by exists h, e].
  eapply K_step; [exact HK1|]. by constructor.
Qed.

(** The last two lines of an operation *)
Lemma wp_audit_ret {A} ctx kind at_ rid target tid before after reason ticket attrs (a : A) s :
  access ctx -> K s ->
  wp K (append_audit (event_of ctx kind at_ rid target tid before after reason ticket attrs) ;; ret a)
    (fun _ => K) s.
Proof. intros Ha HK. apply wp_bind, wp_audit; [done..|]. intros s' HK' _. exact HK'. Qed.

(** An operation of the tenant *)
Definition tracks {A} (m : M store A) : Prop := forall s, K s -> wp K m (fun _ => K) s.

Lemma created_change r0 r :
  GovernanceChangeRequest.create r0 = Ok r ->
  well_formed r /\ GovernanceChangeRequest.request_id r = GovernanceChangeRequest.request_id r0 /\
  NonBlankStr "tenant_id" (GovernanceChangeRequest.tenant_id r0) = Ok (GovernanceChangeRequest.tenant_id r) /\
  GovernanceChangeRequest.status r = GovernanceChangeRequest.status r0.
Proof.
  unfold GovernanceChangeRequest.create. intros H. run_inv H. cbn.
  split; [|done]. split; [|by match goal with E : GovernanceChangeRequest.validate_change _ = _ |- _ => destruct a5 end].
  cbn. match goal with E : Sha256 _ _ = Ok _ |- _ => unfold Sha256 in E; case_match; [|discriminate]; injection E as <- end.
  done.
Qed.

Lemma pair_key r :
  GovernanceChangeRequest.tenant_id r = t -> (t, GovernanceChangeRequest.request_id r) = change_key r.
Proof. by intros <-. Qed.

Lemma propose_tracks ctx target target_id digest risk reason ticket expected :
  access ctx -> tracks (propose_change ctx target target_id digest risk reason ticket expected).
Proof.
  intros Ha s HK. unfold propose_change.
  apply wp_bind, wp_require_access; [done|]. intros s1 HK1 _ _ _.
  apply wp_bind, wp_K_now; [done|]. intros now s2 HK2 _.
  apply wp_bind, wp_uuid. intros h Hh Hn.
  apply wp_bind, wp_lift; [by apply K_env|]. intros r Hr.
  apply wp_bind, wp_modify, wp_audit_ret; [done|].
  apply created_change in Hr as (Hwf & Hid & Ht & Hs). cbn in Ht, Hid, Hs.
  rewrite (access_tenant _ _ Ha) in Ht. injection Ht as Ht. destruct Ha as [_ Hct].
  eapply K_step; [exact HK2|]. rewrite Hct, (pair_key r) by done.
  exact (d_propose t s2 h r (drawn (env s2)) Hh ltac:(rewrite Hn; lia) Hid (eq_sym Ht) Hs Hwf).
Qed.

Lemma wp_request id Q s :
  K s ->
  (forall r, changes s !! change_key r = Some r -> GovernanceChangeRequest.tenant_id r = t ->
     GovernanceChangeRequest.request_id r = id -> Q r s) ->
  wp K (request_locked t id) Q s.
Proof.
  intros HK HQ. unfold wp, request_locked. destruct (changes s !! (t, id)) as [r|] eqn:E; [|done].
  destruct (changes_keyed s (K_ordered s HK) _ _ E) as [Hk _]. rewrite <- Hk in E.
  unfold change_key in Hk. injection Hk as Ht Hid. by apply HQ.
Qed.

Lemma approve_tracks ctx id decision reason :
  access ctx -> tracks (approve_change ctx id decision reason).
Proof.
  intros Ha s HK. unfold approve_change. destruct (Ha) as [_ Hct]. rewrite Hct.
  apply wp_bind, wp_require_access; [done|]. intros s1 HK1 _ _ _.
  apply wp_bind, wp_K_now; [done|]. intros now s2 HK2 _.
  apply wp_bind, wp_request; [done|]. intros r Hr Ht Hid.
  apply wp_bind, wp_guard; [done|]. intros Hs. b2p.
  apply wp_bind, wp_guard; [done|]. intros Hi. b2p.
  apply wp_bind, wp_K_uuid; [done|]. intros aid s3 HK3 [h ->].
  apply wp_bind, wp_lift; [done|]. intros a Hca.
  apply wp_bind, wp_modify, wp_bind, wp_modify, wp_audit_ret; [done|].
  eapply K_step; [exact HK3|]. rewrite <- Hid, (pair_key r) by done.
  assert (Hap : GovernanceApproval.decision a = decision /\
    GovernanceApproval.request_id a = id /\ GovernanceApproval.tenant_id a = t /\
    GovernanceApproval.actor a = TenantAccessContext.actor ctx /\ GovernanceApproval.occurred_at a = now).
  { unfold GovernanceApproval.create in Hca. cbn in Hca. rewrite <- Hct, (access_tenant _ _ Ha) in Hca.
    run_inv Hca. repeat split; done. }
  destruct Hap as (Hd & Hrid & Hat & Hact & Hocc).
  destruct decision.
  - apply (d_approve t (set_env h s2) r a now (TenantAccessContext.actor ctx)); try done.
    repeat split; cbn; congruence.
  - by apply (d_reject t (set_env h s2) r a).
Qed.

Lemma wp_approved_request id target target_id digest current Q s :
  K s ->
  (forall r, ready t s r -> GovernanceChangeRequest.request_id r = id ->
     is_for r target target_id digest current -> Q r s) ->
  wp K (approved_request_locked t id target target_id digest current) Q s.
Proof.
  intros HK HQ. unfold approved_request_locked.
  apply wp_bind, wp_request; [done|]. intros r Hr Ht Hid.
  apply wp_bind, wp_guard; [done|]. intros Hs. b2p.
  apply wp_bind, wp_guard; [done|]. intros Hm. b2p.
  apply wp_bind, wp_guard; [done|]. intros Hc. b2p.
  apply wp_ret, HQ; [by repeat split|done|by repeat split].
Qed.

Lemma next_revision l :
  policies_ok t l ->
  (match last l with None => 1 | Some c => RetentionPolicy.revision c + 1 end) = Z.of_nat (length l) + 1.
Proof.
  intros [Hr _]. destruct (last l) as [c|] eqn:E.
  - by rewrite (revisions_last _ _ _ Hr E).
  - apply last_None in E. by subst.
Qed.

Lemma apply_policy_tracks ctx p id : access ctx -> tracks (apply_retention_policy ctx p id).
Proof.
  intros Ha s HK. unfold apply_retention_policy. destruct (Ha) as [_ Hct]. rewrite Hct. cbv zeta.
  apply wp_bind, wp_require_access; [done|]. intros s1 HK1 _ _ _.
  apply wp_bind, wp_guard; [done|]. intros Hpt. b2p.
  apply wp_bind, wp_K_now; [done|]. intros now s2 HK2 _.
  apply wp_bind, wp_modify. pose proof (K_step _ _ HK2 (d_touch_retention t s2)) as HK3.
  set (s3 := set_retention _ s2) in *. clearbody s3.
  apply wp_bind, wp_get, wp_bind, wp_guard; [done|]. intros Hrev. b2p.
  rewrite next_revision in Hrev by apply (policies_kept _ (K_ordered _ HK3)).
  apply wp_bind, wp_lift; [done|]. intros before _.
  apply wp_bind, wp_lift; [done|]. intros digest Hd.
  apply wp_bind, wp_approved_request; [done|]. intros r Hr Hid Hf.
  apply wp_bind, wp_modify, wp_bind, wp_modify, wp_audit_ret; [done|].
  eapply K_step; [exact HK3|]. exact (d_policy t s3 r now p digest before Hr Hpt Hrev Hd Hf).
Qed.

Lemma place_hold_tracks ctx h : access ctx -> tracks (place_legal_hold ctx h).
Proof.
  intros Ha s HK. unfold place_legal_hold. destruct (Ha) as [_ Hct]. rewrite Hct. cbv zeta.
  apply wp_bind, wp_require_access; [done|]. intros s1 HK1 _ _ _.
  apply wp_bind, wp_guard; [done|]. intros Hht. b2p.
  apply wp_bind, wp_guard; [done|]. intros Hs. b2p.
  apply wp_bind, wp_get, wp_bind, wp_guard; [done|]. intros Hn.
  apply wp_bind, wp_modify, wp_audit_ret; [done|].
  eapply K_step; [exact HK1|]. apply d_hold; [done..|].
  unfold dict_has in Hn. by destruct (dict_get _ _).
Qed.

Lemma wp_active_hold id Q s :
  K s ->
  (forall h, dict_get (t, LegalHold.hold_id h) (holds s) = Some h -> LegalHold.hold_id h = id ->
     LegalHold.status h = HOLD_ACTIVE -> Q h s) ->
  wp K (active_hold t id) Q s.
Proof.
  intros HK HQ. unfold wp, active_hold. destruct (dict_get (t, id) (holds s)) as [h|] eqn:E; [|done].
  case_bool_decide as Hs; [|done].
  destruct (holds_keyed s (K_ordered s HK)) as [_ Hh].
  pose proof (Hh _ _ (dict_get_elem _ _ _ E)) as Hk. injection Hk as Ht Hid.
  apply HQ; [by rewrite <- Hid|by subst|done].
Qed.

Lemma propose_release_tracks ctx id reason ticket :
  access ctx -> tracks (propose_legal_hold_release ctx id reason ticket).
Proof.
  intros Ha s HK. unfold propose_legal_hold_release. destruct (Ha) as [_ Hct]. rewrite Hct.
  apply wp_bind, wp_require_access; [done|]. intros s1 HK1 _ _ _.
  apply wp_bind, wp_active_hold; [done|]. intros h _ _ _.
  apply wp_bind, wp_lift; [done|]. intros digest _. by apply propose_tracks.
Qed.

Lemma release_tracks ctx id rid : access ctx -> tracks (release_legal_hold ctx id rid).
Proof.
  intros Ha s HK. unfold release_legal_hold. destruct (Ha) as [_ Hct]. rewrite Hct. cbv zeta.
  apply wp_bind, wp_require_access; [done|]. intros s1 HK1 _ _ _.
  apply wp_bind, wp_K_now; [done|]. intros now s2 HK2 _.
  apply wp_bind, wp_active_hold; [done|]. intros h Hh Hid Hs. subst id.
  apply wp_bind, wp_lift; [done|]. intros digest Hd.
  apply wp_bind, wp_approved_request; [done|]. intros r Hr Hrid Hf. subst rid.
  apply wp_bind, wp_modify, wp_bind, wp_modify, wp_audit_ret; [done|].
  eapply K_step; [exact HK2|]. exact (d_release t s2 r now h _ digest Hr Hh Hs Hd Hf).
Qed.

Lemma bootstrap_tracks ctx p at_ rid : access ctx -> tracks (bootstrap_trust_root ctx p at_ rid).
Proof.
  intros Ha s HK. unfold bootstrap_trust_root. destruct (Ha) as [_ Hct]. rewrite Hct. cbv zeta.
  apply wp_bind, wp_require_access; [done|]. intros s1 HK1 _ _ _.
  apply wp_bind, wp_lift; [done|]. intros digest Hd.
  apply wp_bind, wp_get, wp_bind, wp_guard; [done|]. intros Hn. b2p.
  apply wp_bind, wp_approved_request; [done|]. intros r Hr Hid Hf. subst rid.
  apply wp_bind, wp_lift; [done|]. intros root Hroot.
  assert (Hrt : GovernedTrustRoot.tenant_id root = t /\ GovernedTrustRoot.revision root = 1 /\
    GovernedTrustRoot.retired_at root = None /\ GovernedTrustRoot.policy root = p /\
    GovernedTrustRoot.policy_sha256 root = digest /\
    GovernedTrustRoot.change_request_id root = GovernanceChangeRequest.request_id r).
  { unfold GovernedTrustRoot.create in Hroot. cbn in Hroot. rewrite <- Hct, (access_tenant _ _ Ha) in Hroot.
    run_inv Hroot. unfold Sha256 in *. case_match; [|discriminate].
    repeat split; cbn; congruence. }
  destruct Hrt as (Htt & Hrev & Hret & <- & <- & Hcr).
  apply wp_bind, wp_modify, wp_bind, wp_now. intros now h Hh _.
  apply wp_bind, wp_modify, wp_audit_ret; [done|].
  eapply K_step; [exact HK1|]. by apply (d_bootstrap t s1 r now h root).
Qed.

(** The constructor of the new root accepts its arguments, so a rotation never stops
    between the retirement of the old root and the activation of the new one. *)
Lemma new_root_created ctx rev p digest at_ rid :
  access ctx -> 1 <= rev -> hex_string 64 digest = true ->
  let root := {| GovernedTrustRoot.tenant_id := TenantAccessContext.tenant_id ctx;
     GovernedTrustRoot.revision := rev; GovernedTrustRoot.policy := p;
     GovernedTrustRoot.policy_sha256 := digest; GovernedTrustRoot.activated_at := at_;
     GovernedTrustRoot.retired_at := None; GovernedTrustRoot.change_request_id := rid |} in
  GovernedTrustRoot.create root = Ok root.
Proof.
  intros Ha Hrev Hd root. unfold GovernedTrustRoot.create, root. cbn.
  rewrite (access_tenant _ _ Ha). destruct Ha as [_ ->]. cbn.
  rewrite (proj2 (Z.leb_le _ _) Hrev). unfold Sha256. rewrite Hd. reflexivity.
Qed.

Lemma set_last_of t' (l : list GovernedTrustRoot) (m : gmap string (list GovernedTrustRoot)) :
  default [] (<[t' := l]> m !! t') = l.
Proof. rewrite of_insert. by rewrite decide_True. Qed.

Lemma rotate_tracks ctx plan p :
  access ctx -> KeyRotationPlan.create plan = Ok plan -> tracks (rotate_trust_root ctx plan p).
Proof.
  intros Ha Hplan s HK. unfold rotate_trust_root. destruct (Ha) as [_ Hct]. rewrite Hct. cbv zeta.
  apply wp_bind, wp_require_access; [done|]. intros s1 HK1 _ _ _.
  apply wp_bind, wp_guard; [done|]. intros _.
  apply wp_bind, wp_K_now; [done|]. intros now s2 HK2 _.
  apply wp_bind, wp_guard; [done|]. intros _.
  apply wp_bind, wp_lift; [done|]. intros digest Hd.
  apply wp_bind, wp_modify. pose proof (K_step _ _ HK2 (d_touch_roots t s2)) as HK3.
  set (s3 := set_trust_roots _ s2) in *. clearbody s3.
  apply wp_bind, wp_get. destruct (last (roots_of t s3)) as [current|] eqn:Hl; [|exact HK3].
  apply wp_bind, wp_guard; [done|]. intros Hrev. b2p.
  apply wp_bind, wp_approved_request; [done|]. intros r Hr Hid Hf. rewrite <- Hid.
  apply wp_bind, wp_modify, wp_bind.
  destruct (plan_bounds _ Hplan) as [Hto Hover].
  assert (Hhex : hex_string 64 digest = true).
  { destruct Hf as (_ & _ & <- & _).
    exact (proj1 (proj2 (changes_keyed s3 (K_ordered _ HK3) _ _ (proj1 Hr)))). }
  pose proof (new_root_created ctx (KeyRotationPlan.to_revision plan) p digest
                (KeyRotationPlan.activate_at plan) (GovernanceChangeRequest.request_id r) Ha ltac:(lia) Hhex) as Hroot.
  cbv zeta in Hroot. rewrite Hct in Hroot. rewrite Hroot. set (root := {| GovernedTrustRoot.tenant_id := t |}) in *.
  unfold wp at 1, lift.
  apply wp_bind, wp_modify, wp_bind, wp_modify.
  apply wp_bind, wp_audit; [done| |].
  - eapply K_step; [exact HK3|].
    pose proof (d_rotate t s3 r now current (KeyRotationPlan.overlap_until plan) root Hr Hl eq_refl
                  ltac:(cbn; lia) Hover eq_refl Hd eq_refl Hf) as HD.
    revert HD. unfold mark, set_trust_roots, set_changes, roots_of. cbn. by rewrite set_last_of, insert_insert_eq.
  - intros s4 HK4 _. apply wp_bind, wp_get, wp_lift; done.
Qed.

Lemma instant_tracks at_ Q s :
  K s -> (forall x s', K s' -> Q x s') -> wp K (instant at_) Q s.
Proof. intros HK HQ. destruct at_; [by apply wp_ret, HQ|]. apply wp_K_now; [done|]. eauto. Qed.

Lemma audit_decisions_tracks ctx ds at_ : access ctx -> tracks (audit_decisions ctx ds at_).
Proof.
  intros Ha s HK. apply wp_for_m; [done| |done]. intros d s' HK'.
  apply wp_audit; [done..|]. by intros.
Qed.

Lemma evaluate_tracks ctx cs at_ : access ctx -> tracks (evaluate_retention ctx cs at_).
Proof.
  intros Ha s HK. unfold evaluate_retention.
  apply wp_bind, wp_require_access; [done|]. intros s1 HK1 _ _ _.
  apply wp_bind, instant_tracks; [done|]. intros at' s2 HK2.
  apply wp_bind, wp_get, wp_bind, wp_lift; [done|]. intros ds _.
  apply wp_bind. eapply wp_mono; [|by apply audit_decisions_tracks]. intros [] s3 HK3. exact HK3.
Qed.

Lemma execute_decision_tracks delete ctx at_ records cd :
  access ctx -> tracks (execute_decision delete ctx at_ records cd).
Proof.
  intros Ha s HK. destruct cd as [c d]. unfold execute_decision.
  destruct (negb _); [exact HK|].
  apply wp_bind, wp_K_uuid; [done|]. intros xid s1 HK1 _.
  apply wp_bind, wp_lift; [done|]. intros dd _. cbv zeta.
  apply wp_bind, wp_audit; [done..|]. intros s2 HK2 _.
  set (del := {| by_context := ctx |}).
  assert (HK3 : K (set_deletions (deletions s2 ++ [del]) s2)).
  { eapply K_step; [exact HK2|]. apply d_delete. exact (proj2 Ha). }
  apply wp_bind. unfold wp at 1, adapter_delete. destruct (delete _ _) as [ref|e]; [|exact HK3].
  apply wp_bind, wp_lift; [done|]. intros rec _. by apply wp_audit_ret.
Qed.

Lemma fold_tracks {A B} (f : B -> A -> M store B) xs acc :
  (forall acc x, tracks (f acc x)) -> tracks (fold_m f xs acc).
Proof.
  intros Hf. revert acc. induction xs as [|x xs IH]; intros acc s HK; cbn [fold_m]; [exact HK|].
  apply wp_bind. eapply wp_mono; [|by apply Hf]. intros acc' s' HK'. by apply IH.
Qed.

Lemma execute_tracks delete ctx cs at_ : access ctx -> tracks (execute_retention delete ctx cs at_).
Proof.
  intros Ha s HK. unfold execute_retention.
  apply wp_bind, wp_require_access; [done|]. intros s1 HK1 _ _ _.
  apply wp_bind, wp_require_access; [done|]. intros s2 HK2 _ _ _.
  apply wp_bind, wp_guard; [done|]. intros _.
  apply wp_bind, wp_lift; [done|]. intros _ _.
  apply wp_bind, wp_K_now; [done|]. intros at' s3 HK3 _.
  apply wp_bind, wp_get, wp_bind, wp_lift; [done|]. intros ds _.
  apply wp_bind. eapply wp_mono; [|by apply audit_decisions_tracks]. intros [] s4 HK4.
  apply fold_tracks; [|done]. intros acc cd. by apply execute_decision_tracks.
Qed.

Lemma manifest_tracks ctx v n a b r : access ctx -> tracks (create_transfer_manifest ctx v n a b r).
Proof.
  intros Ha s HK. unfold create_transfer_manifest. destruct (Ha) as [_ Hct].
  apply wp_bind, wp_require_access; [done|]. intros s1 HK1 _ _ _.
  apply wp_bind, wp_K_now; [done|]. intros now s2 HK2 _.
  apply wp_bind, wp_K_uuid; [done|]. intros id s3 HK3 _.
  apply wp_bind, wp_lift; [done|]. intros m Hm.
  assert (Hmt : EvidenceTransferManifest.tenant_id m = t).
  { unfold EvidenceTransferManifest.create in Hm. cbn in Hm. rewrite (access_tenant _ _ Ha) in Hm. by run_inv Hm. }
  apply wp_bind, wp_modify, wp_bind.
  assert (HK4 : K (set_exports (<[(t, EvidenceTransferManifest.transfer_id m) := m]> (exports s3)) s3)).
  { eapply K_step; [exact HK3|]. by apply d_export. }
  rewrite Hct. apply wp_lift; [done|]. intros digest _. by apply wp_audit_ret.
Qed.

Lemma import_tracks ctx m v a c : access ctx -> tracks (record_verified_import ctx m v a c).
Proof.
  intros Ha s HK. unfold record_verified_import. destruct (Ha) as [_ Hct].
  apply wp_bind, wp_require_access; [done|]. intros s1 HK1 _ _ _.
  do 2 (apply wp_bind, wp_lift; [done|]; intros ? _).
  apply wp_bind, wp_K_now; [done|]. intros now s2 HK2 _.
  apply wp_bind, wp_K_uuid; [done|]. intros id s3 HK3 _.
  apply wp_bind, wp_lift; [done|]. intros vd _.
  apply wp_bind, wp_lift; [done|]. intros rc Hm.
  assert (Hmt : EvidenceImportReceipt.tenant_id rc = t).
  { unfold EvidenceImportReceipt.create in Hm. cbn in Hm. rewrite (access_tenant _ _ Ha) in Hm. by run_inv Hm. }
  apply wp_bind, wp_modify, wp_bind.
  assert (HK4 : K (set_imports (<[(t, EvidenceImportReceipt.import_id rc) := rc]> (imports s3)) s3)).
  { eapply K_step; [exact HK3|]. by apply d_import. }
  rewrite Hct. apply wp_lift; [done|]. intros digest _. by apply wp_audit_ret.
Qed.

Lemma read_tracks {A} ctx cap (f : store -> outcome A) :
  tracks (require_access ctx cap ;; s <- get ;; lift (f s)).
Proof.
  intros s HK. apply wp_bind, wp_require_access; [done|]. intros s1 HK1 _ _ _.
  apply wp_bind, wp_get, wp_lift; done.
Qed.

Lemma run_op_tracks {A} ctx (op : operation A) :
  access ctx -> constructed_arguments op -> tracks (run_op ctx op).
Proof.
  intros Ha Hc. destruct op; cbn [run_op].
  - by apply propose_tracks.
  - by apply approve_tracks.
  - by apply apply_policy_tracks.
  - intros s HK. unfold current_retention_policy.
    apply wp_bind, wp_require_access; [done|]. intros s1 HK1 _ _ _.
    apply wp_bind, instant_tracks; [done|]. intros at' s2 HK2. exact HK2.
  - by apply place_hold_tracks.
  - by apply propose_release_tracks.
  - by apply release_tracks.
  - by apply evaluate_tracks.
  - by apply execute_tracks.
  - by apply bootstrap_tracks.
  - by apply rotate_tracks.
  - apply read_tracks.
  - by apply manifest_tracks.
  - by apply import_tracks.
  - exact (read_tracks ctx CAP_READ (fun s => Ok (audit_of (TenantAccessContext.tenant_id ctx) s))).
Qed.
End Tenant.

(** Every call is a sequence of transitions of its tenant. *)
Lemma step_deltas t s s' : ordered s -> step t s s' -> rtc (delta t) s s'.
Proof.
  intros Ho Hs. revert Ho. destruct Hs as [A ctx op s1 o s1' Ha Hc Hrun]. intros Ho.
  pose proof (run_op_tracks t s1 Ho ctx op Ha Hc s1 (rtc_refl _ _)) as H.
  unfold wp in H. rewrite Hrun in H. by destruct o.
Qed.

Lemma reachable_ordered s : reachable s -> ordered s.
Proof.
  intros [h Hr]. revert s Hr. apply (rtc_ind_r ordered (Store.empty h)); [apply empty_ordered|].
  intros y z _ [t Hs] Hy. eapply deltas_ordered; [done|]. by eapply step_deltas.
Qed.

(** What the transitions keep, the calls keep. *)
Lemma steps_preserve (R : store -> store -> Prop) `{!PreOrder R} s s' :
  (forall t a b, ordered a -> delta t a b -> R a b) ->
  ordered s -> rtc any_step s s' -> R s s'.
Proof.
  intros Hd Ho Hr. revert Ho. induction Hr as [s|s y s' [t Hs] Hr IH]; intros Ho; [reflexivity|].
  pose proof (step_deltas t s y Ho Hs) as Hsy.
  etransitivity; [|apply IH; by eapply deltas_ordered].
  clear Hs IH Hr. induction Hsy as [|a b c Hab _ IH]; [reflexivity|].
  etransitivity; [by eapply Hd|]. apply IH. by eapply delta_ordered.
Qed.
End Refinement.
