(* ===== verification/GovernanceProperties.v ===== *)
(** * The governance store: theorems

    [Module Sanctioned]: every governed effect carries an applied, approved request.
    [Module Retention]: what a retention run deletes.  [Module GovernanceProperties]:
    the theorems, with their witnesses. *)

From S2P Require Import Prelude Canonical CanonicalProofs Contracts Attestations Tenancy Host GovernanceContracts Governance GovernanceProofs.
Import Governance.Store GovernanceProofs.Spec GovernanceProofs.Refinement.

Module Sanctioned.
(** The moves of a change request *)
Inductive advances : GovernanceChangeRequest -> GovernanceChangeRequest -> Prop :=
| adv_reject r : GovernanceChangeRequest.status r = STATUS_PROPOSED -> advances r (rejected r)
| adv_approve r now by_ :
    GovernanceChangeRequest.status r = STATUS_PROPOSED ->
    GovernanceChangeRequest.high_risk r = false \/
      GovernanceChangeRequest.same_actor (GovernanceChangeRequest.proposed_by r) by_ = false ->
    advances r (Store.approved r now by_)
| adv_apply r now :
    GovernanceChangeRequest.status r = STATUS_APPROVED -> advances r (Store.applied r now).

(** The request [rid] of the tenant was applied, for this target and digest. *)
Definition applied_for (s : store) (t : string) (target : GovernanceTargetType)
    (target_id digest : string) (rid : UUID) (r : GovernanceChangeRequest) : Prop :=
  changes s !! (t, rid) = Some r /\ GovernanceChangeRequest.status r = STATUS_APPLIED /\
  GovernanceChangeRequest.target_type r = target /\
  GovernanceChangeRequest.target_id r = target_id /\
  GovernanceChangeRequest.proposed_digest r = digest.

Record governed (s : store) : Prop := {
  ids_drawn : forall k r, changes s !! k = Some r ->
    exists i, (i < drawn (env s))%nat /\ GovernanceChangeRequest.request_id r = entropy (env s) i;
  evidence : forall k r, changes s !! k = Some r -> GovernanceChangeRequest.approved r = true ->
    exists a, a ∈ default [] (approvals s !! k) /\ approval_on r a;
  policies_applied : forall t p, p ∈ retention_of t s -> exists rid r digest,
    sha256_hex (RetentionPolicy.dump p) = Ok digest /\
    applied_for s t RETENTION_POLICY (uuid_str (RetentionPolicy.policy_id p)) digest rid r;
  roots_applied : forall t g, g ∈ roots_of t s -> exists r,
    sha256_hex (TrustRootPolicy.dump (GovernedTrustRoot.policy g)) = Ok (GovernedTrustRoot.policy_sha256 g) /\
    applied_for s t TRUST_ROOT_POLICY (TrustRootPolicy.policy_id (GovernedTrustRoot.policy g))
      (GovernedTrustRoot.policy_sha256 g) (GovernedTrustRoot.change_request_id g) r;
  releases_applied : forall t id h, ((t, id), h) ∈ holds s -> LegalHold.status h = HOLD_RELEASED ->
    exists rid r digest, LegalHold.release_change_request_id h = Some rid /\
      legal_hold_release_digest t id = Ok digest /\
      applied_for s t LEGAL_HOLD_RELEASE (uuid_str id) digest rid r;
}.

Lemma empty_governed h : governed (Store.empty h).
Proof. split; cbn; intros *; rewrite ?lookup_empty; try done; intros H; inversion H. Qed.

(** A request of the store is still there after a transition, and has at most moved. *)
Lemma delta_advances t s s' k r :
  ordered s -> fresh_ids (env s) -> governed s -> delta t s s' ->
  changes s !! k = Some r -> exists r', changes s' !! k = Some r' /\ (r' = r \/ advances r r').
Proof.
  intros Ho Hf Hg Hd Hk.
  assert (Hput : forall q q', changes s !! change_key q = Some q -> advances q q' ->
    exists r', <[change_key q := q']> (changes s) !! k = Some r' /\ (r' = r \/ advances r r')).
  { intros q q' Hq Ha. destruct (decide (change_key q = k)) as [<-|Hne].
    - rewrite lookup_insert_eq. exists q'. split; [done|]. right. congruence.
    - rewrite lookup_insert_ne by done. eauto. }
  assert (Hmark : forall q now, ready t s q ->
    exists r', <[change_key q := Store.applied q now]> (changes s) !! k = Some r' /\ (r' = r \/ advances r r')).
  { intros q now (Hq & _ & Hs). by apply Hput; [|constructor]. }
  destruct Hd; cbn; eauto.
  - rewrite lookup_insert_ne; [eauto|]. intros <-.
    destruct (ids_drawn _ Hg _ _ Hk) as (j & Hj & Hrj).
    pose proof (proj1 (changes_keyed _ Ho _ _ Hk)) as Hkey.
    unfold change_key in Hkey. injection Hkey as _ Hid. rewrite Hrj, H1 in Hid.
    apply Hf in Hid. lia.
  - apply Hput; [done|]. by constructor.
  - apply Hput; [done|]. by constructor.
Qed.

Lemma applied_final r r' : GovernanceChangeRequest.status r = STATUS_APPLIED -> ~ advances r r'.
Proof. intros Hs Ha. destruct Ha; congruence. Qed.

Section Step.
Context (t : string) (s s' : store).
Hypotheses (Ho : ordered s) (Hf : fresh_ids (env s)) (Hg : governed s) (Hd : delta t s s').

Lemma applied_mono t' target tid digest rid r :
  applied_for s t' target tid digest rid r -> applied_for s' t' target tid digest rid r.
Proof.
  intros (Hr & Hs & H). destruct (delta_advances _ _ _ _ _ Ho Hf Hg Hd Hr) as (r' & Hr' & [->|Ha]).
  - by split.
  - by apply applied_final in Ha.
Qed.

Lemma env_le : host_le (env s) (env s').
Proof. destruct Hd; cbn; try done; reflexivity. Qed.

Lemma approvals_grow k a :
  a ∈ default [] (approvals s !! k) -> a ∈ default [] (approvals s' !! k).
Proof.
  intros Ha.
  assert (Hput : forall j b, a ∈ default [] (<[j := default [] (approvals s !! j) ++ [b]]> (approvals s) !! k)).
  { intros j b. destruct (decide (j = k)) as [->|].
    - rewrite lookup_insert_eq. cbn. set_solver.
    - by rewrite lookup_insert_ne. }
  destruct Hd; cbn; auto.
Qed.

(** The requests of the new state: an old one, a proposal, or one that moved *)
Lemma changes_of k r' :
  changes s' !! k = Some r' ->
  changes s !! k = Some r' \/
  (change_key r' = k /\ GovernanceChangeRequest.status r' = STATUS_PROPOSED /\
     exists i, (i < drawn (env s'))%nat /\ GovernanceChangeRequest.request_id r' = entropy (env s) i) \/
  (exists r now, r' = Store.applied r now /\ changes s !! k = Some r /\
     GovernanceChangeRequest.status r = STATUS_APPROVED) \/
  (exists r, r' = rejected r /\ changes s !! k = Some r /\
     GovernanceChangeRequest.status r = STATUS_PROPOSED) \/
  (exists r a now by_, r' = Store.approved r now by_ /\ changes s !! k = Some r /\
     approval_on r' a /\ a ∈ default [] (approvals s' !! k)).
Proof.
  assert (Hmark : forall q now, ready t s q -> <[change_key q := Store.applied q now]> (changes s) !! k = Some r' ->
    changes s !! k = Some r' \/ exists r now, r' = Store.applied r now /\ changes s !! k = Some r /\
     GovernanceChangeRequest.status r = STATUS_APPROVED).
  { intros q now (Hq & _ & Hs) [[<- <-]|[_ H]]%lookup_insert_Some; [right|by left]. eauto. }
  destruct Hd as [| | | |h r i|r a|r a now by_| | | | | | | |]; cbn; auto;
    try (intros H'; eapply Hmark in H'; [|done]; tauto);
    intros [[<- <-]|[_ Hk]]%lookup_insert_Some; auto.
  - right. left. split; [done|]. split; [done|]. exists i. split; [lia|done].
  - do 3 right. left. eauto.
  - do 4 right. exists r, a, now, by_. rewrite lookup_insert_eq. cbn. set_solver.
Qed.

Lemma mark_applied_for r now target tid digest current s1 :
  ready t s1 r -> is_for r target tid digest current ->
  applied_for (mark r now s1) t target tid digest (GovernanceChangeRequest.request_id r)
    (Store.applied r now).
Proof.
  intros (_ & Hrt & _) (F1 & F2 & F3 & _).
  split; [cbn; rewrite (pair_key _ r Hrt); apply lookup_insert_eq|]. by repeat split.
Qed.

Lemma ready_env r h s1 : ready t (set_env h s1) r = ready t s1 r.
Proof. done. Qed.

Lemma policy_applied t' p :
  p ∈ retention_of t' s' -> p ∈ retention_of t' s \/
  exists r rid digest, sha256_hex (RetentionPolicy.dump p) = Ok digest /\
    applied_for s' t' RETENTION_POLICY (uuid_str (RetentionPolicy.policy_id p)) digest rid r.
Proof.
  destruct Hd; unfold retention_of; cbn; auto; rewrite ?of_touch; auto.
  destruct (String.eq_dec t' t) as [->|Hne]; [rewrite lookup_insert_eq|rewrite lookup_insert_ne by done; auto].
  intros [Hin| ->%list_elem_of_singleton]%elem_of_app; [by left|right].
  eexists _, _, _. split; [done|]. eapply (mark_applied_for r now); [exact H|exact H3].
Qed.

Lemma root_applied t' g :
  g ∈ roots_of t' s' ->
  (exists g0, g0 ∈ roots_of t' s /\ (g = g0 \/ exists o, g = retired g0 o)) \/
  exists r, sha256_hex (TrustRootPolicy.dump (GovernedTrustRoot.policy g)) = Ok (GovernedTrustRoot.policy_sha256 g) /\
    applied_for s' t' TRUST_ROOT_POLICY (TrustRootPolicy.policy_id (GovernedTrustRoot.policy g))
      (GovernedTrustRoot.policy_sha256 g) (GovernedTrustRoot.change_request_id g) r.
Proof.
  destruct Hd as [| | | | | | | | | |r now h root Hr Hn Hh Ht Hrev Hret Hsha Hid Hfor
    |r now current overlap root Hr Hl Ht Hrev Hle Hret Hsha Hid Hfor| | |];
    unfold roots_of in *; cbn; rewrite ?of_touch; eauto;
    (destruct (String.eq_dec t' t) as [->|Hne]; [rewrite lookup_insert_eq|rewrite lookup_insert_ne by done; eauto]).
  - intros ->%list_elem_of_singleton. right. eexists. split; [done|]. rewrite Hid.
    eapply (mark_applied_for r now); [exact Hr|exact Hfor].
  - unfold set_last. intros [[Hin| ->%list_elem_of_singleton]%elem_of_app| ->%list_elem_of_singleton]%elem_of_app.
    + left. exists g. split; [|by left]. rewrite (last_snoc_inv _ _ Hl). set_solver.
    + left. exists current. split; [|eauto]. rewrite (last_snoc_inv _ _ Hl). set_solver.
    + right. eexists. split; [done|]. rewrite Hid.
      eapply (mark_applied_for r now); [exact Hr|exact Hfor].
Qed.

Lemma release_applied t' id h :
  ((t', id), h) ∈ holds s' -> LegalHold.status h = HOLD_RELEASED ->
  ((t', id), h) ∈ holds s \/
  exists rid r digest, LegalHold.release_change_request_id h = Some rid /\
    legal_hold_release_digest t' id = Ok digest /\
    applied_for s' t' LEGAL_HOLD_RELEASE (uuid_str id) digest rid r.
Proof.
  destruct Hd as [| | | | | | | |g Ht Hs Hn|r now g by_ digest Hr Hh Hs Hdig Hfor| | | | |]; cbn; auto.
  - intros [[[= -> ->] ->]|Hin]%elem_of_dict_set; [congruence|by left].
  - intros [[[= -> ->] ->]|Hin]%elem_of_dict_set; [|by left]. intros _. right.
    eexists _, _, digest. split; [reflexivity|]. split; [done|].
    eapply (mark_applied_for r now); [exact Hr|exact Hfor].
Qed.

Lemma delta_governed : governed s'.
Proof.
  pose proof env_le as (Hck & Hen & _ & Hdr). split.
  - intros k r' Hk. rewrite Hen.
    destruct (changes_of k r' Hk) as [H|[(_ & _ & H)|[(r & now & -> & H & _)|[(r & -> & H & _)|
      (r & a & now & by_ & -> & H & _)]]]]; [|done|..];
      destruct (ids_drawn _ Hg _ _ H) as (i & Hi & E); exists i; (split; [lia|exact E]).
  - intros k r' Hk Hap.
    destruct (changes_of k r' Hk) as [H|[(_ & Hs & _)|[(r & now & -> & H & Hs)|[(r & -> & H & Hs)|
      (r & a & now & by_ & -> & H & Hon & Ha)]]]].
    + destruct (evidence _ Hg _ _ H Hap) as (a & Ha & Hon). eauto using approvals_grow.
    + unfold GovernanceChangeRequest.approved in Hap. rewrite Hs in Hap. discriminate.
    + destruct (evidence _ Hg _ _ H) as (a & Ha & Hon).
      { unfold GovernanceChangeRequest.approved. by rewrite Hs. }
      exists a. split; [by apply approvals_grow|exact Hon].
    + done.
    + eauto.
  - intros t' p [Hin|(r & rid & digest & H)]%policy_applied; [|eauto].
    destruct (policies_applied _ Hg _ _ Hin) as (rid & r & digest & Hdig & Ha).
    exists rid, r, digest. split; [done|by apply applied_mono].
  - intros t' g [(g0 & Hin & [->|[o ->]])|H]%root_applied; [| |done];
      destruct (roots_applied _ Hg _ _ Hin) as (r & Hdig & Ha); exists r; (split; [exact Hdig|]);
      by apply applied_mono.
  - intros t' id h Hin Hs. destruct (release_applied t' id h Hin Hs) as [Hold|H]; [|done].
    destruct (releases_applied _ Hg _ _ _ Hold Hs) as (rid & r & digest & Hr & Hdig & Ha).
    exists rid, r, digest. split; [done|]. split; [done|by apply applied_mono].
Qed.
End Step.

(** *** Along the calls *)
Definition tracked (s s' : store) : Prop :=
  host_le (env s) (env s') /\
  (fresh_ids (env s) -> governed s -> governed s' /\
     forall k r, changes s !! k = Some r -> exists r', changes s' !! k = Some r' /\ rtc advances r r').

#[export] Instance tracked_preorder : PreOrder tracked.
Proof.
  split.
  - intros s. split; [reflexivity|]. intros _ Hg. split; [done|]. intros k r Hr. exists r. by split.
  - intros a b c [Hab H1] [Hbc H2]. split; [by etransitivity|]. intros Hf Hg.
    destruct (H1 Hf Hg) as [Hgb Hab']. destruct (H2 (fresh_le _ _ Hab Hf) Hgb) as [Hgc Hbc'].
    split; [done|]. intros k r Hr. destruct (Hab' k r Hr) as (r1 & Hr1 & A1).
    destruct (Hbc' k r1 Hr1) as (r2 & Hr2 & A2). exists r2. split; [done|]. by etransitivity.
Qed.

Lemma steps_tracked s s' : ordered s -> rtc any_step s s' -> tracked s s'.
Proof.
  apply steps_preserve; [apply _|]. intros t a b Ho Hd. split; [by eapply env_le|].
  intros Hf Hg. split; [by eapply delta_governed|]. intros k r Hr.
  destruct (delta_advances t a b k r Ho Hf Hg Hd Hr) as (r' & Hr' & [->|Ha]);
    eexists; (split; [exact Hr'|]); [reflexivity|by apply rtc_once].
Qed.

Lemma reachable_governed h s :
  fresh_ids h -> rtc any_step (Store.empty h) s -> governed s /\ fresh_ids (env s).
Proof.
  intros Hf Hr. destruct (steps_tracked _ _ (empty_ordered h) Hr) as [Hle H].
  destruct (H Hf (empty_governed h)) as [Hg _]. split; [done|]. exact (fresh_le _ _ Hle Hf).
Qed.
End Sanctioned.

Module Retention.
(** ** The decision, as a test *)

(** No hold covers the candidate, its type may be deleted, and its retention and
    grace have elapsed. *)
Definition due (p : RetentionPolicy) (held : list LegalHold) (now : datetime) (c : RetentionCandidate) : bool :=
  let rule := RetentionPolicy.rule_for p (RetentionCandidate.resource_type c) in
  negb (existsb (fun h => LegalHold.applies_to h c) held) && negb (undeletable rule) &&
  match retain_for p rule with
  | None => false
  | Some n => RetentionCandidate.created_at c + seconds (n + grace_of rule) <=? now
  end.

Lemma round_half_even_int n : round_half_even n 1 = n.
Proof.
  pose proof (round_half_even_bounds n 1). lia.
Qed.

Lemma plus_seconds_Ok created n x : plus_seconds created n = Ok x -> x = created + seconds n.
Proof.
  unfold plus_seconds. intros H. run_inv H. unfold timedelta_seconds, float_of_int in *.
  cbn [QArith_base.Qnum QArith_base.Qden] in *. case_match; [|discriminate].
  match goal with E : Ok _ = Ok _ |- _ => injection E as <- end. by rewrite round_half_even_int.
Qed.

Lemma decision_of_disposition p c at_ disp dnb ids reason d :
  decision_of p c at_ disp dnb ids reason = Ok d -> RetentionDecision.disposition d = disp.
Proof. unfold decision_of, RetentionDecision.create. intros H. by run_inv H. Qed.

Lemma existsb_matching held c :
  bool_decide (map LegalHold.hold_id (List.filter (fun h => LegalHold.applies_to h c) held) = []) =
  negb (existsb (fun h => LegalHold.applies_to h c) held).
Proof.
  induction held as [|h held IH]; [done|]. cbn. by destruct (LegalHold.applies_to h c).
Qed.

Lemma decision_for_due p held c now d :
  decision_for p held c now = Ok d ->
  RetentionCandidate.tenant_id c = RetentionPolicy.tenant_id p /\
  bool_decide (RetentionDecision.disposition d = DELETE) = due p held now c.
Proof.
  unfold decision_for. intros H. apply obind_Ok in H as (u & Ht & H). run_inv Ht. b2p. split; [done|].
  cbv zeta in H. rewrite existsb_matching, negb_involutive in H. unfold due. cbv zeta.
  destruct (existsb _ _); [by apply decision_of_disposition in H as ->|].
  destruct (undeletable _); [by apply decision_of_disposition in H as ->|]. cbn [negb andb].
  destruct (retain_for _ _) as [n|]; [|by apply decision_of_disposition in H as ->].
  apply obind_Ok in H as (x & Hx%plus_seconds_Ok & H). subst x.
  rewrite Z.leb_antisym. destruct (now <? _); by apply decision_of_disposition in H as ->.
Qed.

Lemma decisions_due p held cs now ds :
  map_o (fun c => decision_for p held c now) cs = Ok ds ->
  Forall (fun c => RetentionCandidate.tenant_id c = RetentionPolicy.tenant_id p) cs /\
  map fst (List.filter (fun cd => bool_decide (RetentionDecision.disposition (snd cd) = DELETE))
             (combine cs ds)) = List.filter (due p held now) cs.
Proof.
  revert ds. induction cs as [|c cs IH]; intros ds H; cbn in H; [injection H as <-; by split|].
  run_inv H. destruct (IH _ H) as [IH1 IH2].
  match goal with E : decision_for _ _ _ _ = Ok _ |- _ => apply decision_for_due in E as [Ht Hd] end.
  split; [by constructor|]. cbn [combine List.filter]. cbn [snd]. rewrite Hd.
  destruct (due p held now c); cbn [map fst]; by rewrite IH2.
Qed.

(** Only active holds of the tenant can cover its candidates. *)
Lemma active_holds_all t s c :
  holds_ok (holds s) -> RetentionCandidate.tenant_id c = t ->
  existsb (fun h => LegalHold.applies_to h c) (active_holds t s) =
  existsb (fun h => LegalHold.applies_to h c) (dict_values (holds s)).
Proof.
  intros [_ Hk] Ht. unfold active_holds, dict_values.
  induction (holds s) as [|[[t' id] h] l IH]; [done|]. cbn [List.filter map existsb snd].
  assert (Hl : dict_forall (fun k h => k = (LegalHold.tenant_id h, LegalHold.hold_id h)) l)
    by (intros k g Hin; apply Hk; by constructor).
  pose proof (Hk _ _ (list_elem_of_here _ _)) as [= Et _].
  destruct (bool_decide (t' = t) && bool_decide (LegalHold.status h = HOLD_ACTIVE)) eqn:E;
    cbn [map existsb snd]; rewrite (IH Hl); [done|].
  replace (LegalHold.applies_to h c) with false; [done|]. symmetry.
  unfold LegalHold.applies_to. apply andb_false_iff in E as [E|E]; b2p.
  - rewrite (bool_decide_false (LegalHold.tenant_id h = _)) by congruence. by rewrite andb_false_r.
  - by rewrite bool_decide_false.
Qed.

(** ** The run *)
Definition calls_for (ctx : TenantAccessContext) (cd : RetentionCandidate * RetentionDecision) : deletion :=
  {| by_context := ctx; deleted := fst cd; upon := snd cd |}.

(** The audit log of the tenant records the intent to delete upon [d]. *)
Definition intent (t : string) (s : store) (d : RetentionDecision) : Prop :=
  exists e digest, e ∈ audit_of t s /\
    GovernanceAuditEvent.event_type e = RETENTION_DELETION_INTENT_RECORDED /\
    sha256_hex (RetentionDecision.dump d) = Ok digest /\
    ("decision_sha256", digest) ∈ GovernanceAuditEvent.attributes e.

Definition frame (t : string) (s s' : store) : Prop :=
  holds s' = holds s /\ retention s' = retention s /\ audit_of t s ⊆ audit_of t s'.

#[export] Instance frame_preorder t : PreOrder (frame t).
Proof.
  split; [done|]. intros a b c (H1 & H2 & H3) (G1 & G2 & G3). split; [congruence|]. split; [congruence|].
  set_solver.
Qed.

Lemma intent_frame t s s' d : frame t s s' -> intent t s d -> intent t s' d.
Proof. intros (_ & _ & Ha) (e & digest & He & H). exists e, digest. split; [by apply Ha|done]. Qed.

Lemma wp_append (K : store -> Prop) t ctx kind at_ rid target tid before after reason ticket attrs Q s :
  tenant_context t ctx -> (forall h, K (set_env h s)) ->
  (forall h e, GovernanceAuditEvent.event_type e = kind -> GovernanceAuditEvent.attributes e = attrs ->
     Q tt (set_audit (<[t := audit_of t s ++ [e]]> (audit s)) (set_env h s))) ->
  wp K (append_audit (event_of ctx kind at_ rid target tid before after reason ticket attrs)) Q s.
Proof.
  intros Ha HK HQ. unfold append_audit. apply wp_bind, wp_uuid. intros h _ _.
  apply wp_bind, wp_lift; [apply HK|]. intros e He. apply wp_modify.
  assert (E : GovernanceAuditEvent.tenant_id e = t /\ GovernanceAuditEvent.event_type e = kind /\
              GovernanceAuditEvent.attributes e = attrs).
  { unfold GovernanceAuditEvent.create in He. cbn in He. rewrite (access_tenant t ctx _ Ha) in He.
    by run_inv He. }
  destruct E as (-> & Hk & Hat). by apply HQ.
Qed.

Lemma audit_of_snoc t s h e :
  audit_of t (set_audit (<[t := audit_of t s ++ [e]]> (audit s)) (set_env h s)) = audit_of t s ++ [e].
Proof. unfold audit_of. cbn. by rewrite lookup_insert_eq. Qed.

Definition candidate_key (c : RetentionCandidate) : string * string :=
  (RetentionCandidate.resource_type c, RetentionCandidate.resource_id c).
Definition record_key (r : RetentionExecutionRecord) : string * string :=
  (RetentionExecutionRecord.resource_type r, RetentionExecutionRecord.resource_id r).

Lemma record_key_of c r0 r :
  RetentionCandidate.create c = Ok c -> RetentionExecutionRecord.create r0 = Ok r ->
  record_key r0 = candidate_key c -> record_key r = candidate_key c.
Proof.
  unfold RetentionCandidate.create, RetentionExecutionRecord.create, record_key, candidate_key.
  intros Hc Hr [= E1 E2]. rewrite E1, E2 in Hr. run_inv Hr. run_inv Hc. cbn.
  match goal with E : _ = c |- _ =>
    pose proof (f_equal RetentionCandidate.resource_type E) as F1;
    pose proof (f_equal RetentionCandidate.resource_id E) as F2 end.
  cbn in F1, F2. congruence.
Qed.

Section Run.
Context (t : string) (ctx : TenantAccessContext) (delete : list deletion -> deletion -> outcome string)
  (now : datetime).
Hypothesis Hctx : tenant_context t ctx.

(** Where one turn of the loop, on a decision to delete, can stop *)
Definition stopped (s : store) (cd : RetentionCandidate * RetentionDecision) (s' : store) : Prop :=
  frame t s s' /\
  (deletions s' = deletions s \/
   deletions s' = deletions s ++ [calls_for ctx cd] /\ intent t s' (snd cd)).

Lemma execute_decision_run records c d s :
  RetentionCandidate.create c = Ok c -> RetentionDecision.disposition d = DELETE ->
  wp (stopped s (c, d)) (execute_decision delete ctx now records (c, d))
    (fun records' s' => frame t s s' /\ deletions s' = deletions s ++ [calls_for ctx (c, d)] /\
       intent t s' d /\ map record_key records' = map record_key records ++ [candidate_key c]) s.
Proof.
  intros Hc Hd. unfold execute_decision. rewrite Hd. cbn [bool_decide negb].
  change (negb (bool_decide (DELETE = DELETE))) with false. cbn match.
  apply wp_bind, wp_uuid. intros h1 _ _.
  apply wp_bind, wp_lift; [by split; [|left]|]. intros digest Hdig. cbv zeta.
  apply wp_bind, (wp_append _ t); [done|intros h; by split; [|left]|]. intros h2 e Hk Hat.
  set (s2 := set_audit _ _).
  assert (Hf2 : frame t s s2).
  { split; [done|]. split; [done|]. unfold s2. rewrite audit_of_snoc. set_solver. }
  assert (Hi2 : intent t s2 d).
  { exists e, digest. unfold s2. rewrite audit_of_snoc, Hat. set_solver. }
  apply wp_bind. unfold wp at 1, adapter_delete.
  set (s3 := set_deletions (deletions s2 ++ [calls_for ctx (c, d)]) s2).
  change (set_deletions (deletions s2 ++ [_]) s2) with s3.
  assert (Hs3 : frame t s s3 /\ deletions s3 = deletions s ++ [calls_for ctx (c, d)] /\ intent t s3 d) by done.
  generalize (delete (deletions s2) {| by_context := ctx; deleted := c; upon := d |}) as res. intros res.
  clearbody s3. clear s2 Hf2 Hi2. destruct Hs3 as (Hf3 & Hd3 & Hi3).
  assert (Hstop : forall h, stopped s (c, d) (set_env h s3)) by (intros h; split; [exact Hf3|by right]).
  destruct res as [ref|e']; [|exact (Hstop (env s3))].
  apply wp_bind, wp_lift; [exact (Hstop (env s3))|]. intros rec Hrec.
  apply wp_bind, (wp_append _ t); [done..|]. intros h3 e3 _ _. apply wp_ret.
  assert (Hf4 : frame t s3 (set_audit (<[t := audit_of t s3 ++ [e3]]> (audit s3)) (set_env h3 s3))).
  { split; [done|]. split; [done|]. rewrite audit_of_snoc. set_solver. }
  split; [by etransitivity|]. split; [done|]. split; [by eapply intent_frame|].
  rewrite map_app. cbn [map]. do 2 f_equal. by eapply record_key_of.
Qed.

Definition to_delete (cds : list (RetentionCandidate * RetentionDecision)) :=
  List.filter (fun cd => bool_decide (RetentionDecision.disposition (snd cd) = DELETE)) cds.

Lemma fold_run cds records s o s' :
  Forall (fun cd => RetentionCandidate.create (fst cd) = Ok (fst cd)) cds ->
  fold_m (execute_decision delete ctx now) cds records s = (o, s') ->
  frame t s s' /\ exists calls, calls `prefix_of` map (calls_for ctx) (to_delete cds) /\
    deletions s' = deletions s ++ calls /\ Forall (fun x => intent t s' (upon x)) calls /\
    (forall records', o = Ok records' ->
       calls = map (calls_for ctx) (to_delete cds) /\
       map record_key records' = map record_key records ++ map (fun cd => candidate_key (fst cd)) (to_delete cds)).
Proof.
  intros Hcs. revert records s. induction Hcs as [|[c d] cds Hc _ IH]; intros records s H.
  - injection H as <- <-. split; [reflexivity|]. exists []. rewrite app_nil_r.
    split; [apply prefix_nil|]. repeat split; [constructor|]. injection H as <-. by rewrite app_nil_r.
  - cbn [fold_m] in H. unfold bind in H. cbn [to_delete List.filter snd].
    fold (to_delete cds). destruct (bool_decide (RetentionDecision.disposition d = DELETE)) eqn:Ed; b2p.
    + pose proof (execute_decision_run records c d s Hc Ed) as W. unfold wp in W.
      destruct (execute_decision delete ctx now records (c, d) s) as [[recs1|e] s1] eqn:E1.
      * destruct W as (Hf & Hdel & Hi & Hrk). destruct (IH _ _ H) as (Hf' & calls & Hp & Hd' & Hall & Hok).
        split; [by etransitivity|]. exists (calls_for ctx (c, d) :: calls).
        split; [by apply prefix_cons|]. split; [rewrite Hd', Hdel, <- app_assoc; done|].
        split; [constructor; [by eapply intent_frame|done]|].
        intros records' ->. destruct (Hok _ eq_refl) as [-> ->]. split; [done|].
        rewrite Hrk, <- app_assoc. done.
      * injection H as <- <-. destruct W as [Hf Hd]. split; [done|].
        destruct Hd as [Hd|[Hd Hi]].
        -- exists []. rewrite app_nil_r. split; [apply prefix_nil|]. repeat split; [done|constructor|done..].
        -- exists [calls_for ctx (c, d)]. split; [apply prefix_cons, prefix_nil|].
           repeat split; [done|by constructor|done..].
    + assert (E1 : execute_decision delete ctx now records (c, d) s = (Ok records, s)).
      { unfold execute_decision. rewrite bool_decide_false by done. done. }
      rewrite E1 in H. by apply IH.
Qed.
End Run.

Definition tick (h : host) : host :=
  {| clock := clock h; ticks := S (ticks h); entropy := entropy h; drawn := drawn h |}.

Lemma wp_require_tick (K : store -> Prop) ctx cap Q s :
  K s -> K (set_env (tick (env s)) s) -> Q tt (set_env (tick (env s)) s) ->
  wp K (require_access ctx cap) Q s.
Proof.
  intros HK HK' HQ. unfold require_access. apply wp_bind, wp_guard; [done|]. intros _.
  apply wp_bind. change (wp K now_utc ?P s) with (P (clock (env s) (ticks (env s))) (set_env (tick (env s)) s)).
  cbv beta. unfold TenantAccessContext.require_capability.
  destruct (negb _); cbn [require obind]; [|exact HK']. by destruct (mem cap _).
Qed.

(** The second reading of the clock after the authorisation fixes the instant. *)
Definition evaluation_time (s : store) : datetime := clock (env s) (ticks (env s) + 2).

(** Everything before the loop only audits. *)
Definition audited (t : string) (s s' : store) : Prop := frame t s s' /\ deletions s' = deletions s.

#[export] Instance audited_preorder t : PreOrder (audited t).
Proof.
  split; [by split|]. intros a b c [H1 H2] [G1 G2]. split; [by etransitivity|congruence].
Qed.

Lemma audited_env t s h : audited t s (set_env h s).
Proof. by split. Qed.

Lemma audit_decisions_run t ctx ds at_ s0 s Q :
  tenant_context t ctx -> audited t s0 s -> (forall s', audited t s0 s' -> Q tt s') ->
  wp (audited t s0) (audit_decisions ctx ds at_) Q s.
Proof.
  intros Hc Hs HQ. unfold audit_decisions. apply wp_for_m; [done| |done].
  intros d s1 H1. apply (wp_append _ t); [done|intros h; exact H1|]. intros h e _ _.
  etransitivity; [exact H1|]. split; [|done]. split; [done|]. split; [done|].
  rewrite audit_of_snoc. set_solver.
Qed.

Lemma effective_policy_tenant t now s p :
  ordered s -> effective_policy t now s = Some p -> RetentionPolicy.tenant_id p = t.
Proof.
  intros Ho He. destruct (policies_kept _ Ho t) as [_ Ht].
  unfold effective_policy in He. apply last_Some_elem_of, list_elem_of_In, filter_In in He as [Hin _].
  rewrite Forall_forall in Ht. by apply Ht, list_elem_of_In.
Qed.

(** What the decisions of a run come to *)
Lemma decisions_of_run t now s cs ds :
  ordered s -> retention_decisions t cs now s = Ok ds ->
  exists p, effective_policy t now s = Some p /\ length ds = length cs /\
    Forall (fun c => RetentionCandidate.tenant_id c = t) cs /\
    map fst (to_delete (combine cs ds)) = List.filter (due p (dict_values (holds s)) now) cs.
Proof.
  intros Ho H. unfold retention_decisions in H. destruct (effective_policy t now s) as [p|] eqn:Hp; [|done].
  exists p. split; [done|]. pose proof (effective_policy_tenant _ _ _ _ Ho Hp) as Hpt.
  destruct (decisions_due _ _ _ _ _ H) as [Ht Hf]. rewrite Hpt in Ht.
  split; [|split; [done|]].
  - clear -H. revert ds H. induction cs as [|c cs IH]; intros ds H; cbn in H; run_inv H; [done|].
    cbn. f_equal. by apply IH.
  - unfold to_delete. rewrite Hf. clear -Ht Ho. induction Ht as [|c cs Ht _ IH]; [done|].
    cbn [List.filter]. rewrite IH. unfold due at 1 3. cbv zeta.
    by rewrite (active_holds_all t s c (holds_keyed _ Ho) Ht).
Qed.
End Retention.

Module GovernanceProperties.
Import Sanctioned Retention.

(** What the calls of a run come to, whether or not it completes *)
Definition run_calls (t : string) (ctx : TenantAccessContext) (cs : list RetentionCandidate)
    (st st' : store) (calls : list deletion) : Prop :=
  frame t st st' /\ deletions st' = deletions st ++ calls /\
  NoDup (map (fun x => candidate_key (deleted x)) calls) /\
  Forall (fun x => by_context x = ctx /\ RetentionCandidate.tenant_id (deleted x) = t /\
                   intent t st' (upon x)) calls /\
  (calls = [] \/ exists p, effective_policy t (evaluation_time st) st = Some p /\
     map deleted calls `prefix_of` List.filter (due p (dict_values (holds st)) (evaluation_time st)) cs).

Lemma no_calls t ctx cs st st' : audited t st st' -> run_calls t ctx cs st st' [].
Proof.
  intros [Hf Hd]. split; [done|]. rewrite app_nil_r. split; [done|].
  split; [constructor|]. split; [constructor|by left].
Qed.

Lemma prefix_map {A B} (f : A -> B) l k : l `prefix_of` k -> map f l `prefix_of` map f k.
Proof. intros [m ->]. rewrite map_app. by eexists. Qed.

Lemma NoDup_map_prefix {A B} (f : A -> B) p l k :
  NoDup (map f l) -> k `prefix_of` List.filter p l -> NoDup (map f k).
Proof.
  intros Hn [m Hm]. assert (Hf : NoDup (map f (List.filter p l))).
  { clear Hm. induction l as [|x l IH]; [done|]. cbn [map] in Hn. apply NoDup_cons in Hn as [Hx Hn].
    cbn [List.filter]. destruct (p x); [|by apply IH]. cbn [map]. apply NoDup_cons. split; [|by apply IH].
    intros Hin. apply Hx. apply list_elem_of_fmap in Hin as (y & -> & Hy).
    apply list_elem_of_fmap_2. by apply list_elem_of_In, filter_In, proj1, list_elem_of_In in Hy. }
  rewrite Hm, map_app in Hf. by apply NoDup_app in Hf as [H _].
Qed.

Lemma run_of_fold t ctx delete cs st s ds o st' :
  ordered st -> tenant_context t ctx -> Forall (fun c => RetentionCandidate.create c = Ok c) cs ->
  require_unique_candidates cs = Ok tt ->
  retention_decisions t cs (evaluation_time st) st = Ok ds -> audited t st s ->
  fold_m (execute_decision delete ctx (evaluation_time st)) (combine cs ds) [] s = (o, st') ->
  exists calls, run_calls t ctx cs st st' calls /\
    (forall records, o = Ok records -> exists p, effective_policy t (evaluation_time st) st = Some p /\
       map deleted calls = List.filter (due p (dict_values (holds st)) (evaluation_time st)) cs /\
       map record_key records = map (fun x => candidate_key (deleted x)) calls).
Proof.
  intros Ho Hctx Hcs Hu Hds [Hfr Hdel] H.
  destruct (decisions_of_run t _ st cs ds Ho Hds) as (p & Hp & Hlen & Ht & Hmap).
  assert (Hcomb : Forall (fun cd => RetentionCandidate.create (fst cd) = Ok (fst cd)) (combine cs ds)).
  { apply Forall_forall. intros [c d] Hin%list_elem_of_In%in_combine_l%list_elem_of_In.
    rewrite Forall_forall in Hcs. by apply Hcs. }
  destruct (fold_run t ctx delete _ Hctx _ _ _ _ _ Hcomb H) as (Hf & calls & Hpre & Hd & Hi & Hok).
  assert (Hdm : map deleted (map (calls_for ctx) (to_delete (combine cs ds))) =
                List.filter (due p (dict_values (holds st)) (evaluation_time st)) cs)
    by (rewrite map_map; exact Hmap).
  exists calls. apply (prefix_map deleted) in Hpre as Hpre'. rewrite Hdm in Hpre'.
  assert (Hin : forall x, x ∈ calls -> by_context x = ctx /\ deleted x ∈ cs).
  { intros x Hx. split.
    - destruct Hpre as [k Hk]. assert (Hx' : x ∈ map (calls_for ctx) (to_delete (combine cs ds)))
        by (rewrite Hk; set_solver).
      by apply list_elem_of_fmap in Hx' as (cd & -> & _).
    - assert (Hx' : deleted x ∈ map deleted calls) by (by apply list_elem_of_fmap_2).
      destruct Hpre' as [k Hk]. assert (Hx2 : deleted x ∈ map deleted calls ++ k) by set_solver.
      rewrite <- Hk in Hx2. by apply list_elem_of_In, filter_In, proj1, list_elem_of_In in Hx2. }
  split.
  - split; [by etransitivity|]. split; [congruence|]. split; [|split; [|right; eauto]].
    + rewrite <- (map_map deleted candidate_key). unfold require_unique_candidates in Hu. run_inv Hu.
      apply py_unique_true in Hu. by eapply NoDup_map_prefix.
    + rewrite Forall_forall in Hi. rewrite Forall_forall in Ht. apply Forall_forall. intros x Hx.
      destruct (Hin x Hx) as [Hb Hc]. split; [done|]. split; [by apply Ht|by apply Hi].
  - intros records ->. destruct (Hok _ eq_refl) as [-> Hrk]. exists p. split; [done|]. split; [done|].
    rewrite Hrk, map_map. done.
Qed.

(** C8: A retention run, whether it returns or raises half-way, asks the adapter to
    delete only candidates of the caller's tenant that are due under the effective
    policy at the instant the clock gave the run: no hold of the store covers them,
    their type is deletable, and their retention and grace have elapsed.  It asks in
    the order of the candidates and for no resource twice; the intent, with the
    digest of the decision, is in the audit log for every deletion asked for; holds
    and policies stay as they were.  A run that returns has asked for every due
    candidate, and returns one record for each. *)
Theorem retention_deletes_only_due st t ctx delete cs o st' :
  reachable st -> tenant_context t ctx -> Forall (fun c => RetentionCandidate.create c = Ok c) cs ->
  execute_retention delete ctx cs None st = (o, st') ->
  exists calls, run_calls t ctx cs st st' calls /\
    (forall records, o = Ok records -> exists p, effective_policy t (evaluation_time st) st = Some p /\
       map deleted calls = List.filter (due p (dict_values (holds st)) (evaluation_time st)) cs /\
       map record_key records = map (fun x => candidate_key (deleted x)) calls).
Proof.
  intros Hr Hctx Hcs. pose proof (reachable_ordered _ Hr) as Ho.
  set (Q := fun records s' => exists calls, run_calls t ctx cs st s' calls /\
    exists p, effective_policy t (evaluation_time st) st = Some p /\
       map deleted calls = List.filter (due p (dict_values (holds st)) (evaluation_time st)) cs /\
       map record_key records = map (fun x => candidate_key (deleted x)) calls).
  set (K := fun s' => exists calls, run_calls t ctx cs st s' calls).
  assert (HK : forall s', audited t st s' -> K s') by (intros s' H; exists []; by apply no_calls).
  intros H. enough (W : wp K (execute_retention delete ctx cs None) Q st).
  { unfold wp in W. rewrite H in W. destruct o as [recs|e].
    - destruct W as (calls & Hc & Hp). exists calls. split; [done|]. by intros records [= <-].
    - destruct W as (calls & Hc). exists calls. by split. }
  clear H. unfold execute_retention.
  apply wp_bind, wp_require_tick; [by apply HK|by apply HK, audited_env|].
  apply wp_bind, wp_require_tick; [by apply HK|by apply HK|].
  apply wp_bind, wp_guard; [by apply HK|]. intros _.
  apply wp_bind, wp_lift; [by apply HK|]. intros [] Hu.
  apply wp_bind. change (wp K now_utc ?P ?s) with (P (clock (env s) (ticks (env s))) (set_env (tick (env s)) s)).
  cbv beta. cbn [env set_env clock ticks tick].
  replace (clock (env st) (S (S (ticks (env st))))) with (evaluation_time st) by (unfold evaluation_time; f_equal; lia).
  apply wp_bind, wp_get, wp_bind, wp_lift; [by apply HK|]. rewrite (proj2 Hctx). intros ds Hds.
  apply wp_bind. apply (wp_weaken (audited t st)); [exact HK|].
  apply (audit_decisions_run t); [done|by split|]. intros s1 Hs1. unfold wp.
  destruct (fold_m _ _ _ s1) as [o1 s2] eqn:E.
  destruct (run_of_fold t ctx delete cs st s1 ds o1 s2 Ho Hctx Hcs Hu Hds Hs1 E) as (calls & Hc & Hok).
  destruct o1 as [recs|e]; [|by exists calls]. exists calls. split; [done|]. by apply Hok.
Qed.

(** The request [rid] was applied for this target and digest, on the evidence of an
    approval in the log whose actor is not the proposer when the risk is high. *)
Definition sanctioned (s : store) (t : string) (target : GovernanceTargetType)
    (target_id digest : string) (rid : UUID) : Prop :=
  exists r a, applied_for s t target target_id digest rid r /\
    a ∈ default [] (approvals s !! (t, rid)) /\ approval_on r a /\
    (GovernanceChangeRequest.high_risk r = true ->
     GovernanceChangeRequest.same_actor (GovernanceApproval.actor a)
       (GovernanceChangeRequest.proposed_by r) = false).

Lemma applied_sanctioned s t target tid digest rid r :
  ordered s -> governed s -> applied_for s t target tid digest rid r ->
  sanctioned s t target tid digest rid.
Proof.
  intros Ho Hg Ha. pose proof Ha as (Hr & Hs & _).
  assert (Hap : GovernanceChangeRequest.approved r = true) by (unfold GovernanceChangeRequest.approved; by rewrite Hs).
  destruct (evidence _ Hg _ _ Hr Hap) as (a & Hin & Hon). exists r, a.
  split; [done|]. split; [done|]. split; [done|]. intros Hhigh.
  destruct (changes_keyed _ Ho _ _ Hr) as [_ [_ Hv]]. destruct Hon as (_ & _ & _ & Hby & Hat).
  unfold GovernanceChangeRequest.validate_change in Hv. rewrite Hap, Hby, Hat, Hhigh in Hv.
  run_inv Hv. cbn [andb] in *. b2p. assumption.
Qed.

(** C9: With identifiers that are never drawn twice, nothing governed happens without
    its request: every retention policy in force, every trust root and every released
    hold of a reachable store names, by target and by the digest of what was put in
    force, a change request of its tenant that was applied and that the log shows
    approved, by someone other than the proposer when the risk is high or critical.
    And a request is never lost or rewritten: from any reachable state on it only
    moves from proposed to rejected or approved, and from approved to applied. *)
Theorem governed_changes_sanctioned h st st' :
  fresh_ids h -> rtc any_step (Store.empty h) st -> rtc any_step st st' ->
  (forall t p, p ∈ retention_of t st -> exists rid digest,
     sha256_hex (RetentionPolicy.dump p) = Ok digest /\
     sanctioned st t RETENTION_POLICY (uuid_str (RetentionPolicy.policy_id p)) digest rid) /\
  (forall t g, g ∈ roots_of t st ->
     sha256_hex (TrustRootPolicy.dump (GovernedTrustRoot.policy g)) = Ok (GovernedTrustRoot.policy_sha256 g) /\
     sanctioned st t TRUST_ROOT_POLICY (TrustRootPolicy.policy_id (GovernedTrustRoot.policy g))
       (GovernedTrustRoot.policy_sha256 g) (GovernedTrustRoot.change_request_id g)) /\
  (forall t id hold, ((t, id), hold) ∈ holds st -> LegalHold.status hold = HOLD_RELEASED ->
     exists rid digest, LegalHold.release_change_request_id hold = Some rid /\
       legal_hold_release_digest t id = Ok digest /\
       sanctioned st t LEGAL_HOLD_RELEASE (uuid_str id) digest rid) /\
  (forall k r, changes st !! k = Some r ->
     exists r', changes st' !! k = Some r' /\ rtc advances r r').
Proof.
  intros Hf Hr Hr'. destruct (reachable_governed h st Hf Hr) as [Hg Hf'].
  assert (Ho : ordered st) by (apply reachable_ordered; by exists h).
  split; [|split; [|split]].
  - intros t p Hp. destruct (policies_applied _ Hg _ _ Hp) as (rid & r & digest & Hd & Ha).
    exists rid, digest. split; [done|]. by eapply applied_sanctioned.
  - intros t g Hin. destruct (roots_applied _ Hg _ _ Hin) as (r & Hd & Ha).
    split; [done|]. by eapply applied_sanctioned.
  - intros t id hold Hin Hs. destruct (releases_applied _ Hg _ _ _ Hin Hs) as (rid & r & digest & Hrid & Hd & Ha).
    exists rid, digest. split; [done|]. split; [done|]. by eapply applied_sanctioned.
  - intros k r Hk. destruct (steps_tracked _ _ Ho Hr') as [_ H]. by apply (H Hf' Hg).
Qed.

(** ** Rotation *)
Lemma policy_for_map t l l' at_ k :
  map GovernedTrustRoot.policy (List.filter (fun g => GovernedTrustRoot.covers g at_ k) l) =
  map GovernedTrustRoot.policy (List.filter (fun g => GovernedTrustRoot.covers g at_ k) l') ->
  forall t', TrustRootHistory.policy_for {| TrustRootHistory.tenant_id := t; TrustRootHistory.roots := l |} at_ k =
  TrustRootHistory.policy_for {| TrustRootHistory.tenant_id := t'; TrustRootHistory.roots := l' |} at_ k.
Proof.
  unfold TrustRootHistory.policy_for. cbn. intros H _.
  destruct (List.filter _ l) as [|a [|b m]], (List.filter _ l') as [|a' [|b' m']]; cbn in H; try done.
  congruence.
Qed.

Lemma rotate_result t ctx plan policy st history st' :
  tenant_context t ctx -> KeyRotationPlan.create plan = Ok plan ->
  rotate_trust_root ctx plan policy st = (Ok history, st') ->
  exists current root, last (roots_of t st) = Some current /\
    GovernedTrustRoot.activated_at root = KeyRotationPlan.activate_at plan /\
    GovernedTrustRoot.policy root = policy /\
    TrustRootHistory.tenant_id history = t /\
    TrustRootHistory.roots history =
      set_last (retired current (KeyRotationPlan.overlap_until plan)) (roots_of t st) ++ [root] /\
    TrustRootHistory.roots history = roots_of t st'.
Proof.
  intros Hctx Hplan Hrun.
  set (Q := fun history st' => exists current root, last (roots_of t st) = Some current /\
    GovernedTrustRoot.activated_at root = KeyRotationPlan.activate_at plan /\
    GovernedTrustRoot.policy root = policy /\
    TrustRootHistory.tenant_id history = t /\
    TrustRootHistory.roots history =
      set_last (retired current (KeyRotationPlan.overlap_until plan)) (roots_of t st) ++ [root] /\
    TrustRootHistory.roots history = roots_of t st').
  enough (W : wp (fun _ => True) (rotate_trust_root ctx plan policy) Q st) by (unfold wp in W; by rewrite Hrun in W).
  clear Hrun history st'. unfold rotate_trust_root. rewrite (proj2 Hctx). cbv zeta.
  apply wp_bind, wp_require_tick; [done..|]. apply wp_bind, wp_guard; [done|]. intros _.
  apply wp_bind, wp_now. intros now h _ _. apply wp_bind, wp_guard; [done|]. intros _.
  apply wp_bind, wp_lift; [done|]. intros digest _.
  apply wp_bind, wp_modify, wp_bind, wp_get.
  change (roots_of t (set_trust_roots _ _)) with
    (default [] (<[t := roots_of t st]> (trust_roots st) !! t)) at 1.
  rewrite set_last_of. destruct (last (roots_of t st)) as [current|] eqn:Hl; [|done].
  apply wp_bind, wp_guard; [done|]. intros _. apply wp_bind.
  unfold approved_request_locked. apply wp_bind. unfold wp at 1, request_locked.
  destruct (changes _ !! _) as [r|]; [|done].
  do 3 (apply wp_bind, wp_guard; [done|]; intros _). apply wp_ret, wp_bind, wp_modify, wp_bind, wp_lift; [done|].
  intros root Hroot.
  assert (Hr : GovernedTrustRoot.activated_at root = KeyRotationPlan.activate_at plan /\
               GovernedTrustRoot.policy root = policy).
  { unfold GovernedTrustRoot.create in Hroot. run_inv Hroot. by split. }
  apply wp_bind, wp_modify, wp_bind, wp_modify, wp_bind, (wp_append _ t); [done..|].
  intros h2 e _ _. apply wp_bind, wp_get, wp_lift; [done|]. intros history Hh.
  assert (Hh' : TrustRootHistory.tenant_id history = t /\ TrustRootHistory.roots history =
    set_last (retired current (KeyRotationPlan.overlap_until plan)) (roots_of t st) ++ [root]).
  { unfold TrustRootHistory.create in Hh. cbn [TrustRootHistory.tenant_id TrustRootHistory.roots] in Hh.
    pose proof (access_tenant t ctx "tenant_id" Hctx) as Ht. rewrite (proj2 Hctx) in Ht. rewrite Ht in Hh.
    run_inv Hh. split; [done|]. cbn. unfold roots_of. cbn. by rewrite !lookup_insert_eq. }
  destruct Hh' as [Htt Hroots]. exists current, root. destruct Hr as [Hr1 Hr2].
  split; [reflexivity|]. split; [exact Hr1|]. split; [exact Hr2|]. split; [exact Htt|]. split; [exact Hroots|].
  rewrite Hroots. unfold roots_of. cbn. by rewrite !lookup_insert_eq.
Qed.

(** The tenant's history as the store holds it *)
Definition held_history (t : string) (s : store) : TrustRootHistory :=
  {| TrustRootHistory.tenant_id := t; TrustRootHistory.roots := roots_of t s |}.

(** C10: A rotation of a tenant's trust root never changes a verdict on the past: a
    checkpoint created before the new root's activation verifies against the history
    the rotation returns exactly as it did before, and so does the choice of a policy
    for any earlier instant and key.  From the end of the overlap on the retired root
    covers nothing.  The returned history is the stored one. *)
Theorem rotation_keeps_past_verdicts verify st t ctx plan policy history st' :
  reachable st -> tenant_context t ctx -> KeyRotationPlan.create plan = Ok plan ->
  rotate_trust_root ctx plan policy st = (Ok history, st') ->
  (forall c, SignedCheckpoint.created_at c < KeyRotationPlan.activate_at plan ->
     verify_checkpoint_history verify c history = verify_checkpoint_history verify c (held_history t st)) /\
  (forall at_ key, at_ < KeyRotationPlan.activate_at plan ->
     TrustRootHistory.policy_for history at_ key = TrustRootHistory.policy_for (held_history t st) at_ key) /\
  (exists root, last (roots_of t st') = Some root /\ GovernedTrustRoot.policy root = policy /\
     forall at_ key, KeyRotationPlan.overlap_until plan <= at_ ->
       List.filter (fun g => GovernedTrustRoot.covers g at_ key) (roots_of t st') =
       List.filter (fun g => GovernedTrustRoot.covers g at_ key) (removelast (roots_of t st)) ++
       (if GovernedTrustRoot.covers root at_ key then [root] else [])) /\
  history = held_history t st'.
Proof.
  intros Hr Hctx Hplan Hrun. pose proof (reachable_ordered _ Hr) as Ho.
  destruct (rotate_result _ _ _ _ _ _ _ Hctx Hplan Hrun) as (current & root & Hl & Hact & Hpol & Ht & Hroots & Hst).
  destruct (plan_bounds _ Hplan) as [_ Hover].
  destruct (roots_kept _ Ho t) as (_ & _ & _ & Hnone). specialize (Hnone _ Hl).
  pose proof (last_snoc_inv _ _ Hl) as Hsnoc.
  assert (Hpast : forall at_ key, at_ < KeyRotationPlan.activate_at plan ->
     TrustRootHistory.policy_for history at_ key = TrustRootHistory.policy_for (held_history t st) at_ key).
  { intros at_ key Hat. destruct history as [t' roots]. cbn in Hroots, Ht. subst. unfold held_history.
    apply policy_for_map. rewrite Hsnoc at 2. unfold set_last. rewrite !List.filter_app, !map_app. cbn [List.filter].
    assert (E1 : GovernedTrustRoot.covers root at_ key = false).
    { unfold GovernedTrustRoot.covers. by rewrite Hact, (proj2 (Z.leb_gt _ _)). }
    assert (E2 : GovernedTrustRoot.covers (retired current (KeyRotationPlan.overlap_until plan)) at_ key =
                 GovernedTrustRoot.covers current at_ key).
    { unfold GovernedTrustRoot.covers. cbn. rewrite Hnone, (proj2 (Z.ltb_lt _ _)); [done|lia]. }
    rewrite E1, E2. cbn [map]. rewrite app_nil_r. f_equal. by destruct (GovernedTrustRoot.covers current at_ key). }
  split; [|split; [done|split]].
  - intros c Hc. unfold verify_checkpoint_history. by rewrite Ht, Hpast.
  - exists root. rewrite <- Hst, Hroots, last_snoc. split; [done|]. split; [done|]. intros at_ key Hat.
    unfold set_last. rewrite !List.filter_app. cbn [List.filter].
    assert (E : GovernedTrustRoot.covers (retired current (KeyRotationPlan.overlap_until plan)) at_ key = false).
    { unfold GovernedTrustRoot.covers. cbn. rewrite (proj2 (Z.ltb_ge _ _)) by lia.
      by rewrite andb_false_r. }
    rewrite E, app_nil_r. f_equal.
  - destruct history. unfold held_history. cbn in *. congruence.
Qed.

(** ** Confinement *)

(** What the store holds for a tenant is the same. *)
Definition same_tenant (t : string) (s s' : store) : Prop :=
  (forall id, changes s' !! (t, id) = changes s !! (t, id)) /\
  (forall id, approvals s' !! (t, id) = approvals s !! (t, id)) /\
  retention_of t s' = retention_of t s /\
  (forall id, dict_get (t, id) (holds s') = dict_get (t, id) (holds s)) /\
  roots_of t s' = roots_of t s /\
  (forall id, exports s' !! (t, id) = exports s !! (t, id)) /\
  (forall id, imports s' !! (t, id) = imports s !! (t, id)) /\
  audit_of t s' = audit_of t s.

#[export] Instance same_tenant_preorder t : PreOrder (same_tenant t).
Proof.
  split; [by repeat split|]. unfold same_tenant. intros a b c H G.
  decompose [and] H. decompose [and] G. repeat split; intros; etransitivity; eauto.
Qed.

(** What a transition of [t] leaves to the others, and its own log *)
Definition confined (t : string) (s s' : store) : Prop :=
  (forall t', t' <> t -> same_tenant t' s s') /\
  audit_of t s `prefix_of` audit_of t s' /\
  exists calls, deletions s' = deletions s ++ calls /\
    Forall (fun x => TenantAccessContext.tenant_id (by_context x) = t) calls.

#[export] Instance confined_preorder t : PreOrder (confined t).
Proof.
  split.
  - intros s. split; [intros; reflexivity|]. split; [done|]. exists []. by rewrite app_nil_r.
  - intros a b c (H1 & H2 & k1 & E1 & F1) (G1 & G2 & k2 & E2 & F2).
    split; [intros t' Ht; etransitivity; eauto|]. split; [by etransitivity|].
    exists (k1 ++ k2). rewrite E2, E1, app_assoc. split; [done|]. by apply Forall_app.
Qed.

Lemma delta_confined t s s' : delta t s s' -> confined t s s'.
Proof.
  assert (Hk : forall t' id r, t' <> t -> GovernanceChangeRequest.tenant_id r = t -> change_key r <> (t', id))
    by (unfold change_key; congruence).
  assert (Hready : forall r, ready t s r -> GovernanceChangeRequest.tenant_id r = t) by (by intros r (_ & H & _)).
  intros Hd. split; [|split].
  - intros t' Ht. assert (Hne : forall A B, (t, A) <> (t', B) :> string * UUID) by congruence.
    destruct Hd; cbn; unfold same_tenant, retention_of, roots_of, audit_of; cbn; repeat split; try done;
      intros; rewrite ?lookup_insert_ne, ?dict_get_set_ne; auto.
  - destruct Hd; unfold audit_of; cbn; try done. rewrite lookup_insert_eq. by eexists.
  - destruct Hd; cbn; try (exists []; rewrite app_nil_r; by split).
    eexists. split; [done|]. by constructor.
Qed.

(** The context does not authorise [cap] at the instant [now]. *)
Definition denied (ctx : TenantAccessContext) (cap : TenantCapability) (now : datetime) : Prop :=
  TenantAccessContext.mode ctx <> TENANT \/ cap ∉ TenantAccessContext.capabilities ctx \/
  exists e, TenantAccessContext.expires_at ctx = Some e /\ e <= now.

Lemma run_op_head {A} ctx (op : operation A) :
  exists k, forall s, run_op ctx op s = bind (require_access ctx (demands op)) (fun _ => k) s.
Proof. destruct op; by eexists. Qed.

(** C24: A call only touches its tenant: of every other tenant the store keeps the
    requests, approvals, policies, holds, trust roots, transfers and audit log as
    they were, whatever the call returns or raises.  Its own audit log only grows,
    and what it deletes it deletes in its own name.  A context in support mode,
    without the capability the operation demands, or expired when the clock is read,
    is refused with [AuthorizationDeniedError], and nothing but the clock moved. *)
Theorem governance_confined {A} st t ctx (op : operation A) o st' :
  reachable st -> tenant_context t ctx -> constructed_arguments op -> run_op ctx op st = (o, st') ->
  confined t st st' /\
  (denied ctx (demands op) (clock (env st) (ticks (env st))) ->
   (exists m, o = Raise (AuthorizationDeniedError m)) /\ exists h, st' = set_env h st).
Proof.
  intros Hr Hctx Hargs Hrun. split.
  - pose proof (step_deltas t st st' (reachable_ordered _ Hr) ltac:(by econstructor)) as Hd.
    clear -Hd. induction Hd as [|a b c Hab _ IH]; [reflexivity|].
    etransitivity; [by apply delta_confined|done].
  - intros Hden. destruct (run_op_head ctx op) as [k Hk]. rewrite Hk in Hrun. clear Hk.
    unfold bind, require_access in Hrun. unfold guard, lift, require in Hrun.
    destruct (bool_decide (TenantAccessContext.mode ctx = TENANT)) eqn:Hm; b2p.
    + revert Hrun. unfold now_utc, zoom, read_clock, TenantAccessContext.require_capability. cbn.
      destruct Hden as [?|[Hcap|(e & He & Hle)]]; [done| |].
      * destruct (negb _); cbn [require obind]; [|intros [= <- <-]; split; by eexists].
        unfold mem. rewrite bool_decide_false by done. cbn. intros [= <- <-]. split; by eexists.
      * rewrite He, (proj2 (Z.leb_le _ _) Hle). cbn. intros [= <- <-]. split; by eexists.
    + injection Hrun as <- <-. split; [by eexists|]. exists (env st). by destruct st.
Qed.

(** ** A tenant that configures, deletes and rotates *)
Definition w_host : host := {|
  clock := fun n => seconds (1000 + Z.of_nat n); ticks := 0;
  entropy := fun i => Z.of_nat i + 1; drawn := 0 |}.

Lemma w_fresh : fresh_ids w_host.
Proof. intros i j H. cbn in H. lia. Qed.

Definition w_actor : ActorRef := {|
  ActorRef.kind := AGENT; ActorRef.id := "ops"; ActorRef.display_name := None;
  ActorRef.tenant_id := "acme"; ActorRef.workload_identity := None; ActorRef.attributes := [] |}.

Definition w_context (caps : list TenantCapability) : TenantAccessContext := {|
  TenantAccessContext.tenant_id := "acme"; TenantAccessContext.actor := w_actor;
  TenantAccessContext.mode := TENANT; TenantAccessContext.capabilities := caps;
  TenantAccessContext.elevation_id := None; TenantAccessContext.reason := None;
  TenantAccessContext.ticket_reference := None; TenantAccessContext.issued_at := 0;
  TenantAccessContext.expires_at := None |}.

Definition w_ctx : TenantAccessContext :=
  w_context [CAP_CONFIGURE; CAP_APPROVE; CAP_DELETE; CAP_READ; CAP_LEGAL_HOLD].

Lemma w_ctx_ok : tenant_context "acme" w_ctx.
Proof. split; vm_compute; reflexivity. Qed.

Definition w_do {A} (op : operation A) (st : store) : store := snd (run_op w_ctx op st).

Lemma w_do_reachable {A} (op : operation A) st :
  constructed_arguments op -> rtc any_step (Store.empty w_host) st ->
  rtc any_step (Store.empty w_host) (w_do op st).
Proof.
  intros Hc Hr. eapply rtc_r; [exact Hr|]. exists "acme".
  apply (step_op "acme" w_ctx op st (fst (run_op w_ctx op st))); [exact w_ctx_ok|done|].
  apply surjective_pairing.
Qed.

Definition ok_or {A} (d : A) (o : outcome A) : A := match o with Ok a => a | Raise _ => d end.

(** Proposes and approves a change; the request's identity is the next one drawn. *)
Definition w_approved (target : GovernanceTargetType) (target_id digest : string)
    (current : option string) (st : store) : store :=
  let id := entropy (env st) (drawn (env st)) in
  w_do (op_approve id APPROVE "reviewed")
    (w_do (op_propose target target_id digest RISK_LOW "change" "T-1" current) st).

Lemma w_approved_reachable target tid digest current st :
  rtc any_step (Store.empty w_host) st ->
  rtc any_step (Store.empty w_host) (w_approved target tid digest current st).
Proof. intros H. by do 2 (apply w_do_reachable; [done|]). Qed.

Definition w_policy : RetentionPolicy := {|
  RetentionPolicy.policy_id := 77; RetentionPolicy.tenant_id := "acme"; RetentionPolicy.revision := 1;
  RetentionPolicy.effective_at := 0; RetentionPolicy.default_retain_for_seconds := Some 60;
  RetentionPolicy.rules := []; RetentionPolicy.created_at := 0; RetentionPolicy.created_by := w_actor |}.

Definition w_digest : string := ok_or "" (sha256_hex (RetentionPolicy.dump w_policy)).

Definition w_configured : store :=
  w_do (op_apply_policy w_policy 1)
    (w_approved RETENTION_POLICY (uuid_str 77) w_digest None (Store.empty w_host)).

Lemma w_configured_reachable : rtc any_step (Store.empty w_host) w_configured.
Proof. apply w_do_reachable; [done|]. apply w_approved_reachable, rtc_refl. Qed.

Definition w_candidate (id : string) (created : datetime) : RetentionCandidate := {|
  RetentionCandidate.tenant_id := "acme"; RetentionCandidate.resource_type := "event";
  RetentionCandidate.resource_id := id; RetentionCandidate.created_at := created;
  RetentionCandidate.content_sha256 := None; RetentionCandidate.attributes := [] |}.

Definition w_candidates : list RetentionCandidate :=
  [w_candidate "old" 0; w_candidate "new" (seconds 1000); w_candidate "older" 0].

(** The adapter fails on its second call. *)
Definition w_delete (log : list deletion) (d : deletion) : outcome string :=
  match log with [] => Ok "ref-1" | _ => Raise (OtherError "TimeoutError" "storage") end.

Local Notation w_run delete := (execute_retention delete w_ctx w_candidates None w_configured).

Lemma w_run_ok : is_ok (fst (w_run (fun _ _ => Ok "ref"))) = true /\
  map deleted (deletions (snd (w_run w_delete))) = [w_candidate "old" 0; w_candidate "older" 0] /\
  is_ok (fst (w_run w_delete)) = false.
Proof. split; [|split]; vm_compute; reflexivity. Qed.

Lemma w_due : forall p, effective_policy "acme" (evaluation_time w_configured) w_configured = Some p ->
  List.filter (due p (dict_values (holds w_configured)) (evaluation_time w_configured)) w_candidates =
  [w_candidate "old" 0; w_candidate "older" 0].
Proof.
  assert (E : effective_policy "acme" (evaluation_time w_configured) w_configured = Some w_policy)
    by (vm_compute; reflexivity).
  rewrite E. intros p [= <-]. vm_compute. reflexivity.
Qed.

Lemma w_candidates_ok : Forall (fun c => RetentionCandidate.create c = Ok c) w_candidates.
Proof. repeat constructor. Qed.

Lemma retention_deletes_only_due_witness :
  exists calls, run_calls "acme" w_ctx w_candidates w_configured (snd (w_run (fun _ _ => Ok "ref"))) calls /\
    map deleted calls = [w_candidate "old" 0; w_candidate "older" 0].
Proof.
  pose proof (proj1 w_run_ok) as Hok. destruct (execute_retention (fun _ _ => Ok "ref") w_ctx w_candidates None w_configured) as [o st'] eqn:E.
  destruct (retention_deletes_only_due w_configured "acme" w_ctx (fun _ _ => Ok "ref") w_candidates o st'
              (ex_intro _ _ w_configured_reachable) w_ctx_ok w_candidates_ok E) as (calls & H & Hrec).
  exists calls. split; [exact H|]. destruct o as [recs|e]; [|discriminate Hok].
  destruct (Hrec recs eq_refl) as (p & Hp & Hd & _). rewrite Hd. exact (w_due p Hp).
Defined.

Lemma w_retention : retention_of "acme" w_configured = [w_policy].
Proof. vm_compute. reflexivity. Qed.

Lemma governed_changes_sanctioned_witness :
  exists rid digest, sanctioned w_configured "acme" RETENTION_POLICY (uuid_str 77) digest rid.
Proof.
  destruct (governed_changes_sanctioned w_host w_configured w_configured w_fresh w_configured_reachable
              (rtc_refl _ _)) as (H & _).
  destruct (H "acme" w_policy) as (rid & digest & _ & Hs).
  - rewrite w_retention. apply list_elem_of_here.
  - exists rid, digest. exact Hs.
Defined.

(** *** Rotation *)
Definition w_root (revision : string) : TrustRootPolicy := {|
  TrustRootPolicy.policy_id := "root"; TrustRootPolicy.revision := revision;
  TrustRootPolicy.trusted_keys := []; TrustRootPolicy.allowed_signers := [];
  TrustRootPolicy.allow_historical_signatures_before_revocation := true |}.

Definition w_root_digest (revision : string) : string :=
  ok_or "" (sha256_hex (TrustRootPolicy.dump (w_root revision))).

Definition w_bootstrapped : store :=
  w_do (op_bootstrap (w_root "1") (seconds 10) 1)
    (w_approved TRUST_ROOT_POLICY "root" (w_root_digest "1") None (Store.empty w_host)).

Definition w_to_rotate : store :=
  w_approved TRUST_ROOT_POLICY "root" (w_root_digest "2") (Some (w_root_digest "1")) w_bootstrapped.

Definition w_plan : KeyRotationPlan := {|
  KeyRotationPlan.rotation_id := 5; KeyRotationPlan.tenant_id := "acme";
  KeyRotationPlan.from_revision := 1; KeyRotationPlan.to_revision := 2;
  KeyRotationPlan.activate_at := seconds 2000; KeyRotationPlan.overlap_until := seconds 3000;
  KeyRotationPlan.change_request_id := 6; KeyRotationPlan.emergency := false |}.

Lemma w_to_rotate_reachable : rtc any_step (Store.empty w_host) w_to_rotate.
Proof.
  apply w_approved_reachable, w_do_reachable; [done|]. apply w_approved_reachable, rtc_refl.
Qed.

Local Notation w_rotated := (rotate_trust_root w_ctx w_plan (w_root "2") w_to_rotate).

Lemma w_past : seconds 1500 < KeyRotationPlan.activate_at w_plan.
Proof. vm_compute. reflexivity. Qed.

Lemma w_plan_ok : KeyRotationPlan.create w_plan = Ok w_plan.
Proof. reflexivity. Qed.

Lemma w_rotated_ok : is_ok (fst w_rotated) = true /\
  TrustRootHistory.policy_for (held_history "acme" w_to_rotate) (seconds 1500) None = Ok (w_root "1").
Proof. split; vm_compute; reflexivity. Qed.

Lemma rotation_keeps_past_verdicts_witness :
  exists history, fst w_rotated = Ok history /\
    TrustRootHistory.policy_for history (seconds 1500) None = Ok (w_root "1").
Proof.
  pose proof w_rotated_ok as [Hok Hbefore]. destruct (rotate_trust_root w_ctx w_plan (w_root "2") w_to_rotate) as [o st'] eqn:E.
  destruct o as [history|e]; [|discriminate Hok]. exists history. split; [reflexivity|].
  destruct (rotation_keeps_past_verdicts (fun _ _ _ => true) w_to_rotate "acme" w_ctx w_plan (w_root "2")
              history st' (ex_intro _ _ w_to_rotate_reachable) w_ctx_ok w_plan_ok E) as (_ & H & _).
  rewrite (H (seconds 1500) None w_past). exact Hbefore.
Defined.

(** *** Refusal *)
Lemma w_reader_ok : tenant_context "acme" (w_context [CAP_READ]).
Proof. split; vm_compute; reflexivity. Qed.

Lemma governance_confined_witness :
  exists m, fst (run_op (w_context [CAP_READ]) (op_release 3 4) w_configured) = Raise (AuthorizationDeniedError m).
Proof.
  destruct (run_op (w_context [CAP_READ]) (op_release 3 4) w_configured) as [o st'] eqn:E.
  destruct (governance_confined w_configured "acme" (w_context [CAP_READ]) (op_release 3 4) o st'
              (ex_intro _ _ w_configured_reachable) w_reader_ok I E) as [_ H].
  destruct H as [[m Hm] _]; [|exists m; exact Hm].
  right. left. set_solver.
Defined.

(** *** One actor releases a hold alone

    The release of a hold is documented to be classified critical and approved
    independently.  The risk is the proposer's choice, and nothing looks at it when
    the hold is released. *)
Definition w_hold : LegalHold := {|
  LegalHold.hold_id := 9; LegalHold.tenant_id := "acme"; LegalHold.status := HOLD_ACTIVE;
  LegalHold.reason := "litigation"; LegalHold.case_reference := "C-1"; LegalHold.resource_types := [];
  LegalHold.resource_ids := []; LegalHold.placed_at := seconds 900; LegalHold.placed_by := w_actor;
  LegalHold.released_at := None; LegalHold.released_by := None; LegalHold.release_change_request_id := None |}.

Definition w_released_alone : outcome LegalHold :=
  let st := w_do (op_place_hold w_hold) (Store.empty w_host) in
  let id := entropy (env st) (drawn (env st)) in
  let digest := ok_or "" (legal_hold_release_digest "acme" 9) in
  fst (run_op w_ctx (op_release 9 id) (w_approved LEGAL_HOLD_RELEASE (uuid_str 9) digest None st)).

Example hold_released_by_one_actor : is_ok w_released_alone = true.
Proof. vm_compute. reflexivity. Qed.
End GovernanceProperties.
