(* ===== verification/TenantStore.v ===== *)
(** * The tenant control store

    Models the runtime's [tenancy.py]: [InMemoryTenantControlStore] with its private
    helpers, and [TenantCacheNamespace].  The clock is read before the lock is taken,
    or under it; the body under the lock awaits nothing.  The readings are arbitrary,
    so an operation is one atomic step. *)

From S2P Require Import Prelude Canonical Contracts Tenancy Host.

Module Tenants.
Record store : Type := {
  env : host;
  profiles : gmap string TenantIsolationProfile;
  grants : gmap (string * UUID) SupportElevationGrant;
  lifecycle : gmap string TenantLifecycleRecord;
  audit : gmap string (list TenantAuditEvent);
}.

Definition empty (h : host) : store :=
  {| env := h; profiles := ∅; grants := ∅; lifecycle := ∅; audit := ∅ |}.

Definition set_env x (s : store) : store :=
  {| env := x; profiles := profiles s; grants := grants s; lifecycle := lifecycle s; audit := audit s |}.
Definition set_profiles x (s : store) : store :=
  {| env := env s; profiles := x; grants := grants s; lifecycle := lifecycle s; audit := audit s |}.
Definition set_grants x (s : store) : store :=
  {| env := env s; profiles := profiles s; grants := x; lifecycle := lifecycle s; audit := audit s |}.
Definition set_lifecycle x (s : store) : store :=
  {| env := env s; profiles := profiles s; grants := grants s; lifecycle := x; audit := audit s |}.
Definition set_audit x (s : store) : store :=
  {| env := env s; profiles := profiles s; grants := grants s; lifecycle := lifecycle s; audit := x |}.

(** [datetime.now(UTC)] and [uuid4()] *)
Definition now_utc : M store datetime := zoom env set_env read_clock.
Definition uuid4 : M store UUID := zoom env set_env draw_uuid.

Definition audit_of (tenant : string) (s : store) : list TenantAuditEvent :=
  default [] (audit s !! tenant).

(** [_append_audit], of an event built on the spot, and with a fresh identity *)
Definition append_event (event : TenantAuditEvent) : M store unit :=
  e <- lift (TenantAuditEvent.create event) ;;
  modify (fun s => set_audit
    (<[TenantAuditEvent.tenant_id e := audit_of (TenantAuditEvent.tenant_id e) s ++ [e]]> (audit s)) s).
Definition append_audit (event : UUID -> TenantAuditEvent) : M store unit :=
  id <- uuid4 ;;
  append_event (event id).

Definition event_of (tenant : string) (kind : TenantAuditEventType) (actor : ActorRef)
    (now : datetime) (elevation : option UUID) (reason ticket : option string)
    (attrs : list (string * string)) (id : UUID) : TenantAuditEvent := {|
  TenantAuditEvent.audit_id := id; TenantAuditEvent.tenant_id := tenant;
  TenantAuditEvent.event_type := kind; TenantAuditEvent.actor := actor;
  TenantAuditEvent.occurred_at := now; TenantAuditEvent.elevation_id := elevation;
  TenantAuditEvent.reason := reason; TenantAuditEvent.ticket_reference := ticket;
  TenantAuditEvent.attributes := attrs |}.

(** ** Authorisation *)

(** [_same_actor_identity] *)
Definition same_actor_identity (a b : ActorRef) : bool :=
  bool_decide (ActorRef.kind a = ActorRef.kind b) && bool_decide (ActorRef.id a = ActorRef.id b) &&
  bool_decide (ActorRef.tenant_id a = ActorRef.tenant_id b) &&
  bool_decide (ActorRef.workload_identity a = ActorRef.workload_identity b).

(** [_require_support_authority] and [_require_support_operator] *)
Definition require_support_authority (a : ActorRef) : outcome unit :=
  require (bool_decide (dict_get "prodkit.support_authority" (ActorRef.attributes a) = Some "true"))
    (AuthorizationDeniedError "support elevation issuer lacks support authority").
Definition require_support_operator (a : ActorRef) : outcome unit :=
  require (bool_decide (dict_get "prodkit.support_operator" (ActorRef.attributes a) = Some "true"))
    (AuthorizationDeniedError "support elevation recipient is not a support operator").

(** The tenant's current opt-in *)
Definition allows_support (tenant : string) (s : store) : bool :=
  match profiles s !! tenant with
  | Some p => TenantIsolationProfile.allow_support_access p
  | None => false
  end.

(** What [_authorize_locked] demands of the live grant *)
Definition grant_authorizes (g : SupportElevationGrant) (ctx : TenantAccessContext)
    (cap : TenantCapability) (now : datetime) : bool :=
  SupportElevationGrant.active g now &&
  same_actor_identity (SupportElevationGrant.operator g) (TenantAccessContext.actor ctx) &&
  mem cap (SupportElevationGrant.capabilities g) &&
  bool_decide (Some (SupportElevationGrant.reason g) = TenantAccessContext.reason ctx) &&
  bool_decide (Some (SupportElevationGrant.ticket_reference g) = TenantAccessContext.ticket_reference ctx).

(** [_authorize_locked], at the instant [now] *)
Definition authorize (ctx : TenantAccessContext) (cap : TenantCapability) (now : datetime) (s : store)
    : outcome unit :=
  match TenantAccessContext.require_capability ctx cap now with
  | Raise (PermissionError m) => Raise (AuthorizationDeniedError m)
  | Raise e => Raise e
  | Ok _ =>
      match TenantAccessContext.mode ctx with
      | TENANT => Ok tt
      | SUPPORT =>
          match TenantAccessContext.elevation_id ctx with
          | None => Raise (AuthorizationDeniedError "support access has no elevation identity")
          | Some id =>
              require (allows_support (TenantAccessContext.tenant_id ctx) s)
                (AuthorizationDeniedError "target tenant has disabled support elevation") ;~
              require (match grants s !! (TenantAccessContext.tenant_id ctx, id) with
                       | Some g => grant_authorizes g ctx cap now
                       | None => false
                       end)
                (AuthorizationDeniedError "support elevation no longer authorizes this operation")
          end
      end
  end.

Definition authorize_locked (ctx : TenantAccessContext) (cap : TenantCapability) (now : datetime)
    : M store unit := fun s => (authorize ctx cap now s, s).

(** ** Profiles *)
Definition put_profile (ctx : TenantAccessContext) (profile : TenantIsolationProfile) : M store unit :=
  guard (bool_decide (TenantAccessContext.mode ctx = TENANT))
    (AuthorizationDeniedError "support elevation cannot change tenant isolation policy") ;;
  at_ <- now_utc ;;
  lift (TenantAccessContext.require_capability ctx CAP_CONFIGURE at_) ;;
  guard (bool_decide (TenantAccessContext.tenant_id ctx = TenantIsolationProfile.tenant_id profile))
    (AuthorizationDeniedError "tenant profile mutation crossed tenant boundary") ;;
  now <- now_utc ;;
  modify (fun s => set_profiles (<[TenantIsolationProfile.tenant_id profile := profile]> (profiles s)) s) ;;
  audit_id <- uuid4 ;;
  digest <- lift (sha256_hex (TenantIsolationProfile.dump profile)) ;;
  append_event (event_of (TenantIsolationProfile.tenant_id profile) CONFIGURATION_CHANGED
    (TenantAccessContext.actor ctx) now None None None [("profile_digest", digest)] audit_id).

Definition get_profile (ctx : TenantAccessContext) : M store (option TenantIsolationProfile) :=
  now <- now_utc ;;
  authorize_locked ctx CAP_READ now ;;
  s <- get ;;
  ret (profiles s !! TenantAccessContext.tenant_id ctx).

(** ** Support grants *)
Definition issue_support_grant (target : string) (operator issued_by : ActorRef)
    (capabilities : list TenantCapability) (reason ticket : string) (ttl_seconds : Z)
    : M store SupportElevationGrant :=
  guard (negb ((ttl_seconds <? 30) || (3600 <? ttl_seconds)))
    (ValueError "support elevation TTL must be between 30 and 3600 seconds") ;;
  lift (require_support_authority issued_by) ;;
  lift (require_support_operator operator) ;;
  now <- now_utc ;;
  s <- get ;;
  guard (allows_support target s)
    (AuthorizationDeniedError "target tenant has not enabled support elevation") ;;
  id <- uuid4 ;;
  g <- lift (SupportElevationGrant.create {|
    SupportElevationGrant.grant_id := id; SupportElevationGrant.target_tenant_id := target;
    SupportElevationGrant.operator := operator; SupportElevationGrant.issued_by := issued_by;
    SupportElevationGrant.capabilities := capabilities; SupportElevationGrant.reason := reason;
    SupportElevationGrant.ticket_reference := ticket; SupportElevationGrant.issued_at := now;
    SupportElevationGrant.expires_at := now + seconds ttl_seconds;
    SupportElevationGrant.revoked_at := None |}) ;;
  modify (fun s => set_grants (<[(target, SupportElevationGrant.grant_id g) := g]> (grants s)) s) ;;
  append_audit (event_of target SUPPORT_ELEVATION_ISSUED issued_by now
    (Some (SupportElevationGrant.grant_id g)) (Some reason) (Some ticket)
    [("operator_id", ActorRef.id operator);
     ("capabilities", py_join "," (map TenantCapability_value capabilities))]) ;;
  ret g.

Definition redeem_support_grant (target : string) (grant_id : UUID) (operator : ActorRef)
    : M store TenantAccessContext :=
  now <- now_utc ;;
  s <- get ;;
  guard (allows_support target s)
    (AuthorizationDeniedError "target tenant has disabled support elevation") ;;
  match grants s !! (target, grant_id) with
  | None => raise (AuthorizationDeniedError "support elevation is missing, expired, or revoked")
  | Some g =>
      guard (same_actor_identity (SupportElevationGrant.operator g) operator &&
             SupportElevationGrant.active g now)
        (AuthorizationDeniedError "support elevation is missing, expired, or revoked") ;;
      ctx <- lift (TenantAccessContext.create {|
        TenantAccessContext.tenant_id := target; TenantAccessContext.actor := operator;
        TenantAccessContext.mode := SUPPORT;
        TenantAccessContext.capabilities := SupportElevationGrant.capabilities g;
        TenantAccessContext.elevation_id := Some (SupportElevationGrant.grant_id g);
        TenantAccessContext.reason := Some (SupportElevationGrant.reason g);
        TenantAccessContext.ticket_reference := Some (SupportElevationGrant.ticket_reference g);
        TenantAccessContext.issued_at := SupportElevationGrant.issued_at g;
        TenantAccessContext.expires_at := Some (SupportElevationGrant.expires_at g) |}) ;;
      actor <- lift (TenantAccessContext.audited_actor ctx) ;;
      append_audit (event_of target SUPPORT_ELEVATION_USED actor now
        (Some (SupportElevationGrant.grant_id g)) (Some (SupportElevationGrant.reason g))
        (Some (SupportElevationGrant.ticket_reference g)) []) ;;
      ret ctx
  end.

(** [grant.model_copy(update={"revoked_at": now})] *)
Definition revoked (g : SupportElevationGrant) (now : datetime) : SupportElevationGrant := {|
  SupportElevationGrant.grant_id := SupportElevationGrant.grant_id g;
  SupportElevationGrant.target_tenant_id := SupportElevationGrant.target_tenant_id g;
  SupportElevationGrant.operator := SupportElevationGrant.operator g;
  SupportElevationGrant.issued_by := SupportElevationGrant.issued_by g;
  SupportElevationGrant.capabilities := SupportElevationGrant.capabilities g;
  SupportElevationGrant.reason := SupportElevationGrant.reason g;
  SupportElevationGrant.ticket_reference := SupportElevationGrant.ticket_reference g;
  SupportElevationGrant.issued_at := SupportElevationGrant.issued_at g;
  SupportElevationGrant.expires_at := SupportElevationGrant.expires_at g;
  SupportElevationGrant.revoked_at := Some now |}.

Definition revoke_support_grant (target : string) (grant_id : UUID) (actor : ActorRef) (reason : string)
    : M store unit :=
  now <- now_utc ;;
  s <- get ;;
  match grants s !! (target, grant_id) with
  | None => raise (KeyError (uuid_str grant_id))
  | Some g =>
      lift (if same_actor_identity (SupportElevationGrant.operator g) actor then Ok tt
            else require_support_authority actor) ;;
      if bool_decide (SupportElevationGrant.revoked_at g = None) then
        modify (fun s => set_grants (<[(target, grant_id) := revoked g now]> (grants s)) s) ;;
        append_audit (event_of target SUPPORT_ELEVATION_REVOKED actor now (Some grant_id) (Some reason)
          (Some (SupportElevationGrant.ticket_reference g)) [])
      else ret tt
  end.

(** ** Lifecycle *)
Definition set_legal_hold (ctx : TenantAccessContext) (enabled : bool) (reason : string)
    : M store TenantLifecycleRecord :=
  now <- now_utc ;;
  authorize_locked ctx CAP_LEGAL_HOLD now ;;
  s <- get ;;
  let tenant := TenantAccessContext.tenant_id ctx in
  let status := match lifecycle s !! tenant with
                | Some current => TenantLifecycleRecord.status current
                | None => TENANT_ACTIVE
                end in
  let status := if enabled && bool_decide (status = TENANT_DELETION_SCHEDULED) then TENANT_ACTIVE
                else status in
  actor <- lift (TenantAccessContext.audited_actor ctx) ;;
  record <- lift (TenantLifecycleRecord.create {|
    TenantLifecycleRecord.tenant_id := tenant; TenantLifecycleRecord.status := status;
    TenantLifecycleRecord.legal_hold := enabled; TenantLifecycleRecord.deletion_not_before := None;
    TenantLifecycleRecord.updated_at := now; TenantLifecycleRecord.updated_by := actor;
    TenantLifecycleRecord.elevation_id := TenantAccessContext.elevation_id ctx |}) ;;
  modify (fun s => set_lifecycle (<[tenant := record]> (lifecycle s)) s) ;;
  append_audit (event_of tenant (if enabled then TENANT_LEGAL_HOLD_PLACED else TENANT_LEGAL_HOLD_RELEASED)
    actor now (TenantAccessContext.elevation_id ctx) (Some reason)
    (TenantAccessContext.ticket_reference ctx) []) ;;
  ret record.

(** The datetimes of the model are aware. *)
Definition schedule_deletion (ctx : TenantAccessContext) (not_before : datetime) (reason : string)
    : M store TenantLifecycleRecord :=
  now <- now_utc ;;
  guard (negb (not_before <=? now))
    (ValueError "tenant deletion must be scheduled for a future aware datetime") ;;
  authorize_locked ctx CAP_DELETE now ;;
  s <- get ;;
  let tenant := TenantAccessContext.tenant_id ctx in
  guard (negb (match lifecycle s !! tenant with
               | Some current => TenantLifecycleRecord.legal_hold current
               | None => false
               end))
    (AuthorizationDeniedError "tenant deletion is blocked by legal hold") ;;
  actor <- lift (TenantAccessContext.audited_actor ctx) ;;
  record <- lift (TenantLifecycleRecord.create {|
    TenantLifecycleRecord.tenant_id := tenant;
    TenantLifecycleRecord.status := TENANT_DELETION_SCHEDULED;
    TenantLifecycleRecord.legal_hold := false;
    TenantLifecycleRecord.deletion_not_before := Some not_before;
    TenantLifecycleRecord.updated_at := now; TenantLifecycleRecord.updated_by := actor;
    TenantLifecycleRecord.elevation_id := TenantAccessContext.elevation_id ctx |}) ;;
  modify (fun s => set_lifecycle (<[tenant := record]> (lifecycle s)) s) ;;
  append_audit (event_of tenant DELETION_SCHEDULED actor now (TenantAccessContext.elevation_id ctx)
    (Some reason) (TenantAccessContext.ticket_reference ctx)
    [("not_before", isoformat not_before)]) ;;
  ret record.

(** The deletion of a record is due at [now]. *)
Definition deletion_permitted (r : TenantLifecycleRecord) (now : datetime) : bool :=
  bool_decide (TenantLifecycleRecord.status r = TENANT_DELETION_SCHEDULED) &&
  match TenantLifecycleRecord.deletion_not_before r with
  | Some t => negb (now <? t)
  | None => false
  end &&
  negb (TenantLifecycleRecord.legal_hold r).

(** [current.model_copy(update=...)] *)
Definition deleted (r : TenantLifecycleRecord) (now : datetime) (actor : ActorRef)
    (elevation : option UUID) : TenantLifecycleRecord := {|
  TenantLifecycleRecord.tenant_id := TenantLifecycleRecord.tenant_id r;
  TenantLifecycleRecord.status := TENANT_DELETED;
  TenantLifecycleRecord.legal_hold := TenantLifecycleRecord.legal_hold r;
  TenantLifecycleRecord.deletion_not_before := None;
  TenantLifecycleRecord.updated_at := now; TenantLifecycleRecord.updated_by := actor;
  TenantLifecycleRecord.elevation_id := elevation |}.

Definition complete_deletion (ctx : TenantAccessContext) : M store TenantLifecycleRecord :=
  now <- now_utc ;;
  authorize_locked ctx CAP_DELETE now ;;
  s <- get ;;
  let tenant := TenantAccessContext.tenant_id ctx in
  match lifecycle s !! tenant with
  | None => raise (AuthorizationDeniedError "tenant deletion is not currently permitted")
  | Some current =>
      guard (deletion_permitted current now)
        (AuthorizationDeniedError "tenant deletion is not currently permitted") ;;
      actor <- lift (TenantAccessContext.audited_actor ctx) ;;
      let record := deleted current now actor (TenantAccessContext.elevation_id ctx) in
      modify (fun s => set_lifecycle (<[tenant := record]> (lifecycle s)) s) ;;
      append_audit (event_of tenant DELETION_COMPLETED actor now (TenantAccessContext.elevation_id ctx)
        (TenantAccessContext.reason ctx) (TenantAccessContext.ticket_reference ctx) []) ;;
      ret record
  end.

Definition export_manifest (ctx : TenantAccessContext) (record_counts : list (string * Z))
    (content_digests : list string) : M store TenantExportManifest :=
  guard (negb (existsb (fun '(_, n) => n <? 0) record_counts))
    (ValueError "tenant export record counts cannot be negative") ;;
  now <- now_utc ;;
  authorize_locked ctx CAP_EXPORT now ;;
  actor <- lift (TenantAccessContext.audited_actor ctx) ;;
  id <- uuid4 ;;
  manifest <- lift (TenantExportManifest.create {|
    TenantExportManifest.export_id := id;
    TenantExportManifest.tenant_id := TenantAccessContext.tenant_id ctx;
    TenantExportManifest.created_at := now; TenantExportManifest.created_by := actor;
    TenantExportManifest.elevation_id := TenantAccessContext.elevation_id ctx;
    TenantExportManifest.record_counts := record_counts;
    TenantExportManifest.content_digests := content_digests;
    TenantExportManifest.legal_hold_preserved := true |}) ;;
  audit_id <- uuid4 ;;
  digest <- lift (sha256_hex (TenantExportManifest.dump manifest)) ;;
  append_event (event_of (TenantAccessContext.tenant_id ctx) EXPORT_CREATED actor now
    (TenantAccessContext.elevation_id ctx) (TenantAccessContext.reason ctx)
    (TenantAccessContext.ticket_reference ctx) [("manifest_digest", digest)] audit_id) ;;
  ret manifest.

Definition list_audit (ctx : TenantAccessContext) : M store (list TenantAuditEvent) :=
  now <- now_utc ;;
  authorize_locked ctx CAP_READ now ;;
  s <- get ;;
  ret (audit_of (TenantAccessContext.tenant_id ctx) s).

(** ** The calls on the store *)
Inductive operation : Type -> Type :=
| op_put_profile (ctx : TenantAccessContext) (p : TenantIsolationProfile) : operation unit
| op_get_profile (ctx : TenantAccessContext) : operation (option TenantIsolationProfile)
| op_issue (target : string) (operator issued_by : ActorRef) (caps : list TenantCapability)
    (reason ticket : string) (ttl : Z) : operation SupportElevationGrant
| op_redeem (target : string) (grant : UUID) (operator : ActorRef) : operation TenantAccessContext
| op_revoke (target : string) (grant : UUID) (actor : ActorRef) (reason : string) : operation unit
| op_legal_hold (ctx : TenantAccessContext) (enabled : bool) (reason : string)
    : operation TenantLifecycleRecord
| op_schedule (ctx : TenantAccessContext) (not_before : datetime) (reason : string)
    : operation TenantLifecycleRecord
| op_complete (ctx : TenantAccessContext) : operation TenantLifecycleRecord
| op_export (ctx : TenantAccessContext) (counts : list (string * Z)) (digests : list string)
    : operation TenantExportManifest
| op_list_audit (ctx : TenantAccessContext) : operation (list TenantAuditEvent).

Definition run_op {A} (op : operation A) : M store A :=
  match op with
  | op_put_profile ctx p => put_profile ctx p
  | op_get_profile ctx => get_profile ctx
  | op_issue target operator issued_by caps reason ticket ttl =>
      issue_support_grant target operator issued_by caps reason ticket ttl
  | op_redeem target grant operator => redeem_support_grant target grant operator
  | op_revoke target grant actor reason => revoke_support_grant target grant actor reason
  | op_legal_hold ctx enabled reason => set_legal_hold ctx enabled reason
  | op_schedule ctx not_before reason => schedule_deletion ctx not_before reason
  | op_complete ctx => complete_deletion ctx
  | op_export ctx counts digests => export_manifest ctx counts digests
  | op_list_audit ctx => list_audit ctx
  end.

(** The access context an operation is called with, if it takes one *)
Definition context_of {A} (op : operation A) : option TenantAccessContext :=
  match op with
  | op_put_profile ctx _ | op_get_profile ctx | op_legal_hold ctx _ _ | op_schedule ctx _ _
  | op_complete ctx | op_export ctx _ _ | op_list_audit ctx => Some ctx
  | op_issue _ _ _ _ _ _ _ | op_redeem _ _ _ | op_revoke _ _ _ _ => None
  end.

(** The contexts and the profile a call is made with are constructed records. *)
Definition constructed {A} (op : operation A) : Prop :=
  (forall ctx, context_of op = Some ctx -> TenantAccessContext.create ctx = Ok ctx) /\
  match op with op_put_profile _ p => TenantIsolationProfile.create p = Ok p | _ => True end.

Inductive step : store -> store -> Prop :=
| step_op {A} (op : operation A) s o s' : constructed op -> run_op op s = (o, s') -> step s s'.
End Tenants.

(** ** [TenantCacheNamespace.key] *)
Definition cache_key (tenant_id namespace key : string) : outcome string :=
  require (negb (blank tenant_id || blank namespace || blank key))
    (ValueError "tenant cache key components must be non-blank") ;~
  tenant_partition <~ sha256_hex (PDict [("tenant_id", PStr tenant_id)]) ;;
  key_partition <~ sha256_hex (PDict [("key", PStr key)]) ;;
  Ok ("prodkit:" +:+ tenant_partition +:+ ":" +:+ namespace +:+ ":" +:+ key_partition).
