(* ===== verification/TenantProofs.v ===== *)
(** * The tenant control store: what it promises

    [Module TenantSpec] is the abstract machine of the store: the changes a call may
    make to the profiles, the grants and the lifecycle records, each with the condition
    that licenses it.  [Module TenantRefinement] shows that every call, whether it
    returns or raises, makes at most one of them. *)

From S2P Require Import Prelude Contracts Tenancy Host TenantStore.
Import TenantStore.Tenants.

Module TenantSpec.
(** ** Constructed contexts *)
Lemma context_valid ctx :
  TenantAccessContext.create ctx = Ok ctx ->
  TenantAccessContext.validate_scope ctx = Ok tt /\
  forall f, NonBlankStr f (TenantAccessContext.tenant_id ctx) = Ok (TenantAccessContext.tenant_id ctx).
Proof.
  unfold TenantAccessContext.create. intros H. apply obind_Ok in H as (x & Hx & H). run_inv H.
  match goal with E : _ = ctx, V : TenantAccessContext.validate_scope _ = Ok ?u |- _ =>
    rewrite E in V; destruct u; split; [exact V|];
    pose proof (f_equal TenantAccessContext.tenant_id E) as F; cbn in F; subst x end.
  intros f. by eapply NonBlankStr_again.
Qed.

(** The actor an operation records satisfies the lifecycle record's check of it. *)
Definition marked_actor (tenant : string) (a : ActorRef) (elevation : option UUID) : Prop :=
  match elevation with
  | Some e => dict_get "prodkit.support_elevation" (ActorRef.attributes a) = Some (uuid_str e)
  | None => ActorRef.tenant_id a = tenant
  end.

Lemma audited_actor_marked ctx a :
  TenantAccessContext.create ctx = Ok ctx -> TenantAccessContext.audited_actor ctx = Ok a ->
  marked_actor (TenantAccessContext.tenant_id ctx) a (TenantAccessContext.elevation_id ctx).
Proof.
  intros [Hv _]%context_valid Ha. unfold TenantAccessContext.validate_scope in Hv. run_inv Hv.
  unfold TenantAccessContext.audited_actor in Ha. unfold marked_actor.
  destruct (TenantAccessContext.mode ctx).
  - match goal with E : obind _ _ = Ok _ |- _ => run_inv E | _ => idtac end. b2p.
    match goal with E : TenantAccessContext.elevation_id ctx = None |- _ => rewrite E end. congruence.
  - destruct (TenantAccessContext.elevation_id ctx) as [e|]; [|discriminate]. injection Ha as <-. cbn.
    rewrite dict_get_set_ne by done. apply dict_get_set_eq.
Qed.

(** What the validator asks of a lifecycle record, apart from the actor *)
Definition record_shape (status : TenantLifecycleStatus) (hold : bool) (not_before : option datetime) : Prop :=
  (hold = true -> status <> TENANT_DELETED) /\
  match status with
  | TENANT_DELETION_SCHEDULED => not_before <> None /\ hold = false
  | _ => not_before = None
  end.

Lemma validate_lifecycle_Ok r :
  TenantLifecycleRecord.validate_lifecycle r = Ok tt ->
  record_shape (TenantLifecycleRecord.status r) (TenantLifecycleRecord.legal_hold r)
    (TenantLifecycleRecord.deletion_not_before r).
Proof.
  unfold TenantLifecycleRecord.validate_lifecycle, record_shape. cbv zeta. intros H.
  apply obind_Ok in H as (u & _ & H). apply obind_Ok in H as (u' & Hd & H). destruct u'.
  apply require_Ok in Hd.
  destruct (TenantLifecycleRecord.status r), (TenantLifecycleRecord.legal_hold r),
    (TenantLifecycleRecord.deletion_not_before r); vm_compute in H, Hd; try discriminate;
    intuition congruence.
Qed.

Lemma validate_lifecycle_intro r :
  marked_actor (TenantLifecycleRecord.tenant_id r) (TenantLifecycleRecord.updated_by r)
    (TenantLifecycleRecord.elevation_id r) ->
  record_shape (TenantLifecycleRecord.status r) (TenantLifecycleRecord.legal_hold r)
    (TenantLifecycleRecord.deletion_not_before r) ->
  TenantLifecycleRecord.validate_lifecycle r = Ok tt.
Proof.
  unfold TenantLifecycleRecord.validate_lifecycle, marked_actor, record_shape. cbv zeta.
  intros Hm [Hh Hs]. destruct (TenantLifecycleRecord.elevation_id r) as [e|].
  - rewrite (bool_decide_true (_ = Some (uuid_str e))) by done. rewrite orb_true_r.
    destruct (bool_decide (_ <> _)); cbn [require obind];
      destruct (TenantLifecycleRecord.status r), (TenantLifecycleRecord.legal_hold r); cbn in *;
      destruct (TenantLifecycleRecord.deletion_not_before r); cbn; intuition congruence.
  - rewrite Hm, bool_decide_false by (intros H; by apply H). cbn [require obind orb].
    destruct (TenantLifecycleRecord.status r), (TenantLifecycleRecord.legal_hold r); cbn in *;
      destruct (TenantLifecycleRecord.deletion_not_before r); cbn; intuition congruence.
Qed.

(** ** The abstract machine *)

(** Nothing but the clock, the identifiers and the audit logs moved, and the logs grew. *)
Record background (s s' : store) : Prop := {
  bg_env : host_le (env s) (env s');
  bg_profiles : profiles s' = profiles s;
  bg_grants : grants s' = grants s;
  bg_lifecycle : lifecycle s' = lifecycle s;
  bg_audit : forall t, audit_of t s `prefix_of` audit_of t s';
}.

#[export] Instance background_preorder : PreOrder background.
Proof.
  split; [by split|]. intros a b c [] []. split; try congruence; etransitivity; eauto.
Qed.

(** The lifecycle of a tenant that was never written *)
Definition status_of (cur : option TenantLifecycleRecord) : TenantLifecycleStatus :=
  match cur with Some r => TenantLifecycleRecord.status r | None => TENANT_ACTIVE end.
Definition held_of (cur : option TenantLifecycleRecord) : bool :=
  match cur with Some r => TenantLifecycleRecord.legal_hold r | None => false end.

(** The moves of one tenant's lifecycle at the instant [now], and the capability each
    takes *)
Inductive lifecycle_move (now : datetime) (cur : option TenantLifecycleRecord)
    : TenantCapability -> TenantLifecycleStatus -> bool -> option datetime -> Prop :=
| move_place :
    status_of cur <> TENANT_DELETED ->
    lifecycle_move now cur CAP_LEGAL_HOLD TENANT_ACTIVE true None
| move_release :
    status_of cur <> TENANT_DELETION_SCHEDULED ->
    lifecycle_move now cur CAP_LEGAL_HOLD (status_of cur) false None
| move_schedule not_before :
    held_of cur = false -> now < not_before ->
    lifecycle_move now cur CAP_DELETE TENANT_DELETION_SCHEDULED false (Some not_before)
| move_complete r not_before :
    cur = Some r -> TenantLifecycleRecord.status r = TENANT_DELETION_SCHEDULED ->
    TenantLifecycleRecord.legal_hold r = false ->
    TenantLifecycleRecord.deletion_not_before r = Some not_before -> not_before <= now ->
    lifecycle_move now cur CAP_DELETE TENANT_DELETED false None.

(** The issuance of a grant is on the target's audit log. *)
Definition issuance_of (g : SupportElevationGrant) (e : TenantAuditEvent) : Prop :=
  TenantAuditEvent.event_type e = SUPPORT_ELEVATION_ISSUED /\
  TenantAuditEvent.elevation_id e = Some (SupportElevationGrant.grant_id g) /\
  TenantAuditEvent.actor e = SupportElevationGrant.issued_by g /\
  TenantAuditEvent.occurred_at e = SupportElevationGrant.issued_at g.

(** What is checked of a grant at its issuance: the roles of the two actors and its
    lifetime *)
Definition grant_terms (g : SupportElevationGrant) : Prop :=
  require_support_authority (SupportElevationGrant.issued_by g) = Ok tt /\
  require_support_operator (SupportElevationGrant.operator g) = Ok tt /\
  seconds 30 <= SupportElevationGrant.expires_at g - SupportElevationGrant.issued_at g <= seconds 3600.

(** The instant at which a call checks its context: its first reading of the clock *)
Definition checked_at (s : store) : datetime := clock (env s) (ticks (env s)).

(** What a lifecycle call asks for: the context it is made with, the capability it
    needs, and what it wants of the record *)
Definition lifecycle_call {A} (op : operation A) : option (TenantAccessContext * TenantCapability) :=
  match op with
  | op_legal_hold ctx _ _ => Some (ctx, CAP_LEGAL_HOLD)
  | op_schedule ctx _ _ | op_complete ctx => Some (ctx, CAP_DELETE)
  | _ => None
  end.

Definition wanted {A} (op : operation A) (r : TenantLifecycleRecord) : Prop :=
  match op with
  | op_legal_hold _ enabled _ => TenantLifecycleRecord.legal_hold r = enabled
  | op_schedule _ not_before _ =>
      TenantLifecycleRecord.status r = TENANT_DELETION_SCHEDULED /\
      TenantLifecycleRecord.deletion_not_before r = Some not_before
  | op_complete _ => TenantLifecycleRecord.status r = TENANT_DELETED
  | _ => False
  end.

(** The licence a call gives to a change of a lifecycle record: its own context and
    capability, at the instant it checks them, and the record it wants *)
Definition licence : Type :=
  TenantAccessContext -> TenantCapability -> TenantLifecycleRecord -> datetime -> Prop.
Definition licence_of {A} (op : operation A) (s : store) : licence := fun ctx cap r now =>
  lifecycle_call op = Some (ctx, cap) /\ now = checked_at s /\ wanted op r.

Section Machine.
Context (licensed : licence).

(** The changes of the store *)
Inductive change (s : store) : store -> Prop :=
| change_profile ctx p now :
    TenantAccessContext.mode ctx = TENANT ->
    TenantAccessContext.require_capability ctx CAP_CONFIGURE now = Ok tt ->
    TenantAccessContext.tenant_id ctx = TenantIsolationProfile.tenant_id p ->
    TenantIsolationProfile.create p = Ok p ->
    change s (set_profiles (<[TenantIsolationProfile.tenant_id p := p]> (profiles s)) s)
| change_issue h t g e :
    allows_support t s = true -> grant_terms g -> issuance_of g e ->
    SupportElevationGrant.grant_id g = entropy (env s) (drawn (env s)) ->
    SupportElevationGrant.revoked_at g = None ->
    host_le (env s) h -> (drawn (env s) < drawn h)%nat ->
    change s (set_audit (<[t := audit_of t s ++ [e]]> (audit s))
      (set_env h (set_grants (<[(t, SupportElevationGrant.grant_id g) := g]> (grants s)) s)))
| change_revoke t id g now actor :
    grants s !! (t, id) = Some g -> SupportElevationGrant.revoked_at g = None ->
    same_actor_identity (SupportElevationGrant.operator g) actor = true \/
      require_support_authority actor = Ok tt ->
    change s (set_grants (<[(t, id) := revoked g now]> (grants s)) s)
| change_lifecycle ctx cap r now :
    licensed ctx cap r now ->
    TenantAccessContext.create ctx = Ok ctx -> authorize ctx cap now s = Ok tt ->
    TenantLifecycleRecord.tenant_id r = TenantAccessContext.tenant_id ctx ->
    TenantLifecycleRecord.validate_lifecycle r = Ok tt ->
    TenantLifecycleRecord.updated_at r = now ->
    TenantAccessContext.audited_actor ctx = Ok (TenantLifecycleRecord.updated_by r) ->
    lifecycle_move now (lifecycle s !! TenantLifecycleRecord.tenant_id r) cap
      (TenantLifecycleRecord.status r) (TenantLifecycleRecord.legal_hold r)
      (TenantLifecycleRecord.deletion_not_before r) ->
    change s (set_lifecycle (<[TenantLifecycleRecord.tenant_id r := r]> (lifecycle s)) s).

(** A call: at most one change, between movements of the background *)
Inductive effect (s s' : store) : Prop :=
| quiet : background s s' -> effect s s'
| changed s1 s2 : background s s1 -> change s1 s2 -> background s2 s' -> effect s s'.

Lemma effect_background s s1 s2 : effect s s1 -> background s1 s2 -> effect s s2.
Proof.
  intros [H|a b H1 H2 H3] H4; [apply quiet; by etransitivity|].
  eapply changed; [exact H1|exact H2|by etransitivity].
Qed.

End Machine.

(** ** The invariant of the store *)
Record sound (s : store) : Prop := {
  profiles_keyed : forall t p, profiles s !! t = Some p ->
    TenantIsolationProfile.tenant_id p = t /\ TenantIsolationProfile.create p = Ok p;
  grants_issued : forall t id g, grants s !! (t, id) = Some g ->
    SupportElevationGrant.grant_id g = id /\ grant_terms g /\
    (exists i, (i < drawn (env s))%nat /\ id = entropy (env s) i) /\
    exists e, e ∈ audit_of t s /\ issuance_of g e;
  lifecycle_valid : forall t r, lifecycle s !! t = Some r ->
    TenantLifecycleRecord.tenant_id r = t /\ TenantLifecycleRecord.validate_lifecycle r = Ok tt;
}.

Lemma empty_sound h : sound (empty h).
Proof. split; cbn; intros *; by rewrite lookup_empty. Qed.

Lemma prefix_elem {A} (x : A) l k : l `prefix_of` k -> x ∈ l -> x ∈ k.
Proof. intros [r ->]. set_solver. Qed.

Lemma audit_of_insert t t' e s h g :
  audit_of t' (set_audit (<[t := audit_of t s ++ [e]]> (audit s)) (set_env h (set_grants g s))) =
  if decide (t = t') then audit_of t s ++ [e] else audit_of t' s.
Proof.
  unfold audit_of at 1. cbn. destruct (decide (t = t')) as [<-|].
  - by rewrite lookup_insert_eq.
  - by rewrite lookup_insert_ne.
Qed.

Lemma background_sound s s' : sound s -> background s s' -> sound s'.
Proof.
  intros [H1 H2 H3] [He Hp Hg Hl Ha]. split.
  - by rewrite Hp.
  - intros t id g. rewrite Hg. intros (I1 & I2 & (i & I3 & I4) & e & I5 & I6)%H2.
    split; [done|]. split; [done|]. destruct He as (_ & -> & _ & Hd). split.
    + exists i. split; [lia|done].
    + exists e. split; [eapply prefix_elem; [apply Ha|done]|done].
  - by rewrite Hl.
Qed.

Lemma change_sound licensed s s' : sound s -> change licensed s s' -> sound s'.
Proof.
  intros Hs Hc. pose proof Hs as [H1 H2 H3]. destruct Hc as [ctx p now|h t g e|t id g now actor|ctx cap r now].
  - split; cbn; [|by apply H2|by apply H3]. intros t q [[<- <-]|[_ H']]%lookup_insert_Some; auto.
  - split; cbn; [by apply H1| |by apply H3]. intros t' id' g'. rewrite audit_of_insert.
    destruct H7 as (_ & E & _). rewrite E. intros [[[= <- <-] <-]|[_ H']]%lookup_insert_Some.
    + split; [done|]. split; [done|]. split; [exists (drawn (env s)); split; [lia|done]|].
      exists e. rewrite decide_True by done. split; [set_solver|done].
    + apply H2 in H' as (I1 & I2 & (i & I3 & I4) & e' & I5 & I6).
      split; [done|]. split; [done|]. split; [exists i; split; [lia|done]|].
      exists e'. split; [|done]. case_decide; [subst; set_solver|done].
  - split; cbn; [by apply H1| |by apply H3]. intros t' id' g' [[[= <- <-] <-]|[_ H']]%lookup_insert_Some.
    + destruct (H2 _ _ _ H) as (I1 & I2 & I3 & e & I5 & I6). split; [exact I1|].
      split; [exact I2|]. split; [exact I3|]. exists e. by split.
    + by apply H2.
  - split; cbn; [by apply H1|by apply H2|]. intros t' r' [[<- <-]|[_ H']]%lookup_insert_Some; auto.
Qed.

Lemma effect_sound licensed s s' : sound s -> effect licensed s s' -> sound s'.
Proof.
  intros Hs [H|s1 s2 H1 H2 H3]; [by eapply background_sound|].
  eapply background_sound; [|exact H3]. eapply change_sound; [|exact H2]. by eapply background_sound.
Qed.
End TenantSpec.

Module TenantRefinement.
Import TenantSpec.

(** A grant's issuance is a constructed record: its texts are stripped. *)
Lemma grant_created target id operator issued_by caps reason ticket now ttl g :
  SupportElevationGrant.create {|
    SupportElevationGrant.grant_id := id; SupportElevationGrant.target_tenant_id := target;
    SupportElevationGrant.operator := operator; SupportElevationGrant.issued_by := issued_by;
    SupportElevationGrant.capabilities := caps; SupportElevationGrant.reason := reason;
    SupportElevationGrant.ticket_reference := ticket; SupportElevationGrant.issued_at := now;
    SupportElevationGrant.expires_at := now + seconds ttl;
    SupportElevationGrant.revoked_at := None |} = Ok g ->
  SupportElevationGrant.grant_id g = id /\ SupportElevationGrant.issued_by g = issued_by /\
  SupportElevationGrant.operator g = operator /\ SupportElevationGrant.issued_at g = now /\
  SupportElevationGrant.expires_at g = now + seconds ttl /\
  SupportElevationGrant.revoked_at g = None /\
  is_ok (NonBlankStr "reason" reason) = true /\ is_ok (NonBlankStr "ticket_reference" ticket) = true.
Proof.
  unfold SupportElevationGrant.create. cbn. intros H.
  apply obind_Ok in H as (t' & _ & H). apply obind_Ok in H as (r' & -> & H).
  apply obind_Ok in H as (k' & -> & H). apply obind_Ok in H as (u & _ & H). by injection H as <-.
Qed.

Lemma profile_stripped p f :
  TenantIsolationProfile.create p = Ok p ->
  NonBlankStr f (TenantIsolationProfile.tenant_id p) = Ok (TenantIsolationProfile.tenant_id p).
Proof.
  unfold TenantIsolationProfile.create. intros H. apply obind_Ok in H as (x & Hx & H). run_inv H.
  match goal with E : _ = p |- _ =>
    pose proof (f_equal TenantIsolationProfile.tenant_id E) as F; cbn in F; subst x end.
  by eapply NonBlankStr_again.
Qed.

Section Calls.
Context (licensed : licence) (s0 : store).
Hypothesis s0_sound : sound s0.

Lemma bg_env_only s h : host_le (env s) h -> background s (set_env h s).
Proof. intros. by split. Qed.

Lemma bg_append e s :
  background s (set_audit (<[TenantAuditEvent.tenant_id e := audit_of (TenantAuditEvent.tenant_id e) s ++ [e]]> (audit s)) s).
Proof.
  split; try done. intros t. unfold audit_of at 2. cbn.
  destruct (decide (TenantAuditEvent.tenant_id e = t)) as [<-|].
  - rewrite lookup_insert_eq. cbn. by eexists.
  - by rewrite lookup_insert_ne.
Qed.

(** While nothing has changed *)
Section Before.
Context (K : store -> Prop).
Hypothesis K_bg : forall s, background s0 s -> K s.

Lemma wp_bg_now Q s :
  background s0 s -> (forall x s', background s0 s' -> background s s' -> Q x s') -> wp K now_utc Q s.
Proof.
  intros HB HQ. apply wp_clock. intros h Hh _. pose proof (bg_env_only s h Hh).
  apply HQ; [by etransitivity|done].
Qed.

Lemma wp_bg_uuid Q s :
  background s0 s ->
  (forall h, host_le (env s) h -> (drawn (env s) < drawn h)%nat -> background s0 (set_env h s) ->
     Q (entropy (env s) (drawn (env s))) (set_env h s)) -> wp K uuid4 Q s.
Proof.
  intros HB HQ. apply wp_draw. intros h Hh Hd.
  apply HQ; [done|lia|]. etransitivity; [exact HB|]. by apply bg_env_only.
Qed.

Lemma wp_authorize ctx cap now Q s :
  background s0 s -> (authorize ctx cap now s = Ok tt -> Q tt s) -> wp K (authorize_locked ctx cap now) Q s.
Proof.
  intros HB HQ. unfold wp, authorize_locked. destruct (authorize ctx cap now s) as [[]|e]; auto.
Qed.
End Before.

(** An event of the audit log, wherever the call stands *)
Lemma tenant_event_bg event s : wp (background s) (append_event event) (fun _ => background s) s.
Proof.
  unfold append_event. apply wp_bind, wp_lift; [reflexivity|]. intros e _. apply wp_modify, bg_append.
Qed.

Lemma append_audit_bg event s : wp (background s) (append_audit event) (fun _ => background s) s.
Proof.
  unfold append_audit. apply wp_bind, wp_draw. intros h Hh _.
  pose proof (bg_env_only s h Hh) as Hb. set (s1 := set_env h s) in *.
  eapply wp_mono; [|eapply wp_weaken; [|apply tenant_event_bg]].
  - intros [] s' H. by transitivity s1.
  - intros s' H. by transitivity s1.
Qed.

Abbreviation K := (effect licensed s0) (only parsing).

Lemma wp_append_audit event Q s :
  K s -> (forall s', K s' -> Q tt s') -> wp K (append_audit event) Q s.
Proof.
  intros HK HQ. pose proof (append_audit_bg event s) as H. unfold wp in *.
  destruct (append_audit event s) as [[[]|e] s']; [apply HQ|]; by eapply effect_background.
Qed.

Lemma wp_append_event event Q s :
  K s -> (forall s', K s' -> Q tt s') -> wp K (append_event event) Q s.
Proof.
  intros HK HQ. pose proof (tenant_event_bg event s) as H. unfold wp in *.
  destruct (append_event event s) as [[[]|e] s']; [apply HQ|]; by eapply effect_background.
Qed.

Lemma wp_K_fresh_id Q s :
  K s -> (forall x s', K s' -> Q x s') -> wp K uuid4 Q s.
Proof.
  intros HK HQ. apply wp_draw. intros h Hh _. apply HQ. eapply effect_background; [exact HK|by apply bg_env_only].
Qed.

Lemma wp_append_audit_ret {A} event (a : A) s : K s -> wp K (append_audit event ;; ret a) (fun _ => K) s.
Proof. intros HK. apply wp_bind, wp_append_audit; [done|]. by intros. Qed.

Lemma K_quiet s : background s0 s -> K s.
Proof. apply quiet. Qed.

Lemma K_change s s' : background s0 s -> change licensed s s' -> K s'.
Proof. intros. eapply changed; [done..|reflexivity]. Qed.
Lemma bg_start : background s0 s0.
Proof. reflexivity. Qed.

#[local] Hint Resolve K_quiet bg_start : core.

Lemma sound_here s : background s0 s -> sound s.
Proof. by apply background_sound. Qed.

(** The first reading of the clock *)
Lemma wp_first_now Q :
  (forall s', background s0 s' -> Q (checked_at s0) s') -> wp K now_utc Q s0.
Proof. intros HQ. apply wp_clock. intros h Hh _. apply HQ. by apply bg_env_only. Qed.

(** A call of the store makes at most one change. *)
Definition lawful {A} (m : M store A) : Prop := wp K m (fun _ => K) s0.

Lemma put_profile_lawful ctx p :
  TenantIsolationProfile.create p = Ok p -> lawful (put_profile ctx p).
Proof.
  intros Hp. unfold lawful, put_profile.
  apply wp_bind, wp_guard; [auto|]. intros Hm. b2p.
  apply wp_bind, wp_bg_now; [auto..|]. intros at_ s1 HB1 _.
  apply wp_bind, wp_lift; [auto|]. intros [] Hc.
  apply wp_bind, wp_guard; [auto|]. intros Ht. b2p.
  apply wp_bind, wp_bg_now; [auto..|]. intros now s2 HB2 _.
  apply wp_bind, wp_modify.
  assert (HK : K (set_profiles (<[TenantIsolationProfile.tenant_id p := p]> (profiles s2)) s2))
    by (eapply K_change; [exact HB2|by econstructor]).
  apply wp_bind, wp_K_fresh_id; [done|]. intros id s3 HK3.
  apply wp_bind, wp_lift; [done|]. intros digest _. by apply wp_append_event.
Qed.

Lemma get_profile_lawful ctx : lawful (get_profile ctx).
Proof.
  unfold lawful, get_profile. apply wp_bind, wp_bg_now; [auto..|]. intros now s1 HB1 _.
  apply wp_bind, wp_authorize; [auto..|]. intros _. apply wp_bind, wp_get, wp_ret. auto.
Qed.

Lemma list_audit_lawful ctx : lawful (list_audit ctx).
Proof.
  unfold lawful, list_audit. apply wp_bind, wp_bg_now; [auto..|]. intros now s1 HB1 _.
  apply wp_bind, wp_authorize; [auto..|]. intros _. apply wp_bind, wp_get, wp_ret. auto.
Qed.

Lemma export_lawful ctx counts digests : lawful (export_manifest ctx counts digests).
Proof.
  unfold lawful, export_manifest. apply wp_bind, wp_guard; [auto|]. intros _.
  apply wp_bind, wp_bg_now; [auto..|]. intros now s1 HB1 _.
  apply wp_bind, wp_authorize; [auto..|]. intros _.
  apply wp_bind, wp_lift; [auto|]. intros actor _.
  apply wp_bind, wp_bg_uuid; [auto..|]. intros h _ _ HB2.
  apply wp_bind, wp_lift; [auto|]. intros m _. apply wp_bind, wp_K_fresh_id; [auto|]. intros id s3 HK3.
  apply wp_bind, wp_lift; [done|]. intros d _. by apply wp_bind, wp_append_event; [|intros; apply wp_ret].
Qed.

Lemma allows_support_stripped t f s :
  sound s -> allows_support t s = true -> NonBlankStr f t = Ok t.
Proof.
  unfold allows_support. intros Hs. destruct (profiles s !! t) as [p|] eqn:Hp; [|discriminate].
  destruct (profiles_keyed _ Hs _ _ Hp) as [<- Hc]. intros _. by apply profile_stripped.
Qed.

Lemma issue_lawful target operator issued_by caps reason ticket ttl :
  lawful (issue_support_grant target operator issued_by caps reason ticket ttl).
Proof.
  unfold lawful, issue_support_grant. apply wp_bind, wp_guard; [auto|]. intros Httl. b2p.
  apply wp_bind, wp_lift; [auto|]. intros [] Hauth.
  apply wp_bind, wp_lift; [auto|]. intros [] Hop.
  apply wp_bind, wp_bg_now; [auto..|]. intros now s1 HB1 _.
  apply wp_bind, wp_get, wp_bind, wp_guard; [auto|]. intros Hallow.
  apply wp_bind, wp_bg_uuid; [auto..|]. intros h Hh Hd HB2.
  apply wp_bind, wp_lift; [auto|]. intros g Hg.
  apply grant_created in Hg as (Hid & Hby & Ho & Hat & Hexp & Hrev & Hr & Hk).
  apply wp_bind, wp_modify, wp_bind. unfold append_audit, append_event, wp, bind, uuid4, zoom, draw_uuid. cbn.
  unfold TenantAuditEvent.create. cbn. rewrite (allows_support_stripped _ _ s1) by auto using sound_here.
  destruct (NonBlankStr "reason" reason) as [r'|]; [|done].
  destruct (NonBlankStr "ticket_reference" ticket) as [k'|]; [|done]. cbn.
  eapply K_change; [exact HB1|].
  refine (change_issue licensed s1 {| clock := clock h; ticks := ticks h; entropy := entropy h; drawn := S (drawn h) |}
    target g _ Hallow _ _ Hid Hrev _ _).
  - repeat split; try congruence; unfold seconds in *; lia.
  - repeat split; cbn; congruence.
  - destruct Hh as (? & ? & ? & ?). repeat split; cbn; try done. lia.
  - cbn. lia.
Qed.

Lemma redeem_lawful target id operator : lawful (redeem_support_grant target id operator).
Proof.
  unfold lawful, redeem_support_grant. apply wp_bind, wp_bg_now; [auto..|]. intros now s1 HB1 _.
  apply wp_bind, wp_get, wp_bind, wp_guard; [auto|]. intros _.
  destruct (grants s1 !! (target, id)) as [g|]; [|apply wp_raise; auto].
  apply wp_bind, wp_guard; [auto|]. intros _.
  apply wp_bind, wp_lift; [auto|]. intros ctx _. apply wp_bind, wp_lift; [auto|]. intros actor _.
  apply wp_append_audit_ret. auto.
Qed.

Lemma revoke_lawful target id actor reason : lawful (revoke_support_grant target id actor reason).
Proof.
  unfold lawful, revoke_support_grant. apply wp_bind, wp_bg_now; [auto..|]. intros now s1 HB1 _.
  apply wp_bind, wp_get. destruct (grants s1 !! (target, id)) as [g|] eqn:Hg; [|apply wp_raise; auto].
  apply wp_bind, wp_lift; [auto|]. intros [] Ha.
  case_bool_decide as Hr; [|apply wp_ret; auto].
  apply wp_bind, wp_modify, wp_append_audit; [|auto]. eapply K_change; [exact HB1|].
  apply (change_revoke licensed s1 target id g now actor); [done..|].
  destruct (same_actor_identity _ actor); [by left|by right].
Qed.

(** The record an operation constructs from its context *)
Lemma lifecycle_created ctx status hold nb now actor r :
  TenantAccessContext.create ctx = Ok ctx ->
  TenantLifecycleRecord.create {|
    TenantLifecycleRecord.tenant_id := TenantAccessContext.tenant_id ctx;
    TenantLifecycleRecord.status := status; TenantLifecycleRecord.legal_hold := hold;
    TenantLifecycleRecord.deletion_not_before := nb; TenantLifecycleRecord.updated_at := now;
    TenantLifecycleRecord.updated_by := actor;
    TenantLifecycleRecord.elevation_id := TenantAccessContext.elevation_id ctx |} = Ok r ->
  TenantLifecycleRecord.validate_lifecycle r = Ok tt /\
  TenantLifecycleRecord.tenant_id r = TenantAccessContext.tenant_id ctx /\
  TenantLifecycleRecord.status r = status /\ TenantLifecycleRecord.legal_hold r = hold /\
  TenantLifecycleRecord.deletion_not_before r = nb /\ TenantLifecycleRecord.updated_at r = now /\
  TenantLifecycleRecord.updated_by r = actor.
Proof.
  intros [_ Ht]%context_valid H. unfold TenantLifecycleRecord.create in H. cbn in H. rewrite Ht in H.
  cbn in H. apply obind_Ok in H as ([] & Hv & H). by injection H as <-.
Qed.

(** The status [set_legal_hold] writes is the one of a placed or a released hold. *)
Lemma hold_move now cur (enabled : bool) :
  let st := if enabled && bool_decide (status_of cur = TENANT_DELETION_SCHEDULED) then TENANT_ACTIVE
            else status_of cur in
  record_shape st enabled None -> lifecycle_move now cur CAP_LEGAL_HOLD st enabled None.
Proof.
  cbv zeta. unfold record_shape. destruct enabled; cbn; intros Hs.
  - destruct (status_of cur) eqn:E; cbn in *; try (constructor; congruence). intuition congruence.
  - constructor. intros E. rewrite E in Hs. intuition congruence.
Qed.

Lemma legal_hold_lawful ctx enabled reason :
  (forall r, TenantLifecycleRecord.legal_hold r = enabled -> licensed ctx CAP_LEGAL_HOLD r (checked_at s0)) ->
  TenantAccessContext.create ctx = Ok ctx -> lawful (set_legal_hold ctx enabled reason).
Proof.
  intros Hlic Hctx. unfold lawful, set_legal_hold. apply wp_bind, wp_first_now. intros s1 HB1.
  set (now := checked_at s0) in *.
  apply wp_bind, wp_authorize; [auto..|]. intros Hauth. apply wp_bind, wp_get.
  apply wp_bind, wp_lift; [auto|]. intros actor Ha. apply wp_bind, wp_lift; [auto|]. intros r Hr.
  apply lifecycle_created in Hr as (Hv & Ht & Hst & Hh & Hn & Hat & Hby); [|done].
  rewrite <- Ht. apply wp_bind, wp_modify, wp_append_audit_ret. eapply K_change; [exact HB1|].
  apply (change_lifecycle licensed s1 ctx CAP_LEGAL_HOLD r now); [by apply Hlic|congruence..|].
  pose proof (validate_lifecycle_Ok _ Hv) as Hs. revert Hs Hst. rewrite Hh, Hn, <- Ht.
  fold (status_of (lifecycle s1 !! TenantLifecycleRecord.tenant_id r)).
  intros Hs Hst. rewrite Hst in Hs |- *. by apply hold_move.
Qed.

Lemma schedule_lawful ctx not_before reason :
  (forall r, TenantLifecycleRecord.status r = TENANT_DELETION_SCHEDULED ->
     TenantLifecycleRecord.deletion_not_before r = Some not_before -> licensed ctx CAP_DELETE r (checked_at s0)) ->
  TenantAccessContext.create ctx = Ok ctx -> lawful (schedule_deletion ctx not_before reason).
Proof.
  intros Hlic Hctx. unfold lawful, schedule_deletion. apply wp_bind, wp_first_now. intros s1 HB1.
  set (now := checked_at s0) in *.
  apply wp_bind, wp_guard; [auto|]. intros Hnb.
  apply wp_bind, wp_authorize; [auto..|]. intros Hauth. apply wp_bind, wp_get.
  apply wp_bind, wp_guard; [auto|]. intros Hheld. b2p.
  apply wp_bind, wp_lift; [auto|]. intros actor Ha. apply wp_bind, wp_lift; [auto|]. intros r Hr.
  apply lifecycle_created in Hr as (Hv & Ht & Hst & Hh & Hn & Hat & Hby); [|done].
  rewrite <- Ht in *. apply wp_bind, wp_modify, wp_append_audit_ret. eapply K_change; [exact HB1|].
  apply (change_lifecycle licensed s1 ctx CAP_DELETE r now); [by apply Hlic|congruence..|].
  rewrite Hst, Hh, Hn. by constructor.
Qed.

Lemma complete_lawful ctx :
  (forall r, TenantLifecycleRecord.status r = TENANT_DELETED -> licensed ctx CAP_DELETE r (checked_at s0)) ->
  TenantAccessContext.create ctx = Ok ctx -> lawful (complete_deletion ctx).
Proof.
  intros Hlic Hctx. unfold lawful, complete_deletion. apply wp_bind, wp_first_now. intros s1 HB1.
  set (now := checked_at s0) in *.
  apply wp_bind, wp_authorize; [auto..|]. intros Hauth. apply wp_bind, wp_get.
  destruct (lifecycle s1 !! TenantAccessContext.tenant_id ctx) as [cur|] eqn:Hcur; [|apply wp_raise; auto].
  apply wp_bind, wp_guard; [auto|]. intros Hp. apply wp_bind, wp_lift; [auto|]. intros actor Ha.
  apply wp_bind, wp_modify, wp_append_audit_ret. eapply K_change; [exact HB1|].
  destruct (lifecycle_valid _ (sound_here _ HB1) _ _ Hcur) as [Hkey _]. rewrite <- Hkey.
  unfold deletion_permitted in Hp. b2p.
  destruct (TenantLifecycleRecord.deletion_not_before cur) as [nb|] eqn:Hnb; [|discriminate]. b2p.
  apply (change_lifecycle licensed s1 ctx CAP_DELETE
    (deleted cur now actor (TenantAccessContext.elevation_id ctx)) now); try done; [by apply Hlic|..].
  - apply validate_lifecycle_intro; [|split; [cbn; congruence|done]]. cbn. rewrite Hkey. by apply audited_actor_marked.
  - cbn. rewrite Hkey, Hcur. match goal with H : _ = false |- _ => rewrite H end.
    by apply (move_complete now _ cur nb).
Qed.

End Calls.

Lemma run_op_lawful {A} (op : operation A) s :
  sound s -> constructed op -> lawful (licence_of op s) s (run_op op).
Proof.
  intros Hs [Hctx Hp]. destruct op; cbn [run_op] in *;
    auto using put_profile_lawful, get_profile_lawful, issue_lawful, redeem_lawful, revoke_lawful,
      export_lawful, list_audit_lawful.
  - apply legal_hold_lawful; [by intros r|by apply Hctx].
  - apply schedule_lawful; [by intros r|by apply Hctx].
  - apply complete_lawful; [done|by intros r|by apply Hctx].
Qed.

(** Every call makes a change that it licenses, or none. *)
Lemma run_op_effect {A} (op : operation A) s o s' :
  sound s -> constructed op -> run_op op s = (o, s') -> effect (licence_of op s) s s'.
Proof.
  intros Hs Hc Hrun. pose proof (run_op_lawful op s Hs Hc) as H.
  unfold lawful, wp in H. rewrite Hrun in H. by destruct o.
Qed.

Lemma step_effect s s' : sound s -> step s s' -> exists licensed, effect licensed s s'.
Proof. intros Hs Hst. destruct Hst as [A op s1 o s1' Hc Hrun]. eexists. by eapply run_op_effect. Qed.

Lemma steps_sound s s' : sound s -> rtc step s s' -> sound s'.
Proof.
  intros Hs Hr. induction Hr as [|a b c Hab _ IH]; [done|].
  apply IH. destruct (step_effect _ _ Hs Hab) as (licensed & He). by eapply effect_sound.
Qed.

Lemma reachable_sound h s : rtc step (empty h) s -> sound s.
Proof. apply steps_sound, empty_sound. Qed.
End TenantRefinement.
