(* ===== verification/TenantProperties.v ===== *)
(** * The tenant control store: theorems

    [Module SupportAccess]: revoked grants and the checks of a support call.
    [Module TenantProperties]: the theorems on support elevation, on the lifecycle of
    a tenant and on the cache namespace, with their witnesses. *)

From S2P Require Import Prelude Canonical CanonicalProofs Contracts Tenancy Host TenantStore TenantProofs.
Import TenantStore.Tenants TenantProofs.TenantSpec TenantProofs.TenantRefinement.

Module SupportAccess.
(** ** A grant that was revoked stays as it is *)
Lemma change_keeps_revoked licensed s s' t id g :
  fresh_ids (env s) -> sound s -> grants s !! (t, id) = Some g ->
  SupportElevationGrant.revoked_at g <> None -> change licensed s s' -> grants s' !! (t, id) = Some g.
Proof.
  intros Hf Hs Hg Hr Hc. destruct Hc as [|h t' g' e _ _ _ Hid|t' id' g' now actor Hg' Hr'|]; cbn; try done.
  - rewrite lookup_insert_ne; [done|]. intros [= -> E].
    destruct (grants_issued _ Hs _ _ _ Hg) as (_ & _ & (i & Hi & Ei) & _).
    assert (drawn (env s) = i) by (apply Hf; congruence). lia.
  - rewrite lookup_insert_ne; [done|]. intros [= -> ->]. congruence.
Qed.

Lemma effect_env licensed s s' : effect licensed s s' -> host_le (env s) (env s').
Proof.
  intros [[]|s1 s2 [] Hc []]; [done|].
  assert (host_le (env s1) (env s2)) by (destruct Hc; done || reflexivity).
  etransitivity; [eassumption|]. by etransitivity.
Qed.

Lemma effect_keeps_revoked licensed s s' t id g :
  fresh_ids (env s) -> sound s -> grants s !! (t, id) = Some g ->
  SupportElevationGrant.revoked_at g <> None -> effect licensed s s' -> grants s' !! (t, id) = Some g.
Proof.
  intros Hf Hs Hg Hr [H|s1 s2 H1 H2 H3].
  - by rewrite (bg_grants _ _ H).
  - rewrite (bg_grants _ _ H3). eapply change_keeps_revoked; [| | |done|exact H2].
    + by eapply fresh_le; [exact (bg_env _ _ H1)|].
    + by eapply background_sound.
    + by rewrite (bg_grants _ _ H1).
Qed.

Lemma steps_keep_revoked s s' t id g :
  fresh_ids (env s) -> sound s -> grants s !! (t, id) = Some g ->
  SupportElevationGrant.revoked_at g <> None -> rtc step s s' -> grants s' !! (t, id) = Some g.
Proof.
  intros Hf Hs Hg Hr Hst. induction Hst as [|a b c Hab _ IH]; [done|].
  destruct (step_effect _ _ Hs Hab) as (licensed & He). apply IH.
  - eapply fresh_le; [by eapply effect_env|done].
  - by eapply effect_sound.
  - by eapply effect_keeps_revoked.
Qed.

(** ** The checks of a call *)

(** What an operation demands of its context.  [put_profile] takes no support
    context at all. *)
Definition capability_of {A} (op : operation A) : TenantCapability :=
  match op with
  | op_put_profile _ _ | op_issue _ _ _ _ _ _ _ | op_redeem _ _ _ | op_revoke _ _ _ _ => CAP_CONFIGURE
  | op_get_profile _ | op_list_audit _ => CAP_READ
  | op_legal_hold _ _ _ => CAP_LEGAL_HOLD
  | op_schedule _ _ _ | op_complete _ => CAP_DELETE
  | op_export _ _ _ => CAP_EXPORT
  end.

Lemma authorize_background ctx cap now s s' :
  background s s' -> authorize ctx cap now s' = authorize ctx cap now s.
Proof.
  intros Hb. unfold authorize, allows_support.
  by rewrite (bg_profiles _ _ Hb), (bg_grants _ _ Hb).
Qed.

Lemma now_then_refused {B} ctx cap (check : datetime -> bool) e (k : datetime -> M store B) s :
  authorize ctx cap (checked_at s) s <> Ok tt ->
  wp (background s) (now <- now_utc ;; guard (check now) e ;; authorize_locked ctx cap now ;; k now)
    (fun _ _ => False) s.
Proof.
  intros Hno. apply wp_bind. unfold wp at 1, now_utc, zoom, read_clock. fold (checked_at s).
  set (s1 := set_env _ s).
  assert (Hb : background s s1) by (apply bg_env_only; repeat split; cbn; lia).
  apply wp_bind, wp_guard; [done|]. intros _. apply wp_bind. unfold wp at 1, authorize_locked.
  rewrite (authorize_background _ _ _ s) by done.
  by destruct (authorize ctx cap (checked_at s) s) as [[]|].
Qed.

(** A call with a support context that is not authorised is refused, and changes
    nothing. *)
Lemma unauthorized_refused {A} (op : operation A) ctx s :
  context_of op = Some ctx -> TenantAccessContext.mode ctx = SUPPORT ->
  authorize ctx (capability_of op) (checked_at s) s <> Ok tt ->
  wp (background s) (run_op op) (fun _ _ => False) s.
Proof.
  assert (Hplain : forall B cap (k : datetime -> M store B),
    authorize ctx cap (checked_at s) s <> Ok tt ->
    wp (background s) (now <- now_utc ;; authorize_locked ctx cap now ;; k now) (fun _ _ => False) s).
  { intros B cap k. apply (now_then_refused ctx cap (fun _ => true) (ValueError "") k s). }
  assert (Hrefl : background s s) by reflexivity.
  intros Hc Hm Hno. destruct op; try discriminate; injection Hc as ->; cbn [run_op capability_of] in *.
  - apply wp_bind, wp_guard; [done|]. by rewrite Hm.
  - by apply Hplain.
  - by apply Hplain.
  - by apply (now_then_refused ctx CAP_DELETE (fun now => negb (not_before <=? now))).
  - by apply Hplain.
  - apply wp_bind, wp_guard; [done|]. intros _. by apply Hplain.
  - by apply Hplain.
Qed.

Lemma returned_authorized {A} (op : operation A) ctx s a s' :
  context_of op = Some ctx -> TenantAccessContext.mode ctx = SUPPORT ->
  run_op op s = (Ok a, s') -> authorize ctx (capability_of op) (checked_at s) s = Ok tt.
Proof.
  intros Hc Hm H. destruct (decide (authorize ctx (capability_of op) (checked_at s) s = Ok tt)); [done|].
  pose proof (unauthorized_refused op ctx s Hc Hm n) as Hw. unfold wp in Hw. by rewrite H in Hw.
Qed.

(** What an authorised support context rests on *)
Lemma authorized_support ctx cap now s :
  TenantAccessContext.mode ctx = SUPPORT -> authorize ctx cap now s = Ok tt ->
  allows_support (TenantAccessContext.tenant_id ctx) s = true /\
  exists id g, TenantAccessContext.elevation_id ctx = Some id /\
    grants s !! (TenantAccessContext.tenant_id ctx, id) = Some g /\
    grant_authorizes g ctx cap now = true.
Proof.
  intros Hm. unfold authorize. rewrite Hm.
  destruct (TenantAccessContext.require_capability ctx cap now) as [|[]]; try discriminate.
  destruct (TenantAccessContext.elevation_id ctx) as [id|]; [|discriminate].
  intros H. apply obind_Ok in H as ([] & Ha & H). apply require_Ok in Ha, H.
  split; [done|]. destruct (grants s !! _) as [g|] eqn:Hg; [|discriminate]. by exists id, g.
Qed.

(** What entitles a context to a capability at an instant: it carries the capability and
    has not expired, and a support context has a live grant for it in the store *)
Definition entitled (ctx : TenantAccessContext) (cap : TenantCapability) (now : datetime) (s : store) : Prop :=
  let t := TenantAccessContext.tenant_id ctx in
  cap ∈ TenantAccessContext.capabilities ctx /\
  (forall e, TenantAccessContext.expires_at ctx = Some e -> now < e) /\
  (TenantAccessContext.mode ctx = SUPPORT ->
     (exists p, profiles s !! t = Some p /\ TenantIsolationProfile.allow_support_access p = true) /\
     exists id g, TenantAccessContext.elevation_id ctx = Some id /\ grants s !! (t, id) = Some g /\
       SupportElevationGrant.revoked_at g = None /\
       SupportElevationGrant.issued_at g <= now < SupportElevationGrant.expires_at g /\
       same_actor_identity (SupportElevationGrant.operator g) (TenantAccessContext.actor ctx) = true /\
       cap ∈ SupportElevationGrant.capabilities g).

Lemma authorize_entitled ctx cap now s : authorize ctx cap now s = Ok tt -> entitled ctx cap now s.
Proof.
  intros Ha. assert (Hcap : TenantAccessContext.require_capability ctx cap now = Ok tt).
  { unfold authorize in Ha. by destruct (TenantAccessContext.require_capability ctx cap now) as [[]|[]]. }
  unfold TenantAccessContext.require_capability in Hcap. run_inv Hcap.
  repeat match goal with E : require _ _ = Ok _ |- _ => apply require_Ok in E end. b2p.
  split; [done|]. split.
  - intros e He. rewrite He in *. by b2p.
  - intros Hm. apply authorized_support in Ha as (Hal & id & g & Hid & Hg & Hok); [|done]. split.
    + unfold allows_support in Hal. destruct (profiles s !! _) as [p|]; [|discriminate]. by exists p.
    + exists id, g. unfold grant_authorizes, SupportElevationGrant.active in Hok. b2p. by split_and!.
Qed.

(** The calls that go through a grant: a support context of it, or its redemption *)
Definition goes_through {A} (op : operation A) (t : string) (id : UUID) : Prop :=
  match op with
  | op_redeem target grant _ => target = t /\ grant = id
  | _ => exists ctx, context_of op = Some ctx /\ TenantAccessContext.mode ctx = SUPPORT /\
           TenantAccessContext.tenant_id ctx = t /\ TenantAccessContext.elevation_id ctx = Some id
  end.

Lemma steps_env s s' : sound s -> rtc step s s' -> host_le (env s) (env s').
Proof.
  intros Hs Hst. induction Hst as [|a b c Hab _ IH]; [reflexivity|].
  destruct (step_effect _ _ Hs Hab) as (licensed & He).
  etransitivity; [by eapply effect_env|]. apply IH. by eapply effect_sound.
Qed.

Lemma reachable_fresh h s : fresh_ids h -> rtc step (empty h) s -> fresh_ids (env s).
Proof. intros Hf Hr. eapply fresh_le; [|exact Hf]. by apply (steps_env (empty h) s (empty_sound h)). Qed.

Lemma spent_refused {A} (op : operation A) t id g s :
  grants s !! (t, id) = Some g -> SupportElevationGrant.revoked_at g <> None ->
  goes_through op t id -> wp (background s) (run_op op) (fun _ _ => False) s.
Proof.
  intros Hg Hr Hthru.
  assert (Hctx : (exists ctx, context_of op = Some ctx /\ TenantAccessContext.mode ctx = SUPPORT /\
           TenantAccessContext.tenant_id ctx = t /\ TenantAccessContext.elevation_id ctx = Some id) ->
           wp (background s) (run_op op) (fun _ _ => False) s).
  { intros (ctx & Hc & Hm & <- & He). apply (unauthorized_refused op ctx s Hc Hm). intros Ha.
    apply authorized_support in Ha as (_ & id' & g' & He' & Hg' & Ha); [|done].
    unfold grant_authorizes, SupportElevationGrant.active in Ha. b2p. congruence. }
  destruct op; try by apply Hctx. destruct Hthru as [-> ->]. cbn [run_op]. unfold redeem_support_grant.
  apply wp_bind, (wp_bg_now s); [reflexivity|]. intros now s1 Hb _.
  apply wp_bind, wp_get, wp_bind, wp_guard; [done|]. intros _. rewrite (bg_grants _ _ Hb), Hg.
  apply wp_bind, wp_guard; [done|]. intros Ha. unfold SupportElevationGrant.active in Ha. b2p. congruence.
Qed.
End SupportAccess.

Module Lifecycle.
Import SupportAccess.

(** Where the tenant stands *)
Definition held (t : string) (s : store) : Prop := held_of (lifecycle s !! t) = true.
Definition deleted_at (t : string) (s : store) : Prop := status_of (lifecycle s !! t) = TENANT_DELETED.
Definition due_of (cur : option TenantLifecycleRecord) : option datetime :=
  match cur with Some r => TenantLifecycleRecord.deletion_not_before r | None => None end.
Definition scheduled_for (t : string) (nb : datetime) (s : store) : Prop :=
  status_of (lifecycle s !! t) = TENANT_DELETION_SCHEDULED /\ due_of (lifecycle s !! t) = Some nb.

#[export] Instance held_dec t s : Decision (held t s).
Proof. unfold held. apply _. Defined.
#[export] Instance deleted_at_dec t s : Decision (deleted_at t s).
Proof. unfold deleted_at. apply _. Defined.
#[export] Instance scheduled_for_dec t nb s : Decision (scheduled_for t nb s).
Proof. unfold scheduled_for. apply _. Defined.

(** The call moved its tenant: its own context was entitled to the capability of the move
    when the call checked it, and the record that is there now is what the call asks for,
    in the name of its context, one move of the lifecycle machine away. *)
Definition moved_by {A} (op : operation A) (s s' : store) : Prop :=
  exists ctx cap r, lifecycle_call op = Some (ctx, cap) /\
    let t := TenantAccessContext.tenant_id ctx in
    let now := checked_at s in
    entitled ctx cap now s /\
    lifecycle s' = <[t := r]> (lifecycle s) /\ TenantLifecycleRecord.tenant_id r = t /\ wanted op r /\
    TenantAccessContext.audited_actor ctx = Ok (TenantLifecycleRecord.updated_by r) /\
    TenantLifecycleRecord.updated_at r = now /\
    TenantLifecycleRecord.validate_lifecycle r = Ok tt /\
    lifecycle_move now (lifecycle s !! t) cap (TenantLifecycleRecord.status r)
      (TenantLifecycleRecord.legal_hold r) (TenantLifecycleRecord.deletion_not_before r).

Lemma effect_moved {A} (op : operation A) s s' :
  effect (licence_of op s) s s' -> lifecycle s' = lifecycle s \/ moved_by op s s'.
Proof.
  intros [H|s1 s2 H1 Hc H3]; [left; apply H|]. unfold moved_by.
  rewrite (bg_lifecycle _ _ H3), <- (bg_lifecycle _ _ H1).
  destruct Hc as [| | |ctx cap r now (Hcall & -> & Hw) Hctx Ha Ht Hv Hat Hby Hm]; auto. right.
  exists ctx, cap, r. rewrite Ht in *.
  rewrite (authorize_background _ _ _ _ _ H1) in Ha. apply authorize_entitled in Ha. done.
Qed.

(** A call after which something else is true of the tenant's record moved the tenant. *)
Lemma crossing_moved {A} (op : operation A) t (P : option TenantLifecycleRecord -> Prop) s o s' :
  sound s -> constructed op -> run_op op s = (o, s') -> ~ P (lifecycle s !! t) -> P (lifecycle s' !! t) ->
  exists ctx cap r, lifecycle_call op = Some (ctx, cap) /\ TenantAccessContext.tenant_id ctx = t /\
    entitled ctx cap (checked_at s) s /\ wanted op r /\ lifecycle s' !! t = Some r /\
    lifecycle_move (checked_at s) (lifecycle s !! t) cap (TenantLifecycleRecord.status r)
      (TenantLifecycleRecord.legal_hold r) (TenantLifecycleRecord.deletion_not_before r).
Proof.
  intros Hs Hc Hrun Hn Hp. pose proof (run_op_effect op s o s' Hs Hc Hrun) as He.
  apply effect_moved in He as [E|(ctx & cap & r & Hcall & Hent & E & _ & Hw & _ & _ & _ & Hm)]; [by rewrite E in Hp|].
  destruct (decide (TenantAccessContext.tenant_id ctx = t)) as [<-|Hne].
  - exists ctx, cap, r. rewrite E, lookup_insert_eq. by split_and!.
  - by rewrite E, lookup_insert_ne in Hp.
Qed.

Lemma held_not_scheduled t s nb : sound s -> held t s -> ~ deleted_at t s /\ ~ scheduled_for t nb s.
Proof.
  unfold held, deleted_at, scheduled_for. intros Hs.
  destruct (lifecycle s !! t) as [r|] eqn:Hr; [|done]. cbn. intros Hh.
  destruct (lifecycle_valid _ Hs _ _ Hr) as [_ Hv]. apply validate_lifecycle_Ok in Hv as [H1 H2].
  split; [by apply H1|]. intros [E _]. rewrite E in H2. destruct H2 as [_ H2]. congruence.
Qed.

(** The calls that release a hold, schedule a deletion and complete it *)
Definition released_by {A} (op : operation A) : option TenantAccessContext :=
  match op with op_legal_hold ctx false _ => Some ctx | _ => None end.
Definition scheduled_by {A} (op : operation A) : option (TenantAccessContext * datetime) :=
  match op with op_schedule ctx not_before _ => Some (ctx, not_before) | _ => None end.
Definition completed_by {A} (op : operation A) : option TenantAccessContext :=
  match op with op_complete ctx => Some ctx | _ => None end.

Section Call.
Context {A} (op : operation A) (t : string) (s : store) (o : outcome A) (s' : store).
Hypothesis s_sound : sound s.
Hypothesis op_constructed : constructed op.
Hypothesis runs : run_op op s = (o, s').

Lemma completion_call :
  ~ deleted_at t s -> deleted_at t s' ->
  exists ctx nb, completed_by op = Some ctx /\ TenantAccessContext.tenant_id ctx = t /\
    entitled ctx CAP_DELETE (checked_at s) s /\ scheduled_for t nb s /\ nb <= checked_at s.
Proof.
  intros Hn Hd.
  destruct (crossing_moved op t (fun cur => status_of cur = TENANT_DELETED) s o s')
    as (ctx & cap & r & Hcall & Ht & Hent & Hw & Hr & Hmove); try done.
  unfold deleted_at in Hn, Hd. rewrite Hr in Hd. cbn in Hd.
  inversion Hmove as [ | | |r0 nb Hcur Hst0 Hh0 Hnb Hle]; subst cap; try congruence.
  exists ctx, nb. unfold scheduled_for. rewrite Hcur.
  destruct op; try discriminate Hcall; cbn in *; injection Hcall as <-; [|done].
  destruct Hw. congruence.
Qed.

Lemma scheduling_call nb :
  ~ scheduled_for t nb s -> scheduled_for t nb s' ->
  exists ctx, scheduled_by op = Some (ctx, nb) /\ TenantAccessContext.tenant_id ctx = t /\
    entitled ctx CAP_DELETE (checked_at s) s /\ ~ held t s /\ checked_at s < nb.
Proof.
  intros Hn Hd.
  destruct (crossing_moved op t (fun cur => status_of cur = TENANT_DELETION_SCHEDULED /\ due_of cur = Some nb) s o s')
    as (ctx & cap & r & Hcall & Ht & Hent & Hw & Hr & Hmove); try done.
  unfold scheduled_for in Hn, Hd. rewrite Hr in Hd. cbn in Hd. destruct Hd as [Hd1 Hd2].
  inversion Hmove as [|Hne|nb' Hfree Hfut|]; subst cap; try congruence.
  exists ctx. unfold held. destruct op; try discriminate Hcall; cbn in *; injection Hcall as <-; [|congruence].
  destruct Hw as [_ Hw]. split_and!; [congruence|done|done|congruence|congruence].
Qed.

Lemma release_call :
  held t s -> ~ held t s' ->
  exists ctx, released_by op = Some ctx /\ TenantAccessContext.tenant_id ctx = t /\
    entitled ctx CAP_LEGAL_HOLD (checked_at s) s.
Proof.
  intros Hh Hn.
  destruct (crossing_moved op t (fun cur => held_of cur <> true) s o s')
    as (ctx & cap & r & Hcall & Ht & Hent & Hw & Hr & Hmove); try done.
  { by intros H. }
  unfold held in Hh, Hn. rewrite Hr in Hn. cbn in Hn. exists ctx.
  destruct op; try discriminate Hcall; cbn in *; injection Hcall as <- <-.
  - destruct enabled; [congruence|done].
  - inversion Hmove as [| | |r0 nb Hcur]; subst; try congruence. rewrite Hcur in Hh. cbn in Hh. congruence.
  - inversion Hmove as [| | |r0 nb Hcur]; subst; try congruence. rewrite Hcur in Hh. cbn in Hh. congruence.
Qed.
End Call.

(** ** Sequences of calls *)
Record any_call : Type := Call_of { c_type : Type; c_op : operation c_type }.

Definition made (c : any_call) (s : store) : store := snd (run_op (c_op c) s).
Definition perform (l : list any_call) (s : store) : store := foldl (fun s c => made c s) s l.

Lemma perform_app l l' s : perform (l ++ l') s = perform l' (perform l s).
Proof. apply foldl_app. Qed.

Lemma made_step c s : constructed (c_op c) -> step s (made c s).
Proof. intros Hc. apply (step_op (c_op c) s (fst (run_op (c_op c) s))); [done|apply surjective_pairing]. Qed.

Lemma perform_steps l s : Forall (fun c => constructed (c_op c)) l -> rtc step s (perform l s).
Proof.
  intros H. revert s. induction H as [|c l Hc _ IH]; intros s; [done|].
  eapply rtc_l; [by apply made_step|apply IH].
Qed.

(** What became true during a sequence of calls became true in one of them. *)
Lemma perform_crossing (P : store -> Prop) `{!forall s, Decision (P s)} l s :
  ~ P s -> P (perform l s) ->
  exists l1 c l2, l = l1 ++ c :: l2 /\ ~ P (perform l1 s) /\ P (made c (perform l1 s)).
Proof.
  revert s. induction l as [|c l IH]; intros s Hn Hp; [done|].
  destruct (decide (P (made c s))) as [Hc|Hc]; [by exists [], c, l|].
  destruct (IH (made c s) Hc Hp) as (l1 & c' & l2 & -> & H1 & H2). by exists (c :: l1), c', l2.
Qed.
End Lifecycle.

(** ** The parts of a cache key *)
Lemma cache_key_parts t n k key :
  cache_key t n k = Ok key -> exists d e,
    sha256_hex (PDict [("tenant_id", PStr t)]) = Ok d /\ sha256_hex (PDict [("key", PStr k)]) = Ok e /\
    key = "prodkit:" +:+ d +:+ ":" +:+ n +:+ ":" +:+ e.
Proof.
  unfold cache_key. intros H. apply obind_Ok in H as ([] & _ & H). apply obind_Ok in H as (d & Hd & H).
  apply obind_Ok in H as (e & He & H). injection H as <-. by exists d, e.
Qed.

Lemma partition_inj field a b h :
  sha256_hex (PDict [(field, PStr a)]) = Ok h -> sha256_hex (PDict [(field, PStr b)]) = Ok h ->
  a = b \/ collision.
Proof.
  intros Ha Hb. destruct (sha256_hex_eq _ _ _ Ha Hb) as [E|]; [|by right]. left.
  apply canonical_bytes_canon in E; [|reflexivity..]. by injection E.
Qed.

Module TenantProperties.
Import SupportAccess Lifecycle.

(** C26: support access is accountable.  A call made with a support context returns
    only if, when the call checked it, the context rode on a grant of the store that
    was live - issued, not expired, not revoked, at most an hour long -, whose issuer
    holds the support authority and whose operator is the caller, which covers the
    capability of the call, while the tenant opts into support; and the issuance of
    that grant is on the tenant's audit log. *)
Theorem support_calls_accountable h s {A} (op : operation A) ctx a s' :
  rtc step (empty h) s ->
  context_of op = Some ctx -> TenantAccessContext.mode ctx = SUPPORT ->
  run_op op s = (Ok a, s') ->
  let t := TenantAccessContext.tenant_id ctx in
  let now := checked_at s in
  allows_support t s = true /\
  exists id g e,
    TenantAccessContext.elevation_id ctx = Some id /\ grants s !! (t, id) = Some g /\
    require_support_authority (SupportElevationGrant.issued_by g) = Ok tt /\
    require_support_operator (SupportElevationGrant.operator g) = Ok tt /\
    same_actor_identity (SupportElevationGrant.operator g) (TenantAccessContext.actor ctx) = true /\
    capability_of op ∈ SupportElevationGrant.capabilities g /\
    SupportElevationGrant.issued_at g <= now < SupportElevationGrant.expires_at g /\
    SupportElevationGrant.expires_at g <= SupportElevationGrant.issued_at g + seconds 3600 /\
    SupportElevationGrant.revoked_at g = None /\
    e ∈ audit_of t s /\ issuance_of g e.
Proof.
  intros Hr Hc Hm Hrun t now. apply reachable_sound in Hr.
  destruct (authorized_support ctx _ now s Hm (returned_authorized op ctx s a s' Hc Hm Hrun))
    as (Hs & id & g & Hid & Hg & Ha).
  split; [done|]. destruct (grants_issued _ Hr _ _ _ Hg) as (_ & (T1 & T2 & T3) & _ & e & He & Hi).
  exists id, g, e. unfold grant_authorizes, SupportElevationGrant.active in Ha. b2p.
  repeat (split; [done || lia|]). done.
Qed.

(** C29: a revoked grant is spent.  Once a grant of the store carries a revocation, no
    later sequence of calls changes it, and every call that goes through it - made
    with a support context of it, or redeeming it - is refused and changes nothing
    but the clock and the audit log.  (Grant identifiers are never drawn twice.) *)
Theorem revoked_grant_powerless h s s' t id g {A} (op : operation A) o s'' :
  fresh_ids h -> rtc step (empty h) s ->
  grants s !! (t, id) = Some g -> SupportElevationGrant.revoked_at g <> None ->
  rtc step s s' -> goes_through op t id -> run_op op s' = (o, s'') ->
  grants s' !! (t, id) = Some g /\ is_ok o = false /\ background s' s''.
Proof.
  intros Hf Hr Hg Hrev Hst Hthru Hrun.
  pose proof (reachable_fresh _ _ Hf Hr) as Hf'. apply reachable_sound in Hr.
  pose proof (steps_keep_revoked _ _ _ _ _ Hf' Hr Hg Hrev Hst) as Hg'. split; [done|].
  enough (Hw : wp (background s') (run_op op) (fun _ _ => False) s').
  { unfold wp in Hw. rewrite Hrun in Hw. by destruct o. }
  by eapply spent_refused.
Qed.

(** C33: the lifecycle refines its abstract machine.  Every call of a reachable store,
    whether it returns or raises, leaves every lifecycle record alone or makes one move of
    its own tenant: place a hold, release it, schedule a deletion for the future, complete
    one that is due and not held.  It does so only if the context the call was made with
    was, at the instant the call read first, entitled to the capability of the move - it
    carries it and has not expired, and a support context has a live grant for it -; the
    record it writes is what the call asks for, valid, and in that context's name. *)
Theorem tenant_lifecycle_refines h s {A} (op : operation A) o s' :
  rtc step (empty h) s -> constructed op -> run_op op s = (o, s') ->
  lifecycle s' = lifecycle s \/ moved_by op s s'.
Proof. intros Hr Hc Hrun. eapply effect_moved, run_op_effect; [by eapply reachable_sound|done..]. Qed.

(** C28: a legal hold protects the tenant.  If a tenant under legal hold is deleted after
    a sequence of calls, then among those calls there are, in this order, one that asked
    to release the hold, one that asked to schedule the deletion for an instant that was
    in the future when it was checked, and one that asked for the completion, checked at
    or after that instant; and the context each of the three was made with is of the
    tenant and was entitled, when its call checked it, to legal holds or to deletion. *)
Theorem deletion_follows_release h s l t :
  rtc step (empty h) s -> Forall (fun c => constructed (c_op c)) l ->
  held t s -> deleted_at t (perform l s) ->
  exists la c1 lb c2 lc c3 ld ctx1 ctx2 ctx3 nb,
    l = la ++ c1 :: lb ++ c2 :: lc ++ c3 :: ld /\
    let s1 := perform la s in
    let s2 := perform (la ++ c1 :: lb) s in
    let s3 := perform (la ++ c1 :: lb ++ c2 :: lc) s in
    (released_by (c_op c1) = Some ctx1 /\ TenantAccessContext.tenant_id ctx1 = t /\
     entitled ctx1 CAP_LEGAL_HOLD (checked_at s1) s1 /\ held t s1 /\ ~ held t (made c1 s1)) /\
    (scheduled_by (c_op c2) = Some (ctx2, nb) /\ TenantAccessContext.tenant_id ctx2 = t /\
     entitled ctx2 CAP_DELETE (checked_at s2) s2 /\ ~ held t s2 /\ checked_at s2 < nb) /\
    (completed_by (c_op c3) = Some ctx3 /\ TenantAccessContext.tenant_id ctx3 = t /\
     entitled ctx3 CAP_DELETE (checked_at s3) s3 /\ scheduled_for t nb s3 /\ nb <= checked_at s3).
Proof.
  intros Hr Hall Hh Hd. apply reachable_sound in Hr.
  destruct (perform_crossing (deleted_at t) l s) as (l3 & c3 & ld & -> & Hn3 & Hp3);
    [by eapply (held_not_scheduled t s 0)|done|].
  apply Forall_app in Hall as [Hall Hc3]. apply Forall_cons in Hc3 as [Hc3 _].
  destruct (completion_call (c_op c3) t _ _ _ (steps_sound _ _ Hr (perform_steps l3 s Hall)) Hc3 (surjective_pairing _) Hn3 Hp3)
    as (ctx3 & nb & H31 & H32 & H33 & Hsched & Hdue).
  destruct (perform_crossing (scheduled_for t nb) l3 s) as (l2 & c2 & lc & -> & Hn2 & Hp2);
    [by eapply held_not_scheduled|done|].
  apply Forall_app in Hall as [Hall Hc2]. apply Forall_cons in Hc2 as [Hc2 _].
  destruct (scheduling_call (c_op c2) t _ _ _ (steps_sound _ _ Hr (perform_steps l2 s Hall)) Hc2 (surjective_pairing _) nb Hn2 Hp2)
    as (ctx2 & H21 & H22 & H23 & Hfree & Hfut).
  destruct (perform_crossing (fun x => ~ held t x) l2 s) as (la & c1 & lb & -> & Hn1 & Hp1);
    [by intros H|done|].
  apply Forall_app in Hall as [Hall Hc1]. apply Forall_cons in Hc1 as [Hc1 _]. apply dec_stable in Hn1.
  destruct (release_call (c_op c1) t _ _ _ (steps_sound _ _ Hr (perform_steps la s Hall)) Hc1 (surjective_pairing _) Hn1 Hp1)
    as (ctx1 & H11 & H12 & H13).
  exists la, c1, lb, c2, lc, c3, ld, ctx1, ctx2, ctx3, nb. rewrite <- !app_assoc in *. by split_and!.
Qed.

(** The cache key identifies its parts.  Two keys of the tenant cache namespace
    are equal only for the same tenant, the same namespace and the same key - or two
    byte strings with the same SHA-256 digest have been found. *)
Theorem cache_key_identifies t1 n1 k1 t2 n2 k2 key :
  cache_key t1 n1 k1 = Ok key -> cache_key t2 n2 k2 = Ok key ->
  (t1 = t2 /\ n1 = n2 /\ k1 = k2) \/ collision.
Proof.
  intros H1 H2. apply cache_key_parts in H1 as (d1 & e1 & Hd1 & He1 & Hk1), H2 as (d2 & e2 & Hd2 & He2 & Hk2).
  pose proof (sha256_hex_dict_length _ _ Hd1) as L1. pose proof (sha256_hex_dict_length _ _ Hd2) as L2.
  pose proof (sha256_hex_dict_length _ _ He1) as L3. pose proof (sha256_hex_dict_length _ _ He2) as L4.
  rewrite Hk1 in Hk2. apply append_inj_length in Hk2 as [_ H]; [|done].
  apply append_inj_length in H as [<- H]; [|congruence]. apply append_inj_length in H as [_ H]; [|done].
  pose proof (f_equal String.length H) as L. rewrite !length_append in L. cbn in L.
  apply append_inj_length in H as [<- H]; [|lia]. apply append_inj_length in H as [_ <-]; [|done].
  destruct (partition_inj _ _ _ _ Hd1 Hd2) as [<-|]; [|by right].
  destruct (partition_inj _ _ _ _ He1 He2) as [<-|]; [|by right]. by left.
Qed.

(** ** Witnesses: one tenant, a support session on it, and its deletion *)
Definition w_host : host := {|
  clock := fun n => seconds (1000 + Z.of_nat n); ticks := 0;
  entropy := fun i => Z.of_nat i + 1; drawn := 0 |}.

Lemma w_host_fresh : fresh_ids w_host.
Proof. intros i j H. cbn in H. lia. Qed.

Definition w_actor (id tenant : string) (attrs : list (string * string)) : ActorRef := {|
  ActorRef.kind := HUMAN; ActorRef.id := id; ActorRef.display_name := None;
  ActorRef.tenant_id := tenant; ActorRef.workload_identity := None; ActorRef.attributes := attrs |}.

Definition w_operator : ActorRef := w_actor "eve" "vendor" [("prodkit.support_operator", "true")].
Definition w_authority : ActorRef := w_actor "ann" "vendor" [("prodkit.support_authority", "true")].

Definition w_ctx : TenantAccessContext := {|
  TenantAccessContext.tenant_id := "acme"; TenantAccessContext.actor := w_actor "bob" "acme" [];
  TenantAccessContext.mode := TENANT;
  TenantAccessContext.capabilities := [CAP_CONFIGURE; CAP_READ; CAP_DELETE; CAP_LEGAL_HOLD];
  TenantAccessContext.elevation_id := None; TenantAccessContext.reason := None;
  TenantAccessContext.ticket_reference := None; TenantAccessContext.issued_at := 0;
  TenantAccessContext.expires_at := None |}.

Definition w_profile : TenantIsolationProfile := {|
  TenantIsolationProfile.tenant_id := "acme"; TenantIsolationProfile.policy_profile := "p";
  TenantIsolationProfile.signing_profile := "s"; TenantIsolationProfile.retention_profile := "r";
  TenantIsolationProfile.executor_profile := "e"; TenantIsolationProfile.storage_partition := "d";
  TenantIsolationProfile.cache_namespace := "c"; TenantIsolationProfile.allow_support_access := true;
  TenantIsolationProfile.attributes := [] |}.

Definition w_do {A} (op : operation A) (s : store) : store := snd (run_op op s).

Lemma w_do_step {A} (op : operation A) s : constructed op -> step s (w_do op s).
Proof. intros Hc. apply (step_op op s (fst (run_op op s))); [done|apply surjective_pairing]. Qed.

Lemma w_do_rtc {A} (op : operation A) s0 s : constructed op -> rtc step s0 s -> rtc step s0 (w_do op s).
Proof. intros Hc Hr. eapply rtc_r; [exact Hr|by apply w_do_step]. Qed.

Lemma w_with_ctx {A} (op : operation A) :
  context_of op = Some w_ctx -> match op with op_put_profile _ p => p = w_profile | _ => True end ->
  constructed op.
Proof.
  intros Hc Hp. split; [intros ctx; rewrite Hc; intros [= <-]; by vm_compute|].
  destruct op; try done. subst. by vm_compute.
Qed.

Definition w_op_issue : operation SupportElevationGrant :=
  op_issue "acme" w_operator w_authority [CAP_READ] "outage" "T-1" 3600.
Definition w_op_revoke : operation unit := op_revoke "acme" 2 w_authority "done".
Definition w_session : TenantAccessContext := {|
  TenantAccessContext.tenant_id := "acme"; TenantAccessContext.actor := w_operator;
  TenantAccessContext.mode := SUPPORT; TenantAccessContext.capabilities := [CAP_READ];
  TenantAccessContext.elevation_id := Some 2; TenantAccessContext.reason := Some "outage";
  TenantAccessContext.ticket_reference := Some "T-1"; TenantAccessContext.issued_at := seconds 1002;
  TenantAccessContext.expires_at := Some (seconds 4602) |}.

Definition w_granted : store := w_do w_op_issue (w_do (op_put_profile w_ctx w_profile) (empty w_host)).
Definition w_revoked : store := w_do w_op_revoke w_granted.

Lemma w_granted_reachable : rtc step (empty w_host) w_granted.
Proof.
  apply w_do_rtc; [by split|]. apply w_do_rtc; [by apply w_with_ctx|apply rtc_refl].
Qed.

Lemma w_revoked_reachable : rtc step (empty w_host) w_revoked.
Proof. apply w_do_rtc; [by split|exact w_granted_reachable]. Qed.

(** The session context is the one the redemption returns. *)
Example w_session_redeemed : fst (run_op (op_redeem "acme" 2 w_operator) w_granted) = Ok w_session.
Proof. vm_compute. reflexivity. Qed.

Lemma w_session_call :
  is_ok (fst (run_op (op_list_audit w_session) w_granted)) = true /\
  is_ok (fst (run_op (op_list_audit w_session) w_revoked)) = false.
Proof. vm_compute. by split. Qed.

Lemma support_calls_accountable_witness :
  exists s a s', run_op (op_list_audit w_session) s = (Ok a, s') /\
    exists id g, TenantAccessContext.elevation_id w_session = Some id /\
      grants s !! ("acme", id) = Some g /\ CAP_READ ∈ SupportElevationGrant.capabilities g.
Proof.
  pose proof (proj1 w_session_call) as Hok.
  destruct (run_op (op_list_audit w_session) w_granted) as [[a|e] s'] eqn:Hrun; [|discriminate Hok].
  exists w_granted, a, s'. split; [exact Hrun|].
  pose proof (support_calls_accountable w_host w_granted (op_list_audit w_session) w_session a s'
                w_granted_reachable eq_refl eq_refl Hrun) as (_ & id & g & e & H1 & H2 & _ & _ & _ & H3 & _).
  exists id, g. split; [exact H1|]. split; [exact H2|exact H3].
Defined.

Lemma w_revocation : exists g, grants w_revoked !! ("acme", 2) = Some g /\
  SupportElevationGrant.revoked_at g <> None.
Proof. eexists. split; [vm_compute; reflexivity|]. vm_compute. discriminate. Qed.

Lemma revoked_grant_powerless_witness :
  is_ok (fst (run_op (op_list_audit w_session) w_revoked)) = false /\
  background w_revoked (snd (run_op (op_list_audit w_session) w_revoked)).
Proof.
  destruct w_revocation as (g & Hg & Hr).
  pose proof (revoked_grant_powerless w_host w_revoked w_revoked "acme" 2 g (op_list_audit w_session)
    (fst (run_op (op_list_audit w_session) w_revoked)) (snd (run_op (op_list_audit w_session) w_revoked))
    w_host_fresh w_revoked_reachable Hg Hr (rtc_refl _ _)
    (ex_intro _ w_session (conj eq_refl (conj eq_refl (conj eq_refl eq_refl))))
    (surjective_pairing _)) as (_ & H).
  exact H.
Defined.

Definition w_held : store := w_do (op_legal_hold w_ctx true "litigation") (empty w_host).
Definition w_free : store := w_do (op_legal_hold w_ctx false "settled") w_held.
Definition w_due : store := w_do (op_schedule w_ctx (seconds 1003) "offboarding") w_free.
Definition w_gone : store := w_do (op_complete w_ctx) w_due.

Lemma w_held_reachable : rtc step (empty w_host) w_held.
Proof. apply w_do_rtc; [by apply w_with_ctx|apply rtc_refl]. Qed.

Definition w_calls : list any_call :=
  [Call_of _ (op_legal_hold w_ctx false "settled"); Call_of _ (op_schedule w_ctx (seconds 1003) "offboarding");
   Call_of _ (op_complete w_ctx)].

Lemma w_calls_constructed : Forall (fun c => constructed (c_op c)) w_calls.
Proof. repeat constructor; by apply w_with_ctx. Qed.

Lemma w_facts : held "acme" w_held /\ deleted_at "acme" (perform w_calls w_held).
Proof. split; vm_compute; reflexivity. Qed.

Lemma w_held_changed : lifecycle w_held <> lifecycle (empty w_host).
Proof. intros H. apply (f_equal (fun m => m !! "acme")) in H. vm_compute in H. discriminate. Qed.

Lemma tenant_lifecycle_refines_witness :
  moved_by (op_legal_hold w_ctx true "litigation") (empty w_host) w_held.
Proof.
  destruct (tenant_lifecycle_refines w_host (empty w_host) (op_legal_hold w_ctx true "litigation") _ w_held (rtc_refl _ _)
              (w_with_ctx (op_legal_hold w_ctx true "litigation") eq_refl I) (surjective_pairing _))
    as [H|H]; [destruct (w_held_changed H)|exact H].
Defined.

Lemma deletion_follows_release_witness :
  exists la c1 rest ctx, w_calls = la ++ c1 :: rest /\ released_by (c_op c1) = Some ctx /\
    entitled ctx CAP_LEGAL_HOLD (checked_at (perform la w_held)) (perform la w_held).
Proof.
  destruct (deletion_follows_release w_host w_held w_calls "acme" w_held_reachable w_calls_constructed
              (proj1 w_facts) (proj2 w_facts))
    as (la & c1 & lb & c2 & lc & c3 & ld & ctx1 & ctx2 & ctx3 & nb & E & (H1 & _ & H2 & _) & _).
  exists la, c1, (lb ++ c2 :: lc ++ c3 :: ld), ctx1. split; [exact E|]. split; [exact H1|exact H2].
Defined.

Lemma w_key_ok : is_ok (cache_key "acme" "plans" "k1") = true.
Proof. vm_compute. reflexivity. Qed.

Lemma cache_key_identifies_witness :
  exists key, cache_key "acme" "plans" "k1" = Ok key /\
    (("acme" = "acme" /\ "plans" = "plans" /\ "k1" = "k1") \/ collision).
Proof.
  pose proof w_key_ok as Hok. destruct (cache_key "acme" "plans" "k1") as [key|e] eqn:Hk; [|discriminate Hok].
  exists key. split; [reflexivity|]. exact (cache_key_identifies _ _ _ _ _ _ key Hk Hk).
Defined.

(** ** Observations *)

(** A legal hold released with a blank reason: the call raises, after the record was
    replaced, and the audit log is as it was. *)
Definition w_blank_release := run_op (op_legal_hold w_ctx false " ") w_held.

Example blank_reason_leaves_no_audit :
  is_ok (fst w_blank_release) = false /\ held "acme" w_held /\ ~ held "acme" (snd w_blank_release) /\
  audit_of "acme" (snd w_blank_release) = audit_of "acme" w_held.
Proof.
  split; [vm_compute; reflexivity|]. split; [vm_compute; reflexivity|].
  split; [vm_compute; discriminate|vm_compute; reflexivity].
Qed.

(** A deleted tenant can be scheduled for deletion, and live again through a hold. *)
Example deleted_tenant_rescheduled :
  status_of (lifecycle (w_do (op_legal_hold w_ctx true "again")
    (w_do (op_schedule w_ctx (seconds 2000) "again") w_gone)) !! "acme") = TENANT_ACTIVE.
Proof. vm_compute. reflexivity. Qed.
End TenantProperties.
