(* ===== verification/RecoveryContracts.v ===== *)
(** * Recovery: the contract records

    Models [contracts/recovery.py]: reliability profiles, backup manifests, restore
    plans and results, integrity scans, break-glass grants and their uses, the
    evidence of a reconciliation after a restore, game days, audit events.
    [schema_name] and [schema_version] keep their defaults. *)

From S2P Require Import Prelude Canonical Contracts.

Inductive RecoveryComponent : Set :=
| COMP_LEDGER | COMP_LINEAGE | COMP_CONFIGURATION | COMP_ARTIFACT_METADATA
| COMP_OBJECT_STORE | COMP_IDEMPOTENCY | COMP_EXECUTION_ATTEMPTS | COMP_GOVERNANCE.

#[export] Instance RecoveryComponent_eq_dec : EqDecision RecoveryComponent.
Proof. solve_decision. Defined.

Definition RecoveryComponent_value (e : RecoveryComponent) : string :=
  match e with
  | COMP_LEDGER => "ledger"
  | COMP_LINEAGE => "lineage"
  | COMP_CONFIGURATION => "configuration"
  | COMP_ARTIFACT_METADATA => "artifact_metadata"
  | COMP_OBJECT_STORE => "object_store"
  | COMP_IDEMPOTENCY => "idempotency"
  | COMP_EXECUTION_ATTEMPTS => "execution_attempts"
  | COMP_GOVERNANCE => "governance"
  end.

Inductive RecoveryIntegrityStatus : Set :=
| SCAN_VERIFIED | SCAN_FAILED.

#[export] Instance RecoveryIntegrityStatus_eq_dec : EqDecision RecoveryIntegrityStatus.
Proof. solve_decision. Defined.

Definition RecoveryIntegrityStatus_value (e : RecoveryIntegrityStatus) : string :=
  match e with
  | SCAN_VERIFIED => "verified"
  | SCAN_FAILED => "failed"
  end.

Inductive RestoreStatus : Set :=
| RESTORE_VERIFIED | RESTORE_DEGRADED | RESTORE_FAILED.

#[export] Instance RestoreStatus_eq_dec : EqDecision RestoreStatus.
Proof. solve_decision. Defined.

Definition RestoreStatus_value (e : RestoreStatus) : string :=
  match e with
  | RESTORE_VERIFIED => "verified"
  | RESTORE_DEGRADED => "degraded"
  | RESTORE_FAILED => "failed"
  end.

Inductive RecoveryFindingSeverity : Set :=
| SEV_INFO | SEV_WARNING | SEV_ERROR | SEV_CRITICAL.

#[export] Instance RecoveryFindingSeverity_eq_dec : EqDecision RecoveryFindingSeverity.
Proof. solve_decision. Defined.

Definition RecoveryFindingSeverity_value (e : RecoveryFindingSeverity) : string :=
  match e with
  | SEV_INFO => "info"
  | SEV_WARNING => "warning"
  | SEV_ERROR => "error"
  | SEV_CRITICAL => "critical"
  end.

Inductive UncertainRecoveryDisposition : Set :=
| RECONCILE_REQUIRED | MATCHED_SUCCESS | MATCHED_FAILURE | NOT_OBSERVED | UNVERIFIABLE.

#[export] Instance UncertainRecoveryDisposition_eq_dec : EqDecision UncertainRecoveryDisposition.
Proof. solve_decision. Defined.

Definition UncertainRecoveryDisposition_value (e : UncertainRecoveryDisposition) : string :=
  match e with
  | RECONCILE_REQUIRED => "reconcile_required"
  | MATCHED_SUCCESS => "matched_success"
  | MATCHED_FAILURE => "matched_failure"
  | NOT_OBSERVED => "not_observed"
  | UNVERIFIABLE => "unverifiable"
  end.

Inductive BreakGlassCapability : Set :=
| BG_RESTORE | BG_FAILOVER | BG_INTEGRITY_SCAN | BG_RECONCILE | BG_CONFIGURE_RECOVERY.

#[export] Instance BreakGlassCapability_eq_dec : EqDecision BreakGlassCapability.
Proof. solve_decision. Defined.

Definition BreakGlassCapability_value (e : BreakGlassCapability) : string :=
  match e with
  | BG_RESTORE => "restore"
  | BG_FAILOVER => "failover"
  | BG_INTEGRITY_SCAN => "integrity_scan"
  | BG_RECONCILE => "reconcile"
  | BG_CONFIGURE_RECOVERY => "configure_recovery"
  end.

Inductive RecoveryAuditEventType : Set :=
| PROFILE_PUBLISHED | BACKUP_RECORDED | RESTORE_PLANNED | BREAK_GLASS_ISSUED
| BREAK_GLASS_USED | BREAK_GLASS_REVOKED | INTEGRITY_SCAN_RECORDED
| UNCERTAIN_ATTEMPT_RECONCILED | RECOVERY_GAP_RECONCILED | RESTORE_COMPLETED
| GAME_DAY_RECORDED.

#[export] Instance RecoveryAuditEventType_eq_dec : EqDecision RecoveryAuditEventType.
Proof. solve_decision. Defined.

Definition RecoveryAuditEventType_value (e : RecoveryAuditEventType) : string :=
  match e with
  | PROFILE_PUBLISHED => "profile_published"
  | BACKUP_RECORDED => "backup_recorded"
  | RESTORE_PLANNED => "restore_planned"
  | BREAK_GLASS_ISSUED => "break_glass_issued"
  | BREAK_GLASS_USED => "break_glass_used"
  | BREAK_GLASS_REVOKED => "break_glass_revoked"
  | INTEGRITY_SCAN_RECORDED => "integrity_scan_recorded"
  | UNCERTAIN_ATTEMPT_RECONCILED => "uncertain_attempt_reconciled"
  | RECOVERY_GAP_RECONCILED => "recovery_gap_reconciled"
  | RESTORE_COMPLETED => "restore_completed"
  | GAME_DAY_RECORDED => "game_day_recorded"
  end.

Module ReliabilityProfile.
Record ReliabilityProfile : Type := {
  profile_id : string;
  tenant_id : string;
  revision : Z;
  rpo_seconds : Z;
  rto_seconds : Z;
  backup_interval_seconds : Z;
  max_backup_age_seconds : Z;
  restore_exercise_interval_seconds : Z;
  required_components : list RecoveryComponent;
  max_break_glass_seconds : Z;
  effective_at : datetime;
  created_at : datetime;
  created_by : ActorRef;
}.

#[global] Instance ReliabilityProfile_eq_dec : EqDecision ReliabilityProfile.
Proof. solve_decision. Defined.

Definition validate_profile (r : ReliabilityProfile) : outcome unit :=
  require (bool_decide (ActorRef.tenant_id (created_by r) = tenant_id r))
    (ValidationError "reliability profile actor must belong to the tenant") ;~
  require (negb (effective_at r <? created_at r))
    (ValidationError "reliability profile cannot be effective before creation") ;~
  require (negb (bool_decide (required_components r = [])))
    (ValidationError "reliability profile requires at least one recovery component") ;~
  require (py_unique (required_components r))
    (ValidationError "recovery components must be unique") ;~
  require (negb (max_backup_age_seconds r <? backup_interval_seconds r))
    (ValidationError "backup interval cannot exceed maximum backup age") ;~
  require (negb ((0 <? rpo_seconds r) && (rpo_seconds r <? backup_interval_seconds r)))
    (ValidationError "backup interval cannot exceed the declared RPO").

Definition create (r : ReliabilityProfile) : outcome ReliabilityProfile :=
  profile_id' <~ NonBlankStr "profile_id" (profile_id r) ;;
  tenant_id' <~ NonBlankStr "tenant_id" (tenant_id r) ;;
  require (1 <=? revision r) (ValidationError "revision") ;~
  require (0 <=? rpo_seconds r) (ValidationError "rpo_seconds") ;~
  require (1 <=? rto_seconds r) (ValidationError "rto_seconds") ;~
  require (1 <=? backup_interval_seconds r) (ValidationError "backup_interval_seconds") ;~
  require (1 <=? max_backup_age_seconds r) (ValidationError "max_backup_age_seconds") ;~
  require (1 <=? restore_exercise_interval_seconds r) (ValidationError "restore_exercise_interval_seconds") ;~
  require ((60 <=? max_break_glass_seconds r) && (max_break_glass_seconds r <=? 3600)) (ValidationError "max_break_glass_seconds") ;~
  let r := {| profile_id := profile_id'; tenant_id := tenant_id'; revision := revision r;
            rpo_seconds := rpo_seconds r; rto_seconds := rto_seconds r;
            backup_interval_seconds := backup_interval_seconds r;
            max_backup_age_seconds := max_backup_age_seconds r;
            restore_exercise_interval_seconds := restore_exercise_interval_seconds r;
            required_components := required_components r;
            max_break_glass_seconds := max_break_glass_seconds r;
            effective_at := effective_at r; created_at := created_at r;
            created_by := created_by r |} in
  validate_profile r ;~
  Ok r.

End ReliabilityProfile.
Abbreviation ReliabilityProfile := ReliabilityProfile.ReliabilityProfile.

Module BackupComponentRecord.
Record BackupComponentRecord : Type := {
  component : RecoveryComponent;
  reference : string;
  sha256 : string;
  size_bytes : Z;
  captured_at : datetime;
  source_site : string;
  encrypted : bool;
  immutable : bool;
}.

#[global] Instance BackupComponentRecord_eq_dec : EqDecision BackupComponentRecord.
Proof. solve_decision. Defined.

Definition create (r : BackupComponentRecord) : outcome BackupComponentRecord :=
  reference' <~ NonBlankStr "reference" (reference r) ;;
  sha256' <~ Sha256 "sha256" (sha256 r) ;;
  require (0 <=? size_bytes r) (ValidationError "size_bytes") ;~
  source_site' <~ NonBlankStr "source_site" (source_site r) ;;
  let r := {| component := component r; reference := reference'; sha256 := sha256';
            size_bytes := size_bytes r; captured_at := captured_at r;
            source_site := source_site'; encrypted := encrypted r;
            immutable := immutable r |} in
  Ok r.

End BackupComponentRecord.
Abbreviation BackupComponentRecord := BackupComponentRecord.BackupComponentRecord.

Module BackupManifest.
Record BackupManifest : Type := {
  backup_id : UUID;
  tenant_id : string;
  profile_id : string;
  profile_revision : Z;
  source_schema_version : Z;
  source_control_version : string;
  source_site : string;
  snapshot_set_id : string;
  recovery_point_at : datetime;
  created_at : datetime;
  components : list BackupComponentRecord;
  ledger_chain_tip_sha256 : string;
  trusted_checkpoint_sha256 : string;
  trust_anchor_sha256 : string;
}.

#[global] Instance BackupManifest_eq_dec : EqDecision BackupManifest.
Proof. solve_decision. Defined.

Definition validate_manifest (r : BackupManifest) : outcome unit :=
  require (negb (created_at r <? recovery_point_at r))
    (ValidationError "backup recovery point cannot be in the future") ;~
  require (negb (bool_decide (components r = [])))
    (ValidationError "backup manifest requires components") ;~
  require (py_unique (map BackupComponentRecord.component (components r)))
    (ValidationError "backup manifest requires one canonical record per component") ;~
  require (negb (existsb (fun c => created_at r <? BackupComponentRecord.captured_at c) (components r)))
    (ValidationError "backup component capture cannot follow manifest creation").

Definition create (r : BackupManifest) : outcome BackupManifest :=
  tenant_id' <~ NonBlankStr "tenant_id" (tenant_id r) ;;
  profile_id' <~ NonBlankStr "profile_id" (profile_id r) ;;
  require (1 <=? profile_revision r) (ValidationError "profile_revision") ;~
  require (1 <=? source_schema_version r) (ValidationError "source_schema_version") ;~
  source_control_version' <~ NonBlankStr "source_control_version" (source_control_version r) ;;
  source_site' <~ NonBlankStr "source_site" (source_site r) ;;
  snapshot_set_id' <~ NonBlankStr "snapshot_set_id" (snapshot_set_id r) ;;
  ledger_chain_tip_sha256' <~ Sha256 "ledger_chain_tip_sha256" (ledger_chain_tip_sha256 r) ;;
  trusted_checkpoint_sha256' <~ Sha256 "trusted_checkpoint_sha256" (trusted_checkpoint_sha256 r) ;;
  trust_anchor_sha256' <~ Sha256 "trust_anchor_sha256" (trust_anchor_sha256 r) ;;
  let r := {| backup_id := backup_id r; tenant_id := tenant_id'; profile_id := profile_id';
            profile_revision := profile_revision r;
            source_schema_version := source_schema_version r;
            source_control_version := source_control_version'; source_site := source_site';
            snapshot_set_id := snapshot_set_id'; recovery_point_at := recovery_point_at r;
            created_at := created_at r; components := components r;
            ledger_chain_tip_sha256 := ledger_chain_tip_sha256';
            trusted_checkpoint_sha256 := trusted_checkpoint_sha256';
            trust_anchor_sha256 := trust_anchor_sha256' |} in
  validate_manifest r ;~
  Ok r.

End BackupManifest.
Abbreviation BackupManifest := BackupManifest.BackupManifest.

Module RestorePlan.
Record RestorePlan : Type := {
  restore_id : UUID;
  tenant_id : string;
  profile_id : string;
  profile_revision : Z;
  backup_id : UUID;
  target_site : string;
  failure_detected_at : datetime;
  requested_at : datetime;
  requested_by : ActorRef;
  break_glass_grant_id : UUID;
  reconcile_uncertain : bool;
  reconcile_recovery_gap : bool;
  prohibit_blind_replay : bool;
}.

#[global] Instance RestorePlan_eq_dec : EqDecision RestorePlan.
Proof. solve_decision. Defined.

Definition validate_plan (r : RestorePlan) : outcome unit :=
  require (bool_decide (ActorRef.tenant_id (requested_by r) = tenant_id r))
    (ValidationError "restore requester must belong to the tenant") ;~
  require (negb (requested_at r <? failure_detected_at r))
    (ValidationError "restore request cannot predate failure detection") ;~
  require (negb (negb (reconcile_uncertain r) || negb (reconcile_recovery_gap r) ||
                 negb (prohibit_blind_replay r)))
    (ValidationError "restore plans must reconcile known uncertainty and the RPO gap and prohibit blind replay").

Definition create (r : RestorePlan) : outcome RestorePlan :=
  tenant_id' <~ NonBlankStr "tenant_id" (tenant_id r) ;;
  profile_id' <~ NonBlankStr "profile_id" (profile_id r) ;;
  require (1 <=? profile_revision r) (ValidationError "profile_revision") ;~
  target_site' <~ NonBlankStr "target_site" (target_site r) ;;
  let r := {| restore_id := restore_id r; tenant_id := tenant_id';
            profile_id := profile_id'; profile_revision := profile_revision r;
            backup_id := backup_id r; target_site := target_site';
            failure_detected_at := failure_detected_at r; requested_at := requested_at r;
            requested_by := requested_by r; break_glass_grant_id := break_glass_grant_id r;
            reconcile_uncertain := reconcile_uncertain r;
            reconcile_recovery_gap := reconcile_recovery_gap r;
            prohibit_blind_replay := prohibit_blind_replay r |} in
  validate_plan r ;~
  Ok r.

End RestorePlan.
Abbreviation RestorePlan := RestorePlan.RestorePlan.

Module RestoredComponentObservation.
Record RestoredComponentObservation : Type := {
  component : RecoveryComponent;
  reference : string;
  sha256 : string;
  observed_at : datetime;
}.

#[global] Instance RestoredComponentObservation_eq_dec : EqDecision RestoredComponentObservation.
Proof. solve_decision. Defined.

Definition create (r : RestoredComponentObservation) : outcome RestoredComponentObservation :=
  reference' <~ NonBlankStr "reference" (reference r) ;;
  sha256' <~ Sha256 "sha256" (sha256 r) ;;
  let r := {| component := component r; reference := reference'; sha256 := sha256';
            observed_at := observed_at r |} in
  Ok r.

End RestoredComponentObservation.
Abbreviation RestoredComponentObservation := RestoredComponentObservation.RestoredComponentObservation.

Module RecoveryIntegrityFinding.
Record RecoveryIntegrityFinding : Type := {
  severity : RecoveryFindingSeverity;
  component : option RecoveryComponent;
  reference : string;
  summary : string;
  expected_sha256 : option string;
  observed_sha256 : option string;
}.

#[global] Instance RecoveryIntegrityFinding_eq_dec : EqDecision RecoveryIntegrityFinding.
Proof. solve_decision. Defined.

Definition create (r : RecoveryIntegrityFinding) : outcome RecoveryIntegrityFinding :=
  reference' <~ NonBlankStr "reference" (reference r) ;;
  summary' <~ NonBlankStr "summary" (summary r) ;;
  expected_sha256' <~ optional (Sha256 "expected_sha256") (expected_sha256 r) ;;
  observed_sha256' <~ optional (Sha256 "observed_sha256") (observed_sha256 r) ;;
  let r := {| severity := severity r; component := component r; reference := reference';
            summary := summary'; expected_sha256 := expected_sha256';
            observed_sha256 := observed_sha256' |} in
  Ok r.

End RecoveryIntegrityFinding.
Abbreviation RecoveryIntegrityFinding := RecoveryIntegrityFinding.RecoveryIntegrityFinding.

Module IntegrityScanResult.
Record IntegrityScanResult : Type := {
  scan_id : UUID;
  restore_id : UUID;
  tenant_id : string;
  completed_at : datetime;
  status : RecoveryIntegrityStatus;
  chain_verified : bool;
  checkpoint_verified : bool;
  trust_anchor_verified : bool;
  object_store_verified : bool;
  components_verified : list RecoveryComponent;
  findings : list RecoveryIntegrityFinding;
}.

#[global] Instance IntegrityScanResult_eq_dec : EqDecision IntegrityScanResult.
Proof. solve_decision. Defined.

Definition severe (f : RecoveryIntegrityFinding) : bool :=
  mem (RecoveryIntegrityFinding.severity f) [SEV_ERROR; SEV_CRITICAL].

Definition validate_scan (r : IntegrityScanResult) : outcome unit :=
  require (py_unique (components_verified r))
    (ValidationError "verified recovery components must be unique") ;~
  match status r with
  | SCAN_VERIFIED =>
      require (negb (negb (chain_verified r) || negb (checkpoint_verified r) ||
                     negb (trust_anchor_verified r) || negb (object_store_verified r)))
        (ValidationError "verified recovery requires chain, signed-checkpoint, trust-anchor, and object-store proof") ;~
      require (negb (existsb severe (findings r)))
        (ValidationError "verified recovery cannot contain error or critical findings")
  | SCAN_FAILED => Ok tt
  end.

Definition create (r : IntegrityScanResult) : outcome IntegrityScanResult :=
  tenant_id' <~ NonBlankStr "tenant_id" (tenant_id r) ;;
  let r := {| scan_id := scan_id r; restore_id := restore_id r; tenant_id := tenant_id';
            completed_at := completed_at r; status := status r;
            chain_verified := chain_verified r;
            checkpoint_verified := checkpoint_verified r;
            trust_anchor_verified := trust_anchor_verified r;
            object_store_verified := object_store_verified r;
            components_verified := components_verified r; findings := findings r |} in
  validate_scan r ;~
  Ok r.

End IntegrityScanResult.
Abbreviation IntegrityScanResult := IntegrityScanResult.IntegrityScanResult.

Module UncertainExecutionRecovery.
Record UncertainExecutionRecovery : Type := {
  recovery_id : UUID;
  restore_id : UUID;
  tenant_id : string;
  attempt_id : UUID;
  action_id : UUID;
  run_id : UUID;
  original_state : ExecutionAttemptState;
  provider_operation_id : option string;
  disposition : UncertainRecoveryDisposition;
  observed_at : datetime;
  evidence_reference : option string;
  replay_permitted : bool;
}.

#[global] Instance UncertainExecutionRecovery_eq_dec : EqDecision UncertainExecutionRecovery.
Proof. solve_decision. Defined.

Definition validate_recovery (r : UncertainExecutionRecovery) : outcome unit :=
  require (bool_decide (original_state r = UNCERTAIN))
    (ValidationError "recovery records apply only to uncertain execution attempts") ;~
  require (negb (replay_permitted r))
    (ValidationError "disaster recovery never authorizes blind replay of an uncertain action") ;~
  require (negb (mem (disposition r) [MATCHED_SUCCESS; MATCHED_FAILURE] &&
                 bool_decide (evidence_reference r = None)))
    (ValidationError "resolved uncertain outcomes require evidence_reference").

Definition create (r : UncertainExecutionRecovery) : outcome UncertainExecutionRecovery :=
  tenant_id' <~ NonBlankStr "tenant_id" (tenant_id r) ;;
  provider_operation_id' <~ optional (NonBlankStr "provider_operation_id") (provider_operation_id r) ;;
  evidence_reference' <~ optional (NonBlankStr "evidence_reference") (evidence_reference r) ;;
  let r := {| recovery_id := recovery_id r; restore_id := restore_id r;
            tenant_id := tenant_id'; attempt_id := attempt_id r; action_id := action_id r;
            run_id := run_id r; original_state := original_state r;
            provider_operation_id := provider_operation_id'; disposition := disposition r;
            observed_at := observed_at r; evidence_reference := evidence_reference';
            replay_permitted := replay_permitted r |} in
  validate_recovery r ;~
  Ok r.

(** [item.disposition in {RECONCILE_REQUIRED, UNVERIFIABLE}] *)
Definition unresolved (r : UncertainExecutionRecovery) : bool :=
  mem (disposition r) [RECONCILE_REQUIRED; UNVERIFIABLE].

End UncertainExecutionRecovery.
Abbreviation UncertainExecutionRecovery := UncertainExecutionRecovery.UncertainExecutionRecovery.

Module RecoveryGapReconciliation.
Record RecoveryGapReconciliation : Type := {
  reconciliation_id : UUID;
  restore_id : UUID;
  tenant_id : string;
  recovery_point_at : datetime;
  failure_detected_at : datetime;
  completed_at : datetime;
  source_references : list string;
  unexpected_effect_count : Z;
  unresolved_effect_count : Z;
  evidence_reference : string;
  blind_replay_permitted : bool;
}.

#[global] Instance RecoveryGapReconciliation_eq_dec : EqDecision RecoveryGapReconciliation.
Proof. solve_decision. Defined.

Definition validate_gap (r : RecoveryGapReconciliation) : outcome unit :=
  require (negb (failure_detected_at r <? recovery_point_at r))
    (ValidationError "recovery gap cannot begin after failure detection") ;~
  require (negb (completed_at r <? failure_detected_at r))
    (ValidationError "recovery-gap reconciliation cannot complete before failure detection") ;~
  require (negb (bool_decide (source_references r = [])))
    (ValidationError "recovery-gap reconciliation requires independent source evidence") ;~
  require (py_unique (source_references r))
    (ValidationError "recovery-gap source references must be unique") ;~
  require (negb (blind_replay_permitted r))
    (ValidationError "recovery-gap evidence cannot authorize blind replay").

Definition create (r : RecoveryGapReconciliation) : outcome RecoveryGapReconciliation :=
  tenant_id' <~ NonBlankStr "tenant_id" (tenant_id r) ;;
  source_references' <~ map_o (NonBlankStr "source_references") (source_references r) ;;
  require (0 <=? unexpected_effect_count r) (ValidationError "unexpected_effect_count") ;~
  require (0 <=? unresolved_effect_count r) (ValidationError "unresolved_effect_count") ;~
  evidence_reference' <~ NonBlankStr "evidence_reference" (evidence_reference r) ;;
  let r := {| reconciliation_id := reconciliation_id r; restore_id := restore_id r;
            tenant_id := tenant_id'; recovery_point_at := recovery_point_at r;
            failure_detected_at := failure_detected_at r; completed_at := completed_at r;
            source_references := source_references';
            unexpected_effect_count := unexpected_effect_count r;
            unresolved_effect_count := unresolved_effect_count r;
            evidence_reference := evidence_reference';
            blind_replay_permitted := blind_replay_permitted r |} in
  validate_gap r ;~
  Ok r.

End RecoveryGapReconciliation.
Abbreviation RecoveryGapReconciliation := RecoveryGapReconciliation.RecoveryGapReconciliation.

Module RestoreResult.
Record RestoreResult : Type := {
  restore_id : UUID;
  tenant_id : string;
  backup_id : UUID;
  started_at : datetime;
  completed_at : datetime;
  status : RestoreStatus;
  actual_rpo_seconds : pyfloat;
  actual_rto_seconds : pyfloat;
  integrity_scan_id : UUID;
  recovery_gap_reconciliation_id : UUID;
  recovery_gap_reconciled : bool;
  uncertain_recoveries : list UncertainExecutionRecovery;
  promoted : bool;
  completed_by : ActorRef;
}.

#[global] Instance RestoreResult_eq_dec : EqDecision RestoreResult.
Proof. solve_decision. Defined.

Definition validate_result (r : RestoreResult) : outcome unit :=
  require (negb (completed_at r <? started_at r))
    (ValidationError "restore completion cannot precede start") ;~
  require (bool_decide (ActorRef.tenant_id (completed_by r) = tenant_id r))
    (ValidationError "restore completer must belong to the tenant") ;~
  require (negb (existsb (fun i => negb (bool_decide (UncertainExecutionRecovery.tenant_id i = tenant_id r)))
                   (uncertain_recoveries r)))
    (ValidationError "uncertain recovery crossed tenant boundary") ;~
  require (negb (bool_decide (status r = RESTORE_VERIFIED) &&
                 (existsb UncertainExecutionRecovery.unresolved (uncertain_recoveries r) ||
                  negb (recovery_gap_reconciled r))))
    (ValidationError "verified restore requires all known uncertainty and the RPO recovery gap to be reconciled") ;~
  require (negb (promoted r && (negb (bool_decide (status r = RESTORE_VERIFIED)) ||
                                negb (recovery_gap_reconciled r))))
    (ValidationError "only a fully reconciled verified restore may be promoted").

Definition create (r : RestoreResult) : outcome RestoreResult :=
  tenant_id' <~ NonBlankStr "tenant_id" (tenant_id r) ;;
  require (float_leb (float_of_int 0) (actual_rpo_seconds r)) (ValidationError "actual_rpo_seconds") ;~
  require (float_leb (float_of_int 0) (actual_rto_seconds r)) (ValidationError "actual_rto_seconds") ;~
  let r := {| restore_id := restore_id r; tenant_id := tenant_id';
            backup_id := backup_id r; started_at := started_at r;
            completed_at := completed_at r; status := status r;
            actual_rpo_seconds := actual_rpo_seconds r;
            actual_rto_seconds := actual_rto_seconds r;
            integrity_scan_id := integrity_scan_id r;
            recovery_gap_reconciliation_id := recovery_gap_reconciliation_id r;
            recovery_gap_reconciled := recovery_gap_reconciled r;
            uncertain_recoveries := uncertain_recoveries r; promoted := promoted r;
            completed_by := completed_by r |} in
  validate_result r ;~
  Ok r.

End RestoreResult.
Abbreviation RestoreResult := RestoreResult.RestoreResult.

Module BreakGlassGrant.
Record BreakGlassGrant : Type := {
  grant_id : UUID;
  tenant_id : string;
  operator : ActorRef;
  approved_by : ActorRef;
  capabilities : list BreakGlassCapability;
  reason : string;
  ticket_reference : string;
  issued_at : datetime;
  expires_at : datetime;
}.

#[global] Instance BreakGlassGrant_eq_dec : EqDecision BreakGlassGrant.
Proof. solve_decision. Defined.

Definition validate_grant (r : BreakGlassGrant) : outcome unit :=
  require (negb (negb (bool_decide (ActorRef.tenant_id (operator r) = tenant_id r)) ||
                 negb (bool_decide (ActorRef.tenant_id (approved_by r) = tenant_id r))))
    (ValidationError "break-glass actors must belong to the tenant") ;~
  require (negb (bool_decide (ActorRef.kind (operator r) = ActorRef.kind (approved_by r)) &&
                 bool_decide (ActorRef.id (operator r) = ActorRef.id (approved_by r))))
    (ValidationError "break-glass use requires an independent approver") ;~
  require (negb (bool_decide (capabilities r = []) || negb (py_unique (capabilities r))))
    (ValidationError "break-glass capabilities must be non-empty and unique") ;~
  require (negb (expires_at r <=? issued_at r))
    (ValidationError "break-glass grant must expire after issuance").

Definition create (r : BreakGlassGrant) : outcome BreakGlassGrant :=
  tenant_id' <~ NonBlankStr "tenant_id" (tenant_id r) ;;
  reason' <~ NonBlankStr "reason" (reason r) ;;
  ticket_reference' <~ NonBlankStr "ticket_reference" (ticket_reference r) ;;
  let r := {| grant_id := grant_id r; tenant_id := tenant_id'; operator := operator r;
            approved_by := approved_by r; capabilities := capabilities r;
            reason := reason'; ticket_reference := ticket_reference';
            issued_at := issued_at r; expires_at := expires_at r |} in
  validate_grant r ;~
  Ok r.

End BreakGlassGrant.
Abbreviation BreakGlassGrant := BreakGlassGrant.BreakGlassGrant.

Module BreakGlassUse.
Record BreakGlassUse : Type := {
  use_id : UUID;
  grant_id : UUID;
  tenant_id : string;
  capability : BreakGlassCapability;
  actor : ActorRef;
  occurred_at : datetime;
  purpose : string;
}.

#[global] Instance BreakGlassUse_eq_dec : EqDecision BreakGlassUse.
Proof. solve_decision. Defined.

Definition validate_use (r : BreakGlassUse) : outcome unit :=
  require (bool_decide (ActorRef.tenant_id (actor r) = tenant_id r))
    (ValidationError "break-glass use actor must belong to the tenant").

Definition create (r : BreakGlassUse) : outcome BreakGlassUse :=
  tenant_id' <~ NonBlankStr "tenant_id" (tenant_id r) ;;
  purpose' <~ NonBlankStr "purpose" (purpose r) ;;
  let r := {| use_id := use_id r; grant_id := grant_id r; tenant_id := tenant_id';
            capability := capability r; actor := actor r; occurred_at := occurred_at r;
            purpose := purpose' |} in
  validate_use r ;~
  Ok r.

End BreakGlassUse.
Abbreviation BreakGlassUse := BreakGlassUse.BreakGlassUse.

Module GameDayExercise.
Record GameDayExercise : Type := {
  exercise_id : UUID;
  tenant_id : string;
  profile_id : string;
  profile_revision : Z;
  backup_id : UUID;
  restore_id : UUID;
  started_at : datetime;
  completed_at : datetime;
  simulated_site_failure : bool;
  achieved_rpo_seconds : pyfloat;
  achieved_rto_seconds : pyfloat;
  chain_verified : bool;
  checkpoint_verified : bool;
  trust_anchor_verified : bool;
  object_store_verified : bool;
  uncertain_actions_reconciled : bool;
  recovery_gap_reconciled : bool;
  durable_catalog_verified : bool;
  blind_replay_count : Z;
  passed : bool;
  notes : list string;
}.

#[global] Instance GameDayExercise_eq_dec : EqDecision GameDayExercise.
Proof. solve_decision. Defined.

Definition validate_exercise (r : GameDayExercise) : outcome unit :=
  require (negb (completed_at r <? started_at r))
    (ValidationError "game day completion cannot precede start") ;~
  require (negb (passed r &&
      (negb (simulated_site_failure r) || negb (chain_verified r) || negb (checkpoint_verified r) ||
       negb (trust_anchor_verified r) || negb (object_store_verified r) ||
       negb (uncertain_actions_reconciled r) || negb (recovery_gap_reconciled r) ||
       negb (durable_catalog_verified r) || negb (blind_replay_count r =? 0))))
    (ValidationError "passing game day requires durable verified recovery with gap reconciliation and no blind replay").

Definition create (r : GameDayExercise) : outcome GameDayExercise :=
  tenant_id' <~ NonBlankStr "tenant_id" (tenant_id r) ;;
  profile_id' <~ NonBlankStr "profile_id" (profile_id r) ;;
  require (1 <=? profile_revision r) (ValidationError "profile_revision") ;~
  require (float_leb (float_of_int 0) (achieved_rpo_seconds r)) (ValidationError "achieved_rpo_seconds") ;~
  require (float_leb (float_of_int 0) (achieved_rto_seconds r)) (ValidationError "achieved_rto_seconds") ;~
  require (0 <=? blind_replay_count r) (ValidationError "blind_replay_count") ;~
  notes' <~ map_o (NonBlankStr "notes") (notes r) ;;
  let r := {| exercise_id := exercise_id r; tenant_id := tenant_id';
            profile_id := profile_id'; profile_revision := profile_revision r;
            backup_id := backup_id r; restore_id := restore_id r;
            started_at := started_at r; completed_at := completed_at r;
            simulated_site_failure := simulated_site_failure r;
            achieved_rpo_seconds := achieved_rpo_seconds r;
            achieved_rto_seconds := achieved_rto_seconds r;
            chain_verified := chain_verified r;
            checkpoint_verified := checkpoint_verified r;
            trust_anchor_verified := trust_anchor_verified r;
            object_store_verified := object_store_verified r;
            uncertain_actions_reconciled := uncertain_actions_reconciled r;
            recovery_gap_reconciled := recovery_gap_reconciled r;
            durable_catalog_verified := durable_catalog_verified r;
            blind_replay_count := blind_replay_count r; passed := passed r;
            notes := notes' |} in
  validate_exercise r ;~
  Ok r.

End GameDayExercise.
Abbreviation GameDayExercise := GameDayExercise.GameDayExercise.

Module RecoveryAuditEvent.
Record RecoveryAuditEvent : Type := {
  event_id : UUID;
  tenant_id : string;
  event_type : RecoveryAuditEventType;
  actor : ActorRef;
  occurred_at : datetime;
  target_id : string;
  reason : string;
  ticket_reference : option string;
  attributes : list (string * string);
}.

#[global] Instance RecoveryAuditEvent_eq_dec : EqDecision RecoveryAuditEvent.
Proof. solve_decision. Defined.

Definition create (r : RecoveryAuditEvent) : outcome RecoveryAuditEvent :=
  tenant_id' <~ NonBlankStr "tenant_id" (tenant_id r) ;;
  target_id' <~ NonBlankStr "target_id" (target_id r) ;;
  reason' <~ NonBlankStr "reason" (reason r) ;;
  ticket_reference' <~ optional (NonBlankStr "ticket_reference") (ticket_reference r) ;;
  let r := {| event_id := event_id r; tenant_id := tenant_id'; event_type := event_type r;
            actor := actor r; occurred_at := occurred_at r; target_id := target_id';
            reason := reason'; ticket_reference := ticket_reference';
            attributes := attributes r |} in
  Ok r.

End RecoveryAuditEvent.
Abbreviation RecoveryAuditEvent := RecoveryAuditEvent.RecoveryAuditEvent.
