(* ===== verification/Durations.v ===== *)
(** * Durations as floats

    [timedelta.total_seconds] divides an integer number of microseconds by a million
    in binary64; [str] of the result is its shortest decimal that reads back.  Both
    are computed here.  [total_seconds_le]: up to 2^32 seconds the rounding is
    invisible to a comparison with an integer. *)

From Stdlib Require Import QArith Qreduction.
From S2P Require Import Prelude.
Open Scope Z_scope.

(** The integer [q] and the exponent [e] with [q * 2^e] the binary64 value nearest to
    [m / den], for a positive [m] of an ordinary size. *)
Definition exponent (m : Z) (den : positive) : Z :=
  let e := Z.log2 m - Z.log2 (Zpos den) - 52 in
  let small := if 0 <=? e then m <? 2 ^ 52 * Zpos den * 2 ^ e
               else m * 2 ^ (- e) <? 2 ^ 52 * Zpos den in
  if small then e - 1 else e.

Definition mantissa (m : Z) (den : positive) (e : Z) : Z :=
  if 0 <=? e then round_half_even m (den * Z.to_pos (2 ^ e))
  else round_half_even (m * 2 ^ (- e)) den.

Definition scale2 (q e : Z) : Q :=
  if 0 <=? e then Qred ((q * 2 ^ e) # 1) else Qred (q # Z.to_pos (2 ^ (- e))).

(** [num / den], of integers *)
Definition true_divide (num : Z) (den : positive) : Q :=
  if num =? 0 then 0%Q
  else
    let m := Z.abs num in
    let e := exponent m den in
    scale2 (Z.sgn num * mantissa m den e) e.

(** [d.total_seconds()] *)
Definition total_seconds (d : timedelta) : pyfloat := Finite (true_divide d 1000000).

(** [max(0.0, x)] *)
Definition float_max0 (x : pyfloat) : pyfloat :=
  if float_ltb (float_of_int 0) x then x else float_of_int 0.

(** ** [str(x)], for [0 <= x] below [1e16] *)

(** The decimal of [k] digits nearest to [v] that reads back as [v], and the position
    of its point: [0.digits * 10^p] *)
Definition decimal_of (v : Q) (p : Z) (k : nat) : option Z :=
  let s := Z.of_nat k - p in
  let num := if 0 <=? s then Qnum v * 10 ^ s else Qnum v in
  let den := if 0 <=? s then Zpos (Qden v) else Zpos (Qden v) * 10 ^ (- s) in
  let back c := if 0 <=? s then true_divide c (Z.to_pos (10 ^ s)) else true_divide (c * 10 ^ (- s)) 1 in
  let low := num / den in
  let reads c := Qeq_bool (back c) v in
  let near := round_half_even num (Z.to_pos den) in
  let far := if near =? low then low + 1 else low in
  if reads near then Some near else if reads far then Some far else None.

Fixpoint first_decimal (v : Q) (p : Z) (k fuel : nat) : Z * nat :=
  match fuel, decimal_of v p k with
  | _, Some c => (c, k)
  | S fuel', None => first_decimal v p (S k) fuel'
  | O, None => (0, k)
  end.

Fixpoint zeros (n : nat) : string := match n with O => "" | S n' => "0" +:+ zeros n' end.

Definition float_str (f : pyfloat) : string :=
  match f with
  | NaN => "nan" | PosInf => "inf" | NegInf => "-inf"
  | Finite v =>
      if Qeq_bool v 0 then "0.0"
      else
        let p := Z.of_nat (String.length (pretty (Qnum v * 10 ^ 20 / Zpos (Qden v)))) - 20 in
        let '(c, k) := first_decimal v p 1 17 in
        let '(digits, p) := if c =? 10 ^ Z.of_nat k then ("1", p + 1) else (pretty c, p) in
        let n := String.length digits in
        if p <=? -4 then
          let mantissa := if (n =? 1)%nat then digits
                          else String.substring 0 1 digits +:+ "." +:+ String.substring 1 n digits in
          mantissa +:+ "e-" +:+ (if 1 - p <? 10 then "0" else "") +:+ pretty (1 - p)
        else if p <=? 0 then "0." +:+ zeros (Z.to_nat (- p)) +:+ digits
        else if Z.of_nat n <=? p then digits +:+ zeros (Z.to_nat (p - Z.of_nat n)) +:+ ".0"
        else String.substring 0 (Z.to_nat p) digits +:+ "." +:+ String.substring (Z.to_nat p) n digits
  end.

Example float_str_ex :
  map (fun d => float_str (total_seconds d))
    [0; 1; 15; 100; 1000000; 3600000000; 12345678; 90061000001; 86399999999]
  = ["0.0"; "1e-06"; "1.5e-05"; "0.0001"; "1.0"; "3600.0"; "12.345678"; "90061.000001"; "86399.999999"].
Proof. vm_compute. reflexivity. Qed.

(** ** Rounding does not show below 2^32 seconds *)
Lemma round_half_even_le n d N : n <= N * Zpos d -> round_half_even n d <= N.
Proof. intros H. pose proof (round_half_even_bounds n d). nia. Qed.

Lemma round_half_even_ge n d N : N * Zpos d <= n -> N <= round_half_even n d.
Proof. intros H. pose proof (round_half_even_bounds n d). nia. Qed.

Lemma exponent_lower m den :
  0 < m ->
  if 0 <=? exponent m den then 2 ^ 52 * Zpos den * 2 ^ exponent m den <= m
  else 2 ^ 52 * Zpos den <= m * 2 ^ (- exponent m den).
Proof.
  intros Hm. unfold exponent. set (e := Z.log2 m - Z.log2 (Zpos den) - 52).
  pose proof (Z.log2_spec m Hm) as [Hm1 _].
  pose proof (Z.log2_spec (Zpos den) ltac:(lia)) as [_ Hd2].
  assert (Hp : forall k, 0 <= k -> 0 < 2 ^ k) by (intros; apply Z.pow_pos_nonneg; lia).
  pose proof (Z.log2_nonneg m). pose proof (Z.log2_nonneg (Zpos den)).
  destruct (0 <=? e) eqn:He; b2p.
  - destruct (m <? 2 ^ 52 * Zpos den * 2 ^ e) eqn:Hs; b2p.
    + destruct (0 <=? e - 1) eqn:He1; b2p.
      * assert (2 ^ 52 * 2 ^ Z.succ (Z.log2 (Zpos den)) * 2 ^ (e - 1) <= 2 ^ Z.log2 m).
        { rewrite <- !Z.pow_add_r by lia. apply Z.pow_le_mono_r; lia. }
        pose proof (Hp (e - 1) ltac:(lia)). nia.
      * assert (e = 0) as E by lia. rewrite E in *. change (- (0 - 1)) with 1.
        assert (2 ^ 52 * 2 ^ Z.succ (Z.log2 (Zpos den)) <= 2 * 2 ^ Z.log2 m).
        { rewrite <- !Z.pow_add_r by lia.
          replace (2 * 2 ^ Z.log2 m) with (2 ^ (1 + Z.log2 m)) by (rewrite Z.pow_add_r by lia; lia).
          apply Z.pow_le_mono_r; lia. }
        nia.
    + rewrite (proj2 (Z.leb_le 0 e)) by lia. done.
  - destruct (m * 2 ^ (- e) <? 2 ^ 52 * Zpos den) eqn:Hs; b2p.
    + rewrite (proj2 (Z.leb_gt 0 (e - 1))) by lia.
      assert (2 ^ 52 * 2 ^ Z.succ (Z.log2 (Zpos den)) <= 2 ^ Z.log2 m * 2 ^ (- (e - 1))).
      { rewrite <- !Z.pow_add_r by lia. apply Z.pow_le_mono_r; lia. }
      pose proof (Hp (- (e - 1)) ltac:(lia)). nia.
    + by rewrite (proj2 (Z.leb_gt 0 e)) by lia.
Qed.

Lemma Qle_bool_eq p q r : p == q -> Qle_bool p r = Qle_bool q r.
Proof. intros E. apply eq_true_iff_eq. rewrite !Qle_bool_iff. by rewrite E. Qed.

Lemma true_divide_le m n :
  0 < m -> 0 <= n < 2 ^ 32 -> Qle_bool (true_divide m 1000000) (n # 1) = (m <=? n * 1000000).
Proof.
  intros Hm Hn. unfold true_divide. rewrite (proj2 (Z.eqb_neq m 0)) by lia.
  cbv zeta. rewrite Z.abs_eq, Z.sgn_pos, Z.mul_1_l by lia.
  pose proof (exponent_lower m 1000000 Hm) as Hlo. set (e := exponent m 1000000) in *. clearbody e.
  unfold mantissa, scale2. destruct (0 <=? e) eqn:He; b2p.
  - assert (0 < 2 ^ e) by (apply Z.pow_pos_nonneg; lia).
    erewrite Qle_bool_eq by apply Qred_correct. unfold Qle_bool. cbn [Qnum Qden].
    assert (2 ^ 52 <= round_half_even m (1000000 * Z.to_pos (2 ^ e))) as Hq.
    { apply round_half_even_ge. rewrite Pos2Z.inj_mul, Z2Pos.id by lia. lia. }
    rewrite (proj2 (Z.leb_gt m _)) by nia. apply Z.leb_gt. nia.
  - set (s := 2 ^ (- e)) in *. assert (0 < s) by (apply Z.pow_pos_nonneg; lia).
    erewrite Qle_bool_eq by apply Qred_correct. unfold Qle_bool. cbn [Qnum Qden].
    rewrite Z2Pos.id, Z.mul_1_r by lia.
    apply eq_true_iff_eq. rewrite !Z.leb_le. split; intros H0.
    + destruct (Z_le_gt_dec m (n * 1000000)) as [|Hgt]; [done|exfalso].
      pose proof (round_half_even_bounds (m * s) 1000000) as Hb.
      destruct (Z_lt_le_dec s (2 ^ 19)).
      * pose proof (round_half_even_ge (m * s) 1000000 (2 ^ 52) Hlo). nia.
      * nia.
    + apply round_half_even_le. nia.
Qed.

(** [a.total_seconds() <= n] for an integer number of seconds [n] *)
Lemma total_seconds_le d n :
  0 <= n < 2 ^ 32 -> float_leb (total_seconds d) (float_of_int n) = (d <=? seconds n).
Proof.
  intros Hn. unfold float_leb, total_seconds, float_of_int, seconds.
  change (Qnum (true_divide d 1000000) * Z.pos (Qden (n # 1)) <=?
          Qnum (n # 1) * Z.pos (Qden (true_divide d 1000000)))
    with (Qle_bool (true_divide d 1000000) (n # 1)).
  destruct (Z_lt_le_dec 0 d) as [Hd|Hd]; [by rewrite true_divide_le|].
  rewrite (proj2 (Z.leb_le d _)) by lia. apply Qle_bool_iff.
  unfold true_divide. destruct (d =? 0) eqn:E; [unfold Qle; cbn; lia|]. cbv zeta. b2p.
  rewrite (Z.sgn_neg d) by lia. set (e := exponent _ _).
  assert (Hq : 0 <= mantissa (Z.abs d) 1000000 e).
  { unfold mantissa. destruct (0 <=? e); apply round_half_even_ge; [lia|].
    assert (0 <= 2 ^ (- e)) by (apply Z.pow_nonneg; lia). nia. }
  unfold scale2. destruct (0 <=? e); rewrite Qred_correct; unfold Qle; cbn [Qnum Qden];
    assert (0 <= 2 ^ e) by (apply Z.pow_nonneg; lia); nia.
Qed.
