(* ===== verification/Threads.v ===== *)
(** * Tasks that share a store

    An asyncio method that takes its store's lock several times is a program whose
    calls are the locked sections: each section is atomic, and between two of them any
    other task may run.  [thread_step] interleaves the sections of any number of
    tasks.  [keeps] is the rely-guarantee rule system: every section makes a
    transition of [T] from any state of the invariant [I] that the other tasks can
    have brought about, which is what the preorder [G] says. *)

From S2P Require Import Prelude Effects.

Section Tasks.
Context {S : Type}.

(** A locked section, with the type of what it computes *)
Definition locked_section : Type := {A : Type & M S A}.
Definition section_answer (q : locked_section) : Type := projT1 q.
Definition task (A : Type) : Type := prog section_answer A.

Definition atomically {A} (m : M S A) : task A := @call locked_section section_answer (existT A m).

(** A task run alone, from start to end *)
Definition run_alone {A} (p : task A) (s : S) : outcome A * S :=
  fst (exec (fun q : locked_section => projT2 q) p s).

Record config : Type := Cfg { shared : S; threads : list (task unit) }.

Definition forget {A} (p : task A) : task unit := pbind p (fun _ => Ret tt).

(** The scheduler runs the next section of some task, or admits a new task. *)
Inductive thread_step (admissible : task unit -> Prop) : config -> config -> Prop :=
| run_section s l r q k :
    thread_step admissible (Cfg s (l ++ Call q k :: r))
      (Cfg (snd (projT2 q s)) (l ++ k (fst (projT2 q s)) :: r))
| admit_task s l t : admissible t -> thread_step admissible (Cfg s l) (Cfg s (l ++ [t])).

(** A task that runs alone is one of the interleavings. *)
Lemma run_task_steps admissible (p : task unit) s l :
  exists t, rtc (thread_step admissible) (Cfg s (l ++ [p])) (Cfg (snd (run_alone p s)) (l ++ [t])).
Proof.
  revert s. induction p as [a|e|q k IH]; intros s; [by exists (Ret a)|by exists (Throw e)|].
  destruct (IH (fst (projT2 q s)) (snd (projT2 q s))) as [t Ht]. exists t.
  eapply rtc_l; [apply (run_section admissible s l [] q k)|].
  unfold run_alone in *. cbn [exec]. destruct (projT2 q s) as [o s1]. cbn [fst snd] in *.
  match goal with |- context [exec ?h (k o) s1] => by destruct (exec h (k o) s1) as [[res s2] tr] end.
Qed.

Lemma exec_forget {A} (p : task A) s : snd (run_alone (forget p) s) = snd (run_alone p s).
Proof.
  unfold run_alone. revert s. induction p as [a|e|q k IH]; intros s; [done..|]. cbn.
  destruct (projT2 q s) as [o s1]. specialize (IH o s1).
  change (pbind (k o) (fun _ => Ret tt)) with (forget (k o)).
  match goal with |- context [exec ?h (forget (k o)) s1] =>
    destruct (exec h (forget (k o)) s1) as [[? ?] ?], (exec h (k o) s1) as [[? ?] ?] end. exact IH.
Qed.

Lemma run_alone_steps (admissible : task unit -> Prop) {A} (p : task A) s l :
  admissible (forget p) -> exists l', rtc (thread_step admissible) (Cfg s l) (Cfg (snd (run_alone p s)) l').
Proof.
  intros Hp. destruct (run_task_steps admissible (forget p) s l) as [t Ht]. exists (l ++ [t]).
  rewrite <- exec_forget. eapply rtc_l; [by apply admit_task|exact Ht].
Qed.

(** ** Rely and guarantee *)
Section Rules.
Context (I : S -> Prop) (T : S -> S -> Prop) (G : S -> S -> Prop) `{!PreOrder G}.
Hypothesis transitions : forall s s', I s -> T s s' -> I s' /\ G s s'.

(** The task makes transitions of [T] only, from [s] on, and ends in [Q]. *)
Fixpoint keeps {A} (p : task A) (Q : outcome A -> S -> Prop) (s : S) : Prop :=
  match p with
  | Ret a => Q (Ok a) s
  | Throw e => Q (Raise e) s
  | Call q k => forall s1, G s s1 -> I s1 ->
      T s1 (snd (projT2 q s1)) /\ keeps (k (fst (projT2 q s1))) Q (snd (projT2 q s1))
  end.

(** What other tasks do does not disturb [Q]. *)
Definition stable {A} (Q : outcome A -> S -> Prop) : Prop := forall o s s', G s s' -> Q o s -> Q o s'.

Lemma keeps_later {A} (p : task A) Q s s' : stable Q -> G s s' -> keeps p Q s -> keeps p Q s'.
Proof.
  intros HQ HG. destruct p as [a|e|q k]; cbn; [by apply HQ..|].
  intros H s1 H1. apply H. by etransitivity.
Qed.

Lemma keeps_mono {A} (p : task A) (Q Q' : outcome A -> S -> Prop) s :
  (forall o s', Q o s' -> Q' o s') -> keeps p Q s -> keeps p Q' s.
Proof.
  intros HQ. revert s. induction p as [a|e|q k IH]; intros s; cbn; [by apply HQ..|].
  intros H s1 H1 H2. destruct (H s1 H1 H2) as [H3 H4]. split; [done|]. by apply IH.
Qed.

Lemma keeps_bind {A B} (p : task A) (f : A -> task B) Q s :
  keeps p (fun o s' => match o with Ok a => keeps (f a) Q s' | Raise e => Q (Raise e) s' end) s ->
  keeps (pbind p f) Q s.
Proof.
  revert s. induction p as [a|e|q k IH]; intros s; cbn; [done..|].
  intros H s1 H1 H2. destruct (H s1 H1 H2) as [H3 H4]. split; [done|]. by apply IH.
Qed.

Lemma keeps_outcome {A} (o : outcome A) Q s : Q o s -> keeps (of_outcome o) Q s.
Proof. by destruct o. Qed.

(** One section, as a run that ends, either way, in a transition of [T] *)
Lemma keeps_atomically {A} (m : M S A) Q s :
  (forall s1, G s s1 -> I s1 -> T s1 (snd (m s1)) /\ Q (fst (m s1)) (snd (m s1))) ->
  keeps (atomically m) Q s.
Proof.
  intros H s1 H1 H2. destruct (H s1 H1 H2) as [H3 H4]. split; [done|]. cbn in *. by destruct (fst (m s1)).
Qed.

(** What holds of the whole past holds at the end: a task ends in a state its start
    can grow to. *)
Lemma keeps_grown {A} (p : task A) Q s :
  keeps p Q s -> keeps p (fun o s' => Q o s' /\ G s s') s.
Proof.
  enough (H : forall s0, G s0 s -> keeps p Q s -> keeps p (fun o s' => Q o s' /\ G s0 s') s)
    by (apply H; reflexivity).
  revert s. induction p as [a|e|q k IH]; intros s s0 H0; cbn; [by auto..|].
  intros H s1 H1 H2. destruct (H s1 H1 H2) as [H3 H4]. split; [done|]. apply IH; [|done].
  destruct (transitions _ _ H2 H3) as [_ HG]. etransitivity; [exact H0|]. by etransitivity.
Qed.

(** A postcondition of the returning runs *)
Definition ends {A} (post : A -> S -> Prop) (o : outcome A) (s : S) : Prop :=
  match o with Ok a => post a s | Raise _ => True end.

Lemma keeps_seq {A B} (p : task A) (f : A -> task B) (post : A -> S -> Prop) (post' : B -> S -> Prop) s :
  keeps p (ends post) s ->
  (forall a s', G s s' -> post a s' -> keeps (f a) (ends post') s') ->
  keeps (pbind p f) (ends post') s.
Proof.
  intros Hp Hf. apply keeps_bind. eapply keeps_mono; [|by apply keeps_grown].
  intros [a|e] s' [Ho HG]; [by apply Hf|done].
Qed.

Lemma keeps_check {A} (o : outcome A) (post : A -> S -> Prop) s :
  (forall a, o = Ok a -> post a s) -> keeps (of_outcome o) (ends post) s.
Proof. destruct o; cbn; auto. Qed.

(** One section, by the rules of [wp] *)
Lemma keeps_section {A} (m : M S A) (post : A -> S -> Prop) s :
  (forall s1, G s s1 -> I s1 -> wp (T s1) m (fun a s2 => T s1 s2 /\ post a s2) s1) ->
  keeps (atomically m) (ends post) s.
Proof.
  intros H. apply keeps_atomically. intros s1 H1 H2. specialize (H s1 H1 H2). unfold wp in H.
  destruct (m s1) as [[a|e] s2]; cbn; [exact H|by split].
Qed.

Lemma keeps_forget {A} (p : task A) (post : A -> S -> Prop) s :
  keeps p (ends post) s -> keeps (forget p) (fun _ _ => True) s.
Proof. intros H. apply keeps_bind. eapply keeps_mono; [|exact H]. by intros [a|e]. Qed.

(** Nothing is asked of the end of a task that runs for its effects. *)
Definition anything (o : outcome unit) (s : S) : Prop := True.

Definition kept (c : config) : Prop :=
  I (shared c) /\ Forall (fun t => keeps t anything (shared c)) (threads c).

Context (admissible : task unit -> Prop).
Hypothesis admitted : forall t s, admissible t -> keeps t anything s.

(** Every step of every interleaving is a transition, or leaves the store alone. *)
Lemma thread_step_kept c c' :
  kept c -> thread_step admissible c c' ->
  kept c' /\ G (shared c) (shared c') /\ (T (shared c) (shared c') \/ shared c' = shared c).
Proof.
  intros [HI Hts] Hst. destruct Hst as [s l r q k|s l t Ht]; cbn in *.
  - apply Forall_app in Hts as [Hl [Hq Hr]%Forall_cons]. cbn in Hq.
    destruct (Hq s ltac:(reflexivity) HI) as [HT Hk]. destruct (transitions _ _ HI HT) as [HI' HG].
    assert (Hlater : forall ts, Forall (fun t => keeps t anything s) ts ->
              Forall (fun t => keeps t anything (snd (projT2 q s))) ts).
    { intros ts Hts. eapply Forall_impl; [exact Hts|]. intros t Ht. by eapply keeps_later. }
    split; [|by auto]. split; [done|]. apply Forall_app. split; [by apply Hlater|].
    constructor; [done|by apply Hlater].
  - split; [|split; [reflexivity|by right]]. split; [done|]. apply Forall_app. split; [done|].
    constructor; [by apply admitted|done].
Qed.

Lemma threads_kept c c' :
  kept c -> rtc (thread_step admissible) c c' -> kept c' /\ G (shared c) (shared c').
Proof.
  intros Hk Hst. induction Hst as [c|a b c Hab _ IH]; [by split|].
  destruct (thread_step_kept _ _ Hk Hab) as (Hb & HG & _). destruct (IH Hb) as [Hc HG'].
  split; [done|]. by etransitivity.
Qed.
End Rules.
End Tasks.

Arguments task S A : clear implicits.
Arguments config S : clear implicits.
