(* ===== verification/Recovery.v ===== *)
(** * Disaster recovery

    Models the runtime's [recovery.py]: [RecoveryIntegrityVerifier] and
    [InMemoryRecoveryStore].  The verification of a checkpoint's signature is the one
    of [Attestations], with Ed25519 as an argument.  The elements of a set are visited
    in an order that is an argument too.

    An operation that takes the lock several times, or awaits between, is a task of
    [Threads]: its locked sections are atomic, what other tasks do in between is
    arbitrary. *)

From S2P Require Import Prelude Canonical Contracts Tenancy Host Attestations RecoveryContracts Durations Effects Threads.

Module Integrity.
Section Verifier.
Context (ed25519_verify : list Z -> list Z -> bytes -> bool).
(** The order in which a [set] of components is visited *)
Context (set_order : list RecoveryComponent -> list RecoveryComponent).

(** [checkpoint_sha256]: the digest of the canonical bytes *)
Definition checkpoint_sha256 (c : SignedCheckpoint) : outcome string :=
  b <~ canonical_json_bytes (SignedCheckpoint.dump c) ;;
  sha256_hex (PBytes b).

(** [{item.component: item for item in items}] *)
Definition by_component {A} (component : A -> RecoveryComponent) (items : list A)
    : list (RecoveryComponent * A) :=
  fold_left (fun d item => dict_set (component item) item d) items [].

Definition finding (severity : RecoveryFindingSeverity) (component : option RecoveryComponent)
    (reference summary : string) (expected observed : option string) : outcome RecoveryIntegrityFinding :=
  RecoveryIntegrityFinding.create {|
    RecoveryIntegrityFinding.severity := severity; RecoveryIntegrityFinding.component := component;
    RecoveryIntegrityFinding.reference := reference; RecoveryIntegrityFinding.summary := summary;
    RecoveryIntegrityFinding.expected_sha256 := expected;
    RecoveryIntegrityFinding.observed_sha256 := observed |}.

(** One expected component: the findings and the verified components so far *)
Definition check_component (observed : list (RecoveryComponent * RestoredComponentObservation))
    (acc : list RecoveryIntegrityFinding * list RecoveryComponent)
    (item : RecoveryComponent * BackupComponentRecord)
    : outcome (list RecoveryIntegrityFinding * list RecoveryComponent) :=
  let '(findings, verified) := acc in
  let '(component, record) := item in
  match dict_get component observed with
  | None =>
      f <~ finding SEV_CRITICAL (Some component) (BackupComponentRecord.reference record)
             "required recovery component is missing" (Some (BackupComponentRecord.sha256 record)) None ;;
      Ok (findings ++ [f], verified)
  | Some o =>
      if negb (bool_decide (RestoredComponentObservation.sha256 o = BackupComponentRecord.sha256 record)) then
        f <~ finding SEV_CRITICAL (Some component) (RestoredComponentObservation.reference o)
               "restored recovery component digest mismatch" (Some (BackupComponentRecord.sha256 record))
               (Some (RestoredComponentObservation.sha256 o)) ;;
        Ok (findings ++ [f], verified)
      else Ok (findings, verified ++ [component])
  end.

(** A restored component that the manifest does not list *)
Definition check_extra (observed : list (RecoveryComponent * RestoredComponentObservation))
    (findings : list RecoveryIntegrityFinding) (component : RecoveryComponent)
    : outcome (list RecoveryIntegrityFinding) :=
  match dict_get component observed with
  | None => Raise (KeyError (RecoveryComponent_value component))
  | Some o =>
      f <~ finding SEV_ERROR (Some component) (RestoredComponentObservation.reference o)
             "restored component was not present in the canonical backup manifest" None
             (Some (RestoredComponentObservation.sha256 o)) ;;
      Ok (findings ++ [f])
  end.

(** [if not ok: findings.append(...)] *)
Definition note (ok : bool) (f : outcome RecoveryIntegrityFinding)
    (findings : list RecoveryIntegrityFinding) : outcome (list RecoveryIntegrityFinding) :=
  if ok then Ok findings else x <~ f ;; Ok (findings ++ [x]).

(** The signature of the checkpoint: only an integrity violation becomes a finding. *)
Definition check_signature (checkpoint : SignedCheckpoint) (trust_policy : TrustRootPolicy)
    (findings : list RecoveryIntegrityFinding) : outcome (bool * list RecoveryIntegrityFinding) :=
  match Assurance.verify_checkpoint ed25519_verify checkpoint trust_policy with
  | Ok _ => Ok (true, findings)
  | Raise (IntegrityViolationError m) =>
      f <~ finding SEV_CRITICAL None "signed-checkpoint-signature"
             ("signed checkpoint failed independent verification: " +:+ m) None None ;;
      Ok (false, findings ++ [f])
  | Raise e => Raise e
  end.

(** [verify], at the instant [now] and with the identity [scan_id] *)
Definition scan (manifest : BackupManifest) (restore_id : UUID)
    (observations : list RestoredComponentObservation) (tip : string) (checkpoint : SignedCheckpoint)
    (trust_policy : TrustRootPolicy) (now : datetime) (scan_id : UUID) : outcome IntegrityScanResult :=
  let expected := by_component BackupComponentRecord.component (BackupManifest.components manifest) in
  let observed := by_component RestoredComponentObservation.component observations in
  require (bool_decide (length observed = length observations))
    (ValueError "restored component observations must be unique") ;~
  acc <~ fold_o (check_component observed) expected ([], []) ;;
  let '(findings, verified) := acc in
  findings <~ fold_o (check_extra observed)
    (set_order (List.filter (fun c => negb (mem c (dict_keys expected))) (dict_keys observed))) findings ;;
  let chain_verified := bool_decide (tip = BackupManifest.ledger_chain_tip_sha256 manifest) in
  findings <~ note chain_verified
    (finding SEV_CRITICAL (Some COMP_LEDGER) "ledger-chain-tip"
       "restored ledger chain tip does not match the backup manifest"
       (Some (BackupManifest.ledger_chain_tip_sha256 manifest)) (Some tip)) findings ;;
  anchor <~ sha256_hex (TrustRootPolicy.dump trust_policy) ;;
  let trust_anchor_verified := bool_decide (anchor = BackupManifest.trust_anchor_sha256 manifest) in
  findings <~ note trust_anchor_verified
    (finding SEV_CRITICAL None "trusted-anchor"
       "independent trust-root policy does not match the backup manifest anchor"
       (Some (BackupManifest.trust_anchor_sha256 manifest)) (Some anchor)) findings ;;
  digest <~ checkpoint_sha256 checkpoint ;;
  let digest_ok := bool_decide (digest = BackupManifest.trusted_checkpoint_sha256 manifest) in
  findings <~ note digest_ok
    (finding SEV_CRITICAL None "signed-checkpoint"
       "restored signed checkpoint digest does not match the backup manifest"
       (Some (BackupManifest.trusted_checkpoint_sha256 manifest)) (Some digest)) findings ;;
  let tenant_ok := bool_decide (SignedCheckpoint.tenant_id checkpoint = BackupManifest.tenant_id manifest) in
  findings <~ note tenant_ok
    (finding SEV_CRITICAL None "signed-checkpoint-tenant"
       "restored signed checkpoint belongs to another tenant" None None) findings ;;
  let tip_ok := bool_decide (SignedCheckpoint.final_event_hash checkpoint =
                             BackupManifest.ledger_chain_tip_sha256 manifest) in
  findings <~ note tip_ok
    (finding SEV_CRITICAL (Some COMP_LEDGER) "signed-checkpoint-chain-tip"
       "signed checkpoint does not bind the restored ledger chain tip"
       (Some (BackupManifest.ledger_chain_tip_sha256 manifest))
       (Some (SignedCheckpoint.final_event_hash checkpoint))) findings ;;
  let checkpoint_verified := digest_ok && tenant_ok && tip_ok in
  checked <~ (if trust_anchor_verified && checkpoint_verified
              then check_signature checkpoint trust_policy findings
              else Ok (checkpoint_verified, findings)) ;;
  let '(checkpoint_verified, findings) := checked in
  let object_store_expected := mem COMP_OBJECT_STORE (dict_keys expected) in
  let object_store_verified := negb object_store_expected || mem COMP_OBJECT_STORE verified in
  findings <~ note (negb (object_store_expected && negb object_store_verified))
    (finding SEV_CRITICAL (Some COMP_OBJECT_STORE) "object-store"
       "object-store recovery did not verify" None None) findings ;;
  let status := if bool_decide (findings = []) && chain_verified && checkpoint_verified &&
                   trust_anchor_verified && object_store_verified
                then SCAN_VERIFIED else SCAN_FAILED in
  IntegrityScanResult.create {|
    IntegrityScanResult.scan_id := scan_id; IntegrityScanResult.restore_id := restore_id;
    IntegrityScanResult.tenant_id := BackupManifest.tenant_id manifest;
    IntegrityScanResult.completed_at := now; IntegrityScanResult.status := status;
    IntegrityScanResult.chain_verified := chain_verified;
    IntegrityScanResult.checkpoint_verified := checkpoint_verified;
    IntegrityScanResult.trust_anchor_verified := trust_anchor_verified;
    IntegrityScanResult.object_store_verified := object_store_verified;
    IntegrityScanResult.components_verified := verified;
    IntegrityScanResult.findings := findings |}.

(** [verify].  The code draws the identity of the scan where it builds the result; the
    stream is arbitrary, so drawing it before a scan that raises is the same. *)
Definition verify (manifest : BackupManifest) (restore_id : UUID)
    (observations : list RestoredComponentObservation) (tip : string) (checkpoint : SignedCheckpoint)
    (trust_policy : TrustRootPolicy) (completed_at : option datetime) : M host IntegrityScanResult :=
  now <- match completed_at with Some t => ret t | None => read_clock end ;;
  scan_id <- draw_uuid ;;
  lift (scan manifest restore_id observations tip checkpoint trust_policy now scan_id).
End Verifier.
End Integrity.

Module RecoveryStore.
Record store : Type := {
  env : host;
  profiles : gmap string (list ReliabilityProfile);
  backups : list ((string * UUID) * BackupManifest);
  plans : gmap (string * UUID) RestorePlan;
  scans : gmap (string * UUID) IntegrityScanResult;
  recoveries : gmap (string * UUID) (list UncertainExecutionRecovery);
  gaps : gmap (string * UUID) RecoveryGapReconciliation;
  results : gmap (string * UUID) RestoreResult;
  grants : gmap (string * UUID) BreakGlassGrant;
  grant_uses : gmap (string * UUID) (list BreakGlassUse);
  revoked_grants : gmap (string * UUID) datetime;
  game_days : gmap (string * UUID) GameDayExercise;
  audit : gmap string (list RecoveryAuditEvent);
}.

Definition empty (h : host) : store :=
  {| env := h; profiles := ∅; backups := []; plans := ∅; scans := ∅; recoveries := ∅; gaps := ∅;
     results := ∅; grants := ∅; grant_uses := ∅; revoked_grants := ∅; game_days := ∅; audit := ∅ |}.

Definition set_env x (s : store) : store :=
  {| env := x; profiles := profiles s; backups := backups s; plans := plans s;
     scans := scans s; recoveries := recoveries s; gaps := gaps s; results := results s;
     grants := grants s; grant_uses := grant_uses s; revoked_grants := revoked_grants s;
     game_days := game_days s; audit := audit s |}.
Definition set_profiles x (s : store) : store :=
  {| env := env s; profiles := x; backups := backups s; plans := plans s; scans := scans s;
     recoveries := recoveries s; gaps := gaps s; results := results s; grants := grants s;
     grant_uses := grant_uses s; revoked_grants := revoked_grants s; game_days := game_days s;
     audit := audit s |}.
Definition set_backups x (s : store) : store :=
  {| env := env s; profiles := profiles s; backups := x; plans := plans s; scans := scans s;
     recoveries := recoveries s; gaps := gaps s; results := results s; grants := grants s;
     grant_uses := grant_uses s; revoked_grants := revoked_grants s; game_days := game_days s;
     audit := audit s |}.
Definition set_plans x (s : store) : store :=
  {| env := env s; profiles := profiles s; backups := backups s; plans := x; scans := scans s;
     recoveries := recoveries s; gaps := gaps s; results := results s; grants := grants s;
     grant_uses := grant_uses s; revoked_grants := revoked_grants s; game_days := game_days s;
     audit := audit s |}.
Definition set_scans x (s : store) : store :=
  {| env := env s; profiles := profiles s; backups := backups s; plans := plans s; scans := x;
     recoveries := recoveries s; gaps := gaps s; results := results s; grants := grants s;
     grant_uses := grant_uses s; revoked_grants := revoked_grants s; game_days := game_days s;
     audit := audit s |}.
Definition set_recoveries x (s : store) : store :=
  {| env := env s; profiles := profiles s; backups := backups s; plans := plans s;
     scans := scans s; recoveries := x; gaps := gaps s; results := results s;
     grants := grants s; grant_uses := grant_uses s; revoked_grants := revoked_grants s;
     game_days := game_days s; audit := audit s |}.
Definition set_gaps x (s : store) : store :=
  {| env := env s; profiles := profiles s; backups := backups s; plans := plans s;
     scans := scans s; recoveries := recoveries s; gaps := x; results := results s;
     grants := grants s; grant_uses := grant_uses s; revoked_grants := revoked_grants s;
     game_days := game_days s; audit := audit s |}.
Definition set_results x (s : store) : store :=
  {| env := env s; profiles := profiles s; backups := backups s; plans := plans s;
     scans := scans s; recoveries := recoveries s; gaps := gaps s; results := x;
     grants := grants s; grant_uses := grant_uses s; revoked_grants := revoked_grants s;
     game_days := game_days s; audit := audit s |}.
Definition set_grants x (s : store) : store :=
  {| env := env s; profiles := profiles s; backups := backups s; plans := plans s;
     scans := scans s; recoveries := recoveries s; gaps := gaps s; results := results s;
     grants := x; grant_uses := grant_uses s; revoked_grants := revoked_grants s;
     game_days := game_days s; audit := audit s |}.
Definition set_grant_uses x (s : store) : store :=
  {| env := env s; profiles := profiles s; backups := backups s; plans := plans s;
     scans := scans s; recoveries := recoveries s; gaps := gaps s; results := results s;
     grants := grants s; grant_uses := x; revoked_grants := revoked_grants s;
     game_days := game_days s; audit := audit s |}.
Definition set_revoked_grants x (s : store) : store :=
  {| env := env s; profiles := profiles s; backups := backups s; plans := plans s;
     scans := scans s; recoveries := recoveries s; gaps := gaps s; results := results s;
     grants := grants s; grant_uses := grant_uses s; revoked_grants := x;
     game_days := game_days s; audit := audit s |}.
Definition set_game_days x (s : store) : store :=
  {| env := env s; profiles := profiles s; backups := backups s; plans := plans s;
     scans := scans s; recoveries := recoveries s; gaps := gaps s; results := results s;
     grants := grants s; grant_uses := grant_uses s; revoked_grants := revoked_grants s;
     game_days := x; audit := audit s |}.
Definition set_audit x (s : store) : store :=
  {| env := env s; profiles := profiles s; backups := backups s; plans := plans s;
     scans := scans s; recoveries := recoveries s; gaps := gaps s; results := results s;
     grants := grants s; grant_uses := grant_uses s; revoked_grants := revoked_grants s;
     game_days := game_days s; audit := x |}.

(** [datetime.now(UTC)] and [uuid4()] *)
Definition now_utc : M store datetime := zoom env set_env read_clock.
Definition uuid4 : M store UUID := zoom env set_env draw_uuid.

Definition list_of {K A} `{Countable K} (k : K) (m : gmap K (list A)) : list A := default [] (m !! k).

(** [_append_audit], of an event built on the spot, and with a fresh identity *)
Definition append_event (event : RecoveryAuditEvent) : M store unit :=
  e <- lift (RecoveryAuditEvent.create event) ;;
  modify (fun s => set_audit
    (<[RecoveryAuditEvent.tenant_id e := list_of (RecoveryAuditEvent.tenant_id e) (audit s) ++ [e]]>
       (audit s)) s).
Definition append_audit (event : UUID -> RecoveryAuditEvent) : M store unit :=
  id <- uuid4 ;;
  append_event (event id).

Definition event_of (ctx : TenantAccessContext) (kind : RecoveryAuditEventType) (at_ : datetime)
    (target reason : string) (ticket : option string) (attrs : list (string * string)) (id : UUID)
    : RecoveryAuditEvent := {|
  RecoveryAuditEvent.event_id := id; RecoveryAuditEvent.tenant_id := TenantAccessContext.tenant_id ctx;
  RecoveryAuditEvent.event_type := kind; RecoveryAuditEvent.actor := TenantAccessContext.actor ctx;
  RecoveryAuditEvent.occurred_at := at_; RecoveryAuditEvent.target_id := target;
  RecoveryAuditEvent.reason := reason; RecoveryAuditEvent.ticket_reference := ticket;
  RecoveryAuditEvent.attributes := attrs |}.

(** [_require_tenant_mode], [_require] and [_require_tenant] *)
Definition require_tenant_mode (ctx : TenantAccessContext) : outcome unit :=
  require (bool_decide (TenantAccessContext.mode ctx = TENANT))
    (AuthorizationDeniedError "support elevation is not disaster-recovery authority").
Definition require_cap (ctx : TenantAccessContext) (cap : TenantCapability) : outcome unit :=
  require (mem cap (TenantAccessContext.capabilities ctx))
    (AuthorizationDeniedError ("tenant context lacks " +:+ TenantCapability_value cap +:+ " capability")).
Definition require_tenant (ctx : TenantAccessContext) (cap : TenantCapability) : outcome unit :=
  require_tenant_mode ctx ;~ require_cap ctx cap.

(** [_profile_locked(required=False)] and [_profile_locked] *)
Definition profile_at (tenant : string) (at_ : datetime) (s : store) : option ReliabilityProfile :=
  max_by (fun a b => ReliabilityProfile.revision a <? ReliabilityProfile.revision b)
    (List.filter (fun p => ReliabilityProfile.effective_at p <=? at_) (list_of tenant (profiles s))).
Definition profile_locked (tenant : string) (at_ : datetime) : M store ReliabilityProfile :=
  s <- get ;;
  match profile_at tenant at_ s with
  | Some p => ret p
  | None => raise (RuntimeError "reliability profile is not configured or not yet effective")
  end.

(** [_plan_locked], [_grant_locked] and [self._backups[...]] *)
Definition plan_locked (tenant : string) (restore_id : UUID) : M store RestorePlan :=
  s <- get ;;
  lift (match plans s !! (tenant, restore_id) with
        | Some p => Ok p | None => Raise (KeyError (uuid_str restore_id)) end).
Definition grant_locked (tenant : string) (grant_id : UUID) : M store BreakGlassGrant :=
  s <- get ;;
  lift (match grants s !! (tenant, grant_id) with
        | Some g => Ok g | None => Raise (KeyError (uuid_str grant_id)) end).
Definition backup_locked (tenant : string) (backup_id : UUID) : M store BackupManifest :=
  s <- get ;;
  lift (match dict_get (tenant, backup_id) (backups s) with
        | Some b => Ok b | None => Raise (KeyError (uuid_str backup_id)) end).

(** [(manifest.profile_id, manifest.profile_revision) == (profile.profile_id, profile.revision)] *)
Definition targets_profile (m : BackupManifest) (p : ReliabilityProfile) : bool :=
  bool_decide (BackupManifest.profile_id m = ReliabilityProfile.profile_id p) &&
  bool_decide (BackupManifest.profile_revision m = ReliabilityProfile.revision p).

(** ** Profiles and backups *)
Definition publish_section (ctx : TenantAccessContext) (profile : ReliabilityProfile)
    : M store ReliabilityProfile :=
  let t := TenantAccessContext.tenant_id ctx in
  modify (fun s => set_profiles (<[t := list_of t (profiles s)]> (profiles s)) s) ;;
  s <- get ;;
  let history := list_of t (profiles s) in
  let expected_revision := match last history with
                           | None => 1
                           | Some p => ReliabilityProfile.revision p + 1
                           end in
  guard (bool_decide (ReliabilityProfile.revision profile = expected_revision))
    (ValueError ("reliability profile revision must advance to " +:+ pretty expected_revision)) ;;
  modify (fun s => set_profiles (<[t := history ++ [profile]]> (profiles s)) s) ;;
  id <- uuid4 ;;
  now <- now_utc ;;
  append_event (event_of ctx PROFILE_PUBLISHED now (ReliabilityProfile.profile_id profile)
    "publish reliability profile" None [("revision", pretty (ReliabilityProfile.revision profile))] id) ;;
  ret profile.

Definition publish_profile (ctx : TenantAccessContext) (profile : ReliabilityProfile)
    : task store ReliabilityProfile := (
  of_outcome (require_tenant ctx CAP_CONFIGURE) ;;
  of_outcome (require (bool_decide (ReliabilityProfile.tenant_id profile = TenantAccessContext.tenant_id ctx))
    (AuthorizationDeniedError "reliability profile crossed tenant boundary")) ;;
  atomically (publish_section ctx profile))%prog.

Definition current_profile (ctx : TenantAccessContext) : task store (option ReliabilityProfile) := (
  of_outcome (require_tenant ctx CAP_READ) ;;
  now <- atomically now_utc ;;
  atomically (fun s => (Ok (profile_at (TenantAccessContext.tenant_id ctx) now s), s)))%prog.

(** [set(profile.required_components) - component_set], sorted *)
Definition missing_components (p : ReliabilityProfile) (m : BackupManifest) : list string :=
  sorted_set (map RecoveryComponent_value (List.filter
    (fun c => negb (mem c (map BackupComponentRecord.component (BackupManifest.components m))))
    (ReliabilityProfile.required_components p))).

Definition record_backup_section (ctx : TenantAccessContext) (manifest : BackupManifest) (now : datetime)
    : M store BackupManifest :=
  let t := TenantAccessContext.tenant_id ctx in
  profile <- profile_locked t now ;;
  guard (targets_profile manifest profile)
    (ValueError "backup manifest does not target the active reliability profile") ;;
  let missing := missing_components profile manifest in
  guard (bool_decide (missing = []))
    (ValueError ("backup is missing required components: " +:+ py_join ", " missing)) ;;
  let recovery_age := total_seconds (now - BackupManifest.recovery_point_at manifest) in
  guard (negb (float_ltb recovery_age (float_of_int 0) ||
               float_ltb (float_of_int (ReliabilityProfile.rpo_seconds profile)) recovery_age))
    (ValueError "backup recovery point exceeds the declared RPO") ;;
  let key := (t, BackupManifest.backup_id manifest) in
  s <- get ;;
  guard (match dict_get key (backups s) with
         | Some existing => bool_decide (existing = manifest)
         | None => true
         end)
    (ValueError "backup manifest identity is immutable") ;;
  modify (fun s => set_backups (dict_set key manifest (backups s)) s) ;;
  append_audit (event_of ctx BACKUP_RECORDED now (uuid_str (BackupManifest.backup_id manifest))
    "record recovery backup" None [("snapshot_set_id", BackupManifest.snapshot_set_id manifest)]) ;;
  ret manifest.

Definition record_backup (ctx : TenantAccessContext) (manifest : BackupManifest)
    : task store BackupManifest := (
  of_outcome (require_tenant ctx CAP_WRITE) ;;
  of_outcome (require (bool_decide (BackupManifest.tenant_id manifest = TenantAccessContext.tenant_id ctx))
    (AuthorizationDeniedError "backup manifest crossed tenant boundary")) ;;
  now <- atomically now_utc ;;
  of_outcome (require (negb (now <? BackupManifest.created_at manifest))
    (ValueError "backup manifest creation time cannot be in the future")) ;;
  atomically (record_backup_section ctx manifest now))%prog.

Definition usable (now : datetime) (p : ReliabilityProfile) (b : BackupManifest) : bool :=
  let age := total_seconds (now - BackupManifest.recovery_point_at b) in
  float_leb (float_of_int 0) age &&
  float_leb age (float_of_int (ReliabilityProfile.max_backup_age_seconds p)).

Definition latest_usable_section (t : string) (now : datetime) : M store (option BackupManifest) :=
  profile <- profile_locked t now ;;
  s <- get ;;
  let candidates := List.filter (fun m => targets_profile m profile)
    (map snd (List.filter (fun kv => bool_decide (fst (fst kv) = t)) (backups s))) in
  ret (find (usable now profile)
    (sort_by (fun a b => BackupManifest.recovery_point_at b <=? BackupManifest.recovery_point_at a)
       candidates)).

Definition latest_usable_backup (ctx : TenantAccessContext) : task store (option BackupManifest) := (
  of_outcome (require_tenant ctx CAP_READ) ;;
  now <- atomically now_utc ;;
  atomically (latest_usable_section (TenantAccessContext.tenant_id ctx) now))%prog.

(** ** Break glass *)
Definition issue_section (ctx : TenantAccessContext) (operator : ActorRef)
    (capabilities : list BreakGlassCapability) (reason ticket : string) (ttl_seconds : Z) (now : datetime)
    : M store BreakGlassGrant :=
  let t := TenantAccessContext.tenant_id ctx in
  profile <- profile_locked t now ;;
  guard (negb ((ttl_seconds <? 60) || (ReliabilityProfile.max_break_glass_seconds profile <? ttl_seconds)))
    (ValueError "break-glass TTL is outside the reliability profile") ;;
  id <- uuid4 ;;
  grant <- lift (BreakGlassGrant.create {|
    BreakGlassGrant.grant_id := id; BreakGlassGrant.tenant_id := t;
    BreakGlassGrant.operator := operator; BreakGlassGrant.approved_by := TenantAccessContext.actor ctx;
    BreakGlassGrant.capabilities := capabilities; BreakGlassGrant.reason := reason;
    BreakGlassGrant.ticket_reference := ticket; BreakGlassGrant.issued_at := now;
    BreakGlassGrant.expires_at := now + seconds ttl_seconds |}) ;;
  modify (fun s => set_grants (<[(t, BreakGlassGrant.grant_id grant) := grant]> (grants s)) s) ;;
  append_audit (event_of ctx BREAK_GLASS_ISSUED now (uuid_str (BreakGlassGrant.grant_id grant)) reason
    (Some ticket) [("operator", ActorRef.id operator)]) ;;
  ret grant.

Definition issue_break_glass (ctx : TenantAccessContext) (operator : ActorRef)
    (capabilities : list BreakGlassCapability) (reason ticket : string) (ttl_seconds : Z)
    : task store BreakGlassGrant := (
  of_outcome (require_tenant ctx CAP_APPROVE) ;;
  now <- atomically now_utc ;;
  atomically (issue_section ctx operator capabilities reason ticket ttl_seconds now))%prog.

Definition revoke_section (ctx : TenantAccessContext) (grant_id : UUID) (reason : string) (now : datetime)
    : M store unit :=
  let t := TenantAccessContext.tenant_id ctx in
  grant <- grant_locked t grant_id ;;
  modify (fun s => set_revoked_grants (<[(t, grant_id) := now]> (revoked_grants s)) s) ;;
  append_audit (event_of ctx BREAK_GLASS_REVOKED now (uuid_str grant_id) reason
    (Some (BreakGlassGrant.ticket_reference grant)) []).

Definition revoke_break_glass (ctx : TenantAccessContext) (grant_id : UUID) (reason : string)
    : task store unit := (
  of_outcome (require_tenant ctx CAP_APPROVE) ;;
  now <- atomically now_utc ;;
  atomically (revoke_section ctx grant_id reason now))%prog.

Definition use_section (ctx : TenantAccessContext) (grant_id : UUID) (capability : BreakGlassCapability)
    (purpose : string) (now : datetime) : M store BreakGlassUse :=
  let t := TenantAccessContext.tenant_id ctx in
  let actor := TenantAccessContext.actor ctx in
  grant <- grant_locked t grant_id ;;
  s <- get ;;
  guard (bool_decide (revoked_grants s !! (t, grant_id) = None))
    (AuthorizationDeniedError "break-glass grant is revoked") ;;
  guard (negb (BreakGlassGrant.expires_at grant <=? now))
    (AuthorizationDeniedError "break-glass grant is expired") ;;
  guard (mem capability (BreakGlassGrant.capabilities grant))
    (AuthorizationDeniedError "break-glass capability was not granted") ;;
  guard (negb (negb (bool_decide (ActorRef.kind actor = ActorRef.kind (BreakGlassGrant.operator grant))) ||
               negb (bool_decide (ActorRef.id actor = ActorRef.id (BreakGlassGrant.operator grant)))))
    (AuthorizationDeniedError "break-glass grant belongs to another operator") ;;
  id <- uuid4 ;;
  use <- lift (BreakGlassUse.create {|
    BreakGlassUse.use_id := id; BreakGlassUse.grant_id := grant_id; BreakGlassUse.tenant_id := t;
    BreakGlassUse.capability := capability; BreakGlassUse.actor := actor;
    BreakGlassUse.occurred_at := now; BreakGlassUse.purpose := purpose |}) ;;
  modify (fun s => set_grant_uses
    (<[(t, grant_id) := list_of (t, grant_id) (grant_uses s) ++ [use]]> (grant_uses s)) s) ;;
  append_audit (event_of ctx BREAK_GLASS_USED now (uuid_str grant_id) purpose
    (Some (BreakGlassGrant.ticket_reference grant))
    [("capability", BreakGlassCapability_value capability)]) ;;
  ret use.

Definition use_break_glass (ctx : TenantAccessContext) (grant_id : UUID)
    (capability : BreakGlassCapability) (purpose : string) : task store BreakGlassUse := (
  of_outcome (require_tenant_mode ctx) ;;
  now <- atomically now_utc ;;
  atomically (use_section ctx grant_id capability purpose now))%prog.

(** ** Restores *)
Definition plan_section (ctx : TenantAccessContext) (backup_id : UUID) (target_site : string)
    (grant_id : UUID) (now : datetime) : M store RestorePlan :=
  let t := TenantAccessContext.tenant_id ctx in
  backup <- backup_locked t backup_id ;;
  profile <- profile_locked t now ;;
  guard (targets_profile backup profile)
    (ValueError "restore backup does not target the active reliability profile") ;;
  id <- uuid4 ;;
  plan <- lift (RestorePlan.create {|
    RestorePlan.restore_id := id; RestorePlan.tenant_id := t;
    RestorePlan.profile_id := ReliabilityProfile.profile_id profile;
    RestorePlan.profile_revision := ReliabilityProfile.revision profile;
    RestorePlan.backup_id := backup_id; RestorePlan.target_site := target_site;
    RestorePlan.failure_detected_at := now; RestorePlan.requested_at := now;
    RestorePlan.requested_by := TenantAccessContext.actor ctx;
    RestorePlan.break_glass_grant_id := grant_id; RestorePlan.reconcile_uncertain := true;
    RestorePlan.reconcile_recovery_gap := true; RestorePlan.prohibit_blind_replay := true |}) ;;
  modify (fun s => set_plans (<[(t, RestorePlan.restore_id plan) := plan]> (plans s)) s) ;;
  append_audit (event_of ctx RESTORE_PLANNED now (uuid_str (RestorePlan.restore_id plan))
    "plan disaster recovery restore" None
    [("target_site", target_site); ("backup_id", uuid_str backup_id)]) ;;
  ret plan.

Definition plan_restore (ctx : TenantAccessContext) (backup_id : UUID) (target_site : string)
    (grant_id : UUID) : task store RestorePlan := (
  use_break_glass ctx grant_id BG_RESTORE
    ("restore backup " +:+ uuid_str backup_id +:+ " to " +:+ target_site) ;;
  now <- atomically now_utc ;;
  atomically (plan_section ctx backup_id target_site grant_id now))%prog.

(** The plan of a restore and its backup, read under the lock *)
Definition plan_and_backup (t : string) (restore_id : UUID) : M store (RestorePlan * BackupManifest) :=
  plan <- plan_locked t restore_id ;;
  manifest <- backup_locked t (RestorePlan.backup_id plan) ;;
  ret (plan, manifest).

Definition record_scan_section (ctx : TenantAccessContext) (restore_id : UUID)
    (scan : IntegrityScanResult) : M store unit :=
  modify (fun s => set_scans
    (<[(TenantAccessContext.tenant_id ctx, IntegrityScanResult.scan_id scan) := scan]> (scans s)) s) ;;
  append_audit (event_of ctx INTEGRITY_SCAN_RECORDED (IntegrityScanResult.completed_at scan)
    (uuid_str (IntegrityScanResult.scan_id scan)) "verify post-restore assurance integrity" None
    [("status", RecoveryIntegrityStatus_value (IntegrityScanResult.status scan));
     ("restore_id", uuid_str restore_id)]).

(** One attempt of [reconcile_uncertain_attempts]: the resolver is awaited. *)
Definition reconcile_attempt
    (resolver : ExecutionAttemptRecord -> UUID -> outcome UncertainExecutionRecovery)
    (tenant : string) (restore_id : UUID) (records : list UncertainExecutionRecovery)
    (attempt : ExecutionAttemptRecord) : outcome (list UncertainExecutionRecovery) :=
  require (bool_decide (ExecutionAttemptRecord.tenant_id attempt = tenant))
    (AuthorizationDeniedError "uncertain attempt crossed tenant boundary") ;~
  require (bool_decide (ExecutionAttemptRecord.state attempt = UNCERTAIN))
    (ValueError "only uncertain execution attempts are recovery candidates") ;~
  record <~ resolver attempt restore_id ;;
  require (negb (negb (bool_decide (UncertainExecutionRecovery.tenant_id record = tenant)) ||
      negb (bool_decide (UncertainExecutionRecovery.restore_id record = restore_id)) ||
      negb (bool_decide (UncertainExecutionRecovery.attempt_id record =
                         ExecutionAttemptRecord.attempt_id attempt)) ||
      negb (bool_decide (UncertainExecutionRecovery.action_id record =
                         ExecutionAttemptRecord.action_id attempt)) ||
      negb (bool_decide (UncertainExecutionRecovery.run_id record =
                         ExecutionAttemptRecord.run_id attempt)) ||
      UncertainExecutionRecovery.replay_permitted record))
    (ValueError "uncertain-attempt resolver returned mismatched recovery evidence") ;~
  Ok (records ++ [record]).

Definition record_recoveries_section (ctx : TenantAccessContext) (restore_id : UUID)
    (records : list UncertainExecutionRecovery) : M store unit :=
  modify (fun s => set_recoveries
    (<[(TenantAccessContext.tenant_id ctx, restore_id) := records]> (recoveries s)) s) ;;
  now <- now_utc ;;
  for_m (fun record => append_audit (event_of ctx UNCERTAIN_ATTEMPT_RECONCILED now
    (uuid_str (UncertainExecutionRecovery.attempt_id record))
    "reconcile uncertain execution after disaster recovery" None
    [("disposition", UncertainRecoveryDisposition_value (UncertainExecutionRecovery.disposition record))]))
    records.

Definition reconcile_uncertain_attempts (ctx : TenantAccessContext) (restore_id : UUID)
    (attempts : list ExecutionAttemptRecord)
    (resolver : ExecutionAttemptRecord -> UUID -> outcome UncertainExecutionRecovery)
    : task store (list UncertainExecutionRecovery) := (
  plan <- atomically (plan_locked (TenantAccessContext.tenant_id ctx) restore_id) ;;
  use_break_glass ctx (RestorePlan.break_glass_grant_id plan) BG_RECONCILE
    ("reconcile uncertain execution after restore " +:+ uuid_str restore_id) ;;
  of_outcome (require (py_unique (map ExecutionAttemptRecord.attempt_id attempts))
    (ValueError "uncertain recovery candidates must have unique attempt identities")) ;;
  records <- of_outcome (fold_o (reconcile_attempt resolver (TenantAccessContext.tenant_id ctx) restore_id)
                           attempts []) ;;
  atomically (record_recoveries_section ctx restore_id records) ;;
  Ret records)%prog.

(** The evidence of [record_recovery_gap], built before the lock is taken again *)
Definition build_gap (ctx : TenantAccessContext) (restore_id : UUID) (plan : RestorePlan)
    (backup : BackupManifest) (source_references : list string) (unexpected unresolved : Z)
    (evidence_reference : string) : M store RecoveryGapReconciliation :=
  now <- now_utc ;;
  id <- uuid4 ;;
  lift (RecoveryGapReconciliation.create {|
    RecoveryGapReconciliation.reconciliation_id := id;
    RecoveryGapReconciliation.restore_id := restore_id;
    RecoveryGapReconciliation.tenant_id := TenantAccessContext.tenant_id ctx;
    RecoveryGapReconciliation.recovery_point_at := BackupManifest.recovery_point_at backup;
    RecoveryGapReconciliation.failure_detected_at := RestorePlan.failure_detected_at plan;
    RecoveryGapReconciliation.completed_at := now;
    RecoveryGapReconciliation.source_references := source_references;
    RecoveryGapReconciliation.unexpected_effect_count := unexpected;
    RecoveryGapReconciliation.unresolved_effect_count := unresolved;
    RecoveryGapReconciliation.evidence_reference := evidence_reference;
    RecoveryGapReconciliation.blind_replay_permitted := false |}).

Definition record_gap_section (ctx : TenantAccessContext) (restore_id : UUID)
    (unexpected unresolved : Z) (record : RecoveryGapReconciliation)
    : M store RecoveryGapReconciliation :=
  let key := (TenantAccessContext.tenant_id ctx, restore_id) in
  s <- get ;;
  match gaps s !! key with
  | Some existing =>
      guard (bool_decide (existing = record))
        (ValueError "recovery-gap reconciliation is immutable once recorded") ;;
      ret existing
  | None =>
      modify (fun s => set_gaps (<[key := record]> (gaps s)) s) ;;
      append_audit (event_of ctx RECOVERY_GAP_RECONCILED (RecoveryGapReconciliation.completed_at record)
        (uuid_str restore_id) "reconcile effects across the backup RPO gap" None
        [("unexpected_effect_count", pretty unexpected); ("unresolved_effect_count", pretty unresolved)]) ;;
      ret record
  end.

Definition record_recovery_gap (ctx : TenantAccessContext) (restore_id : UUID)
    (source_references : list string) (unexpected unresolved : Z) (evidence_reference : string)
    : task store RecoveryGapReconciliation := (
  pb <- atomically (plan_and_backup (TenantAccessContext.tenant_id ctx) restore_id) ;;
  use_break_glass ctx (RestorePlan.break_glass_grant_id (fst pb)) BG_RECONCILE
    ("reconcile RPO recovery gap for " +:+ uuid_str restore_id) ;;
  record <- atomically (build_gap ctx restore_id (fst pb) (snd pb) source_references unexpected unresolved
                          evidence_reference) ;;
  atomically (record_gap_section ctx restore_id unexpected unresolved record))%prog.

(** The verdict of [complete_restore] *)
Definition restore_status (integrity_ok unresolved gap_reconciled targets_met : bool)
    : RestoreStatus * bool :=
  if integrity_ok && negb unresolved && gap_reconciled && targets_met then (RESTORE_VERIFIED, true)
  else if integrity_ok then (RESTORE_DEGRADED, false)
  else (RESTORE_FAILED, false).

Definition py_lower_bool (b : bool) : string := if b then "true" else "false".

Definition complete_section (ctx : TenantAccessContext) (restore_id scan_id : UUID) (plan : RestorePlan)
    (now : datetime) : M store RestoreResult :=
  let t := TenantAccessContext.tenant_id ctx in
  backup <- backup_locked t (RestorePlan.backup_id plan) ;;
  profile <- profile_locked t now ;;
  s <- get ;;
  scan <- lift (match scans s !! (t, scan_id) with
                | Some scan =>
                    require (bool_decide (IntegrityScanResult.restore_id scan = restore_id))
                      (ValueError "restore requires an integrity scan for the same restore") ;~ Ok scan
                | None => Raise (ValueError "restore requires an integrity scan for the same restore")
                end) ;;
  gap <- lift (match gaps s !! (t, restore_id) with
               | Some gap => Ok gap
               | None => Raise (ValueError "restore requires reconciliation of the RPO recovery gap")
               end) ;;
  let records := list_of (t, restore_id) (recoveries s) in
  let unresolved := existsb UncertainExecutionRecovery.unresolved records in
  let gap_reconciled := RecoveryGapReconciliation.unresolved_effect_count gap =? 0 in
  let actual_rpo := float_max0 (total_seconds
    (RestorePlan.failure_detected_at plan - BackupManifest.recovery_point_at backup)) in
  let actual_rto := float_max0 (total_seconds (now - RestorePlan.failure_detected_at plan)) in
  let integrity_ok := bool_decide (IntegrityScanResult.status scan = SCAN_VERIFIED) in
  let targets_met := float_leb actual_rpo (float_of_int (ReliabilityProfile.rpo_seconds profile)) &&
                     float_leb actual_rto (float_of_int (ReliabilityProfile.rto_seconds profile)) in
  let '(status, promoted) := restore_status integrity_ok unresolved gap_reconciled targets_met in
  result <- lift (RestoreResult.create {|
    RestoreResult.restore_id := restore_id; RestoreResult.tenant_id := t;
    RestoreResult.backup_id := BackupManifest.backup_id backup;
    RestoreResult.started_at := RestorePlan.failure_detected_at plan;
    RestoreResult.completed_at := now; RestoreResult.status := status;
    RestoreResult.actual_rpo_seconds := actual_rpo; RestoreResult.actual_rto_seconds := actual_rto;
    RestoreResult.integrity_scan_id := scan_id;
    RestoreResult.recovery_gap_reconciliation_id := RecoveryGapReconciliation.reconciliation_id gap;
    RestoreResult.recovery_gap_reconciled := gap_reconciled;
    RestoreResult.uncertain_recoveries := records; RestoreResult.promoted := promoted;
    RestoreResult.completed_by := TenantAccessContext.actor ctx |}) ;;
  modify (fun s => set_results (<[(t, restore_id) := result]> (results s)) s) ;;
  append_audit (event_of ctx RESTORE_COMPLETED now (uuid_str restore_id)
    "complete disaster recovery restore" None
    [("status", RestoreStatus_value status); ("actual_rpo_seconds", float_str actual_rpo);
     ("actual_rto_seconds", float_str actual_rto);
     ("recovery_gap_reconciled", py_lower_bool gap_reconciled)]) ;;
  ret result.

Definition complete_restore (ctx : TenantAccessContext) (restore_id scan_id : UUID)
    : task store RestoreResult := (
  plan <- atomically (plan_locked (TenantAccessContext.tenant_id ctx) restore_id) ;;
  use_break_glass ctx (RestorePlan.break_glass_grant_id plan) BG_FAILOVER
    ("authorize promotion of verified restore " +:+ uuid_str restore_id) ;;
  now <- atomically now_utc ;;
  atomically (complete_section ctx restore_id scan_id plan now))%prog.

(** ** Game days *)
Definition game_day_section (ctx : TenantAccessContext) (result : RestoreResult)
    (simulated_site_failure : bool) (notes : list string) (now : datetime) : M store GameDayExercise :=
  let t := TenantAccessContext.tenant_id ctx in
  profile <- profile_locked t now ;;
  s <- get ;;
  scan <- lift (match scans s !! (t, RestoreResult.integrity_scan_id result) with
                | Some scan => Ok scan
                | None => Raise (KeyError (uuid_str (RestoreResult.integrity_scan_id result)))
                end) ;;
  let unresolved := existsb UncertainExecutionRecovery.unresolved (RestoreResult.uncertain_recoveries result) in
  id <- uuid4 ;;
  exercise <- lift (GameDayExercise.create {|
    GameDayExercise.exercise_id := id; GameDayExercise.tenant_id := t;
    GameDayExercise.profile_id := ReliabilityProfile.profile_id profile;
    GameDayExercise.profile_revision := ReliabilityProfile.revision profile;
    GameDayExercise.backup_id := RestoreResult.backup_id result;
    GameDayExercise.restore_id := RestoreResult.restore_id result;
    GameDayExercise.started_at := RestoreResult.started_at result;
    GameDayExercise.completed_at := now;
    GameDayExercise.simulated_site_failure := simulated_site_failure;
    GameDayExercise.achieved_rpo_seconds := RestoreResult.actual_rpo_seconds result;
    GameDayExercise.achieved_rto_seconds := RestoreResult.actual_rto_seconds result;
    GameDayExercise.chain_verified := IntegrityScanResult.chain_verified scan;
    GameDayExercise.checkpoint_verified := IntegrityScanResult.checkpoint_verified scan;
    GameDayExercise.trust_anchor_verified := IntegrityScanResult.trust_anchor_verified scan;
    GameDayExercise.object_store_verified := IntegrityScanResult.object_store_verified scan;
    GameDayExercise.uncertain_actions_reconciled := negb unresolved;
    GameDayExercise.recovery_gap_reconciled := RestoreResult.recovery_gap_reconciled result;
    GameDayExercise.durable_catalog_verified := false; GameDayExercise.blind_replay_count := 0;
    GameDayExercise.passed := false; GameDayExercise.notes := notes |}) ;;
  modify (fun s => set_game_days
    (<[(t, GameDayExercise.exercise_id exercise) := exercise]> (game_days s)) s) ;;
  append_audit (event_of ctx GAME_DAY_RECORDED (GameDayExercise.completed_at exercise)
    (uuid_str (GameDayExercise.exercise_id exercise)) "record standalone disaster recovery exercise" None
    [("passed", "false"); ("durable_catalog_verified", "false")]) ;;
  ret exercise.

Definition record_game_day (ctx : TenantAccessContext) (result : RestoreResult)
    (simulated_site_failure : bool) (notes : list string) : task store GameDayExercise := (
  of_outcome (require_tenant ctx CAP_CONFIGURE) ;;
  of_outcome (require (bool_decide (RestoreResult.tenant_id result = TenantAccessContext.tenant_id ctx))
    (AuthorizationDeniedError "game-day result crossed tenant boundary")) ;;
  now <- atomically now_utc ;;
  atomically (game_day_section ctx result simulated_site_failure notes now))%prog.

Definition audit_events (ctx : TenantAccessContext) : task store (list RecoveryAuditEvent) := (
  of_outcome (require_tenant ctx CAP_READ) ;;
  atomically (fun s => (Ok (list_of (TenantAccessContext.tenant_id ctx) (audit s)), s)))%prog.

(** ** The calls on the store *)
Section Calls.
Context (ed25519_verify : list Z -> list Z -> bytes -> bool).
Context (set_order : list RecoveryComponent -> list RecoveryComponent).

Definition verify_restore (ctx : TenantAccessContext) (restore_id : UUID)
    (observations : list RestoredComponentObservation) (tip : string) (checkpoint : SignedCheckpoint)
    (trust_policy : TrustRootPolicy) : task store IntegrityScanResult := (
  pb <- atomically (plan_and_backup (TenantAccessContext.tenant_id ctx) restore_id) ;;
  use_break_glass ctx (RestorePlan.break_glass_grant_id (fst pb)) BG_INTEGRITY_SCAN
    ("verify restored assurance state for " +:+ uuid_str restore_id) ;;
  scan <- atomically (zoom env set_env (Integrity.verify ed25519_verify set_order (snd pb) restore_id
                        observations tip checkpoint trust_policy None)) ;;
  atomically (record_scan_section ctx restore_id scan) ;;
  Ret scan)%prog.

Inductive operation : Type -> Type :=
| op_publish (p : ReliabilityProfile) : operation ReliabilityProfile
| op_current : operation (option ReliabilityProfile)
| op_backup (m : BackupManifest) : operation BackupManifest
| op_latest : operation (option BackupManifest)
| op_issue (operator : ActorRef) (caps : list BreakGlassCapability) (reason ticket : string) (ttl : Z)
    : operation BreakGlassGrant
| op_revoke (grant : UUID) (reason : string) : operation unit
| op_use (grant : UUID) (cap : BreakGlassCapability) (purpose : string) : operation BreakGlassUse
| op_plan (backup : UUID) (site : string) (grant : UUID) : operation RestorePlan
| op_verify (restore : UUID) (observations : list RestoredComponentObservation) (tip : string)
    (checkpoint : SignedCheckpoint) (policy : TrustRootPolicy) : operation IntegrityScanResult
| op_reconcile (restore : UUID) (attempts : list ExecutionAttemptRecord)
    (resolver : ExecutionAttemptRecord -> UUID -> outcome UncertainExecutionRecovery)
    : operation (list UncertainExecutionRecovery)
| op_gap (restore : UUID) (sources : list string) (unexpected unresolved : Z) (evidence : string)
    : operation RecoveryGapReconciliation
| op_complete (restore scan : UUID) : operation RestoreResult
| op_game_day (result : RestoreResult) (simulated : bool) (notes : list string) : operation GameDayExercise
| op_audit : operation (list RecoveryAuditEvent).

Definition run_op {A} (ctx : TenantAccessContext) (op : operation A) : task store A :=
  match op with
  | op_publish p => publish_profile ctx p
  | op_current => current_profile ctx
  | op_backup m => record_backup ctx m
  | op_latest => latest_usable_backup ctx
  | op_issue operator caps reason ticket ttl => issue_break_glass ctx operator caps reason ticket ttl
  | op_revoke grant reason => revoke_break_glass ctx grant reason
  | op_use grant cap purpose => use_break_glass ctx grant cap purpose
  | op_plan backup site grant => plan_restore ctx backup site grant
  | op_verify restore observations tip checkpoint policy =>
      verify_restore ctx restore observations tip checkpoint policy
  | op_reconcile restore attempts resolver => reconcile_uncertain_attempts ctx restore attempts resolver
  | op_gap restore sources unexpected unresolved evidence =>
      record_recovery_gap ctx restore sources unexpected unresolved evidence
  | op_complete restore scan => complete_restore ctx restore scan
  | op_game_day result simulated notes => record_game_day ctx result simulated notes
  | op_audit => audit_events ctx
  end.

(** The records a call is made with are constructed ones. *)
Definition constructed_arguments {A} (op : operation A) : Prop :=
  match op with
  | op_publish p => ReliabilityProfile.create p = Ok p
  | op_backup m => BackupManifest.create m = Ok m
  | op_verify _ observations _ checkpoint policy =>
      Forall (fun o => RestoredComponentObservation.create o = Ok o) observations /\
      SignedCheckpoint.create checkpoint = Ok checkpoint /\ TrustRootPolicy.create policy = Ok policy
  | op_reconcile _ attempts resolver =>
      Forall (fun a => ExecutionAttemptRecord.create a = Ok a) attempts /\
      forall a id r, resolver a id = Ok r -> UncertainExecutionRecovery.create r = Ok r
  | op_game_day result _ _ => RestoreResult.create result = Ok result
  | _ => True
  end.

(** What the event loop is given to run: the calls the clients make, [calls], each with
    a constructed context and constructed records *)
Inductive admissible (calls : forall A, TenantAccessContext -> operation A -> Prop) : task store unit -> Prop :=
| admit_call {A} ctx (op : operation A) :
    calls A ctx op -> TenantAccessContext.create ctx = Ok ctx -> constructed_arguments op ->
    admissible calls (forget (run_op ctx op)).
End Calls.
End RecoveryStore.
