(* ===== verification/RecoveryProofs.v ===== *)
(** * Disaster recovery: what it promises

    [Module ScanProofs]: what a verified integrity scan attests.  [Module RecoverySpec]
    is the abstract machine of the store, [Module RecoveryRefinement] shows that every
    locked section of every operation makes at most one of its changes, and so that
    every interleaving of the operations is a run of the machine. *)

From S2P Require Import Prelude Canonical Contracts Tenancy Host Attestations RecoveryContracts Durations Effects Threads Recovery TenantProofs.

Module ScanProofs.
Import Recovery.Integrity.

(** ** [{item.component: item for item in items}] *)
Section ByComponent.
Context {A : Type} (f : A -> RecoveryComponent).

Lemma by_component_snoc l x : by_component f (l ++ [x]) = dict_set (f x) x (by_component f l).
Proof. unfold by_component. by rewrite fold_left_app. Qed.

Lemma by_component_keys l c : c ∈ dict_keys (by_component f l) <-> c ∈ map f l.
Proof.
  induction l as [|x l IH] using rev_ind; [done|].
  rewrite by_component_snoc, dict_keys_set, map_app, elem_of_app, <- IH. cbn. unfold dict_has.
  destruct (dict_get (f x) (by_component f l)) eqn:E; [|set_solver].
  assert (f x ∈ dict_keys (by_component f l)); [|set_solver].
  destruct (decide (f x ∈ dict_keys (by_component f l))) as [|Hn]; [done|].
  apply dict_get_None in Hn. congruence.
Qed.

Lemma length_dict_set {V} (k : RecoveryComponent) (v : V) d :
  length (dict_set k v d) = if dict_has k d then length d else S (length d).
Proof.
  unfold dict_has. induction d as [|[k' v'] d IH]; simpl; [done|]. case_decide; [done|]. simpl. rewrite IH.
  by destruct (dict_get k d).
Qed.

Lemma by_component_length l :
  (length (by_component f l) <= length l)%nat /\
  (length (by_component f l) = length l -> NoDup (map f l)).
Proof.
  induction l as [|x l [IH1 IH2]] using rev_ind; [split; [done|constructor]|].
  rewrite by_component_snoc, length_dict_set, length_app, map_app. cbn. unfold dict_has.
  destruct (dict_get (f x) (by_component f l)) eqn:E; [split; lia|]. split; [lia|]. intros Hl.
  apply NoDup_app. split; [apply IH2; lia|]. split; [|apply NoDup_singleton].
  intros c Hc. rewrite <- by_component_keys in Hc. apply dict_get_None in E. set_solver.
Qed.

Lemma by_component_NoDup l : NoDup (map f l) -> by_component f l = map (fun x => (f x, x)) l.
Proof.
  induction l as [|x l IH] using rev_ind; [done|]. rewrite by_component_snoc, !map_app.
  intros (Hl & Hd & _)%NoDup_app. rewrite IH by done. cbn.
  assert (Hn : f x ∉ map f l) by (intros Hin; apply (Hd _ Hin); cbn; left). clear IH Hl Hd.
  induction l as [|y l IH]; [done|]. cbn in *. rewrite decide_False by set_solver. f_equal.
  apply IH. set_solver.
Qed.

Lemma by_component_get l x : NoDup (map f l) -> x ∈ l -> dict_get (f x) (by_component f l) = Some x.
Proof.
  intros Hnd Hx. rewrite by_component_NoDup by done. apply elem_dict_get.
  - unfold dict_keys. by rewrite map_map.
  - apply list_elem_of_fmap. eauto.
Qed.

Lemma by_component_elem l c x : dict_get c (by_component f l) = Some x -> x ∈ l /\ f x = c.
Proof.
  revert c. induction l as [|y l IH] using rev_ind; intros c; [done|]. rewrite by_component_snoc.
  destruct (decide (f y = c)) as [<-|Hne].
  - rewrite dict_get_set_eq. intros [= <-]. set_solver.
  - rewrite dict_get_set_ne by done. intros [H <-]%IH. set_solver.
Qed.
End ByComponent.

(** ** The findings stay empty exactly when every check passed *)
Lemma note_nil ok f fs fs' :
  note ok f fs = Ok fs' -> (fs' = [] <-> fs = [] /\ ok = true).
Proof.
  unfold note. destruct ok.
  - intros [= <-]. intuition.
  - intros (x & _ & [= <-])%obind_Ok. split; [intros []%app_eq_nil; discriminate|intros [_ [=]]].
Qed.

Lemma check_components_nil observed expected fs vs fs' vs' :
  fold_o (check_component observed) expected (fs, vs) = Ok (fs', vs') ->
  (fs' = [] <-> fs = [] /\ forall c r, (c, r) ∈ expected -> exists o, dict_get c observed = Some o /\
     RestoredComponentObservation.sha256 o = BackupComponentRecord.sha256 r) /\
  (fs' = [] -> vs' = vs ++ map fst expected).
Proof.
  revert fs vs. induction expected as [|[c r] expected IH]; intros fs vs; cbn [fold_o].
  - intros [= <- <-]. split; [|by rewrite app_nil_r]. split; [|tauto]. intros ->. split; [done|]. intros ? ? []%not_elem_of_nil.
  - intros ([fs1 vs1] & H1 & H2)%obind_Ok. destruct (IH _ _ H2) as [IH1 IH2]. clear IH H2.
    unfold check_component in H1. destruct (dict_get c observed) as [o|] eqn:Ho.
    + case_bool_decide as Hs; cbn [negb] in H1.
      * injection H1 as <- <-. split.
        -- rewrite IH1. split; intros [-> H]; (split; [done|]); intros c' r' Hin.
           ++ apply elem_of_cons in Hin as [[= -> ->]|Hin]; [eauto|by apply H].
           ++ apply H. by right.
        -- intros E. rewrite (IH2 E). cbn. by rewrite <- app_assoc.
      * apply obind_Ok in H1 as (f & _ & [= <- <-]). split.
        -- rewrite IH1. split; [intros [[]%app_eq_nil _]; discriminate|]. intros [_ H].
           destruct (H c r) as (o' & Ho' & Hs'); [by left|]. congruence.
        -- intros [[]%app_eq_nil _]%IH1; discriminate.
    + apply obind_Ok in H1 as (f & _ & [= <- <-]). split.
      * rewrite IH1. split; [intros [[]%app_eq_nil _]; discriminate|]. intros [_ H].
        destruct (H c r) as (o' & Ho' & _); [by left|]. congruence.
      * intros [[]%app_eq_nil _]%IH1; discriminate.
Qed.

Lemma check_extras_nil observed cs fs fs' :
  fold_o (check_extra observed) cs fs = Ok fs' -> (fs' = [] <-> fs = [] /\ cs = []).
Proof.
  revert fs. induction cs as [|c cs IH]; intros fs; cbn [fold_o].
  - intros [= <-]. tauto.
  - intros (fs1 & H1 & H2)%obind_Ok. rewrite (IH _ H2). unfold check_extra in H1.
    destruct (dict_get c observed); [|discriminate]. apply obind_Ok in H1 as (f & _ & [= <-]).
    split; [intros [[]%app_eq_nil _]; discriminate|intros [_ [=]]].
Qed.

Lemma check_signature_nil ed cp policy fs b fs' :
  check_signature ed cp policy fs = Ok (b, fs') ->
  b = is_ok (Assurance.verify_checkpoint ed cp policy) /\ (fs' = [] <-> fs = [] /\ b = true).
Proof.
  unfold check_signature. destruct (Assurance.verify_checkpoint ed cp policy) as [k|e].
  - intros [= <- <-]. intuition.
  - destruct e; try discriminate. intros (f & _ & [= <- <-])%obind_Ok. split; [done|].
    split; [intros []%app_eq_nil; discriminate|intros [_ [=]]].
Qed.

Lemma require_unit b e u : require b e = Ok u -> b = true.
Proof. by destruct b. Qed.

Lemma scan_create r r' :
  IntegrityScanResult.create r = Ok r' ->
  IntegrityScanResult.status r' = IntegrityScanResult.status r /\
  IntegrityScanResult.restore_id r' = IntegrityScanResult.restore_id r /\
  IntegrityScanResult.scan_id r' = IntegrityScanResult.scan_id r /\
  IntegrityScanResult.completed_at r' = IntegrityScanResult.completed_at r.
Proof.
  unfold IntegrityScanResult.create. intros (t & _ & H)%obind_Ok. apply obind_Ok in H as (u & _ & [= <-]).
  done.
Qed.

Lemma verified_status (b : bool) :
  (if b then SCAN_VERIFIED else SCAN_FAILED) = SCAN_VERIFIED <-> b = true.
Proof. by destruct b. Qed.

(** What a restore has to show for its backup *)
Definition restored (ed : list Z -> list Z -> bytes -> bool) (m : BackupManifest)
    (observations : list RestoredComponentObservation) (tip : string) (cp : SignedCheckpoint)
    (policy : TrustRootPolicy) : Prop :=
  (forall r, r ∈ BackupManifest.components m -> exists o, o ∈ observations /\
     RestoredComponentObservation.component o = BackupComponentRecord.component r /\
     RestoredComponentObservation.sha256 o = BackupComponentRecord.sha256 r) /\
  (forall o, o ∈ observations -> exists r, r ∈ BackupManifest.components m /\
     BackupComponentRecord.component r = RestoredComponentObservation.component o) /\
  tip = BackupManifest.ledger_chain_tip_sha256 m /\
  sha256_hex (TrustRootPolicy.dump policy) = Ok (BackupManifest.trust_anchor_sha256 m) /\
  checkpoint_sha256 cp = Ok (BackupManifest.trusted_checkpoint_sha256 m) /\
  SignedCheckpoint.tenant_id cp = BackupManifest.tenant_id m /\
  SignedCheckpoint.final_event_hash cp = BackupManifest.ledger_chain_tip_sha256 m /\
  is_ok (Assurance.verify_checkpoint ed cp policy) = true.

Section Exact.
Context (ed : list Z -> list Z -> bytes -> bool) (order : list RecoveryComponent -> list RecoveryComponent).
Hypothesis order_perm : forall l, order l ≡ₚ l.

(** The components agree: the first two clauses of [restored], on the dictionaries *)
Lemma components_agree m observations :
  NoDup (map BackupComponentRecord.component (BackupManifest.components m)) ->
  NoDup (map RestoredComponentObservation.component observations) ->
  let expected := by_component BackupComponentRecord.component (BackupManifest.components m) in
  let observed := by_component RestoredComponentObservation.component observations in
  ((forall c r, (c, r) ∈ expected -> exists o, dict_get c observed = Some o /\
      RestoredComponentObservation.sha256 o = BackupComponentRecord.sha256 r) <->
   (forall r, r ∈ BackupManifest.components m -> exists o, o ∈ observations /\
      RestoredComponentObservation.component o = BackupComponentRecord.component r /\
      RestoredComponentObservation.sha256 o = BackupComponentRecord.sha256 r)) /\
  (order (List.filter (fun c => negb (mem c (dict_keys expected))) (dict_keys observed)) = [] <->
   (forall o, o ∈ observations -> exists r, r ∈ BackupManifest.components m /\
      BackupComponentRecord.component r = RestoredComponentObservation.component o)).
Proof.
  intros Hm Ho expected observed. split.
  - unfold expected. rewrite (by_component_NoDup _ _ Hm). split.
    + intros H r Hr. destruct (H (BackupComponentRecord.component r) r) as (o & Hg & Hs).
      { apply list_elem_of_fmap. eauto. }
      apply by_component_elem in Hg as [Hin Hc]. eauto.
    + intros H c r (x & [= -> ->] & Hin)%list_elem_of_fmap. destruct (H x Hin) as (o & Hoin & <- & Hs).
      exists o. split; [|done]. by apply by_component_get.
  - assert (Hnil : forall l, order l = [] <-> l = []).
    { intros l. split; intros E; [|by rewrite E in *; apply Permutation_nil_r, order_perm].
      apply Permutation_nil_r. by rewrite <- E, order_perm. }
    rewrite Hnil. split.
    + intros Hf o Hin. destruct (decide (RestoredComponentObservation.component o ∈ dict_keys expected)) as [Hk|Hk].
      * apply (by_component_keys BackupComponentRecord.component), list_elem_of_fmap in Hk as (r & Hr & Hin'). by exists r.
      * exfalso. assert (Hx : RestoredComponentObservation.component o ∈
            List.filter (fun c => negb (mem c (dict_keys expected))) (dict_keys observed)); [|rewrite Hf in Hx; set_solver].
        apply list_elem_of_In, filter_In. split.
        -- apply list_elem_of_In, (by_component_keys RestoredComponentObservation.component), list_elem_of_fmap. eauto.
        -- by apply negb_true_iff, mem_false.
    + intros H. destruct (List.filter _ _) as [|c l] eqn:E; [done|exfalso].
      assert (Hx : In c (c :: l)) by by left. rewrite <- E in Hx. apply filter_In in Hx as [Hin Hn].
      apply list_elem_of_In, (by_component_keys RestoredComponentObservation.component), list_elem_of_fmap in Hin as (o & -> & Hin).
      destruct (H o Hin) as (r & Hr & Hc). apply negb_true_iff, mem_false in Hn. apply Hn.
      apply (by_component_keys BackupComponentRecord.component), list_elem_of_fmap. by exists r.
Qed.

Lemma scan_exactly m rid observations tip cp policy now id r :
  NoDup (map BackupComponentRecord.component (BackupManifest.components m)) ->
  scan ed order m rid observations tip cp policy now id = Ok r ->
  IntegrityScanResult.restore_id r = rid /\ IntegrityScanResult.scan_id r = id /\
  (IntegrityScanResult.status r = SCAN_VERIFIED <-> restored ed m observations tip cp policy).
Proof.
  intros Hm H. unfold scan in H. cbv zeta in H.
  set (expected := by_component BackupComponentRecord.component _) in H.
  set (observed := by_component RestoredComponentObservation.component _) in H.
  apply obind_Ok in H as (u & Hu & H). apply require_unit, bool_decide_eq_true in Hu.
  destruct (by_component_length RestoredComponentObservation.component observations) as [_ Ho].
  specialize (Ho Hu). destruct (components_agree m observations Hm Ho) as [Hagree Hextra]. cbv zeta in Hagree, Hextra.
  apply obind_Ok in H as ([fs1 vs] & H1 & H). destruct (check_components_nil _ _ _ _ _ _ H1) as [N1 V1].
  apply obind_Ok in H as (fs2 & H2 & H). pose proof (check_extras_nil _ _ _ _ H2) as N2.
  apply obind_Ok in H as (fs3 & N3%note_nil & H).
  apply obind_Ok in H as (anchor & Ha & H).
  apply obind_Ok in H as (fs4 & N4%note_nil & H).
  apply obind_Ok in H as (digest & Hd & H).
  apply obind_Ok in H as (fs5 & N5%note_nil & H).
  apply obind_Ok in H as (fs6 & N6%note_nil & H).
  apply obind_Ok in H as (fs7 & N7%note_nil & H).
  apply obind_Ok in H as ([cv fs8] & H8 & H).
  apply obind_Ok in H as (fs9 & N9%note_nil & H).
  apply scan_create in H as (Hst & Hrid & Hid & _). cbn in Hst, Hrid, Hid.
  split; [done|]. split; [done|]. rewrite Hst, verified_status, !andb_true_iff, bool_decide_eq_true.
  unfold restored. rewrite Ha, Hd, <- Hagree, <- Hextra. fold expected observed.
  assert (Heq : forall a b : string, bool_decide (a = b) = true <-> Ok a = Ok b).
  { intros. rewrite bool_decide_eq_true. split; congruence. }
  rewrite <- !Heq. clear Heq. rewrite bool_decide_eq_true in N3 |- *.
  rewrite <- (bool_decide_eq_true (SignedCheckpoint.tenant_id cp = _)),
    <- (bool_decide_eq_true (SignedCheckpoint.final_event_hash cp = _)).
  split.
  - intros ((((E9 & Et) & Ecv) & Ea) & Eo). apply N9 in E9 as [E8 _]. rewrite Ea in H8. cbn [andb] in H8.
    destruct (bool_decide (digest = _) && _ && _) eqn:Ecp; [|injection H8 as <- <-; discriminate].
    apply check_signature_nil in H8 as [-> N8]. apply N8 in E8 as [E7 _].
    apply N7 in E7 as [E6 ?]. apply N6 in E6 as [E5 ?]. apply N5 in E5 as [E4 ?].
    apply N4 in E4 as [E3 _]. apply N3 in E3 as [E2 _]. apply N2 in E2 as [E1 Ex]. apply N1 in E1 as [_ Ex1].
    repeat (split; [done|]). done.
  - intros (C1 & C2 & C3 & C4 & C5 & C6 & C7 & C8). rewrite C4, C5, C6, C7 in H8. cbn [andb] in H8.
    apply check_signature_nil in H8 as [-> N8].
    assert (E1 : fs1 = []) by by apply N1.
    assert (E7 : fs7 = []) by (apply N7; split; [|done]; apply N6; split; [|done]; apply N5; split; [|done];
      apply N4; split; [|done]; apply N3; split; [|done]; by apply N2).
    specialize (V1 E1). cbn in V1. subst vs.
    assert (Hos : negb (mem COMP_OBJECT_STORE (dict_keys expected)) || mem COMP_OBJECT_STORE (map fst expected) = true)
      by (unfold dict_keys; by destruct (mem COMP_OBJECT_STORE (map fst expected))).
    split; [|done]. split; [|done]. split; [|done]. split; [|done].
    apply N9. split; [by apply N8|]. by rewrite Hos, andb_false_r.
Qed.
End Exact.
End ScanProofs.

Module RecoverySpec.
Import Recovery.RecoveryStore.

(** ** The abstract machine of the store *)

(** Nothing but the clock, the identifiers and the audit logs moved, and the logs grew.
    (An empty list of profiles is none.) *)
Record background (s s' : store) : Prop := {
  bg_env : host_le (env s) (env s');
  bg_profiles : forall t, list_of t (profiles s') = list_of t (profiles s);
  bg_backups : backups s' = backups s;
  bg_plans : plans s' = plans s;
  bg_scans : scans s' = scans s;
  bg_recoveries : recoveries s' = recoveries s;
  bg_gaps : gaps s' = gaps s;
  bg_results : results s' = results s;
  bg_grants : grants s' = grants s;
  bg_uses : grant_uses s' = grant_uses s;
  bg_revoked : revoked_grants s' = revoked_grants s;
  bg_audit : forall t, list_of t (audit s) `prefix_of` list_of t (audit s');
}.

#[export] Instance background_preorder : PreOrder background.
Proof.
  split; [by split|]. intros a b c [] []. split; try congruence; etransitivity; eauto.
Qed.

(** Whatever the scan says, it is about the restore it was asked about. *)
Lemma scan_restore_id ed order m rid observations tip cp policy now id r :
  Integrity.scan ed order m rid observations tip cp policy now id = Ok r ->
  IntegrityScanResult.restore_id r = rid.
Proof.
  intros H. unfold Integrity.scan in H. cbv zeta in H.
  repeat match type of H with
         | obind _ _ = Ok _ => apply obind_Ok in H as (? & _ & H)
         | match ?x with _ => _ end = Ok _ => destruct x
         end.
  by apply ScanProofs.scan_create in H as (_ & -> & _).
Qed.

Lemma profile_at_elem t now s p : profile_at t now s = Some p -> p ∈ list_of t (profiles s).
Proof.
  unfold profile_at. set (l := List.filter _ _). intros H.
  assert (Hin : p ∈ l).
  { destruct l as [|x l]; [discriminate|]. cbn in H. injection H as <-. clear.
    assert (Hg : forall (f : ReliabilityProfile -> ReliabilityProfile -> bool) l a,
      foldl (fun best y => if f best y then y else best) a l ∈ a :: l).
    { intros f. induction l0 as [|y l0 IH]; intros a; cbn; [left|].
      destruct (f a y); [right; apply IH|]. specialize (IH a). set_solver. }
    apply Hg. }
  apply list_elem_of_In in Hin. apply filter_In in Hin as [Hin _]. by apply list_elem_of_In.
Qed.

Lemma profile_break_glass p : ReliabilityProfile.create p = Ok p -> ReliabilityProfile.max_break_glass_seconds p <= 3600.
Proof.
  intros H. unfold ReliabilityProfile.create in H. run_inv H. b2p.
  match goal with E : _ = p |- _ => pose proof (f_equal ReliabilityProfile.max_break_glass_seconds E) as F end.
  cbn in F. lia.
Qed.

Lemma profile_objectives p : ReliabilityProfile.create p = Ok p ->
  0 <= ReliabilityProfile.rpo_seconds p /\ 1 <= ReliabilityProfile.rto_seconds p.
Proof.
  intros H. unfold ReliabilityProfile.create in H. run_inv H. b2p.
  match goal with E : _ = p |- _ => pose proof (f_equal ReliabilityProfile.rpo_seconds E) as F1;
    pose proof (f_equal ReliabilityProfile.rto_seconds E) as F2 end.
  cbn in F1, F2. lia.
Qed.

Section Machine.
Context (ed : list Z -> list Z -> bytes -> bool) (order : list RecoveryComponent -> list RecoveryComponent).
Context (calls : forall A, TenantAccessContext -> operation A -> Prop).

(** The scan is the verifier's verdict, on what a client of the tenant submitted for the
    restore of that backup. *)
Definition honest (t : string) (m : BackupManifest) (rid : UUID) (r : IntegrityScanResult) : Prop :=
  exists ctx observations tip cp policy now id,
    TenantAccessContext.tenant_id ctx = t /\
    calls _ ctx (op_verify rid observations tip cp policy) /\
    Integrity.scan ed order m rid observations tip cp policy now id = Ok r.

(** A use of the grant that its terms allow *)
Definition licensed (g : BreakGlassGrant) (u : BreakGlassUse) : Prop :=
  BreakGlassUse.capability u ∈ BreakGlassGrant.capabilities g /\
  BreakGlassUse.occurred_at u < BreakGlassGrant.expires_at g /\
  ActorRef.kind (BreakGlassUse.actor u) = ActorRef.kind (BreakGlassGrant.operator g) /\
  ActorRef.id (BreakGlassUse.actor u) = ActorRef.id (BreakGlassGrant.operator g).

(** A grant lasts from a minute to an hour. *)
Definition brief (g : BreakGlassGrant) : Prop :=
  seconds 60 <= BreakGlassGrant.expires_at g - BreakGlassGrant.issued_at g <= seconds 3600.

(** Operator and approver are of the tenant, and not the same. *)
Definition independent (g : BreakGlassGrant) : Prop :=
  ActorRef.tenant_id (BreakGlassGrant.operator g) = BreakGlassGrant.tenant_id g /\
  ActorRef.tenant_id (BreakGlassGrant.approved_by g) = BreakGlassGrant.tenant_id g /\
  ~ (ActorRef.kind (BreakGlassGrant.operator g) = ActorRef.kind (BreakGlassGrant.approved_by g) /\
     ActorRef.id (BreakGlassGrant.operator g) = ActorRef.id (BreakGlassGrant.approved_by g)).

Lemma validated_independent g : BreakGlassGrant.validate_grant g = Ok tt -> independent g.
Proof.
  unfold BreakGlassGrant.validate_grant. intros H. run_inv H.
  repeat match goal with E : require _ _ = Ok _ |- _ => apply require_Ok in E end.
  b2p. split; [done|]. split; [done|]. intros [E1 E2].
  match goal with E : _ \/ _ |- _ => destruct E; b2p; done end.
Qed.

(** The operator of [ctx] spent the grant for [cap]. *)
Definition spent (s : store) (ctx : TenantAccessContext) (gid : UUID) (cap : BreakGlassCapability) : Prop :=
  exists u, u ∈ list_of (TenantAccessContext.tenant_id ctx, gid) (grant_uses s) /\
    BreakGlassUse.capability u = cap /\ BreakGlassUse.actor u = TenantAccessContext.actor ctx.

(** The backup [m] may be recorded at [now]: the active profile is its profile, its
    required components are there, and the recovery point meets the objective. *)
Definition meets_objective (m : BackupManifest) (p : ReliabilityProfile) (now : datetime) : Prop :=
  targets_profile m p = true /\
  (forall c, c ∈ ReliabilityProfile.required_components p ->
     c ∈ map BackupComponentRecord.component (BackupManifest.components m)) /\
  BackupManifest.created_at m <= now /\
  float_leb (float_of_int 0) (total_seconds (now - BackupManifest.recovery_point_at m)) = true /\
  float_leb (total_seconds (now - BackupManifest.recovery_point_at m))
    (float_of_int (ReliabilityProfile.rpo_seconds p)) = true.

(** What a completed restore rests on *)
Record completion (s : store) (t : string) (rid : UUID) (r : RestoreResult) (now : datetime) : Prop := {
  c_key : RestoreResult.restore_id r = rid /\ RestoreResult.tenant_id r = t /\ RestoreResult.completed_at r = now;
  c_parts : exists plan m p scan gap,
    plans s !! (t, rid) = Some plan /\
    dict_get (t, RestorePlan.backup_id plan) (backups s) = Some m /\
    profile_at t now s = Some p /\
    scans s !! (t, RestoreResult.integrity_scan_id r) = Some scan /\
    IntegrityScanResult.restore_id scan = rid /\
    gaps s !! (t, rid) = Some gap /\
    RestoreResult.promoted r =
      bool_decide (IntegrityScanResult.status scan = SCAN_VERIFIED) &&
      negb (existsb UncertainExecutionRecovery.unresolved (list_of (t, rid) (recoveries s))) &&
      (RecoveryGapReconciliation.unresolved_effect_count gap =? 0) &&
      (float_leb (float_max0 (total_seconds
          (RestorePlan.failure_detected_at plan - BackupManifest.recovery_point_at m)))
         (float_of_int (ReliabilityProfile.rpo_seconds p)) &&
       float_leb (float_max0 (total_seconds (now - RestorePlan.failure_detected_at plan)))
         (float_of_int (ReliabilityProfile.rto_seconds p))) /\
    exists ctx, TenantAccessContext.tenant_id ctx = t /\
      calls _ ctx (op_complete rid (RestoreResult.integrity_scan_id r)) /\
      RestoreResult.completed_by r = TenantAccessContext.actor ctx /\
      spent s ctx (RestorePlan.break_glass_grant_id plan) BG_FAILOVER;
}.

(** The changes of the store *)
Inductive change (s : store) : store -> Prop :=
| change_publish t p :
    ReliabilityProfile.create p = Ok p -> ReliabilityProfile.tenant_id p = t ->
    ReliabilityProfile.revision p =
      match last (list_of t (profiles s)) with None => 1 | Some q => ReliabilityProfile.revision q + 1 end ->
    change s (set_profiles (<[t := list_of t (profiles s) ++ [p]]> (profiles s)) s)
| change_backup t m p now :
    BackupManifest.create m = Ok m -> BackupManifest.tenant_id m = t ->
    profile_at t now s = Some p -> meets_objective m p now ->
    (forall m', dict_get (t, BackupManifest.backup_id m) (backups s) = Some m' -> m' = m) ->
    change s (set_backups (dict_set (t, BackupManifest.backup_id m) m (backups s)) s)
| change_issue h t g p now :
    profile_at t now s = Some p -> BreakGlassGrant.validate_grant g = Ok tt ->
    BreakGlassGrant.tenant_id g = t -> BreakGlassGrant.issued_at g = now ->
    seconds 60 <= BreakGlassGrant.expires_at g - now <= seconds (ReliabilityProfile.max_break_glass_seconds p) ->
    BreakGlassGrant.grant_id g = entropy (env s) (drawn (env s)) ->
    host_le (env s) h -> (drawn (env s) < drawn h)%nat ->
    change s (set_env h (set_grants (<[(t, BreakGlassGrant.grant_id g) := g]> (grants s)) s))
| change_revoke t gid now :
    is_Some (grants s !! (t, gid)) ->
    change s (set_revoked_grants (<[(t, gid) := now]> (revoked_grants s)) s)
| change_use t gid g u :
    grants s !! (t, gid) = Some g -> revoked_grants s !! (t, gid) = None -> licensed g u ->
    change s (set_grant_uses (<[(t, gid) := list_of (t, gid) (grant_uses s) ++ [u]]> (grant_uses s)) s)
| change_plan h t plan ctx m :
    TenantAccessContext.tenant_id ctx = t ->
    RestorePlan.requested_by plan = TenantAccessContext.actor ctx ->
    spent s ctx (RestorePlan.break_glass_grant_id plan) BG_RESTORE ->
    dict_get (t, RestorePlan.backup_id plan) (backups s) = Some m ->
    RestorePlan.restore_id plan = entropy (env s) (drawn (env s)) ->
    host_le (env s) h -> (drawn (env s) < drawn h)%nat ->
    change s (set_env h (set_plans (<[(t, RestorePlan.restore_id plan) := plan]> (plans s)) s))
| change_scan ctx plan m rid r :
    let t := TenantAccessContext.tenant_id ctx in
    plans s !! (t, rid) = Some plan -> dict_get (t, RestorePlan.backup_id plan) (backups s) = Some m ->
    spent s ctx (RestorePlan.break_glass_grant_id plan) BG_INTEGRITY_SCAN -> honest t m rid r ->
    change s (set_scans (<[(t, IntegrityScanResult.scan_id r) := r]> (scans s)) s)
| change_recoveries ctx plan rid records :
    let t := TenantAccessContext.tenant_id ctx in
    plans s !! (t, rid) = Some plan ->
    spent s ctx (RestorePlan.break_glass_grant_id plan) BG_RECONCILE ->
    Forall (fun r => UncertainExecutionRecovery.restore_id r = rid /\
                     UncertainExecutionRecovery.replay_permitted r = false) records ->
    change s (set_recoveries (<[(t, rid) := records]> (recoveries s)) s)
| change_gap ctx plan m rid gap :
    let t := TenantAccessContext.tenant_id ctx in
    plans s !! (t, rid) = Some plan -> dict_get (t, RestorePlan.backup_id plan) (backups s) = Some m ->
    spent s ctx (RestorePlan.break_glass_grant_id plan) BG_RECONCILE ->
    gaps s !! (t, rid) = None ->
    RecoveryGapReconciliation.restore_id gap = rid ->
    RecoveryGapReconciliation.recovery_point_at gap = BackupManifest.recovery_point_at m ->
    change s (set_gaps (<[(t, rid) := gap]> (gaps s)) s)
| change_complete t rid r now :
    completion s t rid r now ->
    change s (set_results (<[(t, rid) := r]> (results s)) s)
| change_game_day t e :
    GameDayExercise.passed e = false ->
    change s (set_game_days (<[(t, GameDayExercise.exercise_id e) := e]> (game_days s)) s).

(** A section: at most one change, between movements of the background *)
Inductive effect (s s' : store) : Prop :=
| quiet : background s s' -> effect s s'
| changed s1 s2 : background s s1 -> change s1 s2 -> background s2 s' -> effect s s'.

Lemma effect_then_background s s1 s2 : effect s s1 -> background s1 s2 -> effect s s2.
Proof.
  intros [H|a b H1 H2 H3] H4; [apply quiet; by etransitivity|].
  eapply changed; [exact H1|exact H2|by etransitivity].
Qed.

(** ** The invariant, and what only grows *)
Definition was_drawn (s : store) (id : UUID) : Prop :=
  exists i, (i < drawn (env s))%nat /\ id = entropy (env s) i.

Record sound (s : store) : Prop := {
  ids_fresh : fresh_ids (env s);
  profiles_sound : forall t p, p ∈ list_of t (profiles s) ->
    ReliabilityProfile.create p = Ok p /\ ReliabilityProfile.tenant_id p = t;
  backups_sound : forall t id m, dict_get (t, id) (backups s) = Some m ->
    BackupManifest.create m = Ok m /\ BackupManifest.tenant_id m = t /\ BackupManifest.backup_id m = id;
  grants_sound : forall t id g, grants s !! (t, id) = Some g ->
    was_drawn s id /\ BreakGlassGrant.validate_grant g = Ok tt /\ BreakGlassGrant.tenant_id g = t /\ brief g;
  uses_sound : forall t id u, u ∈ list_of (t, id) (grant_uses s) ->
    exists g, grants s !! (t, id) = Some g /\ licensed g u;
  plans_sound : forall t id plan, plans s !! (t, id) = Some plan ->
    was_drawn s id /\ exists m, dict_get (t, RestorePlan.backup_id plan) (backups s) = Some m;
  scans_sound : forall t id r, scans s !! (t, id) = Some r ->
    exists plan m, plans s !! (t, IntegrityScanResult.restore_id r) = Some plan /\
      dict_get (t, RestorePlan.backup_id plan) (backups s) = Some m /\
      honest t m (IntegrityScanResult.restore_id r) r;
  gaps_sound : forall t id gap, gaps s !! (t, id) = Some gap -> RecoveryGapReconciliation.restore_id gap = id;
}.

Record grows (s s' : store) : Prop := {
  gr_env : host_le (env s) (env s');
  gr_backups : forall k m, dict_get k (backups s) = Some m -> dict_get k (backups s') = Some m;
  gr_plans : forall k p, plans s !! k = Some p -> plans s' !! k = Some p;
  gr_grants : forall k g, grants s !! k = Some g -> grants s' !! k = Some g;
  gr_uses : forall k, list_of k (grant_uses s) `prefix_of` list_of k (grant_uses s');
  gr_revoked : forall k, is_Some (revoked_grants s !! k) ->
    is_Some (revoked_grants s' !! k) /\ list_of k (grant_uses s') = list_of k (grant_uses s);
  gr_gaps : forall k g, gaps s !! k = Some g -> gaps s' !! k = Some g;
  gr_profiles : forall t, list_of t (profiles s) `prefix_of` list_of t (profiles s');
  gr_audit : forall t, list_of t (audit s) `prefix_of` list_of t (audit s');
}.

#[export] Instance grows_preorder : PreOrder grows.
Proof.
  split.
  - intros s. split; try done.
  - intros a b c [] []. split; eauto.
    + etransitivity; eauto.
    + intros k. etransitivity; eauto.
    + intros k Hk. destruct (gr_revoked0 k Hk) as [H1 H2]. destruct (gr_revoked1 k H1) as [H3 H4].
      split; [done|congruence].
    + intros t. etransitivity; eauto.
    + intros t. etransitivity; eauto.
Qed.

Lemma list_of_insert {K A} `{Countable K} (k k' : K) (l : list A) (m : gmap K (list A)) :
  list_of k' (<[k := l]> m) = if decide (k = k') then l else list_of k' m.
Proof.
  unfold list_of. destruct (decide (k = k')) as [<-|]; [by rewrite lookup_insert_eq|].
  by rewrite lookup_insert_ne.
Qed.

Lemma list_of_snoc {K A} `{Countable K} (k k' : K) (x : A) (m : gmap K (list A)) :
  list_of k' m `prefix_of` list_of k' (<[k := list_of k m ++ [x]]> m).
Proof. rewrite list_of_insert. destruct (decide (k = k')) as [<-|]; [by eexists|done]. Qed.

Lemma was_drawn_le s s' id : host_le (env s) (env s') -> was_drawn s id -> was_drawn s' id.
Proof. intros (_ & E & _ & Hd) (i & Hi & ->). exists i. rewrite E. split; [lia|done]. Qed.

Lemma fresh_not_drawn s id : fresh_ids (env s) -> was_drawn s id -> id <> entropy (env s) (drawn (env s)).
Proof. intros Hf (i & Hi & ->) E. apply Hf in E. lia. Qed.

Lemma background_grows s s' : background s s' -> grows s s'.
Proof.
  intros []. split; try congruence; try (intros; congruence); try done.
  - intros k. by rewrite bg_uses0.
  - intros k. rewrite bg_revoked0, bg_uses0. done.
  - intros t. by rewrite bg_profiles0.
Qed.

Lemma spent_grows s s' ctx gid cap : grows s s' -> spent s ctx gid cap -> spent s' ctx gid cap.
Proof.
  intros Hg (u & Hu & Hc & Ha). exists u. split; [|done].
  destruct (gr_uses _ _ Hg (TenantAccessContext.tenant_id ctx, gid)) as [k ->]. set_solver.
Qed.

(** A state that grew, with new grants, plans, scans... that are sound themselves *)
Lemma background_keeps_sound s s' : sound s -> background s s' -> sound s'.
Proof.
  intros Hs Hb. destruct Hs, Hb. split; rewrite ?bg_backups0, ?bg_plans0, ?bg_scans0, ?bg_gaps0, ?bg_grants0, ?bg_uses0.
  - by eapply fresh_le.
  - intros t p. rewrite bg_profiles0. apply profiles_sound0.
  - done.
  - intros t id g Hg. destruct (grants_sound0 t id g Hg) as [H1 H2]. split; [by eapply was_drawn_le|done].
  - done.
  - intros t id p Hp. destruct (plans_sound0 t id p Hp) as [H1 H2]. split; [by eapply was_drawn_le|done].
  - done.
  - done.
Qed.

Lemma change_grows s s' : sound s -> change s s' -> grows s s'.
Proof.
  intros Hs Hc.
  assert (Hrefl : grows s s) by reflexivity. destruct Hrefl.
  destruct Hc as [t p|t m p now Hm Ht Hp Hobj Hsame|h t g p now Hp Hv Ht Hat Httl Hid Hh Hd|t gid now Hg
    |t gid g u Hg Hr Hu|h t plan ctx m Ht Hby Hsp Hm Hid Hh Hd|ctx plan m rid r t Hp Hm Hsp Hr|ctx plan rid rs t Hp Hsp Hrs
    |ctx plan m rid gap t Hp Hm Hsp Hn Hrid|t rid r now Hcomp|t e He]; split; cbn; try done.
  - intros t'. apply list_of_snoc.
  - intros k m' Hk. destruct (decide ((t, BackupManifest.backup_id m) = k)) as [<-|].
    + rewrite dict_get_set_eq. f_equal. symmetry. by apply Hsame.
    + by rewrite dict_get_set_ne.
  - intros k g' Hk. rewrite lookup_insert_ne; [done|]. intros <-.
    destruct (grants_sound _ Hs _ _ _ Hk) as [Hdr _]. by apply (fresh_not_drawn s _ (ids_fresh _ Hs) Hdr).
  - intros k Hk. split; [|done]. destruct (decide ((t, gid) = k)) as [<-|];
      [rewrite lookup_insert_eq; by eexists|by rewrite lookup_insert_ne].
  - intros k. apply list_of_snoc.
  - intros k Hk. split; [done|]. rewrite list_of_insert. case_decide as E; [|done]. subst k.
    rewrite Hr in Hk. by destruct Hk.
  - intros k p Hk. rewrite lookup_insert_ne; [done|]. intros <-.
    destruct (plans_sound _ Hs _ _ _ Hk) as [Hdr _]. by apply (fresh_not_drawn s _ (ids_fresh _ Hs) Hdr).
  - intros k g Hk. rewrite lookup_insert_ne; [done|]. intros <-. congruence.
Qed.

(** A sound state that grew, whose new entries are sound, is sound. *)
Lemma change_keeps_sound s s' : sound s -> change s s' -> sound s'.
Proof.
  intros Hs Hc. pose proof (change_grows s s' Hs Hc) as [Gh Gb Gp Gg Gu _ _ _ _].
  pose proof Hs as [If Ip Ib Ig Iu Ipl Isc Iga].
  assert (Hf : fresh_ids (env s')) by by eapply fresh_le.
  assert (Hb : forall t id m, dict_get (t, id) (backups s') = dict_get (t, id) (backups s) ->
    dict_get (t, id) (backups s') = Some m ->
    BackupManifest.create m = Ok m /\ BackupManifest.tenant_id m = t /\ BackupManifest.backup_id m = id).
  { intros t id m -> Hm. by apply Ib. }
  assert (Hg : forall t id g, grants s !! (t, id) = Some g ->
    was_drawn s' id /\ BreakGlassGrant.validate_grant g = Ok tt /\ BreakGlassGrant.tenant_id g = t /\ brief g).
  { intros t id g [H1 H2]%Ig. split; [by eapply was_drawn_le|done]. }
  assert (Hu : forall t id u, u ∈ list_of (t, id) (grant_uses s) -> exists g, grants s' !! (t, id) = Some g /\ licensed g u).
  { intros t id u (g & H1 & H2)%Iu. exists g. auto. }
  assert (Hp : forall t id p, plans s !! (t, id) = Some p ->
    was_drawn s' id /\ exists m, dict_get (t, RestorePlan.backup_id p) (backups s') = Some m).
  { intros t id p [H1 (m & Hm)]%Ipl. split; [by eapply was_drawn_le|exists m; auto]. }
  assert (Hsc : forall t id r, scans s !! (t, id) = Some r ->
    exists plan m, plans s' !! (t, IntegrityScanResult.restore_id r) = Some plan /\
      dict_get (t, RestorePlan.backup_id plan) (backups s') = Some m /\
      honest t m (IntegrityScanResult.restore_id r) r).
  { intros t id r (plan & m & H1 & H2 & H3)%Isc. exists plan, m. auto. }
  destruct Hc as [t p Hcr Ht Hrev|t m p now Hm Ht Hpr Hobj Hsame|h t g p now Hpr Hv Ht Hat Httl Hid Hh Hd|t gid now Hgg
    |t gid g u Hgg Hr Hlu|h t plan ctx m Ht Hby Hsp Hm Hid Hh Hd|ctx plan m rid r t Hpl Hm Hsp Hr|ctx plan rid rs t Hpl Hsp Hrs
    |ctx plan m rid gap t Hpl Hm Hsp Hn Hrid Hpt|t rid r now Hcomp|t e He]; split; cbn in *; eauto.
  - intros t' q. rewrite list_of_insert. case_decide as E; [subst t'|by apply Ip].
    intros [Hq|Hq]%elem_of_app; [by apply Ip|]. set_solver.
  - intros t' id m' H. destruct (decide ((t, BackupManifest.backup_id m) = (t', id))) as [[= <- <-]|Hne].
    + rewrite dict_get_set_eq in H. by injection H as <-.
    + by rewrite dict_get_set_ne in H; [apply Ib|].
  - intros t' id g' [[[= <- <-] <-]|[_ H]]%lookup_insert_Some; [|by eapply Hg].
    split.
    + exists (drawn (env s)). destruct Hh as (_ & E & _). cbn. rewrite E. split; [lia|done].
    + split; [done|]. split; [done|]. unfold brief. rewrite Hat.
      destruct (Ip t p (profile_at_elem _ _ _ _ Hpr)) as [Hmax%profile_break_glass _]. unfold seconds in *. lia.
  - intros t' id u'. rewrite list_of_insert. case_decide as E; [|by apply Hu].
    injection E as <- <-. intros [Hq|Hq]%elem_of_app; [by apply Hu|]. exists g. set_solver.
  - intros t' id p [[[= <- <-] <-]|[_ H]]%lookup_insert_Some; [|by apply Hp].
    split; [|by exists m]. exists (drawn (env s)). destruct Hh as (_ & E & _). cbn. rewrite E. split; [lia|done].
  - intros t' id r' [[[= <- <-] <-]|[_ H]]%lookup_insert_Some; [|by eapply Hsc].
    destruct Hr as (by_ & obs & tip & cp & pol & nw & sid & Hby & Hcl & Hsn).
    assert (IntegrityScanResult.restore_id r = rid) as -> by by eapply scan_restore_id.
    exists plan, m. split; [done|]. split; [done|]. by exists by_, obs, tip, cp, pol, nw, sid.
  - intros t' id g [[[= <- <-] <-]|[_ H]]%lookup_insert_Some; [done|by eapply Iga].
Qed.

Lemma effect_sound_grows s s' : sound s -> effect s s' -> sound s' /\ grows s s'.
Proof.
  intros Hs [H|s1 s2 H1 H2 H3].
  - split; [by eapply background_keeps_sound|by apply background_grows].
  - pose proof (background_keeps_sound _ _ Hs H1) as Hs1. pose proof (change_keeps_sound _ _ Hs1 H2) as Hs2.
    split; [by eapply background_keeps_sound|].
    transitivity s1; [by apply background_grows|]. transitivity s2; [by apply change_grows|].
    by apply background_grows.
Qed.

Lemma empty_store_sound h : fresh_ids h -> sound (empty h).
Proof. intros Hf. split; cbn; unfold list_of; intros *; rewrite ?lookup_empty; try done; cbn; by intros ?%not_elem_of_nil. Qed.
End Machine.
End RecoverySpec.

Module RecoveryRefinement.
Import Recovery.RecoveryStore RecoverySpec.

Section Sections.
Context (ed : list Z -> list Z -> bytes -> bool) (order : list RecoveryComponent -> list RecoveryComponent).
Context (calls : forall A, TenantAccessContext -> operation A -> Prop).
Abbreviation effect := (effect ed order calls).
Abbreviation sound := (sound ed order calls).
Abbreviation change := (change ed order calls).

(** ** Background movements *)
Lemma env_background s h : host_le (env s) h -> background s (set_env h s).
Proof. intros. by split. Qed.

Lemma append_event_bg event s : wp (background s) (append_event event) (fun _ => background s) s.
Proof.
  unfold append_event. apply wp_bind, wp_lift; [reflexivity|]. intros e _. apply wp_modify.
  split; try done. intros t. cbn. apply list_of_snoc.
Qed.

Lemma append_audit_background event s : wp (background s) (append_audit event) (fun _ => background s) s.
Proof.
  unfold append_audit. apply wp_bind, wp_draw. intros h Hh _.
  pose proof (env_background s h Hh) as Hb. set (s1 := set_env h s) in *.
  eapply wp_mono; [|eapply wp_weaken; [|apply append_event_bg]].
  - intros [] s' H. by transitivity s1.
  - intros s' H. by transitivity s1.
Qed.

(** While nothing has changed since [s0] *)
Section Before.
Context (s0 : store).
Abbreviation K := (effect s0).

Lemma section_quiet s : background s0 s -> K s.
Proof. apply quiet. Qed.

Lemma background_start : background s0 s0.
Proof. reflexivity. Qed.

Lemma wp_background_now Q s :
  background s0 s -> (forall x s', background s0 s' -> Q x s') -> wp K now_utc Q s.
Proof.
  intros HB HQ. apply wp_clock. intros h Hh _. apply HQ. etransitivity; [exact HB|]. by apply env_background.
Qed.

Lemma wp_background_uuid Q s :
  background s0 s ->
  (forall h, host_le (env s) h -> (drawn (env s) < drawn h)%nat -> background s0 (set_env h s) ->
     Q (entropy (env s) (drawn (env s))) (set_env h s)) -> wp K uuid4 Q s.
Proof.
  intros HB HQ. apply wp_draw. intros h Hh Hd. apply HQ; [done|lia|].
  etransitivity; [exact HB|]. by apply env_background.
Qed.

(** The change, and what follows it *)
Lemma section_change s s' : background s0 s -> change s s' -> K s'.
Proof. intros. eapply changed; [done..|reflexivity]. Qed.

Lemma wp_append_audit_post event (Q : unit -> store -> Prop) s :
  K s -> (forall s', background s s' -> K s' -> Q tt s') -> wp K (append_audit event) Q s.
Proof.
  intros HK HQ. pose proof (append_audit_background event s) as H. unfold wp in *.
  destruct (append_audit event s) as [[[]|e] s']; [apply HQ; [done|]|]; by eapply effect_then_background.
Qed.

(** The last two lines of a section *)
Lemma wp_audit_and_return {A} event (a : A) (post : A -> store -> Prop) s :
  K s -> (forall s', background s s' -> post a s') ->
  wp K (append_audit event ;; ret a) (fun a s' => K s' /\ post a s') s.
Proof. intros HK Hp. apply wp_bind, wp_append_audit_post; [done|]. intros s' Hb HK'. split; auto. Qed.

Lemma wp_profile t now Q s :
  K s -> (forall p, profile_at t now s = Some p -> Q p s) -> wp K (profile_locked t now) Q s.
Proof.
  intros HK HQ. unfold profile_locked. apply wp_bind, wp_get.
  destruct (profile_at t now s) as [p|] eqn:E; [by apply HQ|exact HK].
Qed.

Lemma wp_plan t rid Q s :
  K s -> (forall p, plans s !! (t, rid) = Some p -> Q p s) -> wp K (plan_locked t rid) Q s.
Proof.
  intros HK HQ. unfold plan_locked. apply wp_bind, wp_get, wp_lift; [done|].
  intros p. destruct (plans s !! (t, rid)); intros [= <-]. auto.
Qed.

Lemma wp_grant t gid Q s :
  K s -> (forall g, grants s !! (t, gid) = Some g -> Q g s) -> wp K (grant_locked t gid) Q s.
Proof.
  intros HK HQ. unfold grant_locked. apply wp_bind, wp_get, wp_lift; [done|].
  intros g. destruct (grants s !! (t, gid)); intros [= <-]. auto.
Qed.

Lemma wp_backup t bid Q s :
  K s -> (forall m, dict_get (t, bid) (backups s) = Some m -> Q m s) -> wp K (backup_locked t bid) Q s.
Proof.
  intros HK HQ. unfold backup_locked. apply wp_bind, wp_get, wp_lift; [done|].
  intros m. destruct (dict_get (t, bid) (backups s)); intros [= <-]. auto.
Qed.
End Before.

#[local] Hint Resolve section_quiet background_start : core.

Lemma bg_spent s s' ctx gid cap : background s s' -> spent s ctx gid cap -> spent s' ctx gid cap.
Proof. intros Hb. apply spent_grows. by apply background_grows. Qed.

(** ** The sections, one by one *)
Abbreviation does m post := (fun s => wp (effect s) m (fun a s' => effect s s' /\ post a s') s).

Lemma now_does (s : store) : does now_utc (fun _ _ => True) s.
Proof. apply wp_background_now; auto. Qed.

Lemma publish_does ctx p s :
  ReliabilityProfile.create p = Ok p -> ReliabilityProfile.tenant_id p = TenantAccessContext.tenant_id ctx ->
  does (publish_section ctx p) (fun _ _ => True) s.
Proof.
  intros Hp Ht. unfold publish_section. cbv zeta. set (t := TenantAccessContext.tenant_id ctx) in *.
  apply wp_bind, wp_modify. set (s1 := set_profiles _ s).
  assert (Hsame : forall t', list_of t' (profiles s1) = list_of t' (profiles s)).
  { intros t'. cbn. rewrite list_of_insert. by case_decide; subst. }
  assert (HB : background s s1) by by split.
  apply wp_bind, wp_get, wp_bind, wp_guard; [auto|]. intros Hrev. b2p.
  apply wp_bind, wp_modify.
  assert (HK : effect s (set_profiles (<[t := list_of t (profiles s1) ++ [p]]> (profiles s1)) s1)).
  { eapply section_change; [exact HB|]. by apply change_publish. }
  set (s2 := set_profiles _ s1) in *. clearbody s2.
  apply wp_bind, wp_draw. intros h Hh _.
  assert (HK1 : effect s (set_env h s2)) by (eapply effect_then_background; [exact HK|by apply env_background]).
  apply wp_bind, wp_clock. intros h' Hh' _. set (s3 := set_env h s2) in *.
  assert (HK2 : effect s (set_env h' s3)) by (eapply effect_then_background; [exact HK1|by apply env_background]).
  apply wp_bind. pose proof (append_event_bg (event_of ctx PROFILE_PUBLISHED (clock (env s3) (ticks (env s3)))
    (ReliabilityProfile.profile_id p) "publish reliability profile" None
    [("revision", pretty (ReliabilityProfile.revision p))] (entropy (env s2) (drawn (env s2)))) (set_env h' s3)) as Hev.
  unfold wp in *. destruct (append_event _ _) as [[[]|e] s4]; cbn; [split; [|done]|]; by eapply effect_then_background.
Qed.

Lemma missing_nil p m :
  missing_components p m = [] -> forall c, c ∈ ReliabilityProfile.required_components p ->
  c ∈ map BackupComponentRecord.component (BackupManifest.components m).
Proof.
  intros H c Hc. destruct (decide (c ∈ map BackupComponentRecord.component (BackupManifest.components m))) as [|Hn]; [done|].
  exfalso. assert (Hx : RecoveryComponent_value c ∈ missing_components p m); [|rewrite H in Hx; set_solver].
  unfold missing_components. apply elem_of_sorted_set, list_elem_of_fmap. exists c. split; [done|].
  apply list_elem_of_In, filter_In. split; [by apply list_elem_of_In|]. by apply negb_true_iff, mem_false.
Qed.

Lemma finite_not_lt p q : float_ltb (Finite p) (Finite q) = negb (float_leb (Finite q) (Finite p)).
Proof. cbn. apply Z.ltb_antisym. Qed.

Lemma record_backup_does ctx m now s :
  BackupManifest.create m = Ok m -> BackupManifest.tenant_id m = TenantAccessContext.tenant_id ctx ->
  BackupManifest.created_at m <= now -> does (record_backup_section ctx m now) (fun _ _ => True) s.
Proof.
  intros Hm Ht Hc. unfold record_backup_section. cbv zeta. set (t := TenantAccessContext.tenant_id ctx) in *.
  apply wp_bind, wp_profile; [auto|]. intros p Hp.
  apply wp_bind, wp_guard; [auto|]. intros Htp.
  apply wp_bind, wp_guard; [auto|]. intros Hmiss. b2p.
  apply wp_bind, wp_guard; [auto|]. intros Hage. b2p.
  apply wp_bind, wp_get, wp_bind, wp_guard; [auto|]. intros Hsame.
  apply wp_bind, wp_modify, wp_audit_and_return; [|done]. eapply section_change; [auto|].
  apply (change_backup ed order calls s t m p now); try done.
  - unfold total_seconds, float_of_int in *. rewrite finite_not_lt in H, H0. b2p.
    repeat split; try done. by apply missing_nil.
  - intros m' Hm'. rewrite Hm' in Hsame. by b2p.
Qed.

Lemma issue_does ctx operator caps reason ticket ttl now s :
  TenantAccessContext.create ctx = Ok ctx ->
  does (issue_section ctx operator caps reason ticket ttl now) (fun _ _ => True) s.
Proof.
  intros Hctx. unfold issue_section. cbv zeta. set (t := TenantAccessContext.tenant_id ctx) in *.
  apply wp_bind, wp_profile; [auto|]. intros p Hp.
  apply wp_bind, wp_guard; [auto|]. intros Httl. b2p.
  apply wp_bind, wp_background_uuid; [auto|]. intros h Hh Hd HB.
  apply wp_bind, wp_lift; [auto|]. intros g Hg.
  apply wp_bind, wp_modify, wp_audit_and_return; [|done]. eapply section_change; [apply background_start|].
  assert (Hg' : BreakGlassGrant.validate_grant g = Ok tt /\ BreakGlassGrant.tenant_id g = t /\
    BreakGlassGrant.issued_at g = now /\ BreakGlassGrant.expires_at g = now + seconds ttl /\
    BreakGlassGrant.grant_id g = entropy (env s) (drawn (env s))).
  { unfold BreakGlassGrant.create in Hg. cbn in Hg.
    rewrite (proj2 (TenantProofs.TenantSpec.context_valid ctx Hctx)) in Hg. cbn in Hg.
    apply obind_Ok in Hg as (r' & _ & Hg). apply obind_Ok in Hg as (k' & _ & Hg).
    apply obind_Ok in Hg as ([] & Hv & [= <-]). done. }
  destruct Hg' as (Hv & Htg & Hat & Hexp & Hid).
  apply (change_issue ed order calls s h t g p now); try done. rewrite Hexp. unfold seconds. lia.
Qed.

Lemma revoke_does ctx gid reason now s : does (revoke_section ctx gid reason now) (fun _ _ => True) s.
Proof.
  unfold revoke_section. cbv zeta. apply wp_bind, wp_grant; [auto|]. intros g Hg.
  apply wp_bind, wp_modify, wp_append_audit_post; [|by intros; split].
  eapply section_change; [auto|]. apply change_revoke. rewrite Hg. by eexists.
Qed.

Lemma use_created u u' :
  BreakGlassUse.create u = Ok u' ->
  BreakGlassUse.capability u' = BreakGlassUse.capability u /\ BreakGlassUse.actor u' = BreakGlassUse.actor u /\
  BreakGlassUse.occurred_at u' = BreakGlassUse.occurred_at u.
Proof.
  unfold BreakGlassUse.create. intros H. apply obind_Ok in H as (a & _ & H). apply obind_Ok in H as (b & _ & H).
  apply obind_Ok in H as (c & _ & H). by injection H as <-.
Qed.

Lemma use_does ctx gid cap purpose now s :
  does (use_section ctx gid cap purpose now) (fun _ s' => spent s' ctx gid cap) s.
Proof.
  unfold use_section. cbv zeta. set (t := TenantAccessContext.tenant_id ctx).
  apply wp_bind, wp_grant; [auto|]. intros g Hg. apply wp_bind, wp_get.
  apply wp_bind, wp_guard; [auto|]. intros Hrev.
  apply wp_bind, wp_guard; [auto|]. intros Hexp.
  apply wp_bind, wp_guard; [auto|]. intros Hcap.
  apply wp_bind, wp_guard; [auto|]. intros Hop. b2p.
  apply wp_bind, wp_background_uuid; [auto|]. intros h Hh Hd HB.
  apply wp_bind, wp_lift; [auto|]. intros u (Hc & Ha & Hat)%use_created. cbn in Hc, Ha, Hat.
  apply wp_bind, wp_modify, wp_audit_and_return.
  - eapply section_change; [exact HB|]. apply (change_use ed order calls _ t gid g u); [done..|].
    unfold licensed. rewrite Hc, Ha, Hat. done.
  - intros s' Hb. apply (bg_spent _ _ _ _ _ Hb). exists u. split; [|done]. cbn.
    rewrite list_of_insert, decide_True by done. set_solver.
Qed.

Lemma plan_does ctx bid site gid now s :
  spent s ctx gid BG_RESTORE -> does (plan_section ctx bid site gid now) (fun _ _ => True) s.
Proof.
  intros Hsp. unfold plan_section. cbv zeta.
  apply wp_bind, wp_backup; [auto|]. intros m Hm. apply wp_bind, wp_profile; [auto|]. intros p Hp.
  apply wp_bind, wp_guard; [auto|]. intros Htp.
  apply wp_bind, wp_background_uuid; [auto|]. intros h Hh Hd HB.
  apply wp_bind, wp_lift; [auto|]. intros plan Hplan.
  assert (Hf : RestorePlan.requested_by plan = TenantAccessContext.actor ctx /\
    RestorePlan.break_glass_grant_id plan = gid /\ RestorePlan.backup_id plan = bid /\
    RestorePlan.restore_id plan = entropy (env s) (drawn (env s))).
  { unfold RestorePlan.create in Hplan. cbn in Hplan.
    do 2 (apply obind_Ok in Hplan as (? & _ & Hplan)). apply obind_Ok in Hplan as ([] & _ & Hplan).
    apply obind_Ok in Hplan as (? & _ & Hplan). apply obind_Ok in Hplan as (? & _ & Hplan).
    by injection Hplan as <-. }
  destruct Hf as (Hby & <- & <- & Hid).
  apply wp_bind, wp_modify, wp_audit_and_return; [|done]. eapply section_change; [apply background_start|].
  by apply (change_plan ed order calls s h (TenantAccessContext.tenant_id ctx) plan ctx m).
Qed.

(** The plan of a restore, and its backup: what the reads under the lock return *)
Definition planned (t : string) (rid : UUID) (plan : RestorePlan) (s : store) : Prop :=
  plans s !! (t, rid) = Some plan.
Definition backed (t : string) (plan : RestorePlan) (m : BackupManifest) (s : store) : Prop :=
  dict_get (t, RestorePlan.backup_id plan) (backups s) = Some m.

Lemma plan_locked_does t rid s : does (plan_locked t rid) (fun plan s' => planned t rid plan s') s.
Proof. apply wp_plan; [auto|]. intros p Hp. by split; [apply section_quiet|]. Qed.

Lemma plan_and_backup_does t rid s :
  does (plan_and_backup t rid) (fun pm s' => planned t rid (fst pm) s' /\ backed t (fst pm) (snd pm) s') s.
Proof.
  unfold plan_and_backup. apply wp_bind, wp_plan; [auto|]. intros p Hp.
  apply wp_bind, wp_backup; [auto|]. intros m Hm. apply wp_ret. by split; [apply section_quiet|].
Qed.

Lemma verify_does ctx m rid obs tip cp policy s :
  calls _ ctx (op_verify rid obs tip cp policy) ->
  does (zoom env set_env (Integrity.verify ed order m rid obs tip cp policy None))
    (fun r _ => honest ed order calls (TenantAccessContext.tenant_id ctx) m rid r) s.
Proof.
  intros Hcall. unfold wp, zoom, Integrity.verify, bind, read_clock, draw_uuid, lift. cbn.
  set (h := {| clock := clock (env s); ticks := S (ticks (env s)); entropy := entropy (env s); drawn := S (drawn (env s)) |}).
  assert (HB : background s (set_env h s)) by (apply env_background; repeat split; cbn; lia).
  destruct (Integrity.scan _ _ _ _ _ _ _ _ _ _) as [r|e] eqn:E; [split; [by apply section_quiet|]|by apply section_quiet].
  by exists ctx, obs, tip, cp, policy, (clock (env s) (ticks (env s))), (entropy (env s) (drawn (env s))).
Qed.

Section Restore.
Context (ctx : TenantAccessContext) (rid : UUID) (plan : RestorePlan).
Abbreviation t := (TenantAccessContext.tenant_id ctx).

Lemma record_scan_does m r s :
  planned t rid plan s -> backed t plan m s ->
  spent s ctx (RestorePlan.break_glass_grant_id plan) BG_INTEGRITY_SCAN -> honest ed order calls t m rid r ->
  does (record_scan_section ctx rid r) (fun _ _ => True) s.
Proof.
  intros Hp Hm Hsp Hr. unfold record_scan_section.
  apply wp_bind, wp_modify, wp_append_audit_post; [|by intros; split].
  eapply section_change; [auto|]. by apply (change_scan ed order calls s ctx plan m rid r).
Qed.

Lemma record_recoveries_does rs s :
  planned t rid plan s -> spent s ctx (RestorePlan.break_glass_grant_id plan) BG_RECONCILE ->
  Forall (fun r => UncertainExecutionRecovery.restore_id r = rid /\
                   UncertainExecutionRecovery.replay_permitted r = false) rs ->
  does (record_recoveries_section ctx rid rs) (fun _ _ => True) s.
Proof.
  intros Hp Hsp Hrs. unfold record_recoveries_section. apply wp_bind, wp_modify.
  assert (HK : effect s (set_recoveries (<[(t, rid) := rs]> (recoveries s)) s)).
  { eapply section_change; [auto|]. by apply (change_recoveries ed order calls s ctx plan rid rs). }
  set (s1 := set_recoveries _ s) in *. clearbody s1.
  apply wp_bind, wp_clock. intros h Hh _.
  apply wp_for_m; [eapply effect_then_background; [exact HK|by apply env_background]| |done].
  intros r s2 HK2. by apply wp_append_audit_post.
Qed.

Lemma build_gap_does m sources unexpected unresolved evidence s :
  does (build_gap ctx rid plan m sources unexpected unresolved evidence)
    (fun gap _ => RecoveryGapReconciliation.restore_id gap = rid /\
                  RecoveryGapReconciliation.recovery_point_at gap = BackupManifest.recovery_point_at m) s.
Proof.
  unfold build_gap. apply wp_bind, wp_background_now; [auto|]. intros now s1 HB1.
  apply wp_bind, wp_background_uuid; [auto|]. intros h _ _ HB2. apply wp_lift; [auto|].
  intros gap Hg. split; [auto|]. unfold RecoveryGapReconciliation.create in Hg. cbn in Hg.
  do 2 (apply obind_Ok in Hg as (? & _ & Hg)). do 4 (apply obind_Ok in Hg as (? & _ & Hg)).
  by injection Hg as <-.
Qed.

Lemma record_gap_does m unexpected unresolved gap s :
  planned t rid plan s -> backed t plan m s ->
  spent s ctx (RestorePlan.break_glass_grant_id plan) BG_RECONCILE ->
  RecoveryGapReconciliation.restore_id gap = rid ->
  RecoveryGapReconciliation.recovery_point_at gap = BackupManifest.recovery_point_at m ->
  does (record_gap_section ctx rid unexpected unresolved gap) (fun _ _ => True) s.
Proof.
  intros Hp Hm Hsp Hrid Hpt. unfold record_gap_section. cbv zeta. apply wp_bind, wp_get.
  destruct (gaps s !! (t, rid)) as [g|] eqn:Hg.
  - apply wp_bind, wp_guard; [auto|]. intros _. by apply wp_ret; split; [apply section_quiet|].
  - apply wp_bind, wp_modify, wp_audit_and_return; [|done].
    eapply section_change; [auto|]. by apply (change_gap ed order calls s ctx plan m rid gap).
Qed.

Lemma restore_status_promoted a b c d :
  snd (restore_status a b c d) = a && negb b && c && d.
Proof. by destruct a, b, c, d. Qed.

Lemma complete_does sid now s :
  calls _ ctx (op_complete rid sid) -> TenantAccessContext.create ctx = Ok ctx ->
  planned t rid plan s -> spent s ctx (RestorePlan.break_glass_grant_id plan) BG_FAILOVER ->
  does (complete_section ctx rid sid plan now) (fun _ _ => True) s.
Proof.
  intros Hcall Hctx Hp Hsp. unfold complete_section. cbv zeta.
  apply wp_bind, wp_backup; [auto|]. intros m Hm. apply wp_bind, wp_profile; [auto|]. intros p Hpr.
  apply wp_bind, wp_get, wp_bind, wp_lift; [auto|]. intros scan Hscan.
  destruct (scans s !! (t, sid)) as [scan'|] eqn:Hs; [|discriminate].
  apply obind_Ok in Hscan as (u & Hrid & [= ->]). apply ScanProofs.require_unit, bool_decide_eq_true in Hrid.
  apply wp_bind, wp_lift; [auto|]. intros gap Hgap.
  destruct (gaps s !! (t, rid)) as [gap'|] eqn:Hg; [|discriminate]. injection Hgap as ->.
  match goal with |- context [restore_status ?a ?b ?c ?d] => pose proof (restore_status_promoted a b c d) as Hprom;
    destruct (restore_status a b c d) as [status promoted] end. cbn [snd] in Hprom.
  apply wp_bind, wp_lift; [auto|]. intros r Hr.
  assert (Hf : RestoreResult.restore_id r = rid /\ RestoreResult.tenant_id r = t /\
    RestoreResult.integrity_scan_id r = sid /\ RestoreResult.promoted r = promoted /\
    RestoreResult.completed_by r = TenantAccessContext.actor ctx /\ RestoreResult.completed_at r = now).
  { unfold RestoreResult.create in Hr. cbn in Hr.
    rewrite (proj2 (TenantProofs.TenantSpec.context_valid ctx Hctx)) in Hr. cbn in Hr.
    repeat (apply obind_Ok in Hr as (? & _ & Hr)). by injection Hr as <-. }
  destruct Hf as (F1 & F2 & F3 & F4 & F5 & F6).
  apply wp_bind, wp_modify, wp_audit_and_return; [|done]. eapply section_change; [auto|].
  apply (change_complete ed order calls s t rid r now). split; [done|]. rewrite F3, F4, Hprom.
  exists plan, m, p, scan, gap. repeat (split; [done|]). by exists ctx.
Qed.
End Restore.

Lemma game_day_does ctx result simulated notes now s :
  does (game_day_section ctx result simulated notes now) (fun _ _ => True) s.
Proof.
  unfold game_day_section. cbv zeta. apply wp_bind, wp_profile; [auto|]. intros p Hp.
  apply wp_bind, wp_get, wp_bind, wp_lift; [auto|]. intros scan _.
  apply wp_bind, wp_background_uuid; [auto|]. intros h _ _ HB.
  apply wp_bind, wp_lift; [auto|]. intros e He.
  assert (GameDayExercise.passed e = false).
  { unfold GameDayExercise.create in He. cbn in He. repeat (apply obind_Ok in He as (? & _ & He)).
    by injection He as <-. }
  apply wp_bind, wp_modify, wp_audit_and_return; [|done]. eapply section_change; [exact HB|]. by constructor.
Qed.

(** ** The tasks *)
Abbreviation keeps := (keeps sound effect grows).
Abbreviation keeps_post p post := (keeps p (ends post)).

Lemma transitions s s' : sound s -> effect s s' -> sound s' /\ grows s s'.
Proof. apply effect_sound_grows. Qed.

Lemma section_does {A} (m : M store A) (post : A -> store -> Prop) s :
  (forall s1, grows s s1 -> sound s1 -> does m post s1) -> keeps_post (atomically m) post s.
Proof. apply keeps_section. Qed.

Lemma task_seq {A B} (p : task store A) (f : A -> task store B) post post' s :
  keeps_post p post s ->
  (forall a s', grows s s' -> post a s' -> keeps_post (f a) post' s') ->
  keeps_post (pbind p f) post' s.
Proof. apply (keeps_seq sound effect grows transitions). Qed.

Lemma task_check {B} (o : outcome unit) (f : unit -> task store B) post s :
  (o = Ok tt -> keeps_post (f tt) post s) -> keeps_post (pbind (of_outcome o) f) post s.
Proof. destruct o as [[]|e]; cbn; auto. Qed.

(** The clock is read in a section of its own. *)
Lemma task_now {B} (f : datetime -> task store B) post s :
  (forall now s', grows s s' -> keeps_post (f now) post s') -> keeps_post (pbind (atomically now_utc) f) post s.
Proof.
  intros Hf. eapply (task_seq _ _ (fun _ _ => True)).
  - apply section_does. intros s1 _ _. apply now_does.
  - intros now s' Hg _. by apply Hf.
Qed.

Abbreviation runs p := (forall s, keeps_post p (fun _ _ => True) s).

(** A section that only reads *)
Lemma reading_does {A} (f : store -> outcome A) s : does (fun s => (f s, s)) (fun _ _ => True) s.
Proof. unfold wp. destruct (f s); [split; [|done]|]; auto. Qed.

Lemma use_task ctx gid cap purpose s :
  keeps_post (use_break_glass ctx gid cap purpose) (fun _ s' => spent s' ctx gid cap) s.
Proof.
  unfold use_break_glass. apply task_check. intros _. apply task_now. intros now s1 _.
  apply section_does. intros s2 _ _. apply use_does.
Qed.

Lemma planned_grows t rid plan s s' : grows s s' -> planned t rid plan s -> planned t rid plan s'.
Proof. intros Hg. apply (gr_plans _ _ Hg). Qed.

Lemma backed_grows t plan m s s' : grows s s' -> backed t plan m s -> backed t plan m s'.
Proof. intros Hg. apply (gr_backups _ _ Hg). Qed.

Lemma plan_task ctx bid site gid : runs (plan_restore ctx bid site gid).
Proof.
  intros s. unfold plan_restore. eapply task_seq; [apply use_task|]. intros u s1 _ Hsp.
  apply task_now. intros now s2 H12. apply section_does. intros s3 H23 _.
  apply plan_does. eapply spent_grows; [|exact Hsp]. by transitivity s2.
Qed.

Lemma verify_task ctx rid obs tip cp policy :
  calls _ ctx (op_verify rid obs tip cp policy) -> runs (verify_restore ed order ctx rid obs tip cp policy).
Proof.
  intros Hcall s. unfold verify_restore.
  eapply task_seq; [apply section_does; intros; apply plan_and_backup_does|].
  intros [plan m] s1 _ [Hp Hm]. cbn [fst snd] in *.
  eapply task_seq; [apply use_task|]. intros u s2 H12 Hsp.
  eapply task_seq; [apply section_does; intros; by apply (verify_does ctx)|]. intros r s3 H23 Hr.
  eapply task_seq; [|by intros _ s4 _ _].
  apply section_does. intros s4 H34 _.
  assert (H24 : grows s2 s4) by by transitivity s3. assert (H14 : grows s1 s4) by by transitivity s2.
  apply (record_scan_does ctx rid plan m r); eauto using planned_grows, backed_grows, spent_grows.
Qed.

Lemma reconcile_attempts_records resolver t rid attempts rs rs' :
  (forall a id r, resolver a id = Ok r -> UncertainExecutionRecovery.create r = Ok r) ->
  Forall (fun r => UncertainExecutionRecovery.restore_id r = rid /\
                   UncertainExecutionRecovery.replay_permitted r = false) rs ->
  fold_o (reconcile_attempt resolver t rid) attempts rs = Ok rs' ->
  Forall (fun r => UncertainExecutionRecovery.restore_id r = rid /\
                   UncertainExecutionRecovery.replay_permitted r = false) rs'.
Proof.
  intros Hres. revert rs. induction attempts as [|a attempts IH]; intros rs Hrs; cbn [fold_o]; [by intros [= <-]|].
  intros (rs1 & H1 & H2)%obind_Ok. apply (IH rs1); [|done]. unfold reconcile_attempt in H1.
  do 2 (apply obind_Ok in H1 as (? & _ & H1)). apply obind_Ok in H1 as (r & _ & H1).
  apply obind_Ok in H1 as (? & Hc & [= <-]). apply ScanProofs.require_unit in Hc. b2p.
  apply Forall_app. split; [done|]. by constructor.
Qed.

Lemma reconcile_task ctx rid attempts resolver :
  (forall a id r, resolver a id = Ok r -> UncertainExecutionRecovery.create r = Ok r) ->
  runs (reconcile_uncertain_attempts ctx rid attempts resolver).
Proof.
  intros Hres s. unfold reconcile_uncertain_attempts.
  eapply task_seq; [apply section_does; intros; apply plan_locked_does|]. intros plan s1 _ Hp.
  eapply task_seq; [apply use_task|]. intros u s2 H12 Hsp. apply task_check. intros _.
  eapply (task_seq _ _ (fun rs _ => Forall (fun r => UncertainExecutionRecovery.restore_id r = rid /\
                   UncertainExecutionRecovery.replay_permitted r = false) rs)).
  - apply keeps_check. intros rs. by apply reconcile_attempts_records.
  - intros rs s3 H23 Hrs. eapply task_seq; [|by intros _ s4 _ _].
    apply section_does. intros s4 H34 _.
    assert (H24 : grows s2 s4) by by transitivity s3. assert (H14 : grows s1 s4) by by transitivity s2.
    apply (record_recoveries_does ctx rid plan); eauto using planned_grows, spent_grows.
Qed.

Lemma gap_task ctx rid sources unexpected unresolved evidence :
  runs (record_recovery_gap ctx rid sources unexpected unresolved evidence).
Proof.
  intros s. unfold record_recovery_gap.
  eapply task_seq; [apply section_does; intros; apply plan_and_backup_does|].
  intros [plan m] s1 _ [Hp Hm]. cbn [fst snd] in *.
  eapply task_seq; [apply use_task|]. intros u s2 H12 Hsp.
  eapply task_seq; [apply section_does; intros; apply build_gap_does|]. intros gap s3 H23 [Hrid Hpt].
  apply section_does. intros s4 H34 _.
  assert (H24 : grows s2 s4) by by transitivity s3. assert (H14 : grows s1 s4) by by transitivity s2.
  apply (record_gap_does ctx rid plan m); eauto using planned_grows, backed_grows, spent_grows.
Qed.

Lemma complete_task ctx rid sid :
  calls _ ctx (op_complete rid sid) -> TenantAccessContext.create ctx = Ok ctx ->
  runs (complete_restore ctx rid sid).
Proof.
  intros Hcall Hctx s. unfold complete_restore.
  eapply task_seq; [apply section_does; intros; apply plan_locked_does|]. intros plan s1 _ Hp.
  eapply task_seq; [apply use_task|]. intros u s2 H12 Hsp. apply task_now. intros now s3 H23.
  apply section_does. intros s4 H34 _.
  assert (H24 : grows s2 s4) by by transitivity s3. assert (H14 : grows s1 s4) by by transitivity s2.
  apply (complete_does ctx rid plan); eauto using planned_grows, spent_grows.
Qed.

Lemma run_op_runs {A} ctx (op : operation A) :
  calls A ctx op -> TenantAccessContext.create ctx = Ok ctx -> constructed_arguments op -> runs (run_op ed order ctx op).
Proof.
  intros Hcall Hctx Hc s. destruct op; cbn [run_op constructed_arguments] in *.
  - unfold publish_profile. apply task_check; intros _. apply task_check; intros Ht.
    apply section_does. intros. apply publish_does; [done|]. apply require_Ok in Ht. by b2p.
  - unfold current_profile. apply task_check. intros _. apply task_now. intros now s1 _.
    apply section_does. intros. apply (reading_does (fun s => Ok (profile_at (TenantAccessContext.tenant_id ctx) now s))).
  - unfold record_backup. apply task_check; intros _. apply task_check; intros Ht. apply task_now. intros now s1 _.
    apply task_check. intros Hn. apply require_Ok in Ht, Hn. b2p. apply section_does. intros.
    by apply record_backup_does.
  - unfold latest_usable_backup. apply task_check. intros _. apply task_now. intros now s1 _.
    apply section_does. intros. unfold latest_usable_section. apply wp_bind, wp_profile; [auto|].
    intros p Hp. apply wp_bind, wp_get, wp_ret. by split; [apply section_quiet|].
  - unfold issue_break_glass. apply task_check. intros _. apply task_now. intros now s1 _.
    apply section_does. intros. by apply issue_does.
  - unfold revoke_break_glass. apply task_check. intros _. apply task_now. intros now s1 _.
    apply section_does. intros. apply revoke_does.
  - eapply keeps_mono; [|apply use_task]. by intros [a|e].
  - by apply plan_task.
  - by apply verify_task.
  - apply reconcile_task. by destruct Hc.
  - by apply gap_task.
  - by apply complete_task.
  - unfold record_game_day. do 2 (apply task_check; intros _). apply task_now. intros now s1 _.
    apply section_does. intros. apply game_day_does.
  - unfold audit_events. apply task_check. intros _. apply section_does. intros.
    apply (reading_does (fun s => Ok (list_of (TenantAccessContext.tenant_id ctx) (audit s)))).
Qed.

(** ** The interleavings *)
Abbreviation thread_step := (thread_step (admissible ed order calls)).

Lemma admitted p s : admissible ed order calls p -> keeps p anything s.
Proof. intros [A ctx op Hcall Hctx Hc]. eapply keeps_forget. by apply run_op_runs. Qed.

(** Every step of every interleaving of the store's operations is one of its changes. *)
Lemma thread_step_effect c c' :
  kept sound effect grows c -> thread_step c c' ->
  kept sound effect grows c' /\ grows (shared c) (shared c') /\
  (effect (shared c) (shared c') \/ shared c' = shared c).
Proof.
  apply (thread_step_kept sound effect grows transitions (admissible ed order calls)). exact admitted.
Qed.

Lemma steps_kept c c' :
  kept sound effect grows c -> rtc thread_step c c' ->
  kept sound effect grows c' /\ grows (shared c) (shared c').
Proof. apply (threads_kept sound effect grows transitions (admissible ed order calls)). exact admitted. Qed.

Lemma start_kept h : fresh_ids h -> kept sound effect grows (Cfg (empty h) []).
Proof. intros Hf. split; [by apply empty_store_sound|constructor]. Qed.
End Sections.
End RecoveryRefinement.
