(* ===== verification/RecoveryProperties.v ===== *)
(** * Disaster recovery: theorems

    Over every interleaving of the operations of [Recovery]: what a promoted restore
    rests on, what the break-glass grants allow, and when an integrity scan verifies. *)

From S2P Require Import Prelude Canonical Contracts Tenancy Host Attestations AttestationProofs RecoveryContracts Durations Effects Threads Recovery TenantProofs RecoveryProofs.
Import Recovery.RecoveryStore RecoveryProofs.ScanProofs RecoveryProofs.RecoverySpec RecoveryProofs.RecoveryRefinement.

Module Promotion.
Section Facts.
Context (ed : list Z -> list Z -> bytes -> bool) (order : list RecoveryComponent -> list RecoveryComponent).
Context (calls : forall A, TenantAccessContext -> operation A -> Prop).

(** The configurations the store can be in, when the clients make those calls *)
Definition reachable (c : config store) : Prop :=
  exists h, fresh_ids h /\ rtc (thread_step (admissible ed order calls)) (Cfg (empty h) []) c.

Lemma reachable_kept c : reachable c -> kept (sound ed order calls) (effect ed order calls) grows c.
Proof. intros (h & Hf & Hr). by apply (steps_kept ed order calls (Cfg (empty h) []) c (start_kept ed order calls h Hf)). Qed.

Lemma reachable_store_sound c : reachable c -> sound ed order calls (shared c).
Proof. intros H. apply (reachable_kept c H). Qed.

Lemma bg_profile_at s s' t now : background s s' -> profile_at t now s' = profile_at t now s.
Proof. intros Hb. unfold profile_at. by rewrite (bg_profiles _ _ Hb). Qed.

Lemma completion_background s s' t rid r now :
  background s s' -> completion calls s t rid r now -> completion calls s' t rid r now.
Proof.
  intros Hb [Hk (plan & m & p & scan & gap & H1 & H2 & H3 & H4 & H5 & H6 & H7 & ctx & H8 & Hcall & H9 & H10)].
  split; [done|]. exists plan, m, p, scan, gap.
  rewrite (bg_plans _ _ Hb), (bg_backups _ _ Hb), (bg_profile_at _ _ _ _ Hb), (bg_scans _ _ Hb), (bg_gaps _ _ Hb),
    (bg_recoveries _ _ Hb).
  repeat (split; [done|]). exists ctx. repeat (split; [done|]). by eapply spent_grows; [apply background_grows|].
Qed.

(** The step at which a result appears is the completion of its restore. *)
Lemma result_step c c' t rid r :
  reachable c -> thread_step (admissible ed order calls) c c' ->
  results (shared c) !! (t, rid) <> Some r -> results (shared c') !! (t, rid) = Some r ->
  exists now, completion calls (shared c') t rid r now.
Proof.
  intros Hr Hst Hn Hs. destruct (thread_step_effect ed order calls c c' (reachable_kept c Hr) Hst) as (_ & _ & [He|E]).
  2:{ by rewrite E in Hs. }
  destruct He as [Hb|s1 s2 H1 Hc H3]; [by rewrite (bg_results _ _ Hb) in Hs|].
  rewrite (bg_results _ _ H3) in Hs. rewrite <- (bg_results _ _ H1) in Hn.
  destruct Hc as [| | | | | | | | |t' rid' r' now Hcomp|]; cbn in Hs; try done.
  apply lookup_insert_Some in Hs as [[[= -> ->] ->]|[_ Hs]]; [|done].
  exists now. apply (completion_background _ _ _ _ _ _ H3). destruct Hcomp as [Hk Hp]. by split.
Qed.

(** A result was recorded at some moment, and then its completion stood. *)
Lemma result_recorded c t rid r :
  reachable c -> results (shared c) !! (t, rid) = Some r ->
  exists c1 c0 now, reachable c1 /\ thread_step (admissible ed order calls) c1 c0 /\
    results (shared c1) !! (t, rid) <> Some r /\ reachable c0 /\ rtc (thread_step (admissible ed order calls)) c0 c /\
    results (shared c0) !! (t, rid) = Some r /\ completion calls (shared c0) t rid r now.
Proof.
  intros (h & Hf & Hr) Hs.
  destruct (rtc_crossing (thread_step (admissible ed order calls)) (fun c => results (shared c) !! (t, rid) = Some r)
              (Cfg (empty h) []) c Hr) as (a & b & Ha & Hab & Hb & Hna & Hpb); [by cbn; rewrite lookup_empty|done|].
  assert (Hra : reachable a) by by exists h. destruct (result_step a b t rid r Hra Hab Hna Hpb) as (now & Hcomp).
  exists a, b, now. repeat (split; [done|]). split; [exists h; split; [done|by eapply rtc_r]|done].
Qed.

Lemma float_max0_le d n :
  0 <= n < 2 ^ 32 -> float_leb (float_max0 (total_seconds d)) (float_of_int n) = (d <=? seconds n).
Proof.
  intros Hn. unfold float_max0.
  destruct (float_ltb (float_of_int 0) (total_seconds d)) eqn:E; [by apply total_seconds_le|].
  unfold total_seconds, float_of_int in E. rewrite finite_not_lt in E. apply negb_false_iff in E.
  change (float_leb (total_seconds d) (float_of_int 0) = true) in E.
  rewrite total_seconds_le in E by lia. unfold seconds in *. b2p.
  rewrite (proj2 (Z.leb_le d (n * 1000000))) by lia. unfold float_leb, float_of_int. cbn. b2p. apply Z.leb_le. lia.
Qed.

Lemma existsb_none {A} (p : A -> bool) l : existsb p l = false -> forall x, x ∈ l -> p x = false.
Proof.
  intros H x Hx%list_elem_of_In. destruct (p x) eqn:E; [|done].
  assert (existsb p l = true) by (apply existsb_exists; eauto). congruence.
Qed.

Lemma manifest_components m :
  BackupManifest.create m = Ok m -> NoDup (map BackupComponentRecord.component (BackupManifest.components m)).
Proof.
  unfold BackupManifest.create, BackupManifest.validate_manifest. intros H. run_inv H.
  match goal with E : py_unique _ = true |- _ => apply py_unique_true in E; cbn in E end.
  match goal with E : _ = m |- _ => pose proof (f_equal BackupManifest.components E) as F end. cbn in F.
  congruence.
Qed.
End Facts.
End Promotion.

Module RecoveryProperties.
Import Promotion.
Section Theorems.
Context (ed : list Z -> list Z -> bytes -> bool) (order : list RecoveryComponent -> list RecoveryComponent).
Context (calls : forall A, TenantAccessContext -> operation A -> Prop).
Abbreviation thread_step := (thread_step (admissible ed order calls)).
Abbreviation reachable := (reachable ed order calls).

(** C32: An integrity scan that returns says VERIFIED exactly when the restore matches its
    backup: the restored components are those of the manifest, digest for digest, the
    ledger's tip and the digests of the trust policy and of the checkpoint are the
    recorded ones, and the checkpoint belongs to the tenant, ends at that tip and is
    signed as the policy demands.  The order in which the set of surplus components is
    visited does not matter. *)
Theorem scan_verified_exact m rid observations tip cp policy now id r :
  (forall l, order l ≡ₚ l) ->
  BackupManifest.create m = Ok m ->
  Integrity.scan ed order m rid observations tip cp policy now id = Ok r ->
  IntegrityScanResult.status r = SCAN_VERIFIED <-> restored ed m observations tip cp policy.
Proof.
  intros Hord Hm Hr. by destruct (scan_exactly ed order Hord m rid observations tip cp policy now id r
    (manifest_components m Hm) Hr) as (_ & _ & H).
Qed.

(** C11: However the sections of concurrent calls interleave, whatever calls the clients
    make, a promoted result was recorded by a step, from a store that did not hold it to
    one in which: the restore has a plan and its backup; the scan the result names is
    the stored one, says VERIFIED and is the verifier's verdict on what a client of the
    tenant submitted for this restore in a call of verify_restore, and what was submitted
    matches the backup; no uncertain execution on record and no effect of the recovery
    gap is unresolved; the profile active at the completion has its recovery point and
    recovery time objectives met, to the microsecond; and the completion was called for by
    a context of the tenant whose actor, the one the result names, is the operator of the
    plan's grant and had used it for the failover before it expired, a grant that someone
    else of the tenant had approved. *)
Theorem promotion_is_earned c t rid r :
  (forall l, order l ≡ₚ l) ->
  reachable c -> results (shared c) !! (t, rid) = Some r -> RestoreResult.promoted r = true ->
  exists c1 c0 plan m p scan gap g u,
    reachable c1 /\ thread_step c1 c0 /\ results (shared c1) !! (t, rid) <> Some r /\
    rtc thread_step c0 c /\ results (shared c0) !! (t, rid) = Some r /\
    plans (shared c0) !! (t, rid) = Some plan /\
    dict_get (t, RestorePlan.backup_id plan) (backups (shared c0)) = Some m /\
    (scans (shared c0) !! (t, RestoreResult.integrity_scan_id r) = Some scan /\
     IntegrityScanResult.restore_id scan = rid /\ IntegrityScanResult.status scan = SCAN_VERIFIED /\
     exists ctx observations tip cp policy now id,
       TenantAccessContext.tenant_id ctx = t /\
       calls _ ctx (op_verify rid observations tip cp policy) /\
       Integrity.scan ed order m rid observations tip cp policy now id = Ok scan /\
       restored ed m observations tip cp policy) /\
    (forall x, x ∈ list_of (t, rid) (recoveries (shared c0)) -> UncertainExecutionRecovery.unresolved x = false) /\
    (gaps (shared c0) !! (t, rid) = Some gap /\ RecoveryGapReconciliation.unresolved_effect_count gap = 0) /\
    (profile_at t (RestoreResult.completed_at r) (shared c0) = Some p /\
     (ReliabilityProfile.rpo_seconds p < 2 ^ 32 ->
      RestorePlan.failure_detected_at plan - BackupManifest.recovery_point_at m
        <= seconds (ReliabilityProfile.rpo_seconds p)) /\
     (ReliabilityProfile.rto_seconds p < 2 ^ 32 ->
      RestoreResult.completed_at r - RestorePlan.failure_detected_at plan
        <= seconds (ReliabilityProfile.rto_seconds p))) /\
    (exists ctx, TenantAccessContext.tenant_id ctx = t /\
       TenantAccessContext.actor ctx = RestoreResult.completed_by r /\
       calls _ ctx (op_complete rid (RestoreResult.integrity_scan_id r))) /\
    grants (shared c0) !! (t, RestorePlan.break_glass_grant_id plan) = Some g /\
    u ∈ list_of (t, RestorePlan.break_glass_grant_id plan) (grant_uses (shared c0)) /\
    BreakGlassUse.capability u = BG_FAILOVER /\ BreakGlassUse.actor u = RestoreResult.completed_by r /\
    licensed g u /\ independent g.
Proof.
  intros Hord Hc Hr Hpr.
  destruct (result_recorded ed order calls c t rid r Hc Hr) as (c1 & c0 & now & Hc1 & Hnew & Hno & Hc0 & Hst & Hr0 & Hcomp).
  pose proof (reachable_store_sound ed order calls c0 Hc0) as Hs.
  destruct Hcomp as [(Hrid & Ht & Hat) (plan & m & p & scan & gap & Hplan & Hm & Hp & Hscan & Hsr & Hgap & Hprom &
                     ctx & Hctx & Hcall & Hby & u & Hu & Hcap & Hact)].
  rewrite Hpr in Hprom. symmetry in Hprom. b2p.
  destruct (profiles_sound _ _ _ _ Hs t p (profile_at_elem _ _ _ _ Hp)) as [Hpc _].
  destruct (profile_objectives p Hpc) as [Hrpo Hrto].
  subst t. rewrite Hctx in Hu. destruct (uses_sound _ _ _ _ Hs _ _ _ Hu) as (g & Hg & Hlic).
  destruct (grants_sound _ _ _ _ Hs _ _ _ Hg) as (_ & Hval & Hgt & _).
  exists c1, c0, plan, m, p, scan, gap, g, u. repeat (split; [done|]).
  split; [|split; [|split; [done|split; [|split; [by exists ctx|repeat (split; [congruence|]);
    by apply validated_independent]]]]].
  - repeat (split; [done|]). destruct (scans_sound _ _ _ _ Hs _ _ _ Hscan) as (plan' & m' & Hp' & Hm' & Hon).
    rewrite Hsr, Hplan in Hp'. injection Hp' as <-. rewrite Hm in Hm'. injection Hm' as <-. rewrite Hsr in Hon.
    destruct Hon as (by_ & obs & tip & cp & policy & at_ & id & Hby_ & Hsub & Hon).
    exists by_, obs, tip, cp, policy, at_, id. repeat (split; [done|]).
    by apply (scan_exactly ed order Hord m rid obs tip cp policy at_ id scan
      (manifest_components m (proj1 (backups_sound _ _ _ _ Hs _ _ _ Hm))) Hon).
  - by apply existsb_none.
  - rewrite Hat. split; [done|]. split; intros Hb;
      match goal with E : float_leb (float_max0 (total_seconds ?d)) _ = true |- ?d <= _ =>
        rewrite float_max0_le in E by lia; by apply Z.leb_le in E end.
Qed.

(** C30: A break-glass grant is used by its operator only, within its capabilities and
    before it expires; it was issued for an hour at most and approved by someone else
    of the tenant.  From the moment it is revoked it is not used again, not even by
    calls that were under way: whatever other sections run, its uses stay as they
    are, and the plans it was used for keep standing as they were made. *)
Theorem break_glass_accountable c c' t gid :
  reachable c -> rtc thread_step c c' ->
  (forall u, u ∈ list_of (t, gid) (grant_uses (shared c')) ->
     exists g, grants (shared c') !! (t, gid) = Some g /\ licensed g u /\ independent g /\ brief g /\
       BreakGlassGrant.tenant_id g = t) /\
  list_of (t, gid) (grant_uses (shared c)) `prefix_of` list_of (t, gid) (grant_uses (shared c')) /\
  (is_Some (revoked_grants (shared c) !! (t, gid)) ->
     list_of (t, gid) (grant_uses (shared c')) = list_of (t, gid) (grant_uses (shared c))) /\
  (forall rid plan, plans (shared c) !! (t, rid) = Some plan -> plans (shared c') !! (t, rid) = Some plan).
Proof.
  intros Hc Hst. destruct (steps_kept ed order calls c c' (reachable_kept ed order calls c Hc) Hst) as [[Hs' _] Hg].
  split; [|split; [|split]].
  - intros u Hu. destruct (uses_sound _ _ _ _ Hs' _ _ _ Hu) as (g & Hgr & Hl).
    destruct (grants_sound _ _ _ _ Hs' _ _ _ Hgr) as (_ & Hv & Ht & Hb).
    exists g. auto using validated_independent.
  - apply (gr_uses _ _ Hg).
  - intros Hr. apply (gr_revoked _ _ Hg _ Hr).
  - intros rid plan. apply (gr_plans _ _ Hg).
Qed.
End Theorems.

(** ** Concrete runs *)
Import AttestationProofs.AttestationProperties.
Definition w_order (l : list RecoveryComponent) : list RecoveryComponent := l.
Definition w_host : host := {|
  clock := fun n => seconds (1000 + Z.of_nat n); ticks := 0;
  entropy := fun i => Z.of_nat i + 1; drawn := 0 |}.
Definition w_actor (id : string) : ActorRef := {|
  ActorRef.kind := HUMAN; ActorRef.id := id; ActorRef.display_name := None; ActorRef.workload_identity := None; ActorRef.tenant_id := "acme"; ActorRef.attributes := [] |}.
Definition w_ctx (id : string) : TenantAccessContext := {|
  TenantAccessContext.tenant_id := "acme"; TenantAccessContext.actor := w_actor id;
  TenantAccessContext.mode := TENANT;
  TenantAccessContext.capabilities := [CAP_CONFIGURE; CAP_READ; CAP_WRITE; CAP_APPROVE];
  TenantAccessContext.elevation_id := None; TenantAccessContext.reason := None;
  TenantAccessContext.ticket_reference := None; TenantAccessContext.issued_at := 0;
  TenantAccessContext.expires_at := None |}.
Definition w_profile : ReliabilityProfile := {|
  ReliabilityProfile.profile_id := "tier-1"; ReliabilityProfile.tenant_id := "acme";
  ReliabilityProfile.revision := 1; ReliabilityProfile.rpo_seconds := 3600;
  ReliabilityProfile.rto_seconds := 7200; ReliabilityProfile.backup_interval_seconds := 1800;
  ReliabilityProfile.max_backup_age_seconds := 3600;
  ReliabilityProfile.restore_exercise_interval_seconds := 86400;
  ReliabilityProfile.required_components := [COMP_LEDGER];
  ReliabilityProfile.max_break_glass_seconds := 900;
  ReliabilityProfile.effective_at := 0; ReliabilityProfile.created_at := 0;
  ReliabilityProfile.created_by := w_actor "ann" |}.
Definition w_verify (key signature : list Z) (m : bytes) : bool := bool_decide (signature = repeat 9 64).
Definition w_checkpoint : SignedCheckpoint := {|
  SignedCheckpoint.checkpoint_id := 1; SignedCheckpoint.run_id := 1;
  SignedCheckpoint.tenant_id := "acme"; SignedCheckpoint.created_at := seconds 5;
  SignedCheckpoint.sequence := 1; SignedCheckpoint.final_event_hash := w_hash;
  SignedCheckpoint.evidence_bundle_sha256 := w_hash; SignedCheckpoint.attestation_sha256 := None;
  SignedCheckpoint.previous_checkpoint_sha256 := None; SignedCheckpoint.signer_id := "ops";
  SignedCheckpoint.key_id := "k-1"; SignedCheckpoint.algorithm := ED25519;
  SignedCheckpoint.signature_base64 := b64encode (repeat 9 64) |}.
Definition w_digest (o : outcome string) : string := match o with Ok h => h | Raise _ => "" end.
Definition w_manifest : BackupManifest := {|
  BackupManifest.backup_id := 77; BackupManifest.tenant_id := "acme";
  BackupManifest.profile_id := "tier-1"; BackupManifest.profile_revision := 1;
  BackupManifest.source_schema_version := 1; BackupManifest.source_control_version := "1.0";
  BackupManifest.source_site := "east"; BackupManifest.snapshot_set_id := "s-1";
  BackupManifest.recovery_point_at := seconds 900; BackupManifest.created_at := seconds 950;
  BackupManifest.components := [{|
    BackupComponentRecord.component := COMP_LEDGER; BackupComponentRecord.reference := "ledger.db";
    BackupComponentRecord.sha256 := w_hash; BackupComponentRecord.size_bytes := 10;
    BackupComponentRecord.captured_at := seconds 900; BackupComponentRecord.source_site := "east";
    BackupComponentRecord.encrypted := true; BackupComponentRecord.immutable := true |}];
  BackupManifest.ledger_chain_tip_sha256 := w_hash;
  BackupManifest.trusted_checkpoint_sha256 := w_digest (Integrity.checkpoint_sha256 w_checkpoint);
  BackupManifest.trust_anchor_sha256 := w_digest (sha256_hex (TrustRootPolicy.dump w_policy)) |}.
Definition w_observation : RestoredComponentObservation := {|
  RestoredComponentObservation.component := COMP_LEDGER;
  RestoredComponentObservation.reference := "ledger.db"; RestoredComponentObservation.sha256 := w_hash;
  RestoredComponentObservation.observed_at := seconds 1010 |}.

Definition w_do {A} (id : string) (op : operation A) (s : store) : store :=
  snd (run_alone (run_op w_verify w_order (w_ctx id) op) s).
Definition w_answer {A} (id : string) (op : operation A) (s : store) : outcome A :=
  fst (run_alone (run_op w_verify w_order (w_ctx id) op) s).

Definition w_licensed : store :=
  w_do "ann" (op_issue (w_actor "bob") [BG_RESTORE; BG_FAILOVER; BG_INTEGRITY_SCAN; BG_RECONCILE] "site lost" "T-1" 600)
    (w_do "ann" (op_backup w_manifest) (w_do "ann" (op_publish w_profile) (empty w_host))).
Definition w_planned : store := w_do "bob" (op_plan 77 "west" 3) w_licensed.
Definition w_scanned : store := w_do "bob" (op_verify 7 [w_observation] w_hash w_checkpoint w_policy) w_planned.
Definition w_gapped : store := w_do "bob" (op_gap 7 ["provider-log"] 0 0 "E-1") w_scanned.
Definition w_restored : store := w_do "bob" (op_complete 7 11) w_gapped.

(** Clients that may call anything; each call, run alone, is one of the interleavings *)
Definition any_call (A : Type) (ctx : TenantAccessContext) (op : operation A) : Prop := True.
Definition w_steps : config store -> config store -> Prop := rtc (thread_step (admissible w_verify w_order any_call)).

Lemma w_do_steps {A} id (op : operation A) s l :
  TenantAccessContext.create (w_ctx id) = Ok (w_ctx id) -> constructed_arguments op ->
  exists l', w_steps (Cfg s l) (Cfg (w_do id op s) l').
Proof. intros Hc Ha. apply run_alone_steps. by constructor. Qed.

Lemma w_contexts : TenantAccessContext.create (w_ctx "ann") = Ok (w_ctx "ann") /\
  TenantAccessContext.create (w_ctx "bob") = Ok (w_ctx "bob").
Proof. split; vm_compute; reflexivity. Qed.

Lemma w_arguments :
  ReliabilityProfile.create w_profile = Ok w_profile /\ BackupManifest.create w_manifest = Ok w_manifest /\
  RestoredComponentObservation.create w_observation = Ok w_observation /\
  SignedCheckpoint.create w_checkpoint = Ok w_checkpoint /\ TrustRootPolicy.create w_policy = Ok w_policy.
Proof. split_and!; vm_compute; reflexivity. Qed.

Lemma w_then {A} id (op : operation A) s c :
  id = "ann" \/ id = "bob" -> constructed_arguments op ->
  (exists l, w_steps c (Cfg s l)) -> exists l, w_steps c (Cfg (w_do id op s) l).
Proof.
  intros Hid Ha (l & Hl). destruct (w_do_steps id op s l) as (l' & Hl'); [|done|].
  - destruct Hid as [-> | ->]; apply w_contexts.
  - exists l'. by transitivity (Cfg s l).
Qed.

Lemma w_recovery_host_fresh : fresh_ids w_host.
Proof. intros i j. cbn. lia. Qed.

Lemma w_restored_steps : exists l, w_steps (Cfg (empty w_host) []) (Cfg w_restored l).
Proof.
  pose proof w_arguments as (H1 & H2 & H3 & H4 & H5).
  apply w_then; [by right|done|]. apply w_then; [by right|done|].
  apply w_then; [by right|cbn; repeat constructor; done|].
  apply w_then; [by right|done|]. apply w_then; [by left|done|]. apply w_then; [by left|done|].
  apply w_then; [by left|done|]. by exists [].
Qed.

Lemma w_order_perm l : w_order l ≡ₚ l.
Proof. done. Qed.

Lemma w_promoted : exists c r, reachable w_verify w_order any_call c /\
  results (shared c) !! ("acme", 7) = Some r /\ RestoreResult.promoted r = true.
Proof.
  destruct w_restored_steps as (l & Hl). exists (Cfg w_restored l).
  eexists. split; [exists w_host; split; [exact w_recovery_host_fresh|exact Hl]|]. split; vm_compute; reflexivity.
Qed.

Lemma promotion_is_earned_witness :
  exists c c0 r scan, rtc (thread_step (admissible w_verify w_order any_call)) c0 c /\
    RestoreResult.promoted r = true /\ results (shared c0) !! ("acme", 7) = Some r /\
    scans (shared c0) !! ("acme", RestoreResult.integrity_scan_id r) = Some scan /\
    IntegrityScanResult.status scan = SCAN_VERIFIED.
Proof.
  destruct w_promoted as (c & r & Hc & Hr & Hp).
  destruct (promotion_is_earned w_verify w_order any_call c "acme" 7 r w_order_perm Hc Hr Hp)
    as (c1 & c0 & plan & m & p & scan & gap & g & u & _ & _ & _ & Hst & Hr0 & _ & _ & (Hs & _ & Hv & _) & _).
  exists c, c0, r, scan. split; [exact Hst|]. split; [exact Hp|]. split; [exact Hr0|]. split; [exact Hs|exact Hv].
Defined.

Abbreviation w_scan :=
  (Integrity.scan w_verify w_order w_manifest 7 [w_observation] w_hash w_checkpoint w_policy 0 1).

Lemma w_scan_ok : exists r, w_scan = Ok r /\ IntegrityScanResult.status r = SCAN_VERIFIED.
Proof. eexists. split; vm_compute; reflexivity. Qed.

Lemma scan_verified_exact_witness :
  restored w_verify w_manifest [w_observation] w_hash w_checkpoint w_policy.
Proof.
  destruct w_scan_ok as (r & Hr & Hok).
  exact (proj1 (scan_verified_exact w_verify w_order w_manifest 7 [w_observation] w_hash w_checkpoint w_policy 0 1 r
    w_order_perm (proj1 (proj2 w_arguments)) Hr) Hok).
Defined.

(** The grant is revoked, and then tried again. *)
Definition w_revoked : store := w_do "ann" (op_revoke 3 "done") w_restored.

Lemma w_revoked_run : exists c c', reachable w_verify w_order any_call c /\
  rtc (thread_step (admissible w_verify w_order any_call)) c c' /\
  is_Some (revoked_grants (shared c) !! ("acme", 3)) /\ length (list_of ("acme", 3) (grant_uses (shared c))) = 4%nat.
Proof.
  assert (H : exists l, w_steps (Cfg (empty w_host) []) (Cfg w_revoked l))
    by (apply w_then; [by left|exact I|apply w_restored_steps]).
  destruct H as (l & Hl).
  assert (H : exists l', w_steps (Cfg w_revoked l) (Cfg (w_do "bob" (op_use 3 BG_RESTORE "again") w_revoked) l'))
    by (apply w_then; [by right|exact I|by exists l]).
  destruct H as (l' & Hl'). exists (Cfg w_revoked l). eexists.
  split; [exists w_host; split; [exact w_recovery_host_fresh|exact Hl]|]. split; [exact Hl'|].
  split; [eexists|]; vm_compute; reflexivity.
Qed.

Lemma break_glass_accountable_witness :
  exists c c', is_Some (revoked_grants (shared c) !! ("acme", 3)) /\
    list_of ("acme", 3) (grant_uses (shared c')) = list_of ("acme", 3) (grant_uses (shared c)).
Proof.
  destruct w_revoked_run as (c & c' & Hc & Hst & Hr & _).
  destruct (break_glass_accountable w_verify w_order any_call c c' "acme" 3 Hc Hst) as (_ & _ & H & _).
  exists c, c'. split; [exact Hr|exact (H Hr)].
Defined.

(** ** Observations *)

(** An unresolved attempt is on record; a second reconciliation, of no attempts,
    replaces the record, and the restore is promoted. *)
Definition w_attempt : ExecutionAttemptRecord := {|
  ExecutionAttemptRecord.attempt_id := 500; ExecutionAttemptRecord.action_id := 501;
  ExecutionAttemptRecord.run_id := 502; ExecutionAttemptRecord.tenant_id := "acme";
  ExecutionAttemptRecord.idempotency_key := "k"; ExecutionAttemptRecord.action_digest := w_hash;
  ExecutionAttemptRecord.executor_name := "mail"; ExecutionAttemptRecord.executor_version := "1";
  ExecutionAttemptRecord.executor_identity := "svc"; ExecutionAttemptRecord.state := UNCERTAIN;
  ExecutionAttemptRecord.claimed_at := seconds 800; ExecutionAttemptRecord.started_at := Some (seconds 801);
  ExecutionAttemptRecord.finished_at := None; ExecutionAttemptRecord.result_digest := None;
  ExecutionAttemptRecord.provider_operation_id := None; ExecutionAttemptRecord.error_type := None;
  ExecutionAttemptRecord.error_message := None; ExecutionAttemptRecord.uncertainty_reason := Some "timeout" |}.

Definition w_resolver (a : ExecutionAttemptRecord) (restore_id : UUID) : outcome UncertainExecutionRecovery :=
  UncertainExecutionRecovery.create {|
    UncertainExecutionRecovery.recovery_id := 600; UncertainExecutionRecovery.restore_id := restore_id;
    UncertainExecutionRecovery.tenant_id := ExecutionAttemptRecord.tenant_id a;
    UncertainExecutionRecovery.attempt_id := ExecutionAttemptRecord.attempt_id a;
    UncertainExecutionRecovery.action_id := ExecutionAttemptRecord.action_id a;
    UncertainExecutionRecovery.run_id := ExecutionAttemptRecord.run_id a;
    UncertainExecutionRecovery.original_state := UNCERTAIN;
    UncertainExecutionRecovery.provider_operation_id := None;
    UncertainExecutionRecovery.disposition := RECONCILE_REQUIRED;
    UncertainExecutionRecovery.observed_at := seconds 1010;
    UncertainExecutionRecovery.evidence_reference := None;
    UncertainExecutionRecovery.replay_permitted := false |}.

Definition promotion_of (o : outcome RestoreResult) : option bool :=
  match o with Ok r => Some (RestoreResult.promoted r) | Raise _ => None end.

Definition w_uncertain : store := w_do "bob" (op_reconcile 7 [w_attempt] w_resolver) w_gapped.
Definition w_erased : store := w_do "bob" (op_reconcile 7 [] w_resolver) w_uncertain.

Example reconciliation_erases_unresolved :
  promotion_of (w_answer "bob" (op_complete 7 11) w_uncertain) = Some false /\
  promotion_of (w_answer "bob" (op_complete 7 11) w_erased) = Some true.
Proof. split; vm_compute; reflexivity. Qed.

(** A gap recorded again with the same evidence is refused: the new record has a new
    identity, so the comparison with the stored one never succeeds. *)
Example gap_retry_refused :
  w_answer "bob" (op_gap 7 ["provider-log"] 0 0 "E-1") w_gapped =
  Raise (ValueError "recovery-gap reconciliation is immutable once recorded").
Proof. vm_compute. reflexivity. Qed.
End RecoveryProperties.
