(* ===== verification/Floats.v ===== *)
(** * Binary64 arithmetic

    The sum, difference and quotient of two finite floats: the exact rational, rounded
    to the nearest float of 53 bits, ties to even.  Numbers here are of an ordinary
    size: neither overflow nor the subnormal numbers are modelled.  [fl_round_mono]:
    rounding keeps the order. *)

From Stdlib Require Import QArith Qreduction Qround Qpower Lqa.
From S2P Require Import Prelude Durations.
Open Scope Z_scope.

(** The float nearest to a rational *)
Definition fl_round (x : Q) : Q := true_divide (Qnum x) (Qden x).

Definition fl_add (x y : Q) : Q := fl_round (x + y)%Q.
Definition fl_sub (x y : Q) : Q := fl_round (x - y)%Q.
Definition fl_div (x y : Q) : Q := fl_round (x / y)%Q.

(** ** The nearest integer *)
Definition rhe (x : Q) : Z := round_half_even (Qnum x) (Qden x).

Lemma rhe_floor x :
  rhe x = let q := Qfloor x in
          match (x - inject_Z q ?= 1 # 2)%Q with
          | Lt => q | Gt => q + 1 | Eq => if Z.even q then q else q + 1
          end.
Proof.
  unfold rhe, round_half_even. destruct x as [n d]. cbn [Qnum Qden]. cbv zeta.
  change (Qfloor (n # d)) with (n / Z.pos d).
  replace ((n # d) - inject_Z (n / Z.pos d) ?= 1 # 2)%Q with (2 * (n mod Z.pos d) ?= Z.pos d); [done|].
  unfold Qcompare, Qminus, Qplus, Qopp, inject_Z. cbn [Qnum Qden].
  rewrite (Z.mod_eq n (Z.pos d)) by lia. f_equal; lia.
Qed.

Lemma rhe_mono x y : (x <= y)%Q -> rhe x <= rhe y.
Proof.
  intros H. rewrite !rhe_floor. cbv zeta. pose proof (Qfloor_resp_le x y H) as Hf.
  destruct (Z.eq_dec (Qfloor x) (Qfloor y)) as [E|].
  - rewrite E. set (q := Qfloor y).
    destruct (Qcompare_spec (x - inject_Z q) (1 # 2)), (Qcompare_spec (y - inject_Z q) (1 # 2));
      try (destruct (Z.even q); lia); exfalso; lra.
  - assert (Qfloor x + 1 <= Qfloor y) by lia.
    destruct (x - inject_Z (Qfloor x) ?= 1 # 2)%Q, (y - inject_Z (Qfloor y) ?= 1 # 2)%Q;
      destruct (Z.even (Qfloor x)), (Z.even (Qfloor y)); lia.
Qed.

#[export] Instance rhe_proper : Proper (Qeq ==> eq) rhe.
Proof. intros x y E. apply Z.le_antisymm; apply rhe_mono; rewrite E; apply Qle_refl. Qed.

Lemma rhe_inject n : rhe (inject_Z n) = n.
Proof.
  rewrite rhe_floor. cbv zeta. rewrite Qfloor_Z.
  destruct (Qcompare_spec (inject_Z n - inject_Z n) (1 # 2)); [exfalso; lra|done|exfalso; lra].
Qed.

(** ** The exponent *)
Lemma exponent_upper m den :
  0 < m ->
  if 0 <=? exponent m den then m < 2 ^ 53 * Zpos den * 2 ^ exponent m den
  else m * 2 ^ (- exponent m den) < 2 ^ 53 * Zpos den.
Proof.
  intros Hm. unfold exponent. set (e := Z.log2 m - Z.log2 (Zpos den) - 52).
  pose proof (Z.log2_spec m Hm) as [_ Hm2].
  pose proof (Z.log2_spec (Zpos den) ltac:(lia)) as [Hd1 _].
  assert (Hp : forall k, 0 <= k -> 0 < 2 ^ k) by (intros; apply Z.pow_pos_nonneg; lia).
  pose proof (Z.log2_nonneg m). pose proof (Z.log2_nonneg (Zpos den)).
  destruct (0 <=? e) eqn:He; b2p.
  - destruct (m <? 2 ^ 52 * Zpos den * 2 ^ e) eqn:Hs; b2p.
    + destruct (0 <=? e - 1) eqn:He1; b2p.
      * replace (2 ^ e) with (2 * 2 ^ (e - 1)) in Hs by (rewrite <- Z.pow_succ_r by lia; f_equal; lia). lia.
      * assert (e = 0) as E by lia. rewrite E in *. change (- (0 - 1)) with 1. lia.
    + rewrite (proj2 (Z.leb_le 0 e)) by lia.
      assert (2 ^ Z.succ (Z.log2 m) = 2 ^ 53 * 2 ^ Z.log2 (Z.pos den) * 2 ^ e) as E
        by (rewrite <- !Z.pow_add_r by lia; f_equal; lia).
      pose proof (Hp e ltac:(lia)). nia.
  - destruct (m * 2 ^ (- e) <? 2 ^ 52 * Zpos den) eqn:Hs; b2p.
    + rewrite (proj2 (Z.leb_gt 0 (e - 1))) by lia.
      replace (2 ^ (- (e - 1))) with (2 * 2 ^ (- e)) by (rewrite <- Z.pow_succ_r by lia; f_equal; lia). lia.
    + rewrite (proj2 (Z.leb_gt 0 e)) by lia.
      assert (2 ^ Z.succ (Z.log2 m) * 2 ^ (- e) = 2 ^ 53 * 2 ^ Z.log2 (Z.pos den)) as E
        by (rewrite <- !Z.pow_add_r by lia; f_equal; lia).
      pose proof (Hp (- e) ltac:(lia)). nia.
Qed.

(** [2 ^ e], with a negative [e] a fraction *)
Definition two_to (e : Z) : Q := Qpower 2 e.

Lemma two_to_pos e : (0 < two_to e)%Q.
Proof. apply Qpower_0_lt. lra. Qed.

Lemma two_to_add a b : (two_to (a + b) == two_to a * two_to b)%Q.
Proof. apply Qpower_plus. lra. Qed.

Lemma two_to_int e : 0 <= e -> (two_to e == inject_Z (2 ^ e))%Q.
Proof. intros H. unfold two_to. by rewrite <- (Zpower_Qpower 2 e). Qed.

(** The significand of a positive rational lies in [2^52, 2^53). *)
Definition signif (x : Q) : Q := (x * two_to (- exponent (Qnum x) (Qden x)))%Q.

Lemma signif_bounds x : 0 < Qnum x -> (inject_Z (2 ^ 52) <= signif x < inject_Z (2 ^ 53))%Q.
Proof.
  intros Hx. destruct x as [m den]. unfold signif. cbn [Qnum Qden] in *.
  pose proof (exponent_lower m den Hx) as Hlo. pose proof (exponent_upper m den Hx) as Hup.
  set (e := exponent m den) in *. clearbody e.
  destruct (0 <=? e) eqn:He; b2p.
  - assert (E : (two_to (- e) == / inject_Z (2 ^ e))%Q).
    { unfold two_to. rewrite Qpower_opp. by rewrite (Zpower_Qpower 2 e). }
    rewrite E. assert (0 < 2 ^ e) by (apply Z.pow_pos_nonneg; lia).
    split; [apply Qle_shift_div_l|apply Qlt_shift_div_r]; try (unfold Qlt; cbn; lia);
      unfold Qle, Qlt, inject_Z; cbn; lia.
  - rewrite (two_to_int (- e)) by lia. unfold Qle, Qlt, inject_Z; cbn. split; lia.
Qed.

Lemma scale2_value q e : (scale2 q e == inject_Z q * two_to e)%Q.
Proof.
  unfold scale2. destruct (0 <=? e) eqn:He; b2p; rewrite Qred_correct.
  - rewrite two_to_int by lia. unfold Qeq, inject_Z. cbn. lia.
  - assert (0 < 2 ^ (- e)) by (apply Z.pow_pos_nonneg; lia).
    assert (E : (two_to e == / inject_Z (2 ^ (- e)))%Q).
    { rewrite <- two_to_int by lia. unfold two_to. by rewrite Qpower_opp, Qinv_involutive. }
    rewrite E. destruct (2 ^ (- e)) as [|p|p]; [lia| |lia]. unfold Qeq, inject_Z. cbn. lia.
Qed.

Lemma mantissa_signif x : mantissa (Qnum x) (Qden x) (exponent (Qnum x) (Qden x)) = rhe (signif x).
Proof.
  unfold signif. destruct x as [m den]. cbn [Qnum Qden]. set (e := exponent m den). clearbody e.
  unfold mantissa. destruct (0 <=? e) eqn:He; b2p.
  - change (round_half_even m (den * Z.to_pos (2 ^ e))) with (rhe (m # (den * Z.to_pos (2 ^ e)))).
    apply rhe_proper. assert (0 < 2 ^ e) by (apply Z.pow_pos_nonneg; lia).
    unfold two_to. rewrite Qpower_opp. fold (two_to e). rewrite two_to_int by lia.
    destruct (2 ^ e) as [|p|p]; [lia| |lia]. unfold Qeq, inject_Z. cbn. lia.
  - change (round_half_even (m * 2 ^ (- e)) den) with (rhe (m * 2 ^ (- e) # den)).
    apply rhe_proper. rewrite two_to_int by lia. unfold Qeq, inject_Z. cbn. lia.
Qed.

Lemma fl_round_pos x :
  0 < Qnum x -> (fl_round x == inject_Z (rhe (signif x)) * two_to (exponent (Qnum x) (Qden x)))%Q.
Proof.
  intros Hx. unfold fl_round, true_divide. rewrite (proj2 (Z.eqb_neq _ 0)) by lia. cbv zeta.
  rewrite Z.abs_eq, Z.sgn_pos, Z.mul_1_l by lia. by rewrite scale2_value, mantissa_signif.
Qed.

Lemma fl_round_opp x : (fl_round (- x) == - fl_round x)%Q.
Proof.
  destruct x as [m den]. unfold fl_round, true_divide. cbn [Qnum Qden Qopp].
  destruct (Z.eqb_spec m 0) as [->|Hm]; [reflexivity|]. rewrite (proj2 (Z.eqb_neq (- m) 0)) by lia. cbv zeta.
  rewrite Z.abs_opp, Z.sgn_opp, !scale2_value, Z.mul_opp_l, inject_Z_opp. ring.
Qed.

Lemma signif_value x : (x == signif x * two_to (exponent (Qnum x) (Qden x)))%Q.
Proof.
  unfold signif. rewrite <- Qmult_assoc, <- two_to_add. replace (- _ + _) with 0 by lia.
  change (two_to 0) with 1%Q. ring.
Qed.

Lemma two_to_le a b : a <= b -> (two_to a <= two_to b)%Q.
Proof. intros H. apply Qpower_le_compat_l; [done|lra]. Qed.

Lemma fl_round_range x : 0 < Qnum x ->
  (two_to (52 + exponent (Qnum x) (Qden x)) <= fl_round x <= two_to (53 + exponent (Qnum x) (Qden x)))%Q.
Proof.
  intros Hx. pose proof (signif_bounds x Hx) as [Hlo Hup]. rewrite fl_round_pos, !two_to_add by done.
  set (e := exponent _ _). pose proof (two_to_pos e) as He.
  rewrite (two_to_int 52), (two_to_int 53) by lia.
  split; apply Qmult_le_compat_r; try (by apply Qlt_le_weak); rewrite <- Zle_Qle.
  - rewrite <- (rhe_inject (2 ^ 52)). by apply rhe_mono.
  - rewrite <- (rhe_inject (2 ^ 53)). apply rhe_mono. by apply Qlt_le_weak.
Qed.

Lemma exponent_mono x y : 0 < Qnum x -> (x <= y)%Q -> 0 < Qnum y ->
  exponent (Qnum x) (Qden x) <= exponent (Qnum y) (Qden y).
Proof.
  intros Hx Hxy Hy. apply Z.nlt_ge. intros Hlt.
  pose proof (signif_bounds x Hx) as [Hlo _]. pose proof (signif_bounds y Hy) as [_ Hup].
  pose proof (signif_value x) as Ex. pose proof (signif_value y) as Ey.
  set (a := exponent (Qnum x) (Qden x)) in *. set (b := exponent (Qnum y) (Qden y)) in *.
  assert (Hab : (inject_Z 2 * two_to b <= two_to a)%Q).
  { change (inject_Z 2) with (two_to 1). rewrite <- two_to_add. apply two_to_le. lia. }
  pose proof (two_to_pos b) as Hb. pose proof (two_to_pos a) as Ha.
  assert (H1 : (inject_Z (2 ^ 52) * two_to a <= x)%Q)
    by (rewrite Ex; apply Qmult_le_compat_r; [done|by apply Qlt_le_weak]).
  assert (H2 : (y < inject_Z (2 ^ 53) * two_to b)%Q) by (rewrite Ey; by apply Qmult_lt_compat_r).
  change (inject_Z (2 ^ 53)) with (inject_Z (2 ^ 52 * 2)) in H2. rewrite inject_Z_mult in H2.
  change (inject_Z 2) with 2%Q in *. change (inject_Z (2 ^ 52)) with (4503599627370496 # 1)%Q in *. lra.
Qed.

Lemma fl_round_pos_mono x y : 0 < Qnum x -> (x <= y)%Q -> 0 < Qnum y -> (fl_round x <= fl_round y)%Q.
Proof.
  intros Hx Hxy Hy. pose proof (exponent_mono x y Hx Hxy Hy) as He.
  destruct (Z.eq_dec (exponent (Qnum x) (Qden x)) (exponent (Qnum y) (Qden y))) as [E|Hne].
  - rewrite !fl_round_pos by done. rewrite E. set (e := exponent (Qnum y) (Qden y)) in *.
    apply Qmult_le_compat_r; [|by apply Qlt_le_weak, two_to_pos]. rewrite <- Zle_Qle. apply rhe_mono.
    unfold signif. rewrite E. apply Qmult_le_compat_r; [done|by apply Qlt_le_weak, two_to_pos].
  - eapply Qle_trans; [apply (fl_round_range x Hx)|]. eapply Qle_trans; [|apply (fl_round_range y Hy)].
    apply two_to_le. lia.
Qed.

Lemma fl_round_zero x : Qnum x = 0 -> (fl_round x == 0)%Q.
Proof. intros H. unfold fl_round, true_divide. by rewrite H. Qed.

Lemma fl_round_nonneg x : 0 <= Qnum x -> (0 <= fl_round x)%Q.
Proof.
  intros H. destruct (Z.eq_dec (Qnum x) 0) as [E|]; [by rewrite fl_round_zero; [apply Qle_refl|]|].
  eapply Qle_trans; [|apply fl_round_range; lia]. apply Qlt_le_weak, two_to_pos.
Qed.

(** Rounding keeps the order. *)
Lemma fl_round_mono x y : (x <= y)%Q -> (fl_round x <= fl_round y)%Q.
Proof.
  intros Hxy. assert (Hq : Qnum x * Z.pos (Qden y) <= Qnum y * Z.pos (Qden x)) by exact Hxy.
  destruct (Z_lt_le_dec 0 (Qnum x)) as [Hx|Hx].
  - apply fl_round_pos_mono; [done|done|nia].
  - destruct (Z_lt_le_dec (Qnum y) 0) as [Hy|Hy].
    + apply Qopp_le_compat in Hxy.
      assert (H : (fl_round (- y) <= fl_round (- x))%Q) by (apply fl_round_pos_mono; cbn; [lia|done|nia]).
      rewrite !fl_round_opp in H. lra.
    + apply Qle_trans with 0%Q; [|by apply fl_round_nonneg].
      assert (H : (0 <= fl_round (- x))%Q) by (apply fl_round_nonneg; cbn; lia).
      rewrite fl_round_opp in H. lra.
Qed.

Lemma fl_sub_mono x y w : (x <= y)%Q -> (fl_sub x w <= fl_sub y w)%Q.
Proof. intros H. apply fl_round_mono. lra. Qed.

(** [0.1 + 0.2], [1.9 - 1.0], [1 / 3] *)
Example fl_ex :
  fl_add (true_divide 1 10) (true_divide 2 10) = (1351079888211149 # 4503599627370496)%Q /\
  fl_sub (true_divide 19 10) 1 = (2026619832316723 # 2251799813685248)%Q /\
  fl_div 1 3 = true_divide 1 3.
Proof. repeat split; vm_compute; reflexivity. Qed.
