(* ===== verification/HaProgress.v ===== *)
(** * The work queue makes progress

    However many workers share the queue and wherever they crash, the jobs of a tenant
    are settled after a number of polls that the records themselves bound. *)

From S2P Require Import Prelude Ha HaProofs.
Import Ha.WorkQueue HaProofs.QueueFacts.

Module Progress.
Section Budget.
Context {P : Type} `{!EqDecision P}.
Implicit Types (st : WorkQueue.store P) (i c : DurableWorkItem P).

(** The attempts a job has left, and one more to bury it; nothing once it is settled *)
Definition is_open (q te : string) i : bool :=
  bool_decide (queue i = q) && bool_decide (tenant_id i = te) &&
  (bool_decide (state i = QUEUED) || bool_decide (state i = LEASED)).

Definition job_budget (q te : string) (o : option (DurableWorkItem P)) : Z :=
  match o with
  | Some i => if is_open q te i then Z.max 0 (max_attempts i - attempt i) + 1 else 0
  | None => 0
  end.

Definition budget (q te : string) st : Z :=
  foldr (fun k n => job_budget q te (items st !! k) + n) 0 (elements (dom (items st))).

Lemma job_budget_nonneg q te o : 0 <= job_budget q te o.
Proof. destruct o as [i|]; cbn; [destruct (is_open q te i)|]; lia. Qed.

(** A job's record never gains budget, unless new work takes its place. *)
Lemma job_budget_step q te fresh now k i o' :
  (forall d, ~ fresh d) -> job_step fresh now k (Some i) o' -> job_budget q te o' <= job_budget q te (Some i).
Proof.
  intros Hno Hs. inversion Hs; subst; try lia; try (exfalso; by eapply Hno); unfold job_budget, is_open, leased_as, completed_as; simpl;
    destruct (bool_decide (queue i = q) && bool_decide (tenant_id i = te)) eqn:E; simpl; try lia.
  - match goal with H : state i = _ /\ _ \/ _ |- _ => destruct H as [[-> _]| ->] end; simpl; lia.
  - match goal with H : open_job i |- _ => destruct H as [-> | ->] end; simpl; lia.
  - match goal with H : state i = _ |- _ => rewrite H end; simpl; lia.
  - match goal with H : state i = _ |- _ => rewrite H end; simpl; lia.
Qed.

(** ** Summing over the jobs *)
Lemma sum_le {K} (f g : K -> Z) l :
  (forall k, k ∈ l -> f k <= g k) ->
  foldr (fun k n => f k + n) 0 l <= foldr (fun k n => g k + n) 0 l.
Proof.
  induction l as [|k l IH]; intros H; cbn; [lia|].
  specialize (IH ltac:(intros; apply H; by right)). specialize (H k ltac:(by left)). lia.
Qed.

Lemma sum_lt {K} (f g : K -> Z) l k0 :
  (forall k, k ∈ l -> f k <= g k) -> k0 ∈ l -> f k0 < g k0 ->
  foldr (fun k n => f k + n) 0 l < foldr (fun k n => g k + n) 0 l.
Proof.
  induction l as [|k l IH]; intros H Hin Hlt; [by apply not_elem_of_nil in Hin|]. cbn.
  assert (Hl : forall k, k ∈ l -> f k <= g k) by (intros; apply H; by right).
  pose proof (H k ltac:(by left)) as Hk. apply elem_of_cons in Hin as [->|Hin].
  - pose proof (sum_le f g l Hl). lia.
  - specialize (IH Hl Hin Hlt). lia.
Qed.

(** No new work was accepted: no identity of work was registered. *)
Definition no_new_jobs st st' : Prop := identities st' = identities st.

Lemma none_registered st st' k : no_new_jobs st st' -> forall d, ~ registers st st' k d.
Proof. intros E d [H1 H2]. rewrite E in H2. congruence. Qed.

Section Compare.
Context (q te : string) (now : datetime) (st st' : WorkQueue.store P).
Hypothesis steps : forall k, job_step (registers st st' k) now k (items st !! k) (items st' !! k).
Hypothesis closed : no_new_jobs st st'.

Lemma same_jobs : dom (items st') = dom (items st).
Proof.
  apply set_eq. intros k. rewrite !elem_of_dom. pose proof (steps k) as Hs.
  pose proof (none_registered st st' k closed) as Hn.
  split; inversion Hs; try done; try (by eexists); exfalso; by eapply Hn.
Qed.

Lemma budget_pointwise k : job_budget q te (items st' !! k) <= job_budget q te (items st !! k).
Proof.
  pose proof (steps k) as Hs. pose proof (none_registered st st' k closed) as Hn.
  destruct (items st !! k) as [i|]; [by eapply job_budget_step|].
  inversion Hs; [done|]. exfalso. by eapply Hn.
Qed.

Lemma budget_le : budget q te st' <= budget q te st.
Proof. unfold budget. rewrite same_jobs. apply sum_le. intros k _. apply budget_pointwise. Qed.

Lemma budget_lt k i :
  items st !! k = Some i -> job_budget q te (items st' !! k) < job_budget q te (Some i) ->
  budget q te st' < budget q te st.
Proof.
  intros Hk Hlt. unfold budget. rewrite same_jobs. apply (sum_lt _ _ _ k).
  - intros k' _. apply budget_pointwise.
  - apply elem_of_elements, elem_of_dom. by eexists.
  - by rewrite Hk.
Qed.
End Compare.

Lemma budget_spent q te st k i :
  budget q te st <= 0 -> items st !! k = Some i -> is_open q te i = false.
Proof.
  intros Hb Hk. destruct (is_open q te i) eqn:E; [exfalso|done].
  assert (0 < budget q te st); [|lia]. unfold budget.
  replace 0 with (foldr (fun (k : UUID) n => 0 + n) 0 (elements (dom (items st)))) at 1
    by (induction (elements _); cbn; lia).
  apply (sum_lt _ _ _ k).
  - intros. apply job_budget_nonneg.
  - apply elem_of_elements, elem_of_dom. by eexists.
  - rewrite Hk. unfold job_budget. rewrite E. lia.
Qed.

(** ** The polls *)

(** A worker whose lease lasts, and whose names are well formed *)
Definition capable (q te ow : string) (ttl : pyfloat) : Prop :=
  require_positive_ttl ttl = Ok tt /\ (exists d, timedelta_seconds ttl = Ok d /\ 0 < d) /\
  blank te = false /\ blank q = false /\ blank ow = false /\ stripped ow = true.

Definition due (q te : string) st (now : datetime) : Prop :=
  exists i, items st !! job_id i = Some i /\ queue i = q /\ tenant_id i = te /\ eligible st i now = true.

(** Unless all is settled, some job is due when the worker polls. *)
Definition timely (q te : string) st (now : datetime) : Prop :=
  (exists k i, items st !! k = Some i /\ is_open q te i = true) -> due q te st now.

(** Any run in which no job is added, with [n] timely polls of the queue: what else
    the workers do, and what becomes of the jobs they take, is arbitrary. *)
Inductive worked (depth : Z) (q te : string) : nat -> WorkQueue.store P * datetime ->
    WorkQueue.store P * datetime -> Prop :=
| worked_start s : worked depth q te 0 s s
| worked_step n s s1 s2 :
    worked depth q te n s s1 -> step depth s1 s2 -> no_new_jobs (fst s1) (fst s2) ->
    worked depth q te n s s2
| worked_poll n s st t t' ow ttl fresh o st' :
    worked depth q te n s (st, t) -> capable q te ow ttl -> timely q te st t' ->
    acquire q ow ttl te t' fresh st = (o, st') -> worked depth q te (S n) s (st', t').

Lemma acquire_closed q ow ttl te now fresh st o st' :
  wq_ok st -> acquire q ow ttl te now fresh st = (o, st') -> no_new_jobs st st'.
Proof.
  intros Hok Ha. unfold no_new_jobs.
  destruct (acquire_spec _ _ _ _ _ _ _ _ _ Hok Ha) as [[_ ->]|(dead & rest & _ & _ & _ & Hrest)]; [done|].
  destruct (buried_rest dead st) as [<- _].
  destruct rest as [|c rest]; [by destruct Hrest as [_ ->]|]. destruct Hrest as (_ & _ & _ & _ & Hg).
  by apply grant_spec in Hg as [(e & _ & ->)|(d & l & _ & _ & _ & ->)].
Qed.

Lemma budget_open q te st :
  0 < budget q te st -> exists k i, items st !! k = Some i /\ is_open q te i = true.
Proof.
  unfold budget. induction (elements _) as [|k l IH]; cbn; [lia|]. intros H.
  destruct (items st !! k) as [i|] eqn:Hk; [|by apply IH]. cbn in H.
  destruct (is_open q te i) eqn:E; [by exists k, i|by apply IH].
Qed.

Lemma worked_run depth q te n s s' : worked depth q te n s s' -> rtc (step depth) s s'.
Proof.
  induction 1 as [s|n s s1 s2 _ IH Hs _|n s st t t' ow ttl fresh o st' _ IH _ _ Ha]; [done|..].
  - by eapply rtc_r.
  - eapply rtc_r; [exact IH|]. by eapply step_acquire.
Qed.

(** A timely poll spends budget, as long as there is some. *)
Lemma poll_spends depth t0 q te st t t' ow ttl fresh o st' :
  rtc (step depth) (empty, t0) (st, t) -> capable q te ow ttl -> timely q te st t' ->
  acquire q ow ttl te t' fresh st = (o, st') ->
  budget q te st' <= Z.max 0 (budget q te st - 1).
Proof.
  intros Hr (Httl & (d & Hd & Hpos) & Hte & Hq & How & Hsow) Htime Ha.
  pose proof (queue_reachable_ok _ _ _ _ Hr) as Hok.
  assert (Hjobs : forall k, job_step (registers st st' k) t' k (items st !! k) (items st' !! k))
    by (intros k; eapply acquire_refines; eauto).
  pose proof (acquire_closed _ _ _ _ _ _ _ _ _ Hok Ha) as Hclosed.
  destruct (Z.le_gt_cases (budget q te st) 0) as [Hz|Hz].
  { pose proof (budget_le q te t' st st' Hjobs Hclosed). lia. }
  enough (budget q te st' < budget q te st) by lia.
  destruct (Htime (budget_open q te st Hz)) as (i & Hi & Hiq & Hit & Hel).
  assert (Hopen : is_open q te i = true).
  { unfold is_open. rewrite !bool_decide_true by done. cbn.
    destruct (eligible_spec st i t' Hel) as [[-> _]|[-> _]]; reflexivity. }
  destruct (QueueProperties.acquire_grants_least depth t0 st t t' q ow ttl te fresh d Hr Httl Hd Hpos Hte Hq How Hsow)
    as (st2 & [(w & c & Ha2 & (Hc & Hcq & Hct & Hce) & Hlt & _ & Hw & Hc' & _)|[Ha2 Hall]]);
    rewrite Ha2 in Ha; injection Ha as <- <-.
  - apply (budget_lt q te t' st st2 Hjobs Hclosed (job_id c) c Hc). rewrite Hc', Hw.
    unfold job_budget, is_open, leased_as. cbn. rewrite Hcq, Hct, !bool_decide_true by done. simpl.
    destruct (eligible_spec st c t' Hce) as [[-> _]|[-> _]]; simpl; lia.
  - apply (budget_lt q te t' st st2 Hjobs Hclosed (job_id i) i Hi).
    destruct (Hall i) as [_ ->]; [done|]. unfold job_budget. rewrite Hopen.
    unfold is_open, dead_lettered. simpl. rewrite andb_false_r. lia.
Qed.

Lemma worked_spends depth t0 q te n s s' :
  rtc (step depth) (empty, t0) s -> worked depth q te n s s' ->
  budget q te (fst s') <= Z.max 0 (budget q te (fst s) - Z.of_nat n).
Proof.
  intros Hr Hw. induction Hw as [s|n s [st1 t1] [st2 t2] Hw IH Hs Hn|n s st t t' ow ttl fresh o st' Hw IH Hc Htime Ha].
  - cbn. lia.
  - specialize (IH Hr). cbn in *.
    assert (Hok : wq_ok st1).
    { apply (queue_reachable_ok depth t0 st1 t1). etransitivity; [exact Hr|by eapply worked_run]. }
    pose proof (queue_step_refines _ _ _ _ _ _ Hok Hs) as Href.
    pose proof (budget_le q te t2 st1 st2 (fun k => proj1 (Href k)) Hn). lia.
  - specialize (IH Hr). cbn in *.
    assert (Hr1 : rtc (step depth) (empty, t0) (st, t)) by (etransitivity; [exact Hr|by eapply worked_run]).
    pose proof (poll_spends depth t0 q te st t t' ow ttl fresh o st' Hr1 Hc Htime Ha). lia.
Qed.
End Budget.

(** C15: Work is always settled.  Take any run from a reachable store in which no new
    work is accepted, whatever the clock does: workers poll, complete, retry, lose their leases or crash, in any
    order.  Once the queue of a tenant has been polled as often as its open jobs have
    attempts left, and once more for each, at moments when some job was due (unless
    all were settled), no job of it is open: each has succeeded or is
    dead-lettered. *)
Theorem due_work_drains {P} `{!EqDecision P} depth t0 q te n (st st' : WorkQueue.store P) t t' :
  rtc (step depth) (empty, t0) (st, t) ->
  worked depth q te n (st, t) (st', t') ->
  budget q te st <= Z.of_nat n ->
  forall k i, items st' !! k = Some i -> queue i = q -> tenant_id i = te ->
    state i = SUCCEEDED \/ state i = DEAD_LETTER.
Proof.
  intros Hr Hw Hn k i Hi Hq Ht.
  pose proof (worked_spends depth t0 q te n (st, t) (st', t') Hr Hw) as Hb. cbn in Hb.
  assert (Hopen : is_open q te i = false) by (apply (budget_spent q te st' k); [lia|done]).
  unfold is_open in Hopen. rewrite !bool_decide_true in Hopen by done. cbn in Hopen.
  destruct (state i); try discriminate; auto.
Qed.

(** ** A worker that crashes every time: three attempts, then the dead letter *)
Definition w_poll (now : datetime) (st : WorkQueue.store string) :=
  acquire "q" "a" (float_of_int 1) "t" now 1 st.
Definition w_start : WorkQueue.store string := snd QueueProperties.w_run1.
Definition w_after1 : WorkQueue.store string := snd (w_poll (seconds 2) w_start).
Definition w_after2 : WorkQueue.store string := snd (w_poll (seconds 4) w_after1).
Definition w_after3 : WorkQueue.store string := snd (w_poll (seconds 6) w_after2).
Definition w_after4 : WorkQueue.store string := snd (w_poll (seconds 8) w_after3).

Lemma w_capable : capable "q" "t" "a" (float_of_int 1).
Proof. split; [reflexivity|]. split; [exists 1000000; split; [reflexivity|lia]|]. repeat split; reflexivity. Qed.

Definition due_b (st : WorkQueue.store string) (now : datetime) : bool :=
  match items st !! 7 with
  | Some i => bool_decide (job_id i = 7) && bool_decide (queue i = "q") && bool_decide (tenant_id i = "t") &&
              eligible st i now
  | None => false
  end.

Lemma due_b_timely st now : due_b st now = true -> timely "q" "t" st now.
Proof.
  unfold due_b. destruct (items st !! 7) as [i|] eqn:E; [|done]. intros H _. b2p. exists i. by rewrite H.
Qed.

Lemma w_worked : worked 5 "q" "t" 4 (w_start, 0) (w_after4, seconds 8).
Proof.
  assert (Hpoll : forall n st t now, worked 5 "q" "t" n (w_start, 0) (st, t) -> due_b st now = true ->
    worked 5 "q" "t" (S n) (w_start, 0) (snd (w_poll now st), now)).
  { intros n st t now Hw Hd. eapply (worked_poll 5 "q" "t" n (w_start, 0) st t now "a" (float_of_int 1) 1);
      [exact Hw|exact w_capable|by apply due_b_timely|apply surjective_pairing]. }
  apply (Hpoll 3%nat w_after3 (seconds 6)); [|vm_compute; reflexivity].
  apply (Hpoll 2%nat w_after2 (seconds 4)); [|vm_compute; reflexivity].
  apply (Hpoll 1%nat w_after1 (seconds 2)); [|vm_compute; reflexivity].
  apply (Hpoll 0%nat w_start 0); [constructor|vm_compute; reflexivity].
Qed.

Lemma w_settled : exists i, items w_after4 !! 7 = Some i /\ queue i = "q" /\ tenant_id i = "t".
Proof. eexists. split; [vm_compute; reflexivity|split; reflexivity]. Qed.

Lemma w_budget : budget "q" "t" w_start <= Z.of_nat 4.
Proof. vm_compute. discriminate. Qed.

Lemma due_work_drains_witness :
  exists i, items w_after4 !! 7 = Some i /\ (state i = SUCCEEDED \/ state i = DEAD_LETTER).
Proof.
  destruct w_settled as (i & Hi & Hq & Ht). exists i. split; [exact Hi|].
  exact (due_work_drains 5 0 "q" "t" 4 w_start w_after4 0 (seconds 8) QueueProperties.w_reach1 w_worked w_budget
    7 i Hi Hq Ht).
Defined.
End Progress.
