(* ===== verification/SecurityContracts.v ===== *)
(** * Security: the contract records

    Models [contracts/security.py]: secret references, workload identity policies and
    assertions, audit events, rate limits, provenance policies, service-level
    objectives, incident response.  [schema_name] and [schema_version] keep their
    defaults.  The validator of [SecretReference], which parses the reference as a URL,
    is left out. *)

From S2P Require Import Prelude Canonical Contracts.

Inductive SecuritySeverity : Set :=
| SECURITY_INFO | SECURITY_LOW | SECURITY_MEDIUM | SECURITY_HIGH | SECURITY_CRITICAL.

#[export] Instance SecuritySeverity_eq_dec : EqDecision SecuritySeverity.
Proof. solve_decision. Defined.

Definition SecuritySeverity_value (e : SecuritySeverity) : string :=
  match e with
  | SECURITY_INFO => "info"
  | SECURITY_LOW => "low"
  | SECURITY_MEDIUM => "medium"
  | SECURITY_HIGH => "high"
  | SECURITY_CRITICAL => "critical"
  end.

Inductive SecurityOutcome : Set :=
| ALLOWED_OUTCOME | DENIED_OUTCOME | DETECTED_OUTCOME | FAILED_OUTCOME.

#[export] Instance SecurityOutcome_eq_dec : EqDecision SecurityOutcome.
Proof. solve_decision. Defined.

Definition SecurityOutcome_value (e : SecurityOutcome) : string :=
  match e with
  | ALLOWED_OUTCOME => "allowed"
  | DENIED_OUTCOME => "denied"
  | DETECTED_OUTCOME => "detected"
  | FAILED_OUTCOME => "failed"
  end.

Inductive IncidentClass : Set :=
| CREDENTIAL_COMPROMISE | IDENTITY_REPLAY | ABUSE_OR_DOS | SUPPLY_CHAIN
| DATA_INTEGRITY | CONTROL_PLANE_BYPASS | AVAILABILITY.

#[export] Instance IncidentClass_eq_dec : EqDecision IncidentClass.
Proof. solve_decision. Defined.

Definition IncidentClass_value (e : IncidentClass) : string :=
  match e with
  | CREDENTIAL_COMPROMISE => "credential_compromise"
  | IDENTITY_REPLAY => "identity_replay"
  | ABUSE_OR_DOS => "abuse_or_dos"
  | SUPPLY_CHAIN => "supply_chain"
  | DATA_INTEGRITY => "data_integrity"
  | CONTROL_PLANE_BYPASS => "control_plane_bypass"
  | AVAILABILITY => "availability"
  end.

Module SecretReference.
Record SecretReference : Type := {
  provider : string;
  reference : string;
  version : option string;
  tenant_id : string;
  purpose : string;
  audience : list string;
}.

End SecretReference.
Abbreviation SecretReference := SecretReference.SecretReference.

Module WorkloadIdentityPolicy.
Record WorkloadIdentityPolicy : Type := {
  issuer : string;
  audience : string;
  subject_prefixes : list string;
  allowed_client_ids : list string;
  max_assertion_lifetime_seconds : Z;
  clock_skew_seconds : Z;
  require_not_before : bool;
  require_nonce : bool;
}.

#[global] Instance WorkloadIdentityPolicy_eq_dec : EqDecision WorkloadIdentityPolicy.
Proof. solve_decision. Defined.

Definition validate_policy (r : WorkloadIdentityPolicy) : outcome unit :=
  require (String.prefix "https://" (issuer r))
    (ValidationError "workload identity issuer must use HTTPS") ;~
  require (negb (bool_decide (subject_prefixes r = [])))
    (ValidationError "workload identity policy requires at least one subject prefix") ;~
  require (py_unique (subject_prefixes r))
    (ValidationError "workload identity subject prefixes must be unique") ;~
  require (py_unique (allowed_client_ids r))
    (ValidationError "workload identity client ids must be unique").

Definition create (r : WorkloadIdentityPolicy) : outcome WorkloadIdentityPolicy :=
  issuer' <~ NonBlankStr "issuer" (issuer r) ;;
  audience' <~ NonBlankStr "audience" (audience r) ;;
  subject_prefixes' <~ map_o (NonBlankStr "subject_prefixes") (subject_prefixes r) ;;
  allowed_client_ids' <~ map_o (NonBlankStr "allowed_client_ids") (allowed_client_ids r) ;;
  require ((30 <=? max_assertion_lifetime_seconds r) && (max_assertion_lifetime_seconds r <=? 900)) (ValidationError "max_assertion_lifetime_seconds") ;~
  require ((0 <=? clock_skew_seconds r) && (clock_skew_seconds r <=? 120)) (ValidationError "clock_skew_seconds") ;~
  let r := {| issuer := issuer'; audience := audience';
            subject_prefixes := subject_prefixes';
            allowed_client_ids := allowed_client_ids';
            max_assertion_lifetime_seconds := max_assertion_lifetime_seconds r;
            clock_skew_seconds := clock_skew_seconds r;
            require_not_before := require_not_before r;
            require_nonce := require_nonce r |} in
  validate_policy r ;~
  Ok r.

End WorkloadIdentityPolicy.
Abbreviation WorkloadIdentityPolicy := WorkloadIdentityPolicy.WorkloadIdentityPolicy.

Module WorkloadIdentityAssertion.
Record WorkloadIdentityAssertion : Type := {
  issuer : string;
  subject : string;
  audience : string;
  tenant_id : string;
  issued_at : datetime;
  expires_at : datetime;
  not_before : option datetime;
  nonce : option string;
  client_id : option string;
}.

#[global] Instance WorkloadIdentityAssertion_eq_dec : EqDecision WorkloadIdentityAssertion.
Proof. solve_decision. Defined.

Definition validate_times (r : WorkloadIdentityAssertion) : outcome unit :=
  require (negb (expires_at r <=? issued_at r))
    (ValidationError "workload assertion expiry must follow issuance") ;~
  require (match not_before r with Some t => negb (expires_at r <? t) | None => true end)
    (ValidationError "workload assertion not_before cannot follow expiry").

Definition create (r : WorkloadIdentityAssertion) : outcome WorkloadIdentityAssertion :=
  issuer' <~ NonBlankStr "issuer" (issuer r) ;;
  subject' <~ NonBlankStr "subject" (subject r) ;;
  audience' <~ NonBlankStr "audience" (audience r) ;;
  tenant_id' <~ NonBlankStr "tenant_id" (tenant_id r) ;;
  nonce' <~ optional (NonBlankStr "nonce") (nonce r) ;;
  client_id' <~ optional (NonBlankStr "client_id") (client_id r) ;;
  let r := {| issuer := issuer'; subject := subject'; audience := audience';
            tenant_id := tenant_id'; issued_at := issued_at r; expires_at := expires_at r;
            not_before := not_before r; nonce := nonce'; client_id := client_id' |} in
  validate_times r ;~
  Ok r.

Definition lifetime (r : WorkloadIdentityAssertion) : timedelta := expires_at r - issued_at r.

End WorkloadIdentityAssertion.
Abbreviation WorkloadIdentityAssertion := WorkloadIdentityAssertion.WorkloadIdentityAssertion.

Module SecurityAuditEvent.
Record SecurityAuditEvent : Type := {
  event_id : UUID;
  occurred_at : datetime;
  event_type : string;
  severity : SecuritySeverity;
  outcome_ : SecurityOutcome;
  tenant_id : option string;
  principal_id : option string;
  action_id : option UUID;
  request_id : option string;
  attributes : list (string * string);
}.

#[global] Instance SecurityAuditEvent_eq_dec : EqDecision SecurityAuditEvent.
Proof. solve_decision. Defined.

Definition create (r : SecurityAuditEvent) : outcome SecurityAuditEvent :=
  event_type' <~ NonBlankStr "event_type" (event_type r) ;;
  tenant_id' <~ optional (NonBlankStr "tenant_id") (tenant_id r) ;;
  principal_id' <~ optional (NonBlankStr "principal_id") (principal_id r) ;;
  request_id' <~ optional (NonBlankStr "request_id") (request_id r) ;;
  let r := {| event_id := event_id r; occurred_at := occurred_at r;
            event_type := event_type'; severity := severity r; outcome_ := outcome_ r;
            tenant_id := tenant_id'; principal_id := principal_id';
            action_id := action_id r; request_id := request_id';
            attributes := attributes r |} in
  Ok r.

End SecurityAuditEvent.
Abbreviation SecurityAuditEvent := SecurityAuditEvent.SecurityAuditEvent.

Module RateLimitPolicy.
Record RateLimitPolicy : Type := {
  policy_id : string;
  limit : Z;
  window_seconds : Z;
  burst : Z;
  max_keys : Z;
}.

#[global] Instance RateLimitPolicy_eq_dec : EqDecision RateLimitPolicy.
Proof. solve_decision. Defined.

Definition create (r : RateLimitPolicy) : outcome RateLimitPolicy :=
  policy_id' <~ NonBlankStr "policy_id" (policy_id r) ;;
  require ((1 <=? limit r) && (limit r <=? 1000000)) (ValidationError "limit") ;~
  require ((1 <=? window_seconds r) && (window_seconds r <=? 86400)) (ValidationError "window_seconds") ;~
  require ((0 <=? burst r) && (burst r <=? 1000000)) (ValidationError "burst") ;~
  require ((1 <=? max_keys r) && (max_keys r <=? 10000000)) (ValidationError "max_keys") ;~
  let r := {| policy_id := policy_id'; limit := limit r;
            window_seconds := window_seconds r; burst := burst r;
            max_keys := max_keys r |} in
  Ok r.

End RateLimitPolicy.
Abbreviation RateLimitPolicy := RateLimitPolicy.RateLimitPolicy.

Module ArtifactProvenancePolicy.
Record ArtifactProvenancePolicy : Type := {
  policy_id : string;
  required_predicate_type : string;
  allowed_builder_ids : list string;
  allowed_build_types : list string;
  require_verified_signature : bool;
}.

#[global] Instance ArtifactProvenancePolicy_eq_dec : EqDecision ArtifactProvenancePolicy.
Proof. solve_decision. Defined.

Definition validate_builders (r : ArtifactProvenancePolicy) : outcome unit :=
  require (negb (bool_decide (allowed_builder_ids r = [])))
    (ValidationError "provenance policy requires at least one trusted builder") ;~
  require (py_unique (allowed_builder_ids r))
    (ValidationError "provenance builder ids must be unique") ;~
  require (py_unique (allowed_build_types r))
    (ValidationError "provenance build types must be unique").

Definition create (r : ArtifactProvenancePolicy) : outcome ArtifactProvenancePolicy :=
  policy_id' <~ NonBlankStr "policy_id" (policy_id r) ;;
  required_predicate_type' <~ NonBlankStr "required_predicate_type" (required_predicate_type r) ;;
  allowed_builder_ids' <~ map_o (NonBlankStr "allowed_builder_ids") (allowed_builder_ids r) ;;
  allowed_build_types' <~ map_o (NonBlankStr "allowed_build_types") (allowed_build_types r) ;;
  let r := {| policy_id := policy_id'; required_predicate_type := required_predicate_type';
            allowed_builder_ids := allowed_builder_ids';
            allowed_build_types := allowed_build_types';
            require_verified_signature := require_verified_signature r |} in
  validate_builders r ;~
  Ok r.

End ArtifactProvenancePolicy.
Abbreviation ArtifactProvenancePolicy := ArtifactProvenancePolicy.ArtifactProvenancePolicy.

Module OperationalSLO.
Record OperationalSLO : Type := {
  slo_id : string;
  metric : string;
  target_ratio : pyfloat;
  window_seconds : Z;
  page_burn_rate : pyfloat;
  ticket_burn_rate : pyfloat;
}.

Definition validate_burn_rates (r : OperationalSLO) : outcome unit :=
  require (negb (float_leb (page_burn_rate r) (ticket_burn_rate r)))
    (ValidationError "page burn rate must be greater than ticket burn rate").

Definition create (r : OperationalSLO) : outcome OperationalSLO :=
  slo_id' <~ NonBlankStr "slo_id" (slo_id r) ;;
  metric' <~ NonBlankStr "metric" (metric r) ;;
  require (float_ltb (float_of_int 0) (target_ratio r) && float_leb (target_ratio r) (float_of_int 1)) (ValidationError "target_ratio") ;~
  require ((60 <=? window_seconds r) && (window_seconds r <=? 31536000)) (ValidationError "window_seconds") ;~
  require (float_ltb (float_of_int 0) (page_burn_rate r)) (ValidationError "page_burn_rate") ;~
  require (float_ltb (float_of_int 0) (ticket_burn_rate r)) (ValidationError "ticket_burn_rate") ;~
  let r := {| slo_id := slo_id'; metric := metric'; target_ratio := target_ratio r;
            window_seconds := window_seconds r; page_burn_rate := page_burn_rate r;
            ticket_burn_rate := ticket_burn_rate r |} in
  validate_burn_rates r ;~
  Ok r.

End OperationalSLO.
Abbreviation OperationalSLO := OperationalSLO.OperationalSLO.

Module IncidentResponsePolicy.
Record IncidentResponsePolicy : Type := {
  incident_class : IncidentClass;
  owner : string;
  severity : SecuritySeverity;
  acknowledge_within_seconds : Z;
  contain_within_seconds : Z;
  patch_within_seconds : option Z;
}.

#[global] Instance IncidentResponsePolicy_eq_dec : EqDecision IncidentResponsePolicy.
Proof. solve_decision. Defined.

Definition create (r : IncidentResponsePolicy) : outcome IncidentResponsePolicy :=
  owner' <~ NonBlankStr "owner" (owner r) ;;
  require ((60 <=? acknowledge_within_seconds r) && (acknowledge_within_seconds r <=? 86400)) (ValidationError "acknowledge_within_seconds") ;~
  require ((60 <=? contain_within_seconds r) && (contain_within_seconds r <=? 604800)) (ValidationError "contain_within_seconds") ;~
  require (match patch_within_seconds r with Some n => (60 <=? n) && (n <=? 2592000) | None => true end) (ValidationError "patch_within_seconds") ;~
  let r := {| incident_class := incident_class r; owner := owner'; severity := severity r;
            acknowledge_within_seconds := acknowledge_within_seconds r;
            contain_within_seconds := contain_within_seconds r;
            patch_within_seconds := patch_within_seconds r |} in
  Ok r.

End IncidentResponsePolicy.
Abbreviation IncidentResponsePolicy := IncidentResponsePolicy.IncidentResponsePolicy.

Module SecurityControlEvidence.
Record SecurityControlEvidence : Type := {
  control_id : string;
  evidence_sha256 : string;
  collected_at : datetime;
  source : string;
}.

#[global] Instance SecurityControlEvidence_eq_dec : EqDecision SecurityControlEvidence.
Proof. solve_decision. Defined.

Definition create (r : SecurityControlEvidence) : outcome SecurityControlEvidence :=
  control_id' <~ NonBlankStr "control_id" (control_id r) ;;
  evidence_sha256' <~ Sha256 "evidence_sha256" (evidence_sha256 r) ;;
  source' <~ NonBlankStr "source" (source r) ;;
  let r := {| control_id := control_id'; evidence_sha256 := evidence_sha256';
            collected_at := collected_at r; source := source' |} in
  Ok r.

End SecurityControlEvidence.
Abbreviation SecurityControlEvidence := SecurityControlEvidence.SecurityControlEvidence.

