(* ===== verification/Security.v ===== *)
(** * Security services of the runtime

    Models the runtime's [security.py].  [Module Replay] is [InMemoryReplayStore],
    [Module Identity] the verifier of workload identities with the authenticator as an
    argument, [Module Limiter] the sliding-window rate limiter with its clock readings
    as arguments, [Module Guards] the guard of secret references, the redaction of
    audit attributes and the evaluation of a service-level objective.

    A heap of [heapq] is the sorted list of its elements: only its least element is
    ever looked at or popped. *)

From Stdlib Require Import QArith.
From S2P Require Import Prelude Canonical Contracts SecurityContracts Durations Floats.
Open Scope Z_scope.

Module Replay.
Record store : Type := {
  max_entries : Z;
  claims : gmap string datetime;
  expirations : list (datetime * string);
}.

Definition new_store (max_entries : Z) : outcome store :=
  require (negb (max_entries <? 1)) (ValueError "max_entries must be positive") ;~
  Ok {| max_entries := max_entries; claims := ∅; expirations := [] |}.

(** The order of the tuples [(expires_at, key)] *)
Definition expiry_leb (a b : datetime * string) : bool :=
  (fst a <? fst b) || ((fst a =? fst b) && String.leb (snd a) (snd b)).

(** The loop of [_evict_expired], on the heap and the dict *)
Fixpoint evict (now : datetime) (heap : list (datetime * string)) (claims : gmap string datetime)
    : list (datetime * string) * gmap string datetime :=
  match heap with
  | [] => ([], claims)
  | (expires_at, key) :: rest =>
      if expires_at <=? now then
        evict now rest (if bool_decide (claims !! key = Some expires_at) then delete key claims else claims)
      else (heap, claims)
  end.

Definition evict_expired (now : datetime) : M store unit := modify (fun s =>
  let '(heap, claims) := evict now (expirations s) (claims s) in
  {| max_entries := max_entries s; claims := claims; expirations := heap |}).

Definition claim_once (key : string) (expires_at now : datetime) : M store bool :=
  evict_expired now ;;
  s <- get ;;
  if bool_decide (is_Some (claims s !! key)) then ret false
  else
    guard (negb (max_entries s <=? Z.of_nat (size (claims s))))
      (RuntimeError "replay store capacity exhausted; fail closed") ;;
    modify (fun s => {| max_entries := max_entries s; claims := <[key := expires_at]> (claims s);
                        expirations := sort_insert expiry_leb (expires_at, key) (expirations s) |}) ;;
    ret true.
End Replay.

Module Identity.
(** [s.rstrip("/")] *)
Definition rstrip_slash (s : string) : string :=
  String.string_of_list_ascii (rev (lstrip_by (fun c => bool_decide (c = Ascii.ascii_of_nat 47))
    (rev (String.list_ascii_of_string s)))).

Definition nul : string := String (Ascii.ascii_of_nat 0) "".

(** The digest under which an assertion is claimed *)
Definition replay_key (a : WorkloadIdentityAssertion) (nonce : string) : string :=
  sha256_str (WorkloadIdentityAssertion.issuer a +:+ nul +:+ WorkloadIdentityAssertion.subject a +:+
              nul +:+ WorkloadIdentityAssertion.tenant_id a +:+ nul +:+ nonce).

Section Verifier.
(** [authenticate(credential, expected_issuer, expected_audience, now)] *)
Context (authenticate : string -> string -> string -> datetime -> outcome WorkloadIdentityAssertion).
Context (policy : WorkloadIdentityPolicy).

Definition skew : timedelta := seconds (WorkloadIdentityPolicy.clock_skew_seconds policy).

(** The checks between the authentication and the claim *)
Definition check_assertion (a : WorkloadIdentityAssertion) (tenant_id : string) (checked_at : datetime)
    : outcome unit :=
  require (bool_decide (WorkloadIdentityAssertion.tenant_id a = tenant_id))
    (PermissionError "workload identity tenant mismatch") ;~
  require (bool_decide (rstrip_slash (WorkloadIdentityAssertion.issuer a) =
                        rstrip_slash (WorkloadIdentityPolicy.issuer policy)))
    (PermissionError "workload identity issuer mismatch") ;~
  require (bool_decide (WorkloadIdentityAssertion.audience a = WorkloadIdentityPolicy.audience policy))
    (PermissionError "workload identity audience mismatch") ;~
  require (existsb (fun prefix => String.prefix prefix (WorkloadIdentityAssertion.subject a))
             (WorkloadIdentityPolicy.subject_prefixes policy))
    (PermissionError "workload identity subject is not allowed") ;~
  require (bool_decide (WorkloadIdentityPolicy.allowed_client_ids policy = []) ||
           match WorkloadIdentityAssertion.client_id a with
           | Some c => mem c (WorkloadIdentityPolicy.allowed_client_ids policy)
           | None => false
           end)
    (PermissionError "workload identity client is not allowed") ;~
  require (negb (seconds (WorkloadIdentityPolicy.max_assertion_lifetime_seconds policy) <?
                 WorkloadIdentityAssertion.lifetime a))
    (PermissionError "workload identity assertion lifetime is too long") ;~
  require (negb ((checked_at + skew <? WorkloadIdentityAssertion.issued_at a) ||
                 (WorkloadIdentityAssertion.expires_at a <=? checked_at - skew)))
    (PermissionError "workload identity assertion is outside its validity window") ;~
  require (negb (WorkloadIdentityPolicy.require_not_before policy &&
                 bool_decide (WorkloadIdentityAssertion.not_before a = None)))
    (PermissionError "workload identity assertion requires not_before") ;~
  require (match WorkloadIdentityAssertion.not_before a with
           | Some t => negb (checked_at + skew <? t) | None => true end)
    (PermissionError "workload identity assertion is not active yet") ;~
  require (negb (WorkloadIdentityPolicy.require_nonce policy &&
                 bool_decide (WorkloadIdentityAssertion.nonce a = None)))
    (PermissionError "workload identity assertion requires nonce").

(** [verify_and_claim], at the reading [checked_at] of the clock *)
Definition verify_and_claim (credential tenant_id : string) (checked_at : datetime)
    : M Replay.store WorkloadIdentityAssertion :=
  guard (negb (blank credential)) (ValueError "workload identity credential must be non-empty") ;;
  a <- lift (authenticate credential (WorkloadIdentityPolicy.issuer policy)
               (WorkloadIdentityPolicy.audience policy) checked_at) ;;
  lift (check_assertion a tenant_id checked_at) ;;
  match WorkloadIdentityAssertion.nonce a with
  | None => ret a
  | Some nonce =>
      claimed <- Replay.claim_once (replay_key a nonce) (WorkloadIdentityAssertion.expires_at a + skew)
                   checked_at ;;
      guard claimed (PermissionError "workload identity assertion replay detected") ;;
      ret a
  end.
End Verifier.
End Identity.

Module Limiter.
Record RateLimitDecision : Set := { allowed : bool; remaining : Z; retry_after_seconds : Z }.

(** The buckets of the keys, and the heap of [(first + window, key, first)] *)
Record limiter : Type := {
  entries : gmap string (list Q);
  expirations : list (Q * string * Q);
}.

Definition empty : limiter := {| entries := ∅; expirations := [] |}.

Definition Qltb (x y : Q) : bool := negb (Qle_bool y x).

Definition expiry_leb (a b : Q * string * Q) : bool :=
  let '(x, k, f) := a in
  let '(y, l, g) := b in
  Qltb x y || (Qeq_bool x y &&
    ((String.leb k l && negb (bool_decide (k = l))) || (bool_decide (k = l) && Qle_bool f g))).

(** [int(x)] *)
Definition to_int (x : Q) : Z := Z.quot (Qnum x) (Z.pos (Qden x)).

Section Policy.
Context (policy : RateLimitPolicy).

Definition window : Q := inject_Z (RateLimitPolicy.window_seconds policy).
Definition capacity : Z := RateLimitPolicy.limit policy + RateLimitPolicy.burst policy.

(** [_schedule_expiration] *)
Definition schedule_expiration (key : string) (events : list Q) : M limiter unit :=
  match events with
  | [] => ret tt
  | first :: _ => modify (fun s => {| entries := entries s;
      expirations := sort_insert expiry_leb (fl_add first window, key, first) (expirations s) |})
  end.

(** [while events and events[0] <= cutoff: events.popleft()] *)
Fixpoint drop_old (cutoff : Q) (events : list Q) : list Q :=
  match events with
  | e :: rest => if Qle_bool e cutoff then drop_old cutoff rest else events
  | [] => []
  end.

(** [_prune_bucket]: the deque is changed in place. *)
Definition prune_bucket (key : string) (events : list Q) (cutoff : Q) : M limiter (option (list Q)) :=
  match drop_old cutoff events with
  | [] =>
      modify (fun s => {| entries := delete key (entries s); expirations := expirations s |}) ;;
      ret None
  | (first' :: _) as events' =>
      modify (fun s => {| entries := <[key := events']> (entries s); expirations := expirations s |}) ;;
      (match events with
       | first :: _ => if Qeq_bool first' first then ret tt else schedule_expiration key events'
       | [] => ret tt
       end) ;;
      ret (Some events')
  end.

(** Is the head of the heap the expiration of a bucket's first event? *)
Definition valid_head (entries : gmap string (list Q)) (item : Q * string * Q) : bool :=
  let '(_, key, first) := item in
  match entries !! key with
  | Some (e :: _) => Qeq_bool e first
  | _ => false
  end.

Fixpoint drop_invalid (entries : gmap string (list Q)) (heap : list (Q * string * Q)) : list (Q * string * Q) :=
  match heap with
  | item :: rest => if valid_head entries item then heap else drop_invalid entries rest
  | [] => []
  end.

(** [_next_valid_expiration] *)
Definition next_valid_expiration : M limiter (option Q) := fun s =>
  let heap := drop_invalid (entries s) (expirations s) in
  (Ok (match heap with [] => None | (expires_at, _, _) :: _ => Some expires_at end),
   {| entries := entries s; expirations := heap |}).

(** The loop of [_evict_expired] *)
Fixpoint evict_loop (fuel : nat) (now cutoff : Q) : M limiter unit :=
  match fuel with
  | O => ret tt
  | S fuel' =>
      next <- next_valid_expiration ;;
      match next with
      | None => ret tt
      | Some expires_at =>
          if Qltb now expires_at then ret tt
          else
            s <- get ;;
            match expirations s with
            | [] => ret tt
            | (_, key, first) :: rest =>
                modify (fun s => {| entries := entries s; expirations := rest |}) ;;
                (match entries s !! key with
                 | Some ((e :: _) as events) =>
                     if Qeq_bool e first then prune_bucket key events cutoff ;; ret tt else ret tt
                 | _ => ret tt
                 end) ;;
                evict_loop fuel' now cutoff
            end
      end
  end.

(** Every round pops an expiration or an event: so many rounds are enough. *)
Definition rounds (s : limiter) : nat :=
  (length (expirations s) + map_fold (fun _ events n => length events + n) 0 (entries s))%nat.

Definition evict_expired (now cutoff : Q) : M limiter unit := fun s =>
  evict_loop (S (rounds s)) now cutoff s.

Definition almost_one : Q := true_divide 999 1000.

Definition check (key : string) (now : Q) : M limiter RateLimitDecision :=
  guard (negb (blank key)) (ValueError "rate-limit key must be non-empty") ;;
  let cutoff := fl_sub now window in
  evict_expired now cutoff ;;
  s <- get ;;
  bucket <- (match entries s !! key with
             | Some events => prune_bucket key events cutoff
             | None => ret None
             end) ;;
  s <- get ;;
  let full := RateLimitPolicy.max_keys policy <=? Z.of_nat (size (entries s)) in
  if bool_decide (bucket = None) && full then
    next <- next_valid_expiration ;;
    ret {| allowed := false; remaining := 0;
           retry_after_seconds := match next with
             | Some expires_at => Z.max 1 (to_int (fl_add (fl_sub expires_at now) almost_one))
             | None => RateLimitPolicy.window_seconds policy
             end |}
  else
    let events := match bucket with Some events => events | None => [] end in
    modify (fun s => {| entries := <[key := events]> (entries s); expirations := expirations s |}) ;;
    match events with
    | first :: _ =>
        if capacity <=? Z.of_nat (length events) then
          ret {| allowed := false; remaining := 0; retry_after_seconds :=
                   Z.max 1 (to_int (fl_add (fl_sub (fl_add first window) now) almost_one)) |}
        else
          modify (fun s => {| entries := <[key := events ++ [now]]> (entries s);
                              expirations := expirations s |}) ;;
          ret {| allowed := true; remaining := capacity - Z.of_nat (length (events ++ [now]));
                 retry_after_seconds := 0 |}
    | [] =>
        guard (negb (capacity <=? 0)) (OtherError "IndexError" "deque index out of range") ;;
        modify (fun s => {| entries := <[key := [now]]> (entries s); expirations := expirations s |}) ;;
        schedule_expiration key [now] ;;
        ret {| allowed := true; remaining := capacity - 1; retry_after_seconds := 0 |}
    end.
End Policy.
End Limiter.

Module Guards.
(** [SecretReferenceGuard] *)
Record guard_config : Type := { allowed_providers : list string; require_version : bool }.

Definition new_guard (providers : list string) (require_version : bool) : outcome guard_config :=
  let providers := map py_strip (List.filter (fun p => negb (blank p)) providers) in
  require (negb (bool_decide (providers = []))) (ValueError "at least one secret provider must be allowed") ;~
  Ok {| allowed_providers := providers; require_version := require_version |}.

Definition validate_reference (g : guard_config) (r : SecretReference) (tenant_id purpose : string)
    (audience : option string) : outcome unit :=
  require (mem (SecretReference.provider r) (allowed_providers g))
    (PermissionError "secret provider is not allowed") ;~
  require (negb (require_version g && bool_decide (SecretReference.version r = None)))
    (PermissionError "production secret references must be version-pinned") ;~
  require (bool_decide (SecretReference.tenant_id r = tenant_id) &&
           bool_decide (SecretReference.purpose r = purpose))
    (PermissionError "secret reference binding mismatch") ;~
  require (match audience with
           | None => true
           | Some a => negb (bool_decide (SecretReference.audience r = [])) &&
                       mem a (SecretReference.audience r)
           end)
    (PermissionError "secret reference audience mismatch").

(** [str.lower] on the first 256 code points *)
Definition lower_char (c : Ascii.ascii) : Ascii.ascii :=
  let n := Ascii.nat_of_ascii c in
  if ((65 <=? n) && (n <=? 90))%nat || ((192 <=? n) && (n <=? 222) && negb (n =? 215))%nat
  then Ascii.ascii_of_nat (n + 32) else c.
(** [key.lower().replace("-", "_")] *)
Definition normalize_key (key : string) : string :=
  String.string_of_list_ascii (map (fun c => if bool_decide (c = Ascii.ascii_of_nat 45) then Ascii.ascii_of_nat 95 else c)
    (map lower_char (String.list_ascii_of_string key))).

Definition sensitive_fragments : list string :=
  ["access_key"; "api_key"; "apikey"; "authorization"; "cookie"; "credential"; "password";
   "private_key"; "secret"; "session"; "token"].

(** [fragment in s] *)
Definition occurs_in (fragment s : string) : bool :=
  match String.index 0 fragment s with Some _ => true | None => false end.

(** [redact_security_attributes], on attributes that are strings, as those of an event *)
Definition redact (attributes : list (string * string)) : list (string * string) :=
  fold_left (fun sanitized kv =>
    dict_set (fst kv)
      (if existsb (fun fragment => occurs_in fragment (normalize_key (fst kv))) sensitive_fragments
       then "[REDACTED]" else snd kv) sanitized) attributes [].

(** [evaluate_slo]; a constructed objective has a finite target. *)
Record SLOEvaluation : Type := {
  error_budget_fraction : pyfloat;
  burn_rate : pyfloat;
  page : bool;
  ticket : bool;
}.

Definition evaluate_slo (slo : OperationalSLO) (good total : Z) : outcome SLOEvaluation :=
  require (negb ((total <=? 0) || (good <? 0) || (total <? good)))
    (ValueError "SLO samples require 0 <= good <= total and total > 0") ;~
  match OperationalSLO.target_ratio slo with
  | Finite target =>
      let observed_bad := true_divide (total - good) (Z.to_pos total) in
      let budget := fl_sub 1 target in
      let burn := if Limiter.Qltb 0 budget then Finite (fl_div observed_bad budget)
                  else if Qeq_bool observed_bad 0 then float_of_int 0 else PosInf in
      Ok {| error_budget_fraction := Finite budget; burn_rate := burn;
            page := float_leb (OperationalSLO.page_burn_rate slo) burn;
            ticket := float_leb (OperationalSLO.ticket_burn_rate slo) burn |}
  | _ => Raise (ValidationError "target_ratio")
  end.
End Guards.
