(* ===== verification/ReplayProofs.v ===== *)
(** * One-time workload assertions: proofs

    [Module ReplaySpec]: the replay store, a dict and a heap kept in step, refines a map
    that forgets a claim when its expiry has passed.  [Module ReplayProperties]: no
    assertion is accepted twice. *)

From S2P Require Import Prelude Canonical Contracts SecurityContracts Security.

Module ReplaySpec.
Import Replay.

(** ** The abstract store: a map of live claims *)
Definition live (now : datetime) (m : gmap string datetime) : gmap string datetime :=
  filter (fun kv => now < snd kv) m.

Definition claim_spec (max : Z) (key : string) (expires_at now : datetime) (m : gmap string datetime)
    : outcome bool * gmap string datetime :=
  let m' := live now m in
  if bool_decide (is_Some (m' !! key)) then (Ok false, m')
  else if max <=? Z.of_nat (size m') then
    (Raise (RuntimeError "replay store capacity exhausted; fail closed"), m')
  else (Ok true, <[key := expires_at]> m').

(** The heap lists the claims of the dict, in order. *)
Record in_step (s : store) : Prop := {
  heap_sorted : sorted_by expiry_leb (expirations s);
  heap_nodup : NoDup (map snd (expirations s));
  heap_claims : forall e k, (e, k) ∈ expirations s <-> claims s !! k = Some e;
}.

Lemma expiry_leb_total a b : expiry_leb a b = true \/ expiry_leb b a = true.
Proof.
  unfold expiry_leb. rewrite !orb_true_iff, !andb_true_iff, !Z.ltb_lt, !Z.eqb_eq.
  destruct (Z.lt_trichotomy (fst a) (fst b)) as [|[|]]; [tauto| |tauto].
  destruct (String.leb_total (snd a) (snd b)); [left|right]; right; (split; [lia|done]).
Qed.

Lemma expiry_leb_trans a b c : expiry_leb a b = true -> expiry_leb b c = true -> expiry_leb a c = true.
Proof.
  unfold expiry_leb. rewrite !orb_true_iff, !andb_true_iff, !Z.ltb_lt, !Z.eqb_eq.
  intros [|[? H1]] [|[? H2]]; try (left; lia). right. split; [lia|]. by eapply string_leb_trans.
Qed.

Lemma expiry_leb_fst a b : expiry_leb a b = true -> fst a <= fst b.
Proof. unfold expiry_leb. rewrite orb_true_iff, andb_true_iff, Z.ltb_lt, Z.eqb_eq. lia. Qed.

(** Evicting pops exactly the expired claims. *)
Lemma evict_live now heap m :
  sorted_by expiry_leb heap -> NoDup (map snd heap) -> (forall e k, (e, k) ∈ heap <-> m !! k = Some e) ->
  let '(heap', m') := evict now heap m in
  m' = live now m /\ sorted_by expiry_leb heap' /\ NoDup (map snd heap') /\
  (forall e k, (e, k) ∈ heap' <-> m' !! k = Some e).
Proof.
  revert m. induction heap as [|[e k] heap IH]; intros m Hs Hn Hm; cbn [evict].
  - split; [|done]. assert (m = ∅) as ->; [|done]. apply map_empty. intros k.
    destruct (m !! k) as [e|] eqn:E; [apply Hm in E; by apply not_elem_of_nil in E|done].
  - cbn [map snd] in Hn. apply NoDup_cons in Hn as [Hk Hn]. inversion Hs as [|? ? Hs' Hall]; subst.
    destruct (e <=? now) eqn:He; b2p.
    + rewrite bool_decide_true by (apply Hm; by left).
      assert (Hdel : live now (delete k m) = live now m).
      { apply map_eq. intros k'. unfold live. rewrite !map_lookup_filter.
        destruct (decide (k = k')) as [<-|]; [|by rewrite lookup_delete_ne].
        assert (m !! k = Some e) as -> by (apply Hm; by left). rewrite lookup_delete_eq. cbn.
        rewrite option_guard_False by (cbn; lia). done. }
      rewrite <- Hdel. apply IH; [done|done|]. intros e' k'. split.
      * intros Hin. destruct (decide (k = k')) as [<-|].
        -- exfalso. apply Hk. apply list_elem_of_fmap. by exists (e', k).
        -- rewrite lookup_delete_ne by done. apply Hm. by right.
      * intros [Hne Hl]%lookup_delete_Some. apply Hm in Hl. apply elem_of_cons in Hl as [[= -> ->]|]; done.
    + assert (Hlive : live now m = m).
      { apply map_filter_id. intros k' e' Hl. cbn. apply Hm in Hl. apply elem_of_cons in Hl as [[= -> ->]|Hl]; [done|].
        rewrite Forall_forall in Hall. apply Hall, expiry_leb_fst in Hl. cbn in Hl. lia. }
      rewrite Hlive. split; [done|]. split; [done|]. split; [by constructor|done].
Qed.

(** The store refines the map. *)
Lemma claim_once_spec s key e now :
  in_step s ->
  let '(o, s') := claim_once key e now s in
  let '(o', m') := claim_spec (max_entries s) key e now (claims s) in
  o = o' /\ claims s' = m' /\ max_entries s' = max_entries s /\ in_step s'.
Proof.
  intros [Hs Hn Hm]. pose proof (evict_live now (expirations s) (claims s) Hs Hn Hm) as H.
  unfold claim_once, evict_expired, bind, modify, get, ret, guard, lift, require, claim_spec.
  destruct (evict now (expirations s) (claims s)) as [heap m]. destruct H as (-> & Hs' & Hn' & Hm'). cbn.
  case_bool_decide as Hk; [by repeat split; cbn; try apply Hm'|].
  destruct (max_entries s <=? _) eqn:E; cbn; [by repeat split; cbn; try apply Hm'|].
  split; [done|]. split; [done|]. split; [done|].
  assert (Hnone : live now (claims s) !! key = None) by (by apply eq_None_not_Some). split; cbn.
  - apply sort_insert_sorted; [apply expiry_leb_total|apply expiry_leb_trans|done].
  - rewrite (fmap_Permutation snd _ _ (sort_insert_perm expiry_leb (e, key) heap)). cbn. apply NoDup_cons.
    split; [|done]. intros ([e' k'] & Hk' & Hin)%list_elem_of_fmap. cbn in Hk'. subst k'.
    apply Hm' in Hin. congruence.
  - intros e' k'. rewrite (sort_insert_perm expiry_leb (e, key) heap), elem_of_cons, Hm'. split.
    + intros [[= -> ->]|H]; [by rewrite lookup_insert_eq|]. rewrite lookup_insert_ne; [done|congruence].
    + intros [[-> ->]|[? ?]]%lookup_insert_Some; auto.
Qed.

Lemma new_store_in_step max s : new_store max = Ok s -> in_step s /\ claims s = ∅ /\ max_entries s = max /\ 1 <= max.
Proof.
  unfold new_store. intros H. run_inv H. b2p. split; [|done].
  split; cbn; [constructor|constructor|]. intros e k. rewrite lookup_empty. split; [by intros ?%not_elem_of_nil|done].
Qed.
End ReplaySpec.

Module ReplayProperties.
Import Replay Identity ReplaySpec.

Section OneTime.
Context (authenticate : string -> string -> string -> datetime -> outcome WorkloadIdentityAssertion)
  (policy : WorkloadIdentityPolicy).

Abbreviation verify_and_claim := (verify_and_claim authenticate policy).
Abbreviation skew := (skew policy).

(** What is done with the store: verifications, and claims of others that share it *)
Inductive call : Type :=
| Verify (credential tenant : string)
| Claim (key : string) (expires_at : datetime).

Definition perform (c : call) (now : datetime) (s : store) : store :=
  match c with
  | Verify credential tenant => snd (verify_and_claim credential tenant now s)
  | Claim key expires_at => snd (claim_once key expires_at now s)
  end.

(** The calls, each with its reading of the clock, in the order they take the lock *)
Definition perform_all (calls : list (call * datetime)) (s : store) : store :=
  fold_left (fun s c => perform (fst c) (snd c) s) calls s.

(** A verification claims at most once. *)
Lemma verify_claims credential tenant now s :
  let '(o, s') := verify_and_claim credential tenant now s in
  (s' = s /\ forall a, o = Ok a -> check_assertion policy a tenant now = Ok tt /\
                                   WorkloadIdentityAssertion.nonce a = None) \/
  exists a nonce claimed, check_assertion policy a tenant now = Ok tt /\
    WorkloadIdentityAssertion.nonce a = Some nonce /\
    claim_once (replay_key a nonce) (WorkloadIdentityAssertion.expires_at a + skew) now s = (claimed, s') /\
    (is_ok o = true -> o = Ok a /\ claimed = Ok true).
Proof.
  unfold Identity.verify_and_claim, bind, guard, lift, require.
  destruct (negb (blank credential)); [|by left].
  destruct (authenticate _ _ _ _) as [a|e]; [|by left].
  destruct (check_assertion policy a tenant now) as [[]|e] eqn:Hc; [|by left].
  destruct (WorkloadIdentityAssertion.nonce a) as [nonce|] eqn:Hn.
  - destruct (claim_once _ _ now s) as [[[]|e] s'] eqn:Hcl; right; exists a, nonce; eexists;
      (split; [done|]); (split; [done|]); (split; [exact Hcl|]); by intros.
  - left. split; [done|]. by intros a' [= <-].
Qed.

Lemma claim_in_step s key e now : in_step s -> in_step (snd (claim_once key e now s)).
Proof.
  intros Hs. pose proof (claim_once_spec s key e now Hs) as H. destruct (claim_once key e now s) as [o s'].
  destruct (claim_spec _ _ _ _ _) as [o' m']. by destruct H as (_ & _ & _ & H).
Qed.

(** A claim that has not expired stays, and is not granted again. *)
Lemma claim_kept s key e now k expiry :
  in_step s -> claims s !! k = Some expiry -> now < expiry ->
  claims (snd (claim_once key e now s)) !! k = Some expiry /\
  (key = k -> fst (claim_once key e now s) = Ok false).
Proof.
  intros Hs Hk Hlt. pose proof (claim_once_spec s key e now Hs) as H.
  destruct (claim_once key e now s) as [o s']. unfold claim_spec in H. cbn [fst snd].
  assert (Hl : live now (claims s) !! k = Some expiry) by (by apply map_lookup_filter_Some).
  case_bool_decide as Hin; [|destruct (max_entries s <=? _)]; destruct H as (-> & -> & _ & _); cbn.
  - by split.
  - split; [done|]. intros ->. exfalso. apply Hin. by eexists.
  - destruct (decide (key = k)) as [->|Hne]; [exfalso; apply Hin; by eexists|].
    by rewrite lookup_insert_ne.
Qed.

Lemma perform_in_step c now s : in_step s -> in_step (perform c now s).
Proof.
  intros Hs. destruct c as [cr t|k e]; cbn [perform]; [|by apply claim_in_step].
  pose proof (verify_claims cr t now s) as H. destruct (verify_and_claim cr t now s) as [o s'].
  destruct H as [[-> _]|(a & n & cl & _ & _ & Hcl & _)]; [done|]. cbn.
  change s' with (snd (cl, s')). rewrite <- Hcl. by apply claim_in_step.
Qed.

Lemma perform_kept c now s k expiry :
  in_step s -> claims s !! k = Some expiry -> now < expiry -> claims (perform c now s) !! k = Some expiry.
Proof.
  intros Hs Hk Hlt. destruct c as [cr t|k' e]; cbn [perform]; [|by apply claim_kept].
  pose proof (verify_claims cr t now s) as H. destruct (verify_and_claim cr t now s) as [o s'].
  destruct H as [[-> _]|(a & n & cl & _ & _ & Hcl & _)]; [done|]. cbn.
  change s' with (snd (cl, s')). rewrite <- Hcl. by apply claim_kept.
Qed.

Lemma perform_all_in_step calls s : in_step s -> in_step (perform_all calls s).
Proof. revert s. induction calls as [|[c now] calls IH]; intros s Hs; [done|]. by apply IH, perform_in_step. Qed.

Lemma perform_all_kept calls s k expiry :
  in_step s -> claims s !! k = Some expiry -> Forall (fun c => snd c < expiry) calls ->
  claims (perform_all calls s) !! k = Some expiry.
Proof.
  revert s. induction calls as [|[c now] calls IH]; intros s Hs Hk Hall; [done|].
  apply Forall_cons in Hall as [Hlt Hall]. by apply IH; [apply perform_in_step|apply perform_kept|].
Qed.

(** An accepted assertion that carries a nonce *)
Lemma accepted_claim credential tenant now s a s' nonce :
  verify_and_claim credential tenant now s = (Ok a, s') -> WorkloadIdentityAssertion.nonce a = Some nonce ->
  check_assertion policy a tenant now = Ok tt /\
  claim_once (replay_key a nonce) (WorkloadIdentityAssertion.expires_at a + skew) now s = (Ok true, s').
Proof.
  intros H Hn. pose proof (verify_claims credential tenant now s) as Hv. rewrite H in Hv.
  destruct Hv as [[_ Hno]|(a' & n & cl & Hc & Hn' & Hcl & Ho)].
  - destruct (Hno a eq_refl) as [_ ?]. congruence.
  - destruct (Ho eq_refl) as [[= <-] ->]. rewrite Hn in Hn'. by injection Hn' as <-.
Qed.

Lemma checked_window a tenant now :
  check_assertion policy a tenant now = Ok tt -> now < WorkloadIdentityAssertion.expires_at a + skew.
Proof. unfold check_assertion. intros H. run_inv H. b2p. lia. Qed.
End OneTime.

(** C20: The replay store, which keeps a dict and a heap, behaves as a map from keys to
    expiries: a call forgets the claims that have expired by its clock; a claim of a
    key that is still there is refused, one that finds the store full raises, and any
    other is granted and remembered.  The heap goes on listing exactly the claims of
    the dict, whatever the clock does. *)
Theorem replay_store_refines authenticate policy max s0 calls key expires_at now :
  new_store max = Ok s0 ->
  let s := perform_all authenticate policy calls s0 in
  let '(o, s') := claim_once key expires_at now s in
  (o, claims s') = claim_spec (max_entries s) key expires_at now (claims s) /\
  forall e k, (e, k) ∈ expirations s' <-> claims s' !! k = Some e.
Proof.
  intros Hnew s. destruct (new_store_in_step max s0 Hnew) as (H0 & _).
  pose proof (perform_all_in_step authenticate policy calls s0 H0) as Hs. fold s in Hs.
  pose proof (claim_once_spec s key expires_at now Hs) as H.
  destruct (claim_once key expires_at now s) as [o s'], (claim_spec _ _ _ _ _) as [o' m'].
  destruct H as (-> & <- & _ & Hin). split; [done|]. apply (heap_claims _ Hin).
Qed.

(** C18: A workload assertion with a nonce is accepted once.  Whatever else is verified
    or claimed before, between and by whom: when an assertion of the same issuer,
    subject, tenant and nonce is accepted again, and no call in between read a later
    clock, then the first one had expired, skew included, and the second is another
    assertion, which expires later. *)
Theorem assertion_accepted_once authenticate policy max s0 before between s2 s4 cred1 tenant1 now1 cred2 tenant2 now2
    a b n m :
  new_store max = Ok s0 ->
  verify_and_claim authenticate policy cred1 tenant1 now1 (perform_all authenticate policy before s0) = (Ok a, s2) ->
  verify_and_claim authenticate policy cred2 tenant2 now2 (perform_all authenticate policy between s2) = (Ok b, s4) ->
  Forall (fun c => snd c <= now2) between ->
  WorkloadIdentityAssertion.nonce a = Some n -> WorkloadIdentityAssertion.nonce b = Some m ->
  replay_key a n = replay_key b m ->
  WorkloadIdentityAssertion.expires_at a + skew policy <= now2 <
    WorkloadIdentityAssertion.expires_at b + skew policy /\ a <> b.
Proof.
  intros Hnew Ha Hb Hclock Hna Hnb Hkey.
  destruct (accepted_claim _ _ _ _ _ _ _ _ _ Ha Hna) as [_ Hca].
  destruct (accepted_claim _ _ _ _ _ _ _ _ _ Hb Hnb) as [Hwin Hcb]. apply checked_window in Hwin.
  enough (Hexp : WorkloadIdentityAssertion.expires_at a + skew policy <= now2).
  { split; [done|]. intros ->. lia. }
  apply Z.nlt_ge. intros Hlt.
  pose proof (perform_all_in_step authenticate policy before s0 (proj1 (new_store_in_step max s0 Hnew))) as Hs1.
  pose proof (claim_once_spec _ (replay_key a n) (WorkloadIdentityAssertion.expires_at a + skew policy) now1 Hs1) as H.
  rewrite Hca in H. unfold claim_spec in H. case_bool_decide; [by destruct H as [[=] _]|].
  destruct (max_entries _ <=? _); [by destruct H as [[=] _]|]. destruct H as (_ & Hcl & _ & Hs2).
  assert (Hk : claims s2 !! replay_key a n = Some (WorkloadIdentityAssertion.expires_at a + skew policy))
    by (rewrite Hcl; apply lookup_insert_eq).
  pose proof (perform_all_kept authenticate policy between s2 _ _ Hs2 Hk) as Hk3.
  assert (Hall : Forall (fun c => snd c < WorkloadIdentityAssertion.expires_at a + skew policy) between)
    by (eapply Forall_impl; [exact Hclock|cbn; intros; lia]).
  specialize (Hk3 Hall). pose proof (perform_all_in_step authenticate policy between s2 Hs2) as Hs3.
  destruct (claim_kept _ (replay_key b m) (WorkloadIdentityAssertion.expires_at b + skew policy) now2 _ _ Hs3 Hk3 Hlt)
    as [_ Hno]. rewrite Hcb in Hno. by specialize (Hno (eq_sym Hkey)).
Qed.

(** ** A nonce used again, after its assertion expired *)
Definition w_policy : WorkloadIdentityPolicy := {|
  WorkloadIdentityPolicy.issuer := "https://issuer"; WorkloadIdentityPolicy.audience := "control";
  WorkloadIdentityPolicy.subject_prefixes := ["agent/"]; WorkloadIdentityPolicy.allowed_client_ids := [];
  WorkloadIdentityPolicy.max_assertion_lifetime_seconds := 300;
  WorkloadIdentityPolicy.clock_skew_seconds := 30; WorkloadIdentityPolicy.require_not_before := false;
  WorkloadIdentityPolicy.require_nonce := true |}.
Definition w_assertion (from until : Z) : WorkloadIdentityAssertion := {|
  WorkloadIdentityAssertion.issuer := "https://issuer/"; WorkloadIdentityAssertion.subject := "agent/7";
  WorkloadIdentityAssertion.audience := "control"; WorkloadIdentityAssertion.tenant_id := "acme";
  WorkloadIdentityAssertion.issued_at := seconds from; WorkloadIdentityAssertion.expires_at := seconds until;
  WorkloadIdentityAssertion.not_before := None; WorkloadIdentityAssertion.nonce := Some "n-1";
  WorkloadIdentityAssertion.client_id := None |}.
Definition w_authenticate (credential issuer audience : string) (now : datetime) : outcome WorkloadIdentityAssertion :=
  if bool_decide (credential = "first") then Ok (w_assertion 0 100)
  else if bool_decide (credential = "second") then Ok (w_assertion 150 400)
  else Raise (PermissionError "unknown credential").

Definition w_start : store := {| max_entries := 10; claims := ∅; expirations := [] |}.
Abbreviation w_verify cred now s := (verify_and_claim w_authenticate w_policy cred "acme" (seconds now) s).

Lemma w_runs : exists s2 s4, w_verify "first" 50 w_start = (Ok (w_assertion 0 100), s2) /\
  w_verify "second" 200 (perform_all w_authenticate w_policy [(Verify "first" "acme", seconds 60)] s2)
    = (Ok (w_assertion 150 400), s4).
Proof.
  exists (snd (w_verify "first" 50 w_start)).
  exists (snd (w_verify "second" 200 (perform_all w_authenticate w_policy [(Verify "first" "acme", seconds 60)]
                                       (snd (w_verify "first" 50 w_start))))).
  split; vm_compute; reflexivity.
Qed.

Lemma w_same_key : replay_key (w_assertion 0 100) "n-1" = replay_key (w_assertion 150 400) "n-1".
Proof. vm_compute. reflexivity. Qed.

Lemma w_between : Forall (fun c : call * datetime => snd c <= seconds 200) [(Verify "first" "acme", seconds 60)].
Proof. constructor; [vm_compute; discriminate|constructor]. Qed.

Lemma assertion_accepted_once_witness :
  WorkloadIdentityAssertion.expires_at (w_assertion 0 100) + skew w_policy <= seconds 200.
Proof.
  destruct w_runs as (s2 & s4 & H1 & H2).
  exact (proj1 (proj1 (assertion_accepted_once w_authenticate w_policy 10 w_start []
    [(Verify "first" "acme", seconds 60)] s2 s4 "first" "acme" (seconds 50) "second" "acme" (seconds 200)
    (w_assertion 0 100) (w_assertion 150 400) "n-1" "n-1" eq_refl H1 H2
    w_between
    eq_refl eq_refl w_same_key))).
Defined.

Lemma replay_store_refines_witness :
  let s := perform_all w_authenticate w_policy [(Claim "k" 100, 0)] w_start in
  let '(o, s') := claim_once "k" 300 50 s in
  (o, claims s') = claim_spec (max_entries s) "k" 300 50 (claims s) /\
  forall e k, (e, k) ∈ Replay.expirations s' <-> claims s' !! k = Some e.
Proof. exact (replay_store_refines w_authenticate w_policy 10 w_start [(Claim "k" 100, 0)] "k" 300 50 eq_refl). Defined.

(** An assertion is tried again while it is valid, and one second too late. *)
Example replay_detected :
  let s2 := snd (w_verify "first" 50 w_start) in
  fst (w_verify "first" 60 s2) = Raise (PermissionError "workload identity assertion replay detected") /\
  fst (w_verify "first" 130 s2) =
    Raise (PermissionError "workload identity assertion is outside its validity window").
Proof. split; vm_compute; reflexivity. Qed.
End ReplayProperties.
