(* ===== verification/LimiterProofs.v ===== *)
(** * The sliding-window rate limiter: proofs

    [Module LimiterFacts]: whatever the eviction pops, a key's bucket holds its allowed
    readings after some past cutoff.  [Module LimiterProperties]: the decisions are
    those of a log of everything that was allowed, and the buckets are bounded. *)

From Stdlib Require Import QArith.
From S2P Require Import Prelude Canonical Contracts SecurityContracts Durations Floats Security.
Open Scope Z_scope.

Module LimiterFacts.
Import Limiter.

(** ** Readings after a cutoff *)
Lemma Qltb_true x y : Qltb x y = true <-> (x < y)%Q.
Proof.
  unfold Qltb. rewrite negb_true_iff, <- not_true_iff_false, Qle_bool_iff. split; [apply Qnot_le_lt|apply Qlt_not_le].
Qed.

Definition after (cutoff : Q) (readings : list Q) : list Q := List.filter (Qltb cutoff) readings.

Lemma after_app c l1 l2 : after c (l1 ++ l2) = after c l1 ++ after c l2.
Proof. apply List.filter_app. Qed.

Lemma after_all c l : Forall (fun e => (c < e)%Q) l -> after c l = l.
Proof.
  induction 1 as [|e l He _ IH]; [done|]. cbn. rewrite (proj2 (Qltb_true c e)) by done. by f_equal.
Qed.

Lemma after_twice c c' l : (c <= c')%Q -> after c' (after c l) = after c' l.
Proof.
  intros Hc. unfold after in *. induction l as [|e l IH]; [done|]. cbn.
  destruct (Qltb c e) eqn:E; cbn; rewrite IH; [done|].
  destruct (Qltb c' e) eqn:E'; [|done]. apply Qltb_true in E'.
  assert (Qltb c e = true) by (apply Qltb_true; by eapply Qle_lt_trans). congruence.
Qed.

Definition ascending : list Q -> Prop := StronglySorted Qle.

Lemma ascending_after c l : ascending l -> ascending (after c l).
Proof.
  induction 1 as [|e l Hl IH He]; [constructor|]. cbn. destruct (Qltb c e); [|done]. constructor; [done|].
  apply Forall_forall. intros x Hx. rewrite Forall_forall in He. apply He.
  apply list_elem_of_In in Hx. apply filter_In in Hx as [Hx _]. by apply list_elem_of_In.
Qed.

Lemma drop_old_after c l : ascending l -> drop_old c l = after c l.
Proof.
  induction 1 as [|e l Hl IH He]; [done|]. cbn [drop_old].
  destruct (Qle_bool e c) eqn:E.
  - rewrite IH. cbn. unfold Qltb. by rewrite E.
  - rewrite after_all; [done|]. assert (c < e)%Q by (apply Qltb_true; unfold Qltb; by rewrite E).
    constructor; [done|]. eapply Forall_impl; [exact He|]. cbn. intros x Hx. by eapply Qlt_le_trans.
Qed.

Lemma ascending_snoc l x : ascending l -> Forall (fun e => (e <= x)%Q) l -> ascending (l ++ [x]).
Proof.
  induction 1 as [|e l Hl IH He]; intros Hx; cbn; [constructor; constructor|].
  apply Forall_cons in Hx as [Hex Hx]. constructor; [by apply IH|]. apply Forall_app. split; [done|].
  by constructor; [|constructor].
Qed.

(** ** The log of the allowed checks *)
Definition readings (key : string) (log : list (string * Q)) : list Q :=
  map snd (List.filter (fun e => bool_decide (fst e = key)) log).

Lemma readings_snoc key k now log :
  readings key (log ++ [(k, now)]) = if decide (k = key) then readings key log ++ [now] else readings key log.
Proof.
  unfold readings. rewrite List.filter_app, map_app. cbn. destruct (decide (k = key)) as [->|Hne].
  - by rewrite bool_decide_true.
  - rewrite bool_decide_false by done. cbn. by rewrite app_nil_r.
Qed.

Lemma readings_elem key log x : x ∈ readings key log -> (key, x) ∈ log.
Proof.
  intros ([k y] & -> & Hin)%list_elem_of_fmap. apply list_elem_of_In, filter_In in Hin as [Hin Hk].
  apply bool_decide_eq_true in Hk. cbn in Hk. subst k. by apply list_elem_of_In.
Qed.

Section Policy.
Context (policy : RateLimitPolicy).

Definition bucket_of (s : limiter) (key : string) : list Q := default [] (entries s !! key).

(** Each bucket holds the readings after some cutoff in the past. *)
Record tracks (cutoff : Q) (log : list (string * Q)) (s : limiter) : Prop := {
  no_empty_bucket : forall key, entries s !! key <> Some [];
  bucket_after : forall key, exists c, (c <= cutoff)%Q /\ bucket_of s key = after c (readings key log);
}.

Definition log_ascends (log : list (string * Q)) : Prop := forall key, ascending (readings key log).

Lemma tracks_later c c' log s : (c <= c')%Q -> tracks c log s -> tracks c' log s.
Proof.
  intros Hc [H1 H2]. split; [done|]. intros key. destruct (H2 key) as (x & Hx & E).
  exists x. split; [by eapply Qle_trans|done].
Qed.

(** The heap is of no consequence. *)
Lemma tracks_heap c log s heap : tracks c log s -> tracks c log {| entries := entries s; expirations := heap |}.
Proof. by intros [H1 H2]. Qed.

Lemma schedule_entries key events s :
  fst (schedule_expiration policy key events s) = Ok tt /\
  entries (snd (schedule_expiration policy key events s)) = entries s.
Proof. by destruct events. Qed.

(** Pruning a bucket leaves the readings after the cutoff. *)
Lemma prune_bucket_spec key events cutoff s :
  exists heap, prune_bucket policy key events cutoff s =
    (Ok (match drop_old cutoff events with [] => None | l => Some l end),
     {| entries := match drop_old cutoff events with
                   | [] => delete key (entries s) | l => <[key := l]> (entries s) end;
        expirations := heap |}).
Proof.
  unfold prune_bucket, bind, modify, ret. destruct (drop_old cutoff events) as [|e l]; [by eexists|].
  destruct events as [|first rest]; [by eexists|]. destruct (Qeq_bool e first); [by eexists|]. cbn. by eexists.
Qed.

Lemma prune_tracks key cutoff log s events :
  log_ascends log -> tracks cutoff log s -> entries s !! key = Some events ->
  let s' := snd (prune_bucket policy key events cutoff s) in
  tracks cutoff log s' /\ bucket_of s' key = after cutoff (readings key log) /\
  delete key (entries s') = delete key (entries s) /\ dom (entries s') ⊆ dom (entries s) /\
  fst (prune_bucket policy key events cutoff s) =
    Ok (match after cutoff (readings key log) with [] => None | l => Some l end).
Proof.
  intros Hlog [H1 H2] Hk. destruct (prune_bucket_spec key events cutoff s) as (heap & ->).
  destruct (H2 key) as (c & Hc & Hb).
  assert (Hd : drop_old cutoff events = after cutoff (readings key log)).
  { unfold bucket_of in Hb. rewrite Hk in Hb. cbn in Hb. subst events.
    rewrite drop_old_after by apply ascending_after, Hlog. by apply after_twice. }
  rewrite Hd. cbn [fst snd].
  set (m := match after cutoff (readings key log) with
            | [] => delete key (entries s) | l => <[key := l]> (entries s) end).
  assert (Hm : m !! key = match after cutoff (readings key log) with [] => None | l => Some l end).
  { unfold m. destruct (after cutoff (readings key log)); [apply lookup_delete_eq|apply lookup_insert_eq]. }
  assert (Hne : forall k, k <> key -> m !! k = entries s !! k).
  { intros k Hne. unfold m. destruct (after cutoff (readings key log));
      [by apply lookup_delete_ne|by apply lookup_insert_ne]. }
  assert (Hbk : default [] (m !! key) = after cutoff (readings key log)).
  { rewrite Hm. by destruct (after cutoff (readings key log)). }
  split; [split; cbn|split; [done|split; [|split; [|done]]]].
  - intros k. destruct (decide (k = key)) as [->|Hk']; [rewrite Hm|by rewrite Hne].
    by destruct (after cutoff (readings key log)).
  - intros k. unfold bucket_of. cbn. destruct (decide (k = key)) as [->|Hk'].
    + exists cutoff. split; [apply Qle_refl|done].
    + rewrite Hne by done. apply H2.
  - cbn. apply map_eq. intros k. destruct (decide (k = key)) as [->|Hk'];
      [by rewrite !lookup_delete_eq|]. rewrite !lookup_delete_ne by done. by apply Hne.
  - cbn. intros k. rewrite !elem_of_dom. destruct (decide (k = key)) as [->|Hk'].
    + intros _. by rewrite Hk.
    + by rewrite Hne.
Qed.
(** ** The eviction *)
Definition total (m : gmap string (list Q)) : nat :=
  map_fold (fun _ events n => length events + n)%nat 0%nat m.

Lemma total_delete m key events : m !! key = Some events -> total m = (length events + total (delete key m))%nat.
Proof. intros H. unfold total. apply (map_fold_delete_L (fun (_ : string) (l : list Q) n => (length l + n)%nat)); [intros; lia|done]. Qed.

Lemma total_insert m key l : total (<[key := l]> m) = (length l + total (delete key m))%nat.
Proof.
  rewrite (total_delete (<[key := l]> m) key l) by apply lookup_insert_eq. f_equal. f_equal. apply delete_insert_eq.
Qed.

Lemma length_sort_insert {A} (leb : A -> A -> bool) x l : length (sort_insert leb x l) = S (length l).
Proof. induction l as [|y l IH]; cbn; [done|]. destruct (leb x y); cbn; by rewrite ?IH. Qed.

Lemma drop_old_length c l : (length (drop_old c l) <= length l)%nat.
Proof. induction l as [|e l IH]; cbn; [lia|]. destruct (Qle_bool e c); cbn; lia. Qed.

(** A pruned bucket gave up an event for each expiration it scheduled. *)
Lemma prune_rounds key events cutoff s :
  entries s !! key = Some events -> (rounds (snd (prune_bucket policy key events cutoff s)) <= rounds s)%nat.
Proof.
  intros Hk. unfold rounds. fold (total (entries s)). rewrite (total_delete _ _ _ Hk).
  unfold prune_bucket, bind, modify, ret. pose proof (drop_old_length cutoff events) as Hle.
  destruct (drop_old cutoff events) as [|e l] eqn:E; cbn [snd entries expirations].
  - change (map_fold _ _ (delete key (entries s))) with (total (delete key (entries s))). lia.
  - destruct events as [|first rest]; [discriminate|]. destruct (Qeq_bool e first) eqn:Heq;
      cbn [snd entries expirations schedule_expiration modify].
    + change (map_fold _ _ (<[key := e :: l]> (entries s))) with (total (<[key := e :: l]> (entries s))).
      rewrite total_insert. lia.
    + change (map_fold _ _ (<[key := e :: l]> (entries s))) with (total (<[key := e :: l]> (entries s))).
      rewrite total_insert, length_sort_insert. cbn [drop_old] in E. destruct (Qle_bool first cutoff).
      * pose proof (drop_old_length cutoff rest) as H. rewrite E in H. cbn [length] in *. lia.
      * injection E as <- <-. exfalso. apply not_true_iff_false in Heq. apply Heq. by apply Qeq_bool_iff.
Qed.

Lemma drop_invalid_length m heap : (length (drop_invalid m heap) <= length heap)%nat.
Proof. induction heap as [|x heap IH]; cbn; [lia|]. destruct (valid_head m x); cbn; lia. Qed.

Lemma drop_invalid_head m heap x rest : drop_invalid m heap = x :: rest -> valid_head m x = true.
Proof. induction heap as [|y heap IH]; cbn; [done|]. destruct (valid_head m y) eqn:E; [by intros [= <- <-]|done]. Qed.

(** No bucket's expiration is due. *)
Definition evicted (now : Q) (s : limiter) : Prop :=
  match drop_invalid (entries s) (expirations s) with
  | [] => True
  | (expires_at, _, _) :: _ => (now < expires_at)%Q
  end.

Lemma drop_invalid_twice m heap : drop_invalid m (drop_invalid m heap) = drop_invalid m heap.
Proof.
  induction heap as [|x heap IH]; cbn; [done|]. destruct (valid_head m x) eqn:E; [cbn; by rewrite E|done].
Qed.

(** The eviction runs to its end, prunes buckets only, and adds none. *)
Lemma evict_loop_spec fuel now cutoff log s :
  log_ascends log -> tracks cutoff log s -> (rounds s < fuel)%nat ->
  let '(o, s') := evict_loop policy fuel now cutoff s in
  o = Ok tt /\ tracks cutoff log s' /\ dom (entries s') ⊆ dom (entries s) /\ evicted now s'.
Proof.
  intros Hlog. revert s. induction fuel as [|fuel IH]; intros s Ht Hf; [lia|].
  cbn [evict_loop]. unfold bind at 1, next_valid_expiration.
  pose proof (drop_invalid_length (entries s) (expirations s)) as Hlen.
  pose proof (drop_invalid_twice (entries s) (expirations s)) as Htwice.
  destruct (drop_invalid (entries s) (expirations s)) as [|[[x key] first] rest] eqn:Hd.
  { unfold ret. split; [done|]. split; [by apply tracks_heap|]. split; [done|]. unfold evicted. cbn. exact I. }
  destruct (Qltb now x) eqn:Hx.
  { unfold ret. split; [done|]. split; [by apply tracks_heap|]. split; [done|].
    unfold evicted. cbn [entries expirations]. rewrite Htwice. by apply Qltb_true. }
  pose proof (drop_invalid_head _ _ _ _ Hd) as Hvalid. unfold valid_head in Hvalid.
  unfold bind at 1, get. cbn [expirations entries]. unfold bind at 1, modify. cbn [entries].
  destruct (entries s !! key) as [[|e events]|] eqn:Hk; try discriminate. rewrite Hvalid.
  set (s1 := {| entries := entries s; expirations := rest |}).
  assert (Ht1 : tracks cutoff log s1) by by apply tracks_heap.
  pose proof (prune_tracks key cutoff log s1 (e :: events) Hlog Ht1 Hk) as (Ht2 & _ & _ & Hdom & Ho).
  pose proof (prune_rounds key (e :: events) cutoff s1 Hk) as Hr.
  assert (Hr1 : (rounds s1 < rounds s)%nat) by (unfold rounds; cbn [expirations entries s1] in *; cbn [length] in Hlen; lia).
  unfold bind at 1, bind at 1. destruct (prune_bucket policy key (e :: events) cutoff s1) as [o s2].
  cbn [fst snd] in *. subst o. unfold ret at 1. specialize (IH s2 Ht2 ltac:(lia)).
  destruct (evict_loop policy fuel now cutoff s2) as [o s3]. destruct IH as (-> & H1 & H2 & H3).
  split; [done|]. split; [done|]. split; [|done]. etransitivity; [exact H2|exact Hdom].
Qed.

(** ** Readings in any order *)

(** The clock is read before the lock is taken: the checks may take it in another
    order than that of their readings.  After the check of the key that read [x], some
    check of the limiter read the end of [x]'s window or later. *)
Definition outlived (calls : list (string * Q)) (key : string) (x : Q) : Prop :=
  exists calls1 calls2 t, calls = calls1 ++ (key, x) :: calls2 /\ t ∈ map snd calls2 /\ (x <= fl_sub t (window policy))%Q.

(** A bucket has lost only readings that were outlived. *)
Record cut (calls log : list (string * Q)) (s : limiter) : Prop := {
  cut_nonempty : forall key, entries s !! key <> Some [];
  cut_bucket : forall key, exists n, bucket_of s key = drop n (readings key log) /\
    forall x, x ∈ take n (readings key log) -> outlived calls key x;
}.

Lemma outlived_later calls c key x : outlived calls key x -> outlived (calls ++ [c]) key x.
Proof.
  intros (l1 & l2 & t & -> & Ht & Hx). exists l1, (l2 ++ [c]), t. rewrite <- app_assoc. split; [done|].
  split; [|done]. rewrite map_app. set_solver.
Qed.

Lemma cut_later calls c log s : cut calls log s -> cut (calls ++ [c]) log s.
Proof.
  intros [H1 H2]. split; [done|]. intros key. destruct (H2 key) as (n & Hb & Hn). exists n.
  split; [done|]. intros x Hx. by apply outlived_later, Hn.
Qed.

Lemma drop_old_drop c l : exists m, drop_old c l = drop m l /\ forall x, x ∈ take m l -> (x <= c)%Q.
Proof.
  induction l as [|e l (m & Hm & Hx)]; [by exists 0%nat; split; [|intros ? ?%not_elem_of_nil]|]. cbn [drop_old].
  destruct (Qle_bool e c) eqn:E.
  - exists (S m). split; [done|]. cbn. intros x [->|H]%elem_of_cons; [by apply Qle_bool_iff|by apply Hx].
  - exists 0%nat. split; [done|]. by intros ? ?%not_elem_of_nil.
Qed.

Lemma prune_cut calls now k key log s events :
  (forall e, e ∈ log -> e ∈ calls) -> cut (calls ++ [(k, now)]) log s -> entries s !! key = Some events ->
  let r := prune_bucket policy key events (fl_sub now (window policy)) s in
  cut (calls ++ [(k, now)]) log (snd r) /\ dom (entries (snd r)) ⊆ dom (entries s) /\
  fst r = Ok (entries (snd r) !! key).
Proof.
  intros Hlog [H1 H2] Hk. cbv zeta. destruct (prune_bucket_spec key events (fl_sub now (window policy)) s) as (heap & ->).
  destruct (drop_old_drop (fl_sub now (window policy)) events) as (m & Hm & Hold).
  set (kept := drop_old (fl_sub now (window policy)) events) in *. cbn [fst snd entries].
  set (es := match kept with [] => delete key (entries s) | e :: l => <[key := e :: l]> (entries s) end).
  assert (Hes : es !! key = match kept with [] => None | e :: l => Some (e :: l) end)
    by (unfold es; destruct kept; [apply lookup_delete_eq|apply lookup_insert_eq]).
  assert (Hne : forall k', k' <> key -> es !! k' = entries s !! k')
    by (intros k' Hne; unfold es; destruct kept; [by apply lookup_delete_ne|by apply lookup_insert_ne]).
  split; [split|split; [|by rewrite Hes]].
  - intros k'. destruct (decide (k' = key)) as [->|Hk']; [cbn; rewrite Hes; by destruct kept|cbn; by rewrite Hne].
  - intros k'. unfold bucket_of. cbn [entries]. destruct (decide (k' = key)) as [->|Hk']; [|rewrite Hne by done; apply H2].
    destruct (H2 key) as (n & Hb & Hn). unfold bucket_of in Hb. rewrite Hk in Hb. cbn in Hb.
    exists (n + m)%nat. rewrite Hes. split.
    + transitivity kept; [by destruct kept|]. by rewrite Hm, Hb, drop_drop.
    + intros x. rewrite <- take_take_drop, elem_of_app. intros [Hx|Hx]; [by apply Hn|].
      rewrite <- Hb in Hx. apply Hold in Hx as Hle.
      assert (Hin : (key, x) ∈ calls).
      { apply Hlog, readings_elem. eapply elem_of_subseteq; [apply subseteq_drop|]. rewrite <- Hb.
        eapply elem_of_subseteq; [apply subseteq_take|exact Hx]. }
      apply list_elem_of_split in Hin as (l1 & l2 & ->). exists l1, (l2 ++ [(k, now)]), now.
      rewrite <- app_assoc. split; [done|]. split; [|done]. rewrite map_app. set_solver.
  - intros k'. rewrite !elem_of_dom. destruct (decide (k' = key)) as [->|Hk']; [by rewrite Hk|by rewrite Hne].
Qed.

Lemma cut_heap calls log s heap : cut calls log s -> cut calls log {| entries := entries s; expirations := heap |}.
Proof. by intros [H1 H2]. Qed.

(** The eviction ends, whatever the order of the readings. *)
Lemma evict_loop_cut fuel calls now k log s :
  (forall e, e ∈ log -> e ∈ calls) -> cut (calls ++ [(k, now)]) log s -> (rounds s < fuel)%nat ->
  let '(o, s') := evict_loop policy fuel now (fl_sub now (window policy)) s in
  o = Ok tt /\ cut (calls ++ [(k, now)]) log s' /\ dom (entries s') ⊆ dom (entries s).
Proof.
  intros Hlog. revert s. induction fuel as [|fuel IH]; intros s Ht Hf; [lia|].
  cbn [evict_loop]. unfold bind at 1, next_valid_expiration.
  pose proof (drop_invalid_length (entries s) (expirations s)) as Hlen.
  destruct (drop_invalid (entries s) (expirations s)) as [|[[x key] first] rest] eqn:Hd;
    [unfold ret; split_and!; [done|by apply cut_heap|done]|].
  destruct (Qltb now x); [unfold ret; split_and!; [done|by apply cut_heap|done]|].
  pose proof (drop_invalid_head _ _ _ _ Hd) as Hvalid. unfold valid_head in Hvalid.
  unfold bind at 1, get. cbn [expirations entries]. unfold bind at 1, modify. cbn [entries].
  destruct (entries s !! key) as [[|e events]|] eqn:Hk; try discriminate. rewrite Hvalid.
  set (s1 := {| entries := entries s; expirations := rest |}).
  assert (Ht1 : cut (calls ++ [(k, now)]) log s1) by by apply cut_heap.
  pose proof (prune_cut calls now k key log s1 (e :: events) Hlog Ht1 Hk) as (Ht2 & Hdom & Ho).
  pose proof (prune_rounds key (e :: events) (fl_sub now (window policy)) s1 Hk) as Hr.
  assert (Hr1 : (rounds s1 < rounds s)%nat) by (unfold rounds; cbn [expirations entries s1] in *; cbn [length] in Hlen; lia).
  unfold bind at 1, bind at 1. destruct (prune_bucket policy key (e :: events) (fl_sub now (window policy)) s1) as [o s2].
  cbn [fst snd] in *. subst o. unfold ret at 1. specialize (IH s2 Ht2 ltac:(lia)).
  destruct (evict_loop policy fuel now (fl_sub now (window policy)) s2) as [o s3]. destruct IH as (-> & H1 & H2).
  split_and!; [done|done|]. etransitivity; [exact H2|exact Hdom].
Qed.

(** One reading more *)
Lemma cut_snoc calls key now log s heap :
  cut (calls ++ [(key, now)]) log s ->
  cut (calls ++ [(key, now)]) (log ++ [(key, now)])
    {| entries := <[key := bucket_of s key ++ [now]]> (entries s); expirations := heap |}.
Proof.
  intros [H1 H2]. split; cbn.
  - intros k. destruct (decide (key = k)) as [<-|Hne]; [rewrite lookup_insert_eq|by rewrite lookup_insert_ne].
    intros [= E%(f_equal length)]. rewrite length_app in E. cbn in E. lia.
  - intros k. unfold bucket_of at 1. cbn. rewrite readings_snoc. destruct (decide (key = k)) as [<-|Hne].
    + rewrite lookup_insert_eq. cbn. destruct (H2 key) as (n & Hb & Hn).
      exists (Nat.min n (length (readings key log))). rewrite Hb. split.
      * rewrite drop_app_le by lia. f_equal. destruct (Nat.min_spec n (length (readings key log))) as [[? ->]|[? ->]];
          [done|]. by rewrite drop_all, drop_ge by lia.
      * intros x. rewrite take_app_le by lia. intros Hx. apply Hn.
        destruct (Nat.min_spec n (length (readings key log))) as [[? E]|[? E]]; rewrite E in Hx; [done|].
        rewrite take_ge by lia. by rewrite take_ge in Hx by lia.
    + rewrite lookup_insert_ne by done. apply H2.
Qed.
End Policy.
End LimiterFacts.

Module LimiterProperties.
Import Limiter LimiterFacts.

Section Policy.
Context (policy : RateLimitPolicy).
Abbreviation window := (window policy).
Abbreviation capacity := (capacity policy).

(** The checks so far, each with its reading of the clock: the limiter and the log of
    those that were allowed *)
Definition run_checks (calls : list (string * Q)) : limiter * list (string * Q) :=
  fold_left (fun acc call =>
    let '(o, s) := check policy (fst call) (snd call) (fst acc) in
    (s, match o with
        | Ok d => if allowed d then snd acc ++ [call] else snd acc
        | Raise _ => snd acc
        end)) calls (empty, []).

(** How many checks of the key were allowed in the window that ends now *)
Definition in_window (key : string) (now : Q) (log : list (string * Q)) : Z :=
  Z.of_nat (length (after (fl_sub now window) (readings key log))).

(** The keys other than [key] that have a bucket once the expired ones are gone *)
Definition others_tracked (key : string) (now : Q) (s : limiter) : Z :=
  Z.of_nat (size (delete key (entries (snd (evict_expired policy now (fl_sub now window) s))))).

(** What holds between the checks, the last of them at [now] *)
Record limited (now : Q) (log : list (string * Q)) (s : limiter) : Prop := {
  log_sorted : log_ascends log;
  log_past : Forall (fun e => (snd e <= now)%Q) log;
  limited_tracks : tracks (fl_sub now window) log s;
  limited_keys : Z.of_nat (size (entries s)) <= RateLimitPolicy.max_keys policy;
}.

Lemma size_le (m m' : gmap string (list Q)) : dom m' ⊆ dom m -> (size m' <= size m)%nat.
Proof. intros H. rewrite <- !size_dom. by apply subseteq_size. Qed.

Lemma size_set (m : gmap string (list Q)) k l l' : m !! k = Some l -> size (<[k := l']> m) = size m.
Proof. intros H. rewrite map_size_insert_Some; [done|by eexists]. Qed.

(** The log with one more allowed check *)
Lemma log_snoc now key log :
  log_ascends log -> Forall (fun e => (snd e <= now)%Q) log ->
  log_ascends (log ++ [(key, now)]) /\ Forall (fun e => (snd e <= now)%Q) (log ++ [(key, now)]).
Proof.
  intros Hlog Hpast. split.
  - intros k. rewrite readings_snoc. destruct (decide (key = k)); [|apply Hlog]. subst k.
    apply ascending_snoc; [apply Hlog|]. apply Forall_forall. intros x Hx%readings_elem.
    rewrite Forall_forall in Hpast. by specialize (Hpast _ Hx).
  - apply Forall_app. split; [done|]. constructor; [apply Qle_refl|constructor].
Qed.

(** One reading more in a bucket *)
Lemma tracks_snoc now cutoff key log s heap :
  (cutoff < now)%Q -> tracks cutoff log s ->
  bucket_of s key = after cutoff (readings key log) ->
  tracks cutoff (log ++ [(key, now)])
    {| entries := <[key := bucket_of s key ++ [now]]> (entries s); expirations := heap |}.
Proof.
  intros Hnow [H1 H2] Hb. split; cbn.
  - intros k. destruct (decide (key = k)) as [<-|Hne]; [rewrite lookup_insert_eq|by rewrite lookup_insert_ne].
    intros [= E%(f_equal length)]. rewrite length_app in E. cbn in E. lia.
  - intros k. unfold bucket_of at 1. cbn. rewrite readings_snoc. destruct (decide (key = k)) as [<-|Hne].
    + rewrite lookup_insert_eq. exists cutoff. split; [apply Qle_refl|]. cbn. rewrite after_app, Hb. f_equal.
      cbn. by rewrite (proj2 (Qltb_true cutoff now)).
    + rewrite lookup_insert_ne by done. apply H2.
Qed.

(** The key's own bucket, after the eviction *)
Lemma own_bucket key cutoff log s1 :
  log_ascends log -> tracks cutoff log s1 ->
  exists s2,
    match entries s1 !! key with
    | Some events => prune_bucket policy key events cutoff
    | None => ret None
    end s1 = (Ok (match after cutoff (readings key log) with [] => None | l => Some l end), s2) /\
    tracks cutoff log s2 /\ bucket_of s2 key = after cutoff (readings key log) /\
    delete key (entries s2) = delete key (entries s1) /\ dom (entries s2) ⊆ dom (entries s1).
Proof.
  intros Hlog Ht. destruct (entries s1 !! key) as [events|] eqn:Hk.
  - pose proof (prune_tracks policy key cutoff log s1 events Hlog Ht Hk) as (H1 & H2 & H3 & H4 & H5).
    destruct (prune_bucket policy key events cutoff s1) as [o s2]. cbn in *. subst o. by exists s2.
  - exists s1. destruct (bucket_after _ _ _ Ht key) as (c & Hc & Hb).
    assert (Hnil : bucket_of s1 key = []) by (unfold bucket_of; by rewrite Hk).
    rewrite Hnil in Hb. rewrite <- (after_twice c cutoff _ Hc), <- Hb. cbn. by rewrite Hnil.
Qed.

Lemma retry_positive x : 1 <= Z.max 1 x.
Proof. lia. Qed.

Lemma valid_policy :
  RateLimitPolicy.create policy = Ok policy ->
  1 <= capacity /\ 1 <= RateLimitPolicy.max_keys policy /\ 1 <= RateLimitPolicy.window_seconds policy.
Proof.
  intros Hpol. unfold Limiter.capacity. unfold RateLimitPolicy.create in Hpol. run_inv Hpol. b2p.
  match goal with E : _ = policy |- _ => pose proof (f_equal RateLimitPolicy.limit E);
    pose proof (f_equal RateLimitPolicy.burst E); pose proof (f_equal RateLimitPolicy.max_keys E) end.
  cbn in *. lia.
Qed.

(** What a check decides, and what it leaves *)
Lemma check_spec t now key log s :
  RateLimitPolicy.create policy = Ok policy -> blank key = false ->
  limited t log s -> (t <= now)%Q -> (fl_sub now window < now)%Q ->
  let n := in_window key now log in
  exists d s', check policy key now s = (Ok d, s') /\
    (allowed d = true <-> n < capacity /\ (n = 0 -> others_tracked key now s < RateLimitPolicy.max_keys policy)) /\
    (allowed d = true -> remaining d = capacity - n - 1 /\ retry_after_seconds d = 0) /\
    (allowed d = false -> remaining d = 0 /\ 1 <= retry_after_seconds d) /\
    limited now (if allowed d then log ++ [(key, now)] else log) s'.
Proof.
  intros Hpol Hkey [Hlog Hpast Ht Hkeys] Htn Hnow n.
  pose proof (valid_policy Hpol) as Hcap.
  assert (Hpast' : Forall (fun e => (snd e <= now)%Q) log)
    by (eapply Forall_impl; [exact Hpast|]; cbn; intros x Hx; by eapply Qle_trans).
  apply (tracks_later _ (fl_sub now window)) in Ht; [|by apply fl_sub_mono].
  unfold others_tracked, check. unfold n, in_window. clear n. set (cutoff := fl_sub now window) in *.
  unfold bind at 1, guard, lift, require. rewrite Hkey. cbn [negb]. unfold bind at 1, evict_expired.
  pose proof (evict_loop_spec policy (S (rounds s)) now cutoff log s Hlog Ht ltac:(lia)) as He.
  destruct (evict_loop policy (S (rounds s)) now cutoff s) as [o s1]. destruct He as (-> & Ht1 & Hd1 & _).
  unfold bind at 1, get. cbn [snd].
  destruct (own_bucket key cutoff log s1 Hlog Ht1) as (s2 & Hb & Ht2 & Hb2 & Hdel & Hd2).
  unfold bind at 1. rewrite Hb. clear Hb. unfold bind at 1.
  assert (Hk2 : Z.of_nat (size (entries s2)) <= RateLimitPolicy.max_keys policy).
  { pose proof (size_le _ _ Hd1). pose proof (size_le _ _ Hd2). lia. }
  pose proof (log_snoc now key log Hlog Hpast') as [Hlog' Hpast''].
  assert (Hsnoc : forall heap, tracks cutoff (log ++ [(key, now)])
    {| entries := <[key := bucket_of s2 key ++ [now]]> (entries s2); expirations := heap |})
    by (intros; by apply tracks_snoc).
  rewrite Hb2 in Hsnoc. set (T := after cutoff (readings key log)) in *. clearbody T.
  destruct T as [|first rest].
  - assert (Hnone : entries s2 !! key = None).
    { destruct (entries s2 !! key) as [[|x l]|] eqn:E; [by apply (no_empty_bucket _ _ _ Ht2) in E| |done].
      unfold bucket_of in Hb2. by rewrite E in Hb2. }
    rewrite <- Hdel, delete_id by done. rewrite bool_decide_true by done. cbn [andb].
    destruct (RateLimitPolicy.max_keys policy <=? Z.of_nat (size (entries s2))) eqn:Hfull; b2p.
    + unfold bind, next_valid_expiration, ret. eexists _, _. split; [reflexivity|]. cbn [allowed remaining retry_after_seconds].
      split; [split; [discriminate|intros [_ H]; specialize (H eq_refl); lia]|]. split; [discriminate|].
      split; [|by split; [..|apply tracks_heap|]]. intros _. split; [done|].
      destruct (drop_invalid (entries s2) (expirations s2)) as [|[[x k] f] l]; lia.
    + unfold bind, guard, lift, require, modify, ret.
      rewrite (proj2 (Z.leb_gt capacity 0)) by lia. cbn [negb schedule_expiration modify entries expirations].
      rewrite insert_insert_eq. eexists _, _. split; [reflexivity|]. cbn [allowed remaining retry_after_seconds].
      split; [split; [intros _; split; [cbn; lia|intros _; lia]|done]|]. split; [intros _; split; [cbn; lia|done]|].
      split; [discriminate|]. split; [done|done|apply Hsnoc|]. cbn [entries].
      rewrite map_size_insert_None by done. lia.
  - assert (Hsome : entries s2 !! key = Some (first :: rest)).
    { unfold bucket_of in Hb2. destruct (entries s2 !! key) as [l|] eqn:E; cbn in Hb2; congruence. }
    rewrite bool_decide_false by done. cbn [andb]. unfold bind, modify, ret.
    rewrite insert_id by done. cbn [entries expirations].
    destruct (capacity <=? Z.of_nat (length (first :: rest))) eqn:Hfull; b2p.
    + eexists _, _. split; [reflexivity|]. cbn [allowed remaining retry_after_seconds].
      split; [split; [discriminate|lia]|]. split; [discriminate|].
      split; [intros _; split; [done|apply retry_positive]|]. split; [done|done|by apply tracks_heap|done].
    + eexists _, _. split; [reflexivity|]. cbn [allowed remaining retry_after_seconds].
      split; [split; [intros _; split; [lia|cbn [length]; lia]|done]|].
      split; [intros _; split; [rewrite length_app; cbn [length]; lia|done]|].
      split; [discriminate|]. split; [done|done|apply Hsnoc|]. cbn [entries]. by rewrite (size_set _ _ _ _ Hsome).
Qed.
(** ** Readings in any order *)

(** What holds between the checks, whatever their readings *)
Record bounded (calls log : list (string * Q)) (s : limiter) : Prop := {
  log_called : forall e, e ∈ log -> e ∈ calls;
  bounded_cut : cut policy calls log s;
  bounded_keys : Z.of_nat (size (entries s)) <= RateLimitPolicy.max_keys policy;
}.

(** All allowed readings of the key but the last ones, fewer than the capacity *)
Definition all_outlived (calls log : list (string * Q)) (key : string) : Prop :=
  forall i x, Z.of_nat i + capacity <= Z.of_nat (length (readings key log)) ->
    readings key log !! i = Some x -> outlived policy calls key x.

Lemma short_bucket calls log key s n :
  cut policy calls log s -> length (bucket_of s key) = n -> Z.of_nat n < capacity -> all_outlived calls log key.
Proof.
  intros [_ H] Hlen Hn i x Hi Hx. destruct (H key) as (m & Hb & Hm). rewrite Hb, length_drop in Hlen.
  apply Hm, (list_elem_of_lookup_2 _ i). rewrite lookup_take_lt by lia. done.
Qed.

Lemma check_bounded calls now key log s :
  1 <= capacity -> blank key = false -> bounded calls log s ->
  exists d s', check policy key now s = (Ok d, s') /\
    (allowed d = true -> all_outlived (calls ++ [(key, now)]) log key) /\
    bounded (calls ++ [(key, now)]) (if allowed d then log ++ [(key, now)] else log) s'.
Proof.
  intros Hcap Hkey [Hlog Hcut Hkeys]. set (calls' := calls ++ [(key, now)]).
  assert (Hlog' : forall e, e ∈ log -> e ∈ calls') by (intros e He; specialize (Hlog e He); set_solver).
  assert (Hlog2 : forall e, e ∈ log ++ [(key, now)] -> e ∈ calls') by (intros e [He|He]%elem_of_app; set_solver).
  unfold check. unfold bind at 1, guard, lift, require. rewrite Hkey. cbn [negb]. unfold bind at 1, evict_expired.
  pose proof (evict_loop_cut policy (S (rounds s)) calls now key log s Hlog (cut_later _ _ _ _ _ Hcut) ltac:(lia)) as He.
  destruct (evict_loop policy (S (rounds s)) now (fl_sub now window) s) as [o s1]. destruct He as (-> & Ht1 & Hd1).
  unfold bind at 1, get.
  assert (H2 : exists s2, match entries s1 !! key with
      | Some events => prune_bucket policy key events (fl_sub now window)
      | None => ret None
      end s1 = (Ok (entries s2 !! key), s2) /\ cut policy calls' log s2 /\ dom (entries s2) ⊆ dom (entries s1)).
  { destruct (entries s1 !! key) as [events|] eqn:Hk; [|exists s1; unfold ret; by rewrite Hk].
    pose proof (prune_cut policy calls now key key log s1 events Hlog Ht1 Hk) as (H1 & H2 & H3).
    destruct (prune_bucket policy key events (fl_sub now window) s1) as [o s2]. cbn in *. subst o. by exists s2. }
  destruct H2 as (s2 & Hb & Ht2 & Hd2). unfold bind at 1. rewrite Hb. clear Hb. unfold bind at 1.
  assert (Hk2 : Z.of_nat (size (entries s2)) <= RateLimitPolicy.max_keys policy).
  { pose proof (size_le _ _ Hd1). pose proof (size_le _ _ Hd2). lia. }
  pose proof (cut_snoc policy calls key now log s2) as Hsnoc. unfold bucket_of in Hsnoc.
  pose proof (short_bucket calls' log key s2 _ Ht2 eq_refl) as Hshort. unfold bucket_of in Hshort.
  destruct (entries s2 !! key) as [[|first rest]|] eqn:Hk; [by apply (cut_nonempty _ _ _ _ Ht2) in Hk| |].
  - rewrite bool_decide_false by done. cbn [andb]. unfold bind, modify, ret.
    rewrite insert_id by done. cbn [entries expirations default] in *.
    destruct (capacity <=? Z.of_nat (length (first :: rest))) eqn:Hfull; b2p; eexists _, _; (split; [reflexivity|]);
      cbn [allowed]; (split; [intros ?|]); try discriminate.
    + split; [done|by apply cut_heap|done].
    + by apply Hshort.
    + split; [done|by apply Hsnoc|]. cbn [entries]. by rewrite (size_set _ _ _ _ Hk).
  - rewrite bool_decide_true by done. cbn [andb default length] in *.
    destruct (RateLimitPolicy.max_keys policy <=? Z.of_nat (size (entries s2))) eqn:Hfull; b2p.
    + unfold bind, next_valid_expiration, ret. eexists _, _. split; [reflexivity|]. split; [discriminate|].
      cbn [allowed]. split; [done|by apply cut_heap|done].
    + unfold bind, guard, lift, require, modify, ret.
      rewrite (proj2 (Z.leb_gt capacity 0)) by lia. cbn [negb schedule_expiration modify entries expirations].
      rewrite insert_insert_eq. eexists _, _. split; [reflexivity|]. cbn [allowed].
      split; [intros _; apply Hshort; cbn; lia|]. split; [done|by apply Hsnoc|]. cbn [entries].
      rewrite map_size_insert_None by done. lia.
Qed.

Lemma run_bounded calls :
  RateLimitPolicy.create policy = Ok policy ->
  bounded calls (snd (run_checks calls)) (fst (run_checks calls)).
Proof.
  intros Hpol. induction calls as [|[k t] calls IH] using rev_ind.
  { split; cbn; [by intros ? ?%not_elem_of_nil| |rewrite map_size_empty; apply valid_policy in Hpol; lia].
    split; cbn; [intros key; by rewrite lookup_empty|]. intros key. exists 0%nat. unfold bucket_of. cbn.
    rewrite lookup_empty. split; [done|]. by intros ? ?%not_elem_of_nil. }
  unfold run_checks in *. rewrite fold_left_app. cbn [fold_left fst snd].
  destruct (fold_left _ calls (empty, [])) as [s log]. cbn [fst snd] in *.
  destruct (blank k) eqn:Hk.
  - unfold check, bind, guard, lift, require. rewrite Hk. cbn. destruct IH as [H1 H2 H3].
    split; [intros e He; specialize (H1 e He); set_solver|by apply cut_later|done].
  - apply valid_policy in Hpol. destruct (check_bounded calls t k log s) as (d & s' & Hc & _ & Hb); [lia|done|done|].
    rewrite Hc. exact Hb.
Qed.

(** ** Readings in the order of the checks *)

(** Readings of a clock that does not run backwards, of a size at which the window
    counts (below some 2^52 seconds) *)
Definition ticking (ts : list Q) : Prop :=
  ascending ts /\ Forall (fun t => (fl_sub t window < t)%Q) ts.

Lemma ascending_app l1 l2 : ascending (l1 ++ l2) ->
  ascending l1 /\ Forall (fun x => Forall (fun y => (x <= y)%Q) l2) l1.
Proof.
  induction l1 as [|x l1 IH]; cbn; intros H; [split; [constructor|constructor]|].
  inversion H as [|? ? Hs Hall]; subst. apply Forall_app in Hall as [Ha Hb]. destruct (IH Hs) as [H1 H2].
  split; constructor; done.
Qed.

Lemma ticking_snoc ts t now : ticking ((ts ++ [t]) ++ [now]) -> ticking (ts ++ [t]) /\ (t <= now)%Q.
Proof.
  intros [Ha Hf]. apply ascending_app in Ha as [Ha Hb]. apply Forall_app in Hf as [Hf _].
  split; [done|]. apply Forall_app in Hb as [_ Hb]. apply Forall_cons in Hb as [Hb _].
  by apply Forall_cons in Hb as [Hb _].
Qed.

Lemma empty_limited now :
  RateLimitPolicy.create policy = Ok policy -> limited now [] empty.
Proof.
  intros Hpol. split; [intros key; constructor|constructor|split; cbn|cbn].
  - intros key. by rewrite lookup_empty.
  - intros key. exists (fl_sub now window). split; [apply Qle_refl|]. unfold bucket_of. cbn. by rewrite lookup_empty.
  - rewrite map_size_empty. apply valid_policy in Hpol. lia.
Qed.

Lemma run_limited calls now :
  RateLimitPolicy.create policy = Ok policy -> ticking (map snd calls ++ [now]) ->
  exists t, (t <= now)%Q /\ limited t (snd (run_checks calls)) (fst (run_checks calls)).
Proof.
  intros Hpol. revert now. induction calls as [|[k t] calls IH] using rev_ind; intros now Htick.
  { exists now. split; [apply Qle_refl|by apply empty_limited]. }
  rewrite map_app in Htick. apply ticking_snoc in Htick as [Htick Hle].
  destruct (IH t Htick) as (t0 & Ht0 & Hlim). unfold run_checks in *. rewrite fold_left_app. cbn [fold_left fst snd].
  destruct (fold_left _ calls (empty, [])) as [s log]. cbn [fst snd] in *.
  destruct (blank k) eqn:Hk.
  - unfold check, bind, guard, lift, require. rewrite Hk. cbn. exists t0. split; [by eapply Qle_trans|done].
  - destruct Htick as [_ Hf]. apply Forall_app in Hf as [_ Hf]. apply Forall_cons in Hf as [Hf _].
    destruct (check_spec t0 t k log s Hpol Hk Hlim Ht0 Hf) as (d & s' & Hc & _ & _ & _ & Hlim').
    rewrite Hc. exists t. split; [done|exact Hlim'].
Qed.
End Policy.

(** C19: The rate limiter, over any sequence of checks, each with its reading of the
    clock, in the order in which they take the lock.  Whatever the readings (each is
    taken before the lock, so they need not be in that order), a check of a key that is
    not blank does not raise, no more than [max_keys] buckets are kept, and a check is
    allowed only when every earlier allowed check of the key, but for the last ones,
    fewer than the limit and the burst, was followed by a check whose reading lies beyond
    its window.  When the readings ascend in the order in which the checks take the lock,
    and the window counts at their size, the limiter decides exactly as the log of
    everything it allowed would: a check is allowed when and only when fewer checks of the
    key than the limit and the burst were allowed in the window that ends now, and, if
    there was none, fewer than [max_keys] other keys have a bucket; it tells how many
    checks remain or a positive time to wait. *)
Theorem rate_limit_exact policy calls key now :
  RateLimitPolicy.create policy = Ok policy -> blank key = false ->
  let '(s, log) := run_checks policy calls in
  exists d s', check policy key now s = (Ok d, s') /\
    Z.of_nat (size (entries s')) <= RateLimitPolicy.max_keys policy /\
    (allowed d = true ->
       forall i x, Z.of_nat i + capacity policy <= Z.of_nat (length (readings key log)) ->
         readings key log !! i = Some x ->
         exists calls1 calls2 t, calls ++ [(key, now)] = calls1 ++ (key, x) :: calls2 /\
           t ∈ map snd calls2 /\ (x <= fl_sub t (window policy))%Q) /\
    (ticking policy (map snd calls ++ [now]) ->
     let n := in_window policy key now log in
     (allowed d = true <->
        n < capacity policy /\
        (n = 0 -> others_tracked policy key now s < RateLimitPolicy.max_keys policy)) /\
     (allowed d = true -> remaining d = capacity policy - n - 1 /\ retry_after_seconds d = 0) /\
     (allowed d = false -> remaining d = 0 /\ 1 <= retry_after_seconds d)).
Proof.
  intros Hpol Hkey. pose proof (run_bounded policy calls Hpol) as Hb.
  pose proof (fun Ht => run_limited policy calls now Hpol Ht) as Hlim.
  destruct (run_checks policy calls) as [s log]. cbn [fst snd] in *. destruct (valid_policy policy Hpol) as [Hcap _].
  destruct (check_bounded policy calls now key log s Hcap Hkey Hb) as (d & s' & Hc & Hout & Hb').
  exists d, s'. split; [done|]. split; [apply (bounded_keys _ _ _ _ Hb')|]. split; [exact Hout|].
  intros Htick. destruct (Hlim Htick) as (t & Ht & Hl). destruct Htick as [_ Hf].
  apply Forall_app in Hf as [_ Hf]. apply Forall_cons in Hf as [Hf _].
  destruct (check_spec policy t now key log s Hpol Hkey Hl Ht Hf) as (d' & s'' & H1 & H2 & H3 & H4 & _).
  rewrite Hc in H1. injection H1 as <- <-. by split.
Qed.

(** ** Two checks in a window of a second, of one key at most *)
Definition w_policy : RateLimitPolicy := {|
  RateLimitPolicy.policy_id := "p"; RateLimitPolicy.limit := 2; RateLimitPolicy.window_seconds := 1;
  RateLimitPolicy.burst := 0; RateLimitPolicy.max_keys := 1 |}.
(** Tenths of a second, as a float *)
Definition tenths (n : Z) : Q := true_divide n 10.
Definition w_calls : list (string * Q) := [("a", tenths 5); ("a", tenths 7); ("a", tenths 9)].

Lemma w_ticking : ticking w_policy (map snd w_calls ++ [tenths 16]).
Proof.
  assert (Hle : forall x y, Qle_bool x y = true -> (x <= y)%Q) by (intros; by apply Qle_bool_iff).
  split; cbn [w_calls map app].
  - repeat constructor; apply Hle; vm_compute; reflexivity.
  - repeat (apply Forall_cons_2; [apply LimiterFacts.Qltb_true; vm_compute; reflexivity|]). constructor.
Qed.

Lemma w_limiter_facts : RateLimitPolicy.create w_policy = Ok w_policy /\ blank "a" = false.
Proof. split; reflexivity. Qed.

Lemma rate_limit_exact_witness :
  exists d s', check w_policy "a" (tenths 16) (fst (run_checks w_policy w_calls)) = (Ok d, s') /\
    (allowed d = true <-> in_window w_policy "a" (tenths 16) (snd (run_checks w_policy w_calls)) < 2 /\
       (in_window w_policy "a" (tenths 16) (snd (run_checks w_policy w_calls)) = 0 ->
        others_tracked w_policy "a" (tenths 16) (fst (run_checks w_policy w_calls)) < 1)).
Proof.
  pose proof (rate_limit_exact w_policy w_calls "a" (tenths 16) (proj1 w_limiter_facts) (proj2 w_limiter_facts)) as H.
  destruct (run_checks w_policy w_calls) as [s log]. destruct H as (d & s' & H & _ & _ & Hx).
  exists d, s'. split; [exact H|]. exact (proj1 (Hx w_ticking)).
Defined.

Example limiter_runs :
  map (fun call => match fst (check w_policy (fst call) (snd call) (fst (run_checks w_policy w_calls))) with
                   | Ok d => Some (allowed d, remaining d, retry_after_seconds d) | Raise _ => None end)
    [("a", tenths 10); ("a", tenths 16); ("a", tenths 18); ("b", tenths 10)]
  = [Some (false, 0, 1); Some (true, 0, 0); Some (true, 1, 0); Some (false, 0, 1)].
Proof. vm_compute. reflexivity. Qed.

(** Two checks of a key read 10.1 and 9.8 and take the lock in that order; at 11.0 one
    allowed check lies in the window and the limit is two, but the expired reading is
    behind the other in the queue: the check is refused. *)
Example unordered_readings_refused :
  let calls := [("a", tenths 101); ("a", tenths 98)] in
  in_window w_policy "a" (tenths 110) (snd (run_checks w_policy calls)) = 1 /\
  match fst (check w_policy "a" (tenths 110) (fst (run_checks w_policy calls))) with
  | Ok d => allowed d | Raise _ => true
  end = false.
Proof. split; vm_compute; reflexivity. Qed.

(** A bucket that is never evicted: 0.9 + 1 and 1.9 are the same float, but 1.9 - 1 is
    less than 0.9.  At 1.9 the expiration of the reading 0.9 is popped, the reading is
    not pruned, and no other expiration is scheduled: until the key is checked again,
    its bucket stays, and every other key is refused. *)
Definition w_leaked : limiter := fst (run_checks w_policy [("a", tenths 9); ("b", tenths 19)]).

Example expired_bucket_leaks :
  entries w_leaked !! "a" = Some [tenths 9] /\ Limiter.expirations w_leaked = [] /\
  map (fun t => match fst (check w_policy "b" (tenths t) w_leaked) with
                | Ok d => allowed d | Raise _ => true end) [20; 100; 1000000; 1000000000]
  = [false; false; false; false].
Proof. split; [|split]; vm_compute; reflexivity. Qed.
End LimiterProperties.
