(* ===== verification/GuardProofs.v ===== *)
(** * Redaction and service levels: proofs

    No credential-like attribute is exported, a page implies a ticket, and a secret
    reference that passes the guard is bound to its tenant and purpose. *)

From Stdlib Require Import QArith.
From S2P Require Import Prelude Canonical Contracts SecurityContracts Durations Floats Security.
Open Scope Z_scope.
Import Guards.

Module GuardProperties.

(** The attribute names that are redacted *)
Definition sensitive (key : string) : bool :=
  existsb (fun fragment => occurs_in fragment (normalize_key key)) sensitive_fragments.

Lemma redact_snoc attributes k v :
  redact (attributes ++ [(k, v)]) =
  dict_set k (if sensitive k then "[REDACTED]" else v) (redact attributes).
Proof. unfold redact. by rewrite fold_left_app. Qed.

(** Every exported attribute is one of the event's, and the value of a sensitive one is
    not there. *)
Theorem redaction_complete attributes k v :
  dict_get k (redact attributes) = Some v ->
  (sensitive k = true /\ v = "[REDACTED]") \/ (sensitive k = false /\ (k, v) ∈ attributes).
Proof.
  revert v. induction attributes as [|[k' v'] l IH] using rev_ind; intros v; [done|].
  rewrite redact_snoc. destruct (decide (k' = k)) as [->|Hne].
  - rewrite dict_get_set_eq. destruct (sensitive k); intros [= <-]; [by left|]. right. set_solver.
  - rewrite dict_get_set_ne by done. intros [H|[H1 H2]]%IH; [by left|]. right. set_solver.
Qed.

Lemma redaction_keeps attributes k v :
  (k, v) ∈ attributes -> is_Some (dict_get k (redact attributes)).
Proof.
  induction attributes as [|[k' v'] l IH] using rev_ind; [by intros ?%not_elem_of_nil|].
  rewrite redact_snoc. intros [Hin|Hin]%elem_of_app; (destruct (decide (k' = k)) as [->|Hne];
    [rewrite dict_get_set_eq; by eexists|rewrite dict_get_set_ne by done]); [by apply IH|].
  apply list_elem_of_singleton in Hin as [= -> ->]. done.
Qed.

Lemma float_leb_trans a b c : float_leb a b = true -> float_leb b c = true -> float_leb a c = true.
Proof.
  destruct a as [p| | |], b as [q| | |], c as [r| | |]; cbn; try done. intros H1 H2. b2p. apply Z.leb_le.
  change (Qle p r). eapply Qle_trans; [exact H1|exact H2].
Qed.

Lemma float_leb_total a b :
  float_ltb (float_of_int 0) a = true -> float_ltb (float_of_int 0) b = true ->
  float_leb a b = false -> float_leb b a = true.
Proof.
  destruct a as [p| | |], b as [q| | |]; cbn; try done. intros _ _ H. b2p. apply Z.leb_le. lia.
Qed.

(** A burn rate that pages also opens a ticket. *)
Theorem page_opens_ticket slo good total e :
  OperationalSLO.create slo = Ok slo -> evaluate_slo slo good total = Ok e ->
  page e = true -> ticket e = true.
Proof.
  intros Hs He Hp.
  assert (H : float_leb (OperationalSLO.ticket_burn_rate slo) (OperationalSLO.page_burn_rate slo) = true).
  { unfold OperationalSLO.create, OperationalSLO.validate_burn_rates in Hs. run_inv Hs. b2p.
    match goal with E : _ = slo |- _ => pose proof (f_equal OperationalSLO.page_burn_rate E) as E1;
      pose proof (f_equal OperationalSLO.ticket_burn_rate E) as E2 end. cbn in E1, E2.
    apply float_leb_total; [congruence|congruence|]. cbn in *. congruence. }
  unfold evaluate_slo in He. destruct (OperationalSLO.target_ratio slo); run_inv He; cbn in *.
  all: try done. all: subst; cbn in *; by eapply float_leb_trans.
Qed.

(** What the guard lets through *)
Theorem guarded_reference_bound g r tenant purpose audience :
  validate_reference g r tenant purpose audience = Ok tt ->
  SecretReference.provider r ∈ allowed_providers g /\
  SecretReference.tenant_id r = tenant /\ SecretReference.purpose r = purpose /\
  (require_version g = true -> SecretReference.version r <> None) /\
  (forall a, audience = Some a -> a ∈ SecretReference.audience r).
Proof.
  unfold validate_reference. intros H. run_inv H.
  repeat match goal with E : require _ _ = Ok _ |- _ => apply require_Ok in E end. b2p.
  split; [done|]. split; [done|]. split; [done|]. split.
  - intros Hv Hn. match goal with E : _ \/ _ |- _ => destruct E; b2p; congruence end.
  - intros a ->. by b2p.
Qed.

Example redact_ex :
  redact [("Api-Key", "k"); ("region", "eu"); ("X-SESSION-id", "s")]
  = [("Api-Key", "[REDACTED]"); ("region", "eu"); ("X-SESSION-id", "[REDACTED]")].
Proof. vm_compute. reflexivity. Qed.
End GuardProperties.
