(* ===== verification/Json.v ===== *)
(** * Reading JSON

    What the evidence verifiers use of [json.loads]: the detection of the encoding of
    a byte string, its decoding, and the scanner of [json.decoder], which accepts
    [NaN] and the infinities, keeps the first place and the last value of a repeated
    key, and refuses integers of more than 4300 digits.  The interpreter's recursion
    limit is not modelled: the scanner's fuel is enough for every text ([scan_enough]).
    Text holds code points below 256; a document with another one is outside the
    model, and reading it raises [beyond].  [float(literal)], the platform's
    correctly rounded conversion, is an argument that gives the float's [repr] and
    value.

    [loads_encode]: what the canonical encoder writes is read back. *)

From S2P Require Import Prelude Canonical CanonicalProofs.

Definition isc (c : Ascii.ascii) (n : nat) : bool := (Ascii.nat_of_ascii c =? n)%nat.

Definition decode_error (msg : string) : exn := OtherError "JSONDecodeError" msg.
Definition unicode_error : exn := OtherError "UnicodeDecodeError" "invalid data".
Definition beyond : exn := OtherError "NotImplementedError" "a code point above U+00FF".
Definition recursion_error : exn := OtherError "RecursionError" "maximum recursion depth exceeded".

(** ** [bytes.decode] *)
Definition within (lo hi : Z) (c : Ascii.ascii) : bool := (lo <=? byte_of c) && (byte_of c <=? hi).
Definition cont : Ascii.ascii -> bool := within 128 191.

(** A well-formed sequence of two to four bytes, for a code point above U+00FF.
    ("surrogatepass" admits the surrogates.) *)
Definition long_sequence (b : bytes) : bool :=
  match b with
  | c :: d :: rest =>
      within 196 223 c && cont d ||
      match rest with
      | e :: rest' =>
          ((isc c 224 && within 160 191 d) || (within 225 239 c && cont d)) && cont e ||
          match rest' with
          | f :: _ =>
              ((isc c 240 && within 144 191 d) || (within 241 243 c && cont d) ||
               (isc c 244 && within 128 143 d)) && cont e && cont f
          | [] => false
          end
      | [] => false
      end
  | _ => false
  end.

Fixpoint utf8_decode (b : bytes) : outcome text :=
  match b with
  | [] => Ok []
  | c :: rest =>
      if within 0 127 c then t <~ utf8_decode rest ;; Ok (c :: t)
      else
        match rest with
        | d :: rest' =>
            if within 194 195 c && cont d then
              t <~ utf8_decode rest' ;;
              Ok (chr ((Ascii.nat_of_ascii c - 192) * 64 + (Ascii.nat_of_ascii d - 128)) :: t)
            else if long_sequence b then Raise beyond else Raise unicode_error
        | [] => Raise unicode_error
        end
  end.

(** Code units of two and of four bytes *)
Fixpoint units16 (big : bool) (b : bytes) : outcome (list Z) :=
  match b with
  | [] => Ok []
  | x :: y :: rest =>
      us <~ units16 big rest ;;
      Ok ((if big then 256 * byte_of x + byte_of y else 256 * byte_of y + byte_of x) :: us)
  | _ => Raise unicode_error
  end.

Fixpoint units32 (big : bool) (b : bytes) : outcome (list Z) :=
  match b with
  | [] => Ok []
  | x :: y :: z :: w :: rest =>
      us <~ units32 big rest ;;
      let l := if big then [x; y; z; w] else [w; z; y; x] in
      Ok (foldl (fun acc c => 256 * acc + byte_of c) 0 l :: us)
  | _ => Raise unicode_error
  end.

Definition latin1_char (limit u : Z) : outcome Ascii.ascii :=
  if u <? 256 then Ok (chr (Z.to_nat u))
  else if u <=? limit then Raise beyond else Raise unicode_error.

Definition utf16_decode (big : bool) (b : bytes) : outcome text :=
  us <~ units16 big b ;; map_o (latin1_char 0xffff) us.
Definition utf32_decode (big : bool) (b : bytes) : outcome text :=
  us <~ units32 big b ;; map_o (latin1_char 0x10ffff) us.

Definition starts (prefix : list Z) (b : bytes) : bool :=
  bool_decide (map byte_of (firstn (length prefix) b) = prefix).

(** [b.decode(json.detect_encoding(b), "surrogatepass")] *)
Definition decode_document (b : bytes) : outcome text :=
  if starts [0; 0; 254; 255] b then utf32_decode true (skipn 4 b)
  else if starts [255; 254; 0; 0] b then utf32_decode false (skipn 4 b)
  else if starts [254; 255] b then utf16_decode true (skipn 2 b)
  else if starts [255; 254] b then utf16_decode false (skipn 2 b)
  else if starts [239; 187; 191] b then utf8_decode (skipn 3 b)
  else
    match map byte_of b with
    | x :: y :: z :: w :: _ =>
        if x =? 0 then if y =? 0 then utf32_decode true b else utf16_decode true b
        else if y =? 0 then
          if (z =? 0) && (w =? 0) then utf32_decode false b else utf16_decode false b
        else utf8_decode b
    | [x; y] =>
        if x =? 0 then utf16_decode true b
        else if y =? 0 then utf16_decode false b
        else utf8_decode b
    | _ => utf8_decode b
    end.

(** ** The scanner *)
Definition json_space (c : Ascii.ascii) : bool := isc c 32 || isc c 9 || isc c 10 || isc c 13.
Definition skip_ws : text -> text := lstrip_by json_space.

Definition hex_value (c : Ascii.ascii) : option nat :=
  let n := Ascii.nat_of_ascii c in
  if within 48 57 c then Some (n - 48)%nat
  else if within 97 102 c then Some (n - 87)%nat
  else if within 65 70 c then Some (n - 55)%nat
  else None.

(** [\b], [\f], [\n], [\r], [\t] and the characters that stand for themselves *)
Definition simple_escape (c : Ascii.ascii) : option Ascii.ascii :=
  if isc c 34 || isc c 92 || isc c 47 then Some c
  else if isc c 98 then Some (chr 8)
  else if isc c 102 then Some (chr 12)
  else if isc c 110 then Some (chr 10)
  else if isc c 114 then Some (chr 13)
  else if isc c 116 then Some (chr 9)
  else None.

(** [scanstring], strict, after the opening quote *)
Fixpoint scan_string (t : text) : outcome (text * text) :=
  match t with
  | [] => Raise (decode_error "Unterminated string starting at")
  | c :: rest =>
      if isc c 34 then Ok ([], rest)
      else if within 0 31 c then Raise (decode_error "Invalid control character at")
      else if isc c 92 then
        match rest with
        | [] => Raise (decode_error "Unterminated string starting at")
        | e :: rest' =>
            match simple_escape e with
            | Some x => p <~ scan_string rest' ;; Ok (x :: fst p, snd p)
            | None =>
                if isc e 117 then
                  match rest' with
                  | a :: b :: h :: l :: rest'' =>
                      match hex_value a, hex_value b, hex_value h, hex_value l with
                      | Some 0%nat, Some 0%nat, Some h, Some l =>
                          p <~ scan_string rest'' ;; Ok (chr (16 * h + l) :: fst p, snd p)
                      | Some _, Some _, Some _, Some _ => Raise beyond
                      | _, _, _, _ => Raise (decode_error "Invalid \uXXXX escape")
                      end
                  | _ => Raise (decode_error "Invalid \uXXXX escape")
                  end
                else Raise (decode_error "Invalid \escape")
            end
        end
      else p <~ scan_string rest ;; Ok (c :: fst p, snd p)
  end.

Definition digit : Ascii.ascii -> bool := within 48 57.

Fixpoint span (p : Ascii.ascii -> bool) (t : text) : text * text :=
  match t with
  | c :: rest => if p c then let q := span p rest in (c :: fst q, snd q) else ([], t)
  | [] => ([], [])
  end.

Definition number_of (ds : text) : Z := foldl (fun acc c => 10 * acc + (byte_of c - 48)) 0 ds.

(** [int(literal)] *)
Definition py_int (negative : bool) (ds : text) : outcome Z :=
  require (length ds <=? 4300)%nat
    (ValueError "Exceeds the limit (4300 digits) for integer string conversion") ;~
  Ok (if negative then - number_of ds else number_of ds).

(** The parts of a number: minus sign, integer, fraction, exponent, and the rest *)
Definition scan_sign (t : text) : text * text :=
  match t with c :: r => if isc c 45 then ([c], r) else ([], t) | [] => ([], t) end.
Definition scan_integer (t : text) : text * text :=
  match t with c :: r => if isc c 48 then ([c], r) else span digit t | [] => ([], t) end.
Definition scan_fraction (t : text) : text * text :=
  match t with
  | c :: r => if isc c 46 then match span digit r with ([], _) => ([], t) | (ds, r') => (c :: ds, r') end
              else ([], t)
  | [] => ([], t)
  end.
Definition scan_exponent (t : text) : text * text :=
  match t with
  | c :: r =>
      if isc c 101 || isc c 69 then
        let '(sg, r1) := match r with
                         | s :: r' => if isc s 43 || isc s 45 then ([s], r') else ([], r)
                         | [] => ([], r)
                         end in
        match span digit r1 with ([], _) => ([], t) | (ds, r') => (c :: sg ++ ds, r') end
      else ([], t)
  | [] => ([], t)
  end.

Section Loads.
Context (py_float : string -> string * pyfloat).

Definition float_value (literal : string) : pyval :=
  PFloat (fst (py_float literal)) (snd (py_float literal)).

Definition scan_number (t : text) : outcome (pyval * text) :=
  let '(sign, t1) := scan_sign t in
  let '(ip, t2) := scan_integer t1 in
  let '(frac, t3) := scan_fraction t2 in
  let '(ex, t4) := scan_exponent t3 in
  if bool_decide (ip = []) then Raise (decode_error "Expecting value")
  else if bool_decide (frac ++ ex = []) then
    z <~ py_int (negb (bool_decide (sign = []))) ip ;; Ok (PInt z, t4)
  else Ok (float_value (of_txt (sign ++ ip ++ frac ++ ex)), t4).

(** The constants of [scan_once] *)
Definition constants : list (text * pyval) := [
  (txt "null", PNone); (txt "true", PBool true); (txt "false", PBool false);
  (txt "NaN", PFloat "nan" NaN); (txt "Infinity", PFloat "inf" PosInf);
  (txt "-Infinity", PFloat "-inf" NegInf)].

Fixpoint strip_prefix (p t : text) : option text :=
  match p, t with
  | [], _ => Some t
  | c :: p', d :: t' => if bool_decide (c = d) then strip_prefix p' t' else None
  | _ :: _, [] => None
  end.

Fixpoint scan_constant (cs : list (text * pyval)) (t : text) : option (pyval * text) :=
  match cs with
  | [] => None
  | (p, v) :: cs' => match strip_prefix p t with
                     | Some r => Some (v, r)
                     | None => scan_constant cs' t
                     end
  end.

(** [scan_once], and the loops over the members of an object and the elements of an
    array, each at the place where a member or an element must stand *)
Fixpoint scan_once (fuel : nat) (t : text) : outcome (pyval * text) :=
  match fuel with
  | O => Raise recursion_error
  | S fuel' =>
      match t with
      | [] => Raise (decode_error "Expecting value")
      | c :: r =>
          if isc c 34 then p <~ scan_string r ;; Ok (PStr (of_txt (fst p)), snd p)
          else if isc c 123 then
            match skip_ws r with
            | d :: r' => if isc d 125 then Ok (PDict [], r') else scan_members fuel' [] (d :: r')
            | [] => Raise (decode_error "Expecting property name enclosed in double quotes")
            end
          else if isc c 91 then
            match skip_ws r with
            | d :: r' => if isc d 93 then Ok (PList [], r') else scan_elements fuel' [] (d :: r')
            | [] => Raise (decode_error "Expecting value")
            end
          else match scan_constant constants t with
               | Some p => Ok p
               | None => scan_number t
               end
      end
  end
with scan_members (fuel : nat) (d : list (string * pyval)) (t : text) : outcome (pyval * text) :=
  match fuel with
  | O => Raise recursion_error
  | S fuel' =>
      match t with
      | [] => Raise (decode_error "Expecting property name enclosed in double quotes")
      | c :: r =>
          if negb (isc c 34) then
            Raise (decode_error "Expecting property name enclosed in double quotes")
          else
            k <~ scan_string r ;;
            match skip_ws (snd k) with
            | [] => Raise (decode_error "Expecting ':' delimiter")
            | c1 :: r1 =>
                if negb (isc c1 58) then Raise (decode_error "Expecting ':' delimiter")
                else
                  v <~ scan_once fuel' (skip_ws r1) ;;
                  let d' := dict_set (of_txt (fst k)) (fst v) d in
                  match skip_ws (snd v) with
                  | [] => Raise (decode_error "Expecting ',' delimiter")
                  | c2 :: r2 =>
                      if isc c2 125 then Ok (PDict d', r2)
                      else if isc c2 44 then scan_members fuel' d' (skip_ws r2)
                      else Raise (decode_error "Expecting ',' delimiter")
                  end
            end
      end
  end
with scan_elements (fuel : nat) (l : list pyval) (t : text) : outcome (pyval * text) :=
  match fuel with
  | O => Raise recursion_error
  | S fuel' =>
      v <~ scan_once fuel' t ;;
      match skip_ws (snd v) with
      | [] => Raise (decode_error "Expecting ',' delimiter")
      | c2 :: r2 =>
          if isc c2 93 then Ok (PList (l ++ [fst v]), r2)
          else if isc c2 44 then scan_elements fuel' (l ++ [fst v]) (skip_ws r2)
          else Raise (decode_error "Expecting ',' delimiter")
      end
  end.

Definition loads_text (t : text) : outcome pyval :=
  p <~ scan_once (2 * length t + 2) (skip_ws t) ;;
  require (bool_decide (skip_ws (snd p) = [])) (decode_error "Extra data") ;~
  Ok (fst p).

(** [json.loads(payload)] *)
Definition loads (b : bytes) : outcome pyval := t <~ decode_document b ;; loads_text t.
End Loads.

Definition sample_float (s : string) : string * pyfloat := (s, float_of_int 0).

(** A document with its double quotes written as single ones *)
Definition doc (s : string) : text := map (fun c => if isc c 39 then dq else c) (txt s).

Example loads_ex :
  loads sample_float (doc " {'a': [1, -20, true, null], 'b': 1.5e3, 'a': 'x\u00e9\n'} ") =
  Ok (PDict [("a", PStr (of_txt (txt "x" ++ [chr 233; chr 10]))); ("b", PFloat "1.5e3" (float_of_int 0))]).
Proof. vm_compute. reflexivity. Qed.

Example loads_errors :
  loads sample_float (txt "[1,]") = Raise (decode_error "Expecting value") /\
  loads sample_float (txt "01") = Raise (decode_error "Extra data") /\
  loads sample_float (txt "[NaN, -Infinity]") = Ok (PList [PFloat "nan" NaN; PFloat "-inf" NegInf]) /\
  loads sample_float [chr 195] = Raise unicode_error /\
  loads sample_float [chr 91; chr 0; chr 93; chr 0] = Ok (PList []).
Proof. repeat split; vm_compute; reflexivity. Qed.
