(* ===== verification/JsonProofs.v ===== *)
(** * What the canonical encoder writes is read back

    The scanner inverts the encoder, token by token: strings, numbers and the
    sequences of elements and members.  [loads_encode] puts them together with
    UTF-8; [loads_tidy] says what shape any value read has; [scan_enough] that the
    fuel never runs out. *)

From S2P Require Import Prelude Canonical CanonicalProofs Contracts Json.

Lemma isc_eq c n : isc c n = true -> c = chr n.
Proof. intros H. apply Nat.eqb_eq in H as <-. symmetry. apply Ascii.ascii_nat_embedding. Qed.

(** What may follow a value inside an array or an object *)
Definition stop (k : text) : Prop :=
  match k with [] => True | c :: _ => isc c 44 || isc c 93 || isc c 125 = true end.

Ltac all_chars c := destruct c as [[] [] [] [] [] [] [] []].

Lemma stop_not p k :
  (forall c, isc c 44 || isc c 93 || isc c 125 = true -> p c = false) ->
  stop k -> forall c r, k = c :: r -> p c = false.
Proof. intros Hp Hk c r ->. by apply Hp. Qed.

Lemma stop_digit k : stop k -> forall c r, k = c :: r -> digit c = false.
Proof. apply stop_not. intros c. all_chars c; vm_compute; congruence. Qed.

(** ** Strings *)
Lemma scan_string_char c X :
  scan_string (json_escape c ++ X) = (p <~ scan_string X ;; Ok (c :: fst p, snd p)).
Proof. all_chars c; reflexivity. Qed.

Lemma scan_string_escaped s r : scan_string (flat_map json_escape s ++ dq :: r) = Ok (s, r).
Proof.
  induction s as [|c s IH]; [reflexivity|]. cbn [flat_map]. rewrite <- app_assoc, scan_string_char, IH.
  reflexivity.
Qed.

(** ** Numbers *)
Lemma span_all p a k :
  Forall (fun c => p c = true) a -> (forall c r, k = c :: r -> p c = false) -> span p (a ++ k) = (a, k).
Proof.
  intros Ha Hk. induction Ha as [|c a Hc Ha IH]; cbn [app].
  - destruct k as [|c r]; [done|]. simpl. by rewrite (Hk _ _ eq_refl).
  - simpl. by rewrite Hc, IH.
Qed.

Lemma span_app p t k :
  (forall c r, k = c :: r -> p c = false) ->
  span p (t ++ k) = (fst (span p t), snd (span p t) ++ k).
Proof.
  intros Hk. induction t as [|c t IH]; cbn [app].
  - destruct k as [|c r]; [done|]. simpl. by rewrite (Hk _ _ eq_refl).
  - simpl. destruct (p c); [|done]. by rewrite IH.
Qed.

Section Parts.
Context (k : text) (Hk : stop k).

Definition extends (scan : text -> text * text) : Prop :=
  forall t, scan (t ++ k) = (fst (scan t), snd (scan t) ++ k).

Lemma sign_app : extends scan_sign.
Proof.
  intros [|c t]; simpl; [|by destruct (isc c 45)].
  destruct k as [|c r]; [done|]. simpl in *.
  assert (isc c 45 = false) as -> by (revert Hk; all_chars c; vm_compute; congruence). done.
Qed.

Lemma integer_app : extends scan_integer.
Proof.
  intros [|c t]; cbn [app].
  - destruct k as [|c r]; [done|]. cbn [scan_integer fst snd].
    assert (isc c 48 = false) as -> by (revert Hk; all_chars c; vm_compute; congruence).
    simpl. by rewrite (stop_digit _ Hk _ _ eq_refl).
  - unfold scan_integer. destruct (isc c 48); [done|]. apply (span_app digit (c :: t)), stop_digit, Hk.
Qed.

Lemma fraction_app : extends scan_fraction.
Proof.
  intros [|c t]; cbn [app].
  - destruct k as [|c r]; [done|]. cbn [scan_fraction fst snd].
    assert (isc c 46 = false) as -> by (revert Hk; all_chars c; vm_compute; congruence). done.
  - unfold scan_fraction. destruct (isc c 46); [|done].
    rewrite span_app by by apply stop_digit. destruct (span digit t) as [[|d ds] r]; done.
Qed.

Lemma exponent_app : extends scan_exponent.
Proof.
  intros [|c t]; cbn [app].
  - destruct k as [|c r]; [done|]. cbn [scan_exponent fst snd].
    assert (isc c 101 || isc c 69 = false) as -> by (revert Hk; all_chars c; vm_compute; congruence). done.
  - unfold scan_exponent. destruct (isc c 101 || isc c 69); [|done].
    destruct t as [|s t]; cbn [app].
    + destruct k as [|s r]; [done|].
      assert (isc s 43 || isc s 45 = false) as -> by (revert Hk; all_chars s; vm_compute; congruence).
      simpl. by rewrite (stop_digit _ Hk _ _ eq_refl).
    + destruct (isc s 43 || isc s 45).
      * rewrite span_app by by apply stop_digit. destruct (span digit t) as [[|d ds] r]; done.
      * change (s :: t ++ k) with ((s :: t) ++ k).
        rewrite span_app by by apply stop_digit. destruct (span digit (s :: t)) as [[|d ds] r]; done.
Qed.
End Parts.

Section Scanner.
Context (py_float : string -> string * pyfloat).

Lemma scan_number_app t v u k :
  scan_number py_float t = Ok (v, u) -> stop k -> scan_number py_float (t ++ k) = Ok (v, u ++ k).
Proof.
  unfold scan_number. intros H Hk. rewrite (sign_app k Hk). destruct (scan_sign t) as [sg t1].
  cbn [fst snd]. rewrite (integer_app k Hk). destruct (scan_integer t1) as [ip t2].
  cbn [fst snd]. rewrite (fraction_app k Hk). destruct (scan_fraction t2) as [fr t3].
  cbn [fst snd]. rewrite (exponent_app k Hk). destruct (scan_exponent t3) as [ex t4].
  cbn [fst snd] in *. destruct (bool_decide (ip = [])); [done|].
  destruct (bool_decide (fr ++ ex = [])).
  - destruct (py_int _ _); [|done]. simpl in *. by injection H as <- <-.
  - by injection H as <- <-.
Qed.

(** The decimal digits of a positive number *)
Lemma number_of_snoc ds c : number_of (ds ++ [c]) = 10 * number_of ds + (byte_of c - 48).
Proof. unfold number_of. by rewrite foldl_app. Qed.

Lemma pretty_char d : (d < 10)%N ->
  digit (pretty_N_char d) = true /\ byte_of (pretty_N_char d) - 48 = Z.of_N d /\
  isc (pretty_N_char d) 48 = (d =? 0)%N.
Proof.
  intros H. assert (d = 0 \/ d = 1 \/ d = 2 \/ d = 3 \/ d = 4 \/ d = 5 \/ d = 6 \/ d = 7 \/ d = 8 \/ d = 9)%N
    as Hd by lia.
  destruct Hd as [->|[->|[->|[->|[->|[->|[->|[->|[->| ->]]]]]]]]]; repeat split; reflexivity.
Qed.

Lemma pretty_digits x s : (0 < x)%N -> exists c ds,
  txt (pretty_N_go x s) = (c :: ds) ++ txt s /\ Forall (fun c => digit c = true) (c :: ds) /\
  isc c 48 = false /\ number_of (c :: ds) = Z.of_N x.
Proof.
  revert s. induction (N.lt_wf_0 x) as [x _ IH]; intros s Hx. rewrite pretty_N_go_step by done.
  pose proof (N.mod_lt x 10 ltac:(done)) as Hm. destruct (pretty_char _ Hm) as (Hd & Hv & Hz).
  destruct (decide (x / 10 = 0)%N) as [E|Hne].
  - rewrite E, pretty_N_go_0. exists (pretty_N_char (x mod 10)), []. simpl. split; [done|].
    pose proof (N.div_mod x 10 ltac:(done)) as Hx'. rewrite E in Hx'.
    assert (Ex : (x mod 10 = x)%N) by lia. split; [by repeat constructor|]. split.
    + rewrite Hz. apply N.eqb_neq. lia.
    + unfold number_of. cbn [foldl]. rewrite Ex in *. lia.
  - destruct (IH (x / 10)%N ltac:(by apply N.div_lt) (String (pretty_N_char (x mod 10)) s) ltac:(by apply N.neq_0_lt_0))
      as (c & ds & E & Hf & Hc & Hn).
    exists c, (ds ++ [pretty_N_char (x mod 10)]). split.
    { rewrite E. simpl. by rewrite <- app_assoc. }
    rewrite app_comm_cons. split; [by apply Forall_app; split; [|repeat constructor]|]. split; [done|].
    rewrite number_of_snoc, Hn, Hv. pose proof (N.div_mod x 10 ltac:(done)). lia.
Qed.

Lemma pretty_pos p : exists c ds,
  txt (pretty (Npos p)) = c :: ds /\ Forall (fun c => digit c = true) (c :: ds) /\
  isc c 48 = false /\ number_of (c :: ds) = Zpos p.
Proof.
  destruct (pretty_digits (Npos p) "" ltac:(done)) as (c & ds & E & H). exists c, ds.
  rewrite app_nil_r in E. split; [|exact H]. unfold pretty, pretty_N. by rewrite decide_False.
Qed.

(** An integer that [int] agrees to read *)
Definition readable_int (z : Z) : bool := (length (txt (pretty (Z.abs z))) <=? 4300)%nat.

Lemma scan_digits neg c ds k :
  Forall (fun c => digit c = true) (c :: ds) -> isc c 48 = false -> (length (c :: ds) <= 4300)%nat ->
  stop k ->
  scan_integer ((c :: ds) ++ k) = (c :: ds, k) /\
  py_int neg (c :: ds) = Ok (if neg then - number_of (c :: ds) else number_of (c :: ds)).
Proof.
  intros Hf Hc Hl Hk. split.
  - simpl. rewrite Hc. apply (span_all digit (c :: ds)); [done|by apply stop_digit].
  - unfold py_int. apply Nat.leb_le in Hl. by rewrite Hl.
Qed.

Lemma stop_parts k : stop k ->
  scan_fraction k = ([], k) /\ scan_exponent k = ([], k).
Proof.
  intros Hk. split; [apply (fraction_app k Hk [])|apply (exponent_app k Hk [])].
Qed.

Lemma scan_int_parts sg ip t k :
  scan_sign t = (sg, ip ++ k) -> scan_integer (ip ++ k) = (ip, k) -> ip <> [] -> stop k ->
  scan_number py_float t = (z <~ py_int (negb (bool_decide (sg = []))) ip ;; Ok (PInt z, k)).
Proof.
  intros Es Ei Hne Hk. destruct (stop_parts k Hk) as [Ef Ee]. unfold scan_number.
  by rewrite Es, Ei, Ef, Ee, bool_decide_false.
Qed.

Lemma scan_int z k : readable_int z = true -> stop k ->
  scan_number py_float (txt (pretty z) ++ k) = Ok (PInt z, k).
Proof.
  unfold readable_int. intros Hl Hk. apply Nat.leb_le in Hl.
  destruct z as [|p|p]; [by rewrite (scan_int_parts [] [chr 48] _ k)|..];
    destruct (pretty_pos p) as (c & ds & E & Hf & Hc & Hn);
    change (length (txt (pretty (Npos p))) <= 4300)%nat in Hl; rewrite E in Hl.
  - change (pretty (Zpos p)) with (pretty (Npos p)). rewrite E. destruct (scan_digits false c ds k Hf Hc Hl Hk) as [Es Ei].
    rewrite (scan_int_parts [] (c :: ds) _ k); [|simpl|done|done|done].
    { simpl negb. rewrite Ei, Hn. done. }
    inversion Hf as [|? ? Hd _]; subst.
    assert (isc c 45 = false) as -> by (revert Hd; all_chars c; vm_compute; congruence). done.
  - change (txt (pretty (Zneg p))) with (chr 45 :: txt (pretty (Npos p))). rewrite E.
    destruct (scan_digits true c ds k Hf Hc Hl Hk) as [Es Ei].
    rewrite (scan_int_parts [chr 45] (c :: ds) _ k); [|done..].
    simpl negb. rewrite Ei, Hn. done.
Qed.

(** A float whose [repr] the scanner reads as that float *)
Definition readable_float (r : string) : bool :=
  bool_decide (scan_number py_float (txt r) = Ok (float_value py_float r, [])) &&
  match py_float r with (r', Finite _) => bool_decide (r' = r) | _ => false end.

(** The scanner never takes a number's text for a constant or another token. *)
Lemma strip_prefix_app p t r : strip_prefix p t = Some r -> t = p ++ r.
Proof.
  revert t. induction p as [|c p IH]; intros [|d t]; simpl; try congruence.
  destruct (bool_decide (c = d)) eqn:E; [|done]. apply bool_decide_eq_true in E as ->.
  intros H. by rewrite (IH _ H).
Qed.

Lemma number_not_constant t p : scan_number py_float t = Ok p -> scan_constant constants t = None.
Proof.
  intros H. unfold constants, scan_constant.
  repeat match goal with |- context [strip_prefix ?p t] =>
    let E := fresh in destruct (strip_prefix p t) eqn:E;
      [apply strip_prefix_app in E; subst t; discriminate H|clear E] end. done.
Qed.

Lemma number_head t p : scan_number py_float t = Ok p -> exists c r, t = c :: r /\
  isc c 34 = false /\ isc c 123 = false /\ isc c 91 = false.
Proof.
  destruct t as [|c r]; [discriminate|]. exists c, r. split; [done|].
  repeat split; apply not_true_iff_false; intros E; apply isc_eq in E as ->; discriminate.
Qed.

Lemma scan_once_number n t p : scan_number py_float t = Ok p -> scan_once py_float (S n) t = Ok p.
Proof.
  intros H. pose proof (number_not_constant _ _ H) as Hc.
  destruct (number_head _ _ H) as (c & r & -> & E1 & E2 & E3).
  cbn [scan_once]. by rewrite E1, E2, E3, Hc.
Qed.

(** ** Values

    A value is readable when the encoder writes it so that the scanner reads it:
    its keys are distinct, its floats are finite and its integers not too long. *)
Fixpoint readable (j : json) : bool :=
  match j with
  | JInt z => readable_int z
  | JFloat r => float_repr r && readable_float r
  | JNonFinite => false
  | JArr l => forallb readable l
  | JObj d => py_unique (map fst d) && forallb (fun '(_, x) => readable x) d
  | _ => true
  end.

(** What is read back *)
Fixpoint revive (j : json) : pyval :=
  match j with
  | JNull => PNone
  | JBool b => PBool b
  | JInt z => PInt z
  | JFloat r => float_value py_float r
  | JNonFinite => PFloat "nan" NaN
  | JStr s => PStr s
  | JArr l => PList (map revive l)
  | JObj d => PDict (map (on_value revive) d)
  end.

Lemma readable_wf j : readable j = true -> wf_json j = true.
Proof.
  induction j as [| | | | | |l IH|d IH] using json_ind'; try done; simpl.
  - by intros [? _]%andb_true_iff.
  - rewrite !forallb_forall. rewrite List.Forall_forall in IH. auto.
  - intros Hw. b2p. apply andb_true_iff. split; [done|]. rewrite List.Forall_forall in IH.
    rewrite !forallb_forall in *. intros [k x] Hin. apply (IH _ Hin). exact (H0 _ Hin).
Qed.

Lemma revive_normalize j : readable j = true -> normalize (revive j) = j.
Proof.
  induction j as [| | |r| | |l IH|d IH] using json_ind'; try done; simpl.
  - intros Hr. b2p. unfold readable_float in H0. b2p.
    destruct (py_float r) as [r' [q| | |]]; try discriminate. b2p. by subst.
  - rewrite forallb_forall. intros Hl. f_equal. rewrite map_map. etransitivity; [|apply map_id].
    apply map_ext_in. rewrite List.Forall_forall in IH. auto.
  - intros Hw. b2p. rewrite forallb_forall in H0. f_equal. rewrite map_map.
    etransitivity; [|apply map_id]. apply map_ext_in. intros [k x] Hin. rewrite List.Forall_forall in IH.
    unfold on_value. simpl. f_equal. apply (IH _ Hin). exact (H0 _ Hin).
Qed.

(** The first character of an encoded value *)
Lemma plain_solid j k : wf_json j = true -> exists c t, plain j ++ k = c :: t /\
  json_space c = false /\ isc c 93 = false /\ isc c 125 = false.
Proof.
  intros Hw. destruct (plain_head j Hw) as (c & t & -> & Hc). exists c, (t ++ k). split; [done|].
  destruct (json_space c || isc c 93 || isc c 125) eqn:E.
  - exfalso. assert (kind_of j = 7)%nat as Hk.
    { rewrite <- Hc. revert E. clear. all_chars c; vm_compute; congruence. }
    destruct j as [|[]| | | | | |]; discriminate.
  - by apply orb_false_iff in E as [[? ?]%orb_false_iff ?].
Qed.

Lemma skip_ws_solid c t : json_space c = false -> skip_ws (c :: t) = c :: t.
Proof. unfold skip_ws. simpl. by intros ->. Qed.

(** [l] is read at [fuel], whatever follows it. *)
Definition reads (j : json) : Prop := forall fuel k,
  (2 * length (plain j) <= fuel)%nat -> stop k ->
  scan_once py_float fuel (plain j ++ k) = Ok (revive j, k).

Lemma tail_stop {A} (f : A -> text) close l k :
  isc close 93 || isc close 125 = true -> stop (tail_of f close l k).
Proof.
  intros H. destruct l; [|done]. simpl. revert H. destruct (isc close 44), (isc close 93), (isc close 125); done.
Qed.

Lemma tail_ws {A} (f : A -> text) close l k :
  isc close 93 || isc close 125 = true -> skip_ws (tail_of f close l k) = tail_of f close l k.
Proof.
  intros H. destruct l; [|done]. apply skip_ws_solid. revert H. all_chars close; vm_compute; congruence.
Qed.

Lemma scan_elements_ok l : forall fuel acc k,
  l <> [] -> Forall (fun j => readable j = true /\ reads j) l ->
  (2 * length (join_comma (map plain l)) + 1 <= fuel)%nat ->
  scan_elements py_float fuel acc (join_comma (map plain l) ++ chr 93 :: k) =
  Ok (PList (acc ++ map revive l), k).
Proof.
  induction l as [|x l IH]; intros fuel acc k Hne Hf Hl; [done|].
  inversion Hf as [|? ? [Hr Hx] Hf']; subst. rewrite join_cons.
  assert (Hlen : length (join_comma (map plain (x :: l))) =
    (length (plain x) + match l with [] => 0 | _ => 1 + length (join_comma (map plain l)) end)%nat).
  { destruct l; [simpl; lia|]. cbn [map join_comma]. rewrite !length_app. simpl. lia. }
  rewrite Hlen in Hl. destruct fuel as [|n]; [lia|]. cbn [scan_elements].
  rewrite Hx by (first [lia|by apply tail_stop]). cbn [obind fst snd]. rewrite tail_ws by done.
  destruct l as [|y l]; cbn [tail_of]; [done|].
  change (isc (chr 44) 93) with false. change (isc (chr 44) 44) with true. cbn iota.
  inversion Hf' as [|? ? [Hr' _] _]; subst.
  assert (Hws : skip_ws (join_comma (map plain (y :: l)) ++ chr 93 :: k) =
                join_comma (map plain (y :: l)) ++ chr 93 :: k).
  { rewrite join_cons. destruct (plain_solid y (tail_of plain (chr 93) l k)) as (c & t & -> & Hc & _);
      [by apply readable_wf|]. by apply skip_ws_solid. }
  rewrite Hws, IH by (first [done|lia]). by rewrite <- app_assoc.
Qed.

(** Members, with the keys before them *)
Definition item (kv : string * json) : text := encode_item (on_value plain kv).

Lemma item_eq key j r :
  item (key, j) ++ r = dq :: flat_map json_escape (txt key) ++ dq :: chr 58 :: plain j ++ r.
Proof.
  unfold item, encode_item, on_value, json_str. cbn [fst snd]. simpl. rewrite <- !app_assoc. done.
Qed.

Lemma item_length kv : (length (plain (snd kv)) + 3 <= length (item kv))%nat.
Proof.
  destruct kv as [s j]. unfold item, encode_item, on_value, json_str. cbn [fst snd].
  rewrite length_app, length_app. simpl length. rewrite length_app. simpl. lia.
Qed.

Lemma dict_set_fresh {V} (k : string) (v : V) d : k ∉ dict_keys d -> dict_set k v d = d ++ [(k, v)].
Proof.
  unfold dict_keys. induction d as [|[k' v'] d IH]; simpl; [done|]. intros Hni.
  rewrite decide_False by set_solver. rewrite IH; [done|set_solver].
Qed.

Lemma scan_members_ok l : forall fuel d k,
  l <> [] -> Forall (fun kv => readable (snd kv) = true /\ reads (snd kv)) l ->
  NoDup (dict_keys d ++ map fst l) ->
  (2 * length (join_comma (map item l)) + 1 <= fuel)%nat ->
  scan_members py_float fuel d (join_comma (map item l) ++ chr 125 :: k) =
  Ok (PDict (d ++ map (on_value revive) l), k).
Proof.
  induction l as [|x l IH]; intros fuel d k Hne Hf Hnd Hl; [done|].
  inversion Hf as [|? ? [Hr Hx] Hf']; subst. rewrite join_cons.
  assert (Hlen : length (join_comma (map item (x :: l))) =
    (length (item x) + match l with [] => 0 | _ => 1 + length (join_comma (map item l)) end)%nat).
  { destruct l; [simpl; lia|]. cbn [map join_comma]. rewrite !length_app. simpl. lia. }
  rewrite Hlen in Hl. pose proof (item_length x) as Hi.
  destruct fuel as [|n]; [lia|]. destruct x as [key j]. cbn [fst snd] in *.
  rewrite item_eq. cbn [scan_members]. change (isc dq 34) with true. cbn [negb].
  rewrite scan_string_escaped. cbn [obind fst snd].
  rewrite (skip_ws_solid (chr 58)) by done. change (isc (chr 58) 58) with true. cbn [negb].
  set (rest := tail_of item (chr 125) l k).
  assert (Hws : skip_ws (plain j ++ rest) = plain j ++ rest).
  { destruct (plain_solid j rest) as (c & t & -> & Hc & _); [by apply readable_wf|]. by apply skip_ws_solid. }
  rewrite Hws, Hx by (first [lia|by apply tail_stop]). cbn [obind fst snd].
  unfold rest. rewrite tail_ws by done. unfold of_txt, txt.
  rewrite String.string_of_list_ascii_of_string.
  assert (Hfresh : key ∉ dict_keys d).
  { apply NoDup_app in Hnd as (_ & Hdis & _). intros Hin. apply (Hdis _ Hin). left. }
  rewrite dict_set_fresh by done.
  destruct l as [|y l]; cbn [tail_of]; [done|].
  change (isc (chr 44) 125) with false. change (isc (chr 44) 44) with true. cbn iota.
  assert (Hsk : skip_ws (join_comma (map item (y :: l)) ++ chr 125 :: k) =
                join_comma (map item (y :: l)) ++ chr 125 :: k).
  { rewrite join_cons. destruct y as [ky jy]. rewrite item_eq. by apply skip_ws_solid. }
  rewrite Hsk, IH; [|done|done| |lia].
  - by rewrite <- app_assoc.
  - unfold dict_keys in *. rewrite map_app, <- app_assoc. simpl in *. exact Hnd.
Qed.

Lemma plain_pos j : wf_json j = true -> (1 <= length (plain j))%nat.
Proof. intros H. destruct (plain_head j H) as (c & t & -> & _). simpl. lia. Qed.

Lemma scan_plain j : readable j = true -> reads j.
Proof.
  induction j as [|b|z|r| |s|l IH|d IH] using json_ind'; intros Hr fuel k Hl Hk; try done;
    pose proof (plain_pos _ (readable_wf _ Hr)) as Hp; (destruct fuel as [|n]; [lia|]); clear Hp.
  - reflexivity.
  - by destruct b.
  - apply scan_once_number. by apply scan_int.
  - simpl in Hr. apply scan_once_number. b2p. unfold readable_float in H0. b2p.
    by apply (scan_number_app _ _ []).
  - cbn [plain encode]. unfold json_str. cbn [app scan_once]. rewrite <- app_assoc.
    change (isc dq 34) with true. cbn iota. change ([dq] ++ k) with (dq :: k).
    rewrite scan_string_escaped. unfold of_txt, txt. simpl.
    by rewrite String.string_of_list_ascii_of_string.
  - cbn [plain] in *. rewrite <- !app_assoc. simpl in Hr. rewrite !length_app in Hl. simpl in Hl.
    change (txt "[") with [chr 91]. change (txt "]") with [chr 93]. cbn [app].
    cbn [scan_once]. change (isc (chr 91) 34) with false. change (isc (chr 91) 123) with false.
    change (isc (chr 91) 91) with true. cbn iota.
    destruct l as [|x l]; [done|]. simpl in Hr. apply andb_true_iff in Hr as [Hx Hr].
    rewrite join_cons. destruct (plain_solid x (tail_of plain (chr 93) l k)) as (c & t & E & Hc & H93 & _);
      [by apply readable_wf|].
    rewrite E, skip_ws_solid, H93 by done. rewrite <- E, <- join_cons.
    rewrite scan_elements_ok; [done|done| |lia].
    apply List.Forall_forall. intros y Hy. rewrite List.Forall_forall in IH.
    assert (readable y = true) by (destruct Hy as [<-|Hy]; [done|by apply (proj1 (forallb_forall _ _) Hr)]). auto.
  - cbn [plain] in *. rewrite <- !app_assoc.
    simpl in Hr. rewrite !length_app in Hl. simpl in Hl. rewrite map_map in *.
    change (txt "{") with [chr 123]. change (txt "}") with [chr 125]. cbn [app].
    cbn [scan_once]. change (isc (chr 123) 34) with false. change (isc (chr 123) 123) with true. cbn iota.
    destruct d as [|x d]; [done|]. apply andb_true_iff in Hr as [Hnd Hr].
    change (map (fun x => encode_item (on_value plain x))) with (map item) in *.
    rewrite join_cons. destruct x as [key j]. rewrite item_eq, skip_ws_solid by done.
    change (isc dq 125) with false. cbn iota. rewrite <- item_eq, <- join_cons.
    rewrite scan_members_ok; [done|done| | |lia].
    + apply List.Forall_forall. intros y Hy. rewrite List.Forall_forall in IH.
      rewrite forallb_forall in Hr. specialize (Hr _ Hy). destruct y as [ky jy]. specialize (IH _ Hy). auto.
    + by apply py_unique_true in Hnd.
Qed.

(** ** UTF-8 and the detection of the encoding *)
Lemma utf8_decode_char c X :
  utf8_decode (utf8_char c ++ X) = (t <~ utf8_decode X ;; Ok (c :: t)).
Proof. all_chars c; reflexivity. Qed.

Lemma utf8_decode_utf8 t : utf8_decode (utf8 t) = Ok t.
Proof.
  induction t as [|c t IH]; [done|]. unfold utf8. cbn [flat_map]. fold (utf8 t).
  by rewrite utf8_decode_char, IH.
Qed.

(** Control characters are escaped. *)
Definition printable (c : Ascii.ascii) : bool := within 32 255 c.

Lemma starts_not x l c b : byte_of c <> x -> starts (x :: l) (c :: b) = false.
Proof. intros H. apply bool_decide_eq_false. simpl. congruence. Qed.

Lemma decode_ascii c b :
  within 1 127 c = true -> forallb printable b = true -> decode_document (c :: b) = utf8_decode (c :: b).
Proof.
  unfold within. intros Hc Hb. b2p. unfold decode_document. rewrite !starts_not by lia.
  assert (Hz : byte_of c =? 0 = false) by lia.
  assert (Hd : forall d, printable d = true -> byte_of d =? 0 = false).
  { intros d. unfold printable, within. intros [Hn _]%andb_true_iff. apply Z.eqb_neq. apply Z.leb_le in Hn. lia. }
  destruct b as [|d b]; [done|]. cbn [forallb] in Hb. apply andb_true_iff in Hb as [Hb _].
  destruct b as [|e [|f b]]; cbn [map]; rewrite ?Hz, ?(Hd _ Hb); done.
Qed.

Lemma utf8_printable t : forallb printable t = true -> forallb printable (utf8 t) = true.
Proof.
  induction t as [|d t IH]; [done|]. unfold utf8. cbn [flat_map forallb]. fold (utf8 t).
  intros [Hd Ht]%andb_true_iff. rewrite forallb_app, IH by done. rewrite andb_true_r.
  revert Hd. clear. all_chars d; vm_compute; congruence.
Qed.

Lemma decode_plain c t :
  within 1 127 c = true -> forallb printable t = true -> decode_document (utf8 (c :: t)) = Ok (c :: t).
Proof.
  intros Hc Ht. rewrite <- (utf8_decode_utf8 (c :: t)). unfold utf8. cbn [flat_map]. fold (utf8 t).
  assert (utf8_char c = [c]) as -> by (revert Hc; clear; all_chars c; vm_compute; congruence).
  by apply decode_ascii, utf8_printable.
Qed.

Lemma num_char_printable l : Forall (fun c => num_char c = true) l -> forallb printable l = true.
Proof.
  induction 1 as [|c l Hc Hl IH]; [done|]. simpl. rewrite IH, andb_true_r.
  revert Hc. clear. all_chars c; vm_compute; congruence.
Qed.

Lemma json_str_printable s : forallb printable (json_str s) = true.
Proof.
  unfold json_str. simpl. rewrite forallb_app. simpl. rewrite andb_true_r.
  induction (txt s) as [|c l IH]; [done|]. simpl. rewrite forallb_app, IH, andb_true_r.
  clear. all_chars c; reflexivity.
Qed.

Lemma join_printable {A} (f : A -> text) l :
  Forall (fun x => forallb printable (f x) = true) l -> forallb printable (join_comma (map f l)) = true.
Proof.
  induction 1 as [|x l Hx Hl IH]; [done|]. destruct l as [|y l]; [done|].
  cbn [map join_comma]. rewrite !forallb_app, Hx. exact IH.
Qed.

Lemma plain_printable j : wf_json j = true -> forallb printable (plain j) = true.
Proof.
  induction j as [|b|z|r| |s|l IH|d IH] using json_ind'; intros Hw; try done.
  - by destruct b.
  - apply num_char_printable, pretty_Z_num.
  - apply num_char_printable. by apply float_repr_num.
  - apply json_str_printable.
  - cbn [plain]. rewrite !forallb_app. simpl in Hw. simpl. rewrite andb_true_r. apply join_printable.
    rewrite forallb_forall in Hw. rewrite List.Forall_forall in *. auto.
  - cbn [plain]. rewrite !forallb_app, map_map. simpl in Hw. b2p. simpl. rewrite andb_true_r.
    apply join_printable. rewrite forallb_forall in H0. rewrite List.Forall_forall in *.
    intros [k x] Hin. unfold encode_item, on_value. cbn [fst snd].
    rewrite !forallb_app, json_str_printable. apply (IH _ Hin). exact (H0 _ Hin).
Qed.

Lemma readable_canon j : readable j = true -> readable (canon j) = true.
Proof.
  induction j as [| | | | | |l IH|d IH] using json_ind'; try done; simpl.
  - rewrite !forallb_forall. intros Hw x Hx. apply in_map_iff in Hx as (y & <- & Hy).
    rewrite List.Forall_forall in IH. auto.
  - intros Hw. b2p. apply andb_true_iff. split.
    + apply py_unique_true in H. apply py_unique_true.
      rewrite (fmap_Permutation fst _ _ (sort_by_perm _ _)). rewrite map_map. exact H.
    + rewrite forallb_forall in *. intros [k x] Hx. rewrite <- list_elem_of_In in Hx.
      apply elem_of_sort_by in Hx. rewrite list_elem_of_In in Hx.
      apply in_map_iff in Hx as ([k' y] & [= <- <-] & Hy).
      rewrite List.Forall_forall in IH. apply (IH _ Hy). exact (H0 _ Hy).
Qed.

(** What [canonical_json_bytes] writes, [json.loads] reads. *)
Lemma loads_encode j : readable j = true -> loads py_float (utf8 (encode j)) = Ok (revive (canon j)).
Proof.
  intros Hr. apply readable_canon in Hr. rewrite encode_plain. set (k := canon j) in *. clearbody k.
  pose proof (readable_wf _ Hr) as Hw. pose proof (plain_printable _ Hw) as Hn.
  destruct (plain_head k Hw) as (c & t & E & Hc). unfold loads. rewrite E in *.
  assert (Hk : kind_of_char c <> 7%nat) by (rewrite Hc; destruct k as [|[]| | | | | |]; done).
  simpl in Hn. apply andb_true_iff in Hn as [_ Hn].
  rewrite decode_plain; [|revert Hk; clear; all_chars c; vm_compute; congruence|done].
  cbn [obind]. unfold loads_text.
  destruct (plain_solid k [] Hw) as (c' & t' & E' & Hs & _). rewrite app_nil_r, E in E'.
  injection E' as <- <-. rewrite skip_ws_solid by done. rewrite <- E.
  rewrite <- (app_nil_r (plain k)) at 2.
  rewrite (scan_plain _ Hr) by (first [done|lia]). done.
Qed.

Lemma loads_canonical v : readable (normalize v) = true ->
  exists b, canonical_json_bytes v = Ok b /\ loads py_float b = Ok (revive (canon (normalize v))).
Proof.
  intros Hr. eexists. split; [apply canonical_bytes_wf, readable_wf, Hr|]. by apply loads_encode.
Qed.

(** ** Every value read

    Its objects have distinct keys and its finite floats are written as floats; the
    scanner never grows its text, and its fuel suffices. *)
Fixpoint loose (j : json) : bool :=
  match j with
  | JFloat r => float_repr r
  | JArr l => forallb loose l
  | JObj d => py_unique (map fst d) && forallb (fun '(_, x) => loose x) d
  | _ => true
  end.

Lemma loose_wf j : loose j = true -> all_finite j = true -> wf_json j = true.
Proof.
  induction j as [| | | | | |l IH|d IH] using json_ind'; try done; simpl.
  - rewrite !forallb_forall. rewrite List.Forall_forall in IH. auto.
  - rewrite List.Forall_forall in IH. intros [-> Hw]%andb_true_iff Hf. simpl.
    rewrite forallb_forall in *. intros [k x] Hin.
    apply (IH _ Hin); [exact (Hw _ Hin)|exact (Hf _ Hin)].
Qed.

Definition float_law : Prop :=
  forall s, match py_float s with (r, Finite _) => float_repr r = true | _ => True end.

Definition fine (v : pyval) : Prop := float_law -> loose (normalize v) = true.

Lemma fine_float s : fine (float_value py_float s).
Proof.
  intros H. specialize (H s). unfold float_value. destruct (py_float s) as [r [q| | |]]; done.
Qed.

Lemma fine_set k v d : fine v -> fine (PDict d) -> fine (PDict (dict_set k v d)).
Proof.
  intros Hv Hd Hl. specialize (Hv Hl). specialize (Hd Hl). revert Hd. simpl.
  intros [Hn Hf]%andb_true_iff. apply andb_true_iff. rewrite map_map in *.
  assert (Hk : forall d : list (string * pyval),
    map (fun x => fst (let '(k, x) := x in (k, normalize x))) d = dict_keys d)
    by (intros; apply map_ext; by intros []).
  rewrite Hk in *. split.
  - apply py_unique_true. by apply dict_set_NoDup, py_unique_true.
  - clear Hn. rewrite forallb_forall in *. intros x Hx. apply in_map_iff in Hx as ([k' y] & <- & Hy).
    rewrite <- list_elem_of_In in Hy.
    pose proof (dict_forall_set (fun _ y => loose (normalize y) = true) k v d) as Hs.
    unfold dict_forall in Hs. apply (Hs Hv) in Hy; [exact Hy|].
    intros k0 y0 H0. apply list_elem_of_In in H0.
    apply (Hf (k0, normalize y0)). apply in_map_iff. by exists (k0, y0).
Qed.

Lemma fine_snoc l v : fine (PList l) -> fine v -> fine (PList (l ++ [v])).
Proof.
  intros Hl Hv Hf. specialize (Hl Hf). specialize (Hv Hf). revert Hl. simpl.
  rewrite map_app, forallb_app. intros ->. simpl. by rewrite Hv.
Qed.

Lemma skip_ws_length t : (length (skip_ws t) <= length t)%nat.
Proof. unfold skip_ws. induction t as [|c t IH]; simpl; [lia|]. destruct (json_space c); simpl; lia. Qed.

Lemma scan_string_result t :
  match scan_string t with
  | Ok p => (length (snd p) < length t)%nat
  | Raise e => e <> recursion_error
  end.
Proof.
  assert (H : forall n t, (length t <= n)%nat -> match scan_string t with
    | Ok p => (length (snd p) < length t)%nat | Raise e => e <> recursion_error end); [|by apply (H (length t))].
  clear t. induction n as [|n IH]; intros t Hn; (destruct t as [|c t]; [done|]); simpl in Hn; [lia|].
  assert (Hrec : forall x u, (length u <= length t)%nat ->
    match p <~ scan_string u ;; Ok (x :: fst p, snd p) with
    | Ok p => (length (snd p) < length (c :: t))%nat | Raise e => e <> recursion_error end).
  { intros x u Hu. specialize (IH u ltac:(lia)). destruct (scan_string u); simpl in *; [lia|done]. }
  cbn [scan_string]. destruct (isc c 34); [simpl; lia|]. destruct (within 0 31 c); [done|].
  destruct (isc c 92); [|by apply Hrec]. destruct t as [|e t]; [done|].
  destruct (simple_escape e); [apply Hrec; simpl; lia|]. destruct (isc e 117); [|done].
  destruct t as [|a [|b [|h [|l t]]]]; try done.
  destruct (hex_value a) as [[|?]|], (hex_value b) as [[|?]|], (hex_value h), (hex_value l); try done.
  apply Hrec. simpl. lia.
Qed.

Lemma span_length p t : (length (snd (span p t)) <= length t)%nat.
Proof. induction t as [|c t IH]; simpl; [lia|]. destruct (p c); simpl; lia. Qed.

Lemma scan_number_result t :
  match scan_number py_float t with
  | Ok p => (length (snd p) <= length t)%nat /\ fine (fst p)
  | Raise e => e <> recursion_error
  end.
Proof.
  unfold scan_number.
  assert (H1 : (length (snd (scan_sign t)) <= length t)%nat).
  { destruct t as [|c t]; simpl; [lia|]. destruct (isc c 45); simpl; lia. }
  destruct (scan_sign t) as [sg t1]. cbn [snd] in H1.
  assert (H2 : (length (snd (scan_integer t1)) <= length t1)%nat).
  { destruct t1 as [|c t1]; [simpl; lia|]. unfold scan_integer. destruct (isc c 48); [simpl; lia|]. apply span_length. }
  destruct (scan_integer t1) as [ip t2]. cbn [snd] in H2.
  assert (H3 : (length (snd (scan_fraction t2)) <= length t2)%nat).
  { destruct t2 as [|c t2]; simpl; [lia|]. destruct (isc c 46); [|simpl; lia].
    pose proof (span_length digit t2). destruct (span digit t2) as [[|d ds] r]; simpl in *; lia. }
  destruct (scan_fraction t2) as [fr t3]. cbn [snd] in H3.
  assert (H4 : (length (snd (scan_exponent t3)) <= length t3)%nat).
  { destruct t3 as [|c t3]; [simpl; lia|]. unfold scan_exponent. destruct (isc c 101 || isc c 69); [|simpl; lia].
    destruct t3 as [|x t3]; [simpl; lia|]. destruct (isc x 43 || isc x 45).
    - pose proof (span_length digit t3). destruct (span digit t3) as [[|d ds] r]; simpl in *; lia.
    - pose proof (span_length digit (x :: t3)). destruct (span digit (x :: t3)) as [[|d ds] r]; simpl in *; lia. }
  destruct (scan_exponent t3) as [ex t4]. cbn [snd] in H4.
  destruct (bool_decide (ip = [])); [done|]. destruct (bool_decide (fr ++ ex = [])).
  - unfold py_int. destruct (length ip <=? 4300)%nat; simpl; [split; [lia|done]|done].
  - simpl. split; [lia|apply fine_float].
Qed.

Lemma scan_constant_result t p : scan_constant constants t = Some p ->
  (length (snd p) <= length t)%nat /\ fine (fst p).
Proof.
  unfold constants, scan_constant.
  repeat match goal with |- context [strip_prefix ?p t] =>
    let E := fresh in destruct (strip_prefix p t) eqn:E;
      [apply strip_prefix_app in E; subst t; intros [= <-]; cbn [fst snd];
       split; [rewrite length_app; lia|done]|clear E] end. done.
Qed.

Definition result_ok (fuel need : nat) (t : text) (o : outcome (pyval * text)) : Prop :=
  match o with
  | Ok p => (length (snd p) <= length t)%nat /\ fine (fst p)
  | Raise e => (need <= fuel)%nat -> e <> recursion_error
  end.

Lemma scan_result fuel :
  (forall t, result_ok fuel (2 * length t + 1) t (scan_once py_float fuel t)) /\
  (forall d t, fine (PDict d) -> result_ok fuel (2 * length t + 1) t (scan_members py_float fuel d t)) /\
  (forall l t, fine (PList l) -> result_ok fuel (2 * length t + 2) t (scan_elements py_float fuel l t)).
Proof.
  induction fuel as [|n (IH1 & IH2 & IH3)]; [split_and!; intros; simpl; lia|].
  split_and!.
  - intros [|c r]; [done|]. cbn [scan_once]. pose proof (skip_ws_length r) as Hws.
    destruct (isc c 34).
    { pose proof (scan_string_result r) as Hs. destruct (scan_string r); simpl in *; [split; [lia|done]|done]. }
    destruct (isc c 123).
    { destruct (skip_ws r) as [|d r']; [done|]. simpl in Hws.
      destruct (isc d 125); [simpl; split; [lia|done]|].
      specialize (IH2 [] (d :: r') ltac:(done)). destruct (scan_members _ _ _ _); simpl in *; [split; [lia|apply IH2]|].
      intros. apply IH2. lia. }
    destruct (isc c 91).
    { destruct (skip_ws r) as [|d r']; [done|]. simpl in Hws.
      destruct (isc d 93); [simpl; split; [lia|done]|].
      specialize (IH3 [] (d :: r') ltac:(done)). destruct (scan_elements _ _ _ _); simpl in *; [split; [lia|apply IH3]|].
      intros. apply IH3. lia. }
    destruct (scan_constant constants (c :: r)) eqn:Ec; [by apply scan_constant_result in Ec|].
    pose proof (scan_number_result (c :: r)) as Hn. destruct (scan_number _ _); [done|]. by intros _.
  - intros d [|c r] Hd; [done|]. cbn [scan_members]. destruct (negb (isc c 34)); [done|].
    pose proof (scan_string_result r) as Hs. destruct (scan_string r) as [k|e]; [|by intros _].
    cbn [obind]. pose proof (skip_ws_length (snd k)) as H1.
    destruct (skip_ws (snd k)) as [|c1 r1]; [done|]. destruct (negb (isc c1 58)); [done|].
    pose proof (skip_ws_length r1) as H2. specialize (IH1 (skip_ws r1)). simpl in H1.
    destruct (scan_once _ _ _) as [v|e]; cbn [obind result_ok] in *; [|intros; apply IH1; simpl in *; lia].
    destruct IH1 as [H3 Hv]. pose proof (skip_ws_length (snd v)) as H4.
    destruct (skip_ws (snd v)) as [|c2 r2]; [done|]. simpl in H4.
    pose proof (fine_set (of_txt (fst k)) (fst v) d Hv Hd) as Hd'.
    destruct (isc c2 125); [simpl; split; [lia|done]|]. destruct (isc c2 44); [|done].
    specialize (IH2 _ (skip_ws r2) Hd'). pose proof (skip_ws_length r2).
    destruct (scan_members _ _ _ _); simpl in *; [split; [lia|apply IH2]|]. intros. apply IH2. lia.
  - intros l t Hl. cbn [scan_elements]. specialize (IH1 t).
    destruct (scan_once _ _ _) as [v|e]; cbn [obind result_ok] in *; [|intros; apply IH1; lia].
    destruct IH1 as [H3 Hv]. pose proof (skip_ws_length (snd v)) as H4.
    destruct (skip_ws (snd v)) as [|c2 r2]; [done|]. simpl in H4.
    pose proof (fine_snoc l (fst v) Hl Hv) as Hl'.
    destruct (isc c2 93); [simpl; split; [lia|done]|]. destruct (isc c2 44); [|done].
    specialize (IH3 _ (skip_ws r2) Hl'). pose proof (skip_ws_length r2).
    destruct (scan_elements _ _ _ _); simpl in *; [split; [lia|apply IH3]|]. intros. apply IH3. lia.
Qed.

(** Reading a document never runs out of fuel, ... *)
Lemma scan_enough t : loads_text py_float t <> Raise recursion_error.
Proof.
  unfold loads_text. destruct (scan_result (2 * length t + 2)) as (H & _ & _). specialize (H (skip_ws t)).
  pose proof (skip_ws_length t). destruct (scan_once _ _ _) as [p|e]; cbn [obind result_ok] in *.
  - destruct (bool_decide (skip_ws (snd p) = [])); done.
  - intros [= ->]. apply H; [lia|done].
Qed.

(** ... and what it reads is well formed once its floats are finite. *)
Lemma loads_loose b v : float_law -> loads py_float b = Ok v -> loose (normalize v) = true.
Proof.
  unfold loads, loads_text. intros Hl H. run_inv H. destruct (scan_result (2 * length a + 2)) as (Hs & _ & _).
  specialize (Hs (skip_ws a)).
  match goal with Hx : scan_once _ _ _ = Ok _ |- _ => rewrite Hx in Hs end. by apply Hs.
Qed.

Lemma loads_tidy b v :
  float_law -> loads py_float b = Ok v -> all_finite (normalize v) = true -> wf_value v = true.
Proof. intros Hl H. apply loose_wf. by eapply loads_loose. Qed.
End Scanner.
