(* ===== verification/Bundles.v ===== *)
(** * Evidence bundles

    Models [bundles.py]: [EvidenceBundleBuilder] writes a run's events, their
    lineage graph and a manifest into a ZIP archive; [EvidenceBundleVerifier] reads
    an archive back without a control plane, from its bytes alone, and replays the
    hash chain on the parsed events.  The ZIP container ([zipfile] on zlib), pydantic's
    [model_validate_json] and [float] are arguments; JSON is read by [Json.loads]. *)

From S2P Require Import Prelude Canonical Contracts Ledger Lineage Security Json.

Abbreviation dict := (list (string * pyval)) (only parsing).

Definition ive (msg : string) : exn := IntegrityViolationError msg.

(** [d.get(key)] *)
Definition dget (k : string) (d : dict) : pyval := default PNone (dict_get k d).

(** [str.lower] *)
Definition py_lower (s : string) : string := of_txt (map Guards.lower_char (txt s)).

(** ** [uuid.UUID(hex)] *)
Fixpoint remove_all (p : text) (skip : nat) (t : text) : text :=
  match t with
  | [] => []
  | c :: r =>
      match skip with
      | S skip' => remove_all p skip' r
      | O => if strip_prefix p t then remove_all p (length p - 1) r else c :: remove_all p 0 r
      end
  end.

Definition trim (p : Ascii.ascii -> bool) (t : text) : text := rev (lstrip_by p (rev (lstrip_by p t))).

(** The digits of [int(s, 16)], with single underscores between them *)
Fixpoint hex_body (underscore : bool) (acc : Z) (t : text) : option Z :=
  match t with
  | [] => if underscore then None else Some acc
  | c :: r =>
      if isc c 95 then if underscore then None else hex_body true acc r
      else match hex_value c with
           | Some v => hex_body false (16 * acc + Z.of_nat v) r
           | None => None
           end
  end.

Definition int16 (t : text) : option Z :=
  let t := trim py_isspace t in
  let '(negative, t) := match t with
                        | c :: r => if isc c 45 then (true, r) else if isc c 43 then (false, r) else (false, t)
                        | [] => (false, t)
                        end in
  let t := match t with
           | z :: x :: r => if isc z 48 && (isc x 120 || isc x 88) then
                              match r with u :: r' => if isc u 95 then r' else r | [] => r end
                            else t
           | _ => t
           end in
  v ← hex_body true 0 t; Some (if negative then - v else v).

Definition parse_uuid (s : string) : outcome UUID :=
  let hex := remove_all (txt "-") 0
               (trim (fun c => isc c 123 || isc c 125)
                 (remove_all (txt "uuid:") 0 (remove_all (txt "urn:") 0 (txt s)))) in
  require (length hex =? 32)%nat (ValueError "badly formed hexadecimal UUID string") ;~
  match int16 hex with
  | Some v => require ((0 <=? v) && (v <? 2 ^ 128)) (ValueError "int is out of range (need a 128-bit value)") ;~ Ok v
  | None => Raise (ValueError "invalid literal for int() with base 16")
  end.

Example parse_uuid_ex :
  parse_uuid "urn:uuid:{12345678-1234-5678-1234-567812345678}" = Ok 0x12345678123456781234567812345678 /\
  parse_uuid "12345678-1234-5678-1234-56781234567" =
  Raise (ValueError "badly formed hexadecimal UUID string").
Proof. split; vm_compute; reflexivity. Qed.

(** ** Dumps of the models written to an archive *)
Definition event_dump (e : ControlEvent) : pyval :=
  match hash_material e with
  | PDict fields => PDict (fields ++ [("integrity", EventIntegrity.dump (integrity e))])
  | v => v
  end.

Definition detail_fields (d : NodeDetail) : dict :=
  match d with
  | SpecificationRevisionNode a b c =>
      [("specification_id", PStr a); ("revision", PStr b); ("constraints_digest", PStr c)]
  | DecisionSetNode a b => [("decision_set_id", PStr a); ("revision", PStr b)]
  | GeneratorConfigurationNode a b c p m s =>
      [("generator_name", PStr a); ("generator_version", PStr b); ("input_digest", PStr c);
       ("provider_name", dump_opt PStr p); ("model_name", dump_opt PStr m); ("succeeded", PBool s)]
  | SourceTreeNode a b => [("repository", dump_opt PStr a); ("revision", dump_opt PStr b)]
  | VerificationNode a b c e o =>
      [("verifier_name", PStr a); ("verifier_version", PStr b); ("requirements_digest", PStr c);
       ("results_digest", PStr e); ("outcome", PEnum (VerificationOutcome_value o))]
  | BuildArtifactNode a b s =>
      [("build_id", PStr a); ("builder_identity", PStr b); ("succeeded", PBool s)]
  | AuthorizationNode a b c s =>
      [("policy_digest", PStr a); ("action_set_digest", PStr b); ("approval_digest", dump_opt PStr c);
       ("authorized", PBool s)]
  | AgentActionNode i a b s =>
      [("action_id", PUuid i); ("action_digest", PStr a); ("executor_identity", PStr b);
       ("succeeded", PBool s)]
  | DeploymentNode a b c t s =>
      [("deployment_id", PStr a); ("environment", PStr b); ("target", PStr c);
       ("deployed_at", PDatetime t); ("succeeded", PBool s)]
  | ProductionObservationNode i a b t =>
      [("observation_id", PUuid i); ("environment", PStr a); ("observer_identity", PStr b);
       ("observed_at", PDatetime t)]
  | ReconciliationNode i a b o =>
      [("reconciliation_id", PUuid i); ("reconciler_name", PStr a); ("findings_digest", PStr b);
       ("outcome", PEnum (ReconciliationOutcome_value o))]
  end.

Definition node_dump (n : LineageNode) : pyval := PDict ([
  ("kind", PEnum (LineageNodeKind_value (LineageNode.kind n))); ("node_id", PUuid (LineageNode.node_id n));
  ("run_id", PUuid (LineageNode.run_id n)); ("tenant_id", PStr (LineageNode.tenant_id n));
  ("digest", PStr (LineageNode.digest n)); ("recorded_at", PDatetime (LineageNode.recorded_at n));
  ("external_uri", dump_opt PStr (LineageNode.external_uri n));
  ("evidence", dump_list ArtifactRef.dump (LineageNode.evidence n));
  ("attributes", PDict (LineageNode.attributes n))] ++ detail_fields (LineageNode.detail n)).

Definition relation_dump (r : LineageRelation) : pyval := PDict [
  ("relation", PEnum (LineageRelationType_value (LineageRelation.relation r)));
  ("subject", LineageNodeRef.dump (LineageRelation.subject r));
  ("object", LineageNodeRef.dump (LineageRelation.object r));
  ("recorded_at", PDatetime (LineageRelation.recorded_at r));
  ("evidence", dump_list ArtifactRef.dump (LineageRelation.evidence r))].

Definition graph_dump (g : LineageGraph) : pyval := PDict [
  ("schema_name", PStr "prodkit.lineage-graph"); ("schema_version", PStr "1.0.0");
  ("run_id", PUuid (LineageGraph.run_id g)); ("tenant_id", PStr (LineageGraph.tenant_id g));
  ("nodes", dump_list node_dump (LineageGraph.nodes g));
  ("relations", dump_list relation_dump (LineageGraph.relations g))].

(** ** The archive *)
Record zip_member : Type := {
  filename : string;
  file_size : Z;
  content : outcome bytes;   (** what [zf.read] gives or raises *)
}.

Definition MAX_MEMBER_BYTES : Z := 64 * 1024 * 1024.
Definition MAX_TOTAL_BYTES : Z := 128 * 1024 * 1024.
Definition ALLOWED_MEMBERS : list string := ["manifest.json"; "events.jsonl"; "lineage.json"].
Definition MANIFEST_SCHEMA_NAME : string := "prodkit.evidence-bundle-manifest".
Definition MANIFEST_SCHEMA_VERSION : string := "1.1.0".
Definition SUPPORTED_MANIFEST_SCHEMA_VERSIONS : list string := ["1.0.0"; MANIFEST_SCHEMA_VERSION].

(** [ZipInfo.is_dir] *)
Definition is_dir (m : zip_member) : bool :=
  match rev (txt (filename m)) with c :: _ => isc c 47 | [] => false end.

(** [except (zipfile.BadZipFile, KeyError, OSError)] *)
Definition is_archive_error (e : exn) : bool :=
  match e with
  | KeyError _ | PermissionError _ => true
  | OtherError n _ => mem n ["BadZipFile"; "OSError"; "FileNotFoundError"]
  | _ => false
  end.

Definition catch {A} (p : exn -> bool) (e' : exn) (o : outcome A) : outcome A :=
  match o with
  | Raise e => if p e then Raise e' else Raise e
  | Ok a => Ok a
  end.

Definition set_eqb (a b : list string) : bool :=
  forallb (fun x => mem x b) a && forallb (fun x => mem x a) b.

(** [zf.read(name)] *)
Definition zip_read (name : string) (infos : list zip_member) : outcome bytes :=
  match List.find (fun m => bool_decide (filename m = name)) infos with
  | Some m => content m
  | None => Raise (KeyError name)
  end.

(** The size limits, with the error for a member and for the archive *)
Definition check_sizes (max_member max_total : Z) (member_error total_error : exn)
    (infos : list zip_member) : outcome unit :=
  total <~ fold_o (fun total m =>
    require (negb (is_dir m || (max_member <? file_size m))) member_error ;~
    Ok (total + file_size m)) infos 0 ;;
  require (negb (max_total <? total)) total_error.

(** [evidence_bundle_sha256], on the content of the file *)
Definition evidence_bundle_sha256 (archive : bytes) : string := sha256_bytes archive.

(** ** [bytes.splitlines]; [line] holds the bytes of the current line, last first *)
Fixpoint splitlines_from (line : bytes) (b : bytes) : list bytes :=
  match b with
  | [] => if bool_decide (line = []) then [] else [rev line]
  | c :: r =>
      if isc c 10 then rev line :: splitlines_from [] r
      else if isc c 13 then
        rev line ::
        match r with
        | d :: r' => if isc d 10 then splitlines_from [] r' else splitlines_from [] r
        | [] => []
        end
      else splitlines_from (c :: line) r
  end.
Definition splitlines (b : bytes) : list bytes := splitlines_from [] b.

(** ** Manifest values *)
Definition is_sha256 (v : pyval) : bool :=
  match v with PStr s => hex_string 64 s | _ => false end.

Definition manifest_count (manifest : dict) (key : string) (minimum : Z) : outcome Z :=
  match dget key manifest with
  | PInt z => require (negb (z <? minimum)) (ive ("evidence bundle manifest " +:+ key +:+ " is invalid")) ;~ Ok z
  | _ => Raise (ive ("evidence bundle manifest " +:+ key +:+ " is invalid"))
  end.

Definition hashable (v : pyval) : bool :=
  match v with PList _ | PDict _ => false | _ => true end.

Definition is_decode_error (e : exn) : bool :=
  match e with OtherError n _ => mem n ["JSONDecodeError"; "UnicodeDecodeError"] | _ => false end.

(** [except ValueError] *)
Definition is_value_error (e : exn) : bool :=
  match e with ValueError _ | ValidationError _ => true | _ => is_decode_error e end.

(** A non-blank string *)
Definition solid_str (v : pyval) : bool := match v with PStr s => negb (blank s) | _ => false end.
Definition is_none (v : pyval) : bool := match v with PNone => true | _ => false end.
Definition opt_str (v : pyval) : option string := match v with PStr s => Some s | _ => None end.

(** ** [EvidenceBundleVerifier] *)
Module Verifier.
(** [_validate_manifest] *)
Definition check_tenant (schema_version tenant_id : pyval) : outcome unit :=
  if bool_decide (schema_version = PStr MANIFEST_SCHEMA_VERSION) then
    require (solid_str tenant_id) (ive "evidence bundle manifest tenant is invalid")
  else
    require (is_none tenant_id || solid_str tenant_id) (ive "evidence bundle manifest tenant is invalid").

Definition check_run_id (run_id_raw : pyval) : outcome string :=
  match run_id_raw with
  | PStr raw =>
      run_id <~ catch is_value_error (ive "evidence bundle manifest run id is invalid") (parse_uuid raw) ;;
      require (bool_decide (uuid_str run_id = raw)) (ive "evidence bundle manifest run id is not canonical") ;~
      Ok raw
  | _ => Raise (ive "evidence bundle manifest run id is invalid")
  end.

Definition sum_counts (counts : dict) : Z :=
  foldl (fun acc kv => acc + match snd kv with PInt z => z | _ => 0 end) 0 counts.

Definition check_counts (counts : pyval) (event_count : Z) : outcome unit :=
  match counts with
  | PDict d =>
      require (forallb (fun kv => match snd kv with PInt z => negb (z <? 0) | _ => false end) d)
        (ive "evidence bundle event counts are invalid") ;~
      require (sum_counts d =? event_count)
        (ive "evidence bundle event counts do not match event count")
  | _ => Raise (ive "evidence bundle event counts are invalid")
  end.

Definition validate_manifest (manifest : dict) (events_bytes : bytes) (lineage_bytes : option bytes)
    : outcome (string * option string) :=
  require (bool_decide (dget "schema_name" manifest = PStr MANIFEST_SCHEMA_NAME))
    (ive "evidence bundle manifest schema name is unsupported") ;~
  let schema_version := dget "schema_version" manifest in
  require (hashable schema_version) (TypeError "unhashable type") ;~
  require (match schema_version with PStr v => mem v SUPPORTED_MANIFEST_SCHEMA_VERSIONS | _ => false end)
    (ive "evidence bundle manifest schema version is unsupported") ;~
  run_id <~ check_run_id (dget "run_id" manifest) ;;
  check_tenant schema_version (dget "tenant_id" manifest) ;~
  event_count <~ manifest_count manifest "event_count" 1 ;;
  manifest_count manifest "lineage_node_count" 0 ;~
  manifest_count manifest "lineage_relation_count" 0 ;~
  match dget "files" manifest with
  | PDict files =>
      require (set_eqb (dict_keys files)
                 ("events.jsonl" :: if lineage_bytes is Some _ then ["lineage.json"] else []))
        (ive "evidence bundle manifest members do not match archive") ;~
      let events_digest := dget "events.jsonl" files in
      require (is_sha256 events_digest) (ive "evidence bundle events digest is invalid") ;~
      let actual := PStr (sha256_bytes events_bytes) in
      require (bool_decide (actual = events_digest) && bool_decide (actual = dget "events_sha256" manifest))
        (ive "evidence bundle events digest does not match manifest") ;~
      require (is_sha256 (dget "final_event_hash" manifest))
        (ive "evidence bundle final event hash is invalid") ;~
      check_counts (dget "counts_by_type" manifest) event_count ;~
      Ok (run_id, opt_str (dget "tenant_id" manifest))
  | _ => Raise (ive "evidence bundle manifest files are invalid")
  end.

Section Reading.
Context (py_float : string -> string * pyfloat).
(** [ZipFile(archive).infolist()] with the contents of the members *)
Context (zip_open : bytes -> outcome (list zip_member)).
(** [LineageGraph.model_validate_json] *)
Context (model_validate_json : bytes -> outcome LineageGraph).

(** [json.loads] under [except (JSONDecodeError, UnicodeDecodeError)], to an object *)
Definition load_object (payload : bytes) (invalid not_object : string) : outcome dict :=
  raw <~ catch is_decode_error (ive invalid) (loads py_float payload) ;;
  match raw with PDict d => Ok d | _ => Raise (ive not_object) end.

(** [_read_archive] *)
Definition read_members (infos : list zip_member) : outcome (bytes * bytes * option bytes) :=
  let names := map filename infos in
  require (py_unique names) (ive "evidence bundle contains duplicate members") ;~
  require (mem "manifest.json" names && mem "events.jsonl" names)
    (ive "evidence bundle is missing required members") ;~
  require (forallb (fun n => mem n ALLOWED_MEMBERS) names)
    (ive "evidence bundle contains unexpected members") ;~
  check_sizes MAX_MEMBER_BYTES MAX_TOTAL_BYTES (ive "evidence bundle contains an invalid member")
    (ive "evidence bundle exceeds total size limit") infos ;~
  manifest_bytes <~ zip_read "manifest.json" infos ;;
  events_bytes <~ zip_read "events.jsonl" infos ;;
  lineage_bytes <~ (if mem "lineage.json" names
                    then b <~ zip_read "lineage.json" infos ;; Ok (Some b)
                    else Ok None) ;;
  Ok (manifest_bytes, events_bytes, lineage_bytes).

Definition read_archive (archive : bytes) : outcome (bytes * bytes * option bytes) :=
  catch is_archive_error (ive "evidence bundle is not a valid archive")
    (infos <~ zip_open archive ;; read_members infos).

(** The loop of [_validate_events] on (previous, tenant_id, counts) *)
Definition chain_state : Type := option string * option string * list (string * Z).

Definition event_fields (run_id : string) (index : Z) (tenant_id : option string) (event : dict)
    : outcome (string * string) :=
  require (scalar_eq (dget "sequence" event) (PInt index)) (ive "evidence bundle contains a sequence gap") ;~
  require (bool_decide (dget "run_id" event = PStr run_id))
    (ive "evidence bundle event run id does not match manifest") ;~
  match dget "tenant_id" event with
  | PStr t =>
      require (negb (bool_decide (t = ""))) (ive "evidence bundle event tenant is invalid") ;~
      require (match tenant_id with None => true | Some t' => bool_decide (t' = t) end)
        (ive "evidence bundle contains mixed tenant events") ;~
      match dget "event_type" event with
      | PStr ty =>
          require (negb (bool_decide (ty = ""))) (ive "evidence bundle event type is invalid") ;~
          Ok (t, ty)
      | _ => Raise (ive "evidence bundle event type is invalid")
      end
  | _ => Raise (ive "evidence bundle event tenant is invalid")
  end.

(** [event.pop("integrity", None)] *)
Definition pop_integrity (event : dict) : dict :=
  List.filter (fun kv => negb (bool_decide (fst kv = "integrity"))) event.

Definition event_chain (previous : option string) (event : dict) : outcome string :=
  match dget "integrity" event with
  | PDict integrity =>
      require (bool_decide (dget "previous_event_hash" integrity = dump_opt PStr previous))
        (ive "evidence bundle contains a broken previous hash") ;~
      match dget "event_hash" integrity with
      | PStr event_hash =>
          require (hex_string 64 event_hash) (ive "evidence bundle event hash is invalid") ;~
          expected_hash <~ sha256_hex (chain_material (PDict (pop_integrity event)) previous) ;;
          require (bool_decide (event_hash = expected_hash)) (ive "evidence bundle contains a modified event") ;~
          Ok event_hash
      | _ => Raise (ive "evidence bundle event hash is invalid")
      end
  | _ => Raise (ive "evidence bundle event integrity is invalid")
  end.

Definition count (ty : string) (counts : list (string * Z)) : list (string * Z) :=
  dict_set ty (default 0 (dict_get ty counts) + 1) counts.

Definition validate_event (run_id : string) (acc : chain_state) (line : Z * bytes) : outcome chain_state :=
  let '(previous, tenant_id, counts) := acc in
  event <~ load_object (snd line) "evidence bundle contains malformed event JSON"
             "evidence bundle event must be an object" ;;
  f <~ event_fields run_id (fst line) tenant_id event ;;
  event_hash <~ event_chain previous event ;;
  Ok (Some event_hash, Some (fst f), count (snd f) counts).

(** [enumerate(lines, start=1)] *)
Definition enumerate (lines : list bytes) : list (Z * bytes) :=
  combine (map Z.of_nat (seq 1 (length lines))) lines.

(** [dict(counts) != manifest["counts_by_type"]] *)
Definition counts_eq (counts : list (string * Z)) (v : pyval) : bool :=
  match v with
  | PDict d =>
      (length counts =? length d)%nat &&
      forallb (fun '(k, n) => match dict_get k d with Some w => scalar_eq (PInt n) w | None => false end) counts
  | _ => false
  end.

(** [_validate_events] *)
Definition validate_events (manifest : dict) (run_id : string) (events_bytes : bytes) : outcome string :=
  let lines := splitlines events_bytes in
  require (negb (bool_decide (lines = [])) && forallb (fun l => negb (bool_decide (l = []))) lines)
    (ive "evidence bundle contains an invalid event stream") ;~
  require (scalar_eq (PInt (Z.of_nat (length lines))) (dget "event_count" manifest))
    (ive "evidence bundle event count does not match manifest") ;~
  acc <~ fold_o (validate_event run_id) (enumerate lines) (None, None, []) ;;
  let '(previous, tenant_id, counts) := acc in
  require (bool_decide (dump_opt PStr previous = dget "final_event_hash" manifest))
    (ive "evidence bundle final hash does not match manifest") ;~
  require (counts_eq counts (dget "counts_by_type" manifest))
    (ive "evidence bundle event-type counts do not match manifest") ;~
  match tenant_id with
  | Some t => Ok t
  | None => Raise (ive "evidence bundle contains no tenant evidence")
  end.

(** [_validate_lineage]; the counts were checked to be integers. *)
Definition validate_lineage (manifest : dict) (run_id event_tenant_id : string) (lineage_bytes : option bytes)
    : outcome unit :=
  let count_is n key := bool_decide (PInt n = dget key manifest) in
  match lineage_bytes with
  | None =>
      require (count_is 0 "lineage_node_count" && count_is 0 "lineage_relation_count")
        (ive "evidence bundle declares lineage without lineage evidence")
  | Some b =>
      let lineage_digest :=
        match dget "files" manifest with PDict files => dget "lineage.json" files | _ => PNone end in
      require (is_sha256 lineage_digest && bool_decide (PStr (sha256_bytes b) = lineage_digest))
        (ive "evidence bundle lineage digest does not match manifest") ;~
      lineage <~ catch is_value_error (ive "evidence bundle lineage is invalid") (model_validate_json b) ;;
      require (bool_decide (uuid_str (LineageGraph.run_id lineage) = run_id))
        (ive "evidence bundle lineage run id does not match manifest") ;~
      require (bool_decide (LineageGraph.tenant_id lineage = event_tenant_id))
        (ive "evidence bundle lineage tenant does not match events") ;~
      require (count_is (Z.of_nat (length (LineageGraph.nodes lineage))) "lineage_node_count")
        (ive "evidence bundle lineage node count does not match") ;~
      require (count_is (Z.of_nat (length (LineageGraph.relations lineage))) "lineage_relation_count")
        (ive "evidence bundle lineage relation count does not match")
  end.

Definition verify (archive : bytes) (expected_archive_sha256 : option string) : outcome dict :=
  require (match expected_archive_sha256 with
           | None => true
           | Some expected => bool_decide (evidence_bundle_sha256 archive = py_lower expected)
           end)
    (ive "evidence bundle archive digest does not match external trust anchor") ;~
  contents <~ read_archive archive ;;
  let '(manifest_bytes, events_bytes, lineage_bytes) := contents in
  manifest <~ load_object manifest_bytes "evidence bundle manifest is not valid JSON"
                "evidence bundle manifest must be an object" ;;
  ids <~ validate_manifest manifest events_bytes lineage_bytes ;;
  let '(run_id, manifest_tenant_id) := ids in
  event_tenant_id <~ validate_events manifest run_id events_bytes ;;
  require (match manifest_tenant_id with None => true | Some t => bool_decide (event_tenant_id = t) end)
    (ive "evidence bundle tenant does not match events") ;~
  validate_lineage manifest run_id event_tenant_id lineage_bytes ;~
  Ok manifest.
End Reading.
End Verifier.

(** ** [EvidenceBundleBuilder] *)
Module Builder.
(** The files it writes: two in the destination directory, and the archive beside it *)
Record directory : Type := {
  events_file : option bytes;
  manifest_file : option bytes;
  archive_file : option bytes;
}.

Definition write_events (b : bytes) (d : directory) : directory :=
  {| events_file := Some b; manifest_file := manifest_file d; archive_file := archive_file d |}.
Definition write_manifest (b : bytes) (d : directory) : directory :=
  {| events_file := events_file d; manifest_file := Some b; archive_file := archive_file d |}.
Definition write_archive (b : bytes) (d : directory) : directory :=
  {| events_file := events_file d; manifest_file := manifest_file d; archive_file := Some b |}.

(** [b"\n".join(lines) + b"\n"] *)
Fixpoint join_lines (lines : list bytes) : bytes :=
  match lines with
  | [] => [chr 10]
  | [l] => l ++ [chr 10]
  | l :: rest => l ++ chr 10 :: join_lines rest
  end.

Definition manifest_of (run_id : UUID) (tenant_id : string) (now : datetime) (event_count : nat)
    (events_digest : string) (p : RunProjection) (lineage : option LineageGraph) (files : dict) : dict := [
  ("schema_name", PStr MANIFEST_SCHEMA_NAME); ("schema_version", PStr MANIFEST_SCHEMA_VERSION);
  ("run_id", PStr (uuid_str run_id)); ("tenant_id", PStr tenant_id);
  ("generated_at", PStr (isoformat now)); ("event_count", PInt (Z.of_nat event_count));
  ("events_sha256", PStr events_digest); ("final_event_hash", dump_opt PStr (final_event_hash p));
  ("counts_by_type", PDict (map (fun '(k, n) => (k, PInt n)) (counts_by_type p)));
  ("lineage_node_count", PInt (match lineage with Some g => Z.of_nat (length (LineageGraph.nodes g)) | None => 0 end));
  ("lineage_relation_count",
   PInt (match lineage with Some g => Z.of_nat (length (LineageGraph.relations g)) | None => 0 end));
  ("files", PDict files)].

Section Writing.
(** What [ZipFile(archive, "w")] leaves on the disk after these members *)
Context (zip_write : list (string * bytes) -> bytes).

(** [verified] and [listed] are the ledger at the two awaits. *)
Definition build (run_id : UUID) (tenant_id : string) (lineage : option LineageGraph)
    (verified listed : ledger) (now : datetime) : M directory bytes :=
  lift (verify_run tenant_id run_id verified) ;;
  let events := list_run_events tenant_id run_id listed in
  guard (negb (bool_decide (events = [])))
    (ValueError ("run " +:+ uuid_str run_id +:+ " has no events for tenant '" +:+ tenant_id +:+ "'")) ;;
  guard (forallb (fun e => bool_decide (ControlEventDraft.tenant_id (draft e) = tenant_id)) events)
    (ive "evidence builder received a foreign-tenant event") ;;
  projection <- lift (project_run events) ;;
  lines <- lift (map_o (fun e => canonical_json_bytes (event_dump e)) events) ;;
  let events_bytes := join_lines lines in
  modify (write_events events_bytes) ;;
  guard (match lineage with
         | Some g => (LineageGraph.run_id g =? run_id) && bool_decide (LineageGraph.tenant_id g = tenant_id)
         | None => true
         end) (ValueError "lineage graph and evidence bundle scope must match") ;;
  lineage_bytes <- lift (optional (fun g => canonical_json_bytes (graph_dump g)) lineage) ;;
  let files := ("events.jsonl", PStr (sha256_bytes events_bytes)) ::
               match lineage_bytes with Some b => [("lineage.json", PStr (sha256_bytes b))] | None => [] end in
  let manifest := manifest_of run_id tenant_id now (length events) (sha256_bytes events_bytes)
                    projection lineage files in
  manifest_bytes <- lift (canonical_json_bytes (PDict manifest)) ;;
  modify (write_manifest manifest_bytes) ;;
  let archive := zip_write (("events.jsonl", events_bytes) ::
    match lineage_bytes with Some b => [("lineage.json", b)] | None => [] end ++
    [("manifest.json", manifest_bytes)]) in
  modify (write_archive archive) ;;
  ret archive.
End Writing.
End Builder.
