(* ===== verification/BundleRoundTrip.v ===== *)
(** * What the bundle builder writes, the verifier accepts

    A value written as canonical JSON and read back is [seen]: the same value with
    its keys in order.  The verifier therefore sees the ledger's events, and its
    replay of the chain is the ledger's own verification. *)

From S2P Require Import Prelude Canonical CanonicalProofs Contracts Ledger Lineage Security Json JsonProofs Bundles BundleProofs.
Import Bundles.Verifier Bundles.Builder.

(** ** Dictionaries *)
Lemma dict_get_on_value {A B} (f : A -> B) k (d : list (string * A)) :
  dict_get k (map (on_value f) d) = option_map f (dict_get k d).
Proof. induction d as [|[k' v] d IH]; simpl; [done|]. by destruct (decide (k = k')). Qed.

Lemma dict_get_In {A} k (v : A) (d : list (string * A)) : NoDup (map fst d) -> (k, v) ∈ d -> dict_get k d = Some v.
Proof.
  induction d as [|[k' v'] d IH]; simpl; intros Hn Hin; [set_solver|].
  apply NoDup_cons in Hn as [Hni Hn]. apply elem_of_cons in Hin as [[= -> ->]|Hin].
  - by rewrite decide_True.
  - rewrite decide_False; [by apply IH|]. intros ->. apply Hni.
    apply (list_elem_of_fmap_2 fst _ _ Hin).
Qed.

Lemma dict_get_Permutation {A} k (d d' : list (string * A)) :
  NoDup (map fst d) -> d ≡ₚ d' -> dict_get k d = dict_get k d'.
Proof.
  intros Hn Hp. assert (Hn' : NoDup (map fst d')) by by rewrite <- (fmap_Permutation fst _ _ Hp).
  destruct (dict_get k d) as [v|] eqn:E.
  - symmetry. apply dict_get_In; [done|]. rewrite <- Hp. by apply dict_get_elem.
  - symmetry. apply dict_get_None. apply dict_get_None in E. unfold dict_keys in *.
    by rewrite <- (fmap_Permutation fst _ _ Hp).
Qed.

Lemma map_fst_on_value {A B} (f : A -> B) (d : list (string * A)) : map fst (map (on_value f) d) = map fst d.
Proof. rewrite map_map. by apply map_ext. Qed.

Lemma canon_idem j : wf_json j = true -> canon (canon j) = canon j.
Proof.
  induction j as [| | | | | |l IH|d IH] using json_ind'; try done; simpl; intros Hw.
  - f_equal. rewrite map_map. apply map_ext_in. intros x Hx. rewrite forallb_forall in Hw.
    rewrite List.Forall_forall in IH. auto.
  - b2p. rewrite forallb_forall in H0. rewrite List.Forall_forall in IH. f_equal.
    assert (E : map (on_value canon) (map (on_value canon) d) = map (on_value canon) d).
    { rewrite map_map. apply map_ext_in. intros [k x] Hx. unfold on_value. simpl. f_equal.
      apply (IH _ Hx). exact (H0 _ Hx). }
    apply py_unique_true in H.
    rewrite <- (sort_by_Permutation (map (on_value canon) (map (on_value canon) d))).
    + by rewrite E.
    + by rewrite !map_fst_on_value.
    + apply Permutation_map. symmetry. apply sort_by_perm.
Qed.

Section Seen.
Context (py_float : string -> string * pyfloat).

Definition seen (v : pyval) : pyval := revive py_float (canon (normalize v)).

Definition normal_dict (d : dict) : list (string * json) := map (on_value normalize) d.

Lemma normalize_dict d : normalize (PDict d) = JObj (normal_dict d).
Proof. simpl. f_equal. apply map_ext. by intros []. Qed.

Definition seen_dict (d : dict) : dict :=
  map (on_value (revive py_float)) (sort_by key_leb (map (on_value canon) (normal_dict d))).

Lemma seen_PDict d : seen (PDict d) = PDict (seen_dict d).
Proof. unfold seen. by rewrite normalize_dict. Qed.

Lemma seen_dict_perm d : seen_dict d ≡ₚ map (on_value seen) d.
Proof.
  unfold seen_dict, normal_dict. rewrite (sort_by_perm key_leb _). rewrite !map_map. reflexivity.
Qed.

Lemma seen_get k d : NoDup (map fst d) -> dget k (seen_dict d) = default PNone (option_map seen (dict_get k d)).
Proof.
  intros Hn. unfold dget. rewrite <- (dict_get_on_value seen). f_equal. symmetry.
  apply dict_get_Permutation; [by rewrite map_fst_on_value|]. symmetry. apply seen_dict_perm.
Qed.

Lemma loads_seen v b : readable py_float (normalize v) = true -> canonical_json_bytes v = Ok b ->
  loads py_float b = Ok (seen v).
Proof.
  intros Hr Hb. destruct (loads_canonical _ _ Hr) as (b' & Hb' & H).
  rewrite Hb in Hb'. injection Hb' as <-. exact H.
Qed.

(** Canonical bytes depend on the canonical form only. *)
Lemma canonical_bytes_ext v1 v2 :
  all_finite (normalize v1) = all_finite (normalize v2) ->
  canon (normalize v1) = canon (normalize v2) -> canonical_json_bytes v1 = canonical_json_bytes v2.
Proof.
  intros Hf Hc. unfold canonical_json_bytes, canonical_json_text. rewrite Hf, !encode_plain, Hc. done.
Qed.

Lemma seen_readable v : readable py_float (normalize v) = true -> normalize (seen v) = canon (normalize v).
Proof. intros H. apply revive_normalize. by apply readable_canon. Qed.

(** ** The chain is hashed over the same bytes *)
Lemma pop_on_value {A B} (f : A -> B) (l : list (string * A)) :
  List.filter (fun kv => negb (bool_decide (fst kv = "integrity"))) (map (on_value f) l) =
  map (on_value f) (List.filter (fun kv => negb (bool_decide (fst kv = "integrity"))) l).
Proof.
  induction l as [|[k x] l IH]; simpl; [done|]. destruct (negb _); simpl; by rewrite IH.
Qed.

Lemma filter_perm {A} (p : A -> bool) l k : l ≡ₚ k -> List.filter p l ≡ₚ List.filter p k.
Proof.
  induction 1 as [|x l k _ IH|x y l|l k m _ IH1 _ IH2]; simpl; [done| | |by etrans].
  - destruct (p x); [by constructor|done].
  - destruct (p x), (p y); try done. constructor.
Qed.

Lemma filter_In_forallb {A} (p q : A -> bool) l : forallb q l = true -> forallb q (List.filter p l) = true.
Proof. rewrite !forallb_forall. intros H x [Hx _]%filter_In. auto. Qed.

Lemma NoDup_filter_keys {A} (p : string * A -> bool) l : NoDup (map fst l) -> NoDup (map fst (List.filter p l)).
Proof.
  induction l as [|x l IH]; simpl; [done|]. intros [Hni Hn]%NoDup_cons. destruct (p x); simpl; [|by apply IH].
  apply NoDup_cons. split; [|by apply IH]. intros Hin. apply Hni.
  apply list_elem_of_fmap in Hin as (y & -> & Hy). apply list_elem_of_fmap_2.
  apply list_elem_of_In in Hy. apply filter_In in Hy as [Hy _]. by apply list_elem_of_In.
Qed.

Lemma pop_seen d : readable py_float (normalize (PDict d)) = true ->
  canon (normalize (PDict (pop_integrity (seen_dict d)))) = canon (normalize (PDict (pop_integrity d))) /\
  all_finite (normalize (PDict (pop_integrity (seen_dict d)))) = true /\
  all_finite (normalize (PDict (pop_integrity d))) = true.
Proof.
  intros Hr. pose proof (readable_canon _ _ Hr) as Hrc. rewrite normalize_dict in Hr, Hrc.
  pose proof (readable_wf _ _ Hr) as Hw. pose proof (canon_idem _ Hw) as Hci.
  set (S := sort_by key_leb (map (on_value canon) (normal_dict d))) in *.
  set (p := fun kv : string * json => negb (bool_decide (fst kv = "integrity"))).
  assert (E1 : normalize (PDict (pop_integrity (seen_dict d))) = JObj (List.filter p S)).
  { unfold pop_integrity, seen_dict. fold S. rewrite pop_on_value, normalize_dict. f_equal.
    unfold normal_dict. rewrite map_map. etransitivity; [|apply map_id]. apply map_ext_in.
    intros [k x] Hin. apply filter_In in Hin as [Hin _]. unfold on_value. simpl. f_equal.
    apply revive_normalize. simpl in Hrc. fold S in Hrc. apply andb_true_iff in Hrc as [_ Hrc].
    rewrite forallb_forall in Hrc. exact (Hrc _ Hin). }
  assert (E2 : normalize (PDict (pop_integrity d)) = JObj (List.filter p (normal_dict d))).
  { unfold pop_integrity. rewrite normalize_dict. unfold normal_dict. by rewrite <- pop_on_value. }
  assert (Hn : NoDup (map fst (normal_dict d))) by (simpl in Hw; b2p; by apply py_unique_true).
  rewrite E1, E2. split; [|split].
  - simpl. f_equal.
    assert (Hp : map (on_value canon) (List.filter p S) ≡ₚ map (on_value canon) (List.filter p (normal_dict d))).
    { assert (Hid : map (on_value canon) (map (on_value canon) (normal_dict d)) = map (on_value canon) (normal_dict d)).
      { rewrite map_map. apply map_ext_in. intros [k x] Hx. unfold on_value. simpl. f_equal. apply canon_idem.
        simpl in Hw. b2p. rewrite forallb_forall in H0. exact (H0 _ Hx). }
      unfold p. rewrite <- !pop_on_value. apply filter_perm. rewrite <- Hid.
      apply Permutation_map. unfold S. apply sort_by_perm. }
    apply sort_by_Permutation; [|done]. rewrite (fmap_Permutation fst _ _ Hp).
    rewrite map_fst_on_value. by apply NoDup_filter_keys.
  - apply (filter_In_forallb p (fun '(_, x) => all_finite x)).
    apply (wf_all_finite (JObj S)). apply (readable_wf _ _ Hrc).
  - apply (filter_In_forallb p (fun '(_, x) => all_finite x)).
    apply (wf_all_finite (JObj (normal_dict d)) Hw).
Qed.

Lemma chain_finite m p :
  all_finite (normalize (chain_material m p)) =
  all_finite (normalize m) && (all_finite (normalize (dump_opt PStr p)) && true).
Proof. reflexivity. Qed.

Lemma chain_canon m p :
  canon (normalize (chain_material m p)) =
  JObj [("event", canon (normalize m)); ("previous_event_hash", canon (normalize (dump_opt PStr p)))].
Proof. reflexivity. Qed.

Lemma chain_seen d p : readable py_float (normalize (PDict d)) = true ->
  sha256_hex (chain_material (PDict (pop_integrity (seen_dict d))) p) =
  sha256_hex (chain_material (PDict (pop_integrity d)) p).
Proof.
  intros Hr. destruct (pop_seen d Hr) as (Hc & Hf1 & Hf2). unfold sha256_hex.
  rewrite (canonical_bytes_ext (chain_material (PDict (pop_integrity (seen_dict d))) p)
             (chain_material (PDict (pop_integrity d)) p)); [done| |].
  - rewrite !chain_finite. by rewrite Hf1, Hf2.
  - rewrite !chain_canon. by rewrite Hc.
Qed.

(** ** The verifier's loop on the ledger's events *)
Definition fields_of (e : ControlEvent) : dict := match event_dump e with PDict d => d | _ => [] end.

Lemma event_dump_fields e : event_dump e = PDict (fields_of e).
Proof. reflexivity. Qed.

Lemma pop_fields e : PDict (pop_integrity (fields_of e)) = hash_material e.
Proof. reflexivity. Qed.

Lemma readable_keys d : readable py_float (normalize (PDict d)) = true -> NoDup (map fst d).
Proof.
  rewrite normalize_dict. simpl. intros [H _]%andb_true_iff. apply py_unique_true in H.
  unfold normal_dict in H. by rewrite map_fst_on_value in H.
Qed.

Lemma sha256_hex_hex d h : sha256_hex (PDict d) = Ok h -> hex_string 64 h = true.
Proof.
  intros H. unfold hex_string. rewrite (sha256_hex_dict_length _ _ H). simpl.
  unfold sha256_hex in H. run_inv H. apply sha256_bytes_chars.
Qed.

Lemma load_object_seen d line m1 m2 : readable py_float (normalize (PDict d)) = true ->
  canonical_json_bytes (PDict d) = Ok line -> load_object py_float line m1 m2 = Ok (seen_dict d).
Proof.
  intros Hr Hl. unfold load_object. rewrite (loads_seen _ _ Hr Hl). by rewrite seen_PDict.
Qed.

Lemma scalar_eq_int a b : scalar_eq (PInt a) (PInt b) = (a =? b).
Proof. unfold scalar_eq, float_leb. simpl. rewrite !Z.mul_1_r. destruct (Z.eqb_spec a b); lia. Qed.

Lemma EventType_nonempty x : EventType_value x <> "".
Proof. by destruct x. Qed.

Lemma seen_opt p : seen (dump_opt PStr p) = dump_opt PStr p.
Proof. by destruct p. Qed.

Lemma event_chain_seen e prev :
  readable py_float (normalize (event_dump e)) = true -> previous_of e = prev ->
  sha256_hex (chain_material (hash_material e) prev) = Ok (event_hash_of e) ->
  event_chain prev (seen_dict (fields_of e)) = Ok (event_hash_of e).
Proof.
  rewrite event_dump_fields. intros Hr Hp Hh. unfold event_chain. rewrite (seen_get _ _ (readable_keys _ Hr)).
  change (dict_get "integrity" (fields_of e)) with (Some (EventIntegrity.dump (integrity e))).
  cbn [option_map from_option id]. unfold EventIntegrity.dump. rewrite seen_PDict.
  rewrite !seen_get by (apply (bool_decide_unpack _); vm_compute; exact I).
  rewrite (chain_seen _ _ Hr), pop_fields.
  match goal with |- context [default PNone (option_map seen ?o)] =>
    change (default PNone (option_map seen o)) with (seen (dump_opt PStr (previous_of e))) end.
  match goal with |- context [default PNone (option_map seen ?o)] =>
    change (default PNone (option_map seen o)) with (PStr (event_hash_of e)) end.
  rewrite seen_opt, Hp, bool_decide_true by done. cbn [require obind].
  rewrite (sha256_hex_hex _ _ Hh). cbn [require obind]. rewrite Hh. cbn [obind].
  by rewrite bool_decide_true.
Qed.

Lemma event_fields_seen e r t to n :
  readable py_float (normalize (event_dump e)) = true -> sequence e = n ->
  ControlEventDraft.tenant_id (draft e) = t -> ControlEventDraft.run_id (draft e) = r -> t <> "" ->
  match to with None => True | Some t' => t' = t end ->
  event_fields (uuid_str r) n to (seen_dict (fields_of e)) = Ok (t, EventType_value (event_type_of e)).
Proof.
  rewrite event_dump_fields. intros Hr Hs Ht Hrun Hne Hto. pose proof (readable_keys _ Hr) as Hn.
  unfold event_fields. rewrite !(seen_get _ _ Hn).
  change (dict_get "sequence" (fields_of e)) with (Some (PInt (sequence e))).
  change (dict_get "run_id" (fields_of e)) with (Some (PUuid (ControlEventDraft.run_id (draft e)))).
  change (dict_get "tenant_id" (fields_of e)) with (Some (PStr (ControlEventDraft.tenant_id (draft e)))).
  change (dict_get "event_type" (fields_of e)) with (Some (PEnum (EventType_value (event_type_of e)))).
  cbn [option_map from_option id].
  change (seen (PInt (sequence e))) with (PInt (sequence e)).
  change (seen (PUuid ?u)) with (PStr (uuid_str u)). change (seen (PStr ?u)) with (PStr u).
  change (seen (PEnum ?u)) with (PStr u). rewrite Hs, Ht, Hrun.
  rewrite scalar_eq_int, Z.eqb_refl. cbn [require obind].
  rewrite bool_decide_true by done. cbn [require obind].
  rewrite (bool_decide_false (t = "")) by done. cbn [negb require obind].
  assert (match to with None => true | Some t' => bool_decide (t' = t) end = true) as ->.
  { destruct to; [|done]. by apply bool_decide_eq_true. }
  cbn [require obind]. by rewrite bool_decide_false by apply EventType_nonempty.
Qed.

Definition ty (e : ControlEvent) : string := EventType_value (event_type_of e).

Lemma validate_event_ok t r prev to c n e line acc :
  readable py_float (normalize (event_dump e)) = true -> canonical_json_bytes (event_dump e) = Ok line ->
  verify_event t r (prev, n) e = Ok acc -> ControlEventDraft.run_id (draft e) = r -> t <> "" ->
  match to with None => True | Some t' => t' = t end ->
  acc = (Some (event_hash_of e), n + 1) /\
  validate_event py_float (uuid_str r) (prev, to, c) (n, line) =
  Ok (Some (event_hash_of e), Some t, count (ty e) c).
Proof.
  intros Hr Hl Hv Hrun Ht Hto. unfold verify_event in Hv. run_inv Hv. b2p. split; [done|].
  unfold validate_event. cbn [fst snd]. rewrite event_dump_fields in *.
  rewrite (load_object_seen _ _ _ _ Hr Hl). cbn [obind].
  erewrite event_fields_seen; [|done..]. cbn [obind].
  rewrite event_chain_seen; [done|done|done|congruence].
Qed.

Lemma validate_fold_ok t r evs : forall prev n to c lines acc,
  Forall (fun e => readable py_float (normalize (event_dump e)) = true /\
                   ControlEventDraft.run_id (draft e) = r) evs ->
  map_o (fun e => canonical_json_bytes (event_dump e)) evs = Ok lines ->
  fold_o (verify_event t r) evs (prev, Z.of_nat n) = Ok acc -> t <> "" ->
  match to with None => True | Some t' => t' = t end ->
  fold_o (validate_event py_float (uuid_str r)) (combine (map Z.of_nat (seq n (length lines))) lines) (prev, to, c) =
  Ok (fst acc, match evs with [] => to | _ => Some t end, foldl (fun c e => count (ty e) c) c evs).
Proof.
  induction evs as [|e evs IH]; intros prev n to c lines acc Hf Hl Hv Ht Hto.
  - injection Hl as <-. injection Hv as <-. done.
  - inversion Hf as [|? ? [Hr Hrun] Hf']; subst. cbn [map_o] in Hl. run_inv Hl.
    cbn [fold_o] in Hv. apply obind_Ok in Hv as (acc1 & Hv1 & Hv2).
    match goal with Hx : canonical_json_bytes (event_dump e) = Ok _ |- _ => rename Hx into Hb end.
    destruct (validate_event_ok _ _ _ to c _ _ _ _ Hr Hb Hv1 eq_refl Ht Hto) as [-> E].
    cbn [length seq map combine fold_o]. rewrite E. cbn [obind].
    replace (Z.of_nat n + 1) with (Z.of_nat (S n)) in Hv2 by lia.
    erewrite IH; [|done|eassumption|exact Hv2|done|done]. by destruct evs.
Qed.

(** ** Lines *)
Lemma splitlines_line line acc rest : forallb printable line = true ->
  splitlines_from acc (line ++ chr 10 :: rest) = (rev acc ++ line) :: splitlines_from [] rest.
Proof.
  revert acc. induction line as [|c line IH]; intros acc Hp; cbn [app].
  - simpl. by rewrite app_nil_r.
  - simpl in Hp. apply andb_true_iff in Hp as [Hc Hp]. cbn [splitlines_from].
    assert (isc c 10 = false /\ isc c 13 = false) as [-> ->]
      by (revert Hc; clear; all_chars c; vm_compute; intuition congruence).
    rewrite IH by done. cbn [rev]. by rewrite <- app_assoc.
Qed.

Lemma splitlines_join lines :
  lines <> [] -> Forall (fun l => forallb printable l = true) lines -> splitlines (join_lines lines) = lines.
Proof.
  unfold splitlines. intros Hne Hf. induction Hf as [|l lines Hl Hf IH]; [done|]. destruct lines as [|l2 lines].
  - cbn [join_lines]. by rewrite splitlines_line.
  - change (join_lines (l :: l2 :: lines)) with (l ++ chr 10 :: join_lines (l2 :: lines)).
    rewrite splitlines_line by done. by rewrite IH.
Qed.

Lemma canonical_line v b : readable py_float (normalize v) = true -> canonical_json_bytes v = Ok b ->
  forallb printable b = true /\ b <> [].
Proof.
  intros Hr Hb. pose proof (readable_wf _ _ (readable_canon _ _ Hr)) as Hw.
  rewrite (canonical_bytes_wf _ (readable_wf _ _ Hr)) in Hb. injection Hb as <-. rewrite encode_plain.
  split; [by apply utf8_printable, plain_printable|].
  destruct (plain_head _ Hw) as (c & t & -> & _). unfold utf8. simpl. unfold utf8_char.
  by destruct (Ascii.nat_of_ascii c <? 128)%nat.
Qed.

Lemma join_lines_length lines : (length lines <= length (join_lines lines))%nat.
Proof.
  induction lines as [|l lines IH]; [simpl; lia|]. destruct lines as [|l2 lines].
  - simpl. rewrite length_app. simpl. lia.
  - change (join_lines (l :: l2 :: lines)) with (l ++ chr 10 :: join_lines (l2 :: lines)).
    rewrite length_app. simpl in *. lia.
Qed.

Lemma map_o_length {A B} (f : A -> outcome B) l ys : map_o f l = Ok ys -> length ys = length l.
Proof.
  revert ys. induction l as [|x l IH]; intros ys H; simpl in H; [by injection H as <-|].
  run_inv H. simpl. f_equal. by apply IH.
Qed.

Lemma map_o_Forall {A B} (f : A -> outcome B) (P : A -> Prop) (Q : B -> Prop) l ys :
  map_o f l = Ok ys -> (forall x y, P x -> f x = Ok y -> Q y) -> Forall P l -> Forall Q ys.
Proof.
  intros H HPQ Hf. revert ys H. induction Hf as [|x l Hx Hf IH]; intros ys H; simpl in H; [by injection H as <-|].
  run_inv H. constructor; [by eapply HPQ|by apply IH].
Qed.

(** ** The counters *)
Lemma count_type_cons k e evs : count_type k (e :: evs) = b2z (bool_decide (ty e = k)) + count_type k evs.
Proof. unfold count_type, count_if. simpl. unfold ty. by destruct (bool_decide _); simpl; lia. Qed.

Lemma count_type_nonneg k evs : 0 <= count_type k evs.
Proof. unfold count_type, count_if. lia. Qed.

Lemma counter_get evs : forall c k,
  dict_get k (foldl (fun c e => count (ty e) c) c evs) =
  if 0 <? count_type k evs then Some (default 0 (dict_get k c) + count_type k evs) else dict_get k c.
Proof.
  induction evs as [|e evs IH]; intros c k; [done|]. cbn [foldl]. rewrite IH, count_type_cons.
  pose proof (count_type_nonneg k evs). unfold count.
  destruct (decide (ty e = k)) as [<-|Hne].
  - rewrite dict_get_set_eq, bool_decide_true by done. simpl b2z.
    rewrite (proj2 (Z.ltb_lt 0 (1 + _))) by lia. cbn [from_option id].
    destruct (0 <? count_type (ty e) evs) eqn:E; f_equal; b2p; lia.
  - rewrite dict_get_set_ne, bool_decide_false by done. simpl b2z. by rewrite Z.add_0_l.
Qed.

Lemma counter_NoDup evs : forall c, NoDup (dict_keys c) -> NoDup (dict_keys (foldl (fun c e => count (ty e) c) c evs)).
Proof. induction evs as [|e evs IH]; intros c Hc; [done|]. simpl. apply IH. by apply dict_set_NoDup. Qed.

Lemma count_type_pos k evs : 0 < count_type k evs <-> k ∈ map ty evs.
Proof.
  induction evs as [|e evs IH]; [simpl; split; [done|set_solver]|].
  rewrite count_type_cons. pose proof (count_type_nonneg k evs). simpl. rewrite elem_of_cons.
  destruct (decide (ty e = k)) as [<-|Hne].
  - rewrite bool_decide_true by done. simpl. split; [by left|lia].
  - rewrite bool_decide_false by done. simpl. rewrite IH. split; [by right|]. intros [?|?]; [congruence|done].
Qed.

(** The types a projection counts *)
Definition types_of (evs : list ControlEvent) : list string := sort_by String.leb (remove_dups (map ty evs)).

Lemma types_NoDup evs : NoDup (types_of evs).
Proof. unfold types_of. rewrite (sort_by_perm String.leb _). apply NoDup_remove_dups. Qed.

Lemma types_elem k evs : k ∈ types_of evs <-> k ∈ map ty evs.
Proof. unfold types_of. rewrite (sort_by_perm String.leb _). apply elem_of_remove_dups. Qed.

Definition zsum (l : list Z) : Z := foldr Z.add 0 l.

Lemma zsum_counts evs : forall ts, NoDup ts -> (forall e, e ∈ evs -> ty e ∈ ts) ->
  zsum (map (fun t => count_type t evs) ts) = Z.of_nat (length evs).
Proof.
  induction evs as [|e evs IH]; intros ts Hn Hin.
  - induction ts as [|t ts IHt]; [done|]. simpl. rewrite IHt; [done|by apply NoDup_cons in Hn as []|set_solver].
  - assert (Hone : forall ts, NoDup ts -> zsum (map (fun t => b2z (bool_decide (ty e = t))) ts) = b2z (bool_decide (ty e ∈ ts))).
    { clear. intros ts. induction ts as [|t ts IHt]; intros Hn; [done|]. apply NoDup_cons in Hn as [Hni Hn].
      simpl. rewrite (IHt Hn). destruct (decide (ty e = t)) as [->|Hne].
      - rewrite (bool_decide_true (t = t)), (bool_decide_false (t ∈ ts)), bool_decide_true by set_solver. done.
      - rewrite (bool_decide_false (ty e = t)) by done. simpl.
        erewrite (bool_decide_ext (ty e ∈ t :: ts)); [done|]. set_solver. }
    transitivity (zsum (map (fun t => b2z (bool_decide (ty e = t))) ts) + zsum (map (fun t => count_type t evs) ts)).
    { clear. induction ts as [|t ts IHt]; [done|]. simpl. rewrite count_type_cons, IHt. lia. }
    rewrite (Hone _ Hn), bool_decide_true, IH; [simpl; lia|done|set_solver|set_solver].
Qed.
End Seen.

(** ** [str(UUID(...))] *)
Definition lower_hex_char (c : Ascii.ascii) : bool := within 48 57 c || within 97 102 c.

Lemma hex_digit_char d : 0 <= d < 16 -> exists c, hex_digit d = String c "" /\
  hex_value c = Some (Z.to_nat d) /\ lower_hex_char c = true.
Proof.
  intros Hd. assert (Hin : In d (map Z.of_nat (seq 0 16))).
  { apply in_map_iff. exists (Z.to_nat d). split; [lia|]. apply in_seq. lia. }
  cbn in Hin. repeat destruct Hin as [<-|Hin]; try done;
    eexists; (split; [reflexivity|split; reflexivity]).
Qed.

Definition hex_fold (acc : Z) (t : text) : Z :=
  foldl (fun a c => 16 * a + Z.of_nat (default 0%nat (hex_value c))) acc t.

Lemma hex_digits_fold n : forall z, 0 <= z ->
  hex_fold (Z.shiftr z (4 * Z.of_nat n)) (txt (hex_digits n z)) = z /\
  forallb lower_hex_char (txt (hex_digits n z)) = true /\ length (txt (hex_digits n z)) = n.
Proof.
  induction n as [|n IH]; intros z Hz; [cbn; by rewrite Z.shiftr_0_r|].
  cbn [hex_digits]. unfold txt. rewrite list_ascii_app.
  assert (Hl : 0 <= Z.land z 15 < 16).
  { change 15 with (Z.ones 4). rewrite Z.land_ones by lia. by apply Z.mod_pos_bound. }
  destruct (hex_digit_char _ Hl) as (c & -> & Hv & Hc).
  destruct (IH (Z.shiftr z 4)) as (E & Hf & Hlen); [by apply Z.shiftr_nonneg|]. unfold txt in *.
  split; [|split].
  - unfold hex_fold. rewrite foldl_app. rewrite Z.shiftr_shiftr in E by lia.
    replace (4 * Z.of_nat (S n)) with (4 + 4 * Z.of_nat n) by lia.
    unfold hex_fold in E. rewrite E. simpl. rewrite Hv. simpl.
    change 15 with (Z.ones 4) in *. rewrite Z.land_ones in * by lia. rewrite Z.shiftr_div_pow2 by lia.
    change (2 ^ 4) with 16 in *. rewrite Z2Nat.id by lia. pose proof (Z.div_mod z 16). lia.
  - rewrite forallb_app, Hf. simpl. by rewrite Hc.
  - rewrite length_app, Hlen. simpl. lia.
Qed.

Lemma hex_body_fold t : forall u acc, forallb lower_hex_char t = true -> t <> [] \/ u = false ->
  hex_body u acc t = Some (hex_fold acc t).
Proof.
  induction t as [|c t IH]; intros u acc Ht Hu; [by destruct Hu as [?| ->]|].
  simpl in Ht. apply andb_true_iff in Ht as [Hc Ht]. cbn [hex_body].
  assert (Hcv : isc c 95 = false /\ exists v, hex_value c = Some v).
  { revert Hc. clear. all_chars c; vm_compute; intros; try discriminate; split; eauto. }
  destruct Hcv as (Hu' & v & Hv). rewrite Hu', Hv, IH by (try done; by right). unfold hex_fold. simpl. by rewrite Hv.
Qed.

Lemma remove_all_id c p t : forallb (fun d => negb (bool_decide (c = d))) t = true -> remove_all (c :: p) 0 t = t.
Proof.
  induction t as [|d t IH]; [done|]. simpl. intros [Hd Ht]%andb_true_iff. b2p.
  rewrite (bool_decide_false (c = d)) by done. by rewrite IH.
Qed.

Lemma remove_all_dash a b : forallb lower_hex_char a = true ->
  remove_all [chr 45] 0 (a ++ chr 45 :: b) = a ++ remove_all [chr 45] 0 b.
Proof.
  induction a as [|c a IH]; [done|]. intros [Hc Ha]%andb_true_iff.
  assert (E : forall r, remove_all [chr 45] 0 (c :: r) = c :: remove_all [chr 45] 0 r).
  { intros r. revert Hc. clear. all_chars c; vm_compute; intros; try discriminate; reflexivity. }
  cbn [app]. rewrite E. f_equal. by apply IH.
Qed.

Lemma trim_id p t : forallb (fun c => negb (p c)) t = true -> trim p t = t.
Proof.
  intros H. assert (Hl : forall t, forallb (fun c => negb (p c)) t = true -> lstrip_by p t = t).
  { intros [|c l]; [done|]. simpl. destruct (p c); done. }
  unfold trim. rewrite (Hl t H), Hl; [by rewrite rev_involutive|].
  rewrite forallb_forall in *. intros x Hx. apply H. by apply in_rev.
Qed.

Lemma lower_hex_facts c : lower_hex_char c = true ->
  isc c 117 = false /\ isc c 123 || isc c 125 = false /\ isc c 45 = false /\ isc c 43 = false /\
  isc c 120 || isc c 88 = false /\ py_isspace c = false.
Proof. all_chars c; vm_compute; intros; try discriminate; repeat split. Qed.

Lemma int16_hex t : forallb lower_hex_char t = true -> t <> [] -> int16 t = Some (hex_fold 0 t).
Proof.
  intros Ht Hne. unfold int16. rewrite trim_id.
  2:{ rewrite forallb_forall in *. intros x Hx. by destruct (lower_hex_facts _ (Ht _ Hx)) as (_ & _ & _ & _ & _ & ->). }
  destruct t as [|c t]; [done|]. pose proof Ht as Ht'. simpl in Ht. apply andb_true_iff in Ht as [Hc Ht].
  destruct (lower_hex_facts _ Hc) as (_ & _ & -> & -> & _ & _).
  assert (E : match t with
    | x :: r => if isc c 48 && (isc x 120 || isc x 88)
                then match r with u :: r' => if isc u 95 then r' else r | [] => r end else c :: t
    | [] => c :: t end = c :: t).
  { destruct t as [|x r]; [done|]. simpl in Ht. apply andb_true_iff in Ht as [Hx _].
    destruct (lower_hex_facts _ Hx) as (_ & _ & _ & _ & -> & _). by rewrite andb_false_r. }
  rewrite E. rewrite hex_body_fold by (try done; by left). done.
Qed.

Definition uuid_char (c : Ascii.ascii) : bool := lower_hex_char c || isc c 45.

Lemma uuid_char_facts c : uuid_char c = true ->
  negb (bool_decide (chr 117 = c)) = true /\ negb (isc c 123 || isc c 125) = true.
Proof. all_chars c; vm_compute; intros; try discriminate; split; reflexivity. Qed.

Lemma lower_hex_no_dash t : forallb lower_hex_char t = true ->
  forallb (fun d => negb (bool_decide (chr 45 = d))) t = true.
Proof.
  rewrite !forallb_forall. intros H x Hx. specialize (H x Hx). revert H. clear.
  all_chars x; vm_compute; congruence.
Qed.

Lemma uuid_text u : txt (uuid_str u) =
  txt (hex_digits 8 (Z.shiftr u 96)) ++ chr 45 :: txt (hex_digits 4 (Z.shiftr u 80)) ++
  chr 45 :: txt (hex_digits 4 (Z.shiftr u 64)) ++ chr 45 :: txt (hex_digits 4 (Z.shiftr u 48)) ++
  chr 45 :: txt (hex_digits 12 u).
Proof.
  unfold uuid_str, txt.
  generalize (hex_digits 8 (Z.shiftr u 96)), (hex_digits 4 (Z.shiftr u 80)), (hex_digits 4 (Z.shiftr u 64)),
    (hex_digits 4 (Z.shiftr u 48)), (hex_digits 12 u). intros a b c d e.
  by rewrite !list_ascii_app.
Qed.

(** Reading [n] digits from bit [k] on *)
Lemma hex_fold_part u n k rest : 0 <= u -> 0 <= k ->
  hex_fold (Z.shiftr u (k + 4 * Z.of_nat n)) (txt (hex_digits n (Z.shiftr u k)) ++ rest) =
  hex_fold (Z.shiftr u k) rest.
Proof.
  intros Hu Hk. unfold hex_fold. rewrite foldl_app. f_equal.
  pose proof (hex_digits_fold n (Z.shiftr u k) ltac:(by apply Z.shiftr_nonneg)) as [H _].
  by rewrite Z.shiftr_shiftr in H by lia.
Qed.

Lemma uuid_number u : valid_uuid u ->
  hex_fold 0 (txt (hex_digits 8 (Z.shiftr u 96)) ++ txt (hex_digits 4 (Z.shiftr u 80)) ++
    txt (hex_digits 4 (Z.shiftr u 64)) ++ txt (hex_digits 4 (Z.shiftr u 48)) ++ txt (hex_digits 12 u)) = u.
Proof.
  intros [Hu0 Hu]. assert (Hz : 0 = Z.shiftr u (96 + 4 * Z.of_nat 8)).
  { symmetry. rewrite Z.shiftr_div_pow2 by lia. apply Z.div_small. by split. }
  rewrite Hz, (hex_fold_part u 8 96) by lia.
  rewrite (hex_fold_part u 4 80), (hex_fold_part u 4 64), (hex_fold_part u 4 48) by lia.
  rewrite <- (Z.shiftr_0_r u) at 2. rewrite <- (app_nil_r (txt _)).
  rewrite (hex_fold_part u 12 0) by lia. apply Z.shiftr_0_r.
Qed.

(** The parts of a [str(uuid)] and the number they spell *)
Lemma uuid_parts u : valid_uuid u -> exists A B C D F,
  txt (uuid_str u) = A ++ chr 45 :: B ++ chr 45 :: C ++ chr 45 :: D ++ chr 45 :: F /\
  forallb lower_hex_char (A ++ B ++ C ++ D ++ F) = true /\
  length (A ++ B ++ C ++ D ++ F) = 32%nat /\ hex_fold 0 (A ++ B ++ C ++ D ++ F) = u.
Proof.
  intros Hu. eexists _, _, _, _, _. split; [apply uuid_text|].
  split; [|split; [|by apply uuid_number]]; destruct Hu as [Hu _];
    assert (Hs : forall n k, forallb lower_hex_char (txt (hex_digits n (Z.shiftr u k))) = true /\
      length (txt (hex_digits n (Z.shiftr u k))) = n)
      by (intros n k; apply (hex_digits_fold n (Z.shiftr u k)); by apply Z.shiftr_nonneg);
    pose proof (Hs 12%nat 0) as [F5 L5]; rewrite Z.shiftr_0_r in F5, L5.
  - rewrite !forallb_app, F5. by rewrite !(proj1 (Hs _ _)).
  - rewrite !length_app, L5. by rewrite !(proj2 (Hs _ _)).
Qed.

Lemma parse_uuid_str u : valid_uuid u -> parse_uuid (uuid_str u) = Ok u.
Proof.
  intros Hu. destruct (uuid_parts u Hu) as (A & B & C & D & F & Et & Hf & Hl & Hv).
  assert (Hall : forallb uuid_char (txt (uuid_str u)) = true).
  { rewrite Et. assert (Hor : forall l, forallb lower_hex_char l = true -> forallb uuid_char l = true).
    { intros l. rewrite !forallb_forall. unfold uuid_char. intros H x Hx. by rewrite (H _ Hx). }
    rewrite !forallb_app in Hf. repeat (apply andb_true_iff in Hf as [?%Hor Hf]). apply Hor in Hf.
    repeat (rewrite forallb_app; cbn [forallb]). repeat (apply andb_true_iff; split; try done). }
  rewrite forallb_forall in Hall. unfold parse_uuid.
  change (txt "urn:") with (chr 117 :: txt "rn:"). change (txt "uuid:") with (chr 117 :: txt "uid:").
  assert (Hno : forallb (fun d => negb (bool_decide (chr 117 = d))) (txt (uuid_str u)) = true)
    by (apply forallb_forall; intros x Hx; by apply uuid_char_facts, Hall).
  rewrite !(remove_all_id _ _ _ Hno).
  rewrite trim_id by (apply forallb_forall; intros x Hx; by apply uuid_char_facts, Hall).
  change (txt "-") with [chr 45]. rewrite Et. pose proof Hf as Hf'. rewrite !forallb_app in Hf'.
  apply andb_true_iff in Hf' as [HA Hf']. apply andb_true_iff in Hf' as [HB Hf'].
  apply andb_true_iff in Hf' as [HC Hf']. apply andb_true_iff in Hf' as [HD HF].
  rewrite !remove_all_dash, (remove_all_id (chr 45)) by (done || by apply lower_hex_no_dash).
  rewrite Hl. change (32 =? 32)%nat with true. cbn [require obind].
  rewrite int16_hex, Hv; [|done|by intros H; rewrite H in Hl].
  destruct Hu as [Hu0 Hu]. rewrite (proj2 (Z.leb_le _ _) Hu0), (proj2 (Z.ltb_lt _ _) Hu). done.
Qed.

(** ** Sizes *)
Lemma number_of_bound c ds : digit c = true -> isc c 48 = false -> Forall (fun c => digit c = true) ds ->
  10 ^ Z.of_nat (length ds) <= number_of (c :: ds).
Proof.
  intros Hc H0. induction ds as [|d ds IH] using rev_ind; intros Hf.
  - unfold number_of. simpl. unfold digit, within in Hc. b2p.
    assert (byte_of c <> 48) by (unfold byte_of; unfold isc in H0; apply Nat.eqb_neq in H0; lia). lia.
  - apply Forall_app in Hf as [Hf Hd]. inversion Hd as [|? ? Hd' _]; subst.
    rewrite app_comm_cons, number_of_snoc, length_app. simpl. specialize (IH Hf).
    unfold digit, within in Hd'. b2p.
    replace (Z.of_nat (length ds + 1)) with (Z.succ (Z.of_nat (length ds))) by lia.
    rewrite Z.pow_succ_r by lia. lia.
Qed.

(** A number below 10^4299 has at most 4300 digits. *)
Lemma readable_small z : 0 <= z < 2 ^ 63 -> readable_int z = true.
Proof.
  intros Hz. unfold readable_int. apply Nat.leb_le. rewrite Z.abs_eq by lia.
  destruct z as [|p|p]; [vm_compute; lia| |lia].
  destruct (pretty_pos p) as (c & ds & E & Hf & Hc & Hn). change (pretty (Zpos p)) with (pretty (Npos p)).
  rewrite E. inversion Hf as [|? ? Hd Hf']; subst. pose proof (number_of_bound _ _ Hd Hc Hf') as Hb.
  rewrite Hn in Hb. destruct (le_lt_dec (length ds) 19) as [Hl|Hl]; [simpl; lia|]. exfalso.
  assert (10 ^ 19 <= 10 ^ Z.of_nat (length ds)) by (apply Z.pow_le_mono_r; lia).
  change (2 ^ 63) with 9223372036854775808 in Hz. change (10 ^ 19) with 10000000000000000000 in *. lia.
Qed.

Lemma join_length (parts : list text) : (length parts <= S (length (join_comma parts)))%nat.
Proof. induction parts as [|p [|q parts] IH]; simpl in *; [lia|lia|]. rewrite length_app. simpl. lia. Qed.

Lemma join_member p (parts : list text) : p ∈ parts -> (length p <= length (join_comma parts))%nat.
Proof.
  induction parts as [|q [|r parts] IH]; intros H; [set_solver| |].
  - apply list_elem_of_singleton in H as ->. done.
  - cbn [join_comma]. rewrite !length_app. apply elem_of_cons in H as [->|H]; [lia|]. specialize (IH H). simpl in *. lia.
Qed.

(** An array is no longer than the object that holds it. *)
Lemma encoded_array_length k l d : (k, JArr l) ∈ d -> (length l <= length (utf8 (encode (JObj d))))%nat.
Proof.
  intros Hin. assert (H1 : forall t, (length t <= length (utf8 t))%nat).
  { induction t as [|c t IH]; [done|]. unfold utf8 in *. cbn [flat_map]. rewrite length_app.
    assert (1 <= length (utf8_char c))%nat by (unfold utf8_char; destruct (_ <? _)%nat; simpl; lia).
    cbn [length]. lia. }
  etransitivity; [|apply H1]. cbn [encode]. rewrite !length_app. simpl.
  assert (Hm : (k, encode (JArr l)) ∈ sort_by key_leb (map (fun '(k, x) => (k, encode x)) d)).
  { rewrite (sort_by_perm key_leb _). apply (list_elem_of_fmap_2' _ _ _ _ Hin). done. }
  pose proof (join_member (encode_item (k, encode (JArr l))) (map encode_item (sort_by key_leb (map (fun '(k, x) => (k, encode x)) d)))
    ltac:(by apply list_elem_of_fmap_2)) as Hj.
  unfold encode_item in Hj at 1. cbn [fst snd encode] in Hj. rewrite !length_app in Hj.
  pose proof (join_length (map encode l)). rewrite length_map in *. simpl in *. lia.
Qed.

(** ** The manifest, as the verifier sees it *)
Section Manifest.
Context (py_float : string -> string * pyfloat).

Lemma count_type_le k evs : count_type k evs <= Z.of_nat (length evs).
Proof. induction evs as [|e evs IH]; [done|]. rewrite count_type_cons. destruct (bool_decide _); simpl in *; lia. Qed.

Definition counts_of (evs : list ControlEvent) : dict :=
  map (fun t => (t, PInt (count_type t evs))) (types_of evs).

Lemma counts_keys evs : map fst (counts_of evs) = types_of evs.
Proof. unfold counts_of. rewrite map_map. apply map_id. Qed.

Lemma counts_get evs k : k ∈ types_of evs -> dict_get k (counts_of evs) = Some (PInt (count_type k evs)).
Proof.
  intros Hk. apply dict_get_In; [rewrite counts_keys; apply types_NoDup|].
  unfold counts_of. by apply (list_elem_of_fmap_2 (fun t => (t, PInt (count_type t evs)))).
Qed.

Lemma seen_counts evs : seen_dict py_float (counts_of evs) ≡ₚ counts_of evs.
Proof.
  rewrite seen_dict_perm. unfold counts_of. rewrite map_map. reflexivity.
Qed.

Lemma seen_counts_get evs k : k ∈ types_of evs ->
  dict_get k (seen_dict py_float (counts_of evs)) = Some (PInt (count_type k evs)).
Proof.
  intros Hk. rewrite <- (counts_get evs k Hk). apply dict_get_Permutation; [|apply seen_counts].
  rewrite (fmap_Permutation fst _ _ (seen_counts evs)), counts_keys. apply types_NoDup.
Qed.

Lemma readable_counts evs : Z.of_nat (length evs) < 2 ^ 63 ->
  readable py_float (normalize (PDict (counts_of evs))) = true.
Proof.
  intros Hl. rewrite normalize_dict. simpl. apply andb_true_iff. split.
  - apply py_unique_true. unfold normal_dict. rewrite map_fst_on_value, counts_keys. apply types_NoDup.
  - apply forallb_forall. intros kv Hin. unfold normal_dict, counts_of in Hin. rewrite map_map in Hin.
    apply in_map_iff in Hin as (t & <- & _). simpl. apply readable_small.
    pose proof (count_type_le t evs). pose proof (count_type_nonneg t evs). lia.
Qed.

Definition int_value (kv : string * pyval) : Z := match snd kv with PInt z => z | _ => 0 end.

Lemma sum_counts_zsum d : sum_counts d = zsum (map int_value d).
Proof.
  assert (H : forall acc, foldl (fun acc kv => acc + match snd kv with PInt z => z | _ => 0 end) acc d =
                          acc + zsum (map int_value d)); [|apply H].
  induction d as [|x d IH]; intros acc; simpl; [lia|]. rewrite IH. unfold int_value at 2. lia.
Qed.

Lemma zsum_perm l k : l ≡ₚ k -> zsum l = zsum k.
Proof. induction 1; simpl; lia. Qed.

Lemma check_counts_ok evs : check_counts (PDict (seen_dict py_float (counts_of evs))) (Z.of_nat (length evs)) = Ok tt.
Proof.
  unfold check_counts. rewrite (forallb_Permutation _ _ _ (seen_counts evs)).
  assert (forallb (fun kv => match snd kv with PInt z => negb (z <? 0) | _ => false end) (counts_of evs) = true) as ->.
  { apply forallb_forall. intros kv Hin. apply in_map_iff in Hin as (t & <- & _). cbn [snd].
    pose proof (count_type_nonneg t evs). lia. }
  cbn [require obind]. rewrite sum_counts_zsum, (zsum_perm _ (map int_value (counts_of evs))).
  2:{ apply Permutation_map, seen_counts. }
  unfold counts_of. rewrite map_map. unfold int_value. cbn [snd].
  rewrite zsum_counts; [by rewrite Z.eqb_refl|apply types_NoDup|].
  intros e He. apply types_elem. by apply list_elem_of_fmap_2.
Qed.

Lemma counts_eq_ok evs :
  counts_eq (foldl (fun c e => count (ty e) c) [] evs) (PDict (seen_dict py_float (counts_of evs))) = true.
Proof.
  set (c := foldl _ [] evs). assert (Hg : forall k, dict_get k c = if 0 <? count_type k evs then Some (count_type k evs) else None).
  { intros k. unfold c. rewrite counter_get. done. }
  assert (Hn : NoDup (dict_keys c)) by (apply counter_NoDup; constructor).
  assert (Hk : forall k, k ∈ dict_keys c <-> k ∈ types_of evs).
  { intros k. rewrite types_elem, <- count_type_pos. specialize (Hg k).
    destruct (0 <? count_type k evs) eqn:E; b2p.
    - split; [done|]. intros _. apply dict_get_elem in Hg. apply (list_elem_of_fmap_2 fst _ _ Hg).
    - apply dict_get_None in Hg. split; [done|lia]. }
  unfold counts_eq. apply andb_true_iff. split.
  - apply Nat.eqb_eq. rewrite (Permutation_length (seen_counts evs)).
    unfold counts_of. rewrite length_map, <- (length_map fst c). apply Permutation_length.
    apply NoDup_Permutation; [exact Hn|apply types_NoDup|exact Hk].
  - apply forallb_forall. intros [k n] Hin. apply list_elem_of_In in Hin.
    pose proof (dict_get_In _ _ _ Hn Hin) as Hd. rewrite Hg in Hd.
    destruct (0 <? count_type k evs); [|done]. injection Hd as <-.
    rewrite seen_counts_get; [by rewrite scalar_eq_int, Z.eqb_refl|].
    apply Hk. apply (list_elem_of_fmap_2 fst _ _ Hin).
Qed.

Lemma projection_of evs p : project_run evs = Ok p ->
  final_event_hash p = option_map event_hash_of (last evs) /\
  map (fun '(k, n) => (k, PInt n)) (counts_by_type p) = counts_of evs.
Proof.
  unfold project_run. destruct evs as [|e evs]; [done|]. intros H. run_inv H. simpl. split; [done|].
  unfold counts_of, types_of. rewrite map_map. reflexivity.
Qed.

Lemma last_hash_hex t r evs : verify_events t r evs = Ok tt -> evs <> [] ->
  exists h, option_map event_hash_of (last evs) = Some h /\ hex_string 64 h = true.
Proof.
  unfold verify_events. intros H Hne. apply obind_Ok in H as (acc & H & _).
  destruct evs as [|e evs _] using rev_ind; [done|]. rewrite LedgerFacts.fold_o_app in H.
  apply obind_Ok in H as ([p n] & _ & H). cbn [fold_o] in H. apply obind_Ok in H as (acc1 & H & _).
  unfold verify_event in H. run_inv H. rewrite last_snoc. exists (event_hash_of e). split; [done|]. b2p.
  match goal with Hh : sha256_hex _ = Ok ?h |- _ => apply sha256_hex_hex in Hh; congruence end.
Qed.

(** The files entry, with or without lineage *)
Definition files_of (events_bytes : bytes) (lineage_bytes : option bytes) : dict :=
  ("events.jsonl", PStr (sha256_bytes events_bytes)) ::
  match lineage_bytes with Some b => [("lineage.json", PStr (sha256_bytes b))] | None => [] end.

Lemma seen_files eb lb : seen_dict py_float (files_of eb lb) = files_of eb lb.
Proof. by destruct lb. Qed.

Lemma manifest_count_ok d key m z : dget key d = PInt z -> m <= z -> manifest_count d key m = Ok z.
Proof. intros Hd Hz. unfold manifest_count. by rewrite Hd, (proj2 (Z.ltb_ge z m) Hz). Qed.

Section Written.
Context (run : UUID) (tenant : string) (now : datetime) (evs : list ControlEvent) (p : RunProjection)
  (lineage : option LineageGraph) (eb : bytes) (lb : option bytes).
Context (Hp : project_run evs = Ok p) (Hev : Z.of_nat (length evs) < 2 ^ 63).
Context (Hlin : match lineage with
                | Some g => Z.of_nat (length (LineageGraph.nodes g)) < 2 ^ 63 /\
                            Z.of_nat (length (LineageGraph.relations g)) < 2 ^ 63
                | None => True
                end).

Definition written : dict := manifest_of run tenant now (length evs) (sha256_bytes eb) p lineage (files_of eb lb).

Lemma written_keys : NoDup (map fst written).
Proof. apply (bool_decide_unpack _). vm_compute. exact I. Qed.

Lemma written_get k v : dict_get k written = Some v -> dget k (seen_dict py_float written) = seen py_float v.
Proof. intros H. by rewrite (seen_get _ _ _ written_keys), H. Qed.

Lemma readable_written : readable py_float (normalize (PDict written)) = true.
Proof.
  rewrite normalize_dict. cbn [readable]. apply andb_true_iff. split.
  { unfold normal_dict. rewrite map_fst_on_value. apply py_unique_true, written_keys. }
  destruct (projection_of _ _ Hp) as [Hf Hc].
  assert (Hz : forall n : nat, Z.of_nat n < 2 ^ 63 -> readable_int (Z.of_nat n) = true)
    by (intros n Hn; apply readable_small; lia).
  unfold written, manifest_of, normal_dict. rewrite Hf, Hc. cbn [map forallb on_value fst snd].
  assert (Hi : forall n : nat, Z.of_nat n < 2 ^ 63 -> readable py_float (normalize (PInt (Z.of_nat n))) = true) by exact Hz.
  assert (Ho : forall o, readable py_float (normalize (dump_opt PStr o)) = true) by by intros [].
  rewrite (Hi _ Hev), (readable_counts _ Hev), Ho.
  assert (Hl : forall f : LineageGraph -> nat,
    match lineage with Some g => Z.of_nat (f g) < 2 ^ 63 | None => True end ->
    readable py_float (normalize (PInt (match lineage with Some g => Z.of_nat (f g) | None => 0 end))) = true).
  { intros f. destruct lineage; [apply Hi|reflexivity]. }
  rewrite (Hl (fun g => length (LineageGraph.nodes g))), (Hl (fun g => length (LineageGraph.relations g)))
    by (destruct lineage; [apply Hlin|done]).
  by destruct lb.
Qed.

(** [_validate_manifest] accepts it, ... *)
Lemma validate_written h : valid_uuid run -> blank tenant = false -> evs <> [] ->
  option_map event_hash_of (last evs) = Some h -> hex_string 64 h = true ->
  validate_manifest (seen_dict py_float written) eb lb = Ok (uuid_str run, Some tenant).
Proof.
  intros Hrun Ht Hne Hh Hhex. destruct (projection_of _ _ Hp) as [Hf Hc]. unfold validate_manifest.
  rewrite (written_get "schema_name" (PStr MANIFEST_SCHEMA_NAME)) by reflexivity.
  rewrite (written_get "schema_version" (PStr MANIFEST_SCHEMA_VERSION)) by reflexivity.
  rewrite (written_get "run_id" (PStr (uuid_str run))) by reflexivity.
  rewrite (written_get "tenant_id" (PStr tenant)) by reflexivity.
  rewrite (written_get "events_sha256" (PStr (sha256_bytes eb))) by reflexivity.
  rewrite (written_get "files" (PDict (files_of eb lb))) by reflexivity.
  rewrite (written_get "final_event_hash" (PStr h)) by (simpl; by rewrite Hf, Hh).
  rewrite (written_get "counts_by_type" (PDict (counts_of evs))) by (simpl; by rewrite Hc).
  rewrite !seen_PDict, seen_files. change (seen py_float (PStr ?s)) with (PStr s).
  change (bool_decide (PStr MANIFEST_SCHEMA_NAME = PStr MANIFEST_SCHEMA_NAME)) with true.
  cbn [require obind hashable]. change (mem MANIFEST_SCHEMA_VERSION SUPPORTED_MANIFEST_SCHEMA_VERSIONS) with true.
  cbn [require obind]. unfold check_run_id. rewrite parse_uuid_str by done. cbn [catch obind].
  rewrite bool_decide_true by done. cbn [require obind]. unfold check_tenant.
  change (bool_decide (PStr MANIFEST_SCHEMA_VERSION = PStr MANIFEST_SCHEMA_VERSION)) with true.
  cbn [solid_str]. rewrite Ht. cbn [negb require obind].
  assert (length evs <> 0%nat) by by destruct evs.
  rewrite (manifest_count_ok _ "event_count" 1 (Z.of_nat (length evs))); [|by apply (written_get _ (PInt _))|lia].
  rewrite (manifest_count_ok _ "lineage_node_count" 0 (match lineage with Some g => Z.of_nat (length (LineageGraph.nodes g)) | None => 0 end));
    [|by apply (written_get _ (PInt _))|destruct lineage; lia].
  rewrite (manifest_count_ok _ "lineage_relation_count" 0 (match lineage with Some g => Z.of_nat (length (LineageGraph.relations g)) | None => 0 end));
    [|by apply (written_get _ (PInt _))|destruct lineage; lia].
  cbn [obind].
  assert (set_eqb (dict_keys (files_of eb lb)) ("events.jsonl" :: (if lb is Some _ then ["lineage.json"] else [])) = true) as ->
    by by destruct lb.
  cbn [require obind]. change (dget "events.jsonl" (files_of eb lb)) with (PStr (sha256_bytes eb)).
  cbn [is_sha256]. unfold hex_string at 1. rewrite sha256_bytes_length, sha256_bytes_chars. cbn [Nat.eqb andb require obind].
  rewrite !bool_decide_true by done. cbn [andb require obind]. rewrite Hhex. cbn [require obind].
  rewrite check_counts_ok. done.
Qed.

(** ... [_validate_events] its events ... *)
Lemma validate_events_written lines : tenant <> "" -> evs <> [] ->
  Forall (fun e => readable py_float (normalize (event_dump e)) = true /\
                   ControlEventDraft.run_id (draft e) = run) evs ->
  map_o (fun e => canonical_json_bytes (event_dump e)) evs = Ok lines ->
  verify_events tenant run evs = Ok tt -> eb = join_lines lines ->
  validate_events py_float (seen_dict py_float written) (uuid_str run) eb = Ok tenant.
Proof.
  intros Ht Hne Hf Hl Hv ->. destruct (projection_of _ _ Hp) as [Hh Hc]. unfold validate_events.
  pose proof (map_o_length _ _ _ Hl) as Hlen.
  assert (Hpr : Forall (fun l => forallb printable l = true /\ l <> []) lines).
  { eapply map_o_Forall; [exact Hl| |exact Hf]. intros e b [Hr _] Hb. by eapply canonical_line. }
  rewrite splitlines_join; [|by destruct lines, evs|by eapply Forall_impl; [exact Hpr|intros l [? _]]].
  assert (negb (bool_decide (lines = [])) && forallb (fun l => negb (bool_decide (l = []))) lines = true) as ->.
  { apply andb_true_iff. split; [rewrite bool_decide_false; [done|by destruct lines, evs]|].
    apply forallb_forall. intros l Hin. rewrite List.Forall_forall in Hpr.
    rewrite bool_decide_false; [done|]. by apply Hpr. }
  cbn [require obind].
  rewrite (written_get "event_count" (PInt (Z.of_nat (length evs)))) by reflexivity.
  change (seen py_float (PInt (Z.of_nat (length evs)))) with (PInt (Z.of_nat (length evs))).
  rewrite Hlen, scalar_eq_int, Z.eqb_refl. cbn [require obind].
  unfold verify_events in Hv. apply obind_Ok in Hv as (acc & Hv & _).
  unfold enumerate. erewrite (validate_fold_ok py_float tenant run evs None 1); [|done..].
  cbn [obind]. apply LedgerFacts.verify_fold_end in Hv as ->. cbn [fst].
  rewrite (written_get "final_event_hash" (dump_opt PStr (option_map event_hash_of (last evs))))
    by (simpl; by rewrite Hh).
  rewrite seen_opt, bool_decide_true by done. cbn [require obind].
  rewrite (written_get "counts_by_type" (PDict (counts_of evs))) by (simpl; by rewrite Hc).
  rewrite seen_PDict, counts_eq_ok. cbn [require obind]. by destruct evs.
Qed.

(** ... and [_validate_lineage] its lineage. *)
Lemma validate_lineage_written (model_validate_json : bytes -> outcome LineageGraph) :
  match lineage, lb with
  | Some g, Some b => model_validate_json b = Ok g /\ LineageGraph.run_id g = run /\ LineageGraph.tenant_id g = tenant
  | None, None => True
  | _, _ => False
  end ->
  validate_lineage model_validate_json (seen_dict py_float written) (uuid_str run) tenant lb = Ok tt.
Proof.
  intros Hm. unfold validate_lineage.
  rewrite (written_get "lineage_node_count" (PInt (match lineage with Some g => Z.of_nat (length (LineageGraph.nodes g)) | None => 0 end))) by reflexivity.
  rewrite (written_get "lineage_relation_count" (PInt (match lineage with Some g => Z.of_nat (length (LineageGraph.relations g)) | None => 0 end))) by reflexivity.
  rewrite (written_get "files" (PDict (files_of eb lb))) by reflexivity. rewrite seen_PDict, seen_files.
  change (seen py_float (PInt ?z)) with (PInt z).
  destruct lineage as [g|], lb as [b|]; try done. destruct Hm as (Hm & Hrun & Ht).
  change (dget "lineage.json" (files_of eb (Some b))) with (PStr (sha256_bytes b)).
  cbn [is_sha256]. unfold hex_string. rewrite sha256_bytes_length, sha256_bytes_chars.
  change (64 =? 64)%nat with true. rewrite (bool_decide_true (PStr _ = PStr _)) by done. cbn [andb require obind].
  rewrite Hm. cbn [catch obind]. rewrite Hrun, Ht, !bool_decide_true by done. done.
Qed.
End Written.
End Manifest.
