(* ===== verification/BundleProperties.v ===== *)
(** * The properties of evidence bundles *)

From S2P Require Import Prelude Canonical CanonicalProofs Contracts Ledger Lineage Security Json JsonProofs Bundles BundleProofs BundleRoundTrip.

Module BundleProperties.
Import Bundles.Verifier Bundles.Builder BundleFacts.

(** A float of the samples: its literal, if that is spelled as a float *)
Definition w_float (s : string) : string * pyfloat :=
  if float_repr s then (s, float_of_int 0) else ("nan", NaN).

Section Properties.
Context (py_float : string -> string * pyfloat).
Context (zip_open : bytes -> outcome (list zip_member)) (zip_write : list (string * bytes) -> bytes).
Context (model_validate_json : bytes -> outcome LineageGraph).

Definition stored (m : string * bytes) : zip_member :=
  {| filename := fst m; file_size := Z.of_nat (length (snd m)); content := Ok (snd m) |}.

Definition fits (infos : list zip_member) : Prop :=
  check_sizes MAX_MEMBER_BYTES MAX_TOTAL_BYTES (ive "") (ive "") infos = Ok tt.

Lemma check_sizes_error ml mt e1 e2 e1' e2' infos :
  check_sizes ml mt e1 e2 infos = Ok tt -> check_sizes ml mt e1' e2' infos = Ok tt.
Proof.
  unfold check_sizes.
  assert (H : forall l acc total,
    fold_o (fun total m => require (negb (is_dir m || (ml <? file_size m))) e1 ;~ Ok (total + file_size m)) l acc = Ok total ->
    fold_o (fun total m => require (negb (is_dir m || (ml <? file_size m))) e1' ;~ Ok (total + file_size m)) l acc = Ok total).
  { induction l as [|m l IH]; intros acc total Hf; [done|]. cbn [fold_o] in *.
    destruct (negb _); [|done]. by apply IH. }
  intros (total & Hf & Hr)%obind_Ok. rewrite (H _ _ _ Hf). simpl. by destruct (negb _).
Qed.

Lemma fits_size infos m : fits infos -> m ∈ infos -> file_size m <= MAX_MEMBER_BYTES.
Proof.
  unfold fits, check_sizes. intros (total & Hf & _)%obind_Ok. revert Hf. generalize 0.
  induction infos as [|x infos IH]; intros acc Hf Hin; [set_solver|].
  cbn [fold_o] in Hf. destruct (is_dir x); [done|]. cbn [orb] in Hf.
  destruct (Z.ltb_spec MAX_MEMBER_BYTES (file_size x)) as [|Hx]; [done|]. cbn [negb require obind] in Hf.
  apply elem_of_cons in Hin as [->|Hin]; [done|by eapply IH].
Qed.

Lemma py_lower_digest b : py_lower (sha256_bytes b) = sha256_bytes b.
Proof.
  unfold py_lower. apply txt_inj. unfold of_txt, txt at 1. rewrite String.list_ascii_of_string_of_list_ascii.
  pose proof (sha256_bytes_chars b) as H. induction (txt (sha256_bytes b)) as [|c l IH]; [done|].
  simpl in *. apply andb_true_iff in H as [Hc Hl]. rewrite (IH Hl). f_equal.
  revert Hc. clear. all_chars c; vm_compute; congruence.
Qed.

(** What the builder writes into the archive, and how the verifier reads it back *)
Definition members (eb mb : bytes) (lb : option bytes) : list (string * bytes) :=
  ("events.jsonl", eb) :: match lb with Some b => [("lineage.json", b)] | None => [] end ++ [("manifest.json", mb)].

Lemma read_members_ok eb mb lb : fits (map stored (members eb mb lb)) ->
  read_members (map stored (members eb mb lb)) = Ok (mb, eb, lb).
Proof.
  intros Hf. unfold read_members. eapply check_sizes_error in Hf.
  assert (py_unique (map filename (map stored (members eb mb lb))) = true) as -> by by destruct lb.
  destruct lb as [b|]; cbn [require obind]; rewrite Hf; reflexivity.
Qed.

(** The graph a bundle may carry *)
Definition fitting_lineage (run : UUID) (tenant : string) (lineage : option LineageGraph) : Prop :=
  match lineage with
  | Some g => LineageGraph.run_id g = run /\ LineageGraph.tenant_id g = tenant /\
      exists b, canonical_json_bytes (graph_dump g) = Ok b /\ model_validate_json b = Ok g
  | None => True
  end.

Lemma canonical_finite v : all_finite (normalize v) = true -> exists b, canonical_json_bytes v = Ok b.
Proof. intros H. unfold canonical_json_bytes, canonical_json_text. rewrite H. by eexists. Qed.

Lemma lines_ok evs : Forall (fun e => readable py_float (normalize (event_dump e)) = true) evs ->
  exists lines, map_o (fun e => canonical_json_bytes (event_dump e)) evs = Ok lines.
Proof.
  induction 1 as [|e evs He _ (lines & IH)]; [by exists []|].
  destruct (loads_canonical _ _ He) as (b & Hb & _). exists (b :: lines). cbn [map_o]. by rewrite Hb, IH.
Qed.

Lemma project_ok run evs : evs <> [] -> Forall (fun e => ControlEventDraft.run_id (draft e) = run) evs ->
  exists p, project_run evs = Ok p.
Proof.
  intros Hne Hf. destruct evs as [|e evs]; [done|]. unfold project_run.
  assert (forallb (fun x => ControlEventDraft.run_id (draft x) =? ControlEventDraft.run_id (draft e)) (e :: evs) = true) as ->.
  { apply forallb_forall. intros x Hx. rewrite List.Forall_forall in Hf. rewrite (Hf _ Hx), (Hf e) by by left.
    apply Z.eqb_refl. }
  by eexists.
Qed.

Lemma written_finite run tenant now evs p lineage eb lb :
  project_run evs = Ok p -> all_finite (normalize (PDict (written run tenant now evs p lineage eb lb))) = true.
Proof.
  intros Hp. destruct (projection_of _ _ Hp) as [Hf Hc]. rewrite normalize_dict.
  unfold written, manifest_of, normal_dict. rewrite Hf, Hc. cbn [all_finite map forallb on_value fst snd].
  assert (Ho : forall o, all_finite (normalize (dump_opt PStr o)) = true) by by intros [].
  assert (Hn : all_finite (normalize (PDict (counts_of evs))) = true).
  { rewrite normalize_dict. simpl. apply forallb_forall. intros kv Hin. unfold normal_dict, counts_of in Hin.
    rewrite map_map in Hin. by apply in_map_iff in Hin as (t & <- & _). }
  rewrite Ho, Hn. by destruct lb.
Qed.

(** [build] on a ledger whose run verifies *)
Lemma build_ok run tenant lineage lv ll now dir p lines lb mb :
  let evs := list_run_events tenant run ll in
  let eb := join_lines lines in
  verify_run tenant run lv = Ok tt -> evs <> [] ->
  Forall (fun e => ControlEventDraft.tenant_id (draft e) = tenant) evs -> project_run evs = Ok p ->
  map_o (fun e => canonical_json_bytes (event_dump e)) evs = Ok lines ->
  match lineage with Some g => LineageGraph.run_id g = run /\ LineageGraph.tenant_id g = tenant | None => True end ->
  optional (fun g => canonical_json_bytes (graph_dump g)) lineage = Ok lb ->
  canonical_json_bytes (PDict (written run tenant now evs p lineage eb lb)) = Ok mb ->
  build zip_write run tenant lineage lv ll now dir =
  (Ok (zip_write (members eb mb lb)),
   {| events_file := Some eb; manifest_file := Some mb; archive_file := Some (zip_write (members eb mb lb)) |}).
Proof.
  intros evs eb Hv Hne Ht Hp Hl Hlin Hlb Hmb. unfold build, bind, lift, guard, modify, ret.
  fold evs. rewrite Hv, bool_decide_false by done. cbn [negb require].
  assert (forallb (fun e => bool_decide (ControlEventDraft.tenant_id (draft e) = tenant)) evs = true) as ->.
  { apply forallb_forall. intros x Hx. rewrite List.Forall_forall in Ht. apply bool_decide_eq_true. auto. }
  cbn [require]. rewrite Hp. fold evs in Hl. rewrite Hl. fold eb.
  assert (match lineage with
    | Some g => (LineageGraph.run_id g =? run) && bool_decide (LineageGraph.tenant_id g = tenant)
    | None => true end = true) as ->.
  { destruct lineage as [g|]; [|done]. destruct Hlin as [-> ->]. by rewrite Z.eqb_refl, bool_decide_true. }
  cbn [require]. rewrite Hlb. unfold written in Hmb. fold (files_of eb lb). rewrite Hmb. reflexivity.
Qed.

(** What [verify] does with an archive that holds these members *)
Lemma verify_members archive eb mb lb m run t t' :
  zip_open archive = Ok (map stored (members eb mb lb)) -> fits (map stored (members eb mb lb)) ->
  load_object py_float mb "evidence bundle manifest is not valid JSON" "evidence bundle manifest must be an object" = Ok m ->
  validate_manifest m eb lb = Ok (run, Some t) -> validate_events py_float m run eb = Ok t' -> t' = t ->
  validate_lineage model_validate_json m run t' lb = Ok tt ->
  verify py_float zip_open model_validate_json archive (Some (evidence_bundle_sha256 archive)) = Ok m.
Proof.
  intros Hz Hf Hm Hv He -> Hl. unfold verify, evidence_bundle_sha256 in *.
  rewrite py_lower_digest, bool_decide_true by done. cbn [require obind]. unfold read_archive.
  rewrite Hz. cbn [obind]. rewrite read_members_ok by done. cbn [catch obind]. rewrite Hm. cbn [obind].
  rewrite Hv. cbn [obind]. rewrite He. cbn [obind]. rewrite bool_decide_true by done. cbn [require obind].
  by rewrite Hl.
Qed.

Lemma canonical_array k l d b : canonical_json_bytes (PDict d) = Ok b -> (k, PList l) ∈ d -> (length l <= length b)%nat.
Proof.
  unfold canonical_json_bytes, canonical_json_text. rewrite normalize_dict. set (j := JObj (normal_dict d)).
  destruct (all_finite j); [|done]. intros [= <-] Hin. rewrite <- (length_map normalize).
  apply (encoded_array_length k). unfold normal_dict.
  apply (list_elem_of_fmap_2' (on_value normalize) _ _ _ Hin). done.
Qed.

(** Sizes that fit bound the counts the manifest writes. *)
Lemma fitting_counts eb mb lb evs lines lineage :
  fits (map stored (members eb mb lb)) ->
  map_o (fun e => canonical_json_bytes (event_dump e)) evs = Ok lines -> eb = join_lines lines ->
  optional (fun g => canonical_json_bytes (graph_dump g)) lineage = Ok lb ->
  Z.of_nat (length evs) < 2 ^ 63 /\
  match lineage with
  | Some g => Z.of_nat (length (LineageGraph.nodes g)) < 2 ^ 63 /\
              Z.of_nat (length (LineageGraph.relations g)) < 2 ^ 63
  | None => True
  end.
Proof.
  intros Hf Hl -> Hlb. assert (HM : MAX_MEMBER_BYTES < 2 ^ 63) by reflexivity.
  assert (Hs : forall m, m ∈ members (join_lines lines) mb lb -> Z.of_nat (length (snd m)) < 2 ^ 63).
  { intros m Hm. eapply Z.le_lt_trans; [|exact HM]. apply (fits_size _ (stored m) Hf). by apply list_elem_of_fmap_2. }
  split.
  - apply map_o_length in Hl. rewrite <- Hl. eapply Z.le_lt_trans; [|apply (Hs ("events.jsonl", join_lines lines)); by left].
    apply inj_le, join_lines_length.
  - destruct lineage as [g|]; [|done]. cbn [optional] in Hlb. apply obind_Ok in Hlb as (b & Hb & Hlb). injection Hlb as <-.
    assert (Hlt : Z.of_nat (length b) < 2 ^ 63).
    { apply (Hs ("lineage.json", b)). unfold members. right. left. }
    split; (eapply Z.le_lt_trans; [|exact Hlt]); apply inj_le.
    + rewrite <- (length_map node_dump). apply (canonical_array "nodes" _ _ _ Hb). set_solver.
    + rewrite <- (length_map relation_dump). apply (canonical_array "relations" _ _ _ Hb). set_solver.
Qed.

(** C7: what the builder writes, the verifier accepts.  Take a run with events of a
    ledger that any appends produced, whose events are readable values (distinct
    keys, finite floats spelled as Python spells them, integers [int] reads), and a
    lineage graph of the run or none; events may be appended while the builder
    waits.  Then [build] returns, and if the archive it wrote keeps within the size
    limits, the verifier accepts it under its own digest and returns a manifest that
    names the run, the tenant, the number of events and the last event's hash. *)
Theorem bundle_round_trip run tenant lineage lv ll now dir :
  let evs := list_run_events tenant run ll in
  (forall ms, zip_open (zip_write ms) = Ok (map stored ms)) ->
  rtc step Ledger.empty lv -> rtc step lv ll -> evs <> [] -> valid_uuid run -> blank tenant = false ->
  Forall (fun e => readable py_float (normalize (event_dump e)) = true) evs ->
  fitting_lineage run tenant lineage ->
  exists archive dir',
    build zip_write run tenant lineage lv ll now dir = (Ok archive, dir') /\ archive_file dir' = Some archive /\
    ((forall infos, zip_open archive = Ok infos -> fits infos) ->
     exists m, verify py_float zip_open model_validate_json archive (Some (evidence_bundle_sha256 archive)) = Ok m /\
       dget "run_id" m = PStr (uuid_str run) /\ dget "tenant_id" m = PStr tenant /\
       dget "event_count" m = PInt (Z.of_nat (length evs)) /\
       dget "final_event_hash" m = dump_opt PStr (option_map event_hash_of (last evs))).
Proof.
  intros evs Hzip Hlv Hll Hne Hrun Ht Hread Hlin.
  destruct (LedgerFacts.ledger_reachable_ok _ Hlv) as [Hcv _].
  destruct (LedgerFacts.ledger_reachable_ok ll ltac:(by etrans)) as [Hcl _].
  destruct (Hcv tenant run) as [Hver _]. destruct (Hcl tenant run) as [Hvl Hin].
  change (events_of (tenant, run) ll) with evs in Hin. change (verify_events tenant run evs = Ok tt) in Hvl.
  assert (Hids : Forall (fun e => ControlEventDraft.run_id (draft e) = run) evs)
    by (apply Forall_forall; intros e He; by apply Hin).
  destruct (project_ok run evs Hne Hids) as [p Hp]. destruct (lines_ok _ Hread) as [lines Hl].
  set (eb := join_lines lines).
  assert (exists lb, optional (fun g => canonical_json_bytes (graph_dump g)) lineage = Ok lb) as [lb Hlb].
  { destruct lineage as [g|]; [|by exists None]. destruct Hlin as (_ & _ & b & Hb & _). exists (Some b). simpl. by rewrite Hb. }
  destruct (canonical_finite _ (written_finite run tenant now evs p lineage eb lb Hp)) as [mb Hmb].
  exists (zip_write (members eb mb lb)).
  eexists {| archive_file := Some (zip_write (members eb mb lb)) |}. split; [|split; [reflexivity|]].
  { apply (build_ok run tenant lineage lv ll now dir p lines lb mb); try done.
    - apply Forall_forall. intros e He. by apply Hin.
    - destruct lineage as [g|]; [|done]. by destruct Hlin as (? & ? & _). }
  intros Hfit. specialize (Hfit _ (Hzip _)).
  destruct (fitting_counts _ _ _ _ _ _ Hfit Hl eq_refl Hlb) as [Hev Hcount].
  destruct (last_hash_hex _ _ _ Hvl Hne) as (h & Hh & Hhex).
  exists (seen_dict py_float (written run tenant now evs p lineage eb lb)). split.
  - eapply verify_members; [apply Hzip|done| | | |reflexivity|].
    + apply load_object_seen; [by apply readable_written|done].
    + by eapply validate_written.
    + eapply validate_events_written; try done; [by intros ->|].
      rewrite Forall_forall in *. auto.
    + apply validate_lineage_written; [done|]. destruct lineage as [g|]; [|by injection Hlb as <-].
      destruct Hlin as (? & ? & b & Hb & Hm). cbn [optional] in Hlb. rewrite Hb in Hlb. by injection Hlb as <-.
  - destruct (projection_of _ _ Hp) as [Hf _].
    split_and!; (erewrite written_get; [|reflexivity]); [reflexivity..|]. by rewrite Hf, seen_opt.
Qed.

(** C6: an evidence archive is tamper evident.  Whatever two archives are made of:
    if the verifier accepts both and their manifests name the same final event hash,
    then they carry equally many events, and the events agree one by one in
    everything the hash covers, up to the order of keys; or a SHA-256 collision can
    be exhibited.  ([float_law]: the [repr] of a finite float is spelled as a float.) *)
Theorem bundle_tamper_evident archive1 archive2 expected1 expected2 m1 m2 :
  float_law py_float ->
  verify py_float zip_open model_validate_json archive1 expected1 = Ok m1 ->
  verify py_float zip_open model_validate_json archive2 expected2 = Ok m2 ->
  dget "final_event_hash" m1 = dget "final_event_hash" m2 ->
  exists evs1 evs2,
    archive_events py_float zip_open archive1 = Ok (map PDict evs1) /\
    archive_events py_float zip_open archive2 = Ok (map PDict evs2) /\
    (Forall2 same_event evs1 evs2 \/ collision).
Proof.
  intros Hl V1 V2 E. apply verify_chained in V1 as (evs1 & h1 & E1 & C1 & D1).
  apply verify_chained in V2 as (evs2 & h2 & E2 & C2 & D2). exists evs1, evs2. do 2 (split; [done|]).
  assert (h1 = h2) as -> by (destruct h1, h2; simpl in *; congruence).
  by eapply chained_inj.
Qed.
End Properties.

(** ** Instances: a container that lists its members in JSON *)
Definition w_member (m : string * bytes) : json := JArr [JStr (fst m); JStr (of_txt (snd m))].
Definition w_zip_write (ms : list (string * bytes)) : bytes := utf8 (encode (JArr (map w_member ms))).

Definition w_bad : exn := OtherError "BadZipFile" "File is not a zip file".
Definition w_info (v : pyval) : outcome zip_member :=
  match v with PList [PStr n; PStr c] => Ok (stored (n, txt c)) | _ => Raise w_bad end.
Definition w_zip_open (b : bytes) : outcome (list zip_member) :=
  match loads w_float b with Ok (PList l) => map_o w_info l | _ => Raise w_bad end.

Lemma w_zip_law ms : w_zip_open (w_zip_write ms) = Ok (map stored ms).
Proof.
  unfold w_zip_open, w_zip_write. rewrite loads_encode.
  2:{ simpl. apply forallb_forall. by intros x (m & <- & _)%in_map_iff. }
  cbn [canon revive]. rewrite !map_map. induction ms as [|[n c] ms IH]; [done|].
  cbn [map map_o]. rewrite IH. cbn [w_member fst snd canon map revive w_info obind].
  unfold txt, of_txt. by rewrite String.list_ascii_of_string_of_list_ascii.
Qed.

Lemma w_float_law : float_law w_float.
Proof. intros s. unfold w_float. by destruct (float_repr s) eqn:E. Qed.

Definition w_node : LineageNode := {|
  LineageNode.node_id := 5; LineageNode.run_id := 12; LineageNode.tenant_id := "acme";
  LineageNode.digest := sha256_str "tree"; LineageNode.recorded_at := 0; LineageNode.external_uri := None;
  LineageNode.evidence := []; LineageNode.attributes := [("pinned", PBool true)];
  LineageNode.detail := SourceTreeNode (Some "repo") None |}.
Definition w_graph : LineageGraph := {|
  LineageGraph.run_id := 12; LineageGraph.tenant_id := "acme"; LineageGraph.nodes := [w_node];
  LineageGraph.relations := [] |}.
Definition w_model (b : bytes) : outcome LineageGraph :=
  if bool_decide (canonical_json_bytes (graph_dump w_graph) = Ok b) then Ok w_graph
  else Raise (ValidationError "lineage").

Definition w_ledger : ledger :=
  snd (append (LedgerProperties.w_draft 2) (snd (append (LedgerProperties.w_draft 1) Ledger.empty))).
Definition w_dir : directory := {| events_file := None; manifest_file := None; archive_file := None |}.
Definition w_result {A} (a : A) (o : outcome A) : A := match o with Ok x => x | Raise _ => a end.
Definition w_archive : bytes :=
  w_result [] (fst (build w_zip_write 12 "acme" (Some w_graph) w_ledger w_ledger 0 w_dir)).
Definition w_manifest : dict := w_result [] (verify w_float w_zip_open w_model w_archive None).

Lemma w_ledger_reachable : rtc step Ledger.empty w_ledger.
Proof.
  unfold w_ledger. eapply rtc_l; [by eapply (step_append (LedgerProperties.w_draft 1)), surjective_pairing|].
  eapply rtc_l; [by eapply (step_append (LedgerProperties.w_draft 2)), surjective_pairing|]. apply rtc_refl.
Qed.

Lemma w_fits : match w_zip_open w_archive with
  | Ok infos => match check_sizes MAX_MEMBER_BYTES MAX_TOTAL_BYTES (ive "") (ive "") infos with
                | Ok _ => true | Raise _ => false end
  | Raise _ => false end = true.
Proof. vm_compute. reflexivity. Qed.

Lemma w_fitting : fitting_lineage w_model 12 "acme" (Some w_graph).
Proof.
  split; [reflexivity|split; [reflexivity|]].
  destruct (canonical_finite (graph_dump w_graph) ltac:(vm_compute; reflexivity)) as (b & Hb).
  exists b. split; [exact Hb|]. unfold w_model. by rewrite bool_decide_true.
Qed.

Lemma w_readable :
  Forall (fun e => readable w_float (normalize (event_dump e)) = true) (list_run_events "acme" 12 w_ledger).
Proof.
  apply Forall_forallb with (p := fun e => readable w_float (normalize (event_dump e))).
  vm_compute. reflexivity.
Qed.

Lemma w_events : list_run_events "acme" 12 w_ledger <> [].
Proof. intros H. apply (f_equal (@length _)) in H. vm_compute in H. discriminate. Qed.

Lemma bundle_round_trip_witness : exists m,
  verify w_float w_zip_open w_model w_archive (Some (evidence_bundle_sha256 w_archive)) = Ok m /\
  dget "event_count" m = PInt 2.
Proof.
  destruct (bundle_round_trip w_float w_zip_open w_zip_write w_model 12 "acme" (Some w_graph)
              w_ledger w_ledger 0 w_dir w_zip_law w_ledger_reachable (rtc_refl _ _))
    as (archive & dir' & Hb & _ & Hv).
  - exact w_events.
  - split; [done|reflexivity].
  - vm_compute. reflexivity.
  - exact w_readable.
  - exact w_fitting.
  - assert (archive = w_archive) as -> by (unfold w_archive; by rewrite Hb).
    destruct Hv as (m & Hm & _ & _ & Hc & _).
    + intros infos Hi. pose proof w_fits as Hw. rewrite Hi in Hw. unfold fits.
      destruct (check_sizes _ _ _ _ infos) as [[]|]; [done|discriminate].
    + exists m. split; [exact Hm|]. rewrite Hc. vm_compute. reflexivity.
Defined.

Lemma bundle_tamper_evident_witness : exists evs1 evs2,
  archive_events w_float w_zip_open w_archive = Ok (map PDict evs1) /\
  archive_events w_float w_zip_open w_archive = Ok (map PDict evs2) /\
  (Forall2 same_event evs1 evs2 \/ collision).
Proof.
  apply (bundle_tamper_evident w_float w_zip_open w_model w_archive w_archive None None w_manifest w_manifest);
    [exact w_float_law|vm_compute; reflexivity|vm_compute; reflexivity|reflexivity].
Defined.

(** ** Archives the verifier refuses with another exception than its own *)
Definition w_line (value : string) : bytes :=
  doc ("{'sequence': 1, 'run_id': '" +:+ uuid_str 12 +:+ "', 'tenant_id': 'acme', 'event_type': 'x', " +:+
       "'payload': " +:+ value +:+ ", 'integrity': {'event_hash': '" +:+ sha256_str "x" +:+ "'}}").

Example modified_event_refused :
  validate_event w_float (uuid_str 12) (None, None, []) (1, w_line "0") =
  Raise (ive "evidence bundle contains a modified event").
Proof. vm_compute. reflexivity. Qed.

Example nan_event_not_an_integrity_error :
  validate_event w_float (uuid_str 12) (None, None, []) (1, w_line "NaN") =
  Raise (ValueError "Out of range float values are not JSON compliant").
Proof. vm_compute. reflexivity. Qed.

Example unhashable_schema_version :
  validate_manifest [("schema_name", PStr MANIFEST_SCHEMA_NAME); ("schema_version", PList [])] [] None =
  Raise (TypeError "unhashable type").
Proof. vm_compute. reflexivity. Qed.
End BundleProperties.
